(* ===== verification/_CoqProject ===== *)
-Q . S2P
Prelude.v
ObjC.v
Characters.v
Strings.v
ReferenceRuntime.v
Classes.v
Observers.v
World.v
Reference.v
Controllers.v
EmbeddedObject.v
ManagedObject.v
Frames.v
ObjectTheorems.v
ObjectReferences.v
Prototypes.v
Attachments.v
EmbeddedStorage.v
PlistDiff.v
Permutations.v
Collections.v
Database.v
ChangeFeed.v
PackageFiles.v
FileManager.v
Packages.v
Document.v
Opening.v
Shoebox.v
Contributors.v
Conflicts.v
TreeItems.v
Sections.v
Import.v
Pasteboard.v
Loading.v
DeepSaving.v
Snapshots.v
Bindings.v
ContributorsCache.v
Errors.v
Declarations.v
HeadersModel.v
HeadersControllers.v
HeadersPackages.v
HeadersCategories.v
HeadersExtensions.v
HeadersBindings.v
HeadersTests.v
Interfaces.v
PropertyAttributes.v
Mixins.v
Framework.v
Views.v
XMLNodes.v
XMLFilter.v
XMLText.v
XMLClasses.v
