(* ===== verification/Prelude.v ===== *)
(** * Feather: a verification library

    Feather is the model layer of an application that keeps its documents in
    CouchbaseLite databases: managed objects backed by documents, embedded objects
    stored inside them, controllers that find and announce the objects of a class,
    packages that hold the databases, the controllers and the notification
    center together, and documents that keep a package in a file.  This library models that layer - the Objective-C code of
    src/Feather/Sources, and the naming conventions of src/Feather written in Swift -,
    the XML extensions of src/FeatherAppKitExtensions, and the headers of all of it, and
    proves what it promises its clients.

    ** How the program fits together

    A package ([MPDatabasePackageController]) has controllers
    ([MPManagedObjectsController] subclasses) in its properties, one per model class,
    found by following names: the class [MPSection] is controlled by
    [MPSectionsController], which is the package's [sectionsController].  A controller
    registers the objects it loads or creates under their document identifiers.  A
    managed object ([MPManagedObject]) tells its controller when it was saved, changed,
    loaded or deleted; the controller posts the two notifications of the change on the
    package's notification center.  An embedded object ([MPEmbeddedObject]) lives in a
    property of a managed object or of another embedded object; writing to it marks
    everything above it as changed, and decoding it gives one object per identifier.
    A database ([MPDatabase]) validates what is stored, replicates, and tells its
    package of changes that come from outside, which end up as the same
    notifications.  A document with several current revisions is settled by its
    controller when it is loaded.

    A document ([MPDatabasePackageBackedDocument]) opens a package from a working copy of
    its file and saves it from there.  Sections present objects in a tree: a section that
    wraps an object is kept under its identifier in a pool of the package, and a root
    section caches its children until a change is announced.

    The headers declare the classes with their superclasses, and what they answer.
    The runtime is given this as a class table and as attribute strings of properties,
    and the program reads it back: the controller of a model class is a class and a
    property found by name, the cached values of a class are properties found by
    name and attributes.

    The XML extensions walk trees of [NSXMLNode]s by their own stack or by [nextNode],
    and write new trees, attribute values and text from what they see.

    ** Files

    - Prelude.v (this file): computations with state that can raise ([M]), loops,
      [BOOL] results with an error, [steps] (what a computation can change, whatever
      its outcome) with its automation, lists and machine integers.
    - ObjC.v: Foundation and the runtime as far as they are used - property values
      with [isEqual:], strings, the class table - and NSString+MPExtensions.swift,
      String+MPExtensions.swift.
    - Classes.v: NSObject+MPExtensions.m, the class-level part of
      MPManagedObjectsController.m and MPDatabasePackageController.m, and the names of
      notifications.  Observers.v: the notification center and its observers, with the
      blocks they give (NSNotificationCenter+MPManagedObjectExtensions.m).
    - World.v: the shared state ([World]: the heap of objects, the controllers and
      packages, the log of what was posted) and the interface [CBL] of CouchbaseLite's
      models and documents with its laws [CBLLaws].
    - Controllers.v: controller lookup and its memo, registration, lookup by
      identifier, announcements (MPDatabasePackageController.m,
      MPManagedObjectsController.m).
    - EmbeddedObject.v, EmbeddedStorage.v: MPEmbeddedObject.m - caches, construction,
      typed getters and setters, propagation of writes; then storage and references.
    - ManagedObject.v: MPManagedObject.m.  Frames.v, ObjectTheorems.v: what its
      operations leave alone, and what they guarantee.  ObjectReferences.v: properties
      that refer to one object or to many, prototypes, sharing with an error, effective
      properties; Attachments.v: attachments, over [CBLAttachments] with its laws (all of
      MPManagedObject.m).  Prototypes.v: new objects copied from one
      (MPManagedObjectsController.m), over [CBLDocuments] with its laws.
    - ChangeFeed.v: -databaseDidChange: of MPDatabase.m through the package to the
      observers, and the registry of open packages.
    - Database.v: validation, filters and replications of MPDatabase.m.
    - PackageFiles.v: temporary copies, saving elsewhere and the listener's port of
      MPDatabasePackageController.m, over a model of the file system.
    - FileManager.v: temporary URLs and permission masks (NSFileManager+MPExtensions.m),
      over the same files.
    - Packages.v: the databases of a package's controllers - replicating, compacting,
      checkpointing and closing them, registration of controllers and views
      (MPDatabasePackageController.m).  Document.v: MPDatabasePackageBackedDocument.m, over
      the files of PackageFiles.v.
    - Opening.v: opening the databases of a package (the loop of
      -initWithPath:readOnly:delegate:error: of MPDatabasePackageController.m, bootstrap
      data, resets, filters).  Shoebox.v: the shared package
      (MPShoeboxPackageController.m).
    - Import.v: JSON into objects; Loading.v: bundled objects and the bundled database,
      with the run loop that waits for it (MPManagedObjectsController.m).
    - Views.v: the views, filters and queries of MPManagedObjectsController.m and
      MPContributorsController.m, over the interface [CBLViews] of CouchbaseLite's
      indexes with its laws [CBLViewsLaws].
    - DeepSaving.v: MPDeepSaver.m.  Snapshots.v: MPSnapshot.m, MPSnapshotsController.m and
      their part of MPDatabasePackageController.m.
    - Conflicts.v: conflicting revisions (MPManagedObjectsController.m,
      -didLoadFromDocument of MPManagedObject.m).
    - Contributors.v: MPContributorsController.m and MPContributor.m.
      ContributorsCache.v: the cached contributors, and the identity that says who is me.
    - TreeItems.v: MPTreeItemUtility.m.  Sections.v: MPRootSection.m,
      MPObjectWrappingSection.m, TreeItemPool.swift, and the root sections of a package.
    - Pasteboard.v: objects on the pasteboard (MPManagedObject.m, MPEmbeddedObject.m).
    - PlistDiff.v: the differences of two property lists (NSObject+MPExtensions.m).
    - Collections.v, Permutations.v: the categories on arrays, sets, index sets and
      dictionaries (Categories/NSArray+MPExtensions.m and its neighbours).
    - Characters.v, Strings.v: NSString+MPExtensions.m, on characters of one byte.  Errors.v: NSError+MPExtensions.m, MPException.m and
      NSArray+MPManagedObjectExtensions.m.
    - Declarations.v: interfaces, categories and protocols as data, with what they
      say of a class.  HeadersModel.v, HeadersControllers.v, HeadersPackages.v,
      HeadersCategories.v, HeadersExtensions.v, HeadersBindings.v, HeadersTests.v: the
      headers, one definition per @interface or @protocol (the longest in parts,
      [_declarations_1] and on).
    - Interfaces.v: which declaration a message finds, subtyping, and the check that
      subclasses keep the types they inherit.  PropertyAttributes.v: attribute strings
      and what NSObject+MPExtensions.m reads out of them.  Mixins.v:
      MPManagedObject+Mixin.m, which makes accessors from them.  Framework.v: the classes
      of the framework in an application, by the definitions of Classes.v and
      Controllers.v.
    - Bindings.v: the bindings generator - declarations (MPObjectiveCTokens.m), indented
      strings (MPIndentedMutableString.m), the translation to C#
      (MPObjectiveCToCSharpTranslator.m).
    - XMLNodes.v (walks, searches, ancestors), XMLFilter.v (filtering), XMLClasses.v
      (attributes, the class attribute), XMLText.v (escaping): NSXMLElement+MPExtensions.m.
    - ReferenceRuntime.v, Reference.v: a class table and an in-memory store that
      satisfy every law assumed; the witnesses of the theorems run on them.

    A definition keeps the name of the method it models, shortened where two classes
    share one ([MO_], [EO_], [MOC_], [PKG_], [DB_] for the receiver's class), and is
    preceded by the file, lines and selector it was translated from.

    ** What the theorems show

    - Life of an object: creation always succeeds and registers the object under its
      new identifier; saving and deleting return the database's verdict and announce
      exactly the one change there was; a deleted object stays identifiable and ignores
      writes; type and identifier never change once set; sharing cannot be undone;
      timestamps; reading back what was written (ObjectTheorems.v).
    - References: objects set as the value of a property are read back, and later those
      of them that are still there, in their order; an effective value is that of the nearest
      object above that has one (ObjectReferences.v).  Attaching a file replaces what differs
      and nothing else (Attachments.v).  An object copied to the
      pasteboard is found again when it is pasted, and gets the values it had
      (Pasteboard.v).  A copy of a prototype has the prototype's values and an
      identifier of its own (Prototypes.v).
    - Queries: every controller of a database finds the objects of its own classes,
      whatever other controllers have set up, unless another class bundles objects under the
      same name; contributors are found by role, name and identifier (Views.v).
    - Changes from outside reach the observers of the object's class, once; references
      between packages resolve through the registry (ChangeFeed.v).  Whatever has been
      registered, removed and posted, an announced change calls every observer of the
      class, in order, once per registration, and ends in a method or block given for that
      change (Observers.v).
    - Embedded objects: writes reach every object above; one object per identifier;
      storage loses nothing but what a date has below the millisecond (EmbeddedObject.v,
      EmbeddedStorage.v).
    - Finding controllers: the memo is invisible, a controller manages exactly the
      classes below its own, notification names come from the nearest controller,
      common ancestors are the most derived ones (Classes.v, Controllers.v).
    - Databases: what validation lets through; pushes and pulls held on to
      are the running ones (Database.v).  Conflicts end with one revision, and the same
      one wherever they are settled (Conflicts.v).
    - Files: a temporary copy holds the package without its snapshots, a copy
      elsewhere all of it; the search for a port ends (PackageFiles.v); so does the search
      for a temporary URL, which is free (FileManager.v).
    - Packages and documents: each database of a package is replicated once, and a package
      that is closed is closed once, when no transaction is open (Packages.v); a document
      saved elsewhere has what the file it was read from has, no history of a document
      touches a file that is not its own, and a closed one has no working copy
      (Document.v).
    - Opening a package loses nothing but what is damaged, and opens all the rest with
      the filters its pushes ask for (Opening.v); there is one shared package at
      a time, and the shared database of a folder keeps its identifier for good (Shoebox.v).
    - Getting objects in and out: what a JSON import makes of an array (Import.v);
      loading the bundled database ends in every fair run, and happens once (Loading.v); a
      deep save ends, and among managed objects reaches every changed one below by way of changed
      ones (DeepSaving.v); snapshots of objects cannot be taken or restored (Snapshots.v, lemmas
      that are not among the properties).
    - Contributors: places, moves, neighbours (Contributors.v); the cached contributors
      catch up with the database in any order of events, and one contributor at most is me
      (ContributorsCache.v); the items below a tree item (TreeItems.v); one section per
      qualified identifier, and root sections that catch up with the database in every
      interleaving (Sections.v).
    - Property lists: no difference is reported exactly when the two are equal but for the
      excluded keys, and the comparison ends (PlistDiff.v).
    - Collections: partitions, toggling, merging, searches, dictionary validation;
      shuffling only reorders and reaches every order; the enumeration of
      permutations is complete, ordered and stays in bounds.

    - Declarations: overriding declarations keep the types they inherit (Interfaces.v);
      read-only properties are told from writable ones but for the cases named
      (PropertyAttributes.v); the properties of a mixed-in protocol get their accessors,
      and no object property reaches the document (Mixins.v); every model class of the
      framework finds its controller in every application (Framework.v).
    - Strings: what is removed, trimmed and made a slug of (Strings.v); enumerations of
      the bindings read back (Bindings.v).
    - XML: the walks see the descendants in document order, each once, and no further
      than asked; searches agree with searches of that order; filtering keeps the order
      always, and the structure and the joined texts below a receiver without attributes when no
      element is collapsed; ancestors found are the closest; the class attribute is a set;
      escaping a text without entities is undone by decoding.

    ** What is assumed

    Code that is not the program's own is a parameter with laws: CouchbaseLite's
    models, documents, views, revision tree and attachments ([CBL], [CBLSavingLaws], [CBLViews], [CBLRevisions],
    [CBLAttachments], [CBLDocuments]), JSON, Base64 and dates
    ([CBLJSON]), opening a database file ([DatabaseNamedLaws]), opening the package of a document
    ([OpeningLaws]: it writes inside of its folder only), the order a set is enumerated in
    ([Enumeration]: each element once), the class table
    ([Runtime]), identifiers ([Env]), the mixin library ([MixinLaws]), sorting by a
    comparator, the file manager and the listener's socket.  Every class of laws has an instance.  Numbers held in
    properties are integers; machine integers are written out where their width
    matters (ports, indexes, priorities, shuffling).  Characters are one byte wide.  The
    encodings of scalar types and the ownership the compiler notes of a property are
    parameters, and so are the accessors of the properties a deep save looks into, which are
    those of the application's classes.

    ** Fuel

    Climbing superclasses takes at most the number of classes of the table, which is
    well-formed when every chain is that short ([runtime_wf]); the chain above an
    embedded object is at most the number of embedded objects long; asking the shared
    package for an object relays once; the tree search visits each item once; the
    enumeration of permutations makes as many rounds as there are orders; the port
    search thirty; the search for a temporary URL takes no more rounds than there are
    files; a document is closed in sixty tries and the application's end in twenty, as the
    code has it; the search for an effective value takes as many steps as there are objects
    above, and has no end on a circle; a deep save nests no deeper than the number of changed managed
    objects times the depth of embedded ones; a walk of
    an XML tree takes no more turns than the tree has nodes,
    and filtering one more - it never ends on a comment, which is a result of its own.
    Where a computation can run out of fuel a theorem shows that it
    does not, or the case is kept apart as a result of its own.

    ** What is not modelled

    Blocks given to [mp_dispatch_sync] run where they stand: the program reaches its
    objects from one queue, and no theorem speaks of several.  Not modelled because
    they are calls into AppKit, scripting or CloudKit: the methods of
    the view, image and window categories, of Scripting, Services and the analyzer of the
    bindings generator, of which the interfaces only are; nor digests, ciphers and dates
    relative to now, which are calls into the system.  Of the headers: typedefs, constants,
    macros, most enumerations, and what a debug build alone declares.  Of the XML
    extensions: parsing, whose documents the library hands out, and what depends on
    its implicit white space (the lengths and offsets of text, splitting, deleting).

    What else of the model layer is left out: the initialisers of packages and controllers
    as a whole (what they call is modelled, one by one), net services and the HTTP
    listener apart from its port, script accessors, full-text
    tokens (which need Unicode folding), JSON output,
    metadata documents and the queries of MPDatabase.m for identifiers, avatars, and
    reverting a document, which is up to NSDocument.  The CloudKit service is written in
    Swift on top of an asynchronous system API. *)
From stdpp Require Import base tactics strings numbers list gmap.

Declare Scope feather_scope.
Delimit Scope feather_scope with feather.

(** ** Outcomes of a message send

    An Objective-C method either returns, or raises: through [@throw], or
    through a failed [assert] / [NSAssert] / [NSParameterAssert].  The state
    reached when the exception is raised is kept, as it is in the program. *)
Inductive exn : Type :=
  | AssertionFailed (condition : string)
  | Exception (name reason : string)
  | RangeException (index count : Z).

Inductive res (A : Type) : Type :=
  | Ok (a : A)
  | Throw (e : exn).
Arguments Ok {A} a.
Arguments Throw {A} e.

#[export] Instance exn_eq_dec : EqDecision exn.
Proof. solve_decision. Defined.
#[export] Instance res_eq_dec {A} `{!EqDecision A} : EqDecision (res A).
Proof. solve_decision. Defined.

Definition is_ok {A} (r : res A) : bool := match r with Ok _ => true | _ => false end.

(** Code that can raise but keeps no state. *)
#[export] Instance res_ret : MRet res := λ A a, Ok a.
#[export] Instance res_bind : MBind res := λ A B f r,
  match r with Ok a => f a | Throw e => Throw e end.

Definition assert_ (c : bool) (what : string) : res unit :=
  if c then Ok tt else Throw (AssertionFailed what).

Lemma res_bind_inv {A B} (r : res A) (f : A → res B) b :
  r ≫= f = Ok b → ∃ a, r = Ok a ∧ f a = Ok b.
Proof. destruct r; cbn; [eauto|done]. Qed.

Lemma assert_inv c what u : assert_ c what = Ok u → c = true.
Proof. by destruct c. Qed.

(** State passing over a state [S], with exceptions. *)
Definition M (S A : Type) : Type := S → res A * S.

#[export] Instance M_ret {S} : MRet (M S) := λ A a s, (Ok a, s).
#[export] Instance M_bind {S} : MBind (M S) := λ A B f m s,
  match m s with
  | (Ok a, s') => f a s'
  | (Throw e, s') => (Throw e, s')
  end.
#[export] Instance M_fmap {S} : FMap (M S) := λ A B f m, m ≫= (λ a, mret (f a)).

Definition throw {S A} (e : exn) : M S A := λ s, (Throw e, s).
Definition gets {S A} (f : S → A) : M S A := λ s, (Ok (f s), s).
Definition lift {S A} (r : res A) : M S A := λ s, (r, s).
Definition modify {S} (f : S → S) : M S unit := λ s, (Ok tt, f s).

(** [assert(c)], [NSAssert(c, ...)] and [NSParameterAssert(c)]. *)
Definition NSAssert {S} (c : bool) (what : string) : M S unit :=
  if c then mret tt else throw (AssertionFailed what).

(** [for (x in l) { body }] for its effects, and the same with a result. *)
Fixpoint for_each {S A} (l : list A) (body : A → M S unit) : M S unit :=
  match l with
  | [] => mret tt
  | x :: l' => _ ← body x; for_each l' body
  end.

Fixpoint map_each {S A B} (l : list A) (body : A → M S B) : M S (list B) :=
  match l with
  | [] => mret []
  | x :: l' => y ← body x; ys ← map_each l' body; mret (y :: ys)
  end.

(** ** [BOOL] results with an [NSError **] out-parameter *)
Record NSError : Type := { err_domain : string; err_code : Z }.

#[export] Instance NSError_eq_dec : EqDecision NSError.
Proof. solve_decision. Defined.

Inductive outcome : Type :=
  | YES
  | NO (err : option NSError).

#[export] Instance outcome_eq_dec : EqDecision outcome.
Proof. solve_decision. Defined.

Definition succeeded (o : outcome) : bool := match o with YES => true | NO _ => false end.

Notation "'SUCCESS?' o" := (succeeded o = true) (at level 10, only parsing) : feather_scope.

(** ** Running a computation *)
Section run.
Context {S : Type}.
Implicit Types s : S.

Lemma run_ret {A} (a : A) s : (mret a : M S A) s = (Ok a, s).
Proof. reflexivity. Qed.

Lemma run_bind {A B} (m : M S A) (f : A → M S B) s :
  (m ≫= f) s =
  match m s with (Ok a, s') => f a s' | (Throw e, s') => (Throw e, s') end.
Proof. reflexivity. Qed.

Lemma run_bind_ok {A B} (m : M S A) (f : A → M S B) s a s' :
  m s = (Ok a, s') → (m ≫= f) s = f a s'.
Proof. intros E. by rewrite run_bind, E. Qed.

Lemma run_bind_throw {A B} (m : M S A) (f : A → M S B) s e s' :
  m s = (Throw e, s') → (m ≫= f) s = (Throw e, s').
Proof. intros E. by rewrite run_bind, E. Qed.

Lemma run_bind_inv {A B} (m : M S A) (f : A → M S B) s b s' :
  (m ≫= f) s = (Ok b, s') → ∃ a s1, m s = (Ok a, s1) ∧ f a s1 = (Ok b, s').
Proof.
  rewrite run_bind. destruct (m s) as [[a|e] s1] eqn:E; intros H; [eauto|congruence].
Qed.

Lemma run_gets {A} (f : S → A) s : gets f s = (Ok (f s), s).
Proof. reflexivity. Qed.

Lemma run_modify (f : S → S) s : modify f s = (Ok tt, f s).
Proof. reflexivity. Qed.

Lemma run_throw {A} e s : (throw e : M S A) s = (Throw e, s).
Proof. reflexivity. Qed.

Lemma run_NSAssert c what s :
  NSAssert c what s = if c then (Ok tt, s) else (Throw (AssertionFailed what), s).
Proof. by destruct c. Qed.

Lemma bind_assoc {A B C} (m : M S A) (f : A → M S B) (g : B → M S C) s :
  ((m ≫= f) ≫= g) s = (m ≫= λ a, f a ≫= g) s.
Proof. rewrite !run_bind. by destruct (m s) as [[a|e] s1]. Qed.

(** A loop body that keeps an invariant on every outcome keeps it over the loop. *)
Lemma for_each_inv {A} (P : S → Prop) (l : list A) (body : A → M S unit) s :
  P s → (∀ x s1, x ∈ l → P s1 → P (body x s1).2) → P (for_each l body s).2.
Proof.
  revert s. induction l as [|x l IH]; intros s Hs Hb; [done|].
  cbn [for_each]. rewrite run_bind.
  pose proof (Hb x s (list_elem_of_here _ _) Hs) as H1.
  destruct (body x s) as [[[]|e] s1]; [|done].
  apply IH; [done|]. intros y s2 Hy. apply Hb. by apply list_elem_of_further.
Qed.

Lemma for_each_app {A} (l1 l2 : list A) (body : A → M S unit) s :
  for_each (l1 ++ l2) body s = (for_each l1 body ≫= λ _, for_each l2 body) s.
Proof.
  revert s. induction l1 as [|x l1 IH]; intros s; [done|].
  cbn [for_each app]. rewrite !run_bind.
  destruct (body x s) as [[[]|e] s1]; [|done].
  by rewrite IH, run_bind.
Qed.

Lemma map_each_pure {A B} (l : list A) (body : A → M S B) (f : A → B) s :
  (∀ x s1, x ∈ l → body x s1 = (Ok (f x), s1)) →
  map_each l body s = (Ok (f <$> l), s).
Proof.
  intros Hb. induction l as [|x l IH]; [done|].
  cbn [map_each]. rewrite (run_bind_ok _ _ _ _ _ (Hb x s (list_elem_of_here _ _))).
  rewrite (run_bind_ok _ _ s (f <$> l) s); [done|].
  apply IH. intros y s1 Hy. apply Hb. by apply list_elem_of_further.
Qed.

(** A loop with results, taken apart at one of its elements *)
Lemma map_each_lookup {A B} (l : list A) (body : A → M S B) s r s' i x :
  map_each l body s = (Ok r, s') → l !! i = Some x →
  ∃ s1 y s2, map_each (take i l) body s = (Ok (take i r), s1) ∧ body x s1 = (Ok y, s2) ∧
    map_each (drop (Datatypes.S i) l) body s2 = (Ok (drop (Datatypes.S i) r), s') ∧ r !! i = Some y.
Proof.
  revert s r i. induction l as [|z l IH]; intros s r i; [done|]. cbn [map_each].
  intros (y & s1 & Hy & (ys & s2 & Hys & [= <- <-])%run_bind_inv)%run_bind_inv Hi. destruct i as [|i].
  - injection Hi as ->. by exists s, y, s1.
  - destruct (IH _ _ _ Hys Hi) as (s3 & y' & s4 & H1 & H2 & H3 & H4). exists s3, y', s4. split_and!; try done.
    cbn [take map_each]. by rewrite run_bind, Hy, run_bind, H1.
Qed.

Lemma map_each_length {A B} (l : list A) (body : A → M S B) s r s' :
  map_each l body s = (Ok r, s') → length r = length l.
Proof.
  revert s r s'. induction l as [|x l IH]; intros s r s'; [by intros [= <- _]|]. cbn [map_each].
  intros (y & s1 & _ & (ys & s2 & Hys & [= <- _])%run_bind_inv)%run_bind_inv. cbn. by rewrite (IH _ _ _ Hys).
Qed.

Lemma map_each_inv {A B} (P : S → Prop) (l : list A) (body : A → M S B) s r s' :
  map_each l body s = (Ok r, s') → P s → (∀ x s1 y s2, x ∈ l → P s1 → body x s1 = (Ok y, s2) → P s2) → P s'.
Proof.
  revert s r. induction l as [|x l IH]; intros s r; [by intros [= <- <-]|]. cbn [map_each].
  intros (y & s1 & Hy & (ys & s2 & Hys & [= <- <-])%run_bind_inv)%run_bind_inv Hs Hb.
  eapply IH; [exact Hys| |].
  - eapply Hb; [by left|done..].
  - intros z s3 y' s4 Hz. apply Hb. by right.
Qed.
End run.

Create HintDb feather discriminated.
#[export] Hint Constructors Forall : feather.
#[export] Hint Resolve list_elem_of_here list_elem_of_further : feather.

Create Rewrite HintDb objc_run.
#[export] Hint Rewrite @run_ret @run_gets @run_modify @run_throw @run_NSAssert : objc_run.

(** [mrun]: run the computation in the goal as far as its guards are known. *)
Ltac mrun :=
  repeat first
    [ progress autorewrite with objc_run
    | rewrite run_bind
    | progress cbn -[lookup insert delete] ].

(** [mcases H]: split a run that is known to have returned into its steps. *)
Ltac mcases H :=
  let a := fresh "a" in let s := fresh "s" in let E := fresh "E" in
  apply run_bind_inv in H as (a & s & E & H).

(** ** What a computation may change

    [steps R m]: whatever its outcome, [m] takes a state to an [R]-related one.
    With a preorder [R] this is compositional; "P is kept" is the preorder
    [λ s s', P s → P s']. *)
Definition steps {S A} (R : relation S) (m : M S A) : Prop := ∀ s, R s (m s).2.

Definition keeping {S} (P : S → Prop) : relation S := λ s s', P s → P s'.
#[export] Instance keeping_preorder {S} (P : S → Prop) : PreOrder (keeping P).
Proof. split; unfold keeping; [by intros ?|by intros ? ? ? H1 H2 H; auto]. Qed.

Section steps.
Context {S : Type} (R : relation S) `{!PreOrder R}.

Lemma steps_ret {A} (a : A) : steps R (mret a : M S A).
Proof. by intros s. Qed.
Lemma steps_throw {A} e : steps R (throw e : M S A).
Proof. by intros s. Qed.
Lemma steps_gets {A} (f : S → A) : steps R (gets f).
Proof. by intros s. Qed.
Lemma steps_lift {A} (r : res A) : steps R (lift r : M S A).
Proof. by intros s. Qed.
Lemma steps_NSAssert c what : steps R (NSAssert c what : M S unit).
Proof. intros s. by destruct c. Qed.
Lemma steps_modify f : (∀ s, R s (f s)) → steps R (modify f).
Proof. by intros Hf s. Qed.
Lemma steps_bind {A B} (m : M S A) (f : A → M S B) :
  steps R m → (∀ a, steps R (f a)) → steps R (m ≫= f).
Proof.
  intros Hm Hf s. rewrite run_bind. specialize (Hm s). destruct (m s) as [[a|e] s1]; [|done].
  etrans; [exact Hm|apply Hf].
Qed.
Lemma steps_fmap {A B} (g : A → B) (m : M S A) : steps R m → steps R (g <$> m).
Proof. intros Hm. apply steps_bind; [done|]. intros a. apply steps_ret. Qed.
Lemma steps_for_each {A} (l : list A) body : (∀ x, steps R (body x)) → steps R (for_each l body).
Proof.
  intros Hb. induction l as [|x l IH]; [apply steps_ret|]. apply steps_bind; [apply Hb|]. by intros _.
Qed.
Lemma steps_map_each {A B} (l : list A) (body : A → M S B) :
  (∀ x, steps R (body x)) → steps R (map_each l body).
Proof.
  intros Hb. induction l as [|x l IH]; [apply steps_ret|].
  apply steps_bind; [apply Hb|]. intros y. apply steps_bind; [done|]. intros ys. apply steps_ret.
Qed.
Lemma steps_run {A} (m : M S A) s r s' : steps R m → m s = (r, s') → R s s'.
Proof. intros Hm E. specialize (Hm s). by rewrite E in Hm. Qed.
End steps.

Create HintDb steps.

(** Discharge a [steps] goal by the shape of the computation; operations with a
    [steps] lemma of their own are closed by the hint database. *)
Ltac steps_tac :=
  repeat (intros;
    lazymatch goal with
    | |- steps _ (mret _) => apply steps_ret; apply _
    | |- steps _ (throw _) => apply steps_throw; apply _
    | |- steps _ (gets _) => apply steps_gets; apply _
    | |- steps _ (lift _) => apply steps_lift; apply _
    | |- steps _ (NSAssert _ _) => apply steps_NSAssert; apply _
    | |- steps _ (mbind _ _) => apply steps_bind; [apply _| |]
    | |- steps _ (fmap _ _) => apply steps_fmap; [apply _|]
    | |- steps _ (for_each _ _) => apply steps_for_each; [apply _|]
    | |- steps _ (map_each _ _) => apply steps_map_each; [apply _|]
    | |- steps _ (match ?x with _ => _ end) => destruct x
    | |- steps _ _ => solve [auto with steps]
    end).

(** ** Lists *)
Section lists.
Context {A : Type}.

(** The elements at an index satisfying [P], first one first. *)
Fixpoint first_matching (P : A → bool) (i : nat) (l : list A) : option (nat * A) :=
  match l with
  | [] => None
  | x :: l' => if P x then Some (i, x) else first_matching P (S i) l'
  end.

Lemma first_matching_spec P i l :
  match first_matching P i l with
  | Some (j, x) =>
      ∃ k, j = (i + k)%nat ∧ l !! k = Some x ∧ P x = true ∧
           ∀ k' y, (k' < k)%nat → l !! k' = Some y → P y = false
  | None => ∀ x, x ∈ l → P x = false
  end.
Proof.
  revert i. induction l as [|x l IH]; intros i; cbn; [by intros y ?%elem_of_nil|].
  destruct (P x) eqn:Px.
  - exists 0%nat. split_and!; [lia|done|done|]. intros; lia.
  - specialize (IH (S i)). destruct (first_matching P (S i) l) as [[j y]|].
    + destruct IH as (k & -> & Hk & Py & Hlt). exists (S k).
      split_and!; [lia|done|done|]. intros [|k'] z Hk' Hz; cbn in Hz.
      * by simplify_eq.
      * eapply Hlt; [|done]. lia.
    + intros y [->|Hy]%elem_of_cons; auto.
Qed.

Lemma filter_bool_elem (P : A → bool) (x : A) l :
  x ∈ List.filter P l ↔ x ∈ l ∧ P x = true.
Proof. rewrite !list_elem_of_In. apply filter_In. Qed.

Lemma filter_bool_id (P : A → bool) l :
  (∀ x, x ∈ l → P x = true) → List.filter P l = l.
Proof.
  induction l as [|x l IH]; intros H; [done|]. cbn.
  rewrite (H x) by apply list_elem_of_here. f_equal. apply IH.
  intros y Hy. apply H. by apply list_elem_of_further.
Qed.

Lemma filter_bool_filter (P Q : A → bool) l :
  List.filter P (List.filter Q l) = List.filter (λ x, Q x && P x) l.
Proof.
  induction l as [|x l IH]; [done|]. cbn.
  destruct (Q x); cbn; [destruct (P x); cbn; by rewrite IH|done].
Qed.

Lemma filter_bool_comm (P Q : A → bool) l :
  List.filter P (List.filter Q l) = List.filter Q (List.filter P l).
Proof. rewrite !filter_bool_filter. apply filter_ext. intros x. apply andb_comm. Qed.
End lists.

#[export] Hint Resolve filter_bool_id : feather.

(** ** Machine integers: [NSUInteger] and [NSInteger] are 64 bits wide *)
Definition word (n : Z) : Z := (n mod 2 ^ 64)%Z.
Definition sint64 (n : Z) : Z := ((n + 2 ^ 63) mod 2 ^ 64 - 2 ^ 63)%Z.

Lemma word_id n : (0 ≤ n < 2 ^ 64)%Z → word n = n.
Proof. apply Z.mod_small. Qed.

Lemma sint64_id n : (- 2 ^ 63 ≤ n < 2 ^ 63)%Z → sint64 n = n.
Proof. intros. unfold sint64. rewrite Z.mod_small; lia. Qed.

(** A signed number compared with an index: equal as words means equal. *)
Lemma word_sint64_eq m n : (0 ≤ n < 2 ^ 63)%Z → word (sint64 m) = n ↔ sint64 m = n.
Proof.
  intros Hn. unfold word, sint64. pose proof (Z.mod_pos_bound (m + 2 ^ 63) (2 ^ 64) ltac:(lia)).
  set (x := ((m + 2 ^ 63) mod 2 ^ 64)%Z) in *. split; intros Hx.
  - destruct (decide (2 ^ 63 ≤ x)%Z).
    + rewrite Z.mod_small in Hx; lia.
    + rewrite <-(Z_mod_plus_full _ 1), Z.mod_small in Hx; lia.
  - rewrite Z.mod_small; lia.
Qed.
