(* ===== verification/ObjC.v ===== *)
(** * The language and its Foundation library, as far as Feather uses them

    Objects held in properties ([value]), [isEqual:], dictionaries, the
    [NSString] operations used on identifiers and class names, the class table
    of the runtime with [isSubclassOfClass:], and the naming conventions of
    src/Feather/NSString+MPExtensions.swift and String+MPExtensions.swift that
    tie a model class to its controller class. *)
From Stdlib Require Import Ascii.
From stdpp Require Import base tactics strings numbers list gmap.
From S2P Require Import Prelude.

(** ** Objects as property values

    [MPObj] is a pointer to a managed or an embedded object of the heap, any
    other value is a Foundation object compared by contents.  Numbers are
    integers; an [NSTimeInterval] is counted in whole clock ticks. *)
Definition oid := positive.

Inductive value : Type :=
  | NSNull
  | NSNumber (n : Z)
  | NSString (s : string)
  | NSDate (t : Z)
  | NSData (b : list Z)
  | NSArray (l : list value)
  | NSSet (l : list value)
  | NSDictionary (d : list (string * value))
  | MPObj (o : oid).

Section value_ind.
Variable P : value → Prop.
Hypothesis Pnull : P NSNull.
Hypothesis Pnum : ∀ n, P (NSNumber n).
Hypothesis Pstr : ∀ s, P (NSString s).
Hypothesis Pdate : ∀ t, P (NSDate t).
Hypothesis Pdata : ∀ b, P (NSData b).
Hypothesis Parr : ∀ l, Forall P l → P (NSArray l).
Hypothesis Pset : ∀ l, Forall P l → P (NSSet l).
Hypothesis Pdict : ∀ d, Forall (λ kv, P (snd kv)) d → P (NSDictionary d).
Hypothesis Pobj : ∀ o, P (MPObj o).

Fixpoint value_rect' (v : value) : P v :=
  let fix all (l : list value) : Forall P l :=
    match l with
    | [] => Forall_nil_2 P
    | x :: l' => Forall_cons_2 P x l' (value_rect' x) (all l')
    end in
  let fix alld (d : list (string * value)) : Forall (λ kv, P (snd kv)) d :=
    match d with
    | [] => Forall_nil_2 _
    | kv :: d' => Forall_cons_2 _ kv d' (value_rect' (snd kv)) (alld d')
    end in
  match v with
  | NSNull => Pnull
  | NSNumber n => Pnum n
  | NSString s => Pstr s
  | NSDate t => Pdate t
  | NSData b => Pdata b
  | NSArray l => Parr l (all l)
  | NSSet l => Pset l (all l)
  | NSDictionary d => Pdict d (alld d)
  | MPObj o => Pobj o
  end.
End value_ind.

(** [dict[key]] on the association-list form of a dictionary. *)
Fixpoint assoc (k : string) (d : list (string * value)) : option value :=
  match d with
  | [] => None
  | (k', v) :: d' => if String.eqb k k' then Some v else assoc k d'
  end.

(** [-isEqual:] *)
Fixpoint isEqual (a b : value) {struct a} : bool :=
  match a, b with
  | NSNull, NSNull => true
  | NSNumber n, NSNumber m => Z.eqb n m
  | NSString s, NSString t => String.eqb s t
  | NSDate t, NSDate u => Z.eqb t u
  | NSData x, NSData y => bool_decide (x = y)
  | NSArray l, NSArray m =>
      (fix go (l m : list value) : bool :=
         match l, m with
         | [], [] => true
         | x :: l', y :: m' => isEqual x y && go l' m'
         | _, _ => false
         end) l m
  | NSSet l, NSSet m =>
      Nat.eqb (length l) (length m) &&
      (fix go (l : list value) : bool :=
         match l with
         | [] => true
         | x :: l' => existsb (isEqual x) m && go l'
         end) l
  | NSDictionary d, NSDictionary e =>
      Nat.eqb (length d) (length e) &&
      (fix go (d : list (string * value)) : bool :=
         match d with
         | [] => true
         | (k, x) :: d' =>
             match assoc k e with Some y => isEqual x y | None => false end && go d'
         end) d
  | MPObj o, MPObj p => Pos.eqb o p
  | _, _ => false
  end.

(** A dictionary holds one value per key, at every depth. *)
Fixpoint value_wf (v : value) : bool :=
  match v with
  | NSArray l | NSSet l =>
      (fix go (l : list value) : bool :=
         match l with [] => true | x :: l' => value_wf x && go l' end) l
  | NSDictionary d =>
      bool_decide (NoDup (d.*1)) &&
      (fix go (d : list (string * value)) : bool :=
         match d with [] => true | (_, x) :: d' => value_wf x && go d' end) d
  | _ => true
  end.

Lemma assoc_elem k v d : assoc k d = Some v → (k, v) ∈ d.
Proof.
  induction d as [|[k' v'] d IH]; cbn; [done|].
  destruct (String.eqb_spec k k') as [->|]; intros H; simplify_eq; set_solver.
Qed.

Lemma elem_assoc k v d : NoDup (d.*1) → (k, v) ∈ d → assoc k d = Some v.
Proof.
  induction d as [|[k' v'] d IH]; cbn; intros Hnd Hin; [set_solver|].
  apply NoDup_cons in Hnd as [Hk Hnd].
  apply elem_of_cons in Hin as [[= -> ->]|Hin].
  - by rewrite String.eqb_refl.
  - destruct (String.eqb_spec k k') as [->|]; [|auto].
    exfalso. apply Hk. apply list_elem_of_fmap. by exists (k', v).
Qed.

Lemma isEqual_refl v : value_wf v = true → isEqual v v = true.
Proof.
  induction v as [| | | | | l IH | l IH | d IH |] using value_rect'; cbn; intros Hwf;
    auto using Z.eqb_refl, String.eqb_refl, Pos.eqb_refl.
  - by apply bool_decide_eq_true.
  - induction IH as [|x l Hx _ IHl]; [done|].
    apply andb_true_iff in Hwf as [H1 H2]. by rewrite Hx, IHl.
  - rewrite Nat.eqb_refl. cbn.
    assert (Hsub : ∀ m, (∀ x, x ∈ l → existsb (isEqual x) m = true) →
      (fix go (l : list value) : bool :=
         match l with [] => true | x :: l' => existsb (isEqual x) m && go l' end) l = true).
    { clear IH Hwf. intros m. induction l as [|x l IHl]; intros H; [done|].
      rewrite (H x) by apply list_elem_of_here. cbn. apply IHl.
      intros y Hy. apply H. by apply list_elem_of_further. }
    apply Hsub. intros x Hx. apply existsb_exists. exists x. split; [by apply list_elem_of_In|].
    assert (value_wf x = true) as Hwx.
    { clear Hsub IH. induction l as [|y l IHl]; [set_solver|].
      apply andb_true_iff in Hwf as [H1 H2].
      apply elem_of_cons in Hx as [->|Hx]; auto. }
    rewrite Forall_forall in IH. apply IH; [|done]. done.
  - rewrite Nat.eqb_refl. cbn.
    apply andb_true_iff in Hwf as [Hnd Hwf]. apply bool_decide_eq_true in Hnd.
    assert (Hall : ∀ k x, (k, x) ∈ d → isEqual x x = true).
    { clear Hnd. induction IH as [|[k x] d Hx _ IHd]; [set_solver|].
      cbn in Hx. apply andb_true_iff in Hwf as [H1 H2].
      intros k' x' [[= -> ->]|Hin]%elem_of_cons; eauto. }
    assert (Hgo : ∀ d', d' ⊆ d →
      (fix go (d' : list (string * value)) : bool :=
         match d' with
         | [] => true
         | (k, x) :: d'' =>
             match assoc k d with Some y => isEqual x y | None => false end && go d''
         end) d' = true); [|by apply Hgo].
    intros d'. induction d' as [|[k x] d' IHd]; intros Hd; [done|].
    rewrite (elem_assoc k x d); [|done|set_solver].
    rewrite (Hall k x) by set_solver. cbn. apply IHd. set_solver.
Qed.

(** [-boolValue], [-intValue], [-doubleValue] of a number; a message to [nil] gives 0. *)
Definition numberValue (v : option value) : Z :=
  match v with Some (NSNumber n) => n | _ => 0 end.
Definition boolValue (v : option value) : bool := negb (Z.eqb (numberValue v) 0).
Definition ofBOOL (b : bool) : value := NSNumber (if b then 1 else 0).

Lemma boolValue_ofBOOL b : boolValue (Some (ofBOOL b)) = b.
Proof. by destruct b. Qed.

Definition stringOf (v : option value) : option string :=
  match v with Some (NSString s) => Some s | _ => None end.

(** [-isKindOfClass:] for the Foundation classes. *)
Definition isString (v : value) : bool := match v with NSString _ => true | _ => false end.
Definition isArray (v : value) : bool := match v with NSArray _ => true | _ => false end.
Definition isSet (v : value) : bool := match v with NSSet _ => true | _ => false end.
Definition isDictionary (v : value) : bool := match v with NSDictionary _ => true | _ => false end.

(** ** Strings *)
Section strings.
Local Open Scope string_scope.

(** [-hasPrefix:] and [-hasSuffix:] *)
Definition hasPrefix (s p : string) : bool := String.prefix p s.
Definition rev_string (s : string) : string :=
  String.string_of_list_ascii (rev (String.list_ascii_of_string s)).
Definition hasSuffix (s p : string) : bool := String.prefix (rev_string p) (rev_string s).

(** [-componentsSeparatedByString:] for a one-character separator: it always
    has at least one component, the empty string between adjacent separators. *)
Fixpoint componentsSeparatedBy (sep : Ascii.ascii) (s : string) : list string :=
  match s with
  | EmptyString => [""]
  | String c s' =>
      if Ascii.eqb c sep then "" :: componentsSeparatedBy sep s'
      else match componentsSeparatedBy sep s' with
           | [] => [String c ""]
           | w :: ws => String c w :: ws
           end
  end.

Definition componentsJoinedBy (sep : Ascii.ascii) (l : list string) : string :=
  match l with
  | [] => ""
  | w :: ws => foldl (λ acc x, acc ++ String sep x) w ws
  end.

Fixpoint hasChar (c : ascii) (s : string) : bool :=
  match s with EmptyString => false | String c' s' => Ascii.eqb c' c || hasChar c s' end.

Lemma components_one sep s : hasChar sep s = false → componentsSeparatedBy sep s = [s].
Proof.
  induction s as [|c s IH]; cbn; [done|]. intros [Hc Hs]%orb_false_iff. rewrite Hc, IH by done. done.
Qed.

Lemma components_cons sep a s :
  hasChar sep a = false → componentsSeparatedBy sep (a ++ String sep s) = a :: componentsSeparatedBy sep s.
Proof.
  induction a as [|c a IH].
  - change ("" ++ String sep s) with (String sep s). cbn [componentsSeparatedBy]. by rewrite Ascii.eqb_refl.
  - change (String c a ++ String sep s) with (String c (a ++ String sep s)).
    cbn [componentsSeparatedBy hasChar]. intros [Hc Ha]%orb_false_iff. rewrite Hc, IH by done. done.
Qed.

Lemma string_app_nil_r s : s ++ "" = s.
Proof. induction s as [|c s IH]; [done|]. exact (f_equal (String c) IH). Qed.
Lemma string_app_assoc a b c : (a ++ b) ++ c = a ++ (b ++ c).
Proof. induction a as [|x a IH]; [done|]. exact (f_equal (String x) IH). Qed.

Lemma ascii_list_app a b :
  String.list_ascii_of_string (a ++ b) = (String.list_ascii_of_string a ++ String.list_ascii_of_string b)%list.
Proof. induction a as [|x a IH]; [done|]. exact (f_equal (cons x) IH). Qed.

Lemma string_of_list_app l k :
  String.string_of_list_ascii (l ++ k)%list = String.string_of_list_ascii l ++ String.string_of_list_ascii k.
Proof. induction l as [|x l IH]; [done|]. exact (f_equal (String x) IH). Qed.

Lemma components_joined sep a ws :
  hasChar sep a = false → Forall (λ w, hasChar sep w = false) ws →
  componentsSeparatedBy sep (componentsJoinedBy sep (a :: ws)) = a :: ws.
Proof.
  intros Ha Hws.
  assert (∀ b l, foldl (λ acc x, acc ++ String sep x) b l = b ++ foldr (λ x acc, String sep (x ++ acc)) "" l) as Hf.
  { intros b l. revert b. induction l as [|w l IH]; intros b; [symmetry; apply string_app_nil_r|].
    cbn [foldl foldr]. rewrite IH, string_app_assoc. done. }
  unfold componentsJoinedBy. rewrite Hf. clear Hf. revert a Ha.
  induction Hws as [|w l Hw _ IH]; intros a Ha; cbn [foldr]; [by rewrite string_app_nil_r, components_one|].
  rewrite components_cons by done. by rewrite IH.
Qed.

(** [-stringByReplacingOccurrencesOfString:withString:], left to right and
    without overlaps; [skip] counts the characters of a match still to be dropped. *)
Fixpoint replaceOccurrences_from (pat rep : string) (skip : nat) (s : string) : string :=
  match s with
  | EmptyString => ""
  | String c s' =>
      match skip with
      | S k => replaceOccurrences_from pat rep k s'
      | O => if String.prefix pat s
             then rep ++ replaceOccurrences_from pat rep (String.length pat - 1) s'
             else String c (replaceOccurrences_from pat rep 0 s')
      end
  end.
Definition replaceOccurrences (pat rep s : string) : string :=
  if String.eqb pat "" then s else replaceOccurrences_from pat rep 0 s.

Definition lower_ascii (c : Ascii.ascii) : Ascii.ascii :=
  let n := Ascii.nat_of_ascii c in
  if (65 <=? n)%nat && (n <=? 90)%nat then Ascii.ascii_of_nat (n + 32) else c.
Definition upper_ascii (c : Ascii.ascii) : Ascii.ascii :=
  let n := Ascii.nat_of_ascii c in
  if (97 <=? n)%nat && (n <=? 122)%nat then Ascii.ascii_of_nat (n - 32) else c.
Definition alphanumeric (c : Ascii.ascii) : bool :=
  let n := Ascii.nat_of_ascii c in
  ((48 <=? n) && (n <=? 57) || (65 <=? n) && (n <=? 90) || (97 <=? n) && (n <=? 122))%nat.

Definition lowercasingFirst (s : string) : string :=
  match s with EmptyString => "" | String c s' => String (lower_ascii c) s' end.
Definition uppercasingFirst (s : string) : string :=
  match s with EmptyString => "" | String c s' => String (upper_ascii c) s' end.

Fixpoint componentsSeparatedByNonAlphanumerics (s : string) : list string :=
  match s with
  | EmptyString => [""]
  | String c s' =>
      if alphanumeric c
      then match componentsSeparatedByNonAlphanumerics s' with
           | [] => [String c ""]
           | w :: ws => String c w :: ws
           end
      else "" :: componentsSeparatedByNonAlphanumerics s'
  end.

(* @src Feather/String+MPExtensions.swift 40 51 String.camelCased *)
Definition camelCased (s : string) : string :=
  if String.eqb s "" then "" else
  match componentsSeparatedByNonAlphanumerics s with
  | [] => ""
  | first :: rest =>
      foldl String.append "" (lowercasingFirst first :: map uppercasingFirst rest)
  end.

(** The replacement of the anchored patterns ["y$"], ["e$"] and ["^MP"]. *)
Definition dropLast (s : string) : string :=
  match rev (String.list_ascii_of_string s) with
  | [] => ""
  | _ :: l => String.string_of_list_ascii (rev l)
  end.
Definition dropPrefix (p s : string) : string :=
  if String.prefix p s then String.substring (String.length p) (String.length s - String.length p) s
  else s.
Definition dropSuffix (p s : string) : string :=
  if hasSuffix s p then String.substring 0 (String.length s - String.length p) s else s.

(* @src Feather/NSString+MPExtensions.swift 42 49 -[NSString pluralizedString] *)
Definition pluralizedString (s : string) : string :=
  if hasSuffix s "y" || hasSuffix s "Y"
  then if hasSuffix s "y" then dropLast s ++ "ies" else s
  else s ++ "s".

(* @src Feather/NSString+MPExtensions.swift 51 53 -[NSString stringByTranslatingPresentToPastTense] *)
Definition stringByTranslatingPresentToPastTense (s : string) : string :=
  (if hasSuffix s "e" then dropLast s else s) ++ "ed".
End strings.

Example plural_category : pluralizedString "MPCategory" = "MPCategories"%string.
Proof. reflexivity. Qed.
Example plural_section : camelCased (dropPrefix "MP" (pluralizedString "MPSection")) = "sections"%string.
Proof. reflexivity. Qed.
Example past_update : stringByTranslatingPresentToPastTense "Update" = "Updated"%string.
Proof. reflexivity. Qed.
Example components_id : componentsSeparatedBy ":"%char "MPSection:1234" = ["MPSection"; "1234"]%string.
Proof. reflexivity. Qed.
Example replace_http : replaceOccurrences "http://" "" "http://a/http://b" = "a/b"%string.
Proof. reflexivity. Qed.

(** ** The class table of the runtime

    Classes are named by their [NSStringFromClass].  The application's own
    classes are not part of the framework, so the table is a parameter: the
    classes in the order of [objc_getClassList] with their superclasses, their
    declared properties with their attribute strings, the class of a property
    ([MYGetPropertyInfo] and [MYClassFromType] of CouchbaseLite), adopted
    protocols and selectors responded to. *)
Record Runtime : Type := {
  rt_classes : list (string * option string);
  rt_properties : string → list (string * string);
  rt_propertyClass : string → string → option string;
  rt_conforms : string → string → bool;
  rt_responds : string → string → bool
}.

Section classes.
Context (rt : Runtime).
Implicit Types c d : string.

Fixpoint find_class (c : string) (l : list (string * option string)) : option (option string) :=
  match l with
  | [] => None
  | (k, p) :: l' => if String.eqb c k then Some p else find_class c l'
  end.

Definition NSClassFromString (c : string) : option string :=
  match find_class c (rt_classes rt) with Some _ => Some c | None => None end.

Definition superclass (c : string) : option string :=
  match find_class c (rt_classes rt) with Some p => p | None => None end.

Definition extends (c d : string) : Prop := superclass c = Some d.
Definition inherits : string → string → Prop := rtc extends.

Fixpoint subclass_fuel (n : nat) (c d : string) : bool :=
  String.eqb c d ||
  match n with
  | O => false
  | S n' => match superclass c with Some p => subclass_fuel n' p d | None => false end
  end.

Definition class_count : nat := length (rt_classes rt).

(** [+isSubclassOfClass:] *)
Definition isSubclassOfClass (c d : string) : bool := subclass_fuel class_count c d.

(** The superclass chain of [c] ends within [n] steps. *)
Fixpoint rooted (n : nat) (c : string) : bool :=
  match superclass c with
  | None => true
  | Some p => match n with O => false | S n' => rooted n' p end
  end.

Definition runtime_wf : bool := forallb (λ kp, rooted class_count kp.1) (rt_classes rt).

Lemma find_class_elem c l p : find_class c l = Some p → (c, p) ∈ l.
Proof.
  induction l as [|[k q] l IH]; cbn; [done|].
  destruct (String.eqb_spec c k) as [->|]; intros H; simplify_eq; set_solver.
Qed.

Lemma runtime_wf_rooted c : runtime_wf = true → rooted class_count c = true.
Proof.
  unfold runtime_wf. rewrite forallb_forall. intros Hall.
  destruct (find_class c (rt_classes rt)) as [p|] eqn:E.
  - apply find_class_elem in E. apply list_elem_of_In in E. by apply (Hall (c, p)).
  - assert (superclass c = None) as Es by (unfold superclass; by rewrite E).
    destruct class_count; cbn; by rewrite Es.
Qed.

Lemma subclass_fuel_sound n c d : subclass_fuel n c d = true → inherits c d.
Proof.
  revert c. induction n as [|n IH]; intros c; cbn; rewrite ?orb_true_iff;
    intros [->%String.eqb_eq|H]; try done; try apply rtc_refl.
  destruct (superclass c) as [p|] eqn:E; [|done].
  eapply rtc_l; [exact E|]. by apply IH.
Qed.

Lemma subclass_fuel_complete n c d :
  rooted n c = true → inherits c d → subclass_fuel n c d = true.
Proof.
  intros Hr Hi. revert c Hr Hi. induction n as [|n IH]; intros c Hr Hi;
    destruct Hi as [c|c p d Hp Hi]; cbn; rewrite ?String.eqb_refl; try done;
    unfold extends in Hp; cbn in Hr; rewrite Hp in *; [done|].
  rewrite IH; auto using orb_true_r.
Qed.

Lemma isSubclassOfClass_spec c d :
  runtime_wf = true → (isSubclassOfClass c d = true ↔ inherits c d).
Proof.
  intros Hwf. split; [apply subclass_fuel_sound|].
  apply subclass_fuel_complete. by apply runtime_wf_rooted.
Qed.

Lemma isSubclassOfClass_refl c : isSubclassOfClass c c = true.
Proof. unfold isSubclassOfClass. destruct class_count; cbn; by rewrite String.eqb_refl. Qed.

Lemma isSubclassOfClass_trans c d e :
  runtime_wf = true →
  isSubclassOfClass c d = true → isSubclassOfClass d e = true → isSubclassOfClass c e = true.
Proof. intros Hwf. rewrite !isSubclassOfClass_spec by done. unfold inherits. intros. by etrans. Qed.

(** The chain of superclasses is a function of the class, so two ancestors compare. *)
Lemma inherits_linear c d e : inherits c d → inherits c e → inherits d e ∨ inherits e d.
Proof.
  intros Hd. revert e. induction Hd as [c|c p d Hp Hd IH]; intros e He; [by left|].
  inversion He as [|? q ? Hq He']; subst.
  - right. eapply rtc_l; eauto.
  - unfold extends in *. simplify_eq. by apply IH.
Qed.
End classes.

#[export] Hint Resolve isSubclassOfClass_refl isSubclassOfClass_trans : feather.
