(* ===== verification/Characters.v ===== *)
(** * Characters and text

    Foundation's text primitives as far as Feather uses them - character sets, trimming,
    splitting at white space, searching - with the lemmas on words that the string and
    XML extensions share. *)
From Stdlib Require Import Ascii.
From stdpp Require Import base tactics strings numbers list gmap.
From S2P Require Import Prelude ObjC.

Section text.
Local Open Scope string_scope.

(** [+newlineCharacterSet], as far as one byte goes *)
Definition newlineCharacter (c : ascii) : bool :=
  let n := nat_of_ascii c in ((10 <=? n) && (n <=? 13) || (n =? 133))%nat.
(** [-stringByTrimmingCharactersInSet:] *)
Fixpoint trimLeading (set : ascii → bool) (l : list ascii) : list ascii :=
  match l with c :: l' => if set c then trimLeading set l' else l | [] => [] end.
Definition trimmedList (set : ascii → bool) (l : list ascii) : list ascii :=
  rev (trimLeading set (rev (trimLeading set l))).
Definition stringByTrimmingCharactersInSet (set : ascii → bool) (s : string) : string :=
  String.string_of_list_ascii (trimmedList set (String.list_ascii_of_string s)).

(** [+whitespaceAndNewlineCharacterSet], as far as one byte goes *)
Definition whitespaceOrNewline (c : ascii) : bool :=
  let n := nat_of_ascii c in ((9 <=? n) && (n <=? 13) || (n =? 32) || (n =? 133) || (n =? 160))%nat.

(** [-componentsSeparatedByCharactersInSet:] *)
Fixpoint componentsSeparatedByCharactersInSet (set : ascii → bool) (s : string) : list string :=
  match s with
  | EmptyString => [""]
  | String c s' =>
      if set c then "" :: componentsSeparatedByCharactersInSet set s'
      else match componentsSeparatedByCharactersInSet set s' with
           | [] => [String c ""]
           | w :: ws => String c w :: ws
           end
  end.

Fixpoint occursIn (pattern s : string) : bool :=
  if String.prefix pattern s then true else match s with EmptyString => false | String _ s' => occursIn pattern s' end.
(** An empty string is found nowhere. *)
(* @src Feather/Sources/Categories/NSString+MPExtensions.m 115 118 -[NSString containsSubstring:] *)
Definition containsSubstring (self substring : string) : bool :=
  if String.eqb substring "" then false else occursIn substring self.

(** [-lowercaseString] *)
Definition lowercaseString (s : string) : string :=
  String.string_of_list_ascii (map lower_ascii (String.list_ascii_of_string s)).
End text.

(** Trimming takes what is in the set off both ends, and no more. *)
Section trimming.
Context (set : ascii → bool).
Implicit Types l : list ascii.

Definition startsOutside l : Prop := match l with c :: _ => set c = false | [] => True end.

Lemma trimLeading_app l :
  ∃ p, l = p ++ trimLeading set l ∧ forallb set p = true ∧ startsOutside (trimLeading set l).
Proof.
  induction l as [|c l (p & Hl & Hp & Hs)]; [by exists []|]. cbn.
  destruct (set c) eqn:E; [|by exists []; split_and!].
  exists (c :: p). cbn. rewrite E. split_and!; [by f_equal|done..].
Qed.
Lemma trimLeading_id l : startsOutside l → trimLeading set l = l.
Proof. destruct l as [|c l]; [done|]. cbn. by intros ->. Qed.

Lemma trimming_spec l : ∃ p q,
  l = p ++ trimmedList set l ++ q ∧ forallb set p = true ∧ forallb set q = true
  ∧ startsOutside (trimmedList set l) ∧ startsOutside (rev (trimmedList set l)).
Proof.
  unfold trimmedList. destruct (trimLeading_app l) as (p & Hl & Hp & Hs). set (t := trimLeading set l) in *.
  destruct (trimLeading_app (rev t)) as (q & Ht & Hq & Hr). set (u := trimLeading set (rev t)) in *.
  assert (t = rev u ++ rev q) as Et by (by rewrite <- rev_app_distr, <- Ht, rev_involutive).
  exists p, (rev q). rewrite <- Et. split_and!; [done..| | |].
  - rewrite forallb_forall in Hq |- *. intros x Hx. apply Hq. by apply in_rev.
  - destruct (rev u) as [|c m]; [done|]. rewrite Et in Hs. done.
  - by rewrite rev_involutive.
Qed.
Lemma trimmedList_id l : startsOutside l → startsOutside (rev l) → trimmedList set l = l.
Proof. intros H1 H2. unfold trimmedList. by rewrite (trimLeading_id l), trimLeading_id, rev_involutive. Qed.
End trimming.

(** ** Words: what stands between white space *)
Section words.
Local Open Scope string_scope.
Notation components := (componentsSeparatedByCharactersInSet whitespaceOrNewline).
Notation space := whitespaceOrNewline.

Fixpoint hasSpace (s : string) : bool :=
  match s with EmptyString => false | String c s' => space c || hasSpace s' end.
Fixpoint allSpace (s : string) : bool :=
  match s with EmptyString => true | String c s' => space c && allSpace s' end.
Definition nonempty (s : string) : bool := negb (String.eqb s "").
Definition names (s : string) : list string := List.filter nonempty (components s).
(** One word *)
Definition isName (klass : string) : bool := nonempty klass && negb (hasSpace klass).

Lemma components_nonnil s : components s ≠ [].
Proof. destruct s as [|c s]; cbn; [done|]. destruct (space c); [done|]. by destruct (components s). Qed.

Lemma components_app a w b :
  space w = true → components (a ++ String w b) = (components a ++ components b)%list.
Proof.
  intros Hw. induction a as [|c a IH].
  - change ("" ++ String w b) with (String w b). cbn. by rewrite Hw.
  - change (String c a ++ String w b) with (String c (a ++ String w b)). cbn. rewrite IH.
    destruct (space c); [done|]. pose proof (components_nonnil a). by destruct (components a).
Qed.

Lemma components_word s : hasSpace s = false → components s = [s].
Proof. induction s as [|c s IH]; [done|]. cbn. intros [-> Hs]%orb_false_iff. by rewrite IH. Qed.

Lemma components_words s : Forall (λ w, hasSpace w = false) (components s).
Proof.
  induction s as [|c s IH]; cbn; [by repeat constructor|].
  destruct (space c) eqn:E; [by constructor|].
  destruct (components s) as [|w ws]; [by repeat constructor; cbn; rewrite E|].
  apply Forall_cons in IH as [Hw Hws]. constructor; [cbn; by rewrite E|done].
Qed.

Lemma names_app a w b : space w = true → names (a ++ String w b) = (names a ++ names b)%list.
Proof. intros Hw. unfold names. by rewrite components_app, List.filter_app. Qed.
Lemma names_word s : isName s = true → names s = [s].
Proof.
  unfold isName, names. intros [Hn Hs%negb_true_iff]%andb_true_iff. rewrite components_word by done.
  cbn. by rewrite Hn.
Qed.
Lemma names_space s : allSpace s = true → names s = [].
Proof.
  induction s as [|c s IH]; [done|]. cbn [allSpace]. intros [Hc Hs]%andb_true_iff.
  change (String c s) with ("" ++ String c s). rewrite names_app by done. by rewrite IH.
Qed.

Lemma names_space_left a b : allSpace a = true → names (a ++ b) = names b.
Proof.
  induction a as [|c a IH]; [done|]. cbn [allSpace]. intros [Hc Ha]%andb_true_iff.
  change (String c a ++ b) with ("" ++ String c (a ++ b)). rewrite names_app by done. by apply IH.
Qed.
Lemma names_space_right a b : allSpace b = true → names (a ++ b) = names a.
Proof.
  destruct b as [|c b]; [by rewrite string_app_nil_r|]. cbn [allSpace]. intros [Hc Hb]%andb_true_iff.
  rewrite names_app, (names_space b) by done. by rewrite app_nil_r.
Qed.

Lemma allSpace_list l : allSpace (String.string_of_list_ascii l) = forallb space l.
Proof. induction l as [|c l IH]; [done|]. cbn. by rewrite IH. Qed.

Lemma names_trimmed s : names (stringByTrimmingCharactersInSet space s) = names s.
Proof.
  unfold stringByTrimmingCharactersInSet.
  destruct (trimming_spec space (String.list_ascii_of_string s)) as (p & q & Hs & Hp & Hq & _).
  set (t := trimmedList space (String.list_ascii_of_string s)) in *.
  transitivity (names (String.string_of_list_ascii (p ++ t ++ q))).
  - by rewrite !string_of_list_app, names_space_left, names_space_right by by rewrite allSpace_list.
  - by rewrite <- Hs, String.string_of_list_ascii_of_string.
Qed.

(** Joined again by single spaces, components are the same. *)
Lemma names_joined ws :
  Forall (λ w, hasSpace w = false) ws → names (componentsJoinedBy " "%char ws) = List.filter nonempty ws.
Proof.
  intros Hws. destruct Hws as [|a ws Ha Hws]; [done|]. unfold componentsJoinedBy.
  assert (∀ acc, names (foldl (λ acc x, acc ++ String " "%char x) acc ws) = (names acc ++ List.filter nonempty ws)%list) as H.
  { induction Hws as [|w ws Hw _ IH]; intros acc; cbn [foldl]; [by rewrite app_nil_r|].
    rewrite IH, names_app by done. unfold names at 2. rewrite components_word by done.
    cbn [List.filter]. rewrite <- app_assoc. by destruct (nonempty w). }
  rewrite H. unfold names. rewrite components_word by done. cbn [List.filter]. by destruct (nonempty a).
Qed.

Lemma Forall_filter_bool {A} (P : A → Prop) (f : A → bool) l : Forall P l → Forall P (List.filter f l).
Proof. induction 1 as [|x l Hx _ IH]; [done|]. cbn. destruct (f x); [by constructor|done]. Qed.

Lemma name_component s klass :
  nonempty klass = true → existsb (String.eqb klass) (components s) = bool_decide (klass ∈ names s).
Proof.
  intros Hk. apply Bool.eq_iff_eq_true. rewrite bool_decide_eq_true. unfold names.
  rewrite filter_bool_elem. split.
  - intros (x & Hx & ->%String.eqb_eq)%existsb_exists. split; [by apply list_elem_of_In|done].
  - intros [Hin _]. apply existsb_exists. exists klass. split; [by apply list_elem_of_In|apply String.eqb_refl].
Qed.

(** A component occurs in the text. *)
Lemma prefix_refl_app a b : String.prefix a (a ++ b) = true.
Proof.
  induction a as [|c a IH]; [by destruct b|]. change (String c a ++ b) with (String c (a ++ b)). cbn.
  by destruct (ascii_dec c c).
Qed.
Lemma component_prefix s : match components s with w :: _ => String.prefix w s = true | [] => True end.
Proof.
  induction s as [|c s IH]; [done|]. cbn [componentsSeparatedByCharactersInSet]. destruct (space c); [done|].
  destruct (components s) as [|w ws]; cbn; [destruct (ascii_dec c c); by destruct s|].
  by destruct (ascii_dec c c).
Qed.
Lemma component_occurs klass s : klass ∈ components s → klass ≠ "" → occursIn klass s = true.
Proof.
  intros Hin Hne. induction s as [|c s IH]; [by apply list_elem_of_singleton in Hin|].
  pose proof (component_prefix (String c s)) as Hp. cbn [occursIn].
  destruct (String.prefix klass (String c s)) eqn:E; [done|]. apply IH.
  cbn [componentsSeparatedByCharactersInSet] in *. destruct (space c).
  - by apply elem_of_cons in Hin as [->|].
  - destruct (components s) as [|w ws]; apply elem_of_cons in Hin as [->|Hin]; try congruence; by right.
Qed.
End words.
