(* ===== verification/Strings.v ===== *)
(** * String extensions

    Feather/Sources/Categories/NSString+MPExtensions.m on strings of one-byte
    characters: substrings around a separator, trimming, white space, removing
    characters from a mutable string, slugs, four-character codes.  Left out are the
    methods that hand the string to an XML parser, a URL parser or a predicate. *)
From Stdlib Require Import Ascii.
From stdpp Require Import base tactics strings numbers list gmap.
From S2P Require Import Prelude ObjC Characters.

Notation characters := String.list_ascii_of_string.
Notation stringOfCharacters := String.string_of_list_ascii.

(** ** Ranges *)

(** [NSRange], whose fields are [NSUInteger]s; [NSNotFound] is [NSIntegerMax]. *)
Record NSRange : Type := NSMakeRange { location : Z; rlength : Z }.
Definition NSNotFound : Z := (2 ^ 63 - 1)%Z.
Definition NSMaxRange (r : NSRange) : Z := word (location r + rlength r).

(** [nil] and empty strings *)
Section nilAndEmpty.
Local Open Scope string_scope.
(* @src Feather/Sources/Categories/NSString+MPExtensions.h 22 24 MPNilToEmptyString *)
Definition MPNilToEmptyString (s : option string) : string := match s with Some t => t | None => "" end.
(* @src Feather/Sources/Categories/NSString+MPExtensions.h 26 29 MPNilOrEmptyStringToString *)
Definition MPNilOrEmptyStringToString (s s2 : option string) : option string :=
  match s with Some t => if (0 <? String.length t)%nat then s else s2 | None => s2 end.
(* @src Feather/Sources/Categories/NSString+MPExtensions.h 31 34 MPNilToString *)
Definition MPNilToString (s s2 : option string) : string :=
  match s with Some t => t | None => MPNilToEmptyString s2 end.
(* @src Feather/Sources/Categories/NSString+MPExtensions.h 18 18 MPLastIndexOfRange *)
Definition MPLastIndexOfRange (r : NSRange) : Z := word (location r + rlength r - 1).
(* @src Feather/Sources/Categories/NSString+MPExtensions.h 19 19 MPRangeContainsRange *)
Definition MPRangeContainsRange (r r2 : NSRange) : bool :=
  (location r <=? location r2)%Z
  && (word (location r + rlength r) <=? word (location r2 + rlength r2))%Z.
(* @src Feather/Sources/Categories/NSString+MPExtensions.h 13 13 MPLastIndexOfString *)
Definition MPLastIndexOfString (s : option string) : Z :=
  match s with
  | Some t => if (0 <? String.length t)%nat then Z.of_nat (String.length t) - 1 else NSNotFound
  | None => NSNotFound
  end.
End nilAndEmpty.

(** ** Substrings *)
Section substrings.
Local Open Scope string_scope.

(** [-rangeOfString:]: the index of the first occurrence; [None] is [NSNotFound],
    the answer for the empty string as well. *)
Fixpoint indexOf (pattern s : string) : option nat :=
  if String.prefix pattern s then Some 0%nat
  else match s with EmptyString => None | String _ s' => S <$> indexOf pattern s' end.
Definition rangeOfString (self s : string) : option (nat * nat) :=
  if String.eqb s "" then None else (λ i, (i, String.length s)) <$> indexOf s self.

Definition substringFromIndex (self : string) (i : nat) : string :=
  String.substring i (String.length self - i) self.
Definition substringToIndex (self : string) (i : nat) : string := String.substring 0 i self.

(* @src Feather/Sources/Categories/NSString+MPExtensions.m 42 49 -[NSString substringAfter:] *)
Definition substringAfter (self s : string) : option string :=
  '(i, n) ← rangeOfString self s; Some (substringFromIndex self (i + n)).

(* @src Feather/Sources/Categories/NSString+MPExtensions.m 51 58 -[NSString substringBefore:] *)
Definition substringBefore (self s : string) : option string :=
  '(i, _) ← rangeOfString self s; Some (substringToIndex self i).

(* @src Feather/Sources/Categories/NSString+MPExtensions.m 120 127 -[NSString substringUpToEndOfFirstOccurrenceOfString:] *)
Definition substringUpToEndOfFirstOccurrenceOfString (self s : string) : option string :=
  '(i, n) ← rangeOfString self s; Some (substringToIndex self (i + n)).

(* @src Feather/Sources/Categories/NSString+MPExtensions.m 113 113 -[NSString hasContent] *)
Definition hasContent (self : string) : bool := (0 <? String.length self)%nat.

(* @src Feather/Sources/Categories/NSString+MPExtensions.m 130 136 -[NSString sentenceCasedString] *)
Definition sentenceCasedString (self : string) : string :=
  match self with EmptyString => "" | String c s => String (upper_ascii c) s end.

(** [+lowercaseLetterCharacterSet] and [+uppercaseLetterCharacterSet], ASCII letters *)
Definition lowercaseLetter (c : ascii) : bool :=
  let n := nat_of_ascii c in ((97 <=? n) && (n <=? 122))%nat.
Definition uppercaseLetter (c : ascii) : bool :=
  let n := nat_of_ascii c in ((65 <=? n) && (n <=? 90))%nat.

(* @src Feather/Sources/Categories/NSString+MPExtensions.m 321 325 -[NSString isAllUpperCase] *)
Definition isAllUpperCase (self : string) : bool :=
  negb (existsb lowercaseLetter (characters self)) && existsb uppercaseLetter (characters self).

(** [+whitespaceCharacterSet]: space separators and the tab, as far as one byte goes *)
Definition whitespace (c : ascii) : bool :=
  let n := nat_of_ascii c in ((n =? 9) || (n =? 32) || (n =? 160))%nat.

(* @src Feather/Sources/Categories/NSString+MPExtensions.m 353 365 -[NSString stringByTrimmingToLength:truncate:] *)
Definition stringByTrimmingToLength (self : string) (len : nat) (truncate : bool) : string :=
  if (String.length self <=? len)%nat then self
  else
    let str := substringToIndex self len in
    if truncate then stringByTrimmingCharactersInSet whitespace str ++ "..." else str.
End substrings.

(** ** White space *)
Section whitespace.
Local Open Scope string_scope.

(* @src Feather/Sources/Categories/NSString+MPExtensions.m 60 66 -[NSString stringByTrimmingWhitespace] *)
Definition stringByTrimmingWhitespace (self : string) : string :=
  stringByTrimmingCharactersInSet whitespace self.

(* @src Feather/Sources/Categories/NSString+MPExtensions.m 68 74 -[NSString stringByTrimmingWhitespaceAndNewlines] *)
Definition stringByTrimmingWhitespaceAndNewlines (self : string) : string :=
  stringByTrimmingCharactersInSet whitespaceOrNewline self.

(** [[set characterIsMember:[self characterAtIndex:0]]] and the same of the last one *)
Definition firstIn (set : ascii → bool) (self : string) : bool :=
  match characters self with c :: _ => set c | [] => false end.
Definition lastIn (set : ascii → bool) (self : string) : bool :=
  match rev (characters self) with c :: _ => set c | [] => false end.

(* @src Feather/Sources/Categories/NSString+MPExtensions.m 81 111 -[NSString stringByNormalizingWhitespaceAllowLeading:trailingWhitespace:] *)
Definition stringByNormalizingWhitespaceAllowLeading (self : string)
    (allowLeadingWhitespace allowTrailingWhitespace : bool) : string :=
  if (String.length self <? 1)%nat then self
  else
    let s := stringByTrimmingWhitespaceAndNewlines self in
    let components := List.filter (λ object, negb (String.eqb object ""))
                        (componentsSeparatedByCharactersInSet whitespaceOrNewline s) in
    let normalized := componentsJoinedBy " "%char components in
    let restoreLeadingWhitespace := allowLeadingWhitespace && firstIn whitespaceOrNewline self in
    let restoreTrailingWhitespace := allowTrailingWhitespace && lastIn whitespaceOrNewline self in
    if restoreLeadingWhitespace && restoreTrailingWhitespace then " " ++ normalized ++ " "
    else if restoreLeadingWhitespace then " " ++ normalized
    else if restoreTrailingWhitespace then normalized ++ " "
    else normalized.

(* @src Feather/Sources/Categories/NSString+MPExtensions.m 76 79 -[NSString stringByNormalizingWhitespace] *)
Definition stringByNormalizingWhitespace (self : string) : string :=
  stringByNormalizingWhitespaceAllowLeading self false false.

(** The index [i] moves right while it names white space. *)
Fixpoint leadingWhitespace_loop (fuel i : nat) (self : string) : nat :=
  match fuel with
  | O => i
  | S n => if (i <? String.length self)%nat
              && match String.get i self with Some c => whitespace c | None => false end
           then leadingWhitespace_loop n (i + 1) self else i
  end.
(* @src Feather/Sources/Categories/NSString+MPExtensions.m 190 199 -[NSString stringByTrimmingLeadingWhitespace] *)
Definition stringByTrimmingLeadingWhitespace (self : string) : string :=
  substringFromIndex self (leadingWhitespace_loop (String.length self) 0 self).

(** [length] goes down while the character in front of it is in the set. *)
Fixpoint trailing_loop (set : ascii → bool) (charBuffer : list ascii) (length : nat) : nat :=
  match length with
  | O => O
  | S n => if negb match charBuffer !! n with Some c => set c | None => false end then length
           else trailing_loop set charBuffer n
  end.
(* @src Feather/Sources/Categories/NSString+MPExtensions.m 202 215 -[NSString stringByTrimmingTrailingCharactersInSet:] *)
Definition stringByTrimmingTrailingCharactersInSet (self : string) (characterSet : ascii → bool) : string :=
  String.substring 0 (trailing_loop characterSet (characters self) (String.length self)) self.

(* @src Feather/Sources/Categories/NSString+MPExtensions.m 217 221 -[NSString stringByTrimmingTrailingWhitespace] *)
Definition stringByTrimmingTrailingWhitespace (self : string) : string :=
  stringByTrimmingTrailingCharactersInSet self whitespaceOrNewline.

(* @src Feather/Sources/Categories/NSString+MPExtensions.m 223 225 -[NSString HTMLStringCleanedFromWebKitArtefacts] *)
Definition HTMLStringCleanedFromWebKitArtefacts (self : string) : string :=
  replaceOccurrences "<br>" "" (replaceOccurrences "&nbsp;" " " self).
End whitespace.

(** ** Removing characters

    A mutable string is the list of its characters; positions are machine words. *)
Section removing.
Definition hang {A} : res A := Throw (Exception "hang" "").
Definition outOfBounds {A} : res A := Throw (Exception "NSRangeException" "").

(** [-rangeOfCharacterFromSet:options:range:] *)
Definition rangeOfCharacterFromSet (set : ascii → bool) (self : list ascii) (range : NSRange) : res NSRange :=
  if (Z.of_nat (length self) <? location range + rlength range)%Z then outOfBounds
  else
    Ok match first_matching set 0 (take (Z.to_nat (rlength range)) (drop (Z.to_nat (location range)) self)) with
       | Some (i, _) => NSMakeRange (location range + Z.of_nat i) 1
       | None => NSMakeRange NSNotFound 0
       end.

(** [-deleteCharactersInRange:] *)
Definition deleteCharactersInRange (self : list ascii) (range : NSRange) : res (list ascii) :=
  if (Z.of_nat (length self) <? location range + rlength range)%Z then outOfBounds
  else Ok (take (Z.to_nat (location range)) self ++ drop (Z.to_nat (location range + rlength range)) self).

(** The inner loop: [replaceRange] grows while the next match adjoins it. *)
Fixpoint adjoining_loop (fuel : nat) (set : ascii → bool) (self : list ascii)
    (replaceRange searchRange : NSRange) : res (NSRange * NSRange) :=
  matchRange ← rangeOfCharacterFromSet set self searchRange;
  if (rlength matchRange =? 0)%Z || negb (location matchRange =? location searchRange)%Z
  then Ok (replaceRange, matchRange)
  else
    match fuel with
    | O => hang
    | S n =>
        adjoining_loop n set self
          (NSMakeRange (location replaceRange) (word (rlength replaceRange + rlength matchRange)))
          (NSMakeRange (word (location searchRange + rlength matchRange))
             (word (rlength searchRange - rlength matchRange)))
    end.

Fixpoint removing_loop (fuel : nat) (set : ascii → bool) (self : list ascii)
    (length_ : Z) (matchRange : NSRange) : res (list ascii) :=
  if (rlength matchRange <=? 0)%Z then Ok self
  else
    match fuel with
    | O => hang
    | S n =>
        let start := NSMaxRange matchRange in
        '(replaceRange, matchRange') ←
          adjoining_loop (length self) set self matchRange (NSMakeRange start (word (length_ - start)));
        self' ← deleteCharactersInRange self replaceRange;
        removing_loop n set self' (word (length_ - rlength replaceRange))
          (NSMakeRange (word (location matchRange' - rlength replaceRange)) (rlength matchRange'))
    end.

(* @src Feather/Sources/Categories/NSString+MPExtensions.m 429 454 -[NSMutableString removeCharactersInSet:] *)
Definition removeCharactersInSet (set : ascii → bool) (self : list ascii) : res (list ascii) :=
  let length_ := Z.of_nat (length self) in
  matchRange ← rangeOfCharacterFromSet set self (NSMakeRange 0 length_);
  removing_loop (length self) set self length_ matchRange.

(* @src Feather/Sources/Categories/NSString+MPExtensions.m 305 313 -[NSString stringByRemovingCharactersFromSet:] *)
Definition stringByRemovingCharactersFromSet (self : string) (set : ascii → bool) : res string :=
  r ← rangeOfCharacterFromSet set (characters self) (NSMakeRange 0 (Z.of_nat (String.length self)));
  if (rlength r =? 0)%Z then Ok self
  else temp ← removeCharactersInSet set (characters self); Ok (stringOfCharacters temp).

(* @src Feather/Sources/Categories/NSString+MPExtensions.m 316 319 -[NSString stringByRemovingWhitespace] *)
Definition stringByRemovingWhitespace (self : string) : res string :=
  stringByRemovingCharactersFromSet self whitespaceOrNewline.
End removing.

(** ** Slugs

    The patterns are character classes repeated: [-[^...]+] and [-{2,}] match the
    longest runs of characters of the class that are at least one, or two, long. *)
Section slugs.

(** [run] is the run read so far. *)
Fixpoint replaceRuns (class : ascii → bool) (least : nat) (template run l : list ascii) : list ascii :=
  let flushed := if (least <=? length run)%nat then template else run in
  match l with
  | [] => match run with [] => [] | _ => flushed end
  | c :: l' =>
      if class c then replaceRuns class least template (run ++ [c]) l'
      else match run with [] => [] | _ => flushed end ++ c :: replaceRuns class least template [] l'
  end.

(** [-stringByReplacingMatchesInString:options:range:withTemplate:] for the range
    that starts at 0: a range longer than the string raises. *)
Definition stringByReplacingMatches (class : ascii → bool) (least : nat) (template : list ascii)
    (rangeLength : nat) (s : list ascii) : res (list ascii) :=
  if (length s <? rangeLength)%nat then outOfBounds
  else Ok (replaceRuns class least template [] (take rangeLength s) ++ drop rangeLength s).

Definition asciiCharacter (c : ascii) : bool := (nat_of_ascii c <? 128)%nat.
Definition hyphen : ascii := "-".
(** [[a-z0-9\-_\+]], case-insensitive *)
Definition slugCharacter (c : ascii) : bool :=
  alphanumeric c || Ascii.eqb c hyphen || Ascii.eqb c "_" || Ascii.eqb c "+".

(* @src Feather/Sources/Categories/NSString+MPExtensions.m 262 302 -[NSString slugString] *)
Definition slugString (self : string) : res string :=
  let replaceRange := String.length self in
  s ← stringByReplacingMatches (λ c, negb (asciiCharacter c)) 1 [] replaceRange (characters self);
  s ← stringByReplacingMatches (λ c, negb (slugCharacter c)) 1 [hyphen] replaceRange s;
  s ← stringByReplacingMatches (Ascii.eqb hyphen) 2 [hyphen] replaceRange s;
  Ok (lowercaseString (stringByTrimmingCharactersInSet (Ascii.eqb hyphen) (stringOfCharacters s))).
End slugs.

(** ** Four-character codes

    A character of a Mac Roman string stands for its code; [memory] holds what a
    variable was before it is written. *)
Section codes.
Local Open Scope Z_scope.

Definition byteAt (i n : Z) : Z := Z.land (Z.shiftr n (8 * i)) 255.
(** The bytes of a 32-bit variable in memory, lowest first, and back *)
Definition bytesOfWord (n : Z) : list Z := [byteAt 0 n; byteAt 1 n; byteAt 2 n; byteAt 3 n].
Definition wordOfBytes (b : list Z) : Z := foldr (λ x acc, x + 256 * acc) 0 b.
(** The same bytes in the opposite order *)
Definition Endian32_Swap (n : Z) : Z := wordOfBytes (rev (bytesOfWord n)).
Definition macRoman (c : ascii) : Z := Z.of_nat (nat_of_ascii c).
Definition ofMacRoman (b : Z) : ascii := ascii_of_nat (Z.to_nat b).

(* @src Feather/Sources/Categories/NSString+MPExtensions.m 367 372 +[NSString stringWithOSType:] *)
Definition stringWithOSType (type : Z) : string :=
  stringOfCharacters (map ofMacRoman (bytesOfWord (Endian32_Swap type))).

(** [getBytes:length:] copies as many bytes as there are, at most [length]. *)
Definition getBytes (data memory : list Z) : list Z :=
  let n := Nat.min (length data) (length memory) in take n data ++ drop n memory.

(* @src Feather/Sources/Categories/NSString+MPExtensions.m 374 384 -[NSString OSType] *)
Definition OSType (self : string) (type : Z) : Z :=
  let stringData := map macRoman (characters self) in
  Endian32_Swap (wordOfBytes (getBytes stringData (bytesOfWord type))).
End codes.

(** ** Enumerating, and the printable form *)
Section enumerating.
Local Open Scope string_scope.

(** Until the zero that ends a C string *)
Fixpoint enumerate_direct (index : nat) (chars : list ascii) : list (ascii * nat) :=
  match chars with
  | [] => []
  | c :: chars' => if Ascii.eqb c zero then [] else (c, index) :: enumerate_direct (S index) chars'
  end.
Fixpoint enumerate_indexed (index : nat) (chars : list ascii) : list (ascii * nat) :=
  match chars with [] => [] | c :: chars' => (c, index) :: enumerate_indexed (S index) chars' end.

(** The calls of the block; [direct] if [CFStringGetCharactersPtr] gives the storage. *)
(* @src Feather/Sources/Categories/NSString+MPExtensions.m 397 422 -[NSString enumerateCharacters:] *)
Definition enumerateCharacters (self : string) (direct : bool) : list (ascii * nat) :=
  if direct then enumerate_direct 0 (characters self) else enumerate_indexed 0 (characters self).

Definition backslash : ascii := ascii_of_nat 92.
(** The control characters of [toReplace] with the letter of [replaceWith] *)
Definition controls : list (ascii * ascii) :=
  [(ascii_of_nat 0, "0"%char); (ascii_of_nat 7, "a"%char); (ascii_of_nat 8, "b"%char); (ascii_of_nat 9, "t"%char);
   (ascii_of_nat 10, "n"%char); (ascii_of_nat 12, "f"%char); (ascii_of_nat 13, "r"%char); (ascii_of_nat 27, "e"%char)].

(** [-replaceOccurrencesOfString:withString:options:range:] of one character, in the first [n] *)
Definition replaceInRange (n : nat) (x : ascii) (rep : list ascii) (l : list ascii) : list ascii :=
  flat_map (λ c, if Ascii.eqb c x then rep else [c]) (take n l) ++ drop n l.

(* @src Feather/Sources/Categories/NSString+MPExtensions.m 141 152 -[NSString repr] *)
Definition repr (self : string) : string :=
  let myRange := String.length self in
  let myRepr := foldl (λ myRepr '(x, letter), replaceInRange myRange x [backslash; letter] myRepr)
                  (characters self) controls in
  let quote := String (ascii_of_nat 34) "" in
  quote ++ stringOfCharacters myRepr ++ quote.
End enumerating.

(** * What removing does *)
Section removing_filters.
Context (set : ascii → bool).
Implicit Types A l R run : list ascii.
Local Open Scope Z_scope.
Notation Zlength l := (Z.of_nat (length l)).
Notation kept := (List.filter (λ c, negb (set c))).

(** The match a search of [l] from the offset [off] finds *)
Definition matchIn (off : Z) (l : list ascii) : NSRange :=
  match first_matching set 0 l with
  | Some (i, _) => NSMakeRange (off + Z.of_nat i) 1
  | None => NSMakeRange NSNotFound 0
  end.

Lemma range_run A l :
  rangeOfCharacterFromSet set (A ++ l) (NSMakeRange (Zlength A) (Zlength l)) = Ok (matchIn (Zlength A) l).
Proof.
  unfold rangeOfCharacterFromSet. cbn [location rlength]. rewrite length_app.
  destruct (Z.ltb_spec (Z.of_nat (length A + length l)) (Zlength A + Zlength l)); [lia|].
  by rewrite !Nat2Z.id, drop_app_length, firstn_all.
Qed.

Lemma delete_run A run R :
  deleteCharactersInRange (A ++ run ++ R) (NSMakeRange (Zlength A) (Zlength run)) = Ok (A ++ R).
Proof.
  unfold deleteCharactersInRange. cbn [location rlength]. rewrite !length_app.
  match goal with |- context [Z.ltb ?a ?b] => destruct (Z.ltb_spec a b) end; [lia|].
  rewrite Nat2Z.id, take_app_length.
  replace (Z.to_nat (Zlength A + Zlength run)) with (length (A ++ run)) by (rewrite length_app; lia).
  by rewrite app_assoc, drop_app_length.
Qed.

Lemma matchIn_cases off l :
  (matchIn off l = NSMakeRange NSNotFound 0 ∧ kept l = l)
  ∨ ∃ X c Y, l = X ++ c :: Y ∧ set c = true ∧ kept X = X ∧ matchIn off l = NSMakeRange (off + Zlength X) 1.
Proof.
  unfold matchIn. pose proof (first_matching_spec set 0 l) as H.
  destruct (first_matching set 0 l) as [[j c]|].
  - destruct H as (k & -> & Hk & Hc & Hlt). right. exists (take k l), c, (drop (S k) l).
    assert (k < length l)%nat by (apply lookup_lt_is_Some; eauto).
    split_and!; [by rewrite take_drop_middle|done| |].
    + apply filter_bool_id. intros x Hx. apply elem_of_take in Hx as (i & Hx & Hi).
      by rewrite (Hlt i x).
    + rewrite length_take. f_equal. lia.
  - left. split; [done|]. apply filter_bool_id. intros x Hx. by rewrite (H x).
Qed.

Lemma word_small n : 0 ≤ n < NSNotFound → word n = n.
Proof. unfold NSNotFound. intros. apply word_id. lia. Qed.

(** The inner loop takes in all matches that follow without a gap, and ends on the
    first match behind a gap. *)
Lemma adjoining_run fuel A run R :
  Zlength (A ++ run ++ R) < NSNotFound → (length R ≤ fuel)%nat →
  ∃ q, R = q ++ trimLeading set R ∧ kept q = [] ∧
    adjoining_loop fuel set (A ++ run ++ R) (NSMakeRange (Zlength A) (Zlength run))
      (NSMakeRange (Zlength (A ++ run)) (Zlength R))
    = Ok (NSMakeRange (Zlength A) (Zlength (run ++ q)),
          matchIn (Zlength (A ++ run ++ q)) (trimLeading set R)).
Proof.
  revert run R. induction fuel as [|fuel IH]; intros run R Hlen Hfuel.
  all: rewrite !length_app in Hlen; cbn [adjoining_loop]; rewrite app_assoc, range_run; cbn [mbind res_bind].
  { destruct R; cbn in Hfuel; [|lia]. exists []. by rewrite !app_nil_r. }
  destruct R as [|c R]; [exists []; by rewrite !app_nil_r|].
  cbn [trimLeading]. destruct (set c) eqn:E.
  - assert (matchIn (Zlength (A ++ run)) (c :: R) = NSMakeRange (Zlength (A ++ run)) 1) as Hm.
    { unfold matchIn. cbn [first_matching]. rewrite E. f_equal. apply Z.add_0_r. }
    rewrite Hm. cbn [rlength location]. rewrite Z.eqb_refl. cbn [Z.eqb negb orb].
    destruct (IH (run ++ [c]) R) as (q & HR & Hq & Hrun).
    { rewrite !length_app. cbn [length] in *. lia. } { cbn in Hfuel. lia. }
    exists (c :: q). split_and!; [cbn; by f_equal|cbn; by rewrite E|].
    cbn [length] in *. rewrite !word_small by (rewrite ?length_app; cbn [length]; lia).
    replace ((A ++ run) ++ c :: R) with (A ++ (run ++ [c]) ++ R) by by rewrite <- !app_assoc.
    replace (Zlength run + 1) with (Zlength (run ++ [c])) by (rewrite length_app; cbn [length]; lia).
    replace (Zlength (A ++ run) + 1) with (Zlength (A ++ run ++ [c])) by (rewrite !length_app; cbn [length]; lia).
    replace (Z.of_nat (S (length R)) - 1) with (Zlength R) by lia.
    rewrite Hrun. by rewrite <- !app_assoc.
  - exists []. split_and!; [done..|]. rewrite !app_nil_r.
    destruct (matchIn_cases (Zlength (A ++ run)) (c :: R)) as [[-> _]|(X & x & Y & HX & Hx & _ & Hm)]; [done|].
    rewrite Hm. cbn [rlength location Z.eqb orb]. destruct X as [|y X]; [by simplify_eq/=; congruence|].
    match goal with |- context [Z.eqb ?a ?b] => destruct (Z.eqb_spec a b) end; [cbn in *; lia|done].
Qed.

Lemma removing_run fuel A l m :
  Zlength (A ++ l) < NSNotFound → (length l ≤ fuel)%nat →
  rlength m = rlength (matchIn (Zlength A) l) →
  (0 < rlength m → location m = location (matchIn (Zlength A) l)) →
  removing_loop fuel set (A ++ l) (Zlength (A ++ l)) m = Ok (A ++ kept l).
Proof.
  revert A l m. induction fuel as [|fuel IH]; intros A l [loc len] Hlen Hfuel Hl Hloc;
    cbn [rlength location] in *; cbn [removing_loop rlength];
    destruct (matchIn_cases (Zlength A) l) as [[Hm Hk]|(X & c & Y & -> & Hc & HX & Hm)];
    rewrite Hm in Hl, Hloc; cbn [rlength location] in Hl, Hloc; subst len; rewrite ?Hk; try done.
  { rewrite length_app in Hfuel. cbn in Hfuel. lia. }
  rewrite Hloc by lia. cbn [Z.leb Z.compare]. rewrite !length_app in Hfuel. rewrite !length_app in Hlen. cbn [length] in Hfuel, Hlen.
  assert (NSMaxRange (NSMakeRange (Zlength A + Zlength X) 1) = Zlength ((A ++ X) ++ [c])) as Hmax.
  { unfold NSMaxRange. cbn [location rlength]. rewrite word_small, !length_app by lia. cbn [length]. lia. }
  rewrite Hmax.
  assert (word (Zlength (A ++ X ++ c :: Y) - Zlength ((A ++ X) ++ [c])) = Zlength Y) as Hrest.
  { rewrite !length_app. cbn [length]. rewrite word_small by lia. lia. }
  rewrite Hrest.
  destruct (adjoining_run (length (A ++ X ++ c :: Y)) (A ++ X) [c] Y) as (q & HY & Hq & Hrun).
  { rewrite !length_app. cbn [length]. lia. } { rewrite !length_app. cbn [length]. lia. }
  replace ((A ++ X) ++ [c] ++ Y) with (A ++ X ++ c :: Y) in Hrun by by rewrite <- app_assoc.
  replace (NSMakeRange (Zlength A + Zlength X) 1) with (NSMakeRange (Zlength (A ++ X)) (Zlength [c]))
    by (rewrite length_app; cbn [length]; f_equal; lia).
  rewrite Hrun. cbn [mbind res_bind]. set (B := trimLeading set Y) in *.
  replace (A ++ X ++ c :: Y) with ((A ++ X) ++ ([c] ++ q) ++ B) by (rewrite HY, <- !app_assoc; done).
  rewrite delete_run. cbn [mbind res_bind rlength location].
  assert (Zlength Y = Zlength q + Zlength B) as HlY by (rewrite HY, length_app at 1; lia).
  replace (word (Zlength ((A ++ X) ++ ([c] ++ q) ++ B) - Zlength ([c] ++ q)))
    with (Zlength ((A ++ X) ++ B)) by (rewrite !length_app; cbn [length]; rewrite word_small by lia; lia).
  rewrite IH.
  - rewrite HY. rewrite !List.filter_app. cbn [List.filter]. rewrite Hc. cbn [negb].
    rewrite List.filter_app, Hq, HX. by rewrite <- app_assoc.
  - rewrite !length_app. lia.
  - lia.
  - cbn [rlength]. unfold matchIn. by destruct (first_matching set 0 B) as [[]|].
  - cbn [rlength location]. unfold matchIn. destruct (first_matching set 0 B) as [[i x]|] eqn:E; cbn [rlength location]; [intros _|lia].
    pose proof (first_matching_spec set 0 B) as Hs. rewrite E in Hs. destruct Hs as (k & -> & Hk & _).
    apply lookup_lt_Some in Hk. rewrite !length_app. cbn [length]. rewrite word_small by lia. lia.
Qed.
End removing_filters.

(** Removing the characters of a set from a mutable string is a filter:
    the two nested loops, which delete whole runs and shift positions in machine words as
    they go, always end, stay in bounds, and leave exactly the characters that are not in
    the set, in their order; the immutable variant gives the same string, and the
    receiver itself when there is nothing to remove. *)
Theorem removing_is_filtering set self :
  (Z.of_nat (String.length self) < NSNotFound)%Z →
  removeCharactersInSet set (characters self) = Ok (List.filter (λ c, negb (set c)) (characters self)) ∧
  stringByRemovingCharactersFromSet self set
  = Ok (stringOfCharacters (List.filter (λ c, negb (set c)) (characters self))).
Proof.
  intros Hlen. assert (length (characters self) = String.length self) as El.
  { clear. induction self as [|c s IH]; [done|]. cbn. by rewrite IH. }
  pose proof (range_run set [] (characters self)) as Hr. change (Z.of_nat (length [])) with 0%Z in Hr. cbn [app] in Hr.
  assert (removeCharactersInSet set (characters self) = Ok (List.filter (λ c, negb (set c)) (characters self))) as Hrem.
  { unfold removeCharactersInSet. rewrite Hr. cbn [mbind res_bind].
    pose proof (removing_run set (length (characters self)) [] (characters self) (matchIn set 0 (characters self))) as H.
    cbn [app] in H. rewrite El in *. by apply H. }
  split; [done|]. unfold stringByRemovingCharactersFromSet. rewrite <- El, Hr. cbn [mbind res_bind].
  destruct (matchIn_cases set 0 (characters self)) as [[Hm Hk]|(X & c & Y & _ & _ & _ & Hm)];
    rewrite Hm; cbn [rlength Z.eqb].
  - by rewrite Hk, String.string_of_list_ascii_of_string.
  - by rewrite Hrem.
Qed.

Lemma removing_is_filtering_witness :
  stringByRemovingWhitespace " a  b c " = Ok "abc"%string.
Proof.
  destruct (removing_is_filtering whitespaceOrNewline " a  b c ") as [_ H]; [vm_compute; reflexivity|].
  unfold stringByRemovingWhitespace. rewrite H. reflexivity.
Defined.

(** * Slugs *)
Section slug_theory.
Implicit Types (P : ascii → bool) (x : ascii) (l run : list ascii).

(** Two neighbours of the class [P]; [b] tells whether the character in front is one. *)
Fixpoint adjacent P (b : bool) l : bool :=
  match l with [] => false | c :: l' => (b && P c) || adjacent P (P c) l' end.
(** Every run of [P] becomes one [x]. *)
Fixpoint squash P x (b : bool) l : list ascii :=
  match l with
  | [] => []
  | c :: l' => if P c then (if b then squash P x true l' else x :: squash P x true l')
               else c :: squash P x false l'
  end.
Definition substituted P x l : list ascii := map (λ c, if P c then x else c) l.

Lemma replaceRuns_nil P run l : replaceRuns P 1 [] run l = List.filter (λ c, negb (P c)) l.
Proof.
  revert run. induction l as [|c l IH]; intros run; cbn [replaceRuns List.filter].
  - by destruct run.
  - destruct (P c); cbn [negb]; [apply IH|]. rewrite IH. by destruct run.
Qed.

(** For a pattern that wants runs of two, one [x] alone is what it would be replaced by. *)
Lemma replaceRuns_squash P x least run l :
  (least = 1%nat ∨ (least = 2%nat ∧ ∀ c, P c = true → c = x)) → Forall (λ c, P c = true) run →
  replaceRuns P least [x] run l
  = match run with [] => squash P x false l | _ => x :: squash P x true l end.
Proof.
  intros Hl. assert (∀ r, Forall (λ c, P c = true) r → r ≠ [] → (if (least <=? length r)%nat then [x] else r) = [x]) as Hf.
  { intros r Hr Hne. destruct Hl as [->|[-> Hx]]; destruct r as [|c [|d r]]; try done.
    apply Forall_inv in Hr. cbn. by rewrite (Hx c). }
  revert run. induction l as [|c l IH]; intros run Hr; cbn [replaceRuns squash].
  - destruct run as [|y run]; [done|]. by apply Hf.
  - destruct (P c) eqn:E.
    + rewrite IH by (apply Forall_app; split; [done|by constructor]). by destruct run.
    + rewrite IH by constructor. destruct run as [|y run]; [done|]. by rewrite Hf.
Qed.

Lemma squash_length P x b l : (length (squash P x b l) ≤ length l)%nat.
Proof.
  revert b. induction l as [|c l IH]; intros b; cbn; [done|].
  pose proof (IH true). pose proof (IH false). destruct (P c), b; cbn; lia.
Qed.
Lemma squash_adjacent P x b l :
  if adjacent P b l then (length (squash P x b l) < length l)%nat else squash P x b l = substituted P x l.
Proof.
  revert b. induction l as [|c l IH]; intros b; cbn; [done|].
  pose proof (squash_length P x true l). specialize (IH (P c)).
  destruct (P c), b; cbn in *; try lia; destruct (adjacent P _ l); cbn; try lia; by f_equal.
Qed.
Lemma adjacent_squash P x b l : P x = true → adjacent P b (squash P x b l) = false.
Proof.
  intros Hx. revert b. induction l as [|c l IH]; intros b; cbn [squash]; [done|].
  destruct (P c) eqn:E; [destruct b; [apply IH|]|]; cbn [adjacent]; rewrite ?Hx, ?E, IH; by rewrite ?andb_false_r.
Qed.
Lemma adjacent_app_l P b l k : adjacent P b (l ++ k) = false → adjacent P b l = false.
Proof. revert b. induction l as [|c l IH]; intros b; cbn; [done|]. rewrite !orb_false_iff. intros [? ?]; auto. Qed.
Lemma adjacent_app_r P b l k : adjacent P b (l ++ k) = false → adjacent P false k = false.
Proof.
  revert b. induction l as [|c l IH]; intros b; cbn [adjacent app].
  - destruct k as [|d k]; [done|]. cbn. by intros [_ ?]%orb_false_iff.
  - intros [_ H]%orb_false_iff. eauto.
Qed.
Lemma adjacent_map P (f : ascii → ascii) b l : (∀ c, P (f c) = P c) → adjacent P b (map f l) = adjacent P b l.
Proof. intros Hf. revert b. induction l as [|c l IH]; intros b; cbn; [done|]. by rewrite Hf, IH. Qed.
Lemma adjacent_none P b l : Forall (λ c, P c = false) l → adjacent P b l = false.
Proof. intros H. revert b. induction H as [|c l Hc _ IH]; intros b; cbn; [done|]. by rewrite Hc, IH, andb_false_r. Qed.
Lemma substituted_id P x l : Forall (λ c, P c = true → c = x) l → substituted P x l = l.
Proof.
  unfold substituted. induction 1 as [|c l Hc _ IH]; [done|]. cbn. rewrite IH. destruct (P c); [by rewrite Hc|done].
Qed.

Lemma length_characters s : length (characters s) = String.length s.
Proof. induction s as [|c s IH]; [done|]. cbn. by rewrite IH. Qed.
Lemma filter_length_lt P l :
  if forallb P l then List.filter P l = l else (length (List.filter P l) < length l)%nat.
Proof.
  induction l as [|c l IH]; [done|]. cbn. destruct (P c); cbn.
  - destruct (forallb P l); [by f_equal|cbn; lia].
  - pose proof (filter_length_le P l). lia.
Qed.

Lemma not_forallb P l : forallb P l = false → Exists (λ c, P c = false) l.
Proof.
  induction l as [|c l IH]; [done|]. cbn. intros [H|H]%andb_false_iff; [by apply Exists_cons_hd|].
  apply Exists_cons_tl. auto.
Qed.

(** What every slug is made of, and how it is normalised *)
Definition slugLetter (c : ascii) : bool := slugCharacter c && negb (uppercaseLetter c).
Definition slugOf l : list ascii :=
  map lower_ascii (trimmedList (Ascii.eqb hyphen)
    (squash (Ascii.eqb hyphen) hyphen false (substituted (λ c, negb (slugCharacter c)) hyphen l))).
Record slugShaped l : Prop := {
  shaped_letters : Forall (λ c, slugLetter c = true) l;
  shaped_single : adjacent (Ascii.eqb hyphen) false l = false;
  shaped_start : startsOutside (Ascii.eqb hyphen) l;
  shaped_end : startsOutside (Ascii.eqb hyphen) (rev l)
}.

Ltac ascii_cases c := destruct c as [[] [] [] [] [] [] [] []]; vm_compute; try done.
Lemma slug_ascii c : slugCharacter c = true → asciiCharacter c = true.
Proof. ascii_cases c. Qed.
Lemma lower_hyphen c : Ascii.eqb hyphen (lower_ascii c) = Ascii.eqb hyphen c.
Proof. ascii_cases c. Qed.
Lemma lower_slug c : slugCharacter c = true → slugLetter (lower_ascii c) = true.
Proof. ascii_cases c. Qed.
Lemma lower_letter c : slugLetter c = true → lower_ascii c = c.
Proof. ascii_cases c. Qed.
Lemma letter_slug c : slugLetter c = true → slugCharacter c = true.
Proof. by intros [? _]%andb_true_iff. Qed.

Lemma startsOutside_lower l :
  startsOutside (Ascii.eqb hyphen) l → startsOutside (Ascii.eqb hyphen) (map lower_ascii l).
Proof. destruct l as [|c l]; [done|]. cbn [map startsOutside]. by rewrite lower_hyphen. Qed.

Lemma squash_slug l : Forall (λ c, slugCharacter c = true) l →
  ∀ b, Forall (λ c, slugCharacter c = true) (squash (Ascii.eqb hyphen) hyphen b l).
Proof.
  induction 1 as [|c l Hc _ IH]; intros b; cbn [squash]; [done|].
  destruct (Ascii.eqb hyphen c); [destruct b; [apply IH|]|]; by constructor.
Qed.

Lemma slugOf_shaped l : slugShaped (slugOf l).
Proof.
  unfold slugOf. set (k := squash _ _ _ _).
  destruct (trimming_spec (Ascii.eqb hyphen) k) as (p & q & Hk & _ & _ & Hs & He).
  set (t := trimmedList _ k) in *.
  assert (Forall (λ c, slugCharacter c = true) k) as Hall.
  { unfold k. apply squash_slug, Forall_map, Forall_true. intros c. by destruct (slugCharacter c) eqn:E. }
  rewrite Hk, !Forall_app in Hall. destruct Hall as (_ & Hall & _).
  assert (adjacent (Ascii.eqb hyphen) false k = false) as Hadj by (by apply adjacent_squash).
  rewrite Hk in Hadj. apply adjacent_app_r, adjacent_app_l in Hadj. split.
  - apply Forall_map. eapply Forall_impl; [exact Hall|]. intros c. apply lower_slug.
  - by rewrite adjacent_map by apply lower_hyphen.
  - by apply startsOutside_lower.
  - rewrite <- map_rev. by apply startsOutside_lower.
Qed.

Lemma slugOf_id l : slugShaped l → slugOf l = l.
Proof.
  intros [Hl Hs H1 H2]. unfold slugOf. rewrite substituted_id.
  - pose proof (squash_adjacent (Ascii.eqb hyphen) hyphen false l) as Hq. rewrite Hs in Hq.
    rewrite Hq, substituted_id, trimmedList_id by (done || (apply Forall_true; by intros c <-%Ascii.eqb_eq)).
    clear -Hl. induction Hl as [|c l Hc _ IH]; [done|]. cbn. by rewrite lower_letter, IH.
  - eapply Forall_impl; [exact Hl|]. intros c Hc. by rewrite (letter_slug c Hc).
Qed.

Lemma replacing_run class least template n l :
  (length l ≤ n)%nat →
  stringByReplacingMatches class least template n l
  = if (n <=? length l)%nat then Ok (replaceRuns class least template [] l) else outOfBounds.
Proof.
  intros Hn. unfold stringByReplacingMatches. destruct (Nat.ltb_spec (length l) n), (Nat.leb_spec n (length l)); try lia; [done|].
  replace n with (length l) by lia. by rewrite firstn_all, drop_all, app_nil_r.
Qed.

(** The three replacements all use the length the string had at first. *)
Lemma slugString_run self :
  slugString self
  = if forallb asciiCharacter (characters self) && negb (adjacent (λ c, negb (slugCharacter c)) false (characters self))
    then Ok (stringOfCharacters (slugOf (characters self))) else outOfBounds.
Proof.
  unfold slugString. rewrite <- length_characters. set (l := characters self).
  rewrite replacing_run, Nat.leb_refl by done. cbn [mbind res_bind]. rewrite replaceRuns_nil.
  pose proof (filter_length_lt asciiCharacter l) as Hf.
  assert (List.filter (λ c, negb (negb (asciiCharacter c))) l = List.filter asciiCharacter l) as ->
    by (apply filter_ext; intros c; apply negb_involutive).
  destruct (forallb asciiCharacter l); cbn [andb].
  2:{ rewrite replacing_run by lia. destruct (Nat.leb_spec (length l) (length (List.filter asciiCharacter l))); [lia|done]. }
  rewrite Hf, replacing_run, Nat.leb_refl by done. cbn [mbind res_bind].
  rewrite replaceRuns_squash by (by left || constructor).
  pose proof (squash_length (λ c, negb (slugCharacter c)) hyphen false l) as Hle.
  pose proof (squash_adjacent (λ c, negb (slugCharacter c)) hyphen false l) as Ha.
  rewrite replacing_run by done.
  destruct (adjacent _ false l); cbn [negb].
  { match goal with |- context [Nat.leb ?a ?b] => destruct (Nat.leb_spec a b) end; [lia|done]. }
  rewrite Ha. unfold substituted at 1. rewrite length_map, Nat.leb_refl. cbn [mbind res_bind].
  rewrite replaceRuns_squash.
  - unfold stringByTrimmingCharactersInSet, lowercaseString, slugOf.
    by rewrite !String.list_ascii_of_string_of_list_ascii.
  - right. split; [done|]. by intros c <-%Ascii.eqb_eq.
  - constructor.
Qed.
End slug_theory.

(** Slugs: [-slugString] returns exactly for strings of ASCII characters of
    which no two neighbours are outside of a slug's alphabet; for every other string one
    of its replacements shortens the string and the next one, still asking for the range
    the string had at first, raises.  What it returns are lower-case letters, digits,
    plus, underscore and hyphen, no two hyphens in a row and none at either end, and a
    slug is its own slug. *)
Theorem slug_or_exception self :
  match slugString self with
  | Ok s =>
      Forall (λ c, asciiCharacter c = true) (characters self) ∧
      adjacent (λ c, negb (slugCharacter c)) false (characters self) = false ∧
      slugShaped (characters s) ∧ slugString s = Ok s
  | Throw e =>
      e = Exception "NSRangeException" "" ∧
      (Exists (λ c, asciiCharacter c = false) (characters self) ∨
       adjacent (λ c, negb (slugCharacter c)) false (characters self) = true)
  end.
Proof.
  rewrite slugString_run. destruct (forallb asciiCharacter (characters self)) eqn:Ea; cbn [andb].
  2:{ split; [done|]. left. by apply not_forallb. }
  destruct (adjacent _ false (characters self)) eqn:Ed; cbn [negb]; [split; [done|by right]|].
  rewrite String.list_ascii_of_string_of_list_ascii. pose proof (slugOf_shaped (characters self)) as Hs.
  split_and!; [|done..|].
  - apply Forall_forall. intros c Hc. rewrite forallb_forall in Ea. apply Ea. by apply list_elem_of_In.
  - rewrite slugString_run, String.list_ascii_of_string_of_list_ascii. rewrite (slugOf_id _ Hs).
    pose proof (shaped_letters _ Hs) as Hl.
    rewrite (proj2 (forallb_forall asciiCharacter _)).
    2:{ intros c Hc%list_elem_of_In. rewrite Forall_forall in Hl. by apply slug_ascii, letter_slug, Hl. }
    rewrite adjacent_none; [done|]. eapply Forall_impl; [exact Hl|]. intros c Hc. by rewrite (letter_slug c Hc).
Qed.

Example slug_of_a_title : slugString "Hello World-1" = Ok "hello-world-1"%string.
Proof. vm_compute. reflexivity. Qed.
Example slug_of_two_spaces : slugString "Hello, World" = Throw (Exception "NSRangeException" "").
Proof. vm_compute. reflexivity. Qed.

(** * Four-character codes *)
Section code_theory.
Local Open Scope Z_scope.
Implicit Types n m b : Z.

Definition byte b : Prop := 0 ≤ b < 256.
Definition bigEndian (l : list Z) : Z := wordOfBytes (rev l).

Lemma byteAt_div i n : 0 ≤ i → byteAt i n = (n / 256 ^ i) mod 256.
Proof.
  intros Hi. unfold byteAt. change 255 with (Z.ones 8). rewrite Z.land_ones, Z.shiftr_div_pow2 by lia.
  by rewrite Z.pow_mul_r by lia.
Qed.
Lemma byteAt_byte i n : 0 ≤ i → byte (byteAt i n).
Proof. intros Hi. rewrite byteAt_div by done. apply Z.mod_pos_bound. lia. Qed.

Lemma bytesOfWord_bytes n : Forall byte (bytesOfWord n).
Proof. repeat constructor; apply byteAt_byte; lia. Qed.

(** Four bytes and their word *)
Lemma bytesOfWord_word l : length l = 4%nat → Forall byte l → bytesOfWord (wordOfBytes l) = l.
Proof.
  destruct l as [|b0 [|b1 [|b2 [|b3 [|]]]]]; try done. intros _ H.
  repeat (apply Forall_cons in H as [? H]). unfold byte, wordOfBytes, bytesOfWord in *. cbn [foldr].
  rewrite !byteAt_div by lia. repeat f_equal; change (256 ^ 0) with 1; change (256 ^ 1) with 256;
    change (256 ^ 2) with 65536; change (256 ^ 3) with 16777216; Z.div_mod_to_equations; lia.
Qed.
Lemma wordOfBytes_bytes n : 0 ≤ n < 2 ^ 32 → wordOfBytes (bytesOfWord n) = n.
Proof.
  intros Hn. unfold wordOfBytes, bytesOfWord. cbn [foldr]. rewrite !byteAt_div by lia.
  change (256 ^ 0) with 1; change (256 ^ 1) with 256; change (256 ^ 2) with 65536; change (256 ^ 3) with 16777216.
  Z.div_mod_to_equations; lia.
Qed.
Lemma wordOfBytes_bound l : length l = 4%nat → Forall byte l → 0 ≤ wordOfBytes l < 2 ^ 32.
Proof.
  destruct l as [|b0 [|b1 [|b2 [|b3 [|]]]]]; try done. intros _ H.
  repeat (apply Forall_cons in H as [? H]). unfold byte, wordOfBytes in *. cbn [foldr]. lia.
Qed.
Lemma Forall_rev_bytes l : Forall byte l → Forall byte (rev l).
Proof. rewrite !Forall_forall. intros H x Hx. apply H. apply list_elem_of_In, in_rev, list_elem_of_In in Hx. done. Qed.

Lemma macRoman_byte c : byte (macRoman c).
Proof. unfold byte, macRoman. pose proof (nat_ascii_bounded c). lia. Qed.
Lemma ofMacRoman_macRoman c : ofMacRoman (macRoman c) = c.
Proof. unfold ofMacRoman, macRoman. by rewrite Nat2Z.id, ascii_nat_embedding. Qed.
Lemma macRoman_ofMacRoman b : byte b → macRoman (ofMacRoman b) = b.
Proof. unfold byte, ofMacRoman, macRoman. intros. rewrite nat_ascii_embedding; lia. Qed.
Lemma macRoman_all l : Forall byte (map macRoman l).
Proof. apply Forall_map, Forall_true. intros c. apply macRoman_byte. Qed.
Lemma codes_all l : Forall byte l → map macRoman (map ofMacRoman l) = l.
Proof. induction 1 as [|b l Hb _ IH]; [done|]. cbn. by rewrite macRoman_ofMacRoman, IH. Qed.
Lemma characters_all l : map ofMacRoman (map macRoman l) = l.
Proof. induction l as [|c l IH]; [done|]. cbn. by rewrite ofMacRoman_macRoman, IH. Qed.

(** The code of a string is made of its first four characters and, where there are
    fewer, of what was in memory. *)
Lemma OSType_run self memory :
  OSType self memory
  = bigEndian (take 4 (map macRoman (characters self)) ++ drop (String.length self) (bytesOfWord memory)).
Proof.
  unfold OSType, Endian32_Swap, bigEndian, getBytes.
  set (l := take _ _ ++ drop _ _). set (k := take 4 _ ++ _).
  assert (l = k) as <-.
  { unfold l, k. rewrite length_map, length_characters. change (length (bytesOfWord memory)) with 4%nat.
    destruct (Nat.le_ge_cases 4 (String.length self)).
    - rewrite Nat.min_r, (drop_ge _ (String.length self)) by (cbn; lia). done.
    - rewrite Nat.min_l, (take_ge _ 4) by (rewrite ?length_map, ?length_characters; lia). f_equal.
      apply take_ge. rewrite length_map, length_characters. lia. }
  rewrite bytesOfWord_word; [done| |].
  - unfold l. rewrite length_app, length_take, length_drop, length_map. cbn. lia.
  - unfold l. apply Forall_app. split; [apply Forall_take, macRoman_all|apply Forall_drop, bytesOfWord_bytes].
Qed.
End code_theory.

(** Four-character codes: the string of a 32-bit code has four characters,
    and its code is the code again; a string of four characters or more has a 32-bit code
    that does not depend on what was in memory, and whose string is its first four
    characters.  A shorter string takes the missing bytes from memory: any two
    memories with other bytes there give it other codes. *)
Theorem OSType_roundtrip :
  (∀ type memory, (0 ≤ type < 2 ^ 32)%Z →
     String.length (stringWithOSType type) = 4%nat ∧ OSType (stringWithOSType type) memory = type) ∧
  (∀ self memory, (4 ≤ String.length self)%nat →
     (0 ≤ OSType self memory < 2 ^ 32)%Z ∧ OSType self memory = OSType self 0 ∧
     stringWithOSType (OSType self memory) = substringToIndex self 4) ∧
  (∀ self m m', (String.length self < 4)%nat →
     OSType self m = OSType self m' ↔
     drop (String.length self) (bytesOfWord m) = drop (String.length self) (bytesOfWord m')).
Proof.
  assert (∀ l, length l = 4%nat → Forall byte l → bytesOfWord (Endian32_Swap (bigEndian l)) = l) as Hsw.
  { intros l Hl Hb. unfold Endian32_Swap, bigEndian.
    rewrite (bytesOfWord_word (rev l)) by (rewrite ?length_rev; by try apply Forall_rev_bytes).
    by rewrite rev_involutive, bytesOfWord_word. }
  split_and!.
  - intros type memory Ht. unfold stringWithOSType. set (l := bytesOfWord (Endian32_Swap type)).
    assert (String.length (stringOfCharacters (map ofMacRoman l)) = 4%nat) as Hlen.
    { rewrite <- length_characters, String.list_ascii_of_string_of_list_ascii. by rewrite length_map. }
    split; [done|]. rewrite OSType_run, Hlen, String.list_ascii_of_string_of_list_ascii.
    rewrite (drop_ge _ 4), app_nil_r, codes_all by (done || apply bytesOfWord_bytes).
    rewrite take_ge by done. unfold bigEndian, l, Endian32_Swap.
    rewrite bytesOfWord_word by (try apply Forall_rev_bytes; done || apply bytesOfWord_bytes).
    by rewrite rev_involutive, wordOfBytes_bytes.
  - intros self memory Hlen. rewrite !OSType_run, !(drop_ge (bytesOfWord _)), !app_nil_r by (cbn; lia).
    set (l := take 4 (map macRoman (characters self))).
    assert (length l = 4%nat) as Hl by (unfold l; rewrite length_take, length_map, length_characters; lia).
    assert (Forall byte l) as Hb by (apply Forall_take, macRoman_all).
    split_and!; [..|done|].
    + by apply wordOfBytes_bound; rewrite ?length_rev; [|apply Forall_rev_bytes].
    + by apply wordOfBytes_bound; rewrite ?length_rev; [|apply Forall_rev_bytes].
    + unfold stringWithOSType. rewrite Hsw by done. unfold l. rewrite <- firstn_map, characters_all.
      unfold substringToIndex. clear. generalize 4%nat as n. intros n. revert self.
      induction n as [|n IH]; intros [|c s]; try done. cbn. by rewrite IH.
  - intros self m m' Hlen. rewrite !OSType_run. set (l := take 4 _).
    assert (length l = String.length self) as Hl by (unfold l; rewrite length_take, length_map, length_characters; lia).
    assert (∀ k, length (l ++ drop (String.length self) (bytesOfWord k)) = 4%nat ∧
                 Forall byte (l ++ drop (String.length self) (bytesOfWord k))) as Hk.
    { intros k. split; [rewrite length_app, length_drop, Hl; cbn; lia|].
      apply Forall_app. split; [apply Forall_take, macRoman_all|apply Forall_drop, bytesOfWord_bytes]. }
    split; [|by intros ->]. intros E. apply (f_equal (λ n, bytesOfWord (Endian32_Swap n))) in E.
    rewrite !Hsw in E by apply Hk. by apply app_inv_head in E.
Qed.

(** * White space *)
Section whitespace_theory.
Local Open Scope string_scope.
Notation space := whitespaceOrNewline.
Notation joined := (componentsJoinedBy " "%char).
Implicit Types s w : string.

Lemma firstIn_app set a b : a ≠ "" → firstIn set (a ++ b) = firstIn set a.
Proof. by destruct a. Qed.
Lemma lastIn_app set a b : b ≠ "" → lastIn set (a ++ b) = lastIn set b.
Proof.
  intros Hb. unfold lastIn. rewrite ascii_list_app, rev_app_distr.
  destruct (rev (characters b)) as [|c l] eqn:E; [|done].
  apply (f_equal (@length _)) in E. rewrite length_rev, length_characters in E. by destruct b.
Qed.

Lemma word_ends w : isName w = true → w ≠ "" ∧ firstIn space w = false ∧ lastIn space w = false.
Proof.
  unfold isName. intros [Hn Hs%negb_true_iff]%andb_true_iff.
  assert (w ≠ "") as Hne by (by intros ->). split; [done|].
  assert (∀ c, c ∈ characters w → space c = false) as Hall.
  { clear Hn Hne. induction w as [|x w IH]; cbn; intros c; [by intros ?%elem_of_nil|].
    cbn in Hs. apply orb_false_iff in Hs as [Hx Hs]. intros [->|]%elem_of_cons; auto. }
  unfold firstIn, lastIn. split.
  - destruct (characters w) as [|c l]; [done|]. apply Hall. by left.
  - destruct (rev (characters w)) as [|c l] eqn:E; [done|]. apply Hall.
    apply list_elem_of_In, in_rev. rewrite E. by left.
Qed.

Lemma names_words s : Forall (λ w, isName w = true) (names s).
Proof.
  pose proof (components_words s) as H. unfold names. induction H as [|w ws Hw _ IH]; [done|].
  cbn [List.filter]. destruct (nonempty w) eqn:E; [|done]. constructor; [|done].
  unfold isName. by rewrite E, Hw.
Qed.

Lemma joined_snoc ws w : joined (ws ++ [w]) = match ws with [] => w | _ => joined ws ++ " " ++ w end.
Proof. destruct ws as [|x ws]; [done|]. cbn [app]. unfold componentsJoinedBy. by rewrite foldl_app. Qed.

Lemma append_nonempty_r s w : w ≠ "" → s ++ w ≠ "".
Proof. by destruct s. Qed.

(** Joined words neither start nor end with white space. *)
Lemma joined_ends ws : Forall (λ w, isName w = true) ws → ws ≠ [] →
  joined ws ≠ "" ∧ firstIn space (joined ws) = false ∧ lastIn space (joined ws) = false.
Proof.
  intros H. induction ws as [|w ws IH] using rev_ind; [done|]. intros _.
  apply Forall_app in H as [Hws Hw]. apply Forall_inv, word_ends in Hw as (Hne & Hf & Hl).
  rewrite joined_snoc. destruct ws as [|x ws]; [done|]. destruct (IH Hws) as (H1 & H2 & _); [done|].
  split_and!.
  - by apply append_nonempty_r.
  - by rewrite firstIn_app.
  - rewrite <- string_app_assoc. by rewrite lastIn_app.
Qed.

Lemma names_joined_names s : names (joined (names s)) = names s.
Proof.
  rewrite names_joined.
  - pose proof (names_words s) as H. induction H as [|w ws Hw _ IH]; [done|].
    cbn [List.filter]. apply andb_true_iff in Hw as [-> _]. by rewrite IH.
  - eapply Forall_impl; [apply names_words|]. cbn. by intros w [_ ?%negb_true_iff]%andb_true_iff.
Qed.

Definition lead (b : bool) : string := if b then " " else "".

Lemma normalizing_run s a b : s ≠ "" →
  stringByNormalizingWhitespaceAllowLeading s a b
  = lead (a && firstIn space s) ++ joined (names s) ++ lead (b && lastIn space s).
Proof.
  intros Hs. unfold stringByNormalizingWhitespaceAllowLeading.
  destruct (Nat.ltb_spec (String.length s) 1); [by destruct s; cbn in *; [|lia]|].
  change (List.filter (λ object, negb (String.eqb object "")) (componentsSeparatedByCharactersInSet space
    (stringByTrimmingWhitespaceAndNewlines s))) with (names (stringByTrimmingCharactersInSet space s)).
  rewrite names_trimmed. unfold lead.
  by destruct (a && firstIn space s), (b && lastIn space s); cbn [andb]; rewrite ?string_app_nil_r.
Qed.
End whitespace_theory.

(** Normalising white space keeps the words: the result is the words of
    the string separated by single spaces, with one space in front (behind) exactly if
    that is allowed and the string starts (ends) with white space; normalising again
    changes nothing - except for a string of white space alone, which becomes two
    spaces if both are allowed. *)
Theorem whitespace_is_normalised self a b :
  let normalized := stringByNormalizingWhitespaceAllowLeading self a b in
  names normalized = names self ∧
  (self ≠ ""%string → normalized
     = String.append (lead (a && firstIn whitespaceOrNewline self))
         (String.append (componentsJoinedBy " "%char (names self)) (lead (b && lastIn whitespaceOrNewline self)))) ∧
  (names self ≠ [] → stringByNormalizingWhitespaceAllowLeading normalized a b = normalized) ∧
  (self ≠ ""%string → names self = [] → a = true → b = true → normalized = "  "%string).
Proof.
  intros normalized. destruct (decide (self = ""%string)) as [->|Hne]; [by repeat split|].
  assert (normalized = _) as Hn by (by apply normalizing_run).
  assert (∀ p q, names (String.append (lead p) (String.append (componentsJoinedBy " "%char (names self)) (lead q))) = names self) as Hnames.
  { intros p q. rewrite names_space_left, names_space_right by by (unfold lead; case_match).
    apply names_joined_names. }
  split_and!; [by rewrite Hn|done| |].
  - intros Hw. destruct (joined_ends _ (names_words self) Hw) as (Hj & Hf & Hl).
    set (j := componentsJoinedBy " "%char (names self)) in *.
    rewrite (normalizing_run normalized).
    + rewrite Hn at 2 4. rewrite Hnames. rewrite Hn. f_equal; [|f_equal]; f_equal.
      * destruct (a && firstIn whitespaceOrNewline self) eqn:Ea; cbn [lead].
        -- apply andb_true_iff in Ea as [-> _]. done.
        -- change (String.append "" ?x) with x. rewrite firstIn_app, Hf by done. apply andb_false_r.
      * destruct (b && lastIn whitespaceOrNewline self) eqn:Eb; cbn [lead].
        -- apply andb_true_iff in Eb as [-> _]. by rewrite <- string_app_assoc, lastIn_app.
        -- rewrite string_app_nil_r, lastIn_app, Hl by done. apply andb_false_r.
    + rewrite Hn. by destruct (a && _); destruct j.
  - intros Hs Hw -> ->. rewrite Hn, Hw. cbn [andb].
    assert (forallb whitespaceOrNewline (characters self) = true) as Hall.
    { clear Hn Hnames normalized Hne Hs. rewrite <- allSpace_list, String.string_of_list_ascii_of_string.
      induction self as [|c s IH]; [done|]. cbn [allSpace]. destruct (whitespaceOrNewline c) eqn:E.
      - apply IH. change (String c s) with (String.append "" (String c s)) in Hw. by rewrite names_app in Hw.
      - exfalso. unfold names in Hw. cbn [componentsSeparatedByCharactersInSet] in Hw. rewrite E in Hw.
        by destruct (componentsSeparatedByCharactersInSet whitespaceOrNewline s). }
    rewrite forallb_forall in Hall.
    assert (firstIn whitespaceOrNewline self = true) as ->.
    { unfold firstIn. destruct self as [|c s]; [done|]. apply Hall. by left. }
    assert (lastIn whitespaceOrNewline self = true) as ->; [|done].
    unfold lastIn. destruct (rev (characters self)) as [|c l] eqn:E.
    + apply (f_equal (@length _)) in E. rewrite length_rev, length_characters in E. by destruct self.
    + apply Hall, in_rev. rewrite E. by left.
Qed.

(** * Loops over characters *)
Section loops.
Local Open Scope string_scope.
Implicit Types s : string.

Lemma get_characters s i : String.get i s = characters s !! i.
Proof. revert i. induction s as [|c s IH]; intros [|i]; try done. apply IH. Qed.
Lemma substring_drop s i : substringFromIndex s i = stringOfCharacters (drop i (characters s)).
Proof.
  unfold substringFromIndex. revert i. induction s as [|c s IH]; intros [|i]; cbn; try done.
  f_equal. clear. induction s as [|c s IH]; cbn; [done|]. by rewrite IH.
Qed.
Lemma substring_take s n : String.substring 0 n s = stringOfCharacters (take n (characters s)).
Proof. revert s. induction n as [|n IH]; intros [|c s]; try done. cbn. by rewrite IH. Qed.

Lemma leading_run s fuel i :
  (String.length s ≤ i + fuel)%nat →
  drop (leadingWhitespace_loop fuel i s) (characters s) = trimLeading whitespace (drop i (characters s)).
Proof.
  revert i. induction fuel as [|fuel IH]; intros i Hf; cbn [leadingWhitespace_loop].
  - by rewrite drop_ge by (rewrite length_characters; lia).
  - rewrite get_characters. destruct (Nat.ltb_spec i (String.length s)); cbn [andb].
    + destruct (lookup_lt_is_Some_2 (characters s) i) as [c Hc]; [by rewrite length_characters|].
      rewrite Hc. rewrite (drop_S _ _ _ Hc). cbn [trimLeading]. destruct (whitespace c).
      * rewrite IH by lia. by replace (i + 1)%nat with (S i) by lia.
      * by rewrite (drop_S _ _ _ Hc).
    + by rewrite drop_ge by (rewrite length_characters; lia).
Qed.

Lemma trailing_run set l n : (n ≤ length l)%nat →
  take (trailing_loop set l n) l = rev (trimLeading set (rev (take n l))).
Proof.
  induction n as [|n IH]; intros Hn; cbn [trailing_loop]; [done|].
  destruct (lookup_lt_is_Some_2 l n) as [c Hc]; [lia|].
  rewrite Hc, (take_S_r _ _ _ Hc), rev_app_distr. cbn [rev app trimLeading]. destruct (set c); cbn [negb].
  - apply IH. lia.
  - cbn [rev]. rewrite rev_involutive. by apply take_S_r.
Qed.

(** Trimming at one end is what the loops do. *)
Theorem trimming_one_end s set :
  stringByTrimmingLeadingWhitespace s = stringOfCharacters (trimLeading whitespace (characters s)) ∧
  stringByTrimmingTrailingCharactersInSet s set
  = stringOfCharacters (rev (trimLeading set (rev (characters s)))).
Proof.
  unfold stringByTrimmingLeadingWhitespace, stringByTrimmingTrailingCharactersInSet.
  rewrite substring_drop, substring_take, leading_run by lia. split; [done|].
  rewrite trailing_run by by rewrite length_characters. by rewrite <- length_characters, firstn_all.
Qed.

(** The two ways to enumerate agree only as far as the first zero character. *)
Theorem enumeration_depends_on_storage s :
  enumerateCharacters s true = enumerateCharacters s false ↔ hasChar zero s = false.
Proof.
  unfold enumerateCharacters. generalize 0%nat as i. induction s as [|c s IH]; intros i; [done|].
  cbn [String.list_ascii_of_string enumerate_direct enumerate_indexed hasChar].
  destruct (Ascii.eqb c zero); cbn [orb]; [done|]. rewrite <- (IH (S i)). split; [by intros [= H]|by intros ->].
Qed.

Lemma indexOf_spec pattern s :
  match indexOf pattern s with
  | Some i => ∃ a b, s = a ++ pattern ++ b ∧ i = String.length a
      ∧ ∀ j, (j < i)%nat → String.prefix pattern (substringFromIndex s j) = false
  | None => ∀ j, String.prefix pattern (substringFromIndex s j) = false
  end.
Proof.
  assert (∀ c t j, substringFromIndex (String c t) (S j) = substringFromIndex t j) as HS by done.
  assert (∀ t, substringFromIndex t 0 = t) as H0.
  { intros t. rewrite substring_drop. apply String.string_of_list_ascii_of_string. }
  assert (∀ t, String.prefix pattern t = true → ∃ b, t = pattern ++ b) as Hpre.
  { induction pattern as [|c p IHp]; intros t; [by exists t|]. destruct t as [|d t]; cbn; [done|].
    destruct (ascii_dec c d) as [->|]; [|done]. intros [b ->]%IHp. by exists b. }
  induction s as [|c s IH].
  - cbn [indexOf]. destruct (String.prefix pattern "") eqn:E.
    + destruct (Hpre _ E) as [b Hb]. exists "", b. split_and!; [done..|]. intros; lia.
    + intros [|j]; [by rewrite H0|]. done.
  - cbn [indexOf]. destruct (String.prefix pattern (String c s)) eqn:E.
    + destruct (Hpre _ E) as [b Hb]. exists "", b. split_and!; [done..|]. intros; lia.
    + destruct (indexOf pattern s) as [i|]; cbn [fmap option_fmap option_map].
      * destruct IH as (a & b & -> & -> & Hlt). exists (String c a), b. split_and!; [done..|].
        intros [|j] Hj; [by rewrite H0|]. rewrite HS. apply Hlt. cbn in Hj. lia.
      * intros [|j]; [by rewrite H0|]. by rewrite HS.
Qed.

(** A string is what stands before the first occurrence of another one, that one, and what
    stands after it. *)
Theorem substrings_around s pattern : pattern ≠ "" →
  match substringBefore s pattern, substringAfter s pattern with
  | Some a, Some b =>
      s = a ++ pattern ++ b ∧ substringUpToEndOfFirstOccurrenceOfString s pattern = Some (a ++ pattern)
      ∧ ∀ j, (j < String.length a)%nat → String.prefix pattern (substringFromIndex s j) = false
  | None, None => ∀ j, String.prefix pattern (substringFromIndex s j) = false
  | _, _ => False
  end.
Proof.
  intros Hp. unfold substringBefore, substringAfter, substringUpToEndOfFirstOccurrenceOfString, rangeOfString.
  destruct (String.eqb_spec pattern ""); [done|]. pose proof (indexOf_spec pattern s) as H.
  destruct (indexOf pattern s) as [i|]; cbn; [|done]. destruct H as (a & b & -> & -> & Hlt).
  unfold substringToIndex. rewrite !substring_take, substring_drop, !ascii_list_app.
  rewrite <- (length_characters a), <- (length_characters pattern), take_app_length.
  assert (drop (length (characters a) + length (characters pattern)) (characters a ++ characters pattern ++ characters b)%list
          = characters b) as ->.
  { rewrite <- length_app, app_assoc. by rewrite drop_app_length. }
  assert (take (length (characters a) + length (characters pattern)) (characters a ++ characters pattern ++ characters b)%list
          = (characters a ++ characters pattern)%list) as ->.
  { rewrite <- length_app, app_assoc. by rewrite take_app_length. }
  rewrite string_of_list_app, !String.string_of_list_ascii_of_string. by split_and!.
Qed.

(** A control character is left alone when earlier ones have pushed it out of the range
    the string had at first. *)
Example repr_forgets_the_end :
  repr (String (ascii_of_nat 9) (String (ascii_of_nat 10) ""))
  = String (ascii_of_nat 34) (String backslash (String "t" (String (ascii_of_nat 10) (String (ascii_of_nat 34) "")))).
Proof. reflexivity. Qed.
End loops.

Lemma trailing_example : stringByTrimmingTrailingWhitespace "ab  " = "ab"%string.
Proof. reflexivity. Qed.
