(* ===== verification/ReferenceRuntime.v ===== *)
(** * A class table on which the witnesses run

    It plays no part in the theorems, which hold for every class table: two
    model classes with a controller, one of them subclassed, two embedded
    classes, and a key-value-observing proxy class. *)
From Stdlib Require Import Ascii.
From stdpp Require Import base tactics strings numbers list gmap.
From S2P Require Import Prelude ObjC.

Module ReferenceRuntime.
Local Open Scope string_scope.

Definition rt : Runtime := {|
  rt_classes := [("NSObject", None); ("CBLModel", Some "NSObject");
                 ("NSString", Some "NSObject"); ("NSNumber", Some "NSObject");
                 ("NSArray", Some "NSObject"); ("NSDictionary", Some "NSObject");
                 ("NSSet", Some "NSObject");
                 ("MPManagedObject", Some "CBLModel"); ("MPSection", Some "MPManagedObject");
                 ("MPParagraph", Some "MPSection"); ("MPNote", Some "MPManagedObject");
                 ("NSKVONotifying_MPNote", Some "MPNote");
                 ("MPMetadata", Some "CBLModel"); ("MPLocalMetadata", Some "CBLModel");
                 ("MPManagedObjectsController", Some "NSObject");
                 ("MPSectionsController", Some "MPManagedObjectsController");
                 ("MPNotesController", Some "MPManagedObjectsController");
                 ("MPDatabasePackageController", Some "NSObject");
                 ("MPManuscriptsPackageController", Some "MPDatabasePackageController");
                 ("MPEmbeddedObject", Some "NSObject"); ("MPStyle", Some "MPEmbeddedObject");
                 ("MPColor", Some "MPEmbeddedObject")];
  rt_properties c :=
    if String.eqb c "MPSection" then [("title", "T@NSString,C,N,V_title"); ("style", "T@MPStyle,&,N,V_style");
                                      ("root", "T@MPRootSection,&,N,V_root"); ("count", "TQ,R,N,V_count")]
    else [];
  rt_propertyClass c p :=
    if String.eqb p "style" then Some "MPStyle"
    else if String.eqb p "color" then Some "MPColor"
    else if String.eqb p "title" then Some "NSString"
    else if String.eqb p "creator" then Some "MPNote"
    else if String.eqb p "parent" then Some "MPSection"
    else if String.eqb p "embeddedStyles" then Some "NSArray" else None;
  rt_conforms _ _ := false;
  rt_responds c sel :=
    String.eqb c "MPManuscriptsPackageController" &&
    (String.eqb sel "sectionsController" || String.eqb sel "notesController")
|}.

Lemma rt_wf : runtime_wf rt = true.
Proof. reflexivity. Qed.
End ReferenceRuntime.
