(* ===== verification/Classes.v ===== *)
(** * Classes, their controllers and their notifications

    The part of Feather that works on the class table of the runtime:
    subclass enumeration and common ancestors (NSObject+MPExtensions.m), the
    controller class and the controller property of a model class
    (MPManagedObjectsController.m, MPDatabasePackageController.m), and the
    names of the notifications posted for a model class
    (NSNotificationCenter+MPManagedObjectExtensions.m). *)
From Stdlib Require Import Ascii.
From stdpp Require Import base tactics strings numbers list gmap.
From S2P Require Import Prelude ObjC ReferenceRuntime.

Section classes.
Context (rt : Runtime).
Local Open Scope string_scope.
Notation isSubclassOfClass := (isSubclassOfClass rt).
Notation superclass := (superclass rt).
Notation inherits := (inherits rt).

(** ** Subclasses *)

(** The [do ... while (superClass && superClass != self)] walk: a proper ancestor. *)
Definition hasProperAncestor (c d : string) : bool :=
  match superclass c with Some p => isSubclassOfClass p d | None => false end.

(* @src Feather/Sources/Categories/NSObject+MPExtensions.m 27 66 +[NSObject _subclasses] *)
Definition subclasses (self : string) : list string :=
  List.filter (λ c, negb (hasPrefix c "NSKVONotifying") && hasProperAncestor c self)
    (rt_classes rt).*1.

(** [-removeObject:] of a mutable array removes every occurrence. *)
Definition removeObject (x : string) (l : list string) : list string :=
  List.filter (λ y, negb (String.eqb x y)) l.

(** The work-list loop shared by [-managedObjectSubclasses] and [+descendingClasses]. *)
Fixpoint collateSubclasses (fuel : nat) (worklist : list string) (acc : gset string) : gset string :=
  match fuel, worklist with
  | S n, subcls :: _ =>
      collateSubclasses n (removeObject subcls worklist) (acc ∪ list_to_set (subclasses subcls))
  | _, _ => acc
  end.

(* @src Feather/Sources/Categories/NSObject+MPExtensions.m 68 93 +[NSObject descendingClasses] *)
Definition descendingClasses (self : string) : gset string :=
  let subs := subclasses self in
  collateSubclasses (length subs) subs ({[self]} ∪ list_to_set subs).

(* @src Feather/Sources/Categories/NSObject+MPExtensions.m 95 111 +[NSObject classesMatchingPattern:] *)
Definition classesMatchingPattern (patternBlock : string → bool) : list string :=
  List.filter patternBlock (rt_classes rt).*1.

(** [property_getAttributes(class_getProperty(self, key))]: the declaration in the
    class or in the closest superclass that has one. *)
Fixpoint class_getProperty (fuel : nat) (self key : string) : option string :=
  match list_find (λ pa, pa.1 = key) (rt_properties rt self) with
  | Some (_, (_, attribs)) => Some attribs
  | None => match fuel, superclass self with
            | S n, Some p => class_getProperty n p key
            | _, _ => None
            end
  end.

(* @src Feather/Sources/Categories/NSObject+MPExtensions.m 113 135 +[NSObject propertyWithKeyIsReadWrite:] *)
Definition propertyWithKeyIsReadWrite (self key : string) : bool :=
  match class_getProperty (class_count rt) self key with
  | None => false
  | Some attribs =>
      let components := componentsSeparatedBy ","%char attribs in
      forallb (λ c, negb (existsb (Ascii.eqb "R"%char) (String.list_ascii_of_string c)))
        (take (length components - 1) components)
  end.

(** [while ((parent = class_getSuperclass(parent)) != nil && parent != b)] *)
Definition properAncestorEqual (c d : string) : option string :=
  if hasProperAncestor c d then Some d else None.

(* @src Feather/Sources/Categories/NSObject+MPExtensions.m 137 162 +[NSObject commonAncestorForClass:andClass:] *)
Fixpoint commonAncestor_fuel (fuel : nat) (a b : option string) : option string :=
  match fuel with
  | O => None
  | S n =>
      match a, b with
      | Some a', Some b' =>
          if String.eqb a' b' then a
          else match properAncestorEqual a' b' with
               | Some parent =>
                   if negb (String.eqb parent "NSObject") then Some parent
                   else match properAncestorEqual b' a' with
                        | Some p => Some p
                        | None => match commonAncestor_fuel n (superclass a') b with
                                  | Some c => Some c
                                  | None => commonAncestor_fuel n (superclass b') a
                                  end
                        end
               | None =>
                   match properAncestorEqual b' a' with
                   | Some p => Some p
                   | None => match commonAncestor_fuel n (superclass a') b with
                             | Some c => Some c
                             | None => commonAncestor_fuel n (superclass b') a
                             end
                   end
               end
      | _, _ => None
      end
  end.
Definition commonAncestorForClass (a b : string) : option string :=
  commonAncestor_fuel (2 * class_count rt + 3) (Some a) (Some b).

(* @src Feather/Sources/Categories/NSObject+MPExtensions.m 195 220 +[NSObject _propertyKeys] *)
Fixpoint propertyKeys_fuel (fuel : nat) (self : string) : gset string :=
  match fuel with
  | O => ∅
  | S n =>
      if String.eqb self "NSObject" then ∅
      else list_to_set (rt_properties rt self).*1 ∪
           match superclass self with Some p => propertyKeys_fuel n p | None => ∅ end
  end.
Definition propertyKeys (self : string) : gset string := propertyKeys_fuel (S (class_count rt)) self.

(* @src Feather/Sources/Categories/NSObject+MPExtensions.m 164 186 +[NSObject propertiesOfSubclassesForClass:matching:] *)
Definition propertiesOfSubclassesForClass (class : string) (patternBlock : string → string → bool)
    : gmap string (gset string) :=
  foldr (λ moClass dict,
           <[moClass := filter (λ propName, patternBlock moClass propName = true) (propertyKeys moClass)]> dict)
    ∅ (subclasses class ++ [class]).

(* @src Feather/Sources/Model/MPEmbeddedPropertyContainingMixin.m 24 48 +[MPEmbeddedPropertyContainingMixin embeddedPropertiesMap] *)
Definition embeddedPropertiesMap (self : string) : gmap string (gset string) :=
  propertiesOfSubclassesForClass self
    (λ _ key, match rt_propertyClass rt self key with
              | Some propertyClass => isSubclassOfClass propertyClass "MPEmbeddedObject"
              | None => false
              end).

(* @src Feather/Sources/Model/MPEmbeddedPropertyContainingMixin.m 50 53 +[MPEmbeddedPropertyContainingMixin embeddedProperties] *)
Definition embeddedProperties (self : string) : gset string :=
  default ∅ (embeddedPropertiesMap self !! self).

(** [[key isMatchedByRegex:@"^cached\\w{1,}"]] *)
Definition word_character (c : Ascii.ascii) : bool := alphanumeric c || Ascii.eqb c "_"%char.
Definition hasCachedPrefix (key : string) : bool :=
  hasPrefix key "cached" &&
  match String.get 6 key with Some c => word_character c | None => false end.

(* @src Feather/Sources/Model/MPCacheableMixin.m 19 41 +[MPCacheableMixin cachedPropertiesByClassNameForBaseClass:] *)
Definition cachedPropertiesByClassNameForBaseClass (cls : string) : gmap string (gset string) :=
  propertiesOfSubclassesForClass cls (λ c key, hasCachedPrefix key && propertyWithKeyIsReadWrite c key).

(** ** Model classes and controller classes *)
Definition MPManagedObject_class : string := "MPManagedObject".
Definition MPManagedObjectsController_class : string := "MPManagedObjectsController".

(* @src Feather/Sources/Model/MPManagedObject.m 799 802 +[MPManagedObject isConcrete] *)
Definition isConcrete (self : string) : bool := bool_decide (subclasses self = []).

(* @src Feather/Sources/Model Controllers/MPManagedObjectsController.m 180 196 +[MPManagedObjectsController managedObjectClasses] *)
Definition managedObjectClasses : list string := subclasses MPManagedObject_class.

(* @src Feather/Sources/Model Controllers/MPManagedObjectsController.m 215 231 +[MPManagedObjectsController managedObjectClassByControllerClassNameDictionary] *)
Definition managedObjectClassByControllerClassNameDictionary : gmap string string :=
  foldl (λ controllers className, <[pluralizedString className ++ "Controller" := className]> controllers)
    ∅ managedObjectClasses.

(* @src Feather/Sources/Model Controllers/MPManagedObjectsController.m 260 263 +[MPManagedObjectsController managedObjectClass] *)
Definition MOC_managedObjectClass_of (controllerClass : string) : option string :=
  managedObjectClassByControllerClassNameDictionary !! controllerClass.

(* @src Feather/Sources/Model Controllers/MPManagedObjectsController.m 270 276 -[MPManagedObjectsController managedObjectClass] *)
Definition MOC_managedObjectClass (controllerClass : string) : res string :=
  match MOC_managedObjectClass_of controllerClass with
  | None => Throw (AssertionFailed "moClass")
  | Some moClass =>
      _ ← assert_ (isSubclassOfClass moClass MPManagedObject_class) "[moClass isSubclassOfClass:[MPManagedObject class]]";
      mret moClass
  end.

(* @src Feather/Sources/Model Controllers/MPManagedObjectsController.m 278 309 -[MPManagedObjectsController managedObjectSubclasses] *)
Definition managedObjectSubclasses (controllerClass : string) : res (gset string) :=
  if String.eqb controllerClass MPManagedObjectsController_class
  then Throw (Exception "MPAbstractClassException" controllerClass)
  else cls ← MOC_managedObjectClass controllerClass;
       mret (descendingClasses cls).

(* @src Feather/Sources/Model Controllers/MPManagedObjectsController.m 326 329 -[MPManagedObjectsController managesObjectsOfClass:] *)
Definition managesObjectsOfClass (controllerClass class : string) : res bool :=
  subs ← managedObjectSubclasses controllerClass; mret (bool_decide (class ∈ subs)).

(* @src Feather/Sources/Model Controllers/MPManagedObjectsController.m 233 258 +[MPManagedObjectsController equivalenceClassForManagedObjectClass:] *)
Definition equivalenceClassDictionary : gmap string string :=
  foldl (λ d mocClass,
           match MOC_managedObjectClass_of mocClass with
           | None => d
           | Some oClass => foldl (λ d' oSubclass, <[oSubclass := mocClass]> d') d (subclasses oClass ++ [oClass])
           end)
    ∅ (subclasses MPManagedObjectsController_class).
Definition equivalenceClassForManagedObjectClass (moClass : string) : res string :=
  _ ← assert_ (isSubclassOfClass moClass MPManagedObject_class) "Expecting subclass of MPManagedObject";
  let classString := replaceOccurrences "NSKVONotifying_" "" moClass in
  match equivalenceClassDictionary !! classString ≫= MOC_managedObjectClass_of with
  | None => Throw (AssertionFailed "Unexpected equivalence class")
  | Some equivalenceClass =>
      _ ← assert_ (isSubclassOfClass equivalenceClass MPManagedObject_class) "Unexpected equivalence class";
      mret equivalenceClass
  end.

(* @src Feather/Sources/Database Packages/MPDatabasePackageController.m 459 467 +[MPDatabasePackageController controllerPropertyNameForManagedObjectClass:] *)
Definition controllerPropertyNameForManagedObjectClass (cls : string) : string :=
  camelCased (pluralizedString (dropPrefix "MP" cls)) ++ "Controller".

(* @src Feather/Sources/Database Packages/MPDatabasePackageController.m 469 474 +[MPDatabasePackageController controllerPropertyNameForManagedObjectControllerClass:] *)
Definition controllerPropertyNameForManagedObjectControllerClass (cls : string) : string :=
  camelCased (dropPrefix "MP" cls).

(** The loop of [_controllerClassForManagedObjectClass:] and
    [_controllerForManagedObjectClass:]: from [class] towards [MPManagedObject],
    which itself is not tried unless it is where the walk starts. *)
Fixpoint climb {A} (fuel : nat) (found : string → option A) (class : option string) : res (option A) :=
  match fuel, class with
  | S n, Some c =>
      _ ← assert_ (hasPrefix c "MP") "[className isMatchedByRegex:^MP]";
      match found c with
      | Some a => mret (Some a)
      | None =>
          if bool_decide (superclass c = Some MPManagedObject_class) then mret None
          else climb n found (superclass c)
      end
  | S _, None => Throw (AssertionFailed "[className isMatchedByRegex:^MP]")
  | O, _ => mret None
  end.

(* @src Feather/Sources/Database Packages/MPDatabasePackageController.m 535 553 +[MPDatabasePackageController _controllerClassForManagedObjectClass:] *)
Definition controllerClass_uncached (class : string) : res (option string) :=
  climb (S (class_count rt)) (λ c, NSClassFromString rt (pluralizedString c ++ "Controller")) (Some class).

(** The dictionary built by the first call, under [dispatch_once]. *)
Fixpoint controllerClassDictionary (classes : list string) (dict : gmap string string) : res (gmap string string) :=
  match classes with
  | [] => mret dict
  | cls :: rest =>
      controllerClass ← controllerClass_uncached cls;
      controllerClassDictionary rest
        (match controllerClass with Some k => <[cls := k]> dict | None => dict end)
  end.

(* @src Feather/Sources/Database Packages/MPDatabasePackageController.m 555 574 +[MPDatabasePackageController controllerClassForManagedObjectClass:] *)
Definition controllerClassForManagedObjectClass (class : string)
    : M (option (gmap string string)) (option string) :=
  _ ← NSAssert (isSubclassOfClass class MPManagedObject_class) "Unexpected type";
  static ← gets id;
  dict ← (match static with
          | Some dict => mret dict
          | None => dict ← lift (controllerClassDictionary (subclasses MPManagedObject_class ++ [class]) ∅);
                    _ ← modify (λ _, Some dict);
                    mret dict
          end);
  mret (dict !! class).

(** ** Notification names *)

(* @src Feather/Sources/Categories/NSNotificationCenter+MPManagedObjectExtensions.h 33 37 MPChangeType *)
Inductive MPChangeType : Type := MPChangeTypeAdd | MPChangeTypeUpdate | MPChangeTypeRemove.

#[export] Instance MPChangeType_eq_dec : EqDecision MPChangeType.
Proof. solve_decision. Defined.

(* @src Feather/Sources/Categories/NSNotificationCenter+MPManagedObjectExtensions.m 35 38 +[NSNotificationCenter managedObjectChangeTypes] *)
Definition managedObjectChangeTypes : list MPChangeType :=
  [MPChangeTypeAdd; MPChangeTypeRemove; MPChangeTypeUpdate].

(* @src Feather/Sources/Categories/NSNotificationCenter+MPManagedObjectExtensions.m 40 47 +[NSNotificationCenter managedObjectChangeTypeStrings] *)
Definition managedObjectChangeTypeString (t : MPChangeType) : string :=
  match t with
  | MPChangeTypeAdd => "Add"
  | MPChangeTypeUpdate => "Update"
  | MPChangeTypeRemove => "Remove"
  end.

(** The two names of a change: the recent one, ["has"], and the past one, ["did"]. *)
Record notificationNames : Type := { has_name : string; did_name : string }.

(** One entry of the dictionary; mixins are left out. *)
Definition notificationNamesFor (changeType : MPChangeType) (subclass : string)
    : M (option (gmap string string)) (option notificationNames) :=
  if hasSuffix subclass "Mixin" then mret None
  else
    closest ← controllerClassForManagedObjectClass subclass;
    match closest with
    | None => throw (AssertionFailed "closestControllerClass")
    | Some closestControllerClass =>
        match MOC_managedObjectClass_of closestControllerClass with
        | None => throw (AssertionFailed "closestModelClass")
        | Some closestModelClass =>
            _ ← NSAssert (negb (String.eqb closestModelClass MPManagedObject_class))
                  "closestModelClass != [MPManagedObject class]";
            _ ← NSAssert (isSubclassOfClass subclass closestModelClass)
                  "[subclass isSubclassOfClass:closestModelClass]";
            let unprefixed := dropPrefix "MP" closestModelClass in
            let changeTypeStr := managedObjectChangeTypeString changeType in
            mret (Some {| has_name := "has" ++ stringByTranslatingPresentToPastTense changeTypeStr ++ unprefixed;
                          did_name := "did" ++ changeTypeStr ++ unprefixed |})
        end
    end.

Fixpoint changeTypesForClasses (changeType : MPChangeType) (classes : list string)
    (d : gmap string notificationNames) : M (option (gmap string string)) (gmap string notificationNames) :=
  match classes with
  | [] => mret d
  | subclass :: rest =>
      names ← notificationNamesFor changeType subclass;
      changeTypesForClasses changeType rest
        (match names with Some n => <[subclass := n]> d | None => d end)
  end.

Fixpoint changeTypeDict (types : list MPChangeType)
    : M (option (gmap string string)) (list (MPChangeType * gmap string notificationNames)) :=
  match types with
  | [] => mret []
  | changeType :: rest =>
      d ← changeTypesForClasses changeType (subclasses MPManagedObject_class) ∅;
      ds ← changeTypeDict rest;
      mret ((changeType, d) :: ds)
  end.

(* @src Feather/Sources/Categories/NSNotificationCenter+MPManagedObjectExtensions.m 49 99 +[NSNotificationCenter managedObjectNotificationNameDictionary] *)
Definition managedObjectNotificationNameDictionary
    : res (list (MPChangeType * gmap string notificationNames)) :=
  (changeTypeDict managedObjectChangeTypes None).1.

Definition namesOfChange (changeType : MPChangeType) (moClass : string) : res (option notificationNames) :=
  d ← managedObjectNotificationNameDictionary;
  mret (match list_find (λ td, td.1 = changeType) d with
        | Some (_, (_, names)) => names !! moClass
        | None => None
        end).

(* @src Feather/Sources/Categories/NSNotificationCenter+MPManagedObjectExtensions.m 101 110 +[NSNotificationCenter notificationNameForRecentChangeOfType:forManagedObjectClass:] *)
Definition notificationNameForRecentChange (changeType : MPChangeType) (moClass : string) : res string :=
  _ ← assert_ (isSubclassOfClass moClass MPManagedObject_class) "[moClass isSubclassOfClass:[MPManagedObject class]]";
  _ ← assert_ (negb (String.eqb moClass MPManagedObject_class)) "moClass != [MPManagedObject class]";
  names ← namesOfChange changeType moClass;
  match names with
  | Some n => mret (has_name n)
  | None => Throw (AssertionFailed "notificationName")
  end.

(* @src Feather/Sources/Categories/NSNotificationCenter+MPManagedObjectExtensions.m 112 121 +[NSNotificationCenter notificationNameForPastChangeOfType:forManagedObjectClass:] *)
Definition notificationNameForPastChange (changeType : MPChangeType) (moClass : string) : res string :=
  _ ← assert_ (isSubclassOfClass moClass MPManagedObject_class) "[moClass isSubclassOfClass:[MPManagedObject class]]";
  _ ← assert_ (negb (String.eqb moClass MPManagedObject_class)) "moClass != [MPManagedObject class]";
  names ← namesOfChange changeType moClass;
  match names with
  | Some n => mret (did_name n)
  | None => Throw (AssertionFailed "notificationName")
  end.
End classes.

(** ** The class hierarchy *)
Section hierarchy.
Context (rt : Runtime) (wf : runtime_wf rt = true).
Local Open Scope string_scope.
Notation inherits := (inherits rt).
Notation superclass := (superclass rt).

Lemma inherits_cases c d : inherits c d ↔ c = d ∨ ∃ p, superclass c = Some p ∧ inherits p d.
Proof.
  split.
  - intros [x|x y z Hxy Hyz]; [by left|right; eauto].
  - intros [->|(p & Hp & Hi)]; [apply rtc_refl|by eapply rtc_l].
Qed.

Lemma hasProperAncestor_spec c d :
  hasProperAncestor rt c d = true ↔ ∃ p, superclass c = Some p ∧ inherits p d.
Proof.
  unfold hasProperAncestor. destruct (superclass c) as [p|].
  - rewrite isSubclassOfClass_spec by done. split; [eauto|]. intros (q & [= ->] & H). done.
  - split; [done|]. by intros (p & ? & ?).
Qed.

Lemma subclasses_spec c d :
  c ∈ subclasses rt d ↔
  c ∈ (rt_classes rt).*1 ∧ hasPrefix c "NSKVONotifying" = false ∧ ∃ p, superclass c = Some p ∧ inherits p d.
Proof.
  unfold subclasses. rewrite filter_bool_elem, andb_true_iff, negb_true_iff, hasProperAncestor_spec.
  naive_solver.
Qed.

Lemma subclasses_trans c d e : c ∈ subclasses rt d → d ∈ subclasses rt e → c ∈ subclasses rt e.
Proof.
  rewrite !subclasses_spec. intros (Hc & Hk & p & Hp & Hi) (_ & _ & q & Hq & Hj).
  split_and!; [done|done|]. exists p. split; [done|]. unfold ObjC.inherits in *.
  etrans; [exact Hi|]. by eapply rtc_l.
Qed.

Lemma superclass_declared c p : superclass c = Some p → c ∈ (rt_classes rt).*1.
Proof.
  unfold ObjC.superclass. destruct (find_class c (rt_classes rt)) as [q|] eqn:E; [|done].
  apply find_class_elem in E. intros _. apply list_elem_of_fmap. by exists (c, q).
Qed.

Lemma removeObject_length x l : x ∈ l → (length (removeObject x l) < length l)%nat.
Proof.
  unfold removeObject. induction l as [|y l IH]; [by intros ?%elem_of_nil|].
  intros [->|H]%elem_of_cons; cbn.
  - rewrite String.eqb_refl. cbn. pose proof (filter_length_le (λ y0, negb (String.eqb y y0)) l). lia.
  - specialize (IH H). destruct (negb _); cbn; lia.
Qed.

(** The work list only adds classes already known. *)
Lemma collateSubclasses_closed d fuel work acc :
  (∀ c, c ∈ work → c ∈ subclasses rt d) → list_to_set (subclasses rt d) ⊆ acc →
  collateSubclasses rt fuel work acc = acc.
Proof.
  revert work acc. induction fuel as [|n IH]; intros work acc Hw Ha; [by destruct work|].
  destruct work as [|s work]; [done|]. cbn [collateSubclasses].
  assert (acc ∪ list_to_set (subclasses rt s) = acc) as E.
  { apply set_eq. intros c. rewrite elem_of_union, elem_of_list_to_set. split; [|by left].
    intros [?|Hc]; [done|]. apply Ha, elem_of_list_to_set. eapply subclasses_trans; [done|].
    apply Hw, list_elem_of_here. }
  rewrite E. apply IH; [|done]. intros c [Hc _]%filter_bool_elem. by apply Hw.
Qed.

Lemma descendingClasses_spec c d :
  c ∈ descendingClasses rt d ↔ c = d ∨ c ∈ subclasses rt d.
Proof.
  unfold descendingClasses. rewrite (collateSubclasses_closed d); [|done|set_solver].
  rewrite elem_of_union, elem_of_singleton, elem_of_list_to_set. done.
Qed.

(** ** Common ancestors *)
Definition least_common_ancestor (a b c : string) : Prop :=
  inherits a c ∧ inherits b c ∧ ∀ d, inherits a d → inherits b d → inherits c d.

Lemma lca_sym a b c : least_common_ancestor a b c → least_common_ancestor b a c.
Proof. intros (H1 & H2 & H3). split_and!; [done|done|]. intros d Hb Ha. by apply H3. Qed.

Lemma rooted_super n c p : rooted rt n c = true → superclass c = Some p → ∃ n', n = S n' ∧ rooted rt n' p = true.
Proof. destruct n; cbn; intros H E; rewrite E in H; [done|eauto]. Qed.

(** Going from [a] to its superclass loses no common ancestor with [b], unless
    [a] itself is one. *)
Lemma lca_step a p b c :
  superclass a = Some p → ¬ inherits b a → least_common_ancestor p b c → least_common_ancestor a b c.
Proof.
  intros Hp Hn (H1 & H2 & H3). split_and!; [by eapply rtc_l|done|].
  intros d Ha Hb. apply inherits_cases in Ha as [->|(q & Hq & Hi)]; [done|].
  apply H3; [|done]. congruence.
Qed.

Lemma common_step a b d :
  inherits a d → inherits b d → ¬ inherits b a → ∃ p, superclass a = Some p ∧ inherits p d.
Proof. intros Ha Hb Hn. by apply inherits_cases in Ha as [->|Hp]. Qed.

Definition lca_result (a b : string) (r : option string) : Prop :=
  match r with
  | Some c => least_common_ancestor a b c
  | None => ∀ d, inherits a d → inherits b d → False
  end.

(** The two recursive calls at the end of the method. *)
Lemma lca_climb n fuel m a b :
  (∀ n m a b, rooted rt n a = true → rooted rt m b = true → (n + m + 1 ≤ fuel)%nat →
     lca_result a b (commonAncestor_fuel rt fuel (Some a) (Some b))) →
  rooted rt n a = true → rooted rt m b = true → (n + m ≤ fuel)%nat → ¬ inherits b a →
  lca_result a b
    (match commonAncestor_fuel rt fuel (superclass a) (Some b) with
     | Some c => Some c
     | None => commonAncestor_fuel rt fuel (superclass b) (Some a)
     end).
Proof.
  intros IH Ha Hb Hf Hn.
  assert (∀ o, commonAncestor_fuel rt fuel None o = None) as Hnil by by destruct fuel.
  destruct (superclass a) as [p|] eqn:Ep.
  - destruct (rooted_super _ _ _ Ha Ep) as (n' & -> & Hp).
    pose proof (IH n' m p b Hp Hb ltac:(lia)) as H1.
    destruct (commonAncestor_fuel rt fuel (Some p) (Some b)) as [c|]; cbn in H1.
    { by eapply lca_step. }
    assert (∀ d, inherits a d → inherits b d → False) as Hno.
    { intros d Hd1 Hd2. destruct (common_step a b d Hd1 Hd2 Hn) as (q & Hq & Hi).
      simplify_eq. eauto. }
    destruct (superclass b) as [q|] eqn:Eq; [|rewrite Hnil; done].
    destruct (rooted_super _ _ _ Hb Eq) as (m' & -> & Hq).
    pose proof (IH m' (S n') q a Hq Ha ltac:(lia)) as H2.
    destruct (commonAncestor_fuel rt fuel (Some q) (Some a)) as [c|]; [|done].
    destruct H2 as (H3 & H4 & _). exfalso. eapply Hno; [exact H4|]. by eapply rtc_l.
  - rewrite Hnil. assert (∀ d, inherits a d → inherits b d → False) as Hno.
    { intros d Hd1 Hd2. destruct (common_step a b d Hd1 Hd2 Hn) as (q & Hq & Hi). congruence. }
    destruct (superclass b) as [q|] eqn:Eq; [|rewrite Hnil; done].
    destruct (rooted_super _ _ _ Hb Eq) as (m' & -> & Hq).
    pose proof (IH m' n q a Hq Ha ltac:(lia)) as H2.
    destruct (commonAncestor_fuel rt fuel (Some q) (Some a)) as [c|]; [|done].
    destruct H2 as (H3 & H4 & _). exfalso. eapply Hno; [exact H4|]. by eapply rtc_l.
Qed.

Lemma hasProperAncestor_inherits a b : hasProperAncestor rt a b = true → inherits a b.
Proof. rewrite hasProperAncestor_spec by done. intros (p & ? & ?). by eapply rtc_l. Qed.

Lemma not_hasProperAncestor a b : a ≠ b → hasProperAncestor rt a b = false → ¬ inherits a b.
Proof.
  intros Hne Hf Hi. apply inherits_cases in Hi as [->|Hp]; [done|].
  apply hasProperAncestor_spec in Hp. congruence.
Qed.

Lemma lca_of_ancestor a b : inherits a b → least_common_ancestor a b b.
Proof. intros H. split_and!; [done|apply rtc_refl|done]. Qed.

Lemma commonAncestor_correct fuel n m a b :
  rooted rt n a = true → rooted rt m b = true → (n + m + 1 ≤ fuel)%nat →
  lca_result a b (commonAncestor_fuel rt fuel (Some a) (Some b)).
Proof.
  revert n m a b. induction fuel as [|fuel IH]; intros n m a b Ha Hb Hf; [lia|].
  cbn [commonAncestor_fuel]. destruct (String.eqb_spec a b) as [->|Hne].
  { apply lca_of_ancestor, rtc_refl. }
  pose proof (λ Hn, lca_climb n fuel m a b IH Ha Hb ltac:(lia) Hn) as Hclimb.
  unfold properAncestorEqual.
  destruct (hasProperAncestor rt b a) eqn:Eba.
  - pose proof (hasProperAncestor_inherits _ _ Eba) as Hba.
    assert (least_common_ancestor a b a) by (apply lca_sym; by apply lca_of_ancestor).
    destruct (hasProperAncestor rt a b) eqn:Eab; [|done].
    destruct (negb _); [|done]. apply lca_of_ancestor. by apply hasProperAncestor_inherits.
  - specialize (Hclimb (not_hasProperAncestor _ _ (not_eq_sym Hne) Eba)).
    destruct (hasProperAncestor rt a b) eqn:Eab; [|done].
    destruct (negb _); [|done]. apply lca_of_ancestor. by apply hasProperAncestor_inherits.
Qed.
End hierarchy.

(** [commonAncestorForClass:andClass:] returns the most derived
    class both classes inherit from, and [nil] only when they share no ancestor:
    on a class table whose superclass chains all end, the double recursion
    always reaches it. *)
Theorem commonAncestor_least rt a b :
  runtime_wf rt = true →
  match commonAncestorForClass rt a b with
  | Some c => inherits rt a c ∧ inherits rt b c ∧ ∀ d, inherits rt a d → inherits rt b d → inherits rt c d
  | None => ∀ d, inherits rt a d → inherits rt b d → False
  end.
Proof.
  intros wf. pose proof (commonAncestor_correct rt wf (2 * class_count rt + 3) (class_count rt) (class_count rt)
    a b (runtime_wf_rooted rt a wf) (runtime_wf_rooted rt b wf) ltac:(lia)) as H.
  unfold commonAncestorForClass. exact H.
Qed.

(** A controller manages exactly the classes that inherit from
    its model class: the set collected by the work-list loop of
    [managedObjectSubclasses] is the inheritance relation of the runtime,
    restricted to the classes that are not key-value-observing proxies. *)
Theorem managesObjectsOfClass_inherits rt controllerClass model c :
  runtime_wf rt = true →
  controllerClass ≠ MPManagedObjectsController_class →
  MOC_managedObjectClass rt controllerClass = Ok model →
  NSClassFromString rt c = Some c →
  hasPrefix c "NSKVONotifying" = false →
  managesObjectsOfClass rt controllerClass c = Ok true ↔ isSubclassOfClass rt c model = true.
Proof.
  intros wf Hne Hm Hc Hk. unfold managesObjectsOfClass, managedObjectSubclasses.
  destruct (String.eqb_spec controllerClass MPManagedObjectsController_class); [done|].
  rewrite Hm. cbn. rewrite isSubclassOfClass_spec by done.
  transitivity (c ∈ descendingClasses rt model).
  { split; [intros [= H]; by apply bool_decide_eq_true in H|intros H; by rewrite bool_decide_eq_true_2]. }
  rewrite descendingClasses_spec by done. rewrite subclasses_spec by done.
  rewrite (inherits_cases rt c model).
  split; [intros [->|(_ & _ & p & Hp & Hi)]; eauto|].
  intros [->|(p & Hp & Hi)]; [by left|right]. split_and!; eauto.
  by eapply superclass_declared.
Qed.

(** ** From a model class to its controller class *)
Section controllers.
Context (rt : Runtime).
Local Open Scope string_scope.
Notation superclass := (superclass rt).

(** [class] reaches [c] by superclass steps none of which arrives at
    [MPManagedObject], and nothing is found on the way. *)
Inductive nearest {A} (found : string → option A) : string → A → Prop :=
  | nearest_here c a : found c = Some a → nearest found c a
  | nearest_up c p a :
      found c = None → superclass c = Some p → p ≠ MPManagedObject_class →
      nearest found p a → nearest found c a.

Lemma nearest_inherits {A} (found : string → option A) c a :
  nearest found c a → ∃ d, inherits rt c d ∧ found d = Some a.
Proof.
  induction 1 as [c a H|c p a H Hp Hne _ (d & Hd & Hf)].
  - exists c. split; [apply rtc_refl|done].
  - exists d. split; [by eapply rtc_l|done].
Qed.

Lemma climb_found {A} fuel (found : string → option A) c a :
  climb rt fuel found (Some c) = Ok (Some a) → nearest found c a.
Proof.
  revert c. induction fuel as [|n IH]; intros c; cbn [climb]; [done|].
  intros (u & _ & H)%res_bind_inv. destruct (found c) as [y|] eqn:E.
  { injection H as ->. by apply nearest_here. }
  case_bool_decide; [done|]. destruct (superclass c) as [p|] eqn:Ep; [|by destruct n].
  apply IH in H. apply (nearest_up _ c p); [done|done|congruence|done].
Qed.

(** All classes from [c] up to [MPManagedObject] follow the naming convention. *)
Inductive named_chain : string → Prop :=
  | named_last c : hasPrefix c "MP" = true → superclass c = Some MPManagedObject_class → named_chain c
  | named_step c p : hasPrefix c "MP" = true → superclass c = Some p → named_chain p → named_chain c.

(** The walk returns: it neither raises nor runs past the root. *)
Lemma climb_total {A} fuel (found : string → option A) c :
  named_chain c → rooted rt fuel c = true →
  ∃ r, climb rt (S fuel) found (Some c) = Ok r ∧
       (r = None → ∀ a, ¬ nearest found c a).
Proof.
  intros Hch. revert fuel. induction Hch as [c Hn Hp|c p Hn Hp Hch IH]; intros fuel Hr;
    cbn [climb]; rewrite Hn; cbn [assert_ mbind res_bind].
  - destruct (found c) as [a|] eqn:E; [by exists (Some a)|].
    rewrite bool_decide_eq_true_2 by done. exists None. split; [done|].
    intros _ a Ha. inversion Ha; simplify_eq.
  - destruct (found c) as [a|] eqn:E; [by exists (Some a)|].
    case_bool_decide as Hm.
    { exists None. split; [done|]. intros _ a Ha. inversion Ha; simplify_eq. }
    destruct fuel as [|fuel]; cbn in Hr; rewrite Hp in Hr; [done|].
    destruct (IH fuel Hr) as (r & Hrun & Hnone). rewrite Hp. exists r. split; [done|].
    intros -> a Ha. apply (Hnone eq_refl a). by inversion Ha; simplify_eq.
Qed.

Lemma controllerClassDictionary_spec classes d0 d :
  controllerClassDictionary rt classes d0 = Ok d →
  ∀ c, d !! c = (if bool_decide (c ∈ classes)
                 then match controllerClass_uncached rt c with
                      | Ok (Some k) => Some k | _ => d0 !! c end
                 else d0 !! c).
Proof.
  revert d0. induction classes as [|x classes IH]; intros d0 H c; cbn [controllerClassDictionary] in H.
  { injection H as ->. by rewrite bool_decide_eq_false_2 by set_solver. }
  destruct (controllerClass_uncached rt x) as [o|e] eqn:Ex; [|discriminate H]. change (controllerClassDictionary rt classes (match o with Some k => <[x := k]> d0 | None => d0 end) = Ok d) in H.
  rewrite (IH _ H c). clear H IH.
  destruct (decide (c = x)) as [->|Hne].
  - rewrite (bool_decide_eq_true_2 (x ∈ x :: classes)) by set_solver. rewrite Ex.
    case_bool_decide; destruct o; by rewrite ?lookup_insert_eq.
  - assert (bool_decide (c ∈ x :: classes) = bool_decide (c ∈ classes)) as ->
      by (apply bool_decide_ext; set_solver).
    destruct o; [rewrite lookup_insert_ne by done|]; done.
Qed.

(** The lookup reads the static dictionary; a dictionary built by an earlier
    call, for another class, gives the same answers on subclasses. *)
Definition static_ok (static : option (gmap string string)) : Prop :=
  match static with
  | None => True
  | Some dict => ∃ first, controllerClassDictionary rt (subclasses rt MPManagedObject_class ++ [first]) ∅ = Ok dict
  end.

Lemma controllerClassDictionary_ok classes d0 d :
  controllerClassDictionary rt classes d0 = Ok d →
  ∀ c, c ∈ classes → ∃ o, controllerClass_uncached rt c = Ok o.
Proof.
  revert d0. induction classes as [|x classes IH]; intros d0 H c Hc; [set_solver|].
  cbn [controllerClassDictionary] in H. apply res_bind_inv in H as (o & Ho & H).
  apply elem_of_cons in Hc as [->|Hc]; eauto.
Qed.

Lemma controllerClassFor_run static class r static' :
  static_ok static → class ∈ subclasses rt MPManagedObject_class →
  controllerClassForManagedObjectClass rt class static = (Ok r, static') →
  controllerClass_uncached rt class = Ok r ∧ static_ok static'.
Proof.
  intros Hst Hc H. unfold controllerClassForManagedObjectClass in H.
  mcases H. mcases H. mcases H. unfold gets in E0. injection E0 as <- <-.
  rewrite run_NSAssert in E. destruct (ObjC.isSubclassOfClass _ _ _); [|done]. injection E as _ <-.
  assert (∃ first, controllerClassDictionary rt (subclasses rt MPManagedObject_class ++ [first]) ∅ = Ok a1
          ∧ s1 = Some a1) as (first & Hd & ->).
  { destruct static as [d|]; cbn in E1.
    - injection E1 as <- <-. destruct Hst as (first & Hf). eauto.
    - mcases E1. unfold lift in E. injection E as Hd <-. mcases E1. unfold modify in E.
      injection E as _ <-. injection E1 as <- <-. eauto. }
  injection H as <- <-. split; [|cbn; eauto].
  destruct (controllerClassDictionary_ok _ _ _ Hd class ltac:(set_solver)) as (o & Ho).
  rewrite (controllerClassDictionary_spec _ _ _ Hd class), Ho.
  rewrite bool_decide_eq_true_2 by set_solver. by destruct o; rewrite ?lookup_empty.
Qed.

(** ** From a model class to its notification names *)
Definition model_names (t : MPChangeType) (m : string) : notificationNames :=
  {| has_name := "has" ++ stringByTranslatingPresentToPastTense (managedObjectChangeTypeString t)
                 ++ dropPrefix "MP" m;
     did_name := "did" ++ managedObjectChangeTypeString t ++ dropPrefix "MP" m |}.

(** [m] is the model class of the nearest controller class of [c]. *)
Definition closest_model (c m : string) : Prop :=
  ∃ k, nearest (λ c, NSClassFromString rt (pluralizedString c ++ "Controller")) c k ∧
       MOC_managedObjectClass_of rt k = Some m ∧
       m ≠ MPManagedObject_class ∧ isSubclassOfClass rt c m = true.

Lemma notificationNamesFor_run t c static r static' :
  static_ok static → c ∈ subclasses rt MPManagedObject_class →
  notificationNamesFor rt t c static = (Ok r, static') →
  static_ok static' ∧ match r with Some n => ∃ m, closest_model c m ∧ n = model_names t m | None => True end.
Proof.
  intros Hst Hc H. unfold notificationNamesFor in H. destruct (hasSuffix c "Mixin").
  { by injection H as <- <-. }
  mcases H. apply controllerClassFor_run in E as [Hk Hst']; [|done|done].
  destruct a as [k|]; [|done]. destruct (MOC_managedObjectClass_of rt k) as [m|] eqn:Em; [|done].
  mcases H. rewrite run_NSAssert in E. destruct (negb _) eqn:Eq; [|done]. injection E as _ <-.
  mcases H. rewrite run_NSAssert in E. destruct (isSubclassOfClass rt c m) eqn:Es; [|done].
  injection E as _ <-. injection H as <- <-. split; [done|]. exists m. split; [|done].
  exists k. split_and!; [by eapply climb_found|done| |done].
  intros ->. by rewrite String.eqb_refl in Eq.
Qed.

Lemma changeTypesForClasses_run t classes d0 static d static' :
  (∀ c, c ∈ classes → c ∈ subclasses rt MPManagedObject_class) → static_ok static →
  (∀ c n, d0 !! c = Some n → ∃ m, closest_model c m ∧ n = model_names t m) →
  changeTypesForClasses rt t classes d0 static = (Ok d, static') →
  static_ok static' ∧ ∀ c n, d !! c = Some n → ∃ m, closest_model c m ∧ n = model_names t m.
Proof.
  revert d0 static. induction classes as [|x classes IH]; intros d0 static Hcl Hst Hd0 H.
  { by injection H as <- <-. }
  cbn [changeTypesForClasses] in H. mcases H.
  apply notificationNamesFor_run in E as [Hst' Ha]; [|done|by apply Hcl, list_elem_of_here].
  eapply IH in H; [done| |done|].
  - intros c Hc. by apply Hcl, list_elem_of_further.
  - destruct a as [n'|]; [|done]. intros c n. rewrite lookup_insert_Some.
    intros [[-> ->]|[_ Hn]]; [done|by eapply Hd0].
Qed.

Lemma changeTypeDict_run types static ds static' :
  static_ok static → changeTypeDict rt types static = (Ok ds, static') →
  ∀ t d, (t, d) ∈ ds → ∀ c n, d !! c = Some n → ∃ m, closest_model c m ∧ n = model_names t m.
Proof.
  revert static ds. induction types as [|t types IH]; intros static ds Hst H.
  { injection H as <- <-. set_solver. }
  cbn [changeTypeDict] in H. mcases H. mcases H. injection H as <- <-.
  apply changeTypesForClasses_run in E as [Hst' Hd]; [|done|done|done].
  intros t' d' [[= -> ->]|Hin]%elem_of_cons; [done|by eapply IH].
Qed.

Lemma namesOfChange_spec t c n :
  namesOfChange rt t c = Ok (Some n) → ∃ m, closest_model c m ∧ n = model_names t m.
Proof.
  unfold namesOfChange, managedObjectNotificationNameDictionary.
  destruct (changeTypeDict rt managedObjectChangeTypes None) as [[ds|e] st] eqn:E; [|done].
  cbn. intros [= H]. destruct (list_find _ ds) as [[i [t' d]]|] eqn:Ef; [|done].
  apply list_find_Some in Ef as (Hi & Ht & _). cbn in Ht. subst t'.
  eapply changeTypeDict_run; [|exact E| |exact H]; [done|]. by eapply list_elem_of_lookup_2.
Qed.
End controllers.

(** The notification names of a change are those of the model
    class of the nearest controller: the name found for a class [c] is built
    from the class that controller manages, which [c] inherits from, so that
    every subclass sharing a controller posts under one name, whatever class
    the lookup was first made for. *)
Theorem notification_names rt t c n n' :
  notificationNameForRecentChange rt t c = Ok n →
  notificationNameForPastChange rt t c = Ok n' →
  ∃ m, closest_model rt c m ∧
       n = has_name (model_names t m) ∧ n' = did_name (model_names t m).
Proof.
  unfold notificationNameForRecentChange, notificationNameForPastChange.
  intros (? & _ & (? & _ & (r & Hr & H)%res_bind_inv)%res_bind_inv)%res_bind_inv
         (? & _ & (? & _ & (r' & Hr' & H')%res_bind_inv)%res_bind_inv)%res_bind_inv.
  assert (r' = r) as -> by congruence. destruct r as [names|]; [|done].
  injection H as <-. injection H' as <-.
  destruct (namesOfChange_spec rt t c names Hr) as (m & Hm & ->). by exists m.
Qed.

Lemma commonAncestor_least_witness :
  runtime_wf ReferenceRuntime.rt = true ∧
  commonAncestorForClass ReferenceRuntime.rt "MPParagraph" "MPNote" = Some "MPManagedObject"%string ∧
  inherits ReferenceRuntime.rt "MPParagraph" "MPManagedObject".
Proof.
  split; [reflexivity|]. split; [reflexivity|].
  pose proof (commonAncestor_least ReferenceRuntime.rt "MPParagraph" "MPNote" eq_refl) as H.
  exact (proj1 H).
Defined.

Lemma managesObjectsOfClass_inherits_witness :
  managesObjectsOfClass ReferenceRuntime.rt "MPSectionsController" "MPParagraph" = Ok true ∧
  managesObjectsOfClass ReferenceRuntime.rt "MPSectionsController" "MPNote" = Ok false.
Proof.
  split; [|reflexivity].
  apply (managesObjectsOfClass_inherits ReferenceRuntime.rt "MPSectionsController" "MPSection" "MPParagraph");
    try reflexivity. discriminate.
Defined.

Lemma notification_names_witness :
  notificationNameForRecentChange ReferenceRuntime.rt MPChangeTypeUpdate "MPParagraph" = Ok "hasUpdatedSection"%string ∧
  ∃ m, closest_model ReferenceRuntime.rt "MPParagraph" m ∧
       "hasUpdatedSection"%string = has_name (model_names MPChangeTypeUpdate m).
Proof.
  split; [reflexivity|].
  destruct (notification_names ReferenceRuntime.rt MPChangeTypeUpdate "MPParagraph"
    "hasUpdatedSection" "didUpdateSection" eq_refl eq_refl) as (m & Hm & Hn & _).
  by exists m.
Defined.
