(* ===== verification/Observers.v ===== *)
(** * Observers of changes

    NSNotificationCenter+MPManagedObjectExtensions.m: registering observers of the
    changes of a model class, of selections, of replications and of sharing.  An
    observer that does not implement the method named by the notification gets it
    added to its class at run time ([class_addMethod]), from the block given: the
    method table of the classes is part of the state, and is never undone.

    The center delivers a notification to the registrations of its name, in the
    order they were made. *)
From Stdlib Require Import Ascii.
From stdpp Require Import base tactics strings numbers list gmap relations.
From S2P Require Import Prelude ObjC ReferenceRuntime Classes.

(** Observers, blocks and the objects of notifications are pointers. *)
Definition observer := positive.
Definition block := positive.

(** A registration of the center: [addObserver:selector:name:object:]. *)
Record Entry : Type := {
  en_observer : observer;
  en_selector : string;
  en_name : string;
  en_object : option oid
}.

(** The method a message ends in: one of the program's, or a block added as a method. *)
Inductive handler : Type :=
  | Own (class : string)
  | Callback (b : block).

Record Center : Type := {
  nc_entries : list Entry;
  nc_methods : gmap (string * string) block;
  nc_calls : list (observer * handler * string)
}.

(* @src Feather/Sources/Categories/NSNotificationCenter+MPManagedObjectExtensions.h 39 44 MPReplicationEventType *)
Inductive MPReplicationEventType : Type :=
  | MPReplicationEventTypePersistentPullProgressUpdated
  | MPReplicationEventTypePersistentPullComplete
  | MPReplicationEventTypePersistentPushProgressUpdated
  | MPReplicationEventTypePersistentPushComplete.

Section observers.
Context (rt : Runtime) (classOf : observer → string) (implements : string → string → bool).
Local Open Scope string_scope.
Notation M := (Prelude.M Center).

(** ** The method table *)

(** Method lookup from [class] upwards *)
Fixpoint lookUpMethod (fuel : nat) (methods : gmap (string * string) block) (class selector : string)
    : option handler :=
  if implements class selector then Some (Own class)
  else match methods !! (class, selector) with
       | Some b => Some (Callback b)
       | None => match fuel, superclass rt class with
                 | S n, Some p => lookUpMethod n methods p selector
                 | _, _ => None
                 end
       end.
Definition methodFor (methods : gmap (string * string) block) (o : observer) (selector : string) : option handler :=
  lookUpMethod (class_count rt) methods (classOf o) selector.

Definition respondsToSelector (o : observer) (selector : string) : M bool :=
  gets (λ s, bool_decide (is_Some (methodFor (nc_methods s) o selector))).

(** [class_addMethod(class, selector, imp_implementationWithBlock(block), "v@:@")]: a
    class keeps the method it has; the runtime makes no method of a null block. *)
Definition class_addMethod (class selector : string) (blk : option block) : M unit :=
  match blk with
  | None => throw (Exception "EXC_BAD_ACCESS" "imp_implementationWithBlock")
  | Some b =>
      modify (λ s, {| nc_entries := nc_entries s;
                      nc_methods := if implements class selector || bool_decide (is_Some (nc_methods s !! (class, selector)))
                                    then nc_methods s else <[(class, selector) := b]> (nc_methods s);
                      nc_calls := nc_calls s |})
  end.

(** ** The center *)
Definition addObserver (o : observer) (selector name : string) (object : option oid) : M unit :=
  modify (λ s, {| nc_entries := (nc_entries s ++ [{| en_observer := o; en_selector := selector;
                                                     en_name := name; en_object := object |}])%list;
                  nc_methods := nc_methods s; nc_calls := nc_calls s |}).

Definition removeObserver (o : observer) : M unit :=
  modify (λ s, {| nc_entries := List.filter (λ e, negb (Pos.eqb (en_observer e) o)) (nc_entries s);
                  nc_methods := nc_methods s; nc_calls := nc_calls s |}).

Definition listens (name : string) (object : option oid) (e : Entry) : bool :=
  String.eqb (en_name e) name &&
  match en_object e with None => true | Some x => bool_decide (object = Some x) end.

Definition send (e : Entry) : M unit :=
  methods ← gets nc_methods;
  match methodFor methods (en_observer e) (en_selector e) with
  | None => throw (Exception "NSInvalidArgumentException" (en_selector e))
  | Some h => modify (λ s, {| nc_entries := nc_entries s; nc_methods := nc_methods s;
                              nc_calls := (nc_calls s ++ [(en_observer e, h, en_name e)])%list |})
  end.

Definition postNotificationName (name : string) (object : option oid) : M unit :=
  entries ← gets nc_entries;
  for_each (List.filter (listens name object) entries) send.

(** ** Observers of the changes of a class *)
Definition blockFor (didAdd didUpdate didRemove : option block) (t : MPChangeType) : option block :=
  match t with
  | MPChangeTypeAdd => didAdd
  | MPChangeTypeUpdate => didUpdate
  | MPChangeTypeRemove => didRemove
  end.

(** [managedObjectNotificationNameDictionary[changeType][classStr]], which must be there *)
Definition namesFor (changeType : MPChangeType) (classStr : string) (what : string) : M notificationNames :=
  names ← lift (namesOfChange rt changeType classStr);
  match names with
  | Some n => mret n
  | None => throw (AssertionFailed what)
  end.

(* @src Feather/Sources/Categories/NSNotificationCenter+MPManagedObjectExtensions.m 137 176 -[NSNotificationCenter addRecentChangeObserver:forManagedObjectsOfClass:hasAdded:hasUpdated:hasRemoved:] *)
Definition addRecentChangeObserver (o : observer) (moClass : string)
    (willAdd willUpdate willRemove : option block) : M unit :=
  _ ← NSAssert (isSubclassOfClass rt moClass MPManagedObject_class) "[moClass isSubclassOfClass:[MPManagedObject class]]";
  _ ← NSAssert (negb (String.eqb moClass MPManagedObject_class)) "moClass != [MPManagedObject class]";
  for_each managedObjectChangeTypes (λ changeType,
    names ← namesFor changeType moClass "recentPastNotificationName != nil";
    let selector := has_name names ++ ":" in
    _ ← addObserver o selector (has_name names) None;
    responds ← respondsToSelector o selector;
    if (responds : bool) then mret tt
    else class_addMethod (classOf o) selector (blockFor willAdd willUpdate willRemove changeType)).

(* @src Feather/Sources/Categories/NSNotificationCenter+MPManagedObjectExtensions.m 178 219 -[NSNotificationCenter addPastChangeObserver:forManagedObjectsOfClass:didAdd:didUpdate:didRemove:] *)
Definition addPastChangeObserver (o : observer) (moClass : string)
    (didAdd didUpdate didRemove : option block) : M unit :=
  _ ← NSAssert (isSubclassOfClass rt moClass MPManagedObject_class) "[moClass isSubclassOfClass:[MPManagedObject class]]";
  _ ← NSAssert (negb (String.eqb moClass MPManagedObject_class)) "moClass != [MPManagedObject class]";
  for_each managedObjectChangeTypes (λ changeType,
    names ← namesFor changeType moClass "pastNotificationName != nil";
    let selector := did_name names ++ ":" in
    _ ← addObserver o selector (did_name names) None;
    responds ← respondsToSelector o selector;
    match (responds : bool), blockFor didAdd didUpdate didRemove changeType with
    | false, Some b => class_addMethod (classOf o) selector (Some b)
    | _, _ => mret tt
    end).

(* @src Feather/Sources/Categories/NSNotificationCenter+MPManagedObjectExtensions.m 130 135 -[NSNotificationCenter addRecentChangeObserver:forManagedObjectsOfClass:] *)
Definition addRecentChangeObserver_ (o : observer) (moClass : string) : M unit :=
  addRecentChangeObserver o moClass None None None.

(* @src Feather/Sources/Categories/NSNotificationCenter+MPManagedObjectExtensions.m 123 128 -[NSNotificationCenter addPastChangeObserver:forManagedObjectsOfClass:] *)
Definition addPastChangeObserver_ (o : observer) (moClass : string) : M unit :=
  addPastChangeObserver o moClass None None None.

(** ** Selections, replications, sharing *)
Definition MPNotificationNameManagedObjectShared := "MPNotificationNameManagedObjectShared".
Definition MPNotificationNameSingleMasterSelection := "MPNotificationNameSingleMasterSelection".
Definition MPNotificationNameMultipleMasterSelection := "MPNotificationNameMultipleMasterSelection".
Definition MPNotificationNameSingleDetailSelection := "MPNotificationNameSingleDetailSelection".
Definition MPNotificationNameMultipleDetailSelection := "MPNotificationNameMultipleDetailSelection".

(* @src Feather/Sources/Categories/NSNotificationCenter+MPManagedObjectExtensions.m 221 234 -[NSNotificationCenter addObjectSelectionChangeObserver:] *)
Definition addObjectSelectionChangeObserver (o : observer) : M unit :=
  _ ← addObserver o "didChangeDetailSelectionToSingleObject:" MPNotificationNameSingleDetailSelection None;
  _ ← addObserver o "didChangeDetailSelectionToMultipleObjects:" MPNotificationNameMultipleDetailSelection None;
  _ ← addObserver o "didChangeMasterSelectionToSingleObject:" MPNotificationNameSingleMasterSelection None;
  addObserver o "didChangeMasterSelectionToMultipleObjects:" MPNotificationNameMultipleMasterSelection None.

(* @src Feather/Sources/Categories/NSNotificationCenter+MPManagedObjectExtensions.m 236 239 -[NSNotificationCenter postNotificationForChangingMasterSelectionToSingleObject:userInfo:] *)
Definition postNotificationForChangingSelection (master single : bool) (obj : option oid) : M unit :=
  postNotificationName
    (match master, single with
     | true, true => MPNotificationNameSingleMasterSelection
     | false, true => MPNotificationNameSingleDetailSelection
     | true, false => MPNotificationNameMultipleMasterSelection
     | false, false => MPNotificationNameMultipleDetailSelection
     end) obj.

(* @src Feather/Sources/Categories/NSNotificationCenter+MPManagedObjectExtensions.m 285 294 +[NSNotificationCenter notificationNameForReplicationEventType:] *)
Definition notificationNameForReplicationEventType (eventType : MPReplicationEventType) : res string :=
  match eventType with
  | MPReplicationEventTypePersistentPullComplete => Ok "MPReplicationPersistentPullComplete"
  | MPReplicationEventTypePersistentPushComplete => Ok "MPReplicationPersistentPushComplete"
  | _ => Throw (AssertionFailed "false")
  end.

(* @src Feather/Sources/Categories/NSNotificationCenter+MPManagedObjectExtensions.m 274 283 -[NSNotificationCenter addObserver:forReplicationOfDatabase:] *)
Definition addObserver_forReplicationOfDatabase (o : observer) (db : option oid) : M unit :=
  pull ← lift (notificationNameForReplicationEventType MPReplicationEventTypePersistentPullComplete);
  _ ← addObserver o "didCompletePersistentPullReplication:" pull db;
  push ← lift (notificationNameForReplicationEventType MPReplicationEventTypePersistentPushComplete);
  addObserver o "didCompletePersistentPullReplication:" push db.

(* @src Feather/Sources/Categories/NSNotificationCenter+MPManagedObjectExtensions.m 296 300 -[NSNotificationCenter addManagedObjectSharingObserver:] *)
Definition addManagedObjectSharingObserver (o : observer) : M unit :=
  addObserver o "didShareManagedObject:" MPNotificationNameManagedObjectShared None.

(* @src Feather/Sources/Categories/NSNotificationCenter+MPManagedObjectExtensions.m 302 305 -[NSNotificationCenter postNotificationForSharingManagedObject:] *)
Definition postNotificationForSharingManagedObject (obj : oid) : M unit :=
  postNotificationName MPNotificationNameManagedObjectShared (Some obj).

(** What a controller posts for a change of an object of [class]: the recent name, then
    the past one ([didSaveObject:], [didUpdateObject:], [didDeleteObject:]). *)
Definition announceChange (t : MPChangeType) (class : string) (object : oid) : M unit :=
  recent ← lift (notificationNameForRecentChange rt t class);
  past ← lift (notificationNameForPastChange rt t class);
  _ ← postNotificationName recent (Some object);
  postNotificationName past (Some object).
End observers.

(** ** What the center has been asked for

    A history keeps, beside the state of the center, the registrations of observers
    of changes: those not removed since, and all there ever were. *)
Inductive changeKind : Type := Recent | Past.

#[export] Instance changeKind_eq_dec : EqDecision changeKind.
Proof. solve_decision. Defined.

Record Registration : Type := {
  r_observer : observer;
  r_kind : changeKind;
  r_class : string;
  r_block : MPChangeType → option block
}.

Record History : Type := { live : list Registration; ever : list Registration }.

Definition kindName (k : changeKind) (n : notificationNames) : string :=
  match k with Recent => has_name n | Past => did_name n end.

Section histories.
Context (rt : Runtime) (classOf : observer → string) (implements : string → string → bool).
Local Open Scope string_scope.
Notation methodFor := (methodFor rt classOf implements).

Definition observe (r : Registration) : M Center unit :=
  (match r_kind r with
   | Recent => addRecentChangeObserver rt classOf implements
   | Past => addPastChangeObserver rt classOf implements
   end) (r_observer r) (r_class r)
    (r_block r MPChangeTypeAdd) (r_block r MPChangeTypeUpdate) (r_block r MPChangeTypeRemove).

(** The registrations that concern no change of a managed object *)
Inductive otherRegistration : M Center unit → Prop :=
  | other_selection o : otherRegistration (addObjectSelectionChangeObserver o)
  | other_replication o db : otherRegistration (addObserver_forReplicationOfDatabase o db)
  | other_sharing o : otherRegistration (addManagedObjectSharingObserver o).

Inductive step : Center * History → Center * History → Prop :=
  | step_observe r s h s' :
      observe r s = (Ok tt, s') →
      step (s, h) (s', {| live := live h ++ [r]; ever := ever h ++ [r] |})
  | step_remove o s h s' :
      removeObserver o s = (Ok tt, s') →
      step (s, h) (s', {| live := List.filter (λ r, negb (Pos.eqb (r_observer r) o)) (live h); ever := ever h |})
  | step_other m s h s' :
      otherRegistration m → m s = (Ok tt, s') → step (s, h) (s', h)
  | step_post name obj s h :
      step (s, h) ((postNotificationName rt classOf implements name obj s).2, h).

Definition center0 : Center := {| nc_entries := []; nc_methods := ∅; nc_calls := [] |}.
Definition history0 : History := {| live := []; ever := [] |}.
Definition reachable : Center * History → Prop := rtc step (center0, history0).

(** ** Who hears of a change *)
Definition announcedAs (k : changeKind) (t : MPChangeType) (class name : string) : bool :=
  match namesOfChange rt t class with Ok (Some n) => String.eqb (kindName k n) name | _ => false end.

Definition hears (k : changeKind) (name : string) (r : Registration) : bool :=
  bool_decide (r_kind r = k) && existsb (λ t, announcedAs k t (r_class r) name) managedObjectChangeTypes.

(** What the message may end in: a method of the observer's class, or of a class above
    it, that is the program's own or a block given for this change under this name. *)
Definition handles (e : list Registration) (o : observer) (selector : string) (h : handler) : Prop :=
  match h with
  | Own c => inherits rt (classOf o) c ∧ implements c selector = true
  | Callback b => ∃ r t n, r ∈ e ∧ r_block r t = Some b ∧ inherits rt (classOf o) (classOf (r_observer r)) ∧
                    namesOfChange rt t (r_class r) = Ok (Some n) ∧ selector = kindName (r_kind r) n ++ ":"
  end.

(** ** Names *)
Lemma past_tense t :
  stringByTranslatingPresentToPastTense (managedObjectChangeTypeString t) =
  match t with MPChangeTypeAdd => "Added" | MPChangeTypeUpdate => "Updated" | MPChangeTypeRemove => "Removed" end.
Proof. by destruct t. Qed.

(** A name tells the kind, the change and the unprefixed model class. *)
Lemma kindName_inj k t m k' t' m' :
  kindName k (model_names t m) = kindName k' (model_names t' m') →
  k = k' ∧ t = t' ∧ dropPrefix "MP" m = dropPrefix "MP" m'.
Proof.
  intros H.
  destruct k, k'; cbn [kindName model_names has_name did_name] in H; rewrite ?past_tense in H;
    destruct t, t'; lazy beta iota delta [String.append managedObjectChangeTypeString] in H;
    first [discriminate H | by injection H as ->].
Qed.

Definition isChangeName (name : string) : Prop := ∃ k t m, name = kindName k (model_names t m).

Lemma isChangeName_head name : isChangeName name → ∃ c s, name = String c s ∧ (c = "h" ∨ c = "d")%char.
Proof.
  intros ([] & t & m & ->); cbn [kindName model_names has_name did_name];
    lazy beta iota delta [String.append]; eauto.
Qed.

Lemma announced_change k t class name : announcedAs k t class name = true → isChangeName name.
Proof.
  unfold announcedAs. destruct (namesOfChange rt t class) as [[n|]|] eqn:E; [|done..].
  intros <-%String.eqb_eq. destruct (namesOfChange_spec rt t class n E) as (m & _ & ->). by exists k, t, m.
Qed.

(** Of the three names a registration makes, the one of this change is heard. *)
Lemma hears_names k t m r (names : MPChangeType → notificationNames) :
  (∀ t, namesOfChange rt t (r_class r) = Ok (Some (names t))) →
  hears k (kindName k (model_names t m)) r =
  bool_decide (r_kind r = k) && String.eqb (kindName k (names t)) (kindName k (model_names t m)).
Proof.
  intros Hn. unfold hears. destruct (bool_decide (r_kind r = k)); [|done]. cbn [andb].
  assert (∀ t', announcedAs k t' (r_class r) (kindName k (model_names t m)) =
                bool_decide (t' = t) && String.eqb (kindName k (names t)) (kindName k (model_names t m))) as Ha.
  { intros t'. unfold announcedAs. rewrite Hn. case_bool_decide as Ht; [by subst|].
    apply String.eqb_neq. intros H. destruct (namesOfChange_spec rt t' _ _ (Hn t')) as (m' & _ & Hm').
    rewrite Hm' in H. by apply kindName_inj in H as (_ & ? & _). }
  cbn [existsb managedObjectChangeTypes]. rewrite !Ha.
  destruct (String.eqb _ _), t; reflexivity.
Qed.

(** ** One registration *)
Definition entryOf (r : Registration) (name : string) : Entry :=
  {| en_observer := r_observer r; en_selector := name ++ ":"; en_name := name; en_object := None |}.

(** The methods added are blocks of [r], under the names of its changes. *)
Definition methodsOf (r : Registration) (methods methods' : gmap (string * string) block) : Prop :=
  methods ⊆ methods' ∧
  ∀ key b, methods' !! key = Some b → methods !! key = Some b ∨
    ∃ t n, r_block r t = Some b ∧ namesOfChange rt t (r_class r) = Ok (Some n) ∧
           key = (classOf (r_observer r), kindName (r_kind r) n ++ ":").

Lemma methodsOf_refl r m : methodsOf r m m.
Proof. by split; [|left]. Qed.

Lemma methodsOf_trans r m1 m2 m3 : methodsOf r m1 m2 → methodsOf r m2 m3 → methodsOf r m1 m3.
Proof.
  intros [H1 H2] [H3 H4]. split; [by etrans|]. intros key b [H|H]%H4; [by apply H2|by right].
Qed.

Lemma lookUpMethod_mono n methods methods' c sel :
  methods ⊆ methods' → is_Some (lookUpMethod rt implements n methods c sel) →
  is_Some (lookUpMethod rt implements n methods' c sel).
Proof.
  intros Hm. revert c. induction n as [|n IH]; intros c; cbn [lookUpMethod];
    destruct (implements c sel); [eauto| |eauto|]; destruct (methods !! (c, sel)) as [b|] eqn:E.
  - by rewrite (lookup_weaken _ _ _ _ E Hm).
  - by intros [? ?].
  - by rewrite (lookup_weaken _ _ _ _ E Hm).
  - intros H. destruct (methods' !! (c, sel)); [by eexists|].
    destruct (superclass rt c); [by apply IH|done].
Qed.

Lemma methodFor_mono methods methods' o sel :
  methods ⊆ methods' → is_Some (methodFor methods o sel) → is_Some (methodFor methods' o sel).
Proof. apply lookUpMethod_mono. Qed.

Lemma lookUpMethod_here methods c sel b n :
  methods !! (c, sel) = Some b → is_Some (lookUpMethod rt implements n methods c sel).
Proof. intros Hb. destruct n; cbn [lookUpMethod]; rewrite Hb; by destruct (implements c sel). Qed.

(** The registrations that make sure there is a method for a change: those of recent
    changes, and those with a block for it. *)
Definition equipped (r : Registration) (t : MPChangeType) : Prop := r_kind r = Recent ∨ is_Some (r_block r t).

(** What registering for one change does, and then for all of them *)
Definition registered (r : Registration) (ts : list MPChangeType) (ns : list notificationNames) (s s' : Center) : Prop :=
  nc_entries s' = (nc_entries s ++ map (λ n, entryOf r (kindName (r_kind r) n)) ns)%list ∧
  nc_calls s' = nc_calls s ∧ methodsOf r (nc_methods s) (nc_methods s') ∧
  Forall2 (λ t n, equipped r t → is_Some (methodFor (nc_methods s') (r_observer r) (kindName (r_kind r) n ++ ":"))) ts ns.

Lemma addMethod_run r n t s s' b :
  let sel := kindName (r_kind r) n ++ ":" in
  methodFor (nc_methods s) (r_observer r) sel = None → r_block r t = Some b →
  namesOfChange rt t (r_class r) = Ok (Some n) →
  class_addMethod implements (classOf (r_observer r)) sel (Some b) s = (Ok tt, s') →
  nc_entries s' = nc_entries s ∧ nc_calls s' = nc_calls s ∧ methodsOf r (nc_methods s) (nc_methods s') ∧
  is_Some (methodFor (nc_methods s') (r_observer r) sel).
Proof.
  cbv zeta. set (sel := _ ++ ":"). intros Hno Hb Hn [= <-]. cbn [nc_entries nc_calls nc_methods].
  assert (implements (classOf (r_observer r)) sel = false ∧ nc_methods s !! (classOf (r_observer r), sel) = None)
    as [Hi Hl].
  { unfold Observers.methodFor in Hno. destruct (class_count rt); cbn [lookUpMethod] in Hno;
      destruct (implements _ sel); try done; by destruct (nc_methods s !! _). }
  rewrite Hi, Hl. cbn [orb]. rewrite bool_decide_eq_false_2 by by intros [? ?].
  split_and!; [done..| |by eapply lookUpMethod_here, lookup_insert_eq].
  split; [by apply insert_subseteq|]. intros key c. rewrite lookup_insert_Some.
  intros [[<- <-]|[_ H]]; [|by left]. right. by exists t, n.
Qed.

(** The body of both loops, for one change *)
Definition registers (r : Registration) (t : MPChangeType) (m : M Center unit) : Prop :=
  ∀ s s', m s = (Ok tt, s') →
    ∃ n, namesOfChange rt t (r_class r) = Ok (Some n) ∧ registered r [t] [n] s s'.

Lemma registers_intro r t what (answer : notificationNames → bool → M Center unit) :
  (∀ n s s', namesOfChange rt t (r_class r) = Ok (Some n) →
     answer n true s = (Ok tt, s') → s' = s) →
  (∀ n s s', namesOfChange rt t (r_class r) = Ok (Some n) →
     answer n false s = (Ok tt, s') →
     (∃ b, r_block r t = Some b ∧
       class_addMethod implements (classOf (r_observer r)) (kindName (r_kind r) n ++ ":") (Some b) s = (Ok tt, s')) ∨
     (¬ equipped r t ∧ s' = s)) →
  registers r t
    (n ← namesFor rt t (r_class r) what;
     _ ← addObserver (r_observer r) (kindName (r_kind r) n ++ ":") (kindName (r_kind r) n) None;
     responds ← respondsToSelector rt classOf implements (r_observer r) (kindName (r_kind r) n ++ ":");
     answer n responds).
Proof.
  intros Hyes Hno s s' H. apply run_bind_inv in H as (n & s1 & Hn & H).
  assert (namesOfChange rt t (r_class r) = Ok (Some n) ∧ s1 = s) as [Hn' ->].
  { unfold namesFor in Hn. rewrite run_bind in Hn. unfold lift in Hn.
    destruct (namesOfChange rt t (r_class r)) as [[n'|]|]; [|done..]. by injection Hn as -> ->. }
  exists n. split; [done|]. apply run_bind_inv in H as (u & s2 & [= _ <-] & H).
  apply run_bind_inv in H as (yes & s3 & [= <- <-] & H). cbn [nc_methods] in H. unfold registered. cbn [map].
  destruct (methodFor (nc_methods s) (r_observer r) (kindName (r_kind r) n ++ ":")) as [h|] eqn:Em.
  - rewrite bool_decide_eq_true_2 in H by by eexists.
    apply Hyes in H; [|done]. subst s'. cbn. split_and!; [done..|apply methodsOf_refl|].
    apply Forall2_cons; split; [|done]. by rewrite Em.
  - rewrite bool_decide_eq_false_2 in H by by intros [? ?].
    apply Hno in H as [(b & Hb & H)|[Hn2 ->]]; [| |done].
    + apply (addMethod_run r n t) in H as (He & Hc & Hm & Hs); [|done..]. cbn [nc_entries nc_calls nc_methods] in *.
      rewrite He, Hc. split_and!; [done..|]. by apply Forall2_cons.
    + cbn [nc_entries nc_calls nc_methods]. split_and!; [done..|apply methodsOf_refl|]. by apply Forall2_cons.
Qed.

Lemma registers_all r (body : MPChangeType → M Center unit) l s s' :
  (∀ t, registers r t (body t)) → for_each l body s = (Ok tt, s') →
  ∃ ns, Forall2 (λ t n, namesOfChange rt t (r_class r) = Ok (Some n)) l ns ∧ registered r l ns s s'.
Proof.
  intros Hb. revert s. induction l as [|t l IH]; intros s H.
  { injection H as <-. exists []. split; [done|]. unfold registered. rewrite app_nil_r.
    split_and!; [done..|apply methodsOf_refl|done]. }
  cbn [for_each] in H. apply run_bind_inv in H as ([] & s1 & H1 & H).
  destruct (Hb t s s1 H1) as (n & Hn & He & Hc & Hm & Hs).
  apply IH in H as (ns & Hns & He' & Hc' & Hm' & Hs').
  exists (n :: ns). split; [by constructor|]. unfold registered. rewrite He', He, Hc', <- app_assoc.
  split_and!; [done..|by eapply methodsOf_trans|]. apply Forall2_cons; split; [|done].
  apply Forall2_cons in Hs as [Hs _]. intros Heq. eapply methodFor_mono; [apply Hm'|by apply Hs].
Qed.

Lemma observe_run r s s' :
  observe r s = (Ok tt, s') →
  ∃ names, (∀ t, namesOfChange rt t (r_class r) = Ok (Some (names t))) ∧
           registered r managedObjectChangeTypes (map names managedObjectChangeTypes) s s'.
Proof.
  intros H.
  assert (∃ ns, Forall2 (λ t n, namesOfChange rt t (r_class r) = Ok (Some n)) managedObjectChangeTypes ns ∧
                registered r managedObjectChangeTypes ns s s') as (ns & Hns & Hr).
  { unfold observe in H. destruct (r_kind r) eqn:Ek;
      unfold addRecentChangeObserver, addPastChangeObserver in H; mcases H; mcases H;
      rewrite run_NSAssert in E, E0; destruct (isSubclassOfClass _ _ _), (negb _); try discriminate;
      injection E as _ <-; injection E0 as _ <-;
      (eapply registers_all; [|exact H]); intros t; clear H s'.
    - epose proof (registers_intro r t "recentPastNotificationName != nil" (λ n responds,
        if (responds : bool) then mret tt
        else class_addMethod implements (classOf (r_observer r)) (kindName (r_kind r) n ++ ":")
          (blockFor (r_block r MPChangeTypeAdd) (r_block r MPChangeTypeUpdate) (r_block r MPChangeTypeRemove) t))) as Hi.
      rewrite Ek in Hi. apply Hi; clear Hi; [by intros n s1 s2 _ [= <-]|]. intros n s1 s2 _ H. left.
      destruct t; cbn [blockFor] in H; (destruct (r_block r _) as [b|]; [by exists b|discriminate]).
    - epose proof (registers_intro r t "pastNotificationName != nil" (λ n responds,
        match (responds : bool),
          blockFor (r_block r MPChangeTypeAdd) (r_block r MPChangeTypeUpdate) (r_block r MPChangeTypeRemove) t with
        | false, Some b => class_addMethod implements (classOf (r_observer r)) (kindName (r_kind r) n ++ ":") (Some b)
        | _, _ => mret tt
        end)) as Hi.
      rewrite Ek in Hi. apply Hi; clear Hi; [by intros n s1 s2 _ [= <-]|]. intros n s1 s2 _ H.
      destruct (r_block r t) as [b|] eqn:Hb; [left; exists b|right].
      + split; [done|]. destruct t; cbn [blockFor] in H; by rewrite Hb in H.
      + split; [intros [?|[? ?]]; congruence|]. destruct t; cbn [blockFor] in H; rewrite Hb in H; by injection H. }
  unfold managedObjectChangeTypes in Hns.
  repeat match goal with H : Forall2 _ _ _ |- _ => inversion H; clear H; subst end.
  match goal with Hr : registered r _ [?a; ?b; ?c] s s' |- _ =>
    exists (λ t, match t with MPChangeTypeAdd => a | MPChangeTypeRemove => b | MPChangeTypeUpdate => c end) end.
  split; [by intros []|done].
Qed.

(** ** The invariant *)
Record HistoryOK (sh : Center * History) : Prop := {
  ok_entries : ∀ k t m, let name := kindName k (model_names t m) in
    List.filter (λ e, String.eqb (en_name e) name) (nc_entries sh.1) =
    map (λ r, entryOf r name) (List.filter (hears k name) (live sh.2));
  ok_answers : ∀ r t n, r ∈ ever sh.2 → equipped r t → namesOfChange rt t (r_class r) = Ok (Some n) →
    is_Some (methodFor (nc_methods sh.1) (r_observer r) (kindName (r_kind r) n ++ ":"));
  ok_methods : ∀ key b, nc_methods sh.1 !! key = Some b →
    ∃ r t n, r ∈ ever sh.2 ∧ r_block r t = Some b ∧ namesOfChange rt t (r_class r) = Ok (Some n) ∧
             key = (classOf (r_observer r), kindName (r_kind r) n ++ ":");
  ok_live : ∀ r, r ∈ live sh.2 → r ∈ ever sh.2;
  ok_names : ∀ r, r ∈ ever sh.2 → ∃ names, ∀ t, namesOfChange rt t (r_class r) = Ok (Some (names t))
}.

Lemma filter_map_entries r k t m (names : MPChangeType → notificationNames) :
  (∀ t, namesOfChange rt t (r_class r) = Ok (Some (names t))) →
  let name := kindName k (model_names t m) in
  List.filter (λ e, String.eqb (en_name e) name)
    (map (λ n, entryOf r (kindName (r_kind r) n)) (map names managedObjectChangeTypes)) =
  map (λ r, entryOf r name) (List.filter (hears k name) [r]).
Proof.
  intros Hn name. cbn [List.filter]. pose proof (hears_names k t m r names Hn) as Hh. fold name in Hh. rewrite Hh.
  assert (∀ t', String.eqb (kindName (r_kind r) (names t')) name =
    bool_decide (r_kind r = k) && (bool_decide (t' = t) && String.eqb (kindName k (names t)) name)) as Ha.
  { intros t'. destruct (namesOfChange_spec rt t' _ _ (Hn t')) as (m' & _ & Hm').
    destruct (String.eqb_spec (kindName (r_kind r) (names t')) name) as [E|E].
    - rewrite Hm' in E. apply kindName_inj in E as E'. destruct E' as (<- & <- & _).
      rewrite !bool_decide_eq_true_2 by done. rewrite Hm', E. by rewrite String.eqb_refl.
    - case_bool_decide as Hk; [|done]. case_bool_decide as Ht; [|done]. subst. symmetry. by apply String.eqb_neq. }
  cbn [map managedObjectChangeTypes List.filter entryOf en_name]. rewrite !Ha. fold name.
  case_bool_decide as Hk; [|done]. destruct (String.eqb_spec (kindName k (names t)) name) as [E|E].
  - rewrite Hk. destruct t; cbn; by rewrite E.
  - by destruct t.
Qed.

Lemma historyOK_observe r s h s' :
  HistoryOK (s, h) → observe r s = (Ok tt, s') →
  HistoryOK (s', {| live := live h ++ [r]; ever := ever h ++ [r] |}).
Proof.
  intros [He Ha Hm Hl Hn] H. apply observe_run in H as (names & Hns & Hes & _ & [Hsub Hnew] & Hall).
  cbn [fst snd live ever] in *. constructor; cbn [fst snd live ever].
  - intros k t m. rewrite Hes, List.filter_app, He, List.filter_app, map_app. f_equal.
    by apply filter_map_entries.
  - intros r' t n [Hr'| ->%list_elem_of_singleton]%elem_of_app Heq Hr.
    { eapply methodFor_mono; [exact Hsub|by eapply Ha]. }
    rewrite Hns in Hr. injection Hr as <-. unfold managedObjectChangeTypes in Hall. cbn [map] in Hall.
    rewrite !Forall2_cons in Hall. destruct Hall as (? & ? & ? & _). by destruct t; auto.
  - intros key b [H|(t & n & H)]%Hnew; [|exists r, t, n; set_solver].
    destruct (Hm key b H) as (r' & t & n & ?). exists r', t, n. set_solver.
  - set_solver.
  - intros r' [Hr'| ->%list_elem_of_singleton]%elem_of_app; [by apply Hn|by exists names].
Qed.

Lemma historyOK_remove o s h :
  HistoryOK (s, h) →
  HistoryOK ((removeObserver o s).2,
             {| live := List.filter (λ r, negb (Pos.eqb (r_observer r) o)) (live h); ever := ever h |}).
Proof.
  intros [He Ha Hm Hl Hn]. constructor; cbn [fst snd live ever removeObserver modify nc_entries nc_methods] in *; [|done|done| |done].
  - intros k t m. specialize (He k t m). cbn in He. revert He. generalize (kindName k (model_names t m)) as name.
    intros name He. rewrite (filter_bool_comm (hears k name)), (filter_bool_comm (λ e, String.eqb (en_name e) name)), He.
    clear. induction (List.filter (hears k name) (live h)) as [|r l IH]; [done|]. cbn [map List.filter entryOf en_observer].
    destruct (Pos.eqb (r_observer r) o); cbn [negb]; [done|]. cbn [map]. by rewrite IH.
  - intros r [Hr _]%filter_bool_elem. by apply Hl.
Qed.

(** A change of the center that concerns no name of a change *)
Lemma historyOK_other s s' h es :
  HistoryOK (s, h) → nc_entries s' = (nc_entries s ++ es)%list → nc_methods s' = nc_methods s →
  Forall (λ e, ¬ isChangeName (en_name e)) es → HistoryOK (s', h).
Proof.
  intros [He Ha Hm Hl Hn] Hes Hms Hout. constructor; cbn [fst snd] in *; [|rewrite Hms; done..|done|done].
  intros k t m. rewrite Hes, List.filter_app, He. clear Hes.
  replace (List.filter (λ e, String.eqb (en_name e) _) es) with (@nil Entry); [by rewrite app_nil_r|].
  symmetry. induction Hout as [|e es Hno _ IH]; [done|]. cbn [List.filter].
  destruct (String.eqb_spec (en_name e) (kindName k (model_names t m))) as [E|E].
  - destruct Hno. by exists k, t, m.
  - exact IH.
Qed.

(** Delivery only adds to the log. *)
Definition delivered (methods : gmap (string * string) block) (e : Entry) (call : observer * handler * string) : Prop :=
  ∃ hd, methodFor methods (en_observer e) (en_selector e) = Some hd ∧ call = (en_observer e, hd, en_name e).

Definition log (s : Center) (calls : list (observer * handler * string)) : Center :=
  {| nc_entries := nc_entries s; nc_methods := nc_methods s; nc_calls := (nc_calls s ++ calls)%list |}.

(** Sending goes on until a message is not understood. *)
Lemma send_each es s :
  ∃ heard rest calls, es = (heard ++ rest)%list ∧ Forall2 (delivered (nc_methods s)) heard calls ∧
    match rest with
    | [] => for_each es (send rt classOf implements) s = (Ok tt, log s calls)
    | e :: _ => methodFor (nc_methods s) (en_observer e) (en_selector e) = None ∧
                for_each es (send rt classOf implements) s
                  = (Throw (Exception "NSInvalidArgumentException" (en_selector e)), log s calls)
    end.
Proof.
  revert s. induction es as [|e es IH]; intros s.
  { exists [], [], []. split_and!; [done..|]. destruct s. unfold log. cbn. by rewrite app_nil_r. }
  cbn [for_each]. rewrite run_bind. unfold send at 1. rewrite run_bind, run_gets.
  unfold send at 2. rewrite run_bind, run_gets.
  destruct (methodFor (nc_methods s) (en_observer e) (en_selector e)) as [hd|] eqn:Hh.
  - rewrite run_modify. fold (log s [(en_observer e, hd, en_name e)]).
    destruct (IH (log s [(en_observer e, hd, en_name e)])) as (heard & rest & calls & -> & Hcalls & Hrun).
    assert (∀ c, log (log s [(en_observer e, hd, en_name e)]) c = log s ((en_observer e, hd, en_name e) :: c)) as Hlog.
    { intros c. unfold log. cbn. by rewrite <- app_assoc. }
    exists (e :: heard), rest, ((en_observer e, hd, en_name e) :: calls).
    split; [done|]. split; [constructor; [by exists hd|done]|].
    destruct rest; [|destruct Hrun as [Hn Hrun]; split; [done|]]; by rewrite Hrun, Hlog.
  - exists [], (e :: es), []. split_and!; [done..|]. destruct s. unfold log. cbn. by rewrite app_nil_r.
Qed.

Lemma send_keeps e s : nc_entries (send rt classOf implements e s).2 = nc_entries s ∧
  nc_methods (send rt classOf implements e s).2 = nc_methods s.
Proof. unfold send. rewrite run_bind, run_gets. by destruct (Observers.methodFor _ _ _ _ _ _). Qed.

Lemma post_keeps name obj s :
  nc_entries (postNotificationName rt classOf implements name obj s).2 = nc_entries s ∧
  nc_methods (postNotificationName rt classOf implements name obj s).2 = nc_methods s.
Proof.
  unfold postNotificationName. rewrite run_bind, run_gets.
  apply (for_each_inv (λ s1, nc_entries s1 = nc_entries s ∧ nc_methods s1 = nc_methods s)); [done|].
  intros e s1 _ [<- <-]. apply send_keeps.
Qed.

Lemma not_change_name name c s : name = String c s → c ≠ "h"%char → c ≠ "d"%char → ¬ isChangeName name.
Proof. intros -> Hh Hd (c' & s' & [= <- <-] & [?|?])%isChangeName_head; congruence. Qed.

Lemma historyOK_step sh sh' : step sh sh' → HistoryOK sh → HistoryOK sh'.
Proof.
  intros [r s h s' H|o s h s' H|m s h s' Hm H|name obj s h] HI.
  - by eapply historyOK_observe.
  - replace s' with (removeObserver o s).2 by by rewrite H. by apply historyOK_remove.
  - destruct Hm; lazy beta iota zeta delta [addObjectSelectionChangeObserver addObserver_forReplicationOfDatabase
      addManagedObjectSharingObserver notificationNameForReplicationEventType addObserver lift mbind M_bind modify
      nc_entries nc_methods nc_calls] in H; injection H as <-.
    all: eapply historyOK_other; [exact HI|cbn [nc_entries]; rewrite <-?app_assoc; reflexivity|reflexivity|].
    all: repeat (apply Forall_cons_2; [eapply not_change_name; [reflexivity|discriminate..]|]); apply Forall_nil_2.
  - destruct (post_keeps name obj s) as [He Hm].
    eapply (historyOK_other _ _ _ []); [exact HI|by rewrite app_nil_r|done|done].
Qed.

Lemma reachable_ok sh : reachable sh → HistoryOK sh.
Proof.
  intros Hr. unfold reachable in Hr. remember (center0, history0) as sh0 eqn:E0.
  assert (HistoryOK sh0) as H0.
  { subst. constructor; cbn; [done|set_solver|set_solver|done|set_solver]. }
  clear E0. induction Hr as [|x y z Hxy _ IH]; [done|]. apply IH. by eapply historyOK_step.
Qed.

Lemma lookUpMethod_found fuel methods c sel hd :
  lookUpMethod rt implements fuel methods c sel = Some hd →
  ∃ d, inherits rt c d ∧
    match hd with Own x => x = d ∧ implements d sel = true | Callback b => methods !! (d, sel) = Some b end.
Proof.
  revert c. induction fuel as [|n IH]; intros c; cbn [lookUpMethod]; destruct (implements c sel) eqn:Ei.
  1,3: intros [= <-]; exists c; split; [apply rtc_refl|done].
  all: destruct (methods !! (c, sel)) as [b|] eqn:Em.
  1,3: intros [= <-]; exists c; split; [apply rtc_refl|done].
  { done. }
  destruct (superclass rt c) as [p|] eqn:Ep; [|done]. intros (d & Hd & H)%IH. exists d. split; [|done].
  by eapply rtc_l.
Qed.

Lemma delivered_handles s h e call :
  HistoryOK (s, h) → delivered (nc_methods s) e call →
  ∃ hd, call = (en_observer e, hd, en_name e) ∧ handles (ever h) (en_observer e) (en_selector e) hd.
Proof.
  intros HI (hd & Hh & ->). exists hd. split; [done|].
  apply lookUpMethod_found in Hh as (d & Hd & Hm). destruct hd as [c|b]; cbn [handles].
  - destruct Hm as [-> Hm]. done.
  - destruct (ok_methods _ HI _ _ Hm) as (r & t & n & Hr & Hb & Hn & [= -> Hsel]). by exists r, t, n.
Qed.

(** One announcement: whoever hears the name is called, in the order of registration. *)
Definition called (e : list Registration) (name : string) (r : Registration) (call : observer * handler * string) : Prop :=
  ∃ hd, call = (r_observer r, hd, name) ∧ handles e (r_observer r) (name ++ ":") hd.

(** The observer of a registration has a method for the notification. *)
Definition answers (methods : gmap (string * string) block) (name : string) (r : Registration) : Prop :=
  is_Some (methodFor methods (r_observer r) (name ++ ":")).

Lemma post_change k t m s h object :
  let name := kindName k (model_names t m) in
  HistoryOK (s, h) →
  ∃ heard rest calls, List.filter (hears k name) (live h) = (heard ++ rest)%list ∧ Forall2 (called (ever h) name) heard calls ∧
    match rest with
    | [] => postNotificationName rt classOf implements name (Some object) s = (Ok tt, log s calls)
    | r :: _ => ¬ answers (nc_methods s) name r ∧
                postNotificationName rt classOf implements name (Some object) s
                  = (Throw (Exception "NSInvalidArgumentException" (name ++ ":")), log s calls)
    end.
Proof.
  intros name HI. pose proof (ok_entries _ HI k t m) as He. cbn [fst snd] in He. fold name in He. cbv zeta in He.
  unfold postNotificationName. rewrite run_bind, run_gets.
  assert (List.filter (listens name (Some object)) (nc_entries s) =
          map (λ r, entryOf r name) (List.filter (hears k name) (live h))) as ->.
  { rewrite <- He. unfold listens. rewrite <- filter_bool_filter, He. apply filter_bool_id.
    intros e (r & -> & _)%list_elem_of_fmap. done. }
  destruct (send_each (map (λ r, entryOf r name) (List.filter (hears k name) (live h))) s)
    as (heard & rest & calls & Hes & Hc & Hrun).
  apply fmap_app_inv in Hes as (heard' & rest' & -> & -> & Hl). exists heard', rest', calls. split; [done|]. split.
  - rewrite Forall2_fmap_l in Hc. eapply Forall2_impl; [exact Hc|].
    intros r call Hd. by destruct (delivered_handles s h _ _ HI Hd) as (hd & -> & Hh); exists hd.
  - destruct rest' as [|r rest']; [done|]. destruct Hrun as [Hno Hrun]. split; [|done]. unfold answers. cbn in Hno.
    rewrite Hno. by intros [? ?].
Qed.

(** Who is sure to have a method for a change: with one of the program's own for it, with
    a block for it, and everyone who observes recent changes. *)
Definition prepared (t : MPChangeType) (name : string) (r : Registration) : Prop :=
  r_kind r = Recent ∨ is_Some (r_block r t) ∨ implements (classOf (r_observer r)) (name ++ ":") = true.

Lemma prepared_answers k t m s h r :
  HistoryOK (s, h) → r ∈ live h → hears k (kindName k (model_names t m)) r = true →
  prepared t (kindName k (model_names t m)) r → answers (nc_methods s) (kindName k (model_names t m)) r.
Proof.
  intros HI Hr Hh Hp. apply (ok_live _ HI) in Hr as Hr'. cbn [snd] in Hr'.
  destruct (ok_names _ HI _ Hr') as (names & Hns). cbn [snd] in Hns.
  rewrite (hears_names k t m r names Hns) in Hh. apply andb_true_iff in Hh as [Hk%bool_decide_eq_true Hn%String.eqb_eq].
  assert (equipped r t → answers (nc_methods s) (kindName k (model_names t m)) r) as He.
  { intros He. unfold answers. rewrite <- Hn, <- Hk. exact (ok_answers _ HI r t (names t) Hr' He (Hns t)). }
  destruct Hp as [?|[?|Hi]]; [by apply He; left|by apply He; right|].
  unfold answers, Observers.methodFor. destruct (class_count rt); cbn [lookUpMethod]; rewrite Hi; by eexists.
Qed.

(** The classes whose changes share their names: those whose nearest controllers
    manage the same class, up to the prefix of its name. *)
Definition sameChanges (c c' : string) : Prop :=
  ∃ m m', closest_model rt c m ∧ closest_model rt c' m' ∧ dropPrefix "MP" m = dropPrefix "MP" m'.

Lemma nearest_det {A} (found : string → option A) c a b : nearest rt found c a → nearest rt found c b → a = b.
Proof.
  induction 1 as [c a H|c p a H Hp Hne _ IH]; intros Hb; inversion Hb; simplify_eq; [done|].
  match goal with H1 : superclass rt c = Some ?q, H2 : nearest rt found ?q b |- _ => by apply IH end.
Qed.

Lemma closest_model_det c m m' : closest_model rt c m → closest_model rt c m' → m = m'.
Proof. intros (k & Hk & Hm & _) (k' & Hk' & Hm' & _). rewrite (nearest_det _ _ _ _ Hk Hk') in Hm. congruence. Qed.

Lemma hears_same sh k t c n r :
  HistoryOK sh → r ∈ live sh.2 → namesOfChange rt t c = Ok (Some n) →
  hears k (kindName k n) r = true ↔ r_kind r = k ∧ sameChanges c (r_class r).
Proof.
  intros HI Hr Hn. destruct (ok_names _ HI r (ok_live _ HI r Hr)) as (names & Hns).
  destruct (namesOfChange_spec rt t c n Hn) as (m & Hm & ->).
  destruct (namesOfChange_spec rt t _ _ (Hns t)) as (m' & Hm' & Hnm').
  rewrite (hears_names k t m r names Hns), andb_true_iff, bool_decide_eq_true, String.eqb_eq, Hnm'.
  apply and_iff_compat_l. split.
  - intros (_ & _ & Hd)%kindName_inj. by exists m, m'.
  - intros (m1 & m1' & H1 & H1' & Hd). rewrite (closest_model_det _ _ _ Hm H1), (closest_model_det _ _ _ Hm' H1').
    destruct k; cbn [kindName model_names has_name did_name]; by rewrite Hd.
Qed.
End histories.

(** C3 (invariant). Whatever observers of changes, selections, replications and sharing have been
    registered and removed, and whatever has been posted, announcing a change of an
    object of a class calls the observers registered for changes of that class - or
    of a class whose nearest controller manages the same model class - once per
    registration, in the order of registration, those of recent changes before those
    of past ones; and nobody else.  Every message ends in a method: the observer's own,
    or a block given for this very change of these classes to an observer of its class
    or of a class above.  All of them are called, but for one case: an observer of past
    changes that was registered without a block for this change and has no method for it
    does not understand the message; the announcement ends there with that exception, and
    the observers of past changes registered after it are not called.  Observers of recent
    changes, and those with a block or a method of their own for the change, always
    understand it. *)
Theorem changes_reach_observers rt classOf implements s h t c n n' object :
  reachable rt classOf implements (s, h) →
  notificationNameForRecentChange rt t c = Ok n → notificationNameForPastChange rt t c = Ok n' →
  ∃ recent heard rest past,
    Forall2 (called rt classOf implements (ever h) n) (List.filter (hears rt Recent n) (live h)) recent ∧
    List.filter (hears rt Past n') (live h) = (heard ++ rest)%list ∧
    Forall2 (called rt classOf implements (ever h) n') heard past ∧
    match rest with
    | [] => announceChange rt classOf implements t c object s = (Ok tt, log s (recent ++ past))
    | r :: _ => ¬ prepared classOf implements t n' r ∧ ¬ answers rt classOf implements (nc_methods s) n' r ∧
                announceChange rt classOf implements t c object s
                  = (Throw (Exception "NSInvalidArgumentException" (n' ++ ":")), log s (recent ++ past))
    end ∧
    ∀ r, r ∈ live h →
      (hears rt Recent n r = true ↔ r_kind r = Recent ∧ sameChanges rt c (r_class r)) ∧
      (hears rt Past n' r = true ↔ r_kind r = Past ∧ sameChanges rt c (r_class r)).
Proof.
  intros Hr Hn Hn'. pose proof (reachable_ok _ _ _ _ Hr) as HI.
  assert (announceChange rt classOf implements t c object s =
    (_ ← postNotificationName rt classOf implements n (Some object);
     postNotificationName rt classOf implements n' (Some object)) s) as Hann.
  { unfold announceChange. rewrite run_bind. unfold lift at 1. rewrite Hn. rewrite run_bind. unfold lift. by rewrite Hn'. }
  unfold notificationNameForRecentChange, notificationNameForPastChange in Hn, Hn'.
  apply res_bind_inv in Hn as (? & _ & (? & _ & (names & Hnames & Hn)%res_bind_inv)%res_bind_inv).
  apply res_bind_inv in Hn' as (? & _ & (? & _ & (names' & Hnames' & Hn')%res_bind_inv)%res_bind_inv).
  assert (names' = names) as -> by congruence. destruct names as [names|]; [|done].
  injection Hn as <-. injection Hn' as <-.
  pose proof (namesOfChange_spec rt t c names Hnames) as (m & _ & ->).
  destruct (post_change rt classOf implements Recent t m s h object HI) as (heard & rest & recent & Hall & Hrec & Hrun).
  destruct rest as [|r rest].
  2:{ destruct Hrun as [[] _]. assert (r ∈ List.filter (hears rt Recent (kindName Recent (model_names t m))) (live h)) as Hin.
      { rewrite Hall. set_solver. }
      apply filter_bool_elem in Hin as [Hin Hh]. eapply prepared_answers; [exact HI|done|done|].
      left. unfold hears in Hh. by apply andb_true_iff in Hh as [Hk%bool_decide_eq_true _]. }
  rewrite app_nil_r in Hall. subst heard.
  assert (HistoryOK rt classOf implements (log s recent, h)) as HI'.
  { eapply (historyOK_other _ _ _ s _ _ []); [done|by rewrite app_nil_r|done|done]. }
  destruct (post_change rt classOf implements Past t m _ h object HI') as (heard & rest & past & Hall & Hpast & Hrun').
  assert (∀ c, log (log s recent) c = log s (recent ++ c)) as Hlog.
  { intros c'. unfold log. cbn. by rewrite app_assoc. }
  exists recent, heard, rest, past. split; [done|]. split; [done|]. split; [done|]. split.
  - cbn [kindName] in Hrun, Hrun'. rewrite run_bind, Hrun in Hann. rewrite <- Hlog, Hann.
    destruct rest as [|r rest]; [done|].
    destruct Hrun' as [Hno Hrun']. split; [|split; [exact Hno|exact Hrun']]. intros Hp. apply Hno.
    assert (r ∈ List.filter (hears rt Past (kindName Past (model_names t m))) (live h)) as Hin.
    { rewrite Hall. set_solver. }
    apply filter_bool_elem in Hin as [Hin Hh]. exact (prepared_answers _ _ _ Past t m _ h r HI' Hin Hh Hp).
  - intros r Hl. split.
    + exact (hears_same rt classOf implements (s, h) Recent t c _ r HI Hl Hnames).
    + exact (hears_same rt classOf implements (s, h) Past t c _ r HI Hl Hnames).
Qed.

(** ** Two observers of one class *)
Section example.
Local Open Scope string_scope.

Definition example_class (o : observer) : string :=
  if Pos.eqb o 3 then "MPManuscriptsPackageController" else "MPNotesController".
Definition example_implements (class selector : string) : bool :=
  String.eqb class "MPNotesController" && String.eqb selector "didUpdateSection:".

(** The first two observe sections, their blocks differ; the third observes paragraphs. *)
Definition example_registration (o : observer) : Registration := {|
  r_observer := o;
  r_kind := if Pos.eqb o 3 then Past else Recent;
  r_class := if Pos.eqb o 3 then "MPParagraph" else "MPSection";
  r_block t := Some (match t with MPChangeTypeAdd => 10 | MPChangeTypeUpdate => 20 | MPChangeTypeRemove => 30 end + o)%positive
|}.

Definition example_observe (o : observer) (s : Center) : Center :=
  (observe ReferenceRuntime.rt example_class example_implements (example_registration o) s).2.
Definition example_center : Center :=
  example_observe 3%positive (example_observe 2%positive (example_observe 1%positive center0)).
Definition example_history : History :=
  {| live := map example_registration [1; 2; 3]%positive; ever := map example_registration [1; 2; 3]%positive |}.

(** The block of the second is never called: the class has the method of the first. *)
Example blocks_belong_to_classes :
  nc_calls (announceChange ReferenceRuntime.rt example_class example_implements
              MPChangeTypeUpdate "MPParagraph" 5%positive example_center).2 =
  [(1%positive, Callback 21%positive, "hasUpdatedSection"); (2%positive, Callback 21%positive, "hasUpdatedSection");
   (3%positive, Callback 23%positive, "didUpdateSection")].
Proof. vm_compute. reflexivity. Qed.

(** Recent observers have to implement the methods of the changes: their protocol is
    empty, and the short registration gives no block. *)
Example recent_observers_without_blocks :
  (addRecentChangeObserver_ ReferenceRuntime.rt example_class example_implements 1%positive "MPSection" center0).1 =
  Throw (Exception "EXC_BAD_ACCESS" "imp_implementationWithBlock").
Proof. vm_compute. reflexivity. Qed.

Example past_observers_without_methods :
  ((_ ← addPastChangeObserver_ ReferenceRuntime.rt example_class example_implements 1%positive "MPSection";
    announceChange ReferenceRuntime.rt example_class example_implements MPChangeTypeAdd "MPSection" 5%positive)
     center0).1 = Throw (Exception "NSInvalidArgumentException" "didAddSection:").
Proof. vm_compute. reflexivity. Qed.

(** The completion of a push is announced to the method for pulls. *)
Example push_completion_as_pull :
  map en_selector (nc_entries (addObserver_forReplicationOfDatabase 1%positive None center0).2) =
  ["didCompletePersistentPullReplication:"; "didCompletePersistentPullReplication:"].
Proof. reflexivity. Qed.

Lemma run_pair {S} (m : M S unit) s : (m s).1 = Ok tt → m s = (Ok tt, (m s).2).
Proof. intros H. by rewrite <- H, <- surjective_pairing. Qed.

Lemma example_step o s h :
  (observe ReferenceRuntime.rt example_class example_implements (example_registration o) s).1 = Ok tt →
  step ReferenceRuntime.rt example_class example_implements (s, h)
    (example_observe o s, {| live := live h ++ [example_registration o]; ever := ever h ++ [example_registration o] |}).
Proof. intros H. apply step_observe. by apply run_pair. Qed.

Lemma example_reachable :
  reachable ReferenceRuntime.rt example_class example_implements (example_center, example_history).
Proof.
  eapply rtc_l; [apply (example_step 1%positive); vm_compute; reflexivity|].
  eapply rtc_l; [apply (example_step 2%positive); vm_compute; reflexivity|].
  eapply rtc_l; [apply (example_step 3%positive); vm_compute; reflexivity|]. apply rtc_refl.
Qed.
End example.

Lemma changes_reach_observers_witness :
  ∃ recent past,
    announceChange ReferenceRuntime.rt example_class example_implements MPChangeTypeUpdate "MPParagraph" 5%positive
      example_center = (Ok tt, log example_center (recent ++ past)) ∧ length recent = 2 ∧ length past = 1.
Proof.
  destruct (changes_reach_observers ReferenceRuntime.rt example_class example_implements example_center example_history
    MPChangeTypeUpdate "MPParagraph" "hasUpdatedSection" "didUpdateSection" 5%positive example_reachable eq_refl eq_refl)
    as (recent & heard & rest & past & Hr & Hall & Hp & Hrun & _).
  assert (List.filter (hears ReferenceRuntime.rt Past "didUpdateSection") (live example_history) = [example_registration 3%positive])
    as E by (vm_compute; reflexivity).
  rewrite E in Hall. destruct rest as [|r rest].
  - rewrite app_nil_r in Hall. subst heard. exists recent, past. split; [exact Hrun|].
    rewrite <- (Forall2_length _ _ _ Hr), <- (Forall2_length _ _ _ Hp). split; vm_compute; reflexivity.
  - destruct Hrun as [Hno _]. exfalso. apply Hno. right. left.
    destruct heard as [|? [|? ?]]; [|done..]. injection Hall as <- <-. by eexists.
Defined.
