(* ===== verification/World.v ===== *)
(** * The state Feather's objects share, and the CouchbaseLite layer below it

    The heap of managed objects (src/Feather/Sources/Model/MPManagedObject.m)
    and embedded objects (MPEmbeddedObject.m), the object caches of their
    controllers, and the log of what was posted to the notification center.
    Everything [CBLModel] and [CBLDocument] do is behind the interface [CBL],
    whose laws ([CBLLaws]) state the documented behaviour relied upon. *)
From Stdlib Require Import Ascii.
From stdpp Require Import base tactics strings numbers list gmap.
From S2P Require Import Prelude ObjC.

(** A saved revision of a document: its [revisionID] and its [properties]. *)
Record CBLSavedRevision : Type := mkSaved {
  sr_revisionID : string;
  sr_properties : list (string * value)
}.

(** ** CouchbaseLite models

    [S] is the state of the CouchbaseLite layer; a model is named by the
    pointer of the [MPManagedObject] that is its instance. *)
Class CBL (S : Type) := {
  (** the documentID of [model.document]; [None] when the document is [nil] *)
  model_document : S → oid → option string;
  (** [model.document.isDeleted] *)
  model_docIsDeleted : S → oid → bool;
  (** [model.document.currentRevisionID] *)
  model_revision : S → oid → option string;
  (** [model.needsSave] *)
  model_needsSave : S → oid → bool;
  (** [model.changedNames] or [model.changedAttachments] is not [nil] *)
  model_hasChanges : S → oid → bool;
  model_get : S → oid → string → option value;
  model_getUnsaved : S → oid → string → option value;
  (** [[model.document propertyForKey:p]] *)
  doc_propertyForKey : S → oid → string → option value;
  model_set : S → oid → string → option value → S;
  (** [-cacheValue:ofProperty:changed:] *)
  model_cacheValue : S → oid → string → option value → bool → S;
  model_markNeedsSave : S → oid → S;
  model_markPropertyNeedsSave : S → oid → string → S;
  model_propertiesToSave : S → oid → list (string * value);
  (** [-initWithNewDocumentInDatabase:] with the id the model asked for *)
  model_init : S → oid → string → string → S;
  model_save : S → oid → outcome * S;
  model_saveAll : S → list oid → outcome * S;
  model_delete : S → oid → outcome * S;
  (** [model.document.modelObject] is set *)
  model_hasModelObject : S → oid → bool;
  (** [document.modelObject = model] *)
  model_setModelObject : S → oid → S;
  (** [[database existingDocumentWithID:]], the database named first *)
  doc_existing : S → string → string → bool;
  (** [document.modelObject] and [document.isDeleted] of an existing document *)
  doc_modelObject : S → string → string → option oid;
  doc_isDeleted : S → string → string → bool;
  (** [[document propertyForKey:]] *)
  doc_property : S → string → string → string → option value;
  (** [currentRevisionID] of the document an all-documents query that includes
      deleted documents finds *)
  doc_currentRevision : S → string → string → option string
}.

(** The documented behaviour of [CBLModel] that Feather relies on. *)
Class CBLLaws (S : Type) `{!CBL S} := {
  get_set_same : ∀ s o p v,
    match model_get (model_set s o p (Some v)) o p with
    | Some w => w = v ∨ isEqual w v = true
    | None => False
    end;
  get_set_nil : ∀ s o p, model_get (model_set s o p None) o p = None;
  get_set_other : ∀ s o p v o' p',
    (o', p') ≠ (o, p) → model_get (model_set s o p v) o' p' = model_get s o' p';
  document_set : ∀ s o p v o',
    model_document (model_set s o p v) o' = model_document s o';
  docIsDeleted_set : ∀ s o p v o',
    model_docIsDeleted (model_set s o p v) o' = model_docIsDeleted s o';
  get_cache_other : ∀ s o p v b o' p',
    (o', p') ≠ (o, p) → model_get (model_cacheValue s o p v b) o' p' = model_get s o' p';
  document_cache : ∀ s o p v b o',
    model_document (model_cacheValue s o p v b) o' = model_document s o';
  docIsDeleted_cache : ∀ s o p v b o',
    model_docIsDeleted (model_cacheValue s o p v b) o' = model_docIsDeleted s o';
  (** a value cached as unchanged is no change *)
  needsSave_cache : ∀ s o p v o',
    model_needsSave (model_cacheValue s o p v false) o' = model_needsSave s o';
  hasChanges_cache : ∀ s o p v o',
    model_hasChanges (model_cacheValue s o p v false) o' = model_hasChanges s o';
  needsSave_mark : ∀ s o, model_needsSave (model_markNeedsSave s o) o = true;
  needsSave_mark_mono : ∀ s o o',
    model_needsSave s o' = true → model_needsSave (model_markNeedsSave s o) o' = true;
  get_mark : ∀ s o o' p, model_get (model_markNeedsSave s o) o' p = model_get s o' p;
  document_delete : ∀ s o s',
    model_delete s o = (YES, s') → model_document s' o = None;
  document_delete_fail : ∀ s o e s',
    model_delete s o = (NO e, s') → model_document s' o = model_document s o;
  get_save : ∀ s o r s' o' p,
    model_save s o = (r, s') → model_get s' o' p = model_get s o' p;
  document_save : ∀ s o r s' o',
    model_save s o = (r, s') → model_document s' o' = model_document s o';
  needsSave_save : ∀ s o s',
    model_save s o = (YES, s') → model_needsSave s' o = false ∧ model_hasChanges s' o = false;
  needsSave_set : ∀ s o p v o',
    model_needsSave s o' = true → model_needsSave (model_set s o p v) o' = true;
  modelObject_set : ∀ s o p v o',
    model_hasModelObject (model_set s o p v) o' = model_hasModelObject s o';
  document_init : ∀ s o db d, model_document (model_init s o db d) o = Some d;
  docIsDeleted_init : ∀ s o db d, model_docIsDeleted (model_init s o db d) o = false;
  get_init : ∀ s o db d p, model_get (model_init s o db d) o p = None;
  hasModelObject_init : ∀ s o db d, model_hasModelObject (model_init s o db d) o = true;
  document_init_other : ∀ s o db d o', o' ≠ o →
    model_document (model_init s o db d) o' = model_document s o';
  docIsDeleted_init_other : ∀ s o db d o', o' ≠ o →
    model_docIsDeleted (model_init s o db d) o' = model_docIsDeleted s o';
  get_init_other : ∀ s o db d o' p, o' ≠ o →
    model_get (model_init s o db d) o' p = model_get s o' p;
  hasModelObject_init_other : ∀ s o db d o', o' ≠ o →
    model_hasModelObject (model_init s o db d) o' = model_hasModelObject s o';
  (** a new model has no value, and its document none either *)
  getUnsaved_init : ∀ s o db d p, model_getUnsaved (model_init s o db d) o p = None;
  docProperty_init : ∀ s o db d p, doc_propertyForKey (model_init s o db d) o p = None;
  getUnsaved_set_other : ∀ s o p v o' p',
    (o', p') ≠ (o, p) → model_getUnsaved (model_set s o p v) o' p' = model_getUnsaved s o' p';
  (** the document changes when the model is saved *)
  docProperty_set : ∀ s o p v o' p',
    doc_propertyForKey (model_set s o p v) o' p' = doc_propertyForKey s o' p';
  (** a new model makes no document but its own *)
  existing_init : ∀ s o db d db' d', model_document s o = None → d' ≠ d →
    doc_existing (model_init s o db d) db' d' = doc_existing s db' d';
  existing_set : ∀ s o p v db d, doc_existing (model_set s o p v) db d = doc_existing s db d
}.

(** ** Objects of the heap *)
Definition cid := positive.
Definition pid := positive.

(* @src Feather/Sources/Model/MPManagedObject.m 37 52 MPManagedObject () *)
Record MPManagedObject : Type := mkMO {
  mo_class : string;
  mo_controller : option cid;
  mo_newDocumentID : option string;
  mo_cloudKitChangeTag : option value;
  mo_cachedCloudKitChangeTag : option value;
  mo_isNewObject : bool;
  mo_embeddedObjectCache : option (gmap string oid);
  mo_deletedDocumentID : option string
}.

(* @src Feather/Sources/Model/MPEmbeddedObject.m 31 43 MPEmbeddedObject () *)
Record MPEmbeddedObject : Type := mkEO {
  eo_class : string;
  eo_embeddingObject : option oid;
  eo_embeddingKey : option string;
  eo_properties : gmap string value;
  eo_embeddedObjectCache : option (gmap string oid);
  eo_needsSave : bool
}.

(* @src Feather/Sources/Model/MPManagedObject.h 39 44 MPManagedObjectChangeSource *)
Inductive MPManagedObjectChangeSource : Type :=
  | MPManagedObjectChangeSourceInternal
  | MPManagedObjectChangeSourceAPI
  | MPManagedObjectChangeSourceExternal.

#[export] Instance changeSource_eq_dec : EqDecision MPManagedObjectChangeSource.
Proof. solve_decision. Defined.

(** What the code posts to a notification center, or tells its delegate. *)
Inductive event : Type :=
  | Posted (name : string) (object : oid) (source : option MPManagedObjectChangeSource)
  | PostedError (err : option NSError)
  | UpdateChangeCount.

#[export] Instance event_eq_dec : EqDecision event.
Proof. solve_decision. Defined.

(** An [MPManagedObjectsController]: its class, package and database, and the
    objects it has registered by document identifier. *)
(* @src Feather/Sources/Model Controllers/MPManagedObjectsController.m 38 50 MPManagedObjectsController () *)
Record Controller : Type := mkController {
  moc_class : string;
  moc_package : pid;
  moc_db : option string;
  moc_objectCache : gmap string oid
}.

(** An [MPDatabasePackageController] as its objects and controllers see it:
    the controllers its properties hold, the memo of
    [-controllerForManagedObjectClass:] ([None] is [NSNull]), its notification
    center, whether its delegate counts changes, its session. *)
Record Package : Type := mkPackage {
  pkg_class : string;
  pkg_fullyQualifiedIdentifier : option string;
  pkg_controllers : gmap string cid;
  pkg_controllerDictionary : gmap string (option string);
  pkg_notificationCenter : bool;
  pkg_delegateCounts : bool;
  pkg_sessionID : string
}.

Record World (S : Type) : Type := mkWorld {
  w_cbl : S;
  w_mos : gmap oid MPManagedObject;
  w_eos : gmap oid MPEmbeddedObject;
  w_mocs : gmap cid Controller;
  w_pkgs : gmap pid Package;
  w_shoebox : option pid;
  w_registry : gmap string pid;
  (** the package a database points back to *)
  w_dbs : gmap string pid;
  w_log : list event;
  w_now : Z;
  w_uuids : nat;
  w_nextOid : oid
}.
Arguments mkWorld {S}.
Arguments w_cbl {S}.  Arguments w_mos {S}.  Arguments w_eos {S}.
Arguments w_mocs {S}.  Arguments w_pkgs {S}.  Arguments w_shoebox {S}.  Arguments w_registry {S}.  Arguments w_dbs {S}.
Arguments w_log {S}.  Arguments w_now {S}.
Arguments w_uuids {S}.  Arguments w_nextOid {S}.

(** The surroundings: the class table, [NSJSONSerialization], [NSUUID]'s
    strings, and which classes ask for session identifiers. *)
Class Env := {
  env_rt : Runtime;
  env_parseJSON : string → option value;
  env_uuid : nat → string;
  env_shouldTrackSessionID : string → bool;
  (** [-relaysFetchingByIdentifier] of a controller class: NO unless overridden *)
  env_relaysFetchingByIdentifier : string → bool
}.

(** [[super modelForDocument:document]] of CouchbaseLite, which may call back:
    the class asked for, the database and the document identifier. *)
Class CBLModelFactory (S : Type) :=
  super_modelForDocument : string → string → string → M (World S) (option oid).

Section state.
Context {S : Type}.
Implicit Types w : World S.

Definition set_cbl (s : S) w : World S :=
  mkWorld s (w_mos w) (w_eos w) (w_mocs w) (w_pkgs w) (w_shoebox w) (w_registry w) (w_dbs w) (w_log w) (w_now w) (w_uuids w) (w_nextOid w).
Definition set_mos (m : gmap oid MPManagedObject) w : World S :=
  mkWorld (w_cbl w) m (w_eos w) (w_mocs w) (w_pkgs w) (w_shoebox w) (w_registry w) (w_dbs w) (w_log w) (w_now w) (w_uuids w) (w_nextOid w).
Definition set_eos (m : gmap oid MPEmbeddedObject) w : World S :=
  mkWorld (w_cbl w) (w_mos w) m (w_mocs w) (w_pkgs w) (w_shoebox w) (w_registry w) (w_dbs w) (w_log w) (w_now w) (w_uuids w) (w_nextOid w).
Definition set_mocs (m : gmap cid Controller) w : World S :=
  mkWorld (w_cbl w) (w_mos w) (w_eos w) m (w_pkgs w) (w_shoebox w) (w_registry w) (w_dbs w) (w_log w) (w_now w) (w_uuids w) (w_nextOid w).
Definition set_pkgs (m : gmap pid Package) w : World S :=
  mkWorld (w_cbl w) (w_mos w) (w_eos w) (w_mocs w) m (w_shoebox w) (w_registry w) (w_dbs w) (w_log w) (w_now w) (w_uuids w) (w_nextOid w).
Definition set_registry (m : gmap string pid) w : World S :=
  mkWorld (w_cbl w) (w_mos w) (w_eos w) (w_mocs w) (w_pkgs w) (w_shoebox w) m (w_dbs w) (w_log w) (w_now w) (w_uuids w) (w_nextOid w).
Definition set_log (l : list event) w : World S :=
  mkWorld (w_cbl w) (w_mos w) (w_eos w) (w_mocs w) (w_pkgs w) (w_shoebox w) (w_registry w) (w_dbs w) l (w_now w) (w_uuids w) (w_nextOid w).
Definition set_uuids (n : nat) w : World S :=
  mkWorld (w_cbl w) (w_mos w) (w_eos w) (w_mocs w) (w_pkgs w) (w_shoebox w) (w_registry w) (w_dbs w) (w_log w) (w_now w) n (w_nextOid w).
Definition set_nextOid (n : oid) w : World S :=
  mkWorld (w_cbl w) (w_mos w) (w_eos w) (w_mocs w) (w_pkgs w) (w_shoebox w) (w_registry w) (w_dbs w) (w_log w) (w_now w) (w_uuids w) n.

Definition cbl (f : S → S) : M (World S) unit := modify (λ w, set_cbl (f (w_cbl w)) w).
Definition cbl_gets {A} (f : S → A) : M (World S) A := gets (λ w, f (w_cbl w)).
Definition cbl_run {A} (f : S → A * S) : M (World S) A :=
  λ w, let '(a, s) := f (w_cbl w) in (Ok a, set_cbl s w).

Definition badAccess {A} : M (World S) A := throw (Exception "EXC_BAD_ACCESS" "").

Definition getMO (o : oid) : M (World S) MPManagedObject :=
  λ w, match w_mos w !! o with Some m => (Ok m, w) | None => badAccess w end.
Definition getEO (o : oid) : M (World S) MPEmbeddedObject :=
  λ w, match w_eos w !! o with Some e => (Ok e, w) | None => badAccess w end.
Definition getMOC (c : cid) : M (World S) Controller :=
  λ w, match w_mocs w !! c with Some m => (Ok m, w) | None => badAccess w end.
Definition updMO (o : oid) (f : MPManagedObject → MPManagedObject) : M (World S) unit :=
  modify (λ w, set_mos (alter f o (w_mos w)) w).
Definition updEO (o : oid) (f : MPEmbeddedObject → MPEmbeddedObject) : M (World S) unit :=
  modify (λ w, set_eos (alter f o (w_eos w)) w).
Definition updMOC (c : cid) (f : Controller → Controller) : M (World S) unit :=
  modify (λ w, set_mocs (alter f c (w_mocs w)) w).

Definition getPkg (p : pid) : M (World S) Package :=
  λ w, match w_pkgs w !! p with Some k => (Ok k, w) | None => badAccess w end.
Definition updPkg (p : pid) (f : Package → Package) : M (World S) unit :=
  modify (λ w, set_pkgs (alter f p (w_pkgs w)) w).

Definition post (e : event) : M (World S) unit := modify (λ w, set_log (w_log w ++ [e]) w).

(** [[[NSUUID UUID] UUIDString]] *)
Definition newUUID `{!Env} : M (World S) string :=
  λ w, (Ok (env_uuid (w_uuids w)), set_uuids (1 + w_uuids w) w).
(** [alloc] *)
Definition alloc : M (World S) oid :=
  λ w, (Ok (w_nextOid w), set_nextOid (Pos.succ (w_nextOid w)) w).

Definition isManagedObject (o : oid) : M (World S) bool :=
  gets (λ w, bool_decide (is_Some (w_mos w !! o))).
Definition isEmbeddedObject (o : oid) : M (World S) bool :=
  gets (λ w, bool_decide (is_Some (w_eos w !! o))).
End state.

(** Field updates *)
Definition mo_with_cache (c : option (gmap string oid)) (m : MPManagedObject) : MPManagedObject :=
  mkMO (mo_class m) (mo_controller m) (mo_newDocumentID m) (mo_cloudKitChangeTag m)
    (mo_cachedCloudKitChangeTag m) (mo_isNewObject m) c (mo_deletedDocumentID m).
Definition mo_with_isNew (b : bool) (m : MPManagedObject) : MPManagedObject :=
  mkMO (mo_class m) (mo_controller m) (mo_newDocumentID m) (mo_cloudKitChangeTag m)
    (mo_cachedCloudKitChangeTag m) b (mo_embeddedObjectCache m) (mo_deletedDocumentID m).
Definition mo_with_deletedID (d : option string) (m : MPManagedObject) : MPManagedObject :=
  mkMO (mo_class m) (mo_controller m) (mo_newDocumentID m) (mo_cloudKitChangeTag m)
    (mo_cachedCloudKitChangeTag m) (mo_isNewObject m) (mo_embeddedObjectCache m) d.
Definition mo_with_controller (c : option cid) (m : MPManagedObject) : MPManagedObject :=
  mkMO (mo_class m) c (mo_newDocumentID m) (mo_cloudKitChangeTag m)
    (mo_cachedCloudKitChangeTag m) (mo_isNewObject m) (mo_embeddedObjectCache m) (mo_deletedDocumentID m).
Definition mo_with_tags (t c : option value) (m : MPManagedObject) : MPManagedObject :=
  mkMO (mo_class m) (mo_controller m) (mo_newDocumentID m) t c
    (mo_isNewObject m) (mo_embeddedObjectCache m) (mo_deletedDocumentID m).

Definition eo_with_cache (c : option (gmap string oid)) (e : MPEmbeddedObject) : MPEmbeddedObject :=
  mkEO (eo_class e) (eo_embeddingObject e) (eo_embeddingKey e) (eo_properties e) c (eo_needsSave e).
Definition eo_with_properties (p : gmap string value) (e : MPEmbeddedObject) : MPEmbeddedObject :=
  mkEO (eo_class e) (eo_embeddingObject e) (eo_embeddingKey e) p (eo_embeddedObjectCache e) (eo_needsSave e).
Definition eo_with_needsSave (b : bool) (e : MPEmbeddedObject) : MPEmbeddedObject :=
  mkEO (eo_class e) (eo_embeddingObject e) (eo_embeddingKey e) (eo_properties e) (eo_embeddedObjectCache e) b.
Definition eo_with_key (k : option string) (e : MPEmbeddedObject) : MPEmbeddedObject :=
  mkEO (eo_class e) (eo_embeddingObject e) k (eo_properties e) (eo_embeddedObjectCache e) (eo_needsSave e).

Definition moc_with_cache (m : gmap string oid) (c : Controller) : Controller :=
  mkController (moc_class c) (moc_package c) (moc_db c) m.
Definition pkg_with_dictionary (d : gmap string (option string)) (p : Package) : Package :=
  mkPackage (pkg_class p) (pkg_fullyQualifiedIdentifier p) (pkg_controllers p) d
    (pkg_notificationCenter p) (pkg_delegateCounts p) (pkg_sessionID p).
