(* ===== verification/Reference.v ===== *)
(** * A reference instance of the CouchbaseLite interface

    An in-memory store of models that satisfies [CBLLaws].  It plays no part in
    the theorems, which hold for every implementation of the interface: it
    shows that the laws can hold together, and the witnesses run on it. *)
From Stdlib Require Import Ascii.
From stdpp Require Import base tactics strings numbers list gmap pretty.
From S2P Require Import Prelude ObjC ReferenceRuntime World.

Module Reference.

Record model : Type := mkModel {
  m_doc : option string;
  m_deleted : bool;
  m_rev : option string;
  m_values : gmap string value;
  m_disk : gmap string value;
  m_changed : list string;
  m_needsSave : bool
}.

Definition fresh_model : model := mkModel None false None ∅ ∅ [] false.

(** [st_refuses] makes every save and deletion fail with the given error;
    [st_leaves] are the live leaf revisions of a model's document. *)
Record store : Type := mkStore {
  st_models : gmap oid model;
  st_refuses : option NSError;
  st_leaves : gmap oid (list CBLSavedRevision)
}.

Definition at_ (s : store) (o : oid) : model := default fresh_model (st_models s !! o).
Definition put (s : store) (o : oid) (m : model) : store :=
  mkStore (<[o := m]> (st_models s)) (st_refuses s) (st_leaves s).

Definition write (p : string) (v : option value) (vs : gmap string value) : gmap string value :=
  match v with Some x => <[p := x]> vs | None => delete p vs end.

Definition set (s : store) (o : oid) (p : string) (v : option value) : store :=
  let m := at_ s o in
  put s o (mkModel (m_doc m) (m_deleted m) (m_rev m) (write p v (m_values m)) (m_disk m)
             (p :: m_changed m) true).
Definition cache (s : store) (o : oid) (p : string) (v : option value) (changed : bool) : store :=
  let m := at_ s o in
  put s o (mkModel (m_doc m) (m_deleted m) (m_rev m) (write p v (m_values m)) (m_disk m)
             (if changed then p :: m_changed m else m_changed m) (m_needsSave m)).
Definition mark (s : store) (o : oid) : store :=
  let m := at_ s o in
  put s o (mkModel (m_doc m) (m_deleted m) (m_rev m) (m_values m) (m_disk m) (m_changed m) true).
Definition markProperty (s : store) (o : oid) (p : string) : store :=
  let m := at_ s o in
  put s o (mkModel (m_doc m) (m_deleted m) (m_rev m) (m_values m) (m_disk m)
             (p :: m_changed m) (m_needsSave m)).
Definition save1 (s : store) (o : oid) : store :=
  let m := at_ s o in
  put s o (mkModel (m_doc m) (m_deleted m) (Some "1-saved"%string) (m_values m) (m_values m) [] false).
Definition save (s : store) (o : oid) : outcome * store :=
  match st_refuses s with Some e => (NO (Some e), s) | None => (YES, save1 s o) end.
Definition remove (s : store) (o : oid) : outcome * store :=
  let m := at_ s o in
  match st_refuses s with
  | Some e => (NO (Some e), s)
  | None => (YES, put s o (mkModel None true (m_rev m) (m_values m) (m_disk m) [] false))
  end.

#[export] Instance store_CBL : CBL store := {
  model_document s o := m_doc (at_ s o);
  model_docIsDeleted s o := m_deleted (at_ s o);
  model_revision s o := m_rev (at_ s o);
  model_needsSave s o := m_needsSave (at_ s o);
  model_hasChanges s o := negb (bool_decide (m_changed (at_ s o) = []));
  model_get s o p := m_values (at_ s o) !! p;
  model_getUnsaved s o p :=
    if bool_decide (p ∈ m_changed (at_ s o)) then m_values (at_ s o) !! p else None;
  doc_propertyForKey s o p := m_disk (at_ s o) !! p;
  model_set := set;
  model_cacheValue := cache;
  model_markNeedsSave := mark;
  model_markPropertyNeedsSave := markProperty;
  model_propertiesToSave s o := map_to_list (m_values (at_ s o));
  model_init s o db docID := put s o (mkModel (Some docID) false None ∅ ∅ [] false);
  model_save := save;
  model_saveAll s os :=
    match st_refuses s with Some e => (NO (Some e), s) | None => (YES, foldl save1 s os) end;
  model_delete := remove;
  model_hasModelObject s o := bool_decide (is_Some (m_doc (at_ s o)));
  model_setModelObject s o := put s o (at_ s o);
  doc_existing s db docID :=
    existsb (λ om, bool_decide (m_doc om.2 = Some docID)) (map_to_list (st_models s));
  doc_modelObject s db docID :=
    fst <$> head (List.filter (λ om, bool_decide (m_doc om.2 = Some docID)) (map_to_list (st_models s)));
  doc_isDeleted s db docID := false;
  doc_property s db docID p :=
    om ← head (List.filter (λ om, bool_decide (m_doc om.2 = Some docID)) (map_to_list (st_models s)));
    m_disk om.2 !! p;
  (* a deleted model still has the identifier on disk *)
  doc_currentRevision s db docID :=
    om ← head (List.filter (λ om, bool_decide (m_doc om.2 = Some docID ∨
                                               stringOf (m_disk om.2 !! "_id"%string) = Some docID))
                (map_to_list (st_models s)));
    m_rev om.2
}.

Lemma at_put s o m o' : at_ (put s o m) o' = if decide (o = o') then m else at_ s o'.
Proof. unfold at_, put. cbn. rewrite lookup_insert. by case_decide. Qed.

Lemma write_other p v vs p' : p' ≠ p → write p v vs !! p' = vs !! p'.
Proof. intros. destruct v; cbn; by simplify_map_eq. Qed.

Lemma write_same p v vs : write p v vs !! p = v.
Proof. destruct v; cbn; by simplify_map_eq. Qed.

Ltac store_solver :=
  intros; cbn in *; unfold set, cache, mark, markProperty, save, save1, remove in *; cbn in *;
  repeat match goal with H : context [st_refuses ?s] |- _ => destruct (st_refuses s); simplify_eq end;
  rewrite ?at_put in *; repeat case_decide; subst; cbn in *;
  rewrite ?write_same, ?write_other by congruence; auto.

Lemma existing_put s o m db d :
  (m_doc m = Some d ↔ m_doc (at_ s o) = Some d) →
  doc_existing (put s o m) db d = doc_existing s db d.
Proof.
  intros Hm. cbn. apply Bool.eq_iff_eq_true. rewrite !existsb_exists.
  split; intros ([o' m'] & Hin & Hd%bool_decide_eq_true);
    apply list_elem_of_In, elem_of_map_to_list in Hin; cbn in *.
  - destruct (decide (o = o')) as [<-|Hne].
    + rewrite lookup_insert_eq in Hin. injection Hin as <-. apply Hm in Hd. unfold at_ in Hd.
      destruct (st_models s !! o) as [m0|] eqn:E; [|done]. exists (o, m0).
      split; [by apply list_elem_of_In, elem_of_map_to_list|by apply bool_decide_eq_true].
    + rewrite lookup_insert_ne in Hin by done. exists (o', m').
      split; [by apply list_elem_of_In, elem_of_map_to_list|by apply bool_decide_eq_true].
  - destruct (decide (o = o')) as [<-|Hne].
    + exists (o, m). split; [apply list_elem_of_In, elem_of_map_to_list; apply lookup_insert_eq|].
      apply bool_decide_eq_true, Hm. unfold at_. by rewrite Hin.
    + exists (o', m'). split; [|by apply bool_decide_eq_true].
      apply list_elem_of_In, elem_of_map_to_list. cbn. by rewrite lookup_insert_ne.
Qed.

#[export] Instance store_laws : CBLLaws store.
Proof.
  split; try (by store_solver).
  all: try (intros; apply existing_put; cbn in *; intuition congruence).
  all: store_solver; rewrite ?lookup_insert_eq, ?lookup_delete_eq; auto; try done.
  all: exfalso; assert (p' ≠ p) by congruence; set_solver.
Qed.

#[export] Instance env : Env := {|
  env_rt := ReferenceRuntime.rt;
  env_parseJSON s := if String.eqb s "{}" then Some (NSDictionary []) else None;
  env_uuid n := String.append "UUID-" (pretty.pretty n);
  env_shouldTrackSessionID _ := false;
  env_relaysFetchingByIdentifier _ := false
|}.


(** A factory that never builds a model. *)
#[export] Instance factory : CBLModelFactory store := λ _ _ _, mret None.

(** A section with a style that has a color: two levels of embedding. *)
Definition section_ : oid := 1%positive.
Definition style : oid := 2%positive.
Definition color : oid := 3%positive.
(** A new note that has not been saved yet. *)
Definition note : oid := 4%positive.
Definition sections : cid := 1%positive.
Definition notes : cid := 2%positive.
Definition package : pid := 1%positive.

Definition models0 : gmap oid model :=
  <[section_ := mkModel (Some "MPSection:0001"%string) false (Some "1-a"%string)
                  (<["objectType" := NSString "MPSection"]> {["title" := NSString "Intro"]})%string
                  ∅ [] false]>
  {[note := mkModel (Some "MPNote:0001"%string) false None
              {["objectType" := NSString "MPNote"]}%string ∅ ["objectType"%string] true]}.

Definition world0 : World store :=
  mkWorld (mkStore models0 None ∅)
    (<[section_ := mkMO "MPSection" (Some sections) None None None false
                     (Some {["MPStyle:1" := style]}) None]>
     {[note := mkMO "MPNote" (Some notes) None None None true (Some ∅) None]})
    (<[style := mkEO "MPStyle" (Some section_) (Some "style"%string)
                 (<["_id" := NSString "MPStyle:1"]> {["objectType" := NSString "MPStyle"]})%string
                 (Some {["MPColor:1" := color]}) false]>
     {[color := mkEO "MPColor" (Some style) (Some "color"%string)
                 (<["_id" := NSString "MPColor:1"]> {["objectType" := NSString "MPColor"]})%string
                 (Some ∅) false]})
    (<[sections := mkController "MPSectionsController" package (Some "manuscript"%string)
                     {["MPSection:0001"%string := section_]}]>
     {[notes := mkController "MPNotesController" package (Some "manuscript"%string)
                     {["MPNote:0001"%string := note]}]})
    {[package := mkPackage "MPManuscriptsPackageController" (Some "pkg-1"%string)
                   (<["sectionsController" := sections]> {["notesController" := notes]})%string
                   ∅ true true "session-1"]}
    None {["pkg-1"%string := package]} {["manuscript"%string := package]} [] 100 0 10%positive.

End Reference.
