(* ===== verification/Controllers.v ===== *)
(** * Controllers: finding them, and what managed objects tell them

    The lookup of the controller of a model class in a package
    (MPDatabasePackageController.m), and the messages a managed object sends to
    its controller when it is registered, saved, changed, deleted or loaded
    (the protected part of MPManagedObjectsController.m). *)
From Stdlib Require Import Ascii.
From stdpp Require Import base tactics strings numbers list gmap.
From S2P Require Import Prelude ObjC ReferenceRuntime Classes World Reference.

Section controllers.
Context {S : Type} `{!CBL S} `{!Env} `{!CBLModelFactory S}.
Local Open Scope string_scope.
Notation M := (M (World S)).

(** ** The controller of a model class *)

(** The name of the first controller property found from [class] upwards. *)
Definition controllerProperty (pkgClass class : string) : res (option string) :=
  climb env_rt (Datatypes.S (class_count env_rt))
    (λ c, let mocProperty := controllerPropertyNameForManagedObjectClass c in
          if rt_responds env_rt pkgClass mocProperty then Some mocProperty else None)
    (Some class).

(* @src Feather/Sources/Database Packages/MPDatabasePackageController.m 494 533 -[MPDatabasePackageController _controllerForManagedObjectClass:] *)
Definition PKG_controllerForManagedObjectClass_ (self : pid) (class : option string) : M (option cid) :=
  if match class with Some c => isSubclassOfClass env_rt c "MPMetadata" | None => false end
  then mret None
  else
    match class with
    | None => throw (AssertionFailed "class")
    | Some c =>
        _ ← NSAssert (isSubclassOfClass env_rt c MPManagedObject_class
                      && negb (String.eqb c MPManagedObject_class)) "Unexpected class";
        p ← getPkg self;
        match pkg_controllerDictionary p !! c with
        | Some (Some controllerPropertyKey) => mret (pkg_controllers p !! controllerPropertyKey)
        | Some None => mret None
        | None =>
            found ← lift (controllerProperty (pkg_class p) c);
            match found with
            | None => mret None
            | Some mocProperty =>
                match pkg_controllers p !! mocProperty with
                | None => throw (AssertionFailed "moc")
                | Some moc =>
                    _ ← updPkg self (λ p', pkg_with_dictionary
                                             (<[c := Some mocProperty]> (pkg_controllerDictionary p')) p');
                    mret (Some moc)
                end
            end
        end
    end.

(* @src Feather/Sources/Database Packages/MPDatabasePackageController.m 476 492 -[MPDatabasePackageController controllerForManagedObjectClass:] *)
Definition PKG_controllerForManagedObjectClass (self : pid) (class : option string) : M (option cid) :=
  found ← PKG_controllerForManagedObjectClass_ self class;
  match found with
  | Some moc => mret (Some moc)
  | None =>
      let name := default "" class in
      _ ← (if negb (match class with Some c => rt_conforms env_rt c "MPReferencableObject" | None => false end)
           then NSAssert (negb (bool_decide (class = Some MPManagedObject_class)))
                  "No controller found for non-referencable managed object class"
           else mret tt);
      _ ← updPkg self (λ p, pkg_with_dictionary (<[name := None]> (pkg_controllerDictionary p)) p);
      mret None
  end.

(* @src Feather/Sources/Database Packages/MPDatabasePackageController.m 454 457 -[MPDatabasePackageController controllerExistsForManagedObjectClass:] *)
Definition PKG_controllerExistsForManagedObjectClass (self : pid) (class : option string) : M bool :=
  moc ← PKG_controllerForManagedObjectClass_ self class;
  mret (bool_decide (is_Some moc)).

(* @src Feather/Sources/Model/MPManagedObject.m 339 352 +[MPManagedObject managedObjectClassFromDocumentID:] *)
Definition managedObjectClassFromDocumentID (documentID : option string) : res string :=
  match documentID with
  | None => Throw (AssertionFailed "Expecting a documentID")
  | Some d =>
      _ ← assert_ (10 <=? String.length d)%nat "documentID should be of at least 10 characters long";
      let className := default "" (head (componentsSeparatedBy ":"%char d)) in
      match NSClassFromString env_rt className with
      | None => Throw (AssertionFailed "moClass")
      | Some moClass =>
          _ ← assert_ (isSubclassOfClass env_rt moClass MPManagedObject_class
                       || isSubclassOfClass env_rt moClass "MPMetadata"
                       || isSubclassOfClass env_rt moClass "MPLocalMetadata")
                "Unexpected managed object class";
          mret moClass
      end
  end.

(** ** Registration *)

Definition MOC_class (self : cid) : M string :=
  c ← getMOC self; lift (MOC_managedObjectClass env_rt (moc_class c)).

(** [assert([object isKindOfClass:[self managedObjectClass]])] *)
Definition assertManaged (self : cid) (object : oid) : M unit :=
  m ← getMO object;
  cls ← MOC_class self;
  NSAssert (isSubclassOfClass env_rt (mo_class m) cls) "[object isKindOfClass:[self managedObjectClass]]".

(** [assert(object.controller == self)] *)
Definition assertController (self : cid) (object : oid) : M unit :=
  m ← getMO object;
  NSAssert (bool_decide (mo_controller m = Some self)) "object.controller == self".

(** [assert(self.db)] *)
Definition assertDb (self : cid) : M unit :=
  c ← getMOC self; NSAssert (bool_decide (is_Some (moc_db c))) "self.db".

(* @src Feather/Sources/Model Controllers/MPManagedObjectsController.m 1414 1420 -[MPManagedObjectsController registerObject:] *)
Definition MOC_registerObject (self : cid) (mo : oid) : M unit :=
  _ ← assertManaged self mo;
  docID ← cbl_gets (λ s, model_document s mo);
  match docID with
  | None => throw (AssertionFailed "mo.document.documentID")
  | Some d => updMOC self (λ c, moc_with_cache (<[d := mo]> (moc_objectCache c)) c)
  end.

(* @src Feather/Sources/Model Controllers/MPManagedObjectsController.m 1422 1429 -[MPManagedObjectsController deregisterObject:] *)
Definition MOC_deregisterObject (self : cid) (mo : oid) : M unit :=
  _ ← assertManaged self mo;
  docID ← cbl_gets (λ s, model_document s mo);
  c ← getMOC self;
  match docID with
  | Some d => if bool_decide (moc_objectCache c !! d = Some mo)
              then updMOC self (λ c', moc_with_cache (delete d (moc_objectCache c')) c')
              else mret tt
  | None => mret tt
  end.

(** ** Notifications *)

(** The notification center of the package of a controller. *)
Definition notificationCenter (self : cid) : M bool :=
  c ← getMOC self; p ← getPkg (moc_package c); mret (pkg_notificationCenter p).

(** Both notifications of a change, the recent one first. *)
Definition postChange (t : MPChangeType) (object : oid) (source : option MPManagedObjectChangeSource) : M unit :=
  m ← getMO object;
  recentChange ← lift (notificationNameForRecentChange env_rt t (mo_class m));
  pastChange ← lift (notificationNameForPastChange env_rt t (mo_class m));
  _ ← post (Posted recentChange object source);
  post (Posted pastChange object source).

(** [[delegate updateChangeCount:NSChangeDone]] when the delegate implements it. *)
Definition updateDelegate (self : cid) : M unit :=
  c ← getMOC self; p ← getPkg (moc_package c);
  if pkg_delegateCounts p then post UpdateChangeCount else mret tt.

(* @src Feather/Sources/Model Controllers/MPManagedObjectsController.m 1294 1299 -[MPManagedObjectsController willSaveObject:] *)
Definition MOC_willSaveObject (self : cid) (object : oid) : M unit :=
  _ ← assertController self object; assertDb self.

(* @src Feather/Sources/Model Controllers/MPManagedObjectsController.m 1301 1325 -[MPManagedObjectsController didSaveObject:] *)
Definition MOC_didSaveObject (self : cid) (object : oid) : M unit :=
  _ ← assertController self object;
  _ ← assertDb self;
  nc ← notificationCenter self;
  _ ← NSAssert nc "Expecting to have a package controller + notification center for object";
  _ ← postChange MPChangeTypeAdd object (Some MPManagedObjectChangeSourceInternal);
  updateDelegate self.

(* @src Feather/Sources/Model Controllers/MPManagedObjectsController.m 1327 1344 -[MPManagedObjectsController didUpdateObject:] *)
Definition MOC_didUpdateObject (self : cid) (object : oid) : M unit :=
  _ ← assertController self object;
  _ ← assertManaged self object;
  _ ← assertDb self;
  nc ← notificationCenter self;
  _ ← NSAssert nc "nc";
  _ ← postChange MPChangeTypeUpdate object None;
  updateDelegate self.

(* @src Feather/Sources/Model Controllers/MPManagedObjectsController.m 1346 1353 -[MPManagedObjectsController willDeleteObject:] *)
Definition MOC_willDeleteObject (self : cid) (object : oid) : M unit :=
  _ ← assertController self object;
  _ ← assertManaged self object;
  _ ← assertDb self;
  MOC_deregisterObject self object.

(* @src Feather/Sources/Model Controllers/MPManagedObjectsController.m 1355 1372 -[MPManagedObjectsController didDeleteObject:] *)
Definition MOC_didDeleteObject (self : cid) (object : oid) : M unit :=
  _ ← assertController self object;
  _ ← assertManaged self object;
  _ ← assertDb self;
  nc ← notificationCenter self;
  _ ← NSAssert nc "nc";
  _ ← postChange MPChangeTypeRemove object None;
  updateDelegate self.

(* @src Feather/Sources/Model Controllers/MPManagedObjectsController.m 1374 1400 -[MPManagedObjectsController didChangeDocument:forObject:source:] *)
Definition MOC_didChangeDocument (self : cid) (object : oid) (source : MPManagedObjectChangeSource) : M unit :=
  nc ← notificationCenter self;
  _ ← NSAssert nc "nc";
  rev ← cbl_gets (λ s, model_revision s object);
  documentIsDeleted ← cbl_gets (λ s, model_docIsDeleted s object);
  let documentIsNew := match rev with Some r => hasPrefix r "1-" | None => false end in
  let changeType := if documentIsNew then MPChangeTypeAdd
                    else if (documentIsDeleted : bool) then MPChangeTypeRemove else MPChangeTypeUpdate in
  postChange changeType object (Some source).

(* @src Feather/Sources/Model Controllers/MPManagedObjectsController.m 1402 1412 -[MPManagedObjectsController didLoadObjectFromDocument:] *)
Definition MOC_didLoadObjectFromDocument (self : cid) (object : oid) : M unit :=
  _ ← assertController self object;
  _ ← assertManaged self object;
  _ ← assertDb self;
  nc ← notificationCenter self;
  _ ← NSAssert nc "nc";
  _ ← updMO object (mo_with_controller (Some self));
  MOC_registerObject self object.

(** ** Fetching by identifier *)

(* @src Feather/Sources/Model/MPManagedObject.m 393 404 -[MPManagedObject setControllerWithDocument:] *)
Definition MO_setControllerWithDocument (self : oid) (db docID : string) : M unit :=
  objectType ← cbl_gets (λ s, doc_property s db docID "objectType");
  match objectType with
  | None => throw (AssertionFailed "Unexpected nil 'objectType'")
  | Some t =>
      let class := stringOf (Some t) ≫= NSClassFromString env_rt in
      pkgs ← gets w_dbs;
      moc ← (match pkgs !! db with
             | Some pkg => PKG_controllerForManagedObjectClass pkg class
             | None => mret None
             end);
      _ ← NSAssert (bool_decide (is_Some moc)) "Class should have a controller";
      m ← getMO self;
      _ ← NSAssert (bool_decide (mo_controller m = None)) "Controller should have been set";
      updMO self (mo_with_controller moc)
  end.

(* @src Feather/Sources/Model/MPManagedObject.m 1878 1901 +[MPManagedObject modelForDocument:] *)
Definition MO_modelForDocument (cls db docID : string) : M (option oid) :=
  modelObject ← cbl_gets (λ s, doc_modelObject s db docID);
  match modelObject with
  | Some o =>
      m ← getMO o;
      _ ← NSAssert (isSubclassOfClass env_rt (mo_class m) cls) "[document.modelObject isKindOfClass:self.class]";
      mret (Some o)
  | None =>
      cm ← super_modelForDocument cls db docID;
      match cm with
      | None => throw (AssertionFailed "[cm isKindOfClass:[MPManagedObject class]]")
      | Some o =>
          m ← getMO o;
          _ ← (if bool_decide (mo_controller m = None) then MO_setControllerWithDocument o db docID else mret tt);
          m' ← getMO o;
          _ ← NSAssert (bool_decide (is_Some (mo_controller m'))) "mo.controller";
          objectType ← cbl_gets (λ s, doc_property s db docID "objectType");
          _ ← NSAssert (bool_decide (stringOf objectType = Some cls))
                "[document.properties[objectType] isEqualToString:NSStringFromClass(self)]";
          mret (Some o)
      end
  end.

(** [NSAssert(mo.controller == self); NSAssert([mo isKindOfClass:self.managedObjectClass])] *)
Definition assertOwned (self : cid) (mo : oid) : M unit :=
  _ ← assertController self mo; assertManaged self mo.

(* @src Feather/Sources/Model Controllers/MPManagedObjectsController.m 603 670 -[MPManagedObjectsController objectWithIdentifier:] *)
Fixpoint MOC_objectWithIdentifier_from (fuel : nat) (self : cid) (identifier : option string) : M (option oid) :=
  match identifier with
  | None => throw (AssertionFailed "Expecting a non-nil identifier parameter.")
  | Some docID =>
      cls ← lift (managedObjectClassFromDocumentID identifier);
      managed ← MOC_class self;
      _ ← NSAssert (isSubclassOfClass env_rt cls managed) "Identifier is for an unexpected kind of object";
      c ← getMOC self;
      match moc_objectCache c !! docID with
      | Some mo => _ ← assertOwned self mo; mret (Some mo)
      | None =>
          let db := default "" (moc_db c) in
          exists_ ← cbl_gets (λ s, doc_existing s db docID);
          if (exists_ : bool) then
            modelObject ← cbl_gets (λ s, doc_modelObject s db docID);
            deleted ← cbl_gets (λ s, doc_isDeleted s db docID);
            mo ← (match modelObject with
                  | Some o => mret (Some o)
                  | None => if (deleted : bool) then mret None
                            else r ← MO_modelForDocument cls db docID;
                                 _ ← NSAssert (bool_decide (is_Some r)) "Model object could not be recovered";
                                 mret r
                  end);
            match mo with
            | Some o => _ ← assertOwned self o; mret (Some o)
            | None => mret None
            end
          else
            shoebox ← gets w_shoebox;
            if negb (env_relaysFetchingByIdentifier (moc_class c)) || bool_decide (Some (moc_package c) = shoebox)
            then mret None
            else
              match shoebox with
              | None => mret None
              | Some spkg =>
                  moc ← PKG_controllerForManagedObjectClass spkg (Some cls);
                  match moc with
                  | None => mret None
                  | Some other =>
                      _ ← NSAssert (negb (Pos.eqb other self)) "Attempting to recursively get object by ID from self.";
                      match fuel with
                      | O => throw (Exception "hang" "controllers relay to each other without end")
                      | Datatypes.S n => MOC_objectWithIdentifier_from n other identifier
                      end
                  end
              end
      end
  end.
Definition MOC_objectWithIdentifier (self : cid) (identifier : option string) : M (option oid) :=
  MOC_objectWithIdentifier_from 1 self identifier.

(* @src Feather/Sources/Database Packages/MPDatabasePackageController.m 593 601 -[MPDatabasePackageController objectWithIdentifier:] *)
Definition PKG_objectWithIdentifier (self : pid) (identifier : option string) : M (option oid) :=
  match identifier with
  | None => throw (AssertionFailed "Expecting identifier")
  | Some _ =>
      moClass ← lift (managedObjectClassFromDocumentID identifier);
      moc ← PKG_controllerForManagedObjectClass self (Some moClass);
      match moc with
      | None => mret None
      | Some c => MOC_objectWithIdentifier c identifier
      end
  end.
End controllers.

(** ** The memo of the controller lookup *)
Section lookup.
Context {S : Type} `{!CBL S} `{!Env}.
Implicit Types (w : World S) (p : Package).
Local Open Scope string_scope.

(** What the lookup means, without its memo: the controller held by the first
    controller property found from the class upwards. *)
Definition controllerLookup (p : Package) (c : string) : res (option cid) :=
  if isSubclassOfClass env_rt c "MPMetadata" then Ok None
  else
    _ ← assert_ (isSubclassOfClass env_rt c MPManagedObject_class
                 && negb (String.eqb c MPManagedObject_class)) "Unexpected class";
    found ← controllerProperty (pkg_class p) c;
    match found with
    | None => Ok None
    | Some mocProperty =>
        match pkg_controllers p !! mocProperty with
        | None => Throw (AssertionFailed "moc")
        | Some moc => Ok (Some moc)
        end
    end.

(** Every memo entry agrees with the class hierarchy. *)
Definition dictionary_ok p : Prop :=
  ∀ c o, pkg_controllerDictionary p !! c = Some o →
    match o with
    | Some key => controllerProperty (pkg_class p) c = Ok (Some key) ∧ is_Some (pkg_controllers p !! key)
    | None => controllerLookup p c = Ok None
    end.

Lemma dictionary_ok_empty p : pkg_controllerDictionary p = ∅ → dictionary_ok p.
Proof. intros E c o. by rewrite E, lookup_empty. Qed.

Lemma dictionary_ok_insert p c o :
  dictionary_ok p →
  match o with
  | Some key => controllerProperty (pkg_class p) c = Ok (Some key) ∧ is_Some (pkg_controllers p !! key)
  | None => controllerLookup p c = Ok None
  end →
  dictionary_ok (pkg_with_dictionary (<[c := o]> (pkg_controllerDictionary p)) p).
Proof. intros Hok Ho c' o'. cbn. rewrite lookup_insert_Some. intros [[<- <-]|[_ Hl]]; [done|by apply Hok]. Qed.

(** The worlds that differ from [w] in the memo of one package only. *)
Definition memo_world (self : pid) p (d : gmap string (option string)) w : World S :=
  set_pkgs (<[self := pkg_with_dictionary d p]> (w_pkgs w)) w.

Lemma memo_world_id self p w :
  w_pkgs w !! self = Some p → w = memo_world self p (pkg_controllerDictionary p) w.
Proof.
  intros Hp. unfold memo_world. rewrite insert_id; [by destruct w|]. by destruct p.
Qed.

Lemma run_updPkg_dictionary self p f w :
  w_pkgs w !! self = Some p →
  updPkg self (λ p', pkg_with_dictionary (f (pkg_controllerDictionary p')) p') w =
  (Ok tt, memo_world self p (f (pkg_controllerDictionary p)) w).
Proof.
  intros Hp. unfold updPkg, memo_world. rewrite run_modify. do 2 f_equal.
  apply map_eq. intros i. rewrite lookup_alter, lookup_insert. case_decide; [|done].
  subst. by rewrite Hp.
Qed.

Lemma lookup_inner self p c w :
  w_pkgs w !! self = Some p → dictionary_ok p →
  ∃ d', PKG_controllerForManagedObjectClass_ self (Some c) w = (controllerLookup p c, memo_world self p d' w) ∧
        dictionary_ok (pkg_with_dictionary d' p).
Proof.
  intros Hp Hok.
  assert (∃ d', w = memo_world self p d' w ∧ dictionary_ok (pkg_with_dictionary d' p)) as (d0 & Hid & Hok0).
  { exists (pkg_controllerDictionary p). split; [by apply memo_world_id|by destruct p]. }
  unfold PKG_controllerForManagedObjectClass_, controllerLookup.
  destruct (isSubclassOfClass env_rt c "MPMetadata") eqn:Em.
  { exists d0. by rewrite <- Hid. }
  rewrite run_bind, run_NSAssert. destruct (_ && _) eqn:Ea; [|exists d0; by rewrite <- Hid].
  cbn [assert_ mbind res_bind]. rewrite run_bind. unfold getPkg. rewrite Hp.
  destruct (pkg_controllerDictionary p !! c) as [[key|]|] eqn:Ed.
  - destruct (Hok _ _ Ed) as (Hprop & moc & Hmoc). rewrite Hprop. cbn. rewrite Hmoc.
    exists d0. by rewrite <- Hid.
  - pose proof (Hok _ _ Ed) as Hnone. unfold controllerLookup in Hnone. rewrite Em, Ea in Hnone.
    exists d0. rewrite <- Hid. split; [|done]. rewrite run_ret. f_equal. symmetry. exact Hnone.
  - rewrite run_bind. unfold lift. destruct (controllerProperty (pkg_class p) c) as [[prop|]|e] eqn:Ec; cbn;
      [|exists d0; by rewrite <- Hid|exists d0; by rewrite <- Hid].
    destruct (pkg_controllers p !! prop) as [moc|] eqn:Epc; [|exists d0; by rewrite <- Hid].
    exists (<[c := Some prop]> (pkg_controllerDictionary p)).
    rewrite run_bind, (run_updPkg_dictionary self p (insert c (Some prop))) by done.
    split; [done|]. apply dictionary_ok_insert; [done|]. by rewrite Epc.
Qed.
End lookup.

(** The same with the [NSNull] entries of the outer method. *)
Lemma lookup_outer {T} `{!CBL T} `{!Env} (w : World T) self p c :
  w_pkgs w !! self = Some p → dictionary_ok p → c ≠ MPManagedObject_class →
  ∃ d', PKG_controllerForManagedObjectClass self (Some c) w
          = (controllerLookup p c, memo_world self p d' w) ∧
        dictionary_ok (pkg_with_dictionary d' p).
Proof.
  intros Hp Hok Hc. destruct (lookup_inner self p c w Hp Hok) as (d & Hrun & Hd).
  unfold PKG_controllerForManagedObjectClass. rewrite run_bind, Hrun.
  destruct (controllerLookup p c) as [[moc|]|e] eqn:E; [by exists d| |by exists d].
  rewrite bool_decide_eq_false_2 by congruence.
  assert (∀ b : bool, (if negb b then NSAssert (negb false) "No controller found for non-referencable managed object class"
                       else mret tt) (memo_world self p d w) = (Ok tt, memo_world self p d w)) as Hif
    by by intros [].
  rewrite run_bind, Hif. exists (<[c := None]> d).
  rewrite run_bind. cbn [default].
  rewrite (run_updPkg_dictionary self (pkg_with_dictionary d p) (insert c None)).
  - split; [|by apply (dictionary_ok_insert (pkg_with_dictionary d p))].
    rewrite run_ret. unfold memo_world, set_pkgs. cbn. by rewrite insert_insert_eq.
  - cbn. by rewrite lookup_insert_eq.
Qed.

(** C16 (refinement). The memo of [-controllerForManagedObjectClass:] is invisible:
    in a package whose memo agrees with the class hierarchy, the lookup returns
    (or raises) exactly what the walk up the superclasses does without it,
    touches nothing but the memo, and leaves a memo that agrees again - also
    when a class without a controller was remembered as such. *)
Theorem controllerLookup_memo {T} `{!CBL T} `{!Env} (w : World T) self p c :
  w_pkgs w !! self = Some p → dictionary_ok p → c ≠ MPManagedObject_class →
  ∃ d', PKG_controllerForManagedObjectClass self (Some c) w
          = (controllerLookup p c, memo_world self p d' w) ∧
        dictionary_ok (pkg_with_dictionary d' p).
Proof. apply lookup_outer. Qed.

#[local] Existing Instances Reference.store_CBL Reference.store_laws Reference.env Reference.factory.

Lemma controllerLookup_memo_witness :
  ∃ p d', w_pkgs Reference.world0 !! Reference.package = Some p ∧
    PKG_controllerForManagedObjectClass Reference.package (Some "MPParagraph"%string) Reference.world0
    = (Ok (Some Reference.sections), memo_world Reference.package p d' Reference.world0).
Proof.
  destruct (controllerLookup_memo Reference.world0 Reference.package
    (mkPackage "MPManuscriptsPackageController" (Some "pkg-1"%string)
       (<["sectionsController" := Reference.sections]> {["notesController" := Reference.notes]})%string
       ∅ true true "session-1") "MPParagraph") as (d' & Hrun & _).
  - reflexivity.
  - by apply dictionary_ok_empty.
  - discriminate.
  - eexists _, d'. split; [reflexivity|]. exact Hrun.
Defined.
