(* ===== verification/EmbeddedObject.v ===== *)
(** * MPEmbeddedObject: objects stored inside a managed object

    src/Feather/Sources/Model/MPEmbeddedObject.m, with the methods of
    MPManagedObject.m through which an embedded object talks to whatever
    embeds it (its by-identifier cache, the getters of embedded collections).
    An embedded object is embedded either by a managed object or by another
    embedded object; the chain ends at a managed object. *)
From Stdlib Require Import Ascii.
From stdpp Require Import base tactics strings numbers list gmap.
From S2P Require Import Prelude ObjC World Reference.

Section embedded.
Context {S : Type} `{!CBL S} `{!Env}.
Local Open Scope string_scope.
Notation M := (M (World S)).

Definition unrecognizedSelector {A} : M A :=
  throw (Exception "NSInvalidArgumentException" "unrecognized selector").

(** A value sent a string message; anything else does not recognise the selector. *)
Definition asString (v : option value) : M string :=
  match v with
  | Some (NSString s) => mret s
  | Some _ => unrecognizedSelector
  | None => mret ""
  end.

(* @src Feather/Sources/Model/MPEmbeddedObject.m 316 319 -[MPEmbeddedObject identifier] *)
Definition EO_identifier (e : MPEmbeddedObject) : option string :=
  stringOf (eo_properties e !! "_id").

(* @src Feather/Sources/Model/MPEmbeddedObject.m 251 254 -[MPEmbeddedObject getValueOfProperty:] *)
Definition EO_getValueOfProperty (o : oid) (property : string) : M (option value) :=
  e ← getEO o; mret (eo_properties e !! property).

(** ** The by-identifier caches *)

(* @src Feather/Sources/Model/MPManagedObject.m 258 280 -[MPManagedObject cacheEmbeddedObjectByIdentifier:] *)
Definition MO_cacheEmbeddedObjectByIdentifier (self : oid) (obj : option oid) : M unit :=
  _ ← NSAssert (bool_decide (is_Some obj)) "Expecting a non-nil object to cache.";
  match obj with
  | None => mret tt
  | Some p =>
      isEO ← isEmbeddedObject p;
      _ ← NSAssert isEO "Unexpected class";
      e ← getEO p;
      match EO_identifier e with
      | None => throw (AssertionFailed "Object should have a non-null identifier")
      | Some i =>
          m ← getMO self;
          match mo_embeddedObjectCache m with
          | None => throw (AssertionFailed "Object should have an embedded object cache")
          | Some c =>
              match c !! i with
              | Some q => NSAssert (Pos.eqb q p) "Mismatching identity"
              | None => updMO self (mo_with_cache (Some (<[i := p]> c)))
              end
          end
      end
  end.

(* @src Feather/Sources/Model/MPManagedObject.m 282 295 -[MPManagedObject removeEmbeddedObjectFromByIdentifierCache:] *)
Definition MO_removeEmbeddedObjectFromByIdentifierCache (self : oid) (obj : option oid) : M unit :=
  match obj with
  | None => mret tt
  | Some p =>
      e ← getEO p;
      match EO_identifier e with
      | None => throw (AssertionFailed "[obj identifier]")
      | Some i =>
          m ← getMO self;
          match mo_embeddedObjectCache m ≫= (λ c, c !! i) with
          | Some _ => updMO self (λ m', mo_with_cache (delete i <$> mo_embeddedObjectCache m') m')
          | None => throw (AssertionFailed "false")
          end
      end
  end.

(* @src Feather/Sources/Model/MPManagedObject.m 297 300 -[MPManagedObject embeddedObjectWithIdentifier:] *)
Definition MO_embeddedObjectWithIdentifier (self : oid) (identifier : option string) : M (option oid) :=
  m ← getMO self;
  match mo_embeddedObjectCache m with
  | None => throw (AssertionFailed "_embeddedObjectCache")
  | Some c => mret (identifier ≫= (λ i, c !! i))
  end.

(* @src Feather/Sources/Model/MPEmbeddedObject.m 226 230 -[MPEmbeddedObject embeddedObjectWithIdentifier:] *)
Definition EO_embeddedObjectWithIdentifier (self : oid) (identifier : option string) : M (option oid) :=
  e ← getEO self;
  match eo_embeddedObjectCache e with
  | None => throw (AssertionFailed "Embedded object cache is unexpectedly nil")
  | Some c => mret (identifier ≫= (λ i, c !! i))
  end.

(* @src Feather/Sources/Model/MPEmbeddedObject.m 343 354 -[MPEmbeddedObject cacheEmbeddedObjectByIdentifier:] *)
Definition EO_cacheEmbeddedObjectByIdentifier (self : oid) (obj : option oid) : M unit :=
  match obj with
  | None => mret tt
  | Some p =>
      e ← getEO p;
      match EO_identifier e with
      | None => throw (AssertionFailed "[obj identifier]")
      | Some i =>
          r ← getEO self;
          match eo_embeddedObjectCache r ≫= (λ c, c !! i) with
          | Some q => NSAssert (Pos.eqb q p) "_embeddedObjectCache[[obj identifier]] == obj"
          | None => updEO self (λ r', eo_with_cache (insert i p <$> eo_embeddedObjectCache r') r')
          end
      end
  end.

(* @src Feather/Sources/Model/MPEmbeddedObject.m 356 370 -[MPEmbeddedObject removeEmbeddedObjectFromByIdentifierCache:] *)
Definition EO_removeEmbeddedObjectFromByIdentifierCache (self : oid) (obj : option oid) : M unit :=
  match obj with
  | None => mret tt
  | Some p =>
      e ← getEO p;
      match EO_identifier e with
      | None => throw (AssertionFailed "[obj identifier]")
      | Some i =>
          r ← getEO self;
          match eo_embeddedObjectCache r ≫= (λ c, c !! i) with
          | Some _ => updEO self (λ r', eo_with_cache (delete i <$> eo_embeddedObjectCache r') r')
          | None => throw (AssertionFailed "false")
          end
      end
  end.

(** The same messages sent to an [id<MPEmbeddingObject>]. *)
Definition embeddedObjectWithIdentifier (recv : oid) (identifier : option string) : M (option oid) :=
  b ← isManagedObject recv;
  if b : bool then MO_embeddedObjectWithIdentifier recv identifier
  else EO_embeddedObjectWithIdentifier recv identifier.

Definition cacheEmbeddedObjectByIdentifier (recv : oid) (obj : option oid) : M unit :=
  b ← isManagedObject recv;
  if b : bool then MO_cacheEmbeddedObjectByIdentifier recv obj
  else EO_cacheEmbeddedObjectByIdentifier recv obj.

(** ** Construction *)

Definition dictOf (v : option value) : option (list (string * value)) :=
  match v with Some (NSDictionary d) => Some d | _ => None end.

(** [@synchronized(embeddingObject) { ... }]: the object already known under
    the identifier is returned in place of the new instance, which is released. *)
Definition uniqued (embeddingObject : oid) (e : MPEmbeddedObject) : M oid :=
  obj ← embeddedObjectWithIdentifier embeddingObject (EO_identifier e);
  match obj with
  | Some q => mret q
  | None =>
      p ← alloc;
      _ ← modify (λ w, set_eos (<[p := e]> (w_eos w)) w);
      _ ← cacheEmbeddedObjectByIdentifier embeddingObject (Some p);
      mret p
  end.

(* @src Feather/Sources/Model/MPEmbeddedObject.m 86 130 -[MPEmbeddedObject initWithDictionary:embeddingObject:embeddingKey:] *)
Definition EO_initWithDictionary (cls : string) (propertiesDict : option value)
    (embeddingObject : option oid) (key : option string) : M oid :=
  match dictOf propertiesDict with
  | None => throw (AssertionFailed "Unexpected class")
  | Some d =>
      _ ← (match assoc "_id" d with
           | Some i => s ← asString (Some i);
                       _ ← NSAssert (hasPrefix s cls) "Unexpected ID prefix";
                       NSAssert (bool_decide (is_Some (assoc "objectType" d))) "Missing objectType"
           | None => mret tt
           end);
      _ ← (match assoc "objectType" d with
           | Some t => s ← asString (Some t);
                       _ ← NSAssert (String.eqb s cls) "Unexpected objectType";
                       NSAssert (bool_decide (is_Some (assoc "_id" d))) "Missing _id"
           | None => mret tt
           end);
      match key, embeddingObject with
      | None, _ => throw (AssertionFailed "Missing embedding key")
      | _, None => throw (AssertionFailed "Missing embedding object")
      | Some k, Some emb =>
          let properties : gmap string value := list_to_map d in
          properties' ← (match assoc "_id" d with
                         | Some _ => mret properties
                         | None => u ← newUUID;
                                   mret (<["objectType" := NSString cls]>
                                         (<["_id" := NSString (cls ++ ":" ++ u)]> properties))
                         end);
          uniqued emb (mkEO cls (Some emb) (Some k) properties' (Some ∅) false)
      end
  end.

(* @src Feather/Sources/Model/MPEmbeddedObject.m 70 84 -[MPEmbeddedObject initWithJSONString:embeddingObject:embeddingKey:] *)
Definition EO_initWithJSONString (cls jsonString : string)
    (embeddingObject : option oid) (key : option string) : M oid :=
  EO_initWithDictionary cls (env_parseJSON jsonString) embeddingObject key.

(* @src Feather/Sources/Model/MPEmbeddedObject.m 132 161 -[MPEmbeddedObject initWithEmbeddingObject:embeddingKey:] *)
Definition EO_initWithEmbeddingObject (cls : string)
    (embeddingObject : option oid) (embeddingKey : option string) : M oid :=
  match embeddingObject, embeddingKey with
  | None, _ => throw (AssertionFailed "embeddingObject")
  | _, None => throw (AssertionFailed "embeddingKey")
  | Some emb, Some k =>
      u ← newUUID;
      uniqued emb (mkEO cls (Some emb) (Some k)
        (<["objectType" := NSString cls]> {["_id" := NSString (cls ++ ":" ++ u)]}) (Some ∅) false)
  end.

Definition MPEmbeddedObject_class : string := "MPEmbeddedObject".

(** The class a dictionary is decoded as: that of its [objectType] when the
    message is sent to [MPEmbeddedObject] itself, the receiver otherwise. *)
Definition decodedClass (self : string) (d : list (string * value)) : M (option string) :=
  if String.eqb self MPEmbeddedObject_class
  then match assoc "objectType" d with
       | None => mret None
       | Some t =>
           s ← asString (Some t);
           match NSClassFromString env_rt s with
           | None => mret None
           | Some cls =>
               _ ← NSAssert (isSubclassOfClass env_rt cls MPEmbeddedObject_class)
                     "[cls isSubclassOfClass:[MPEmbeddedObject class]]";
               mret (Some cls)
           end
       end
  else t ← asString (assoc "objectType" d);
       _ ← NSAssert (bool_decide (Some self = NSClassFromString env_rt t))
             "cls == NSClassFromString(dictionary.objectType)";
       mret (Some self).

(* @src Feather/Sources/Model/MPEmbeddedObject.m 163 194 +[MPEmbeddedObject embeddedObjectWithJSONString:embeddingObject:embeddingKey:] *)
Definition EO_embeddedObjectWithJSONString (self : string) (str : option string)
    (embeddingObject : option oid) (key : option string) : M (option oid) :=
  match str with
  | None => mret None
  | Some s =>
      match env_parseJSON s with
      | None => mret None
      | Some (NSDictionary d) =>
          cls ← decodedClass self d;
          match cls with
          | None => mret None
          | Some c => Some <$> EO_initWithDictionary c (Some (NSDictionary d)) embeddingObject key
          end
      | Some _ => unrecognizedSelector
      end
  end.

(* @src Feather/Sources/Model/MPEmbeddedObject.m 196 224 +[MPEmbeddedObject embeddedObjectWithDictionary:embeddingObject:embeddingKey:] *)
Definition EO_embeddedObjectWithDictionary (self : string) (dictionary : value)
    (embeddingObject : option oid) (key : option string) : M (option oid) :=
  match dictOf (Some dictionary) with
  | None => if String.eqb self MPEmbeddedObject_class
            then throw (AssertionFailed "[dictionary isKindOfClass:NSDictionary.class]")
            else unrecognizedSelector
  | Some d =>
      cls ← decodedClass self d;
      match cls with
      | None => mret None
      | Some c =>
          existing ← (match embeddingObject with
                      | None => mret None
                      | Some emb => embeddedObjectWithIdentifier emb (stringOf (assoc "_id" d))
                      end);
          match existing with
          | Some q => mret (Some q)
          | None => Some <$> EO_initWithDictionary c (Some dictionary) embeddingObject key
          end
      end
  end.

(* @src Feather/Sources/Model/MPEmbeddedObject.m 232 242 -[MPEmbeddedObject setEmbeddingKey:] *)
Definition EO_setEmbeddingKey (self : oid) (embeddingKey : option string) : M unit :=
  e ← getEO self;
  if bool_decide (is_Some embeddingKey) && bool_decide (eo_embeddingKey e = embeddingKey)
  then mret tt
  else _ ← NSAssert (bool_decide (eo_embeddingKey e = None) ||
                     bool_decide (eo_embeddingKey e = embeddingKey)) "Unexpected _embeddingKey";
       updEO self (eo_with_key embeddingKey).

(** ** Getters and setters of declared properties

    A dynamic property resolves to an implementation chosen by the class of
    the property and its name. *)
Inductive getter : Type :=
  | BasicGetter | DataGetter | DateGetter | ModelGetter
  | EmbeddedObjectGetter | EmbeddedArrayGetter | EmbeddedDictionaryGetter
  | UnsupportedGetter.

Definition propClassIn (cls : option string) (parent : string) : bool :=
  match cls with Some c => isSubclassOfClass env_rt c parent | None => false end.

(* @src Feather/Sources/Model/MPEmbeddedObject.m 749 792 +[MPEmbeddedObject impForGetterOfProperty:ofClass:] *)
Definition EO_impForGetterOfProperty (property : string) (propertyClass : option string) : getter :=
  if bool_decide (propertyClass = None) || bool_decide (propertyClass = Some "NSString")
     || bool_decide (propertyClass = Some "NSNumber") || bool_decide (propertyClass = Some "NSArray")
     || bool_decide (propertyClass = Some "NSDictionary")
  then BasicGetter
  else if bool_decide (propertyClass = Some "NSData") then DataGetter
  else if bool_decide (propertyClass = Some "NSDate") then DateGetter
  else if propClassIn propertyClass "CBLModel" then ModelGetter
  else if propClassIn propertyClass "NSArray" && hasPrefix property "embedded"
  then EmbeddedArrayGetter
  else if propClassIn propertyClass "NSDictionary" && hasPrefix property "embedded"
  then EmbeddedDictionaryGetter
  else UnsupportedGetter.

(* @src Feather/Sources/Model/MPManagedObject.m 1517 1536 +[MPManagedObject impForGetterOfProperty:ofClass:] *)
Definition MO_impForGetterOfProperty (property : string) (propertyClass : option string) : getter :=
  if propClassIn propertyClass MPEmbeddedObject_class then EmbeddedObjectGetter
  else if propClassIn propertyClass "NSArray" && hasPrefix property "embedded"
  then EmbeddedArrayGetter
  else if propClassIn propertyClass "NSDictionary" && hasPrefix property "embedded"
  then EmbeddedDictionaryGetter
  else BasicGetter.

(** [for (id obj in v)] *)
Definition elementsOf (v : option value) : M (list value) :=
  match v with
  | None => mret []
  | Some (NSArray l) | Some (NSSet l) => mret l
  | Some (NSDictionary d) => mret (NSString <$> d.*1)
  | Some _ => unrecognizedSelector
  end.

(** One element of an embedded collection of a managed object: an embedded
    object, or its JSON string or dictionary form. *)
Definition MO_decodeElement (self : oid) (property : string) (obj : value) : M (option oid) :=
  match obj with
  | NSString s => EO_embeddedObjectWithJSONString MPEmbeddedObject_class (Some s) (Some self) (Some property)
  | NSDictionary _ => EO_embeddedObjectWithDictionary MPEmbeddedObject_class obj (Some self) (Some property)
  | MPObj p => b ← isEmbeddedObject p;
               if b : bool then mret (Some p)
               else throw (Exception "MPUnexpectedStateExpection" "Object of unexpected type")
  | _ => throw (Exception "MPUnexpectedStateExpection" "Object of unexpected type")
  end.

(* @src Feather/Sources/Model/MPManagedObject.m 2114 2142 -[MPManagedObject getEmbeddedObjectArrayProperty:] *)
Definition MO_getEmbeddedObjectArrayProperty (self : oid) (property : string) : M value :=
  v ← cbl_gets (λ s, model_get s self property);
  objs ← elementsOf v;
  embs ← map_each objs (MO_decodeElement self property);
  mret (NSArray (MPObj <$> omap (λ e, e) embs)).

(* @src Feather/Sources/Model/MPManagedObject.m 2144 2170 -[MPManagedObject getEmbeddedObjectDictionaryProperty:] *)
Definition MO_getEmbeddedObjectDictionaryProperty (self : oid) (property : string) : M value :=
  v ← cbl_gets (λ s, model_get s self property);
  match v with
  | None => mret (NSDictionary [])
  | Some (NSDictionary d) =>
      embs ← map_each d (λ kv, e ← MO_decodeElement self property kv.2; mret (kv.1, e));
      mret (NSDictionary (omap (λ ke, e ← snd ke; Some (ke.1, MPObj e)) embs))
  | Some _ => unrecognizedSelector
  end.

(* @src Feather/Sources/Model/MPEmbeddedObject.m 627 655 -[MPEmbeddedObject getEmbeddedObjectArrayProperty:] (part) *)
Fixpoint EO_decodeElements (self : oid) (property : string) (rawValue : list value)
    : M (option (list oid)) :=
  match rawValue with
  | [] => mret (Some [])
  | NSString js :: rest =>
      match env_parseJSON js with
      | Some (NSDictionary d) =>
          match stringOf (assoc "objectType" d) ≫= NSClassFromString env_rt, stringOf (assoc "_id" d) with
          | None, _ => throw (AssertionFailed "cls")
          | _, None => throw (AssertionFailed "identifier")
          | Some cls, Some identifier =>
              e ← getEO self;
              obj ← (match eo_embeddedObjectCache e ≫= (λ c, c !! identifier) with
                     | Some p => mret p
                     | None =>
                         p ← EO_initWithDictionary cls (Some (NSDictionary d))
                               (eo_embeddingObject e) (Some property);
                         _ ← EO_cacheEmbeddedObjectByIdentifier self (Some p);
                         mret p
                     end);
              objs ← EO_decodeElements self property rest;
              mret (cons obj <$> objs)
          end
      | _ => throw (AssertionFailed "objType")
      end
  | _ :: _ => mret None
  end.

(* @src Feather/Sources/Model/MPEmbeddedObject.m 619 658 -[MPEmbeddedObject getEmbeddedObjectArrayProperty:] *)
Definition EO_getEmbeddedObjectArrayProperty (self : oid) (property : string) : M (option (list oid)) :=
  v ← EO_getValueOfProperty self property;
  match v with
  | None => mret None
  | Some (NSArray l) => EO_decodeElements self property l
  | Some _ => throw (AssertionFailed "[rawValue isKindOfClass:[NSArray class]]")
  end.

(* @src Feather/Sources/Model/MPEmbeddedObject.m 669 706 -[MPEmbeddedObject getEmbeddedObjectDictionaryProperty:] (part) *)
Fixpoint EO_decodeEntries (self : oid) (property : string) (rawValue : list (string * value))
    : M (option (list (string * oid))) :=
  match rawValue with
  | [] => mret (Some [])
  | (key, NSString js) :: rest =>
      match env_parseJSON js with
      | Some (NSDictionary d) =>
          match stringOf (assoc "objectType" d) ≫= NSClassFromString env_rt, stringOf (assoc "_id" d) with
          | None, _ => throw (AssertionFailed "cls")
          | _, None => throw (AssertionFailed "identifier")
          | Some cls, Some identifier =>
              e ← getEO self;
              obj ← (match eo_embeddedObjectCache e ≫= (λ c, c !! identifier) with
                     | Some p => mret p
                     | None =>
                         p ← EO_initWithDictionary cls (Some (NSDictionary d))
                               (eo_embeddingObject e) (Some property);
                         _ ← EO_cacheEmbeddedObjectByIdentifier self (Some p);
                         mret p
                     end);
              objs ← EO_decodeEntries self property rest;
              mret (cons (key, obj) <$> objs)
          end
      | None => mret None
      | Some _ => unrecognizedSelector
      end
  | _ :: _ => mret None
  end.

(* @src Feather/Sources/Model/MPEmbeddedObject.m 660 709 -[MPEmbeddedObject getEmbeddedObjectDictionaryProperty:] *)
Definition EO_getEmbeddedObjectDictionaryProperty (self : oid) (property : string)
    : M (option (list (string * oid))) :=
  v ← EO_getValueOfProperty self property;
  match v with
  | None => mret None
  | Some (NSDictionary d) => EO_decodeEntries self property d
  | Some _ => throw (AssertionFailed "[rawValue isKindOfClass:[NSDictionary class]]")
  end.

(** ** Changes travel to the embedding objects *)

(** [[o valueForKey:key]] for a key whose class is a collection class. *)
Definition collectionForKey (o : oid) (key : string) (cls : option string) : M (option value) :=
  b ← isManagedObject o;
  if b : bool then
    match MO_impForGetterOfProperty key cls with
    | EmbeddedArrayGetter => Some <$> MO_getEmbeddedObjectArrayProperty o key
    | EmbeddedDictionaryGetter => Some <$> MO_getEmbeddedObjectDictionaryProperty o key
    | _ => cbl_gets (λ s, model_get s o key)
    end
  else
    match EO_impForGetterOfProperty key cls with
    | BasicGetter => EO_getValueOfProperty o key
    | EmbeddedArrayGetter =>
        r ← EO_getEmbeddedObjectArrayProperty o key;
        mret ((λ l, NSArray (MPObj <$> l)) <$> r)
    | EmbeddedDictionaryGetter =>
        r ← EO_getEmbeddedObjectDictionaryProperty o key;
        mret ((λ l, NSDictionary (prod_map id MPObj <$> l)) <$> r)
    | _ => unrecognizedSelector
    end.

Definition classOf (o : oid) : M string :=
  b ← isManagedObject o;
  if b : bool then m ← getMO o; mret (mo_class m) else e ← getEO o; mret (eo_class e).

Definition isScalarProperty (cls : option string) : bool :=
  negb (propClassIn cls "NSArray") && negb (propClassIn cls "NSDictionary")
  && negb (propClassIn cls "NSSet").

(* @src Feather/Sources/Model/MPEmbeddedObject.m 321 341 -[MPEmbeddedObject cacheValue:ofProperty:changed:] *)
Fixpoint cacheValue (fuel : nat) (recv : oid) (v : option value) (property : string) (changed : bool)
    : M unit :=
  b ← isManagedObject recv;
  if b : bool then cbl (λ s, model_cacheValue s recv property v changed)
  else match fuel with
  | O => throw (Exception "EXC_BAD_ACCESS" "stack overflow")
  | Datatypes.S fuel' =>
      e ← getEO recv;
      match eo_embeddingObject e, eo_embeddingKey e with
      | None, _ => throw (AssertionFailed "Object should have a non-nil embeddingObject")
      | _, None => throw (AssertionFailed "Object should have a non-nil embeddingKey")
      | Some emb, Some key =>
          c ← classOf emb;
          let cls := rt_propertyClass env_rt c key in
          _ ← NSAssert (bool_decide (is_Some cls)) "No property declaration";
          v' ← (if isScalarProperty cls then mret (Some (MPObj recv)) else collectionForKey emb key cls);
          cacheValue fuel' emb v' key true
      end
  end.

(* @src Feather/Sources/Model/MPEmbeddedObject.m 523 528 -[MPEmbeddedObject markNeedsSave] *)
Fixpoint markNeedsSave (fuel : nat) (recv : oid) : M unit :=
  b ← isManagedObject recv;
  if b : bool then cbl (λ s, model_markNeedsSave s recv)
  else match fuel with
  | O => throw (Exception "EXC_BAD_ACCESS" "stack overflow")
  | Datatypes.S fuel' =>
      e ← getEO recv;
      match eo_embeddingObject e with
      | None => throw (AssertionFailed "Expecting an embedding object")
      | Some emb =>
          _ ← updEO recv (eo_with_needsSave true);
          markNeedsSave fuel' emb
      end
  end.

(** Enough for any chain of embedding objects that ends: see [chain_length]. *)
Definition stackDepth : M nat := gets (λ w, size (w_eos w)).

(* @src Feather/Sources/Model/MPEmbeddedObject.m 256 297 -[MPEmbeddedObject setValue:ofProperty:] *)
Definition EO_setValue_ofProperty (self : oid) (v : option value) (property : option string) : M bool :=
  val ← (match property with Some p => EO_getValueOfProperty self p | None => mret None end);
  if match val, v with Some a, Some b => isEqual a b | _, _ => false end then mret true
  else
    match property with
    | None => throw (AssertionFailed "Attempting to set value of property with nil argument")
    | Some p =>
        e ← getEO self;
        match eo_embeddingObject e, eo_embeddingKey e with
        | None, _ => throw (AssertionFailed "Object should have a non-nil embeddingObject")
        | _, None => throw (AssertionFailed "Object should have a non-nil embeddingKey")
        | Some o, Some key =>
            _ ← (match v with
                 | Some x => updEO self (λ e', eo_with_needsSave true
                                           (eo_with_properties (<[p := x]> (eo_properties e')) e'))
                 | None => updEO self (λ e', eo_with_properties (delete p (eo_properties e')) e')
                 end);
            c ← classOf o;
            let cls := rt_propertyClass env_rt c key in
            n ← stackDepth;
            v' ← (if isScalarProperty cls then mret (Some (MPObj self)) else collectionForKey o key cls);
            _ ← cacheValue n o v' key true;
            isMO ← isManagedObject o;
            _ ← (if isMO : bool then cbl (λ s, model_markPropertyNeedsSave s o key) else mret tt);
            _ ← markNeedsSave n o;
            mret true
        end
    end.

(* @src Feather/Sources/Model/MPEmbeddedObject.m 299 309 -[MPEmbeddedObject embeddingManagedObject] *)
Fixpoint embeddingManagedObject_from (fuel : nat) (e : oid) : M (option oid) :=
  match fuel with
  | O => throw (Exception "hang" "the chain of embedding objects does not end")
  | Datatypes.S fuel' =>
      b ← isEmbeddedObject e;
      emb ← (if b : bool then r ← getEO e; mret (eo_embeddingObject r) else mret None);
      match emb with
      | None => mret None
      | Some p =>
          isMO ← isManagedObject p;
          if isMO : bool then mret (Some p) else embeddingManagedObject_from fuel' p
      end
  end.
Definition EO_embeddingManagedObject (self : oid) : M (option oid) :=
  n ← stackDepth; embeddingManagedObject_from (1 + n) self.

(* @src Feather/Sources/Model/MPEmbeddedObject.m 542 547 -[MPEmbeddedObject databaseForModelProperty:] (part) *)
Fixpoint databaseForModelProperty_loop (fuel : nat) (self : oid) : M (option oid) :=
  match fuel with
  | O => mret None
  | Datatypes.S fuel' =>
      e ← getEO self;
      match eo_embeddingObject e with
      | None => throw (AssertionFailed "Expecting an embedding object")
      | Some embedder =>
          isMO ← isManagedObject embedder;
          if isMO : bool then mret (Some embedder) else databaseForModelProperty_loop fuel' self
      end
  end.
End embedded.

(** ** The chain of embedding objects *)
Section chain.
Context {S : Type} `{!CBL S} `{!CBLLaws S} `{!Env}.
Implicit Types w : World S.

(** What the chain depends on: the links of the embedded objects and the
    classes of all objects. *)
Definition links w (o : oid) : option (option oid * option string) :=
  (λ e, (eo_embeddingObject e, eo_embeddingKey e)) <$> w_eos w !! o.
Definition class_at w (o : oid) : option string :=
  match w_mos w !! o with Some m => Some (mo_class m) | None => eo_class <$> w_eos w !! o end.

(** [o] reaches the managed object [r] through the embedded objects [l],
    each one the value of a declared, non-collection property of the next. *)
Inductive scalar_chain w : oid → list oid → oid → Prop :=
  | chain_root o : is_Some (w_mos w !! o) → scalar_chain w o [] o
  | chain_step o p k c pc l r :
      w_mos w !! o = None →
      links w o = Some (Some p, Some k) →
      class_at w p = Some c →
      rt_propertyClass env_rt c k = Some pc →
      isScalarProperty (Some pc) = true →
      scalar_chain w p l r →
      scalar_chain w o (o :: l) r.

Definition same_links w w' : Prop :=
  w_mos w' = w_mos w ∧ (∀ o, links w' o = links w o) ∧ (∀ o, class_at w' o = class_at w o).

Lemma same_links_refl w : same_links w w.
Proof. done. Qed.
Lemma same_links_trans w1 w2 w3 : same_links w1 w2 → same_links w2 w3 → same_links w1 w3.
Proof. unfold same_links. intros (?&?&?) (?&?&?). split_and!; congruence. Qed.

Lemma same_links_cbl w s : same_links w (set_cbl s w).
Proof. done. Qed.

Lemma same_links_updEO w o f :
  (∀ e, eo_embeddingObject (f e) = eo_embeddingObject e ∧
        eo_embeddingKey (f e) = eo_embeddingKey e ∧ eo_class (f e) = eo_class e) →
  same_links w (set_eos (alter f o (w_eos w)) w).
Proof.
  intros Hf. split_and!; [done| |].
  - intros p. unfold links. cbn. rewrite lookup_alter. case_decide; [|done]. subst.
    destruct (w_eos w !! p) as [e|]; [|done]. cbn. by destruct (Hf e) as (-> & -> & _).
  - intros p. unfold class_at. cbn. destruct (w_mos w !! p); [done|].
    rewrite lookup_alter. case_decide; [|done]. subst.
    destruct (w_eos w !! p) as [e|]; [|done]. cbn. by destruct (Hf e) as (_ & _ & ->).
Qed.

Lemma scalar_chain_same w w' o l r : same_links w w' → scalar_chain w o l r → scalar_chain w' o l r.
Proof.
  intros (Hm & Hl & Hc). induction 1; econstructor; rewrite ?Hm, ?Hl, ?Hc; eauto.
Qed.

Lemma scalar_chain_det w o l r l' r' :
  scalar_chain w o l r → scalar_chain w o l' r' → l = l' ∧ r = r'.
Proof.
  intros Hch. revert l' r'. induction Hch as [o Ho|o p k c pc l r Hn Hl Hc Hp Hs _ IH];
    intros l' r' Hch'; destruct Hch' as [o Ho'|o p' k' c' pc' l' r' Hn' Hl' Hc' Hp' Hs' Hch'];
    [done|by destruct Ho; congruence|by destruct Ho'; congruence|].
  assert (p' = p) as -> by congruence. by edestruct IH as [-> ->]; eauto.
Qed.

Lemma scalar_chain_suffix w o l r p :
  scalar_chain w o l r → p ∈ l → ∃ l', scalar_chain w p l' r ∧ (length l' ≤ length l)%nat.
Proof.
  induction 1 as [o Ho|o q k c pc l r Hn Hl Hc Hp Hs Hch IH]; [set_solver|].
  intros [->|Hin]%elem_of_cons.
  - eexists. split; [econstructor; eauto|]. done.
  - destruct (IH Hin) as (l' & ? & ?). exists l'. split; [done|]. cbn. lia.
Qed.

Lemma scalar_chain_nodup w o l r : scalar_chain w o l r → NoDup l.
Proof.
  induction 1 as [o Ho|o q k c pc l r Hn Hl Hc Hp Hs Hch IH]; [constructor|].
  constructor; [|done]. intros Hin.
  destruct (scalar_chain_suffix _ _ _ _ _ Hch Hin) as (l' & Hch' & Hlen).
  assert (scalar_chain w o (o :: l) r) as Hch2 by (econstructor; eauto).
  destruct (scalar_chain_det _ _ _ _ _ _ Hch' Hch2) as [-> _]. cbn in Hlen. lia.
Qed.

(** A chain that ends visits each embedded object once, so the depth of the
    recursion along it is at most the number of embedded objects. *)
Lemma chain_length w o l r : scalar_chain w o l r → (length l ≤ size (w_eos w))%nat.
Proof.
  intros Hch. pose proof (scalar_chain_nodup _ _ _ _ Hch) as Hnd.
  assert (list_to_set l ⊆ dom (w_eos w)) as Hsub.
  { intros p Hp%elem_of_list_to_set. apply elem_of_dom.
    destruct (scalar_chain_suffix _ _ _ _ _ Hch Hp) as (l' & Hch' & _).
    destruct Hch' as [p Hm|p q k c pc l' r Hn Hl].
    - exfalso. revert Hp Hm. clear - Hch. induction Hch; [set_solver|].
      intros [->|?]%elem_of_cons [? ?]; [congruence|eauto].
    - unfold links in Hl. destruct (w_eos w !! p); [eauto|done]. }
  apply subseteq_size in Hsub. rewrite size_list_to_set in Hsub by done.
  by rewrite size_dom in Hsub.
Qed.

Lemma run_isManagedObject o w :
  isManagedObject o w = (Ok (bool_decide (is_Some (w_mos w !! o))), w).
Proof. done. Qed.

Lemma run_getEO o e w : w_eos w !! o = Some e → getEO o w = (Ok e, w).
Proof. unfold getEO. by intros ->. Qed.

Lemma run_classOf w o c : class_at w o = Some c → classOf o w = (Ok c, w).
Proof.
  unfold class_at, classOf. intros Hc. rewrite run_bind, run_isManagedObject.
  destruct (w_mos w !! o) as [m|] eqn:Em; cbn.
  - rewrite run_bind. unfold getMO. by rewrite Em; simplify_eq.
  - destruct (w_eos w !! o) as [e|] eqn:Ee; [|done].
    rewrite run_bind, (run_getEO _ _ _ Ee). by simplify_eq/=.
Qed.

Lemma links_inv w o p k :
  links w o = Some (Some p, Some k) →
  ∃ e, w_eos w !! o = Some e ∧ eo_embeddingObject e = Some p ∧ eo_embeddingKey e = Some k.
Proof.
  unfold links. destruct (w_eos w !! o) as [e|]; [|done]. cbn. intros. simplify_eq. eauto.
Qed.

(** Along a chain, [-cacheValue:ofProperty:changed:] only touches the model. *)
Lemma cacheValue_run w o l r n v p b :
  scalar_chain w o l r → (length l ≤ n)%nat →
  ∃ s', cacheValue n o v p b w = (Ok tt, set_cbl s' w).
Proof.
  intros Hch. revert n v p b. induction Hch as [o Ho|o q k c pc l r Hn Hl Hc Hp Hs Hch IH];
    intros n v p b Hlen.
  - exists (model_cacheValue (w_cbl w) o p v b).
    destruct n; cbn [cacheValue]; rewrite run_bind, run_isManagedObject;
      by rewrite bool_decide_eq_true_2.
  - cbn in Hlen. destruct n as [|n]; [lia|]. cbn [cacheValue].
    rewrite run_bind, run_isManagedObject, Hn. rewrite bool_decide_eq_false_2 by by intros [].
    destruct (links_inv _ _ _ _ Hl) as (e & He & He1 & He2).
    rewrite run_bind, (run_getEO _ _ _ He). cbn. rewrite He1, He2.
    rewrite run_bind, (run_classOf _ _ _ Hc). cbn. rewrite Hp, Hs.
    rewrite run_bind, run_NSAssert, bool_decide_eq_true_2 by eauto.
    rewrite run_bind, run_ret. apply IH. lia.
Qed.

(** Along a chain, [-markNeedsSave] reaches the managed object. *)
Lemma markNeedsSave_run w o l r n :
  scalar_chain w o l r → (length l ≤ n)%nat →
  ∃ w', markNeedsSave n o w = (Ok tt, w') ∧ same_links w w' ∧
        model_needsSave (w_cbl w') r = true ∧
        (∀ p, (eo_properties <$> w_eos w' !! p) = (eo_properties <$> w_eos w !! p)) ∧
        (∀ p, p ∈ l → eo_needsSave <$> w_eos w' !! p = Some true) ∧
        (∀ p, p ∉ l → w_eos w' !! p = w_eos w !! p).
Proof.
  intros Hch. revert n. remember w as w0 eqn:Hw in Hch.
  assert (same_links w0 w) as Hsame by (subst; done). clear Hw.
  revert w Hsame. induction Hch as [o Ho|o q k c pc l r Hn Hl Hc Hp Hs Hch IH];
    intros w Hsame n Hlen.
  - eexists. split; [|split; [apply same_links_cbl|split; [apply needsSave_mark|]]].
    + destruct n; cbn [markNeedsSave]; rewrite run_bind, run_isManagedObject;
        destruct Hsame as [-> _]; by rewrite bool_decide_eq_true_2.
    + split_and!; [done|set_solver|done].
  - cbn in Hlen. destruct n as [|n]; [lia|]. cbn [markNeedsSave].
    rewrite run_bind, run_isManagedObject. destruct Hsame as (Hm & Hl' & Hc').
    rewrite Hm, Hn, bool_decide_eq_false_2 by by intros [].
    rewrite <- Hl' in Hl. destruct (links_inv _ _ _ _ Hl) as (e & He & He1 & He2).
    rewrite run_bind, (run_getEO _ _ _ He). cbn. rewrite He1, run_bind.
    unfold updEO. rewrite run_modify.
    set (w1 := set_eos (alter (eo_with_needsSave true) o (w_eos w)) w).
    assert (same_links w w1) as Hs1 by (apply same_links_updEO; done).
    destruct (IH w1) with (n := n) as (w' & Hrun & Hs' & Hneed & Hprops & Hdirty & Hout).
    { eapply same_links_trans; [|done]. by split_and!. }
    { lia. }
    exists w'. split_and!; [done|by eapply same_links_trans|done| | |].
    + intros p. rewrite Hprops. subst w1. cbn. rewrite lookup_alter. case_decide; [|done].
      subst. by destruct (w_eos w !! p).
    + intros p [->|Hin]%elem_of_cons; [|auto].
      destruct (decide (o ∈ l)) as [|Hno]; [auto|]. rewrite Hout by done. subst w1. cbn.
      by rewrite lookup_alter, decide_True, He.
    + intros p [Hne Hno]%not_elem_of_cons. rewrite Hout by done. subst w1. cbn.
      by rewrite lookup_alter_ne.
Qed.
End chain.

(** ** Theorems *)
Section theorems.
Context {S : Type} `{!CBL S} `{!CBLLaws S} `{!Env}.
Implicit Types w : World S.

(** C15 (functional). Setting a property of an embedded object that is the value of a declared property,
    not a collection, of the object it is embedded in, as that one is, up to a managed object:
    a value equal to the one there changes nothing.  Otherwise the value is stored - or removed,
    when it is nil -, no other property of an embedded object changes, and all the embedded
    objects above it, up to the managed object at the end, are marked as needing a save.
    The object itself is marked when there is a value; setting nil leaves its own mark as it was. *)
Theorem EO_setValue_propagates w self e l r v p :
  scalar_chain w self (self :: l) r → w_eos w !! self = Some e →
  if match eo_properties e !! p, v with Some a, Some x => isEqual a x | _, _ => false end
  then EO_setValue_ofProperty self v (Some p) w = (Ok true, w)
  else
    ∃ w', EO_setValue_ofProperty self v (Some p) w = (Ok true, w') ∧
        model_needsSave (w_cbl w') r = true ∧
        (∃ e', w_eos w' !! self = Some e' ∧
           eo_properties e' = match v with Some x => <[p := x]> (eo_properties e) | None => delete p (eo_properties e) end ∧
           eo_needsSave e' = match v with Some _ => true | None => eo_needsSave e end) ∧
        (∀ q, q ∈ l → eo_needsSave <$> w_eos w' !! q = Some true) ∧
        (∀ q, q ≠ self → eo_properties <$> w_eos w' !! q = eo_properties <$> w_eos w !! q).
Proof.
  intros Hch He. pose proof (chain_length _ _ _ _ Hch) as Hlen. pose proof (scalar_chain_nodup _ _ _ _ Hch) as Hnd.
  inversion Hch as [|? q k c pc ? ? Hn Hl Hc Hp Hs Hch']; subst.
  destruct (links_inv _ _ _ _ Hl) as (e0 & He0 & He1 & He2). rewrite He in He0. injection He0 as <-.
  unfold EO_setValue_ofProperty, EO_getValueOfProperty.
  destruct (match eo_properties e !! p, v with Some a, Some x => isEqual a x | _, _ => false end) eqn:Heq.
  { rewrite run_bind, run_bind, (run_getEO _ _ _ He). cbn [mret M_ret]. by rewrite Heq. }
  set (f := λ e' : MPEmbeddedObject, match v with
     | Some x => eo_with_needsSave true (eo_with_properties (<[p:=x]> (eo_properties e')) e')
     | None => eo_with_properties (delete p (eo_properties e')) e' end).
  set (w1 := set_eos (alter f self (w_eos w)) w).
  assert (same_links w w1) as Hs1 by (apply same_links_updEO; by destruct v).
  assert (Hstore : (match v with
                 | Some x => updEO self (λ e', eo_with_needsSave true
                                           (eo_with_properties (<[p := x]> (eo_properties e')) e'))
                 | None => updEO self (λ e', eo_with_properties (delete p (eo_properties e')) e')
                 end) w = (Ok tt, w1)) by (subst w1 f; by destruct v).
  rewrite run_bind, run_bind, (run_getEO _ _ _ He). cbn [mret M_ret]. rewrite Heq.
  rewrite run_bind, (run_getEO _ _ _ He). rewrite He1, He2. rewrite run_bind, Hstore.
  rewrite run_bind, (run_classOf w1 q c) by (by destruct Hs1 as (_ & _ & ->)). cbn zeta.
  rewrite run_bind. unfold stackDepth at 1. rewrite run_gets.
  assert (size (w_eos w1) = size (w_eos w)) as Hsz.
  { subst w1. cbn. rewrite <- !size_dom. f_equal. apply dom_alter_L. }
  rewrite Hsz. cbn in Hlen.
  rewrite Hp, Hs, run_bind, run_ret.
  destruct (cacheValue_run w1 q l r (size (w_eos w)) (Some (MPObj self)) k true) as (s' & Hcv);
    [by eapply scalar_chain_same|lia|].
  rewrite run_bind, Hcv. rewrite run_bind, run_isManagedObject, run_bind.
  set (w2 := set_cbl s' w1) in *.
  assert (∃ s2, (if bool_decide (is_Some (w_mos w2 !! q))
           then cbl (λ s : S, model_markPropertyNeedsSave s q k) else mret ()) w2
           = (Ok tt, set_cbl s2 w1)) as (s2 & ->).
  { destruct (bool_decide _); by eexists. }
  destruct (markNeedsSave_run (set_cbl s2 w1) q l r (size (w_eos w)))
    as (w' & Hrun & Hs' & Hneed & Hprops & Hdirty & Hout);
    [by eapply scalar_chain_same|lia|].
  exists w'. rewrite run_bind, Hrun. split_and!; [done|done| |done|].
  - apply NoDup_cons in Hnd as [Hself _]. rewrite (Hout self Hself). subst w1. cbn.
    rewrite lookup_alter, decide_True, He by done. exists (f e). split; [done|]. subst f. by destruct v.
  - intros q' Hne. rewrite Hprops. subst w1. cbn. by rewrite lookup_alter_ne.
Qed.
End theorems.

(** ** The theorems at work on the reference store *)
#[local] Existing Instances Reference.store_CBL Reference.store_laws Reference.env.

Lemma color_chain : scalar_chain Reference.world0 Reference.color [Reference.color; Reference.style]
  Reference.section_.
Proof.
  eapply (chain_step _ _ Reference.style "color" "MPStyle" "MPColor"); try reflexivity.
  eapply (chain_step _ _ Reference.section_ "style" "MPSection" "MPStyle"); try reflexivity.
  apply chain_root. eexists. reflexivity.
Defined.

Lemma EO_setValue_propagates_witness :
  scalar_chain Reference.world0 Reference.color [Reference.color; Reference.style] Reference.section_ ∧
  ∃ w', EO_setValue_ofProperty Reference.color (Some (NSNumber 7)) (Some "red"%string) Reference.world0
          = (Ok true, w') ∧
        model_needsSave (w_cbl w') Reference.section_ = true.
Proof.
  split; [exact color_chain|].
  destruct (w_eos Reference.world0 !! Reference.color) as [e|] eqn:He; [|by vm_compute in He].
  pose proof (EO_setValue_propagates Reference.world0 Reference.color e [Reference.style]
    Reference.section_ (Some (NSNumber 7)) "red" color_chain He) as Hset.
  assert (eo_properties e !! "red"%string = None) as Hnone by (vm_compute in He; injection He as <-; reflexivity).
  rewrite Hnone in Hset. destruct Hset as (w' & H & Hn & _). by exists w'.
Defined.
