(* ===== verification/ManagedObject.v ===== *)
(** * MPManagedObject: the objects of a database

    src/Feather/Sources/Model/MPManagedObject.m: identifiers, property access,
    embedded values, sharing and moderation, timestamps, the life of an object
    (creation, saving, deletion) and what its controller is told.  Blocks given
    to [mp_dispatch_sync] run where they stand: the program reaches its objects from one queue. *)
From Stdlib Require Import Ascii.
From stdpp Require Import base tactics strings numbers list gmap.
From S2P Require Import Prelude ObjC ReferenceRuntime Classes World Reference Controllers EmbeddedObject.

Section managed.
Context {S : Type} `{!CBL S} `{!Env} `{!CBLModelFactory S}.
Local Open Scope string_scope.
Notation M := (M (World S)).

(** ** Identifiers *)

(* @src Feather/Sources/Model/MPManagedObject.m 302 307 -[MPManagedObject documentID] *)
Definition MO_documentID (self : oid) : M string :=
  doc ← cbl_gets (λ s, model_document s self);
  match doc with
  | Some d => mret d
  | None =>
      m ← getMO self;
      match mo_deletedDocumentID m with
      | Some d => mret d
      | None => throw (AssertionFailed "Expecting model to have been deleted")
      end
  end.

(* @src Feather/Sources/Model/MPManagedObject.m 309 311 -[MPManagedObject prefixlessDocumentID] *)
Definition MO_prefixlessDocumentID (self : oid) : M string :=
  d ← MO_documentID self;
  mret (default "" (last (componentsSeparatedBy ":"%char d))).

(* @src Feather/Sources/Model/MPManagedObject.m 313 316 -[MPManagedObject isDeleted] *)
Definition MO_isDeleted (self : oid) : M bool :=
  cbl_gets (λ s, bool_decide (model_document s self = None) || model_docIsDeleted s self).

(* @src Feather/Sources/Model/MPManagedObject.m 326 329 +[MPManagedObject idForNewDocumentInDatabase:] *)
Definition MO_newIdentifier (cls : string) : M string :=
  u ← newUUID; mret (cls ++ ":" ++ u).

(* @src Feather/Sources/Model/MPManagedObject.m 381 391 -[MPManagedObject idForNewDocumentInDatabase:] *)
Definition MO_idForNewDocumentInDatabase (self : oid) : M string :=
  m ← getMO self;
  _ ← NSAssert (negb (String.eqb (mo_class m) MPManagedObject_class)) "[self class] != [MPManagedObject class]";
  match mo_newDocumentID m with
  | Some d =>
      _ ← NSAssert (hasPrefix d (mo_class m ++ ":")) "Prefix is not acceptable.";
      mret d
  | None => MO_newIdentifier (mo_class m)
  end.

(* @src Feather/Sources/Model/MPManagedObject.m 354 373 +[MPManagedObject canonicalizedIdentifierStringForString:] *)
Definition canonicalizedIdentifierStringForString (str : string) : string :=
  replaceOccurrences ":" "-"
    (replaceOccurrences " " "-"
      (replaceOccurrences "." "-"
        (replaceOccurrences "/" "-"
          (replaceOccurrences "https://" ""
            (replaceOccurrences "http://" "" str))))).

(* @src Feather/Sources/Model/MPManagedObject.m 1205 1209 +[MPManagedObject singular] *)
Definition MO_singular (cls : string) : string := camelCased (dropPrefix "MP" cls).

(* @src Feather/Sources/Model/MPManagedObject.m 1211 1213 +[MPManagedObject plural] *)
Definition MO_plural (cls : string) : string := pluralizedString (MO_singular cls).

(* @src Feather/Sources/Model/MPManagedObject.m 1744 1750 +[MPManagedObject objectSpecifierKey] *)
Definition MO_objectSpecifierKey (cls : string) : string :=
  "all" ++ pluralizedString (dropPrefix "MP" cls).

(** ** Property values *)

(** [-getValueOfProperty:] of [CBLModel] *)
Definition MO_getValueOfProperty (self : oid) (property : string) : M (option value) :=
  cbl_gets (λ s, model_get s self property).

(* @src Feather/Sources/Model/MPManagedObject.m 2014 2032 -[MPManagedObject decodeEmbeddedObject:embeddingKey:] *)
Definition MO_decodeEmbeddedObject (self : oid) (rawValue : value) (key : string) : M (option oid) :=
  match rawValue with
  | NSString s =>
      obj ← EO_embeddedObjectWithJSONString MPEmbeddedObject_class (Some s) (Some self) (Some key);
      _ ← MO_cacheEmbeddedObjectByIdentifier self obj;
      mret obj
  | NSDictionary _ =>
      obj ← EO_embeddedObjectWithDictionary MPEmbeddedObject_class rawValue (Some self) (Some key);
      _ ← MO_cacheEmbeddedObjectByIdentifier self obj;
      mret obj
  | _ => mret None
  end.

(** [assert(!value || [value isKindOfClass:[MPEmbeddedObject class]])] *)
Definition assertEmbedded (v : option value) : M (option oid) :=
  match v with
  | None => mret None
  | Some (MPObj o) =>
      b ← isEmbeddedObject o;
      _ ← NSAssert b "[value isKindOfClass:[MPEmbeddedObject class]]";
      mret (Some o)
  | Some _ => throw (AssertionFailed "[value isKindOfClass:[MPEmbeddedObject class]]")
  end.

(** [NSParameterAssert([value isKindOfClass:[self.class classOfProperty:property]])] *)
Definition assertPropertyClass (self : oid) (property : string) (o : option oid) : M unit :=
  m ← getMO self;
  match rt_propertyClass env_rt (mo_class m) property, o with
  | Some cls, Some p => e ← getEO p; NSAssert (isSubclassOfClass env_rt (eo_class e) cls) "[value isKindOfClass:cls]"
  | _, _ => mret tt
  end.

(* @src Feather/Sources/Model/MPManagedObject.m 2034 2087 -[MPManagedObject getEmbeddedObjectProperty:] *)
Definition MO_getEmbeddedObjectProperty (self : oid) (property : string) : M (option oid) :=
  unsaved ← cbl_gets (λ s, model_getUnsaved s self property);
  match unsaved with
  | None =>
      rawValue ← cbl_gets (λ s, doc_propertyForKey s self property);
      decoded ← (match rawValue with
                 | None => mret (Some None)
                 | Some (NSString s) => Some <$> MO_decodeEmbeddedObject self (NSString s) property
                 | Some (NSDictionary d) => Some <$> MO_decodeEmbeddedObject self (NSDictionary d) property
                 | Some (MPObj o) => b ← isEmbeddedObject o;
                                     mret (if b : bool then Some (Some o) else None)
                 | Some _ => mret None
                 end);
      match decoded with
      | None => mret None
      | Some obj =>
          value ← assertEmbedded (MPObj <$> obj);
          _ ← (match value with
               | Some o => cbl (λ s, model_cacheValue s self property (Some (MPObj o)) false)
               | None => mret tt
               end);
          _ ← assertPropertyClass self property value;
          mret value
      end
  | Some (NSString _ as raw) | Some (NSDictionary _ as raw) =>
      obj ← MO_decodeEmbeddedObject self raw property;
      _ ← cbl (λ s, model_cacheValue s self property (MPObj <$> obj) false);
      value ← assertEmbedded (MPObj <$> obj);
      _ ← assertPropertyClass self property value;
      mret value
  | Some v =>
      value ← assertEmbedded (Some v);
      _ ← assertPropertyClass self property value;
      mret value
  end.

(** [-valueForKey:] of a declared property, through its dynamic getter. *)
Definition MO_valueForKey (self : oid) (key : string) : M (option value) :=
  m ← getMO self;
  match MO_impForGetterOfProperty key (rt_propertyClass env_rt (mo_class m) key) with
  | EmbeddedObjectGetter => o ← MO_getEmbeddedObjectProperty self key; mret (MPObj <$> o)
  | EmbeddedArrayGetter => Some <$> MO_getEmbeddedObjectArrayProperty self key
  | EmbeddedDictionaryGetter => Some <$> MO_getEmbeddedObjectDictionaryProperty self key
  | _ => MO_getValueOfProperty self key
  end.

(** A property that can be set once: [Some] result ends the setter. *)
Definition writeOnce (self : oid) (v : option value) (key reason : string) : M (option bool) :=
  _ ← NSAssert (bool_decide (is_Some v)) "Expecting a non-nil value";
  existing ← MO_getValueOfProperty self key;
  match existing, v with
  | Some e, Some x =>
      if isEqual x e then mret (Some true) else throw (Exception "MPInvalidArgumentException" reason)
  | _, _ => mret None
  end.

(** A dictionary for a property that holds an embedded object already replaces
    that object by a new one of its class, under a fresh identity. *)
Definition replacedEmbedded (self : oid) (property : string) (v : option value) : M (option oid) :=
  m ← getMO self;
  match v with
  | Some (NSDictionary d) =>
      if bool_decide (property ∈ embeddedProperties env_rt (mo_class m)) then
        object ← MO_valueForKey self property;
        match object with
        | Some (MPObj o) =>
            b ← isEmbeddedObject o;
            if (b : bool) then
              e ← getEO o;
              let properties := List.filter (λ kv, negb (String.eqb kv.1 "_id") && negb (String.eqb kv.1 "objectType")) d in
              Some <$> EO_initWithDictionary (eo_class e) (Some (NSDictionary properties))
                         (eo_embeddingObject e) (eo_embeddingKey e)
            else mret None
        | _ => mret None
        end
      else mret None
  | _ => mret None
  end.

(* @src Feather/Sources/Model/MPManagedObject.m 1919 1988 -[MPManagedObject setValue:ofProperty:] *)
Definition MO_setValue_ofProperty (self : oid) (v : option value) (property : string) : M bool :=
  deleted ← MO_isDeleted self;
  if (deleted : bool) then mret true
  else
    done1 ← (if String.eqb property "objectType"
             then writeOnce self v "objectType" "Trying to reset objectType" else mret None);
    done2 ← (match done1 with
             | Some r => mret (Some r)
             | None => if String.eqb property "_id"
                       then writeOnce self v "_id" "Trying to reset _id" else mret None
             end);
    match done2 with
    | Some r => mret r
    | None =>
        doc ← cbl_gets (λ s, model_document s self);
        _ ← NSAssert (bool_decide (is_Some doc)) "self.document";
        replaced ← replacedEmbedded self property v;
        match replaced with
        | Some eo => _ ← cbl (λ s, model_set s self property (Some (MPObj eo))); mret true
        | None => _ ← cbl (λ s, model_set s self property v); mret true
        end
    end.

(* @src Feather/Sources/Database Packages/MPDatabase.m 675 681 -[MYDynamicObject setValuesForPropertiesWithDictionary:] *)
Definition MO_setValuesForPropertiesWithDictionary (self : oid) (keyedValues : list (string * value)) : M unit :=
  for_each keyedValues (λ kv, _ ← MO_setValue_ofProperty self (Some kv.2) kv.1; mret tt).

(* @src Feather/Sources/Model/MPManagedObject.m 1990 2012 -[MPManagedObject setEmbeddedObject:ofProperty:] *)
Definition MO_setEmbeddedObject (self : oid) (embeddedObj : option oid) (property : string) : M unit :=
  existingValue ← MO_valueForKey self property;
  let existing := match existingValue with Some (MPObj o) => Some o | _ => None end in
  _ ← (match embeddedObj with
       | Some _ =>
           _ ← (if negb (bool_decide (existing = embeddedObj))
                then MO_removeEmbeddedObjectFromByIdentifierCache self existing else mret tt);
           MO_cacheEmbeddedObjectByIdentifier self embeddedObj
       | None => MO_removeEmbeddedObjectFromByIdentifierCache self existing
       end);
  _ ← (match embeddedObj with
       | Some o => e ← getEO o;
                   _ ← NSAssert (bool_decide (eo_embeddingKey e = None) ||
                                 bool_decide (eo_embeddingKey e = Some property)) "Unexpected embeddingKey";
                   EO_setEmbeddingKey o (Some property)
       | None => mret tt
       end);
  _ ← MO_setValue_ofProperty self (MPObj <$> embeddedObj) property;
  mret tt.

(** An element given for an embedded collection. *)
Definition MO_internElement (self : oid) (property : string) (val asDictionary : value) : M oid :=
  obj ← (match val with
         | NSString s => EO_embeddedObjectWithJSONString MPEmbeddedObject_class (Some s) (Some self) (Some property)
         | NSDictionary _ => EO_embeddedObjectWithDictionary MPEmbeddedObject_class asDictionary (Some self) (Some property)
         | _ => assertEmbedded (Some val)
         end);
  _ ← MO_cacheEmbeddedObjectByIdentifier self obj;
  match obj with
  | Some o => mret o
  | None => throw (Exception "NSInvalidArgumentException" "object cannot be nil")
  end.

(* @src Feather/Sources/Model/MPManagedObject.m 2089 2112 -[MPManagedObject setEmbeddedObjectArray:ofProperty:] *)
Definition MO_setEmbeddedObjectArray (self : oid) (v : value) (property : string) : M unit :=
  match v with
  | NSArray vals =>
      embeddedObjs ← map_each vals (λ val, MO_internElement self property val val);
      _ ← MO_setValue_ofProperty self (Some (NSArray (MPObj <$> embeddedObjs))) property;
      mret tt
  | _ => throw (AssertionFailed "[value isKindOfClass:NSArray.class]")
  end.

(** The dictionary form of an element is decoded from the whole dictionary
    passed in, as the code does. *)
(* @src Feather/Sources/Model/MPManagedObject.m 2172 2194 -[MPManagedObject setEmbeddedObjectDictionary:ofProperty:] *)
Definition MO_setEmbeddedObjectDictionary (self : oid) (vals : list (string * value)) (property : string) : M unit :=
  embeddedObjs ← map_each vals (λ kv, o ← MO_internElement self property kv.2 (NSDictionary vals);
                                      mret (kv.1, MPObj o));
  _ ← MO_setValue_ofProperty self (Some (NSDictionary embeddedObjs)) property;
  mret tt.
End managed.

(** ** Accessors, saving, deletion, creation *)
Section life.
Context {S : Type} `{!CBL S} `{!Env} `{!CBLModelFactory S}.
Local Open Scope string_scope.
Notation M := (M (World S)).

Definition MO_set (self : oid) (v : option value) (property : string) : M unit :=
  _ ← MO_setValue_ofProperty self v property; mret tt.

(* @src Feather/Sources/Model/MPManagedObject.m 318 320 -[MPManagedObject setUserContributed:] *)
Definition MO_setUserContributed (self : oid) (b : bool) : M unit :=
  MO_set self (Some (ofBOOL b)) "userContributed".

(* @src Feather/Sources/Model/MPManagedObject.m 322 324 -[MPManagedObject isUserContributed] *)
Definition MO_isUserContributed (self : oid) : M bool :=
  v ← MO_getValueOfProperty self "userContributed"; mret (boolValue v).

(* @src Feather/Sources/Model/MPManagedObject.m 1903 1907 -[MPManagedObject setObjectType:] *)
Definition MO_setObjectType (self : oid) (objectType : option string) : M unit :=
  _ ← NSAssert (bool_decide (is_Some objectType)) "objectType";
  MO_set self (NSString <$> objectType) "objectType".

(* @src Feather/Sources/Model/MPManagedObject.m 853 855 -[MPManagedObject setCreatedAt:] *)
Definition MO_setCreatedAt (self : oid) (t : Z) : M unit := MO_set self (Some (NSNumber t)) "createdAt".

(* @src Feather/Sources/Model/MPManagedObject.m 857 865 -[MPManagedObject createdAt] *)
Definition MO_createdAt (self : oid) : M (option Z) :=
  v ← MO_getValueOfProperty self "createdAt"; mret ((λ x, numberValue (Some x)) <$> v).

(* @src Feather/Sources/Model/MPManagedObject.m 867 871 -[MPManagedObject setUpdatedAt:] *)
Definition MO_setUpdatedAt (self : oid) (t : Z) : M unit := MO_set self (Some (NSNumber t)) "updatedAt".

(* @src Feather/Sources/Model/MPManagedObject.m 872 877 -[MPManagedObject updatedAt] *)
Definition MO_updatedAt (self : oid) : M (option Z) :=
  v ← MO_getValueOfProperty self "updatedAt"; mret ((λ x, numberValue (Some x)) <$> v).

(* @src Feather/Sources/Model/MPManagedObject.m 406 420 -[MPManagedObject updateTimestamps] *)
Definition MO_updateTimestamps (self : oid) : M unit :=
  createdAt ← MO_createdAt self;
  now ← gets w_now;
  _ ← (match createdAt with None => MO_setCreatedAt self now | Some _ => mret tt end);
  needsSave ← cbl_gets (λ s, model_needsSave s self);
  if (needsSave : bool) then MO_setUpdatedAt self now else mret tt.

(** *** Sharing and moderation *)

(* @src Feather/Sources/Model/MPManagedObject.m 901 903 -[MPManagedObject isShared] *)
Definition MO_isShared (self : oid) : M bool :=
  v ← MO_getValueOfProperty self "shared"; mret (boolValue v).

Definition sharedNotification : string := "MPNotificationNameManagedObjectShared".

(* @src Feather/Sources/Model/MPManagedObject.m 887 899 -[MPManagedObject setShared:] *)
Definition MO_setShared (self : oid) (shared : bool) : M unit :=
  prevValue ← MO_isShared self;
  if Bool.eqb prevValue shared then mret tt
  else
    _ ← (if negb shared then NSAssert (negb prevValue) "!prevValue" else mret tt);
    _ ← MO_set self (Some (ofBOOL shared)) "shared";
    if shared then
      m ← getMO self;
      nc ← (match mo_controller m with Some c => notificationCenter c | None => mret false end);
      _ ← NSAssert nc "nc";
      post (Posted sharedNotification self None)
    else mret tt.

(* @src Feather/Sources/Model/MPManagedObject.h 32 37 MPManagedObjectModerationState *)
Inductive MPManagedObjectModerationState : Type :=
  | MPManagedObjectModerationStateUnmoderated
  | MPManagedObjectModerationStateAccepted
  | MPManagedObjectModerationStateRejected.

Definition moderationNumber (m : MPManagedObjectModerationState) : Z :=
  match m with
  | MPManagedObjectModerationStateUnmoderated => 0
  | MPManagedObjectModerationStateAccepted => 1
  | MPManagedObjectModerationStateRejected => 2
  end.

(* @src Feather/Sources/Model/MPManagedObject.m 924 927 -[MPManagedObject setModerationState:] *)
Definition MO_setModerationState (self : oid) (m : MPManagedObjectModerationState) : M unit :=
  MO_set self (Some (NSNumber (moderationNumber m))) "moderationState".

(* @src Feather/Sources/Model/MPManagedObject.m 928 931 -[MPManagedObject moderationState] *)
Definition MO_moderationState (self : oid) : M Z :=
  v ← MO_getValueOfProperty self "moderationState"; mret (numberValue v).

(* @src Feather/Sources/Model/MPManagedObject.m 937 941 -[MPManagedObject accept] *)
Definition MO_accept (self : oid) : M unit :=
  s ← MO_moderationState self;
  _ ← NSAssert (negb (Z.eqb s 1)) "self.moderationState != MPManagedObjectModerationStateAccepted";
  MO_setModerationState self MPManagedObjectModerationStateAccepted.

(* @src Feather/Sources/Model/MPManagedObject.m 942 946 -[MPManagedObject reject] *)
Definition MO_reject (self : oid) : M unit :=
  s ← MO_moderationState self;
  _ ← NSAssert (negb (Z.eqb s 2)) "self.moderationState != MPManagedObjectModerationStateRejected";
  MO_setModerationState self MPManagedObjectModerationStateRejected.

(* @src Feather/Sources/Model/MPManagedObject.m 1002 1004 -[MPManagedObject isLocked] *)
Definition MO_isLocked (self : oid) : M bool :=
  v ← MO_getValueOfProperty self "locked"; mret (boolValue v).

(* @src Feather/Sources/Model/MPManagedObject.m 1006 1008 -[MPManagedObject setLocked:] *)
Definition MO_setLocked (self : oid) (b : bool) : M unit := MO_set self (Some (ofBOOL b)) "locked".

(* @src Feather/Sources/Model/MPManagedObject.m 1010 1014 -[MPManagedObject lock] *)
Definition MO_lock (self : oid) : M unit :=
  l ← MO_isLocked self;
  if negb l then MO_set self (Some (ofBOOL true)) "locked" else mret tt.

(* @src Feather/Sources/Model/MPManagedObject.m 806 820 -[MPManagedObject propertiesToSave] *)
Definition MO_propertiesToSave (self : oid) : M (option (list (string * value))) :=
  cbl_gets (λ s, match model_document s self with
                 | None => None
                 | Some _ => Some (model_propertiesToSave s self)
                 end).

(* @src Feather/Sources/Model/MPManagedObject.m 1016 1021 -[MPManagedObject unlock] *)
Definition MO_unlock (self : oid) : M unit :=
  l ← MO_isLocked self;
  props ← MO_propertiesToSave self;
  if l || bool_decide (props ≫= assoc "locked" = None)
  then MO_set self (Some (ofBOOL false)) "locked" else mret tt.

(** *** CloudKit *)

(* @src Feather/Sources/Model/MPManagedObject.m 240 243 -[MPManagedObject setCloudKitChangeTag:] *)
Definition MO_setCloudKitChangeTag (self : oid) (tag : option value) : M unit :=
  updMO self (mo_with_tags tag tag).

(** The cached tag is returned only when it is [NSNull], as the code has it. *)
(* @src Feather/Sources/Model/MPManagedObject.m 245 251 -[MPManagedObject cloudKitChangeTag] *)
Definition MO_cloudKitChangeTag (self : oid) : M (option value) :=
  m ← getMO self;
  cached ← (match mo_cachedCloudKitChangeTag m with
            | Some t => mret t
            | None =>
                v ← MO_getValueOfProperty self "cloudKitChangeTag";
                let t := default NSNull v in
                _ ← updMO self (λ m', mo_with_tags (mo_cloudKitChangeTag m') (Some t) m');
                mret t
            end);
  mret (if isEqual cached NSNull then Some cached else None).

(* @src Feather/Sources/Model/MPCacheableMixin.m 48 58 +[MPCacheableMixin clearCachedValues:] *)
Definition MO_clearCachedValues (self : oid) : M unit :=
  m ← getMO self;
  let cachedKeys := default ∅ (cachedPropertiesByClassNameForBaseClass env_rt (mo_class m) !! mo_class m) in
  if bool_decide ("cachedCloudKitChangeTag" ∈ cachedKeys)
  then updMO self (λ m', mo_with_tags (mo_cloudKitChangeTag m') None m') else mret tt.

(** *** Saving *)

(* @src Feather/Sources/Model/MPManagedObject.m 483 485 -[MPManagedObject isClean] *)
Definition MO_isClean (self : oid) : M bool :=
  cbl_gets (λ s, negb (model_needsSave s self) && negb (model_hasChanges s self)).

(** [assert(_controller)] *)
Definition theController (self : oid) : M cid :=
  m ← getMO self;
  match mo_controller m with
  | Some c => mret c
  | None => throw (AssertionFailed "_controller")
  end.

(* @src Feather/Sources/Model/MPManagedObject.m 532 544 -[MPManagedObject saveCompleted] *)
Definition MO_saveCompleted (self : oid) : M unit :=
  c ← theController self;
  m ← getMO self;
  if mo_isNewObject m then
    _ ← updMO self (mo_with_isNew false);
    MOC_didSaveObject c self
  else MOC_didUpdateObject c self.

(** [[embeddedObj setNeedsSave:false]] for the values of the embedded properties. *)
Definition clearEmbeddedNeedsSave (self : oid) : M unit :=
  m ← getMO self;
  for_each (elements (embeddedProperties env_rt (mo_class m))) (λ propertyKey,
    v ← MO_valueForKey self propertyKey;
    o ← assertEmbedded v;
    match o with
    | Some e => updEO e (eo_with_needsSave false)
    | None => mret tt
    end).

(** What [-save:] does to the properties before the model is written. *)
Definition MO_prepareSave (self : oid) : M unit :=
  _ ← MO_updateTimestamps self;
  m ← getMO self;
  _ ← (if env_shouldTrackSessionID (mo_class m) then
         c ← theController self; moc ← getMOC c; p ← getPkg (moc_package moc);
         MO_set self (Some (NSString (pkg_sessionID p))) "sessionID"
       else mret tt);
  currentChangeTag ← MO_cloudKitChangeTag self;
  savedChangeTag ← MO_getValueOfProperty self "cloudKitChangeTag";
  if bool_decide (is_Some currentChangeTag) && bool_decide (is_Some savedChangeTag)
  then MO_set self currentChangeTag "cloudKitChangeTag" else mret tt.

(* @src Feather/Sources/Model/MPManagedObject.m 487 530 -[MPManagedObject save:] *)
Definition MO_save_error (self : oid) : M outcome :=
  clean ← MO_isClean self;
  if (clean : bool) then mret YES
  else
    c ← theController self;
    doc ← cbl_gets (λ s, model_document s self);
    _ ← NSAssert (bool_decide (is_Some doc)) "Unexpectedly missing document when attempting to save.";
    _ ← MOC_willSaveObject c self;
    hasModel ← cbl_gets (λ s, model_hasModelObject s self);
    _ ← NSAssert hasModel "self.document.modelObject";
    _ ← MO_prepareSave self;
    success ← cbl_run (λ s, model_save s self);
    if succeeded success then
      _ ← clearEmbeddedNeedsSave self;
      _ ← MO_saveCompleted self;
      mret success
    else mret success.

(* @src Feather/Sources/Categories/NSNotificationCenter+ErrorNotification.m 17 22 -[NSNotificationCenter postErrorNotification:] *)
Definition postErrorNotification (err : option NSError) : M unit :=
  _ ← NSAssert (bool_decide (is_Some err)) "Attempting to post a nil error notification.";
  post (PostedError err).

(** [[[self.database.packageController notificationCenter] postErrorNotification:err]]:
    nothing is posted when the database points back to no package. *)
Definition postError (self : oid) (o : outcome) : M unit :=
  match o with
  | YES => mret tt
  | NO err =>
      m ← getMO self;
      match mo_controller m with
      | None => mret tt
      | Some c =>
          moc ← getMOC c;
          dbs ← gets w_dbs;
          match moc_db moc ≫= λ d, dbs !! d with
          | None => mret tt
          | Some pkg => k ← getPkg pkg;
                        if pkg_notificationCenter k then postErrorNotification err else mret tt
          end
      end
  end.

(* @src Feather/Sources/Model/MPManagedObject.m 443 456 -[MPManagedObject save] *)
Definition MO_save (self : oid) : M bool :=
  o ← MO_save_error self;
  _ ← postError self o;
  mret (succeeded o).

(* @src Feather/Sources/Model/MPManagedObject.m 422 441 +[MPManagedObject saveModels:error:] *)
Definition MO_saveModels_error (models : list oid) : M outcome :=
  moc ← (match models with
         | [] => mret None
         | o :: _ => m ← getMO o; mret (mo_controller m)
         end);
  _ ← for_each models (λ mo,
        m ← getMO mo;
        _ ← NSAssert (bool_decide (mo_controller m = moc)) "mo.controller == moc";
        has ← cbl_gets (λ s, model_hasModelObject s mo);
        _ ← (if negb has then cbl (λ s, model_setModelObject s mo) else mret tt);
        MO_updateTimestamps mo);
  cbl_run (λ s, model_saveAll s models).

(* @src Feather/Sources/Model/MPManagedObject.m 462 481 +[MPManagedObject saveModels:] *)
Definition MO_saveModels (self : string) (models : list oid) : M bool :=
  match models with
  | [] => mret true
  | mo :: _ =>
      first ← getMO mo;
      _ ← for_each models (λ o,
            m ← getMO o;
            _ ← NSAssert (isSubclassOfClass env_rt (mo_class m) (mo_class first)) "[o isKindOfClass:mo.class]";
            _ ← NSAssert (bool_decide (mo_controller m = mo_controller first)) "o.controller == mo.controller";
            NSAssert (isSubclassOfClass env_rt (mo_class m) self) "[o isKindOfClass:self]");
      o ← MO_saveModels_error models;
      _ ← postError mo o;
      mret (succeeded o)
  end.

(** *** Deletion *)

(* @src Feather/Sources/Model/MPManagedObject.m 586 608 -[MPManagedObject _deleteDocument:] *)
Definition MO_deleteDocument_ (self : oid) : M outcome :=
  c ← theController self;
  deletedDocumentID ← cbl_gets (λ s, model_document s self);
  _ ← NSAssert (bool_decide (is_Some deletedDocumentID)) "deletedDocumentID";
  success ← cbl_run (λ s, model_delete s self);
  if succeeded success then
    _ ← updMO self (mo_with_deletedID deletedDocumentID);
    _ ← MOC_didDeleteObject c self;
    mret success
  else mret success.

(* @src Feather/Sources/Model/MPManagedObject.m 567 584 -[MPManagedObject deleteDocument:] *)
Definition MO_deleteDocument_error (self : oid) : M outcome :=
  rev ← cbl_gets (λ s, model_revision s self);
  success ← (match rev with None => mret YES | Some _ => MO_deleteDocument_ self end);
  _ ← MO_clearCachedValues self;
  mret success.

(* @src Feather/Sources/Model/MPManagedObject.m 546 560 -[MPManagedObject deleteDocument] *)
Definition MO_deleteDocument (self : oid) : M bool :=
  o ← MO_deleteDocument_error self;
  _ ← postError self o;
  _ ← MO_clearCachedValues self;
  mret (succeeded o).

(** A change CouchbaseLite reports for the document of a model. *)
Record CBLDatabaseChange : Type := {
  change_documentID : string;
  change_isCurrentRevision : bool;
  change_inConflict : bool;
  change_source : option string (* the scheme of the source URL *)
}.

(** Both branches of the source are internal, as the code has it. *)
(* @src Feather/Sources/Model/MPManagedObject.m 610 628 -[MPManagedObject document:didChange:] *)
Definition MO_documentDidChange (self : oid) (change : CBLDatabaseChange) : M unit :=
  deleted ← cbl_gets (λ s, model_docIsDeleted s self);
  _ ← (if change_isCurrentRevision change && negb (change_inConflict change) && deleted
       then updMO self (mo_with_deletedID (Some (change_documentID change))) else mret tt);
  match change_source change with
  | None => mret tt
  | Some scheme =>
      m ← getMO self;
      match mo_controller m with
      | None => mret tt
      | Some c => MOC_didChangeDocument c self
                    (if String.eqb scheme "cbl" then MPManagedObjectChangeSourceInternal
                     else MPManagedObjectChangeSourceInternal)
      end
  end.

(** *** Creation *)

(* @src Feather/Sources/Model/MPManagedObject.m 227 234 -[MPManagedObject didInitialize] *)
Definition MO_didInitialize (self : oid) : M unit :=
  _ ← updMO self (λ m, match mo_embeddedObjectCache m with
                       | None => mo_with_cache (Some ∅) m | Some _ => m end);
  c ← theController self;
  doc ← cbl_gets (λ s, model_document s self);
  match doc with Some _ => MOC_registerObject c self | None => mret tt end.

Definition insertKey (k : string) (v : value) (d : list (string * value)) : list (string * value) :=
  List.filter (λ kv, negb (String.eqb kv.1 k)) d ++ [(k, v)].

(* @src Feather/Sources/Model/MPManagedObject.m 168 225 -[MPManagedObject initWithNewDocumentForController:properties:documentID:] *)
Definition MO_initWithNewDocumentForController (cls : string) (controller : option cid)
    (properties : option (list (string * value))) (identifier : option string) : M oid :=
  if negb (isConcrete env_rt cls) then throw (Exception "MPAbstractClassException" "")
  else
    match controller with
    | None => throw (AssertionFailed "controller")
    | Some c =>
        moc ← getMOC c;
        match moc_db moc with
        | None => throw (AssertionFailed "controller.db")
        | Some db =>
            self ← alloc;
            _ ← modify (λ w, set_mos (<[self := mkMO cls (Some c) identifier None None false None None]> (w_mos w)) w);
            docID ← MO_idForNewDocumentInDatabase self;
            _ ← cbl (λ s, model_init s self db docID);
            doc ← cbl_gets (λ s, model_document s self);
            _ ← NSAssert (bool_decide (is_Some doc)) "self.document";
            _ ← MO_didInitialize self;
            _ ← updMO self (mo_with_isNew true);
            let type := properties ≫= λ p, stringOf (assoc "objectType" p) in
            moClass ← (match type with
                       | Some t => mret (NSClassFromString env_rt t)
                       | None => mret (Some cls)
                       end);
            managed ← MOC_class c;
            _ ← NSAssert (match moClass with
                          | Some k => String.eqb k managed || isSubclassOfClass env_rt k managed
                          | None => false
                          end) "moClass == [_controller managedObjectClass]";
            _ ← (match type with
                 | Some t => MO_setObjectType self (Some t)
                 | None => mret tt
                 end);
            _ ← MOC_registerObject c self;
            let p := List.filter (λ kv, negb (String.eqb kv.1 "_id") && negb (String.eqb kv.1 "_rev"))
                       (default [] properties) in
            _ ← MO_setValuesForPropertiesWithDictionary self
                  (insertKey "objectType" (NSString (default "" moClass)) p);
            doc' ← cbl_gets (λ s, model_document s self);
            _ ← (match identifier with
                 | Some i => NSAssert (bool_decide (doc' = Some i)) "[self.document.documentID isEqualToString:identifier]"
                 | None => mret tt
                 end);
            mret self
        end
    end.

(* @src Feather/Sources/Model/MPManagedObject.m 152 165 -[MPManagedObject initCopyOfManagedObject:controller:] *)
Definition MO_initCopyOfManagedObject (cls : string) (managedObject : option oid) (controller : option cid) : M oid :=
  match managedObject with
  | None => throw (AssertionFailed "managedObject")
  | Some o =>
      m ← getMO o;
      _ ← NSAssert (isSubclassOfClass env_rt (mo_class m) cls) "[managedObject isKindOfClass:self.class]";
      _ ← NSAssert (bool_decide (is_Some controller)) "controller";
      saved ← MO_propertiesToSave o;
      let props := (List.filter (λ kv, negb (hasPrefix kv.1 "_"))) <$> saved in
      MO_initWithNewDocumentForController cls controller props None
  end.

(* @src Feather/Sources/Model Controllers/MPManagedObjectsController.m 676 689 -[MPManagedObjectsController newObjectOfClass:] *)
Definition MOC_newObjectOfClass (self : cid) (cls : option string) : M oid :=
  c ← getMOC self;
  managed ← MOC_class self;
  match match cls with Some k => Some k | None => MOC_managedObjectClass_of env_rt (moc_class c) end with
  | None => throw (AssertionFailed "cls")
  | Some className =>
      _ ← NSAssert (isSubclassOfClass env_rt className managed) "[cls isSubclassOfClass:self.managedObjectClass]";
      obj ← MO_initWithNewDocumentForController className (Some self) None None;
      _ ← MO_setObjectType obj (Some className);
      mret obj
  end.
End life.
