(* ===== verification/Frames.v ===== *)
(** * Which parts of the state an operation can change

    Frame lemmas for the operations of EmbeddedObject.v and ManagedObject.v, all
    obtained from the shape of the computations: decoding and caching embedded
    objects touches the embedded objects, the by-identifier caches and the
    supplies of identifiers and pointers; accessors of a property touch the
    model at that property only. *)
From Stdlib Require Import Ascii.
From stdpp Require Import base tactics strings numbers list gmap.
From S2P Require Import Prelude ObjC Classes World Controllers EmbeddedObject ManagedObject.

Section frames.
Context {S : Type} `{!CBL S} `{!Env} `{!CBLModelFactory S}.
Implicit Types w : World S.

(** A relation that does not see what decoding an embedded object changes. *)
Record blind (R : relation (World S)) : Prop := {
  blind_pre : PreOrder R;
  blind_eos : ∀ w m, R w (set_eos m w);
  blind_uuids : ∀ w n, R w (set_uuids n w);
  blind_nextOid : ∀ w n, R w (set_nextOid n w);
  blind_caches : ∀ w o f, (∀ m, ∃ c, f m = mo_with_cache c m) → R w (set_mos (alter f o (w_mos w)) w)
}.

Context (R : relation (World S)) (HR : blind R).

#[local] Instance blind_preorder : PreOrder R := blind_pre R HR.

Lemma steps_getMO o : steps R (getMO o).
Proof. intros w. unfold getMO. by destruct (w_mos w !! o). Qed.
Lemma steps_getEO o : steps R (getEO o).
Proof. intros w. unfold getEO. by destruct (w_eos w !! o). Qed.
Lemma steps_getMOC o : steps R (getMOC o).
Proof. intros w. unfold getMOC. by destruct (w_mocs w !! o). Qed.
Lemma steps_getPkg o : steps R (getPkg o).
Proof. intros w. unfold getPkg. by destruct (w_pkgs w !! o). Qed.
Lemma steps_isMO o : steps R (isManagedObject o).
Proof. by intros w. Qed.
Lemma steps_isEO o : steps R (isEmbeddedObject o).
Proof. by intros w. Qed.
Lemma steps_cbl_gets {A} (f : S → A) : steps R (cbl_gets f).
Proof. by intros w. Qed.
Lemma steps_updEO o f : steps R (updEO o f).
Proof. intros w. exact (blind_eos R HR w _). Qed.
Lemma steps_newEO p e : steps R (modify (λ w, set_eos (<[p := e]> (w_eos w)) w)).
Proof. intros w. exact (blind_eos R HR w _). Qed.
Lemma steps_newUUID : steps R newUUID.
Proof. intros w. exact (blind_uuids R HR w _). Qed.
Lemma steps_alloc : steps R alloc.
Proof. intros w. exact (blind_nextOid R HR w _). Qed.
Lemma steps_updMO_cache o f : (∀ m, ∃ c, f m = mo_with_cache c m) → steps R (updMO o f).
Proof. intros Hf w. exact (blind_caches R HR w o f Hf). Qed.

#[local] Hint Resolve steps_getMO steps_getEO steps_getMOC steps_getPkg steps_isMO steps_isEO
  steps_cbl_gets steps_updEO steps_newEO steps_newUUID steps_alloc : steps.
#[local] Hint Extern 1 (steps _ (updMO _ _)) => apply steps_updMO_cache; eauto : steps.

Lemma steps_asString v : steps R (asString v).
Proof. unfold asString, unrecognizedSelector. steps_tac. Qed.
Lemma steps_elementsOf v : steps R (elementsOf v).
Proof. unfold elementsOf, unrecognizedSelector. steps_tac. Qed.
#[local] Hint Resolve steps_asString steps_elementsOf : steps.

Lemma steps_MO_cacheEmbedded o p : steps R (MO_cacheEmbeddedObjectByIdentifier o p).
Proof. unfold MO_cacheEmbeddedObjectByIdentifier. steps_tac. Qed.
Lemma steps_MO_removeEmbedded o p : steps R (MO_removeEmbeddedObjectFromByIdentifierCache o p).
Proof. unfold MO_removeEmbeddedObjectFromByIdentifierCache. steps_tac. Qed.
Lemma steps_EO_cacheEmbedded o p : steps R (EO_cacheEmbeddedObjectByIdentifier o p).
Proof. unfold EO_cacheEmbeddedObjectByIdentifier. steps_tac. Qed.
Lemma steps_embeddedWithIdentifier o i : steps R (embeddedObjectWithIdentifier o i).
Proof.
  unfold embeddedObjectWithIdentifier, MO_embeddedObjectWithIdentifier, EO_embeddedObjectWithIdentifier.
  steps_tac.
Qed.
#[local] Hint Resolve steps_MO_cacheEmbedded steps_MO_removeEmbedded steps_EO_cacheEmbedded
  steps_embeddedWithIdentifier : steps.

Lemma steps_uniqued o e : steps R (uniqued o e).
Proof. unfold uniqued, cacheEmbeddedObjectByIdentifier. steps_tac. Qed.
#[local] Hint Resolve steps_uniqued : steps.
Lemma steps_EO_initWithDictionary c d o k : steps R (EO_initWithDictionary c d o k).
Proof. unfold EO_initWithDictionary. steps_tac. Qed.
Lemma steps_decodedClass c d : steps R (decodedClass c d).
Proof. unfold decodedClass. steps_tac. Qed.
#[local] Hint Resolve steps_EO_initWithDictionary steps_decodedClass : steps.
Lemma steps_EO_withJSON c s o k : steps R (EO_embeddedObjectWithJSONString c s o k).
Proof. unfold EO_embeddedObjectWithJSONString, unrecognizedSelector. steps_tac. Qed.
Lemma steps_EO_withDictionary c d o k : steps R (EO_embeddedObjectWithDictionary c d o k).
Proof. unfold EO_embeddedObjectWithDictionary, unrecognizedSelector. steps_tac. Qed.
#[local] Hint Resolve steps_EO_withJSON steps_EO_withDictionary : steps.
Lemma steps_MO_decodeElement o p v : steps R (MO_decodeElement o p v).
Proof. unfold MO_decodeElement. steps_tac. Qed.
#[local] Hint Resolve steps_MO_decodeElement : steps.
Lemma steps_MO_getArray o p : steps R (MO_getEmbeddedObjectArrayProperty o p).
Proof. unfold MO_getEmbeddedObjectArrayProperty. steps_tac. Qed.
Lemma steps_MO_getDictionary o p : steps R (MO_getEmbeddedObjectDictionaryProperty o p).
Proof. unfold MO_getEmbeddedObjectDictionaryProperty, unrecognizedSelector. steps_tac. Qed.
Lemma steps_MO_decodeEmbedded o v k : steps R (MO_decodeEmbeddedObject o v k).
Proof. unfold MO_decodeEmbeddedObject. steps_tac. Qed.
Lemma steps_assertEmbedded v : steps R (assertEmbedded v).
Proof. unfold assertEmbedded. steps_tac. Qed.
Lemma steps_assertPropertyClass o p e : steps R (assertPropertyClass o p e).
Proof. unfold assertPropertyClass. steps_tac. Qed.
Lemma steps_MO_isDeleted o : steps R (MO_isDeleted o).
Proof. unfold MO_isDeleted. steps_tac. Qed.
Lemma steps_MO_getValue o p : steps R (MO_getValueOfProperty o p).
Proof. unfold MO_getValueOfProperty. steps_tac. Qed.
#[local] Hint Resolve steps_MO_getArray steps_MO_getDictionary steps_MO_decodeEmbedded
  steps_assertEmbedded steps_assertPropertyClass steps_MO_isDeleted steps_MO_getValue : steps.

(** Reading a property of [self] may fill the cache of the model at it. *)
Section property.
Context (self : oid) (p : string)
  (Hcache : ∀ w v, R w (set_cbl (model_cacheValue (w_cbl w) self p v false) w)).

Lemma steps_MO_getEmbedded : steps R (MO_getEmbeddedObjectProperty self p).
Proof.
  assert (∀ v, steps R (cbl (λ s, model_cacheValue s self p v false))) by (intros ? ?; apply Hcache).
  unfold MO_getEmbeddedObjectProperty. steps_tac.
Qed.
#[local] Hint Resolve steps_MO_getEmbedded : steps.
Lemma steps_MO_valueForKey : steps R (MO_valueForKey self p).
Proof. unfold MO_valueForKey. steps_tac. Qed.
#[local] Hint Resolve steps_MO_valueForKey : steps.

Lemma steps_replacedEmbedded v : steps R (replacedEmbedded self p v).
Proof. unfold replacedEmbedded. steps_tac. Qed.
Lemma steps_writeOnce v k reason : steps R (writeOnce self v k reason).
Proof. unfold writeOnce. steps_tac. Qed.
#[local] Hint Resolve steps_replacedEmbedded steps_writeOnce : steps.

Lemma steps_MO_setValue v :
  (∀ w v, R w (set_cbl (model_set (w_cbl w) self p v) w)) → steps R (MO_setValue_ofProperty self v p).
Proof.
  intros Hset. assert (∀ v, steps R (cbl (λ s, model_set s self p v))) by (intros ? ?; apply Hset).
  unfold MO_setValue_ofProperty. steps_tac.
Qed.
End property.
End frames.
