(* ===== verification/ObjectTheorems.v ===== *)
(** * What managed objects guarantee

    Theorems about the operations of ManagedObject.v, for every CouchbaseLite
    layer that satisfies [CBLLaws]. *)
From Stdlib Require Import Ascii.
From stdpp Require Import base tactics strings numbers list gmap.
From S2P Require Import Prelude ObjC ReferenceRuntime Classes World Reference Controllers EmbeddedObject ManagedObject Frames.

Section theorems.
Context {S : Type} `{!CBL S} `{!CBLLaws S} `{!Env} `{!CBLModelFactory S}.
Implicit Types w : World S.
Local Open Scope string_scope.

(** A statement about the CouchbaseLite layer only is kept by whatever leaves it alone. *)
Lemma blind_cbl (Q : S → Prop) : blind (keeping (λ w : World S, Q (w_cbl w))).
Proof. split; [apply _| | | |]; by unfold keeping. Qed.

(** ** Writing properties *)

Lemma writeOnce_run self v k reason w t :
  model_get (w_cbl w) self k = Some t → (writeOnce self v k reason w).2 = w ∧
  (∀ r, (writeOnce self v k reason w).1 = Ok r → r = Some true).
Proof.
  intros Hk. unfold writeOnce. rewrite run_bind, run_NSAssert.
  destruct v as [x|]; cbn [bool_decide]; [|split; [done|cbn; congruence]].
  rewrite bool_decide_eq_true_2 by eauto. rewrite run_bind. unfold MO_getValueOfProperty, cbl_gets.
  rewrite run_gets, Hk. destruct (isEqual x t); split; cbn; congruence.
Qed.

(** The keys whose value identifies an object. *)
Definition identity_key (k : string) : Prop := k = "objectType" ∨ k = "_id".

Lemma setValue_keeps_identity self k t v p :
  identity_key k →
  steps (keeping (λ w, model_get (w_cbl w) self k = Some t)) (MO_setValue_ofProperty self v p).
Proof.
  intros Hid. destruct (decide (p = k)) as [->|Hne].
  - intros w Hk. unfold MO_setValue_ofProperty. rewrite run_bind. unfold MO_isDeleted, cbl_gets at 1.
    rewrite run_gets. destruct (_ || _); [done|].
    destruct Hid as [->| ->]; cbn [String.eqb Ascii.eqb Bool.eqb].
    + destruct (writeOnce_run self v "objectType" "Trying to reset objectType" w t Hk) as [Hw Hr].
      rewrite run_bind. destruct (writeOnce _ _ _ _ w) as [[r|e] w']; cbn in *; subst; [|done].
      by rewrite (Hr r eq_refl).
    + rewrite run_bind, run_ret, run_bind. cbn.
      destruct (writeOnce_run self v "_id" "Trying to reset _id" w t Hk) as [Hw Hr].
      destruct (writeOnce _ _ _ _ w) as [[r|e] w']; cbn in *; subst; [|done].
      by rewrite (Hr r eq_refl).
  - apply steps_MO_setValue; [apply (blind_cbl (λ s, model_get s self k = Some t))| |]; intros w; intros; intros Hk; cbn.
    + by rewrite get_cache_other by congruence.
    + by rewrite get_set_other by congruence.
Qed.

(** C4 (safety). An object keeps its identity: once [objectType] (or [_id]) has a
    value, no batch of property writes changes it - each attempt either is a
    no-op or raises - whatever else the batch writes, and also when it is cut
    short by an exception. *)
Theorem identity_is_write_once w self k t keyedValues :
  identity_key k →
  model_get (w_cbl w) self k = Some t →
  model_get (w_cbl (MO_setValuesForPropertiesWithDictionary self keyedValues w).2) self k = Some t.
Proof.
  intros Hid Hk. unfold MO_setValuesForPropertiesWithDictionary.
  refine (steps_for_each (keeping (λ w, model_get (w_cbl w) self k = Some t)) _ _ _ w Hk).
  intros kv. apply steps_bind; [apply _| |]; [by apply setValue_keeps_identity|].
  intros b. apply steps_ret, _.
Qed.

(** The state in which a write goes through to the model. *)
Definition live w (self : oid) : Prop :=
  is_Some (model_document (w_cbl w) self) ∧ model_docIsDeleted (w_cbl w) self = false.

(** Nothing has ever been written to the property. *)
Definition untouched w (self : oid) (p : string) : Prop :=
  model_get (w_cbl w) self p = None ∧ model_getUnsaved (w_cbl w) self p = None ∧
  doc_propertyForKey (w_cbl w) self p = None.

(** A write that replaces no embedded object *)
Definition plain_write w (self : oid) (v : option value) (p : string) : Prop :=
  ∃ m, w_mos w !! self = Some m ∧
       (p ∉ embeddedProperties env_rt (mo_class m) ∨ (∀ d, v ≠ Some (NSDictionary d)) ∨ untouched w self p).

Lemma run_valueForKey_untouched w self m p :
  w_mos w !! self = Some m → untouched w self p →
  ∃ r, MO_valueForKey self p w = (Ok r, w) ∧ ∀ o, r ≠ Some (MPObj o).
Proof.
  intros Hm (Hget & Hun & Hdoc). unfold MO_valueForKey, getMO. rewrite run_bind, Hm.
  assert (∃ r, MO_getValueOfProperty self p w = (Ok r, w) ∧ ∀ o, r ≠ Some (MPObj o)) as Hbasic.
  { exists None. unfold MO_getValueOfProperty, cbl_gets. by rewrite run_gets, Hget. }
  destruct (MO_impForGetterOfProperty _ _); try exact Hbasic.
  - exists None. split; [|done]. unfold MO_getEmbeddedObjectProperty, cbl_gets. rewrite run_bind, run_bind, run_gets, Hun.
    rewrite run_bind, run_gets, Hdoc, run_bind, run_ret. cbn [fmap option_fmap option_map]. unfold assertEmbedded.
    rewrite run_bind, run_ret, run_bind, run_ret. unfold assertPropertyClass, getMO.
    rewrite run_bind, run_bind, Hm. by destruct (rt_propertyClass _ _ _).
  - exists (Some (NSArray [])). split; [|done]. unfold MO_getEmbeddedObjectArrayProperty, cbl_gets.
    unfold fmap at 1, M_fmap. rewrite run_bind, run_bind, run_gets, Hget. done.
  - exists (Some (NSDictionary [])). split; [|done]. unfold MO_getEmbeddedObjectDictionaryProperty, cbl_gets.
    unfold fmap at 1, M_fmap. rewrite run_bind, run_bind, run_gets, Hget. done.
Qed.

Lemma run_isDeleted w self : live w self → MO_isDeleted self w = (Ok false, w).
Proof.
  intros [[d Hd] Hx]. unfold MO_isDeleted, cbl_gets. rewrite run_gets, Hd, Hx.
  by rewrite bool_decide_eq_false_2.
Qed.

(** A key that identifies an object is not written a second time. *)
Lemma run_identity_again w self k v x :
  live w self → identity_key k → model_get (w_cbl w) self k = Some x → isEqual v x = true →
  MO_setValue_ofProperty self (Some v) k w = (Ok true, w).
Proof.
  intros Hlive Hk Hx Heq. unfold MO_setValue_ofProperty. rewrite run_bind, run_isDeleted by done.
  assert (∀ reason, writeOnce self (Some v) k reason w = (Ok (Some true), w)) as Hw.
  { intros reason. unfold writeOnce. rewrite run_bind, run_NSAssert, bool_decide_eq_true_2 by eauto.
    unfold MO_getValueOfProperty, cbl_gets. by rewrite run_bind, run_gets, Hx, Heq. }
  destruct Hk as [->| ->]; cbn [String.eqb Ascii.eqb Bool.eqb].
  - by rewrite run_bind, Hw, run_bind, run_ret.
  - by rewrite run_bind, run_ret, run_bind, Hw.
Qed.

Lemma run_setValue w self v p :
  live w self → plain_write w self v p → ¬ identity_key p →
  MO_setValue_ofProperty self v p w = (Ok true, set_cbl (model_set (w_cbl w) self p v) w).
Proof.
  intros Hlive (m & Hm & Hplain) Hid. unfold MO_setValue_ofProperty.
  rewrite run_bind, run_isDeleted by done.
  assert (p ≠ "objectType" ∧ p ≠ "_id") as [H1 H2] by (split; intros ->; apply Hid; [by left|by right]).
  destruct (String.eqb_spec p "objectType"); [done|]. destruct (String.eqb_spec p "_id"); [done|].
  rewrite run_bind, run_ret, run_bind, run_ret, run_bind. unfold cbl_gets at 1. rewrite run_gets.
  destruct Hlive as [[d Hd] Hx]. rewrite Hd. rewrite run_bind, run_NSAssert, bool_decide_eq_true_2 by eauto.
  assert (replacedEmbedded self p v w = (Ok None, w)) as Hrep.
  { unfold replacedEmbedded. rewrite run_bind. unfold getMO. rewrite Hm.
    destruct v as [[]|]; try done. case_bool_decide as Hemb; [|done].
    destruct Hplain as [Hp|[Hp|Hp]]; [done|by destruct (Hp d0)|].
    destruct (run_valueForKey_untouched w self m p Hm Hp) as (r & Hr & Hno). rewrite run_bind, Hr.
    destruct r as [[]|]; try done. by destruct (Hno o). }
  by rewrite run_bind, Hrep.
Qed.

Lemma live_set w self p v : live w self → live (set_cbl (model_set (w_cbl w) self p v) w) self.
Proof. unfold live. cbn. by rewrite document_set, docIsDeleted_set. Qed.

(** Writing a property of a live object and reading it back gives
    the value written (or one equal to it), reading [nil] after writing [nil];
    every other property of every object is unchanged, and nothing is posted. *)
Theorem setValue_getValue w self v p :
  live w self → plain_write w self v p → ¬ identity_key p →
  ∃ w', MO_setValue_ofProperty self v p w = (Ok true, w') ∧
        match v, MO_getValueOfProperty self p w' with
        | Some x, (Ok (Some y), _) => y = x ∨ isEqual y x = true
        | None, (Ok None, _) => True
        | _, _ => False
        end ∧
        (∀ o q, (o, q) ≠ (self, p) → (MO_getValueOfProperty o q w').1 = (MO_getValueOfProperty o q w).1) ∧
        w_log w' = w_log w.
Proof.
  intros Hlive Hplain Hid. eexists. split; [by apply run_setValue|]. split_and!; [| |done].
  - cbn. destruct v as [x|].
    + pose proof (get_set_same (w_cbl w) self p x) as Hg.
      by destruct (model_get _ self p).
    + by rewrite get_set_nil.
  - intros o q Hne. cbn. by rewrite get_set_other.
Qed.

(** A deleted object ignores writes: the setter answers YES and nothing changes. *)
Theorem setValue_deleted w self v p :
  ¬ live w self → MO_setValue_ofProperty self v p w = (Ok true, w).
Proof.
  intros Hdead. unfold MO_setValue_ofProperty. rewrite run_bind. unfold MO_isDeleted, cbl_gets. rewrite run_gets.
  destruct (model_document (w_cbl w) self) as [d|] eqn:Ed; [|done].
  rewrite bool_decide_eq_false_2 by done. cbn.
  destruct (model_docIsDeleted (w_cbl w) self) eqn:Ex; [done|].
  exfalso. apply Hdead. split; [by rewrite Ed|done].
Qed.

(** ** Sharing *)
Definition shared_in w (self : oid) : bool := boolValue (model_get (w_cbl w) self "shared").

Lemma run_isShared w self : MO_isShared self w = (Ok (shared_in w self), w).
Proof. done. Qed.

Lemma boolValue_isEqual v b : isEqual v (ofBOOL b) = true → boolValue (Some v) = b.
Proof.
  destruct v; try done. cbn. intros ->%Z.eqb_eq. by destruct b.
Qed.

Lemma shared_after_set w self b :
  shared_in (set_cbl (model_set (w_cbl w) self "shared" (Some (ofBOOL b))) w) self = b.
Proof.
  unfold shared_in. cbn. pose proof (get_set_same (w_cbl w) self "shared" (ofBOOL b)) as Hg.
  destruct (model_get _ self "shared") as [y|]; [|done].
  destruct Hg as [->|Hg]; [apply boolValue_ofBOOL|by apply boolValue_isEqual].
Qed.

(** An object whose controller's package can post. *)
Definition can_post w (self : oid) : Prop :=
  ∃ m c moc pkg, w_mos w !! self = Some m ∧ mo_controller m = Some c ∧ w_mocs w !! c = Some moc ∧
    w_pkgs w !! moc_package moc = Some pkg ∧ pkg_notificationCenter pkg = true.

Lemma run_notificationCenter w c moc pkg :
  w_mocs w !! c = Some moc → w_pkgs w !! moc_package moc = Some pkg →
  notificationCenter c w = (Ok (pkg_notificationCenter pkg), w).
Proof.
  intros Hc Hp. unfold notificationCenter, getMOC, getPkg.
  by rewrite run_bind, Hc, run_bind, Hp.
Qed.

(** Sharing cannot be undone: [setShared:] never takes an object from
    shared to unshared - asking for it raises - and sharing an unshared object
    marks it and posts the sharing notification exactly once, however often
    [setShared:YES] is repeated. *)
Theorem sharing_is_monotone w self :
  live w self → can_post w self →
  (∀ b, shared_in w self = true → shared_in (MO_setShared self b w).2 self = true) ∧
  (shared_in w self = true → ∃ e, MO_setShared self false w = (Throw e, w)) ∧
  (shared_in w self = false →
     ∃ w', MO_setShared self true w = (Ok tt, w') ∧ shared_in w' self = true ∧
           w_log w' = (w_log w ++ [Posted sharedNotification self None])%list ∧
           MO_setShared self true w' = (Ok tt, w')).
Proof.
  intros Hlive (m & c & moc & pkg & Hm & Hc & Hmoc & Hpkg & Hnc).
  assert (∀ b, shared_in w self = true →
            MO_setShared self b w = (if b then Ok tt else Throw (AssertionFailed "!prevValue"), w)) as Hsh.
  { intros b Hs. unfold MO_setShared. rewrite run_bind, run_isShared, Hs. by destruct b. }
  split_and!.
  - intros b Hs. by rewrite Hsh.
  - intros Hs. eexists. by rewrite Hsh.
  - intros Hs. unfold MO_setShared at 1. rewrite run_bind, run_isShared, Hs. cbn [Bool.eqb negb].
    rewrite run_bind, run_ret, run_bind. unfold MO_set.
    rewrite (run_bind_ok _ _ _ _ _ (run_setValue w self (Some (ofBOOL true)) "shared" Hlive
      ltac:(exists m; split; [done|by right; left]) ltac:(by intros [?|?]))).
    rewrite run_ret, run_bind. unfold getMO. cbn [w_mos set_cbl]. rewrite Hm, Hc, run_bind.
    rewrite (run_notificationCenter _ c moc pkg) by done. rewrite Hnc, run_bind. cbn [NSAssert].
    eexists. split; [reflexivity|]. split_and!; [apply shared_after_set|done|].
    unfold MO_setShared. rewrite run_bind, run_isShared. unfold shared_in. cbn [w_cbl set_log set_cbl].
    pose proof (shared_after_set w self true) as Hs'. unfold shared_in in Hs'. cbn in Hs'. by rewrite Hs'.
Qed.

(** ** Timestamps *)
Definition created_at w (self : oid) : option Z :=
  (λ x, numberValue (Some x)) <$> model_get (w_cbl w) self "createdAt".
Definition updated_at w (self : oid) : option Z :=
  (λ x, numberValue (Some x)) <$> model_get (w_cbl w) self "updatedAt".

Lemma get_set_number (s : S) o p n : model_get (model_set s o p (Some (NSNumber n))) o p = Some (NSNumber n).
Proof.
  pose proof (get_set_same s o p (NSNumber n)) as Hg. destruct (model_get _ o p) as [y|]; [|done].
  destruct Hg as [->|Hg]; [done|]. destruct y; try done. cbn in Hg. by apply Z.eqb_eq in Hg as ->.
Qed.

Lemma run_MO_set_atom w self v p m :
  live w self → w_mos w !! self = Some m → ¬ identity_key p → (∀ d, v ≠ Some (NSDictionary d)) →
  MO_set self v p w = (Ok tt, set_cbl (model_set (w_cbl w) self p v) w).
Proof.
  intros Hlive Hm Hid Hv. unfold MO_set.
  rewrite (run_bind_ok _ _ _ _ _ (run_setValue w self v p Hlive ltac:(exists m; auto) Hid)). done.
Qed.

Lemma run_updateTimestamps w self m :
  live w self → w_mos w !! self = Some m →
  let s1 := match model_get (w_cbl w) self "createdAt" with
            | Some _ => w_cbl w
            | None => model_set (w_cbl w) self "createdAt" (Some (NSNumber (w_now w)))
            end in
  let s2 := if model_needsSave s1 self then model_set s1 self "updatedAt" (Some (NSNumber (w_now w))) else s1 in
  MO_updateTimestamps self w = (Ok tt, set_cbl s2 w).
Proof.
  intros Hlive Hm. cbn zeta. unfold MO_updateTimestamps, MO_createdAt, MO_getValueOfProperty, cbl_gets.
  rewrite run_bind, run_bind, run_gets, run_ret, run_bind, run_gets, run_bind.
  unfold MO_setCreatedAt, MO_setUpdatedAt.
  destruct (model_get (w_cbl w) self "createdAt") as [x|]; cbn [fmap option_fmap option_map].
  - rewrite run_ret, run_bind, run_gets. destruct (model_needsSave (w_cbl w) self); [|by destruct w].
    by rewrite (run_MO_set_atom w self _ _ m) by (first [done|by intros [?|?]]).
  - rewrite (run_MO_set_atom w self _ _ m) by (first [done|by intros [?|?]]).
    rewrite run_bind, run_gets. cbn [w_cbl set_cbl].
    destruct (model_needsSave _ self); [|done].
    by rewrite (run_MO_set_atom _ self _ _ m) by (first [done|by apply live_set|by intros [?|?]]).
Qed.

(** Timestamps: [updateTimestamps] always returns; the creation
    date is written the first time only, with the time of the clock, and never
    altered after; an object with unsaved changes gets the time of the clock as
    its update date. *)
Theorem timestamps w self m :
  live w self → w_mos w !! self = Some m →
  ∃ w', MO_updateTimestamps self w = (Ok tt, w') ∧
        created_at w' self = Some (default (w_now w) (created_at w self)) ∧
        (model_needsSave (w_cbl w) self = true → updated_at w' self = Some (w_now w)) ∧
        w_log w' = w_log w ∧ w_mos w' = w_mos w.
Proof.
  intros Hlive Hm. eexists. split; [by eapply run_updateTimestamps|].
  unfold created_at, updated_at. cbn [w_cbl set_cbl w_log w_mos].
  split_and!; [| |done|done].
  - destruct (model_get (w_cbl w) self "createdAt") as [x|] eqn:E; cbn [fmap option_fmap option_map default];
      destruct (model_needsSave _ self); rewrite ?get_set_other by congruence;
      rewrite ?get_set_number, ?E; done.
  - intros Hn. destruct (model_get (w_cbl w) self "createdAt") as [x|] eqn:E;
      [rewrite Hn|rewrite needsSave_set by done]; by rewrite get_set_number.
Qed.

(** ** Saving *)
Definition mo_static (m : MPManagedObject) : string * option cid * bool * option string :=
  (mo_class m, mo_controller m, mo_isNewObject m, mo_deletedDocumentID m).

(** Nothing an observer of the objects' life can see has changed. *)
Record stable w w' : Prop := {
  stable_log : w_log w' = w_log w;
  stable_mocs : w_mocs w' = w_mocs w;
  stable_pkgs : w_pkgs w' = w_pkgs w;
  stable_dbs : w_dbs w' = w_dbs w;
  stable_now : w_now w' = w_now w;
  stable_mos : ∀ o, mo_static <$> w_mos w' !! o = mo_static <$> w_mos w !! o
}.

#[local] Instance stable_preorder : PreOrder stable.
Proof.
  split; [by split|]. intros w1 w2 w3 H12 H23.
  split; [rewrite (stable_log _ _ H23)|rewrite (stable_mocs _ _ H23)|rewrite (stable_pkgs _ _ H23)
         |rewrite (stable_dbs _ _ H23)|rewrite (stable_now _ _ H23)|intros o; rewrite (stable_mos _ _ H23)];
    apply H12.
Qed.

Lemma stable_alter w o f :
  (∀ m, mo_static (f m) = mo_static m) → stable w (set_mos (alter f o (w_mos w)) w).
Proof.
  intros Hf. split; try done. intros o'. cbn. rewrite lookup_alter. case_decide; [|done].
  subst. destruct (w_mos w !! o') as [m|]; [|done]. cbn. by rewrite Hf.
Qed.

Lemma stable_blind : blind stable.
Proof.
  split; [apply _| | | |]; try done. intros w o f Hf. apply stable_alter.
  intros m. by destruct (Hf m) as (c & ->).
Qed.

Lemma stable_cbl w s : stable w (set_cbl s w).
Proof. done. Qed.

Lemma steps_set v self p : steps stable (MO_set self v p).
Proof.
  unfold MO_set. apply steps_bind; [apply _| |intros; apply steps_ret, _].
  by apply steps_MO_setValue; [apply stable_blind| |].
Qed.

Lemma steps_updMO_tags o t c : steps stable (updMO o (λ m, mo_with_tags (t m) c m)).
Proof. intros w. by apply stable_alter. Qed.

#[local] Hint Resolve steps_set steps_updMO_tags : steps.
#[local] Hint Extern 1 (steps _ (getMO _)) => apply steps_getMO, stable_blind : steps.
#[local] Hint Extern 1 (steps _ (getMOC _)) => apply steps_getMOC, stable_blind : steps.
#[local] Hint Extern 1 (steps _ (getPkg _)) => apply steps_getPkg, stable_blind : steps.
#[local] Hint Extern 1 (steps _ (cbl_gets _)) => apply steps_cbl_gets, stable_blind : steps.
#[local] Hint Extern 1 (steps _ (updEO _ _)) => apply steps_updEO, stable_blind : steps.
#[local] Hint Extern 1 (steps _ (assertEmbedded _)) => apply steps_assertEmbedded, stable_blind : steps.
#[local] Hint Extern 1 (steps _ (MO_getValueOfProperty _ _)) => apply steps_MO_getValue, stable_blind : steps.
#[local] Hint Extern 1 (steps _ (MO_valueForKey _ _)) => by apply steps_MO_valueForKey; [apply stable_blind|] : steps.

Lemma steps_updateTimestamps self : steps stable (MO_updateTimestamps self).
Proof. unfold MO_updateTimestamps, MO_createdAt, MO_setCreatedAt, MO_setUpdatedAt. steps_tac. Qed.
Lemma steps_cloudKitChangeTag self : steps stable (MO_cloudKitChangeTag self).
Proof. unfold MO_cloudKitChangeTag. steps_tac. Qed.
#[local] Hint Resolve steps_updateTimestamps steps_cloudKitChangeTag : steps.
Lemma steps_prepareSave self : steps stable (MO_prepareSave self).
Proof. unfold MO_prepareSave, theController. steps_tac. Qed.
Lemma steps_clearEmbedded self : steps stable (clearEmbeddedNeedsSave self).
Proof. unfold clearEmbeddedNeedsSave. steps_tac. Qed.

Lemma MO_set_ok w self v p m :
  live w self → w_mos w !! self = Some m → ¬ identity_key p → (∀ d, v ≠ Some (NSDictionary d)) →
  ∃ w', MO_set self v p w = (Ok tt, w') ∧ live w' self.
Proof.
  intros Hlive Hm Hid Hv. eexists. split; [by eapply run_MO_set_atom|by apply live_set].
Qed.

(** An object that belongs to a working controller of a working package. *)
Record registered w (self : oid) (m : MPManagedObject) (c : cid) (moc : Controller) (pkg : Package) : Prop := {
  reg_mo : w_mos w !! self = Some m;
  reg_controller : mo_controller m = Some c;
  reg_moc : w_mocs w !! c = Some moc;
  reg_db : is_Some (moc_db moc);
  reg_pkg : w_pkgs w !! moc_package moc = Some pkg;
  reg_nc : pkg_notificationCenter pkg = true;
  reg_managed : ∃ k, MOC_managedObjectClass env_rt (moc_class moc) = Ok k ∧
                     isSubclassOfClass env_rt (mo_class m) k = true
}.

Lemma registered_stable w w' self m c moc pkg :
  stable w w' → registered w self m c moc pkg →
  ∃ m', mo_static m' = mo_static m ∧ registered w' self m' c moc pkg.
Proof.
  intros Hst Hr. pose proof (stable_mos _ _ Hst self) as Hm. rewrite (reg_mo _ _ _ _ _ _ Hr) in Hm.
  destruct (w_mos w' !! self) as [m'|] eqn:E; [|done]. cbn in Hm. injection Hm as Hm Hm2 Hm3 Hm4.
  exists m'. split; [unfold mo_static; congruence|]. split.
  - done.
  - rewrite Hm2. apply Hr.
  - rewrite (stable_mocs _ _ Hst). apply Hr.
  - apply Hr.
  - rewrite (stable_pkgs _ _ Hst). apply Hr.
  - apply Hr.
  - rewrite Hm. apply Hr.
Qed.

Lemma prepareSave_ok w self m c moc pkg :
  live w self → registered w self m c moc pkg →
  ∃ w', MO_prepareSave self w = (Ok tt, w').
Proof.
  intros Hlive Hr. unfold MO_prepareSave.
  assert (∃ w1, MO_updateTimestamps self w = (Ok tt, w1) ∧ live w1 self) as (w1 & Hrun1 & Hlive1).
  { eexists. split; [apply (run_updateTimestamps w self m Hlive), Hr|].
    unfold live. cbn [w_cbl set_cbl]. destruct (model_get _ _ _), (model_needsSave _ _);
      by rewrite ?document_set, ?docIsDeleted_set. }
  rewrite run_bind, Hrun1.
  destruct (registered_stable w w1 self m c moc pkg) as (m1 & Hm1 & Hr1);
    [by eapply (steps_run stable); [apply steps_updateTimestamps|]|done|].
  rewrite run_bind. unfold getMO at 1. rewrite (reg_mo _ _ _ _ _ _ Hr1). rewrite run_bind.
  assert (∃ w2, (if env_shouldTrackSessionID (mo_class m1)
     then c ← theController self; moc ← getMOC c; p ← getPkg (moc_package moc);
          MO_set self (Some (NSString (pkg_sessionID p))) "sessionID"
     else mret ()) w1 = (Ok tt, w2) ∧ live w2 self ∧ w_mos w2 = w_mos w1) as (w2 & Hrun2 & Hlive2 & Hmos2).
  { destruct (env_shouldTrackSessionID _); [|by exists w1]. unfold theController, getMO, getMOC, getPkg.
    rewrite run_bind, run_bind, (reg_mo _ _ _ _ _ _ Hr1), (reg_controller _ _ _ _ _ _ Hr1), run_ret.
    rewrite run_bind, (reg_moc _ _ _ _ _ _ Hr1), run_bind, (reg_pkg _ _ _ _ _ _ Hr1).
    eexists. split; [eapply run_MO_set_atom; [done|apply Hr1|by intros [?|?]|done]|].
    split; [by apply live_set|done]. }
  rewrite Hrun2. rewrite run_bind. unfold MO_cloudKitChangeTag. rewrite run_bind. unfold getMO.
  rewrite Hmos2, (reg_mo _ _ _ _ _ _ Hr1), run_bind.
  assert (∀ (w3 : World S) (t : value), live w3 self → is_Some (w_mos w3 !! self) → ∃ w',
     (currentChangeTag ← mret (if isEqual t NSNull then Some t else None);
      savedChangeTag ← MO_getValueOfProperty self "cloudKitChangeTag";
      if bool_decide (is_Some currentChangeTag) && bool_decide (is_Some savedChangeTag)
      then MO_set self currentChangeTag "cloudKitChangeTag" else mret ()) w3 = (Ok tt, w')) as Htag.
  { intros w3 t Hl3 [m3 Hm3]. rewrite run_bind, run_ret, run_bind. unfold MO_getValueOfProperty, cbl_gets.
    rewrite run_gets. destruct (_ && _); [|by exists w3].
    eexists. eapply run_MO_set_atom; [done|done|by intros [?|?]|]. intros d.
    destruct (isEqual t NSNull) eqn:E; [|done]. by destruct t. }
  destruct (mo_cachedCloudKitChangeTag m1) as [t|].
  - rewrite run_ret. apply Htag; [done|]. rewrite Hmos2, (reg_mo _ _ _ _ _ _ Hr1). eauto.
  - unfold MO_getValueOfProperty at 1, cbl_gets. rewrite run_bind, run_gets, run_bind. unfold updMO.
    rewrite run_modify, run_ret. apply Htag; [done|]. cbn. rewrite lookup_alter, decide_True by done.
    rewrite Hmos2, (reg_mo _ _ _ _ _ _ Hr1). eauto.
Qed.

(** The two notifications of a change and the count of the delegate. *)
Definition announced (n1 n2 : string) (self : oid) (src : option MPManagedObjectChangeSource) (pkg : Package)
    : list event :=
  ([Posted n1 self src; Posted n2 self src] ++ (if pkg_delegateCounts pkg then [UpdateChangeCount] else []))%list.

Lemma run_announce w self m c moc pkg t n1 n2 src :
  registered w self m c moc pkg →
  notificationNameForRecentChange env_rt t (mo_class m) = Ok n1 →
  notificationNameForPastChange env_rt t (mo_class m) = Ok n2 →
  (_ ← postChange t self src; updateDelegate c) w =
  (Ok tt, set_log (w_log w ++ announced n1 n2 self src pkg)%list w).
Proof.
  intros Hr H1 H2. rewrite run_bind. unfold postChange. rewrite run_bind. unfold getMO.
  rewrite (reg_mo _ _ _ _ _ _ Hr), run_bind. unfold lift. rewrite H1, run_bind, H2, run_bind.
  unfold post. rewrite !run_modify. cbn [w_log set_log]. unfold updateDelegate. rewrite run_bind.
  unfold getMOC. cbn [w_mocs set_log]. rewrite (reg_moc _ _ _ _ _ _ Hr), run_bind. unfold getPkg.
  cbn [w_pkgs set_log]. rewrite (reg_pkg _ _ _ _ _ _ Hr). unfold announced.
  destruct (pkg_delegateCounts pkg).
  - unfold post. rewrite run_modify. f_equal. unfold set_log. cbn [w_log w_cbl w_mos w_eos w_mocs w_pkgs w_shoebox
      w_registry w_dbs w_now w_uuids w_nextOid]. by rewrite <- !app_assoc.
  - rewrite run_ret. f_equal. unfold set_log. cbn [w_log w_cbl w_mos w_eos w_mocs w_pkgs w_shoebox
      w_registry w_dbs w_now w_uuids w_nextOid]. by rewrite <- !app_assoc.
Qed.

Lemma run_assertController w self m c moc pkg :
  registered w self m c moc pkg → assertController c self w = (Ok tt, w).
Proof.
  intros Hr. unfold assertController, getMO. rewrite run_bind, (reg_mo _ _ _ _ _ _ Hr).
  by rewrite run_NSAssert, bool_decide_eq_true_2 by apply Hr.
Qed.

Lemma run_assertDb w self m c moc pkg :
  registered w self m c moc pkg → assertDb c w = (Ok tt, w).
Proof.
  intros Hr. unfold assertDb, getMOC. rewrite run_bind, (reg_moc _ _ _ _ _ _ Hr).
  by rewrite run_NSAssert, bool_decide_eq_true_2 by apply Hr.
Qed.

Lemma run_assertManaged w self m c moc pkg :
  registered w self m c moc pkg → assertManaged c self w = (Ok tt, w).
Proof.
  intros Hr. unfold assertManaged, getMO. rewrite run_bind, (reg_mo _ _ _ _ _ _ Hr).
  unfold MOC_class, getMOC. rewrite run_bind, run_bind, (reg_moc _ _ _ _ _ _ Hr).
  destruct (reg_managed _ _ _ _ _ _ Hr) as (k & Hk & Hsub). unfold lift. rewrite Hk.
  by rewrite run_NSAssert, Hsub.
Qed.

Lemma run_nc w self m c moc pkg :
  registered w self m c moc pkg → notificationCenter c w = (Ok true, w).
Proof.
  intros Hr. rewrite (run_notificationCenter w c moc pkg); [by rewrite (reg_nc _ _ _ _ _ _ Hr)| |]; apply Hr.
Qed.

(** The kind of change a save announces, and the source it names. *)
Definition save_change (isNew : bool) : MPChangeType := if isNew then MPChangeTypeAdd else MPChangeTypeUpdate.
Definition save_source (isNew : bool) : option MPManagedObjectChangeSource :=
  if isNew then Some MPManagedObjectChangeSourceInternal else None.

Lemma registered_isNew w self m c moc pkg b :
  registered w self m c moc pkg →
  registered (set_mos (alter (mo_with_isNew b) self (w_mos w)) w) self (mo_with_isNew b m) c moc pkg.
Proof.
  intros Hr. split; try apply Hr. cbn. by rewrite lookup_alter, decide_True, (reg_mo _ _ _ _ _ _ Hr).
Qed.

Lemma run_saveCompleted w self m c moc pkg n1 n2 :
  registered w self m c moc pkg →
  notificationNameForRecentChange env_rt (save_change (mo_isNewObject m)) (mo_class m) = Ok n1 →
  notificationNameForPastChange env_rt (save_change (mo_isNewObject m)) (mo_class m) = Ok n2 →
  ∃ w', MO_saveCompleted self w = (Ok tt, w') ∧
        w_log w' = (w_log w ++ announced n1 n2 self (save_source (mo_isNewObject m)) pkg)%list ∧
        w_cbl w' = w_cbl w ∧
        mo_isNewObject <$> w_mos w' !! self = Some false.
Proof.
  intros Hr H1 H2. unfold MO_saveCompleted, theController, getMO.
  rewrite run_bind, run_bind, (reg_mo _ _ _ _ _ _ Hr), (reg_controller _ _ _ _ _ _ Hr), run_ret.
  rewrite run_bind, (reg_mo _ _ _ _ _ _ Hr). destruct (mo_isNewObject m) eqn:En.
  - rewrite run_bind. unfold updMO. rewrite run_modify. pose proof (registered_isNew _ _ _ _ _ _ false Hr) as Hr'.
    unfold MOC_didSaveObject. rewrite run_bind, (run_assertController _ _ _ _ _ _ Hr').
    rewrite run_bind, (run_assertDb _ _ _ _ _ _ Hr'), run_bind, (run_nc _ _ _ _ _ _ Hr').
    rewrite run_bind, run_NSAssert. rewrite (run_announce _ _ _ _ _ _ _ n1 n2 _ Hr') by done.
    eexists. split; [reflexivity|]. cbn. split_and!; [done|done|].
    by rewrite lookup_alter, decide_True, (reg_mo _ _ _ _ _ _ Hr).
  - unfold MOC_didUpdateObject. rewrite run_bind, (run_assertController _ _ _ _ _ _ Hr).
    rewrite run_bind, (run_assertManaged _ _ _ _ _ _ Hr).
    rewrite run_bind, (run_assertDb _ _ _ _ _ _ Hr), run_bind, (run_nc _ _ _ _ _ _ Hr).
    rewrite run_bind, run_NSAssert. rewrite (run_announce _ _ _ _ _ _ _ n1 n2 _ Hr) by done.
    eexists. split; [reflexivity|]. cbn. split_and!; [done|done|].
    by rewrite (reg_mo _ _ _ _ _ _ Hr), <- En.
Qed.

(** Reading the embedded objects of a saved object leaves it as clean as it is. *)
Definition as_clean w w' : Prop :=
  ∀ o, model_needsSave (w_cbl w') o = model_needsSave (w_cbl w) o ∧
       model_hasChanges (w_cbl w') o = model_hasChanges (w_cbl w) o.

Lemma as_clean_blind : blind as_clean.
Proof.
  split; [split|done..]; [by intros w|]. intros w1 w2 w3 H12 H23 o.
  by rewrite (proj1 (H23 o)), (proj2 (H23 o)).
Qed.

Lemma steps_clearEmbedded_clean self : steps as_clean (clearEmbeddedNeedsSave self).
Proof.
  pose proof as_clean_blind as HR. pose proof (blind_pre _ HR). unfold clearEmbeddedNeedsSave.
  apply steps_bind; [done|by apply steps_getMO|]. intros m. apply steps_for_each; [done|]. intros k.
  apply steps_bind; [done| |].
  { apply steps_MO_valueForKey; [done|]. intros w v o. cbn. by rewrite needsSave_cache, hasChanges_cache. }
  intros v. apply steps_bind; [done|by apply steps_assertEmbedded|]. intros [e|]; [by apply steps_updEO|by apply steps_ret].
Qed.

(** What comes before the model is written. *)
Lemma run_saveBegun w self m c moc pkg :
  live w self → registered w self m c moc pkg →
  model_hasModelObject (w_cbl w) self = true → MO_isClean self w = (Ok false, w) →
  ∃ w1, MO_prepareSave self w = (Ok tt, w1) ∧ stable w w1 ∧
    MO_save_error self w =
      (success ← cbl_run (λ s, model_save s self);
       if succeeded success then
         _ ← clearEmbeddedNeedsSave self;
         _ ← MO_saveCompleted self;
         mret success
       else mret success) w1.
Proof.
  intros Hlive Hr Hmodel Hdirty. destruct (prepareSave_ok w self m c moc pkg Hlive Hr) as (w1 & Hp).
  exists w1. split; [done|]. split; [exact (steps_run stable _ _ _ _ (steps_prepareSave self) Hp)|].
  unfold MO_save_error. rewrite run_bind, Hdirty.
  unfold theController at 1, getMO. rewrite run_bind, run_bind, (reg_mo _ _ _ _ _ _ Hr).
  rewrite (reg_controller _ _ _ _ _ _ Hr), run_ret, run_bind. unfold cbl_gets at 1. rewrite run_gets.
  rewrite run_bind, run_NSAssert, bool_decide_eq_true_2 by apply Hlive.
  rewrite run_bind. unfold MOC_willSaveObject.
  rewrite run_bind, (run_assertController _ _ _ _ _ _ Hr), (run_assertDb _ _ _ _ _ _ Hr).
  rewrite run_bind. unfold cbl_gets at 1. rewrite run_gets, Hmodel, run_bind, run_NSAssert.
  by rewrite run_bind, Hp.
Qed.

(** C1 (functional). Take an object with changes that is alive, is its document's model, and
    belongs to a controller of an open package that has names for the changes of its class.
    Saving it sets its timestamps and returns the verdict of the database on the model as it
    is then.  When the database refuses, the result is the error it gave, nothing is
    posted, and the object stays as new as it was.  When it accepts, the objects embedded
    in the object's properties are told that they are saved; then exactly the two
    notifications of the change are posted - an addition for an object never saved before,
    an update otherwise -, the delegate is told once, the object is no longer new, and the
    model is clean.  Telling the embedded objects can raise, when a property that is
    declared to hold one cannot be read as one: then the database has accepted, the
    exception is the result, and nothing is posted.  It cannot when the class declares no
    such property. *)
Theorem save_announces_once w self m c moc pkg n1 n2 :
  live w self → registered w self m c moc pkg →
  model_hasModelObject (w_cbl w) self = true →
  MO_isClean self w = (Ok false, w) →
  notificationNameForRecentChange env_rt (save_change (mo_isNewObject m)) (mo_class m) = Ok n1 →
  notificationNameForPastChange env_rt (save_change (mo_isNewObject m)) (mo_class m) = Ok n2 →
  ∃ w1, MO_prepareSave self w = (Ok tt, w1) ∧ w_log w1 = w_log w ∧
    match model_save (w_cbl w1) self with
    | (NO err, s') =>
        MO_save_error self w = (Ok (NO err), set_cbl s' w1) ∧
        mo_isNewObject <$> w_mos w1 !! self = Some (mo_isNewObject m)
    | (YES, s') =>
        match clearEmbeddedNeedsSave self (set_cbl s' w1) with
        | (Ok _, w2) =>
            w_log w2 = w_log w ∧
            ∃ w', MO_save_error self w = (Ok YES, w') ∧
              w_log w' = (w_log w ++ announced n1 n2 self (save_source (mo_isNewObject m)) pkg)%list ∧
              mo_isNewObject <$> w_mos w' !! self = Some false ∧
              MO_isClean self w' = (Ok true, w')
        | (Throw e, w2) =>
            MO_save_error self w = (Throw e, w2) ∧ w_log w2 = w_log w ∧
            embeddedProperties env_rt (mo_class m) ≠ ∅
        end
    end.
Proof.
  intros Hlive Hr Hmodel Hdirty H1 H2.
  destruct (run_saveBegun w self m c moc pkg Hlive Hr Hmodel Hdirty) as (w1 & Hp & Hst & Hsave).
  exists w1. split; [done|]. split; [exact (stable_log _ _ Hst)|]. rewrite Hsave, run_bind. unfold cbl_run.
  destruct (model_save (w_cbl w1) self) as [o s'] eqn:Es.
  assert (stable w (set_cbl s' w1)) as Hst' by (etrans; [exact Hst|apply stable_cbl]).
  destruct (registered_stable _ _ _ _ _ _ _ Hst' Hr) as (m2 & Hm2 & Hr2).
  injection Hm2 as Hcls _ Hnew _.
  destruct o as [|err]; cbn [succeeded].
  2:{ split; [done|]. pose proof (reg_mo _ _ _ _ _ _ Hr2) as Hm2. cbn in Hm2. rewrite Hm2. cbn. by rewrite Hnew. }
  rewrite run_bind. destruct (clearEmbeddedNeedsSave self (set_cbl s' w1)) as [[[]|e] w2] eqn:Eclear.
  - pose proof (steps_run stable _ _ _ _ (steps_clearEmbedded self) Eclear) as Hst2.
    assert (w_log w2 = w_log w) as Hlog2 by (rewrite (stable_log _ _ Hst2); exact (stable_log _ _ Hst)).
    destruct (registered_stable _ _ _ _ _ _ _ Hst2 Hr2) as (m3 & Hm3 & Hr3). injection Hm3 as Hcls3 _ Hnew3 _.
    rewrite <- Hnew, <- Hnew3 in *. rewrite <- Hcls, <- Hcls3 in H1, H2.
    destruct (run_saveCompleted _ _ _ _ _ _ _ _ Hr3 H1 H2) as (w' & Hrun & Hlog & Hcbl & Hn).
    split; [done|]. exists w'. split; [by rewrite run_bind, Hrun|]. split_and!; [|done|].
    + by rewrite Hlog, Hlog2.
    + unfold MO_isClean, cbl_gets. rewrite run_gets, Hcbl.
      destruct (steps_clearEmbedded_clean self (set_cbl s' w1) self) as [H3 H4]. rewrite Eclear in H3, H4. cbn in H3, H4.
      rewrite H3, H4. by destruct (needsSave_save _ _ _ Es) as [-> ->].
  - split; [done|]. pose proof (steps_clearEmbedded self (set_cbl s' w1)) as Hst2. rewrite Eclear in Hst2. cbn in Hst2.
    split; [rewrite (stable_log _ _ Hst2); exact (stable_log _ _ Hst)|]. intros Hemb. revert Eclear.
    unfold clearEmbeddedNeedsSave, getMO. rewrite run_bind, (reg_mo _ _ _ _ _ _ Hr2), Hcls, Hemb, elements_empty. done.
Qed.

(** Saving a clean object does nothing at all. *)
Theorem save_clean w self : MO_isClean self w = (Ok true, w) → MO_save self w = (Ok true, w).
Proof. intros Hc. unfold MO_save, MO_save_error. by rewrite run_bind, run_bind, Hc. Qed.

(** ** Deletion *)
Lemma run_clearCachedValues w self m :
  w_mos w !! self = Some m →
  ∃ w', MO_clearCachedValues self w = (Ok tt, w') ∧ stable w w' ∧ w_cbl w' = w_cbl w.
Proof.
  intros Hm. unfold MO_clearCachedValues, getMO. rewrite run_bind, Hm.
  destruct (bool_decide _); [|by exists w]. eexists. split; [reflexivity|]. split; [|done].
  by apply stable_alter.
Qed.

Lemma registered_deletedID w self m c moc pkg d :
  registered w self m c moc pkg →
  registered (set_mos (alter (mo_with_deletedID d) self (w_mos w)) w) self (mo_with_deletedID d m) c moc pkg.
Proof.
  intros Hr. split; try apply Hr. cbn. by rewrite lookup_alter, decide_True, (reg_mo _ _ _ _ _ _ Hr).
Qed.

Lemma run_didDelete w self m c moc pkg n1 n2 :
  registered w self m c moc pkg →
  notificationNameForRecentChange env_rt MPChangeTypeRemove (mo_class m) = Ok n1 →
  notificationNameForPastChange env_rt MPChangeTypeRemove (mo_class m) = Ok n2 →
  MOC_didDeleteObject c self w = (Ok tt, set_log (w_log w ++ announced n1 n2 self None pkg)%list w).
Proof.
  intros Hr H1 H2. unfold MOC_didDeleteObject. rewrite run_bind, (run_assertController _ _ _ _ _ _ Hr).
  rewrite run_bind, (run_assertManaged _ _ _ _ _ _ Hr).
  rewrite run_bind, (run_assertDb _ _ _ _ _ _ Hr), run_bind, (run_nc _ _ _ _ _ _ Hr).
  rewrite run_bind, run_NSAssert. by rewrite (run_announce _ _ _ _ _ _ _ n1 n2 _ Hr).
Qed.

(** Deleting a stored object returns the verdict of the database.
    On success its removal is announced exactly once, the object answers that it
    is deleted, still knows the identifier it had, ignores writes from then on -
    and stays in the cache of its controller, since nothing deregisters it.  On
    failure nothing is posted and the document is still there. *)
Theorem delete_keeps_identifier w self m c moc pkg n1 n2 d rev :
  registered w self m c moc pkg →
  model_document (w_cbl w) self = Some d →
  model_revision (w_cbl w) self = Some rev →
  notificationNameForRecentChange env_rt MPChangeTypeRemove (mo_class m) = Ok n1 →
  notificationNameForPastChange env_rt MPChangeTypeRemove (mo_class m) = Ok n2 →
  ∃ r w', MO_deleteDocument_error self w = (Ok r, w') ∧ w_mocs w' = w_mocs w ∧
    match r with
    | YES => w_log w' = (w_log w ++ announced n1 n2 self None pkg)%list ∧
             MO_isDeleted self w' = (Ok true, w') ∧ MO_documentID self w' = (Ok d, w') ∧
             ∀ v p, MO_setValue_ofProperty self v p w' = (Ok true, w')
    | NO _ => w_log w' = w_log w ∧ model_document (w_cbl w') self = Some d
    end.
Proof.
  intros Hr Hd Hrev H1 H2. unfold MO_deleteDocument_error, cbl_gets. rewrite run_bind, run_gets, Hrev, run_bind.
  unfold MO_deleteDocument_, theController, getMO. rewrite run_bind, run_bind, (reg_mo _ _ _ _ _ _ Hr).
  rewrite (reg_controller _ _ _ _ _ _ Hr), run_ret, run_bind. unfold cbl_gets. rewrite run_gets, Hd.
  rewrite run_bind, run_NSAssert, bool_decide_eq_true_2 by eauto. rewrite run_bind. unfold cbl_run.
  destruct (model_delete (w_cbl w) self) as [[|err] s'] eqn:Edel; cbn [succeeded].
  - rewrite run_bind. unfold updMO at 1. rewrite run_modify.
    destruct (registered_stable w (set_cbl s' w) self m c moc pkg (stable_cbl _ _) Hr) as (m1 & Hm1 & Hr1).
    injection Hm1 as Hcls _ _ _. rewrite <- Hcls in H1, H2.
    pose proof (registered_deletedID _ _ _ _ _ _ (Some d) Hr1) as Hr2.
    rewrite run_bind, (run_didDelete _ _ _ _ _ _ n1 n2 Hr2) by done. rewrite run_ret, run_bind.
    set (w2 := set_log _ _).
    assert (w_mos w2 !! self = Some (mo_with_deletedID (Some d) m1)) as Hm2 by exact (reg_mo _ _ _ _ _ _ Hr2).
    destruct (run_clearCachedValues w2 self _ Hm2) as (w' & Hc & Hst & Hcbl). rewrite Hc, run_ret.
    pose proof (document_delete _ _ _ Edel) as Hgone.
    assert (model_document (w_cbl w') self = None) as Hgone' by by rewrite Hcbl.
    exists YES, w'. split_and!; [done|exact (stable_mocs _ _ Hst)|exact (stable_log _ _ Hst)| | |].
    + unfold MO_isDeleted, cbl_gets. rewrite run_gets, Hgone'. done.
    + unfold MO_documentID, cbl_gets. rewrite run_bind, run_gets, Hgone', run_bind. unfold getMO.
      pose proof (stable_mos _ _ Hst self) as Hs. rewrite Hm2 in Hs.
      destruct (w_mos w' !! self) as [m'|]; [|done]. cbn in Hs. injection Hs as _ _ _ ->. done.
    + intros v p. unfold MO_setValue_ofProperty, MO_isDeleted, cbl_gets.
      rewrite run_bind, run_gets, Hgone'. done.
  - rewrite run_ret, run_bind.
    destruct (run_clearCachedValues (set_cbl s' w) self m) as (w' & Hc & Hst & Hcbl); [apply Hr|].
    rewrite Hc, run_ret. exists (NO err), w'.
    split_and!; [done|exact (stable_mocs _ _ Hst)|exact (stable_log _ _ Hst)|].
    rewrite Hcbl. cbn. by rewrite (document_delete_fail _ _ _ _ Edel).
Qed.

(** ** Creation *)

(** What a class and its controller must satisfy for an object to be created. *)
Record creatable w (cls : string) (c : cid) (moc : Controller) (db managed : string) : Prop := {
  cr_concrete : isConcrete env_rt cls = true;
  cr_notRoot : cls ≠ MPManagedObject_class;
  cr_moc : w_mocs w !! c = Some moc;
  cr_db : moc_db moc = Some db;
  cr_managed : MOC_managedObjectClass env_rt (moc_class moc) = Ok managed;
  cr_sub : isSubclassOfClass env_rt cls managed = true
}.

Lemma run_registerObject w self m c moc managed d :
  w_mos w !! self = Some m → w_mocs w !! c = Some moc →
  MOC_managedObjectClass env_rt (moc_class moc) = Ok managed →
  isSubclassOfClass env_rt (mo_class m) managed = true →
  model_document (w_cbl w) self = Some d →
  MOC_registerObject c self w =
  (Ok tt, set_mocs (alter (λ c', moc_with_cache (<[d := self]> (moc_objectCache c')) c') c (w_mocs w)) w).
Proof.
  intros Hm Hc Hk Hs Hd. unfold MOC_registerObject, assertManaged, MOC_class, getMO, getMOC.
  rewrite run_bind, run_bind, Hm, run_bind, run_bind, Hc. unfold lift. rewrite Hk, run_NSAssert, Hs.
  unfold cbl_gets. by rewrite run_bind, run_gets, Hd.
Qed.

Lemma run_setObjectType w self m cls :
  live w self → w_mos w !! self = Some m → model_get (w_cbl w) self "objectType" = None →
  MO_setValue_ofProperty self (Some (NSString cls)) "objectType" w =
  (Ok true, set_cbl (model_set (w_cbl w) self "objectType" (Some (NSString cls))) w).
Proof.
  intros Hlive Hm Hnone. unfold MO_setValue_ofProperty. rewrite run_bind, run_isDeleted by done.
  cbn [String.eqb Ascii.eqb Bool.eqb]. rewrite run_bind. unfold writeOnce.
  rewrite run_bind, run_NSAssert, bool_decide_eq_true_2 by eauto. unfold MO_getValueOfProperty, cbl_gets.
  rewrite run_bind, run_gets, Hnone, run_ret, run_bind, run_ret, run_bind, run_gets.
  destruct Hlive as [[d Hd] _]. rewrite Hd, run_bind, run_NSAssert, bool_decide_eq_true_2 by eauto.
  rewrite run_bind. unfold replacedEmbedded, getMO. by rewrite run_bind, Hm.
Qed.

Lemma run_idForNewDocument w self m cls :
  w_mos w !! self = Some m → mo_class m = cls → mo_newDocumentID m = None → cls ≠ MPManagedObject_class →
  MO_idForNewDocumentInDatabase self w =
  (Ok (cls ++ ":" ++ env_uuid (w_uuids w)), set_uuids (1 + w_uuids w) w).
Proof.
  intros Hm <- Hid Hne. unfold MO_idForNewDocumentInDatabase, getMO. rewrite run_bind, Hm, Hid.
  destruct (String.eqb_spec (mo_class m) MPManagedObject_class); done.
Qed.

(** The controller's record after an object has been registered with it. *)
Definition with_registered (d : string) (self : oid) (moc : Controller) : Controller :=
  moc_with_cache (<[d := self]> (moc_objectCache moc)) moc.

Lemma run_didInitialize_eq w self m c moc managed d :
  w_mos w !! self = Some m → mo_embeddedObjectCache m = None → mo_controller m = Some c →
  w_mocs w !! c = Some moc → MOC_managedObjectClass env_rt (moc_class moc) = Ok managed →
  isSubclassOfClass env_rt (mo_class m) managed = true → model_document (w_cbl w) self = Some d →
  MO_didInitialize self w
  = (Ok tt, set_mocs (<[c := with_registered d self moc]> (w_mocs w))
              (set_mos (<[self := mo_with_cache (Some ∅) m]> (w_mos w)) w)).
Proof.
  intros Hm He Hmc Hc Hk Hs Hd. unfold MO_didInitialize. rewrite run_bind. unfold updMO. rewrite run_modify.
  set (w1 := set_mos _ _).
  assert (w1 = set_mos (<[self := mo_with_cache (Some ∅) m]> (w_mos w)) w) as E1.
  { unfold w1. f_equal. apply map_eq. intros o. rewrite lookup_alter, lookup_insert.
    case_decide; [subst|done]. rewrite Hm. cbn. by rewrite He. }
  assert (w_mos w1 !! self = Some (mo_with_cache (Some ∅) m)) as Hm1 by (rewrite E1; apply lookup_insert_eq).
  rewrite run_bind. unfold theController, getMO. rewrite run_bind, Hm1. cbn [mo_controller mo_with_cache].
  rewrite Hmc, run_ret, run_bind. unfold cbl_gets at 1. rewrite run_gets. cbn [w_cbl set_mos w1]. rewrite Hd.
  rewrite (run_registerObject w1 self _ c moc managed d Hm1 Hc Hk Hs Hd). f_equal. rewrite E1. f_equal.
  apply map_eq. intros o. cbn [w_mocs set_mos]. rewrite lookup_alter, lookup_insert.
  case_decide; [subst|done]. by rewrite Hc.
Qed.

Lemma run_didInitialize w self m c moc managed d :
  w_mos w !! self = Some m → mo_embeddedObjectCache m = None → mo_controller m = Some c →
  w_mocs w !! c = Some moc → MOC_managedObjectClass env_rt (moc_class moc) = Ok managed →
  isSubclassOfClass env_rt (mo_class m) managed = true → model_document (w_cbl w) self = Some d →
  ∃ w', MO_didInitialize self w = (Ok tt, w') ∧ w_cbl w' = w_cbl w ∧
        w_mos w' !! self = Some (mo_with_cache (Some ∅) m) ∧
        w_mocs w' !! c = Some (with_registered d self moc).
Proof.
  intros. eexists. split; [by eapply run_didInitialize_eq|]. split_and!; [done|apply lookup_insert_eq..].
Qed.

(** The last step of the initialiser: registration, then the properties. *)
Lemma run_initProperties w self m c moc managed d cls :
  w_mos w !! self = Some m → mo_class m = cls → w_mocs w !! c = Some moc →
  MOC_managedObjectClass env_rt (moc_class moc) = Ok managed → isSubclassOfClass env_rt cls managed = true →
  model_document (w_cbl w) self = Some d → live w self → model_get (w_cbl w) self "objectType" = None →
  ∃ w', (_ ← MOC_registerObject c self;
         _ ← MO_setValuesForPropertiesWithDictionary self [("objectType", NSString cls)];
         doc' ← cbl_gets (λ s, model_document s self);
         _ ← mret tt;
         mret self) w = (Ok self, w') ∧
    w_mos w' = w_mos w ∧ w_mocs w' !! c = Some (with_registered d self moc) ∧
    w_cbl w' = model_set (w_cbl w) self "objectType" (Some (NSString cls)).
Proof.
  intros Hm Hcls Hc Hk Hs Hd Hl Hn. subst cls.
  rewrite run_bind, (run_registerObject w self m c moc managed d Hm Hc Hk Hs Hd).
  set (w1 := set_mocs _ _). rewrite run_bind. unfold MO_setValuesForPropertiesWithDictionary.
  cbn [for_each fst snd]. rewrite run_bind, run_bind. rewrite (run_setObjectType w1 self m (mo_class m) Hl Hm Hn).
  rewrite run_ret, run_ret, run_bind. unfold cbl_gets. rewrite run_gets, run_bind, run_ret, run_ret.
  eexists. split; [reflexivity|]. split_and!; [done| |done].
  cbn [w_mocs set_cbl set_mocs w1]. by rewrite lookup_alter, decide_True, Hc.
Qed.

(** What creating an object does: the object, its document with its type, its registration. *)
Lemma run_newObject w cls c moc db managed :
  creatable w cls c moc db managed →
  let self := w_nextOid w in
  let d := cls ++ ":" ++ env_uuid (w_uuids w) in
  ∃ w' m', MO_initWithNewDocumentForController cls (Some c) None None w = (Ok self, w') ∧
    w_mos w' !! self = Some m' ∧ mo_class m' = cls ∧ mo_controller m' = Some c ∧ mo_isNewObject m' = true ∧
    w_mocs w' !! c = Some (with_registered d self (with_registered d self moc)) ∧
    w_cbl w' = model_set (model_init (w_cbl w) self db d) self "objectType" (Some (NSString cls)).
Proof.
  intros [Hcon Hroot Hmoc Hdb Hman Hsub] self d.
  unfold MO_initWithNewDocumentForController. rewrite Hcon. cbn [negb].
  rewrite run_bind. unfold getMOC. rewrite Hmoc, Hdb.
  rewrite run_bind. unfold alloc. fold self. rewrite run_bind, run_modify, run_bind.
  set (m0 := mkMO cls (Some c) None None None false None None). set (w1 := set_mos _ _).
  assert (w_mos w1 !! self = Some m0) as Hm0 by (subst w1; cbn; apply lookup_insert_eq).
  rewrite (run_idForNewDocument w1 self m0 cls) by done. fold d. rewrite run_bind. unfold cbl at 1.
  rewrite run_modify, run_bind. set (w2 := set_cbl _ _).
  assert (model_document (w_cbl w2) self = Some d) as Hd2 by (subst w2; cbn; apply document_init).
  unfold cbl_gets at 1. rewrite run_gets, Hd2, run_bind, run_NSAssert, bool_decide_eq_true_2 by eauto.
  destruct (run_didInitialize w2 self m0 c moc managed d) as (w3 & Hrun3 & Hcbl3 & Hm3 & Hc3); try done.
  rewrite run_bind, Hrun3, run_bind. unfold updMO. rewrite run_modify. set (w4 := set_mos _ w3).
  set (m2 := mo_with_isNew true (mo_with_cache (Some ∅) m0)).
  assert (w_mos w4 !! self = Some m2) as Hm4 by (subst w4; cbn; by rewrite lookup_alter, decide_True, Hm3).
  assert (live w4 self ∧ model_get (w_cbl w4) self "objectType" = None) as [Hl4 Hg4].
  { subst w4. unfold live. cbn. rewrite Hcbl3. cbn. rewrite document_init, docIsDeleted_init, get_init. eauto. }
  cbn [mbind option_bind]. rewrite run_bind, run_ret, run_bind. unfold MOC_class, getMOC.
  rewrite run_bind. cbn [w_mocs set_mos w4]. rewrite Hc3. unfold lift. cbn [moc_class with_registered moc_with_cache].
  rewrite Hman, run_bind, run_NSAssert, Hsub, orb_true_r, run_bind, run_ret.
  destruct (run_initProperties w4 self m2 c (with_registered d self moc) managed d cls)
    as (w5 & Hrun5 & Hm5 & Hc5 & Hcbl5); try done.
  { subst w4. cbn. by rewrite Hcbl3. }
  exists w5, m2. split_and!; try done; [by rewrite Hm5|]. rewrite Hcbl5. subst w4. cbn. by rewrite Hcbl3.
Qed.

(** C38 (functional). A new object: creating an object of a concrete class other than that of managed
    objects itself, by a controller that has a database and manages the class, with neither an identifier nor
    properties given, succeeds; the object is allocated, of that class, has that controller and is marked new, its
    identifier is the class name, a colon and the next UUID, its [objectType] is its class, and the
    controller finds it under that identifier. *)
Theorem new_object_is_registered w cls c moc db managed :
  creatable w cls c moc db managed →
  ∃ w' m' moc', MO_initWithNewDocumentForController cls (Some c) None None w = (Ok (w_nextOid w), w') ∧
    w_mos w' !! w_nextOid w = Some m' ∧ mo_class m' = cls ∧ mo_controller m' = Some c ∧
    mo_isNewObject m' = true ∧
    model_document (w_cbl w') (w_nextOid w) = Some (cls ++ ":" ++ env_uuid (w_uuids w)) ∧
    (∃ v, model_get (w_cbl w') (w_nextOid w) "objectType" = Some v ∧
          (v = NSString cls ∨ isEqual v (NSString cls) = true)) ∧
    w_mocs w' !! c = Some moc' ∧
    moc_objectCache moc' !! (cls ++ ":" ++ env_uuid (w_uuids w)) = Some (w_nextOid w).
Proof.
  intros Hcr. destruct (run_newObject w cls c moc db managed Hcr) as (w' & m' & Hrun & Hm & Hcls & Hc & Hnew & Hmoc & Hcbl).
  eexists w', m', _. split_and!; try done.
  - by rewrite Hcbl, document_set, document_init.
  - rewrite Hcbl. pose proof (get_set_same (model_init (w_cbl w) (w_nextOid w) db (cls ++ ":" ++ env_uuid (w_uuids w)))
      (w_nextOid w) "objectType" (NSString cls)) as Hg.
    destruct (model_get (model_set _ _ _ _) _ "objectType") as [y|]; [by exists y|done].
  - cbn. by rewrite lookup_insert_eq.
Qed.
End theorems.

(** ** The theorems at work on the reference store *)
#[local] Existing Instances Reference.store_CBL Reference.store_laws Reference.env Reference.factory.

Lemma identity_is_write_once_witness :
  model_get (w_cbl (MO_setValuesForPropertiesWithDictionary Reference.section_
               [("title", NSString "A"); ("objectType", NSString "MPNote")]%string Reference.world0).2)
    Reference.section_ "objectType" = Some (NSString "MPSection").
Proof. apply identity_is_write_once; [by left|reflexivity]. Defined.

Lemma section_live : live Reference.world0 Reference.section_.
Proof. split; [by eexists|reflexivity]. Defined.

Lemma setValue_getValue_witness :
  ∃ w', MO_setValue_ofProperty Reference.section_ (Some (NSNumber 3)) "priority" Reference.world0 = (Ok true, w') ∧
        w_log w' = [].
Proof.
  destruct (setValue_getValue Reference.world0 Reference.section_ (Some (NSNumber 3)) "priority" section_live)
    as (w' & Hrun & _ & _ & Hlog); [|by intros [?|?]|by exists w'].
  eexists. split; [reflexivity|]. by right; left.
Defined.

Lemma section_can_post : can_post Reference.world0 Reference.section_.
Proof. eexists _, _, _, _. repeat (split; [reflexivity|]). reflexivity. Defined.

Lemma sharing_is_monotone_witness :
  shared_in Reference.world0 Reference.section_ = false ∧
  ∃ w', MO_setShared Reference.section_ true Reference.world0 = (Ok tt, w') ∧
        w_log w' = [Posted sharedNotification Reference.section_ None].
Proof.
  split; [reflexivity|].
  destruct (proj2 (proj2 (sharing_is_monotone Reference.world0 Reference.section_ section_live section_can_post))
    eq_refl) as (w' & Hrun & _ & Hlog & _). by exists w'.
Defined.

Lemma timestamps_witness :
  ∃ w', MO_updateTimestamps Reference.section_ Reference.world0 = (Ok tt, w') ∧
        created_at w' Reference.section_ = Some 100%Z.
Proof.
  destruct (timestamps Reference.world0 Reference.section_ _ section_live eq_refl) as (w' & Hrun & Hc & _).
  by exists w'.
Defined.

Lemma note_live : live Reference.world0 Reference.note.
Proof. split; [by eexists|reflexivity]. Defined.

Lemma note_registered : ∃ m moc pkg,
  registered Reference.world0 Reference.note m Reference.notes moc pkg ∧
  mo_class m = "MPNote"%string ∧ mo_isNewObject m = true ∧ pkg_delegateCounts pkg = true.
Proof.
  eexists _, _, _. split; [split|]; try reflexivity; [by eexists| |repeat split].
  exists "MPNote"%string. split; reflexivity.
Defined.

Lemma save_announces_once_witness :
  ∃ w', MO_save_error Reference.note Reference.world0 = (Ok YES, w') ∧
        w_log w' = [Posted "hasAddedNote" Reference.note (Some MPManagedObjectChangeSourceInternal);
                    Posted "didAddNote" Reference.note (Some MPManagedObjectChangeSourceInternal);
                    UpdateChangeCount].
Proof.
  destruct note_registered as (m & moc & pkg & Hr & Hc & Hn & Hd).
  destruct (save_announces_once Reference.world0 Reference.note m Reference.notes moc pkg
    "hasAddedNote" "didAddNote" note_live Hr) as (w1 & _ & _ & Hpost); rewrite ?Hc, ?Hn; try reflexivity.
  assert ((MO_save_error Reference.note Reference.world0).1 = Ok YES) as E by (vm_compute; reflexivity).
  destruct (model_save _ _) as [[|err] s']; [|destruct Hpost as [Hrun _]; by rewrite Hrun in E].
  destruct (clearEmbeddedNeedsSave _ _) as [[[]|e] w2]; [|destruct Hpost as [Hrun _]; by rewrite Hrun in E].
  destruct Hpost as (_ & w' & Hrun & Hlog & _). exists w'. split; [done|]. rewrite Hlog. unfold announced. by rewrite Hn, Hd.
Defined.

Lemma save_clean_witness :
  MO_save Reference.section_ Reference.world0 = (Ok true, Reference.world0).
Proof. apply save_clean. reflexivity. Defined.

Lemma section_registered : ∃ m moc pkg,
  registered Reference.world0 Reference.section_ m Reference.sections moc pkg ∧ mo_class m = "MPSection"%string.
Proof.
  eexists _, _, _. split; [split|]; try reflexivity; [by eexists|].
  exists "MPSection"%string. split; reflexivity.
Defined.

Lemma delete_keeps_identifier_witness :
  ∃ r w', MO_deleteDocument_error Reference.section_ Reference.world0 = (Ok r, w') ∧
          w_mocs w' = w_mocs Reference.world0.
Proof.
  destruct section_registered as (m & moc & pkg & Hr & Hc).
  destruct (delete_keeps_identifier Reference.world0 Reference.section_ m Reference.sections moc pkg
    "hasRemovedSection" "didRemoveSection" "MPSection:0001" "1-a" Hr) as (r & w' & Hrun & Hm & _);
    rewrite ?Hc; try reflexivity.
  exists r, w'. split; [exact Hrun|exact Hm].
Defined.

Lemma new_object_is_registered_witness :
  ∃ w' m' moc', MO_initWithNewDocumentForController "MPNote" (Some Reference.notes) None None Reference.world0
                = (Ok (w_nextOid Reference.world0), w') ∧
    w_mos w' !! w_nextOid Reference.world0 = Some m' ∧ w_mocs w' !! Reference.notes = Some moc' ∧
    moc_objectCache moc' !! "MPNote:UUID-0"%string = Some (w_nextOid Reference.world0).
Proof.
  edestruct (new_object_is_registered Reference.world0 "MPNote" Reference.notes) as
    (w' & m' & moc' & Hrun & Hm & _ & _ & _ & _ & _ & Hc & Hl);
    [split; try reflexivity; discriminate|].
  exists w', m', moc'. split; [exact Hrun|]. split; [exact Hm|]. split; [exact Hc|].
  assert ("MPNote:UUID-0" = "MPNote" ++ ":" ++ env_uuid (w_uuids Reference.world0))%string as ->
    by (vm_compute; reflexivity).
  exact Hl.
Defined.

Lemma setValue_deleted_witness :
  MO_setValue_ofProperty 9%positive (Some (NSNumber 1)) "priority" Reference.world0 = (Ok true, Reference.world0).
Proof.
  apply (setValue_deleted Reference.world0 9%positive (Some (NSNumber 1)) "priority").
  intros [[d Hd] _]. discriminate Hd.
Defined.
