(* ===== verification/ObjectReferences.v ===== *)
(** * Objects that refer to objects

    How a managed object holds others by their identifiers - one in a property, or many
    in an array of identifiers -, who made it and what it was copied from, and the values it
    has from the objects above it: src/Feather/Sources/Model/MPManagedObject.m. *)
From Stdlib Require Import Ascii.
From stdpp Require Import base tactics strings numbers list gmap.
From S2P Require Import Prelude ObjC ReferenceRuntime Classes World Reference Controllers EmbeddedObject ManagedObject Frames ObjectTheorems.

(* @src Feather/Sources/Model/MPManagedObject.h 21 30 MPManagedObjectErrorCode *)
Inductive MPManagedObjectErrorCode : Type :=
  | MPManagedObjectErrorCodeUnknown
  | MPManagedObjectErrorCodeTypeMissing
  | MPManagedObjectErrorCodeUserNotCreator
  | MPManagedObjectErrorCodeMissingBundledData
  | MPManagedObjectErrorCodeMissingAttachment
  | MPManagedObjectErrorCodeMissingController
  | MPManagedObjectErrorCodeMissingDatabase.

Definition managedObjectError (code : MPManagedObjectErrorCode) : NSError :=
  {| err_domain := "MPManagedObjectErrorDomain";
     err_code := match code with
                 | MPManagedObjectErrorCodeUnknown => 0
                 | MPManagedObjectErrorCodeTypeMissing => 1
                 | MPManagedObjectErrorCodeUserNotCreator => 2
                 | MPManagedObjectErrorCodeMissingBundledData => 3
                 | MPManagedObjectErrorCodeMissingAttachment => 4
                 | MPManagedObjectErrorCodeMissingController => 5
                 | MPManagedObjectErrorCodeMissingDatabase => 6
                 end%Z |}.

Section references.
Context {S : Type} `{!CBL S} `{!Env} `{!CBLModelFactory S}.
Implicit Types w : World S.
Local Open Scope string_scope.
Notation M := (M (World S)).

(** ** Finding an object by way of a package; a message to [nil] answers [nil] *)

(** [self.controller.packageController] *)
Definition MO_packageController (self : oid) : M (option pid) :=
  m ← getMO self;
  match mo_controller m with
  | Some c => moc ← getMOC c; mret (Some (moc_package moc))
  | None => mret None
  end.

Definition controllerIn (pkgc : option pid) (cls : option string) : M (option cid) :=
  match pkgc with Some p => PKG_controllerForManagedObjectClass p cls | None => mret None end.

Definition objectIn (moc : option cid) (identifier : string) : M (option oid) :=
  match moc with Some c => MOC_objectWithIdentifier c (Some identifier) | None => mret None end.

(** [moc.db.database] *)
Definition databaseOfController (moc : option cid) : M (option string) :=
  match moc with Some c => k ← getMOC c; mret (moc_db k) | None => mret None end.

(** A value that is used as a string. *)
Definition asString (v : value) : M string :=
  match v with NSString s => mret s | _ => unrecognizedSelector end.

(** [[[identifier componentsSeparatedByString:@":"] firstObject]] *)
Definition classNameIn (identifier : string) : string :=
  default "" (head (componentsSeparatedBy ":"%char identifier)).

(** ** Many objects *)

(* @src Feather/Sources/Model/MPManagedObject.m 1048 1060 -[MPManagedObject setObjectIdentifierArrayValueForManagedObjectArray:property:] *)
Definition setObjectIdentifierArrayValueForManagedObjectArray (self : oid) (objectArray : option (list oid))
    (propertyKey : string) : M unit :=
  ids ← (match objectArray with
         | None => mret None
         | Some objects =>
             ids ← map_each objects (λ o,
                     docID ← cbl_gets (λ s, model_document s o);
                     match docID with
                     | Some d => mret (NSString d)
                     | None => throw (AssertionFailed "docID")
                     end);
             mret (Some (NSArray ids))
         end);
  MO_set self ids propertyKey.

(** One identifier of the array: the object, or [nil], which is logged and left out. *)
Definition objectForIdentifier (self : oid) (objID : value) : M (option oid) :=
  d ← asString objID;
  cls ← lift (managedObjectClassFromDocumentID (Some d));
  pkgc ← MO_packageController self;
  moc ← controllerIn pkgc (Some cls);
  objectIn moc d.

(** The loop that compares classes takes the class of the first identifier in every
    round, so it does nothing but take strings apart. *)
(* @src Feather/Sources/Model/MPManagedObject.m 1062 1101 -[MPManagedObject getValueOfObjectIdentifierArrayProperty:] *)
Definition getValueOfObjectIdentifierArrayProperty (self : oid) (propertyKey : string) : M (list oid) :=
  v ← MO_getValueOfProperty self propertyKey;
  match v with
  | None | Some (NSArray []) | Some (NSDictionary []) | Some (NSSet []) => mret []
  | Some (NSArray ((first :: _) as ids)) =>
      str ← asString first;
      _ ← NSAssert (match NSClassFromString env_rt (classNameIn str) with
                    | Some moClass => isSubclassOfClass env_rt moClass MPManagedObject_class
                    | None => false
                    end) "[moClass isSubclassOfClass:[MPManagedObject class]]";
      _ ← for_each ids (λ objID, _ ← asString objID; mret tt);
      objs ← map_each ids (objectForIdentifier self);
      mret (omap id objs)
  | Some _ => unrecognizedSelector
  end.

(* @src Feather/Sources/Model/MPManagedObject.m 1038 1041 -[MPManagedObject setObjectIdentifierSetValueForManagedObjectArray:property:] *)
Definition setObjectIdentifierSetValueForManagedObjectArray (self : oid) (objectArray : option (list oid))
    (propertyKey : string) : M unit :=
  setObjectIdentifierArrayValueForManagedObjectArray self objectArray propertyKey.

(* @src Feather/Sources/Model/MPManagedObject.m 1043 1046 -[MPManagedObject getValueOfObjectIdentifierSetProperty:] *)
Definition getValueOfObjectIdentifierSetProperty (self : oid) (propertyKey : string) : M (gset oid) :=
  objs ← getValueOfObjectIdentifierArrayProperty self propertyKey;
  mret (list_to_set objs).

(* @src Feather/Sources/Model/MPManagedObject.m 879 881 -[MPManagedObject setEditors:] *)
Definition MO_setEditors (self : oid) (editors : option (list oid)) : M unit :=
  setObjectIdentifierArrayValueForManagedObjectArray self editors "editorIDs".

(* @src Feather/Sources/Model/MPManagedObject.m 883 885 -[MPManagedObject editors] *)
Definition MO_editors (self : oid) : M (list oid) :=
  getValueOfObjectIdentifierArrayProperty self "editorIDs".

(** ** One object *)

(* @src Feather/Sources/Model/MPManagedObject.m 1133 1147 -[MPManagedObject databaseForModelProperty:] *)
Definition databaseForModelProperty (self : oid) (propertyName : string) : M string :=
  m ← getMO self;
  let cls := rt_propertyClass env_rt (mo_class m) propertyName in
  _ ← NSAssert (propClassIn cls MPManagedObject_class) "[cls isSubclassOfClass:[MPManagedObject class]]";
  pkgc ← MO_packageController self;
  moc ← controllerIn pkgc cls;
  db ← databaseOfController moc;
  match db with
  | Some d => mret d
  | None =>
      spkg ← gets w_shoebox;
      moc' ← controllerIn spkg cls;
      db' ← databaseOfController moc';
      match db' with Some d => mret d | None => throw (AssertionFailed "db") end
  end.

(** The controller that has the object a property refers to, and the object's class. *)
Definition controllerForModelProperty (self : oid) (property : string) (cls : string) (objectID : value)
    : M (option cid * string) :=
  if isConcrete env_rt cls then
    db ← databaseForModelProperty self property;
    pkgs ← gets w_dbs;
    moc ← controllerIn (pkgs !! db) (Some cls);
    match moc with
    | None => throw (AssertionFailed "moc")
    | Some c =>
        managed ← MOC_class c;
        _ ← NSAssert (isSubclassOfClass env_rt cls managed) "[cls isSubclassOfClass:[moc managedObjectClass]]";
        mret (Some c, cls)
    end
  else
    d ← asString objectID;
    _ ← NSAssert (2 <=? length (componentsSeparatedBy ":"%char d))%nat "components.count >= 2";
    match NSClassFromString env_rt (classNameIn d) with
    | None => throw (AssertionFailed "concreteClass")
    | Some concreteClass =>
        _ ← NSAssert (isSubclassOfClass env_rt concreteClass cls) "[concreteClass isSubclassOfClass:cls]";
        pkgc ← MO_packageController self;
        moc ← controllerIn pkgc (Some concreteClass);
        _ ← NSAssert (bool_decide (is_Some moc)) "moc";
        mret (moc, concreteClass)
    end.

(* @src Feather/Sources/Model/MPManagedObject.m 1150 1201 -[MPManagedObject getModelProperty:] *)
Definition MO_getModelProperty (self : oid) (property : string) : M (option oid) :=
  objectID ← MO_getValueOfProperty self property;
  match objectID with
  | None => mret None
  | Some v =>
      m ← getMO self;
      match rt_propertyClass env_rt (mo_class m) property with
      | None => throw (AssertionFailed "cls is not subclass of MPManagedObject")
      | Some cls =>
          _ ← NSAssert (isSubclassOfClass env_rt cls MPManagedObject_class) "cls is not subclass of MPManagedObject";
          found ← controllerForModelProperty self property cls v;
          let '(moc, cls') := found in
          d ← asString v;
          mo ← objectIn moc d;
          match mo with
          | Some o => mret (Some o)
          | None =>
              if rt_conforms env_rt cls' "MPReferencableObject" then
                shoebox ← gets w_shoebox;
                sharedMOC ← controllerIn shoebox (Some cls');
                objectIn sharedMOC d
              else mret None
          end
      end
  end.

(** The managed object an embedded object is in: the loop looks at the receiver's own
    embedding object in every round. *)
Fixpoint embedderOf (fuel : nat) (self : oid) : M oid :=
  e ← getEO self;
  match eo_embeddingObject e with
  | None => throw (AssertionFailed "Expecting an embedding object")
  | Some embedder =>
      managed ← isManagedObject embedder;
      if (managed : bool) then mret embedder
      else match fuel with
           | O => throw (Exception "hang" "the same embedding object again")
           | Datatypes.S n => embedderOf n self
           end
  end.

(* @src Feather/Sources/Model/MPEmbeddedObject.m 542 565 -[MPEmbeddedObject databaseForModelProperty:] *)
Definition EO_databaseForModelProperty (fuel : nat) (self : oid) (property : string) : M string :=
  mo ← embedderOf fuel self;
  e ← getEO self;
  let cls := rt_propertyClass env_rt (eo_class e) property in
  pkgc ← MO_packageController mo;
  inferredMOC ← controllerIn pkgc cls;
  inferredDB ← (match inferredMOC with
                | Some _ => databaseOfController inferredMOC
                | None => spkg ← gets w_shoebox; moc ← controllerIn spkg cls; databaseOfController moc
                end);
  match inferredDB with
  | Some db => mret db
  | None => throw (AssertionFailed "inferredDB")
  end.

(* @src Feather/Sources/Model/MPManagedObject.m 962 964 -[MPManagedObject setPrototypeID:] *)
Definition MO_setPrototypeID (self : oid) (prototypeID : option string) : M unit :=
  MO_set self (NSString <$> prototypeID) "prototype".

(* @src Feather/Sources/Model/MPManagedObject.m 966 969 -[MPManagedObject prototypeID] *)
Definition MO_prototypeID (self : oid) : M (option value) := MO_getValueOfProperty self "prototype".

(* @src Feather/Sources/Model/MPManagedObject.m 971 973 -[MPManagedObject setPrototype:] *)
Definition MO_setPrototype (self : oid) (prototype : option oid) : M unit :=
  d ← (match prototype with None => mret None | Some p => d ← MO_documentID p; mret (Some (NSString d)) end);
  MO_set self d "prototype".

(* @src Feather/Sources/Model/MPManagedObject.m 975 985 -[MPManagedObject prototype] *)
Definition MO_prototype (self : oid) : M (option oid) :=
  prototypeID ← MO_getValueOfProperty self "prototype";
  match prototypeID with
  | None => mret None
  | Some v =>
      pkgc ← MO_packageController self;
      match pkgc with
      | None => mret None
      | Some p => d ← asString v; PKG_objectWithIdentifier p (Some d)
      end
  end.

(* @src Feather/Sources/Model/MPManagedObject.m 987 990 -[MPManagedObject hasPrototype] *)
Definition MO_hasPrototype (self : oid) : M bool :=
  v ← MO_prototypeID self; mret (bool_decide (is_Some v)).

(** Its argument is what the contributors controller of the package answers for [-me]. *)
(* @src Feather/Sources/Model/MPManagedObject.m 905 922 -[MPManagedObject shareWithError:] *)
Definition MO_shareWithError (me : option oid) (self : oid) : M outcome :=
  creator ← MO_getModelProperty self "creator";
  creatorID ← cbl_gets (λ s, creator ≫= model_document s);
  meID ← cbl_gets (λ s, me ≫= model_document s);
  if negb (bool_decide (creatorID = meID) && bool_decide (is_Some creatorID)) then
    mret (NO (Some (managedObjectError MPManagedObjectErrorCodeUserNotCreator)))
  else
    shared ← MO_isShared self;
    _ ← NSAssert (negb shared) "!self.isShared";
    _ ← MO_setShared self true;
    mret YES.

(** ** Values from the objects above

    The getter of a property [effectiveX] looks for the nearest object, from the receiver
    up its parents, in which X has a value.  Parents are managed objects. *)

(** What the getter of a declared property, of the class given, answers for [self]. *)
Definition MO_get (self : oid) (key : string) (cls : option string) : M (option value) :=
  match MO_impForGetterOfProperty key cls with
  | EmbeddedObjectGetter => o ← MO_getEmbeddedObjectProperty self key; mret (MPObj <$> o)
  | EmbeddedArrayGetter => Some <$> MO_getEmbeddedObjectArrayProperty self key
  | EmbeddedDictionaryGetter => Some <$> MO_getEmbeddedObjectDictionaryProperty self key
  | _ => if propClassIn cls "CBLModel" then o ← MO_getModelProperty self key; mret (MPObj <$> o)
         else MO_getValueOfProperty self key
  end.

(** [[p valueForKey:parentPropertyName]] *)
Definition parentWithKey (p : oid) (key : string) : M (option oid) :=
  m ← getMO p;
  match rt_propertyClass env_rt (mo_class m) key with
  | None => throw (Exception "NSUnknownKeyException" key)
  | Some cls =>
      v ← MO_get p key (Some cls);
      match v with
      | None => mret None
      | Some (MPObj q) => mret (Some q)
      | Some _ => unrecognizedSelector
      end
  end.

Definition adjustedProperty (property : string) : string := camelCased (dropPrefix "effective" property).

Fixpoint nearestWithValue (fuel : nat) (effectiveReceiver p : oid) (parentPropertyName adjusted : string) : M oid :=
  v ← MO_getValueOfProperty p adjusted;
  match v with
  | Some _ => mret p
  | None =>
      q ← parentWithKey p parentPropertyName;
      match q with
      | None => mret effectiveReceiver
      | Some q =>
          match fuel with
          | O => throw (Exception "hang" "parents without end")
          | Datatypes.S n => nearestWithValue n effectiveReceiver q parentPropertyName adjusted
          end
      end
  end.

(** [+parentPropertyName] of a class: "parent" unless overridden. *)
Context (parentPropertyName : string → string).

(* @src Feather/Sources/Model/MPManagedObject.m 1307 1328 +[MPManagedObject receiverForEffectivePropertyAccessorReceiver:property:] *)
Definition receiverForEffectivePropertyAccessorReceiver (fuel : nat) (effectiveReceiver : oid) (property : string) : M oid :=
  m ← getMO effectiveReceiver;
  nearestWithValue fuel effectiveReceiver effectiveReceiver (parentPropertyName (mo_class m)) (adjustedProperty property).

(** The getter made for a property with an object as its value. *)
(* @src Feather/Sources/Model/MPManagedObject.m 1352 1366 +[MPManagedObject impForEffectivePropertyGetterOfProperty:ofType:] (part) *)
Definition effectiveObjectGetter (fuel : nat) (property : string) (propertyClass : option string) (receiver : oid)
    : M (option value) :=
  effectiveReceiver ← receiverForEffectivePropertyAccessorReceiver fuel receiver property;
  MO_get effectiveReceiver (camelCased (replaceOccurrences "effective" "" property)) propertyClass.

(** The getters made for properties of type long and BOOL. *)
(* @src Feather/Sources/Model/MPManagedObject.m 1382 1385 +[MPManagedObject impForEffectivePropertyGetterOfProperty:ofType:] (part) *)
Definition effectiveLongGetter (fuel : nat) (property : string) (receiver : oid) : M Z :=
  effectiveReceiver ← receiverForEffectivePropertyAccessorReceiver fuel receiver property;
  v ← MO_getValueOfProperty effectiveReceiver (camelCased (replaceOccurrences "effective" "" property));
  mret (sint64 (numberValue v)).

(* @src Feather/Sources/Model/MPManagedObject.m 1402 1405 +[MPManagedObject impForEffectivePropertyGetterOfProperty:ofType:] (part) *)
Definition effectiveBoolGetter (fuel : nat) (property : string) (receiver : oid) : M bool :=
  effectiveReceiver ← receiverForEffectivePropertyAccessorReceiver fuel receiver property;
  v ← MO_getValueOfProperty effectiveReceiver (camelCased (replaceOccurrences "effective" "" property));
  mret (boolValue v).
End references.

(** ** Objects that are there *)
Section finding.
Context {S : Type} `{!CBL S} `{!CBLLaws S} `{!Env} `{!CBLModelFactory S}.
Implicit Types w : World S.
Local Open Scope string_scope.

(** [w] with another memo of the controller lookup in package [pkg], which is [p]. *)
Definition atMemo (pkg : pid) (p : Package) w0 w : Prop :=
  ∃ d, w = memo_world pkg p d w0 ∧ dictionary_ok (pkg_with_dictionary d p).

(** The identifier [d] is that of the object [o], which a controller of the package has
    registered. *)
Record registeredAs (p : Package) w (d : string) (c : cid) (cls : string) (o : oid) : Prop := {
  ra_class : managedObjectClassFromDocumentID (Some d) = Ok cls;
  ra_notBase : cls ≠ MPManagedObject_class;
  ra_controller : controllerLookup p cls = Ok (Some c);
  ra_moc : ∃ moc managed m, w_mocs w !! c = Some moc ∧ MOC_managedObjectClass env_rt (moc_class moc) = Ok managed ∧
             isSubclassOfClass env_rt cls managed = true ∧ moc_objectCache moc !! d = Some o ∧
             w_mos w !! o = Some m ∧ mo_controller m = Some c ∧ isSubclassOfClass env_rt (mo_class m) managed = true
}.

Lemma atMemo_refl pkg p w : w_pkgs w !! pkg = Some p → dictionary_ok p → atMemo pkg p w w.
Proof. intros Hp Hok. eexists. split; [by apply memo_world_id|by destruct p]. Qed.

Lemma lookup_atMemo pkg p w0 w c :
  atMemo pkg p w0 w → c ≠ MPManagedObject_class →
  ∃ w', PKG_controllerForManagedObjectClass pkg (Some c) w = (controllerLookup p c, w') ∧ atMemo pkg p w0 w'.
Proof.
  intros (d & -> & Hok) Hc.
  destruct (lookup_outer (memo_world pkg p d w0) pkg (pkg_with_dictionary d p) c) as (d' & Hrun & Hok').
  - cbn. by rewrite lookup_insert_eq.
  - done.
  - done.
  - eexists. split; [exact Hrun|]. exists d'. split; [|done].
    unfold memo_world, set_pkgs. cbn. by rewrite insert_insert_eq.
Qed.

Lemma run_class c w moc managed :
  w_mocs w !! c = Some moc → MOC_managedObjectClass env_rt (moc_class moc) = Ok managed →
  MOC_class c w = (Ok managed, w).
Proof. intros Hc Hm. unfold MOC_class, getMOC. by rewrite run_bind, Hc, Hm. Qed.

Lemma find_registered pkg p w0 w d c cls o :
  atMemo pkg p w0 w → registeredAs p w0 d c cls o → MOC_objectWithIdentifier c (Some d) w = (Ok (Some o), w).
Proof.
  intros (d' & -> & _) [Hcls _ _ (moc & managed & m & Hmoc & Hman & Hsub & Hin & Hm & Hc & Hmc)].
  unfold MOC_objectWithIdentifier. cbn [MOC_objectWithIdentifier_from].
  rewrite run_bind. unfold lift. rewrite Hcls.
  assert (Hclass : MOC_class c (memo_world pkg p d' w0) = (Ok managed, memo_world pkg p d' w0))
    by by apply (run_class c _ moc).
  rewrite run_bind, Hclass, run_bind, run_NSAssert, Hsub, run_bind.
  unfold getMOC at 1. cbn [w_mocs memo_world set_pkgs]. rewrite Hmoc, Hin, run_bind.
  unfold assertOwned, assertController, getMO. rewrite !run_bind. cbn [w_mos memo_world set_pkgs].
  rewrite Hm, run_NSAssert, bool_decide_eq_true_2 by done.
  unfold assertManaged, getMO. rewrite run_bind. cbn [w_mos memo_world set_pkgs]. rewrite Hm, run_bind, Hclass.
  by rewrite run_NSAssert, Hmc.
Qed.

(** The identifier [d] is of a class without a controller, or of an object the database of
    its controller does not have. *)
Definition goneFor (p : Package) w (d : string) : Prop :=
  ∃ cls, managedObjectClassFromDocumentID (Some d) = Ok cls ∧ cls ≠ MPManagedObject_class ∧
    isSubclassOfClass env_rt cls MPManagedObject_class = true ∧
    (controllerLookup p cls = Ok None ∨
     ∃ c moc managed, controllerLookup p cls = Ok (Some c) ∧ w_mocs w !! c = Some moc ∧
       MOC_managedObjectClass env_rt (moc_class moc) = Ok managed ∧ isSubclassOfClass env_rt cls managed = true ∧
       moc_objectCache moc !! d = None ∧ doc_existing (w_cbl w) (default "" (moc_db moc)) d = false ∧
       env_relaysFetchingByIdentifier (moc_class moc) = false).

Definition resolvesTo (p : Package) w (d : string) (r : option oid) : Prop :=
  match r with Some o => ∃ c cls, registeredAs p w d c cls o | None => goneFor p w d end.

(** [self] belongs to the package [pkg]. *)
Definition belongsTo (pkg : pid) w (self : oid) : Prop :=
  ∃ m c moc, w_mos w !! self = Some m ∧ mo_controller m = Some c ∧ w_mocs w !! c = Some moc ∧ moc_package moc = pkg.

Lemma run_packageController pkg p w0 w self :
  atMemo pkg p w0 w → belongsTo pkg w0 self → MO_packageController self w = (Ok (Some pkg), w).
Proof.
  intros (d & -> & _) (m & c & moc & Hm & Hc & Hmoc & <-). unfold MO_packageController, getMO. rewrite run_bind.
  cbn [w_mos memo_world set_pkgs]. rewrite Hm, Hc. unfold getMOC. rewrite run_bind.
  cbn [w_mocs memo_world set_pkgs]. by rewrite Hmoc.
Qed.

Lemma objectIn_gone pkg p w0 w d c moc managed cls :
  atMemo pkg p w0 w → managedObjectClassFromDocumentID (Some d) = Ok cls →
  w_mocs w0 !! c = Some moc → MOC_managedObjectClass env_rt (moc_class moc) = Ok managed →
  isSubclassOfClass env_rt cls managed = true → moc_objectCache moc !! d = None →
  doc_existing (w_cbl w0) (default "" (moc_db moc)) d = false →
  env_relaysFetchingByIdentifier (moc_class moc) = false →
  objectIn (Some c) d w = (Ok None, w).
Proof.
  intros (d' & -> & _) Hcls Hmoc Hman Hsub Hin Hex Hrel.
  unfold objectIn, MOC_objectWithIdentifier. cbn [MOC_objectWithIdentifier_from].
  rewrite run_bind. unfold lift. rewrite Hcls.
  rewrite run_bind, (run_class c (memo_world pkg p d' w0) moc managed) by done.
  rewrite run_bind, run_NSAssert, Hsub, run_bind. unfold getMOC. cbn [w_mocs memo_world set_pkgs]. rewrite Hmoc, Hin, run_bind.
  unfold cbl_gets. rewrite run_gets. cbn [w_cbl memo_world set_pkgs]. rewrite Hex. cbv iota beta.
  rewrite run_bind, run_gets, Hrel. done.
Qed.

Lemma objectForIdentifier_resolves pkg p w0 w self d r :
  atMemo pkg p w0 w → belongsTo pkg w0 self → resolvesTo p w0 d r →
  ∃ w', objectForIdentifier self (NSString d) w = (Ok r, w') ∧ atMemo pkg p w0 w'.
Proof.
  intros Hat Hself Hr. unfold objectForIdentifier. cbn [asString]. rewrite run_bind, run_ret, run_bind. unfold lift.
  destruct r as [o|].
  - destruct Hr as (c & cls & Hr). rewrite (ra_class _ _ _ _ _ _ Hr), run_bind, (run_packageController _ _ _ _ _ Hat Hself).
    destruct (lookup_atMemo _ _ _ _ cls Hat (ra_notBase _ _ _ _ _ _ Hr)) as (w' & Hrun & Hat').
    rewrite run_bind. cbn [controllerIn]. rewrite Hrun, (ra_controller _ _ _ _ _ _ Hr).
    exists w'. split; [|done]. by eapply find_registered.
  - destruct Hr as (cls & Hcls & Hbase & _ & Hgone). rewrite Hcls, run_bind, (run_packageController _ _ _ _ _ Hat Hself).
    destruct (lookup_atMemo _ _ _ _ cls Hat Hbase) as (w' & Hrun & Hat').
    rewrite run_bind. cbn [controllerIn]. rewrite Hrun. exists w'. split; [|done].
    destruct Hgone as [->|(c & moc & managed & -> & Hmoc & Hman & Hsub & Hin & Hex & Hrel)]; [done|].
    by eapply objectIn_gone.
Qed.

Lemma identifiers_resolve pkg p w0 self ids rs w :
  atMemo pkg p w0 w → belongsTo pkg w0 self → Forall2 (resolvesTo p w0) ids rs →
  ∃ w', map_each (NSString <$> ids) (objectForIdentifier self) w = (Ok rs, w') ∧ atMemo pkg p w0 w'.
Proof.
  intros Hat Hself Hrs. revert w Hat. induction Hrs as [|d r ids rs Hr _ IH]; intros w Hat; [by exists w|].
  cbn [map_each fmap list_fmap]. destruct (objectForIdentifier_resolves _ _ _ _ _ _ _ Hat Hself Hr) as (w1 & H1 & Hat1).
  destruct (IH w1 Hat1) as (w2 & H2 & Hat2).
  exists w2. split; [|done]. by rewrite run_bind, H1, run_bind, H2.
Qed.

Lemma strings_are_strings {T} (ids : list string) (s : World T) :
  for_each (NSString <$> ids) (λ objID, _ ← asString objID; mret tt) s = (Ok tt, s).
Proof. induction ids as [|d ids IH]; [done|]. cbn [for_each fmap list_fmap]. by rewrite run_bind. Qed.

Lemma class_of_identifier d cls :
  managedObjectClassFromDocumentID (Some d) = Ok cls → NSClassFromString env_rt (classNameIn d) = Some cls.
Proof.
  unfold managedObjectClassFromDocumentID. intros (u & _ & Hn)%res_bind_inv.
  fold (classNameIn d) in Hn. destruct (NSClassFromString env_rt (classNameIn d)) as [c|]; [|done].
  apply res_bind_inv in Hn as (u' & _ & Hn'). by injection Hn' as <-.
Qed.

Lemma resolves_class p w d r :
  resolvesTo p w d r →
  ∃ cls, NSClassFromString env_rt (classNameIn d) = Some cls ∧ isSubclassOfClass env_rt cls MPManagedObject_class = true.
Proof.
  destruct r as [o|].
  - intros (c & cls & Hr). exists cls. split; [by apply class_of_identifier; apply Hr|].
    pose proof (ra_controller _ _ _ _ _ _ Hr) as Hl. unfold controllerLookup in Hl.
    destruct (isSubclassOfClass env_rt cls "MPMetadata"); [done|].
    apply res_bind_inv in Hl as (u & Ha & _). by apply assert_inv, andb_true_iff in Ha as [].
  - intros (cls & Hcls & _ & Hsub & _). exists cls. split; [by apply class_of_identifier|done].
Qed.

Lemma isEqual_strings v ids :
  isEqual v (NSArray (NSString <$> ids)) = true → v = NSArray (NSString <$> ids).
Proof.
  destruct v as [| | | | |l| | |]; try done. intros He. f_equal. revert l He.
  induction ids as [|d ids IH]; intros [|x l]; try done. cbn. intros [Hx Hl]%andb_true_iff.
  destruct x; try done. apply String.eqb_eq in Hx as ->. f_equal. by apply IH.
Qed.

Lemma run_getReferences pkg p w self key ids rs :
  w_pkgs w !! pkg = Some p → dictionary_ok p → belongsTo pkg w self →
  model_get (w_cbl w) self key = Some (NSArray (NSString <$> ids)) →
  Forall2 (resolvesTo p w) ids rs →
  ∃ w', getValueOfObjectIdentifierArrayProperty self key w = (Ok (omap id rs), w') ∧ atMemo pkg p w w'.
Proof.
  intros Hp Hok Hself Hget Hrs. pose proof (atMemo_refl _ _ _ Hp Hok) as Hat.
  unfold getValueOfObjectIdentifierArrayProperty, MO_getValueOfProperty, cbl_gets. rewrite run_bind, run_gets, Hget.
  destruct (identifiers_resolve _ _ _ _ _ _ _ Hat Hself Hrs) as (w' & Hrun & Hat'). exists w'. split; [|done].
  destruct Hrs as [|d r ids rs Hr Hrs]; [by injection Hrun as <-|].
  destruct (resolves_class _ _ _ _ Hr) as (cls & Hcls & Hsub).
  change (NSString <$> d :: ids) with (NSString d :: (NSString <$> ids)) in *.
  cbv beta match. rewrite run_bind. cbn [asString]. rewrite run_ret, Hcls, run_bind, run_NSAssert, Hsub.
  rewrite run_bind, (strings_are_strings (d :: ids) w : for_each (NSString d :: (NSString <$> ids)) _ w = _), run_bind, Hrun. done.
Qed.

Lemma documents_of objs ids w :
  Forall2 (λ o d, model_document (w_cbl w) o = Some d) objs ids →
  map_each objs (λ o, docID ← cbl_gets (λ s, model_document s o);
                      match docID with
                      | Some d => mret (NSString d)
                      | None => throw (AssertionFailed "docID")
                      end) w = (Ok (NSString <$> ids), w).
Proof.
  induction 1 as [|o d objs ids Hd _ IH]; [done|]. cbn [map_each]. rewrite run_bind.
  rewrite run_bind. unfold cbl_gets at 1. rewrite run_gets, Hd, run_ret, run_bind, IH. done.
Qed.
End finding.

(** ** Arrays of objects *)
Section arrays.
Context {S : Type} `{!CBL S} `{!CBLLaws S} `{!Env} `{!CBLModelFactory S}.
Implicit Types w : World S.

(** C19 (roundtrip). Objects that are set as the value of a property are read back from it, the same and in
    the same order, when the controllers of the package have them registered.  When the property,
    with that value, is read in a later world in which each of the identifiers either is that of an object a
    controller of the package has registered, or belongs to no object there is - its class
    has no controller in the package, or the controller has no object registered and its database no document under it -,
    then it gives the registered ones in that order and nothing for the others, and only the
    memo of the lookup of controllers changes.  Objects in the database that are not loaded yet
    are not considered, nor are controllers that look further for an identifier. *)
Theorem references_roundtrip w self key objs ids pkg p :
  live w self → belongsTo pkg w self → ¬ identity_key key →
  w_pkgs w !! pkg = Some p → dictionary_ok p →
  Forall2 (λ o d, model_document (w_cbl w) o = Some d) objs ids →
  ∃ w1, setObjectIdentifierArrayValueForManagedObjectArray self (Some objs) key w = (Ok tt, w1) ∧
    (Forall2 (λ d o, ∃ c cls, registeredAs p w d c cls o) ids objs →
     ∃ w2, getValueOfObjectIdentifierArrayProperty self key w1 = (Ok objs, w2)) ∧
    ∀ w2 p2 rs, w_pkgs w2 !! pkg = Some p2 → dictionary_ok p2 → belongsTo pkg w2 self →
      model_get (w_cbl w2) self key = model_get (w_cbl w1) self key → Forall2 (resolvesTo p2 w2) ids rs →
      ∃ w3, getValueOfObjectIdentifierArrayProperty self key w2 = (Ok (omap id rs), w3) ∧ atMemo pkg p2 w2 w3.
Proof.
  intros Hlive Hself Hkey Hp Hok Hdocs. exists (set_cbl (model_set (w_cbl w) self key (Some (NSArray (NSString <$> ids)))) w).
  assert (Hget : model_get (model_set (w_cbl w) self key (Some (NSArray (NSString <$> ids)))) self key
                 = Some (NSArray (NSString <$> ids))).
  { pose proof (get_set_same (w_cbl w) self key (NSArray (NSString <$> ids))) as Hg.
    destruct (model_get _ self key) as [v|]; [|done]. destruct Hg as [->|Hg]; [done|]. by apply isEqual_strings in Hg as ->. }
  split; [|split].
  - unfold setObjectIdentifierArrayValueForManagedObjectArray. rewrite run_bind, run_bind, (documents_of objs ids) by done.
    rewrite run_ret. destruct Hself as (m & _ & _ & Hm & _). by eapply run_MO_set_atom.
  - intros Hreg. destruct (run_getReferences pkg p (set_cbl (model_set (w_cbl w) self key (Some (NSArray (NSString <$> ids)))) w)
      self key ids (Some <$> objs)) as (w2 & Hrun & _); try done.
    + apply Forall2_fmap_r. eapply Forall2_impl; [exact Hreg|]. intros d o (c & cls & [? ? ? ?]). by exists c, cls.
    + exists w2. rewrite Hrun. do 2 f_equal. clear. by induction objs as [|o objs IH]; [|cbn; rewrite IH].
  - intros w2 p2 rs Hp2 Hok2 Hself2 Hsame Hrs. apply (run_getReferences _ _ _ _ _ ids); try done. by rewrite Hsame.
Qed.
End arrays.

(** ** One object, and the objects above *)
Section ancestors.
Context {S : Type} `{!CBL S} `{!CBLLaws S} `{!Env} `{!CBLModelFactory S}.
Implicit Types w : World S.
Local Open Scope string_scope.

(** [key] is a property of [self] for objects of the class [cls], a model class. *)
Definition modelProperty w (self : oid) (key cls : string) : Prop :=
  (∃ m, w_mos w !! self = Some m ∧ rt_propertyClass env_rt (mo_class m) key = Some cls) ∧
  isSubclassOfClass env_rt cls MPManagedObject_class = true ∧
  MO_impForGetterOfProperty key (Some cls) = BasicGetter ∧ propClassIn (Some cls) "CBLModel" = true.

(** The controller asked for the object is [c]: by the class of the property when that is
    concrete, and by the class the identifier names otherwise. *)
Definition askedController (pkg : pid) (p : Package) w (cls cls' d : string) (c : cid) : Prop :=
  if isConcrete env_rt cls then
    cls ≠ MPManagedObject_class ∧ controllerLookup p cls = Ok (Some c) ∧
    ∃ moc db managed, w_mocs w !! c = Some moc ∧ moc_db moc = Some db ∧ w_dbs w !! db = Some pkg ∧
      MOC_managedObjectClass env_rt (moc_class moc) = Ok managed ∧ isSubclassOfClass env_rt cls managed = true
  else (2 <=? length (componentsSeparatedBy ":"%char d))%nat = true ∧ isSubclassOfClass env_rt cls' cls = true.

(** The value of [key] is the identifier of [o], which is registered in the package. *)
Definition refersTo (pkg : pid) (p : Package) w (self : oid) (key : string) (o : oid) : Prop :=
  ∃ cls d c cls', modelProperty w self key cls ∧ belongsTo pkg w self ∧
    model_get (w_cbl w) self key = Some (NSString d) ∧ registeredAs p w d c cls' o ∧
    askedController pkg p w cls cls' d c.

Lemma run_controllerForModelProperty pkg p w0 w self key cls d c cls' o :
  atMemo pkg p w0 w → modelProperty w0 self key cls → belongsTo pkg w0 self →
  registeredAs p w0 d c cls' o → askedController pkg p w0 cls cls' d c →
  ∃ w' cls'', controllerForModelProperty self key cls (NSString d) w = (Ok (Some c, cls''), w') ∧ atMemo pkg p w0 w'.
Proof.
  intros Hat ((m & Hm & Hcls) & Hsub & _) Hself Hreg Hask. unfold controllerForModelProperty, askedController in *.
  destruct (isConcrete env_rt cls).
  - destruct Hask as (Hbase & Hlook & moc & db & managed & Hmoc & Hdb & Hdbs & Hman & Hmsub).
    destruct (lookup_atMemo _ _ _ _ cls Hat Hbase) as (w1 & H1 & Hat1).
    destruct (lookup_atMemo _ _ _ _ cls Hat1 Hbase) as (w2 & H2 & Hat2). exists w2, cls. split; [|done].
    rewrite run_bind. unfold databaseForModelProperty. rewrite run_bind. unfold getMO.
    pose proof Hat as (d0 & -> & _). cbn [w_mos memo_world set_pkgs]. rewrite Hm. cbv beta match zeta.
    rewrite Hcls, run_bind, run_NSAssert. cbn [propClassIn]. rewrite Hsub.
    rewrite run_bind, (run_packageController _ _ _ _ _ Hat Hself), run_bind. cbn [controllerIn].
    rewrite H1, Hlook, run_bind. unfold databaseOfController. rewrite run_bind. unfold getMOC.
    destruct Hat1 as (d1 & -> & _). cbn [w_mocs memo_world set_pkgs]. rewrite Hmoc, run_ret, Hdb, run_ret, run_bind, run_gets.
    cbn [w_dbs memo_world set_pkgs]. rewrite Hdbs, run_bind. cbn [controllerIn]. rewrite H2, Hlook, run_bind.
    rewrite (run_class c w2 moc managed); [by rewrite run_bind, run_NSAssert, Hmsub| |done].
    by destruct Hat2 as (d2 & -> & _).
  - destruct Hask as (Hlen & Hsub').
    destruct (lookup_atMemo _ _ _ _ cls' Hat (ra_notBase _ _ _ _ _ _ Hreg)) as (w1 & H1 & Hat1).
    exists w1, cls'. split; [|done]. cbn [asString]. rewrite run_bind, run_ret, run_bind, run_NSAssert, Hlen.
    rewrite (class_of_identifier d cls') by apply Hreg. rewrite run_bind, run_NSAssert, Hsub'.
    rewrite run_bind, (run_packageController _ _ _ _ _ Hat Hself), run_bind. cbn [controllerIn].
    rewrite H1, (ra_controller _ _ _ _ _ _ Hreg), run_bind, run_NSAssert. by rewrite bool_decide_eq_true_2 by done.
Qed.

Lemma run_getModelProperty pkg p w0 w self key o :
  atMemo pkg p w0 w → refersTo pkg p w0 self key o →
  ∃ w', MO_getModelProperty self key w = (Ok (Some o), w') ∧ atMemo pkg p w0 w'.
Proof.
  intros Hat (cls & d & c & cls' & Hprop & Hself & Hget & Hreg & Hask).
  destruct (run_controllerForModelProperty _ _ _ _ _ _ _ _ _ _ _ Hat Hprop Hself Hreg Hask) as (w1 & cls'' & H1 & Hat1).
  exists w1. split; [|done]. unfold MO_getModelProperty, MO_getValueOfProperty, cbl_gets. rewrite run_bind, run_gets.
  destruct Hat as (d0 & -> & _). destruct Hprop as ((m & Hm & Hcls) & Hsub & _).
  cbn [w_cbl memo_world set_pkgs]. rewrite Hget, run_bind. unfold getMO. cbn [w_mos memo_world set_pkgs].
  rewrite Hm, Hcls, run_bind, run_NSAssert, Hsub, run_bind, H1. cbv beta match. rewrite run_bind. cbn [asString].
  rewrite run_ret, run_bind. cbn [objectIn]. by rewrite (find_registered _ _ _ _ _ _ _ _ Hat1 Hreg).
Qed.

(** [self] and the objects above it, up to one without a parent. *)
Inductive ancestry (pkg : pid) (p : Package) w (key : string) : oid → list oid → Prop :=
  | ancestry_root self cls :
      modelProperty w self key cls → model_get (w_cbl w) self key = None → ancestry pkg p w key self [self]
  | ancestry_step self q l :
      refersTo pkg p w self key q → ancestry pkg p w key q l → ancestry pkg p w key self (self :: l).

Lemma run_parentWithKey pkg p w0 w self key q :
  atMemo pkg p w0 w → refersTo pkg p w0 self key q →
  ∃ w', parentWithKey self key w = (Ok (Some q), w') ∧ atMemo pkg p w0 w'.
Proof.
  intros Hat Hq. destruct (run_getModelProperty _ _ _ _ _ _ _ Hat Hq) as (w' & Hrun & Hat'). exists w'. split; [|done].
  destruct Hq as (cls & _ & _ & _ & ((m & Hm & Hcls) & _ & Hgetter & Hmodel) & _).
  unfold parentWithKey, getMO, MO_get. rewrite run_bind. destruct Hat as (d0 & -> & _). cbn [w_mos memo_world set_pkgs].
  by rewrite Hm, Hcls, run_bind, Hgetter, Hmodel, run_bind, Hrun.
Qed.

Lemma run_parentless pkg p w0 w self key cls :
  atMemo pkg p w0 w → modelProperty w0 self key cls → model_get (w_cbl w0) self key = None →
  parentWithKey self key w = (Ok None, w).
Proof.
  intros (d0 & -> & _) ((m & Hm & Hcls) & _ & Hgetter & Hmodel) Hget.
  unfold parentWithKey, getMO, MO_get. rewrite run_bind. cbn [w_mos memo_world set_pkgs].
  rewrite Hm, Hcls, run_bind, Hgetter, Hmodel, run_bind. unfold MO_getModelProperty, MO_getValueOfProperty, cbl_gets.
  rewrite run_bind, run_gets. cbn [w_cbl memo_world set_pkgs]. by rewrite Hget.
Qed.

Definition hasValue w (property : string) (o : oid) : bool := bool_decide (is_Some (model_get (w_cbl w) o property)).

Lemma run_nearest pkg p w0 w key adjusted self q l fuel :
  ancestry pkg p w0 key q l → (length l ≤ Datatypes.S fuel)%nat → atMemo pkg p w0 w →
  ∃ w', nearestWithValue fuel self q key adjusted w =
          (Ok (default self (List.find (hasValue w0 adjusted) l)), w') ∧ atMemo pkg p w0 w'.
Proof.
  intros Hl. revert fuel w. induction Hl as [q cls Hq Hroot|q q' l Hq Hl IH]; intros fuel w Hlen Hat.
  all: assert (Hval : ∀ A (k : option value → M (World S) A),
         (v ← MO_getValueOfProperty q adjusted; k v) w = k (model_get (w_cbl w0) q adjusted) w)
         by (intros A k; rewrite run_bind; unfold MO_getValueOfProperty, cbl_gets; rewrite run_gets;
             by destruct Hat as (d0 & -> & _)).
  all: assert (Hfind : hasValue w0 adjusted q = match model_get (w_cbl w0) q adjusted with Some _ => true | None => false end)
         by (unfold hasValue; by destruct (model_get (w_cbl w0) q adjusted)).
  all: destruct fuel as [|fuel]; cbn [nearestWithValue List.find]; rewrite Hval, Hfind;
       destruct (model_get (w_cbl w0) q adjusted); try (by exists w).
  1-2: rewrite run_bind, (run_parentless _ _ _ _ _ _ _ Hat Hq Hroot); by exists w.
  - destruct Hl; cbn in Hlen; lia.
  - destruct (run_parentWithKey _ _ _ _ _ _ _ Hat Hq) as (w1 & H1 & Hat1). rewrite run_bind, H1.
    apply IH; [cbn in Hlen; lia|done].
Qed.

(** C21 (functional). A property that is effective has its value from the nearest object, from the receiver up
    its parents, in which the property it stands for has one, and from the receiver when
    none has: however long the chain, with as many steps as it has objects, and leaving
    everything but the memo of the lookup of controllers as it was.  The getters for
    properties with an object, a long or a BOOL as their value answer what the getter of the property they
    stand for answers for that object, or its number or truth value.  Each of the parents
    is registered with a controller of the package already - none is loaded on the way -, and
    the last object of the chain has no parent. *)
Theorem effective_value (parentPropertyName : string → string) w pkg p self m property chain fuel :
  w_pkgs w !! pkg = Some p → dictionary_ok p → w_mos w !! self = Some m →
  ancestry pkg p w (parentPropertyName (mo_class m)) self chain → (length chain ≤ Datatypes.S fuel)%nat →
  let o := default self (List.find (hasValue w (adjustedProperty property)) chain) in
  let stands := camelCased (replaceOccurrences "effective" "" property) in
  ∃ w', receiverForEffectivePropertyAccessorReceiver parentPropertyName fuel self property w = (Ok o, w') ∧
    atMemo pkg p w w' ∧
    (∀ cls, effectiveObjectGetter parentPropertyName fuel property cls self w = MO_get o stands cls w') ∧
    effectiveLongGetter parentPropertyName fuel property self w =
      (Ok (sint64 (numberValue (model_get (w_cbl w) o stands))), w') ∧
    effectiveBoolGetter parentPropertyName fuel property self w = (Ok (boolValue (model_get (w_cbl w) o stands)), w').
Proof.
  intros Hp Hok Hm Hchain Hlen o stands.
  destruct (run_nearest pkg p w w _ (adjustedProperty property) self self chain fuel Hchain Hlen (atMemo_refl _ _ _ Hp Hok))
    as (w' & Hrun & Hat).
  assert (Hr : receiverForEffectivePropertyAccessorReceiver parentPropertyName fuel self property w = (Ok o, w')).
  { unfold receiverForEffectivePropertyAccessorReceiver, getMO. rewrite run_bind, Hm. exact Hrun. }
  assert (Hcbl : w_cbl w' = w_cbl w) by (by destruct Hat as (d0 & -> & _)).
  exists w'. split; [done|]. split; [done|]. split_and!.
  - intros cls. unfold effectiveObjectGetter. by rewrite run_bind, Hr.
  - unfold effectiveLongGetter. rewrite run_bind, Hr, run_bind. unfold MO_getValueOfProperty, cbl_gets. by rewrite run_gets, Hcbl.
  - unfold effectiveBoolGetter. rewrite run_bind, Hr, run_bind. unfold MO_getValueOfProperty, cbl_gets. by rewrite run_gets, Hcbl.
Qed.

(** The database of a property of an embedded object is that of the controller of the
    property's class, when the object is directly in a managed one; deeper down the
    question has no end. *)
Lemma embedded_database pkg p w self e mo property cls c moc db fuel :
  w_pkgs w !! pkg = Some p → dictionary_ok p → w_eos w !! self = Some e → eo_embeddingObject e = Some mo →
  belongsTo pkg w mo → rt_propertyClass env_rt (eo_class e) property = Some cls → cls ≠ MPManagedObject_class →
  controllerLookup p cls = Ok (Some c) → w_mocs w !! c = Some moc → moc_db moc = Some db →
  ∃ w', EO_databaseForModelProperty fuel self property w = (Ok db, w') ∧ atMemo pkg p w w'.
Proof.
  intros Hp Hok He Hmo Hbelongs Hcls Hbase Hlook Hmoc Hdb. pose proof (atMemo_refl _ _ _ Hp Hok) as Hat.
  destruct (lookup_atMemo _ _ _ _ cls Hat Hbase) as (w1 & H1 & Hat1). exists w1. split; [|done].
  assert (Hemb : embedderOf fuel self w = (Ok mo, w)).
  { destruct fuel; cbn [embedderOf]; rewrite run_bind; unfold getEO; rewrite He, Hmo, run_bind;
      unfold isManagedObject; rewrite run_gets, bool_decide_eq_true_2; try done;
      by destruct Hbelongs as (m & _ & _ & -> & _). }
  unfold EO_databaseForModelProperty. rewrite run_bind, Hemb, run_bind. unfold getEO. rewrite He. cbv beta match zeta.
  rewrite Hcls, run_bind, (run_packageController _ _ _ _ _ Hat Hbelongs), run_bind. cbn [controllerIn].
  rewrite H1, Hlook, run_bind. unfold databaseOfController. rewrite run_bind. unfold getMOC.
  destruct Hat1 as (d1 & -> & _). cbn [w_mocs memo_world set_pkgs]. by rewrite Hmoc, run_ret, Hdb.
Qed.

Lemma deeper_has_no_database w self e embedder property fuel :
  w_eos w !! self = Some e → eo_embeddingObject e = Some embedder → w_mos w !! embedder = None →
  EO_databaseForModelProperty fuel self property w = (Throw (Exception "hang" "the same embedding object again"), w).
Proof.
  intros He Hemb Hmo. unfold EO_databaseForModelProperty. rewrite run_bind.
  assert (embedderOf fuel self w = (Throw (Exception "hang" "the same embedding object again"), w)) as ->; [|done].
  induction fuel as [|fuel IH]; cbn [embedderOf]; rewrite run_bind; unfold getEO; rewrite He, Hemb, run_bind;
    unfold isManagedObject; rewrite run_gets, bool_decide_eq_false_2; try done;
    rewrite Hmo; by intros [? ?].
Qed.

(** Nobody but its creator can share an object: nothing is changed, and the error says so. *)
Lemma only_creators_share pkg p w self creator me :
  w_pkgs w !! pkg = Some p → dictionary_ok p → refersTo pkg p w self "creator" creator →
  model_document (w_cbl w) creator ≠ me ≫= model_document (w_cbl w) →
  ∃ w', MO_shareWithError me self w = (Ok (NO (Some (managedObjectError MPManagedObjectErrorCodeUserNotCreator))), w') ∧
    atMemo pkg p w w'.
Proof.
  intros Hp Hok Hcreator Hme.
  destruct (run_getModelProperty _ _ _ _ _ _ _ (atMemo_refl _ _ _ Hp Hok) Hcreator) as (w' & Hrun & Hat).
  exists w'. split; [|done]. unfold MO_shareWithError. rewrite run_bind, Hrun. destruct Hat as (d0 & -> & _).
  unfold cbl_gets. rewrite run_bind, run_gets, run_bind, run_gets. cbn [w_cbl memo_world set_pkgs].
  rewrite (bool_decide_eq_false_2 (_ = _)); [done|]. exact Hme.
Qed.

(** An object above which there is only itself, without a value: the search never ends. *)
Lemma circle_without_value pkg p w w1 key adjusted self fuel :
  atMemo pkg p w w1 → refersTo pkg p w self key self → model_get (w_cbl w) self adjusted = None →
  ∃ w', nearestWithValue fuel self self key adjusted w1 = (Throw (Exception "hang" "parents without end"), w').
Proof.
  intros Hat Hself Hnone. revert w1 Hat. induction fuel as [|fuel IH]; intros w1 Hat; cbn [nearestWithValue];
    rewrite run_bind; unfold MO_getValueOfProperty, cbl_gets; rewrite run_gets.
  all: assert (Hcbl : w_cbl w1 = w_cbl w) by (by destruct Hat as (d0 & -> & _)); rewrite Hcbl, Hnone, run_bind.
  all: destruct (run_parentWithKey _ _ _ _ _ _ _ Hat Hself) as (w2 & H2 & Hat2); rewrite H2.
  - by exists w2.
  - by apply IH.
Qed.
End ancestors.

(** ** At work: a section with a paragraph, and a note *)
Module Family.
Import Reference.
Local Open Scope string_scope.
#[local] Existing Instances Reference.store_CBL Reference.store_laws Reference.env Reference.factory.

Definition paragraph : oid := 20%positive.

Definition package0 : Package :=
  mkPackage "MPManuscriptsPackageController" (Some "pkg-1")
    (<["sectionsController" := sections]> {["notesController" := notes]}) ∅ true true "session-1".

(** The world of the reference instance, with a paragraph below the section. *)
Definition world : World store :=
  mkWorld
    (mkStore (<[paragraph := mkModel (Some "MPParagraph:0001") false (Some "1-b")
                               (<["objectType" := NSString "MPParagraph"]> {["parent" := NSString "MPSection:0001"]})
                               ∅ [] false]> models0) None ∅)
    (<[paragraph := mkMO "MPParagraph" (Some sections) None None None false (Some ∅) None]> (w_mos world0))
    (w_eos world0)
    (<[sections := mkController "MPSectionsController" package (Some "manuscript")
                     (<["MPParagraph:0001" := paragraph]> {["MPSection:0001" := section_]})]> (w_mocs world0))
    (w_pkgs world0) None (w_registry world0) (w_dbs world0) [] 100 0 30%positive.

Lemma section_found : registeredAs package0 world "MPSection:0001" sections "MPSection" section_.
Proof. split; [reflexivity|discriminate|reflexivity|]. by do 3 eexists. Qed.

Lemma note_found : registeredAs package0 world "MPNote:0001" notes "MPNote" note.
Proof. split; [reflexivity|discriminate|reflexivity|]. by do 3 eexists. Qed.

Lemma note_belongs : belongsTo package world note.
Proof. by do 3 eexists. Qed.

Lemma references_roundtrip_witness : ∃ w1 w2,
  setObjectIdentifierArrayValueForManagedObjectArray note (Some [section_; note]) "editorIDs" world = (Ok tt, w1) ∧
  getValueOfObjectIdentifierArrayProperty note "editorIDs" w1 = (Ok [section_; note], w2).
Proof.
  destruct (references_roundtrip world note "editorIDs" [section_; note] ["MPSection:0001"; "MPNote:0001"] package package0)
    as (w1 & Hset & Hget & _).
  - split; [by eexists|done].
  - exact note_belongs.
  - by intros [?|?].
  - reflexivity.
  - by apply dictionary_ok_empty.
  - by repeat constructor.
  - destruct Hget as (w2 & Hget).
    + constructor; [|constructor; [|constructor]]; do 2 eexists; [exact section_found|exact note_found].
    + by exists w1, w2.
Defined.

(** The paragraph has no title of its own: its effective title is the section's. *)
Lemma effective_value_witness : ∃ w',
  receiverForEffectivePropertyAccessorReceiver (λ _, "parent") 1 paragraph "effectiveTitle" world = (Ok section_, w').
Proof.
  destruct (effective_value (λ _, "parent") world package package0 paragraph
    (mkMO "MPParagraph" (Some sections) None None None false (Some ∅) None) "effectiveTitle" [paragraph; section_] 1)
    as (w' & Hrun & _); [reflexivity|by apply dictionary_ok_empty|reflexivity| |by cbn; lia|by exists w'].
  eapply ancestry_step; [|eapply (ancestry_root _ _ _ _ _ "MPSection"); [split; [by eexists|done]|reflexivity]].
  exists "MPSection", "MPSection:0001", sections, "MPSection".
  split; [split; [by eexists|done]|]. split; [by do 3 eexists|]. split; [reflexivity|].
  split; [exact section_found|]. vm_compute. by split.
Defined.

(** With the section deleted, the note's editors are those that are left. *)
Example deleted_editor :
  let gone := set_mocs (<[sections := mkController "MPSectionsController" package (Some "manuscript") ∅]> (w_mocs world))
                (set_cbl (put (w_cbl world) section_ fresh_model) world) in
  (getValueOfObjectIdentifierArrayProperty note "editorIDs"
     (set_cbl (model_set (w_cbl gone) note "editorIDs"
        (Some (NSArray [NSString "MPSection:0001"; NSString "MPNote:0001"]))) gone)).1 = Ok [note].
Proof. vm_compute. reflexivity. Qed.
End Family.
