(* ===== verification/Prototypes.v ===== *)
(** * Copies of prototypes

    A new object made after another one, its prototype, with the same properties and
    attachments: -newObjectWithPrototype:documentID: of
    src/Feather/Sources/Model Controllers/MPManagedObjectsController.m. *)
From Stdlib Require Import Ascii.
From stdpp Require Import base tactics strings numbers list gmap.
From S2P Require Import Prelude ObjC ReferenceRuntime Classes World Reference Controllers EmbeddedObject ManagedObject Frames ObjectTheorems ObjectReferences.

Record Attachment : Type := mkAttachment {
  at_name : string;
  at_contentType : option string;
  at_content : option (list ascii)
}.

(** What is asked of the document of a prototype: the keys of its [userProperties], and its
    attachments, [None] when [attachmentNames] is [nil]. *)
Class CBLDocuments (S : Type) := {
  doc_userProperties : S → oid → list string;
  model_attachments : S → oid → option (list Attachment);
  model_attach : S → oid → Attachment → S
}.

(** They belong to the saved document: writing to models leaves them alone. *)
Class CBLDocumentsLaws (S : Type) `{!CBL S} `{!CBLDocuments S} := {
  userProperties_set : ∀ s o p v o', doc_userProperties (model_set s o p v) o' = doc_userProperties s o';
  userProperties_init : ∀ s o db d o', o' ≠ o → doc_userProperties (model_init s o db d) o' = doc_userProperties s o';
  attachments_set : ∀ s o p v o', model_attachments (model_set s o p v) o' = model_attachments s o';
  attachments_init : ∀ s o db d o', o' ≠ o → model_attachments (model_init s o db d) o' = model_attachments s o'
}.

Section prototypes.
Context {S : Type} `{!CBL S} `{!Env} `{!CBLModelFactory S} `{!CBLDocuments S}.
Local Open Scope string_scope.
Notation M := (M (World S)).

(** [-prototypeClass] of the controller, when its class overrides it, and [-canFormPrototype]
    of a class. *)
Context (overriddenPrototypeClass : option string) (canFormPrototype : string → bool).

(** The values of the prototype, set on its copy. *)
Definition copyProperties (prototype obj : oid) (keys : list string) : M unit :=
  for_each keys (λ key,
    transformedValue ← MO_getValueOfProperty prototype key;
    _ ← MO_setValue_ofProperty obj transformedValue key;
    mret tt).

Definition copyAttachments (obj : oid) (attachments : list Attachment) : M unit :=
  for_each attachments (λ a,
    match at_contentType a, at_content a with
    | Some _, Some _ => _ ← cbl (λ s, model_attach s obj a); _ ← MO_save obj; mret tt
    | _, _ => mret tt
    end).

(* @src Feather/Sources/Model Controllers/MPManagedObjectsController.m 699 734 -[MPManagedObjectsController newObjectWithPrototype:documentID:] *)
Definition MOC_newObjectWithPrototype (self : cid) (prototype : option oid) (documentID : option string) : M oid :=
  match prototype with
  | None => throw (AssertionFailed "Expecting a non-nil prototype")
  | Some prototype =>
      m ← getMO prototype;
      managed ← MOC_class self;
      let prototypeClass := default managed overriddenPrototypeClass in
      _ ← NSAssert (isSubclassOfClass env_rt (mo_class m) prototypeClass) "Unexpected prototype class";
      _ ← NSAssert (canFormPrototype (mo_class m)) "Object cannot form prototype";
      doc ← cbl_gets (λ s, model_document s prototype);
      _ ← NSAssert (bool_decide (is_Some doc)) "Prototype should have a documentID";
      let instantiableClass := if String.eqb prototypeClass managed then mo_class m else managed in
      obj ← MO_initWithNewDocumentForController instantiableClass (Some self) None documentID;
      _ ← MO_setPrototype obj (Some prototype);
      keys ← cbl_gets (λ s, doc_userProperties s prototype);
      _ ← copyProperties prototype obj keys;
      attachments ← cbl_gets (λ s, model_attachments s prototype);
      _ ← (match attachments with
           | None => mret tt
           | Some l => _ ← MO_save obj; copyAttachments obj l
           end);
      mret obj
  end.
End prototypes.

Section copies.
Context {S : Type} `{!CBL S} `{!CBLLaws S} `{!Env} `{!CBLModelFactory S} `{!CBLDocuments S} `{!CBLDocumentsLaws S}.
Implicit Types w : World S.
Local Open Scope string_scope.

(** What is read after [v] has been written. *)
Definition agrees (read v : option value) : Prop :=
  match v, read with
  | Some x, Some y => y = x ∨ isEqual y x = true
  | None, None => True
  | _, _ => False
  end.

Lemma agrees_set (s : S) o p v : agrees (model_get (model_set s o p v) o p) v.
Proof.
  destruct v as [x|]; cbn; [|by rewrite get_set_nil].
  pose proof (get_set_same s o p x) as Hg. by destruct (model_get _ o p).
Qed.

Lemma agrees_string read (x : string) : agrees read (Some (NSString x)) → read = Some (NSString x).
Proof.
  destruct read as [y|]; [|done]. intros [->|He]; [done|]. destruct y; try done. by apply String.eqb_eq in He as ->.
Qed.

(** An object that the properties of a prototype can be copied to: of the class its type
    says, alive, and with none of the keys for an embedded object. *)
Record copyTarget w (obj : oid) (m : MPManagedObject) (keys : list string) : Prop := {
  ct_live : live w obj;
  ct_mo : w_mos w !! obj = Some m;
  ct_type : model_get (w_cbl w) obj "objectType" = Some (NSString (mo_class m));
  ct_plain : ∀ k, k ∈ keys → k ∉ embeddedProperties env_rt (mo_class m)
}.

(** The prototype's values are those of an object of the class. *)
Definition copySource w (prototype : oid) (class : string) (keys : list string) : Prop :=
  "_id" ∉ keys ∧ ("objectType" ∈ keys → model_get (w_cbl w) prototype "objectType" = Some (NSString class)).

Lemma copy_type w obj m keys :
  copyTarget w obj m keys → MO_setValue_ofProperty obj (Some (NSString (mo_class m))) "objectType" w = (Ok true, w).
Proof. intros [Hlive _ Htype _]. eapply run_identity_again; [done|by left|done|apply String.eqb_refl]. Qed.

Lemma run_copyProperties w prototype obj m keys :
  prototype ≠ obj → NoDup keys → copyTarget w obj m keys → copySource w prototype (mo_class m) keys →
  ∃ s, copyProperties prototype obj keys w = (Ok tt, set_cbl s w) ∧
    (∀ o, model_document s o = model_document (w_cbl w) o) ∧
    (∀ k, model_get s prototype k = model_get (w_cbl w) prototype k) ∧
    (∀ k, k ∈ keys → agrees (model_get s obj k) (model_get (w_cbl w) prototype k)) ∧
    (∀ k, k ∉ keys → model_get s obj k = model_get (w_cbl w) obj k) ∧
    model_attachments s prototype = model_attachments (w_cbl w) prototype.
Proof.
  intros Hne Hnd. revert w. induction Hnd as [|k keys Hk Hnd IH]; intros w Ht Hs.
  { exists (w_cbl w). split; [by destruct w|]. repeat (split; [done|]). split; [by intros k ?%not_elem_of_nil|done]. }
  destruct Ht as [Hlive Hm Htype Hplain], Hs as [Hid Hclass].
  assert (∃ s1, MO_setValue_ofProperty obj (model_get (w_cbl w) prototype k) k w = (Ok true, set_cbl s1 w) ∧
    live (set_cbl s1 w) obj ∧ (∀ o, model_document s1 o = model_document (w_cbl w) o) ∧
    (∀ k', model_get s1 prototype k' = model_get (w_cbl w) prototype k') ∧
    agrees (model_get s1 obj k) (model_get (w_cbl w) prototype k) ∧
    (∀ k', k' ≠ k → model_get s1 obj k' = model_get (w_cbl w) obj k') ∧
    model_attachments s1 prototype = model_attachments (w_cbl w) prototype)
    as (s1 & H1 & Hlive1 & Hdoc1 & Hproto1 & Hobj1 & Hrest1 & Hatt1).
  { destruct (decide (k = "objectType")) as [->|Hkt].
    - rewrite Hclass by apply list_elem_of_here. exists (w_cbl w). replace (set_cbl (w_cbl w) w) with w by by destruct w.
      split; [by apply (copy_type w obj m ("objectType" :: keys))|]. repeat (split; [done|]).
      split; [rewrite Htype; by left|done].
    - exists (model_set (w_cbl w) obj k (model_get (w_cbl w) prototype k)). split.
      + apply run_setValue; [done| |].
        * exists m. split; [done|]. left. apply Hplain, list_elem_of_here.
        * intros [->| ->]; [done|]. apply Hid, list_elem_of_here.
      + split; [by apply live_set|]. split; [intros o; apply document_set|].
        split; [intros k'; apply get_set_other; congruence|]. split; [apply agrees_set|].
        split; [intros k' Hk'; apply get_set_other; congruence|apply attachments_set]. }
  destruct (IH (set_cbl s1 w)) as (s & Hrun & Hdoc & Hproto & Hcopied & Hrest & Hatt).
  - split; [done|done| |intros k' Hk'; by apply Hplain, list_elem_of_further].
    cbn. destruct (decide (k = "objectType")) as [->|Hkt]; [|by rewrite Hrest1 by congruence].
    apply agrees_string. by rewrite <- Hclass by apply list_elem_of_here.
  - split; [by intros Hin; apply Hid, list_elem_of_further|]. intros Hin. cbn. rewrite Hproto1. by apply Hclass, list_elem_of_further.
  - exists s. split; [|split; [|split; [|split; [|split]]]].
    + unfold copyProperties in *. cbn [for_each]. rewrite run_bind, run_bind. unfold MO_getValueOfProperty at 1, cbl_gets.
      rewrite run_gets, run_bind, H1, run_ret. exact Hrun.
    + intros o. by rewrite Hdoc, <- Hdoc1.
    + intros k'. by rewrite Hproto, <- Hproto1.
    + intros k' [->|Hin]%elem_of_cons; [by rewrite Hrest|]. rewrite <- Hproto1. by apply Hcopied.
    + intros k' [Hk' Hin]%not_elem_of_cons. rewrite Hrest by done. by apply Hrest1.
    + rewrite Hatt. exact Hatt1.
Qed.


(** A new object from a prototype without attachments: the copy is a new object of the prototype's class, with an
    identifier of its own and every value of the prototype's user properties, and it
    remembers the prototype, unless the prototype's own properties name another one; the
    prototype keeps its values. *)
Theorem new_object_from_prototype (canForm : string → bool) w self moc db managed prototype m d :
  creatable w (mo_class m) self moc db managed → canForm (mo_class m) = true →
  w_mos w !! prototype = Some m → model_document (w_cbl w) prototype = Some d → prototype ≠ w_nextOid w →
  let obj := w_nextOid w in
  let keys := doc_userProperties (w_cbl w) prototype in
  NoDup keys → copySource w prototype (mo_class m) keys →
  (∀ k, k ∈ keys → k ∉ embeddedProperties env_rt (mo_class m)) →
  model_attachments (w_cbl w) prototype = None →
  ∃ w', MOC_newObjectWithPrototype None canForm self (Some prototype) None w = (Ok obj, w') ∧
    model_document (w_cbl w') obj = Some (mo_class m ++ ":" ++ env_uuid (w_uuids w)) ∧
    (∀ k, k ∈ keys → agrees (model_get (w_cbl w') obj k) (model_get (w_cbl w) prototype k)) ∧
    ("prototype" ∉ keys → model_get (w_cbl w') obj "prototype" = Some (NSString d)) ∧
    (∀ k, model_get (w_cbl w') prototype k = model_get (w_cbl w) prototype k).
Proof.
  intros Hcr Hform Hm Hd Hne obj keys Hnd Hsrc Hplain Hatt.
  destruct (run_newObject w _ _ _ _ _ Hcr) as (w1 & m1 & Hrun1 & Hm1 & Hcls & _ & _ & _ & Hcbl1).
  set (newID := mo_class m ++ ":" ++ env_uuid (w_uuids w)) in *. fold obj in Hrun1, Hm1, Hcbl1, Hne. clearbody obj.
  assert (model_document (w_cbl w1) obj = Some newID ∧ model_document (w_cbl w1) prototype = Some d) as [Hd1 Hdp].
  { by rewrite Hcbl1, !document_set, document_init, document_init_other. }
  assert (live w1 obj) as Hlive1 by (split; [by eexists|by rewrite Hcbl1, docIsDeleted_set, docIsDeleted_init]).
  set (w2 := set_cbl (model_set (w_cbl w1) obj "prototype" (Some (NSString d))) w1).
  assert (∀ k, model_get (w_cbl w2) prototype k = model_get (w_cbl w) prototype k) as Hproto.
  { intros k. subst w2. cbn. rewrite Hcbl1, !get_set_other by congruence. by rewrite get_init_other. }
  assert (model_attachments (w_cbl w2) prototype = None) as Hatt2.
  { subst w2. cbn. by rewrite Hcbl1, !attachments_set, attachments_init. }
  assert (doc_userProperties (w_cbl w2) prototype = keys) as Hkeys.
  { subst w2. cbn. by rewrite Hcbl1, !userProperties_set, userProperties_init. }
  destruct (run_copyProperties w2 prototype obj m1 keys) as (s & Hrun & Hdoc & Hsame & Hcopied & Hrest & Hatt3); try done.
  - split; [by apply live_set|done| |by rewrite Hcls]. subst w2. cbn. rewrite get_set_other by congruence.
    apply agrees_string. rewrite Hcls, Hcbl1. apply agrees_set.
  - rewrite Hcls. destruct Hsrc as [Hid Htype]. split; [done|]. intros Hin. rewrite Hproto. by apply Htype.
  - exists (set_cbl s w2). split; [|split; [|split; [|split]]].
    + unfold MOC_newObjectWithPrototype. pose proof Hcr as [_ _ Hmoc _ Hman Hsub].
      rewrite run_bind. unfold getMO. rewrite Hm, run_bind. unfold MOC_class, getMOC. rewrite run_bind, Hmoc.
      unfold lift. rewrite Hman. cbn zeta. change (default managed None) with managed.
      rewrite run_bind, run_NSAssert, Hsub, run_bind, run_NSAssert, Hform, run_bind. unfold cbl_gets at 1.
      rewrite run_gets, Hd, run_bind, run_NSAssert, bool_decide_eq_true_2 by eauto. rewrite String.eqb_refl.
      rewrite run_bind, Hrun1, run_bind. unfold MO_setPrototype, MO_documentID, cbl_gets at 1.
      rewrite !run_bind, run_gets, Hdp, run_ret, run_ret. cbv beta match.
      rewrite (run_MO_set_atom w1 obj _ _ m1) by (first [done|by intros [?|?]]). fold w2.
      rewrite run_bind. unfold cbl_gets at 1. rewrite run_gets, Hkeys, run_bind, Hrun, run_bind.
      unfold cbl_gets. rewrite run_gets. cbn [w_cbl set_cbl]. by rewrite Hatt3, Hatt2.
    + cbn. rewrite Hdoc. subst w2. cbn. by rewrite document_set.
    + intros k Hk. cbn. rewrite <- Hproto. by apply Hcopied.
    + intros Hp. cbn. rewrite Hrest by done. apply agrees_string, agrees_set.
    + intros k. cbn. by rewrite Hsame.
Qed.
End copies.

(** ** The theorem at work on the reference store *)
#[local] Existing Instances Reference.store_CBL Reference.store_laws Reference.env Reference.factory.

(** The documents of the store: their saved values, and no attachments. *)
#[local] Instance store_documents : CBLDocuments Reference.store := {
  doc_userProperties s o := filter (λ k, k ≠ "_id"%string) (map_to_list (Reference.m_disk (Reference.at_ s o))).*1;
  model_attachments s o := None;
  model_attach s o a := s
}.

#[local] Instance store_documents_laws : CBLDocumentsLaws Reference.store.
Proof. split; by Reference.store_solver. Qed.

(** The note of the reference store, saved with a title. *)
Definition savedWorld : World Reference.store :=
  set_cbl (Reference.save1 (Reference.set (w_cbl Reference.world0) Reference.note "title" (Some (NSString "Intro"))) Reference.note)
    Reference.world0.

Lemma saved_keys : doc_userProperties (w_cbl savedWorld) Reference.note = ["objectType"; "title"]%string.
Proof. vm_compute. reflexivity. Qed.

Lemma new_object_from_prototype_witness :
  ∃ w', MOC_newObjectWithPrototype None (λ _, true) Reference.notes (Some Reference.note) None savedWorld
        = (Ok 10%positive, w') ∧
    agrees (model_get (w_cbl w') 10%positive "title") (Some (NSString "Intro")) ∧
    model_get (w_cbl w') 10%positive "prototype" = Some (NSString "MPNote:0001").
Proof.
  edestruct (new_object_from_prototype (λ _, true) savedWorld Reference.notes) with (prototype := Reference.note)
    (m := (mkMO "MPNote" (Some Reference.notes) None None None true (Some ∅) None)%string)
    as (w' & Hrun & _ & Hcopied & Hproto & _);
    [split; try reflexivity; discriminate|reflexivity|vm_compute; reflexivity|reflexivity|discriminate| | | |reflexivity|].
  - rewrite saved_keys. apply (bool_decide_unpack _). vm_compute. exact I.
  - rewrite saved_keys. split; [apply (bool_decide_unpack _); vm_compute; exact I|intros _; vm_compute; reflexivity].
  - rewrite saved_keys. apply Forall_forall, (bool_decide_unpack _). vm_compute. exact I.
  - rewrite saved_keys in Hcopied, Hproto. exists w'. split; [exact Hrun|]. split.
    + exact (Hcopied "title"%string ltac:(apply (bool_decide_unpack _); vm_compute; exact I)).
    + apply Hproto, (bool_decide_unpack _). vm_compute. exact I.
Defined.
