(* ===== verification/Attachments.v ===== *)
(** * Attachments of managed objects

    Attaching a string, the contents of a file, and replacing an attachment by the contents
    of a file: src/Feather/Sources/Model/MPManagedObject.m.  CouchbaseLite keeps the
    attachments ([CBLAttachments]); reading a URL, the MIME type of a file and the digest of
    data are parameters. *)
From Stdlib Require Import Ascii.
From stdpp Require Import base tactics strings numbers list gmap.
From S2P Require Import Prelude ObjC ReferenceRuntime Classes World Reference Controllers EmbeddedObject ManagedObject Frames ObjectTheorems ObjectReferences.

Definition data := list ascii.

(** The attachments of a model: their names, and the type and the contents of each. *)
Class CBLAttachments (A : Type) := {
  attachmentNames : A → list string;
  attachmentNamed : A → string → option (string * data);
  (** [-setAttachmentNamed:withContentType:content:] and, for [contentURL:], what is at the URL *)
  setAttachmentNamed : A → string → string → option data → A;
  removeAttachmentNamed : A → string → A
}.

(** What the code relies on: content that is there is attached, and no other attachment is
    touched; a name is listed when there is something under it. *)
Class CBLAttachmentsLaws (A : Type) `{!CBLAttachments A} := {
  names_spec : ∀ a name, name ∈ attachmentNames a ↔ is_Some (attachmentNamed a name);
  named_set : ∀ a name type body, attachmentNamed (setAttachmentNamed a name type (Some body)) name = Some (type, body);
  named_set_other : ∀ a name type body name', name' ≠ name →
    attachmentNamed (setAttachmentNamed a name type body) name' = attachmentNamed a name';
  named_remove_other : ∀ a name name', name' ≠ name →
    attachmentNamed (removeAttachmentNamed a name) name' = attachmentNamed a name'
}.

Section attachments.
Context {A : Type} `{!CBLAttachments A}.
(** [[NSData dataWithContentsOfURL:url options:0 error:err]] *)
Context (contentsOfURL : string → data + NSError).
Context (isFileURL : string → bool) (mimeTypeForFileAtURL : string → string + NSError).
Context (UTF8 : string → data) (sha1Digest : data → data).
(** [-save:] of the object *)
Context (save : A → outcome * A).
Local Open Scope string_scope.

Definition readAs {R} (url : string) (k : data → M A R) (failed : NSError → R) : M A R :=
  match contentsOfURL url with inl d => k d | inr e => mret (failed e) end.

Definition saving : M A outcome := λ a, (Ok (save a).1, (save a).2).

(* @src Feather/Sources/Model/MPManagedObject.m 703 722 -[MPManagedObject createAttachmentWithName:withString:type:error:] *)
Definition createAttachmentWithString (name string : string) (type : option String.string) : M A outcome :=
  match type with
  | None => mret (NO (Some (managedObjectError MPManagedObjectErrorCodeTypeMissing)))
  | Some t =>
      _ ← modify (λ a, setAttachmentNamed a name t (Some (UTF8 string)));
      mret YES
  end.

(** The MIME type of a file is asked for and not used: without a type given, the answer is
    [NO]. *)
(* @src Feather/Sources/Model/MPManagedObject.m 724 752 -[MPManagedObject createAttachmentWithName:withContentsOfURL:type:error:] *)
Definition createAttachmentWithContentsOfURL (name url : string) (type : option string) : M A outcome :=
  let unknown := match type with
                 | None => if isFileURL url
                           then match mimeTypeForFileAtURL url with inl _ => None | inr e => Some e end
                           else None
                 | Some _ => None
                 end in
  match unknown with
  | Some e => mret (NO (Some e))
  | None =>
      match type with
      | None => mret (NO (Some (managedObjectError MPManagedObjectErrorCodeTypeMissing)))
      | Some t => readAs url (λ body, _ ← modify (λ a, setAttachmentNamed a name t (Some body)); mret YES)
                         (λ e, NO (Some e))
      end
  end.

(** Whether what is attached has the digest of what is at the URL; it is removed when not. *)
Definition replaceDifferent (newAttachmentURL name : string) (missing : NSError) : M A (bool + NSError) :=
  attachment ← gets (λ a, attachmentNamed a name);
  match attachment with
  | None => mret (inr missing)
  | Some (_, attachmentData) =>
      readAs newAttachmentURL
        (λ newAttachmentData,
           if bool_decide (sha1Digest attachmentData = sha1Digest newAttachmentData) then mret (inl true)
           else _ ← modify (λ a, removeAttachmentNamed a name); mret (inl false))
        inr
  end.

(** [missing] is the error of reading an attachment whose contents are not there. *)
(* @src Feather/Sources/Model/MPManagedObject.m 754 797 -[MPManagedObject attachContentsOfURL:withAttachmentName:contentType:error:] *)
Definition attachContentsOfURL (newAttachmentURL name contentType : string) (missing : NSError) : M A outcome :=
  names ← gets attachmentNames;
  matches ← (if bool_decide (name ∈ names) then replaceDifferent newAttachmentURL name missing else mret (inl false));
  match matches with
  | inr e => mret (NO (Some e))
  | inl true => mret YES
  | inl false =>
      _ ← modify (λ a, setAttachmentNamed a name contentType
                         (match contentsOfURL newAttachmentURL with inl d => Some d | inr _ => None end));
      attachment ← gets (λ a, attachmentNamed a name);
      _ ← NSAssert (bool_decide (is_Some attachment)) "No attachment found with name";
      saving
  end.

Context `{!CBLAttachmentsLaws A}.

(** Attaching a file under a name answers that it is attached without saving when
    what is there has the digest of the file; otherwise the file's contents are put there,
    with the type given, every other attachment is as it was, and the answer is that of
    saving.  When something is there and the file cannot be read, the error is that of
    reading it and nothing has changed. *)
Theorem attaching_contents (a : A) newAttachmentURL name contentType missing :
  match contentsOfURL newAttachmentURL, attachmentNamed a name with
  | inr e, Some _ => attachContentsOfURL newAttachmentURL name contentType missing a = (Ok (NO (Some e)), a)
  | inl new, Some (_, old) =>
      if bool_decide (sha1Digest old = sha1Digest new)
      then attachContentsOfURL newAttachmentURL name contentType missing a = (Ok YES, a)
      else ∃ a1, attachContentsOfURL newAttachmentURL name contentType missing a = (Ok (save a1).1, (save a1).2) ∧
             attachmentNamed a1 name = Some (contentType, new) ∧
             ∀ other, other ≠ name → attachmentNamed a1 other = attachmentNamed a other
  | inl new, None =>
      ∃ a1, attachContentsOfURL newAttachmentURL name contentType missing a = (Ok (save a1).1, (save a1).2) ∧
        attachmentNamed a1 name = Some (contentType, new) ∧
        ∀ other, other ≠ name → attachmentNamed a1 other = attachmentNamed a other
  | inr _, None => True
  end.
Proof.
  pose proof (names_spec a name) as Hnames. unfold attachContentsOfURL.
  destruct (attachmentNamed a name) as [[t old]|] eqn:Enamed.
  - assert (Hin : bool_decide (name ∈ attachmentNames a) = true) by (apply bool_decide_eq_true; apply Hnames; by eexists).
    destruct (contentsOfURL newAttachmentURL) as [new|e] eqn:Enew.
    + destruct (decide (sha1Digest old = sha1Digest new)) as [Hdigest|Hdigest];
        [rewrite (bool_decide_eq_true_2 _ Hdigest)|rewrite (bool_decide_eq_false_2 _ Hdigest)].
      * rewrite run_bind, run_gets, Hin. unfold replaceDifferent, readAs.
        by rewrite run_bind, run_bind, run_gets, Enamed, Enew, bool_decide_eq_true_2.
      * exists (setAttachmentNamed (removeAttachmentNamed a name) name contentType (Some new)).
        rewrite run_bind, run_gets, Hin. unfold replaceDifferent, readAs.
        rewrite run_bind, run_bind, run_gets, Enamed, Enew, (bool_decide_eq_false_2 (sha1Digest _ = _)) by done.
        rewrite run_bind, run_modify, run_ret, run_bind, run_modify, run_bind, run_gets, run_bind, run_NSAssert.
        rewrite named_set. split; [done|]. split; [done|].
        intros other Ho. by rewrite named_set_other, named_remove_other.
    + rewrite run_bind, run_gets, Hin. unfold replaceDifferent, readAs.
      by rewrite run_bind, run_bind, run_gets, Enamed, Enew.
  - assert (Hout : bool_decide (name ∈ attachmentNames a) = false)
      by (apply bool_decide_eq_false; intros Hin%Hnames; by apply is_Some_None in Hin).
    destruct (contentsOfURL newAttachmentURL) as [new|e] eqn:Enew; [|done].
    exists (setAttachmentNamed a name contentType (Some new)).
    rewrite run_bind, run_gets, Hout, run_bind, run_ret, run_bind, run_modify, run_bind, run_gets, run_bind, run_NSAssert.
    rewrite named_set. split; [done|]. split; [done|]. intros other Ho. by rewrite named_set_other.
Qed.

(** Without a type, contents of a URL are never attached - not even of a file whose type is
    known. *)
Lemma type_is_needed name url a :
  ∃ e, createAttachmentWithContentsOfURL name url None a = (Ok (NO (Some e)), a).
Proof.
  unfold createAttachmentWithContentsOfURL. destruct (isFileURL url); [|by eexists].
  destruct (mimeTypeForFileAtURL url); by eexists.
Qed.
End attachments.

(** Attachments in a map satisfy the laws. *)
#[export] Instance gmap_attachments : CBLAttachments (gmap string (string * data)) := {
  attachmentNames a := (map_to_list a).*1;
  attachmentNamed a name := a !! name;
  setAttachmentNamed a name type body := match body with Some d => <[name := (type, d)]> a | None => a end;
  removeAttachmentNamed a name := delete name a
}.
#[export] Instance gmap_attachments_laws : CBLAttachmentsLaws (gmap string (string * data)).
Proof.
  split; cbn; intros.
  - rewrite list_elem_of_fmap. split.
    + intros ([k v] & -> & Hin%elem_of_map_to_list). by eexists.
    + intros [v Hv]. exists (name, v). split; [done|]. by apply elem_of_map_to_list.
  - by rewrite lookup_insert_eq.
  - destruct body; [by rewrite lookup_insert_ne|done].
  - by rewrite lookup_delete_ne.
Qed.

Lemma attaching_contents_witness :
  let run name := attachContentsOfURL (λ url, inl (String.list_ascii_of_string url)) id (λ a, (YES, a)) "file:///new.png" name "image/png"
                    {| err_domain := "NSCocoaErrorDomain"; err_code := 260 |} in
  let a0 : gmap string (string * data) := {["cover" := ("image/png", String.list_ascii_of_string "old")]}%string in
  ∃ a1, run "cover"%string a0 = (Ok YES, a1) ∧ attachmentNamed a1 "cover" = Some ("image/png"%string, String.list_ascii_of_string "file:///new.png").
Proof.
  intros run a0.
  destruct (attaching_contents (λ url, inl (String.list_ascii_of_string url)) id (λ a, (YES, a)) a0 "file:///new.png" "cover" "image/png"
              {| err_domain := "NSCocoaErrorDomain"; err_code := 260 |}) as (a1 & Hrun & Hnamed & _).
  exists a1. exact (conj Hrun Hnamed).
Defined.
