(* ===== verification/EmbeddedStorage.v ===== *)
(** * How embedded objects are stored

    The dictionary form an embedded object is written as, and back
    (MPEmbeddedObject.m [-externalizePropertyValue:], [-dictionaryRepresentation];
    MPManagedObject.m [-externalizePropertyValue:]), the dynamic setters, saving
    through the embedding object, and references across the pasteboard. *)
From Stdlib Require Import Ascii.
From stdpp Require Import base tactics strings numbers list gmap.
From S2P Require Import Prelude ObjC ReferenceRuntime Classes World Reference Controllers EmbeddedObject ManagedObject Frames.

(** [CBLJSON]: Base64 and ISO-8601 dates, with what is documented of them: dates are written
    to the millisecond. *)
Class CBLJSON := {
  base64StringWithData : list Z → string;
  dataWithBase64String : string → option (list Z);
  JSONObjectWithDate : Z → string;
  dateWithJSONObject : string → option Z;
  toMillisecond : Z → Z
}.
Class CBLJSONLaws `{!CBLJSON} := {
  base64_roundtrip : ∀ b, dataWithBase64String (base64StringWithData b) = Some b;
  date_roundtrip : ∀ t, dateWithJSONObject (JSONObjectWithDate t) = Some (toMillisecond t);
  millisecond_roundtrip : ∀ t, toMillisecond (toMillisecond t) = toMillisecond t
}.

Section storage.
Context {S : Type} `{!CBL S} `{!Env} `{!CBLModelFactory S} `{!CBLJSON}.
Local Open Scope string_scope.
Notation M := (M (World S)).

Definition hang {A} : M A := throw (Exception "hang" "embedded objects contain each other").

(** An element of a collection: embedded objects are cached and externalised,
    anything else is kept. *)
Definition EO_externalizeElement (externalize : oid → M value) (self : oid) (obj : value) : M value :=
  match obj with
  | MPObj o =>
      b ← isEmbeddedObject o;
      if (b : bool) then _ ← EO_cacheEmbeddedObjectByIdentifier self (Some o); externalize o
      else mret obj
  | _ => mret obj
  end.

(* @src Feather/Sources/Model/MPEmbeddedObject.m 374 438 -[MPEmbeddedObject externalizePropertyValue:] *)
Definition EO_externalizePropertyValue (externalize : oid → M value) (self : oid) (v : value) : M value :=
  match v with
  | NSData b => mret (NSString (base64StringWithData b))
  | NSDate t => mret (NSString (JSONObjectWithDate t))
  | MPObj o =>
      isMO ← isManagedObject o;
      if (isMO : bool) then
        doc ← cbl_gets (λ s, model_document s o);
        match doc with
        | Some d => mret (NSString d)
        | None => throw (AssertionFailed "[value document]")
        end
      else _ ← EO_cacheEmbeddedObjectByIdentifier self (Some o); externalize o
  | NSArray l => l' ← map_each l (EO_externalizeElement externalize self); mret (NSArray l')
  | NSDictionary d =>
      d' ← map_each d (λ kv, v' ← EO_externalizeElement externalize self kv.2; mret (kv.1, v'));
      mret (NSDictionary d')
  | _ => mret v
  end.

(* @src Feather/Sources/Model/MPEmbeddedObject.m 440 449 -[MPEmbeddedObject dictionaryRepresentation] *)
Fixpoint EO_dictionaryRepresentation_from (fuel : nat) (self : oid) : M value :=
  match fuel with
  | O => hang
  | Datatypes.S n =>
      e ← getEO self;
      d ← map_each (map_to_list (eo_properties e)) (λ kv,
            v ← EO_externalizePropertyValue (EO_dictionaryRepresentation_from n) self kv.2; mret (kv.1, v));
      mret (NSDictionary d)
  end.

(** Objects nested in each other form a chain of distinct objects, so the
    number of embedded objects bounds the depth. *)
(* @src Feather/Sources/Model/MPEmbeddedObject.m 466 469 -[MPEmbeddedObject externalize] *)
Definition EO_externalize (self : oid) : M value :=
  n ← stackDepth; EO_dictionaryRepresentation_from (1 + n) self.

(** [firstObjectMatching:] and [anyObjectMatching:] of the collection branches. *)
Definition holdsObject (v : value) : bool := match v with MPObj _ => true | _ => false end.

Definition MO_externalizeElement (obj : value) : M (option value) :=
  match obj with
  | MPObj o =>
      b ← isEmbeddedObject o;
      if (b : bool) then Some <$> EO_externalize o
      else d ← MO_documentID o; mret (Some (NSString d))
  | _ => mret (Some obj)
  end.

(* @src Feather/Sources/Model/MPManagedObject.m 1423 1493 -[MPManagedObject externalizePropertyValue:] *)
Definition MO_externalizePropertyValue (super : value → M value) (self : oid) (v : value) : M value :=
  match v with
  | MPObj o =>
      b ← isEmbeddedObject o;
      if (b : bool) then EO_externalize o else super v
  | NSArray l =>
      if existsb holdsObject l
      then l' ← map_each l MO_externalizeElement; mret (NSArray (omap id l'))
      else mret v
  | NSDictionary d =>
      if existsb (λ kv, holdsObject kv.2) d
      then d' ← map_each d (λ kv, v' ← MO_externalizeElement kv.2; mret (kv.1, v'));
           mret (NSDictionary (omap (λ kv, v' ← snd kv; Some (kv.1, v')) d'))
      else mret v
  | _ => super v
  end.

(** ** Typed getters *)

(* @src Feather/Sources/Model/MPEmbeddedObject.m 711 729 -[MPEmbeddedObject getDateProperty:] *)
Definition EO_getDateProperty (self : oid) (property : string) : M (option Z) :=
  v ← EO_getValueOfProperty self property;
  mret (match v with
        | Some (NSString s) => dateWithJSONObject s
        | Some (NSDate t) => Some t
        | _ => None
        end).

(* @src Feather/Sources/Model/MPEmbeddedObject.m 731 746 -[MPEmbeddedObject getDataProperty:] *)
Definition EO_getDataProperty (self : oid) (property : string) : M (option (list Z)) :=
  v ← EO_getValueOfProperty self property;
  mret (match v with
        | Some (NSString s) => dataWithBase64String s
        | Some (NSData b) => Some b
        | _ => None
        end).

(** ** Setters *)

(* @src Feather/Sources/Model/MPEmbeddedObject.m 794 813 -[MPEmbeddedObject setModel:forProperty:] *)
Definition EO_setModel_forProperty (self : oid) (model : option oid) (property : string) : M unit :=
  existing ← EO_getValueOfProperty self property;
  docID ← (match model with Some o => cbl_gets (λ s, model_document s o) | None => mret None end);
  let same := match existing with
              | Some (NSString s) => bool_decide (Some s = docID)
              | _ => false
              end in
  if same then mret tt
  else
    _ ← (match model with
         | Some _ =>
             match docID with
             | Some d => updEO self (λ e, eo_with_properties (<[property := NSString d]> (eo_properties e)) e)
             | None => throw (AssertionFailed "model.document")
             end
         | None => updEO self (λ e, eo_with_properties (delete property (eo_properties e)) e)
         end);
    n ← stackDepth;
    markNeedsSave (1 + n) self.

(** What the dynamic setter of a property does, by the class of the property. *)
Inductive setter : Type :=
  | ModelSetter | EmbeddedObjectSetter | EmbeddedArraySetter | EmbeddedDictionarySetter | BasicSetter.

(* @src Feather/Sources/Model/MPEmbeddedObject.m 815 886 +[MPEmbeddedObject impForSetterOfProperty:ofClass:] *)
Definition EO_impForSetterOfProperty (property : string) (propertyClass : option string) : setter :=
  if propClassIn propertyClass "CBLModel" then ModelSetter
  else if propClassIn propertyClass MPEmbeddedObject_class then EmbeddedObjectSetter
  else if propClassIn propertyClass "NSArray" && hasPrefix property "embedded" then EmbeddedArraySetter
  else if propClassIn propertyClass "NSDictionary" && hasPrefix property "embedded" then EmbeddedDictionarySetter
  else BasicSetter.

(* @src Feather/Sources/Model/MPManagedObject.m 1495 1515 +[MPManagedObject impForSetterOfProperty:ofClass:] *)
Definition MO_impForSetterOfProperty (property : string) (propertyClass : option string) : setter :=
  if propClassIn propertyClass MPEmbeddedObject_class then EmbeddedObjectSetter
  else if propClassIn propertyClass "NSArray" && hasPrefix property "embedded" then EmbeddedArraySetter
  else if propClassIn propertyClass "NSDictionary" && hasPrefix property "embedded" then EmbeddedDictionarySetter
  else BasicSetter.

(** A message [removeEmbeddedObjectFromByIdentifierCache:] or
    [cacheEmbeddedObjectByIdentifier:] with an element of a collection. *)
Definition onElement (f : option oid → M unit) (v : value) : M unit :=
  match v with
  | MPObj o => b ← isEmbeddedObject o; if (b : bool) then f (Some o) else unrecognizedSelector
  | _ => unrecognizedSelector
  end.

Definition valuesOf (v : option value) : M (list value) :=
  match v with
  | Some (NSDictionary d) => mret d.*2
  | Some (NSArray l) | Some (NSSet l) => mret l
  | None => mret []
  | Some _ => unrecognizedSelector
  end.

(** The blocks of the dynamic setters. *)
(* @src Feather/Sources/Model/MPEmbeddedObject.m 817 886 +[MPEmbeddedObject impForSetterOfProperty:ofClass:] (part) *)
Definition EO_setProperty (self : oid) (property : string) (v : option value) : M unit :=
  c ← classOf self;
  let cls := rt_propertyClass env_rt c property in
  let store := r ← EO_setValue_ofProperty self v (Some property); NSAssert r "result" in
  match EO_impForSetterOfProperty property cls with
  | ModelSetter => EO_setModel_forProperty self (match v with Some (MPObj o) => Some o | _ => None end) property
  | EmbeddedObjectSetter =>
      _ ← (match v with
           | Some x => onElement (EO_cacheEmbeddedObjectByIdentifier self) x
           | None => existing ← collectionForKey self property cls;
                     match existing with
                     | Some x => onElement (EO_removeEmbeddedObjectFromByIdentifierCache self) x
                     | None => mret tt
                     end
           end);
      store
  | EmbeddedArraySetter | EmbeddedDictionarySetter =>
      existingValues ← collectionForKey self property cls;
      old ← valuesOf existingValues;
      _ ← for_each old (onElement (EO_removeEmbeddedObjectFromByIdentifierCache self));
      new ← valuesOf v;
      _ ← for_each new (onElement (EO_cacheEmbeddedObjectByIdentifier self));
      store
  | BasicSetter => store
  end.

(** ** Saving *)

(* @src Feather/Sources/Model/MPEmbeddedObject.m 471 482 -[MPEmbeddedObject save:] *)
Fixpoint EO_save_error (fuel : nat) (self : oid) : M outcome :=
  e ← getEO self;
  _ ← (match EO_identifier e with
       | Some i => NSAssert (bool_decide (head (componentsSeparatedBy ":"%char i) = Some (eo_class e)))
                     "Unexpected identifier for object"
       | None => mret tt
       end);
  match eo_embeddingObject e with
  | None => mret (NO None)
  | Some o =>
      isMO ← isManagedObject o;
      if (isMO : bool) then MO_save_error o
      else match fuel with
           | O => throw (Exception "hang" "the chain of embedding objects does not end")
           | Datatypes.S n => EO_save_error n o
           end
  end.

(* @src Feather/Sources/Model/MPEmbeddedObject.m 484 495 -[MPEmbeddedObject save] *)
Definition EO_save (self : oid) : M bool :=
  n ← stackDepth;
  o ← EO_save_error n self;
  match o with
  | YES => mret true
  | NO err => _ ← postErrorNotification err; mret false
  end.

(** ** References *)

(* @src Feather/Sources/Model/MPEmbeddedObject.m 938 959 -[MPEmbeddedObject referableDictionaryRepresentation] *)
Definition EO_referableDictionaryRepresentation (self : oid) : M (option (list (string * value))) :=
  e ← getEO self;
  embeddingObjectID ← (match eo_embeddingObject e with
                       | None => mret None
                       | Some o => isEO ← isEmbeddedObject o;
                                   if (isEO : bool) then p ← getEO o; mret (EO_identifier p)
                                   else d ← MO_documentID o; mret (Some d)
                       end);
  match embeddingObjectID with
  | None => mret None
  | Some objID =>
      mo ← EO_embeddingManagedObject self;
      moID ← (match mo with Some o => d ← MO_documentID o; mret (Some d) | None => mret None end);
      packageID ← (match mo with
                   | Some o => m ← getMO o;
                               match mo_controller m with
                               | Some c => moc ← getMOC c; p ← getPkg (moc_package moc);
                                           mret (pkg_fullyQualifiedIdentifier p)
                               | None => mret None
                               end
                   | None => mret None
                   end);
      registry ← gets w_registry;
      _ ← NSAssert (bool_decide (is_Some (packageID ≫= λ i, registry !! i))) "Failed to resolve package controller";
      match EO_identifier e, eo_embeddingKey e, moID, packageID with
      | Some i, Some k, Some m, Some p =>
          mret (Some [("_id", NSString i); ("embeddingObject", NSString objID); ("embeddingKey", NSString k);
                      ("embeddingManagedObject", NSString m); ("databasePackageID", NSString p)])
      | _, _, _, _ => throw (Exception "NSInvalidArgumentException" "attempt to insert nil object")
      end
  end.

(* @src Feather/Sources/Model/MPEmbeddedObject.m 1050 1060 +[MPEmbeddedObject objectWithReferableDictionaryRepresentation:] *)
Definition EO_objectWithReferableDictionaryRepresentation (rep : list (string * value)) : M (option value) :=
  registry ← gets w_registry;
  match stringOf (assoc "databasePackageID" rep) ≫= λ i, registry !! i with
  | None => throw (AssertionFailed "pkgc")
  | Some pkgc =>
      mo ← PKG_objectWithIdentifier pkgc (stringOf (assoc "embeddingManagedObject" rep));
      match mo, stringOf (assoc "embeddingKey" rep) with
      | Some o, Some key => MO_valueForKey o key
      | Some _, None => throw (Exception "NSInvalidArgumentException" "nil key")
      | None, _ => mret None
      end
  end.

(* @src Feather/Sources/Model/MPManagedObject.m 1548 1565 -[MPManagedObject referableDictionaryRepresentation] *)
Definition MO_referableDictionaryRepresentation (self : oid) : M (option (list (string * value))) :=
  docID ← MO_documentID self;
  deleted ← MO_isDeleted self;
  if (deleted : bool) then mret None
  else
    m ← getMO self;
    packageID ← (match mo_controller m with
                 | Some c => moc ← getMOC c; p ← getPkg (moc_package moc); mret (pkg_fullyQualifiedIdentifier p)
                 | None => mret None
                 end);
    registry ← gets w_registry;
    _ ← NSAssert (bool_decide (is_Some (packageID ≫= λ i, registry !! i))) "Failed to resolve package controller";
    objectType ← MO_getValueOfProperty self "objectType";
    _ ← NSAssert (bool_decide (is_Some objectType)) "Missing 'objectType' property";
    mret (Some [("_id", NSString docID); ("objectType", NSString (mo_class m));
                ("databasePackageID", NSString (default "" packageID))]).

(* @src Feather/Sources/Model/MPManagedObject.m 1683 1710 +[MPManagedObject objectWithReferableDictionaryRepresentation:] *)
Definition MO_objectWithReferableDictionaryRepresentation (rep : list (string * value)) : M oid :=
  match stringOf (assoc "objectType" rep) ≫= NSClassFromString env_rt with
  | None => throw (AssertionFailed "Missing object type")
  | Some objectType =>
      registry ← gets w_registry;
      match stringOf (assoc "databasePackageID" rep) ≫= λ i, registry !! i with
      | None => throw (AssertionFailed "Failed to find package controller")
      | Some pkgc =>
          moc ← PKG_controllerForManagedObjectClass pkgc (Some objectType);
          match moc with
          | None => throw (AssertionFailed "moc")
          | Some c =>
              obj ← MOC_objectWithIdentifier c (stringOf (assoc "_id" rep));
              match obj with
              | None => throw (AssertionFailed "obj")
              | Some o => mret o
              end
          end
      end
  end.
End storage.

(** ** One object per identifier *)
Section uniquing.
Context {S : Type} `{!CBL S} `{!Env} `{!CBLModelFactory S}.
Implicit Types w : World S.
Local Open Scope string_scope.

Lemma assoc_list_to_map k d : (list_to_map d : gmap string value) !! k = assoc k d.
Proof.
  induction d as [|[k' v] d IH]; [done|]. cbn. destruct (String.eqb_spec k k') as [->|Hne].
  - by rewrite lookup_insert_eq.
  - by rewrite lookup_insert_ne.
Qed.

(** A dictionary that describes an embedded object of class [cls] with identifier [i]. *)
Record describes (d : list (string * value)) (cls i : string) : Prop := {
  ds_id : assoc "_id" d = Some (NSString i);
  ds_type : assoc "objectType" d = Some (NSString cls);
  ds_class : NSClassFromString env_rt cls = Some cls;
  ds_sub : isSubclassOfClass env_rt cls MPEmbeddedObject_class = true;
  ds_prefix : hasPrefix i cls = true
}.

Lemma run_decodedClass w d cls i :
  describes d cls i → decodedClass MPEmbeddedObject_class d w = (Ok (Some cls), w).
Proof.
  intros Hd. unfold decodedClass. rewrite String.eqb_refl, (ds_type _ _ _ Hd). rewrite run_bind.
  cbn [asString]. rewrite run_ret, (ds_class _ _ _ Hd), run_bind, run_NSAssert, (ds_sub _ _ _ Hd). done.
Qed.

Lemma run_embeddedWithIdentifier w emb m c i :
  w_mos w !! emb = Some m → mo_embeddedObjectCache m = Some c →
  embeddedObjectWithIdentifier emb (Some i) w = (Ok (c !! i), w).
Proof.
  intros Hm Hc. unfold embeddedObjectWithIdentifier. rewrite run_bind, run_isManagedObject, Hm.
  rewrite bool_decide_eq_true_2 by eauto. unfold MO_embeddedObjectWithIdentifier, getMO.
  by rewrite run_bind, Hm, Hc.
Qed.

(** The object made for a description, before it is uniqued. *)
Definition made (d : list (string * value)) (cls : string) (emb : oid) (key : string) : MPEmbeddedObject :=
  mkEO cls (Some emb) (Some key) (list_to_map d) (Some ∅) false.

Lemma run_initWithDictionary w d cls i emb key :
  describes d cls i →
  EO_initWithDictionary cls (Some (NSDictionary d)) (Some emb) (Some key) w = uniqued emb (made d cls emb key) w.
Proof.
  intros Hd. unfold EO_initWithDictionary. cbn [dictOf]. rewrite (ds_id _ _ _ Hd), (ds_type _ _ _ Hd).
  rewrite run_bind, run_bind. cbn [asString]. rewrite run_ret, run_bind, run_NSAssert, (ds_prefix _ _ _ Hd).
  rewrite run_NSAssert, bool_decide_eq_true_2 by eauto.
  rewrite run_bind, run_bind, run_ret, run_bind, run_NSAssert, String.eqb_refl.
  rewrite run_NSAssert, bool_decide_eq_true_2 by eauto.
  by rewrite run_bind, run_ret.
Qed.

Lemma made_identifier d cls i emb key : describes d cls i → EO_identifier (made d cls emb key) = Some i.
Proof.
  intros Hd. unfold EO_identifier. cbn [eo_properties made]. by rewrite assoc_list_to_map, (ds_id _ _ _ Hd).
Qed.

(** The world after the new object has been made and cached. *)
Definition interned w (emb : oid) (e : MPEmbeddedObject) (i : string) (c : gmap string oid) : World S :=
  set_mos (alter (mo_with_cache (Some (<[i := w_nextOid w]> c))) emb (w_mos w))
    (set_eos (<[w_nextOid w := e]> (w_eos w)) (set_nextOid (Pos.succ (w_nextOid w)) w)).

Lemma run_uniqued_new w emb m c e i :
  w_mos w !! emb = Some m → mo_embeddedObjectCache m = Some c → EO_identifier e = Some i → c !! i = None →
  uniqued emb e w = (Ok (w_nextOid w), interned w emb e i c).
Proof.
  intros Hm Hc Hi Hnone. unfold uniqued. rewrite Hi, run_bind, (run_embeddedWithIdentifier w emb m c i Hm Hc), Hnone.
  rewrite run_bind. unfold alloc. rewrite run_bind, run_modify, run_bind.
  set (w1 := set_eos _ _). unfold cacheEmbeddedObjectByIdentifier. rewrite run_bind, run_isManagedObject.
  cbn [w_mos w1 set_eos set_nextOid]. rewrite Hm, bool_decide_eq_true_2 by eauto.
  unfold MO_cacheEmbeddedObjectByIdentifier. rewrite run_bind, run_NSAssert, bool_decide_eq_true_2 by eauto.
  assert (w_eos w1 !! w_nextOid w = Some e) as He by (subst w1; cbn; apply lookup_insert_eq).
  rewrite run_bind. unfold isEmbeddedObject. rewrite run_gets, He, bool_decide_eq_true_2 by eauto.
  rewrite run_bind, run_NSAssert, run_bind, (run_getEO _ _ _ He), Hi. rewrite run_bind. unfold getMO.
  cbn [w_mos w1 set_eos set_nextOid]. rewrite Hm. cbn beta iota. rewrite Hc. cbn beta iota.
  unfold oid in *. by rewrite Hnone.
Qed.

Lemma run_decode w emb m c d cls i key :
  w_mos w !! emb = Some m → mo_embeddedObjectCache m = Some c → describes d cls i →
  EO_embeddedObjectWithDictionary MPEmbeddedObject_class (NSDictionary d) (Some emb) (Some key) w =
  match c !! i with
  | Some q => (Ok (Some q), w)
  | None => (Ok (Some (w_nextOid w)), interned w emb (made d cls emb key) i c)
  end.
Proof.
  intros Hm Hc Hd. unfold EO_embeddedObjectWithDictionary. cbn [dictOf].
  rewrite run_bind, (run_decodedClass _ _ _ _ Hd), run_bind, (ds_id _ _ _ Hd). cbn [stringOf].
  rewrite (run_embeddedWithIdentifier w emb m c i Hm Hc). destruct (c !! i) as [q|] eqn:E; [done|].
  unfold fmap, M_fmap. rewrite run_bind, (run_initWithDictionary _ _ _ _ _ _ Hd).
  by rewrite (run_uniqued_new w emb m c _ i Hm Hc (made_identifier _ _ _ _ _ Hd) E).
Qed.
End uniquing.

(** C17 (invariant). One object per identifier: decoding the dictionary of an
    embedded object for a managed object gives the object already known under
    its identifier, or makes it, with the class and the properties of the
    dictionary; decoding the same dictionary again gives the same object and
    changes nothing. *)
Theorem decoding_is_unique {T} `{!CBL T} `{!Env} (w : World T) emb m c d cls i key :
  w_mos w !! emb = Some m → mo_embeddedObjectCache m = Some c → describes d cls i →
  ∃ p w1,
    EO_embeddedObjectWithDictionary MPEmbeddedObject_class (NSDictionary d) (Some emb) (Some key) w
      = (Ok (Some p), w1) ∧
    EO_embeddedObjectWithDictionary MPEmbeddedObject_class (NSDictionary d) (Some emb) (Some key) w1
      = (Ok (Some p), w1) ∧
    match c !! i with
    | Some q => p = q ∧ w1 = w
    | None => p = w_nextOid w ∧
              ∃ e, w_eos w1 !! p = Some e ∧ eo_class e = cls ∧ eo_embeddingObject e = Some emb ∧
                   ∀ k, eo_properties e !! k = assoc k d
    end.
Proof.
  intros Hm Hc Hd.
  rewrite (run_decode w emb m c d cls i key Hm Hc Hd). destruct (c !! i) as [q|] eqn:E.
  - exists q, w. rewrite (run_decode w emb m c d cls i key Hm Hc Hd), E. done.
  - eexists _, _. split; [reflexivity|]. split.
    + erewrite (run_decode _ _ (mo_with_cache (Some (<[i := w_nextOid w]> c)) m)); [by rewrite lookup_insert_eq| |done|done].
      cbn. by rewrite lookup_alter, decide_True, Hm.
    + split; [done|]. eexists. split; [apply lookup_insert_eq|]. split_and!; [done|done|].
      intros k. apply assoc_list_to_map.
Qed.

(** ** Writing and reading back *)
Section roundtrip.
Context {S : Type} `{!CBL S} `{!Env} `{!CBLModelFactory S} `{!CBLJSON} `{!CBLJSONLaws}.
Implicit Types w : World S.
Local Open Scope string_scope.

(** Managed objects that have a document, and values that name no other object. *)
Definition storable w (v : value) : bool :=
  match v with
  | MPObj o => bool_decide (is_Some (w_mos w !! o)) && bool_decide (is_Some (model_document (w_cbl w) o))
  | NSArray l => forallb (λ x, negb (holdsObject x)) l
  | NSDictionary d => forallb (λ kv, negb (holdsObject kv.2)) d
  | _ => true
  end.

(** The stored form of a value. *)
Definition stored w (v : value) : value :=
  match v with
  | NSData b => NSString (base64StringWithData b)
  | NSDate t => NSString (JSONObjectWithDate t)
  | MPObj o => match model_document (w_cbl w) o with Some d => NSString d | None => v end
  | _ => v
  end.

Lemma run_externalizeElement ext self v w :
  holdsObject v = false → EO_externalizeElement ext self v w = (Ok v, w).
Proof. by destruct v. Qed.

Lemma run_externalizePropertyValue ext self v w :
  storable w v = true → EO_externalizePropertyValue ext self v w = (Ok (stored w v), w).
Proof.
  destruct v as [| | | | |l| |d|o]; cbn [storable]; try done; intros Hall; cbn [EO_externalizePropertyValue].
  - rewrite forallb_forall in Hall. rewrite run_bind.
    rewrite (map_each_pure _ _ id); [by rewrite list_fmap_id|]. intros x s Hx.
    apply run_externalizeElement. specialize (Hall x). rewrite <- list_elem_of_In in Hall.
    by apply negb_true_iff, Hall.
  - rewrite forallb_forall in Hall. rewrite run_bind.
    rewrite (map_each_pure _ _ id); [by rewrite list_fmap_id|]. intros [k x] s Hx.
    rewrite run_bind, run_externalizeElement; [done|]. specialize (Hall (k, x)).
    rewrite <- list_elem_of_In in Hall. by apply negb_true_iff, Hall.
  - apply andb_true_iff in Hall as [Hmo [d Hd]%bool_decide_eq_true].
    rewrite run_bind, run_isManagedObject, Hmo, run_bind. unfold cbl_gets. rewrite run_gets. cbn [stored]. by rewrite Hd.
Qed.

(** A loop none of whose rounds changes the world. *)
Lemma map_each_at {A B} (l : list A) (body : A → M (World S) B) (f : A → B) w :
  (∀ x, x ∈ l → body x w = (Ok (f x), w)) → map_each l body w = (Ok (f <$> l), w).
Proof.
  induction l as [|x l IH]; intros Hb; [done|]. cbn [map_each]. rewrite run_bind, (Hb x (list_elem_of_here _ _)).
  rewrite run_bind, IH; [done|]. intros y Hy. by apply Hb, list_elem_of_further.
Qed.

Lemma run_externalize w self e :
  w_eos w !! self = Some e → (∀ k v, eo_properties e !! k = Some v → storable w v = true) →
  EO_externalize self w = (Ok (NSDictionary (map_to_list (stored w <$> eo_properties e))), w).
Proof.
  intros He Hst. unfold EO_externalize, stackDepth. rewrite run_bind, run_gets.
  cbn [Nat.add EO_dictionaryRepresentation_from]. rewrite run_bind, (run_getEO _ _ _ He), run_bind.
  rewrite (map_each_at _ _ (λ kv, (kv.1, stored w kv.2))).
  - rewrite run_ret, map_to_list_fmap. done.
  - intros [k v] Hin. apply elem_of_map_to_list in Hin. rewrite run_bind.
    by rewrite (run_externalizePropertyValue _ _ _ _ (Hst k v Hin)).
Qed.
End roundtrip.

(** C18 (roundtrip). An embedded object whose properties hold no embedded objects itself, with an identifier and the
    objectType it begins with among them, survives storage: the dictionary it is written as,
    decoded for a managed object that does not know it yet, gives an object of that type
    with the same properties.  Data read through its typed getter is the
    data that was written, a date is the same to the millisecond - the same, when it is a whole number of them -, a
    managed object that has a document is the identifier of that document, and every other value is what
    it was; arrays and dictionaries among them hold no objects. *)
Theorem embedded_object_roundtrip {T} `{!CBL T} `{!Env} `{!CBLModelFactory T} `{!CBLJSON} `{!CBLJSONLaws}
    (w : World T) self e emb m c cls i key :
  w_eos w !! self = Some e →
  (∀ k v, eo_properties e !! k = Some v → storable w v = true) →
  describes (map_to_list (stored w <$> eo_properties e)) cls i →
  w_mos w !! emb = Some m → mo_embeddedObjectCache m = Some c → c !! i = None →
  ∃ d p w1,
    EO_externalize self w = (Ok (NSDictionary d), w) ∧
    EO_embeddedObjectWithDictionary MPEmbeddedObject_class (NSDictionary d) (Some emb) (Some key) w
      = (Ok (Some p), w1) ∧
    (∀ k b, eo_properties e !! k = Some (NSData b) → EO_getDataProperty p k w1 = (Ok (Some b), w1)) ∧
    (∀ k t, eo_properties e !! k = Some (NSDate t) → EO_getDateProperty p k w1 = (Ok (Some (toMillisecond t)), w1)) ∧
    (∀ k t, eo_properties e !! k = Some (NSDate (toMillisecond t)) →
       EO_getDateProperty p k w1 = (Ok (Some (toMillisecond t)), w1)) ∧
    (∀ k o, eo_properties e !! k = Some (MPObj o) →
       ∃ doc, model_document (w_cbl w) o = Some doc ∧ EO_getValueOfProperty p k w1 = (Ok (Some (NSString doc)), w1)) ∧
    (∀ k v, eo_properties e !! k = Some v → stored w v = v → EO_getValueOfProperty p k w1 = (Ok (Some v), w1)) ∧
    (∃ e', w_eos w1 !! p = Some e' ∧ eo_class e' = cls ∧ dom (eo_properties e') = dom (eo_properties e)).
Proof.
  intros He Hst Hd Hm Hc Hnone.
  pose proof (run_decode w emb m c _ cls i key Hm Hc Hd) as Hrun. rewrite Hnone in Hrun.
  set (d := map_to_list (stored w <$> eo_properties e)) in *. set (w1 := interned _ _ _ _ _) in Hrun.
  set (p := w_nextOid w) in *. exists d, p, w1.
  assert (w_eos w1 !! p = Some (made d cls emb key)) as He' by apply lookup_insert_eq.
  assert (∀ k v, eo_properties e !! k = Some v → EO_getValueOfProperty p k w1 = (Ok (Some (stored w v)), w1)) as Hget.
  { intros k v Hk. unfold EO_getValueOfProperty. rewrite run_bind, (run_getEO _ _ _ He'), run_ret.
    cbn [eo_properties made]. unfold d. by rewrite list_to_map_to_list, lookup_fmap, Hk. }
  split_and!; [by apply run_externalize|done| | | | | |].
  - intros k b Hk. unfold EO_getDataProperty. rewrite run_bind, (Hget _ _ Hk). cbn. by rewrite base64_roundtrip.
  - intros k t Hk. unfold EO_getDateProperty. rewrite run_bind, (Hget _ _ Hk). cbn. by rewrite date_roundtrip.
  - intros k t Hk. unfold EO_getDateProperty. rewrite run_bind, (Hget _ _ Hk). cbn. by rewrite date_roundtrip, millisecond_roundtrip.
  - intros k o Hk. pose proof (Hst _ _ Hk) as [_ [doc Hdoc]%bool_decide_eq_true]%andb_true_iff. exists doc.
    split; [done|]. rewrite (Hget _ _ Hk). cbn [stored]. by rewrite Hdoc.
  - intros k v Hk Hs. by rewrite (Hget _ _ Hk), Hs.
  - eexists. split; [done|]. split; [done|]. cbn [eo_properties made]. unfold d. by rewrite list_to_map_to_list, dom_fmap_L.
Qed.

(** ** Witnesses *)
Section witnesses.
Local Open Scope string_scope.
#[local] Existing Instances Reference.store_CBL Reference.store_laws Reference.env Reference.factory.

(** A reader and writer of data and dates, those in microseconds, that writes every byte and
    millisecond as one character per unary digit; any injective encoding would do. *)
Fixpoint unary (n : nat) : string := match n with O => "" | S n => String "1" (unary n) end.
Definition encodeBytes (b : list Z) : string := unary (Pos.to_nat (encode b)).
Definition decodeBytes (s : string) : option (list Z) := decode (Pos.of_nat (String.length s)).
Definition encodeTick (t : Z) : string := unary (Pos.to_nat (encode t)).
Definition decodeTick (s : string) : option Z := decode (Pos.of_nat (String.length s)).

Lemma unary_length n : String.length (unary n) = n.
Proof. induction n; cbn; congruence. Qed.

#[local] Instance json : CBLJSON := {|
  base64StringWithData := encodeBytes; dataWithBase64String := decodeBytes;
  JSONObjectWithDate t := encodeTick (t / 1000 * 1000); dateWithJSONObject := decodeTick; toMillisecond t := (t / 1000 * 1000)%Z |}.
#[local] Instance json_laws : CBLJSONLaws.
Proof.
  split; intros x; cbn; unfold decodeBytes, decodeTick, encodeBytes, encodeTick;
    rewrite ?unary_length, ?Pos2Nat.id, ?decode_encode; [done..|]. by rewrite Z.div_mul.
Qed.

Definition description : list (string * value) :=
  [("_id", NSString "MPStyle:9"); ("objectType", NSString "MPStyle"); ("title", NSString "Body")].

Definition sectionCache : gmap string oid := {["MPStyle:1" := Reference.style]}.
Definition section_mo : MPManagedObject :=
  mkMO "MPSection" (Some Reference.sections) None None None false (Some sectionCache) None.
Definition color_eo : MPEmbeddedObject :=
  mkEO "MPColor" (Some Reference.style) (Some "color")
    (<["_id" := NSString "MPColor:1"]> {["objectType" := NSString "MPColor"]}) (Some ∅) false.

Lemma decoding_is_unique_witness :
  ∃ p w1,
    EO_embeddedObjectWithDictionary MPEmbeddedObject_class (NSDictionary description)
      (Some Reference.section_) (Some "style") Reference.world0 = (Ok (Some p), w1) ∧
    EO_embeddedObjectWithDictionary MPEmbeddedObject_class (NSDictionary description)
      (Some Reference.section_) (Some "style") w1 = (Ok (Some p), w1).
Proof.
  destruct (decoding_is_unique Reference.world0 Reference.section_ section_mo sectionCache description "MPStyle" "MPStyle:9" "style"
    eq_refl eq_refl) as (p & w1 & H1 & H2 & _).
  { split; reflexivity. }
  exists p, w1. split; assumption.
Defined.

Lemma embedded_object_roundtrip_witness :
  ∃ d p w1,
    EO_externalize Reference.color Reference.world0 = (Ok (NSDictionary d), Reference.world0) ∧
    EO_embeddedObjectWithDictionary MPEmbeddedObject_class (NSDictionary d)
      (Some Reference.section_) (Some "style") Reference.world0 = (Ok (Some p), w1).
Proof.
  destruct (embedded_object_roundtrip Reference.world0 Reference.color color_eo Reference.section_ section_mo sectionCache
    "MPColor" "MPColor:1" "style" eq_refl) as (d & p & w1 & H1 & H2 & _).
  - intros k v Hk. cbn in Hk. apply lookup_insert_Some in Hk as [[_ <-]|[_ Hk]]; [reflexivity|].
    apply lookup_singleton_Some in Hk as [_ <-]. reflexivity.
  - split; reflexivity.
  - reflexivity.
  - reflexivity.
  - reflexivity.
  - exists d, p, w1. split; assumption.
Defined.
End witnesses.
