(* ===== verification/PlistDiff.v ===== *)
(** * Differences of property lists

    [-differencesWithPropertyListEncodable:identifier:excludedKeys:] of
    src/Feather/Sources/Categories/NSObject+MPExtensions.m: the differences of two property
    lists as a text.  What Foundation says of an object ([description], the name of its
    class) and the order it enumerates a set in are parameters. *)
From Stdlib Require Import Ascii.
From stdpp Require Import base tactics strings numbers list gmap pretty.
From S2P Require Import Prelude ObjC.

Section diff.
Context (description className : value → string).
Context (keysInOrder : gset string → list string) (allObjects : list value → list value).
Context (keys_order : ∀ X, keysInOrder X ≡ₚ elements X) (objects_order : ∀ l, allObjects l ≡ₚ l).
Local Open Scope string_scope.

Definition newline : string := String "010" "".

Definition maxChars : nat := 60.

Definition shortDescription (v : value) : string :=
  if (maxChars <? String.length (description v))%nat then String.substring 0 maxChars (description v) ++ "..."
  else description v.

(** Data does not answer [-count]. *)
(* @src Feather/Sources/Categories/NSObject+MPExtensions.m 437 452 -[NSObject diffDescription] *)
Definition diffDescription (self : value) : res string :=
  match self with
  | NSDictionary d => Ok (pretty (length d) ++ " entries: " ++ shortDescription self)
  | NSArray l => Ok (pretty (length l) ++ " entries: " ++ shortDescription self)
  | NSData _ => Throw (Exception "NSInvalidArgumentException" "unrecognized selector")
  | NSString s => Ok (pretty (String.length s) ++ " characters: " ++ description self)
  | _ => Ok (description self)
  end.

Definition countsDiffer (identifier : string) (count1 count2 : nat) : string :=
  "@@ " ++ identifier ++ ".@count @@" ++ newline ++ "- " ++ pretty count1 ++ " objects" ++ newline
        ++ "+ " ++ pretty count2 ++ " objects" ++ newline.

(** The texts of the rounds of a loop, one after the other. *)
Fixpoint appending {A} (l : list A) (body : A → res string) : res string :=
  match l with
  | [] => Ok ""
  | x :: l => s ← body x; t ← appending l body; Ok (s ++ t)
  end.

(** What is appended for a key that only one of the dictionaries has. *)
Definition distinctKey (identifier sign : string) (d : list (string * value)) (key : string) : res string :=
  what ← diffDescription (default NSNull (assoc key d));
  Ok ("@@ " ++ identifier ++ "." ++ key ++ " @@" ++ newline ++ sign ++ " " ++ what ++ newline).

Fixpoint zipFrom {A B} (index : nat) (l : list A) (m : list B) : list (nat * A * B) :=
  match l, m with
  | x :: l, y :: m => (index, x, y) :: zipFrom (Datatypes.S index) l m
  | _, _ => []
  end.

Definition keysOf (d : list (string * value)) : gset string := list_to_set d.*1.

(* @src Feather/Sources/Categories/NSObject+MPExtensions.m 454 560 -[NSObject appendToString:diffWithObject:identifier:excludedKeys:] *)
Fixpoint diffWithObject (fuel : nat) (excludedKeys : gset string) (identifier : string) (object1 object2 : value) : res string :=
  match fuel with
  | O => Throw (Exception "hang" "")
  | Datatypes.S fuel =>
      match object1, object2 with
      | NSArray array1, NSArray array2 =>
          if negb (Nat.eqb (length array1) (length array2)) then Ok (countsDiffer identifier (length array1) (length array2))
          else appending (zipFrom 0 array1 array2) (λ '(index, arrayObject1, arrayObject2),
                 diffWithObject fuel excludedKeys (identifier ++ "[" ++ pretty index ++ "]") arrayObject1 arrayObject2)
      | NSSet set1, NSSet set2 =>
          if negb (Nat.eqb (length set1) (length set2)) then Ok (countsDiffer identifier (length set1) (length set2))
          else if isEqual object1 object2 then Ok ""
          else
            let onlySet1 := List.filter (λ x, negb (existsb (isEqual x) set2)) set1 in
            let onlySet2 := List.filter (λ x, negb (existsb (isEqual x) set1)) set2 in
            diffWithObject fuel excludedKeys (identifier ++ ".allObjects") (NSArray (allObjects onlySet1))
              (NSArray (allObjects onlySet2))
      | NSDictionary dic1, NSDictionary dic2 =>
          let keys1 := keysOf dic1 in
          let keys2 := keysOf dic2 in
          let different := negb (bool_decide (keys1 = keys2)) in
          let distinctKeys1 := if different then keys1 ∖ excludedKeys ∖ keys2 else ∅ in
          let distinctKeys2 := if different then keys2 ∖ excludedKeys ∖ keys1 else ∅ in
          let sharedKeys := keys1 ∖ excludedKeys ∖ distinctKeys1 ∖ distinctKeys2 in
          s1 ← appending (keysInOrder distinctKeys1) (distinctKey identifier "-" dic1);
          s2 ← appending (keysInOrder distinctKeys2) (distinctKey identifier "+" dic2);
          s3 ← appending (keysInOrder sharedKeys) (λ key,
                 diffWithObject fuel excludedKeys (identifier ++ "." ++ key)
                   (default NSNull (assoc key dic1)) (default NSNull (assoc key dic2)));
          Ok (s1 ++ s2 ++ s3)
      | _, _ =>
          if isEqual object1 object2 then Ok ""
          else
            d1 ← diffDescription object1;
            d2 ← diffDescription object2;
            Ok ("@@ " ++ identifier ++ " @@" ++ newline ++ "- [" ++ className object1 ++ "] " ++ d1 ++ newline
                ++ "+ [" ++ className object2 ++ "] " ++ d2 ++ newline)
      end
  end.

(** How deep the comparison goes; that of sets goes by way of arrays. *)
Fixpoint height (v : value) : nat :=
  match v with
  | NSArray l => Datatypes.S (foldr Nat.max 0%nat (map height l))
  | NSSet l => Datatypes.S (Datatypes.S (foldr Nat.max 0%nat (map height l)))
  | NSDictionary d => Datatypes.S (foldr Nat.max 0%nat (map (λ kv, height kv.2) d))
  | _ => 1%nat
  end.

(* @src Feather/Sources/Categories/NSObject+MPExtensions.m 562 569 -[NSObject differencesWithPropertyListEncodable:identifier:excludedKeys:] *)
Definition differencesWithPropertyListEncodable (self otherPlist : value) (identifier : string) (excludedKeys : gset string)
    : res string :=
  diffWithObject (height self) excludedKeys identifier self otherPlist.

(** ** Equal but for the excluded keys *)
Fixpoint sameBut (excluded : gset string) (a b : value) : Prop :=
  match a, b with
  | NSArray l, NSArray m =>
      (fix go (l m : list value) : Prop :=
         match l, m with
         | [], [] => True
         | x :: l', y :: m' => sameBut excluded x y ∧ go l' m'
         | _, _ => False
         end) l m
  | NSDictionary d, NSDictionary e =>
      keysOf d ∖ excluded = keysOf e ∖ excluded ∧
      (fix go (d' : list (string * value)) : Prop :=
         match d' with
         | [] => True
         | (k, x) :: d'' =>
             (k ∉ excluded → match assoc k e with Some y => sameBut excluded x y | None => True end) ∧ go d''
         end) d
  | _, _ => isEqual a b = true
  end.

Lemma sameBut_array ex l m : sameBut ex (NSArray l) (NSArray m) ↔ Forall2 (sameBut ex) l m.
Proof.
  cbn. revert m. induction l as [|x l IH]; intros [|y m].
  - by split.
  - split; [done|by intros ?%Forall2_nil_cons_inv].
  - split; [done|by intros ?%Forall2_cons_nil_inv].
  - rewrite Forall2_cons. by rewrite IH.
Qed.

Lemma sameBut_dictionary ex d e :
  sameBut ex (NSDictionary d) (NSDictionary e) ↔
  keysOf d ∖ ex = keysOf e ∖ ex ∧
  ∀ k x y, (k, x) ∈ d → k ∉ ex → assoc k e = Some y → sameBut ex x y.
Proof.
  cbn. apply and_iff_compat_l. induction d as [|[k x] d IH].
  - split; [intros _ k x y Hin; by apply not_elem_of_nil in Hin|done].
  - rewrite IH. split.
    + intros [Hk Hd] k' x' y [[= -> ->]|Hin]%elem_of_cons Hex Ha; [|by eapply Hd].
      specialize (Hk Hex). by rewrite Ha in Hk.
    + intros Hall. split; [|intros; eapply Hall; [by apply list_elem_of_further|done|done]].
      intros Hex. destruct (assoc k e) as [y|] eqn:Ha; [|done]. eapply Hall; [by apply list_elem_of_here|done|done].
Qed.

(** [p] holds of a value and of all that is in it. *)
Fixpoint everywhere (p : value → bool) (v : value) : bool :=
  p v && match v with
         | NSArray l | NSSet l => forallb (everywhere p) l
         | NSDictionary d => forallb (λ kv, everywhere p kv.2) d
         | _ => true
         end.

Definition notData (v : value) : bool := match v with NSData _ => false | _ => true end.

(** Data is somewhere in the value. *)
Definition holdsData (v : value) : bool := negb (everywhere notData v).

(** Not a set when there are keys to exclude. *)
Definition plain (excluded : gset string) (v : value) : bool :=
  match v with NSSet _ => bool_decide (excluded = ∅) | _ => true end.

(** What describing data ends with. *)
Definition cannotDescribe : exn := Exception "NSInvalidArgumentException" "unrecognized selector".

(** *** The recursive functions on the elements of a collection *)

Lemma isEqual_set l m :
  isEqual (NSSet l) (NSSet m) = Nat.eqb (length l) (length m) && forallb (λ x, existsb (isEqual x) m) l.
Proof. reflexivity. Qed.

Lemma isEqual_array l m : isEqual (NSArray l) (NSArray m) = true ↔ Forall2 (λ x y, isEqual x y = true) l m.
Proof.
  cbn. revert m. induction l as [|x l IH]; intros [|y m].
  - by split.
  - split; [done|by intros ?%Forall2_nil_cons_inv].
  - split; [done|by intros ?%Forall2_cons_nil_inv].
  - rewrite Forall2_cons, andb_true_iff. by rewrite IH.
Qed.

Lemma isEqual_dictionary d e :
  isEqual (NSDictionary d) (NSDictionary e) = true ↔
  length d = length e ∧ ∀ k x, (k, x) ∈ d → ∃ y, assoc k e = Some y ∧ isEqual x y = true.
Proof.
  cbn. rewrite andb_true_iff, Nat.eqb_eq. apply and_iff_compat_l. induction d as [|[k x] d IH].
  - split; [intros _ k x Hin; by apply not_elem_of_nil in Hin|done].
  - rewrite andb_true_iff, IH. split.
    + intros [Hk Hd] k' x' [[= -> ->]|Hin]%elem_of_cons; [|by apply Hd].
      destruct (assoc k e) as [y|]; [by exists y|done].
    + intros Hall. split; [|intros; apply Hall; by apply list_elem_of_further].
      destruct (Hall k x) as (y & -> & ?); [by apply list_elem_of_here|done].
Qed.

Lemma wf_elements l : value_wf (NSArray l) = true ↔ Forall (λ x, value_wf x = true) l.
Proof. cbn. induction l as [|x l IH]; [done|]. by rewrite andb_true_iff, Forall_cons, IH. Qed.

Lemma wf_entries d :
  value_wf (NSDictionary d) = true ↔ NoDup d.*1 ∧ ∀ k x, (k, x) ∈ d → value_wf x = true.
Proof.
  cbn. rewrite andb_true_iff, bool_decide_eq_true. apply and_iff_compat_l. induction d as [|[k x] d IH].
  - split; [intros _ k x Hin; by apply not_elem_of_nil in Hin|done].
  - rewrite andb_true_iff, IH. split.
    + intros [Hk Hd] k' x' [[= -> ->]|Hin]%elem_of_cons; [done|by eapply Hd].
    + intros Hall. split; [eapply Hall; by apply list_elem_of_here|intros; eapply Hall; by apply list_elem_of_further].
Qed.

Lemma height_elements l x : x ∈ l → (height x ≤ foldr Nat.max 0 (map height l))%nat.
Proof. induction l as [|y l IH]; [by intros ?%not_elem_of_nil|]. cbn. intros [->|Hin]%elem_of_cons; [lia|]. specialize (IH Hin). lia. Qed.

Lemma height_entries (d : list (string * value)) k x :
  (k, x) ∈ d → (height x ≤ foldr Nat.max 0 (map (λ kv, height kv.2) d))%nat.
Proof.
  induction d as [|y d IH]; [by intros ?%not_elem_of_nil|]. cbn. intros [<-|Hin]%elem_of_cons; [cbn; lia|]. specialize (IH Hin). lia.
Qed.

Lemma height_subset l m : (∀ x, x ∈ l → x ∈ m) → (foldr Nat.max 0 (map height l) ≤ foldr Nat.max 0 (map height m))%nat.
Proof.
  induction l as [|x l IH]; intros Hsub; cbn; [lia|]. pose proof (height_elements m x (Hsub x (list_elem_of_here _ _))).
  assert (∀ y, y ∈ l → y ∈ m) as Hl by (intros y Hy; apply Hsub; by apply list_elem_of_further). specialize (IH Hl). lia.
Qed.

Lemma keysOf_assoc k d : k ∈ keysOf d ↔ ∃ x, assoc k d = Some x.
Proof.
  unfold keysOf. rewrite elem_of_list_to_set. induction d as [|[k' x] d IH]; cbn.
  - split; [by intros ?%not_elem_of_nil|by intros [? ?]].
  - rewrite elem_of_cons, IH. destruct (String.eqb_spec k k') as [->|Hne]; [by split; [eexists|by left]|].
    split; [by intros [?|?]|by right].
Qed.

Lemma sameBut_everything a b : value_wf a = true → value_wf b = true → sameBut ∅ a b ↔ isEqual a b = true.
Proof.
  revert b. induction a as [| | | |bytes| l IH | l IH | d IH |] using value_rect'; intros b Ha Hb; try done.
  - destruct b as [| | | | |m| | |]; try done. rewrite sameBut_array, isEqual_array.
    rewrite wf_elements in Ha, Hb. revert m Hb. induction l as [|x l IHl]; intros [|y m] Hb.
    + done.
    + by split; intros ?%Forall2_nil_cons_inv.
    + by split; intros ?%Forall2_cons_nil_inv.
    + apply Forall_cons in IH as [IHx IH], Ha as [Hx Ha], Hb as [Hy Hb].
      rewrite !Forall2_cons. by rewrite (IHl IH Ha m Hb), (IHx y Hx Hy).
  - destruct b as [| | | | | | |e|]; try done. rewrite sameBut_dictionary, isEqual_dictionary.
    apply wf_entries in Ha as [Hnd Ha], Hb as [Hne Hb]. rewrite Forall_forall in IH. split.
    + intros [Hkeys Hsame].
      assert (Hk : ∀ k, k ∈ d.*1 ↔ k ∈ e.*1) by (intros k; unfold keysOf in Hkeys; set_solver).
      split; [rewrite <- (length_fmap fst d), <- (length_fmap fst e); apply Permutation_length; by apply NoDup_Permutation|].
      intros k x Hin. destruct (proj1 (keysOf_assoc k e)) as [y Hy].
      { unfold keysOf. apply elem_of_list_to_set, Hk, list_elem_of_fmap. by exists (k, x). }
      exists y. split; [done|]. apply (IH (k, x) Hin); [by eapply Ha|by eapply Hb, assoc_elem|].
      by eapply Hsame; [done|set_solver|done].
    + intros [Hlen Hall]. split.
      * assert (Hsub : d.*1 ⊆ e.*1).
        { intros k ([k' x] & -> & Hin)%list_elem_of_fmap. destruct (Hall k' x Hin) as (y & Hy & _).
          apply list_elem_of_fmap. exists (k', y). split; [done|by apply assoc_elem]. }
        assert (Hperm : d.*1 ≡ₚ e.*1).
        { apply submseteq_length_Permutation; [by apply NoDup_submseteq|]. rewrite !length_fmap. lia. }
        unfold keysOf. by rewrite Hperm.
      * intros k x y Hin _ Hy. destruct (Hall k x Hin) as (y' & Hy' & He). rewrite Hy in Hy'. injection Hy' as <-.
        apply (IH (k, x) Hin); [by eapply Ha|by eapply Hb, assoc_elem|done].
Qed.

(** *** Texts *)

(** A text that is empty exactly when [same] holds, or the exception for data, which
    tells that it does not. *)
Definition tells (data same : Prop) (r : res string) : Prop :=
  (∃ s, r = Ok s ∧ (s = "" ↔ same)) ∨ (r = Throw cannotDescribe ∧ ¬ same ∧ data).

Lemma tells_weaken (data data' same same' : Prop) r :
  (data → data') → (same ↔ same') → tells data same r → tells data' same' r.
Proof.
  intros Hd Hs [(s & -> & Hiff)|(-> & Hno & Hdata)]; [left; exists s; by rewrite Hiff, Hs|right].
  by rewrite <- Hs; auto.
Qed.

Lemma tells_app (data P Q : Prop) (r r' : res string) :
  tells data P r → tells data Q r' → tells data (P ∧ Q) (s ← r; t ← r'; Ok (s ++ t)).
Proof.
  intros [(s & -> & Hs)|(-> & Hno & Hdata)] H'; [|right; cbn; naive_solver].
  destruct H' as [(t & -> & Ht)|(-> & Hno & Hdata)]; [left|right; cbn; naive_solver].
  exists (s ++ t). split; [done|]. rewrite <- Hs, <- Ht.
  destruct s as [|c s]; [change ("" ++ t) with t; naive_solver|by split; [|intros [? _]]].
Qed.

Lemma tells_app3 (data P Q R : Prop) (r r' r'' : res string) :
  tells data P r → tells data Q r' → tells data R r'' →
  tells data (P ∧ Q ∧ R) (s ← r; t ← r'; u ← r''; Ok (s ++ t ++ u)).
Proof.
  intros HP HQ HR. pose proof (tells_app _ _ _ _ _ HP (tells_app _ _ _ _ _ HQ HR)) as Hall.
  destruct r as [s|]; cbn in *; [|done]. destruct r' as [t|]; cbn in *; [|done]. by destruct r''.
Qed.

Lemma appending_spec {A} (data : Prop) (l : list A) body (P : A → Prop) :
  (∀ x, x ∈ l → tells data (P x) (body x)) → tells data (Forall P l) (appending l body).
Proof.
  induction l as [|x l IH]; intros Hl; cbn; [by left; exists ""|].
  eapply tells_weaken; [intros Hd; exact Hd|symmetry; apply Forall_cons|].
  apply tells_app; [apply Hl, list_elem_of_here|]. apply IH. intros y Hy. by apply Hl, list_elem_of_further.
Qed.

Lemma zipFrom_elem {A B} i (l : list A) (m : list B) j x y : (j, x, y) ∈ zipFrom i l m → x ∈ l ∧ y ∈ m.
Proof.
  revert i m. induction l as [|x' l IH]; intros i [|y' m]; try (by intros ?%not_elem_of_nil). cbn.
  intros [[= -> -> ->]|Hin]%elem_of_cons; [split; apply list_elem_of_here|].
  apply IH in Hin as [? ?]. split; by apply list_elem_of_further.
Qed.

Lemma zipFrom_Forall {A B} (R : A → B → Prop) i l m :
  length l = length m → Forall (λ e, R e.1.2 e.2) (zipFrom i l m) ↔ Forall2 R l m.
Proof.
  revert i m. induction l as [|x l IH]; intros i [|y m] Hlen; try done. cbn in *.
  rewrite Forall_cons, Forall2_cons, IH by lia. done.
Qed.

Lemma description_of v : diffDescription v = Throw cannotDescribe ∧ holdsData v = true ∨ ∃ s, diffDescription v = Ok s.
Proof. destruct v; try (right; by eexists). by left. Qed.

Lemma holdsData_elements l : holdsData (NSArray l) = true ↔ ∃ x, x ∈ l ∧ holdsData x = true.
Proof.
  unfold holdsData. cbn. induction l as [|x l IH]; cbn; [split; [done|by intros (? & ?%not_elem_of_nil & _)]|].
  rewrite negb_andb, orb_true_iff, IH. setoid_rewrite elem_of_cons. naive_solver.
Qed.

Lemma holdsData_entries d : holdsData (NSDictionary d) = true ↔ ∃ k x, (k, x) ∈ d ∧ holdsData x = true.
Proof.
  unfold holdsData. cbn. induction d as [|[k x] d IH]; cbn; [split; [done|by intros (? & ? & ?%not_elem_of_nil & _)]|].
  rewrite negb_andb, orb_true_iff, IH. setoid_rewrite elem_of_cons. naive_solver.
Qed.

Lemma distinctKey_spec identifier sign d key :
  tells (holdsData (NSDictionary d) = true) False (distinctKey identifier sign d key).
Proof.
  unfold distinctKey. destruct (description_of (default NSNull (assoc key d))) as [[-> Hdata]|[s ->]]; cbn.
  - right. split_and!; [done|tauto|]. apply holdsData_entries.
    destruct (assoc key d) as [x|] eqn:Ha; [|done]. exists key, x. split; [by apply assoc_elem|done].
  - left. by eexists.
Qed.

Lemma plain_elements ex l :
  forallb (everywhere (plain ex)) l = true ↔ Forall (λ x, everywhere (plain ex) x = true) l.
Proof. rewrite forallb_forall, Forall_forall. by setoid_rewrite list_elem_of_In. Qed.

Lemma plain_entries ex (d : list (string * value)) :
  everywhere (plain ex) (NSDictionary d) = true → ∀ k x, (k, x) ∈ d → everywhere (plain ex) x = true.
Proof. cbn. rewrite forallb_forall. intros Hd k x Hin. by apply (Hd (k, x)), list_elem_of_In. Qed.

(** *** Sets: what only one of them has *)
Definition only (l m : list value) : list value := allObjects (List.filter (λ x, negb (existsb (isEqual x) m)) l).

Lemma only_elem l m x : x ∈ only l m ↔ x ∈ l ∧ existsb (isEqual x) m = false.
Proof. unfold only. rewrite objects_order, filter_bool_elem, negb_true_iff. done. Qed.

Lemma only_differ l m :
  Nat.eqb (length l) (length m) = true → isEqual (NSSet l) (NSSet m) = false →
  ¬ Forall2 (λ x y, isEqual x y = true) (only l m) (only m l).
Proof.
  intros Hlen Hne Hsame. rewrite isEqual_set, Hlen in Hne. cbn in Hne.
  assert (∃ x, x ∈ only l m) as [x Hx].
  { apply not_true_iff_false in Hne. destruct (only l m) as [|x r] eqn:Eo; [|exists x; apply list_elem_of_here].
    exfalso. apply Hne, forallb_forall. intros x Hx%list_elem_of_In. destruct (existsb (isEqual x) m) eqn:Ee; [done|].
    assert (Hin : x ∈ only l m) by by apply only_elem. rewrite Eo in Hin. by apply not_elem_of_nil in Hin. }
  apply list_elem_of_lookup in Hx as Hx'. destruct Hx' as [i Hi].
  destruct (Forall2_lookup_l _ _ _ _ _ Hsame Hi) as (y & Hy%list_elem_of_lookup_2 & He).
  apply only_elem in Hx as [_ Hno], Hy as [Hy _]. apply not_true_iff_false in Hno. apply Hno, existsb_exists.
  exists y. split; [by apply list_elem_of_In|done].
Qed.

(** *** The comparison, case by case; [found] is what has to be shown of it *)
Definition found (ex : gset string) (a b : value) (r : res string) : Prop :=
  tells (holdsData a = true ∨ holdsData b = true) (sameBut ex a b) r.

Definition good (ex : gset string) (v : value) : Prop := value_wf v = true ∧ everywhere (plain ex) v = true.

Lemma good_elements ex l x : good ex (NSArray l) → x ∈ l → good ex x.
Proof.
  intros [Hwf Hp] Hin. rewrite wf_elements, Forall_forall in Hwf. cbn in Hp. apply plain_elements in Hp.
  rewrite Forall_forall in Hp. split; [by apply Hwf|by apply Hp].
Qed.

Lemma good_array ex l : Forall (good ex) l → good ex (NSArray l).
Proof.
  intros Hl. split; [apply wf_elements|cbn; apply plain_elements]; eapply Forall_impl; try exact Hl; by intros x [].
Qed.

Lemma good_entries ex d k x : good ex (NSDictionary d) → (k, x) ∈ d → good ex x.
Proof. intros [[_ Hwf]%wf_entries Hp] Hin. split; [by eapply Hwf|by eapply plain_entries]. Qed.

Lemma leaf_found ex identifier a b fuel :
  (sameBut ex a b ↔ isEqual a b = true) →
  diffWithObject (Datatypes.S fuel) ex identifier a b =
    (if isEqual a b then Ok ""
     else d1 ← diffDescription a; d2 ← diffDescription b;
          Ok ("@@ " ++ identifier ++ " @@" ++ newline ++ "- [" ++ className a ++ "] " ++ d1 ++ newline
              ++ "+ [" ++ className b ++ "] " ++ d2 ++ newline)) →
  found ex a b (diffWithObject (Datatypes.S fuel) ex identifier a b).
Proof.
  intros Hsame ->. unfold found. destruct (isEqual a b); [left; exists ""; by rewrite Hsame|].
  assert (Hno : ¬ sameBut ex a b) by by rewrite Hsame.
  destruct (description_of a) as [[-> Hdata]|(d1 & ->)]; cbn; [right; auto|].
  destruct (description_of b) as [[-> Hdata]|(d2 & ->)]; cbn; [right; auto|]. left. by eexists.
Qed.

Lemma array_found ex identifier l m fuel :
  (∀ id x y, x ∈ l → y ∈ m → found ex x y (diffWithObject fuel ex id x y)) →
  found ex (NSArray l) (NSArray m) (diffWithObject (Datatypes.S fuel) ex identifier (NSArray l) (NSArray m)).
Proof.
  intros IH. unfold found. cbn [diffWithObject].
  destruct (Nat.eqb_spec (length l) (length m)) as [Hlen|Hlen]; cbn [negb].
  - eapply tells_weaken; [intros Hd; exact Hd|symmetry; apply sameBut_array|].
    eapply tells_weaken; [intros Hd; exact Hd|exact (zipFrom_Forall (sameBut ex) 0 l m Hlen)|]. apply appending_spec.
    intros [[j x] y] [Hx Hy]%zipFrom_elem. eapply tells_weaken; [|done|by apply IH].
    intros [Hd|Hd]; [left|right]; apply holdsData_elements; by eexists.
  - left. eexists. split; [done|]. rewrite sameBut_array. split; [done|]. by intros ?%Forall2_length.
Qed.

Lemma holdsData_set l : holdsData (NSSet l) = holdsData (NSArray l).
Proof. done. Qed.

Lemma holdsData_only l m : holdsData (NSArray (only l m)) = true → holdsData (NSSet l) = true.
Proof.
  rewrite holdsData_set. intros (x & [Hx _]%only_elem & Hd)%holdsData_elements. apply holdsData_elements. by exists x.
Qed.

Lemma set_found ex identifier l m fuel :
  ex = ∅ → Forall (good ex) l → Forall (good ex) m →
  (∀ id, found ex (NSArray (only l m)) (NSArray (only m l)) (diffWithObject fuel ex id (NSArray (only l m)) (NSArray (only m l)))) →
  found ex (NSSet l) (NSSet m) (diffWithObject (Datatypes.S fuel) ex identifier (NSSet l) (NSSet m)).
Proof.
  intros -> Hl Hm IH. unfold found. cbn [sameBut diffWithObject].
  destruct (Nat.eqb (length l) (length m)) eqn:Hlen; cbn [negb].
  - destruct (isEqual (NSSet l) (NSSet m)) eqn:He; [left; by eexists|].
    eapply tells_weaken; [| |exact (IH (identifier ++ ".allObjects"))].
    { intros [Hd|Hd]; [left|right]; by eapply holdsData_only. }
    rewrite sameBut_array. split; [|done]. intros Hsame. exfalso. apply (only_differ l m Hlen He).
    rewrite Forall_forall in Hl, Hm.
    eapply Forall2_impl; [|intros x y Hxy; exact Hxy]. eapply Forall2_same_length_lookup_2; [by eapply Forall2_length|].
    intros i x y Hx Hy. apply sameBut_everything; [| |by eapply Forall2_lookup_lr].
    + apply Hl. by apply list_elem_of_lookup_2, only_elem in Hx as [? _].
    + apply Hm. by apply list_elem_of_lookup_2, only_elem in Hy as [? _].
  - left. eexists. split; [done|]. split; [done|]. intros He. by rewrite isEqual_set, Hlen in He.
Qed.

Lemma loop_over_keys identifier sign d (X : gset string) :
  tells (holdsData (NSDictionary d) = true) (X = ∅) (appending (keysInOrder X) (distinctKey identifier sign d)).
Proof.
  eapply tells_weaken; [intros Hd; exact Hd| |apply (appending_spec _ _ _ (λ _, False)); intros key _; apply distinctKey_spec].
  rewrite keys_order. split; [|by intros ->; rewrite elements_empty].
  intros Hnone. apply leibniz_equiv, elements_empty_iff. destruct (elements X) as [|k l]; [done|].
  by apply Forall_cons in Hnone as [].
Qed.

Lemma same_keys (X Y ex : gset string) : X ∖ ex ∖ Y = ∅ ∧ Y ∖ ex ∖ X = ∅ ↔ X ∖ ex = Y ∖ ex.
Proof.
  clear. split.
  - intros [H1 H2]. apply set_eq. intros k. rewrite !elem_of_difference.
    assert (k ∉ X ∖ ex ∖ Y) as Hn1 by (rewrite H1; apply not_elem_of_empty).
    assert (k ∉ Y ∖ ex ∖ X) as Hn2 by (rewrite H2; apply not_elem_of_empty).
    rewrite !elem_of_difference in Hn1, Hn2. destruct (decide (k ∈ X)), (decide (k ∈ Y)); naive_solver.
  - intros He. split; apply set_eq; intros k; rewrite elem_of_difference; [rewrite He|rewrite <- He];
      rewrite elem_of_difference; split; [by intros [[? _] ?]|by intros ?%not_elem_of_empty|by intros [[? _] ?]|
                                          by intros ?%not_elem_of_empty].
Qed.

Lemma shared_keys (X Y ex : gset string) : X ∖ ex ∖ (X ∖ ex ∖ Y) ∖ (Y ∖ ex ∖ X) = (X ∩ Y) ∖ ex.
Proof.
  clear. apply set_eq. intros k. rewrite !elem_of_difference, elem_of_intersection.
  destruct (decide (k ∈ X)), (decide (k ∈ Y)); naive_solver.
Qed.

Lemma dictionary_found ex identifier d e fuel :
  good ex (NSDictionary d) → good ex (NSDictionary e) →
  (∀ id k x y, (k, x) ∈ d → (k, y) ∈ e → found ex x y (diffWithObject fuel ex id x y)) →
  found ex (NSDictionary d) (NSDictionary e)
    (diffWithObject (Datatypes.S fuel) ex identifier (NSDictionary d) (NSDictionary e)).
Proof.
  intros Hd He IH. unfold found. cbn [diffWithObject].
  set (different := negb (bool_decide (keysOf d = keysOf e))).
  set (distinct1 := if different then keysOf d ∖ ex ∖ keysOf e else ∅).
  set (distinct2 := if different then keysOf e ∖ ex ∖ keysOf d else ∅).
  set (shared := keysOf d ∖ ex ∖ distinct1 ∖ distinct2).
  assert (Hdistinct : distinct1 = keysOf d ∖ ex ∖ keysOf e ∧ distinct2 = keysOf e ∖ ex ∖ keysOf d).
  { unfold distinct1, distinct2, different. case_bool_decide as Hk; cbn; [|done].
    destruct (proj2 (same_keys (keysOf d) (keysOf e) ex)) as [-> ->]; [by rewrite Hk|done]. }
  destruct Hdistinct as [H1 H2].
  assert (Hshared : shared = (keysOf d ∩ keysOf e) ∖ ex).
  { unfold shared. rewrite H1, H2. apply shared_keys. }
  set (data := holdsData (NSDictionary d) = true ∨ holdsData (NSDictionary e) = true).
  assert (T1 : tells data (distinct1 = ∅) (appending (keysInOrder distinct1) (distinctKey identifier "-" d))).
  { eapply tells_weaken; [|done|apply loop_over_keys]. by left. }
  assert (T2 : tells data (distinct2 = ∅) (appending (keysInOrder distinct2) (distinctKey identifier "+" e))).
  { eapply tells_weaken; [|done|apply loop_over_keys]. by right. }
  assert (T3 : tells data (Forall (λ key, sameBut ex (default NSNull (assoc key d)) (default NSNull (assoc key e))) (keysInOrder shared))
    (appending (keysInOrder shared) (λ key, diffWithObject fuel ex (identifier ++ "." ++ key)
              (default NSNull (assoc key d)) (default NSNull (assoc key e))))).
  { apply appending_spec. intros key Hkey. rewrite keys_order, elem_of_elements, Hshared in Hkey.
    apply elem_of_difference in Hkey as [[Hkd Hke]%elem_of_intersection _].
    apply keysOf_assoc in Hkd as [x Hx], Hke as [y Hy]. rewrite Hx, Hy. cbn.
    eapply tells_weaken; [|done|apply (IH _ key); by apply assoc_elem].
    intros [Hdata|Hdata]; [left|right]; apply holdsData_entries; [exists key, x|exists key, y]; (split; [by apply assoc_elem|done]). }
  eapply tells_weaken; [intros H; exact H| |exact (tells_app3 _ _ _ _ _ _ _ T1 T2 T3)].
  rewrite sameBut_dictionary, H1, H2, keys_order, Hshared, Forall_forall, <- same_keys. split.
  - intros (Hn1 & Hn2 & Hall). split; [done|]. intros k x y Hin Hex Hy.
    assert (Hx : assoc k d = Some x) by (apply elem_assoc; [by apply wf_entries, Hd|done]).
    specialize (Hall k). rewrite Hx, Hy in Hall. apply Hall, elem_of_elements.
    apply elem_of_difference. split; [|done]. apply elem_of_intersection. split; apply keysOf_assoc; by eexists.
  - intros ([Hn1 Hn2] & Hall). do 2 (split; [done|]). intros k Hk%elem_of_elements.
    apply elem_of_difference in Hk as [[Hkd Hke]%elem_of_intersection Hex].
    apply keysOf_assoc in Hkd as [x Hx], Hke as [y Hy]. rewrite Hx, Hy. cbn. eapply Hall; [by apply assoc_elem|done|done].
Qed.

(** Enough fuel is the height of the first object. *)
Lemma differences_found ex fuel identifier a b :
  good ex a → good ex b → (height a ≤ fuel)%nat → found ex a b (diffWithObject fuel ex identifier a b).
Proof.
  revert identifier a b. induction fuel as [fuel IHfuel] using (well_founded_induction lt_wf).
  intros identifier a b Ha Hb Hh. destruct fuel as [|fuel]; [by destruct a; cbn in Hh; lia|].
  assert (IH : ∀ id x y, good ex x → good ex y → (height x ≤ fuel)%nat → found ex x y (diffWithObject fuel ex id x y))
    by (intros; apply IHfuel; [lia|done|done|done]).
  destruct a as [| | | |bytes|l|l|d|o], b as [| | | |bytes'|m|m|e|o']; try (by apply leaf_found).
  - apply array_found. intros id x y Hx Hy. apply IH; [by apply (good_elements ex l)|by apply (good_elements ex m)|].
    apply height_elements in Hx. cbn in Hh. lia.
  - destruct Ha as [Hwa Hpa], Hb as [Hwb Hpb]. cbn in Hpa, Hpb. apply andb_true_iff in Hpa as [Hex Hpa], Hpb as [_ Hpb].
    apply bool_decide_eq_true in Hex.
    assert (Hl : Forall (good ex) l).
    { apply Forall_forall. intros x Hx. by apply (good_elements ex l). }
    assert (Hm : Forall (good ex) m).
    { apply Forall_forall. intros x Hx. by apply (good_elements ex m). }
    apply set_found; [done|done|done|]. intros id. apply IH.
    + apply good_array, Forall_forall. intros x [Hx _]%only_elem. rewrite Forall_forall in Hl. by apply Hl.
    + apply good_array, Forall_forall. intros x [Hx _]%only_elem. rewrite Forall_forall in Hm. by apply Hm.
    + cbn in *. assert (foldr Nat.max 0 (map height (only l m)) ≤ foldr Nat.max 0 (map height l))%nat; [|lia].
      apply height_subset. by intros x [? _]%only_elem.
  - apply dictionary_found; [done|done|]. intros id k x y Hx Hy.
    apply IH; [by apply (good_entries ex d k)|by apply (good_entries ex e k)|]. apply height_entries in Hx. cbn in Hh. lia.
Qed.

(** C37 (equivalence). Two property lists that are the same but for the keys excluded at
    any depth always give an empty text.  Lists that are not give a text that is not
    empty, or else they hold data: then an exception can take the place of the text, as
    data cannot be described.  Without excluded keys they are the same exactly when they
    are equal.  A dictionary has an entry for a key once; sets, which are compared by what
    only one of them has, may be in the lists when no keys are excluded. *)
Theorem differences_of_property_lists self otherPlist identifier excludedKeys :
  value_wf self = true → value_wf otherPlist = true →
  everywhere (plain excludedKeys) self = true → everywhere (plain excludedKeys) otherPlist = true →
  let differences := differencesWithPropertyListEncodable self otherPlist identifier excludedKeys in
  (sameBut excludedKeys self otherPlist → differences = Ok "") ∧
  (¬ sameBut excludedKeys self otherPlist →
     (∃ s, differences = Ok s ∧ s ≠ "") ∨
     ((holdsData self = true ∨ holdsData otherPlist = true) ∧
      differences = Throw (Exception "NSInvalidArgumentException" "unrecognized selector"))) ∧
  (excludedKeys = ∅ → sameBut excludedKeys self otherPlist ↔ isEqual self otherPlist = true).
Proof.
  intros Hwf Hwf' Hplain Hplain' differences.
  split_and!; [| |intros ->; by apply sameBut_everything];
    intros Hsame; (destruct (differences_found excludedKeys (height self) identifier self otherPlist)
      as [(s & Hs & Hiff)|(Hs & Hno & Hdata)]; [done|done|lia| |]); unfold differences, differencesWithPropertyListEncodable; rewrite Hs.
  - by rewrite (proj2 Hiff).
  - done.
  - left. exists s. split; [done|]. by rewrite Hiff.
  - right. by split.
Qed.
End diff.

(** ** At work *)
Module Differences.
Local Open Scope string_scope.

Definition describe (v : value) : string := match v with NSString s => s | NSNumber n => pretty n | _ => "..." end.
Definition class_name (v : value) : string := match v with NSString _ => "NSString" | NSNumber _ => "NSNumber" | _ => "NSObject" end.

Definition differences (a b : value) (ex : gset string) : res string :=
  differencesWithPropertyListEncodable describe class_name elements id a b "plist" ex.

Definition old_plist : value :=
  NSDictionary [("title", NSString "Intro"); ("_rev", NSString "1-a"); ("tags", NSArray [NSNumber 1; NSNumber 2])].
Definition new_plist : value :=
  NSDictionary [("_rev", NSString "2-b"); ("tags", NSArray [NSNumber 1; NSNumber 2]); ("title", NSString "Intro")].

Lemma differences_of_property_lists_witness :
  differences old_plist new_plist {["_rev"]} = Ok "" ∧ differences (NSData [1%Z]) (NSData [2%Z]) ∅ ≠ Ok "".
Proof.
  split.
  - destruct (differences_of_property_lists describe class_name elements id (λ X, reflexivity _) (λ l, reflexivity _)
      old_plist new_plist "plist" {["_rev"]}) as (Hsame & _); [reflexivity..|].
    apply Hsame. split; [vm_compute; reflexivity|]. cbn.
    split; [done|]. split; [|by repeat split]. intros Hk. destruct Hk. by apply elem_of_singleton.
  - destruct (differences_of_property_lists describe class_name elements id (λ X, reflexivity _) (λ l, reflexivity _)
      (NSData [1%Z]) (NSData [2%Z]) "plist" ∅) as (_ & Hdiffer & _); [reflexivity..|].
    destruct Hdiffer as [(s & Hs & Hne)|[_ Hs]]; [discriminate| |]; intros He; pose proof (eq_trans (eq_sym Hs) He) as H.
    + by injection H.
    + discriminate H.
Defined.

Example revision_differs :
  differences old_plist new_plist ∅ =
    Ok ("@@ plist._rev @@" ++ newline ++ "- [NSString] 3 characters: 1-a" ++ newline
        ++ "+ [NSString] 3 characters: 2-b" ++ newline).
Proof. vm_compute. reflexivity. Qed.

(** A key of one of them only; an array that is longer. *)
Example title_is_missing :
  differences old_plist (NSDictionary [("_rev", NSString "1-a"); ("tags", NSArray [])]) ∅ =
    Ok ("@@ plist.title @@" ++ newline ++ "- 5 characters: Intro" ++ newline ++
        "@@ plist.tags.@count @@" ++ newline ++ "- 2 objects" ++ newline ++ "+ 0 objects" ++ newline).
Proof. vm_compute. reflexivity. Qed.

(** Data that differs cannot be described, though property lists can hold data. *)
Example data_raises :
  differences (NSData [1%Z]) (NSData [2%Z]) ∅ = Throw (Exception "NSInvalidArgumentException" "unrecognized selector").
Proof. vm_compute. reflexivity. Qed.
End Differences.
