(* ===== verification/Permutations.v ===== *)
(** * Shuffling and enumerating the orders of an array

    [arrayByRandomizingOrder], [pc_next_permutation] and [allPermutations] of
    src/Feather/Sources/Categories/NSArray+MPExtensions.m, with the C array of
    indexes as a list of words and [p[i]] checked against its bounds: the one
    word below the block that the code reads is a parameter ([below]).  The
    shuffle only reorders and can give every order; the enumeration gives every
    order once, in lexicographic order of the indexes. *)
From Stdlib Require Import Sorted.
From stdpp Require Import base tactics strings numbers list sorting.
From S2P Require Import Prelude.

Local Open Scope Z_scope.

(** [-exchangeObjectAtIndex:withObjectAtIndex:], which raises outside the array;
    also the three assignments that swap [p[i]] and [p[j]]. *)
Definition exchange {A} (l : list A) (i j : Z) : res (list A) :=
  if (0 <=? i) && (0 <=? j) then
    match l !! Z.to_nat i, l !! Z.to_nat j with
    | Some x, Some y => Ok (<[Z.to_nat i := y]> (<[Z.to_nat j := x]> l))
    | _, _ => Throw (RangeException (Z.max i j) (Z.of_nat (length l)))
    end
  else Throw (RangeException (Z.min i j) (Z.of_nat (length l))).

(** ** Shuffling *)
Section shuffle.
Context {A : Type}.

(** The [for] loop from [i] on, for [fuel] more rounds; [arc4random] is the word
    drawn at each round. *)
Fixpoint randomize (arc4random : nat → Z) (fuel : nat) (i : nat) (randomised : list A) : res (list A) :=
  match fuel with
  | O => Ok randomised
  | S fuel =>
      let nElements := Z.of_nat (length randomised) - Z.of_nat i in
      let n := arc4random i mod nElements + Z.of_nat i in
      randomised ← exchange randomised (Z.of_nat i) n;
      randomize arc4random fuel (S i) randomised
  end.

(* @src Feather/Sources/Categories/NSArray+MPExtensions.m 109 123 -[NSArray arrayByRandomizingOrder] *)
Definition arrayByRandomizingOrder (arc4random : nat → Z) (self : list A) : res (list A) :=
  randomize arc4random (length self) 0 self.
End shuffle.

(** ** Permutations of indexes *)

(** [p[i]]: the block holds [p], the word before it is [below]. *)
Definition read (below : Z) (p : list Z) (i : Z) : res Z :=
  if i =? -1 then Ok below
  else if 0 <=? i then
    match p !! Z.to_nat i with
    | Some x => Ok x
    | None => Throw (RangeException i (Z.of_nat (length p)))
    end
  else Throw (RangeException i (Z.of_nat (length p))).

(** [for (i = size - 1; p[i] >= p[i + 1]; --i) { }] *)
Fixpoint slideSmaller (below : Z) (p : list Z) (fuel : nat) (i : Z) : res Z :=
  match fuel with
  | O => Throw (Exception "hang" "")
  | S fuel =>
      a ← read below p i;
      b ← read below p (i + 1);
      if b <=? a then slideSmaller below p fuel (i - 1) else Ok i
  end.

(** [for (j = size; p[j] <= p[i]; --j) { }] *)
Fixpoint slideBigger (below : Z) (p : list Z) (i : Z) (fuel : nat) (j : Z) : res Z :=
  match fuel with
  | O => Throw (Exception "hang" "")
  | S fuel =>
      a ← read below p j;
      b ← read below p i;
      if a <=? b then slideBigger below p i fuel (j - 1) else Ok j
  end.

(** [for (++i, j = size; i < j; ++i, --j)] with its swap *)
Fixpoint swapEnds (p : list Z) (fuel : nat) (i j : Z) : res (list Z) :=
  match fuel with
  | O => Ok p
  | S fuel =>
      if i <? j then p ← exchange p i j; swapEnds p fuel (i + 1) (j - 1) else Ok p
  end.

(* @src Feather/Sources/Categories/NSArray+MPExtensions.m 249 272 pc_next_permutation *)
Definition pc_next_permutation (below : Z) (p : list Z) (size : Z) : res (option (list Z)) :=
  i ← slideSmaller below p (2 + length p) (size - 1);
  if i =? -1 then Ok None
  else
    j ← slideBigger below p i (2 + length p) size;
    p ← exchange p i j;
    p ← swapEnds p (length p) (i + 1) size;
    Ok (Some p).

Fixpoint objectsAt {A} (self : list A) (p : list Z) : res (list A) :=
  match p with
  | [] => Ok []
  | k :: p =>
      match (if 0 <=? k then self !! Z.to_nat k else None) with
      | Some x => xs ← objectsAt self p; Ok (x :: xs)
      | None => Throw (RangeException k (Z.of_nat (length self)))
      end
  end.

(** The [do ... while] loop. *)
Fixpoint collectPermutations {A} (below : Z) (self : list A) (size : Z) (fuel : nat) (perm : list Z)
    : res (list (list A)) :=
  match fuel with
  | O => Throw (Exception "hang" "")
  | S fuel =>
      newPerm ← objectsAt self perm;
      next ← pc_next_permutation below perm size;
      match next with
      | None => Ok [newPerm]
      | Some perm => perms ← collectPermutations below self size fuel perm; Ok (newPerm :: perms)
      end
  end.

(** [perm[idx] = idx] *)
Definition iota (n : nat) : list Z := Z.of_nat <$> seq 0 n.

(** One round for each order of the indexes. *)
(* @src Feather/Sources/Categories/NSArray+MPExtensions.m 274 303 -[NSArray allPermutations] *)
Definition allPermutations {A} (below : Z) (self : list A) : res (list (list A)) :=
  match self with
  | [] => Ok []
  | _ => collectPermutations below self (Z.of_nat (length self) - 1)
           (length (permutations (iota (length self)))) (iota (length self))
  end.

(** ** Swapping *)
Lemma insert_middle {A} (pre post : list A) x y : <[length pre := y]> (pre ++ x :: post) = pre ++ y :: post.
Proof. by rewrite insert_app_r_alt, Nat.sub_diag by lia. Qed.

Lemma exchange_app {A} (pre mid post : list A) x y :
  exchange (pre ++ x :: mid ++ y :: post) (Z.of_nat (length pre)) (Z.of_nat (length pre + S (length mid)))
  = Ok (pre ++ y :: mid ++ x :: post).
Proof.
  unfold exchange. rewrite !(proj2 (Z.leb_le _ _)) by lia. cbn [andb]. rewrite !Nat2Z.id.
  rewrite list_lookup_middle by done.
  assert ((pre ++ x :: mid ++ y :: post) !! (length pre + S (length mid))%nat = Some y) as ->.
  { rewrite lookup_app_r by lia. rewrite Nat.add_comm, Nat.add_sub. cbn. by apply list_lookup_middle. }
  f_equal. change (x :: mid ++ y :: post) with ((x :: mid) ++ y :: post). rewrite app_assoc.
  replace (length pre + S (length mid))%nat with (length (pre ++ x :: mid)) by (rewrite length_app; done).
  rewrite insert_middle, <- app_assoc. cbn. apply insert_middle.
Qed.

(** The two positions of a swap split the array. *)
Lemma split_at {A} (l : list A) i x : l !! i = Some x → ∃ pre post, l = pre ++ x :: post ∧ length pre = i.
Proof.
  intros Hx. exists (take i l), (drop (S i) l). split; [by rewrite take_drop_middle|].
  apply length_take_le. apply lookup_lt_Some in Hx. lia.
Qed.

Lemma split_at_two {A} (l : list A) i j :
  (i < j < length l)%nat →
  ∃ pre x mid y post, l = pre ++ x :: mid ++ y :: post ∧ length pre = i ∧ j = (i + S (length mid))%nat.
Proof.
  intros [Hij Hj]. destruct (lookup_lt_is_Some_2 l j Hj) as [y Hy].
  destruct (split_at l j y Hy) as (l1 & post & -> & Hl1).
  destruct (lookup_lt_is_Some_2 l1 i) as [x Hx]; [lia|].
  destruct (split_at l1 i x Hx) as (pre & mid & -> & Hpre).
  exists pre, x, mid, y, post. rewrite <- app_assoc. split_and!; [done|done|].
  rewrite length_app in Hl1. cbn in Hl1. lia.
Qed.

Lemma swap_perm {A} (pre mid post : list A) x y :
  pre ++ y :: mid ++ x :: post ≡ₚ pre ++ x :: mid ++ y :: post.
Proof.
  apply Permutation_app_head. rewrite (Permutation_app_comm mid), (Permutation_app_comm mid). cbn.
  rewrite Permutation_swap. done.
Qed.

Lemma exchange_same {A} (l : list A) i : (i < length l)%nat → exchange l (Z.of_nat i) (Z.of_nat i) = Ok l.
Proof.
  intros Hi. unfold exchange. rewrite !(proj2 (Z.leb_le _ _)) by lia. cbn [andb]. rewrite !Nat2Z.id.
  destruct (lookup_lt_is_Some_2 l i Hi) as [x Hx]. rewrite Hx. f_equal.
  by rewrite list_insert_insert_eq, list_insert_id.
Qed.

(** A swap of [i] with a later position moves that element to [i] and keeps what
    comes before. *)
Lemma exchange_spec {A} (l : list A) i j :
  (i ≤ j < length l)%nat →
  ∃ l', exchange l (Z.of_nat i) (Z.of_nat j) = Ok l' ∧ l' ≡ₚ l ∧ take i l' = take i l ∧ l' !! i = l !! j.
Proof.
  intros Hij. destruct (decide (i = j)) as [->|Hne].
  - exists l. rewrite exchange_same by lia. done.
  - destruct (split_at_two l i j ltac:(lia)) as (pre & x & mid & y & post & -> & <- & ->).
    rewrite exchange_app. eexists. split_and!; [done|apply swap_perm|by rewrite !take_app_length|].
    rewrite !lookup_app_r by lia. rewrite Nat.sub_diag.
    replace (length pre + S (length mid) - length pre)%nat with (S (length mid)) by lia. cbn.
    change (Some y = (mid ++ y :: post) !! length mid). by rewrite lookup_app_r, Nat.sub_diag by lia.
Qed.

(** ** The shuffle *)
Section shuffle_proof.
Context {A : Type}.
Implicit Types l t : list A.

Lemma drawn_index arc4random l i :
  (i < length l)%nat →
  ∃ j, (i ≤ j < length l)%nat ∧
       arc4random i mod (Z.of_nat (length l) - Z.of_nat i) + Z.of_nat i = Z.of_nat j.
Proof.
  intros Hi. set (k := Z.of_nat (length l) - Z.of_nat i).
  pose proof (Z.mod_pos_bound (arc4random i) k ltac:(lia)) as Hk.
  exists (Z.to_nat (arc4random i mod k) + i)%nat. lia.
Qed.

Lemma randomize_perm arc4random fuel i l :
  (i + fuel = length l)%nat →
  ∃ l', randomize arc4random fuel i l = Ok l' ∧ l' ≡ₚ l ∧ take i l' = take i l.
Proof.
  revert i l. induction fuel as [|fuel IH]; intros i l Hlen; [by exists l|].
  destruct (drawn_index arc4random l i ltac:(lia)) as (j & Hj & Edraw). cbn [randomize]. rewrite Edraw.
  destruct (exchange_spec l i j Hj) as (l1 & E1 & Hp1 & Ht1 & _). rewrite E1. cbn [mbind res_bind].
  destruct (IH (S i) l1) as (l2 & E2 & Hp2 & Ht2).
  { rewrite (Permutation_length Hp1). lia. }
  exists l2. split_and!; [done|by rewrite Hp2|].
  rewrite <- Ht1. apply (f_equal (take i)) in Ht2. by rewrite !take_take, !Nat.min_l in Ht2 by lia.
Qed.

(** Draw at round [k] the distance to the element wanted there. *)
Lemma randomize_onto fuel i l t :
  (i + fuel = length l)%nat → t ≡ₚ l → take i t = take i l →
  ∃ draws : nat → Z, (∀ k, 0 ≤ draws k < Z.max 1 (Z.of_nat (length l))) ∧ randomize draws fuel i l = Ok t.
Proof.
  revert i l. induction fuel as [|fuel IH]; intros i l Hlen Hp Htake.
  - exists (λ _, 0). split; [lia|]. cbn. f_equal.
    rewrite !take_ge in Htake; [done| |]; rewrite ?(Permutation_length Hp); lia.
  - assert (i < length t)%nat as Hi by (rewrite (Permutation_length Hp); lia).
    destruct (lookup_lt_is_Some_2 t i Hi) as [x Hx].
    assert (x ∈ drop i l) as Hin.
    { assert (drop i t ≡ₚ drop i l) as Hd.
      { apply (Permutation_app_inv_l (take i t)). rewrite take_drop, Htake, take_drop. done. }
      rewrite <- Hd. apply (list_elem_of_lookup_2 _ 0). by rewrite lookup_drop, Nat.add_0_r. }
    apply list_elem_of_lookup_1 in Hin as [d Hd]. rewrite lookup_drop in Hd.
    pose proof (lookup_lt_Some _ _ _ Hd) as Hlt.
    destruct (exchange_spec l i (i + d) ltac:(lia)) as (l1 & E1 & Hp1 & Ht1 & Hi1).
    destruct (IH (S i) l1) as (draws & Hr & E).
    { rewrite (Permutation_length Hp1). lia. }
    { by rewrite Hp, Hp1. }
    { rewrite (take_S_r t i x Hx), (take_S_r l1 i x) by (by rewrite Hi1). by rewrite Ht1, Htake. }
    exists (λ k, if decide (k = i) then Z.of_nat d else draws k). split.
    { intros k. rewrite (Permutation_length Hp1) in Hr. specialize (Hr k). case_decide; lia. }
    cbn [randomize]. rewrite decide_True by done. rewrite Z.mod_small by lia.
    replace (Z.of_nat d + Z.of_nat i) with (Z.of_nat (i + d)) by lia. rewrite E1. cbn [mbind res_bind].
    rewrite <- E. clear -Hlen. assert (∀ m k l, (i < k)%nat →
      randomize (λ k, if decide (k = i) then Z.of_nat d else draws k) m k l = randomize draws m k l) as Hext.
    { induction m as [|m IHm]; intros k l' Hk; [done|]. cbn [randomize]. rewrite decide_False by lia.
      destruct (exchange _ _ _); [|done]. cbn [mbind res_bind]. apply IHm. lia. }
    apply Hext. lia.
Qed.
End shuffle_proof.

(** C40 (bounds). [arrayByRandomizingOrder] never indexes outside the array
    and only reorders it, whatever words [arc4random] yields; and every order of
    an array that fits the range of [arc4random] comes out for some words. *)
Theorem randomizing_order_is_fair {A} (l : list A) :
  (∀ arc4random, ∃ l', arrayByRandomizingOrder arc4random l = Ok l' ∧ l' ≡ₚ l) ∧
  (Z.of_nat (length l) ≤ 2 ^ 32 → ∀ t, t ≡ₚ l →
   ∃ arc4random, (∀ k, 0 ≤ arc4random k < 2 ^ 32) ∧ arrayByRandomizingOrder arc4random l = Ok t).
Proof.
  split.
  - intros r. destruct (randomize_perm r (length l) 0 l eq_refl) as (l' & E & Hp & _). by exists l'.
  - intros Hlen t Ht. destruct (randomize_onto (length l) 0 l t eq_refl Ht eq_refl) as (r & Hr & E).
    exists r. split; [|done]. intros k. specialize (Hr k). lia.
Qed.

(** ** Lexicographic order *)
Fixpoint lex (p q : list Z) : Prop :=
  match p, q with
  | x :: p, y :: q => x < y ∨ (x = y ∧ lex p q)
  | _, _ => False
  end.

#[export] Instance lex_dec p q : Decision (lex p q).
Proof.
  revert q. induction p as [|x p IH]; intros [|y q]; cbn; try (right; tauto).
  destruct (decide (x < y)); [left; auto|]. destruct (decide (x = y)); [|right; naive_solver].
  destruct (IH q); [left|right]; naive_solver.
Defined.

Lemma lex_irrefl p : ¬ lex p p.
Proof. induction p; cbn; [tauto|]. intros [?|[_ ?]]; [lia|auto]. Qed.

Lemma lex_trans p q r : lex p q → lex q r → lex p r.
Proof.
  revert q r. induction p as [|x p IH]; intros [|y q] [|z r]; cbn; try tauto.
  intros [?|[-> ?]] [?|[-> ?]]; [left; lia|left; lia|left; lia|right; eauto].
Qed.

Lemma lex_total p q : length p = length q → lex p q ∨ p = q ∨ lex q p.
Proof.
  revert q. induction p as [|x p IH]; intros [|y q]; cbn; try done; [auto|].
  intros [= Hl]. destruct (IH q Hl) as [?|[->|?]], (Z.lt_trichotomy x y) as [?|[->|?]]; auto.
Qed.

Lemma lex_app_head s p q : lex (s ++ p) (s ++ q) ↔ lex p q.
Proof. induction s as [|x s IH]; cbn; [done|]. rewrite IH. split; [intros [?|[_ ?]]; [lia|done]|auto]. Qed.

(** Descending arrays come last, ascending ones first. *)
Lemma descending_last p q : Sorted.StronglySorted (λ x y, y ≤ x) p → q ≡ₚ p → ¬ lex p q.
Proof.
  revert q. induction p as [|x p IH]; intros q Hs Hq; [destruct q; cbn; tauto|].
  inversion_clear Hs as [|? ? Hs' Hall]. destruct q as [|y q]; [cbn; tauto|]. cbn. intros [Hlt|[-> Hlt]].
  - assert (y ∈ x :: p) as Hy by (rewrite <- Hq; apply list_elem_of_here). rewrite Forall_forall in Hall.
    apply elem_of_cons in Hy as [->|Hy]; [lia|]. specialize (Hall y Hy). cbn in Hall. lia.
  - eapply IH; [done| |exact Hlt]. by apply (Permutation_cons_inv (a := y)).
Qed.

Lemma ascending_first p q : Sorted.StronglySorted Z.le p → q ≡ₚ p → ¬ lex q p.
Proof.
  revert q. induction p as [|x p IH]; intros q Hs Hq; [destruct q; cbn; tauto|].
  inversion_clear Hs as [|? ? Hs' Hall]. destruct q as [|y q]; [cbn; tauto|]. cbn. intros [Hlt|[-> Hlt]].
  - assert (y ∈ x :: p) as Hy by (rewrite <- Hq; apply list_elem_of_here). rewrite Forall_forall in Hall.
    apply elem_of_cons in Hy as [->|Hy]; [lia|]. specialize (Hall y Hy). cbn in Hall. lia.
  - eapply IH; [done| |exact Hlt]. by apply (Permutation_cons_inv (a := x)).
Qed.

(** ** The successor *)

Definition descending : list Z → Prop := Sorted.StronglySorted (λ x y, y ≤ x).

(** An array is descending, or has a last place where it ascends. *)
Lemma last_ascent p :
  descending p ∨
  ∃ pre x y suf, p = pre ++ x :: y :: suf ∧ x < y ∧ descending (y :: suf).
Proof.
  induction p as [|x p IH]; [left; constructor|].
  destruct IH as [Hd|(pre & a & b & suf & -> & Hlt & Hd)]; [|right; by exists (x :: pre), a, b, suf].
  destruct p as [|y p]; [left; repeat constructor|].
  destruct (Z.lt_ge_cases x y) as [?|Hle]; [right; by exists [], x, y, p|]. left.
  constructor; [done|]. inversion_clear Hd as [|? ? _ Hall]. constructor; [done|].
  eapply Forall_impl; [exact Hall|]. cbn. lia.
Qed.

(** In a descending array, the elements above [x] come first. *)
Lemma split_above x s :
  descending s → ∃ a b, s = a ++ b ∧ Forall (λ z, x < z) a ∧ Forall (λ z, z ≤ x) b.
Proof.
  induction s as [|y s IH]; intros Hd; [by exists [], []|]. inversion_clear Hd as [|? ? Hs Hall].
  destruct (Z.lt_ge_cases x y) as [?|Hle].
  - destruct (IH Hs) as (a & b & -> & Ha & Hb). exists (y :: a), b. split_and!; auto.
  - exists [], (y :: s). split_and!; [done|done|]. constructor; [done|]. eapply Forall_impl; [exact Hall|].
    cbn. lia.
Qed.

Lemma read_at below p (i : nat) x : p !! i = Some x → read below p (Z.of_nat i) = Ok x.
Proof.
  intros Hx. unfold read. rewrite (proj2 (Z.eqb_neq _ _)), (proj2 (Z.leb_le _ _)) by lia.
  by rewrite Nat2Z.id, Hx.
Qed.

Lemma descending_lookup s i x y :
  descending s → s !! i = Some x → s !! S i = Some y → y ≤ x.
Proof.
  intros Hd. revert i. induction Hd as [|z s Hd IH Hall]; intros i Hx Hy; [done|].
  destruct i as [|i]; cbn in *; [|by eapply IH]. simplify_eq. rewrite Forall_forall in Hall.
  apply Hall. by eapply list_elem_of_lookup_2.
Qed.

(** Reads below the last ascent. *)
Lemma slideSmaller_descends below p i0 (i : nat) fuel :
  (∀ k x y, i0 < Z.of_nat k → p !! k = Some x → p !! S k = Some y → y ≤ x) →
  -1 ≤ i0 → (S i < length p)%nat → i0 ≤ Z.of_nat i → (i < fuel)%nat →
  slideSmaller below p (S fuel) (Z.of_nat i) = slideSmaller below p (S fuel - Z.to_nat (Z.of_nat i - i0)) i0.
Proof.
  intros Hdesc H1. revert fuel. induction i as [|i IH]; intros fuel Hl Hi Hf.
  - destruct (decide (i0 = 0)) as [->|Hne]; [by rewrite Z.sub_diag, Nat.sub_0_r|].
    assert (i0 = -1) as -> by lia. cbn [slideSmaller].
    destruct (lookup_lt_is_Some_2 p 0 ltac:(lia)) as [x Hx]. destruct (lookup_lt_is_Some_2 p 1 ltac:(lia)) as [y Hy].
    rewrite (read_at _ _ 0 x Hx). cbn [mbind res_bind]. rewrite (read_at _ _ 1 y Hy). cbn [mbind res_bind].
    rewrite (proj2 (Z.leb_le _ _)); [|by apply (Hdesc 0%nat)]. by rewrite Nat.sub_1_r.
  - destruct (decide (i0 = Z.of_nat (S i))) as [->|Hne]; [by rewrite Z.sub_diag, Nat.sub_0_r|].
    destruct (lookup_lt_is_Some_2 p (S i) ltac:(lia)) as [x Hx].
    destruct (lookup_lt_is_Some_2 p (S (S i)) ltac:(lia)) as [y Hy].
    remember (Z.to_nat (Z.of_nat (S i) - i0)) as k eqn:Ek.
    cbn [slideSmaller]. rewrite (read_at _ _ _ x Hx). cbn [mbind res_bind].
    replace (Z.of_nat (S i) + 1) with (Z.of_nat (S (S i))) by lia.
    rewrite (read_at _ _ _ y Hy). cbn [mbind res_bind].
    rewrite (proj2 (Z.leb_le _ _)); [|by eapply (Hdesc (S i)); [lia| |]].
    replace (Z.of_nat (S i) - 1) with (Z.of_nat i) by lia. destruct fuel as [|fuel]; [lia|].
    rewrite IH by lia. f_equal. lia.
Qed.

Lemma slideBigger_stops below p i x (j0 k : nat) m fuel :
  read below p i = Ok x → p !! j0 = Some m → x < m →
  (∀ j z, (j0 < j ≤ k)%nat → p !! j = Some z → z ≤ x) →
  (j0 ≤ k < length p)%nat → (k - j0 < fuel)%nat →
  slideBigger below p i fuel (Z.of_nat k) = Ok (Z.of_nat j0).
Proof.
  intros Hi Hm Hlt Hle. revert fuel. induction k as [|k IH]; intros fuel Hk Hf; (destruct fuel as [|fuel]; [lia|]);
    cbn [slideBigger]; rewrite Hi.
  - assert (j0 = 0%nat) as -> by lia. rewrite (read_at _ _ 0 m Hm). cbn [mbind res_bind].
    by rewrite (proj2 (Z.leb_gt _ _)).
  - destruct (decide (j0 = S k)) as [->|Hne].
    + rewrite (read_at _ _ _ m Hm). cbn [mbind res_bind]. by rewrite (proj2 (Z.leb_gt _ _)).
    + destruct (lookup_lt_is_Some_2 p (S k) ltac:(lia)) as [z Hz].
      rewrite (read_at _ _ _ z Hz). cbn [mbind res_bind].
      rewrite (proj2 (Z.leb_le _ _)); [|apply (Hle (S k)); [lia|done]].
      replace (Z.of_nat (S k) - 1) with (Z.of_nat k) by lia. apply IH; [|lia|lia].
      intros j z' Hj. apply Hle. lia.
Qed.

Lemma swapEnds_reverses fuel : ∀ pre mid post,
  (length mid ≤ fuel)%nat →
  swapEnds (pre ++ mid ++ post) fuel (Z.of_nat (length pre)) (Z.of_nat (length pre + length mid) - 1)
  = Ok (pre ++ reverse mid ++ post).
Proof.
  induction fuel as [|fuel IH]; intros pre mid post Hf; [destruct mid; [done|cbn in Hf; lia]|].
  cbn [swapEnds]. destruct mid as [|x mid].
  { rewrite (proj2 (Z.ltb_ge _ _)); [done|cbn; lia]. }
  destruct mid as [|y m _] using rev_ind.
  { rewrite (proj2 (Z.ltb_ge _ _)); [done|cbn; lia]. }
  cbn [length app] in *. rewrite length_app in *. cbn [length] in *. rewrite (proj2 (Z.ltb_lt _ _)) by lia.
  rewrite <- (app_assoc m). cbn [app].
  replace (Z.of_nat (length pre + S (length m + 1)) - 1) with (Z.of_nat (length pre + S (length m))) by lia.
  rewrite exchange_app. cbn [mbind res_bind]. specialize (IH (pre ++ [y]) m (x :: post) ltac:(lia)).
  rewrite !length_app in IH. cbn [length] in IH. rewrite <- !app_assoc in IH. cbn [app] in IH.
  replace (Z.of_nat (length pre) + 1) with (Z.of_nat (length pre + 1)) by lia.
  replace (Z.of_nat (length pre + S (length m)) - 1) with (Z.of_nat (length pre + 1 + length m) - 1) by lia.
  rewrite IH. rewrite reverse_cons, reverse_snoc. cbn. rewrite <- app_assoc. done.
Qed.

Lemma next_when_descending below p :
  descending p → p ≠ [] → (∀ x, head p = Some x → below < x) →
  pc_next_permutation below p (Z.of_nat (length p) - 1) = Ok None.
Proof.
  intros Hd Hne Hb. destruct p as [|x p]; [done|]. specialize (Hb x eq_refl).
  assert (slideSmaller below (x :: p) (2 + length (x :: p)) (Z.of_nat (length (x :: p)) - 1 - 1) = Ok (-1)) as Hs.
  { assert (∀ fuel, slideSmaller below (x :: p) (S fuel) (-1) = Ok (-1)) as Hstop.
    { intros fuel. cbn [slideSmaller]. change (read below (x :: p) (-1)) with (Ok below).
      change (read below (x :: p) (-1 + 1)) with (Ok x). cbn [mbind res_bind]. by rewrite (proj2 (Z.leb_gt _ _)). }
    destruct p as [|y p]; [apply Hstop|]. cbn [length].
    replace (Z.of_nat (S (S (length p))) - 1 - 1) with (Z.of_nat (length p)) by lia.
    change (2 + S (S (length p)))%nat with (S (S (S (S (length p))))).
    rewrite (slideSmaller_descends _ _ (-1)); cbn [length]; try lia.
    - replace (S (S (S (S (length p)))) - Z.to_nat (Z.of_nat (length p) - -1))%nat with 3%nat by lia. apply Hstop.
    - intros k a b _. by apply descending_lookup. }
  unfold pc_next_permutation. by rewrite Hs.
Qed.

(** The successor of an array that ascends somewhere. *)
Lemma next_when_ascending below pre x a m b :
  x < m → Forall (λ z, x < z) a → Forall (λ z, z ≤ x) b → descending (a ++ m :: b) →
  let p := pre ++ x :: a ++ m :: b in
  pc_next_permutation below p (Z.of_nat (length p) - 1) = Ok (Some (pre ++ m :: reverse (a ++ x :: b))).
Proof.
  intros Hxm Ha Hb Hd p. set (s := a ++ m :: b) in *.
  assert (length p = length pre + 1 + length s)%nat as Hlen by (subst p; rewrite length_app; cbn; lia).
  assert (length s = length a + S (length b))%nat as Hls by (subst s; rewrite length_app; cbn; lia).
  assert (p !! length pre = Some x) as Hx by (subst p; by apply list_lookup_middle).
  assert (∀ k, p !! (length pre + S k)%nat = s !! k) as Hk.
  { intros k. subst p. rewrite lookup_app_r by lia. by replace (length pre + S k - length pre)%nat with (S k) by lia. }
  assert (∃ y, s !! 0%nat = Some y ∧ x < y) as (y & Hy & Hxy).
  { subst s. destruct a as [|y a]; [by exists m|]. exists y. split; [done|]. by inversion Ha. }
  unfold pc_next_permutation.
  assert (slideSmaller below p (2 + length p) (Z.of_nat (length p) - 1 - 1) = Ok (Z.of_nat (length pre))) as ->.
  { replace (Z.of_nat (length p) - 1 - 1) with (Z.of_nat (length p - 2)) by lia.
    change (2 + length p)%nat with (S (S (length p))).
    rewrite (slideSmaller_descends below p (Z.of_nat (length pre))); try lia.
    - replace (S (S (length p)) - _)%nat with (S (1 + length p - Z.to_nat (Z.of_nat (length p - 2) - Z.of_nat (length pre)))) by lia.
      cbn [slideSmaller]. rewrite (read_at _ _ _ x Hx). cbn [mbind res_bind].
      replace (Z.of_nat (length pre) + 1) with (Z.of_nat (length pre + 1)) by lia.
      rewrite (read_at _ _ _ y); [|by rewrite Hk]. cbn [mbind res_bind]. by rewrite (proj2 (Z.leb_gt _ _)).
    - intros k u v Hlt Hu Hv. replace k with (length pre + S (k - length pre - 1))%nat in Hu by lia.
      replace (S k) with (length pre + S (S (k - length pre - 1)))%nat in Hv by lia.
      rewrite Hk in Hu, Hv. by eapply descending_lookup. }
  cbn [mbind res_bind]. rewrite (proj2 (Z.eqb_neq _ _)) by lia.
  replace (Z.of_nat (length p) - 1) with (Z.of_nat (length p - 1)) by lia.
  rewrite (slideBigger_stops below p _ x (length pre + S (length a)) (length p - 1) m); try done; try lia.
  - cbn [mbind res_bind]. subst p s. rewrite exchange_app. cbn [mbind res_bind].
    pose proof (swapEnds_reverses (length (pre ++ m :: a ++ x :: b)) (pre ++ [m]) (a ++ x :: b) []) as Hsw.
    rewrite !app_nil_r, <- !app_assoc, !length_app in Hsw. cbn [app length] in Hsw. rewrite !length_app. cbn [length].
    rewrite length_app in Hsw. cbn [length] in Hsw. rewrite length_app. cbn [length]. rewrite length_app. cbn [length].
    replace (Z.of_nat (length pre) + 1) with (Z.of_nat (length pre + 1)) by lia.
    replace (Z.of_nat (length pre + S (length a + S (length b)) - 1))
      with (Z.of_nat (length pre + 1 + (length a + S (length b))) - 1) by lia.
    rewrite Hsw by lia. done.
  - by apply read_at.
  - rewrite Hk. subst s. by apply list_lookup_middle.
  - intros j z Hj Hz. replace j with (length pre + S (j - length pre - 1))%nat in Hz by lia. rewrite Hk in Hz.
    subst s. rewrite lookup_app_r in Hz by lia.
    destruct (j - length pre - 1 - length a)%nat as [|i] eqn:Ei; [lia|]. cbn in Hz.
    rewrite Forall_forall in Hb. apply Hb. by eapply list_elem_of_lookup_2.
Qed.

Lemma descending_app_inv l1 l2 :
  descending (l1 ++ l2) → descending l1 ∧ descending l2 ∧ ∀ x y, x ∈ l1 → y ∈ l2 → y ≤ x.
Proof.
  induction l1 as [|z l1 IH]; cbn; intros Hd.
  - split_and!; [constructor|done|]. by intros ? ? ?%elem_of_nil.
  - inversion_clear Hd as [|? ? Hs Hall]. destruct (IH Hs) as (H1 & H2 & H3). apply Forall_app in Hall as [Ha Hb].
    split_and!; [by constructor|done|]. intros x y [->|Hx]%elem_of_cons Hy; [|by apply H3].
    rewrite Forall_forall in Hb. by apply Hb.
Qed.

Lemma ascending_snoc l z :
  Sorted.StronglySorted Z.le l → (∀ x, x ∈ l → x ≤ z) → Sorted.StronglySorted Z.le (l ++ [z]).
Proof.
  induction 1 as [|x l Hs IH Hall]; intros Hz; cbn; [repeat constructor|].
  constructor; [apply IH; intros; apply Hz; by apply list_elem_of_further|].
  apply Forall_app. split; [done|]. constructor; [apply Hz, list_elem_of_here|constructor].
Qed.

Lemma reverse_descending l : descending l → Sorted.StronglySorted Z.le (reverse l).
Proof.
  induction 1 as [|x l Hs IH Hall]; [constructor|]. rewrite reverse_cons. apply ascending_snoc; [done|].
  intros y Hy. rewrite elem_of_reverse in Hy. rewrite Forall_forall in Hall. by apply Hall.
Qed.

Lemma descending_replace a m b x :
  descending (a ++ m :: b) → x < m → Forall (λ z, z ≤ x) b → Forall (λ z, x < z) a → descending (a ++ x :: b).
Proof.
  induction a as [|y a IH]; cbn; intros Hd Hxm Hb Ha.
  - inversion_clear Hd. by constructor.
  - inversion_clear Hd as [|? ? Hs Hall]. inversion_clear Ha as [|? ? Hy Ha'].
    constructor; [by apply IH|]. apply Forall_app in Hall as [H1 H2]. apply Forall_app. split; [done|].
    inversion_clear H2. constructor; [lia|done].
Qed.

(** Nothing lies between an array and its successor. *)
Lemma next_least pre x a m b q :
  x < m → Forall (λ z, x < z) a → Forall (λ z, z ≤ x) b → descending (a ++ m :: b) →
  q ≡ₚ pre ++ x :: a ++ m :: b → lex (pre ++ x :: a ++ m :: b) q →
  q = pre ++ m :: reverse (a ++ x :: b) ∨ lex (pre ++ m :: reverse (a ++ x :: b)) q.
Proof.
  intros Hxm Ha Hb Hd. revert q. induction pre as [|c pre IH]; intros q Hq Hlt; cbn in *.
  - destruct q as [|z q]; [done|]. destruct Hlt as [Hxz|[<- Hlt]].
    2: { exfalso. eapply descending_last; [exact Hd| |exact Hlt]. by apply (Permutation_cons_inv (a := x)). }
    assert (z ∈ a ++ m :: b) as Hz.
    { assert (z ∈ x :: a ++ m :: b) as Hz by (rewrite <- Hq; apply list_elem_of_here).
      apply elem_of_cons in Hz as [->|Hz]; [lia|done]. }
    assert (m ≤ z) as Hmz.
    { apply elem_of_app in Hz as [Hz|[->|Hz]%elem_of_cons]; [|lia|].
      - destruct (descending_app_inv _ _ Hd) as (_ & _ & H). apply (H z m Hz). apply list_elem_of_here.
      - rewrite Forall_forall in Hb. specialize (Hb z Hz). cbn in Hb. lia. }
    destruct (decide (m = z)) as [<-|Hne]; [|right; left; lia].
    assert (q ≡ₚ reverse (a ++ x :: b)) as Hqr.
    { rewrite reverse_Permutation. apply (Permutation_cons_inv (a := m)). rewrite Hq.
      change (x :: a ++ m :: b) with ([] ++ x :: a ++ m :: b). by rewrite <- swap_perm. }
    assert (Sorted.StronglySorted Z.le (reverse (a ++ x :: b))) as Hasc
      by (by apply reverse_descending, descending_replace with m).
    destruct (lex_total q (reverse (a ++ x :: b)) (Permutation_length Hqr)) as [Hl|[->|Hl]];
      [exfalso; by eapply ascending_first|by left|right; right; auto].
  - destruct q as [|z q]; [done|]. destruct Hlt as [Hcz|[<- Hlt]]; [right; by left|].
    apply Permutation_cons_inv in Hq. destruct (IH q Hq Hlt) as [->|?]; [by left|right; right; auto].
Qed.

(** What [pc_next_permutation] does to an array it can read: the next
    permutation in lexicographic order, or [NULL] after the last one. *)
Lemma next_spec below p :
  p ≠ [] → (descending p → ∀ x, head p = Some x → below < x) →
  match pc_next_permutation below p (Z.of_nat (length p) - 1) with
  | Ok (Some p') => p' ≡ₚ p ∧ lex p p' ∧ ∀ q, q ≡ₚ p → lex p q → q = p' ∨ lex p' q
  | Ok None => ∀ q, q ≡ₚ p → ¬ lex p q
  | Throw _ => False
  end.
Proof.
  intros Hne Hbelow. destruct (last_ascent p) as [Hd|(pre & x & y & suf & -> & Hxy & Hd)].
  - rewrite next_when_descending by auto. intros q. by apply descending_last.
  - destruct (split_above x (y :: suf) Hd) as (a & b & Es & Ha & Hb). rewrite Es in *. clear Hne Hbelow.
    destruct a as [|m a _] using rev_ind.
    { cbn in Es. subst b. inversion_clear Hb. lia. }
    apply Forall_app in Ha as [Ha Hm]. inversion_clear Hm as [|? ? Hxm _]. rewrite <- app_assoc in *. cbn [app] in *.
    rewrite next_when_ascending by done. split_and!.
    + rewrite reverse_Permutation. apply swap_perm.
    + rewrite lex_app_head. cbn. auto.
    + intros q. by apply next_least.
Qed.

(** ** The enumeration *)
Section enumeration.
Context {A : Type} (below : Z) (self : list A).
Let n := length self.

(** The orders that come after [p], [p] included. *)
Definition from (p q : list Z) : Prop := p = q ∨ lex p q.
#[local] Instance from_dec p q : Decision (from p q) := decide (p = q ∨ lex p q).

Definition remaining (p : list Z) : nat := length (filter (from p) (permutations (iota n))).

Lemma remaining_next p p' :
  p ≡ₚ iota n → lex p p' → (remaining p' < remaining p)%nat.
Proof.
  intros Hp Hlt. unfold remaining.
  assert (p ∈ permutations (iota n)) as Hin by (by apply permutations_Permutation).
  revert Hin. generalize (permutations (iota n)) as L. clear Hp.
  assert (∀ L, length (filter (from p') L) ≤ length (filter (from p) L))%nat as Hmono.
  { induction L as [|r L IHL]; [done|]. rewrite !filter_cons. destruct (decide (from p' r)) as [Hr|]; cbn.
    - rewrite decide_True; [cbn; lia|]. destruct Hr as [<-|?]; right; [done|by eapply lex_trans].
    - case_decide; cbn; lia. }
  induction L as [|r L IHL]; [by intros ?%elem_of_nil|]. intros [<-|Hin]%elem_of_cons.
  - rewrite !filter_cons, (decide_True _ _ (or_introl eq_refl : from p p)). rewrite decide_False.
    + cbn. specialize (Hmono L). lia.
    + intros [<-|Hr]; [by eapply lex_irrefl|]. eapply lex_irrefl, lex_trans; done.
  - specialize (IHL Hin). rewrite !filter_cons. destruct (decide (from p' r)) as [Hr|]; cbn.
    + rewrite decide_True; [cbn; lia|]. destruct Hr as [<-|?]; right; [done|by eapply lex_trans].
    + case_decide; cbn; lia.
Qed.

Lemma remaining_pos p : p ≡ₚ iota n → (0 < remaining p)%nat.
Proof.
  intros Hp. unfold remaining. assert (p ∈ filter (from p) (permutations (iota n))) as Hin.
  { apply list_elem_of_filter. split; [by left|]. by apply permutations_Permutation. }
  destruct (filter _ _); [by apply elem_of_nil in Hin|cbn; lia].
Qed.

Lemma objectsAt_ok p : Forall (λ k, 0 ≤ k < Z.of_nat n) p → is_ok (objectsAt self p) = true.
Proof.
  induction 1 as [|k p Hk _ IH]; [done|]. cbn. rewrite (proj2 (Z.leb_le _ _)) by lia.
  destruct (lookup_lt_is_Some_2 self (Z.to_nat k)) as [x ->]; [subst n; lia|].
  by destruct (objectsAt self p).
Qed.

Lemma iota_range p : p ≡ₚ iota n → Forall (λ k, 0 ≤ k < Z.of_nat n) p.
Proof.
  intros ->. apply Forall_forall. intros k. unfold iota. rewrite list_elem_of_fmap.
  intros (i & -> & Hi). apply elem_of_seq in Hi. lia.
Qed.

Lemma last_order_head p x : p ≡ₚ iota n → descending p → head p = Some x → x = Z.of_nat n - 1.
Proof.
  intros Hp Hd Hx. destruct p as [|y p]; [done|]. injection Hx as ->. pose proof (iota_range _ Hp) as Hr.
  inversion_clear Hr as [|? ? Hy _]. inversion_clear Hd as [|? ? _ Hall].
  assert (Z.of_nat n - 1 ∈ x :: p) as [Hin|Hin]%elem_of_cons; [|done|].
  - rewrite Hp. unfold iota. apply list_elem_of_fmap. exists (n - 1)%nat. split; [lia|]. apply elem_of_seq. lia.
  - rewrite Forall_forall in Hall. specialize (Hall _ Hin). cbn in Hall. lia.
Qed.

(** The loop lists the orders from [p] on, each once, in order. *)
Lemma collect_spec fuel : ∀ p,
  p ≡ₚ iota n → (0 < n)%nat → below < Z.of_nat n - 1 → (remaining p ≤ fuel)%nat →
  ∃ ps os, collectPermutations below self (Z.of_nat n - 1) fuel p = Ok os ∧
           Forall2 (λ q o, objectsAt self q = Ok o) ps os ∧
           Sorted.StronglySorted lex ps ∧ ∀ q, q ∈ ps ↔ q ≡ₚ iota n ∧ from p q.
Proof.
  induction fuel as [|fuel IH]; intros p Hp Hn Hb Hf.
  { pose proof (remaining_pos p Hp). lia. }
  assert (length p = n) as Hlen by (rewrite (Permutation_length Hp); unfold iota; by rewrite length_fmap, length_seq).
  pose proof (objectsAt_ok p (iota_range p Hp)) as Hok. cbn [collectPermutations].
  destruct (objectsAt self p) as [o|] eqn:Eo; [|done]. cbn [mbind res_bind].
  pose proof (next_spec below p) as Hnext. rewrite Hlen in Hnext.
  destruct (pc_next_permutation below p (Z.of_nat n - 1)) as [[p'|]|e] eqn:E; cbn [mbind res_bind].
  - destruct Hnext as (Hp' & Hlt & Hleast); [by intros ->; cbn in Hlen; lia|by intros Hd x ->%last_order_head|].
    destruct (IH p') as (ps & os & -> & Hos & Hs & Hps); [by rewrite Hp'|done|done|pose proof (remaining_next p p' Hp Hlt); lia|].
    cbn [mbind res_bind]. exists (p :: ps), (o :: os). split_and!; [done|by constructor| |].
    + constructor; [done|]. apply Forall_forall. intros q [_ [<-|Hq]]%Hps; [done|by eapply lex_trans].
    + intros q. rewrite elem_of_cons, Hps. split.
      * intros [->|[Hq [<-|Hq']]]; [by split; [|left]|by split; [|right]|split; [done|right; by eapply lex_trans]].
      * intros [Hq [<-|Hq']]; [by left|right]. split; [done|].
        destruct (Hleast q) as [->|?]; [by rewrite Hq, Hp|done|by left|by right].
  - exists [p], [o]. split_and!; [done|by repeat constructor|repeat constructor|].
    intros q. rewrite list_elem_of_singleton. split; [intros ->; by split; [|left]|].
    intros [Hq [<-|Hq']]; [done|]. exfalso. refine (Hnext _ _ q _ Hq').
    + by intros ->; cbn in Hlen; lia.
    + by intros Hd x ->%last_order_head.
    + by rewrite Hq, Hp.
  - exfalso. apply Hnext; [by intros ->; cbn in Hlen; lia|by intros Hd x ->%last_order_head].
Qed.
End enumeration.

Lemma iota_ascending n : Sorted.StronglySorted Z.le (iota n).
Proof.
  unfold iota. generalize 0%nat as k. induction n as [|n IH]; intros k; cbn; [constructor|].
  constructor; [apply IH|]. apply Forall_forall. intros x (i & -> & Hi)%list_elem_of_fmap.
  apply elem_of_seq in Hi. lia.
Qed.

(** C39 (functional). [allPermutations] terminates and lists every order of the
    array's indexes exactly once, in lexicographic order, without reading or
    writing outside the index block - provided the word in front of the block,
    which it does read, is smaller than the last index. *)
Theorem allPermutations_complete {A} below (self : list A) :
  self ≠ [] → below < Z.of_nat (length self) - 1 →
  ∃ ps os, allPermutations below self = Ok os ∧
           Forall2 (λ q o, objectsAt self q = Ok o) ps os ∧
           Sorted.StronglySorted lex ps ∧
           ∀ q, q ∈ ps ↔ q ≡ₚ iota (length self).
Proof.
  intros Hne Hb. unfold allPermutations. destruct self as [|x self]; [done|]. clear Hne.
  set (l := x :: self) in *.
  destruct (collect_spec below l (length (permutations (iota (length l)))) (iota (length l))) as (ps & os & E & Hos & Hs & Hps);
    [done|subst l; cbn; lia|done|apply length_filter|].
  exists ps, os. split_and!; [done|done|done|]. intros q. rewrite Hps. split; [by intros []|]. intros Hq.
  split; [done|]. destruct (lex_total (iota (length l)) q) as [?|[?|Hlt]]; [by rewrite Hq|by right|by left|].
  exfalso. by eapply ascending_first; [apply iota_ascending|exact Hq|].
Qed.

Lemma allPermutations_complete_witness :
  allPermutations 0 [true; false; true]
  = Ok [[true; false; true]; [true; true; false]; [false; true; true]; [false; true; true];
        [true; true; false]; [true; false; true]] ∧
  ∃ ps os, allPermutations 0 [true; false; true] = Ok os ∧
           Forall2 (λ q o, objectsAt [true; false; true] q = Ok o) ps os ∧
           Sorted.StronglySorted lex ps ∧ ∀ q, q ∈ ps ↔ q ≡ₚ iota 3.
Proof.
  split; [vm_compute; reflexivity|]. apply (allPermutations_complete 0 [true; false; true]).
  - discriminate.
  - reflexivity.
Defined.

Lemma randomizing_order_is_fair_witness :
  arrayByRandomizingOrder (λ i, 7 - Z.of_nat i) [1; 2; 3] = Ok [2; 1; 3] ∧
  ∃ arc4random, (∀ k, 0 ≤ arc4random k < 2 ^ 32) ∧ arrayByRandomizingOrder arc4random [1; 2; 3] = Ok [3; 1; 2].
Proof.
  split; [reflexivity|]. apply (proj2 (randomizing_order_is_fair [1; 2; 3])).
  - discriminate.
  - exact (Permutation_cons_append [1; 2] 3).
Defined.
