(* ===== verification/Collections.v ===== *)
(** * Collections

    The categories on arrays, sets, index sets and dictionaries of
    src/Feather/Sources/Categories (NSArray+MPExtensions.m, NSSet+MPExtensions.m,
    NSIndexSet+MPExtensions.m, NSDictionary+MPExtensions.m and
    NSDictionary+MPManagedObjectExtensions.m).  Blocks are computations of the
    caller's monad, so they may change state or raise.  An index set is the
    ascending list of its indexes. *)
From Stdlib Require Import Ascii Sorted.
From stdpp Require Import base tactics strings numbers list gmap.
From S2P Require Import Prelude ObjC ReferenceRuntime Classes.

(** [self[idx]] *)
Definition objectAtIndex {S A} (self : list A) (idx : nat) : M S A :=
  match self !! idx with
  | Some x => mret x
  | None => throw (RangeException (Z.of_nat idx) (Z.of_nat (length self)))
  end.

(** ** Arrays *)
Section arrays.
Context {S A B : Type}.
Notation M := (M S).

Fixpoint mapObjects_from (mapBlock : A → nat → M (option B)) (idx : nat) (self : list A) : M (list B) :=
  match self with
  | [] => mret []
  | obj :: rest =>
      mappedVal ← mapBlock obj idx;
      match mappedVal with
      | None => throw (AssertionFailed "mappedVal")
      | Some v => vs ← mapObjects_from mapBlock (1 + idx) rest; mret (v :: vs)
      end
  end.
(* @src Feather/Sources/Categories/NSArray+MPExtensions.m 17 27 -[NSArray mapObjectsUsingBlock:] *)
Definition mapObjectsUsingBlock (self : list A) (mapBlock : A → nat → M (option B)) : M (list B) :=
  mapObjects_from mapBlock 0 self.

Fixpoint nilFilteredMap_from (mapBlock : A → nat → M (option B)) (i : nat) (self : list A) : M (list B) :=
  match self with
  | [] => mret []
  | obj :: rest =>
      mappedVal ← mapBlock obj i;
      vs ← nilFilteredMap_from mapBlock (1 + i) rest;
      mret (match mappedVal with Some v => v :: vs | None => vs end)
  end.
(* @src Feather/Sources/Categories/NSArray+MPExtensions.m 29 41 -[NSArray nilFilteredMapUsingBlock:] *)
Definition nilFilteredMapUsingBlock (self : list A) (mapBlock : A → nat → M (option B)) : M (list B) :=
  nilFilteredMap_from mapBlock 0 self.

Fixpoint firstMatching_from (patternBlock : A → M bool) (idx : nat) (self : list A) : M (option (A * nat)) :=
  match self with
  | [] => mret None
  | evaluatedObj :: rest =>
      b ← patternBlock evaluatedObj;
      if (b : bool) then mret (Some (evaluatedObj, idx)) else firstMatching_from patternBlock (1 + idx) rest
  end.
(* @src Feather/Sources/Categories/NSArray+MPExtensions.m 48 60 -[NSArray firstObjectMatching:index:] *)
Definition firstObjectMatching_index (self : list A) (patternBlock : A → M bool) : M (option (A * nat)) :=
  firstMatching_from patternBlock 0 self.

(* @src Feather/Sources/Categories/NSArray+MPExtensions.m 43 46 -[NSArray firstObjectMatching:] *)
Definition firstObjectMatching (self : list A) (patternBlock : A → M bool) : M (option A) :=
  r ← firstObjectMatching_index self patternBlock; mret (fst <$> r).

(* @src Feather/Sources/Categories/NSArray+MPExtensions.m 62 68 -[NSArray filteredArrayMatching:] *)
Fixpoint filteredArrayMatching (self : list A) (patternBlock : A → M bool) : M (list A) :=
  match self with
  | [] => mret []
  | evaluatedObject :: rest =>
      b ← patternBlock evaluatedObject;
      l ← filteredArrayMatching rest patternBlock;
      mret (if (b : bool) then evaluatedObject :: l else l)
  end.

(* @src Feather/Sources/Categories/NSArray+MPExtensions.m 70 82 -[NSArray subarrayUpToIncludingIndex:] *)
Definition subarrayUpToIncludingIndex (self : list A) (i : nat) : list A :=
  if (length self <? 1)%nat then self
  else let i := if (length self - 1 <? i)%nat then (length self - 1)%nat else i in
       take (i + 1) self.

(* @src Feather/Sources/Categories/NSArray+MPExtensions.m 84 88 -[NSArray subarrayFromIndex:] *)
Definition subarrayFromIndex (self : list A) (i : nat) : res (list A) :=
  _ ← assert_ (i <? length self)%nat "Expecting from index to be smaller than the count";
  Ok (drop i self).

(* @src Feather/Sources/Categories/NSArray+MPExtensions.m 97 103 -[NSArray arrayByRemovingLastObject] *)
Definition arrayByRemovingLastObject (self : list A) : list A :=
  if (length self <=? 1)%nat then [] else take (length self - 1) self.

(* @src Feather/Sources/Categories/NSArray+MPExtensions.m 105 107 -[NSArray reversedArray] *)
Definition reversedArray (self : list A) : list A := rev self.

(* @src Feather/Sources/Categories/NSArray+MPExtensions.m 154 174 -[NSArray allObjectsAreSubclassesOfClasses:] *)
Definition allObjectsAreSubclassesOfClasses {C} (isKindOfClass : A → C → bool) (self : list A) (classes : list C)
    : res bool :=
  _ ← assert_ (0 <? length classes)%nat "classes.count > 0";
  match self with
  | [] => Ok false
  | _ => Ok (forallb (λ o, existsb (isKindOfClass o) classes) self)
  end.

(* @src Feather/Sources/Categories/NSArray+MPExtensions.m 176 186 -[NSArray allObjectsAreSubclassesOf:] *)
Definition allObjectsAreSubclassesOf {C} (isKindOfClass : A → C → bool) (self : list A) (class : C) : bool :=
  match self with
  | [] => false
  | _ => forallb (λ obj, isKindOfClass obj class) self
  end.

(** ** Mutable arrays: the array after the message, and its result. *)

(* @src Feather/Sources/Categories/NSArray+MPExtensions.m 310 319 -[NSMutableArray popObject] *)
Definition popObject (self : list A) : option A * list A :=
  match self with
  | object :: rest => (Some object, rest)
  | [] => (None, [])
  end.

(* @src Feather/Sources/Categories/NSArray+MPExtensions.m 321 324 -[NSMutableArray pushObject:] *)
Definition pushObject (self : list A) (object : A) : list A := object :: self.

(* @src Feather/Sources/Categories/NSArray+MPExtensions.m 326 332 -[NSMutableArray pushObjectsInArray:] *)
Definition pushObjectsInArray (self : list A) (array : option (list A)) : list A :=
  match array with
  | Some l => if (0 <? length l)%nat then l ++ self else self
  | None => self
  end.

(* @src Feather/Sources/Categories/NSArray+MPExtensions.m 351 363 MPNilToEmptyArray *)
Definition MPNilToEmptyArray (array : option (list A)) : list A := default [] array.
End arrays.

Inductive MPValueToggleResult : Type := MPValueToggleResultRemoved | MPValueToggleResultAdded.

(** Elements compared by [-isEqual:]. *)
Section equality.
Context {A : Type} (isEqual : A → A → bool).

Definition containsObject (self : list A) (obj : A) : bool := existsb (isEqual obj) self.
(** [-removeObject:] removes every equal element. *)
Definition removeObject (self : list A) (obj : A) : list A := List.filter (λ x, negb (isEqual obj x)) self.

(* @src Feather/Sources/Categories/NSArray+MPExtensions.m 90 95 -[NSArray arrayByRemovingObject:] *)
Definition arrayByRemovingObject (self : list A) (obj : A) : list A := removeObject self obj.

(* @src Feather/Sources/Categories/NSArray+MPExtensions.m 334 346 -[NSMutableArray toggleValue:] *)
Definition toggleValue (self : list A) (value : A) : MPValueToggleResult * list A :=
  if containsObject self value then (MPValueToggleResultRemoved, removeObject self value)
  else (MPValueToggleResultAdded, self ++ [value]).

(** [-addObject:] of a set, and [+setWithArray:] *)
Definition addObject (set : list A) (obj : A) : list A :=
  if containsObject set obj then set else set ++ [obj].
Definition setWithArray (l : list A) : list A := foldl addObject [] l.

(** The block's arguments: whether all objects have one value, and that value. *)
(* @src Feather/Sources/Categories/NSArray+MPExtensions.m 188 195 -[NSArray matchingValueForKey:value:] *)
Definition matchingValueForKey {O} (self : list O) (key : O → A) : bool * option A :=
  match setWithArray (map key self) with
  | [x] => (true, Some x)
  | _ => (false, None)
  end.
End equality.

(** ** Sets *)
Section sets.
Context {S A B : Type} (isEqual : B → B → bool).

Fixpoint mapSet_from (block : A → M S (option B)) (nilRaises : bool) (self : list A) (result : list B)
    : M S (list B) :=
  match self with
  | [] => mret result
  | obj :: rest =>
      r ← block obj;
      match r with
      | Some v => mapSet_from block nilRaises rest (addObject isEqual result v)
      | None =>
          if nilRaises then throw (Exception "NSInvalidArgumentException" "object cannot be nil")
          else mapSet_from block nilRaises rest result
      end
  end.

(* @src Feather/Sources/Categories/NSSet+MPExtensions.m 31 37 -[NSSet mapObjectsUsingBlock:] *)
Definition NSSet_mapObjectsUsingBlock (self : list A) (block : A → M S (option B)) : M S (list B) :=
  mapSet_from block true self [].

(* @src Feather/Sources/Categories/NSSet+MPExtensions.m 39 49 -[NSSet nilFilteredMapUsingBlock:] *)
Definition NSSet_nilFilteredMapUsingBlock (self : list A) (block : A → M S (option B)) : M S (list B) :=
  mapSet_from block false self [].
End sets.

(* @src Feather/Sources/Categories/NSSet+MPExtensions.m 51 57 -[NSSet filteredSetMatching:] *)
Definition filteredSetMatching {S A} (self : list A) (patternBlock : A → M S bool) : M S (list A) :=
  filteredArrayMatching self patternBlock.

(** ** Index sets *)
Section indexSets.
Context {S A B : Type}.
Notation M := (M S).

(* @src Feather/Sources/Categories/NSIndexSet+MPExtensions.m 13 23 -[NSIndexSet mapAssociatedObjects:usingBlock:] *)
Fixpoint mapAssociatedObjects (self : list nat) (objects : list A) (mapBlock : A → nat → M (option B))
    : M (list B) :=
  match self with
  | [] => mret []
  | idx :: rest =>
      o ← objectAtIndex objects idx;
      mappedVal ← mapBlock o idx;
      match mappedVal with
      | None => throw (AssertionFailed "mappedVal")
      | Some v => vs ← mapAssociatedObjects rest objects mapBlock; mret (v :: vs)
      end
  end.

(* @src Feather/Sources/Categories/NSIndexSet+MPExtensions.m 32 47 -[NSIndexSet firstAssociatedObject:matching:index:] *)
Fixpoint firstAssociatedObject_index (self : list nat) (objects : list A) (patternBlock : A → M bool)
    : M (option (A * nat)) :=
  match self with
  | [] => mret None
  | idx :: rest =>
      evaluatedObj ← objectAtIndex objects idx;
      b ← patternBlock evaluatedObj;
      if (b : bool) then mret (Some (evaluatedObj, idx))
      else firstAssociatedObject_index rest objects patternBlock
  end.

(* @src Feather/Sources/Categories/NSIndexSet+MPExtensions.m 25 30 -[NSIndexSet firstAssociatedObject:matching:] *)
Definition firstAssociatedObject (self : list nat) (objects : list A) (patternBlock : A → M bool) : M (option A) :=
  r ← firstAssociatedObject_index self objects patternBlock; mret (fst <$> r).

(* @src Feather/Sources/Categories/NSIndexSet+MPExtensions.m 49 59 -[NSIndexSet filteredAssociatedObject:matching:] *)
Fixpoint filteredAssociatedObject (self : list nat) (objects : list A) (patternBlock : A → M bool) : M (list A) :=
  match self with
  | [] => mret []
  | idx :: rest =>
      object ← objectAtIndex objects idx;
      b ← patternBlock object;
      l ← filteredAssociatedObject rest objects patternBlock;
      mret (if (b : bool) then object :: l else l)
  end.
End indexSets.

(** ** Dictionaries *)
Section dictionaries.
Context {V : Type}.
Notation dict := (list (string * V)).

(** [dict[key] = value] *)
Fixpoint dict_set (k : string) (v : V) (d : dict) : dict :=
  match d with
  | [] => [(k, v)]
  | (k', v') :: d' => if String.eqb k k' then (k, v) :: d' else (k', v') :: dict_set k v d'
  end.
Fixpoint dict_get (k : string) (d : dict) : option V :=
  match d with
  | [] => None
  | (k', v) :: d' => if String.eqb k k' then Some v else dict_get k d'
  end.
Definition addEntries (d e : dict) : dict := foldl (λ d kv, dict_set kv.1 kv.2 d) d e.

(* @src Feather/Sources/Categories/NSDictionary+MPExtensions.m 56 59 -[NSDictionary containsObject:] *)
Definition dict_containsObject (isEqual : V → V → bool) (self : dict) (object : V) : bool :=
  containsObject isEqual self.*2 object.

(* @src Feather/Sources/Categories/NSDictionary+MPExtensions.m 61 64 -[NSDictionary containsObjectForKey:] *)
Definition containsObjectForKey (self : dict) (key : string) : bool :=
  bool_decide (is_Some (dict_get key self)).

(* @src Feather/Sources/Categories/NSDictionary+MPExtensions.m 66 78 -[NSDictionary anyObjectMatching:] *)
Fixpoint anyObjectMatching {S} (self : dict) (patternBlock : string → V → M S bool) : M S (option V) :=
  match self with
  | [] => mret None
  | (key, obj) :: rest =>
      b ← patternBlock key obj;
      if (b : bool) then mret (Some obj) else anyObjectMatching rest patternBlock
  end.

Fixpoint objectsMatching_into {S} (self : dict) (patternBlock : string → V → M S bool) (d : dict) : M S dict :=
  match self with
  | [] => mret d
  | (key, obj) :: rest =>
      b ← patternBlock key obj;
      objectsMatching_into rest patternBlock (if (b : bool) then dict_set key obj d else d)
  end.
(* @src Feather/Sources/Categories/NSDictionary+MPExtensions.m 80 89 -[NSDictionary dictionaryWithObjectsMatching:] *)
Definition dictionaryWithObjectsMatching {S} (self : dict) (patternBlock : string → V → M S bool) : M S dict :=
  objectsMatching_into self patternBlock [].

(** The [n] variadic arguments; fewer than [n] is undefined in C. *)
(* @src Feather/Sources/Categories/NSDictionary+MPExtensions.m 154 171 MPDictionaryFromDictionaries *)
Definition MPDictionaryFromDictionaries (n : nat) (vargs : list (option dict)) : dict :=
  foldl (λ md d, match d with Some d => addEntries md d | None => md end) [] (take n vargs).

(* @src Feather/Sources/Categories/NSDictionary+MPExtensions.m 173 177 MPDictionaryFromTwoDictionaries *)
Definition MPDictionaryFromTwoDictionaries (d1 d2 : option dict) : dict :=
  MPDictionaryFromDictionaries 2 [d1; d2].

(* @src Feather/Sources/Categories/NSDictionary+MPExtensions.m 179 190 MPMutableDictionaryForDictionary *)
Definition MPMutableDictionaryForDictionary (d : option dict) : dict := default [] d.
End dictionaries.

(* @src Feather/Sources/Categories/NSDictionary+MPExtensions.m 42 54 -[NSDictionary dictionaryOfSetsWithDictionaryOfArrays] *)
Fixpoint dictionaryOfSetsWithDictionaryOfArrays (self : list (string * value)) : res (list (string * value)) :=
  match self with
  | [] => Ok []
  | (key, NSArray l) :: rest =>
      d ← dictionaryOfSetsWithDictionaryOfArrays rest;
      Ok ((key, NSSet (setWithArray isEqual l)) :: d)
  | _ :: _ => Throw (AssertionFailed "[value isKindOfClass:[NSArray class]]")
  end.

(** [decodeFromJSONString:error:] of the two categories: the value returned, and
    whether an error was set. [reports] says that an error pointer was given. *)
Section json.
Context (JSONObjectWithData : string → option value).

(* @src Feather/Sources/Categories/NSDictionary+MPExtensions.m 91 102 +[NSDictionary decodeFromJSONString:error:] *)
Definition NSDictionary_decodeFromJSONString (s : string) (reports : bool) : option value * bool :=
  let d := JSONObjectWithData s in
  match d with
  | Some (NSDictionary _) => (d, false)
  | _ => if reports then (None, true) else (d, false)
  end.

(* @src Feather/Sources/Categories/NSArray+MPExtensions.m 203 214 +[NSArray decodeFromJSONString:error:] *)
Definition NSArray_decodeFromJSONString (s : string) (reports : bool) : option value * bool :=
  let d := JSONObjectWithData s in
  match d with
  | Some (NSArray _) => (d, false)
  | _ => if reports then (None, true) else (d, false)
  end.
End json.

(** ** Dictionaries of managed objects *)
(* @src Feather/Sources/Categories/NSDictionary+MPManagedObjectExtensions.h 13 20 MPManagedObjectDictionaryValidationErrorCode *)
Inductive MPManagedObjectDictionaryValidationErrorCode : Type :=
  | ErrorCodeUnknown | ErrorCodeObjectTypeMissing | ErrorCodeObjectTypeInvalid
  | ErrorCodeDocumentIDMissing | ErrorCodeUnexpectedDocumentID.

#[export] Instance ValidationErrorCode_eq_dec : EqDecision MPManagedObjectDictionaryValidationErrorCode.
Proof. solve_decision. Defined.

Section managedObjectDictionary.
Context (rt : Runtime).
Local Open Scope string_scope.

(* @src Feather/Sources/Categories/NSDictionary+MPManagedObjectExtensions.m 17 19 -[NSDictionary managedObjectType] *)
Definition managedObjectType (self : list (string * value)) : option value := assoc "objectType" self.
(* @src Feather/Sources/Categories/NSDictionary+MPManagedObjectExtensions.m 21 23 -[NSDictionary managedObjectDocumentID] *)
Definition managedObjectDocumentID (self : list (string * value)) : option value := assoc "_id" self.

(** [None] is YES.  Values that are not strings answer none of the messages sent. *)
(* @src Feather/Sources/Categories/NSDictionary+MPManagedObjectExtensions.m 29 80 -[NSDictionary isManagedObjectDictionary:] *)
Definition isManagedObjectDictionary (self : list (string * value))
    : res (option MPManagedObjectDictionaryValidationErrorCode) :=
  match managedObjectType self with
  | None => Ok (Some ErrorCodeDocumentIDMissing)
  | Some (NSString objectTypeStr) =>
      match NSClassFromString rt objectTypeStr with
      | None => Ok (Some ErrorCodeObjectTypeInvalid)
      | Some c =>
          if negb (isSubclassOfClass rt c MPManagedObject_class) then Ok (Some ErrorCodeObjectTypeInvalid)
          else
            match managedObjectDocumentID self with
            | None => Ok (Some ErrorCodeDocumentIDMissing)
            | Some (NSString docID) =>
                match componentsSeparatedBy ":"%char docID with
                | [c0; _] => if String.eqb c0 objectTypeStr then Ok None else Ok (Some ErrorCodeUnexpectedDocumentID)
                | _ => Ok (Some ErrorCodeUnexpectedDocumentID)
                end
            | Some _ => Throw (Exception "NSInvalidArgumentException" "unrecognized selector sent to instance")
            end
      end
  | Some _ => Throw (Exception "NSInvalidArgumentException" "unrecognized selector sent to instance")
  end.

(* @src Feather/Sources/Categories/NSDictionary+MPManagedObjectExtensions.m 87 94 -[NSMutableDictionary setManagedObjectType:] *)
Definition setManagedObjectType (self : list (string * value)) (type : string) : res (list (string * value)) :=
  match managedObjectType self with
  | Some v => if isEqual (NSString type) v then Ok self else Throw (AssertionFailed "![self managedObjectType]")
  | None => Ok (dict_set "objectType" (NSString type) self)
  end.
End managedObjectDictionary.

(** ** Index sets select a subarray *)

(** [sub] holds the objects at the indexes of [ixs]. *)
Definition selects {A} (ixs : list nat) (objects sub : list A) : Prop :=
  Forall2 (λ i x, objects !! i = Some x) ixs sub.

Lemma run_objectAtIndex {S A} (objects : list A) i x (s : S) :
  objects !! i = Some x → objectAtIndex objects i s = (Ok x, s).
Proof. intros Hx. unfold objectAtIndex. by rewrite Hx. Qed.

Lemma firstMatching_from_shift {S A} (P : A → M S bool) k l s :
  (r ← firstMatching_from P k l; mret (fst <$> r)) s = (r ← firstMatching_from P 0 l; mret (fst <$> r)) s.
Proof.
  revert k s. assert (∀ k j s, (r ← firstMatching_from P k l; mret (fst <$> r)) s =
    (r ← firstMatching_from P j l; mret (fst <$> r)) s) as H; [|auto].
  induction l as [|x l IH]; intros k j s; [done|]. cbn [firstMatching_from].
  rewrite !bind_assoc, !run_bind. destruct (P x s) as [[[]|e] s1]; [done| |done]. apply IH.
Qed.

Lemma filteredAssociated_selects {S A} ixs (objects sub : list A) (P : A → M S bool) s :
  selects ixs objects sub → filteredAssociatedObject ixs objects P s = filteredArrayMatching sub P s.
Proof.
  intros Hs. revert s. induction Hs as [|i x ixs sub Hx _ IH]; intros s; [done|].
  cbn [filteredAssociatedObject filteredArrayMatching].
  rewrite run_bind, (run_objectAtIndex _ _ _ _ Hx), !run_bind. destruct (P x s) as [[b|e] s1]; [|done].
  by rewrite !run_bind, IH.
Qed.

Lemma firstAssociated_selects {S A} ixs (objects sub : list A) (P : A → M S bool) s :
  selects ixs objects sub → firstAssociatedObject ixs objects P s = firstObjectMatching sub P s.
Proof.
  intros Hs. unfold firstAssociatedObject, firstObjectMatching, firstObjectMatching_index.
  revert s. induction Hs as [|i x ixs sub Hx _ IH]; intros s; [done|].
  cbn [firstAssociatedObject_index firstMatching_from].
  rewrite !bind_assoc, run_bind, (run_objectAtIndex _ _ _ _ Hx), bind_assoc, !run_bind.
  destruct (P x s) as [[[]|e] s1]; [done| |done]. rewrite IH. symmetry. apply firstMatching_from_shift.
Qed.

Lemma filteredAssociated_outside {S A} ixs (objects : list A) (P : A → M S bool) s l s' :
  filteredAssociatedObject ixs objects P s = (Ok l, s') → Forall (λ i, (i < length objects)%nat) ixs.
Proof.
  revert s l s'. induction ixs as [|i ixs IH]; intros s l s' Hr; [done|].
  cbn [filteredAssociatedObject] in Hr. unfold objectAtIndex in Hr.
  destruct (objects !! i) as [x|] eqn:Hx.
  - mcases Hr. mcases Hr. mcases Hr. constructor; [by eapply lookup_lt_Some|]. by eapply IH.
  - mcases Hr. done.
Qed.

(** The searches over the objects at an index set are the
    array searches on the subarray it selects, for any block, whatever its
    effects; and a filter that returns has met no index outside the array. *)
Theorem associated_objects {S A} (ixs : list nat) (objects sub : list A) (P : A → M S bool) s :
  selects ixs objects sub →
  filteredAssociatedObject ixs objects P s = filteredArrayMatching sub P s ∧
  firstAssociatedObject ixs objects P s = firstObjectMatching sub P s ∧
  (∀ js l s', filteredAssociatedObject js objects P s = (Ok l, s') → Forall (λ j, (j < length objects)%nat) js).
Proof.
  intros Hs. split_and!; [by apply filteredAssociated_selects|by apply firstAssociated_selects|].
  intros js l s'. apply filteredAssociated_outside.
Qed.

Lemma associated_objects_witness :
  filteredAssociatedObject [0; 2]%nat [5; 6; 7; 8] (λ x (s : unit), (Ok (6 <? x), s)) tt = (Ok [7], tt) ∧
  firstAssociatedObject [0; 2]%nat [5; 6; 7; 8] (λ x (s : unit), (Ok (6 <? x), s)) tt
  = firstObjectMatching [5; 7] (λ x s, (Ok (6 <? x), s)) tt.
Proof.
  destruct (associated_objects [0; 2]%nat [5; 6; 7; 8] [5; 7] (λ x (s : unit), (Ok (6 <? x), s)) tt)
    as (H1 & H2 & _).
  - repeat constructor.
  - split; [exact H1|exact H2].
Defined.

(** ** Toggling *)
Section toggling.
Context {A : Type} (isEqual : A → A → bool).
Hypothesis isEqual_refl : ∀ x, isEqual x x = true.
Implicit Types l : list A.

Lemma contains_remove l x : containsObject isEqual (removeObject isEqual l x) x = false.
Proof.
  unfold containsObject, removeObject. induction l as [|y l IH]; [done|]. cbn.
  destruct (isEqual x y) eqn:E; cbn; [done|by rewrite E].
Qed.

Lemma remove_absent l x : containsObject isEqual l x = false → removeObject isEqual l x = l.
Proof.
  unfold containsObject, removeObject. induction l as [|y l IH]; [done|]. cbn. intros [E1 E2]%orb_false_iff.
  rewrite E1. cbn. by rewrite IH.
Qed.
End toggling.

(** Toggling a value adds it when no element equals it and
    removes all that do otherwise, so that it flips whether the array contains
    the value and keeps every other element; toggling an absent value twice
    gives the array back. *)
Theorem toggling {A} (isEqual : A → A → bool) (l : list A) x :
  (∀ y, isEqual y y = true) →
  containsObject isEqual (toggleValue isEqual l x).2 x = negb (containsObject isEqual l x) ∧
  ((toggleValue isEqual l x).1 = MPValueToggleResultAdded ↔ containsObject isEqual l x = false) ∧
  (∀ y, isEqual x y = false → y ∈ (toggleValue isEqual l x).2 ↔ y ∈ l) ∧
  (containsObject isEqual l x = false →
   toggleValue isEqual (toggleValue isEqual l x).2 x = (MPValueToggleResultRemoved, l)).
Proof.
  intros Hrefl. unfold toggleValue at 1 2 3 5.
  assert (containsObject isEqual (l ++ [x]) x = true) as Hadd.
  { unfold containsObject. rewrite existsb_app. cbn. by rewrite Hrefl, orb_true_r. }
  destruct (containsObject isEqual l x) eqn:E; cbn [fst snd negb].
  - split_and!; [apply contains_remove|done| |done].
    intros y Hy. unfold removeObject. rewrite filter_bool_elem, Hy. tauto.
  - split_and!; [done|done| |].
    + intros y Hy. rewrite elem_of_app, list_elem_of_singleton. split; [|by left].
      intros [?| ->]; [done|]. by rewrite Hrefl in Hy.
    + intros _. unfold toggleValue. rewrite Hadd. f_equal. unfold removeObject. rewrite List.filter_app. cbn.
      rewrite Hrefl. cbn. rewrite app_nil_r. by apply remove_absent.
Qed.

Lemma toggling_witness :
  toggleValue Z.eqb [3; 4; 3]%Z 3%Z = (MPValueToggleResultRemoved, [4]%Z) ∧
  toggleValue Z.eqb (toggleValue Z.eqb [3; 4; 3]%Z 5%Z).2 5%Z = (MPValueToggleResultRemoved, [3; 4; 3]%Z).
Proof.
  split; [reflexivity|].
  destruct (toggling Z.eqb [3; 4; 3]%Z 5%Z Z.eqb_refl) as (_ & _ & _ & H). apply H. reflexivity.
Defined.

(** ** Merging dictionaries *)
Section merging.
Context {V : Type}.
Notation dict := (list (string * V)).

Lemma dict_get_set k k' v (d : dict) :
  dict_get k (dict_set k' v d) = if String.eqb k k' then Some v else dict_get k d.
Proof.
  induction d as [|[k1 v1] d IH]; cbn; [done|]. destruct (String.eqb_spec k' k1) as [->|Hne]; cbn.
  - by destruct (String.eqb k k1).
  - destruct (String.eqb_spec k k1) as [->|]; [|done]. destruct (String.eqb_spec k1 k'); congruence.
Qed.

Lemma dict_get_addEntries k (d e : dict) :
  NoDup e.*1 → dict_get k (addEntries d e) = match dict_get k e with Some v => Some v | None => dict_get k d end.
Proof.
  unfold addEntries. revert d. induction e as [|[k1 v1] e IH]; intros d Hnd; [done|]. cbn in *.
  apply NoDup_cons in Hnd as [Hk1 Hnd]. rewrite IH by done. rewrite dict_get_set.
  destruct (String.eqb_spec k k1) as [->|]; [|done].
  assert (dict_get k1 e = None) as ->; [|done]. clear -Hk1. induction e as [|[k2 v2] e IH]; [done|]. cbn in *.
  apply not_elem_of_cons in Hk1 as [Hne Hk1]. destruct (String.eqb_spec k1 k2); [done|auto].
Qed.

(** The value of the last dictionary that has the key. *)
Definition lastValue (k : string) (ds : list (option dict)) : option V :=
  foldl (λ acc d, match d ≫= dict_get k with Some v => Some v | None => acc end) None ds.
End merging.

(** Merging dictionaries gives every key the value of the last
    of the [n] dictionaries that has it; [nil] arguments are skipped. *)
Theorem merging_keeps_last {V} k n (ds : list (option (list (string * V)))) :
  Forall (λ d, match d with Some d => NoDup d.*1 | None => True end) ds →
  dict_get k (MPDictionaryFromDictionaries n ds) = lastValue k (take n ds).
Proof.
  intros Hwf. unfold MPDictionaryFromDictionaries, lastValue.
  assert (Forall (λ d : option (list (string * V)), match d with Some d => NoDup d.*1 | None => True end) (take n ds))
    as Hwf' by (by apply Forall_take).
  clear Hwf. change (@None V) with (dict_get (V := V) k []). generalize (@nil (string * V)) as acc.
  induction Hwf' as [|d ds' Hd _ IH]; intros acc; [done|]. cbn [foldl]. rewrite IH. f_equal.
  destruct d as [d|]; [|done]. cbn. by apply dict_get_addEntries.
Qed.

Lemma merging_keeps_last_witness :
  dict_get "a" (MPDictionaryFromDictionaries 3 [Some [("a", 1); ("b", 2)]; None; Some [("a", 3)]]%string)
  = lastValue "a" [Some [("a", 1); ("b", 2)]; None; Some [("a", 3)]]%string ∧
  lastValue "a" [Some [("a", 1); ("b", 2)]; None; Some [("a", 3)]]%string = Some 3.
Proof.
  split; [|reflexivity].
  apply (merging_keeps_last "a" 3 [Some [("a", 1); ("b", 2)]; None; Some [("a", 3)]]%string).
  repeat constructor; apply (bool_decide_unpack _); reflexivity.
Defined.

(** ** Identifiers split at the colon *)
Section components.
Local Open Scope string_scope.

(** The first component ends at the first separator. *)
Lemma components_head sep s :
  match componentsSeparatedBy sep s with
  | [] => False
  | [a] => s = a ∧ hasChar sep a = false
  | a :: ws => ∃ s', s = a ++ String sep s' ∧ hasChar sep a = false ∧ componentsSeparatedBy sep s' = ws
  end.
Proof.
  induction s as [|c s IH]; cbn; [done|]. destruct (Ascii.eqb_spec c sep) as [->|Hne].
  - destruct (componentsSeparatedBy sep s) as [|w ws] eqn:E; [done|]. exists s. by rewrite E.
  - destruct (componentsSeparatedBy sep s) as [|w [|w' ws]]; [done| |].
    + destruct IH as [-> Hw]. cbn [hasChar]. rewrite Hw. by destruct (Ascii.eqb_spec c sep).
    + destruct IH as (s' & -> & Hw & E). exists s'. cbn [hasChar]. rewrite Hw. by destruct (Ascii.eqb_spec c sep).
Qed.

Lemma components_two sep s a b :
  componentsSeparatedBy sep s = [a; b] ↔
  s = a ++ String sep b ∧ hasChar sep a = false ∧ hasChar sep b = false.
Proof.
  split.
  - intros E. pose proof (components_head sep s) as H. rewrite E in H. destruct H as (s' & -> & Ha & E').
    pose proof (components_head sep s') as H. rewrite E' in H. by destruct H as [-> Hb].
  - intros (-> & Ha & Hb). by rewrite components_cons, components_one.
Qed.
End components.

(** The dictionaries that represent a managed object *)
Lemma managedObjectDictionary_shape (rt : Runtime) (d : list (string * value)) :
  isManagedObjectDictionary rt d = Ok None ↔
  (∃ cls rest, assoc "objectType" d = Some (NSString cls) ∧ NSClassFromString rt cls = Some cls ∧
               isSubclassOfClass rt cls MPManagedObject_class = true ∧
               assoc "_id" d = Some (NSString (cls ++ String ":" rest)) ∧
               hasChar ":" cls = false ∧ hasChar ":" rest = false)%string.
Proof.
  unfold isManagedObjectDictionary, managedObjectType, managedObjectDocumentID. split.
  - destruct (assoc "objectType" d) as [[| |t| | | | | |]|] eqn:Et; try done.
    destruct (NSClassFromString rt t) as [c|] eqn:Ec; [|done].
    assert (c = t) as -> by (unfold NSClassFromString in Ec; destruct (find_class _ _); congruence).
    destruct (isSubclassOfClass rt t MPManagedObject_class) eqn:Esub; [|done]. cbn [negb].
    destruct (assoc "_id" d) as [[| |i| | | | | |]|] eqn:Ei; try done.
    destruct (componentsSeparatedBy ":" i) as [|a [|b [|]]] eqn:E; try done.
    destruct (String.eqb_spec a t) as [->|]; [|done]. intros _.
    apply components_two in E as (-> & Ha & Hb). by exists t, b.
  - intros (cls & rest & -> & -> & Hsub & -> & Hc & Hr). rewrite Hsub. cbn [negb].
    by rewrite (proj2 (components_two ":" _ cls rest)), String.eqb_refl.
Qed.

(** A dictionary passes as the representation of a managed
    object exactly when its [objectType] names a subclass of [MPManagedObject]
    and its [_id] is that class name, a colon, and a rest without colons; each
    missing or malformed part is reported with its code, a missing [objectType]
    with the code of a missing identifier. *)
Theorem managedObjectDictionary_valid (rt : Runtime) (d : list (string * value)) :
  (isManagedObjectDictionary rt d = Ok None ↔
   ∃ cls rest, assoc "objectType" d = Some (NSString cls) ∧ NSClassFromString rt cls = Some cls ∧
               isSubclassOfClass rt cls MPManagedObject_class = true ∧
               assoc "_id" d = Some (NSString (cls ++ String ":" rest)) ∧
               hasChar ":" cls = false ∧ hasChar ":" rest = false)%string ∧
  (assoc "objectType" d = None → isManagedObjectDictionary rt d = Ok (Some ErrorCodeDocumentIDMissing)) ∧
  (∀ cls, assoc "objectType" d = Some (NSString cls) → isSubclassOfClass rt cls MPManagedObject_class = true →
     NSClassFromString rt cls = Some cls → assoc "_id" d = None →
     isManagedObjectDictionary rt d = Ok (Some ErrorCodeDocumentIDMissing)).
Proof.
  split; [apply managedObjectDictionary_shape|].
  unfold isManagedObjectDictionary, managedObjectType, managedObjectDocumentID.
  split; [by intros ->|by intros cls -> Hsub -> ->; cbn; rewrite Hsub].
Qed.

Lemma managedObjectDictionary_valid_witness :
  isManagedObjectDictionary ReferenceRuntime.rt
    [("objectType", NSString "MPSection"); ("_id", NSString "MPSection:12")]%string = Ok None.
Proof.
  apply (managedObjectDictionary_valid ReferenceRuntime.rt
    [("objectType", NSString "MPSection"); ("_id", NSString "MPSection:12")]%string).
  exists "MPSection"%string, "12"%string. repeat split; reflexivity.
Defined.

(** The two halves of an array: the part up to an index and the
    part from the next one make up the array, an index past the end gives the
    whole of it, and asking for a part that starts past the end raises; objects
    pushed at the front come off in the same order. *)
Theorem subarrays_partition {A} (l : list A) i :
  ((i + 1 < length l)%nat →
   ∃ r, subarrayFromIndex l (i + 1) = Ok r ∧ subarrayUpToIncludingIndex l i ++ r = l) ∧
  ((length l ≤ i + 1)%nat →
   subarrayUpToIncludingIndex l i = l ∧ is_ok (subarrayFromIndex l (i + 1)) = false) ∧
  (∀ x, popObject (pushObject l x) = (Some x, l)) ∧
  (∀ x, arrayByRemovingLastObject (l ++ [x]) = l).
Proof.
  unfold subarrayFromIndex, subarrayUpToIncludingIndex, arrayByRemovingLastObject. split_and!.
  - intros Hi. rewrite (proj2 (Nat.ltb_lt _ _)) by done. eexists; split; [done|].
    rewrite (proj2 (Nat.ltb_ge _ _)) by lia. rewrite (proj2 (Nat.ltb_ge _ _)) by lia. apply take_drop.
  - intros Hi. rewrite (proj2 (Nat.ltb_ge (i + 1) _)) by done. split; [|done].
    destruct (length l <? 1)%nat eqn:E; [done|]. apply Nat.ltb_ge in E.
    apply take_ge. destruct (length l - 1 <? i)%nat eqn:E2; [apply Nat.ltb_lt in E2|apply Nat.ltb_ge in E2]; lia.
  - done.
  - intros x. rewrite length_app. cbn. destruct (length l + 1 <=? 1)%nat eqn:E.
    + apply Nat.leb_le in E. destruct l; [done|cbn in E; lia].
    + by rewrite Nat.add_sub, take_app_length.
Qed.

Lemma subarrays_partition_witness :
  ∃ r, subarrayFromIndex [1; 2; 3]%nat 1 = Ok r ∧ (subarrayUpToIncludingIndex [1; 2; 3] 0 ++ r = [1; 2; 3])%nat.
Proof. apply (proj1 (subarrays_partition [1; 2; 3]%nat 0)). apply (bool_decide_unpack _). reflexivity. Defined.
