(* ===== verification/Database.v ===== *)
(** * Databases of a package

    src/Feather/Sources/Database Packages/MPDatabase.m: the validation of new
    revisions, replication filters, and the life of the one-off replications
    ([_currentPushes], [_currentPulls] and the notifications they are observed
    through).  [CBLDatabase] and [CBLReplication] are seen through what the code
    asks of them: a table of filters, and replications that start, change their
    status and stop with or without an error. *)
From Stdlib Require Import Ascii.
From stdpp Require Import base tactics strings numbers list gmap.
From S2P Require Import Prelude ObjC ReferenceRuntime Classes Collections.

(** ** Validation of revisions *)
Section validation.
Local Open Scope string_scope.
Context (rt : Runtime).
(** [+validateRevision:] of a model class; [MPManagedObject] answers YES. *)
Context (class_validateRevision : string → list (string * value) → bool).

Record CBLRevision : Type := mkRevision {
  rev_isDeletion : bool;
  rev_documentID : option string;
  rev_properties : list (string * value)
}.

(** The switches of a debug build: [MPFailAllSaves], and whether the draw against
    [MPFailSavesWithProbability] (when set) fails the save. [None]: a release build. *)
Definition debugSwitches : Type := option (bool * option bool).

Definition unrecognized {A} : res A :=
  Throw (Exception "NSInvalidArgumentException" "unrecognized selector sent to instance").

(** The result, and the message the context was given if the revision was rejected. *)
(* @src Feather/Sources/Database Packages/MPDatabase.m 140 219 -[MPDatabase validateRevision:validationContext:] *)
Definition validateRevision (debug : debugSwitches) (newRevision : CBLRevision) : res (bool * option string) :=
  if match debug with Some (true, _) => true | _ => false end then Ok (false, Some "All saves set to fail")
  else if match debug with Some (false, Some true) => true | _ => false end
       then Ok (false, Some "MPFailSavesWithProbability")
  else if rev_isDeletion newRevision then Ok (true, None)
  else
    let documentID := match rev_documentID newRevision with
                      | Some i => Some i
                      | None => stringOf (assoc "_id" (rev_properties newRevision))
                      end in
    let docHasPrefix p := match documentID with Some i => hasPrefix i p | None => false end in
    match managedObjectType (rev_properties newRevision) with
    | Some (NSString type) =>
        if negb (docHasPrefix type) then Ok (false, Some "without object type as a prefix in _id")
        else
          match NSClassFromString rt type with
          | None => Ok (false, Some "with an unexpected object type")
          | Some cls =>
              if negb (isSubclassOfClass rt cls MPManagedObject_class) then unrecognized
              else if negb (class_validateRevision cls (rev_properties newRevision))
                   then Ok (false, Some "which does not validate")
              else Ok (true, None)
          end
    | Some _ => unrecognized
    | None => Ok (docHasPrefix "MPMetadata" || docHasPrefix "MPLocalMetadata", None)
    end.

(** The validation block: CouchbaseLite stores the revision unless the context
    was told to reject it. *)
(* @src Feather/Sources/Database Packages/MPDatabase.m 115 123 -[MPDatabase initWithServer:packageController:name:ensureCreated:pushFilterName:pullFilterName:error:] (part) *)
Definition validationBlock (debug : debugSwitches) (newRevision : CBLRevision) : res bool :=
  _ ← (match assoc "objectType" (rev_properties newRevision) with
       | Some (NSString type) => assert_ (negb (String.eqb type "MPElement")) "Unexpected objectType"
       | Some _ => unrecognized
       | None => Ok tt
       end);
  r ← validateRevision debug newRevision;
  Ok (bool_decide (r.2 = None)).

(** The map block of the view "by-object-type". *)
(* @src Feather/Sources/Database Packages/MPDatabase.m 127 134 -[MPDatabase initWithServer:packageController:name:ensureCreated:pushFilterName:pullFilterName:error:] (part) *)
Definition byObjectType (doc : list (string * value)) : list (value * list (string * value)) :=
  match assoc "objectType" doc with Some t => [(t, doc)] | None => [] end.

(* @src Feather/Sources/Database Packages/MPDatabase.m 262 267 +[MPDatabase sanitizedDatabaseIDWithString:] *)
Fixpoint sanitizedDatabaseIDWithString (string_ : string) : string :=
  match string_ with
  | EmptyString => ""
  | String c s => if Ascii.eqb c "." then sanitizedDatabaseIDWithString s
                  else String c (sanitizedDatabaseIDWithString s)
  end.
End validation.

(** ** Replications *)
Notation rid := positive (only parsing).

Record CBLReplication : Type := mkReplication {
  repl_isPush : bool;
  repl_continuous : bool;
  repl_filter : option string;
  repl_stopped : bool
}.

(** An [MPDatabase]: its name and filters, the replications made so far, and
    which of them it holds on to and observes. *)
(* @src Feather/Sources/Database Packages/MPDatabase.m 30 45 MPDatabase () *)
Record MPDatabase : Type := mkDatabase {
  db_name : string;
  db_pushFilterName : option string;
  db_pullFilterName : option string;
  db_filters : gset string;
  (** what the package controller answers: a remote URL when a subclass has one,
      and whether filters apply to it *)
  db_remoteDatabaseURL : option string;
  db_applyFilterWhenPushing : bool;
  db_applyFilterWhenPulling : bool;
  db_replications : gmap rid CBLReplication;
  db_currentPulls : gset rid;
  db_currentPushes : gset rid;
  (** observed for [kCBLReplicationChangeNotification] *)
  db_observed : gset rid;
  db_postedErrors : list NSError;
  db_nextRid : rid
}.

Section replications.
Local Open Scope string_scope.
Notation M := (M MPDatabase).

Definition with_replications f pulls pushes observed errors next (d : MPDatabase) : MPDatabase :=
  mkDatabase (db_name d) (db_pushFilterName d) (db_pullFilterName d) (db_filters d) (db_remoteDatabaseURL d)
    (db_applyFilterWhenPushing d) (db_applyFilterWhenPulling d)
    (f (db_replications d)) (pulls (db_currentPulls d)) (pushes (db_currentPushes d))
    (observed (db_observed d)) (errors (db_postedErrors d)) (next (db_nextRid d)).
Definition with_filter (name : string) (d : MPDatabase) : MPDatabase :=
  mkDatabase (db_name d) (db_pushFilterName d) (db_pullFilterName d) ({[name]} ∪ db_filters d)
    (db_remoteDatabaseURL d) (db_applyFilterWhenPushing d) (db_applyFilterWhenPulling d)
    (db_replications d) (db_currentPulls d) (db_currentPushes d) (db_observed d) (db_postedErrors d) (db_nextRid d).

Definition qualified (d : MPDatabase) (name : string) : string := db_name d ++ "/" ++ name.

(* @src Feather/Sources/Database Packages/MPDatabase.m 313 318 -[MPDatabase qualifiedPushFilterName] *)
Definition qualifiedPushFilterName : M (option string) :=
  gets (λ d, name ← db_pushFilterName d; Some (qualified d name)).

(* @src Feather/Sources/Database Packages/MPDatabase.m 319 319 -[MPDatabase qualifiedPullFilterName] *)
Definition qualifiedPullFilterName : M (option string) := gets db_pullFilterName.

(** Whether there is such a filter. *)
(* @src Feather/Sources/Database Packages/MPDatabase.m 321 325 -[MPDatabase filterWithQualifiedName:] *)
Definition filterWithQualifiedName (name : string) : M bool :=
  gets (λ d, bool_decide (qualified d name ∈ db_filters d)).

(* @src Feather/Sources/Database Packages/MPDatabase.m 221 234 -[MPDatabase validateFilters] *)
Definition validateFilters : M bool :=
  pushFilterName ← gets db_pushFilterName;
  match pushFilterName with
  | None => mret true
  | Some name =>
      b ← filterWithQualifiedName name;
      if (b : bool) then mret true else throw (Exception "MPFilterValidationException" "Filter is missing.")
  end.

(* @src Feather/Sources/Database Packages/MPDatabase.m 236 240 -[MPDatabase defineFilterNamed:block:] *)
Definition defineFilterNamed (name : string) : M unit :=
  filters ← gets db_filters;
  _ ← NSAssert (bool_decide (name ∉ filters)) "Expecting a filter not to exist";
  modify (with_filter name).

(** [createPushReplication:] and [createPullReplication:], not started yet. *)
Definition createReplication (isPush : bool) : M rid :=
  λ d, (Ok (db_nextRid d),
        with_replications <[db_nextRid d := mkReplication isPush false None false]> id id id id Pos.succ d).
Definition setContinuous (r : rid) (b : bool) : M unit :=
  modify (with_replications (alter (λ x, mkReplication (repl_isPush x) b (repl_filter x) (repl_stopped x)) r)
            id id id id id).
Definition setFilter (r : rid) (f : option string) : M unit :=
  modify (with_replications (alter (λ x, mkReplication (repl_isPush x) (repl_continuous x) f (repl_stopped x)) r)
            id id id id id).

(* @src Feather/Sources/Database Packages/MPDatabase.m 358 382 -[MPDatabase pushToDatabaseAtURL:replication:error:] *)
Definition pushToDatabaseAtURL (url : string) : M rid :=
  _ ← validateFilters;
  oneOffPush ← createReplication true;
  _ ← setContinuous oneOffPush false;
  apply_ ← gets db_applyFilterWhenPushing;
  _ ← (if (apply_ : bool) then f ← qualifiedPushFilterName; setFilter oneOffPush f else mret tt);
  _ ← modify (with_replications id id (union {[oneOffPush]}) id id id);
  _ ← modify (with_replications id id id (union {[oneOffPush]}) id id);
  mret oneOffPush.

(* @src Feather/Sources/Database Packages/MPDatabase.m 419 440 -[MPDatabase pullFromDatabaseAtURL:replication:error:] *)
Definition pullFromDatabaseAtURL (url : string) : M rid :=
  _ ← validateFilters;
  oneOffPull ← createReplication false;
  _ ← setContinuous oneOffPull false;
  apply_ ← gets db_applyFilterWhenPulling;
  _ ← (if (apply_ : bool) then f ← qualifiedPullFilterName; setFilter oneOffPull f else mret tt);
  _ ← modify (with_replications id (union {[oneOffPull]}) id id id id);
  mret oneOffPull.

(** A package controller without a remote raises. *)
(* @src Feather/Sources/Database Packages/MPDatabase.m 269 272 -[MPDatabase remoteDatabaseURL] *)
Definition remoteDatabaseURL : M string :=
  url ← gets db_remoteDatabaseURL;
  match url with
  | Some u => mret u
  | None => throw (Exception "MPAbstractMethodException" "remoteDatabaseURLForLocalDatabase:")
  end.

(** [validateRemoteDatabaseURL:error:] answers YES. *)
(* @src Feather/Sources/Database Packages/MPDatabase.m 342 351 -[MPDatabase pushToRemote:error:] *)
Definition pushToRemote : M rid :=
  _ ← remoteDatabaseURL;
  url ← remoteDatabaseURL;
  pushToDatabaseAtURL url.

(* @src Feather/Sources/Database Packages/MPDatabase.m 404 410 -[MPDatabase pullFromRemote:error:] *)
Definition pullFromRemote : M rid :=
  _ ← remoteDatabaseURL;
  url ← remoteDatabaseURL;
  pullFromDatabaseAtURL url.

(** The handler of the notification; the status and the last error are read from
    the replication. *)
(* @src Feather/Sources/Database Packages/MPDatabase.m 384 402 -[MPDatabase replicationDidChange:] *)
Definition replicationDidChange (replication : rid) (lastError : option NSError) : M unit :=
  repls ← gets db_replications;
  if match repls !! replication with Some x => repl_stopped x | None => false end then
    modify (with_replications id (λ s, s ∖ {[replication]}) (λ s, s ∖ {[replication]}) (λ s, s ∖ {[replication]})
              (λ es, match lastError with Some e => es ++ [e] | None => es end)%list id)
  else mret tt.

(* @src Feather/Sources/Database Packages/MPDatabase.m 522 525 -[MPDatabase ensureRemoteDatabaseCreated:] *)
Definition ensureRemoteDatabaseCreated : M bool :=
  throw (Exception "MPAbstractMethodException" "ensureRemoteDatabaseCreated:").

(** The key-value observers of [addObserver:forPersistentReplication:] only log. *)
(* @src Feather/Sources/Database Packages/MPDatabase.m 528 547 -[MPDatabase syncWithRemote:] *)
Definition syncWithRemote : M bool :=
  _ ← validateFilters;
  created ← ensureRemoteDatabaseCreated;
  if negb created then mret false
  else
    pull ← createReplication false;
    _ ← setContinuous pull true;
    _ ← modify (with_replications id (union {[pull]}) id id id id);
    push ← createReplication true;
    _ ← setContinuous push true;
    _ ← modify (with_replications id id (union {[push]}) id id id);
    mret true.

(** CouchbaseLite changes the status of a replication and posts the notification,
    which reaches the database if it observes the replication. *)
Definition replicationChanges (r : rid) (stopped : bool) (lastError : option NSError) (d : MPDatabase) : MPDatabase :=
  let d := with_replications
             (alter (λ x, mkReplication (repl_isPush x) (repl_continuous x) (repl_filter x) (repl_stopped x || stopped)) r)
             id id id id id d in
  if bool_decide (r ∈ db_observed d) then (replicationDidChange r lastError d).2 else d.
End replications.

(** ** What happens to a database *)

(** One message to the database, or one notification of CouchbaseLite.  A message
    that raises leaves the state it had reached. *)
Inductive dbstep : MPDatabase → MPDatabase → Prop :=
  | step_define name d : dbstep d (defineFilterNamed name d).2
  | step_push url d : dbstep d (pushToDatabaseAtURL url d).2
  | step_pull url d : dbstep d (pullFromDatabaseAtURL url d).2
  | step_pushToRemote d : dbstep d (pushToRemote d).2
  | step_pullFromRemote d : dbstep d (pullFromRemote d).2
  | step_sync d : dbstep d (syncWithRemote d).2
  | step_change r stopped lastError d : dbstep d (replicationChanges r stopped lastError d).

(** A database as [-initWithServer:...] leaves it. *)
Definition db_initial (d : MPDatabase) : Prop :=
  db_replications d = ∅ ∧ db_currentPulls d = ∅ ∧ db_currentPushes d = ∅ ∧ db_observed d = ∅.

Definition running_push (d : MPDatabase) (r : rid) : Prop :=
  ∃ x, db_replications d !! r = Some x ∧ repl_isPush x = true ∧ repl_stopped x = false.
Definition pull (d : MPDatabase) (r : rid) : Prop :=
  ∃ x, db_replications d !! r = Some x ∧ repl_isPush x = false.

Record db_inv (d : MPDatabase) : Prop := {
  inv_pushes : ∀ r, r ∈ db_currentPushes d ↔ running_push d r;
  inv_observed : db_observed d = db_currentPushes d;
  inv_pulls : ∀ r, r ∈ db_currentPulls d ↔ pull d r;
  inv_filters : ∀ r x f, db_replications d !! r = Some x → repl_isPush x = true → repl_filter x = Some f →
                f ∈ db_filters d;
  inv_fresh : ∀ r, is_Some (db_replications d !! r) → (r < db_nextRid d)%positive
}.

Section invariant.
Implicit Types d : MPDatabase.

Lemma inv_initial d : db_initial d → db_inv d.
Proof.
  intros (Hr & Hl & Hp & Ho). split; rewrite ?Hr, ?Hl, ?Hp, ?Ho; try done; unfold running_push, pull; rewrite ?Hr.
  - intros r. rewrite elem_of_empty. split; [done|]. by intros (x & H & _).
  - intros r. rewrite elem_of_empty. split; [done|]. by intros (x & H & _).
  - intros r [x H]. done.
Qed.

Lemma validateFilters_runs d : (validateFilters d).2 = d.
Proof.
  unfold validateFilters. rewrite run_bind, run_gets. destruct (db_pushFilterName d); [|done].
  rewrite run_bind. unfold filterWithQualifiedName. rewrite run_gets. by case_bool_decide.
Qed.

Lemma validateFilters_ok d b name :
  (validateFilters d).1 = Ok b → db_pushFilterName d = Some name → qualified d name ∈ db_filters d.
Proof.
  unfold validateFilters. rewrite run_bind, run_gets. intros Hr Hn. rewrite Hn in Hr. rewrite run_bind in Hr.
  unfold filterWithQualifiedName in Hr. rewrite run_gets in Hr. by case_bool_decide.
Qed.

(** A new replication with the filter it was given. *)
Definition added (isPush : bool) (f : option string) d : MPDatabase :=
  with_replications <[db_nextRid d := mkReplication isPush false f false]>
    (if isPush then id else union {[db_nextRid d]}) (if isPush then union {[db_nextRid d]} else id)
    (if isPush then union {[db_nextRid d]} else id) id Pos.succ d.

Lemma alter_insert_id {A} (f : A → A) (r : rid) x (m : gmap rid A) : alter f r (<[r := x]> m) = <[r := f x]> m.
Proof. apply map_eq. intros i. rewrite lookup_alter, !lookup_insert. by repeat case_decide. Qed.

Lemma push_runs url d :
  (pushToDatabaseAtURL url d).2 = d ∨
  ∃ f, (pushToDatabaseAtURL url d).2 = added true f d ∧ ∀ n, f = Some n → n ∈ db_filters d.
Proof.
  unfold pushToDatabaseAtURL. rewrite run_bind. pose proof (validateFilters_runs d) as Hs.
  pose proof (validateFilters_ok d) as Hok. destruct (validateFilters d) as [[b|e] d1]; cbn in Hs; subst d1;
    [|by left]. right.
  rewrite run_bind. unfold createReplication at 1. rewrite run_bind. unfold setContinuous, setFilter.
  rewrite run_modify, run_bind, run_gets, run_bind. cbn [db_applyFilterWhenPushing with_replications].
  destruct (db_applyFilterWhenPushing d).
  - eexists. unfold qualifiedPushFilterName. rewrite run_bind, run_gets, run_modify, run_bind, run_modify, run_bind, run_modify.
    split; [cbn; unfold added, with_replications; cbn; by rewrite !alter_insert_id|].
    intros n Hn. cbn in Hn. destruct (db_pushFilterName d) as [name|] eqn:E; cbn in Hn; [|done].
    injection Hn as <-. by eapply Hok.
  - exists None. rewrite run_ret, run_bind, run_modify, run_bind, run_modify. split; [|done].
    cbn. unfold added, with_replications. cbn. by rewrite !alter_insert_id.
Qed.

Lemma pull_runs url d :
  (pullFromDatabaseAtURL url d).2 = d ∨ ∃ f, (pullFromDatabaseAtURL url d).2 = added false f d.
Proof.
  unfold pullFromDatabaseAtURL. rewrite run_bind. pose proof (validateFilters_runs d) as Hs.
  destruct (validateFilters d) as [[b|e] d1]; cbn in Hs; subst d1; [|by left]. right.
  rewrite run_bind. unfold createReplication at 1. rewrite run_bind. unfold setContinuous, setFilter.
  rewrite run_modify, run_bind, run_gets, run_bind. cbn [db_applyFilterWhenPulling with_replications].
  destruct (db_applyFilterWhenPulling d); eexists.
  - unfold qualifiedPullFilterName. rewrite run_bind, run_gets, run_modify, run_bind, run_modify.
    cbn. unfold added, with_replications. cbn. by rewrite !alter_insert_id.
  - rewrite run_ret, run_bind, run_modify. cbn. unfold added, with_replications. cbn. by rewrite !alter_insert_id.
Qed.

Lemma inv_added isPush f d :
  db_inv d → (isPush = true → ∀ n, f = Some n → n ∈ db_filters d) → db_inv (added isPush f d).
Proof.
  intros Hinv Hf. set (r0 := db_nextRid d).
  assert (db_replications d !! r0 = None) as Hfresh.
  { destruct (db_replications d !! r0) as [x|] eqn:E; [|done].
    assert (r0 < db_nextRid d)%positive as H by (apply (inv_fresh d Hinv); eauto). unfold r0 in H. lia. }
  split; unfold running_push, pull; cbn.
  - intros r. transitivity (r = r0 ∧ isPush = true ∨ r ∈ db_currentPushes d); [destruct isPush; cbn; set_solver|].
    rewrite (inv_pushes d Hinv). unfold running_push. rewrite lookup_insert. case_decide as Hr.
    + subst r. fold r0. rewrite Hfresh. destruct isPush; naive_solver.
    + split; [intros [[-> _]|?]; [done|done]|by right].
  - rewrite (inv_observed d Hinv). done.
  - intros r. transitivity (r = r0 ∧ isPush = false ∨ r ∈ db_currentPulls d); [destruct isPush; cbn; set_solver|].
    rewrite (inv_pulls d Hinv). unfold pull. rewrite lookup_insert. case_decide as Hr.
    + subst r. fold r0. rewrite Hfresh. destruct isPush; naive_solver.
    + split; [intros [[-> _]|?]; [done|done]|by right].
  - intros r x n. rewrite lookup_insert. case_decide; [|apply (inv_filters d Hinv)]. intros [= <-]. cbn. eauto.
  - intros r. rewrite lookup_insert. case_decide as Hr; [subst r; lia|]. intros H%(inv_fresh d Hinv). lia.
Qed.

Definition stop_if (b : bool) (x : CBLReplication) : CBLReplication :=
  mkReplication (repl_isPush x) (repl_continuous x) (repl_filter x) (repl_stopped x || b).

Lemma stop_if_lookup (m : gmap rid CBLReplication) r b i x :
  alter (stop_if b) r m !! i = Some x ↔
  ∃ y, m !! i = Some y ∧ x = if decide (i = r) then stop_if b y else y.
Proof.
  destruct (decide (i = r)) as [->|Hne].
  - rewrite lookup_alter, decide_True by done. destruct (m !! r) as [y|]; cbn; naive_solver.
  - rewrite lookup_alter_ne by done. naive_solver.
Qed.

Lemma inv_change r stopped err d : db_inv d → db_inv (replicationChanges r stopped err d).
Proof.
  intros Hinv. unfold replicationChanges. fold (stop_if stopped).
  set (d1 := with_replications (alter (stop_if stopped) r) id id id id id d).
  assert (∀ i, is_Some (db_replications d1 !! i) → (i < db_nextRid d)%positive) as Hfresh.
  { intros i [x (y & Hy & _)%stop_if_lookup]. apply (inv_fresh d Hinv). eauto. }
  assert (∀ i x f, db_replications d1 !! i = Some x → repl_isPush x = true → repl_filter x = Some f →
    f ∈ db_filters d) as Hfil.
  { intros i x f (y & Hy & ->)%stop_if_lookup Hp Hf. apply (inv_filters d Hinv i y); [done| |]; by case_decide. }
  assert (∀ i, pull d1 i ↔ pull d i) as Hpull.
  { intros i. unfold pull. split.
    - intros (x & (y & Hy & ->)%stop_if_lookup & Hp). exists y. split; [done|]. by case_decide.
    - intros (y & Hy & Hp). exists (if decide (i = r) then stop_if stopped y else y).
      split; [apply stop_if_lookup; eauto|]. by case_decide. }
  assert (∀ i, running_push d1 i ↔ running_push d i ∧ ¬ (i = r ∧ stopped = true)) as Hrun.
  { intros i. unfold running_push. split.
    - intros (x & (y & Hy & ->)%stop_if_lookup & Hp & Hs). case_decide; cbn in *.
      + apply orb_false_iff in Hs as [Hs ->]. split; [eauto|]. by intros [_ ?].
      + split; [eauto|]. by intros [? _].
    - intros [(y & Hy & Hp & Hs) Hn]. exists (if decide (i = r) then stop_if stopped y else y).
      split; [apply stop_if_lookup; eauto|]. case_decide; cbn; [|done]. split; [done|].
      rewrite Hs. destruct stopped; naive_solver. }
  pose proof (inv_pushes d Hinv : ∀ i, i ∈ db_currentPushes d1 ↔ running_push d i) as Hps.
  pose proof (inv_pulls d Hinv : ∀ i, i ∈ db_currentPulls d1 ↔ pull d i) as Hpl.
  case_bool_decide as Hobs.
  - unfold replicationDidChange. rewrite run_bind, run_gets.
    assert (running_push d r) as (y & Hy & Hp & Hs).
    { apply (inv_pushes d Hinv). by rewrite <- (inv_observed d Hinv). }
    assert (db_replications d1 !! r = Some (stop_if stopped y)) as ->.
    { apply stop_if_lookup. exists y. by rewrite decide_True. }
    cbn [repl_stopped stop_if]. rewrite Hs. cbn [orb]. destruct stopped.
    + rewrite run_modify. split; cbn [snd with_replications db_replications db_currentPushes db_currentPulls
        db_observed db_filters db_nextRid id]; [|f_equal; apply (inv_observed d Hinv)| |exact Hfil|exact Hfresh].
      * intros i. change (running_push _ i) with (running_push d1 i). rewrite elem_of_difference, elem_of_singleton, Hps, Hrun.
        naive_solver.
      * intros i. change (pull _ i) with (pull d1 i). rewrite elem_of_difference, elem_of_singleton, Hpull, Hpl.
        split; [naive_solver|]. intros Hi. split; [done|]. intros ->. destruct Hi as (z & Hz & Hzp). congruence.
    + rewrite run_ret. split; [|apply (inv_observed d Hinv)| |exact Hfil|exact Hfresh].
      * intros i. rewrite Hrun. cbn [snd]. rewrite Hps. naive_solver.
      * intros i. rewrite Hpull. apply (inv_pulls d Hinv).
  - assert (¬ running_push d r) as Hnot.
    { rewrite <- (inv_pushes d Hinv), <- (inv_observed d Hinv). exact Hobs. }
    split; [|apply (inv_observed d Hinv)| |exact Hfil|exact Hfresh].
    + intros i. rewrite Hrun. cbn [snd]. rewrite Hps. naive_solver.
    + intros i. rewrite Hpull. apply (inv_pulls d Hinv).
Qed.

Lemma inv_step d d' : dbstep d d' → db_inv d → db_inv d'.
Proof.
  intros Hstep Hinv.
  assert (∀ url, db_inv (pushToDatabaseAtURL url d).2) as Hpush.
  { intros url. destruct (push_runs url d) as [->|(f & -> & Hf)]; [done|]. by apply inv_added. }
  assert (∀ url, db_inv (pullFromDatabaseAtURL url d).2) as Hpull.
  { intros url. destruct (pull_runs url d) as [->|(f & ->)]; [done|]. by apply inv_added. }
  destruct Hstep as [name d|url d|url d|d|d|d|r b e d]; [|done|done| | | |by apply inv_change].
  - unfold defineFilterNamed. rewrite run_bind, run_gets, run_bind, run_NSAssert. case_bool_decide; [|done].
    rewrite run_modify. destruct Hinv as [H1 H2 H3 H4 H5]. split; [done|done|done| |done].
    intros r x f Hr Hp Hf. cbn. apply elem_of_union_r. by eapply H4.
  - unfold pushToRemote, remoteDatabaseURL. rewrite !run_bind, !run_gets.
    destruct (db_remoteDatabaseURL d) eqn:E; [|done]. rewrite run_ret, !run_bind, run_gets, E. apply Hpush.
  - unfold pullFromRemote, remoteDatabaseURL. rewrite !run_bind, !run_gets.
    destruct (db_remoteDatabaseURL d) eqn:E; [|done]. rewrite run_ret, !run_bind, run_gets, E. apply Hpull.
  - unfold syncWithRemote. rewrite run_bind. pose proof (validateFilters_runs d) as Hs.
    destruct (validateFilters d) as [[b|e] d1]; cbn in Hs; subst d1; done.
Qed.
End invariant.

(** C27 (invariant). Whatever is pushed, pulled, defined or reported to a database,
    the pushes it holds on to are exactly those still running, and it observes
    exactly these; no push runs with a filter that is not defined; a pull, which
    is never observed, is held on to forever. *)
Theorem replications_are_tracked d d' :
  db_initial d → rtc dbstep d d' →
  (∀ r, r ∈ db_currentPushes d' ↔ running_push d' r) ∧ db_observed d' = db_currentPushes d' ∧
  (∀ r x f, db_replications d' !! r = Some x → repl_isPush x = true → repl_filter x = Some f → f ∈ db_filters d') ∧
  (∀ r, r ∈ db_currentPulls d' ↔ pull d' r).
Proof.
  intros Hinit Hsteps. assert (db_inv d') as [H1 H2 H3 H4 _]; [|done].
  apply inv_initial in Hinit. induction Hsteps as [d|d1 d2 d3 Hs _ IH]; [done|]. apply IH. by eapply inv_step.
Qed.

(** In a release build the validation block stores a revision
    exactly when it deletes the document, or has no [objectType], or is named
    after a known class that accepts it; the documents without a type that the
    method answers NO for are stored all the same. *)
Theorem validation_decides rt validates (r : CBLRevision) stored :
  validationBlock rt validates None r = Ok stored →
  stored = true ↔
  rev_isDeletion r = true ∨ assoc "objectType" (rev_properties r) = None ∨
  ∃ type i, assoc "objectType" (rev_properties r) = Some (NSString type) ∧
            NSClassFromString rt type = Some type ∧ validates type (rev_properties r) = true ∧
            (rev_documentID r = Some i ∨
             rev_documentID r = None ∧ assoc "_id" (rev_properties r) = Some (NSString i)) ∧
            hasPrefix i type = true.
Proof.
  unfold validationBlock, validateRevision, managedObjectType.
  destruct (assoc "objectType" (rev_properties r)) as [[| |type| | | | | |]|] eqn:Et; cbn; try done.
  2: { intros Hr. split; [auto|]. intros _. destruct (rev_isDeletion r); cbn in Hr; congruence. }
  intros Hr. destruct (negb (String.eqb type "MPElement")); [|done]. cbn in Hr.
  destruct (rev_isDeletion r); cbn in Hr; [split; [by left|intros _; congruence]|].
  set (docID := match rev_documentID r with Some i => Some i | None => stringOf (assoc "_id" (rev_properties r)) end) in *.
  assert (∀ i, docID = Some i ↔ rev_documentID r = Some i ∨
    rev_documentID r = None ∧ assoc "_id" (rev_properties r) = Some (NSString i)) as Hdoc.
  { intros i. subst docID. destruct (rev_documentID r); [naive_solver|].
    destruct (assoc "_id" (rev_properties r)) as [[]|]; naive_solver. }
  assert (∀ c, NSClassFromString rt type = Some c → c = type) as Hcls.
  { intros c. unfold NSClassFromString. destruct (find_class _ _); congruence. }
  split.
  - intros ->. right. right. destruct docID as [i|]; [|done]. exists type, i.
    destruct (hasPrefix i type) eqn:Ep; cbn in Hr; [|done].
    destruct (NSClassFromString rt type) as [c|] eqn:Ec; cbn in Hr; [|done]. pose proof (Hcls c eq_refl) as ->.
    destruct (isSubclassOfClass rt type MPManagedObject_class); cbn in Hr; [|done].
    destruct (validates type (rev_properties r)) eqn:Ev; cbn in Hr; [|done].
    split_and!; auto. by apply Hdoc.
  - intros [?|[?|(type' & i & [= <-] & Hc & Hv & Hi & Hp)]]; [done|done|].
    apply Hdoc in Hi. rewrite Hi, Hp in Hr. cbn in Hr. rewrite Hc in Hr. cbn in Hr.
    destruct (isSubclassOfClass rt type MPManagedObject_class); cbn in Hr; [|done]. rewrite Hv in Hr. cbn in Hr. congruence.
Qed.

(** ** Witnesses *)
Section witnesses.
Local Open Scope string_scope.
Definition db0 : MPDatabase :=
  mkDatabase "manuscript" (Some "accepted") None {["manuscript/accepted"]} (Some "https://example.org/db")
    true true ∅ ∅ ∅ ∅ [] 1%positive.

Lemma replications_are_tracked_witness :
  let d' := replicationChanges 1 true None (pullFromRemote (pushToRemote db0).2).2 in
  db_currentPulls d' = {[2%positive]} ∧ db_currentPushes d' = ∅ ∧
  (∀ r, r ∈ db_currentPushes d' ↔ running_push d' r).
Proof.
  intros d'. split; [vm_compute; reflexivity|]. split; [vm_compute; reflexivity|].
  apply (replications_are_tracked db0 d').
  - repeat split.
  - exact (rtc_l _ _ _ _ (step_pushToRemote db0)
      (rtc_l _ _ _ _ (step_pullFromRemote (pushToRemote db0).2)
        (rtc_once _ _ (step_change 1 true None (pullFromRemote (pushToRemote db0).2).2)))).
Defined.

Lemma validation_decides_witness :
  validationBlock ReferenceRuntime.rt (λ _ _, true) None
    (mkRevision false (Some "MPSection:1") [("objectType", NSString "MPNote")]) = Ok false ∧
  ¬ ∃ type i, assoc "objectType" [("objectType", NSString "MPNote")] = Some (NSString type) ∧
            NSClassFromString ReferenceRuntime.rt type = Some type ∧ true = true ∧
            (Some "MPSection:1" = Some i ∨ Some "MPSection:1" = None ∧ assoc "_id" [("objectType", NSString "MPNote")] = Some (NSString i)) ∧
            hasPrefix i type = true.
Proof.
  split; [reflexivity|]. intros H.
  destruct (validation_decides ReferenceRuntime.rt (λ _ _, true)
    (mkRevision false (Some "MPSection:1") [("objectType", NSString "MPNote")]) false eq_refl) as [_ Hno].
  discriminate Hno. right. right. exact H.
Defined.
End witnesses.
