(* ===== verification/ChangeFeed.v ===== *)
(** * From database changes to notifications

    How a change CouchbaseLite reports reaches the observers of a managed object:
    [-databaseDidChange:] of MPDatabase.m, [-didChangeDocument:source:] and
    [-controllerForDocument:] of MPDatabasePackageController.m, and the handlers of
    the controllers (Controllers.v).  Also the registry of open packages, through
    which references between packages are resolved. *)
From Stdlib Require Import Ascii.
From stdpp Require Import base tactics strings numbers list gmap.
From S2P Require Import Prelude ObjC ReferenceRuntime Classes World Reference Controllers EmbeddedObject ManagedObject Frames ObjectTheorems.

Section feed.
Context {S : Type} `{!CBL S} `{!Env} `{!CBLModelFactory S}.
Local Open Scope string_scope.
Notation M := (M (World S)).

(** [NSClassFromString] of a value that should be a string. *)
Definition classNamed (v : option value) : M (option string) :=
  match v with
  | None => mret None
  | Some (NSString s) => mret (NSClassFromString env_rt s)
  | Some _ => throw (Exception "NSInvalidArgumentException" "unrecognized selector sent to instance")
  end.

(* @src Feather/Sources/Model Controllers/MPManagedObjectsController.m 1591 1599 -[CBLDocument managedObjectClass] *)
Definition CBLDocument_managedObjectClass (db docID : string) : M (option string) :=
  objectType ← cbl_gets (λ s, doc_property s db docID "objectType");
  _ ← NSAssert (bool_decide (is_Some objectType)) "Unexpected nil objectType";
  classNamed objectType.

(* @src Feather/Sources/Database Packages/MPDatabasePackageController.m 576 591 -[MPDatabasePackageController controllerForDocument:] *)
Definition PKG_controllerForDocument (self : pid) (db docID : string) : M cid :=
  objType ← cbl_gets (λ s, doc_property s db docID "objectType");
  _ ← NSAssert (bool_decide (is_Some objType)) "Expecting non-nil object type";
  cls ← classNamed objType;
  match cls with
  | None => throw (AssertionFailed "Expecting non-nil managed object class")
  | Some moClass =>
      _ ← NSAssert (isSubclassOfClass env_rt moClass MPManagedObject_class
                    && negb (String.eqb moClass MPManagedObject_class))
            "Managed object class must be a subclass of MPManagedObject";
      moc ← PKG_controllerForManagedObjectClass self (Some moClass);
      match moc with
      | None => throw (AssertionFailed "Expecting non-nil managed objects controller")
      | Some c =>
          k ← getMOC c;
          _ ← NSAssert (bool_decide (moc_db k = Some db)) "Managed object must belong to this database";
          mret c
      end
  end.

(* @src Feather/Sources/Database Packages/MPDatabasePackageController.m 1550 1566 -[MPDatabasePackageController didChangeDocument:source:] *)
Definition PKG_didChangeDocument (self : pid) (db docID : string) (source : MPManagedObjectChangeSource) : M unit :=
  objectType ← cbl_gets (λ s, doc_property s db docID "objectType");
  match objectType with
  | None => mret tt
  | Some _ =>
      moc ← PKG_controllerForDocument self db docID;
      k ← getMOC moc;
      _ ← NSAssert (bool_decide (moc_db k = Some db)) "Unexpected database";
      cls ← CBLDocument_managedObjectClass db docID;
      mo ← (match cls with Some c => MO_modelForDocument c db docID | None => mret None end);
      match mo with
      | None => throw (AssertionFailed "Unexpectedly nil managed object for document")
      | Some o =>
          modelObject ← cbl_gets (λ s, doc_modelObject s db docID);
          _ ← NSAssert (bool_decide (modelObject = Some o)) "Unexpected model object";
          MOC_didChangeDocument moc o source
      end
  end.

(** The first document an all-documents query for the identifier finds: its
    current revision. *)
(* @src Feather/Sources/Model Controllers/MPManagedObjectsController.m 586 601 -[MPManagedObjectsController documentWithIdentifier:allDocsMode:] *)
Definition MOC_documentWithIdentifier (self : cid) (identifier : string) : M (option string) :=
  k ← getMOC self;
  match moc_db k with
  | None => mret None
  | Some db => cbl_gets (λ s, doc_currentRevision s db identifier)
  end.

(** One entry of the [changes] of a notification. *)
Record DatabaseChange : Type := mkChange { dc_documentID : string; dc_revisionID : string }.

(** The two branches of the loop body of [-databaseDidChange:]. *)
Definition documentGone (packageController : pid) (change : DatabaseChange) : M unit :=
  cls ← lift (managedObjectClassFromDocumentID (Some (dc_documentID change)));
  moc ← PKG_controllerForManagedObjectClass packageController (Some cls);
  match moc with
  | None => mret tt
  | Some c =>
      rev ← MOC_documentWithIdentifier c (dc_documentID change);
      if bool_decide (rev = Some (dc_revisionID change)) then
        mo ← MOC_objectWithIdentifier c (Some (dc_documentID change));
        match mo with
        | Some o => MOC_didDeleteObject c o
        | None => mret tt
        end
      else mret tt
  end.

(** [db] is the notification's database and the receiver's own; the receiver's
    package controller is a weak reference. *)
(* @src Feather/Sources/Database Packages/MPDatabase.m 476 520 -[MPDatabase databaseDidChange:] *)
Definition DB_databaseDidChange (packageController : option pid) (db : string)
    (isExternalChange : bool) (changes : list DatabaseChange) : M unit :=
  match packageController with
  | None => mret tt
  | Some pkg =>
      for_each changes (λ change,
        let src := if isExternalChange then MPManagedObjectChangeSourceExternal else MPManagedObjectChangeSourceAPI in
        doc ← cbl_gets (λ s, doc_existing s db (dc_documentID change));
        if negb doc then documentGone pkg change
        else PKG_didChangeDocument pkg db (dc_documentID change) src)
  end.

(** ** The registry of open packages *)

(** Debug builds also check that the package is under no other key. *)
(* @src Feather/Sources/Database Packages/MPDatabasePackageController.m 402 422 +[MPDatabasePackageController registerDatabasePackageController:] *)
Definition PKG_registerDatabasePackageController (debug : bool) (packageController : pid) : M unit :=
  k ← getPkg packageController;
  let identifier := pkg_fullyQualifiedIdentifier k in
  registry ← gets w_registry;
  let existingObj := identifier ≫= λ i, registry !! i in
  _ ← NSAssert (bool_decide (existingObj = None ∨ existingObj = Some packageController))
        "Another package controller already registered for identifier";
  pkgs ← gets w_pkgs;
  _ ← (if debug
       then for_each (map_to_list registry).*2 (λ o,
              ko ← getPkg o;
              NSAssert (negb (bool_decide (o = packageController))
                        || bool_decide (identifier = pkg_fullyQualifiedIdentifier ko))
                "Package controller is already registered with key")
       else mret tt);
  match existingObj, identifier with
  | Some _, _ => mret tt
  | None, Some i => modify (λ w, set_registry (<[i := packageController]> (w_registry w)) w)
  | None, None => throw (Exception "NSInvalidArgumentException" "key cannot be nil")
  end.

(* @src Feather/Sources/Database Packages/MPDatabasePackageController.m 424 426 +[MPDatabasePackageController deregisterDatabasePackageController:] *)
Definition PKG_deregisterDatabasePackageController (packageController : pid) : M unit :=
  k ← getPkg packageController;
  match pkg_fullyQualifiedIdentifier k with
  | Some i => modify (λ w, set_registry (delete i (w_registry w)) w)
  | None => mret tt
  end.

(* @src Feather/Sources/Database Packages/MPDatabasePackageController.m 428 431 +[MPDatabasePackageController databasePackageControllerWithFullyQualifiedIdentifier:] *)
Definition PKG_withFullyQualifiedIdentifier (identifier : string) : M (option pid) :=
  gets (λ w, w_registry w !! identifier).
End feed.

(** ** Announcing a change *)
Section announcing.
Context {S : Type} `{!CBL S} `{!Env} `{!CBLModelFactory S}.
Implicit Types w : World S.
Local Open Scope string_scope.

Lemma registered_memo w o m c moc p pkg d :
  registered w o m c moc p → moc_package moc = pkg →
  registered (memo_world pkg p d w) o m c moc (pkg_with_dictionary d p).
Proof.
  intros Hr <-. split; try apply Hr. unfold memo_world. cbn. by rewrite lookup_insert_eq.
Qed.

(** The class a document declares. *)
Definition declares w (db docID t : string) : Prop :=
  doc_property (w_cbl w) db docID "objectType" = Some (NSString t) ∧ NSClassFromString env_rt t = Some t ∧
  isSubclassOfClass env_rt t MPManagedObject_class = true ∧ t ≠ MPManagedObject_class.

Lemma run_classNamed (w : World S) t :
  NSClassFromString env_rt t = Some t → classNamed (Some (NSString t)) w = (Ok (Some t), w).
Proof. intros Ht. unfold classNamed. by rewrite Ht. Qed.

Lemma run_controllerForDocument w pkg p db docID t c moc :
  declares w db docID t → w_pkgs w !! pkg = Some p → dictionary_ok p →
  controllerLookup p t = Ok (Some c) → w_mocs w !! c = Some moc → moc_db moc = Some db →
  ∃ d, PKG_controllerForDocument pkg db docID w = (Ok c, memo_world pkg p d w) ∧
       dictionary_ok (pkg_with_dictionary d p).
Proof.
  intros (Htype & Hcls & Hsub & Hne) Hp Hok Hlook Hc Hdb. unfold PKG_controllerForDocument, cbl_gets.
  rewrite run_bind, run_gets, Htype, run_bind, run_NSAssert, bool_decide_eq_true_2 by eauto.
  rewrite run_bind, (run_classNamed w t Hcls), run_bind, run_NSAssert, Hsub.
  rewrite (proj2 (String.eqb_neq _ _)) by done. cbn [negb andb].
  destruct (lookup_outer w pkg p t Hp Hok Hne) as (d & Hrun & Hd). rewrite run_bind, Hrun, Hlook.
  exists d. split; [|done]. rewrite run_bind. unfold getMOC. cbn [w_mocs memo_world set_pkgs]. rewrite Hc.
  by rewrite run_bind, run_NSAssert, bool_decide_eq_true_2.
Qed.

(** What CouchbaseLite's state says about the change. *)
Definition change_kind w (o : oid) : MPChangeType :=
  match model_revision (w_cbl w) o with
  | Some r => if hasPrefix r "1-" then MPChangeTypeAdd
              else if model_docIsDeleted (w_cbl w) o then MPChangeTypeRemove else MPChangeTypeUpdate
  | None => if model_docIsDeleted (w_cbl w) o then MPChangeTypeRemove else MPChangeTypeUpdate
  end.

Lemma run_didChangeDocument w o m c moc p src n1 n2 :
  registered w o m c moc p →
  notificationNameForRecentChange env_rt (change_kind w o) (mo_class m) = Ok n1 →
  notificationNameForPastChange env_rt (change_kind w o) (mo_class m) = Ok n2 →
  MOC_didChangeDocument c o src w =
  (Ok tt, set_log ((w_log w ++ [Posted n1 o (Some src)]) ++ [Posted n2 o (Some src)])%list w).
Proof.
  intros Hr H1 H2. unfold MOC_didChangeDocument. rewrite run_bind, (run_nc _ _ _ _ _ _ Hr).
  rewrite run_bind, run_NSAssert. unfold cbl_gets. rewrite run_bind, run_gets, run_bind, run_gets.
  match goal with |- postChange ?t _ _ _ = _ => assert (t = change_kind w o) as -> end.
  { unfold change_kind. destruct (model_revision _ _); [|done]. by destruct (hasPrefix _ _). }
  unfold postChange, getMO. rewrite run_bind, (reg_mo _ _ _ _ _ _ Hr), run_bind. unfold lift.
  rewrite H1, run_bind, H2, run_bind. unfold post. by rewrite !run_modify.
Qed.

Lemma run_PKG_didChangeDocument w pkg p db docID t c moc o m src n1 n2 :
  declares w db docID t → registered w o m c moc p → moc_package moc = pkg → moc_db moc = Some db →
  dictionary_ok p → controllerLookup p t = Ok (Some c) →
  doc_modelObject (w_cbl w) db docID = Some o → isSubclassOfClass env_rt (mo_class m) t = true →
  notificationNameForRecentChange env_rt (change_kind w o) (mo_class m) = Ok n1 →
  notificationNameForPastChange env_rt (change_kind w o) (mo_class m) = Ok n2 →
  ∃ d, PKG_didChangeDocument pkg db docID src w =
       (Ok tt, set_log ((w_log w ++ [Posted n1 o (Some src)]) ++ [Posted n2 o (Some src)])%list (memo_world pkg p d w)) ∧
       dictionary_ok (pkg_with_dictionary d p).
Proof.
  intros Hdecl Hr Hpkg Hdb Hok Hlook Hmodel Hsub H1 H2.
  assert (w_pkgs w !! pkg = Some p) as Hp by (rewrite <- Hpkg; apply Hr).
  destruct (run_controllerForDocument w pkg p db docID t c moc Hdecl Hp Hok Hlook) as (d & Hrun & Hd);
    [apply Hr|done|]. exists d. split; [|done].
  destruct Hdecl as (Htype & Hcls & _). pose proof (registered_memo _ _ _ _ _ _ _ d Hr Hpkg) as Hr'.
  unfold PKG_didChangeDocument, CBLDocument_managedObjectClass, cbl_gets.
  rewrite run_bind, run_gets, Htype, run_bind, Hrun, run_bind. unfold getMOC.
  rewrite (reg_moc _ _ _ _ _ _ Hr'), run_bind, run_NSAssert, bool_decide_eq_true_2 by done.
  rewrite run_bind, run_bind, run_gets. change (w_cbl (memo_world pkg p d w)) with (w_cbl w). rewrite Htype.
  rewrite run_bind, run_NSAssert, bool_decide_eq_true_2 by eauto. rewrite (run_classNamed _ t Hcls).
  rewrite run_bind. unfold MO_modelForDocument, cbl_gets. rewrite run_bind, run_gets.
  change (w_cbl (memo_world pkg p d w)) with (w_cbl w). rewrite Hmodel, run_bind. unfold getMO.
  rewrite (reg_mo _ _ _ _ _ _ Hr'), run_bind, run_NSAssert, Hsub, run_ret, run_bind, run_gets.
  change (w_cbl (memo_world pkg p d w)) with (w_cbl w).
  rewrite Hmodel, run_bind, run_NSAssert, bool_decide_eq_true_2 by done.
  by rewrite (run_didChangeDocument _ _ _ _ _ _ src n1 n2 Hr').
Qed.
End announcing.

(** C2 (functional). A change CouchbaseLite reports for the document of a loaded
    object posts exactly its two notifications - addition, removal or update by
    what the document has become - with the source the notification names, and
    changes nothing else but the memo of the controller lookup; a document
    without a type, and a notification for a package that is gone, post
    nothing. *)
Theorem database_change_notifies {T} `{!CBL T} `{!Env} `{!CBLModelFactory T}
    (w : World T) pkg p db docID rev t c moc o m (external : bool) n1 n2 :
  doc_existing (w_cbl w) db docID = true →
  declares w db docID t → registered w o m c moc p → moc_package moc = pkg → moc_db moc = Some db →
  dictionary_ok p → controllerLookup p t = Ok (Some c) →
  doc_modelObject (w_cbl w) db docID = Some o → isSubclassOfClass env_rt (mo_class m) t = true →
  notificationNameForRecentChange env_rt (change_kind w o) (mo_class m) = Ok n1 →
  notificationNameForPastChange env_rt (change_kind w o) (mo_class m) = Ok n2 →
  let src := if external then MPManagedObjectChangeSourceExternal else MPManagedObjectChangeSourceAPI in
  (∃ d, DB_databaseDidChange (Some pkg) db external [mkChange docID rev] w =
        (Ok tt, set_log ((w_log w ++ [Posted n1 o (Some src)]) ++ [Posted n2 o (Some src)])%list
                  (memo_world pkg p d w)) ∧
        dictionary_ok (pkg_with_dictionary d p)) ∧
  (∀ docID', doc_existing (w_cbl w) db docID' = true →
     doc_property (w_cbl w) db docID' "objectType"%string = None →
     DB_databaseDidChange (Some pkg) db external [mkChange docID' rev] w = (Ok tt, w)) ∧
  DB_databaseDidChange None db external [mkChange docID rev] w = (Ok tt, w).
Proof.
  intros Hex Hdecl Hr Hpkg Hdb Hok Hlook Hmodel Hsub H1 H2 src. split_and!; [| |done].
  - destruct (run_PKG_didChangeDocument w pkg p db docID t c moc o m src n1 n2) as (d & Hrun & Hd); try done.
    exists d. split; [|done]. unfold DB_databaseDidChange. cbn [for_each dc_documentID].
    unfold cbl_gets. rewrite run_bind, run_bind, run_gets, Hex. cbn [negb]. fold src. by rewrite Hrun.
  - intros docID' Hex' Hno. unfold DB_databaseDidChange. cbn [for_each dc_documentID].
    unfold cbl_gets. rewrite run_bind, run_bind, run_gets, Hex'. cbn [negb].
    unfold PKG_didChangeDocument, cbl_gets. by rewrite run_bind, run_gets, Hno.
Qed.

(** A document that is gone is announced as a removal, once, to
    the observers of the object the controller still has cached for it - if the
    reported revision is the one the query finds - and any other revision posts
    nothing. *)
Theorem database_deletion_notifies {T} `{!CBL T} `{!Env} `{!CBLModelFactory T}
    (w : World T) pkg p db docID rev cls c moc o m (external : bool) n1 n2 :
  doc_existing (w_cbl w) db docID = false →
  managedObjectClassFromDocumentID (Some docID) = Ok cls → cls ≠ MPManagedObject_class →
  registered w o m c moc p → moc_package moc = pkg → moc_db moc = Some db → dictionary_ok p →
  controllerLookup p cls = Ok (Some c) → moc_objectCache moc !! docID = Some o →
  (∀ managed, MOC_managedObjectClass env_rt (moc_class moc) = Ok managed → isSubclassOfClass env_rt cls managed = true) →
  notificationNameForRecentChange env_rt MPChangeTypeRemove (mo_class m) = Ok n1 →
  notificationNameForPastChange env_rt MPChangeTypeRemove (mo_class m) = Ok n2 →
  ∃ d, DB_databaseDidChange (Some pkg) db external [mkChange docID rev] w =
       (Ok tt, set_log (if decide (doc_currentRevision (w_cbl w) db docID = Some rev)
                        then (w_log w ++ announced n1 n2 o None p)%list else w_log w)
                 (memo_world pkg p d w)) ∧
       dictionary_ok (pkg_with_dictionary d p).
Proof.
  intros Hex Hcls Hne Hr Hpkg Hdb Hok Hlook Hcache Hmanaged H1 H2.
  assert (w_pkgs w !! pkg = Some p) as Hp by (rewrite <- Hpkg; apply Hr).
  destruct (lookup_outer w pkg p cls Hp Hok Hne) as (d & Hrun & Hd). exists d. split; [|done].
  pose proof (registered_memo _ _ _ _ _ _ _ d Hr Hpkg) as Hr'.
  unfold DB_databaseDidChange. cbn [for_each dc_documentID].
  unfold cbl_gets at 1. rewrite run_bind, run_bind, run_gets, Hex. cbn [negb].
  unfold documentGone. cbn [dc_documentID dc_revisionID]. rewrite run_bind. unfold lift at 1. rewrite Hcls.
  rewrite run_bind, Hrun, Hlook, run_bind. unfold MOC_documentWithIdentifier, getMOC at 1.
  rewrite run_bind, (reg_moc _ _ _ _ _ _ Hr'), Hdb. unfold cbl_gets. rewrite run_gets.
  change (w_cbl (memo_world pkg p d w)) with (w_cbl w).
  destruct (decide _) as [Hrev|Hrev]; [rewrite bool_decide_eq_true_2 by done|rewrite bool_decide_eq_false_2 by done; done].
  rewrite run_bind. unfold MOC_objectWithIdentifier. cbn [MOC_objectWithIdentifier_from].
  rewrite run_bind. unfold lift at 1. rewrite Hcls.
  destruct (reg_managed _ _ _ _ _ _ Hr') as (k & Hk & Hsubk).
  rewrite run_bind. unfold MOC_class, getMOC at 1. rewrite run_bind, (reg_moc _ _ _ _ _ _ Hr'). unfold lift at 1. rewrite Hk.
  rewrite run_bind, run_NSAssert, (Hmanaged k Hk), run_bind. unfold getMOC at 1.
  rewrite (reg_moc _ _ _ _ _ _ Hr'), Hcache, run_bind. unfold assertOwned.
  rewrite run_bind, (run_assertController _ _ _ _ _ _ Hr'), (run_assertManaged _ _ _ _ _ _ Hr'), run_ret.
  by rewrite (run_didDelete _ _ _ _ _ _ n1 n2 Hr').
Qed.

(** ** The registry *)
Section registry.
Context {S : Type}.
Implicit Types w : World S.

(** Every package is registered under the identifier it has. *)
Definition registry_ok w : Prop :=
  ∀ i p, w_registry w !! i = Some p → ∃ k, w_pkgs w !! p = Some k ∧ pkg_fullyQualifiedIdentifier k = Some i.

Lemma run_getPkg w p k : w_pkgs w !! p = Some k → getPkg p w = (Ok k, w).
Proof. intros Hp. unfold getPkg. by rewrite Hp. Qed.

(** The assertion of a debug build holds in such a registry. *)
Lemma run_debugCheck w p i (l : list pid) :
  registry_ok w → (∀ o, o ∈ l → ∃ j, w_registry w !! j = Some o) →
  (∃ k, w_pkgs w !! p = Some k ∧ pkg_fullyQualifiedIdentifier k = Some i) →
  for_each l (λ o,
    ko ← getPkg o;
    NSAssert (negb (bool_decide (o = p)) || bool_decide (Some i = pkg_fullyQualifiedIdentifier ko))
      "Package controller is already registered with key") w = (Ok tt, w).
Proof.
  intros Hok Hl (k & Hp & Hi). induction l as [|o l IH]; [done|]. cbn [for_each].
  destruct (Hl o (list_elem_of_here _ _)) as [j Hj]. destruct (Hok j o Hj) as (ko & Hko & _).
  rewrite run_bind, run_bind, (run_getPkg _ _ _ Hko), run_NSAssert.
  assert (negb (bool_decide (o = p)) || bool_decide (Some i = pkg_fullyQualifiedIdentifier ko) = true) as ->.
  { case_bool_decide; [|done]. subst o. rewrite Hko in Hp. injection Hp as ->. cbn.
    by rewrite bool_decide_eq_true_2. }
  apply IH. intros o' Ho'. apply Hl. by apply list_elem_of_further.
Qed.

Lemma run_register debug w p k i :
  registry_ok w → w_pkgs w !! p = Some k → pkg_fullyQualifiedIdentifier k = Some i →
  PKG_registerDatabasePackageController debug p w =
  match w_registry w !! i with
  | None => (Ok tt, set_registry (<[i := p]> (w_registry w)) w)
  | Some q => if decide (q = p) then (Ok tt, w)
              else (Throw (AssertionFailed "Another package controller already registered for identifier"), w)
  end.
Proof.
  intros Hok Hp Hi. unfold PKG_registerDatabasePackageController.
  rewrite run_bind, (run_getPkg _ _ _ Hp), Hi, run_bind, run_gets. cbn [mbind option_bind].
  rewrite run_bind, run_NSAssert.
  destruct (w_registry w !! i) as [q|] eqn:Eq.
  - destruct (decide (q = p)) as [->|Hne].
    2: { rewrite bool_decide_eq_false_2; [done|]. intros [?|[= ?]]; done. }
    rewrite bool_decide_eq_true_2 by auto. rewrite run_bind, run_gets, run_bind. destruct debug; [|done].
    rewrite (run_debugCheck w p i); [done|done| |by exists k].
    intros o ([j o'] & -> & Hjo)%list_elem_of_fmap. exists j. by apply elem_of_map_to_list.
  - rewrite bool_decide_eq_true_2 by auto. rewrite run_bind, run_gets, run_bind. destruct debug; [|done].
    rewrite (run_debugCheck w p i); [done|done| |by exists k].
    intros o ([j o'] & -> & Hjo)%list_elem_of_fmap. exists j. by apply elem_of_map_to_list.
Qed.
End registry.

(** The registry resolves identifiers: registering a package makes
    its identifier find it, is idempotent, leaves every other entry alone and
    raises - changing nothing - when another package has the identifier; a
    deregistered package is not found any more; and at all times a package is
    registered under its own identifier only. *)
Theorem registry_resolves {T} `{!CBL T} `{!Env} (w : World T) debug p k i :
  registry_ok w → w_pkgs w !! p = Some k → pkg_fullyQualifiedIdentifier k = Some i →
  let registered := PKG_registerDatabasePackageController debug p w in
  let gone := PKG_deregisterDatabasePackageController p w in
  (registered.1 = Ok tt →
     PKG_withFullyQualifiedIdentifier i registered.2 = (Ok (Some p), registered.2) ∧
     PKG_registerDatabasePackageController debug p registered.2 = registered) ∧
  (∀ q, w_registry w !! i = Some q → q ≠ p → (∃ e, registered = (Throw e, w))) ∧
  (w_registry w !! i = None → registered.1 = Ok tt) ∧
  (∀ j, j ≠ i → w_registry registered.2 !! j = w_registry w !! j ∧ w_registry gone.2 !! j = w_registry w !! j) ∧
  PKG_withFullyQualifiedIdentifier i gone.2 = (Ok None, gone.2) ∧
  registry_ok registered.2 ∧ registry_ok gone.2.
Proof.
  intros Hok Hp Hi registered gone.
  assert (gone = (Ok tt, set_registry (delete i (w_registry w)) w)) as Hgone.
  { unfold gone, PKG_deregisterDatabasePackageController. by rewrite run_bind, (run_getPkg _ _ _ Hp), Hi. }
  assert (registry_ok (set_registry (<[i := p]> (w_registry w)) w)) as Hok'.
  { intros j q. cbn. rewrite lookup_insert_Some. intros [[<- <-]|[_ Hq]]; [by exists k|by apply Hok]. }
  pose proof (run_register debug w p k i Hok Hp Hi) as Hreg. fold registered in Hreg.
  rewrite Hgone. cbn [fst snd].
  assert (registry_ok (set_registry (delete i (w_registry w)) w)) as Hdel.
  { intros j q. cbn. rewrite lookup_delete_Some. intros [_ Hq]. by apply Hok. }
  destruct (w_registry w !! i) as [q|] eqn:Eq.
  - destruct (decide (q = p)) as [->|Hne]; rewrite Hreg; cbn [fst snd].
    + split_and!; try done; [| |intros j Hj; cbn; by rewrite lookup_delete_ne by done|].
      * intros _. unfold PKG_withFullyQualifiedIdentifier. rewrite run_gets, Eq. split; [done|].
        rewrite (run_register debug w p k i) by done. by rewrite Eq, decide_True.
      * intros q [= <-]. done.
      * unfold PKG_withFullyQualifiedIdentifier. rewrite run_gets. cbn. by rewrite lookup_delete_eq.
    + split_and!; try done; [by eauto|intros j Hj; cbn; by rewrite lookup_delete_ne by done|].
      unfold PKG_withFullyQualifiedIdentifier. rewrite run_gets. cbn. by rewrite lookup_delete_eq.
  - rewrite Hreg. cbn [fst snd].
    split_and!; try done; [|intros j Hj; cbn; by rewrite lookup_delete_ne, lookup_insert_ne by done|].
    + intros _. unfold PKG_withFullyQualifiedIdentifier. rewrite run_gets. cbn. rewrite lookup_insert_eq.
      split; [done|]. rewrite (run_register debug _ p k i) by done. cbn. by rewrite lookup_insert_eq, decide_True.
    + unfold PKG_withFullyQualifiedIdentifier. rewrite run_gets. cbn. by rewrite lookup_delete_eq.
Qed.

(** ** The theorems at work on the reference store *)
Section witnesses.
Local Open Scope string_scope.
#[local] Existing Instances Reference.store_CBL Reference.store_laws Reference.env Reference.factory.

Definition package0 : Package :=
  mkPackage "MPManuscriptsPackageController" (Some "pkg-1")
    (<["sectionsController" := Reference.sections]> {["notesController" := Reference.notes]}) ∅ true true "session-1".
Definition section0 : MPManagedObject :=
  mkMO "MPSection" (Some Reference.sections) None None None false (Some {["MPStyle:1" := Reference.style]}) None.
Definition sections0 : Controller :=
  mkController "MPSectionsController" Reference.package (Some "manuscript") {["MPSection:0001" := Reference.section_]}.

(** The world after the section has been saved for the first time. *)
Definition saved : World Reference.store :=
  set_cbl (Reference.save1 (w_cbl Reference.world0) Reference.section_) Reference.world0.
(** The world after it has been deleted by someone else. *)
Definition deleted : World Reference.store :=
  set_cbl (Reference.mkStore {[Reference.section_ := Reference.mkModel None true (Some "2-gone") ∅
             {["_id" := NSString "MPSection:0001"]} [] false]} None ∅) Reference.world0.

Lemma saved_registered : registered saved Reference.section_ section0 Reference.sections sections0 package0.
Proof. split; try reflexivity; [by eexists|]. exists "MPSection". split; reflexivity. Defined.
Lemma deleted_registered : registered deleted Reference.section_ section0 Reference.sections sections0 package0.
Proof. split; try reflexivity; [by eexists|]. exists "MPSection". split; reflexivity. Defined.

Lemma database_change_notifies_witness :
  ∃ w', DB_databaseDidChange (Some Reference.package) "manuscript" true [mkChange "MPSection:0001" "1-saved"] saved
        = (Ok tt, w') ∧
        w_log w' = [Posted "hasAddedSection" Reference.section_ (Some MPManagedObjectChangeSourceExternal);
                    Posted "didAddSection" Reference.section_ (Some MPManagedObjectChangeSourceExternal)].
Proof.
  destruct (database_change_notifies saved Reference.package package0 "manuscript" "MPSection:0001" "1-saved"
    "MPSection" Reference.sections sections0 Reference.section_ section0 true "hasAddedSection" "didAddSection")
    as [(d & Hrun & _) _]; try reflexivity.
  - split; [reflexivity|]. split; [reflexivity|]. split; [reflexivity|]. discriminate.
  - exact saved_registered.
  - exact (dictionary_ok_empty package0 eq_refl).
  - eexists. split; [exact Hrun|reflexivity].
Defined.

Lemma database_deletion_notifies_witness :
  ∃ w', DB_databaseDidChange (Some Reference.package) "manuscript" false [mkChange "MPSection:0001" "2-gone"] deleted
        = (Ok tt, w') ∧
        w_log w' = announced "hasRemovedSection" "didRemoveSection" Reference.section_ None package0.
Proof.
  destruct (database_deletion_notifies deleted Reference.package package0 "manuscript" "MPSection:0001" "2-gone"
    "MPSection" Reference.sections sections0 Reference.section_ section0 false "hasRemovedSection" "didRemoveSection")
    as (d & Hrun & _); try reflexivity.
  - discriminate.
  - exact deleted_registered.
  - exact (dictionary_ok_empty package0 eq_refl).
  - intros managed [= <-]. reflexivity.
  - eexists. split; [exact Hrun|]. reflexivity.
Defined.

Lemma registry_resolves_witness :
  PKG_registerDatabasePackageController true Reference.package Reference.world0 = (Ok tt, Reference.world0) ∧
  (PKG_withFullyQualifiedIdentifier "pkg-1" (PKG_deregisterDatabasePackageController Reference.package Reference.world0).2).1
  = Ok None.
Proof.
  split; [reflexivity|].
  assert (registry_ok Reference.world0) as Hok.
  { intros i p Hp. change (({["pkg-1" := Reference.package]} : gmap string pid) !! i = Some p) in Hp.
    apply lookup_singleton_Some in Hp as [<- <-]. exists package0. split; reflexivity. }
  destruct (registry_resolves Reference.world0 true Reference.package package0 "pkg-1" Hok eq_refl eq_refl)
    as (_ & _ & _ & _ & H & _).
  rewrite H. reflexivity.
Defined.
End witnesses.
