(* ===== verification/PackageFiles.v ===== *)
(** * A package on disk, and its listener

    The parts of src/Feather/Sources/Database Packages/MPDatabasePackageController.m
    that copy a package ([-makeTemporaryCopyIntoRootDirectoryWithURL:...] with its
    file manager delegate, [-saveToURL:error:]) over a model of the file system -
    a map from paths to files and directories - and the search for a free port of
    [-startListenerWithCompletionHandler:].  Any operation of the file manager may
    fail with an error of its own ([ioError]). *)
From Stdlib Require Import Ascii.
From stdpp Require Import base tactics strings numbers list gmap.
From S2P Require Import Prelude ObjC.

(** ** The file system *)
Notation path := (list string) (only parsing).
Inductive entry : Type := Directory | File (contents : list Z).
Notation FS := (gmap (list string) entry).

(** A file or directory lies in a directory. *)
Definition fs_wf (fs : FS) : Prop := ∀ (p : path) n, is_Some (fs !! (p ++ [n])) → fs !! p = Some Directory.

Definition fs_wfb (fs : FS) : bool :=
  forallb (λ qe : path * entry,
             match reverse qe.1 with
             | [] => true
             | _ :: p => match fs !! reverse p with Some Directory => true | _ => false end
             end) (map_to_list fs).
Lemma fs_wfb_wf (fs : FS) : fs_wfb fs = true → fs_wf fs.
Proof.
  unfold fs_wfb. rewrite forallb_forall. intros Hall p n [e He].
  specialize (Hall (p ++ [n], e)). rewrite <- list_elem_of_In in Hall.
  specialize (Hall ltac:(by apply elem_of_map_to_list)). cbn [fst] in Hall.
  rewrite reverse_snoc, reverse_involutive in Hall. by destruct (fs !! p) as [[]|].
Qed.

Inductive fsop : Type := OpRemove | OpCreate | OpContents | OpCopy | OpWrite.

Fixpoint strip (p q : path) : option path :=
  match p, q with
  | [], _ => Some q
  | x :: p, y :: q => if String.eqb x y then strip p q else None
  | _ :: _, [] => None
  end.

Section files.
Context (ioError : fsop → path → option NSError).
(** The file manager's own errors for missing and existing items. *)
Context (noSuchFile fileExists notADirectory : NSError).
Notation M := (M FS).

Definition guarded {A} (op : fsop) (p : path) (k : M (outcome * A)) (a : A) : M (outcome * A) :=
  match ioError op p with Some e => mret (NO (Some e), a) | None => k end.

(** [-fileExistsAtPath:isDirectory:] *)
Definition fileExistsAtPath (p : path) : M (option bool) :=
  gets (λ fs, match fs !! p with Some Directory => Some true | Some (File _) => Some false | None => None end).

(** [-removeItemAtURL:error:] *)
Definition removeItem (p : path) : M outcome :=
  match ioError OpRemove p with
  | Some e => mret (NO (Some e))
  | None =>
      fs ← gets id;
      match fs !! p with
      | None => mret (NO (Some noSuchFile))
      | Some _ => _ ← modify (filter (λ qe : path * entry, strip p qe.1 = None)); mret YES
      end
  end.

(** [-createDirectoryAtURL:withIntermediateDirectories:YES ...] *)
Definition prefixes (p : path) : list path := (λ k, take k p) <$> seq 0 (S (length p)).
Definition createDirectory (p : path) : M outcome :=
  match ioError OpCreate p with
  | Some e => mret (NO (Some e))
  | None =>
      fs ← gets id;
      if existsb (λ q, match fs !! q with Some (File _) => true | _ => false end) (prefixes p)
      then mret (NO (Some notADirectory))
      else _ ← modify (λ fs, foldr (λ q, <[q := Directory]>) fs (prefixes p)); mret YES
  end.

(** [-contentsOfDirectoryAtPath:error:] *)
Definition childName (p q : path) : option string := match strip p q with Some [n] => Some n | _ => None end.
Definition contentsOfDirectory (p : path) : M (outcome * list string) :=
  guarded OpContents p
    (fs ← gets id;
     match fs !! p with
     | Some Directory => mret (YES, omap (λ qe, childName p qe.1) (map_to_list fs))
     | _ => mret (NO (Some noSuchFile), [])
     end) [].

(** The entries a copy of [src] to [dst] makes, of the items whose names, and the
    names of whose parents within [src], the delegate accepts. *)
Definition copied (keep : string → bool) (src dst : path) (fs : FS) : FS :=
  list_to_map (omap (λ qe, s ← strip src qe.1;
                           if forallb keep s then Some (dst ++ s, qe.2) else None) (map_to_list fs)).

(** [-copyItemAtURL:toURL:error:], which reports success for a refused item.  [ioError] stands for
    the other ways to fail; the directory of the destination is there, which the callers see to. *)
Definition copyItem (keep : string → bool) (src dst : path) : M outcome :=
  match ioError OpCopy src with
  | Some e => mret (NO (Some e))
  | None =>
      if negb (match last src with Some n => keep n | None => true end) then mret YES
      else
        fs ← gets id;
        match fs !! src, fs !! dst with
        | None, _ => mret (NO (Some noSuchFile))
        | Some _, Some _ => mret (NO (Some fileExists))
        | Some _, None => _ ← modify (λ fs, copied keep src dst fs ∪ fs); mret YES
        end
  end.

Definition writeFile (p : path) (contents : list Z) : M outcome :=
  match ioError OpWrite p with
  | Some e => mret (NO (Some e))
  | None => _ ← modify (<[p := File contents]>); mret YES
  end.

(** ** Temporary copies *)
(* @src Feather/Sources/Database Packages/MPDatabasePackageController.m 42 55 -[MPTemporaryDatabasePackageCopyFileManagerDelegate fileManager:shouldCopyItemAtURL:toURL:] *)
Definition shouldCopyItem (filename : string) : bool := negb (hasPrefix filename "snapshot").

(* @src Feather/Sources/Database Packages/MPDatabasePackageController.h 52 65 MPDatabasePackageControllerErrorCode *)
Definition packageError (code : Z) : NSError :=
  {| err_domain := "MPDatabasePackageControllerErrorDomain"; err_code := code |}.
Definition ErrorCodeFileNotDirectory : NSError := packageError 3.
Definition ErrorCodeDirectoryAlreadyExists : NSError := packageError 4.
Definition ErrorCodeNoDatabases : NSError := packageError 7.
Definition ErrorCodeRootURLMissing : NSError := packageError 9.

Fixpoint copyContents (self_path root : path) (contents : list string) : M outcome :=
  match contents with
  | [] => mret YES
  | filename :: rest =>
      success ← copyItem shouldCopyItem (self_path ++ [filename]) (root ++ [filename]);
      if succeeded success then copyContents self_path root rest else mret success
  end.

(** [reports]: an error pointer was given. *)
(* @src Feather/Sources/Database Packages/MPDatabasePackageController.m 611 695 -[MPDatabasePackageController makeTemporaryCopyIntoRootDirectoryWithURL:overwriteIfExists:failIfExists:error:] *)
Definition makeTemporaryCopy (self_path : path) (rootURL : option path) (overwrite failIfExists reports : bool)
    : M outcome :=
  match rootURL with
  | None => mret (NO (Some ErrorCodeRootURLMissing))
  | Some root =>
      exists_ ← fileExistsAtPath root;
      match exists_, overwrite with
      | Some isDirectory, false =>
          if reports && failIfExists
          then mret (NO (Some (if negb isDirectory then ErrorCodeFileNotDirectory else ErrorCodeDirectoryAlreadyExists)))
          else mret YES
      | _, _ =>
          removed ← (match exists_ with Some _ => removeItem root | None => mret YES end);
          if negb (succeeded removed) then mret removed
          else
            created ← createDirectory root;
            if negb (succeeded created) then mret created
            else
              contents ← contentsOfDirectory self_path;
              if negb (succeeded contents.1) then mret contents.1
              else copyContents self_path root contents.2
      end
  end.

(** ** Saving a package elsewhere *)

(** The manifest and the dictionary representation are what the package's
    subclass and its documents give; a checkpoint of a database may fail. *)
(* @src Feather/Sources/Database Packages/MPDatabasePackageController.m 1373 1407 -[MPDatabasePackageController saveToURL:error:] *)
Definition saveToURL (self_path : path) (databases : list string) (manifest : list Z)
    (dictionaryRepresentation : NSError + list Z) (checkpoint : string → outcome) (URL : path) : M outcome :=
  match databases with
  | [] => mret (NO (Some ErrorCodeNoDatabases))
  | _ =>
      saved ← writeFile (self_path ++ ["manifest.json"%string]) manifest;
      if negb (succeeded saved) then mret (NO None)
      else
        match dictionaryRepresentation with
        | inl e => mret (NO (Some e))
        | inr data =>
            saved ← writeFile (self_path ++ ["dictionary.json"%string]) data;
            if negb (succeeded saved) then mret saved
            else
              match find (λ db, negb (succeeded (checkpoint db))) databases with
              | Some db => mret (checkpoint db)
              | None => copyItem (λ _, true) self_path URL
              end
        end
  end.
End files.

(** ** The port of the listener *)

Definition MPDatabasePackageListenerMaxRetryCount : nat := 30.

Section listener.
(** [[listener start:&e]] on a port: the error it reports. *)
Context (start : Z → option NSError).

(** The [do ... while] loop: the port of the last listener made, and the error. *)
Fixpoint tryPorts (fuel : nat) (port : Z) (retries : Z) : Z * option NSError :=
  let port := word (port + retries) in
  match start port with
  | None => (port, None)
  | Some e =>
      match fuel with
      | O => (port, Some e)
      | S fuel => tryPorts fuel port (retries + 1)
      end
  end.

(** [retries] reaches the maximum after as many failures. *)
(* @src Feather/Sources/Database Packages/MPDatabasePackageController.m 1030 1090 -[MPDatabasePackageController startListenerWithCompletionHandler:] *)
Definition startListener (fixedDatabasePort packagesOpened : Z) : Z * option NSError :=
  let port := if (fixedDatabasePort =? 0)%Z then word (10000 + packagesOpened) else fixedDatabasePort in
  tryPorts (MPDatabasePackageListenerMaxRetryCount - 1) port 0.

(* @src Feather/Sources/Database Packages/MPDatabasePackageController.m 1103 1110 -[MPDatabasePackageController databaseListenerPort] *)
Definition databaseListenerPort (listener : option Z) : Z := default 0%Z listener.
End listener.

(** ** Copies *)
Lemma strip_app p s : strip p (p ++ s) = Some s.
Proof. induction p as [|x p IH]; cbn; [done|]. by rewrite String.eqb_refl. Qed.

Lemma strip_Some p q s : strip p q = Some s ↔ q = p ++ s.
Proof.
  split; [|intros ->; apply strip_app]. revert q. induction p as [|x p IH]; intros q; cbn; [congruence|].
  destruct q as [|y q]; [done|]. destruct (String.eqb_spec x y) as [->|]; [|done]. intros Hs. by rewrite (IH q Hs).
Qed.

Lemma strip_None p q : strip p q = None ↔ ∀ s, q ≠ p ++ s.
Proof.
  destruct (strip p q) as [s|] eqn:E; [apply strip_Some in E as ->|]; split; try done.
  - intros H. by destruct (H s).
  - intros _ s ->. by rewrite strip_app in E.
Qed.

Section copies.
Implicit Types fs : FS.

Lemma copied_lookup keep src dst fs r e :
  copied keep src dst fs !! r = Some e ↔
  ∃ s, r = dst ++ s ∧ forallb keep s = true ∧ fs !! (src ++ s) = Some e.
Proof.
  unfold copied.
  assert (∀ r e, (r, e) ∈ omap (λ qe : path * entry, s ← strip src qe.1;
      if forallb keep s then Some (dst ++ s, qe.2) else None) (map_to_list fs) ↔
    ∃ s, r = dst ++ s ∧ forallb keep s = true ∧ fs !! (src ++ s) = Some e) as Hin.
  { intros r' e'. rewrite list_elem_of_omap. split.
    - intros ([q e0] & Hq & Hs). cbn in Hs. apply elem_of_map_to_list in Hq.
      destruct (strip src q) as [s|] eqn:E; cbn in Hs; [|done]. apply strip_Some in E as ->.
      destruct (forallb keep s) eqn:Ek; [|done]. injection Hs as <- <-. by exists s.
    - intros (s & -> & Hk & He). exists (src ++ s, e'). split; [by apply elem_of_map_to_list|].
      cbn [fst snd]. rewrite strip_app. cbn [mbind option_bind]. by rewrite Hk. }
  split.
  - intros Hl%elem_of_list_to_map_2. by apply Hin.
  - intros H. apply elem_of_list_to_map_1'; [|by apply Hin]. intros e' He'%Hin.
    destruct H as (s & -> & _ & He), He' as (s' & Hs & _ & He'). apply (inj (app dst)) in Hs as ->. congruence.
Qed.

(** No path lies below both. *)
Definition disjoint (p q : path) : Prop := ∀ s t, p ++ s ≠ q ++ t.

Lemma copied_outside keep src dst fs r : (∀ s, r ≠ dst ++ s) → copied keep src dst fs !! r = None.
Proof.
  intros Hr. destruct (copied keep src dst fs !! r) as [e|] eqn:E; [|done].
  apply copied_lookup in E as (s & -> & _). by destruct (Hr s).
Qed.

Lemma wf_below fs p s : fs_wf fs → fs !! p = None → fs !! (p ++ s) = None.
Proof.
  intros Hwf Hp. induction s as [|n s IH] using rev_ind; [by rewrite app_nil_r|].
  destruct (fs !! (p ++ s ++ [n])) as [e|] eqn:E; [|done]. rewrite app_assoc in E.
  rewrite (Hwf (p ++ s) n) in IH by eauto. done.
Qed.

Lemma wf_above fs p n s : fs_wf fs → is_Some (fs !! (p ++ n :: s)) → is_Some (fs !! (p ++ [n])).
Proof.
  intros Hwf [e He]. destruct (fs !! (p ++ [n])) as [x|] eqn:E; [by eexists|].
  pose proof (wf_below fs (p ++ [n]) s Hwf E) as H. rewrite <- app_assoc in H. cbn in H. congruence.
Qed.

(** *** Making room *)
Lemma prefixes_elem (p q : path) : q ∈ prefixes p ↔ ∃ s, p = q ++ s.
Proof.
  unfold prefixes. rewrite list_elem_of_fmap. split.
  - intros (k & -> & _). exists (drop k p). by rewrite take_drop.
  - intros [s ->]. exists (length q). split; [by rewrite take_app_length|]. apply elem_of_seq.
    rewrite length_app. lia.
Qed.

Lemma made_directories fs (l : list path) q :
  foldr (λ q : path, <[q := Directory]>) fs l !! q = if decide (q ∈ l) then Some Directory else fs !! q.
Proof.
  induction l as [|x l IH]; [done|]. cbn. rewrite lookup_insert. destruct (decide (x = q)) as [->|Hne].
  - by rewrite decide_True by apply list_elem_of_here.
  - rewrite IH. assert (q ∈ l ↔ q ∈ x :: l) as Hiff by (rewrite elem_of_cons; naive_solver).
    by repeat case_decide; try tauto.
Qed.

(** What the target looks like once it has been made: an empty directory, and
    nothing else has changed but missing parents. *)
Record emptied (root : path) fs fs1 : Prop := {
  em_root : fs1 !! root = Some Directory;
  em_below : ∀ s, s ≠ [] → fs1 !! (root ++ s) = None;
  em_else : ∀ q, strip root q = None → fs1 !! q = fs !! q ∨ ∃ s, root = q ++ s
}.

Lemma made_emptied root fs fs0 :
  (∀ s, fs0 !! (root ++ s) = None) → (∀ q, strip root q = None → fs0 !! q = fs !! q) →
  emptied root fs (foldr (λ q : path, <[q := Directory]>) fs0 (prefixes root)).
Proof.
  intros Hnone Helse. split.
  - rewrite made_directories, decide_True; [done|]. apply prefixes_elem. exists []. by rewrite app_nil_r.
  - intros s Hs. rewrite made_directories, decide_False, Hnone; [done|]. rewrite prefixes_elem.
    intros [t Ht]. apply (f_equal length) in Ht. rewrite !length_app in Ht. destruct s; [done|]. cbn in Ht. lia.
  - intros q Hq. rewrite made_directories. case_decide as Hin; [|left; by apply Helse].
    right. by apply prefixes_elem.
Qed.
End copies.

(** *** The loop over the contents *)
Section contents.
Context (ioError : fsop → path → option NSError) (noSuchFile fileExists notADirectory : NSError).
Context (sp root : path) (Hdisjoint : disjoint sp root).
Implicit Types fs : FS.

Definition kept (s : path) : bool := forallb (λ n, negb (hasPrefix n "snapshot")) s.

Lemma kept_copied s : forallb shouldCopyItem s = kept s.
Proof. reflexivity. Qed.
Lemma kept_cons n s : kept (n :: s) = shouldCopyItem n && kept s.
Proof. reflexivity. Qed.

(** The state of the loop when the items named in [done] have been copied. *)
Record copied_so_far fs1 (done : list string) fs : Prop := {
  csf_below : ∀ n s, fs !! (root ++ n :: s) =
                if bool_decide (n ∈ done) && kept (n :: s) then fs1 !! (sp ++ n :: s) else None;
  csf_else : ∀ q, (∀ n s, q ≠ root ++ n :: s) → fs !! q = fs1 !! q
}.

Lemma csf_source fs1 done fs s : copied_so_far fs1 done fs → fs !! (sp ++ s) = fs1 !! (sp ++ s).
Proof. intros Hc. apply (csf_else _ _ _ Hc). intros n t. apply Hdisjoint. Qed.

Lemma copyItem_step fs1 done n fs r fs' :
  copied_so_far fs1 done fs → n ∉ done →
  copyItem ioError noSuchFile fileExists shouldCopyItem (sp ++ [n]) (root ++ [n]) fs = (Ok r, fs') →
  r = YES → copied_so_far fs1 (done ++ [n]) fs'.
Proof.
  intros Hc Hn Hrun ->. unfold copyItem in Hrun. destruct (ioError OpCopy (sp ++ [n])); [done|].
  rewrite last_snoc in Hrun.
  assert (∀ m, bool_decide (m ∈ done ++ [n]) = bool_decide (m ∈ done) || bool_decide (m = n)) as Hdec.
  { intros m. apply Bool.eq_iff_eq_true.
    rewrite orb_true_iff, !bool_decide_eq_true, elem_of_app, list_elem_of_singleton. tauto. }
  destruct (shouldCopyItem n) eqn:Ek; cbn [negb] in Hrun.
  2: { rewrite run_ret in Hrun. injection Hrun as <-. split; [|apply (csf_else _ _ _ Hc)].
       intros m s. rewrite (csf_below _ _ _ Hc), Hdec. case_bool_decide as Hm; [done|]. cbn [orb andb].
       case_bool_decide as Hmn; [|done]. subst m. by rewrite kept_cons, Ek. }
  rewrite run_bind, run_gets in Hrun. cbn [id] in Hrun. pose proof (csf_source _ _ _ [n] Hc) as Hsrc.
  destruct (fs !! (sp ++ [n])) as [e|] eqn:Esrc; [|done]. destruct (fs !! (root ++ [n])) eqn:Edst; [done|].
  rewrite run_bind, run_modify, run_ret in Hrun. injection Hrun as <-.
  assert (∀ s, copied shouldCopyItem (sp ++ [n]) (root ++ [n]) fs !! (root ++ n :: s) =
    if kept s then fs1 !! (sp ++ n :: s) else None) as Hcopied.
  { intros s. apply option_eq. intros x. rewrite copied_lookup. split.
    - intros (s' & Hs & Hk & Hx). rewrite <- app_assoc in Hs. apply (inj (app root)) in Hs. injection Hs as <-.
      rewrite <- app_assoc in Hx. cbn in Hx. rewrite (csf_source _ _ _ _ Hc) in Hx. by rewrite <- kept_copied, Hk.
    - destruct (kept s) eqn:Hk; [|done]. intros Hx. exists s. rewrite <- !app_assoc. cbn [app].
      by rewrite (csf_source _ _ _ _ Hc). }
  split.
  - intros m s. rewrite lookup_union, Hdec. destruct (decide (m = n)) as [->|Hne].
    + rewrite Hcopied, (csf_below _ _ _ Hc), bool_decide_eq_false_2 by done.
      rewrite bool_decide_eq_true_2 by done. cbn [orb andb]. rewrite kept_cons, Ek. cbn [andb].
      by destruct (kept s), (fs1 !! (sp ++ n :: s)).
    + rewrite copied_outside.
      * rewrite (bool_decide_eq_false_2 (m = n)), orb_false_r by done. by rewrite (csf_below _ _ _ Hc), (left_id_L None (∪)).
      * intros t Ht. rewrite <- app_assoc in Ht. apply (inj (app root)) in Ht. injection Ht as ->. done.
  - intros q Hq. rewrite lookup_union, copied_outside; [rewrite (csf_else _ _ _ Hc q Hq); by destruct (fs1 !! q)|].
    intros t Ht. apply (Hq n t). by rewrite Ht, <- app_assoc.
Qed.

Lemma copyContents_step fs1 names : ∀ done fs r fs',
  NoDup (done ++ names) → copied_so_far fs1 done fs →
  copyContents ioError noSuchFile fileExists sp root names fs = (Ok r, fs') → r = YES →
  copied_so_far fs1 (done ++ names) fs'.
Proof.
  induction names as [|n names IH]; intros done fs r fs' Hnd Hc Hrun Hr; cbn [copyContents] in Hrun.
  - rewrite run_ret in Hrun. injection Hrun as _ <-. by rewrite app_nil_r.
  - apply run_bind_inv in Hrun as (r1 & fs2 & H1 & H2). destruct (succeeded r1) eqn:E.
    + destruct r1; [|done]. change (n :: names) with ([n] ++ names) in Hnd |- *. rewrite app_assoc in Hnd |- *.
      eapply IH; [done| |exact H2|done]. eapply copyItem_step; [done| |exact H1|done].
      apply NoDup_app in Hnd as [Hnd _]. apply NoDup_app in Hnd as (_ & Hno & _). intros Hin.
      by apply (Hno n Hin), list_elem_of_singleton.
    + rewrite run_ret in H2. injection H2 as -> _. by subst.
Qed.

(** Without errors of the file manager the loop succeeds. *)
Lemma copyContents_succeeds fs1 names : ∀ done fs,
  (∀ op p, ioError op p = None) →
  NoDup (done ++ names) → (∀ n, n ∈ names → is_Some (fs1 !! (sp ++ [n]))) → copied_so_far fs1 done fs →
  ∃ fs', copyContents ioError noSuchFile fileExists sp root names fs = (Ok YES, fs').
Proof.
  induction names as [|n names IH]; intros done fs Hio Hnd Hex Hc; [by exists fs|].
  cbn [copyContents]. rewrite run_bind.
  assert (n ∉ done) as Hn.
  { apply NoDup_app in Hnd as (_ & Hno & _). intros Hin. by apply (Hno n Hin), list_elem_of_here. }
  assert (∃ fs2, copyItem ioError noSuchFile fileExists shouldCopyItem (sp ++ [n]) (root ++ [n]) fs = (Ok YES, fs2))
    as [fs2 Hrun].
  { unfold copyItem. rewrite Hio, last_snoc. destruct (negb (shouldCopyItem n)); [by eexists|].
    rewrite run_bind, run_gets. cbn [id]. rewrite (csf_source _ _ _ _ Hc).
    destruct (Hex n (list_elem_of_here _ _)) as [e ->]. rewrite (csf_below _ _ _ Hc n []), bool_decide_eq_false_2 by done.
    cbn [andb]. rewrite run_bind, run_modify. by eexists. }
  rewrite Hrun. cbn [succeeded]. apply (IH (done ++ [n])); [done| | |].
  - by rewrite <- app_assoc.
  - intros m Hm. apply Hex. by apply list_elem_of_further.
  - by eapply copyItem_step.
Qed.
End contents.

Lemma childName_Some p q n : childName p q = Some n ↔ q = p ++ [n].
Proof.
  unfold childName. split.
  - destruct (strip p q) as [[|x [|]]|] eqn:E; try done. apply strip_Some in E as ->. congruence.
  - intros ->. by rewrite strip_app.
Qed.

Lemma childNames_NoDup p (l : list (path * entry)) :
  NoDup l.*1 → NoDup (omap (λ qe : path * entry, childName p qe.1) l).
Proof.
  induction l as [|[q e] l IH]; cbn; [constructor|]. intros [Hq Hnd]%NoDup_cons.
  destruct (childName p q) as [n|] eqn:E; [|auto]. constructor; [|auto].
  rewrite list_elem_of_omap. intros ([q' e'] & Hin & E'). cbn in E'. apply childName_Some in E, E'. subst.
  apply Hq, list_elem_of_fmap. by exists (p ++ [n], e').
Qed.

(** *** The whole copy *)
Section whole.
Context (ioError : fsop → path → option NSError) (noSuchFile fileExists notADirectory : NSError).
Context (sp root : path) (Hdisjoint : disjoint sp root).
Implicit Types fs : FS.

Lemma below_root s : strip root (sp ++ s) = None.
Proof. apply strip_None. intros t. apply Hdisjoint. Qed.

Lemma emptied_source fs fs1 s : emptied root fs fs1 → fs1 !! (sp ++ s) = fs !! (sp ++ s).
Proof.
  intros Hem. destruct (em_else _ _ _ Hem (sp ++ s) (below_root s)) as [?|[t Ht]]; [done|].
  exfalso. apply (Hdisjoint (s ++ t) []). by rewrite app_nil_r, app_assoc.
Qed.

Lemma removed_nothing fs s : filter (λ qe : path * entry, strip root qe.1 = None) fs !! (root ++ s) = None.
Proof. apply map_lookup_filter_None. right. intros e _. cbn. by rewrite strip_app. Qed.

Lemma removed_else fs q :
  strip root q = None → filter (λ qe : path * entry, strip root qe.1 = None) fs !! q = fs !! q.
Proof.
  intros Hq. destruct (fs !! q) as [e|] eqn:E.
  - by apply map_lookup_filter_Some.
  - apply map_lookup_filter_None. by left.
Qed.

(** The removal of an existing target, when it may be overwritten. *)
Definition clearTarget : M FS outcome :=
  exists_ ← fileExistsAtPath root;
  match exists_ with Some _ => removeItem ioError noSuchFile root | None => mret YES end.

Lemma run_clearTarget fs :
  fs_wf fs →
  ∃ removed fs0, clearTarget fs = (Ok removed, fs0) ∧
    (removed = YES → (∀ s, fs0 !! (root ++ s) = None) ∧ (∀ q, strip root q = None → fs0 !! q = fs !! q)) ∧
    (removed = YES ∨ ∃ e, ioError OpRemove root = Some e).
Proof.
  intros Hwf. unfold clearTarget, fileExistsAtPath. rewrite run_bind, run_gets.
  destruct (fs !! root) as [x|] eqn:Ex.
  - destruct (ioError OpRemove root) as [e|] eqn:Eio.
    + exists (NO (Some e)), fs. split; [destruct x; unfold removeItem; by rewrite Eio|]. split; [done|eauto].
    + exists YES, (filter (λ qe : path * entry, strip root qe.1 = None) fs).
      split; [destruct x; unfold removeItem; by rewrite Eio, run_bind, run_gets; cbn [id]; rewrite Ex|].
      split; [|by left]. intros _. split; [apply removed_nothing|apply removed_else].
  - exists YES, fs. split; [done|]. split; [|by left]. intros _. split; [|done]. intros s. by apply wf_below.
Qed.

Lemma run_createTarget fs fs0 :
  (∀ s, fs0 !! (root ++ s) = None) → (∀ q, strip root q = None → fs0 !! q = fs !! q) →
  ∃ created fs1, createDirectory ioError notADirectory root fs0 = (Ok created, fs1) ∧
    (created = YES → emptied root fs fs1) ∧
    (ioError OpCreate root = None → (∀ q s b, root = q ++ s → s ≠ [] → fs !! q ≠ Some (File b)) → created = YES).
Proof.
  intros Hnone Helse. unfold createDirectory. destruct (ioError OpCreate root) as [e|]; [by eexists _, _|].
  rewrite run_bind, run_gets. cbn [id]. destruct (existsb _ _) eqn:Efile.
  - eexists _, _. split; [done|]. split; [done|]. intros _ Hfile. exfalso.
    apply existsb_exists in Efile as (q & Hq & Hf). apply list_elem_of_In, prefixes_elem in Hq as [s Hs].
    destruct (fs0 !! q) as [[|b]|] eqn:Eq; try done. destruct (decide (s = [])) as [->|Hne].
    { rewrite app_nil_r in Hs. subst q. by rewrite <- (app_nil_r root), Hnone in Eq. }
    apply (Hfile q s b Hs Hne). rewrite <- Helse; [done|]. apply strip_None. intros t Ht.
    rewrite Ht in Hs. apply (f_equal length) in Hs. rewrite !length_app in Hs. destruct s; [done|]. cbn in Hs. lia.
  - eexists _, _. split; [done|]. split; [|done]. intros _. by apply made_emptied.
Qed.

(** A copy of the source's contents into the emptied root. *)
Lemma contents_copied fs fs1 r fs' :
  fs_wf fs → emptied root fs fs1 → fs !! sp = Some Directory →
  (contents ← contentsOfDirectory ioError noSuchFile sp;
   if negb (succeeded contents.1) then mret contents.1
   else copyContents ioError noSuchFile fileExists sp root contents.2) fs1 = (Ok r, fs') →
  ((∀ op p, ioError op p = None) → r = YES) ∧
  (r = YES →
   fs' !! root = Some Directory ∧
   (∀ n s, fs' !! (root ++ n :: s) = if kept (n :: s) then fs !! (sp ++ n :: s) else None) ∧
   (∀ q, strip root q = None → fs' !! q = fs !! q ∨ ∃ s, root = q ++ s)).
Proof.
  intros Hwf Hem Hsp Hrun. pose proof (emptied_source fs fs1 [] Hem) as Hsp1. rewrite app_nil_r, Hsp in Hsp1.
  rewrite run_bind in Hrun. unfold contentsOfDirectory, guarded in Hrun.
  destruct (ioError OpContents sp) as [e|] eqn:Eio.
  { rewrite run_ret in Hrun. cbn in Hrun. injection Hrun as <- <-. split; [intros Hio; by rewrite Hio in Eio|done]. }
  rewrite run_bind, run_gets in Hrun. cbn [id] in Hrun. rewrite Hsp1, run_ret in Hrun. cbn [fst snd negb succeeded] in Hrun.
  set (names := omap (λ qe : path * entry, childName sp qe.1) (map_to_list fs1)) in *.
  assert (NoDup ([] ++ names)) as Hnd by (apply childNames_NoDup, NoDup_fst_map_to_list).
  assert (∀ n, n ∈ names ↔ is_Some (fs1 !! (sp ++ [n]))) as Hnames.
  { intros n. unfold names. rewrite list_elem_of_omap. split.
    - intros ([q e] & Hq & Hn). apply childName_Some in Hn. cbn in Hn. subst q.
      apply elem_of_map_to_list in Hq. by eexists.
    - intros [e He]. exists (sp ++ [n], e). split; [by apply elem_of_map_to_list|by apply childName_Some]. }
  assert (copied_so_far sp root fs1 [] fs1) as Hstart.
  { split; [|done]. intros n s. rewrite bool_decide_eq_false_2 by apply not_elem_of_nil. by apply (em_below _ _ _ Hem). }
  split.
  - intros Hio. destruct (copyContents_succeeds ioError noSuchFile fileExists sp root Hdisjoint fs1 names [] fs1)
      as [fs2 Hrun2]; try done; [intros n; apply Hnames|]. congruence.
  - intros ->. pose proof (copyContents_step _ _ _ _ _ Hdisjoint _ _ _ _ _ _ Hnd Hstart Hrun eq_refl) as [Hbelow Helse].
    cbn [app] in *. split_and!.
    + rewrite Helse; [apply Hem|]. intros n s Hroot. apply (f_equal length) in Hroot. rewrite length_app in Hroot. cbn in Hroot. lia.
    + intros n s. rewrite Hbelow, (emptied_source fs fs1 (n :: s) Hem). destruct (kept (n :: s)); [|by rewrite andb_false_r].
      rewrite andb_true_r. case_bool_decide as Hn; [done|]. symmetry. destruct (fs !! (sp ++ n :: s)) eqn:E; [|done].
      exfalso. apply Hn, Hnames. rewrite (emptied_source fs fs1 [n] Hem). by eapply wf_above; [|eexists].
    + intros q Hq. rewrite Helse; [by apply Hem|]. intros n s ->. by rewrite strip_app in Hq.
Qed.
End whole.

(** C36 (functional). A temporary copy holds exactly the package: every file and
    directory of it, at any depth, except those named after snapshots or inside
    them; whatever was at the target before is gone, nothing outside the target
    changes but its missing parents, and when the file manager has no error of
    its own the copy succeeds.  A target that exists and may not be overwritten
    is left alone - with YES unless failing was asked for and an error can be
    reported. *)
Theorem temporary_copy ioError noSuchFile fileExists notADirectory (sp root : list string) fs overwrite failIfExists reports r fs' :
  fs_wf fs → disjoint sp root → fs !! sp = Some Directory →
  makeTemporaryCopy ioError noSuchFile fileExists notADirectory sp (Some root) overwrite failIfExists reports fs
    = (Ok r, fs') →
  if bool_decide (is_Some (fs !! root)) && negb overwrite then
    fs' = fs ∧ (r = YES ↔ failIfExists && reports = false)
  else
    ((∀ op p, ioError op p = None) → (∀ q s b, root = q ++ s → s ≠ [] → fs !! q ≠ Some (File b)) → r = YES) ∧
    (r = YES →
     fs' !! root = Some Directory ∧
     (∀ n s, fs' !! (root ++ n :: s) = if kept (n :: s) then fs !! (sp ++ n :: s) else None) ∧
     (∀ q, strip root q = None → fs' !! q = fs !! q ∨ ∃ s, root = q ++ s)).
Proof.
  intros Hwf Hdis Hsp Hrun. unfold makeTemporaryCopy, fileExistsAtPath in Hrun. rewrite run_bind, run_gets in Hrun.
  destruct (bool_decide (is_Some (fs !! root)) && negb overwrite) eqn:Ecase.
  { apply andb_true_iff in Ecase as [Hex%bool_decide_eq_true Hov%negb_true_iff]. subst overwrite.
    destruct Hex as [x Hx]. rewrite Hx in Hrun.
    assert (((if reports && failIfExists
             then mret (NO (Some (if negb (match x with Directory => true | File _ => false end)
                                  then ErrorCodeFileNotDirectory else ErrorCodeDirectoryAlreadyExists)))
             else mret YES) : M FS outcome) fs = (Ok r, fs')) as Hrun' by (by destruct x).
    clear Hrun. rewrite (andb_comm failIfExists). destruct (reports && failIfExists); rewrite run_ret in Hrun';
      by injection Hrun' as <- <-. }
  assert ((removed ← clearTarget ioError noSuchFile root;
           if negb (succeeded removed) then mret removed
           else created ← createDirectory ioError notADirectory root;
                if negb (succeeded created) then mret created
                else contents ← contentsOfDirectory ioError noSuchFile sp;
                     if negb (succeeded contents.1) then mret contents.1
                     else copyContents ioError noSuchFile fileExists sp root contents.2) fs = (Ok r, fs')) as Hrun'.
  { rewrite <- Hrun. unfold clearTarget. rewrite bind_assoc, run_bind. unfold fileExistsAtPath. rewrite run_gets.
    destruct (fs !! root) as [[|b]|]; cbn in Ecase; [| |done]; destruct overwrite; done. }
  clear Hrun. rewrite run_bind in Hrun'.
  destruct (run_clearTarget ioError noSuchFile root fs Hwf) as (removed & fs0 & Hrem & Hfs0 & Hremio).
  rewrite Hrem in Hrun'. destruct removed as [|e]; cbn [succeeded negb] in Hrun'.
  2: { rewrite run_ret in Hrun'. injection Hrun' as <- _. split; [|done]. intros Hio.
       destruct Hremio as [?|[e' He]]; [done|by rewrite Hio in He]. }
  destruct (Hfs0 eq_refl) as [Hnone Helse]. rewrite run_bind in Hrun'.
  destruct (run_createTarget ioError notADirectory root fs fs0 Hnone Helse) as (created & fs1 & Hcr & Hem & Hcrio).
  rewrite Hcr in Hrun'. destruct created as [|e]; cbn [succeeded negb] in Hrun'.
  2: { rewrite run_ret in Hrun'. injection Hrun' as <- _. split; [|done]. intros Hio Hfile.
       by discriminate (Hcrio (Hio _ _) Hfile). }
  destruct (contents_copied ioError noSuchFile fileExists sp root Hdis fs fs1 r fs' Hwf (Hem eq_refl) Hsp Hrun')
    as [Hio Hok].
  split; [by intros ? _; apply Hio|done].
Qed.

(** Nothing lies below a target that is not there. *)
Lemma saved_elsewhere_run ioError noSuchFile fileExists (sp URL : list string) databases manifest data checkpoint fs fs' :
  (fs !! URL = None → ∀ s, fs !! (URL ++ s) = None) → disjoint sp URL →
  saveToURL ioError noSuchFile fileExists sp databases manifest (inr data) checkpoint URL fs = (Ok YES, fs') →
  let package := <[sp ++ ["dictionary.json"%string] := File data]> (<[sp ++ ["manifest.json"%string] := File manifest]> fs) in
  databases ≠ [] ∧ Forall (λ db, checkpoint db = YES) databases ∧
  (∀ s, fs' !! (URL ++ s) = package !! (sp ++ s)) ∧
  (∀ q, strip URL q = None → fs' !! q = package !! q).
Proof.
  intros Hclear Hdis Hrun package. unfold saveToURL in Hrun. destruct databases as [|db0 dbs]; [done|].
  set (dbs' := db0 :: dbs) in *. rewrite run_bind in Hrun. unfold writeFile in Hrun at 1.
  destruct (ioError OpWrite (sp ++ ["manifest.json"%string])); [done|].
  rewrite run_bind, run_modify, run_ret in Hrun. cbn [succeeded negb] in Hrun. rewrite run_bind in Hrun.
  unfold writeFile in Hrun at 1. destruct (ioError OpWrite (sp ++ ["dictionary.json"%string])); [done|].
  rewrite run_bind, run_modify, run_ret in Hrun. cbn [succeeded negb] in Hrun. fold package in Hrun.
  destruct (find (λ db, negb (succeeded (checkpoint db))) dbs') as [db|] eqn:Efind.
  { apply find_some in Efind as [_ Hno]. rewrite run_ret in Hrun. injection Hrun as E _. by rewrite E in Hno. }
  split; [done|]. split.
  { apply Forall_forall. intros db Hdb. pose proof (find_none _ _ Efind db) as Hn.
    rewrite <- list_elem_of_In in Hn. specialize (Hn Hdb). by destruct (checkpoint db). }
  unfold copyItem in Hrun. destruct (ioError OpCopy sp); [done|].
  assert (negb match last sp with Some _ => true | None => true end = false) as E by (by destruct (last sp)).
  rewrite E, run_bind, run_gets in Hrun. cbn [id] in Hrun.
  destruct (package !! sp) as [e|] eqn:Esp; [|done]. destruct (package !! URL) as [|] eqn:EURL; [done|].
  rewrite run_bind, run_modify, run_ret in Hrun. injection Hrun as <-.
  assert (∀ s, package !! (URL ++ s) = fs !! (URL ++ s)) as Hpkg.
  { intros s. unfold package. rewrite !lookup_insert_ne; [done| |]; apply Hdis. }
  assert (∀ s, package !! (URL ++ s) = None) as Hnone.
  { intros s. rewrite Hpkg. apply Hclear. rewrite <- (app_nil_r URL), <- Hpkg. by rewrite app_nil_r. }
  assert (∀ l : path, forallb (λ _ : string, true) l = true) as Hall by (intros l; by apply forallb_forall).
  split.
  - intros s. rewrite lookup_union, Hnone, (right_id_L None (∪)). apply option_eq. intros x.
    rewrite copied_lookup. split.
    + intros (s' & Hs & _ & Hx). by apply (inj (app URL)) in Hs as ->.
    + intros Hx. by exists s.
  - intros q Hq. rewrite lookup_union, copied_outside by (by apply strip_None). by rewrite (left_id_L None (∪)).
Qed.

(** Saving a package elsewhere copies all of it, snapshots
    included, with its manifest and dictionary freshly written; it succeeds only
    when there are databases and each of them was checkpointed, and leaves
    everything outside the package and the target alone. *)
Theorem saved_elsewhere ioError noSuchFile fileExists (sp URL : list string) databases manifest data checkpoint fs fs' :
  fs_wf fs → disjoint sp URL →
  saveToURL ioError noSuchFile fileExists sp databases manifest (inr data) checkpoint URL fs = (Ok YES, fs') →
  let package := <[sp ++ ["dictionary.json"%string] := File data]> (<[sp ++ ["manifest.json"%string] := File manifest]> fs) in
  databases ≠ [] ∧ Forall (λ db, checkpoint db = YES) databases ∧
  (∀ s, fs' !! (URL ++ s) = package !! (sp ++ s)) ∧
  (∀ q, strip URL q = None → fs' !! q = package !! q).
Proof. intros Hwf. apply saved_elsewhere_run. intros HURL s. by apply wf_below. Qed.

(** ** Ports *)

(** The port of the [k]th attempt. *)
Definition attempt (base : Z) (k : nat) : Z := word (base + Z.of_nat k * (Z.of_nat k + 1) / 2).

Lemma word_add a b : word (word a + b) = word (a + b).
Proof. unfold word. apply Zplus_mod_idemp_l. Qed.

Lemma triangle k : (Z.of_nat (S k) * (Z.of_nat (S k) + 1) / 2 = Z.of_nat k * (Z.of_nat k + 1) / 2 + (Z.of_nat k + 1))%Z.
Proof.
  replace (Z.of_nat (S k) * (Z.of_nat (S k) + 1))%Z with (Z.of_nat k * (Z.of_nat k + 1) + (Z.of_nat k + 1) * 2)%Z by lia.
  rewrite Z.div_add by lia. lia.
Qed.

Lemma tryPorts_spec start base fuel : ∀ k,
  ∃ j, (k ≤ j ≤ k + fuel)%nat ∧
    tryPorts start fuel (base + Z.of_nat k * (Z.of_nat k + 1) / 2 - Z.of_nat k) (Z.of_nat k) = (attempt base j, start (attempt base j)) ∧
    (∀ i, (k ≤ i < j)%nat → start (attempt base i) ≠ None) ∧
    (start (attempt base j) = None ∨ j = (k + fuel)%nat).
Proof.
  induction fuel as [|fuel IH]; intros k; cbn [tryPorts];
    replace (base + Z.of_nat k * (Z.of_nat k + 1) / 2 - Z.of_nat k + Z.of_nat k)%Z
      with (base + Z.of_nat k * (Z.of_nat k + 1) / 2)%Z by lia; fold (attempt base k).
  - exists k. rewrite Nat.add_0_r. destruct (start (attempt base k)); split_and!; try done; try lia; auto; intros; lia.
  - destruct (start (attempt base k)) as [e|] eqn:E.
    2: { exists k. rewrite E. split_and!; try done; try lia; by left. }
    destruct (IH (S k)) as (j & Hj & Hrun & Hbefore & Hlast).
    exists j. split; [lia|]. split_and!; [|intros i Hi; destruct (decide (i = k)) as [->|]; [congruence|apply Hbefore; lia]|].
    2: { destruct Hlast as [?| ->]; [by left|right; lia]. }
    rewrite <- Hrun. replace (Z.of_nat k + 1)%Z with (Z.of_nat (S k)) by lia.
    assert (∀ f p q r, word p = word q → tryPorts start f (p - r) r = tryPorts start f (q - r) r) as Hword.
    { intros f p q r Hpq. destruct f; cbn [tryPorts]; by rewrite !Z.sub_add, Hpq. }
    rewrite <- (Hword fuel (attempt base k + Z.of_nat (S k))%Z); [by rewrite Z.add_simpl_r|].
    unfold attempt. rewrite word_add. f_equal. rewrite triangle. lia.
Qed.

(** The search for a port ends after at most thirty attempts; it
    tries the ports at the triangular distances 0, 1, 3, 6, ... from the first
    one, stops at the first that is free, and reports the error of the thirtieth
    when none is - the listener made for it stays behind. *)
Theorem listener_port_search start fixedDatabasePort packagesOpened :
  let base := if (fixedDatabasePort =? 0)%Z then word (10000 + packagesOpened) else fixedDatabasePort in
  ∃ j, (j < 30)%nat ∧
    startListener start fixedDatabasePort packagesOpened = (attempt base j, start (attempt base j)) ∧
    (∀ i, (i < j)%nat → start (attempt base i) ≠ None) ∧
    (start (attempt base j) = None ∨ j = 29%nat).
Proof.
  intros base. unfold startListener. fold base.
  destruct (tryPorts_spec start base (MPDatabasePackageListenerMaxRetryCount - 1) 0) as (j & Hj & Hrun & Hbefore & Hlast).
  change (Z.of_nat 0 * (Z.of_nat 0 + 1) / 2)%Z with 0%Z in Hrun. rewrite Z.add_0_r, Z.sub_0_r in Hrun.
  change (MPDatabasePackageListenerMaxRetryCount - 1)%nat with 29%nat in *. exists j. split_and!; [lia|exact Hrun| |done].
  intros i Hi. apply Hbefore. lia.
Qed.

(** ** Witnesses *)
Section witnesses.
Local Open Scope string_scope.
Definition fsError (n : Z) : NSError := {| err_domain := "NSCocoaErrorDomain"; err_code := n |}.

Definition disk : FS :=
  list_to_map [([], Directory); (["pkg"], Directory); (["pkg"; "manuscript.cblite"], File [1]);
               (["pkg"; "snapshots.cblite"], File [2]); (["pkg"; "attachments"], Directory);
               (["pkg"; "attachments"; "a"], File [3])]%Z.

Lemma disk_wf : fs_wf disk.
Proof. apply fs_wfb_wf. vm_compute. reflexivity. Qed.

Lemma pkg_tmp_disjoint : disjoint ["pkg"] ["tmp"].
Proof. intros s t. discriminate. Qed.

Lemma temporary_copy_witness :
  ∃ fs', makeTemporaryCopy (λ _ _, None) (fsError 4) (fsError 516) (fsError 512) ["pkg"] (Some ["tmp"]) false true true disk
         = (Ok YES, fs') ∧
    fs' !! ["tmp"; "manuscript.cblite"] = Some (File [1%Z]) ∧ fs' !! ["tmp"; "snapshots.cblite"] = None.
Proof.
  destruct (makeTemporaryCopy (λ _ _, None) (fsError 4) (fsError 516) (fsError 512) ["pkg"] (Some ["tmp"]) false true true disk)
    as [r fs'] eqn:E.
  assert (r = Ok YES) as ->.
  { apply (f_equal fst) in E. cbn [fst] in E. rewrite <- E. vm_compute. reflexivity. }
  exists fs'. split; [reflexivity|].
  destruct (temporary_copy _ _ _ _ _ _ _ _ _ _ _ _ disk_wf pkg_tmp_disjoint eq_refl E) as [_ H].
  destruct (H eq_refl) as (_ & Hbelow & _). split.
  - etransitivity; [exact (Hbelow "manuscript.cblite" [])|vm_compute; reflexivity].
  - etransitivity; [exact (Hbelow "snapshots.cblite" [])|vm_compute; reflexivity].
Defined.

Lemma saved_elsewhere_witness :
  ∃ fs', saveToURL (λ _ _, None) (fsError 4) (fsError 516) ["pkg"] ["manuscript"] [7%Z] (inr [8%Z]) (λ _, YES) ["tmp"] disk
         = (Ok YES, fs') ∧
    fs' !! ["tmp"; "manifest.json"] = Some (File [7%Z]) ∧ fs' !! ["tmp"; "snapshots.cblite"] = Some (File [2%Z]).
Proof.
  destruct (saveToURL (λ _ _, None) (fsError 4) (fsError 516) ["pkg"] ["manuscript"] [7%Z] (inr [8%Z]) (λ _, YES) ["tmp"] disk)
    as [r fs'] eqn:E.
  assert (r = Ok YES) as ->.
  { apply (f_equal fst) in E. cbn [fst] in E. rewrite <- E. vm_compute. reflexivity. }
  exists fs'. split; [reflexivity|].
  destruct (saved_elsewhere _ _ _ _ _ _ _ _ _ _ _ disk_wf pkg_tmp_disjoint E) as (_ & _ & H & _). split.
  - etransitivity; [exact (H ["manifest.json"])|vm_compute; reflexivity].
  - etransitivity; [exact (H ["snapshots.cblite"])|vm_compute; reflexivity].
Defined.
End witnesses.
