(* ===== verification/FileManager.v ===== *)
(** * Temporary files and permissions

    NSFileManager+MPExtensions.m over the file system of PackageFiles.v: the choice of
    a temporary URL, and the permission masks granted to a directory and all below it. *)
From Stdlib Require Import Ascii.
From stdpp Require Import base tactics strings numbers list gmap pretty.
From S2P Require Import Prelude ObjC PackageFiles.

(** ** Temporary URLs *)

(* @src Feather/Sources/Categories/NSFileManager+MPExtensions.h 20 27 MPFeatherNSFileManagerExtensionsErrorCode *)
Inductive MPFeatherNSFileManagerExtensionsErrorCode : Type :=
  | ErrorCodeUnknown
  | ErrorCodeCannotDetermineCachesDirectory
  | ErrorCodeCachesExistsButNotDirectory
  | ErrorCodeFailedToCreateCachesDirectory
  | ErrorCodeFailedToCreateTempDirectory
  | ErrorCodeXAttrRemovalFailed.

(** [TemporaryURL]: the URL; [NoTemporaryURL]: [nil], with an error and the error
    underlying it; [StillSearching]: the fuel of the loop has run out. *)
Inductive temporaryURL : Type :=
  | TemporaryURL (URL : list string)
  | NoTemporaryURL (code : MPFeatherNSFileManagerExtensionsErrorCode) (underlying : option NSError)
  | StillSearching.

Section temporary.
Context (ioError : fsop → list string → option NSError).
Context (noSuchFile fileExists notADirectory : NSError).
(** The strings of the UUIDs that will be made *)
Context (UUIDString : nat → string).
Local Open Scope string_scope.
Notation M := (M (gmap (list string) entry)).

(** [-createDirectoryAtURL:withIntermediateDirectories:...] *)
Definition createDirectoryAtURL (p : list string) (createIntermediates : bool) : M outcome :=
  if createIntermediates then createDirectory ioError notADirectory p
  else
    match ioError OpCreate p with
    | Some e => mret (NO (Some e))
    | None =>
        fs ← gets id;
        match fs !! p, fs !! take (length p - 1) p with
        | Some _, _ => mret (NO (Some fileExists))
        | None, Some Directory => _ ← modify (<[p := Directory]>); mret YES
        | None, Some (File _) => mret (NO (Some notADirectory))
        | None, None => mret (NO (Some noSuchFile))
        end
    end.

(** [[uuid substringToIndex:8]] with the extension, and with the number [i] when it is
    not zero *)
Definition temporaryName (n : nat) (i : N) (ext : string) : string :=
  let s := String.substring 0 8 (UUIDString n) in
  if N.eqb i 0 then s ++ ext else s ++ "_" ++ pretty i ++ ext.

(** The [do ... while] loop: [i] is what the loop has for the number of the name, and
    [n] counts the UUIDs made.  The body does not change [i]. *)
Fixpoint searchTemporaryURL (fuel n : nat) (i : N) (ext : string) (URL : list string)
    (fs : gmap (list string) entry) : option (list string) :=
  match fuel with
  | O => None
  | S fuel =>
      let url := (URL ++ [temporaryName n i ext])%list in
      match fs !! url with
      | None => Some url
      | Some _ => searchTemporaryURL fuel (S n) i ext URL fs
      end
  end.

(** The second half of the method: the search, and the directory if one is wanted. *)
(* @src Feather/Sources/Categories/NSFileManager+MPExtensions.m 187 220 -[NSFileManager temporaryURLInSubdirectoryNamed:atURL:createDirectory:createIntermediates:extension:error:] (part) *)
Definition takeTemporaryURL (fuel : nat) (URL : list string) (createDirectory : bool) (ext : string) : M temporaryURL :=
  fs ← gets id;
  match searchTemporaryURL fuel 0 0 ext URL fs with
  | None => mret StillSearching
  | Some url =>
      if createDirectory then
        success ← createDirectoryAtURL url false;
        mret match success with
             | YES => TemporaryURL url
             | NO e => NoTemporaryURL ErrorCodeFailedToCreateTempDirectory e
             end
      else mret (TemporaryURL url)
  end.

(* @src Feather/Sources/Categories/NSFileManager+MPExtensions.m 154 225 -[NSFileManager temporaryURLInSubdirectoryNamed:atURL:createDirectory:createIntermediates:extension:error:] *)
Definition temporaryURLInSubdirectoryNamed (fuel : nat) (subdirectoryName : string) (URL : list string)
    (createDirectory createIntermediates : bool) (pathExtension : string) : M temporaryURL :=
  exists_ ← fileExistsAtPath URL;
  match exists_ with
  | Some false => mret (NoTemporaryURL ErrorCodeCachesExistsButNotDirectory None)
  | _ =>
      success ← (match exists_ with
                 | None => createDirectoryAtURL URL createIntermediates
                 | Some _ => mret YES
                 end);
      match success with
      | NO e => mret (NoTemporaryURL ErrorCodeFailedToCreateCachesDirectory e)
      | YES =>
          let ext := if Nat.ltb 0 (String.length pathExtension) then "." ++ pathExtension else "" in
          takeTemporaryURL fuel URL createDirectory ext
      end
  end.

(** [caches]: the group container's directory for caches *)
(* @src Feather/Sources/Categories/NSFileManager+MPExtensions.m 101 108 -[NSFileManager temporaryDirectoryURLInGroupCachesSubdirectoryNamed:error:] *)
Definition temporaryDirectoryURLInGroupCachesSubdirectoryNamed (fuel : nat) (caches : list string)
    (subdirectoryName : string) : M temporaryURL :=
  temporaryURLInSubdirectoryNamed fuel subdirectoryName caches true true "".

(* @src Feather/Sources/Categories/NSFileManager+MPExtensions.m 110 119 -[NSFileManager temporaryFileURLInGroupCachesSubdirectoryNamed:withExtension:error:] *)
Definition temporaryFileURLInGroupCachesSubdirectoryNamed (fuel : nat) (caches : list string)
    (subdirectoryName pathExtension : string) : M temporaryURL :=
  temporaryURLInSubdirectoryNamed fuel subdirectoryName caches false true pathExtension.

(** [cachesRoot]: the user's directory for caches, if it can be determined;
    [bundleIdentifier]: the application's *)
(* @src Feather/Sources/Categories/NSFileManager+MPExtensions.m 121 151 -[NSFileManager temporaryURLInApplicationCachesSubdirectoryNamed:createDirectory:extension:error:] *)
Definition temporaryURLInApplicationCachesSubdirectoryNamed (fuel : nat) (cachesRoot : NSError + list string)
    (bundleIdentifier subdirectoryName : string) (createDirectory : bool) (pathExtension : string) : M temporaryURL :=
  match cachesRoot with
  | inl e => mret (NoTemporaryURL ErrorCodeCannotDetermineCachesDirectory (Some e))
  | inr root =>
      let applicationCaches := (root ++ [bundleIdentifier])%list in
      let createIntermediates := Nat.ltb 0 (String.length subdirectoryName) in
      let URL := if createIntermediates then (applicationCaches ++ [subdirectoryName])%list else applicationCaches in
      temporaryURLInSubdirectoryNamed fuel subdirectoryName URL createDirectory createIntermediates pathExtension
  end.

(* @src Feather/Sources/Categories/NSFileManager+MPExtensions.m 91 94 -[NSFileManager temporaryDirectoryURLInApplicationCachesSubdirectoryNamed:error:] *)
Definition temporaryDirectoryURLInApplicationCachesSubdirectoryNamed (fuel : nat) (cachesRoot : NSError + list string)
    (bundleIdentifier subdirectoryName : string) : M temporaryURL :=
  temporaryURLInApplicationCachesSubdirectoryNamed fuel cachesRoot bundleIdentifier subdirectoryName true "".

(* @src Feather/Sources/Categories/NSFileManager+MPExtensions.m 96 99 -[NSFileManager temporaryFileURLInApplicationCachesSubdirectoryNamed:withExtension:error:] *)
Definition temporaryFileURLInApplicationCachesSubdirectoryNamed (fuel : nat) (cachesRoot : NSError + list string)
    (bundleIdentifier subdirectoryName pathExtension : string) : M temporaryURL :=
  temporaryURLInApplicationCachesSubdirectoryNamed fuel cachesRoot bundleIdentifier subdirectoryName false pathExtension.
End temporary.

(** ** Permissions *)
Section permissions.
(** The permissions of the items, which reading and writing may fail to get and set *)
Context (attributesError setError : list string → option NSError).
Notation M := (M (gmap (list string) Z)).

(** A [BOOL] is a signed character: the result of the method is truncated to it. *)
Definition asBOOL (n : Z) : bool := negb (n mod 2 ^ 8 =? 0)%Z.

(** A missing item has no attributes: [noSuchFile]. *)
(* @src Feather/Sources/Categories/NSFileManager+MPExtensions.m 257 280 -[NSFileManager ensurePermissionMaskIncludes:forFileAtPath:error:] *)
Definition ensurePermissionMaskIncludes_forFileAtPath (noSuchFile : NSError) (grantedMask : Z) (path : list string)
    : M outcome :=
  attribs ← gets (.!! path);
  match attributesError path, attribs with
  | Some e, _ => mret (NO (Some e))
  | None, None => mret (NO (Some noSuchFile))
  | None, Some permissions =>
      let permissions := Z.lor permissions grantedMask in
      match setError path with
      | Some e => mret (NO (Some e))
      | None =>
          _ ← modify (<[path := permissions]>);
          mret (if asBOOL permissions then YES else NO None)
      end
  end.

(** The type of a path is the extension of its last component. *)
Fixpoint extensionOf (s : string) : option string :=
  match s with
  | EmptyString => None
  | String "." rest => match extensionOf rest with Some e => Some e | None => Some rest end
  | String _ rest => extensionOf rest
  end.
(** [-pathExtension]: a name that starts with its only period has none. *)
Definition pathExtension (path : list string) : string :=
  match last path with
  | Some (String _ rest) => default ""%string (extensionOf rest)
  | _ => ""%string
  end.

(** The enumerator lists what is in the directory, and in what is in it. *)
(* @src Feather/Sources/Categories/NSFileManager+MPExtensions.m 236 255 -[NSFileManager recursivePathsForResourcesOfType:inDirectory:] *)
Definition recursivePathsForResourcesOfType (type : option string) (directoryPath : list string)
    (items : list (list string)) : list (list string) :=
  List.filter (λ p, match strip directoryPath p with
                    | Some (_ :: _) => match type with Some t => String.eqb (pathExtension p) t | None => true end
                    | _ => false
                    end) items.

Fixpoint ensureEach (noSuchFile : NSError) (grantedMask : Z) (paths : list (list string)) : M outcome :=
  match paths with
  | [] => mret YES
  | path :: paths =>
      success ← ensurePermissionMaskIncludes_forFileAtPath noSuchFile grantedMask path;
      match success with
      | YES => ensureEach noSuchFile grantedMask paths
      | NO e => mret (NO e)
      end
  end.

(* @src Feather/Sources/Categories/NSFileManager+MPExtensions.m 282 295 -[NSFileManager ensurePermissionMaskIncludes:inDirectory:error:] *)
Definition ensurePermissionMaskIncludes_inDirectory (noSuchFile : NSError) (grantedMask : Z) (directoryPath : list string)
    : M outcome :=
  success ← ensurePermissionMaskIncludes_forFileAtPath noSuchFile grantedMask directoryPath;
  match success with
  | NO e => mret (NO e)
  | YES =>
      paths ← gets (λ a, recursivePathsForResourcesOfType None directoryPath (map_to_list a).*1);
      ensureEach noSuchFile grantedMask paths
  end.
End permissions.

(** ** What a temporary URL is *)
Section temporary_theory.
Context (ioError : fsop → list string → option NSError).
Context (noSuchFile fileExists notADirectory : NSError) (UUIDString : nat → string).
Implicit Types fs : gmap (list string) entry.

Lemma elements_bounded fs (l : list (list string)) :
  NoDup l → (∀ p, p ∈ l → is_Some (fs !! p)) → (length l ≤ size fs)%nat.
Proof.
  intros Hnd Hl. rewrite <- (size_list_to_set (C := gset (list string)) l Hnd), <- size_dom.
  apply subseteq_size. intros p Hp%elem_of_list_to_set. by apply elem_of_dom, Hl.
Qed.

Definition candidate (ext : string) (URL : list string) (n : nat) : list string :=
  URL ++ [temporaryName UUIDString n 0 ext].

Lemma search_Some fuel n ext URL fs url :
  searchTemporaryURL UUIDString fuel n 0 ext URL fs = Some url →
  fs !! url = None ∧ ∃ k, url = candidate ext URL k.
Proof.
  revert n. induction fuel as [|fuel IH]; intros n; cbn [searchTemporaryURL]; [done|].
  fold (candidate ext URL n). destruct (fs !! candidate ext URL n) eqn:E; [apply IH|]. intros [= <-]. eauto.
Qed.

Lemma search_None fuel n ext URL fs :
  searchTemporaryURL UUIDString fuel n 0 ext URL fs = None →
  ∀ p, p ∈ candidate ext URL <$> seq n fuel → is_Some (fs !! p).
Proof.
  revert n. induction fuel as [|fuel IH]; intros n; cbn [searchTemporaryURL seq fmap list_fmap]; [by intros _ p ?%elem_of_nil|].
  fold (candidate ext URL n). destruct (fs !! candidate ext URL n) as [e|] eqn:E; [|done].
  intros Hs p [->|Hp]%elem_of_cons; [by rewrite E|]. by eapply IH.
Qed.

Lemma substring_whole (s : string) : String.substring 0 (String.length s) s = s.
Proof. induction s as [|x s IH]; [done|]. cbn. by rewrite IH. Qed.

Lemma string_app_cancel (s t e : string) : String.append s e = String.append t e → s = t.
Proof.
  intros E. apply (f_equal String.list_ascii_of_string) in E. rewrite !ascii_list_app in E.
  apply app_inv_tail in E. by rewrite <- (String.string_of_list_ascii_of_string s), E, String.string_of_list_ascii_of_string.
Qed.

(** UUIDs that differ in their first eight characters give different candidates. *)
Lemma candidates_NoDup ext URL n :
  (∀ i j, (i < j < n)%nat → String.substring 0 8 (UUIDString i) ≠ String.substring 0 8 (UUIDString j)) →
  NoDup (candidate ext URL <$> seq 0 n).
Proof.
  intros Hd. apply NoDup_alt. intros i j p Hi Hj.
  apply list_lookup_fmap_Some in Hi as (a & -> & [-> Hi]%lookup_seq).
  apply list_lookup_fmap_Some in Hj as (b & E & [-> Hj]%lookup_seq).
  apply (inj (app URL)) in E. injection E as E. unfold temporaryName in E. cbn [N.eqb] in E. apply string_app_cancel in E.
  destruct (Nat.lt_trichotomy i j) as [?|[?|?]]; [|done|].
  - exfalso. apply (Hd i j); [lia|done].
  - exfalso. apply (Hd j i); [lia|done].
Qed.

Lemma search_ends fuel ext URL fs :
  (∀ i j, (i < j < S (size fs))%nat →
     String.substring 0 8 (UUIDString i) ≠ String.substring 0 8 (UUIDString j)) → (size fs < fuel)%nat →
  is_Some (searchTemporaryURL UUIDString fuel 0 0 ext URL fs).
Proof.
  intros Hd Hfuel. destruct (searchTemporaryURL _ fuel 0 0 ext URL fs) as [url|] eqn:E; [by eexists|].
  pose proof (elements_bounded fs (candidate ext URL <$> seq 0 (S (size fs))) (candidates_NoDup _ _ _ Hd)) as Hlen.
  rewrite length_fmap, length_seq in Hlen. exfalso. apply (Nat.lt_irrefl (size fs)), Hlen.
  intros p (k & -> & Hk)%list_elem_of_fmap. apply (search_None _ _ _ _ _ E). apply list_elem_of_fmap.
  exists k. split; [done|]. apply elem_of_seq in Hk. apply elem_of_seq. lia.
Qed.

(** An item was made for [q], or it is as it was. *)
Definition grown (URL : list string) fs fs' : Prop :=
  ∀ q, fs' !! q = fs !! q ∨ (∃ s, URL = (q ++ s)%list) ∧ fs' !! q = Some Directory.

Lemma run_createIntermediates URL b fs :
  ∃ r fs', createDirectoryAtURL ioError noSuchFile fileExists notADirectory URL b fs = (Ok r, fs') ∧
    grown URL fs fs' ∧ (r = YES → fs' !! URL = Some Directory).
Proof.
  unfold createDirectoryAtURL, createDirectory.
  assert (grown URL fs fs) as Hrefl by (intros q; by left).
  destruct b; (destruct (ioError OpCreate URL) as [e|]; [by exists (NO (Some e)), fs|]); rewrite run_bind, run_gets; cbn [id].
  - destruct (existsb _ _); [by exists (NO (Some notADirectory)), fs|].
    eexists YES, _. rewrite run_bind, run_modify. split; [done|]. split.
    + intros q. rewrite made_directories. case_decide as Hq; [right; split; [by apply prefixes_elem|done]|by left].
    + intros _. rewrite made_directories, decide_True; [done|]. apply prefixes_elem. exists []. by rewrite app_nil_r.
  - destruct (fs !! URL) eqn:EU; [by exists (NO (Some fileExists)), fs|].
    destruct (fs !! take _ URL) as [[|c]|]; [|by exists (NO (Some notADirectory)), fs|by exists (NO (Some noSuchFile)), fs].
    eexists YES, _. rewrite run_bind, run_modify. split; [done|]. split; [|intros _; apply lookup_insert_eq].
    intros q. rewrite lookup_insert. case_decide as Hq; [|by left]. right. split; [|done]. exists []. by rewrite app_nil_r.
Qed.

(** In a directory that was missing no name is taken. *)
Lemma search_empty fuel ext URL fs :
  (∀ n, fs !! (URL ++ [n]) = None) → (0 < fuel)%nat → is_Some (searchTemporaryURL UUIDString fuel 0 0 ext URL fs).
Proof. intros Hn Hf. destruct fuel; [lia|]. cbn. rewrite Hn. by eexists. Qed.

Lemma run_createLast URL n fs : fs !! URL = Some Directory → fs !! (URL ++ [n]) = None →
  createDirectoryAtURL ioError noSuchFile fileExists notADirectory (URL ++ [n]) false fs
  = match ioError OpCreate (URL ++ [n]) with
    | Some e => (Ok (NO (Some e)), fs)
    | None => (Ok YES, <[URL ++ [n] := Directory]> fs)
    end.
Proof.
  intros HU Hn. unfold createDirectoryAtURL. destruct (ioError _ _); [done|].
  rewrite run_bind, run_gets. cbn [id]. rewrite Hn, length_app. cbn [length].
  rewrite Nat.add_sub, take_app_length, HU. done.
Qed.
(** [url] is a new item of the directory [URL]. *)
Record fresh_url (URL url : list string) (create : bool) fs fs' : Prop := {
  fu_in : ∃ name, url = (URL ++ [name])%list;
  fu_new : fs !! url = None;
  fu_made : fs' !! url = (if create then Some Directory else None);
  fu_directory : fs' !! URL = Some Directory;
  fu_others : ∀ q, q ≠ url → fs' !! q = fs !! q ∨ (∃ s, URL = (q ++ s)%list) ∧ fs' !! q = Some Directory
}.

(** The search and its outcome, in a directory that has come to be *)
Lemma run_takeTemporaryURL fuel URL create e fs fs1 :
  grown URL fs fs1 → fs1 !! URL = Some Directory →
  is_Some (searchTemporaryURL UUIDString fuel 0 0 e URL fs1) →
  (∀ url, searchTemporaryURL UUIDString fuel 0 0 e URL fs1 = Some url → fs !! url = None) →
  ∃ r fs', takeTemporaryURL ioError noSuchFile fileExists notADirectory UUIDString fuel URL create e fs1 = (Ok r, fs') ∧
    match r with
    | TemporaryURL url => fresh_url URL url create fs fs'
    | NoTemporaryURL code underlying =>
        grown URL fs fs' ∧ code = ErrorCodeFailedToCreateTempDirectory ∧ create = true ∧
        ∃ p, underlying = ioError OpCreate p ∧ is_Some underlying
    | StillSearching => False
    end.
Proof.
  intros Hg HU [url Hs] Hold. unfold takeTemporaryURL. rewrite run_bind, run_gets. cbn [id]. rewrite Hs.
  destruct (search_Some _ _ _ _ _ _ Hs) as [Hnone (k & ->)]. specialize (Hold _ Hs). unfold candidate in *.
  destruct create.
  - rewrite run_bind, run_createLast by done. destruct (ioError OpCreate _) as [err|] eqn:Eio; rewrite run_ret.
    + eexists _, fs1. split; [done|]. cbn. split_and!; [done..|]. by eexists; rewrite Eio.
    + eexists _, _. split; [done|]. split; [eauto|done|by rewrite lookup_insert_eq| |].
      * rewrite lookup_insert_ne; [done|]. intros E. apply (f_equal length) in E. rewrite length_app in E. cbn in E. lia.
      * intros q Hq. rewrite lookup_insert_ne by done. apply Hg.
  - eexists _, fs1. split; [done|]. split; eauto.
Qed.

Lemma grown_refl URL fs : grown URL fs fs.
Proof. intros q. by left. Qed.

(** What was not there is not there when the directories on the way have been made. *)
Lemma grown_below URL fs fs1 n : fs_wf fs → fs !! URL = None → grown URL fs fs1 →
  fs !! (URL ++ [n]) = None ∧ fs1 !! (URL ++ [n]) = None.
Proof.
  intros Hwf HU Hg. pose proof (wf_below fs URL [n] Hwf HU) as Hn. split; [done|].
  destruct (Hg (URL ++ [n])) as [->|[[s Hs] _]]; [done|]. apply (f_equal length) in Hs.
  rewrite !length_app in Hs. cbn in Hs. lia.
Qed.
(** Items that are there stay as they are. *)
Lemma createDirectoryAtURL_keeps URL b fs q e :
  fs !! q = Some e → (createDirectoryAtURL ioError noSuchFile fileExists notADirectory URL b fs).2 !! q = Some e.
Proof.
  intros Hq. unfold createDirectoryAtURL, createDirectory. destruct b; (destruct (ioError OpCreate URL); [done|]);
    rewrite run_bind, run_gets; cbn [id].
  - destruct (existsb _ _) eqn:E; [done|]. rewrite run_bind, run_modify, run_ret. cbn [snd].
    rewrite made_directories. case_decide as Hin; [|done]. destruct e as [|c]; [done|]. exfalso.
    apply not_true_iff_false in E. apply E, existsb_exists. exists q. split; [by apply list_elem_of_In|]. by rewrite Hq.
  - destruct (fs !! URL) eqn:EU; [done|]. destruct (fs !! take _ URL) as [[|c]|]; [|done..].
    rewrite run_bind, run_modify, run_ret. cbn [snd]. rewrite lookup_insert_ne; [done|congruence].
Qed.

Lemma takeTemporaryURL_keeps fuel URL create e fs q x :
  fs !! q = Some x →
  (takeTemporaryURL ioError noSuchFile fileExists notADirectory UUIDString fuel URL create e fs).2 !! q = Some x.
Proof.
  intros Hq. unfold takeTemporaryURL. rewrite run_bind, run_gets. cbn [id].
  destruct (searchTemporaryURL _ _ _ _ _ _ _) as [url|]; [|done]. destruct create; [|done].
  rewrite run_bind. pose proof (createDirectoryAtURL_keeps url false fs q x Hq) as Hk.
  by destruct (createDirectoryAtURL _ _ _ _ url false fs) as [[r|] fs'].
Qed.

Lemma temporaryURL_keeps fuel sub URL create intermediates ext fs q x :
  fs !! q = Some x →
  (temporaryURLInSubdirectoryNamed ioError noSuchFile fileExists notADirectory UUIDString
     fuel sub URL create intermediates ext fs).2 !! q = Some x.
Proof.
  intros Hq. unfold temporaryURLInSubdirectoryNamed, fileExistsAtPath. rewrite run_bind, run_gets.
  destruct (fs !! URL) as [[|c]|]; cbv iota beta; [|done|]; rewrite run_bind.
  - rewrite run_ret. by apply takeTemporaryURL_keeps.
  - pose proof (createDirectoryAtURL_keeps URL intermediates fs q x Hq) as Hk.
    destruct (createDirectoryAtURL _ _ _ _ URL intermediates fs) as [[[|e]|] fs']; [|done..].
    by apply takeTemporaryURL_keeps.
Qed.
End temporary_theory.

(** A temporary URL: as long as the UUIDs differ in their first eight
    characters, the loop finds a name after at most one more UUID than there are files.
    The URL answered lies directly in the directory, nothing was there before, and a
    directory is there now if one was asked for; everything else stays as it was, but for
    the directories made on the way to it.  Without a URL there is an error: a file
    is in the directory's place, or the file manager could not make a directory. *)
Theorem temporary_url (ioError : fsop → list string → option NSError) (noSuchFile fileExists notADirectory : NSError)
    (UUIDString : nat → string) (fuel : nat) (sub : string) (URL : list string) (create intermediates : bool) (ext : string)
    (fs : gmap (list string) entry) :
  fs_wf fs → (size fs < fuel)%nat →
  (∀ i j, (i < j < S (size fs))%nat →
     String.substring 0 8 (UUIDString i) ≠ String.substring 0 8 (UUIDString j)) →
  ∃ r fs', temporaryURLInSubdirectoryNamed ioError noSuchFile fileExists notADirectory UUIDString
             fuel sub URL create intermediates ext fs = (Ok r, fs') ∧
    match r with
    | TemporaryURL url => fresh_url URL url create fs fs'
    | NoTemporaryURL code underlying =>
        grown URL fs fs' ∧
        (code = ErrorCodeCachesExistsButNotDirectory ∧ (∃ c, fs !! URL = Some (File c)) ∧ fs' = fs ∨
         code = ErrorCodeFailedToCreateCachesDirectory ∧ fs !! URL = None ∨
         code = ErrorCodeFailedToCreateTempDirectory ∧ create = true ∧ ∃ p, underlying = ioError OpCreate p ∧ is_Some underlying)
    | StillSearching => False
    end.
Proof.
  intros Hwf Hfuel Hd. unfold temporaryURLInSubdirectoryNamed, fileExistsAtPath. rewrite run_bind, run_gets.
  set (e := if Nat.ltb 0 _ then _ else _).
  destruct (fs !! URL) as [[|c]|] eqn:EU; cbv iota beta.
  - rewrite run_bind, run_ret.
    destruct (run_takeTemporaryURL ioError noSuchFile fileExists notADirectory UUIDString fuel URL create e fs fs)
      as (r & fs' & -> & Hr); [apply grown_refl|done|by apply search_ends|by intros url [? _]%search_Some|].
    exists r, fs'. split; [done|]. destruct r; [done| |done]. destruct Hr as [? Hr]. split; [done|]. by right; right.
  - eexists _, fs. split; [done|]. cbn. split; [apply grown_refl|]. left. eauto.
  - rewrite run_bind.
    destruct (run_createIntermediates ioError noSuchFile fileExists notADirectory URL intermediates fs) as (r & fs1 & -> & Hg & HU).
    destruct r as [|e']; [|eexists _, fs1; split; [done|]; split; [done|]; by right; left].
    pose proof (λ n, grown_below URL fs fs1 n Hwf EU Hg) as Habs.
    destruct (run_takeTemporaryURL ioError noSuchFile fileExists notADirectory UUIDString fuel URL create e fs fs1)
      as (r & fs' & -> & Hr); [done|by apply HU|apply search_empty; [apply Habs|lia]|intros url (_ & k & ->)%search_Some; apply Habs|].
    exists r, fs'. split; [done|]. destruct r; [done| |done]. destruct Hr as [? Hr]. split; [done|]. by right; right.
Qed.

(** The subdirectory's name plays no part. *)
Lemma subdirectoryName_ignored ioError noSuchFile fileExists notADirectory UUIDString fuel caches sub sub' :
  temporaryDirectoryURLInGroupCachesSubdirectoryNamed ioError noSuchFile fileExists notADirectory UUIDString fuel caches sub
  = temporaryDirectoryURLInGroupCachesSubdirectoryNamed ioError noSuchFile fileExists notADirectory UUIDString fuel caches sub'.
Proof. reflexivity. Qed.

(** ** What permissions are granted *)
Section permission_theory.
Context (attributesError setError : list string → option NSError) (noSuchFile : NSError) (mask : Z).
Implicit Types a : gmap (list string) Z.

(** The mask is granted to the items of [ps], and to nothing else. *)
Definition granted (ps : list (list string)) a a' : Prop :=
  ∀ p, a' !! p = if decide (p ∈ ps) then (λ n, Z.lor n mask) <$> a !! p else a !! p.

Lemma run_ensureOne p a :
  ∃ r a', ensurePermissionMaskIncludes_forFileAtPath attributesError setError noSuchFile mask p a = (Ok r, a') ∧
    (a' = a ∧ r ≠ YES ∨ granted [p] a a' ∧ is_Some (a !! p)) ∧
    (attributesError p = None → setError p = None → ∀ n, a !! p = Some n →
     r = if asBOOL (Z.lor n mask) then YES else NO None).
Proof.
  unfold ensurePermissionMaskIncludes_forFileAtPath. rewrite run_bind, run_gets.
  destruct (attributesError p) as [e|]; [by eexists (NO (Some e)), a; split_and!; auto|].
  destruct (a !! p) as [n|] eqn:E; [|by eexists (NO (Some noSuchFile)), a; split_and!; auto].
  destruct (setError p) as [e|]; [by eexists (NO (Some e)), a; split_and!; auto|].
  rewrite run_bind, run_modify, run_ret. eexists _, _. split_and!; [done| |by intros _ _ ? [= ->]].
  right. split; [|done]. intros q. rewrite lookup_insert. destruct (decide (q ∈ [p])) as [->%list_elem_of_singleton|Hq].
  - by rewrite decide_True, E.
  - rewrite decide_False; [done|]. intros ->. by apply Hq, list_elem_of_singleton.
Qed.

Lemma granted_trans ps ps' a a1 a2 : (∀ p, p ∈ ps → p ∉ ps') →
  granted ps a a1 → granted ps' a1 a2 → granted (ps ++ ps') a a2.
Proof.
  intros Hdis H1 H2 p. rewrite (H2 p), (H1 p). destruct (decide (p ∈ ps')) as [Hp'|Hp'].
  - rewrite (decide_False (P := p ∈ ps)) by (intros ?; by eapply Hdis). rewrite decide_True; [done|]. apply elem_of_app. by right.
  - destruct (decide (p ∈ ps)) as [Hp|Hp].
    + rewrite decide_True; [done|]. apply elem_of_app. by left.
    + rewrite decide_False; [done|]. by rewrite elem_of_app; intros [?|?].
Qed.

(** The items are gone through in order, and nothing comes after the first failure. *)
Lemma run_ensureEach ps : NoDup ps → ∀ a, (∀ p, p ∈ ps → is_Some (a !! p)) →
  ∃ r a', ensureEach attributesError setError noSuchFile mask ps a = (Ok r, a') ∧
    (∃ k, granted (take k ps) a a' ∧ (r = YES → take k ps = ps)) ∧
    ((∀ p, p ∈ ps → attributesError p = None ∧ setError p = None ∧
             ∀ n, a !! p = Some n → asBOOL (Z.lor n mask) = true) → r = YES).
Proof.
  induction 1 as [|p ps Hp Hnd IH]; intros a Hex; cbn [ensureEach].
  { exists YES, a. split_and!; [done| |done]. exists 0%nat. split; [|done]. intros q. by rewrite decide_False by apply not_elem_of_nil. }
  rewrite run_bind. destruct (run_ensureOne p a) as (r & a1 & -> & Hcase & Hok). destruct r as [|e].
  - destruct Hcase as [[_ ?]|[Hg _]]; [done|].
    assert (∀ q, q ∈ ps → a1 !! q = a !! q) as Hsame.
    { intros q Hq. rewrite (Hg q), decide_False; [done|]. intros ->%list_elem_of_singleton. done. }
    destruct (IH a1) as (r & a2 & -> & (k & Hk & Hr) & Hall).
    { intros q Hq. rewrite Hsame by done. apply Hex. by right. }
    exists r, a2. split_and!; [done| |].
    + exists (S k). cbn [take]. split; [|intros ->; by rewrite Hr]. apply (granted_trans [p] (take k ps) a a1); [|done..].
      intros q ->%list_elem_of_singleton Hin. apply Hp. rewrite <- (take_drop k ps). apply elem_of_app. by left.
    + intros Hq. apply Hall. intros q Hin. rewrite Hsame by done. apply Hq. by right.
  - exists (NO e), a1. split_and!; [done| |].
    + destruct Hcase as [[-> _]|[Hg _]]; [exists 0%nat|exists 1%nat]; (split; [|done]).
      * intros q. by rewrite decide_False by apply not_elem_of_nil.
      * by rewrite firstn_cons, firstn_O.
    + intros Hq. destruct (Hq p) as (H1 & H2 & H3); [by left|]. destruct (Hex p) as [n Hn]; [by left|].
      specialize (Hok H1 H2 n Hn). by rewrite (H3 n Hn) in Hok.
Qed.

Lemma in_directory d a p :
  p ∈ recursivePathsForResourcesOfType None d (map_to_list a).*1 ↔
  is_Some (a !! p) ∧ ∃ n s, p = (d ++ n :: s)%list.
Proof.
  unfold recursivePathsForResourcesOfType. rewrite filter_bool_elem, list_elem_of_fmap. split.
  - intros [([q x] & -> & Hq%elem_of_map_to_list) Hs]. cbn in *. split; [by eexists|].
    destruct (strip d q) as [[|n s]|] eqn:E; [done| |done]. apply strip_Some in E as ->. eauto.
  - intros [[x Hx] (n & s & ->)]. split; [|by rewrite strip_app].
    exists (d ++ n :: s, x). split; [done|]. by apply elem_of_map_to_list.
Qed.

Lemma in_directory_NoDup d a : NoDup (recursivePathsForResourcesOfType None d (map_to_list a).*1).
Proof. apply NoDup_ListNoDup, List.NoDup_filter, NoDup_ListNoDup, NoDup_fst_map_to_list. Qed.
End permission_theory.

(** Permissions of a directory: with YES every item in it, at any depth, has
    the mask besides what it had, and no item outside has changed.  Permissions are never
    taken away, whatever the answer.  Where nothing fails the answer is YES provided that
    the permissions of no item end in eight zero bits - the answer for one item is its
    permissions, cut to the width of a [BOOL]. *)
Theorem permissions_granted (attributesError setError : list string → option NSError) (noSuchFile : NSError) (mask : Z)
    (directory : list string) (a : gmap (list string) Z) :
  ∃ r a', ensurePermissionMaskIncludes_inDirectory attributesError setError noSuchFile mask directory a = (Ok r, a') ∧
    (∀ p, a' !! p = a !! p ∨ (∃ s, p = (directory ++ s)%list) ∧ a' !! p = (λ n, Z.lor n mask) <$> a !! p) ∧
    (r = YES → ∀ s, a' !! (directory ++ s) = (λ n, Z.lor n mask) <$> a !! (directory ++ s)) ∧
    (is_Some (a !! directory) → (∀ p, attributesError p = None ∧ setError p = None) →
     (∀ s n, a !! (directory ++ s) = Some n → (Z.lor n mask mod 2 ^ 8 ≠ 0)%Z) → r = YES).
Proof.
  unfold ensurePermissionMaskIncludes_inDirectory. rewrite run_bind.
  destruct (run_ensureOne attributesError setError noSuchFile mask directory a) as (r & a1 & -> & Hcase & Hok).
  assert (∀ p, a1 !! p = a !! p ∨ (∃ s, p = (directory ++ s)%list) ∧ a1 !! p = (λ n, Z.lor n mask) <$> a !! p) as H1.
  { intros p. destruct Hcase as [[-> _]|[Hg _]]; [by left|]. rewrite (Hg p).
    destruct (decide _) as [->%list_elem_of_singleton|]; [|by left]. right. split; [|done]. exists []. by rewrite app_nil_r. }
  assert (∀ n, asBOOL n = true ↔ (n mod 2 ^ 8 ≠ 0)%Z) as Hbool.
  { intros n. unfold asBOOL. rewrite negb_true_iff. apply Z.eqb_neq. }
  destruct r as [|e].
  2: { exists (NO e), a1. rewrite run_ret. split_and!; [done..|]. intros [n Hn] Hio Hall.
       destruct (Hio directory) as [Hat Hset]. specialize (Hok Hat Hset n Hn).
       assert (asBOOL (Z.lor n mask) = true) as E by (apply Hbool, (Hall []); by rewrite app_nil_r). by rewrite E in Hok. }
  destruct Hcase as [[_ ?]|[Hg [n0 Hn0]]]; [done|].
  assert (∀ p, p ≠ directory → a1 !! p = a !! p) as Hsame.
  { intros p Hp. rewrite (Hg p), decide_False; [done|]. by intros ->%list_elem_of_singleton. }
  rewrite run_bind, run_gets. set (ps := recursivePathsForResourcesOfType None directory (map_to_list a1).*1).
  assert (∀ p, p ∈ ps → is_Some (a1 !! p) ∧ p ≠ directory ∧ ∃ s, p = (directory ++ s)%list) as Hps.
  { intros p (He & n & s & ->)%in_directory. split_and!; [done| |eauto].
    intros E. apply (f_equal length) in E. rewrite length_app in E. cbn in E. lia. }
  destruct (run_ensureEach attributesError setError noSuchFile mask ps (in_directory_NoDup _ _) a1)
    as (r & a2 & -> & (k & Hk & Hr) & Hall); [apply Hps|].
  exists r, a2. split_and!; [done| | |].
  - intros p. rewrite (Hk p). destruct (decide (p ∈ take k ps)) as [Hp|]; [|apply H1].
    assert (p ∈ ps) as Hin by (rewrite <- (take_drop k ps); apply elem_of_app; by left).
    right. split; [apply Hps, Hin|]. rewrite Hsame; [done|apply Hps, Hin].
  - intros -> s. rewrite (Hk (directory ++ s)), Hr by done. destruct s as [|n s].
    + rewrite app_nil_r, decide_False by (intros (_ & ? & _)%Hps; done). rewrite (Hg directory), decide_True; [done|by left].
    + rewrite Hsame by (intros E; apply (f_equal length) in E; rewrite length_app in E; cbn in E; lia).
      destruct (decide _) as [|Hno]; [done|]. destruct (a !! (directory ++ n :: s)) as [x|] eqn:E; [|done].
      exfalso. apply Hno, in_directory. split; [|by eauto]. rewrite Hsame; [by rewrite E|].
      intros E'. apply (f_equal length) in E'. rewrite length_app in E'. cbn in E'. lia.
  - intros _ Hio Hbits. apply Hall. intros p Hp. destruct (Hps p Hp) as (_ & Hne & s & Hs). split_and!; [apply Hio..|].
    intros n Hn. apply Hbool. rewrite Hsame in Hn by done. apply (Hbits s). by rewrite <- Hs.
Qed.

(** ** Witnesses *)
Section witnesses.
Local Open Scope string_scope.

(** The owner's right to read, 0400, is 256: granting it to a file without permissions
    answers NO. *)
Example owner_read_answers_NO :
  ensurePermissionMaskIncludes_forFileAtPath (λ _, None) (λ _, None) (fsError 260) 256 ["f"] {[ ["f"] := 0%Z ]}
  = (Ok (NO None), {[ ["f"] := 256%Z ]}).
Proof. vm_compute. reflexivity. Qed.

(** UUIDs that count in letters *)
Definition letters (n : nat) : string := String (Ascii.ascii_of_nat (65 + n)) "0000000-1111".

Lemma temporary_url_witness :
  ∃ url fs', temporaryURLInSubdirectoryNamed (λ _ _, None) (fsError 4) (fsError 516) (fsError 512) letters 7 "sub"
               ["pkg"] true true "" disk = (Ok (TemporaryURL url), fs') ∧ fresh_url ["pkg"] url true disk fs'.
Proof.
  destruct (temporary_url (λ _ _, None) (fsError 4) (fsError 516) (fsError 512) letters 7 "sub" ["pkg"] true true "" disk)
    as (r & fs' & Hrun & Hr).
  - apply disk_wf.
  - vm_compute. lia.
  - assert (size disk = 6%nat) as -> by (vm_compute; reflexivity). intros i j Hij E.
    destruct i as [|[|[|[|[|[|i]]]]]]; destruct j as [|[|[|[|[|[|[|j]]]]]]]; try lia; vm_compute in E; discriminate.
  - exists ["pkg"; "A0000000"], fs'.
    assert (r = TemporaryURL ["pkg"; "A0000000"]) as ->; [|by split].
    apply (f_equal fst) in Hrun. vm_compute in Hrun. by injection Hrun.
Defined.
End witnesses.
