(* ===== verification/Packages.v ===== *)
(** * A package and its databases

    The operations of MPDatabasePackageController.m on all databases of a package: which
    they are, pushing, pulling and synchronising them (each database as in Database.v),
    closing their servers, and the registration of controllers and view names.

    The databases of a package are those of its controllers.  Sets are enumerated in an
    order that is not known ([enumerate]). *)
From stdpp Require Import base tactics strings numbers list gmap.
From S2P Require Import Prelude ObjC Database PackageFiles.

(** A database, and a controller, as a pointer *)
Definition dbid := positive.
Definition mocid := positive.

Record PackageState : Type := mkPackageState {
  (** [_managedObjectsControllers], with the database of each *)
  ps_controllers : option (list (mocid * dbid));
  ps_databases : gmap dbid MPDatabase;
  ps_snapshotsDatabase : option dbid;
  (** the values of the properties a subclass declares for its databases *)
  ps_properties : gmap string dbid;
  (** [_registeredViewNames], which is made late: a message to [nil] does nothing *)
  ps_viewNames : option (gset string);
  ps_listening : bool;
  (** the databases whose servers have been closed, in order *)
  ps_closed : list dbid
}.

Definition with_controllers c (s : PackageState) : PackageState :=
  mkPackageState c (ps_databases s) (ps_snapshotsDatabase s) (ps_properties s) (ps_viewNames s) (ps_listening s) (ps_closed s).
Definition with_databases d (s : PackageState) : PackageState :=
  mkPackageState (ps_controllers s) d (ps_snapshotsDatabase s) (ps_properties s) (ps_viewNames s) (ps_listening s) (ps_closed s).
Definition with_viewNames n (s : PackageState) : PackageState :=
  mkPackageState (ps_controllers s) (ps_databases s) (ps_snapshotsDatabase s) (ps_properties s) n (ps_listening s) (ps_closed s).
Definition with_listening l (s : PackageState) : PackageState :=
  mkPackageState (ps_controllers s) (ps_databases s) (ps_snapshotsDatabase s) (ps_properties s) (ps_viewNames s) l (ps_closed s).
Definition with_closed c (s : PackageState) : PackageState :=
  mkPackageState (ps_controllers s) (ps_databases s) (ps_snapshotsDatabase s) (ps_properties s) (ps_viewNames s) (ps_listening s) c.

(** Any order of the elements *)
Class Enumeration (enumerate : gset dbid → list dbid) : Prop := enumerate_elements X : enumerate X ≡ₚ elements X.

Section packages.
Context (enumerate : gset dbid → list dbid) `{!Enumeration enumerate}.
Local Open Scope string_scope.
Notation M := (M PackageState).

(** A message to one of the databases *)
Definition sending {A} (db : dbid) (m : Prelude.M MPDatabase A) : M A := λ s,
  match ps_databases s !! db with
  | None => (Throw (Exception "EXC_BAD_ACCESS" "db"), s)
  | Some d => let '(r, d') := m d in (r, with_databases (<[db := d']> (ps_databases s)) s)
  end.

(** ** The databases *)

Definition databasesOf (controllers : list (mocid * dbid)) : gset dbid := list_to_set controllers.*2.

(* @src Feather/Sources/Database Packages/MPDatabasePackageController.m 699 709 -[MPDatabasePackageController databases] *)
Definition databases : M (gset dbid) :=
  controllers ← gets ps_controllers;
  match controllers with
  | None => throw (AssertionFailed "_managedObjectsControllers")
  | Some controllers => mret (databasesOf controllers)
  end.

(* @src Feather/Sources/Database Packages/MPDatabasePackageController.m 722 725 -[MPDatabasePackageController databaseNames] *)
Definition databaseNames : M (gset string) :=
  dbs ← databases;
  names ← map_each (enumerate dbs) (λ db, sending db (gets db_name));
  mret (list_to_set names).

(* @src Feather/Sources/Database Packages/MPDatabasePackageController.m 727 733 -[MPDatabasePackageController databasesByName] *)
Definition databasesByName : M (gmap string dbid) :=
  dbs ← databases;
  named ← map_each (enumerate dbs) (λ db, name ← sending db (gets db_name); mret (name, db));
  mret (foldl (λ dict nd, <[nd.1 := nd.2]> dict) ∅ named).

(** A key that no property has raises. *)
(* @src Feather/Sources/Database Packages/MPDatabasePackageController.m 740 748 -[MPDatabasePackageController databaseWithName:] *)
Definition databaseWithName (name : string) : M dbid :=
  names ← databaseNames;
  _ ← NSAssert (bool_decide (name ∈ names)) "Unexpected name";
  properties ← gets ps_properties;
  match properties !! (name ++ "Database") with
  | Some db => mret db
  | None => throw (AssertionFailed "Unexpected db key")
  end.

(** [primaryDatabaseName]: what the class of the package answers; the base class raises. *)
(* @src Feather/Sources/Database Packages/MPDatabasePackageController.m 754 759 -[MPDatabasePackageController primaryDatabase] *)
Definition primaryDatabase (primaryDatabaseName : res (option string)) : M dbid :=
  name ← lift primaryDatabaseName;
  properties ← gets ps_properties;
  match properties !! (default "(null)" name ++ "Database") with
  | Some db => mret db
  | None => throw (AssertionFailed "db")
  end.

(** [instanceVariable]: there is an instance variable of this name. *)
(* @src Feather/Sources/Database Packages/MPDatabasePackageController.m 1527 1539 -[MPDatabasePackageController setPrimaryDatabase:] *)
Definition setPrimaryDatabase (primaryDatabaseName : res (option string)) (instanceVariable : string → bool)
    (primary : option dbid) : M unit :=
  name ← lift primaryDatabaseName;
  match name with
  | Some _ => NSAssert (bool_decide (primary = None)) "!primaryDatabase"
  | None =>
      let ivarName := "_(null)Database" in
      _ ← NSAssert (instanceVariable ivarName) "primaryDatabaseIvar";
      modify (λ s, mkPackageState (ps_controllers s) (ps_databases s) (ps_snapshotsDatabase s)
                     (partial_alter (λ _, primary) "(null)Database" (ps_properties s))
                     (ps_viewNames s) (ps_listening s) (ps_closed s))
  end.

(** ** Controllers and views *)

(* @src Feather/Sources/Database Packages/MPDatabasePackageController.m 1483 1492 -[MPDatabasePackageController registerManagedObjectsController:] *)
Definition registerManagedObjectsController (moc : mocid) (db : dbid) : M unit :=
  controllers ← gets ps_controllers;
  let controllers := default [] controllers in
  _ ← modify (with_controllers (Some controllers));
  _ ← NSAssert (bool_decide (moc ∉ controllers.*1)) "![_managedObjectsControllers containsObject:moc]";
  modify (with_controllers (Some (controllers ++ [(moc, db)])%list)).

(* @src Feather/Sources/Database Packages/MPDatabasePackageController.m 1505 1509 -[MPDatabasePackageController registerViewName:] *)
Definition registerViewName (viewName : string) : M unit :=
  names ← gets ps_viewNames;
  match names with
  | None => mret tt
  | Some names =>
      _ ← NSAssert (bool_decide (viewName ∉ names)) "![_registeredViewNames containsObject:viewName]";
      modify (with_viewNames (Some ({[viewName]} ∪ names)))
  end.

(** ** Synchronisation *)

(** What a dictionary literal of errors does with [errDict[name] = err]: no error, no entry. *)
Definition reportError (name : string) (err : option NSError) (errDict : gmap string NSError) : gmap string NSError :=
  partial_alter (λ _, err) name errDict.

Fixpoint eachDatabase (m : Prelude.M MPDatabase outcome) (dbs : list dbid) (errDict : gmap string NSError)
    : M (gmap string NSError) :=
  match dbs with
  | [] => mret errDict
  | db :: dbs =>
      r ← sending db m;
      match r with
      | YES => eachDatabase m dbs errDict
      | NO err => name ← sending db (gets db_name); eachDatabase m dbs (reportError name err errDict)
      end
  end.

(** The methods of the database answer YES or raise. *)
Definition pushing : Prelude.M MPDatabase outcome := _ ← pushToRemote; mret YES.
Definition pulling : Prelude.M MPDatabase outcome := _ ← pullFromRemote; mret YES.
Definition synchronising : Prelude.M MPDatabase outcome :=
  ok ← syncWithRemote; mret (if (ok : bool) then YES else NO None).

(* @src Feather/Sources/Database Packages/MPDatabasePackageController.m 917 935 -[MPDatabasePackageController pushToRemoteWithErrorDictionary:] *)
Definition pushToRemoteWithErrorDictionary : M (bool * gmap string NSError) :=
  dbs ← databases;
  errDict ← eachDatabase pushing (enumerate dbs) ∅;
  mret (bool_decide (errDict = ∅), errDict).

(* @src Feather/Sources/Database Packages/MPDatabasePackageController.m 937 953 -[MPDatabasePackageController pullFromRemoteWithErrorDictionary:] *)
Definition pullFromRemoteWithErrorDictionary : M (gmap string NSError) :=
  dbs ← databases;
  eachDatabase pulling (enumerate dbs) ∅.

(** [synchronizesSnapshots]: what the class of the package answers *)
(* @src Feather/Sources/Database Packages/MPDatabasePackageController.m 955 976 -[MPDatabasePackageController syncWithRemote:] *)
Definition PKG_syncWithRemote (synchronizesSnapshots : bool) : M (bool * gmap string NSError) :=
  dbs ← databases;
  snapshots ← gets ps_snapshotsDatabase;
  errDict ← eachDatabase synchronising
              (List.filter (λ db, synchronizesSnapshots || negb (bool_decide (Some db = snapshots))) (enumerate dbs)) ∅;
  mret (bool_decide (errDict = ∅), errDict).

(** ** Compacting and checkpointing *)

(** The first failure ends the loop; [ordered]: the databases by name. *)
(* @src Feather/Sources/Database Packages/MPDatabasePackageController.m 978 986 -[MPDatabasePackageController compact:] *)
Fixpoint compact (compactDatabase : dbid → outcome) (ordered : list dbid) : outcome :=
  match ordered with
  | [] => YES
  | db :: ordered => if succeeded (compactDatabase db) then compact compactDatabase ordered else compactDatabase db
  end.

(* @src Feather/Sources/Database Packages/MPDatabasePackageController.m 1362 1371 -[MPDatabasePackageController checkpointDatabases:error:] *)
Fixpoint checkpointDatabases (checkpoint : dbid → outcome) (dbs : list dbid) : outcome :=
  match dbs with
  | [] => YES
  | db :: dbs => if succeeded (checkpoint db) then checkpointDatabases checkpoint dbs else checkpoint db
  end.

(** ** All that is in the package *)

(** [objectsOf], [metadataOf]: what the controllers and the databases answer *)
(* @src Feather/Sources/Database Packages/MPDatabasePackageController.m 988 1000 -[MPDatabasePackageController allObjects] *)
Definition PKG_allObjects (objectsOf : mocid → list oid) (metadataOf : dbid → oid) (ordered : gset dbid → list dbid)
    : M (list oid) :=
  controllers ← gets ps_controllers;
  dbs ← databases;
  mret (List.concat (map objectsOf (default [] controllers).*1) ++ map metadataOf (ordered dbs))%list.

(** [rows]: the documents the query lists, with their properties *)
(* @src Feather/Sources/Database Packages/MPDatabasePackageController.m 1453 1475 -[MPDatabasePackageController dictionaryRepresentation] *)
Definition PKG_dictionaryRepresentation (rows : dbid → list (option (list (string * value))))
    : M (gmap string (list (list (string * value)))) :=
  dbs ← databases;
  named ← map_each (enumerate dbs) (λ db, name ← sending db (gets db_name); mret (name, omap id (rows db)));
  mret (foldl (λ dict nd, <[nd.1 := nd.2]> dict) ∅ named).

(** ** Closing *)

(** [transactionLevel]: how many transactions are open on a database; [error]: the pointer
    to an error, [None] when it is null.  The result with what is at the pointer. *)
(* @src Feather/Sources/Database Packages/MPDatabasePackageController.m 773 811 -[MPDatabasePackageController close:] *)
Definition close (transactionLevel : dbid → Z) (error : option (option NSError)) : M (bool * option (option NSError)) :=
  dbs ← databases;
  let transactionLevelZero := forallb (λ db, negb (0 <? transactionLevel db)%Z) (enumerate dbs) in
  if negb transactionLevelZero then
    match error with
    | None => throw (Exception "EXC_BAD_ACCESS" "*error")
    | Some None => mret (false, Some None)
    | Some (Some _) => mret (false, Some (Some (packageError 8)))
    end
  else
    _ ← NSAssert (negb (bool_decide (dbs = ∅))) "databases.count > 0";
    _ ← modify (with_listening false);
    _ ← for_each (enumerate dbs) (λ db, modify (λ s, with_closed (ps_closed s ++ [db])%list s));
    mret (true, error).

(** [[controller close:&err]], where the controller may be [nil] *)
Definition tryClosing (controller : bool) (transactionLevel : dbid → Z) (err : option NSError)
    : M (bool * option (option NSError)) :=
  if controller then close transactionLevel (Some err) else mret (false, Some err).

(** The loop of the document's [close]: [levels] gives the open transactions at each try.
    How often it slept, and the error it has. *)
(* @src Feather/Sources/Model Controllers/MPDatabasePackageBackedDocument.m 109 112 (part) -[MPDatabasePackageBackedDocument close] *)
Fixpoint closeRetrying (limit : nat) (levels : nat → dbid → Z) (retries : nat) (controller : bool)
    (err : option NSError) : M (nat * option NSError) :=
  match limit with
  | O => mret (retries, err)
  | S limit =>
      r ← tryClosing controller (levels retries) err;
      let err := default None r.2 in
      if (r.1 : bool) then mret (retries, err) else closeRetrying limit levels (S retries) controller err
  end.
End packages.

(** ** Replicating all databases *)

(** A replication of the database can start: there is a remote database, and the filter
    of its pushes - which pulls ask for as well - has been defined. *)
Definition ready (d : MPDatabase) : bool :=
  bool_decide (is_Some (db_remoteDatabaseURL d)) &&
  match db_pushFilterName d with Some n => bool_decide (qualified d n ∈ db_filters d) | None => true end.

(** The database with a new one-off replication *)
Definition replicating (isPush : bool) (d : MPDatabase) : MPDatabase :=
  added isPush
    (if isPush then (if db_applyFilterWhenPushing d then qualified d <$> db_pushFilterName d else None)
     else (if db_applyFilterWhenPulling d then db_pullFilterName d else None)) d.

Lemma remote_run d :
  remoteDatabaseURL d = (match db_remoteDatabaseURL d with
                         | Some u => Ok u
                         | None => Throw (Exception "MPAbstractMethodException" "remoteDatabaseURLForLocalDatabase:")
                         end, d).
Proof. unfold remoteDatabaseURL. rewrite run_bind, run_gets. by destruct (db_remoteDatabaseURL d). Qed.

Lemma validate_ready d :
  match db_pushFilterName d with Some n => bool_decide (qualified d n ∈ db_filters d) | None => true end = true →
  validateFilters d = (Ok true, d).
Proof.
  unfold validateFilters. rewrite run_bind, run_gets. destruct (db_pushFilterName d) as [n|]; [|done].
  intros Hf. rewrite run_bind. unfold filterWithQualifiedName. by rewrite run_gets, Hf.
Qed.

Lemma validate_not_ready d :
  match db_pushFilterName d with Some n => bool_decide (qualified d n ∈ db_filters d) | None => true end = false →
  ∃ e, validateFilters d = (Throw e, d).
Proof.
  unfold validateFilters. rewrite run_bind, run_gets. destruct (db_pushFilterName d) as [n|]; [|done].
  intros Hf. rewrite run_bind. unfold filterWithQualifiedName. rewrite run_gets, Hf. by eexists.
Qed.

Lemma pushing_ready d : ready d = true → pushing d = (Ok YES, replicating true d).
Proof.
  intros [Hu Hf]%andb_true_iff. apply bool_decide_eq_true in Hu as [u Hu].
  unfold pushing, pushToRemote, pushToDatabaseAtURL. rewrite !run_bind, remote_run, Hu, run_bind, remote_run, Hu.
  rewrite run_bind, validate_ready by done. unfold replicating, createReplication, setContinuous, setFilter, qualifiedPushFilterName.
  rewrite run_bind, run_bind, run_modify, run_bind, run_gets, run_bind. cbn [db_applyFilterWhenPushing with_replications].
  destruct (db_applyFilterWhenPushing d); [rewrite run_bind, run_gets, run_modify|rewrite run_ret];
    rewrite !run_bind, !run_modify, run_bind, run_modify, run_ret, run_ret; f_equal;
    unfold added, with_replications; cbn; by rewrite !alter_insert_id.
Qed.

Lemma pulling_ready d : ready d = true → pulling d = (Ok YES, replicating false d).
Proof.
  intros [Hu Hf]%andb_true_iff. apply bool_decide_eq_true in Hu as [u Hu].
  unfold pulling, pullFromRemote, pullFromDatabaseAtURL. rewrite !run_bind, remote_run, Hu, run_bind, remote_run, Hu.
  rewrite run_bind, validate_ready by done. unfold replicating, createReplication, setContinuous, setFilter, qualifiedPullFilterName.
  rewrite run_bind, run_bind, run_modify, run_bind, run_gets, run_bind. cbn [db_applyFilterWhenPulling with_replications].
  destruct (db_applyFilterWhenPulling d); [rewrite run_bind, run_gets, run_modify|rewrite run_ret];
    rewrite !run_bind, !run_modify, run_ret, run_ret; f_equal;
    unfold added, with_replications; cbn; by rewrite !alter_insert_id.
Qed.

Lemma replicating_not_ready d : ready d = false → (∃ e, pushing d = (Throw e, d)) ∧ ∃ e, pulling d = (Throw e, d).
Proof.
  unfold pushing, pulling, pushToRemote, pullFromRemote, pushToDatabaseAtURL, pullFromDatabaseAtURL.
  rewrite !run_bind, remote_run. unfold ready. destruct (db_remoteDatabaseURL d) as [u|] eqn:Eu; [|by eauto].
  rewrite bool_decide_eq_true_2 by by eexists. cbn [andb]. intros [e He]%validate_not_ready.
  rewrite !run_bind, remote_run, Eu, !run_bind, He. eauto.
Qed.

Definition applied (f : MPDatabase → MPDatabase) (l : list dbid) (dbs : gmap dbid MPDatabase) : gmap dbid MPDatabase :=
  foldl (λ dbs db, alter f db dbs) dbs l.

Lemma applied_lookup f l dbs db :
  NoDup l → applied f l dbs !! db = if bool_decide (db ∈ l) then f <$> dbs !! db else dbs !! db.
Proof.
  revert dbs. induction l as [|x l IH]; intros dbs Hnd; [done|]. apply NoDup_cons in Hnd as [Hx Hnd].
  cbn [applied foldl]. fold (applied f l (alter f x dbs)). rewrite IH by done.
  destruct (decide (db = x)) as [->|Hne].
  - rewrite bool_decide_eq_false_2 by done. rewrite bool_decide_eq_true_2 by set_solver. by rewrite lookup_alter_eq.
  - rewrite lookup_alter_ne by done. by rewrite (bool_decide_ext (db ∈ x :: l) (db ∈ l)) by set_solver.
Qed.

Section each.
Context (m : M MPDatabase outcome) (f : MPDatabase → MPDatabase).
Hypothesis m_ready : ∀ d, ready d = true → m d = (Ok YES, f d).
Hypothesis m_not : ∀ d, ready d = false → ∃ e, m d = (Throw e, d).
Implicit Types s : PackageState.

(** The databases are gone through up to the first that is not ready. *)
Lemma each_run l errs s :
  NoDup l → (∀ db, db ∈ l → is_Some (ps_databases s !! db)) →
  ∃ k, (eachDatabase m l errs s).2 = with_databases (applied f (take k l) (ps_databases s)) s ∧
       (∀ db d, db ∈ take k l → ps_databases s !! db = Some d → ready d = true) ∧
       ((∀ db d, db ∈ l → ps_databases s !! db = Some d → ready d = true) →
        take k l = l ∧ (eachDatabase m l errs s).1 = Ok errs) ∧
       (is_ok (eachDatabase m l errs s).1 = true → take k l = l).
Proof.
  revert s. induction l as [|x l IH]; intros s Hnd Hl.
  { exists 0. split_and!; [by destruct s|set_solver|done|done]. }
  apply NoDup_cons in Hnd as [Hx Hnd]. destruct (Hl x ltac:(by left)) as [d Hd].
  cbn [eachDatabase]. rewrite !run_bind.
  assert (sending x m s = let '(r, d') := m d in (r, with_databases (<[x := d']> (ps_databases s)) s)) as ->.
  { unfold sending. by rewrite Hd. }
  destruct (ready d) eqn:Er.
  - rewrite (m_ready d Er). set (s1 := with_databases _ s).
    assert (∀ db, db ∈ l → ps_databases s1 !! db = ps_databases s !! db) as Hsame.
    { intros db Hdb. cbn. rewrite lookup_insert_ne; [done|]. intros ->. done. }
    destruct (IH s1 Hnd) as (k & Hrun & Hk & Hall & Hok).
    { intros db Hdb. rewrite Hsame by done. apply Hl. by right. }
    exists (S k). cbn [take]. split_and!.
    + rewrite Hrun. unfold applied. cbn [foldl].
      replace (alter f x (ps_databases s)) with (<[x := f d]> (ps_databases s)); [done|]. apply map_eq. intros i.
      rewrite lookup_insert, lookup_alter. by case_decide as Hi; [subst; rewrite Hd|].
    + intros db d' [->|Hdb]%elem_of_cons Hd'; [congruence|]. apply (Hk db); [done|].
      rewrite Hsame; [done|]. by apply elem_of_take in Hdb as (i & ? & _); eapply list_elem_of_lookup_2.
    + intros Hr. destruct Hall as [Ht Hres].
      { intros db d' Hdb Hd'. apply (Hr db); [by right|]. by rewrite <- Hsame. }
      split; [by rewrite Ht|exact Hres].
    + intros Hr. by rewrite (Hok Hr).
  - destruct (m_not d Er) as [e He]. rewrite He. exists 0. cbn [take applied foldl fst snd is_ok]. split_and!; [|set_solver| |done].
    + unfold with_databases. cbn. rewrite insert_id by done. by destruct s.
    + intros Hr. rewrite (Hr x d) in Er; [done|by left|done].
Qed.
End each.

(** One round of replications, in either direction, with what is reported of it *)
Definition replicateAll (enumerate : gset dbid → list dbid) (isPush : bool) : M PackageState (bool * gmap string NSError) :=
  if isPush then pushToRemoteWithErrorDictionary enumerate
  else errDict ← pullFromRemoteWithErrorDictionary enumerate; mret (bool_decide (errDict = ∅), errDict).

(** C23 (functional). Pushing or pulling a package starts one one-off replication, with its filter, for each
    database of its controllers - once, however many controllers share it - and reports
    success without errors, when every database has a remote one and its filter has been
    defined; otherwise it raises at a database that is not ready, and reports nothing:
    some of the others may have been started, none twice, and nothing else in the package
    has changed. *)
Theorem every_database_replicates enumerate (isPush : bool) s controllers :
  Enumeration enumerate → ps_controllers s = Some controllers →
  (∀ db, db ∈ databasesOf controllers → is_Some (ps_databases s !! db)) →
  let '(r, s') := replicateAll enumerate isPush s in
  s' = with_databases (ps_databases s') s ∧
  (∀ db d, ps_databases s !! db = Some d →
     ps_databases s' !! db = Some d ∨
     db ∈ databasesOf controllers ∧ ready d = true ∧ ps_databases s' !! db = Some (replicating isPush d)) ∧
  (is_ok r = true ↔ ∀ db d, db ∈ databasesOf controllers → ps_databases s !! db = Some d → ready d = true) ∧
  (∀ x, r = Ok x → x = (true, ∅) ∧
     ∀ db d, db ∈ databasesOf controllers → ps_databases s !! db = Some d →
             ps_databases s' !! db = Some (replicating isPush d)).
Proof.
  intros Henum Hc Hdb. pose proof (Henum : ∀ X, enumerate X ≡ₚ elements X) as He. set (l := enumerate (databasesOf controllers)).
  assert (∀ db, db ∈ l ↔ db ∈ databasesOf controllers) as Hl.
  { intros db. unfold l. by rewrite He, elem_of_elements. }
  assert (NoDup l) as Hnd. { unfold l. rewrite He. apply NoDup_elements. }
  set (m := if isPush then pushing else pulling).
  assert (replicateAll enumerate isPush s =
          (errs ← eachDatabase m l ∅; mret (bool_decide (errs = ∅), errs)) s) as ->.
  { unfold replicateAll, m, pushToRemoteWithErrorDictionary, pullFromRemoteWithErrorDictionary, databases.
    destruct isPush; by rewrite !run_bind, run_gets, Hc, run_ret. }
  destruct (each_run m (replicating isPush)) with (l := l) (errs := (∅ : gmap string NSError)) (s := s)
    as (k & Hrun & Hk & Hall & Hok); [..|done|by intros db ?%Hl; auto|].
  { destruct isPush; [apply pushing_ready|apply pulling_ready]. }
  { intros d Hd. destruct (replicating_not_ready d Hd). by destruct isPush. }
  rewrite run_bind. destruct (eachDatabase m l ∅ s) as [r s'] eqn:E. cbn [fst snd] in *. subst s'.
  assert (∀ db, applied (replicating isPush) (take k l) (ps_databases s) !! db =
    if bool_decide (db ∈ take k l) then replicating isPush <$> ps_databases s !! db else ps_databases s !! db) as Hlook.
  { intros db. apply applied_lookup. rewrite <- (take_drop k l) in Hnd. by apply NoDup_app in Hnd as [? _]. }
  assert (∀ x, r = Ok x → x = ∅ ∧ take k l = l) as Hokx.
  { intros x ->. specialize (Hok eq_refl). destruct Hall as [_ [= ->]]; [|done].
    intros db d Hin. apply Hk. by rewrite Hok. }
  match goal with |- let '(r', s') := ?e in _ => assert (e.2 = with_databases (applied (replicating isPush) (take k l) (ps_databases s)) s ∧
    is_ok e.1 = is_ok r ∧ ∀ x, e.1 = Ok x → ∃ y, r = Ok y ∧ x = (bool_decide (y = ∅), y)) as (Hs & Hr & Hx);
    [destruct r; (split; [reflexivity|split; [reflexivity|intros x Hxx; inversion Hxx; subst; by eexists]])|destruct e as [rr ss]] end.
  cbn [fst snd] in Hs, Hr, Hx. subst ss. rewrite Hr. split_and!.
  - done.
  - intros db d Hd. cbn. rewrite Hlook. case_bool_decide as Hin; [|by left]. right. rewrite Hd.
    split_and!; [|by eapply Hk|done]. apply Hl. by apply elem_of_take in Hin as (i & ? & _); eapply list_elem_of_lookup_2.
  - split.
    + intros Hr' db d Hin%Hl Hd. apply (Hk db); [|done]. by rewrite (Hok Hr').
    + intros H. destruct Hall as [_ ->]; [|done]. intros db d Hin%Hl. by apply H.
  - intros x Hx'. destruct (Hx x Hx') as (y & Hy & ->). destruct (Hokx y Hy) as [-> Ht]. split; [done|].
    intros db d Hin%Hl Hd. cbn. rewrite Hlook, Ht, bool_decide_eq_true_2 by done. by rewrite Hd.
Qed.

(** ** Closing *)
Section closing.
Context (enumerate : gset dbid → list dbid) `{!Enumeration enumerate}.
Implicit Types s : PackageState.

Definition ongoing (levels : dbid → Z) (dbs : gset dbid) : bool := existsb (λ db, 0 <? levels db)%Z (elements dbs).

Definition closedState (dbs : gset dbid) s : PackageState :=
  with_closed (ps_closed s ++ enumerate dbs) (with_listening false s).

Lemma closeServers_run l s :
  for_each l (λ db, modify (λ s, with_closed (ps_closed s ++ [db]) s)) s = (Ok tt, with_closed (ps_closed s ++ l) s).
Proof.
  revert s. induction l as [|x l IH]; intros s; cbn [for_each].
  - rewrite app_nil_r. by destruct s.
  - rewrite run_bind, run_modify, IH. unfold with_closed. cbn. by rewrite <- app_assoc.
Qed.

Lemma forallb_enumerate levels dbs :
  forallb (λ db, negb (0 <? levels db)%Z) (enumerate dbs) = negb (ongoing levels dbs).
Proof.
  unfold ongoing. destruct (existsb _ (elements dbs)) eqn:E; cbn [negb].
  - apply existsb_exists in E as (db & Hin & Hdb). apply not_true_is_false. rewrite forallb_forall. intros H.
    specialize (H db). rewrite Hdb in H. discriminate H. rewrite <- list_elem_of_In in *. by rewrite enumerate_elements.
  - rewrite forallb_forall. intros db Hin. apply negb_true_iff. apply not_true_is_false. intros Hdb.
    apply not_true_iff_false in E. apply E, existsb_exists. exists db. split; [|done].
    rewrite <- list_elem_of_In in *. by rewrite enumerate_elements in Hin.
Qed.

Lemma close_run levels err s controllers :
  ps_controllers s = Some controllers → databasesOf controllers ≠ ∅ →
  close enumerate levels (Some err) s =
  if ongoing levels (databasesOf controllers)
  then (Ok (false, Some (match err with None => None | Some _ => Some (packageError 8) end)), s)
  else (Ok (true, Some err), closedState (databasesOf controllers) s).
Proof.
  intros Hc Hne. unfold close, databases. rewrite !run_bind, run_gets, Hc, run_ret, forallb_enumerate, negb_involutive.
  destruct (ongoing _ _); [by destruct err|]. rewrite run_bind, run_NSAssert, bool_decide_eq_false_2 by done.
  cbn [negb]. by rewrite run_bind, run_modify, run_bind, closeServers_run.
Qed.

Lemma closeRetrying_run limit levels s controllers retries :
  ps_controllers s = Some controllers → databasesOf controllers ≠ ∅ →
  let busy n := ongoing (levels n) (databasesOf controllers) in
  (∃ n, retries ≤ n < retries + limit ∧ busy n = false ∧ (∀ i, retries ≤ i < n → busy i = true) ∧
        closeRetrying enumerate limit levels retries true None s = (Ok (n, None), closedState (databasesOf controllers) s))
  ∨ (∀ n, retries ≤ n < retries + limit → busy n = true) ∧
    closeRetrying enumerate limit levels retries true None s = (Ok (retries + limit, None), s).
Proof.
  intros Hc Hne busy. revert retries. induction limit as [|limit IH]; intros retries; cbn [closeRetrying].
  { right. split; [lia|]. by rewrite Nat.add_0_r. }
  rewrite run_bind. unfold tryClosing. rewrite (close_run _ _ _ controllers) by done.
  fold (busy retries). destruct (busy retries) eqn:E; cbn [fst snd from_option id].
  - destruct (IH (S retries)) as [(n & Hn & Hb & Hi & Hrun)|[Hb Hrun]].
    + left. exists n. split_and!; [lia|lia|done| |done]. intros i Hin. destruct (decide (i = retries)) as [->|]; [done|].
      apply Hi. lia.
    + right. split; [|rewrite Hrun; f_equal; do 2 f_equal; lia]. intros n Hn.
      destruct (decide (n = retries)) as [->|]; [done|]. apply Hb. lia.
  - left. exists retries. split_and!; [lia|lia|done|lia|done].
Qed.

Lemma closeRetrying_nil limit levels s retries :
  closeRetrying enumerate limit levels retries false None s = (Ok (retries + limit, None), s).
Proof.
  revert retries. induction limit as [|limit IH]; intros retries; cbn [closeRetrying]; [by rewrite Nat.add_0_r|].
  rewrite run_bind. cbn. rewrite IH. do 3 f_equal. lia.
Qed.
End closing.

(** C24 (functional). Closing a document tries to close its package until none of the package's databases has an open
    transaction, [limit] times at most and sleeping after each try that failed: the
    listener is stopped and the server of each database closed once, at the first such
    try, or nothing has changed after [limit] sleeps.  Either way no error is reported:
    the pointer the errors go through is looked at before it is written.  A document
    without a package sleeps [limit] times as well. *)
Theorem closing_a_document enumerate (limit : nat) levels s controllers :
  Enumeration enumerate → ps_controllers s = Some controllers → controllers ≠ [] →
  let busy n := ongoing (levels n) (databasesOf controllers) in
  ((∃ n, n < limit ∧ busy n = false ∧ (∀ i, i < n → busy i = true) ∧
         closeRetrying enumerate limit levels 0 true None s = (Ok (n, None), closedState enumerate (databasesOf controllers) s) ∧
         enumerate (databasesOf controllers) ≡ₚ elements (databasesOf controllers))
   ∨ (∀ n, n < limit → busy n = true) ∧ closeRetrying enumerate limit levels 0 true None s = (Ok (limit, None), s)) ∧
  closeRetrying enumerate limit levels 0 false None s = (Ok (limit, None), s).
Proof.
  intros Henum Hc Hne busy. split.
  - destruct (closeRetrying_run enumerate limit levels s controllers 0 Hc) as [(n & Hn & Hb & Hi & Hrun)|[Hb Hrun]].
    { destruct controllers as [|[moc db] controllers]; [done|]. unfold databasesOf. set_solver. }
    + left. exists n. split_and!; [lia|done|intros i Hin; apply Hi; lia|done|by apply enumerate_elements].
    + right. split; [|done]. intros n Hn. apply Hb. lia.
  - apply (closeRetrying_nil enumerate limit levels s 0).
Qed.

(** ** A package with two databases and three controllers *)
Section witnesses.
Local Open Scope string_scope.

#[local] Instance elements_enumeration : Enumeration elements.
Proof. by intros X. Qed.

Definition snapshots0 : MPDatabase :=
  mkDatabase "snapshots" None None ∅ (Some "https://example.org/snapshots") true true ∅ ∅ ∅ ∅ [] 1%positive.
Definition package0 : PackageState :=
  mkPackageState (Some [(1%positive, 1%positive); (2%positive, 1%positive); (3%positive, 2%positive)])
    (<[1%positive := db0]> (<[2%positive := snapshots0]> ∅)) (Some 2%positive)
    (<["manuscriptDatabase" := 1%positive]> ∅) (Some ∅) true [].

Lemma package0_databases db :
  db ∈ databasesOf [(1%positive, 1%positive); (2%positive, 1%positive); (3%positive, 2%positive)] →
  db = 1%positive ∨ db = 2%positive.
Proof. unfold databasesOf. cbn. set_solver. Qed.

(** Of a database whose package cannot create the remote one - none can, in the framework -
    nothing is synchronised. *)
Example synchronising_raises :
  (PKG_syncWithRemote elements false package0).1 = Throw (Exception "MPAbstractMethodException" "ensureRemoteDatabaseCreated:") ∧
  (PKG_syncWithRemote elements false (with_controllers (Some [(3%positive, 2%positive)]) package0)).1 = Ok (true, ∅).
Proof. split; vm_compute; reflexivity. Qed.

(** A primary database can be set by no package that has one. *)
Example primary_database_cannot_be_set :
  (setPrimaryDatabase (Ok (Some "manuscript")) (λ _, true) (Some 1%positive) package0).1 = Throw (AssertionFailed "!primaryDatabase").
Proof. reflexivity. Qed.
End witnesses.

Lemma every_database_replicates_witness :
  is_ok (replicateAll elements true package0).1 = true ∧
  ps_databases (replicateAll elements true package0).2 !! 2%positive = Some (replicating true snapshots0).
Proof.
  pose proof (every_database_replicates elements true package0 _ elements_enumeration eq_refl) as H.
  destruct (replicateAll elements true package0) as [r s']. destruct H as (_ & _ & Hr & Hx).
  { intros db [->| ->]%package0_databases; by eexists. }
  assert (is_ok r = true) as Hok.
  { apply Hr. intros db d [->| ->]%package0_databases [= <-]; reflexivity. }
  split; [done|]. destruct r as [x|]; [|done]. apply (Hx x eq_refl); [unfold databasesOf; set_solver|reflexivity].
Defined.

Lemma closing_a_document_witness :
  closeRetrying elements 60 (λ n db, if Nat.ltb n 3 then 1 else 0)%Z 0 true None package0 =
  (Ok (3, None), closedState elements (databasesOf [(1%positive, 1%positive); (2%positive, 1%positive); (3%positive, 2%positive)]) package0).
Proof.
  destruct (closing_a_document elements 60 (λ n db, if Nat.ltb n 3 then 1 else 0)%Z package0 _ elements_enumeration eq_refl)
    as [[(n & Hn & Hb & Hi & Hrun & _)|[Hb _]] _]; [discriminate| |].
  - rewrite Hrun. assert (n = 3) as ->; [|reflexivity].
    destruct (decide (n < 3)) as [Hlt|Hge].
    + do 3 (destruct n as [|n]; [discriminate Hb|]). lia.
    + destruct (decide (n = 3)) as [|Hne]; [done|]. assert (3 < n) as H3 by lia. specialize (Hi 3 H3). discriminate Hi.
  - specialize (Hb 3 ltac:(lia)). discriminate Hb.
Defined.
