(* ===== verification/Document.v ===== *)
(** * Documents backed by a package

    The life of a document (Model Controllers/MPDatabasePackageBackedDocument.m): its
    working copy in the temporary directory, the package controller opened on it the
    first time it is asked for, saving the working copy elsewhere, and closing.  Files are
    those of PackageFiles.v, the package is that of Packages.v; opening it is what the
    application's package controller class does ([openPackage]), permission masks are
    those of FileManager.v.  What AppKit does with a document is not looked at. *)
From stdpp Require Import base tactics strings numbers list gmap.
From S2P Require Import Prelude ObjC Database PackageFiles Packages.

(* @src Feather/Sources/Model Controllers/MPDatabasePackageBackedDocument.h 17 21 MPDatabasePackageBackedDocumentErrorCode *)
Inductive MPDatabasePackageBackedDocumentErrorCode : Type :=
  | DocumentErrorCodeUnknown
  | DocumentErrorCodeWorkingPathMissing
  | DocumentErrorCodePackageAccessFailed.

Definition documentErrorCode (c : MPDatabasePackageBackedDocumentErrorCode) : Z :=
  match c with
  | DocumentErrorCodeUnknown => 0
  | DocumentErrorCodeWorkingPathMissing => 1
  | DocumentErrorCodePackageAccessFailed => 2
  end.
Definition documentError (c : MPDatabasePackageBackedDocumentErrorCode) : NSError :=
  {| err_domain := "MPDatabasePackageBackedDocumentErrorDomain"; err_code := documentErrorCode c |}.

Record DocumentState : Type := mkDocument {
  d_fs : FS;
  d_bundleRequiresInitialization : bool;
  d_bundleInitialized : bool;
  d_temporaryManuscriptPath : option (list string);
  d_temporaryManuscriptMetadataDirectoryPath : option (list string);
  d_packageController : option PackageState;
  d_packageAccessError : option NSError;
  d_resourcesCleaned : bool;
  d_originalBundleFileURL : option (list string);
  (** registrations for [NSApplicationWillTerminateNotification] *)
  d_observing : nat
}.

Definition d_with_fs fs d := mkDocument fs (d_bundleRequiresInitialization d) (d_bundleInitialized d)
  (d_temporaryManuscriptPath d) (d_temporaryManuscriptMetadataDirectoryPath d) (d_packageController d)
  (d_packageAccessError d) (d_resourcesCleaned d) (d_originalBundleFileURL d) (d_observing d).
Definition d_with_requires b d := mkDocument (d_fs d) b (d_bundleInitialized d)
  (d_temporaryManuscriptPath d) (d_temporaryManuscriptMetadataDirectoryPath d) (d_packageController d)
  (d_packageAccessError d) (d_resourcesCleaned d) (d_originalBundleFileURL d) (d_observing d).
Definition d_with_initialized d := mkDocument (d_fs d) false true
  (d_temporaryManuscriptPath d) (d_temporaryManuscriptMetadataDirectoryPath d) (d_packageController d)
  (d_packageAccessError d) (d_resourcesCleaned d) (d_originalBundleFileURL d) (S (d_observing d)).
Definition d_with_path p d := mkDocument (d_fs d) (d_bundleRequiresInitialization d) (d_bundleInitialized d)
  p (d_temporaryManuscriptMetadataDirectoryPath d) (d_packageController d)
  (d_packageAccessError d) (d_resourcesCleaned d) (d_originalBundleFileURL d) (d_observing d).
Definition d_with_metadataPath p d := mkDocument (d_fs d) (d_bundleRequiresInitialization d) (d_bundleInitialized d)
  (d_temporaryManuscriptPath d) p (d_packageController d)
  (d_packageAccessError d) (d_resourcesCleaned d) (d_originalBundleFileURL d) (d_observing d).
Definition d_with_controller c d := mkDocument (d_fs d) (d_bundleRequiresInitialization d) (d_bundleInitialized d)
  (d_temporaryManuscriptPath d) (d_temporaryManuscriptMetadataDirectoryPath d) c
  (d_packageAccessError d) (d_resourcesCleaned d) (d_originalBundleFileURL d) (d_observing d).
Definition d_with_accessError e d := mkDocument (d_fs d) (d_bundleRequiresInitialization d) (d_bundleInitialized d)
  (d_temporaryManuscriptPath d) (d_temporaryManuscriptMetadataDirectoryPath d) (d_packageController d)
  e (d_resourcesCleaned d) (d_originalBundleFileURL d) (d_observing d).
Definition d_with_cleaned d := mkDocument (d_fs d) (d_bundleRequiresInitialization d) (d_bundleInitialized d)
  None (d_temporaryManuscriptMetadataDirectoryPath d) (d_packageController d)
  (d_packageAccessError d) true (d_originalBundleFileURL d) (d_observing d).
Definition d_with_original p d := mkDocument (d_fs d) (d_bundleRequiresInitialization d) (d_bundleInitialized d)
  (d_temporaryManuscriptPath d) (d_temporaryManuscriptMetadataDirectoryPath d) (d_packageController d)
  (d_packageAccessError d) (d_resourcesCleaned d) p (d_observing d).

Section documents.
Context (ioError : fsop → list string → option NSError) (noSuchFile fileExists notADirectory : NSError).
(** [NSTemporaryDirectory()], and the string of the UUID made for this document *)
Context (temporaryDirectory : list string) (UUIDString : string).
(** What the application's subclass answers: [packageAccessDenied], whether the original is
    copied, the package it opens on a path, and what it does to the package it opened *)
Context (packageAccessDenied : bool) (requiresCopying : list string → bool).
Context (openPackage : list string → M FS (outcome * PackageState)).
Context (initializePackageController : PackageState → bool * option NSError).
(** Granting permissions to a path, in all of a directory or to it alone *)
Context (grant : Z → bool → list string → outcome).
(** What the package writes when it is saved *)
Context (manifest : PackageState → list Z) (dictionary : PackageState → NSError + list Z)
        (orderedDatabases : PackageState → list string) (checkpoint : PackageState → string → outcome).
Context (enumerate : gset dbid → list dbid).
Notation M := (M DocumentState).

Definition onFileSystem {A} (m : Prelude.M FS A) : M A := λ d,
  let '(r, fs) := m (d_fs d) in (r, d_with_fs fs d).

Definition temporaryPath : list string := temporaryDirectory ++ [UUIDString; "untitled.manuscript"%string].

(* @src Feather/Sources/Model Controllers/MPDatabasePackageBackedDocument.m 55 81 -[MPDatabasePackageBackedDocument initializeStateCreatingDirectoryTree:error:] *)
Definition initializeStateCreatingDirectoryTree (create : bool) : M outcome :=
  _ ← NSAssert (negb packageAccessDenied) "!self.packageAccessDenied";
  initialized ← gets d_bundleInitialized;
  if (initialized : bool) then mret YES
  else
    path ← gets d_temporaryManuscriptPath;
    let path := default temporaryPath path in
    _ ← modify (d_with_path (Some path));
    created ← (if create then onFileSystem (createDirectory ioError notADirectory path) else mret YES);
    if negb (succeeded created) then mret created
    else _ ← modify d_with_initialized; mret YES.

(** Reading a document; [NO]: the result is [nil]. *)
(* @src Feather/Sources/Model Controllers/MPDatabasePackageBackedDocument.m 27 41 -[MPDatabasePackageBackedDocument init] *)
Definition document_init : M bool :=
  if packageAccessDenied then mret true
  else
    ok ← initializeStateCreatingDirectoryTree false;
    match ok with
    | YES => mret true
    | NO err => _ ← NSAssert (bool_decide (is_Some err)) "ERROR"; mret false
    end.

(** Making a document *)
(* @src Feather/Sources/Model Controllers/MPDatabasePackageBackedDocument.m 43 53 -[MPDatabasePackageBackedDocument initWithType:error:] *)
Definition initWithType : M unit := modify (d_with_requires true).

(* @src Feather/Sources/Model Controllers/MPDatabasePackageBackedDocument.m 83 93 -[MPDatabasePackageBackedDocument setBundleRequiresInitialization:] *)
Definition setBundleRequiresInitialization (b : bool) : M unit :=
  requires ← gets d_bundleRequiresInitialization;
  if Bool.eqb requires b then mret tt else modify (d_with_requires b).

(** An error of the removal is logged only. *)
(* @src Feather/Sources/Model Controllers/MPDatabasePackageBackedDocument.m 121 142 -[MPDatabasePackageBackedDocument cleanUpTemporaryFiles] *)
Definition cleanUpTemporaryFiles : M unit :=
  path ← gets d_temporaryManuscriptPath;
  match path with
  | None => mret tt
  | Some path =>
      there ← onFileSystem (fileExistsAtPath path);
      _ ← (match there with
           | Some _ => _ ← onFileSystem (removeItem ioError noSuchFile path); mret tt
           | None => mret tt
           end);
      modify d_with_cleaned
  end.

(** [levels]: the transactions open on the package's databases at each try.  How often it slept. *)
Definition closeController (limit : nat) (levels : nat → dbid → Z) : M nat := λ d,
  let s := default (mkPackageState None ∅ None ∅ None false []) (d_packageController d) in
  let '(r, s') := closeRetrying enumerate limit levels 0 (bool_decide (is_Some (d_packageController d))) None s in
  (match r with Ok (n, _) => Ok n | Throw e => Throw e end,
   d_with_controller (match d_packageController d with Some _ => Some s' | None => None end) d).

(* @src Feather/Sources/Model Controllers/MPDatabasePackageBackedDocument.m 102 119 -[MPDatabasePackageBackedDocument close] *)
Definition document_close (levels : nat → dbid → Z) : M nat :=
  retries ← closeController 60 levels;
  _ ← modify (d_with_controller None);
  _ ← cleanUpTemporaryFiles;
  mret retries.

(* @src Feather/Sources/Model Controllers/MPDatabasePackageBackedDocument.m 144 161 -[MPDatabasePackageBackedDocument applicationWillTerminate:] *)
Definition applicationWillTerminate (levels : nat → dbid → Z) : M nat :=
  controller ← gets d_packageController;
  retries ← (match controller with
             | Some _ => n ← closeController 20 levels; _ ← modify (d_with_controller None); mret n
             | None => mret 0
             end);
  _ ← cleanUpTemporaryFiles;
  mret retries.

(** [createDirectoryAtPath:withIntermediateDirectories:NO ...] *)
Definition createDirectoryAt (p : list string) : Prelude.M FS outcome :=
  match ioError OpCreate p with
  | Some e => mret (NO (Some e))
  | None =>
      fs ← gets id;
      match fs !! p, fs !! removelast p with
      | Some _, _ => mret (NO (Some fileExists))
      | None, Some Directory => _ ← modify (<[p := Directory]>); mret YES
      | None, Some (File _) => mret (NO (Some notADirectory))
      | None, None => mret (NO (Some noSuchFile))
      end
  end.

(* @src Feather/Sources/Model Controllers/MPDatabasePackageBackedDocument.m 172 198 -[MPDatabasePackageBackedDocument initializeManuscriptMetadataDirectoryCreatingDirectory:error:] *)
Definition initializeManuscriptMetadataDirectory (create : bool) : M outcome :=
  metadata ← gets d_temporaryManuscriptMetadataDirectoryPath;
  path ← gets d_temporaryManuscriptPath;
  _ ← (match metadata, path with
       | Some _, _ => mret tt
       | None, Some path => modify (d_with_metadataPath (Some (path ++ ["metadata"%string])))
       | None, None => throw (AssertionFailed "temporaryManuscriptPath should be initialized")
       end);
  metadata ← gets d_temporaryManuscriptMetadataDirectoryPath;
  there ← (match path with Some path => onFileSystem (fileExistsAtPath path) | None => mret None end);
  match create, there, metadata with
  | true, Some _, Some metadata =>
      already ← onFileSystem (fileExistsAtPath metadata);
      (match already with
       | Some _ => mret YES
       | None => onFileSystem (createDirectoryAt metadata)
       end)
  | _, _, _ => mret YES
  end.

(** A failure that is kept as [packageAccessError]: the result is [nil]. *)
Definition accessFailed (err : option NSError) : M (option PackageState) :=
  _ ← modify (d_with_accessError err); mret None.

(** The permissions of the working copy are granted and the package opened on it. *)
(* @src Feather/Sources/Model Controllers/MPDatabasePackageBackedDocument.m 290 345 -[MPDatabasePackageBackedDocument packageController] (part) *)
Definition openWorkingCopy (path : list string) : M (option PackageState) :=
  there ← onFileSystem (fileExistsAtPath path);
  let readWrite := match there with Some _ => grant 384 true path | None => YES end in
  match readWrite with
  | NO err => accessFailed err
  | YES =>
      let execute := match there with Some true => grant 64 false path | _ => YES end in
      match execute with
      | NO _ => mret None
      | YES =>
          opened ← onFileSystem (openPackage path);
          match opened with
          | (NO err, _) => accessFailed err
          | (YES, controller) =>
              _ ← modify (d_with_controller (Some controller));
              _ ← modify (d_with_accessError None);
              let (valid, err) := initializePackageController controller in
              _ ← (if (valid : bool) then modify (d_with_accessError err) else mret tt);
              mret (Some controller)
          end
      end
  end.

(** The original is copied to the temporary path, if there is nothing there yet. *)
(* @src Feather/Sources/Model Controllers/MPDatabasePackageBackedDocument.m 231 268 -[MPDatabasePackageBackedDocument packageController] (part) *)
Definition makeWorkingCopy (path : list string) : M outcome :=
  there ← onFileSystem (fileExistsAtPath path);
  ready ← (match there with
           | None => onFileSystem (createDirectory ioError notADirectory (removelast path))
           | Some isDirectory => _ ← NSAssert isDirectory "Expecting a directory"; mret YES
           end);
  match ready with
  | NO err => mret (NO err)
  | YES =>
      original ← gets d_originalBundleFileURL;
      match original with
      | None => mret YES
      | Some original =>
          there ← onFileSystem (fileExistsAtPath path);
          if requiresCopying original && bool_decide (there = None) then
            copied ← onFileSystem (copyItem ioError noSuchFile fileExists (λ _, true) original path);
            match copied with
            | NO err => mret (NO err)
            | YES => _ ← initializeManuscriptMetadataDirectory true; mret YES
            end
          else mret YES
      end
  end.

(** The initialisations still required, then the package *)
(* @src Feather/Sources/Model Controllers/MPDatabasePackageBackedDocument.m 271 289 -[MPDatabasePackageBackedDocument packageController] (part) *)
Definition initializeAndOpen (path : list string) : M (option PackageState) :=
  requiredInitialization ← gets d_bundleRequiresInitialization;
  initialized ← (if (requiredInitialization : bool) then initializeStateCreatingDirectoryTree true else mret YES);
  match initialized with
  | NO err => accessFailed err
  | YES =>
      metadata ← initializeManuscriptMetadataDirectory requiredInitialization;
      match metadata with
      | NO err => accessFailed err
      | YES => openWorkingCopy path
      end
  end.

(** [Some err]: the document could not be initialised. *)
(* @src Feather/Sources/Model Controllers/MPDatabasePackageBackedDocument.m 211 225 -[MPDatabasePackageBackedDocument packageController] (part) *)
Definition ensureTemporaryPath : M outcome :=
  requires ← gets d_bundleRequiresInitialization;
  path ← gets d_temporaryManuscriptPath;
  if (requires : bool) && bool_decide (path = None) then initializeStateCreatingDirectoryTree true
  else
    cleaned ← gets d_resourcesCleaned;
    _ ← (if (cleaned : bool) then mret tt else NSAssert (bool_decide (is_Some path)) "Unexpected state");
    mret YES.

(* @src Feather/Sources/Model Controllers/MPDatabasePackageBackedDocument.m 204 345 -[MPDatabasePackageBackedDocument packageController] *)
Definition document_packageController : M (option PackageState) :=
  controller ← gets d_packageController;
  match controller with
  | Some controller => mret (Some controller)
  | None =>
      ensured ← ensureTemporaryPath;
      match ensured with
      | NO err => accessFailed err
      | YES =>
          cleaned ← gets d_resourcesCleaned;
          if (cleaned : bool) then mret None
          else
            path ← gets d_temporaryManuscriptPath;
            match path with
            | None => throw (AssertionFailed "temporaryManuscriptPath should be set")
            | Some path =>
                copied ← makeWorkingCopy path;
                match copied with
                | NO err => accessFailed err
                | YES => initializeAndOpen path
                end
            end
      end
  end.

(** [success]: what [NSDocument] makes of reading *)
(* @src Feather/Sources/Model Controllers/MPDatabasePackageBackedDocument.m 379 382 -[MPDatabasePackageBackedDocument readFromURL:ofType:error:] *)
Definition document_readFromURL (absoluteURL : list string) (success : outcome) : M outcome :=
  _ ← modify (d_with_original (Some absoluteURL)); mret success.

(** The package of a document that is written has to be open; the error if it is not. *)
(* @src Feather/Sources/Model Controllers/MPDatabasePackageBackedDocument.m 419 441 -[MPDatabasePackageBackedDocument writeToURL:ofType:error:] (part) *)
Definition ensurePackage : M outcome :=
  controller ← gets d_packageController;
  match controller with
  | Some _ => mret YES
  | None =>
      _ ← modify (d_with_requires true);
      opened ← document_packageController;
      match opened with
      | None =>
          err ← gets d_packageAccessError;
          match err with
          | Some _ => mret (NO (Some (documentError DocumentErrorCodePackageAccessFailed)))
          | None => throw (AssertionFailed "Package access error should be set")
          end
      | Some _ =>
          path ← gets d_temporaryManuscriptPath;
          metadata ← gets d_temporaryManuscriptMetadataDirectoryPath;
          fs ← gets d_fs;
          let exists_ p := match p with Some p => bool_decide (is_Some (fs !! p)) | None => false end in
          _ ← NSAssert (exists_ path) "[fm fileExistsAtPath:_temporaryManuscriptPath]";
          _ ← NSAssert (exists_ metadata) "[fm fileExistsAtPath:_temporaryManuscriptMetadataDirectoryPath]";
          mret YES
      end
  end.

(* @src Feather/Sources/Model Controllers/MPDatabasePackageBackedDocument.m 384 442 -[MPDatabasePackageBackedDocument writeToURL:ofType:error:] *)
Definition document_writeToURL (absoluteURL : list string) : M outcome :=
  accessError ← gets d_packageAccessError;
  path ← gets d_temporaryManuscriptPath;
  match accessError, path with
  | Some err, _ => mret (NO (Some err))
  | None, None => mret (NO (Some (documentError DocumentErrorCodeWorkingPathMissing)))
  | None, Some path =>
      ensured ← ensurePackage;
      match ensured with
      | NO err => mret (NO err)
      | YES =>
          controller ← gets d_packageController;
          match controller with
          | None => mret (NO None)
          | Some controller =>
              onFileSystem (saveToURL ioError noSuchFile fileExists path (orderedDatabases controller)
                              (manifest controller) (dictionary controller) (checkpoint controller) absoluteURL)
          end
      end
  end.
End documents.

(** Opening a package works in its directory, and leaves the files alone that are not
    [touched]. *)
Class OpeningLaws (openPackage : list string → M FS (outcome * PackageState)) (touched : list string → bool) : Prop := {
  opening_outside p q fs : strip p q = None → (openPackage p fs).2 !! q = fs !! q;
  opening_untouched p s fs : touched s = false → (openPackage p fs).2 !! (p ++ s) = fs !! (p ++ s)
}.

(** ** What happens to a path *)
Section frames.
Context (q : list string) (o : option entry).
Implicit Types fs : FS.

(** The file system has [o] at [q]. *)
Notation at_q := (λ fs : FS, fs !! q = o).

Context (ioError : fsop → list string → option NSError) (noSuchFile fileExists notADirectory : NSError).

Lemma frame_exists p : steps (keeping at_q) (fileExistsAtPath p).
Proof. apply steps_gets. apply _. Qed.

Lemma frame_remove p : strip p q = None → steps (keeping at_q) (removeItem ioError noSuchFile p).
Proof.
  intros Hq fs Ho. unfold removeItem. destruct (ioError OpRemove p); [done|]. rewrite run_bind, run_gets. cbn [id].
  destruct (fs !! p); [|done]. rewrite run_bind, run_modify. cbn. by rewrite removed_else.
Qed.

Lemma frame_create p :
  (is_Some o ∨ ∀ s, p ≠ q ++ s) → steps (keeping at_q) (createDirectory ioError notADirectory p).
Proof.
  intros Hq fs Ho. unfold createDirectory. destruct (ioError OpCreate p); [done|]. rewrite run_bind, run_gets. cbn [id].
  destruct (existsb _ (prefixes p)) eqn:E; [done|]. rewrite run_bind, run_modify.
  change (foldr (λ q : list string, <[q := Directory]>) fs (prefixes p) !! q = o). rewrite made_directories.
  case_decide as Hin; [|done]. destruct Hq as [[e ->]|Hq].
  - destruct e as [|b]; [done|]. exfalso. apply not_true_iff_false in E. apply E, existsb_exists.
    exists q. split; [by apply list_elem_of_In|]. by rewrite Ho.
  - apply prefixes_elem in Hin as [s Hs]. by destruct (Hq s).
Qed.

Lemma frame_copy src dst : strip dst q = None → steps (keeping at_q) (copyItem ioError noSuchFile fileExists (λ _, true) src dst).
Proof.
  intros Hq fs Ho. unfold copyItem. destruct (ioError OpCopy src); [done|].
  assert (negb (match last src with Some _ => true | None => true end) = false) as -> by by destruct (last src).
  rewrite run_bind, run_gets. cbn [id]. destruct (fs !! src), (fs !! dst); try done.
  rewrite run_bind, run_modify. cbn. rewrite lookup_union, copied_outside by by apply strip_None. by rewrite (left_id_L None _).
Qed.

Lemma frame_write p c : p ≠ q → steps (keeping at_q) (writeFile ioError p c).
Proof.
  intros Hq fs Ho. unfold writeFile. destruct (ioError OpWrite p); [done|]. rewrite run_bind, run_modify. cbn.
  by rewrite lookup_insert_ne.
Qed.

Lemma frame_createAt p : p ≠ q → steps (keeping at_q) (createDirectoryAt ioError noSuchFile fileExists notADirectory p).
Proof.
  intros Hq fs Ho. unfold createDirectoryAt. destruct (ioError OpCreate p); [done|]. rewrite run_bind, run_gets. cbn [id].
  destruct (fs !! p); [done|]. destruct (fs !! removelast p) as [[|]|]; try done. rewrite run_bind, run_modify. cbn.
  by rewrite lookup_insert_ne.
Qed.

Lemma frame_save sp databases man data checkpoint URL : strip sp q = None → strip URL q = None →
  steps (keeping at_q) (saveToURL ioError noSuchFile fileExists sp databases man data checkpoint URL).
Proof.
  intros Hsp HURL. unfold saveToURL. destruct databases as [|db dbs]; [apply steps_ret, _|].
  assert (∀ n, sp ++ [n] ≠ q) as Hne. { intros n <-. by rewrite strip_app in Hsp. }
  apply steps_bind; [apply _|by apply frame_write|]. intros saved. case_match; [apply steps_ret, _|].
  destruct data as [err|data]; [apply steps_ret, _|]. apply steps_bind; [apply _|by apply frame_write|].
  intros saved'. case_match; [apply steps_ret, _|]. case_match; [apply steps_ret, _|]. by apply frame_copy.
Qed.
End frames.

(** ** What a document does to a path outside its working copy *)
Section untouched.
Context (ioError : fsop → list string → option NSError) (noSuchFile fileExists notADirectory : NSError).
Context (temporaryDirectory : list string) (UUIDString : string).
Context (packageAccessDenied : bool) (requiresCopying : list string → bool).
Context (openPackage : list string → M FS (outcome * PackageState)) (touched : list string → bool).
Context `{!OpeningLaws openPackage touched}.
Context (initializePackageController : PackageState → bool * option NSError).
Context (grant : Z → bool → list string → outcome).
Context (manifest : PackageState → list Z) (dictionary : PackageState → NSError + list Z)
        (orderedDatabases : PackageState → list string) (checkpoint : PackageState → string → outcome).
Context (enumerate : gset dbid → list dbid).
Notation temp := (temporaryPath temporaryDirectory UUIDString).
Notation metadataPath := (temp ++ ["metadata"%string]).

(** A path outside the working copy: one that is there, or one that does not lead to it *)
Context (q : list string) (o : option entry) (watched : bool).
Hypothesis q_outside : strip temp q = None.
Hypothesis q_apart : is_Some o ∨ ∀ s, temp ≠ q ++ s.

(** The document knows no other paths. *)
Definition pathsOK (d : DocumentState) : Prop :=
  (d_temporaryManuscriptPath d = None ∨ d_temporaryManuscriptPath d = Some temp) ∧
  (d_temporaryManuscriptMetadataDirectoryPath d = None ∨ d_temporaryManuscriptMetadataDirectoryPath d = Some metadataPath).
Definition kept_at (d : DocumentState) : Prop := pathsOK d ∧ (watched = true → d_fs d !! q = o).
Notation R := (keeping kept_at).

Lemma kept_onFS {A} (m : M FS A) : (watched = true → steps (keeping (λ fs, fs !! q = o)) m) → steps R (onFileSystem m).
Proof.
  intros Hm d [Hp Ho]. unfold onFileSystem. destruct (m (d_fs d)) as [r fs] eqn:E. split; [done|].
  intros Hw. specialize (Hm Hw (d_fs d) (Ho Hw)). by rewrite E in Hm.
Qed.

Lemma kept_modify f : (∀ d, kept_at d → kept_at (f d)) → steps R (modify f).
Proof. intros Hf d Hd. by apply Hf. Qed.

(** A value read from the state may be assumed to be the state's. *)
Lemma kept_gets {A B} (g : DocumentState → A) (f : A → M DocumentState B) :
  (∀ a, (∃ d, kept_at d ∧ g d = a) → steps R (f a)) → steps R (gets g ≫= f).
Proof. intros Hf d Hd. rewrite run_bind, run_gets. apply (Hf (g d)); [by exists d|done]. Qed.

Lemma q_apart_parent : is_Some o ∨ ∀ s, removelast temp ≠ q ++ s.
Proof.
  destruct q_apart as [?|Ha]; [by left|right]. intros s Hs. apply (Ha (s ++ ["untitled.manuscript"%string])).
  rewrite app_assoc, <- Hs. unfold temporaryPath.
  change [UUIDString; "untitled.manuscript"%string] with ([UUIDString] ++ ["untitled.manuscript"%string]).
  by rewrite !app_assoc, removelast_last.
Qed.

Lemma metadata_ne : metadataPath ≠ q.
Proof. intros <-. by rewrite strip_app in q_outside. Qed.

#[local] Hint Extern 1 (steps _ (onFileSystem (fileExistsAtPath _))) => apply kept_onFS; intros _; apply frame_exists : steps.
#[local] Hint Extern 1 (steps _ (modify _)) => apply kept_modify; intros ? [[[?|?] [?|?]] ?]; repeat split; cbn; auto : steps.

Lemma kept_initialize create :
  steps R (initializeStateCreatingDirectoryTree ioError notADirectory temporaryDirectory UUIDString packageAccessDenied create).
Proof.
  unfold initializeStateCreatingDirectoryTree. apply steps_bind; [apply _|apply steps_NSAssert, _|]. intros _.
  apply kept_gets. intros [] _; [apply steps_ret, _|]. apply kept_gets. intros path (d & [[Hp _] _] & <-).
  assert (default temp (d_temporaryManuscriptPath d) = temp) as -> by by destruct Hp as [-> | ->].
  apply steps_bind; [apply _|auto with steps|]. intros _. apply steps_bind; [apply _| |].
  - destruct create; [|apply steps_ret, _]. apply kept_onFS. intros _. by apply frame_create.
  - intros created. case_match; [apply steps_ret, _|]. apply steps_bind; [apply _|auto with steps|]. intros _. apply steps_ret, _.
Qed.

Lemma kept_metadata create :
  steps R (initializeManuscriptMetadataDirectory ioError noSuchFile fileExists notADirectory create).
Proof.
  unfold initializeManuscriptMetadataDirectory. apply kept_gets. intros metadata _.
  apply kept_gets. intros path (d & [[Hp _] _] & <-). apply steps_bind; [apply _| |].
  { destruct metadata; [apply steps_ret, _|]. destruct Hp as [-> | ->]; [apply steps_throw, _|]. auto with steps. }
  intros _. apply kept_gets. intros metadata' (d' & [[_ Hm] _] & <-). apply steps_bind; [apply _| |].
  { destruct (d_temporaryManuscriptPath d); [auto with steps|apply steps_ret, _]. }
  intros there. destruct create, there; try apply steps_ret, _. destruct Hm as [-> | ->]; [apply steps_ret, _|].
  apply steps_bind; [apply _|auto with steps|]. intros already. destruct already; [apply steps_ret, _|].
  apply kept_onFS. intros _. apply frame_createAt, metadata_ne.
Qed.

Lemma kept_cleanUp : steps R (cleanUpTemporaryFiles ioError noSuchFile).
Proof.
  unfold cleanUpTemporaryFiles. apply kept_gets. intros path (d & [[Hp _] _] & <-).
  destruct Hp as [-> | ->]; [apply steps_ret, _|]. apply steps_bind; [apply _|auto with steps|]. intros there.
  apply steps_bind; [apply _| |intros _; auto with steps]. destruct there; [|apply steps_ret, _].
  apply steps_bind; [apply _|apply kept_onFS; intros _; by apply frame_remove|]. intros _. apply steps_ret, _.
Qed.

Lemma kept_closeController limit levels : steps R (closeController enumerate limit levels).
Proof. intros d Hd. unfold closeController. by destruct (closeRetrying _ _ _ _ _ _ _). Qed.

Lemma kept_close levels : steps R (document_close ioError noSuchFile enumerate levels).
Proof.
  unfold document_close. apply steps_bind; [apply _|apply kept_closeController|]. intros n.
  apply steps_bind; [apply _|auto with steps|]. intros _. apply steps_bind; [apply _|apply kept_cleanUp|]. intros _. apply steps_ret, _.
Qed.

Lemma kept_terminate levels : steps R (applicationWillTerminate ioError noSuchFile enumerate levels).
Proof.
  unfold applicationWillTerminate. apply kept_gets. intros controller _. apply steps_bind; [apply _| |].
  - destruct controller; [|apply steps_ret, _]. apply steps_bind; [apply _|apply kept_closeController|]. intros n.
    apply steps_bind; [apply _|auto with steps|]. intros _. apply steps_ret, _.
  - intros n. apply steps_bind; [apply _|apply kept_cleanUp|]. intros _. apply steps_ret, _.
Qed.

Lemma kept_makeWorkingCopy :
  steps R (makeWorkingCopy ioError noSuchFile fileExists notADirectory requiresCopying temp).
Proof.
  unfold makeWorkingCopy. apply steps_bind; [apply _|auto with steps|]. intros there.
  apply steps_bind; [apply _| |].
  { destruct there; [apply steps_bind; [apply _|apply steps_NSAssert, _|intros _; apply steps_ret, _]|].
    apply kept_onFS. intros _. apply frame_create, q_apart_parent. }
  intros ready. destruct ready; [|apply steps_ret, _]. apply kept_gets. intros original _.
  destruct original as [original|]; [|apply steps_ret, _]. apply steps_bind; [apply _|auto with steps|]. intros there'.
  case_match; [|apply steps_ret, _]. apply steps_bind; [apply _|apply kept_onFS; intros _; by apply frame_copy|]. intros copied.
  destruct copied; [|apply steps_ret, _]. apply steps_bind; [apply _|apply kept_metadata|]. intros _. apply steps_ret, _.
Qed.

Lemma kept_accessFailed err : steps R (accessFailed err).
Proof. apply steps_bind; [apply _|auto with steps|]. intros _. apply steps_ret, _. Qed.

Lemma kept_openWorkingCopy : steps R (openWorkingCopy openPackage initializePackageController grant temp).
Proof.
  unfold openWorkingCopy. apply steps_bind; [apply _|auto with steps|]. intros there.
  cbv zeta. destruct (match there with Some _ => grant 384 true temp | None => YES end); [|apply kept_accessFailed].
  destruct (match there with Some true => grant 64 false temp | _ => YES end); [|apply steps_ret, _].
  apply steps_bind; [apply _| |].
  { apply kept_onFS. intros _ fs Ho. by rewrite (opening_outside (touched := touched)). }
  intros [[|err] controller]; [|apply kept_accessFailed]. apply steps_bind; [apply _|auto with steps|]. intros _.
  apply steps_bind; [apply _|auto with steps|]. intros _. destruct (initializePackageController controller) as [valid err].
  apply steps_bind; [apply _| |intros _; apply steps_ret, _]. destruct valid; [auto with steps|apply steps_ret, _].
Qed.

Lemma kept_packageController :
  steps R (document_packageController ioError noSuchFile fileExists notADirectory temporaryDirectory UUIDString
    packageAccessDenied requiresCopying openPackage initializePackageController grant).
Proof.
  unfold document_packageController. apply kept_gets. intros [controller|] _; [apply steps_ret, _|].
  apply steps_bind; [apply _| |].
  { unfold ensureTemporaryPath. apply kept_gets. intros requires _. apply kept_gets. intros path _.
    case_match; [apply kept_initialize|]. apply kept_gets. intros cleaned _. apply steps_bind; [apply _| |intros _; apply steps_ret, _].
    destruct cleaned; [apply steps_ret, _|apply steps_NSAssert, _]. }
  intros ensured. destruct ensured; [|apply kept_accessFailed]. apply kept_gets. intros [] _; [apply steps_ret, _|].
  apply kept_gets. intros path (d & [[Hp _] _] & <-). destruct Hp as [-> | ->]; [apply steps_throw, _|].
  apply steps_bind; [apply _|apply kept_makeWorkingCopy|]. intros copied. destruct copied; [|apply kept_accessFailed].
  unfold initializeAndOpen. apply kept_gets. intros requires _. apply steps_bind; [apply _| |].
  { destruct requires; [apply kept_initialize|apply steps_ret, _]. }
  intros initialized. destruct initialized; [|apply kept_accessFailed]. apply steps_bind; [apply _|apply kept_metadata|].
  intros metadata. destruct metadata; [apply kept_openWorkingCopy|apply kept_accessFailed].
Qed.

Lemma kept_ensurePackage :
  steps R (ensurePackage ioError noSuchFile fileExists notADirectory temporaryDirectory UUIDString
    packageAccessDenied requiresCopying openPackage initializePackageController grant).
Proof.
  unfold ensurePackage. apply kept_gets. intros [controller|] _; [apply steps_ret, _|].
  apply steps_bind; [apply _|auto with steps|]. intros _. apply steps_bind; [apply _|apply kept_packageController|].
  intros [controller|].
  - apply kept_gets. intros path _. apply kept_gets. intros metadata _. apply kept_gets. intros fs _.
    apply steps_bind; [apply _|apply steps_NSAssert, _|]. intros _.
    apply steps_bind; [apply _|apply steps_NSAssert, _|]. intros _. apply steps_ret, _.
  - apply kept_gets. intros [err|] _; [apply steps_ret, _|apply steps_throw, _].
Qed.

Lemma kept_write URL : (watched = true → strip URL q = None) →
  steps R (document_writeToURL ioError noSuchFile fileExists notADirectory temporaryDirectory UUIDString
    packageAccessDenied requiresCopying openPackage initializePackageController grant manifest dictionary
    orderedDatabases checkpoint URL).
Proof.
  intros HURL. unfold document_writeToURL. apply kept_gets. intros err _. apply kept_gets. intros path (d & [[Hp _] _] & <-).
  destruct err; [apply steps_ret, _|]. destruct Hp as [-> | ->]; [apply steps_ret, _|].
  apply steps_bind; [apply _|apply kept_ensurePackage|]. intros ensured. destruct ensured; [|apply steps_ret, _].
  apply kept_gets. intros [controller|] _; [|apply steps_ret, _]. apply kept_onFS. intros Hw. apply frame_save; auto.
Qed.

(** ** The life of a document *)
Inductive documentEvent : Type :=
  | DocumentInit
  | DocumentInitWithType
  | DocumentRead (absoluteURL : list string) (success : outcome)
  | DocumentPackageController
  | DocumentWrite (absoluteURL : list string)
  | DocumentSetRequires (b : bool)
  | DocumentClose (levels : nat → dbid → Z)
  | DocumentTerminate (levels : nat → dbid → Z)
  | DocumentDealloc.

(** What is left of the state whatever comes of the event *)
Definition after (e : documentEvent) (d : DocumentState) : DocumentState :=
  match e with
  | DocumentInit => (document_init ioError notADirectory temporaryDirectory UUIDString packageAccessDenied d).2
  | DocumentInitWithType => (initWithType d).2
  | DocumentRead URL success => (document_readFromURL URL success d).2
  | DocumentPackageController =>
      (document_packageController ioError noSuchFile fileExists notADirectory temporaryDirectory UUIDString
         packageAccessDenied requiresCopying openPackage initializePackageController grant d).2
  | DocumentWrite URL =>
      (document_writeToURL ioError noSuchFile fileExists notADirectory temporaryDirectory UUIDString packageAccessDenied
         requiresCopying openPackage initializePackageController grant manifest dictionary orderedDatabases checkpoint URL d).2
  | DocumentSetRequires b => (setBundleRequiresInitialization b d).2
  | DocumentClose levels => (document_close ioError noSuchFile enumerate levels d).2
  | DocumentTerminate levels => (applicationWillTerminate ioError noSuchFile enumerate levels d).2
  | DocumentDealloc => (cleanUpTemporaryFiles ioError noSuchFile d).2
  end.

Lemma kept_init : steps R (document_init ioError notADirectory temporaryDirectory UUIDString packageAccessDenied).
Proof.
  unfold document_init. pose proof (kept_initialize false) as Hi. destruct packageAccessDenied; [apply steps_ret, _|].
  apply steps_bind; [apply _|exact Hi|]. intros [|err]; [apply steps_ret, _|].
  apply steps_bind; [apply _|apply steps_NSAssert, _|]. intros _. apply steps_ret, _.
Qed.

Lemma kept_after e d : (∀ URL, e = DocumentWrite URL → watched = true → strip URL q = None) → kept_at d → kept_at (after e d).
Proof.
  intros HURL Hd. destruct e as [| |URL success| |URL|b|levels|levels|]; cbn [after].
  - by apply kept_init.
  - destruct Hd as [[? ?] ?]. by split.
  - destruct Hd as [[? ?] ?]. by split.
  - by apply kept_packageController.
  - apply kept_write; [intros Hw; by apply HURL|done].
  - unfold setBundleRequiresInitialization. rewrite run_bind, run_gets. destruct (Bool.eqb _ _); [done|].
    destruct Hd as [[? ?] ?]. by split.
  - by apply kept_close.
  - by apply kept_terminate.
  - by apply kept_cleanUp.
Qed.
End untouched.

(** ** Opening a document and saving it elsewhere *)
Section saving.
Context (ioError : fsop → list string → option NSError) (noSuchFile fileExists notADirectory : NSError).
Context (temporaryDirectory : list string) (UUIDString : string) (requiresCopying : list string → bool).
Context (openPackage : list string → M FS (outcome * PackageState)) (touched : list string → bool).
Context `{!OpeningLaws openPackage touched}.
Context (initializePackageController : PackageState → bool * option NSError).
Context (grant : Z → bool → list string → outcome).
Notation temp := (temporaryPath temporaryDirectory UUIDString).
Notation metadataPath := (temp ++ ["metadata"%string]).
Implicit Types d : DocumentState.

Lemma metadata_run create d :
  d_temporaryManuscriptPath d = Some temp →
  d_temporaryManuscriptMetadataDirectoryPath d = None ∨ d_temporaryManuscriptMetadataDirectoryPath d = Some metadataPath →
  ∃ r fs, initializeManuscriptMetadataDirectory ioError noSuchFile fileExists notADirectory create d =
            (Ok r, d_with_fs fs (d_with_metadataPath (Some metadataPath) d)) ∧
          ∀ p, p ≠ metadataPath → fs !! p = d_fs d !! p.
Proof.
  intros Hp Hm. unfold initializeManuscriptMetadataDirectory. rewrite run_bind, run_gets, run_bind, run_gets, Hp.
  set (d1 := d_with_metadataPath (Some metadataPath) d).
  assert (∀ (k : unit → M DocumentState outcome), ((match d_temporaryManuscriptMetadataDirectoryPath d with
     | Some _ => mret tt | None => modify (d_with_metadataPath (Some metadataPath)) end : M DocumentState unit) ≫= k) d = k tt d1) as ->.
  { intros k. destruct Hm as [-> | Hm]; [done|]. rewrite Hm. unfold d1. destruct d; cbn in *. by subst. }
  rewrite run_bind, run_gets, run_bind. unfold onFileSystem at 1. unfold fileExistsAtPath at 1. rewrite run_gets.
  assert (d_with_fs (d_fs d1) d1 = d1) as Heta by by destruct d1.
  rewrite Heta. cbn [d1 d_with_metadataPath d_temporaryManuscriptMetadataDirectoryPath]. fold d1.
  destruct create; [|exists YES, (d_fs d); split; [by unfold d1; destruct d|done]].
  destruct (match d_fs d1 !! temp with Some Directory => Some true | Some (File _) => Some false | None => None end);
    [|exists YES, (d_fs d); split; [by unfold d1; destruct d|done]].
  rewrite run_bind. unfold onFileSystem at 1. unfold fileExistsAtPath at 1. rewrite run_gets, Heta.
  destruct (match d_fs d1 !! metadataPath with Some Directory => Some true | Some (File _) => Some false | None => None end);
    [exists YES, (d_fs d); split; [by unfold d1; destruct d|done]|].
  unfold onFileSystem. destruct (createDirectoryAt ioError noSuchFile fileExists notADirectory metadataPath (d_fs d1)) as [r fs] eqn:E.
  assert (∃ x, r = Ok x) as [x ->].
  { unfold createDirectoryAt in E. destruct (ioError OpCreate metadataPath); [injection E as <- _; eauto|].
    rewrite run_bind, run_gets in E. cbn [id] in E. destruct (d_fs d1 !! metadataPath); [injection E as <- _; eauto|].
    destruct (d_fs d1 !! removelast metadataPath) as [[|]|]; injection E as <- _; eauto. }
  exists x, fs. split; [done|]. intros p Hne.
  assert (fs = (createDirectoryAt ioError noSuchFile fileExists notADirectory metadataPath (d_fs d1)).2) as -> by by rewrite E.
  by apply (frame_createAt p (d_fs d1 !! p) ioError noSuchFile fileExists notADirectory metadataPath).
Qed.

Lemma working_copy_run d d' original :
  d_originalBundleFileURL d = Some original → requiresCopying original = true → disjoint original temp →
  d_temporaryManuscriptPath d = Some temp → d_temporaryManuscriptMetadataDirectoryPath d = None →
  (∀ s, d_fs d !! (temp ++ s) = None) →
  makeWorkingCopy ioError noSuchFile fileExists notADirectory requiresCopying temp d = (Ok YES, d') →
  d' = d_with_fs (d_fs d') (d_with_metadataPath (Some metadataPath) d) ∧
  ∀ s, s ≠ ["metadata"%string] → d_fs d' !! (temp ++ s) = d_fs d !! (original ++ s).
Proof.
  intros Ho Hreq Hdis Hp Hm Hnew H. unfold makeWorkingCopy in H.
  rewrite run_bind in H. unfold onFileSystem at 1 in H. unfold fileExistsAtPath at 1 in H. rewrite run_gets in H.
  pose proof (Hnew []) as Htemp. rewrite app_nil_r in Htemp. rewrite Htemp in H.
  assert (∀ d, d_with_fs (d_fs d) d = d) as Heta by by intros [].
  rewrite Heta in H. rewrite run_bind in H. unfold onFileSystem at 1 in H.
  destruct (createDirectory ioError notADirectory (removelast temp) (d_fs d)) as [r fs1] eqn:Ec.
  assert (∀ q, is_Some (d_fs d !! q) ∨ (∀ s, temp ≠ q ++ s) → fs1 !! q = d_fs d !! q) as H1.
  { intros q Hq. assert (fs1 = (createDirectory ioError notADirectory (removelast temp) (d_fs d)).2) as -> by by rewrite Ec.
    apply (frame_create q (d_fs d !! q) ioError notADirectory (removelast temp)); [|done].
    by apply (q_apart_parent temporaryDirectory UUIDString). }
  destruct r as [[|err]|e]; [|by rewrite run_ret in H|done].
  rewrite run_bind, run_gets in H. cbn [d_with_fs d_originalBundleFileURL] in H. rewrite Ho in H.
  assert (∀ s, fs1 !! (temp ++ s) = None) as Hclear.
  { intros s. transitivity (d_fs d !! (temp ++ s)); [|apply Hnew]. destruct (decide (s = [])) as [->|Hs].
    - rewrite app_nil_r. unfold createDirectory in Ec. destruct (ioError OpCreate (removelast temp)); [by rewrite run_ret in Ec|].
      rewrite run_bind, run_gets in Ec. cbn [id] in Ec. destruct (existsb _ _); [by rewrite run_ret in Ec|].
      rewrite run_bind, run_modify in Ec. injection Ec as <-. change (foldr (λ q : list string, <[q := Directory]>) (d_fs d) (prefixes (removelast temp)) !! temp = d_fs d !! temp).
      rewrite made_directories, decide_False; [done|]. rewrite prefixes_elem. intros [s Hs]. apply (f_equal length) in Hs.
      unfold temporaryPath in Hs. change [UUIDString; "untitled.manuscript"%string] with ([UUIDString] ++ ["untitled.manuscript"%string]) in Hs.
      rewrite app_assoc, removelast_last, !length_app in Hs. cbn in Hs. lia.
    - apply H1. right. intros s' Hs'. rewrite <- app_assoc in Hs'. apply (f_equal length) in Hs'.
      rewrite !length_app in Hs'. destruct s; [done|]. cbn in Hs'. lia. }
  rewrite run_bind in H. unfold onFileSystem at 1 in H. unfold fileExistsAtPath at 1 in H. rewrite run_gets in H.
  pose proof (Hclear []) as Htemp1. rewrite app_nil_r in Htemp1. cbn [d_fs d_with_fs] in H. rewrite Htemp1, Hreq in H.
  rewrite bool_decide_eq_true_2 in H by done. cbn [andb] in H. rewrite run_bind in H. unfold onFileSystem at 1 in H.
  destruct (copyItem ioError noSuchFile fileExists (λ _, true) original temp (d_fs (d_with_fs fs1 (d_with_fs fs1 d)))) as [r2 fs2] eqn:Ecopy.
  cbn [d_fs d_with_fs] in Ecopy.
  destruct r2 as [[|err]|e]; [|by rewrite run_ret in H|done].
  rewrite run_bind in H.
  match type of H with match ?m ?d0 with _ => _ end = _ =>
    destruct (metadata_run true d0) as (rm & fs3 & Hrun & Hfs3); [exact Hp|by left|] end.
  rewrite Hrun, run_ret in H. injection H as <-. split; [done|]. intros s Hs. cbn [d_fs d_with_fs d_with_metadataPath] in *.
  rewrite Hfs3; [|intros E; by apply (inj (app temp)) in E].
  unfold copyItem in Ecopy. destruct (ioError OpCopy original); [done|].
  assert (negb (match last original with Some _ => true | None => true end) = false) as En by by destruct (last original).
  rewrite En, run_bind, run_gets in Ecopy. cbn [id] in Ecopy. destruct (fs1 !! original); [|done]. rewrite Htemp1 in Ecopy.
  rewrite run_bind, run_modify, run_ret in Ecopy. injection Ecopy as <-. cbn [d_fs].
  rewrite lookup_union, Hclear, (right_id_L None _).
  assert (fs1 !! (original ++ s) = d_fs d !! (original ++ s)) as <-.
  { apply H1. right. intros s' Hs'. apply (Hdis (s ++ s') []). by rewrite app_nil_r, app_assoc. }
  apply option_eq. intros x. rewrite copied_lookup. split.
  - intros (s' & Hs' & _ & Hx). by apply (inj (app temp)) in Hs' as ->.
  - intros Hx. exists s. split_and!; [done|by apply forallb_forall|done].
Qed.

Lemma with_fs_id d : d_with_fs (d_fs d) d = d.
Proof. by destruct d. Qed.

Lemma accessFailed_not err d c d' : accessFailed err d ≠ (Ok (Some c), d').
Proof. unfold accessFailed. by rewrite run_bind, run_modify, run_ret. Qed.

Lemma open_run d d' c :
  d_temporaryManuscriptPath d = Some temp → d_temporaryManuscriptMetadataDirectoryPath d = Some metadataPath →
  d_bundleInitialized d = true →
  initializeAndOpen ioError noSuchFile fileExists notADirectory temporaryDirectory UUIDString false openPackage
    initializePackageController grant temp d = (Ok (Some c), d') →
  d_temporaryManuscriptPath d' = Some temp ∧ d_packageController d' = Some c ∧
  ∀ s, s ≠ ["metadata"%string] → touched s = false → d_fs d' !! (temp ++ s) = d_fs d !! (temp ++ s).
Proof.
  intros Hp Hm Hi H. unfold initializeAndOpen in H. rewrite run_bind, run_gets in H.
  assert (∀ (k : outcome → M DocumentState (option PackageState)),
    ((if d_bundleRequiresInitialization d then initializeStateCreatingDirectoryTree ioError notADirectory temporaryDirectory
        UUIDString false true else mret YES : M DocumentState outcome) ≫= k) d = k YES d) as Hk.
  { intros k. destruct (d_bundleRequiresInitialization d); [|done]. unfold initializeStateCreatingDirectoryTree.
    rewrite run_bind, run_bind, run_NSAssert. cbn [negb]. by rewrite run_bind, run_gets, Hi. }
  rewrite Hk in H. clear Hk. rewrite run_bind in H.
  destruct (metadata_run (d_bundleRequiresInitialization d) d Hp (or_intror Hm)) as (r & fs1 & Hrun & Hfs1).
  rewrite Hrun in H. destruct r as [|err]; [|by apply accessFailed_not in H]. clear Hrun.
  set (d1 := d_with_fs fs1 _) in H. unfold openWorkingCopy in H.
  rewrite run_bind in H. unfold onFileSystem at 1 in H. unfold fileExistsAtPath at 1 in H. rewrite run_gets, with_fs_id in H.
  cbv zeta in H. set (there := match d_fs d1 !! temp with Some Directory => Some true | Some (File _) => Some false | None => None end) in H.
  destruct (match there with Some _ => grant 384 true temp | None => YES end) as [|err]; [|by apply accessFailed_not in H].
  destruct (match there with Some true => grant 64 false temp | _ => YES end) as [|err]; [|by rewrite run_ret in H].
  rewrite run_bind in H. unfold onFileSystem at 1 in H. destruct (openPackage temp (d_fs d1)) as [ro fs2] eqn:Eo.
  destruct ro as [[[|err] c']|e]; [|by apply accessFailed_not in H|done].
  rewrite run_bind, run_modify, run_bind, run_modify in H.
  assert (∃ d2, (Ok (Some c'), d2) = (Ok (Some c) : res (option PackageState), d') ∧ d_fs d2 = fs2 ∧
    d_packageController d2 = Some c' ∧ d_temporaryManuscriptPath d2 = Some temp) as (d2 & [= -> <-] & Hfs2 & Hc & Hp2).
  { destruct (initializePackageController c') as [valid err]. rewrite run_bind in H. destruct valid;
      [rewrite run_modify in H|]; rewrite run_ret in H; eexists; (split; [exact H|done]). }
  split_and!; [done|done|]. intros s Hs Ht. rewrite Hfs2.
  assert (fs2 = (openPackage temp (d_fs d1)).2) as -> by by rewrite Eo.
  rewrite opening_untouched by done. apply Hfs1. intros E. by apply (inj (app temp)) in E.
Qed.

Context (manifest : PackageState → list Z) (dictionary : PackageState → NSError + list Z)
        (orderedDatabases : PackageState → list string) (checkpoint : PackageState → string → outcome).

(** A document read from [original], and the first time its package is needed for saving *)
Lemma ensurePackage_run d d' original :
  d_packageController d = None → d_resourcesCleaned d = false → d_bundleInitialized d = true →
  d_originalBundleFileURL d = Some original → requiresCopying original = true → disjoint original temp →
  d_temporaryManuscriptPath d = Some temp → d_temporaryManuscriptMetadataDirectoryPath d = None →
  (∀ s, d_fs d !! (temp ++ s) = None) →
  ensurePackage ioError noSuchFile fileExists notADirectory temporaryDirectory UUIDString false requiresCopying openPackage
    initializePackageController grant d = (Ok YES, d') →
  ∀ s, s ≠ ["metadata"%string] → touched s = false → d_fs d' !! (temp ++ s) = d_fs d !! (original ++ s).
Proof.
  intros Hc Hcl Hi Ho Hreq Hdis Hp Hm Hnew H s Hs Ht. unfold ensurePackage in H.
  rewrite run_bind, run_gets, Hc, run_bind, run_modify, run_bind in H. set (d1 := d_with_requires true d) in H.
  destruct (document_packageController _ _ _ _ _ _ _ _ _ _ _ d1) as [[[c|]|e] d2] eqn:Ep; [| |done].
  2: { rewrite run_bind, run_gets in H. destruct (d_packageAccessError d2); [by rewrite run_ret in H|done]. }
  rewrite run_bind, run_gets, run_bind, run_gets, run_bind, run_gets in H. apply run_bind_inv in H as (u1 & d3 & H3 & H).
  apply run_bind_inv in H as (u2 & d4 & H4 & H).
  assert (d' = d2) as ->.
  { rewrite run_NSAssert in H3, H4.
    destruct (match d_temporaryManuscriptPath d2 with Some _ => _ | None => _ end); [|done]. injection H3 as _ <-.
    destruct (match d_temporaryManuscriptMetadataDirectoryPath d2 with Some _ => _ | None => _ end); [|done].
    injection H4 as _ <-. rewrite run_ret in H. by injection H as <-. }
  unfold document_packageController in Ep. rewrite run_bind, run_gets in Ep.
  assert (d_packageController d1 = None) as Hc1 by done. rewrite Hc1, run_bind in Ep.
  assert (ensureTemporaryPath ioError notADirectory temporaryDirectory UUIDString false d1 = (Ok YES, d1)) as He.
  { unfold ensureTemporaryPath. rewrite run_bind, run_gets, run_bind, run_gets.
    change (d_temporaryManuscriptPath d1) with (d_temporaryManuscriptPath d). rewrite Hp, bool_decide_eq_false_2 by done.
    rewrite andb_false_r, run_bind, run_gets. change (d_resourcesCleaned d1) with (d_resourcesCleaned d).
    rewrite Hcl, run_bind, run_NSAssert. by rewrite bool_decide_eq_true_2 by by eexists. }
  rewrite He, run_bind, run_gets in Ep. assert (d_resourcesCleaned d1 = false) as Hcl1 by done. rewrite Hcl1, run_bind, run_gets in Ep.
  assert (d_temporaryManuscriptPath d1 = Some temp) as Hp1 by done. rewrite Hp1, run_bind in Ep.
  destruct (makeWorkingCopy _ _ _ _ _ temp d1) as [[[|err]|e] d5] eqn:Ew; [|by apply accessFailed_not in Ep|done].
  destruct (working_copy_run d1 d5 original) as [H5 Hfs5]; [done..|].
  destruct (open_run d5 d2 c) as (_ & _ & Hfs2); [by rewrite H5..|exact Ep|].
  rewrite Hfs2 by done. by rewrite Hfs5.
Qed.
End saving.

(** The life of a document from a file to its first saving *)
Definition reopenAndSave ioError noSuchFile fileExists notADirectory temporaryDirectory UUIDString requiresCopying openPackage
    initializePackageController grant manifest dictionary orderedDatabases checkpoint (original URL : list string)
    : M DocumentState outcome :=
  _ ← document_init ioError notADirectory temporaryDirectory UUIDString false;
  _ ← document_readFromURL original YES;
  document_writeToURL ioError noSuchFile fileExists notADirectory temporaryDirectory UUIDString false requiresCopying
    openPackage initializePackageController grant manifest dictionary orderedDatabases checkpoint URL.

Definition newDocument (fs : FS) : DocumentState := mkDocument fs false false None None None None false None 0.

(** C7 (roundtrip). A document that is read from a file and saved elsewhere has everything there that the file
    has, each path under its own, except what opening the package touches and the
    manifest, the dictionary and the metadata folder written for it. *)
Theorem document_roundtrip ioError noSuchFile fileExists notADirectory temporaryDirectory UUIDString requiresCopying
    openPackage touched initializePackageController grant manifest dictionary orderedDatabases checkpoint original URL fs d' :
  OpeningLaws openPackage touched → requiresCopying original = true →
  let temp := temporaryPath temporaryDirectory UUIDString in
  disjoint original temp → disjoint temp URL →
  (∀ s, fs !! (temp ++ s) = None) → (fs !! URL = None → ∀ s, fs !! (URL ++ s) = None) →
  reopenAndSave ioError noSuchFile fileExists notADirectory temporaryDirectory UUIDString requiresCopying openPackage
    initializePackageController grant manifest dictionary orderedDatabases checkpoint original URL (newDocument fs) = (Ok YES, d') →
  ∀ s, touched s = false → s ∉ [["metadata"%string]; ["manifest.json"%string]; ["dictionary.json"%string]] →
    d_fs d' !! (URL ++ s) = fs !! (original ++ s).
Proof.
  intros Hlaws Hreq temp Hdis HdisURL Hnew Hclear H s Ht Hs. unfold reopenAndSave in H.
  set (d1 := mkDocument fs false true (Some temp) None None None false (Some original) 1).
  assert (document_writeToURL ioError noSuchFile fileExists notADirectory temporaryDirectory UUIDString false requiresCopying
    openPackage initializePackageController grant manifest dictionary orderedDatabases checkpoint URL d1 = (Ok YES, d')) as Hw by exact H.
  clear H. unfold document_writeToURL in Hw. rewrite run_bind, run_gets, run_bind, run_gets in Hw.
  cbn [d1 d_packageAccessError d_temporaryManuscriptPath] in Hw. fold d1 in Hw. rewrite run_bind in Hw.
  destruct (ensurePackage _ _ _ _ _ _ _ _ _ _ _ d1) as [[[|err]|e] d2] eqn:Ee; [|by rewrite run_ret in Hw|done].
  rewrite run_bind, run_gets in Hw. destruct (d_packageController d2) as [c|]; [|by rewrite run_ret in Hw].
  pose proof (ensurePackage_run ioError noSuchFile fileExists notADirectory temporaryDirectory UUIDString requiresCopying
    openPackage touched initializePackageController grant d1 d2 original eq_refl eq_refl eq_refl eq_refl Hreq Hdis eq_refl eq_refl
    Hnew Ee) as Hcopy.
  assert (∀ s, d_fs d2 !! (URL ++ s) = fs !! (URL ++ s)) as HURL.
  { intros s'. pose proof (kept_ensurePackage ioError noSuchFile fileExists notADirectory temporaryDirectory UUIDString false
      requiresCopying openPackage touched initializePackageController grant (URL ++ s') (fs !! (URL ++ s')) true) as Hk.
    specialize (Hk ltac:(apply strip_None; intros t E; by apply (HdisURL t s'))).
    destruct Hk with d1 as [_ Hk']; [|by split; [split; [by right|by left]|]|rewrite Ee in Hk'; by apply Hk'].
    right. intros t E. apply (HdisURL [] (s' ++ t)). by rewrite app_nil_r, app_assoc. }
  unfold onFileSystem in Hw. destruct (saveToURL _ _ _ _ _ _ _ _ _ (d_fs d2)) as [r fs3] eqn:Es.
  injection Hw as -> <-. cbn [d_fs d_with_fs].
  destruct (dictionary c) as [err|data].
  { unfold saveToURL in Es. destruct (orderedDatabases c); [by rewrite run_ret in Es|].
    apply run_bind_inv in Es as (saved & fs4 & _ & Es). destruct (negb (succeeded saved)); by rewrite run_ret in Es. }
  assert (d_fs d2 !! URL = None → ∀ s, d_fs d2 !! (URL ++ s) = None) as Hcl.
  { intros Hnone s'. rewrite HURL. apply Hclear. by rewrite <- (app_nil_r URL), <- HURL, app_nil_r. }
  destruct (saved_elsewhere_run ioError noSuchFile fileExists temp URL (orderedDatabases c) (manifest c) data (checkpoint c)
    (d_fs d2) fs3 Hcl HdisURL Es) as (_ & _ & Hsaved & _).
  rewrite Hsaved. rewrite !lookup_insert_ne.
  - apply Hcopy; [set_solver|done].
  - intros E. apply (inj (app temp)) in E. set_solver.
  - intros E. apply (inj (app temp)) in E. set_solver.
Qed.

(** ** Closing *)
Lemma closeRetrying_bound enumerate limit levels retries controller err s n e s' :
  closeRetrying enumerate limit levels retries controller err s = (Ok (n, e), s') → n ≤ retries + limit.
Proof.
  revert retries err s. induction limit as [|limit IH]; intros retries err s; cbn [closeRetrying].
  { rewrite run_ret. intros [= <- _ _]. lia. }
  rewrite run_bind. destruct (tryClosing _ _ _ _ s) as [[r|] s1]; [|done]. destruct r.1.
  - rewrite run_ret. intros [= <- _ _]. lia.
  - intros H%IH. lia.
Qed.

Lemma cleanUp_run ioError noSuchFile d p :
  d_temporaryManuscriptPath d = Some p → ioError OpRemove p = None →
  ∃ d', cleanUpTemporaryFiles ioError noSuchFile d = (Ok tt, d') ∧ d_fs d' !! p = None ∧
        d_temporaryManuscriptPath d' = None ∧ d_packageController d' = d_packageController d ∧ d_resourcesCleaned d' = true.
Proof.
  intros Hp Hio. unfold cleanUpTemporaryFiles. rewrite run_bind, run_gets, Hp, run_bind. unfold onFileSystem at 1.
  unfold fileExistsAtPath. rewrite run_gets, with_fs_id.
  assert (∀ x, removeItem ioError noSuchFile p (d_fs d) = x → d_fs d !! p ≠ None → x.1 = Ok YES ∧ x.2 !! p = None) as Hr.
  { intros x <- Hne. unfold removeItem. rewrite Hio, run_bind, run_gets. cbn [id]. destruct (d_fs d !! p); [|done].
    rewrite run_bind, run_modify. cbn [fst snd]. split; [done|]. pose proof (removed_nothing p (d_fs d) []) as Hn. by rewrite app_nil_r in Hn. }
  destruct (d_fs d !! p) as [x|] eqn:E.
  - destruct (removeItem ioError noSuchFile p (d_fs d)) as [r fs] eqn:Er. destruct (Hr _ eq_refl) as [H1 H2]; [done|].
    cbn [fst snd] in H1, H2. subst r. exists (d_with_cleaned (d_with_fs fs d)).
    destruct x; (rewrite run_bind, run_bind; unfold onFileSystem; rewrite Er; by split_and!).
  - exists (d_with_cleaned d). by split_and!.
Qed.

(** C8 (safety). Whatever happens to a document - read, opened, saved, closed, terminated, in any order, to the
    end or to an error -, a file that is there is as it was, unless it lies in the
    document's own working copy or below a place it was saved to; and a document that has
    been closed, after sixty tries at most, has no package and no working copy any more. *)
Theorem documents_leave_files_alone ioError noSuchFile fileExists notADirectory temporaryDirectory UUIDString
    packageAccessDenied requiresCopying openPackage touched initializePackageController grant manifest dictionary
    orderedDatabases checkpoint enumerate events d0 :
  OpeningLaws openPackage touched → pathsOK temporaryDirectory UUIDString d0 →
  let temp := temporaryPath temporaryDirectory UUIDString in
  let d := foldl (λ d e, after ioError noSuchFile fileExists notADirectory temporaryDirectory UUIDString
             packageAccessDenied requiresCopying openPackage initializePackageController grant manifest dictionary
             orderedDatabases checkpoint enumerate e d) d0 events in
  (∀ p e, d_fs d0 !! p = Some e → strip temp p = None → (∀ URL, DocumentWrite URL ∈ events → strip URL p = None) →
     d_fs d !! p = Some e) ∧
  (∀ levels n d', document_close ioError noSuchFile enumerate levels d = (Ok n, d') → ioError OpRemove temp = None →
     n ≤ 60 ∧ d_packageController d' = None ∧ d_temporaryManuscriptPath d' = None ∧
     (is_Some (d_temporaryManuscriptPath d) → d_fs d' !! temp = None)).
Proof.
  intros Hlaws Hok temp d.
  assert (∀ q o watched, strip temp q = None → is_Some o →
    (∀ URL, DocumentWrite URL ∈ events → watched = true → strip URL q = None) →
    kept_at temporaryDirectory UUIDString q o watched d0 → kept_at temporaryDirectory UUIDString q o watched d) as Hall.
  { intros q o watched Hq Ho. unfold d. clear d Hok. revert d0. induction events as [|ev events IH]; intros d0 HURL Hk; [done|].
    cbn [foldl]. apply IH; [intros URL Hin; apply HURL; by right|].
    eapply kept_after; [exact Hlaws|exact Hq|by left| |exact Hk]. intros URL ->. apply HURL. by left. }
  split.
  - intros p e He Hp HURL. destruct (Hall p (Some e) true Hp) as [_ H]; [by eexists|auto|by split|by apply H].
  - destruct (Hall [] (Some Directory) false) as [[Hpath _] _]; [|by eexists|done|by split|].
    { apply strip_None. intros s Hs. apply (f_equal length) in Hs. unfold temp, temporaryPath in Hs.
      rewrite !length_app in Hs. cbn in Hs. lia. }
    intros levels n d' H Hio. unfold document_close in H. apply run_bind_inv in H as (m & d1 & H1 & H).
    rewrite run_bind, run_modify, run_bind in H.
    assert (m ≤ 60 ∧ d_temporaryManuscriptPath d1 = d_temporaryManuscriptPath d) as [Hm Hp1].
    { unfold closeController in H1. destruct (closeRetrying _ _ _ _ _ _ _) as [[[m' e']|] s'] eqn:E; [|done].
      injection H1 as -> <-. by apply closeRetrying_bound in E. }
    destruct Hpath as [Hp|Hp].
    + unfold cleanUpTemporaryFiles in H. rewrite run_bind, run_gets in H. cbn [d_with_controller d_temporaryManuscriptPath] in H.
      rewrite Hp1, Hp, !run_ret in H. injection H as <- <-. split_and!; [done|done|exact (eq_trans Hp1 Hp)|].
      rewrite Hp. by intros [? ?].
    + destruct (cleanUp_run ioError noSuchFile (d_with_controller None d1) temp) as (d2 & Hrun & Hfs & Hp2 & Hc2 & _);
        [exact (eq_trans Hp1 Hp)|done|].
      rewrite Hrun, run_ret in H. injection H as <- <-. by split_and!.
Qed.

(** ** A document with two files *)
Section witnesses.
Local Open Scope string_scope.

Definition files0 : FS :=
  <[[] := Directory]> (<[["tmp"] := Directory]> (<[["paper"] := Directory]>
    (<[["paper"; "manuscript.cblite"] := File [1%Z]]> (<[["paper"; "notes.txt"] := File [2%Z]]> ∅)))).
Definition error0 : NSError := {| err_domain := "NSCocoaErrorDomain"; err_code := 513 |}.
Definition open0 (p : list string) : M FS (outcome * PackageState) := mret (YES, package0).

#[local] Instance open0_laws : OpeningLaws open0 (λ _, false).
Proof. by split. Qed.

(** [hook]: [initializePackageController:error:] of the application; [permissions]: what granting them gives *)
Definition run0 {A} (hook : PackageState → bool * option NSError) (permissions : Z → bool → list string → outcome)
    (k : ∀ (ioError : fsop → list string → option NSError) (noSuchFile fileExists notADirectory : NSError) (dir : list string)
           (uuid : string) (requiresCopying : list string → bool) (openPackage : list string → M FS (outcome * PackageState))
           (hook : PackageState → bool * option NSError) (grant : Z → bool → list string → outcome)
           (manifest : PackageState → list Z) (dictionary : PackageState → NSError + list Z)
           (orderedDatabases : PackageState → list string) (checkpoint : PackageState → string → outcome), A) : A :=
  k (λ _ _, None) error0 error0 error0 ["tmp"] "UUID" (λ _, true) open0 hook permissions
    (λ _, []) (λ _, inr []) (λ _, ["manuscript"; "snapshots"]) (λ _ _, YES).

Definition saved0 (hook : PackageState → bool * option NSError) (permissions : Z → bool → list string → outcome)
    : res outcome * DocumentState :=
  run0 hook permissions
    (λ io e1 e2 e3 dir uuid req op hk gr man dic ord chk,
       reopenAndSave io e1 e2 e3 dir uuid req op hk gr man dic ord chk ["paper"] ["copy"] (newDocument files0)).

(** The application's package is not valid, and says why: the document does not know. *)
Example invalid_package_is_saved :
  (saved0 (λ _, (false, Some error0)) (λ _ _ _, YES)).1 = Ok YES ∧
  d_packageAccessError (saved0 (λ _, (false, Some error0)) (λ _ _ _, YES)).2 = None.
Proof. split; vm_compute; reflexivity. Qed.

(** The working copy cannot be made executable: saving the document fails an assertion. *)
Example permissions_not_granted :
  (saved0 (λ _, (true, None)) (λ mask _ _, if (mask =? 64)%Z then NO (Some error0) else YES)).1 =
  Throw (AssertionFailed "Package access error should be set").
Proof. vm_compute. reflexivity. Qed.

(** A document whose package was never needed still takes sixty tries to close. *)
Example closing_unopened :
  (document_close (λ _ _, None) error0 elements (λ _ _, 0%Z) (newDocument files0)).1 = Ok 60.
Proof. vm_compute. reflexivity. Qed.

(** The folder made for the working copy is left behind. *)
Example folder_is_left :
  d_fs (document_close (λ _ _, None) error0 elements (λ _ _, 0%Z) (saved0 (λ _, (true, None)) (λ _ _ _, YES)).2).2
    !! ["tmp"; "UUID"] = Some Directory.
Proof. vm_compute. reflexivity. Qed.

(** A new document cannot be saved before its package has been asked for. *)
Example new_document_not_saved :
  run0 (λ _, (true, None)) (λ _ _ _, YES)
    (λ io e1 e2 e3 dir uuid req op hk gr man dic ord chk,
       (document_writeToURL io e1 e2 e3 dir uuid false req op hk gr man dic ord chk ["copy"] (initWithType (newDocument files0)).2).1) =
  Ok (NO (Some (documentError DocumentErrorCodeWorkingPathMissing))).
Proof. vm_compute. reflexivity. Qed.

Lemma saved0_pair h g r : (saved0 h g).1 = r → saved0 h g = (r, (saved0 h g).2).
Proof. intros <-. apply surjective_pairing. Qed.

Lemma document_roundtrip_witness :
  d_fs (saved0 (λ _, (true, None)) (λ _ _ _, YES)).2 !! ["copy"; "notes.txt"] = Some (File [2%Z]).
Proof.
  change (Some (File [2%Z])) with (files0 !! (["paper"] ++ ["notes.txt"])%list).
  apply (document_roundtrip (λ _ _, None) error0 error0 error0 ["tmp"] "UUID" (λ _, true) open0 (λ _, false) (λ _, (true, None))
    (λ _ _ _, YES) (λ _, []) (λ _, inr []) (λ _, ["manuscript"; "snapshots"]) (λ _ _, YES) ["paper"] ["copy"] files0
    (saved0 (λ _, (true, None)) (λ _ _ _, YES)).2 open0_laws eq_refl).
  - intros s t. discriminate.
  - intros s t. discriminate.
  - intros s. unfold files0. by rewrite !lookup_insert_ne.
  - intros _ s. unfold files0. by rewrite !lookup_insert_ne.
  - apply (saved0_pair (λ _, (true, None)) (λ _ _ _, YES)). vm_compute. reflexivity.
  - reflexivity.
  - rewrite !not_elem_of_cons. split_and!; try discriminate. apply not_elem_of_nil.
Defined.

Lemma documents_leave_files_alone_witness :
  let d := foldl (λ d e, run0 (λ _, (true, None)) (λ _ _ _, YES)
             (λ io e1 e2 e3 dir uuid req op hk gr man dic ord chk,
                after io e1 e2 e3 dir uuid false req op hk gr man dic ord chk elements e d)) (newDocument files0)
             [DocumentInit; DocumentRead ["paper"] YES; DocumentWrite ["copy"]; DocumentClose (λ _ _, 0%Z)] in
  d_fs d !! ["paper"; "notes.txt"] = Some (File [2%Z]) ∧ d_temporaryManuscriptPath d = None.
Proof.
  intros d. split; [|vm_compute; reflexivity].
  pose proof (documents_leave_files_alone (λ _ _, None) error0 error0 error0 ["tmp"] "UUID" false (λ _, true) open0 (λ _, false)
    (λ _, (true, None)) (λ _ _ _, YES) (λ _, []) (λ _, inr []) (λ _, ["manuscript"; "snapshots"]) (λ _ _, YES) elements
    [DocumentInit; DocumentRead ["paper"] YES; DocumentWrite ["copy"]; DocumentClose (λ _ _, 0%Z)] (newDocument files0)
    open0_laws) as [H _]; [by split; left|].
  apply (H ["paper"; "notes.txt"] (File [2%Z])); [reflexivity|reflexivity|].
  intros URL Hin. repeat (apply elem_of_cons in Hin as [Hin|Hin]; [try discriminate Hin|]); [|by apply not_elem_of_nil in Hin].
  injection Hin as ->. reflexivity.
Defined.
End witnesses.
