(* ===== verification/Opening.v ===== *)
(** * Opening a package

    The part of [-[MPDatabasePackageController initWithPath:readOnly:delegate:error:]] that
    opens the databases of a package - from a bootstrap copy where there is one, anew where
    the file turns out to be corrupted - and defines their filters, over the file system of
    PackageFiles.v and the databases of Database.v; the shared package of
    MPShoeboxPackageController.m, its singleton, its folder and its identifier. *)
From Stdlib Require Import Ascii.
From stdpp Require Import base tactics strings numbers list gmap.
From S2P Require Import Prelude ObjC Database PackageFiles.

(** ** Databases *)

(** A database file has been damaged. *)
Definition SQLite26 : NSError := {| err_domain := "SQLite"; err_code := 26 |}.

(** What a subclass of [MPDatabasePackageController] says of its databases; the methods
    that make a filter answer whether there is one. *)
Record PackageClass : Type := mkPackageClass {
  pc_databaseNames : list string;
  pc_pushFilterNameForDatabaseNamed : string → option string;
  pc_pullFilterNameForDatabaseNamed : string → option string;
  pc_createPushFilterBlock : string → M MPDatabase bool;
  pc_createPullFilterBlock : string → M MPDatabase bool;
  pc_bootstrapDatabaseURL : string → option (list string)
}.

(** The files, the databases set on the controller so far, and which of them were reset. *)
Record Opening : Type := mkOpening {
  op_fs : FS;
  op_dbs : list MPDatabase;
  op_didReset : list string
}.

(** ** Filters of the classes *)
Section filters.
Local Open Scope string_scope.

(** In [MPDatabasePackageController]: a subclass that names a filter has to make it. *)
(* @src Feather/Sources/Database Packages/MPDatabasePackageController.m 820 824 -[MPDatabasePackageController createPushFilterBlockWithName:forDatabase:] *)
Definition createPushFilterBlockWithName (filterName : string) : M MPDatabase bool :=
  throw (AssertionFailed "Expecting filterName").
(* @src Feather/Sources/Database Packages/MPDatabasePackageController.m 836 840 -[MPDatabasePackageController createPullFilterBlockWithName:forDatabase:] *)
Definition createPullFilterBlockWithName (filterName : string) : M MPDatabase bool :=
  throw (AssertionFailed "Expecting filterName").

(** In [MPShoeboxPackageController]; [primary]: the name of the primary database. *)
Context (primary : string).
(* @src Feather/Sources/Database Packages/MPShoeboxPackageController.m 285 291 -[MPShoeboxPackageController pushFilterNameForDatabaseNamed:] *)
Definition shoebox_pushFilterNameForDatabaseNamed (dbName : string) : option string :=
  if String.eqb dbName primary then Some primary else None.
(* @src Feather/Sources/Database Packages/MPShoeboxPackageController.m 345 348 -[MPShoeboxPackageController qualifiedFilterNameForFilterName:database:] *)
Definition shoebox_qualifiedFilterName (filterName : string) (db : MPDatabase) : string := db_name db ++ "/" ++ filterName.
(** The primary database is the one of that name. *)
(* @src Feather/Sources/Database Packages/MPShoeboxPackageController.m 320 343 -[MPShoeboxPackageController createPushFilterBlockWithName:forDatabase:] *)
Definition shoebox_createPushFilterBlock (filterName : string) : M MPDatabase bool :=
  dbName ← gets db_name;
  let expected := bool_decide (shoebox_pushFilterNameForDatabaseNamed dbName = Some filterName) in
  _ ← NSAssert expected "Unexpected filterName";
  _ ← NSAssert (String.eqb dbName primary) "Unexpected db";
  if expected then
    _ ← modify (λ db, with_filter (shoebox_qualifiedFilterName filterName db) db);
    block ← filterWithQualifiedName filterName;
    _ ← NSAssert block "block";
    mret true
  else mret false.

(** A package controller without filters, and one of the kind of the shoebox *)
Definition plainPackage (databaseNames : list string) (bootstrap : string → option (list string)) : PackageClass :=
  mkPackageClass databaseNames (λ _, None) (λ _, None) createPushFilterBlockWithName createPullFilterBlockWithName bootstrap.
Definition shoeboxPackage (databaseNames : list string) (bootstrap : string → option (list string)) : PackageClass :=
  mkPackageClass databaseNames shoebox_pushFilterNameForDatabaseNamed (λ _, None) shoebox_createPushFilterBlock
    createPullFilterBlockWithName bootstrap.
End filters.

Section opening.
Local Open Scope string_scope.
Context (cls : PackageClass) (directory : list string).
(** [-[CBLManager databaseNamed:error:]] of the database library, and the file manager *)
Context (databaseNamed : string → FS → outcome * FS).
Context (ioError : fsop → list string → option NSError) (noSuchFile fileExists : NSError).
Notation M := (M Opening).

Definition onFiles {A} (m : Prelude.M FS A) : M A := λ st,
  let '(r, fs) := m (op_fs st) in (r, mkOpening fs (op_dbs st) (op_didReset st)).
(** The methods of the database set last *)
Definition onDatabase {A} (d : MPDatabase) (m : Prelude.M MPDatabase A) : M (A * MPDatabase) := λ st,
  let '(r, d') := m d in (match r with Ok a => Ok (a, d') | Throw e => Throw e end, st).
Definition exists_ (p : list string) : M bool := b ← onFiles (fileExistsAtPath p); mret (bool_decide (is_Some b)).

Definition databaseFile (dir : list string) (dbName : string) : list string := (dir ++ [(dbName ++ ".cblite")%string])%list.
Definition attachmentsDirectory (dir : list string) (dbName : string) : list string := (dir ++ [(dbName ++ " attachments")%string])%list.

(* @src Feather/Sources/Database Packages/MPDatabasePackageController.m 351 389 -[MPDatabasePackageController bootstrapDatabaseWithName:error:] *)
Definition bootstrapDatabaseWithName (dbName : string) : M outcome :=
  match pc_bootstrapDatabaseURL cls dbName with
  | None => mret YES
  | Some bootstrapDataURL =>
      let dbURL := databaseFile bootstrapDataURL dbName in
      there ← exists_ dbURL;
      _ ← NSAssert there "Expected to find dbURL";
      let targetDBURL := databaseFile directory dbName in
      done ← exists_ targetDBURL;
      if (done : bool) then mret YES
      else
        copied ← onFiles (copyItem ioError noSuchFile fileExists (λ _, true) dbURL targetDBURL);
        if negb (succeeded copied) then mret copied
        else
          let attachmentsURL := attachmentsDirectory bootstrapDataURL dbName in
          attachments ← exists_ attachmentsURL;
          if negb attachments then mret YES
          else
            let targetAttachmentsURL := attachmentsDirectory directory dbName in
            already ← exists_ targetAttachmentsURL;
            if (already : bool) then mret YES
            else onFiles (copyItem ioError noSuchFile fileExists (λ _, true) attachmentsURL targetAttachmentsURL)
  end.

(** The filters live in the database of the library, which is one for each name. *)
Definition filtersOf (dbName : string) (st : Opening) : gset string :=
  match list_find (λ d, sanitizedDatabaseIDWithString (db_name d) = sanitizedDatabaseIDWithString dbName) (op_dbs st) with
  | Some (_, d) => db_filters d
  | None => ∅
  end.

(* @src Feather/Sources/Database Packages/MPDatabasePackageController.m 302 315 -[MPDatabasePackageController initializeDatabaseNamed:server:error:] *)
Definition initializeDatabaseNamed (dbName : string) : M (outcome * MPDatabase) := λ st,
  let '(r, fs) := databaseNamed (sanitizedDatabaseIDWithString dbName) (op_fs st) in
  let d := mkDatabase dbName (pc_pushFilterNameForDatabaseNamed cls dbName) (pc_pullFilterNameForDatabaseNamed cls dbName)
             (filtersOf dbName st) None true true ∅ ∅ ∅ ∅ [] 1%positive in
  (Ok (r, d), mkOpening fs (op_dbs st) (op_didReset st)).

(* @src Feather/Sources/Database Packages/MPDatabasePackageController.m 826 834 -[MPDatabasePackageController pushFilterBlockWithName:forDatabase:] *)
Definition pushFilterBlockWithName (filterName : string) : Prelude.M MPDatabase bool :=
  block ← filterWithQualifiedName filterName;
  if (block : bool) then mret true else pc_createPushFilterBlock cls filterName.
(* @src Feather/Sources/Database Packages/MPDatabasePackageController.m 842 851 -[MPDatabasePackageController pullFilterBlockWithName:forDatabase:] *)
Definition pullFilterBlockWithName (filterName : string) : Prelude.M MPDatabase bool :=
  block ← filterWithQualifiedName filterName;
  if (block : bool) then mret true else pc_createPullFilterBlock cls filterName.

(** [-setFilterNamed:asBlock:] without a block takes a filter away, and there is none. *)
Definition defineFilter (name : string) (filterBlock : bool) : Prelude.M MPDatabase unit :=
  if filterBlock then defineFilterNamed name
  else filters ← gets db_filters; NSAssert (bool_decide (name ∉ filters)) "Expecting a filter not to exist".

(* @src Feather/Sources/Database Packages/MPDatabasePackageController.m 179 191 -[MPDatabasePackageController initWithPath:readOnly:delegate:error:] (part) *)
Definition defineFilters (dbName : string) : Prelude.M MPDatabase unit :=
  _ ← match pc_pushFilterNameForDatabaseNamed cls dbName with
      | Some pushFilterName => filterBlock ← pushFilterBlockWithName pushFilterName; defineFilter pushFilterName filterBlock
      | None => mret tt
      end;
  match pc_pullFilterNameForDatabaseNamed cls dbName with
  | Some pullFilterName => filterBlock ← pullFilterBlockWithName pullFilterName; defineFilter pullFilterName filterBlock
  | None => mret tt
  end.

(** The file of a damaged database is removed and the database opened anew; [failed]: what
    there is of it. *)
(* @src Feather/Sources/Database Packages/MPDatabasePackageController.m 151 167 -[MPDatabasePackageController initWithPath:readOnly:delegate:error:] (part) *)
Definition resetDatabase (dbName : string) (failed : MPDatabase) : M (outcome * MPDatabase) :=
  let databaseURL := databaseFile directory dbName in
  there ← exists_ databaseURL;
  removed ← (if (there : bool) then onFiles (removeItem ioError noSuchFile databaseURL) else mret YES);
  if negb (succeeded removed) then mret (removed, failed)
  else
    again ← initializeDatabaseNamed dbName;
    _ ← (if succeeded again.1 then modify (λ st, mkOpening (op_fs st) (op_dbs st) (op_didReset st ++ [dbName])%list) else mret tt);
    mret again.

(* @src Feather/Sources/Database Packages/MPDatabasePackageController.m 144 167 -[MPDatabasePackageController initWithPath:readOnly:delegate:error:] (part) *)
Definition openOrReset (dbName : string) : M (outcome * MPDatabase) :=
  first ← initializeDatabaseNamed dbName;
  if bool_decide (first.1 = NO (Some SQLite26)) then resetDatabase dbName first.2 else mret first.

(* @src Feather/Sources/Database Packages/MPDatabasePackageController.m 141 191 -[MPDatabasePackageController initWithPath:readOnly:delegate:error:] (part) *)
Definition openDatabase (dbName : string) : M outcome :=
  bootstrapped ← bootstrapDatabaseWithName dbName;
  if negb (succeeded bootstrapped) then mret bootstrapped
  else
    db ← openOrReset dbName;
    if negb (succeeded db.1) then mret db.1
    else
      defined ← onDatabase db.2 (defineFilters dbName);
      _ ← modify (λ st, mkOpening (op_fs st) (op_dbs st ++ [defined.2])%list (op_didReset st));
      mret YES.

(* @src Feather/Sources/Database Packages/MPDatabasePackageController.m 139 192 -[MPDatabasePackageController initWithPath:readOnly:delegate:error:] (part) *)
Fixpoint openDatabases (databaseNames : list string) : M outcome :=
  match databaseNames with
  | [] => mret YES
  | dbName :: databaseNames =>
      r ← openDatabase dbName;
      if succeeded r then openDatabases databaseNames else mret r
  end.

(** ** What happens to the files *)

(** Opening or creating a database leaves what is outside the package, and takes nothing
    away. *)
Class DatabaseNamedLaws : Prop := {
  dn_outside n fs p : strip directory p = None → (databaseNamed n fs).2 !! p = fs !! p;
  dn_keeps n fs p : is_Some (fs !! p) → is_Some ((databaseNamed n fs).2 !! p)
}.
Context {laws : DatabaseNamedLaws}.

(** [p] is of a database file the library has found damaged. *)
Definition damaged (names : list string) (p : list string) : Prop :=
  ∃ n fs s, n ∈ names ∧ p = (databaseFile directory n ++ s)%list ∧
    (databaseNamed (sanitizedDatabaseIDWithString n) fs).1 = NO (Some SQLite26).

Record fs_step (names : list string) (fs fs' : FS) : Prop := {
  fst_outside : ∀ p, strip directory p = None → fs' !! p = fs !! p;
  fst_lost : ∀ p, is_Some (fs !! p) → is_Some (fs' !! p) ∨ damaged names p
}.
#[local] Instance fs_step_preorder names : PreOrder (fs_step names).
Proof.
  split.
  - intros fs. split; auto.
  - intros fs1 fs2 fs3 [O1 L1] [O2 L2]. split.
    + intros p Hp. by rewrite O2, O1.
    + intros p Hp. destruct (L1 p Hp); auto.
Qed.

Definition Keeps {A} (names : list string) (m : M A) : Prop := ∀ st, fs_step names (op_fs st) (op_fs (m st).2).

Lemma keeps_ret {A} names (a : A) : Keeps names (mret a).
Proof. by intros st. Qed.
Lemma keeps_bind {A B} names (m : M A) (f : A → M B) :
  Keeps names m → (∀ a, Keeps names (f a)) → Keeps names (m ≫= f).
Proof.
  intros Hm Hf st. rewrite run_bind. specialize (Hm st). destruct (m st) as [[a|e] st1]; [|done].
  etransitivity; [exact Hm|apply Hf].
Qed.
Lemma keeps_assert names c what : Keeps names (NSAssert c what).
Proof. intros st. by rewrite run_NSAssert; destruct c. Qed.
Lemma keeps_exists names p : Keeps names (exists_ p).
Proof. by intros st. Qed.
Lemma keeps_modify names f : (∀ st, op_fs (f st) = op_fs st) → Keeps names (modify f).
Proof. intros Hf st. rewrite run_modify. cbn. by rewrite Hf. Qed.
Lemma keeps_onDatabase {A} names d (m : Prelude.M MPDatabase A) : Keeps names (onDatabase d m).
Proof. intros st. unfold onDatabase. by destruct (m d) as [[a|e] d']. Qed.

Lemma strip_below p s : strip directory (directory ++ p ++ s)%list ≠ None.
Proof. by rewrite strip_app. Qed.

Lemma keeps_copy names src p : Keeps names (onFiles (copyItem ioError noSuchFile fileExists (λ _, true) src (directory ++ p)%list)).
Proof.
  intros st. unfold onFiles, copyItem. destruct (ioError OpCopy src); [done|].
  assert (negb (match last src with Some _ => true | None => true end) = false) as -> by by destruct (last src).
  rewrite run_bind, run_gets. cbn [id]. destruct (op_fs st !! src), (op_fs st !! (directory ++ p)%list); try done.
  rewrite run_bind, run_modify, run_ret. split; cbn.
  - intros q Hq. rewrite lookup_union, copied_outside; [by destruct (op_fs st !! q)|].
    intros s ->. by rewrite <- app_assoc, strip_app in Hq.
  - intros q [x Hx]. left. rewrite lookup_union, Hx. by destruct (copied _ _ _ _ !! q); eexists.
Qed.

Lemma keeps_initialize names n : Keeps names (initializeDatabaseNamed n).
Proof.
  intros st. unfold initializeDatabaseNamed.
  pose proof (dn_outside (sanitizedDatabaseIDWithString n) (op_fs st)) as Ho.
  pose proof (dn_keeps (sanitizedDatabaseIDWithString n) (op_fs st)) as Hk.
  destruct (databaseNamed _ _) as [r fs]. split; [exact Ho|]. intros p Hp. left. by apply Hk.
Qed.

Lemma keeps_bootstrap names n : Keeps names (bootstrapDatabaseWithName n).
Proof.
  unfold bootstrapDatabaseWithName, databaseFile, attachmentsDirectory.
  repeat first [case_match|apply keeps_exists|apply keeps_ret|apply keeps_assert|apply keeps_copy|apply keeps_bind; [|intros ?]].
Qed.

(** The file goes away where it is damaged. *)
Lemma keeps_remove names n st fs :
  n ∈ names → (databaseNamed (sanitizedDatabaseIDWithString n) fs).1 = NO (Some SQLite26) →
  fs_step names (op_fs st) (op_fs (onFiles (removeItem ioError noSuchFile (databaseFile directory n)) st).2).
Proof.
  intros Hn Hd. unfold onFiles, removeItem. destruct (ioError OpRemove _); [done|]. rewrite run_bind, run_gets. cbn [id].
  destruct (op_fs st !! databaseFile directory n) eqn:E; [|done]. rewrite run_bind, run_modify, run_ret. split; cbn.
  - intros p Hp. apply removed_else, strip_None. intros s ->. unfold databaseFile in Hp. by rewrite <- app_assoc, strip_app in Hp.
  - intros p Hp. destruct (strip (databaseFile directory n) p) as [s|] eqn:Es.
    + right. apply strip_Some in Es. by exists n, fs, s.
    + left. by rewrite removed_else.
Qed.

Lemma keeps_reset names n fs d :
  n ∈ names → (databaseNamed (sanitizedDatabaseIDWithString n) fs).1 = NO (Some SQLite26) → Keeps names (resetDatabase n d).
Proof.
  intros Hn Hd. unfold resetDatabase. apply keeps_bind; [apply keeps_exists|intros there].
  apply keeps_bind; [destruct there; [intros st; by apply (keeps_remove names n st fs)|apply keeps_ret]|].
  intros removed. case_match; [apply keeps_ret|]. apply keeps_bind; [apply keeps_initialize|intros again].
  apply keeps_bind; [|intros _; apply keeps_ret]. destruct (succeeded again.1); [apply keeps_modify; intros st; reflexivity|apply keeps_ret].
Qed.

Lemma keeps_openOrReset names n : n ∈ names → Keeps names (openOrReset n).
Proof.
  intros Hn st. unfold openOrReset. rewrite run_bind.
  assert ((initializeDatabaseNamed n st).1 =
    Ok ((databaseNamed (sanitizedDatabaseIDWithString n) (op_fs st)).1,
        mkDatabase n (pc_pushFilterNameForDatabaseNamed cls n) (pc_pullFilterNameForDatabaseNamed cls n)
          (filtersOf n st) None true true ∅ ∅ ∅ ∅ [] 1%positive)) as Hr.
  { unfold initializeDatabaseNamed. by destruct (databaseNamed _ _). }
  pose proof (keeps_initialize names n st) as Hi. destruct (initializeDatabaseNamed n st) as [r st1]. cbn [fst] in Hr. subst r.
  etransitivity; [exact Hi|]. clear Hi. cbn [fst snd]. destruct (bool_decide _) eqn:Ed; [|done]. apply bool_decide_eq_true in Ed.
  by apply (keeps_reset names n (op_fs st)).
Qed.

Lemma keeps_openDatabase names n : n ∈ names → Keeps names (openDatabase n).
Proof.
  intros Hn. unfold openDatabase. apply keeps_bind; [apply keeps_bootstrap|]. intros b. case_match; [apply keeps_ret|].
  apply keeps_bind; [by apply keeps_openOrReset|]. intros db. case_match; [apply keeps_ret|].
  apply keeps_bind; [apply keeps_onDatabase|]. intros defined. apply keeps_bind; [apply keeps_modify; intros st; reflexivity|]. intros _. apply keeps_ret.
Qed.

Lemma keeps_openDatabases names l : l ⊆ names → Keeps names (openDatabases l).
Proof.
  induction l as [|n l IH]; intros Hl; cbn [openDatabases]; [apply keeps_ret|].
  apply keeps_bind; [apply keeps_openDatabase; set_solver|]. intros r. case_match; [apply IH; set_solver|apply keeps_ret].
Qed.
End opening.

(** C30 (safety). Opening a package loses nothing but what is lost already: however it goes
    - to the end, to the first error, or to an assertion that fails -, all that is outside
    the package is as it was, and a file of the package that was there is there, unless it
    is the file of one of the package's databases which the database library has called
    damaged. *)
Theorem opening_loses_nothing cls directory databaseNamed ioError noSuchFile fileExists st :
  DatabaseNamedLaws directory databaseNamed →
  let names := pc_databaseNames cls in
  let st' := (openDatabases cls directory databaseNamed ioError noSuchFile fileExists names st).2 in
  (∀ p : list string, strip directory p = None → op_fs st' !! p = op_fs st !! p) ∧
  ∀ p : list string, is_Some (op_fs st !! p) → is_Some (op_fs st' !! p) ∨ damaged directory databaseNamed names p.
Proof.
  intros Hlaws names st'.
  destruct (keeps_openDatabases cls directory databaseNamed ioError noSuchFile fileExists names names ltac:(done) st) as [Ho Hl].
  by split.
Qed.

(** ** A package opens *)

(** A class whose push filters are registered under their qualified names where they are
    made, and that has no pull filters *)
Record FiltersRegistered (cls : PackageClass) : Prop := {
  fr_push d f : pc_pushFilterNameForDatabaseNamed cls (db_name d) = Some f →
    pc_createPushFilterBlock cls f d = (Ok true, with_filter (qualified d f) d);
  fr_pull n : pc_pullFilterNameForDatabaseNamed cls n = None
}.

Lemma plainPackage_registered names bootstrap : FiltersRegistered (plainPackage names bootstrap).
Proof. by split. Qed.

Lemma shoeboxPackage_registered primary names bootstrap : FiltersRegistered (shoeboxPackage primary names bootstrap).
Proof.
  split; [|done]. intros d f Hf. cbn in *. unfold shoebox_createPushFilterBlock. rewrite run_bind, run_gets, run_bind, run_NSAssert.
  rewrite bool_decide_eq_true_2 by done. unfold shoebox_pushFilterNameForDatabaseNamed in Hf.
  destruct (String.eqb (db_name d) primary); [|done]. injection Hf as <-. rewrite run_bind, run_NSAssert, run_bind, run_modify, run_bind.
  unfold filterWithQualifiedName. rewrite run_gets, run_bind, run_NSAssert, bool_decide_eq_true_2; [done|].
  cbn. unfold qualified. apply elem_of_union_l, elem_of_singleton_2. reflexivity.
Qed.

Lemma length_append a b : String.length (a ++ b)%string = (String.length a + String.length b)%nat.
Proof. induction a as [|c a IH]; [done|]. change (String c a ++ b)%string with (String c (a ++ b)). cbn. by rewrite IH. Qed.

Lemma qualified_longer d f : f ≠ qualified d f.
Proof.
  intros E. apply (f_equal String.length) in E. unfold qualified in E. rewrite !length_append in E. cbn in E. lia.
Qed.

Lemma run_defineFilters cls d : FiltersRegistered cls → db_filters d = ∅ →
  db_pushFilterName d = pc_pushFilterNameForDatabaseNamed cls (db_name d) →
  ∃ d', defineFilters cls (db_name d) d = (Ok tt, d') ∧ db_name d' = db_name d ∧ validateFilters d' = (Ok true, d').
Proof.
  intros [Hpush Hpull] Hempty Hname. unfold defineFilters. rewrite Hpull. destruct (pc_pushFilterNameForDatabaseNamed cls (db_name d)) as [f|] eqn:Ef.
  - exists (with_filter f (with_filter (qualified d f) d)).
    unfold pushFilterBlockWithName, filterWithQualifiedName. rewrite !run_bind, run_gets, Hempty, bool_decide_eq_false_2 by set_solver.
    rewrite (Hpush d f Ef). unfold defineFilter, defineFilterNamed. rewrite run_bind, run_gets, run_bind, run_NSAssert.
    rewrite bool_decide_eq_true_2 by (cbn; rewrite Hempty; pose proof (qualified_longer d f); set_solver).
    split; [done|]. split; [done|]. unfold validateFilters. rewrite run_bind, run_gets. cbn. rewrite Hname. unfold filterWithQualifiedName.
    rewrite run_bind, run_gets, bool_decide_eq_true_2; [done|]. unfold qualified. cbn. set_solver.
  - exists d. split; [done|]. split; [done|]. unfold validateFilters. by rewrite run_bind, run_gets, Hname.
Qed.
Section opens.
Context (cls : PackageClass) (directory : list string) (databaseNamed : string → FS → outcome * FS).
Context (noSuchFile fileExists : NSError) {laws : DatabaseNamedLaws directory databaseNamed}.
(** The file manager does what it is asked to. *)
Notation noError := (λ (_ : fsop) (_ : list string), None : option NSError).
Notation damagedFile n := (∃ fs, (databaseNamed n fs).1 = NO (Some SQLite26)).

(** A new database can be made; one that is there can be opened or is damaged. *)
Record Recovers : Prop := {
  rc_new n fs : fs !! databaseFile directory n = None → (databaseNamed n fs).1 = YES;
  rc_old n fs : (databaseNamed n fs).1 = YES ∨ (databaseNamed n fs).1 = NO (Some SQLite26)
}.

(** Bootstrap data has the database file, and is not in the package. *)
Definition bootstrap_there (fs : FS) : Prop := ∀ n (url : list string), pc_bootstrapDatabaseURL cls n = Some url →
  strip directory (databaseFile url n) = None ∧ is_Some (fs !! databaseFile url n).

Notation openDatabase := (openDatabase cls directory databaseNamed noError noSuchFile fileExists).
Notation openDatabases := (openDatabases cls directory databaseNamed noError noSuchFile fileExists).
Notation bootstrap := (bootstrapDatabaseWithName cls directory noError noSuchFile fileExists).
Notation openOrReset := (openOrReset cls directory databaseNamed noError noSuchFile).

Lemma bootstrap_there_step names fs fs' : fs_step directory databaseNamed names fs fs' → bootstrap_there fs → bootstrap_there fs'.
Proof. intros [Ho _] Hb n url Hu. destruct (Hb n url Hu) as [H1 H2]. split; [done|]. by rewrite Ho. Qed.

Lemma run_exists p st : exists_ p st = (Ok (bool_decide (is_Some (op_fs st !! p))), st).
Proof.
  unfold exists_, onFiles, fileExistsAtPath. rewrite run_bind, run_gets. destruct st as [fs dbs reset]. cbn.
  rewrite run_ret. do 2 f_equal. apply bool_decide_ext. destruct (fs !! p) as [[]|]; split; intros [x Hx]; first [done|by eexists].
Qed.

Lemma run_copy src dst st : is_Some (op_fs st !! src) → op_fs st !! dst = None →
  ∃ fs, onFiles (copyItem noError noSuchFile fileExists (λ _, true) src dst) st = (Ok YES, mkOpening fs (op_dbs st) (op_didReset st)).
Proof.
  intros [x Hx] Hd. unfold onFiles, copyItem.
  assert (negb (match last src with Some _ => true | None => true end) = false) as -> by by destruct (last src).
  rewrite run_bind, run_gets. cbn [id]. rewrite Hx, Hd, run_bind, run_modify, run_ret. by eexists.
Qed.

Lemma run_bootstrap n st : bootstrap_there (op_fs st) → ∃ fs, bootstrap n st = (Ok YES, mkOpening fs (op_dbs st) (op_didReset st)).
Proof.
  intros Hb. unfold bootstrap. destruct (pc_bootstrapDatabaseURL cls n) as [url|] eqn:Hu.
  2: { exists (op_fs st). by destruct st. }
  destruct (Hb n url Hu) as [_ Hf]. rewrite run_bind, run_exists, bool_decide_eq_true_2 by done. rewrite run_bind, run_NSAssert.
  rewrite run_bind, run_exists. case_bool_decide as Ht; [exists (op_fs st); by destruct st|].
  destruct (run_copy (databaseFile url n) (databaseFile directory n) st Hf) as [fs Hc]; [by apply eq_None_not_Some|].
  rewrite run_bind, Hc. cbn [succeeded negb]. rewrite run_bind, run_exists. case_bool_decide as Ha; cbn [negb]; [|by exists fs].
  rewrite run_bind, run_exists. case_bool_decide as Ht'; [by exists fs|].
  destruct (run_copy (attachmentsDirectory url n) (attachmentsDirectory directory n) (mkOpening fs (op_dbs st) (op_didReset st)) Ha) as [fs' Hc'];
    [by apply eq_None_not_Some|]. by exists fs'.
Qed.

(** The new object of a database: its filters are those the library has for that name. *)
Definition newDatabase (n : string) (filters : gset string) : MPDatabase :=
  mkDatabase n (pc_pushFilterNameForDatabaseNamed cls n) (pc_pullFilterNameForDatabaseNamed cls n) filters None true true ∅ ∅ ∅ ∅ [] 1%positive.

Lemma run_initialize n st : sanitizedDatabaseIDWithString n = n →
  initializeDatabaseNamed cls databaseNamed n st =
  (Ok ((databaseNamed n (op_fs st)).1, newDatabase n (filtersOf n st)),
   mkOpening (databaseNamed n (op_fs st)).2 (op_dbs st) (op_didReset st)).
Proof. intros Hn. unfold initializeDatabaseNamed. rewrite Hn. by destruct (databaseNamed n (op_fs st)). Qed.

Lemma run_openOrReset n st : Recovers → sanitizedDatabaseIDWithString n = n →
  ∃ fs reset, openOrReset n st = (Ok (YES, newDatabase n (filtersOf n st)), mkOpening fs (op_dbs st) (op_didReset st ++ reset)) ∧
    (reset = [] ∨ reset = [n] ∧ damagedFile n).
Proof.
  intros [Hnew Hold] Hn. unfold openOrReset. rewrite run_bind, run_initialize by done. cbn [fst].
  destruct (Hold n (op_fs st)) as [Hr|Hr]; rewrite Hr.
  { rewrite bool_decide_eq_false_2 by done. eexists _, []. rewrite app_nil_r. by split; [|left]. }
  rewrite bool_decide_eq_true_2 by done. unfold resetDatabase. rewrite run_bind, run_exists. cbn [op_fs].
  set (fs1 := (databaseNamed n (op_fs st)).2).
  assert (∃ fs2, (if bool_decide (is_Some (fs1 !! databaseFile directory n))
                  then onFiles (removeItem noError noSuchFile (databaseFile directory n)) else mret YES)
                 (mkOpening fs1 (op_dbs st) (op_didReset st)) = (Ok YES, mkOpening fs2 (op_dbs st) (op_didReset st)) ∧
                 fs2 !! databaseFile directory n = None) as (fs2 & Hrem & Hnone).
  { case_bool_decide as Hf; [|exists fs1; split; [done|by apply eq_None_not_Some]]. destruct Hf as [x Hx].
    unfold onFiles, removeItem. cbn [op_fs op_dbs op_didReset]. rewrite run_bind, run_gets. cbn [id]. rewrite Hx, run_bind, run_modify, run_ret.
    eexists. split; [done|]. pose proof (removed_nothing (databaseFile directory n) fs1 []) as H1. by rewrite app_nil_r in H1. }
  rewrite run_bind, Hrem. cbn [succeeded negb]. rewrite run_bind, run_initialize by done. cbn [fst op_fs op_dbs op_didReset].
  rewrite Hnew by done. cbn [succeeded]. rewrite run_bind, run_modify. cbn [op_fs op_dbs op_didReset]. eexists _, [n]. split; [done|].
  right. split; [done|]. by exists (op_fs st).
Qed.

Definition names_of (st : Opening) : list string := db_name <$> op_dbs st.

Lemma filtersOf_new n st : sanitizedDatabaseIDWithString n = n →
  Forall (λ m, sanitizedDatabaseIDWithString m = m) (names_of st) → n ∉ names_of st → filtersOf n st = ∅.
Proof.
  intros Hn Hst Hin. unfold filtersOf. destruct (list_find _ _) as [[k d]|] eqn:E; [|done].
  apply list_find_Some in E as (Hk & Hd & _). exfalso. apply Hin. apply list_elem_of_lookup_2 in Hk.
  assert (db_name d ∈ names_of st) as Hdn by by apply list_elem_of_fmap_2.
  rewrite Forall_forall in Hst. specialize (Hst _ Hdn). cbn in Hd. rewrite Hst, Hn in Hd. by rewrite <- Hd.
Qed.

(** One database is opened, and its filters are there. *)
Lemma run_openDatabase n st : Recovers → FiltersRegistered cls → bootstrap_there (op_fs st) →
  sanitizedDatabaseIDWithString n = n → Forall (λ m, sanitizedDatabaseIDWithString m = m) (names_of st) → n ∉ names_of st →
  ∃ fs d reset, openDatabase n st = (Ok YES, mkOpening fs (op_dbs st ++ [d]) (op_didReset st ++ reset)) ∧
    db_name d = n ∧ validateFilters d = (Ok true, d) ∧ (reset = [] ∨ reset = [n] ∧ damagedFile n).
Proof.
  intros Hrec Hreg Hboot Hn Hst Hnew. unfold openDatabase. destruct (run_bootstrap n st Hboot) as [fs1 Hb].
  rewrite run_bind, Hb. cbn [succeeded negb].
  destruct (run_openOrReset n (mkOpening fs1 (op_dbs st) (op_didReset st)) Hrec Hn) as (fs2 & reset & Ho & Hreset).
  rewrite run_bind, Ho. cbn [fst snd succeeded negb op_dbs op_didReset].
  destruct (run_defineFilters cls (newDatabase n (filtersOf n (mkOpening fs1 (op_dbs st) (op_didReset st))))) as (d & Hd & Hname & Hval);
    [done|by apply filtersOf_new|done|]. cbn [db_name newDatabase] in Hd, Hname.
  rewrite run_bind. unfold onDatabase. rewrite Hd. rewrite run_bind, run_modify, run_ret. by exists fs2, d, reset.
Qed.

Lemma run_openDatabases l st : Recovers → FiltersRegistered cls → bootstrap_there (op_fs st) →
  Forall (λ m, sanitizedDatabaseIDWithString m = m) (names_of st ++ l) → NoDup (names_of st ++ l) →
  ∃ fs dbs reset, openDatabases l st = (Ok YES, mkOpening fs (op_dbs st ++ dbs) (op_didReset st ++ reset)) ∧
    db_name <$> dbs = l ∧ Forall (λ d, validateFilters d = (Ok true, d)) dbs ∧ Forall (λ n, n ∈ l ∧ damagedFile n) reset.
Proof.
  intros Hrec Hreg. revert st. induction l as [|n l IH]; intros st Hboot Hsan Hnd.
  { exists (op_fs st), [], []. rewrite !app_nil_r. by destruct st. }
  pose proof Hsan as [Hst [Hn Hl]%Forall_cons]%Forall_app. pose proof Hnd as (_ & Hdis & [Hnl _]%NoDup_cons)%NoDup_app.
  destruct (run_openDatabase n st) as (fs1 & d & reset1 & Ho & Hname & Hval & Hreset); [done..|by intros Hin; apply (Hdis n Hin); left|].
  cbn [Opening.openDatabases]. rewrite run_bind, Ho. cbn [succeeded].
  assert (names_of (mkOpening fs1 (op_dbs st ++ [d]) (op_didReset st ++ reset1)) ++ l = names_of st ++ n :: l)%list as E.
  { unfold names_of. cbn. rewrite fmap_app. cbn. by rewrite Hname, <- app_assoc. }
  destruct (IH (mkOpening fs1 (op_dbs st ++ [d]) (op_didReset st ++ reset1))) as (fs & dbs & reset & -> & Hnames & Hvals & Hresets).
  - cbn. pose proof (keeps_openDatabase cls directory databaseNamed noError noSuchFile fileExists [n] n ltac:(by left) st) as Hk.
    rewrite Ho in Hk. by apply (bootstrap_there_step [n] (op_fs st)).
  - by rewrite E.
  - by rewrite E.
  - exists fs, (d :: dbs), (reset1 ++ reset). cbn. rewrite <- !app_assoc. split; [done|]. rewrite Hname, Hnames. split; [done|].
    split; [by constructor|]. apply Forall_app. split.
    + destruct Hreset as [->|[-> Hd]]; constructor; [|constructor]. by split; [left|].
    + eapply Forall_impl; [exact Hresets|]. intros m [Hm Hd]. by split; [right|].
Qed.
End opens.

(** C6 (error). A package opens in spite of damaged database files: when the files can be
    written, the bootstrap data is there and the library makes new databases and opens
    old ones or calls them damaged, every database of a package with different names
    without dots is opened, in order; only damaged ones are reset; and each has the filter
    its pushes will ask for, in a package without filters and in the shoebox. *)
Theorem package_opens cls directory databaseNamed noSuchFile fileExists fs :
  DatabaseNamedLaws directory databaseNamed → Recovers directory databaseNamed →
  FiltersRegistered cls → bootstrap_there cls directory fs →
  let names := pc_databaseNames cls in
  Forall (λ n, sanitizedDatabaseIDWithString n = n) names → NoDup names →
  ∃ fs' dbs reset,
    openDatabases cls directory databaseNamed (λ _ _, None) noSuchFile fileExists names (mkOpening fs [] [])
    = (Ok YES, mkOpening fs' dbs reset) ∧
    db_name <$> dbs = names ∧ Forall (λ d, validateFilters d = (Ok true, d)) dbs ∧
    Forall (λ n, n ∈ names ∧ ∃ fs1, (databaseNamed n fs1).1 = NO (Some SQLite26)) reset.
Proof. intros Hlaws Hrec Hreg Hboot names Hsan Hnd. by apply (run_openDatabases _ _ _ _ _ names (mkOpening fs [] [])). Qed.

(** *** A shoebox with a damaged database *)
Section witnesses.
Local Open Scope string_scope.
Definition packageDir : list string := ["data"; "shared"].
Definition libraryNamed (n : string) (fs : FS) : outcome * FS :=
  match fs !! databaseFile packageDir n with
  | Some (File [0%Z]) => (NO (Some SQLite26), fs)
  | Some _ => (YES, fs)
  | None => (YES, <[databaseFile packageDir n := File [1%Z]]> fs)
  end.

Lemma libraryNamed_laws : DatabaseNamedLaws packageDir libraryNamed.
Proof.
  assert (∀ n (fs : FS) p, (libraryNamed n fs).2 !! p = fs !! p ∨
    p = databaseFile packageDir n ∧ is_Some ((libraryNamed n fs).2 !! p)) as Hl.
  { intros n fs p. unfold libraryNamed. destruct (fs !! databaseFile packageDir n) as [[|[|[] []]]|] eqn:E; try by left.
    cbn. destruct (decide (p = databaseFile packageDir n)) as [->|]; [right; by rewrite lookup_insert_eq|left; by rewrite lookup_insert_ne]. }
  split; intros n fs p Hp; destruct (Hl n fs p) as [->|[-> Hs]]; try done.
Qed.
Lemma libraryNamed_recovers : Recovers packageDir libraryNamed.
Proof.
  split; unfold libraryNamed.
  - intros n fs E. by rewrite E.
  - intros n fs. destruct (fs !! databaseFile packageDir n) as [[|[|[] []]]|]; auto.
Qed.

Definition shoebox : PackageClass :=
  shoeboxPackage "shared" ["shared"; "snapshots"]
    (λ n, if String.eqb n "shared" then Some ["bundle"] else None).
Definition shoeboxFiles : FS :=
  {[ packageDir := Directory; ["bundle"; "shared.cblite"] := File [7%Z];
     ["data"; "shared"; "snapshots.cblite"] := File [0%Z] ]}.

Lemma package_opens_witness :
  ∃ fs' dbs reset,
    openDatabases shoebox packageDir libraryNamed (λ _ _, None) (fsError 4) (fsError 516) ["shared"; "snapshots"] (mkOpening shoeboxFiles [] [])
    = (Ok YES, mkOpening fs' dbs reset) ∧
    db_name <$> dbs = ["shared"; "snapshots"] ∧ Forall (λ d, validateFilters d = (Ok true, d)) dbs ∧
    Forall (λ n, n ∈ ["shared"; "snapshots"] ∧ ∃ fs1, (libraryNamed n fs1).1 = NO (Some SQLite26)) reset.
Proof.
  apply (package_opens shoebox packageDir libraryNamed (fsError 4) (fsError 516) shoeboxFiles libraryNamed_laws libraryNamed_recovers).
  - apply shoeboxPackage_registered.
  - intros n url. cbn. destruct (String.eqb_spec n "shared") as [->|]; [|done]. intros [= <-]. split; [reflexivity|by eexists].
  - repeat constructor.
  - apply (bool_decide_unpack _). by vm_compute.
Defined.

Example shoebox_reset :
  let '(r, st) := openDatabases shoebox packageDir libraryNamed (λ _ _, None) (fsError 4) (fsError 516) ["shared"; "snapshots"] (mkOpening shoeboxFiles [] []) in
  op_didReset st = ["snapshots"] ∧ op_fs st !! ["data"; "shared"; "shared.cblite"] = Some (File [7%Z]) ∧
  op_fs st !! ["data"; "shared"; "snapshots.cblite"] = Some (File [1%Z]).
Proof. by vm_compute. Qed.

(** A subclass that only makes its filter has it under a name nobody asks for. *)
Example filter_is_not_found :
  let cls := mkPackageClass ["main"] (λ _, Some "outgoing") (λ _, None) (λ _, mret true) createPullFilterBlockWithName (λ _, None) in
  let '(r, st) := openDatabases cls packageDir libraryNamed (λ _ _, None) (fsError 4) (fsError 516) ["main"] (mkOpening ∅ [] []) in
  r = Ok YES ∧ (λ d, elements (db_filters d)) <$> op_dbs st = [["outgoing"]] ∧
  (λ d, (pushToDatabaseAtURL "http://host/main" d).1) <$> op_dbs st
  = [Throw (Exception "MPFilterValidationException" "Filter is missing.")].
Proof. vm_compute. repeat split. Qed.

(** The file of a database with a dot in its name is looked for under another name. *)
Example dotted_database_stays_damaged :
  let fs : FS := {[ ["data"; "shared"; "v2.cblite"] := File [0%Z] ]} in
  let '(r, st) := openDatabases (plainPackage ["v.2"] (λ _, None)) packageDir libraryNamed (λ _ _, None) (fsError 4) (fsError 516) ["v.2"] (mkOpening fs [] []) in
  r = Ok (NO (Some SQLite26)) ∧ op_fs st !! ["data"; "shared"; "v2.cblite"] = Some (File [0%Z]).
Proof. vm_compute. repeat split. Qed.

Lemma opening_loses_nothing_witness :
  let st' := (openDatabases shoebox packageDir libraryNamed (λ _ _, None) (fsError 4) (fsError 516) ["shared"; "snapshots"] (mkOpening shoeboxFiles [] [])).2 in
  (∀ p : list string, strip packageDir p = None → op_fs st' !! p = shoeboxFiles !! p) ∧
  ∀ p : list string, is_Some (shoeboxFiles !! p) → is_Some (op_fs st' !! p) ∨ damaged packageDir libraryNamed ["shared"; "snapshots"] p.
Proof.
  exact (opening_loses_nothing shoebox packageDir libraryNamed (λ _ _, None) (fsError 4) (fsError 516) (mkOpening shoeboxFiles [] []) libraryNamed_laws).
Defined.
End witnesses.
