(* ===== verification/Shoebox.v ===== *)
(** * The shared package

    MPShoeboxPackageController.m: the class registered for the shared package, the one
    controller made of it, the folder it is in, which goes by the name of the class, and
    the identifier that is kept in the metadata of the database there. *)
From Stdlib Require Import Ascii.
From stdpp Require Import base tactics strings numbers list gmap.
From S2P Require Import Prelude ObjC PackageFiles.

Definition ErrorCodeCannotInitializeSharedDatabases : NSError := packageError 5.

(** A controller: the how-manieth that was made, its class and its identifier. *)
Record SharedController : Type := mkController {
  sc_number : nat;
  sc_class : string;
  sc_identifier : string
}.
#[export] Instance SharedController_eq_dec : EqDecision SharedController.
Proof. solve_decision. Defined.

(** The static variables, the files, the identifiers in the metadata of the shared databases
    as they were last saved, by the folder the database is in, how many controllers have been tried to make, and the blocks
    left for the main queue. *)
Record Shared : Type := mkShared {
  sh_class : option string;
  sh_sharedInstance : option SharedController;
  sh_onceToken : bool;
  sh_files : FS;
  sh_identifiers : gmap string string;
  sh_attempts : nat;
  sh_failedToInitialize : list string
}.

Section shoebox.
Local Open Scope string_scope.
Context (rt : Runtime).
(** The support directory of the application group, [+name] of each class, the name of the
    bundle of the program, what kind of program it is, and what the file manager answers *)
Context (containingDir : list string) (name : string → option string) (containingAppBundleBaseName : string).
Context (isCommandLineTool isXPCService : bool).
Context (ioError : fsop → list string → option NSError) (notADirectory : NSError).
(** Whether the [n]th controller can open its databases (-initWithPath:...), whether its
    metadata can be saved, and [NSUUID] *)
Context (opens saves : nat → bool) (UUIDString : nat → string).
Notation M := (M Shared).
Notation isSubclassOfClass := (isSubclassOfClass rt).

Definition MPShoeboxPackageController_class : string := "MPShoeboxPackageController".

(** The folder of the shared databases, [self.name ?: self.containingAppBundleBaseName] *)
Definition folder (self : string) : string := default containingAppBundleBaseName (name self).

(* @src Feather/Sources/Database Packages/MPShoeboxPackageController.m 132 139 +[MPShoeboxPackageController sharedDatabasesPath] *)
Definition sharedDatabasesPath (self : string) : list string := (containingDir ++ [folder self])%list.

Definition with_files (fs : FS) (st : Shared) : Shared :=
  mkShared (sh_class st) (sh_sharedInstance st) (sh_onceToken st) fs (sh_identifiers st) (sh_attempts st) (sh_failedToInitialize st).
Definition onFiles {A} (m : Prelude.M FS A) : M A := λ st, let '(r, fs) := m (sh_files st) in (r, with_files fs st).
Definition set_static (c : option string) (i : option SharedController) (once : bool) : M unit := modify (λ st,
  mkShared c i once (sh_files st) (sh_identifiers st) (sh_attempts st) (sh_failedToInitialize st)).

(* @src Feather/Sources/Database Packages/MPShoeboxPackageController.m 141 178 +[MPShoeboxPackageController createSharedDatabasesPathWithError:] *)
Definition createSharedDatabasesPath (self : string) : M outcome :=
  containing ← onFiles (fileExistsAtPath containingDir);
  let isDirectory := default false containing in
  there ← onFiles (fileExistsAtPath (sharedDatabasesPath self));
  if isDirectory && bool_decide (is_Some there) then mret YES
  else if negb isDirectory then mret (NO (Some ErrorCodeFileNotDirectory))
  else
    let canCreateSharedDatabases := negb (isCommandLineTool || isXPCService) in
    if negb canCreateSharedDatabases then mret (NO (Some ErrorCodeCannotInitializeSharedDatabases))
    else onFiles (createDirectory ioError notADirectory (sharedDatabasesPath self)).

(** The shared database is the one in the folder of the class.  A new identifier is saved at
    once, and there is no controller without. *)
(* @src Feather/Sources/Database Packages/MPShoeboxPackageController.m 34 97 -[MPShoeboxPackageController initWithError:] *)
Definition initWithError (cls : string) : M (option SharedController) := λ st,
  let n := sh_attempts st in
  let attempted idents := mkShared (sh_class st) (sh_sharedInstance st) (sh_onceToken st) (sh_files st) idents (S n) (sh_failedToInitialize st) in
  if negb (opens n) then (Ok None, attempted (sh_identifiers st))
  else match sh_identifiers st !! folder cls with
       | Some identifier => (Ok (Some (mkController n cls identifier)), attempted (sh_identifiers st))
       | None =>
           if saves n then (Ok (Some (mkController n cls (UUIDString n))), attempted (<[folder cls := UUIDString n]> (sh_identifiers st)))
           else (Ok None, attempted (sh_identifiers st))
       end.

(** A proper subclass of [MPShoeboxPackageController] *)
Definition registrable (c : string) : bool :=
  isSubclassOfClass c MPShoeboxPackageController_class && negb (String.eqb c MPShoeboxPackageController_class).

(* @src Feather/Sources/Database Packages/MPShoeboxPackageController.m 210 220 +[MPShoeboxPackageController registerShoeboxPackageControllerClass:] *)
Definition registerShoeboxPackageControllerClass (class : string) : M unit :=
  registered ← gets sh_class;
  _ ← NSAssert (match registered with None => true | Some r => isSubclassOfClass class r end)
        "!_shoeboxPackageControllerClass || [class isSubclassOfClass:_shoeboxPackageControllerClass]";
  _ ← NSAssert (registrable class) "class";
  st ← gets id;
  set_static (Some class) (sh_sharedInstance st) (sh_onceToken st).

(* @src Feather/Sources/Database Packages/MPShoeboxPackageController.m 222 227 +[MPShoeboxPackageController deregisterShoeboxPackageControllerClass] *)
Definition deregisterShoeboxPackageControllerClass : M unit := set_static None None false.

(** Errors are logged, not reported. *)
(* @src Feather/Sources/Database Packages/MPShoeboxPackageController.m 236 263 +[MPShoeboxPackageController sharedShoeboxController] *)
Definition sharedShoeboxController : M (option SharedController) :=
  once ← gets sh_onceToken;
  if (once : bool) then gets sh_sharedInstance
  else
    class ← gets sh_class;
    match class with
    | None => throw (AssertionFailed "_shoeboxPackageControllerClass")
    | Some class =>
        _ ← NSAssert (registrable class) "_shoeboxPackageControllerClass";
        _ ← createSharedDatabasesPath class;
        sharedInstance ← initWithError class;
        _ ← (if sharedInstance then mret tt
             else modify (λ st, mkShared (sh_class st) (sh_sharedInstance st) (sh_onceToken st) (sh_files st)
                                  (sh_identifiers st) (sh_attempts st) (sh_failedToInitialize st ++ [class])%list));
        _ ← set_static (Some class) sharedInstance true;
        mret sharedInstance
    end.

(* @src Feather/Sources/Database Packages/MPShoeboxPackageController.m 269 269 +[MPShoeboxPackageController sharedShoeboxControllerInitialized] *)
Definition sharedShoeboxControllerInitialized : M bool := gets (λ st, bool_decide (is_Some (sh_sharedInstance st))).

(** Whether closing it succeeds or not *)
(* @src Feather/Sources/Database Packages/MPShoeboxPackageController.m 271 279 +[MPShoeboxPackageController finalizeSharedShoeboxController] *)
Definition finalizeSharedShoeboxController : M unit :=
  class ← gets sh_class;
  set_static class None false.

(** What an application calls, in any order *)
Inductive sharedCall : Type := Register (class : string) | Deregister | Ask | Finalize.
Definition answer (c : sharedCall) : M (option SharedController) :=
  match c with
  | Register class => _ ← registerShoeboxPackageControllerClass class; mret None
  | Deregister => _ ← deregisterShoeboxPackageControllerClass; mret None
  | Ask => sharedShoeboxController
  | Finalize => _ ← finalizeSharedShoeboxController; mret None
  end.
Definition releases (c : sharedCall) : bool := match c with Deregister | Finalize => true | _ => false end.

(** *** What stays as it is *)
Lemma run_fileExists p st : onFiles (fileExistsAtPath p) st =
  (Ok match sh_files st !! p with Some Directory => Some true | Some (File _) => Some false | None => None end, st).
Proof. unfold onFiles, fileExistsAtPath. rewrite run_gets. by destruct st. Qed.

(** Making the folder ends, and concerns files only. *)
Lemma run_createPath class st : ∃ r fs, createSharedDatabasesPath class st = (Ok r, with_files fs st).
Proof.
  assert (st = with_files (sh_files st) st) as Est by by destruct st.
  unfold createSharedDatabasesPath. rewrite run_bind, run_fileExists, run_bind, run_fileExists.
  destruct (_ && _); [|destruct (negb _); [|destruct (negb _)]]; try (eexists _, (sh_files st); by rewrite <- Est).
  unfold onFiles, createDirectory. destruct (ioError OpCreate _) as [e|]; [by eexists _, _|].
  rewrite run_bind, run_gets. cbn [id]. destruct (existsb _ _); [by eexists _, _|].
  rewrite run_bind, run_modify, run_ret. by eexists _, _.
Qed.

(** The identifier of a controller is that of the database in its folder. *)
Definition identified (st : Shared) (i : SharedController) : Prop :=
  sh_identifiers st !! folder (sc_class i) = Some (sc_identifier i).

(** The first question after a release makes a controller, or fails to; it answers what it
    keeps. *)
Lemma run_ask_anew st a st' : sh_onceToken st = false → sharedShoeboxController st = (Ok a, st') →
  ∃ class, sh_class st = Some class ∧ registrable class = true ∧ sh_class st' = Some class ∧
    sh_sharedInstance st' = a ∧ sh_onceToken st' = true ∧
    sh_identifiers st ⊆ sh_identifiers st' ∧
    (∀ i, a = Some i → sc_class i = class ∧ identified st' i).
Proof.
  intros Ho. unfold sharedShoeboxController. rewrite run_bind, run_gets, Ho, run_bind, run_gets.
  destruct (sh_class st) as [class|] eqn:Ec; [|done]. rewrite run_bind, run_NSAssert.
  destruct (registrable class) eqn:Er; [|done]. destruct (run_createPath class st) as (r & fs & Hpath). rewrite run_bind, Hpath, run_bind.
  unfold initWithError. cbn [with_files sh_attempts sh_identifiers sh_class sh_sharedInstance sh_onceToken sh_files sh_failedToInitialize].
  intros Hrun. exists class. do 2 (split; [done|]).
  destruct (opens (sh_attempts st)); cbn [negb] in Hrun;
    [destruct (sh_identifiers st !! folder class) as [u|] eqn:Eu; [|destruct (saves (sh_attempts st))]|].
  all: rewrite !run_bind, ?run_modify, ?run_ret in Hrun; unfold set_static in Hrun; rewrite ?run_modify, ?run_ret in Hrun; cbn in Hrun.
  all: injection Hrun as <- <-; cbn; split_and!; try done; try (by apply insert_subseteq); intros i [= <-].
  all: split; [done|]; unfold identified; cbn; by rewrite ?lookup_insert_eq.
Qed.

Lemma run_ask st a st' : sh_onceToken st = true → sharedShoeboxController st = (Ok a, st') → a = sh_sharedInstance st ∧ st' = st.
Proof. intros Ho. unfold sharedShoeboxController. rewrite run_bind, run_gets, Ho. by intros [= <- <-]. Qed.
(** The state of the singleton: the class it was made of is registered, or a class of
    which the registered one is a subclass. *)
Record shared_ok (st : Shared) : Prop := {
  so_class : ∀ c, sh_class st = Some c → registrable c = true;
  so_none : sh_onceToken st = false → sh_sharedInstance st = None;
  so_instance : ∀ i, sh_sharedInstance st = Some i →
    identified st i ∧ registrable (sc_class i) = true
}.

Lemma answer_step c st a st' : answer c st = (Ok a, st') → shared_ok st →
  shared_ok st' ∧ sh_identifiers st ⊆ sh_identifiers st' ∧
  (∀ i, a = Some i → identified st' i ∧ registrable (sc_class i) = true) ∧
  (c = Ask → sh_onceToken st' = true ∧ sh_sharedInstance st' = a) ∧
  (releases c = false → sh_onceToken st = true → sh_onceToken st' = true ∧ sh_sharedInstance st' = sh_sharedInstance st).
Proof.
  intros Hrun Hok. pose proof Hok as [Hc Hn Hi]. destruct c as [class| | |]; cbn [answer releases] in *.
  - unfold registerShoeboxPackageControllerClass in Hrun. rewrite !run_bind, run_gets, run_bind, run_NSAssert in Hrun.
    destruct (match sh_class st with None => true | Some r => isSubclassOfClass class r end); [|done].
    rewrite run_bind, run_NSAssert in Hrun. destruct (registrable class) eqn:Er; [|done].
    rewrite run_bind, run_gets in Hrun. unfold set_static in Hrun. rewrite run_modify, run_ret in Hrun. injection Hrun as <- <-.
    split_and!; try done. split; cbn; [by intros c [= <-]|exact Hn|exact Hi].
  - injection Hrun as <- <-. by split_and!.
  - destruct (sh_onceToken st) eqn:Eo.
    + destruct (run_ask st a st' Eo Hrun) as [-> ->]. split_and!; done || (intros i Ei; by apply Hi).
    + destruct (run_ask_anew st a st' Eo Hrun) as (class & E & Er & E' & Ea & Eo' & Hid & Ha). split_and!; try done.
      * split; [intros c Ec; congruence|congruence|]. intros i Ei. rewrite Ei in Ea. symmetry in Ea. destruct (Ha i Ea) as [-> ?]. done.
      * intros i Ei. destruct (Ha i Ei) as [-> ?]. done.
  - unfold finalizeSharedShoeboxController, set_static in Hrun. rewrite !run_bind, run_gets, run_modify, run_ret in Hrun.
    injection Hrun as <- <-. by split_and!.
Qed.

Notation answers l st := (map_each l answer st).

Lemma answers_ok l st r st' : answers l st = (Ok r, st') → shared_ok st → shared_ok st'.
Proof. intros Hrun Hst. eapply map_each_inv; [exact Hrun|exact Hst|]. intros c s1 a s2 _ Hs1 Ha. by apply (answer_step c s1 a s2). Qed.

(** Identifiers are saved for good. *)
Lemma answers_identifier l st r st' : answers l st = (Ok r, st') → shared_ok st → sh_identifiers st ⊆ sh_identifiers st'.
Proof.
  intros Hrun Hst. cut (shared_ok st' ∧ sh_identifiers st ⊆ sh_identifiers st'); [by intros [_ ?]|].
  apply (map_each_inv (λ s, shared_ok s ∧ sh_identifiers st ⊆ sh_identifiers s) l answer st r st' Hrun); [done|]. intros c s1 a s2 _ [Hs1 Hu1] Ha.
  destruct (answer_step c s1 a s2 Ha Hs1) as (? & Hid & _). split; [done|by etrans].
Qed.

(** The controller is kept until it is released. *)
Lemma answers_kept l st r st' : answers l st = (Ok r, st') → shared_ok st → forallb (λ c, negb (releases c)) l = true →
  sh_onceToken st = true → sh_onceToken st' = true ∧ sh_sharedInstance st' = sh_sharedInstance st.
Proof.
  intros Hrun Hst Hl Ho.
  cut (shared_ok st' ∧ sh_onceToken st' = true ∧ sh_sharedInstance st' = sh_sharedInstance st); [by intros [_ ?]|].
  apply (map_each_inv (λ s, shared_ok s ∧ sh_onceToken s = true ∧ sh_sharedInstance s = sh_sharedInstance st) l answer st r st' Hrun); [done|]. intros c s1 a s2 Hc (Hs1 & Ho1 & Hi1) Ha.
  destruct (answer_step c s1 a s2 Ha Hs1) as (? & _ & _ & _ & Hk). destruct Hk as [? Hk]; [|done|].
  - rewrite forallb_forall in Hl. by apply negb_true_iff, Hl, list_elem_of_In.
  - split_and!; [done..|congruence].
Qed.

Lemma answer_at l st r st' k c : answers l st = (Ok r, st') → shared_ok st → l !! k = Some c →
  ∃ s1 a s2, r !! k = Some a ∧ answer c s1 = (Ok a, s2) ∧ shared_ok s1 ∧ shared_ok s2 ∧
    answers (drop (S k) l) s2 = (Ok (drop (S k) r), st').
Proof.
  intros Hrun Hst Hk. destruct (map_each_lookup _ _ _ _ _ _ _ Hrun Hk) as (s1 & a & s2 & H1 & H2 & H3 & H4).
  exists s1, a, s2. assert (shared_ok s1) as Hs1 by by eapply answers_ok. split_and!; try done. by apply (answer_step c s1 a s2).
Qed.
End shoebox.

(** C22 (safety). There is one shared controller: in a run of registrations, releases and
    questions none of which fails an assertion, two questions between which nothing is
    released get the same answer - the same controller, or none when it could not be made -,
    also when another class is registered in between.  All controllers ever answered are of a proper
    subclass and have the identifier of the shared database in the folder of their class,
    which is the one it had before, or else the one saved there with the first of them: controllers of
    classes of one folder have one identifier, even when the shared package is made anew.
    The folder depends on the name of the class. *)
Theorem one_shared_package rt containingDir name containingAppBundleBaseName isCommandLineTool isXPCService ioError notADirectory
    opens saves UUIDString (l : list sharedCall) files identifiers r st' :
  let folder := folder name containingAppBundleBaseName in
  map_each l (answer rt containingDir name containingAppBundleBaseName isCommandLineTool isXPCService ioError notADirectory
                opens saves UUIDString)
    (mkShared None None false files identifiers 0 []) = (Ok r, st') →
  (∀ j k, (j < k)%nat → l !! j = Some Ask → l !! k = Some Ask →
     forallb (λ c, negb (releases c)) (take (k - S j) (drop (S j) l)) = true → r !! j = r !! k) ∧
  (∀ j i, r !! j = Some (Some i) →
     registrable rt (sc_class i) = true ∧ sh_identifiers st' !! folder (sc_class i) = Some (sc_identifier i) ∧
     (∀ u, identifiers !! folder (sc_class i) = Some u → sc_identifier i = u) ∧
     (∀ j' i', r !! j' = Some (Some i') → folder (sc_class i') = folder (sc_class i) → sc_identifier i' = sc_identifier i)).
Proof.
  set (st := mkShared _ _ _ _ _ _ _). intros fld Hrun.
  assert (shared_ok rt name containingAppBundleBaseName st) as Hst by by split.
  split.
  - intros j k Hjk Hj Hk Hrel.
    destruct (answer_at _ _ _ _ _ _ _ _ _ _ _ _ _ _ _ j Ask Hrun Hst Hj) as (s1 & a & s2 & Hrj & Ha & Hs1 & Hs2 & Hrest).
    destruct (answer_step _ _ _ _ _ _ _ _ _ _ _ _ _ _ _ Ha Hs1) as (_ & _ & _ & Hask & _). destruct (Hask eq_refl) as [Ho Hi].
    assert (drop (S j) l !! (k - S j)%nat = Some Ask) as Hk' by by rewrite lookup_drop, <- Hk; f_equal; lia.
    destruct (map_each_lookup _ _ _ _ _ _ _ Hrest Hk') as (s3 & b & s4 & H1 & H2 & _ & H4).
    destruct (answers_kept _ _ _ _ _ _ _ _ _ _ _ _ _ _ _ H1 Hs2 Hrel Ho) as [Ho3 Hi3].
    destruct (run_ask _ _ _ _ _ _ _ _ _ _ _ _ _ _ Ho3 H2) as [-> _]. rewrite lookup_drop in H4.
    rewrite Hrj. replace (S j + (k - S j))%nat with k in H4 by lia. rewrite H4. congruence.
  - assert (Hall : ∀ j i, r !! j = Some (Some i) → registrable rt (sc_class i) = true ∧
      sh_identifiers st' !! fld (sc_class i) = Some (sc_identifier i)).
    { intros j i Hj. assert (is_Some (l !! j)) as [c Hc].
      { apply lookup_lt_is_Some. apply lookup_lt_Some in Hj. by rewrite <- (map_each_length _ _ _ _ _ Hrun). }
      destruct (answer_at _ _ _ _ _ _ _ _ _ _ _ _ _ _ _ j c Hrun Hst Hc) as (s1 & a & s2 & Hrj & Ha & Hs1 & Hs2 & Hrest).
      assert (a = Some i) as -> by congruence. destruct (answer_step _ _ _ _ _ _ _ _ _ _ _ _ _ _ _ Ha Hs1) as (_ & _ & Hi & _).
      destruct (Hi i eq_refl) as [Hid Hreg]. split; [done|].
      exact (lookup_weaken _ _ _ _ Hid (answers_identifier _ _ _ _ _ _ _ _ _ _ _ _ _ _ _ Hrest Hs2)). }
    intros j i Hj. destruct (Hall j i Hj) as [Hreg Hid]. split_and!; [done..| |].
    + intros u Hu. pose proof (lookup_weaken _ _ _ _ Hu (answers_identifier _ _ _ _ _ _ _ _ _ _ _ _ _ _ _ Hrun Hst)) as Hu'.
      congruence.
    + intros j' i' Hj' Hf. destruct (Hall j' i' Hj') as [_ Hid']. rewrite Hf in Hid'. congruence.
Qed.

(** *** A shared package that cannot be saved at first *)
Section witness.
Local Open Scope string_scope.
Definition shoeboxRuntime : Runtime := {|
  rt_classes := [("NSObject", None); ("MPDatabasePackageController", Some "NSObject");
                 ("MPShoeboxPackageController", Some "MPDatabasePackageController"); ("AppShoebox", Some "MPShoeboxPackageController");
                 ("BetaShoebox", Some "AppShoebox")];
  rt_properties _ := [];
  rt_propertyClass _ _ := None;
  rt_conforms _ _ := false;
  rt_responds _ _ := false
|}.
Definition uuidOf (n : nat) : string := match n with O => "5A-0" | S O => "5A-1" | S (S O) => "5A-2" | _ => "5A-3" end.
Definition sharedCalls : list sharedCall :=
  [Register "AppShoebox"; Ask; Ask; Finalize; Ask; Ask; Deregister; Register "AppShoebox"; Ask; Register "BetaShoebox"; Ask;
   Finalize; Ask].
Definition shoeboxName (class : string) : option string := if String.eqb class "BetaShoebox" then Some "Beta" else None.
(** The first attempt cannot save, the later ones can. *)
Definition sharedRun : res (list (option SharedController)) * Shared :=
  map_each sharedCalls
    (answer shoeboxRuntime ["Group"] shoeboxName "App" false false (λ _ _, None) (fsError 512) (λ _, true) (λ n, (0 <? n)%nat) uuidOf)
    (mkShared None None false {[ ["Group"] := Directory ]} ∅ 0 []).

Example shared_answers :
  sharedRun.1 = Ok [None; None; None; None; Some (mkController 1 "AppShoebox" "5A-1"); Some (mkController 1 "AppShoebox" "5A-1");
                    None; None; Some (mkController 2 "AppShoebox" "5A-1"); None; Some (mkController 2 "AppShoebox" "5A-1");
                    None; Some (mkController 3 "BetaShoebox" "5A-3")] ∧
  sh_failedToInitialize sharedRun.2 = ["AppShoebox"].
Proof. vm_compute. split; reflexivity. Qed.

Lemma one_shared_package_witness :
  ∃ r st', sharedRun = (Ok r, st') ∧ r !! 4%nat = r !! 5%nat ∧
  (∀ j i, r !! j = Some (Some i) →
     sh_identifiers st' !! folder shoeboxName "App" (sc_class i) = Some (sc_identifier i)).
Proof.
  destruct sharedRun as [[r|e] st'] eqn:E.
  - exists r, st'. split; [reflexivity|].
    destruct (one_shared_package _ _ _ _ _ _ _ _ _ _ _ sharedCalls _ ∅ r st' E) as [Hsame Hall]. split.
    + apply Hsame; [lia|reflexivity..].
    + intros j i Hj. by apply (Hall j i Hj).
  - exfalso. assert (is_ok sharedRun.1 = true) as Hok by (vm_compute; reflexivity). by rewrite E in Hok.
Defined.
End witness.
