(* ===== verification/Contributors.v ===== *)
(** * Contributors: their order and their neighbours

    src/Feather/Sources/Model Controllers/MPContributorsController.m and
    Model/MPContributor.m: a contributor's place among the contributors is kept in
    its [priority]; [+refreshPrioritiesForContributors:changedContributors:] writes
    the places of an array into its elements, and
    [+moveContributors:amongstContributors:toIndex:indexChangeHandler:] is what
    dragging contributors about does.  Contributors are managed objects without an
    [isEqual:] of their own, so they are compared as pointers.  An index is an
    [NSUInteger], a priority an [NSInteger]. *)
From Stdlib Require Import Ascii.
From stdpp Require Import base tactics strings numbers list gmap.
From S2P Require Import Prelude ObjC ReferenceRuntime World Reference EmbeddedObject ManagedObject ObjectTheorems Collections.

Definition NSNotFound : Z := (2 ^ 63 - 1)%Z.

(** [-indexOfObject:], [-removeObject:] and [-insertObject:atIndex:] on pointers *)
Definition indexOfObject (l : list oid) (c : oid) : Z :=
  match first_matching (λ x, bool_decide (x = c)) 0 l with
  | Some (i, _) => Z.of_nat i
  | None => NSNotFound
  end.
Definition removeObject (l : list oid) (c : oid) : list oid :=
  List.filter (λ x, negb (bool_decide (x = c))) l.
Definition insertObject_atIndex {S} (l : list oid) (c : oid) (index : Z) : M S (list oid) :=
  if (index <=? Z.of_nat (length l))%Z then mret (take (Z.to_nat index) l ++ c :: drop (Z.to_nat index) l)%list
  else throw (RangeException index (Z.of_nat (length l))).

Section contributors.
Context {S : Type} `{!CBL S} `{!Env}.
Notation M := (M (World S)).
Local Open Scope string_scope.

(** [NSInteger] properties are stored as numbers; a missing one reads as 0. *)
(* @src Feather/Sources/Model/MPContributor.h 25 27 priority *)
Definition MPContributor_priority (self : oid) : M Z :=
  v ← MO_getValueOfProperty self "priority"; mret (sint64 (numberValue v)).
Definition MPContributor_setPriority (self : oid) (priority : Z) : M unit :=
  MO_set self (Some (NSNumber (sint64 priority))) "priority".

(* @src Feather/Sources/Model/MPContributor.m 42 44 -[MPContributor positiveIntegralPriority] *)
Definition positiveIntegralPriority (self : oid) : M Z :=
  p ← MPContributor_priority self; mret (Z.max 1 (sint64 (p + 1))).

Fixpoint refreshPriorities_from (idx : nat) (contributors : list oid) : M (list oid) :=
  match contributors with
  | [] => mret []
  | c :: rest =>
      p ← MPContributor_priority c;
      if (word p =? Z.of_nat idx)%Z then refreshPriorities_from (1 + idx) rest
      else _ ← MPContributor_setPriority c (Z.of_nat idx);
           changed ← refreshPriorities_from (1 + idx) rest;
           mret (c :: changed)
  end.

(** The count of the changed contributors, and the contributors. *)
(* @src Feather/Sources/Model Controllers/MPContributorsController.m 174 192 +[MPContributorsController refreshPrioritiesForContributors:changedContributors:] *)
Definition refreshPrioritiesForContributors (contributors : list oid) : M (nat * list oid) :=
  changed ← refreshPriorities_from 0 contributors; mret (length changed, changed).

(** One round of the loop of [+moveContributors:...], on [newUniverse]. *)
(* @src Feather/Sources/Model Controllers/MPContributorsController.m 202 219 (part) +[MPContributorsController moveContributors:amongstContributors:toIndex:indexChangeHandler:] *)
Definition moveContributor (handler : option (oid → Z → Z → M unit)) (index : Z)
    (newUniverse : list oid) (contributor : oid) : M (list oid) :=
  let oldIndex := indexOfObject newUniverse contributor in
  if (oldIndex =? index)%Z then mret newUniverse
  else
    let newUniverse :=
      if (oldIndex =? NSNotFound)%Z then newUniverse else removeObject newUniverse contributor in
    newUniverse ← insertObject_atIndex newUniverse contributor index;
    _ ← match handler with Some h => h contributor oldIndex index | None => mret tt end;
    mret newUniverse.

Fixpoint moveContributors_loop (handler : option (oid → Z → Z → M unit)) (index : Z)
    (newUniverse contributors : list oid) : M (list oid) :=
  match contributors with
  | [] => mret newUniverse
  | contributor :: rest =>
      newUniverse ← moveContributor handler index newUniverse contributor;
      moveContributors_loop handler index newUniverse rest
  end.

(** The contributors are taken from the last to the first. *)
(* @src Feather/Sources/Model Controllers/MPContributorsController.m 194 221 +[MPContributorsController moveContributors:amongstContributors:toIndex:indexChangeHandler:] *)
Definition moveContributors (contributors universeOfContributors : list oid) (index : Z)
    (handler : option (oid → Z → Z → M unit)) : M unit :=
  newUniverse ← moveContributors_loop handler index universeOfContributors (rev contributors);
  _ ← refreshPrioritiesForContributors newUniverse; mret tt.

(** ** Neighbours, among [contributorsController.allContributors] *)

(* @src Feather/Sources/Model/MPContributor.m 160 162 -[MPContributor isFirstContributor] *)
Definition isFirstContributor (allContributors : list oid) (self : oid) : bool :=
  bool_decide (head allContributors = Some self).

(* @src Feather/Sources/Model/MPContributor.m 164 166 -[MPContributor isLastContributor] *)
Definition isLastContributor (allContributors : list oid) (self : oid) : bool :=
  bool_decide (last allContributors = Some self).

(* @src Feather/Sources/Model/MPContributor.m 169 181 -[MPContributor previousContributor] *)
Definition previousContributor (allContributors : list oid) (self : oid) : M (option oid) :=
  let index := indexOfObject allContributors self in
  if (index =? 0)%Z then mret None
  else if (index =? NSNotFound)%Z then mret None
  else Some <$> objectAtIndex allContributors (Z.to_nat (word (index - 1))).

(* @src Feather/Sources/Model/MPContributor.m 183 195 -[MPContributor nextContributor] *)
Definition nextContributor (allContributors : list oid) (self : oid) : M (option oid) :=
  let index := indexOfObject allContributors self in
  if (index =? word (Z.of_nat (length allContributors) - 1))%Z then mret None
  else if (index =? NSNotFound)%Z then mret None
  else Some <$> objectAtIndex allContributors (Z.to_nat (word (index + 1))).

(** ** Identities: what is set once *)

(* @src Feather/Sources/Model/MPContributor.m 228 231 -[MPContributorIdentity setIdentifier:] *)
Definition MPContributorIdentity_setIdentifier (self : oid) (identifier : option value) : M unit :=
  v ← MO_getValueOfProperty self "identifier";
  _ ← NSAssert (bool_decide (v = None)) "Identifier should be set only once.";
  MO_set self identifier "identifier".

(* @src Feather/Sources/Model/MPContributor.m 233 236 -[MPContributorIdentity setNamespace:] *)
Definition MPContributorIdentity_setNamespace (self : oid) (namespace : option value) : M unit :=
  v ← MO_getValueOfProperty self "namespace";
  _ ← NSAssert (bool_decide (v = None)) "Namespace should be set only once.";
  MO_set self namespace "namespace".
End contributors.

(** ** What the pointer-array operations do *)
Lemma indexOfObject_lookup (l : list oid) i c :
  NoDup l → l !! i = Some c → indexOfObject l c = Z.of_nat i.
Proof.
  intros Hnd Hi. unfold indexOfObject. pose proof (first_matching_spec (λ x, bool_decide (x = c)) 0 l) as Hf.
  destruct (first_matching _ 0 l) as [[j x]|].
  - destruct Hf as (k & -> & Hk & ->%bool_decide_eq_true & _).
    rewrite (NoDup_lookup l k i c); [done..|]. done.
  - apply list_elem_of_lookup_2, Hf in Hi. by rewrite bool_decide_eq_true_2 in Hi.
Qed.

Lemma indexOfObject_absent (l : list oid) c : c ∉ l → indexOfObject l c = NSNotFound.
Proof.
  intros Hc. unfold indexOfObject. pose proof (first_matching_spec (λ x, bool_decide (x = c)) 0 l) as Hf.
  destruct (first_matching _ 0 l) as [[j x]|]; [|done].
  destruct Hf as (k & -> & Hk & ->%bool_decide_eq_true & _). by apply list_elem_of_lookup_2 in Hk.
Qed.

Lemma removeObject_elem (l : list oid) c x : x ∈ removeObject l c ↔ x ∈ l ∧ x ≠ c.
Proof. unfold removeObject. rewrite filter_bool_elem. by rewrite negb_true_iff, bool_decide_eq_false. Qed.

Lemma removeObject_app (l1 l2 : list oid) c : removeObject (l1 ++ l2) c = (removeObject l1 c ++ removeObject l2 c)%list.
Proof. apply List.filter_app. Qed.

Lemma removeObject_absent (l : list oid) c : c ∉ l → removeObject l c = l.
Proof.
  intros Hc. apply filter_bool_id. intros x Hx. rewrite negb_true_iff, bool_decide_eq_false. by intros ->.
Qed.

Lemma NoDup_removeObject (l : list oid) c : NoDup l → NoDup (removeObject l c).
Proof. rewrite !NoDup_ListNoDup. apply List.NoDup_filter. Qed.

Lemma removeObject_place (l : list oid) i c :
  NoDup l → l !! i = Some c → removeObject l c = (take i l ++ drop (Datatypes.S i) l)%list.
Proof.
  intros Hnd Hi. rewrite <-(take_drop_middle l i c Hi) in Hnd at 1.
  apply NoDup_app in Hnd as (_ & Hd & [Hc _]%NoDup_cons).
  rewrite <-(take_drop_middle l i c Hi) at 1. rewrite removeObject_app.
  rewrite (removeObject_absent (take i l)) by (intros Hin; apply (Hd c Hin); by left).
  f_equal. cbn. rewrite bool_decide_eq_true_2 by done. cbn. by apply removeObject_absent.
Qed.

(** Where moving [c] to the index [k] puts it. *)
Definition placed (k : nat) (u : list oid) (c : oid) : list oid :=
  (take k (removeObject u c) ++ c :: drop k (removeObject u c))%list.

Lemma placed_elem k u c x : x ∈ placed k u c ↔ x = c ∨ x ∈ u.
Proof.
  unfold placed. rewrite elem_of_app, elem_of_cons.
  assert (x ∈ take k (removeObject u c) ∨ x ∈ drop k (removeObject u c) ↔ x ∈ u ∧ x ≠ c) as Hx.
  { by rewrite <-elem_of_app, take_drop, removeObject_elem. }
  destruct (decide (x = c)); naive_solver.
Qed.

Lemma placed_NoDup k u c : NoDup u → NoDup (placed k u c).
Proof.
  intros Hnd. unfold placed. rewrite <-Permutation_middle, take_drop.
  apply NoDup_cons_2; [|by apply NoDup_removeObject].
  by intros [_ ?]%removeObject_elem.
Qed.

Lemma length_removeObject (u : list oid) c : NoDup u → (length u ≤ Datatypes.S (length (removeObject u c)))%nat.
Proof.
  intros Hnd. destruct (decide (c ∈ u)) as [[i Hi]%list_elem_of_lookup_1|Hc].
  - rewrite (removeObject_place u i c) by done. apply lookup_lt_Some in Hi.
    rewrite length_app, length_take, length_drop. lia.
  - rewrite removeObject_absent by done. lia.
Qed.

Lemma length_removeObject_le (u : list oid) c : (length (removeObject u c) ≤ length u)%nat.
Proof. apply List.filter_length_le. Qed.

Lemma placed_length k u c : NoDup u →
  (length u ≤ length (placed k u c) ≤ Datatypes.S (length u))%nat.
Proof.
  intros Hnd. pose proof (length_removeObject u c Hnd). pose proof (length_removeObject_le u c).
  unfold placed. rewrite length_app, length_take. cbn. rewrite length_drop. lia.
Qed.

Lemma placed_filter k u c (P : oid → bool) : P c = false → List.filter P (placed k u c) = List.filter P u.
Proof.
  intros Hc. unfold placed. rewrite List.filter_app. cbn. rewrite Hc, <-List.filter_app, take_drop.
  unfold removeObject. rewrite filter_bool_filter. apply List.filter_ext_in. intros x _.
  destruct (decide (x = c)) as [->|Hx]; [by rewrite Hc, andb_false_r|].
  by rewrite bool_decide_eq_false_2.
Qed.

Lemma placed_lookup k u c : NoDup u → (k < length u)%nat → placed k u c !! k = Some c.
Proof.
  intros Hnd Hk. unfold placed. pose proof (length_removeObject u c Hnd).
  rewrite lookup_app_r; rewrite length_take_le by lia; [by rewrite Nat.sub_diag|lia].
Qed.

Lemma placed_already k u c : NoDup u → u !! k = Some c → placed k u c = u.
Proof.
  intros Hnd Hk. unfold placed. rewrite (removeObject_place u k c Hnd Hk).
  pose proof (lookup_lt_Some _ _ _ Hk).
  rewrite take_app_length', drop_app_length' by (rewrite length_take; lia).
  by apply take_drop_middle.
Qed.

(** ** The order a move leaves behind *)
Definition arranged (k : nat) (u todo : list oid) : list oid := foldl (placed k) u todo.

Lemma arranged_cons k u c todo : arranged k u (c :: todo) = arranged k (placed k u c) todo.
Proof. done. Qed.

Lemma arranged_NoDup k u todo : NoDup u → NoDup (arranged k u todo).
Proof. revert u. induction todo as [|c todo IH]; intros u Hnd; [done|]. by apply IH, placed_NoDup. Qed.

Lemma arranged_elem k u todo x : x ∈ arranged k u todo ↔ x ∈ todo ∨ x ∈ u.
Proof.
  revert u. induction todo as [|c todo IH]; intros u; [by rewrite elem_of_nil; naive_solver|].
  rewrite arranged_cons, IH, placed_elem, elem_of_cons. tauto.
Qed.

Lemma arranged_length k u todo : NoDup u →
  (length u ≤ length (arranged k u todo) ≤ length u + length todo)%nat.
Proof.
  revert u. induction todo as [|c todo IH]; intros u Hnd; [cbn; lia|].
  pose proof (placed_length k u c Hnd). pose proof (IH _ (placed_NoDup k u c Hnd)). rewrite arranged_cons. cbn. lia.
Qed.

Lemma arranged_filter k u todo (P : oid → bool) :
  (∀ c, c ∈ todo → P c = false) → List.filter P (arranged k u todo) = List.filter P u.
Proof.
  revert u. induction todo as [|c todo IH]; intros u Hc; [done|].
  rewrite arranged_cons, IH by (intros; apply Hc; by right). apply placed_filter, Hc. by left.
Qed.

Lemma arranged_snoc k u todo c : arranged k u (todo ++ [c]) = placed k (arranged k u todo) c.
Proof. unfold arranged. by rewrite foldl_app. Qed.

(** The elements of [l] that are not among [cs], in their order. *)
Definition without (cs l : list oid) : list oid := List.filter (λ x, bool_decide (x ∉ cs)) l.

(** Contributors moved up, to a place none of them is in front of, end up there as a block. *)
Lemma arranged_block k u cs :
  NoDup u → NoDup cs → (k < length u)%nat → (∀ c, c ∈ cs → c ∉ take k u) →
  arranged k u (rev cs) = (take k u ++ cs ++ without cs (drop k u))%list.
Proof.
  intros Hu Hcs Hk Hin. induction cs as [|c cs IH]; cbn [rev].
  - rewrite <-(take_drop k u) at 1. cbn. f_equal. symmetry. apply filter_bool_id. intros x _.
    apply bool_decide_eq_true_2, not_elem_of_nil.
  - apply NoDup_cons in Hcs as [Hc Hcs].
    rewrite arranged_snoc, IH by (first [done|intros; apply Hin; by right]).
    unfold placed. rewrite !removeObject_app.
    rewrite (removeObject_absent (take k u)) by (apply Hin; by left).
    rewrite (removeObject_absent cs) by done.
    rewrite take_app_length', drop_app_length' by (rewrite length_take; lia).
    cbn. do 3 f_equal. unfold removeObject, without. rewrite filter_bool_filter.
    apply List.filter_ext. intros x. apply eq_bool_prop_intro. rewrite andb_True, negb_True, !bool_decide_spec.
    rewrite not_elem_of_cons. tauto.
Qed.

(** Contributors moved down, past the place, come out in reverse order. *)
Example moving_down_reverses : arranged 2 [1; 2; 3; 4]%positive (rev [1; 2]%positive) = [3; 2; 1; 4]%positive.
Proof. reflexivity. Qed.

Section moves.
Context {S : Type} `{!CBL S} `{!CBLLaws S} `{!Env}.
Implicit Types w : World S.
Local Open Scope string_scope.

(** A handler that returns, and keeps [P] while it does. *)
Definition tame (P : World S → Prop) (handler : option (oid → Z → Z → M (World S) unit)) : Prop :=
  ∀ h, handler = Some h → ∀ c old new w, P w → ∃ w', h c old new w = (Ok tt, w') ∧ P w'.

Lemma run_moveContributor P handler k u c w :
  tame P handler → NoDup u → (k < length u)%nat → (Z.of_nat (length u) < 2 ^ 63)%Z → P w →
  ∃ w', moveContributor handler (Z.of_nat k) u c w = (Ok (placed k u c), w') ∧ P w'.
Proof.
  intros Hh Hnd Hk Hlen Hw. unfold moveContributor.
  set (old := indexOfObject u c).
  assert ((old = Z.of_nat k ∧ placed k u c = u) ∨
          (old ≠ Z.of_nat k ∧ (if (old =? NSNotFound)%Z then u else removeObject u c) = removeObject u c)) as Hcase.
  { destruct (decide (c ∈ u)) as [[i Hi]%list_elem_of_lookup_1|Hc]; unfold old.
    - rewrite (indexOfObject_lookup u i c) by done. pose proof (lookup_lt_Some _ _ _ Hi) as Hlt.
      destruct (decide (i = k)) as [->|Hne]; [left; by rewrite placed_already|right].
      split; [lia|]. destruct (Z.eqb_spec (Z.of_nat i) NSNotFound); [|done].
      unfold NSNotFound in *. lia.
    - rewrite indexOfObject_absent by done. right. rewrite removeObject_absent by done.
      unfold NSNotFound. split; [lia|done]. }
  destruct Hcase as [[-> ->]|[Hne ->]].
  - rewrite Z.eqb_refl. by exists w.
  - destruct (Z.eqb_spec old (Z.of_nat k)); [done|].
    pose proof (length_removeObject u c Hnd). unfold insertObject_atIndex.
    destruct (Z.leb_spec (Z.of_nat k) (Z.of_nat (length (removeObject u c)))); [|lia].
    rewrite Nat2Z.id, run_bind, run_ret, run_bind. fold (placed k u c).
    destruct handler as [h|]; [|by exists w].
    destruct (Hh h eq_refl c old (Z.of_nat k) w Hw) as (w' & -> & Hw'). by exists w'.
Qed.

Lemma run_moves P handler k u todo w :
  tame P handler → NoDup u → (k < length u)%nat → (Z.of_nat (length u + length todo) < 2 ^ 63)%Z → P w →
  ∃ w', moveContributors_loop handler (Z.of_nat k) u todo w = (Ok (arranged k u todo), w') ∧ P w'.
Proof.
  intros Hh. revert u w. induction todo as [|c todo IH]; intros u w Hnd Hk Hlen Hw; [by exists w|].
  cbn [moveContributors_loop length] in *.
  destruct (run_moveContributor P handler k u c w) as (w1 & Hrun & Hw1); [done..|lia|done|].
  rewrite run_bind, Hrun. pose proof (placed_length k u c Hnd).
  apply (IH (placed k u c) w1); [by apply placed_NoDup|lia..|done].
Qed.

(** ** Priorities *)
Definition priority_in w (c : oid) : Z := sint64 (numberValue (model_get (w_cbl w) c "priority")).

(** A managed object whose properties can be written. *)
Definition writable w (c : oid) : Prop := live w c ∧ is_Some (w_mos w !! c).

(** [w'] differs from [w] in the priorities of [cs] only. *)
Record only_priorities (cs : list oid) w w' : Prop := {
  op_get : ∀ o q, ¬ (o ∈ cs ∧ q = "priority") → model_get (w_cbl w') o q = model_get (w_cbl w) o q;
  op_writable : ∀ o, writable w o → writable w' o;
  op_log : w_log w' = w_log w
}.

Lemma only_priorities_refl cs w : only_priorities cs w w.
Proof. by split. Qed.

Lemma only_priorities_trans cs w1 w2 w3 :
  only_priorities cs w1 w2 → only_priorities cs w2 w3 → only_priorities cs w1 w3.
Proof.
  intros H12 H23. split.
  - intros o q Hq. by rewrite (op_get _ _ _ H23), (op_get _ _ _ H12).
  - intros o Ho. by apply (op_writable _ _ _ H23), (op_writable _ _ _ H12).
  - by rewrite (op_log _ _ _ H23), (op_log _ _ _ H12).
Qed.

Lemma only_priorities_mono cs cs' w w' :
  (∀ c, c ∈ cs → c ∈ cs') → only_priorities cs w w' → only_priorities cs' w w'.
Proof.
  intros Hin Ho. split; [|apply Ho..]. intros o q Hq. apply (op_get _ _ _ Ho). naive_solver.
Qed.

Lemma op_priority cs w w' c : only_priorities cs w w' → c ∉ cs → priority_in w' c = priority_in w c.
Proof. intros Ho Hc. unfold priority_in. rewrite (op_get _ _ _ Ho); [done|naive_solver]. Qed.

Lemma run_setPriority w c n :
  writable w c → (- 2 ^ 63 ≤ n < 2 ^ 63)%Z →
  ∃ w', MPContributor_setPriority c n w = (Ok tt, w') ∧ only_priorities [c] w w' ∧ priority_in w' c = n.
Proof.
  intros [Hlive [m Hm]] Hn. unfold MPContributor_setPriority.
  rewrite (run_MO_set_atom w c _ _ m) by (first [done|by intros [?|?]]).
  eexists. split; [done|]. split; [split|].
  - intros o q Hq. cbn. rewrite get_set_other; [done|]. intros [= -> ->]. apply Hq. split; [by left|done].
  - intros o [[Hd Hx] Hmo]. split; [split|done]; cbn; by rewrite ?document_set, ?docIsDeleted_set.
  - done.
  - unfold priority_in. cbn [w_cbl set_cbl]. rewrite get_set_number. cbn. by rewrite !sint64_id by (rewrite ?sint64_id; done).
Qed.

(** The contributors of [l], numbered from [i], whose priority is not their number. *)
Fixpoint misplaced w (i : nat) (l : list oid) : list oid :=
  match l with
  | [] => []
  | c :: rest => if (priority_in w c =? Z.of_nat i)%Z then misplaced w (1 + i) rest
                 else c :: misplaced w (1 + i) rest
  end.

Lemma misplaced_ext w w' i l :
  (∀ c, c ∈ l → priority_in w' c = priority_in w c) → misplaced w' i l = misplaced w i l.
Proof.
  revert i. induction l as [|c l IH]; intros i Hl; [done|]. cbn.
  rewrite Hl by (by left). rewrite (IH (Datatypes.S i)) by (intros; apply Hl; by right). done.
Qed.

Lemma misplaced_elem w i l c :
  c ∈ misplaced w i l ↔ ∃ j, l !! j = Some c ∧ priority_in w c ≠ Z.of_nat (i + j).
Proof.
  revert i. induction l as [|d l IH]; intros i; cbn.
  - rewrite elem_of_nil. split; [done|]. by intros (j & Hj & _).
  - assert ((∃ j, (d :: l) !! j = Some c ∧ priority_in w c ≠ Z.of_nat (i + j)) ↔
            (c = d ∧ priority_in w c ≠ Z.of_nat i) ∨ c ∈ misplaced w (Datatypes.S i) l) as ->.
    { rewrite IH. split.
      - intros ([|j] & Hj & Hp); cbn in Hj; [left; simplify_eq; by rewrite Nat.add_0_r in Hp|right].
        exists j. by rewrite Nat.add_succ_comm.
      - intros [[-> Hp]|(j & Hj & Hp)]; [exists 0%nat; by rewrite Nat.add_0_r|].
        exists (Datatypes.S j). by rewrite <-Nat.add_succ_comm. }
    destruct (Z.eqb_spec (priority_in w d) (Z.of_nat i)); [|rewrite elem_of_cons]; naive_solver.
Qed.

Lemma run_refresh w i l :
  NoDup l → (∀ c, c ∈ l → writable w c) → (Z.of_nat (i + length l) < 2 ^ 63)%Z →
  ∃ w', refreshPriorities_from i l w = (Ok (misplaced w i l), w') ∧ only_priorities l w w' ∧
        ∀ j c, l !! j = Some c → priority_in w' c = Z.of_nat (i + j).
Proof.
  revert w i. induction l as [|c l IH]; intros w i Hnd Hw Hlen.
  { exists w. split; [done|]. split; [apply only_priorities_refl|done]. }
  apply NoDup_cons in Hnd as [Hc Hnd]. cbn [refreshPriorities_from misplaced length] in *.
  assert (MPContributor_priority c w = (Ok (priority_in w c), w)) as Hp by done.
  rewrite run_bind, Hp.
  assert ((word (priority_in w c) =? Z.of_nat i)%Z = (priority_in w c =? Z.of_nat i)%Z) as ->.
  { apply eq_bool_prop_intro. rewrite !Is_true_true, !Z.eqb_eq. apply word_sint64_eq. lia. }
  assert (∃ w1, only_priorities [c] w w1 ∧ priority_in w1 c = Z.of_nat i ∧
            (priority_in w c = Z.of_nat i ∧ w1 = w ∨
             priority_in w c ≠ Z.of_nat i ∧ MPContributor_setPriority c (Z.of_nat i) w = (Ok tt, w1)))
    as (w1 & Ho1 & Hp1 & Hcase).
  { destruct (decide (priority_in w c = Z.of_nat i)) as [Heq|Hne].
    - exists w. split_and!; [apply only_priorities_refl|done|by left].
    - destruct (run_setPriority w c (Z.of_nat i)) as (w1 & Hrun & Ho & Hp1); [apply Hw; by left|lia|].
      exists w1. split_and!; [done..|by right]. }
  assert (∀ d, d ∈ l → priority_in w1 d = priority_in w d) as Hsame.
  { intros d Hd. apply (op_priority [c]); [done|]. by intros ->%list_elem_of_singleton. }
  destruct (IH w1 (1 + i)%nat) as (w2 & Hrun & Ho2 & Hp2);
    [done|intros; apply (op_writable _ _ _ Ho1), Hw; by right|lia|].
  rewrite (misplaced_ext w w1) in Hrun by done.
  exists w2. split_and!.
  - destruct Hcase as [[-> ->]|[Hne Hset]]; [by rewrite Z.eqb_refl|].
    destruct (Z.eqb_spec (priority_in w c) (Z.of_nat i)); [done|].
    rewrite run_bind, Hset. by rewrite run_bind, Hrun.
  - apply (only_priorities_trans _ w w1).
    + apply (only_priorities_mono [c]); [|done]. intros d ->%list_elem_of_singleton. by left.
    + apply (only_priorities_mono l); [|done]. intros d Hd. by right.
  - intros [|j] d Hj; cbn in Hj; [simplify_eq|].
    + by rewrite (op_priority l w1), Nat.add_0_r.
    + rewrite (Hp2 j d Hj). f_equal. lia.
Qed.

Lemma misplaced_sublist w i l : misplaced w i l `sublist_of` l.
Proof.
  revert i. induction l as [|c l IH]; intros i; cbn; [done|].
  destruct (_ =? _)%Z; [by apply sublist_cons|by apply sublist_skip].
Qed.

Lemma refresh_settled w l :
  (Z.of_nat (length l) < 2 ^ 63)%Z → (∀ i c, l !! i = Some c → priority_in w c = Z.of_nat i) →
  refreshPrioritiesForContributors l w = (Ok (0%nat, []), w).
Proof.
  intros Hlen Hp. unfold refreshPrioritiesForContributors.
  assert (∀ i, (∀ j c, l !! j = Some c → priority_in w c = Z.of_nat (i + j)) → (Z.of_nat (i + length l) < 2 ^ 63)%Z →
            refreshPriorities_from i l w = (Ok [], w)) as Hgo.
  { clear. induction l as [|c l IH]; intros i Hp Hlen; [done|].
    cbn [refreshPriorities_from length] in *.
    assert (MPContributor_priority c w = (Ok (priority_in w c), w)) as Hr by done.
    rewrite run_bind, Hr. pose proof (Hp 0%nat c eq_refl) as Hc. rewrite Nat.add_0_r in Hc.
    rewrite Hc, word_id, Z.eqb_refl by lia.
    apply (IH (1 + i)%nat); [|lia]. intros j d Hj. rewrite (Hp (Datatypes.S j) d Hj). f_equal. lia. }
  by rewrite run_bind, Hgo.
Qed.

(** Writing places into contributors: for distinct contributors,
    [refreshPrioritiesForContributors:changedContributors:] always returns, every
    contributor's priority is then its index in the array, the contributors
    reported as changed are those whose priority was another one, in their order,
    and the count is theirs; no other property of any object changes, nothing is
    posted, and doing it
    again changes nothing. *)
Theorem refreshing_priorities w contributors :
  NoDup contributors → (∀ c, c ∈ contributors → writable w c) →
  (Z.of_nat (length contributors) < 2 ^ 63)%Z →
  ∃ changed w', refreshPrioritiesForContributors contributors w = (Ok (length changed, changed), w') ∧
    (∀ i c, contributors !! i = Some c → priority_in w' c = Z.of_nat i) ∧
    (∀ c, c ∈ changed ↔ ∃ i, contributors !! i = Some c ∧ priority_in w c ≠ Z.of_nat i) ∧
    changed `sublist_of` contributors ∧
    only_priorities contributors w w' ∧
    refreshPrioritiesForContributors contributors w' = (Ok (0%nat, []), w').
Proof.
  intros Hnd Hw Hlen. destruct (run_refresh w 0 contributors) as (w' & Hrun & Ho & Hp); [done..|].
  exists (misplaced w 0 contributors), w'. unfold refreshPrioritiesForContributors.
  split_and!; [by rewrite run_bind, Hrun|done|intros c; apply misplaced_elem|apply misplaced_sublist|done|].
  by apply refresh_settled.
Qed.

(** C31 (functional). Moving contributors: moving distinct contributors to an index
    that names an existing place always returns when the handler does. The
    contributors are then ordered - each one's priority is its place - so that the
    first of the moved ones is at the index asked for, the others keep their order
    among themselves, and no contributor is lost or doubled; if none of the moved
    ones was in front of that place, they come to stand there as a block in the
    order given. Apart from the handler's doings only priorities change. *)
Theorem moving_contributors w contributors universe (index : nat) handler P :
  NoDup universe → NoDup contributors → (index < length universe)%nat →
  (Z.of_nat (length universe + length contributors) < 2 ^ 63)%Z →
  tame P handler → P w →
  (∀ w1, P w1 → ∀ c, c ∈ universe ∨ c ∈ contributors → writable w1 c) →
  ∃ order w1 w', moveContributors contributors universe (Z.of_nat index) handler w = (Ok tt, w') ∧
    P w1 ∧ only_priorities order w1 w' ∧
    NoDup order ∧ (∀ c, c ∈ order ↔ c ∈ contributors ∨ c ∈ universe) ∧
    (∀ i c, order !! i = Some c → priority_in w' c = Z.of_nat i) ∧
    (∀ c, head contributors = Some c → order !! index = Some c) ∧
    without contributors order = without contributors universe ∧
    ((∀ c, c ∈ contributors → c ∉ take index universe) →
       order = (take index universe ++ contributors ++ without contributors (drop index universe))%list).
Proof.
  intros Hu Hcs Hk Hlen Hh Hw HP. set (order := arranged index universe (rev contributors)).
  assert (∀ c, c ∈ order ↔ c ∈ contributors ∨ c ∈ universe) as Hel.
  { intros c. unfold order. rewrite arranged_elem, !list_elem_of_In, <-in_rev. done. }
  pose proof (arranged_length index universe (rev contributors) Hu) as Hl. fold order in Hl. rewrite length_rev in Hl.
  destruct (run_moves P handler index universe (rev contributors) w) as (w1 & Hrun & Hw1);
    [done..|by rewrite length_rev|done|]. fold order in Hrun.
  destruct (run_refresh w1 0 order) as (w' & Href & Ho & Hp);
    [by apply arranged_NoDup|intros c Hc; apply HP; naive_solver|lia|].
  exists order, w1, w'. split_and!; try done; [| |intros c Hc| |by apply arranged_block].
  - unfold moveContributors, refreshPrioritiesForContributors.
    by rewrite run_bind, Hrun, run_bind, run_bind, Href.
  - by apply arranged_NoDup.
  - destruct contributors as [|c' cs]; [done|]. injection Hc as ->. unfold order. cbn [rev].
    rewrite arranged_snoc. pose proof (arranged_length index universe (rev cs) Hu).
    apply placed_lookup; [by apply arranged_NoDup|lia].
  - apply arranged_filter. intros c Hc. apply bool_decide_eq_false_2.
    rewrite list_elem_of_In, <-in_rev, <-list_elem_of_In in Hc. naive_solver.
Qed.
End moves.

Section neighbours.
Context {S : Type}.
Implicit Types w : World S.

Lemma run_previous (l : list oid) i c w :
  NoDup l → (Z.of_nat (length l) < 2 ^ 63)%Z → l !! i = Some c →
  previousContributor l c w = (Ok (match i with 0%nat => None | Datatypes.S j => l !! j end), w).
Proof.
  intros Hnd Hlen Hi. pose proof (lookup_lt_Some _ _ _ Hi) as Hlt.
  unfold previousContributor. rewrite (indexOfObject_lookup l i c) by done.
  destruct i as [|j]; [done|].
  destruct (Z.eqb_spec (Z.of_nat (Datatypes.S j)) 0); [lia|].
  destruct (Z.eqb_spec (Z.of_nat (Datatypes.S j)) NSNotFound); [unfold NSNotFound in *; lia|].
  rewrite word_id by lia. replace (Z.to_nat (Z.of_nat (Datatypes.S j) - 1)) with j by lia.
  destruct (lookup_lt_is_Some_2 l j) as [d Hd]; [lia|].
  change (Some <$> ?m) with (x ← m; mret (Some x)). unfold objectAtIndex. by rewrite Hd.
Qed.

Lemma run_next (l : list oid) i c w :
  NoDup l → (Z.of_nat (length l) < 2 ^ 63)%Z → l !! i = Some c →
  nextContributor l c w = (Ok (l !! Datatypes.S i), w).
Proof.
  intros Hnd Hlen Hi. pose proof (lookup_lt_Some _ _ _ Hi) as Hlt.
  unfold nextContributor. rewrite (indexOfObject_lookup l i c), !word_id by (done || lia).
  destruct (Z.eqb_spec (Z.of_nat i) (Z.of_nat (length l) - 1)).
  { by rewrite lookup_ge_None_2 by lia. }
  destruct (Z.eqb_spec (Z.of_nat i) NSNotFound); [unfold NSNotFound in *; lia|].
  replace (Z.to_nat (Z.of_nat i + 1)) with (Datatypes.S i) by lia.
  destruct (lookup_lt_is_Some_2 l (Datatypes.S i)) as [d Hd]; [lia|].
  change (Some <$> ?m) with (x ← m; mret (Some x)). unfold objectAtIndex. by rewrite Hd.
Qed.

Lemma run_absent (l : list oid) c w :
  (Z.of_nat (length l) < 2 ^ 63)%Z → c ∉ l →
  previousContributor l c w = (Ok None, w) ∧ nextContributor l c w = (Ok None, w).
Proof.
  intros Hlen Hc. unfold previousContributor, nextContributor. rewrite indexOfObject_absent by done.
  split; [done|]. by destruct (_ =? _)%Z.
Qed.

(** Neighbours: among distinct contributors the previous and the
    next one never index outside the array, the first has no previous one and the
    last no next one, a contributor that is not among them has neither, and going
    forth and back returns: [p] is the previous one of [c] exactly when [c] is the
    next one of [p]. *)
Theorem neighbours (l : list oid) w :
  NoDup l → (Z.of_nat (length l) < 2 ^ 63)%Z →
  (∀ c, ∃ p n, previousContributor l c w = (Ok p, w) ∧ nextContributor l c w = (Ok n, w) ∧
     (c ∈ l → (p = None ↔ isFirstContributor l c = true) ∧ (n = None ↔ isLastContributor l c = true)) ∧
     (c ∉ l → p = None ∧ n = None)) ∧
  (∀ c p, previousContributor l c w = (Ok (Some p), w) ↔ nextContributor l p w = (Ok (Some c), w)).
Proof.
  intros Hnd Hlen. split.
  - intros c. destruct (decide (c ∈ l)) as [[i Hi]%list_elem_of_lookup_1|Hc].
    + pose proof (lookup_lt_Some _ _ _ Hi) as Hlt. eexists _, _.
      split; [by eapply run_previous|]. split; [by eapply run_next|].
      split; [intros _|intros Hc; exfalso; by eapply Hc, list_elem_of_lookup_2].
      unfold isFirstContributor, isLastContributor. rewrite !bool_decide_eq_true, head_lookup, last_lookup.
      split.
      * destruct i as [|j]; [by split|]. destruct (lookup_lt_is_Some_2 l j) as [d Hd]; [lia|].
        rewrite Hd. split; [done|]. intros H0. by pose proof (NoDup_lookup l _ _ _ Hnd H0 Hi).
      * rewrite lookup_ge_None. split; [intros; by replace (pred (length l)) with i by lia|].
        intros H0. pose proof (NoDup_lookup l _ _ _ Hnd H0 Hi). lia.
    + destruct (run_absent l c w Hlen Hc). by exists None, None.
  - intros c p. split; intros Hrun.
    + destruct (decide (c ∈ l)) as [[i Hi]%list_elem_of_lookup_1|Hc].
      2:{ destruct (run_absent l c w Hlen Hc) as [E _]. rewrite E in Hrun. discriminate Hrun. }
      rewrite (run_previous l i c w) in Hrun by done. destruct i as [|j]; [discriminate Hrun|].
      injection Hrun as Hj. by rewrite (run_next l j p w), Hi.
    + destruct (decide (p ∈ l)) as [[i Hi]%list_elem_of_lookup_1|Hc].
      2:{ destruct (run_absent l p w Hlen Hc) as [_ E]. rewrite E in Hrun. discriminate Hrun. }
      rewrite (run_next l i p w) in Hrun by done. injection Hrun as Hj.
      by rewrite (run_previous l (Datatypes.S i) c w), Hi.
Qed.
End neighbours.

(** ** The theorems at work *)
Section witnesses.
#[local] Existing Instances Reference.store_CBL Reference.store_laws Reference.env.
Local Open Scope string_scope.

Definition fixture_contributor (priority : Z) : Reference.model :=
  Reference.mkModel (Some "MPContributor:1") false None {["priority" := NSNumber priority]} ∅ [] false.
Definition fixture : World Reference.store :=
  mkWorld (Reference.mkStore (list_to_map [(1, fixture_contributor 2); (2, fixture_contributor 1); (3, fixture_contributor 0)]%positive) None ∅)
    (list_to_map ((λ o, (o, mkMO "MPContributor" None None None None false None None)) <$> [1; 2; 3]%positive))
    ∅ ∅ ∅ None ∅ ∅ [] 0 0 10%positive.

Definition all_writable (w : World Reference.store) : Prop :=
  ∀ c, c ∈ [1; 2; 3]%positive → writable w c.

Lemma fixture_writable : all_writable fixture.
Proof.
  intros c Hc. repeat (apply elem_of_cons in Hc as [->|Hc]); [..|by apply elem_of_nil in Hc];
    (split; [split|]; [by eexists|reflexivity|by eexists]).
Defined.

Lemma refreshing_priorities_witness :
  ∃ w', refreshPrioritiesForContributors [1; 2; 3]%positive fixture = (Ok (2%nat, [1; 3]%positive), w') ∧
        priority_in w' 1%positive = 0%Z ∧ priority_in w' 3%positive = 2%Z.
Proof.
  destruct (refreshing_priorities fixture [1; 2; 3]%positive) as (ch & w' & Hrun & Hp & _);
    [by apply (bool_decide_unpack _)|exact fixture_writable|reflexivity|].
  assert ((refreshPrioritiesForContributors [1; 2; 3]%positive fixture).1 = Ok (2%nat, [1; 3]%positive)) as E
    by (vm_compute; reflexivity).
  exists w'. rewrite Hrun in E |- *. cbn in E. injection E as E1 E2. rewrite E1, E2.
  split; [reflexivity|]. split; [exact (Hp 0%nat 1%positive eq_refl)|exact (Hp 2%nat 3%positive eq_refl)].
Defined.

Lemma moving_contributors_witness :
  ∃ w', moveContributors [2; 3]%positive [1; 2; 3]%positive 0 None fixture = (Ok tt, w') ∧
        priority_in w' 2%positive = 0%Z ∧ priority_in w' 3%positive = 1%Z ∧ priority_in w' 1%positive = 2%Z.
Proof.
  destruct (moving_contributors fixture [2; 3]%positive [1; 2; 3]%positive 0 None all_writable)
    as (order & w1 & w' & Hrun & _ & _ & _ & _ & Hp & _ & _ & Hblock).
  - by apply (bool_decide_unpack _).
  - by apply (bool_decide_unpack _).
  - cbn. lia.
  - reflexivity.
  - intros h [=].
  - exact fixture_writable.
  - intros w1 Hw c Hc. apply Hw. destruct Hc as [Hc|Hc]; [exact Hc|]. by right.
  - exists w'. split; [exact Hrun|]. rewrite Hblock in Hp by (intros; apply not_elem_of_nil).
    split; [exact (Hp 0%nat 2%positive eq_refl)|]. split; [exact (Hp 1%nat 3%positive eq_refl)|exact (Hp 2%nat 1%positive eq_refl)].
Defined.

Lemma neighbours_witness :
  previousContributor [1; 2; 3]%positive 3%positive fixture = (Ok (Some 2%positive), fixture) ∧
  nextContributor [1; 2; 3]%positive 2%positive fixture = (Ok (Some 3%positive), fixture).
Proof.
  split; [reflexivity|].
  apply (proj2 (neighbours [1; 2; 3]%positive fixture ltac:(by apply (bool_decide_unpack _)) eq_refl)).
  reflexivity.
Defined.
End witnesses.
