(* ===== verification/Conflicts.v ===== *)
(** * Conflicting revisions of an object

    How a controller settles a document with several current revisions:
    [-resolveConflictingRevisions:] and [-resolveConflictingRevisionsForObject:error:]
    of src/Feather/Sources/Model Controllers/MPManagedObjectsController.m, and
    [-didLoadFromDocument] of Model/MPManagedObject.m, which asks for it.
    CouchbaseLite's revision tree is seen through its live leaves. *)
From Stdlib Require Import Ascii Sorted.
From stdpp Require Import base tactics strings numbers list gmap.
From S2P Require Import Prelude ObjC ReferenceRuntime Classes World Reference Controllers EmbeddedObject ManagedObject.

(** What the code asks of the revision tree and of the order of revision
    identifiers; [-sortedArrayUsingComparator:], whose block may raise; and
    [-[NSNumber compare:]] with [nil], which Foundation leaves undefined. *)
Class CBLRevisions (S : Type) := {
  (** [[model.document getConflictingRevisions:&err]] *)
  doc_getConflictingRevisions : S → oid → list CBLSavedRevision + option NSError;
  (** [[rev deleteDocument:err]] *)
  rev_deleteDocument : S → oid → CBLSavedRevision → outcome * S;
  (** [[rev createRevisionWithProperties:error:]] *)
  rev_createRevision : S → oid → CBLSavedRevision → list (string * value) → outcome * S;
  CBLCompareRevIDs : string → string → comparison;
  compareWithNil : value → comparison;
  sortedArrayUsingComparator :
    (CBLSavedRevision → CBLSavedRevision → res comparison) → list CBLSavedRevision → res (list CBLSavedRevision)
}.

(** A comparison that is a total order up to [Eq]. *)
Record comparator {A} (f : A → A → comparison) (l : list A) : Prop := {
  comparator_sym : ∀ a b, a ∈ l → b ∈ l → f b a = CompOpp (f a b);
  comparator_trans : ∀ a b c, a ∈ l → b ∈ l → c ∈ l → f a b ≠ Gt → f b c ≠ Gt → f a c ≠ Gt
}.
Arguments comparator {A} f l.

(** The documented behaviour: identifiers are unique in a tree, deleting a leaf
    leaves the others, a revision created on a leaf takes its place, a failing
    operation leaves the tree alone; revision identifiers are totally ordered;
    sorting by a consistent comparator that does not raise sorts. *)
Class CBLRevisionLaws (S : Type) `{!CBLRevisions S} := {
  leaves_unique : ∀ s o l, doc_getConflictingRevisions s o = inl l → NoDup (sr_revisionID <$> l);
  leaves_delete : ∀ s o l1 r l2 s',
    doc_getConflictingRevisions s o = inl (l1 ++ r :: l2)%list → rev_deleteDocument s o r = (YES, s') →
    ∃ l, doc_getConflictingRevisions s' o = inl l ∧ l ≡ₚ (l1 ++ l2)%list;
  leaves_delete_fail : ∀ s o r e s', rev_deleteDocument s o r = (NO e, s') →
    doc_getConflictingRevisions s' o = doc_getConflictingRevisions s o;
  leaves_create : ∀ s o l1 r l2 p s',
    doc_getConflictingRevisions s o = inl (l1 ++ r :: l2)%list → rev_createRevision s o r p = (YES, s') →
    ∃ i l, doc_getConflictingRevisions s' o = inl l ∧ l ≡ₚ mkSaved i p :: (l1 ++ l2)%list;
  leaves_create_fail : ∀ s o r p e s', rev_createRevision s o r p = (NO e, s') →
    doc_getConflictingRevisions s' o = doc_getConflictingRevisions s o;
  revIDs_eq : ∀ i j, CBLCompareRevIDs i j = Eq → i = j;
  revIDs_sym : ∀ i j, CBLCompareRevIDs j i = CompOpp (CBLCompareRevIDs i j);
  revIDs_trans : ∀ i j k, CBLCompareRevIDs i j ≠ Gt → CBLCompareRevIDs j k ≠ Gt → CBLCompareRevIDs i k ≠ Gt;
  sorted_sorts : ∀ cmp f l, (∀ a b, a ∈ l → b ∈ l → cmp a b = Ok (f a b)) → comparator f l →
    ∃ l', sortedArrayUsingComparator cmp l = Ok l' ∧ l' ≡ₚ l ∧ StronglySorted (λ a b, f a b ≠ Gt) l'
}.

Section conflicts.
Context {S : Type} `{!CBL S} `{!CBLRevisions S} `{!Env}.
Notation M := (M (World S)).
Local Open Scope string_scope.

Definition isNumber (v : value) : bool := match v with NSNumber _ => true | _ => false end.

(** [[a compare:b]], a message to [nil] giving [NSOrderedSame] *)
Definition NSNumber_compare (a b : option value) : comparison :=
  match a, b with
  | None, _ => Eq
  | Some x, Some y => Z.compare (numberValue (Some x)) (numberValue (Some y))
  | Some x, None => compareWithNil x
  end.

(* @src Feather/Sources/Model Controllers/MPManagedObjectsController.m 384 401 (part) -[MPManagedObjectsController resolveConflictingRevisionsForObject:error:] *)
Definition compareRevisions (revA revB : CBLSavedRevision) : res comparison :=
  let changedAtA := assoc "updatedAt" (sr_properties revA) in
  let changedAtB := assoc "updatedAt" (sr_properties revB) in
  _ ← assert_ (match changedAtA with Some v => isNumber v | None => true end) "[changedAtA isKindOfClass:[NSNumber class]]";
  _ ← assert_ (match changedAtB with Some v => isNumber v | None => true end) "[changedAtB isKindOfClass:[NSNumber class]]";
  match NSNumber_compare changedAtA changedAtB with
  | Eq => Ok (CBLCompareRevIDs (sr_revisionID revA) (sr_revisionID revB))
  | comparison => Ok comparison
  end.

(** Deletes the given revisions, up to the first one that cannot be. *)
(* @src Feather/Sources/Model Controllers/MPManagedObjectsController.m 403 409 (part) -[MPManagedObjectsController resolveConflictingRevisionsForObject:error:] *)
Fixpoint deleteRevisions (obj : oid) (revs : list CBLSavedRevision) : M outcome :=
  match revs with
  | [] => mret YES
  | rev :: rest =>
      o ← cbl_run (λ s, rev_deleteDocument s obj rev);
      match o with NO e => mret (NO e) | YES => deleteRevisions obj rest end
  end.

(** [[obj.document getConflictingRevisions:err]]; without a document the answer is
    [nil] and no error. *)
Definition getConflictingRevisions (obj : oid) : M (list CBLSavedRevision + option NSError) :=
  d ← cbl_gets (λ s, model_document s obj);
  match d with
  | None => mret (inr None)
  | Some _ => cbl_gets (λ s, doc_getConflictingRevisions s obj)
  end.

(* @src Feather/Sources/Model Controllers/MPManagedObjectsController.m 370 414 -[MPManagedObjectsController resolveConflictingRevisionsForObject:error:] *)
Definition MOC_resolveConflictingRevisionsForObject (self : cid) (obj : oid) : M outcome :=
  _ ← assertManaged self obj;
  revs ← getConflictingRevisions obj;
  match revs with
  | inr err => mret (NO err)
  | inl revs =>
      if (length revs <? 2)%nat then mret YES
      else
        revs ← lift (sortedArrayUsingComparator compareRevisions revs);
        deleted ← deleteRevisions obj (drop 1 revs);
        match deleted with
        | NO err => mret (NO err)
        | YES =>
            match revs with
            | [] => throw (RangeException 0 0)
            | rev :: _ => cbl_run (λ s, rev_createRevision s obj rev (sr_properties rev))
            end
        end
  end.

(** The objects are those of the view of all objects. *)
(* @src Feather/Sources/Model Controllers/MPManagedObjectsController.m 360 367 -[MPManagedObjectsController resolveConflictingRevisions:] *)
Fixpoint MOC_resolveConflictingRevisions (self : cid) (allObjects : list oid) : M outcome :=
  match allObjects with
  | [] => mret YES
  | mo :: rest =>
      o ← MOC_resolveConflictingRevisionsForObject self mo;
      match o with NO err => mret (NO err) | YES => MOC_resolveConflictingRevisions self rest end
  end.

(** [[[_controller packageController] notificationCenter] postErrorNotification:err] *)
Definition postErrorToController (controller : option cid) (err : NSError) : M unit :=
  match controller with
  | None => mret tt
  | Some c => nc ← notificationCenter c;
              if (nc : bool) then postErrorNotification (Some err) else mret tt
  end.

(* @src Feather/Sources/Model/MPManagedObject.m 630 658 -[MPManagedObject didLoadFromDocument] *)
Definition MO_didLoadFromDocument (self : oid) : M unit :=
  conflictingRevs ← getConflictingRevisions self;
  m ← getMO self;
  _ ← match conflictingRevs with
      | inr (Some err) => postErrorToController (mo_controller m) err
      | _ => mret tt
      end;
  _ ← (if match conflictingRevs with inl l => (1 <? length l)%nat | inr _ => false end
       then
         resolved ← match mo_controller m with
                    | None => mret (NO None)
                    | Some c => MOC_resolveConflictingRevisionsForObject c self
                    end;
         match resolved with
         | NO (Some err) => postErrorToController (mo_controller m) err
         | _ => mret tt
         end
       else mret tt);
  match mo_controller m with
  | None => throw (AssertionFailed "_controller")
  | Some c => MOC_didLoadObjectFromDocument c self
  end.
End conflicts.

(** ** Which revision wins *)
Section resolution.
Context {S : Type} `{!CBL S} `{!CBLRevisions S} `{!CBLRevisionLaws S} `{!Env}.
Implicit Types w : World S.
Local Open Scope string_scope.

Definition changed_at (r : CBLSavedRevision) : option Z :=
  match assoc "updatedAt" (sr_properties r) with Some (NSNumber n) => Some n | _ => None end.

(** Changed earlier, ties going by the revision identifier. *)
Definition older (a b : CBLSavedRevision) : comparison :=
  match Z.compare (default 0%Z (changed_at a)) (default 0%Z (changed_at b)) with
  | Eq => CBLCompareRevIDs (sr_revisionID a) (sr_revisionID b)
  | c => c
  end.

Lemma compareRevisions_older a b :
  is_Some (changed_at a) → is_Some (changed_at b) → compareRevisions a b = Ok (older a b).
Proof.
  unfold changed_at, compareRevisions, older, changed_at. intros [x Hx] [y Hy].
  destruct (assoc "updatedAt" (sr_properties a)) as [[]|]; try done.
  destruct (assoc "updatedAt" (sr_properties b)) as [[]|]; try done.
  cbn. by destruct (_ ?= _)%Z.
Qed.

Lemma older_comparator l : comparator older l.
Proof.
  split.
  - intros a b _ _. unfold older. rewrite Z.compare_antisym.
    destruct (Z.compare_spec (default 0 (changed_at a)) (default 0 (changed_at b)))%Z; cbn; [apply revIDs_sym|done..].
  - intros a b c _ _ _. unfold older.
    destruct (Z.compare_spec (default 0 (changed_at a)) (default 0 (changed_at b)))%Z;
      destruct (Z.compare_spec (default 0 (changed_at b)) (default 0 (changed_at c)))%Z;
      destruct (Z.compare_spec (default 0 (changed_at a)) (default 0 (changed_at c)))%Z;
      try done; try lia. apply revIDs_trans.
Qed.

Lemma older_eq a b : older a b = Eq → sr_revisionID a = sr_revisionID b.
Proof. unfold older. destruct (_ ?= _)%Z; try done. apply revIDs_eq. Qed.

Lemma unique_revision l a b :
  NoDup (sr_revisionID <$> l) → a ∈ l → b ∈ l → sr_revisionID a = sr_revisionID b → a = b.
Proof.
  intros Hnd [i Hi]%list_elem_of_lookup_1 [j Hj]%list_elem_of_lookup_1 Heq.
  assert (i = j) as ->; [|congruence].
  apply (NoDup_lookup _ _ _ (sr_revisionID a) Hnd); rewrite list_lookup_fmap; [by rewrite Hi|by rewrite Hj, Heq].
Qed.

Lemma run_deleteRevisions winner obj todo w l :
  doc_getConflictingRevisions (w_cbl w) obj = inl l → l ≡ₚ winner :: todo →
  ∃ o s, deleteRevisions obj todo w = (Ok o, set_cbl s w) ∧
    ∃ l', doc_getConflictingRevisions s obj = inl l' ∧ winner ∈ l' ∧ (∀ r, r ∈ l' → r ∈ l) ∧
          (o = YES → l' = [winner]).
Proof.
  revert w l. induction todo as [|r todo IH]; intros w l Hl Hp.
  { exists YES, (w_cbl w). split; [by destruct w|]. apply Permutation_singleton_r in Hp as ->.
    exists [winner]. split_and!; [done|by left|done..]. }
  cbn [deleteRevisions]. unfold cbl_run at 1. rewrite run_bind.
  destruct (rev_deleteDocument (w_cbl w) obj r) as [[|e] s] eqn:E.
  - assert (r ∈ l) as Hr by (rewrite Hp; right; by left).
    apply list_elem_of_split in Hr as (l1 & l2 & ->).
    destruct (leaves_delete _ _ _ _ _ _ Hl E) as (l3 & Hl3 & Hp3).
    assert (l3 ≡ₚ winner :: todo) as Hp3'.
    { rewrite Hp3. apply (Permutation_cons_inv (a := r)). rewrite Permutation_middle, Hp. apply perm_swap. }
    destruct (IH (set_cbl s w) l3 Hl3 Hp3') as (o & s' & Hrun & l' & Hl' & Hw & Hin & Ho).
    exists o, s'. split; [by rewrite Hrun|]. exists l'. split_and!; [done..| |done].
    intros x Hx%Hin. rewrite Hp3 in Hx. set_solver.
  - exists (NO e), s. split; [done|]. exists l.
    rewrite (leaves_delete_fail _ _ _ _ _ E). split_and!; [done|rewrite Hp; by left|done..].
Qed.

(** C28 (functional). Settling a conflict: of the live revisions of a document, each
    with the number of its last change, the one changed first wins - the order of
    the revision identifiers deciding between equals -, so that the winner depends
    on the revisions only and not on the order they are listed in. The resolution
    always returns; when it reports success the document has one live revision,
    with the winner's properties; when an operation fails its failure is reported
    and the winner is still there, other revisions may be gone but none is made up.
    No managed object, controller or notification is touched. *)
Theorem conflicts_settled w self obj revs :
  assertManaged self obj w = (Ok tt, w) →
  is_Some (model_document (w_cbl w) obj) →
  doc_getConflictingRevisions (w_cbl w) obj = inl revs →
  (1 < length revs)%nat → (∀ r, r ∈ revs → is_Some (changed_at r)) →
  ∃ winner o s, winner ∈ revs ∧ (∀ r, r ∈ revs → r ≠ winner → older winner r = Lt) ∧
    MOC_resolveConflictingRevisionsForObject self obj w = (Ok o, set_cbl s w) ∧
    match o with
    | YES => ∃ i, doc_getConflictingRevisions s obj = inl [mkSaved i (sr_properties winner)]
    | NO _ => ∃ l, doc_getConflictingRevisions s obj = inl l ∧ winner ∈ l ∧ ∀ r, r ∈ l → r ∈ revs
    end.
Proof.
  intros Hm [d Hd] Hl Hlen Hnum.
  destruct (sorted_sorts compareRevisions older revs) as (l' & Hsort & Hp & Hs);
    [intros; by apply compareRevisions_older; apply Hnum|apply older_comparator|].
  destruct l' as [|winner todo]; [apply Permutation_length in Hp; cbn in Hp; lia|].
  exists winner. assert (winner ∈ revs) as Hw by (rewrite <-Hp; by left).
  assert (∀ r, r ∈ revs → r ≠ winner → older winner r = Lt) as Hwin.
  { intros r Hr Hne. destruct (older winner r) eqn:E; [|done|].
    - destruct Hne. symmetry. eapply unique_revision; [by eapply leaves_unique|done..|by apply older_eq].
    - apply StronglySorted_inv in Hs as [_ Hs]. rewrite Forall_forall in Hs.
      rewrite <-Hp in Hr. apply elem_of_cons in Hr as [->|Hr]; [done|]. by apply Hs in Hr. }
  destruct (run_deleteRevisions winner obj todo w revs Hl) as (o & s & Hrun & l & Hls & Hwl & Hin & Ho); [done|].
  assert (∀ o' w', (o' ← deleteRevisions obj todo;
      match o' with NO err => mret (NO err)
      | YES => cbl_run (λ s, rev_createRevision s obj winner (sr_properties winner)) end) w = (o', w') →
    MOC_resolveConflictingRevisionsForObject self obj w = (o', w')) as Hres.
  { intros o' w' <-. unfold MOC_resolveConflictingRevisionsForObject, getConflictingRevisions, cbl_gets.
    rewrite run_bind, Hm, !run_bind, run_gets, Hd, run_gets, Hl.
    destruct (Nat.ltb_spec (length revs) 2); [lia|]. rewrite run_bind. unfold lift. by rewrite Hsort. }
  rewrite run_bind, Hrun in Hres. destruct o as [|e].
  - specialize (Ho eq_refl) as ->. unfold cbl_run in Hres. cbn [w_cbl set_cbl] in Hres.
    destruct (rev_createRevision s obj winner (sr_properties winner)) as [[|e] s'] eqn:E.
    + exists YES, s'. split_and!; [done..|by apply Hres|].
      destruct (leaves_create _ _ [] _ [] _ _ Hls E) as (i & l & Hl' & Hp'). exists i.
      by apply Permutation_singleton_r in Hp' as ->.
    + exists (NO e), s'. split_and!; [done..|by apply Hres|]. rewrite (leaves_create_fail _ _ _ _ _ _ E). eauto.
  - exists (NO e), s. split_and!; [done..|by apply Hres|]. eauto.
Qed.
End resolution.

(** ** A revision store on which the theorem runs *)
Module ReferenceRevisions.
Import Reference.

Fixpoint insert_sorted {A} (cmp : A → A → res comparison) (x : A) (l : list A) : res (list A) :=
  match l with
  | [] => Ok [x]
  | y :: l' => c ← cmp x y;
               match c with Gt => r ← insert_sorted cmp x l'; Ok (y :: r) | _ => Ok (x :: y :: l') end
  end.
Fixpoint sort {A} (cmp : A → A → res comparison) (l : list A) : res (list A) :=
  match l with [] => Ok [] | x :: l' => r ← sort cmp l'; insert_sorted cmp x r end.

Lemma insert_sorted_spec {A} (cmp : A → A → res comparison) f x l :
  (∀ a b, a ∈ x :: l → b ∈ x :: l → cmp a b = Ok (f a b)) → comparator f (x :: l) →
  StronglySorted (λ a b, f a b ≠ Gt) l →
  ∃ l', insert_sorted cmp x l = Ok l' ∧ l' ≡ₚ x :: l ∧ StronglySorted (λ a b, f a b ≠ Gt) l'.
Proof.
  intros Hcmp Hf Hs. induction l as [|y l IH]; cbn [insert_sorted].
  { exists [x]. split_and!; [done..|by repeat constructor]. }
  rewrite (Hcmp x y) by set_solver. cbn [mbind res_bind].
  pose proof (StronglySorted_inv Hs) as [Hs' Hy]. rewrite Forall_forall in Hy.
  assert (f x y ≠ Gt → ∃ l', (Ok (x :: y :: l) : res (list A)) = Ok l' ∧ l' ≡ₚ x :: y :: l ∧
            StronglySorted (λ a b, f a b ≠ Gt) l') as Hhere.
  { intros Hxy. exists (x :: y :: l). split_and!; [done..|]. constructor; [done|].
    apply Forall_forall. intros z [->|Hz]%elem_of_cons; [done|].
    eapply (comparator_trans _ _ Hf x y z); [set_solver..|done|by apply Hy]. }
  destruct (f x y) eqn:E; [by apply Hhere..|].
  destruct IH as (l' & -> & Hp & Hl'); [intros; apply Hcmp; set_solver| |done|].
  { split; intros; [apply (comparator_sym _ _ Hf)|eapply (comparator_trans _ _ Hf a b c)]; try done; set_solver. }
  exists (y :: l'). split_and!; [done|rewrite Hp; apply perm_swap|].
  constructor; [done|]. apply Forall_forall. intros z Hz. rewrite Hp in Hz.
  apply elem_of_cons in Hz as [->|Hz]; [|by apply Hy].
  rewrite (comparator_sym _ _ Hf x y) by set_solver. by rewrite E.
Qed.

Lemma sort_spec {A} (cmp : A → A → res comparison) f l :
  (∀ a b, a ∈ l → b ∈ l → cmp a b = Ok (f a b)) → comparator f l →
  ∃ l', sort cmp l = Ok l' ∧ l' ≡ₚ l ∧ StronglySorted (λ a b, f a b ≠ Gt) l'.
Proof.
  intros Hcmp Hf. induction l as [|x l IH]; [exists []; split_and!; [done..|constructor]|].
  destruct IH as (l' & Hl' & Hp & Hs); [intros; apply Hcmp; set_solver| |].
  { split; intros; [apply (comparator_sym _ _ Hf)|eapply (comparator_trans _ _ Hf a b c)]; try done; set_solver. }
  destruct (insert_sorted_spec cmp f x l') as (l2 & H2 & Hp2 & Hs2);
    [intros; apply Hcmp; rewrite <-Hp; done| |done|].
  { split; intros; [apply (comparator_sym _ _ Hf)|eapply (comparator_trans _ _ Hf a b c)]; try done; by rewrite <-Hp. }
  exists l2. cbn [sort]. rewrite Hl'. split_and!; [done|by rewrite Hp2, Hp|done].
Qed.

Definition leaves (s : store) (o : oid) : list CBLSavedRevision := default [] (st_leaves s !! o).
Definition with_leaves (s : store) (o : oid) (l : list CBLSavedRevision) : store :=
  mkStore (st_models s) (st_refuses s) (<[o := l]> (st_leaves s)).
Definition others (l : list CBLSavedRevision) (r : CBLSavedRevision) : list CBLSavedRevision :=
  List.filter (λ x, negb (String.eqb (sr_revisionID x) (sr_revisionID r))) l.

#[export] Instance store_revisions : CBLRevisions store := {
  doc_getConflictingRevisions s o :=
    if decide (NoDup (sr_revisionID <$> leaves s o)) then inl (leaves s o) else inr None;
  rev_deleteDocument s o r :=
    match st_refuses s with Some e => (NO (Some e), s) | None => (YES, with_leaves s o (others (leaves s o) r)) end;
  rev_createRevision s o r p :=
    match st_refuses s with
    | Some e => (NO (Some e), s)
    | None => let ids : gset string := list_to_set (sr_revisionID <$> leaves s o) in
              (YES, with_leaves s o (mkSaved (fresh ids) p :: others (leaves s o) r))
    end;
  CBLCompareRevIDs i j := Pos.compare (encode i) (encode j);
  compareWithNil _ := Eq;
  sortedArrayUsingComparator := sort
}.

Lemma leaves_with s o l : leaves (with_leaves s o l) o = l.
Proof. unfold leaves, with_leaves. cbn. by rewrite lookup_insert_eq. Qed.

Lemma others_split l1 r l2 :
  NoDup (sr_revisionID <$> (l1 ++ r :: l2)%list) → others (l1 ++ r :: l2) r = (l1 ++ l2)%list.
Proof.
  intros Hnd. rewrite fmap_app in Hnd. apply NoDup_app in Hnd as (_ & Hd & Hnd).
  cbn in Hnd. apply NoDup_cons in Hnd as [Hr _].
  unfold others. rewrite List.filter_app. cbn. rewrite String.eqb_refl. cbn. f_equal;
    apply filter_bool_id; intros x Hx; apply negb_true_iff, String.eqb_neq; intros Heq.
  - apply (Hd (sr_revisionID x)); [by apply list_elem_of_fmap_2|]. rewrite Heq. by left.
  - apply Hr. rewrite <-Heq. by apply list_elem_of_fmap_2.
Qed.

Lemma NoDup_middle (l1 : list CBLSavedRevision) r l2 :
  NoDup (sr_revisionID <$> (l1 ++ r :: l2)%list) →
  NoDup (sr_revisionID <$> (l1 ++ l2)%list) ∧ ∀ x, x ∈ (l1 ++ l2)%list → x ∈ (l1 ++ r :: l2)%list.
Proof.
  assert ((l1 ++ r :: l2)%list ≡ₚ r :: (l1 ++ l2)%list) as Hp by by rewrite Permutation_middle.
  intros Hnd. rewrite Hp in Hnd. cbn in Hnd. apply NoDup_cons in Hnd as [_ Hnd]. split; [done|].
  intros x Hx. rewrite Hp. by right.
Qed.

#[export] Instance store_revision_laws : CBLRevisionLaws store.
Proof.
  split; cbn.
  - intros s o l Hl. case_decide; [|done]. by injection Hl as <-.
  - intros s o l1 r l2 s' Hl Hdel. case_decide as Hnd; [|done]. injection Hl as Hl.
    destruct (st_refuses s); [done|]. injection Hdel as <-. rewrite leaves_with, Hl in *.
    rewrite others_split by done. rewrite decide_True by by apply NoDup_middle in Hnd as [??]. eauto.
  - intros s o r e s'. by destruct (st_refuses s); intros; simplify_eq.
  - intros s o l1 r l2 p s' Hl Hcr. case_decide as Hnd; [|done]. injection Hl as Hl.
    destruct (st_refuses s); [done|]. injection Hcr as <-. rewrite leaves_with. rewrite Hl in *.
    rewrite others_split by done. apply NoDup_middle in Hnd as [Hnd Hin].
    rewrite decide_True; [eauto|]. cbn. apply NoDup_cons. split; [|done].
    intros (x & Hx & Hel)%list_elem_of_fmap.
    apply (is_fresh (list_to_set (sr_revisionID <$> (l1 ++ r :: l2)%list) : gset string)).
    rewrite Hx. apply elem_of_list_to_set, list_elem_of_fmap_2, Hin, Hel.
  - intros s o r p e s'. by destruct (st_refuses s); intros; simplify_eq.
  - by intros i j ?%Pos.compare_eq%(inj encode).
  - intros i j. apply Pos.compare_antisym.
  - intros i j k. apply Pos.le_trans.
  - intros cmp f l. apply sort_spec.
Qed.
End ReferenceRevisions.

Section witness.
#[local] Existing Instances Reference.store_CBL Reference.env
  ReferenceRevisions.store_revisions ReferenceRevisions.store_revision_laws.
Local Open Scope string_scope.

(** Two revisions of a section: the second one was changed first. *)
Definition disagreeing : list CBLSavedRevision :=
  [mkSaved "2-b" [("title", NSString "B"); ("updatedAt", NSNumber 20)];
   mkSaved "2-a" [("title", NSString "A"); ("updatedAt", NSNumber 10)]].
Definition in_conflict : World Reference.store :=
  set_cbl (Reference.mkStore Reference.models0 None {[Reference.section_ := disagreeing]}) Reference.world0.

Lemma conflicts_settled_witness :
  ∃ o s, MOC_resolveConflictingRevisionsForObject Reference.sections Reference.section_ in_conflict
         = (Ok o, set_cbl s in_conflict) ∧ o = YES ∧
         ∃ i, doc_getConflictingRevisions s Reference.section_ =
              inl [mkSaved i [("title", NSString "A"); ("updatedAt", NSNumber 10)]].
Proof.
  destruct (conflicts_settled in_conflict Reference.sections Reference.section_ disagreeing)
    as (winner & o & s & Hw & Hold & Hrun & Hpost);
    [reflexivity|by eexists|reflexivity|cbn; lia| |].
  { intros r Hr. repeat (apply elem_of_cons in Hr as [->|Hr]); [by eexists..|by apply elem_of_nil in Hr]. }
  assert ((MOC_resolveConflictingRevisionsForObject Reference.sections Reference.section_ in_conflict).1 = Ok YES) as E
    by (vm_compute; reflexivity).
  rewrite Hrun in E. injection E as ->. exists YES, s. split; [exact Hrun|]. split; [reflexivity|].
  destruct Hpost as (i & Hi). exists i. rewrite Hi.
  repeat (apply elem_of_cons in Hw as [->|Hw]); [|reflexivity|by apply elem_of_nil in Hw].
  exfalso. assert (Gt = Lt) as [=].
  apply (Hold (mkSaved "2-a" [("title", NSString "A"); ("updatedAt", NSNumber 10)])); [right; left|discriminate].
Defined.
End witness.
