(* ===== verification/TreeItems.v ===== *)
(** * Tree items

    [+descendentsForTreeItem:] of src/Feather/Sources/Utilities/MPTreeItemUtility.m
    over the tree [-children] of the protocol MPTreeItem describes, with the
    neighbour-free accessors its implementations share ([-childCount],
    [-hasChildren] of Model/MPVirtualSection.m and Model/MPRootSection.m). *)
From stdpp Require Import base tactics numbers list relations.
From S2P Require Import Prelude.

Section trees.
Context {A : Type}.

(** An item and its children; a finite tree. *)
(* @src Feather/Sources/Model/MPTreeItem.h 18 21 MPTreeItem *)
Inductive treeItem : Type := Item (self : A) (children : list treeItem).

Definition children (t : treeItem) : list treeItem := let 'Item _ cs := t in cs.

(* @src Feather/Sources/Model/MPVirtualSection.m 111 113 -[MPVirtualSection childCount] *)
Definition childCount (t : treeItem) : nat := length (children t).

(* @src Feather/Sources/Model/MPVirtualSection.m 115 117 -[MPVirtualSection hasChildren] *)
Definition hasChildren (t : treeItem) : bool := (0 <? childCount t)%nat.

(** The [while] loop: [stack] has its top at the end. [None]: out of fuel. *)
(* @src Feather/Sources/Utilities/MPTreeItemUtility.m 23 31 (part) +[MPTreeItemUtility descendentsForTreeItem:] *)
Fixpoint drain (fuel : nat) (treeItems stack : list treeItem) : option (list treeItem) :=
  match last stack with
  | None => Some treeItems
  | Some last =>
      match fuel with
      | 0%nat => None
      | S fuel => drain fuel (treeItems ++ [last]) (removelast stack ++ children last)
      end
  end.

Fixpoint descend (fuel : nat) (treeItems cs : list treeItem) : option (list treeItem) :=
  match cs with
  | [] => Some treeItems
  | child :: rest => treeItems ← drain fuel (treeItems ++ [child]) [child]; descend fuel treeItems rest
  end.

Fixpoint size (t : treeItem) : nat :=
  match t with Item _ cs => S ((fix go l := match l with [] => 0 | c :: l' => size c + go l' end) cs) end%nat.
Definition sizes (l : list treeItem) : nat := sum_list_with size l.

(** The loop visits every item once, so the size of the tree is fuel enough. *)
(* @src Feather/Sources/Utilities/MPTreeItemUtility.m 14 35 +[MPTreeItemUtility descendentsForTreeItem:] *)
Definition descendentsForTreeItem (t : treeItem) : option (list treeItem) :=
  descend (size t) [] (children t).

(** ** What it lists *)

(** An item and everything below it, a parent before its children, the last child first. *)
Fixpoint below (t : treeItem) : list treeItem :=
  t :: (match t with Item _ cs => (fix go l := match l with [] => [] | c :: l' => go l' ++ below c end) cs end).
Fixpoint all_below (l : list treeItem) : list treeItem :=
  match l with [] => [] | c :: l' => all_below l' ++ below c end.

Lemma below_eq t : below t = t :: all_below (children t).
Proof. by destruct t. Qed.

Lemma size_eq t : size t = S (sizes (children t)).
Proof. by destruct t. Qed.

Lemma sizes_app l1 l2 : sizes (l1 ++ l2) = (sizes l1 + sizes l2)%nat.
Proof. apply sum_list_with_app. Qed.

Lemma all_below_app l1 l2 : all_below (l1 ++ l2) = all_below l2 ++ all_below l1.
Proof.
  induction l1 as [|c l1 IH]; [by rewrite app_nil_r|]. cbn. by rewrite IH, (assoc_L (++)).
Qed.

Lemma run_drain fuel treeItems stack :
  (sizes stack ≤ fuel)%nat → drain fuel treeItems stack = Some (treeItems ++ all_below stack).
Proof.
  revert treeItems stack. induction fuel as [|fuel IH]; intros treeItems stack Hs;
    (destruct stack as [|c s _] using rev_ind; [cbn; by rewrite app_nil_r|]).
  - rewrite sizes_app in Hs. cbn in Hs. rewrite size_eq in Hs. lia.
  - cbn [drain]. rewrite last_snoc, removelast_last. rewrite sizes_app in Hs. cbn in Hs. rewrite size_eq in Hs.
    rewrite IH by (rewrite sizes_app; lia). f_equal. rewrite !all_below_app. cbn.
    rewrite below_eq. by rewrite <-!(assoc_L (++)).
Qed.

Lemma run_descend fuel treeItems cs :
  (sizes cs ≤ fuel)%nat → descend fuel treeItems cs = Some (treeItems ++ mjoin ((λ c, c :: below c) <$> cs)).
Proof.
  revert treeItems. induction cs as [|c cs IH]; intros treeItems Hs; [cbn; by rewrite app_nil_r|].
  cbn in Hs |- *. rewrite run_drain by (cbn; lia). cbn. rewrite IH by (unfold sizes; lia).
  by rewrite <-!(assoc_L (++)).
Qed.

Definition child (t c : treeItem) : Prop := c ∈ children t.

Lemma all_below_elem l x : x ∈ all_below l ↔ ∃ c, c ∈ l ∧ x ∈ below c.
Proof.
  induction l as [|c l IH]; cbn; [set_solver|]. rewrite elem_of_app, IH. set_solver.
Qed.

Lemma sizes_elem l c : c ∈ l → (size c ≤ sizes l)%nat.
Proof. induction 1; cbn; unfold sizes in *; lia. Qed.

Lemma below_elem t x : x ∈ below t ↔ rtc child t x.
Proof.
  remember (size t) as n eqn:Hn. assert (size t ≤ n)%nat as Hle by lia. clear Hn. revert t Hle.
  induction n as [|n IH]; intros t Hle; rewrite size_eq in Hle; [lia|].
  assert (∀ c, c ∈ children t → (x ∈ below c ↔ rtc child c x)) as Hc.
  { intros c Hc. apply IH. apply sizes_elem in Hc. lia. }
  rewrite below_eq, elem_of_cons, all_below_elem. split.
  - intros [->|(c & Hin & Hx)]; [done|]. apply (rtc_l _ _ c); [done|]. by apply Hc.
  - intros Hr. inversion Hr as [|? c ? Hin Hr']; subst; [by left|]. right. exists c. split; [done|]. by apply Hc.
Qed.

(** The search below a tree item ends, and lists exactly the
    items below it - its children, their children, and so on -; as a multiset the
    list is that of all items below, with the direct children once more. *)
Theorem descendents_listed t :
  ∃ l, descendentsForTreeItem t = Some l ∧
       l ≡ₚ children t ++ all_below (children t) ∧
       ∀ x, x ∈ l ↔ tc child t x.
Proof.
  unfold descendentsForTreeItem. rewrite run_descend by (rewrite size_eq; lia).
  assert (mjoin ((λ c, c :: below c) <$> children t) ≡ₚ children t ++ all_below (children t)) as Hp.
  { induction (children t) as [|c l IH]; [done|]. cbn. rewrite IH. apply perm_skip.
    rewrite (assoc_L (++)), (comm (++) (below c)), <-(assoc_L (++)). f_equiv. apply Permutation_app_comm. }
  eexists. split; [done|]. cbn. split; [done|]. intros x. rewrite Hp, elem_of_app, all_below_elem. split.
  - intros [Hx|(c & Hc & Hx%below_elem)]; [by apply tc_once|by apply (tc_rtc_r _ c); [apply tc_once|]].
  - intros Hx. right. inversion Hx as [? Hc|? c ? Hc Hr]; subst.
    + exists x. split; [done|]. by apply below_elem.
    + exists c. split; [done|]. by apply below_elem, tc_rtc.
Qed.
End trees.
Arguments treeItem : clear implicits.
