(* ===== verification/Sections.v ===== *)
(** * Sections: tree items that are not objects of a database

    Root sections and sections that wrap an object (src/Feather/Sources/Model/MPRootSection.m,
    MPObjectWrappingSection.m, MPVirtualSection.m), and the pool that keeps one item per
    identifier (Model/TreeItemPool.swift).  The objects of the database, what is below
    them and what a section is refreshed from are parameters; the observers a section
    registers are those of Observers.v, with blocks that do nothing. *)
From Stdlib Require Import Ascii.
From stdpp Require Import base tactics strings numbers list gmap.
From S2P Require Import Prelude ObjC ReferenceRuntime Classes World Collections.

Section sections.
Context (rt : Runtime).
Local Open Scope string_scope.

(** A tree item: an object, the root section of a class in a package, or a wrapping section. *)
Inductive item : Type :=
  | ObjectItem (o : oid)
  | RootItem (package : pid) (class : string)
  | SectionItem (section : positive).

#[export] Instance item_eq_dec : EqDecision item.
Proof. solve_decision. Defined.

(** The package and the parent are held weakly: they are [nil] once they are gone. *)
(* @src Feather/Sources/Model/MPVirtualSection+Protected.h 12 38 @interface MPVirtualSection (), @interface MPObjectWrappingSection () *)
Record WrappingSection : Type := mkWrappingSection {
  ws_packageController : option pid;
  ws_parent : option item;
  ws_wrappedObject : oid;
  ws_representedObjects : list oid;
  ws_identifier : string;
  ws_representedObjectClass : string
}.

(** The sections there are, and the pool of each package. *)
Record Sections : Type := mkSections {
  s_heap : gmap positive WrappingSection;
  s_next : positive;
  s_pools : gmap pid (gmap string item)
}.

(** Of an object: its class, [identifier], [controller.packageController] and [parent]. *)
Context (objectClass : oid → string) (objectIdentifier : oid → option string).
Context (objectPackage : oid → option pid) (objectParent : oid → option item).
Notation M := (M Sections).

(** ** Items *)

(** [-identifier]: a section that wraps an object has one, a root section answers [nil]
    (MPRootSection.m 146-148). *)
Definition identifierOf (it : item) (s : Sections) : option string :=
  match it with
  | ObjectItem o => objectIdentifier o
  | RootItem _ _ => None
  | SectionItem p => ws_identifier <$> s_heap s !! p
  end.

(** [-parent] *)
Definition parentOf (it : item) (s : Sections) : option item :=
  match it with
  | ObjectItem o => objectParent o
  | RootItem _ _ => None
  | SectionItem p => s_heap s !! p ≫= ws_parent
  end.

(** [-packageController] *)
Definition packageOf (it : item) (s : Sections) : option pid :=
  match it with
  | ObjectItem o => objectPackage o
  | RootItem p _ => Some p
  | SectionItem p => s_heap s !! p ≫= ws_packageController
  end.

(** ** The pool *)

Definition preconditionFailure {A} (what : string) : M A := throw (Exception "preconditionFailure" what).

(* @src Feather/Sources/Model/TreeItemPool.swift 28 45 TreeItemPool.fullyQualifiedIdentifier(treeItem:) *)
Definition fullyQualifiedIdentifier (it : item) : M string :=
  parent ← gets (parentOf it);
  identifier ← gets (identifierOf it);
  match parent with
  | Some p =>
      parentID ← gets (identifierOf p);
      match parentID, identifier with
      | None, _ => preconditionFailure "Parent must be identifiable"
      | Some _, None => preconditionFailure "Item must be identifiable"
      | Some i, Some j => mret (i ++ "/" ++ j)
      end
  | None =>
      match identifier with
      | None => preconditionFailure "Item is not identifiable"
      | Some i => mret i
      end
  end.

Definition poolOf (pkg : pid) (s : Sections) : gmap string item := default ∅ (s_pools s !! pkg).
Definition withPool (pkg : pid) (f : gmap string item → gmap string item) (s : Sections) : Sections :=
  mkSections (s_heap s) (s_next s) (<[pkg := f (poolOf pkg s)]> (s_pools s)).

(* @src Feather/Sources/Model/TreeItemPool.swift 18 26 TreeItemPool.item(forItem:) *)
Definition itemForItem (pkg : pid) (it : item) : M item :=
  id ← fullyQualifiedIdentifier it;
  existing ← gets (λ s, poolOf pkg s !! id);
  match existing with
  | Some existingItem => mret existingItem
  | None => _ ← modify (withPool pkg (<[id := it]>)); mret it
  end.

(** ** Wrapping sections *)

Definition allocSection (w : WrappingSection) : M positive :=
  λ s, (Ok (s_next s), mkSections (<[s_next s := w]> (s_heap s)) (Pos.succ (s_next s)) (s_pools s)).

(* @src Feather/Sources/Model/MPObjectWrappingSection.m 38 66 -[MPObjectWrappingSection initWithParent:wrappedObject:representedObjects:identifier:representedObjectClass:observedManagedObjectClasses:] *)
Definition initWithParent (parentItem : item) (obj : oid) (representedObjects : list oid) (theIdentifier : string)
    (representedObjectClass : string) : M positive :=
  package ← gets (packageOf parentItem);
  match package with
  | None => throw (AssertionFailed "a parent with no package controller")
  | Some pkg =>
      _ ← NSAssert (isSubclassOfClass rt (objectClass obj) MPManagedObject_class) "Unexpected type";
      allocSection {| ws_packageController := Some pkg; ws_parent := Some parentItem; ws_wrappedObject := obj;
                      ws_representedObjects := representedObjects; ws_identifier := theIdentifier;
                      ws_representedObjectClass := representedObjectClass |}
  end.

(* @src Feather/Sources/Model/MPObjectWrappingSection.m 32 36 -[MPObjectWrappingSection initWithParent:wrappedObject:identifier:] *)
Definition initWithParent_wrappedObject (parentItem : item) (obj : oid) (theIdentifier : string) : M positive :=
  initWithParent parentItem obj [obj] theIdentifier (objectClass obj).

(** One round of the block below. *)
Definition wrapOne (parent : item) (identifierPrefix : string) (o : oid) : M item :=
  match objectIdentifier o with
  | None => throw (AssertionFailed "[o identifier]")
  | Some d =>
      wrappedO ← initWithParent_wrappedObject parent o (identifierPrefix ++ "-" ++ d);
      match objectPackage o with
      | None => throw (Exception "NSInvalidArgumentException" "object cannot be nil")
      | Some pkg => itemForItem pkg (SectionItem wrappedO)
      end
  end.

(* @src Feather/Sources/Model/MPObjectWrappingSection.m 105 123 +[MPObjectWrappingSection arrayOfWrappedObjects:withParent:identifierPrefix:] *)
Definition arrayOfWrappedObjects (wrappedObjects : list oid) (parent : item) (identifierPrefix : string) : M (list item) :=
  package ← gets (packageOf parent);
  _ ← (if (0 <? length wrappedObjects)%nat then
         let '(valueMatches, value) := matchingValueForKey (λ a b, bool_decide (a = b)) wrappedObjects objectPackage in
         _ ← NSAssert valueMatches "valueMatches";
         NSAssert (bool_decide (value = Some package)) "value == parent.packageController"
       else mret tt);
  map_each wrappedObjects (wrapOne parent identifierPrefix).

(** ** What happens to sections *)

(** An item that only sections point at goes, and their parent is [nil]; so it is with a
    package. *)
Definition parentGone (it : item) (w : WrappingSection) : WrappingSection :=
  mkWrappingSection (ws_packageController w) (if decide (ws_parent w = Some it) then None else ws_parent w)
    (ws_wrappedObject w) (ws_representedObjects w) (ws_identifier w) (ws_representedObjectClass w).
Definition packageGone (pkg : pid) (w : WrappingSection) : WrappingSection :=
  mkWrappingSection (if decide (ws_packageController w = Some pkg) then None else ws_packageController w) (ws_parent w)
    (ws_wrappedObject w) (ws_representedObjects w) (ws_identifier w) (ws_representedObjectClass w).
Definition onSections (f : WrappingSection → WrappingSection) (s : Sections) : Sections :=
  mkSections (f <$> s_heap s) (s_next s) (s_pools s).

(** Objects are wrapped, however that ends; sections are made without the pool; parents and
    packages go. *)
Inductive section_step (s : Sections) : Sections → Prop :=
  | step_wrap objs parent prefix r s' : arrayOfWrappedObjects objs parent prefix s = (r, s') → section_step s s'
  | step_section w r s' : allocSection w s = (r, s') → section_step s s'
  | step_parentGone it : section_step s (onSections (parentGone it) s)
  | step_packageGone pkg : section_step s (onSections (packageGone pkg) s).

Definition noSections : Sections := mkSections ∅ 1%positive ∅.

(** ** What holds of them *)

(** The item is a section that wraps the object. *)
Definition wraps (s : Sections) (it : item) (o : oid) : Prop :=
  ∃ p w, it = SectionItem p ∧ s_heap s !! p = Some w ∧ ws_wrappedObject w = o ∧ ws_representedObjects w = [o] ∧
         ws_representedObjectClass w = objectClass o.

(** New sections are new, and items in the pools wrap the objects their identifiers end with. *)
Record sections_ok (s : Sections) : Prop := {
  so_fresh : ∀ p, (s_next s ≤ p)%positive → s_heap s !! p = None;
  so_pool : ∀ pkg k it, poolOf pkg s !! k = Some it →
    ∃ o d q, wraps s it o ∧ objectIdentifier o = Some d ∧ k = q ++ "-" ++ d
}.

(** A section stays what it is, but for what it holds weakly. *)
Definition weakened (w w' : WrappingSection) : Prop :=
  ws_wrappedObject w' = ws_wrappedObject w ∧ ws_representedObjects w' = ws_representedObjects w ∧
  ws_identifier w' = ws_identifier w ∧ ws_representedObjectClass w' = ws_representedObjectClass w.

(** Sections and items in pools are there to stay. *)
Record grows (s s' : Sections) : Prop := {
  gr_heap : ∀ p w, s_heap s !! p = Some w → ∃ w', s_heap s' !! p = Some w' ∧ weakened w w';
  gr_pools : ∀ pkg, poolOf pkg s ⊆ poolOf pkg s'
}.

Lemma grows_refl s : grows s s.
Proof. split; [|done]. intros p w Hw. by exists w. Qed.
Lemma grows_trans s1 s2 s3 : grows s1 s2 → grows s2 s3 → grows s1 s3.
Proof.
  intros [H1 ?] [H2 ?]. split; [|intros pkg; by trans (poolOf pkg s2)].
  intros p w (w' & Hw' & E)%H1. apply H2 in Hw' as (w'' & Hw'' & E'). exists w''. split; [done|].
  destruct E as (? & ? & ? & ?), E' as (? & ? & ? & ?). split_and!; congruence.
Qed.

Lemma identifier_grows s s' it i : grows s s' → identifierOf it s = Some i → identifierOf it s' = Some i.
Proof.
  intros Hg. destruct it as [o|pkg c|p]; cbn; [done|done|]. intros (w & Hw & ->)%fmap_Some.
  apply (gr_heap _ _ Hg) in Hw as (w' & -> & _ & _ & E & _). cbn. by rewrite E.
Qed.

Lemma wraps_grows s s' it o : grows s s' → wraps s it o → wraps s' it o.
Proof.
  intros Hg (p & w & -> & Hw & Ho & Hr & Hc). apply (gr_heap _ _ Hg) in Hw as (w' & Hw' & Ho' & Hr' & _ & Hc').
  exists p, w'. by rewrite Ho', Hr', Hc'.
Qed.

(** Wrapping only adds. *)
Record extends (s s' : Sections) : Prop := {
  ex_heap : s_heap s ⊆ s_heap s';
  ex_pools : ∀ pkg, poolOf pkg s ⊆ poolOf pkg s'
}.

Lemma extends_refl s : extends s s.
Proof. done. Qed.
Lemma extends_trans s1 s2 s3 : extends s1 s2 → extends s2 s3 → extends s1 s3.
Proof. intros [? ?] [? ?]. split; [by trans (s_heap s2)|intros pkg; by trans (poolOf pkg s2)]. Qed.

Lemma extends_grows s s' : extends s s' → grows s s'.
Proof. intros [Hh Hp]. split; [|done]. intros p w Hw. exists w. split; [by eapply lookup_weaken|done]. Qed.

Lemma package_extends s s' it i : extends s s' → packageOf it s = Some i → packageOf it s' = Some i.
Proof.
  intros Hg. destruct it as [o|pkg c|p]; cbn; [done|done|]. intros (w & Hw & <-)%bind_Some.
  by rewrite (lookup_weaken _ _ _ _ Hw (ex_heap _ _ Hg)).
Qed.

(** What the qualified identifier of an item is made of. *)
Lemma run_fullyQualifiedIdentifier it s :
  fullyQualifiedIdentifier it s =
    (match parentOf it s, identifierOf it s with
     | Some p, i => match identifierOf p s, i with
                    | None, _ => Throw (Exception "preconditionFailure" "Parent must be identifiable")
                    | Some _, None => Throw (Exception "preconditionFailure" "Item must be identifiable")
                    | Some i, Some j => Ok (i ++ "/" ++ j)
                    end
     | None, None => Throw (Exception "preconditionFailure" "Item is not identifiable")
     | None, Some i => Ok i
     end, s).
Proof.
  unfold fullyQualifiedIdentifier. rewrite run_bind, run_gets, run_bind, run_gets.
  destruct (parentOf it s) as [p|]; [rewrite run_bind, run_gets; destruct (identifierOf p s)|];
    by destruct (identifierOf it s).
Qed.

Lemma poolOf_withPool pkg pkg' f s : poolOf pkg' (withPool pkg f s) = if decide (pkg' = pkg) then f (poolOf pkg s) else poolOf pkg' s.
Proof. unfold poolOf, withPool. cbn. rewrite lookup_insert. case_decide; case_decide; subst; by try done. Qed.

Lemma pools_ok s s' : sections_ok s → grows s s' → (∀ p, (s_next s' ≤ p)%positive → s_heap s' !! p = None) →
  (∀ pkg, poolOf pkg s' = poolOf pkg s) → sections_ok s'.
Proof.
  intros Hok Hg Hfresh Hpools. split; [done|]. intros pkg k it. rewrite Hpools. intros (o & d & q & Hw & Hd)%(so_pool _ Hok).
  exists o, d, q. split; [by eapply wraps_grows|done].
Qed.

Lemma allocSection_ok w s :
  sections_ok s →
  ∃ s', allocSection w s = (Ok (s_next s), s') ∧ sections_ok s' ∧ extends s s' ∧ s_heap s' !! s_next s = Some w ∧
    ∀ pkg, poolOf pkg s' = poolOf pkg s.
Proof.
  intros Hok. eexists. split; [done|].
  assert (Hg : extends s (mkSections (<[s_next s := w]> (s_heap s)) (Pos.succ (s_next s)) (s_pools s))).
  { split; [|done]. cbn. apply insert_subseteq, Hok. lia. }
  split; [|split; [done|split; [by cbn; rewrite lookup_insert_eq|done]]]. apply (pools_ok s); [done|by apply extends_grows| |done].
  cbn. intros p Hp. rewrite lookup_insert_ne by lia. apply Hok. lia.
Qed.

Lemma itemForItem_ok pkg it s k o d q :
  sections_ok s → fullyQualifiedIdentifier it s = (Ok k, s) → wraps s it o → objectIdentifier o = Some d → k = q ++ "-" ++ d →
  ∃ r s', itemForItem pkg it s = (Ok r, s') ∧ sections_ok s' ∧ extends s s' ∧ poolOf pkg s' !! k = Some r ∧
    ∀ r0, poolOf pkg s !! k = Some r0 → r = r0.
Proof.
  intros Hok Hid Hw Hd Hk. unfold itemForItem. rewrite run_bind, Hid, run_bind, run_gets.
  destruct (poolOf pkg s !! k) as [r|] eqn:Ek.
  - exists r, s. split; [done|]. split; [done|]. split; [apply extends_refl|]. split; [done|]. by intros r0 [= ->].
  - assert (Hg : extends s (withPool pkg (<[k := it]>) s)).
    { split; [done|]. intros pkg'. rewrite poolOf_withPool. case_decide; [subst|done]. by apply insert_subseteq. }
    exists it, (withPool pkg (<[k := it]>) s). split; [by rewrite run_bind, run_modify|]. split; [|split; [done|]].
    + split; [apply Hok|]. intros pkg' k' it'. rewrite poolOf_withPool. intros Hin.
      assert (k' = k ∧ it' = it ∨ poolOf pkg' s !! k' = Some it') as [[-> ->]|Hold]; [|by exists o, d, q|].
      { case_decide; [subst|by right]. rewrite lookup_insert in Hin. case_decide; [left|by right]. by injection Hin. }
      apply (so_pool _ Hok) in Hold as (o' & d' & q' & Hw' & Hd'). exists o', d', q'. done.
    + split; [|done]. rewrite poolOf_withPool, decide_True by done. by rewrite lookup_insert_eq.
Qed.

(** An object that can be wrapped below a parent in the package. *)
Definition wrappable (pkg : pid) (o : oid) : Prop :=
  is_Some (objectIdentifier o) ∧ objectPackage o = Some pkg ∧
  isSubclassOfClass rt (objectClass o) MPManagedObject_class = true.

Definition qualifiedID (parentID prefix d : string) : string := parentID ++ "/" ++ prefix ++ "-" ++ d.

Lemma qualified_ends parentID prefix d : qualifiedID parentID prefix d = (parentID ++ "/" ++ prefix) ++ "-" ++ d.
Proof. unfold qualifiedID. by rewrite !string_app_assoc. Qed.

Lemma identifier_stays s s' it : grows s s' → is_Some (packageOf it s) → identifierOf it s' = identifierOf it s.
Proof.
  intros Hg [pkg Hpkg]. destruct (identifierOf it s) as [i|] eqn:Ei; [by eapply identifier_grows|].
  destruct it as [o|p c|p]; cbn in *; [done|done|]. by destruct (s_heap s !! p).
Qed.

(** How wrapping an object that can be wrapped ends. *)
Definition wrapped (parent : item) (prefix d : string) (pkg : pid) (s : Sections) (r : res item) (s' : Sections) : Prop :=
  match identifierOf parent s with
  | None => r = Throw (Exception "preconditionFailure" "Parent must be identifiable") ∧ ∀ pkg, poolOf pkg s' = poolOf pkg s
  | Some parentID =>
      ∃ it, r = Ok it ∧ poolOf pkg s' !! qualifiedID parentID prefix d = Some it ∧
        ∀ it0, poolOf pkg s !! qualifiedID parentID prefix d = Some it0 → it = it0
  end.

(** It makes at most one section and one entry of the pool. *)
Lemma wrapOne_cases parent prefix o s r s' :
  sections_ok s → wrapOne parent prefix o s = (r, s') →
  sections_ok s' ∧ extends s s' ∧
  ∀ pkg d, objectIdentifier o = Some d → packageOf parent s = Some pkg → wrappable pkg o →
    wrapped parent prefix d pkg s r s'.
Proof.
  intros Hok. unfold wrapOne. destruct (objectIdentifier o) as [d|] eqn:Hd; [|by intros [= <- <-]; split_and!; try apply extends_refl].
  rewrite run_bind. unfold initWithParent_wrappedObject, initWithParent. rewrite run_bind, run_gets.
  destruct (packageOf parent s) as [pkg|] eqn:Hpkg; [|by intros [= <- <-]; split_and!; try apply extends_refl].
  rewrite run_bind, run_NSAssert. destruct (isSubclassOfClass _ _ _) eqn:Hclass.
  2: { intros [= <- <-]; split_and!; [done|apply extends_refl|]. intros pkg' d' _ _ (_ & _ & Hc). congruence. }
  destruct (allocSection_ok {| ws_packageController := Some pkg; ws_parent := Some parent; ws_wrappedObject := o;
     ws_representedObjects := [o]; ws_identifier := prefix ++ "-" ++ d; ws_representedObjectClass := objectClass o |} s Hok)
    as (s1 & -> & Hok1 & Hg1 & Hnew & Hpools).
  destruct (objectPackage o) as [pkgO|] eqn:Ho.
  2: { intros [= <- <-]; split_and!; [done..|]. intros pkg' d' _ _ (_ & Hp & _). congruence. }
  pose proof (identifier_stays _ _ parent (extends_grows _ _ Hg1) (ex_intro _ pkg Hpkg)) as Hsame.
  assert (Hid : fullyQualifiedIdentifier (SectionItem (s_next s)) s1 =
    (match identifierOf parent s with
     | None => Throw (Exception "preconditionFailure" "Parent must be identifiable")
     | Some parentID => Ok (qualifiedID parentID prefix d) end, s1)).
  { assert (parentOf (SectionItem (s_next s)) s1 = Some parent) as Hparent by (cbn; by rewrite Hnew).
    assert (identifierOf (SectionItem (s_next s)) s1 = Some (prefix ++ "-" ++ d)) as Hown by (cbn; by rewrite Hnew).
    rewrite run_fullyQualifiedIdentifier, Hparent, Hown, Hsame. by destruct (identifierOf parent s). }
  unfold wrapped. destruct (identifierOf parent s) as [parentID|].
  - destruct (itemForItem_ok pkgO (SectionItem (s_next s)) s1 (qualifiedID parentID prefix d) o d (parentID ++ "/" ++ prefix) Hok1 Hid)
      as (r1 & s2 & -> & Hok2 & Hg2 & Hin & Hold); [by eexists _, _|done|apply qualified_ends|].
    intros [= <- <-]. split_and!; [done|by eapply extends_trans|]. intros pkg' d' [= <-] [= <-] (_ & Hp & _).
    rewrite Ho in Hp. injection Hp as <-. exists r1. split_and!; [done..|]. intros it0. rewrite <- (Hpools pkgO). apply Hold.
  - unfold itemForItem. rewrite run_bind, Hid. intros [= <- <-]. by split_and!.
Qed.

(** The items that are in the pool for these objects, in their order. *)
Definition pooled (pkg : pid) (parentID prefix : string) (s : Sections) (o : oid) (r : item) : Prop :=
  ∃ d, objectIdentifier o = Some d ∧ poolOf pkg s !! qualifiedID parentID prefix d = Some r.

Lemma pooled_grows pkg parentID prefix s s' o r :
  grows s s' → pooled pkg parentID prefix s o r → pooled pkg parentID prefix s' o r.
Proof. intros Hg (d & Hd & Hin). exists d. split; [done|]. eapply lookup_weaken; [done|apply Hg]. Qed.

Lemma wrapAll_keeps parent prefix objs s r s' :
  sections_ok s → map_each objs (wrapOne parent prefix) s = (r, s') → sections_ok s' ∧ extends s s'.
Proof.
  revert s r s'. induction objs as [|o objs IH]; intros s r s' Hok; cbn [map_each].
  { intros [= <- <-]. split; [done|apply extends_refl]. }
  rewrite run_bind. destruct (wrapOne parent prefix o s) as [[it|e] s1] eqn:E1;
    apply wrapOne_cases in E1 as (Hok1 & Hg1 & _); [|done|by intros [= <- <-]|done].
  rewrite run_bind. destruct (map_each objs (wrapOne parent prefix) s1) as [[its|e] s2] eqn:E2;
    apply IH in E2 as [Hok2 Hg2]; [|done|..]; try done; intros [= <- <-]; (split; [done|by eapply extends_trans]).
Qed.

Lemma wrapAll_ok parent prefix pkg objs s r s' :
  sections_ok s → packageOf parent s = Some pkg → Forall (wrappable pkg) objs →
  map_each objs (wrapOne parent prefix) s = (r, s') →
  match identifierOf parent s with
  | None => objs = [] ∨ r = Throw (Exception "preconditionFailure" "Parent must be identifiable") ∧ ∀ pkg, poolOf pkg s' = poolOf pkg s
  | Some parentID =>
      ∃ items, r = Ok items ∧ Forall2 (pooled pkg parentID prefix s') objs items ∧
        ∀ items0, Forall2 (pooled pkg parentID prefix s) objs items0 → items = items0
  end.
Proof.
  intros Hok Hpkg Hobjs. revert s r s' Hok Hpkg. induction Hobjs as [|o objs Ho Hobjs IH]; intros s r s' Hok Hpkg; cbn [map_each].
  { intros [= <- <-]. destruct (identifierOf parent s); [|by left]. exists []. split_and!; [done..|]. by intros rs0 ->%Forall2_nil_inv_l. }
  destruct (proj1 Ho) as [d Hd]. rewrite run_bind. destruct (wrapOne parent prefix o s) as [r1 s1] eqn:E1.
  apply wrapOne_cases in E1 as (Hok1 & Hg1 & E1); [|done]. specialize (E1 pkg d Hd Hpkg Ho). unfold wrapped in E1.
  pose proof (identifier_stays _ _ parent (extends_grows _ _ Hg1) (ex_intro _ pkg Hpkg)) as Hsame.
  specialize (IH s1). rewrite Hsame in IH. destruct (identifierOf parent s) as [parentID|].
  2: { destruct E1 as [-> Hp]. intros [= <- <-]. by right. }
  destruct E1 as (it & -> & Hin & Hold). rewrite run_bind.
  destruct (map_each objs (wrapOne parent prefix) s1) as [r2 s2] eqn:E2.
  destruct (IH r2 s2 Hok1 (package_extends _ _ _ _ Hg1 Hpkg) eq_refl) as (items & -> & Hins & Holds).
  apply wrapAll_keeps in E2 as [_ Hg2]; [|done]. intros [= <- <-]. exists (it :: items). split; [done|]. split.
  - constructor; [|done]. apply (pooled_grows _ _ _ s1); [by apply extends_grows|]. by exists d.
  - intros rs0 (r0 & rs1 & (d' & Hd' & Hr0) & Hrs1 & ->)%Forall2_cons_inv_l. rewrite Hd in Hd'. injection Hd' as <-.
    f_equal; [by apply Hold|]. apply Holds. eapply Forall2_impl; [exact Hrs1|]. intros o' r'. apply pooled_grows. by apply extends_grows.
Qed.

Lemma same_values {B} (eqb : B → B → bool) (x : B) n : eqb x x = true → setWithArray eqb (replicate (S n) x) = [x].
Proof.
  intros Hx. unfold setWithArray. cbn [replicate foldl]. change (addObject eqb [] x) with [x].
  induction n as [|n IH]; [done|]. cbn [replicate foldl]. unfold addObject at 2. cbn. by rewrite Hx.
Qed.

Lemma same_package pkg objs :
  objs ≠ [] → Forall (wrappable pkg) objs →
  matchingValueForKey (λ a b, bool_decide (a = b)) objs objectPackage = (true, Some (Some pkg)).
Proof.
  intros Hne Hobjs. assert (map objectPackage objs = replicate (length objs) (Some pkg)) as Hmap.
  { clear Hne. induction Hobjs as [|o objs (_ & Ho & _) _ IH]; [done|]. cbn. by rewrite Ho, IH. }
  unfold matchingValueForKey. rewrite Hmap. destruct objs as [|o objs]; [done|]. cbn [length].
  rewrite same_values; [done|]. by apply bool_decide_eq_true.
Qed.

Lemma run_arrayOfWrappedObjects objs parent prefix s :
  arrayOfWrappedObjects objs parent prefix s = map_each objs (wrapOne parent prefix) s ∨
  ∃ e, arrayOfWrappedObjects objs parent prefix s = (Throw e, s).
Proof.
  unfold arrayOfWrappedObjects. rewrite run_bind, run_gets, run_bind.
  destruct (0 <? length objs)%nat; [|by left]. destruct (matchingValueForKey _ _ _) as [matches value].
  rewrite run_bind, !run_NSAssert. destruct matches; [|by right; eexists].
  rewrite run_NSAssert. destruct (bool_decide _); [by left|by right; eexists].
Qed.

Lemma run_wrapping pkg objs parent prefix s :
  packageOf parent s = Some pkg → Forall (wrappable pkg) objs →
  arrayOfWrappedObjects objs parent prefix s = map_each objs (wrapOne parent prefix) s.
Proof.
  intros Hpkg Hobjs. unfold arrayOfWrappedObjects. rewrite run_bind, run_gets, Hpkg, run_bind.
  destruct objs as [|o objs]; [done|]. rewrite (same_package pkg) by done. cbn [length Nat.ltb Nat.leb].
  by rewrite run_bind, run_NSAssert, run_NSAssert, bool_decide_eq_true_2.
Qed.

(** ** Whatever happens *)

Lemma weakening_ok f s : (∀ w, weakened w (f w)) → sections_ok s → sections_ok (onSections f s) ∧ grows s (onSections f s).
Proof.
  intros Hf Hok. assert (Hg : grows s (onSections f s)).
  { split; [|done]. intros p w Hw. exists (f w). cbn. by rewrite lookup_fmap, Hw. }
  split; [|done]. apply (pools_ok s); [done|done| |done]. cbn. intros p Hp. by rewrite lookup_fmap, (so_fresh _ Hok).
Qed.

Lemma step_ok s s' : section_step s s' → sections_ok s → sections_ok s' ∧ grows s s'.
Proof.
  intros Hstep Hok. destruct Hstep as [objs parent prefix r s' E|w r s' E|it|pkg].
  - destruct (run_arrayOfWrappedObjects objs parent prefix s) as [Hrun|[e Hrun]]; rewrite Hrun in E.
    + apply wrapAll_keeps in E as [? ?%extends_grows]; done.
    + injection E as _ <-. split; [done|apply grows_refl].
  - destruct (allocSection_ok w s Hok) as (s1 & Hrun & Hok1 & Hg%extends_grows & _). rewrite Hrun in E. by injection E as _ <-.
  - by apply weakening_ok.
  - by apply weakening_ok.
Qed.

Lemma steps_ok s s' : rtc section_step s s' → sections_ok s → sections_ok s' ∧ grows s s'.
Proof.
  induction 1 as [s|s s1 s' Hstep _ IH]; intros Hok; [split; [done|apply grows_refl]|].
  destruct (step_ok _ _ Hstep Hok) as [Hok1 Hg1]. destruct (IH Hok1) as [Hok' Hg']. split; [done|by eapply grows_trans].
Qed.

Lemma noSections_ok : sections_ok noSections.
Proof. split; [done|]. intros pkg k it. unfold poolOf. cbn. by rewrite lookup_empty. Qed.

(** No identifier is another one with a dash and something before it. *)
Definition unambiguous : Prop :=
  ∀ o o' d d' q q', objectIdentifier o = Some d → objectIdentifier o' = Some d' → q ++ "-" ++ d = q' ++ "-" ++ d' → o = o'.

(** C34 (invariant). However sections have been made and whatever they hold weakly has gone since, wrapping
    objects of a package below a parent in it that has an identifier gives an item for
    each, in their order: a section that wraps that object, and is in the package's pool
    under the identifier made of the parent's, the prefix and the object's.  Asking for them
    again, whatever happens in between, gives the same sections - below the same parent as
    well as below another item of that identifier in the package.  Below a parent without an identifier,
    such as a root section, wrapping objects raises and leaves the pools alone.  The
    objects are managed objects of the package and have identifiers, and no two objects have
    identifiers one of which is the other behind a dash. *)
Theorem wrapped_sections_are_unique s parent pkg prefix objs :
  unambiguous → rtc section_step noSections s → packageOf parent s = Some pkg → Forall (wrappable pkg) objs →
  match identifierOf parent s with
  | Some parentID =>
      ∃ items s', arrayOfWrappedObjects objs parent prefix s = (Ok items, s') ∧
        Forall2 (λ o it, wraps s' it o ∧
           ∃ d, objectIdentifier o = Some d ∧ poolOf pkg s' !! qualifiedID parentID prefix d = Some it) objs items ∧
        ∀ s2 parent2, rtc section_step s' s2 → packageOf parent2 s2 = Some pkg → identifierOf parent2 s2 = Some parentID →
          ∃ s3, arrayOfWrappedObjects objs parent2 prefix s2 = (Ok items, s3)
  | None =>
      objs = [] ∨
      ∃ s', arrayOfWrappedObjects objs parent prefix s =
              (Throw (Exception "preconditionFailure" "Parent must be identifiable"), s') ∧
            ∀ pkg, poolOf pkg s' = poolOf pkg s
  end.
Proof.
  intros Hun Hsteps Hpkg Hobjs. destruct (steps_ok _ _ Hsteps noSections_ok) as [Hok _].
  rewrite (run_wrapping pkg) by done. destruct (map_each objs (wrapOne parent prefix) s) as [r s'] eqn:E.
  pose proof (wrapAll_ok _ _ _ _ _ _ _ Hok Hpkg Hobjs E) as Hall.
  apply wrapAll_keeps in E as [Hok' _]; [|done].
  destruct (identifierOf parent s) as [parentID|].
  2: { destruct Hall as [?|[-> Hp]]; [by left|right; by eexists]. }
  destruct Hall as (items & -> & Hin & _). exists items, s'. split; [done|]. split.
  - eapply Forall2_impl; [exact Hin|]. intros o it (d & Hd & Hpool). split; [|by exists d].
    destruct (so_pool _ Hok' _ _ _ Hpool) as (o' & d' & q & Hw & Hd' & He). rewrite qualified_ends in He.
    by rewrite (Hun o o' d d' _ _ Hd Hd' He).
  - intros s2 parent2 Hsteps2 Hpkg2 Hid2. destruct (steps_ok _ _ Hsteps2 Hok') as [Hok2 Hg2].
    rewrite (run_wrapping pkg) by done. destruct (map_each objs (wrapOne parent2 prefix) s2) as [r2 s3] eqn:E2.
    pose proof (wrapAll_ok _ _ _ _ _ _ _ Hok2 Hpkg2 Hobjs E2) as Hall2. rewrite Hid2 in Hall2.
    destruct Hall2 as (items2 & -> & _ & Hold). exists s3. rewrite (Hold items); [done|].
    eapply Forall2_impl; [exact Hin|]. intros o it. by apply pooled_grows.
Qed.
End sections.

(** ** Root sections *)
Section roots.
Context (rt : Runtime).
Local Open Scope string_scope.

(** The name of a class without its module. *)
Definition moduleFree (className : string) : string := default "" (last (componentsSeparatedBy "."%char className)).

(* @src Feather/Sources/Model/MPRootSection.m 40 52 +[MPRootSection managedObjectClass] *)
Definition root_managedObjectClass (self : string) : res string :=
  match NSClassFromString rt (dropSuffix "RootSection" (moduleFree self)) with
  | Some class =>
      _ ← assert_ (isSubclassOfClass rt class MPManagedObject_class) "not a subclass of MPManagedObject";
      mret class
  | None => Throw (AssertionFailed "not a subclass of MPManagedObject")
  end.

(* @src Feather/Sources/Model/MPRootSection.m 194 201 -[MPRootSection representedObjectClass] *)
Definition root_representedObjectClass (self : string) : res string :=
  match NSClassFromString rt (dropSuffix "RootSection" self) with
  | Some class => mret class
  | None => Throw (AssertionFailed "Could not resolve represented class")
  end.

(** The property of the package a root section is set as. *)
Definition rootSectionProperty (rootSectionClassName : string) : string :=
  camelCased (replaceOccurrences "MP" "" (moduleFree rootSectionClassName)).

(** The root sections of a package, with the properties they are set as; [responds] says
    which properties it has.  What the initialiser of the section raises ends it. *)
(* @src Feather/Sources/Database Packages/MPDatabasePackageController.m 276 300 -[MPDatabasePackageController newRootSections] *)
Fixpoint newRootSections (responds : string → bool) (orderedRootSectionClassNames : list string)
    : res (list (string * string)) :=
  match orderedRootSectionClassNames with
  | [] => Ok []
  | name :: rest =>
      match NSClassFromString rt name with
      | None => Throw (AssertionFailed "unexpected class")
      | Some cls =>
          _ ← assert_ (isSubclassOfClass rt cls "MPRootSection") "unexpected class";
          _ ← root_managedObjectClass cls;
          if responds (rootSectionProperty name) then
            sections ← newRootSections responds rest; mret ((cls, rootSectionProperty name) :: sections)
          else Throw (Exception "NSUnknownKeyException" (rootSectionProperty name))
      end
  end.

Lemma both_classes self cls :
  hasChar "."%char self = false → root_managedObjectClass self = Ok cls → root_representedObjectClass self = Ok cls.
Proof.
  intros Hdot. unfold root_managedObjectClass, root_representedObjectClass, moduleFree.
  rewrite components_one by done. cbn [last default]. destruct (NSClassFromString rt _) as [c|]; [|done].
  intros ([] & _ & Hc)%res_bind_inv. exact Hc.
Qed.

(** *** On the pasteboard *)

(* @src Feather/Sources/Model/MPRootSection.m 211 228 -[MPRootSection pasteboardPropertyListForType:] *)
Definition root_pasteboardPropertyList (registry : gmap string pid) (fullyQualifiedIdentifier : string) (self : string)
    : res (gmap string string) :=
  _ ← assert_ (bool_decide (is_Some (registry !! fullyQualifiedIdentifier))) "databasePackageController";
  mret (<["databasePackageID" := fullyQualifiedIdentifier]> {["objectType" := self]}).

(** [rootSections] are the classes of the sections of a package; [None] is [nil].  The type
    stored is not looked at: a section of the receiver's class is given. *)
(* @src Feather/Sources/Model/MPRootSection.m 234 275 -[MPRootSection initWithPasteboardPropertyList:ofType:] *)
Definition root_initWithPasteboardPropertyList (registry : gmap string pid) (rootSections : pid → list string)
    (self type : string) (plist : option (gmap string string)) : res (option (pid * string)) :=
  if negb (String.eqb type "com.piipari.root-section.id.plist") then mret None
  else
    match plist with
    | None => mret None
    | Some dict =>
        let pkgc := dict !! "databasePackageID" ≫= λ i, registry !! i in
        let sections := match pkgc with Some p => rootSections p | None => [] end in
        _ ← assert_ (Nat.eqb (length (setWithArray String.eqb sections)) (length sections)) "unique by their class";
        mret (p ← pkgc; pair p <$> List.find (λ s, isSubclassOfClass rt s self) sections)
    end.

(* @src Feather/Sources/Model/MPRootSection.m 277 300 +[MPRootSection objectWithReferableDictionaryRepresentation:] *)
Definition root_objectWithReferableDictionaryRepresentation (registry : gmap string pid) (rootSections : pid → list string)
    (rep : gmap string string) : res (option (pid * string)) :=
  match rep !! "databasePackageID" with
  | None => mret None
  | Some packageID =>
      match rep !! "objectType" with
      | None => mret None
      | Some objectType =>
          match registry !! packageID with
          | None => Throw (AssertionFailed "pkgc")
          | Some p =>
              mret (pair p <$> List.find (λ s, match NSClassFromString rt objectType with
                                               | Some class => isSubclassOfClass rt s class
                                               | None => false
                                               end) (rootSections p))
          end
      end
  end.

(** A root section that is written to the pasteboard is read back, from the pasteboard and
    from the dictionary, when its package has it and no other of its class or below. *)
Lemma root_section_roundtrip registry rootSections fullyQualifiedIdentifier p self plist :
  registry !! fullyQualifiedIdentifier = Some p → self ∈ rootSections p →
  setWithArray String.eqb (rootSections p) = rootSections p → NSClassFromString rt self = Some self →
  (∀ s, s ∈ rootSections p → isSubclassOfClass rt s self = true ↔ s = self) →
  root_pasteboardPropertyList registry fullyQualifiedIdentifier self = Ok plist →
  root_initWithPasteboardPropertyList registry rootSections self "com.piipari.root-section.id.plist" (Some plist)
    = Ok (Some (p, self)) ∧
  root_objectWithReferableDictionaryRepresentation registry rootSections plist = Ok (Some (p, self)).
Proof.
  intros Hreg Hin Huniq Hclass Honly. unfold root_pasteboardPropertyList. intros (u & _ & [= <-])%res_bind_inv.
  assert (Hfind : List.find (λ s, isSubclassOfClass rt s self) (rootSections p) = Some self).
  { destruct (List.find _ _) as [s|] eqn:Ef.
    - apply find_some in Ef as [Hs%list_elem_of_In Hsub]. by rewrite (proj1 (Honly s Hs) Hsub).
    - pose proof (find_none _ _ Ef self (proj1 (list_elem_of_In _ _) Hin)) as Hno.
      cbv beta in Hno. by rewrite (proj2 (Honly self Hin) eq_refl) in Hno. }
  split.
  - unfold root_initWithPasteboardPropertyList. rewrite String.eqb_refl. cbn [negb].
    rewrite lookup_insert_eq. cbn [mbind option_bind]. rewrite Hreg, Huniq, Nat.eqb_refl. cbn. by rewrite Hfind.
  - unfold root_objectWithReferableDictionaryRepresentation.
    rewrite lookup_insert_eq, lookup_insert_ne, lookup_singleton_eq, Hreg, Hclass by done. by rewrite Hfind.
Qed.

(** *** The cached children *)
Context {X : Type} (refreshed : X → option (list oid)).

(** What the database holds, the children cached, the changes that have been written but not
    announced yet, and the blocks that wait on the main queue to clear the cache. *)
Record RootState : Type := mkRoot {
  rs_database : X;
  rs_cachedChildren : option (list oid);
  rs_unannounced : nat;
  rs_pending : nat
}.

(** [-refreshCachedValues] of the subclass *)
Definition root_refresh (s : RootState) : RootState :=
  mkRoot (rs_database s) (refreshed (rs_database s)) (rs_unannounced s) (rs_pending s).

(* @src Feather/Sources/Model/MPRootSection.m 140 147 -[MPRootSection children] *)
Definition root_children (s : RootState) : option (list oid) * RootState :=
  let s' := match rs_cachedChildren s with None => root_refresh s | Some _ => s end in
  (rs_cachedChildren s', s').

(** [-hasAddedManagedObject:] and its two neighbours, which are the same. *)
(* @src Feather/Sources/Model/MPRootSection.m 81 97 (part) -[MPRootSection hasAddedManagedObject:] *)
Definition root_changed (s : RootState) : RootState :=
  mkRoot (rs_database s) (rs_cachedChildren s) (pred (rs_unannounced s)) (S (rs_pending s)).

(** The main queue runs the next block, which clears what is cached. *)
Definition root_clear (s : RootState) : RootState :=
  mkRoot (rs_database s) None (rs_unannounced s) (pred (rs_pending s)).

Inductive root_step : RootState → RootState → Prop :=
  | root_write s x : root_step s (mkRoot x (rs_cachedChildren s) (S (rs_unannounced s)) (rs_pending s))
  | root_announce s : (0 < rs_unannounced s)%nat → root_step s (root_changed s)
  | root_run s : (0 < rs_pending s)%nat → root_step s (root_clear s)
  | root_ask s : root_step s (root_children s).2.

(** However writes, announcements, turns of the main queue and questions are interleaved:
    once all that was written has been announced and the main queue is done, a root section
    has the children of what is in the database. *)
Theorem root_sections_catch_up x0 s :
  rtc root_step (root_refresh (mkRoot x0 None 0 0)) s → rs_unannounced s = 0%nat → rs_pending s = 0%nat →
  (root_children s).1 = refreshed (rs_database s).
Proof.
  intros Hsteps. assert (Hinv : rs_unannounced s = 0%nat → rs_pending s = 0%nat →
    rs_cachedChildren s = None ∨ rs_cachedChildren s = refreshed (rs_database s)).
  { refine (rtc_ind_r (λ s, rs_unannounced s = 0%nat → rs_pending s = 0%nat →
      rs_cachedChildren s = None ∨ rs_cachedChildren s = refreshed (rs_database s)) _ _ _ _ Hsteps); [by right|].
    intros s1 s2 _ Hstep IH. destruct Hstep as [y x|y Hy|y Hy|y]; cbn; try done.
    - intros _ _. by left.
    - unfold root_children. destruct (rs_cachedChildren y) as [c|] eqn:Ec; cbn; [by rewrite Ec|by right]. }
  intros Hu Hp. unfold root_children. destruct (rs_cachedChildren s) as [c|] eqn:Ec; [|done].
  destruct (Hinv Hu Hp) as [?|He]; [done|]. cbn. congruence.
Qed.
End roots.

(** ** At work *)
Module SectionsAtWork.
Local Open Scope string_scope.
Import ReferenceRuntime.

Definition identifiers (o : oid) : option string :=
  if bool_decide (o = 1%positive) then Some "MPSection:0001"
  else if bool_decide (o = 2%positive) then Some "MPNote:0001" else None.
Definition classes (o : oid) : string := if bool_decide (o = 2%positive) then "MPNote" else "MPSection".
Definition packages (o : oid) : option pid := Some 1%positive.
Definition parents (o : oid) : option item := None.

Lemma identifiers_unambiguous : unambiguous identifiers.
Proof.
  assert (Hends : ∀ q q' : string, q ++ "-" ++ "MPSection:0001" ≠ q' ++ "-" ++ "MPNote:0001").
  { intros q q' He. apply (f_equal String.list_ascii_of_string) in He. rewrite !ascii_list_app in He.
    apply (f_equal reverse) in He. rewrite !reverse_app in He. by apply (f_equal (take 6)) in He. }
  intros o o' d d' q q'. unfold identifiers. intros Ho Ho' He.
  repeat case_bool_decide; simplify_eq; try done; by (apply Hends in He || (symmetry in He; apply Hends in He)).
Qed.

Lemma wrapped_sections_are_unique_witness : ∃ items s',
  arrayOfWrappedObjects rt classes identifiers packages parents [2%positive; 1%positive] (ObjectItem 1%positive) "notes" noSections
    = (Ok items, s') ∧ length items = 2%nat.
Proof.
  destruct (wrapped_sections_are_unique rt classes identifiers packages parents noSections (ObjectItem 1%positive) 1%positive "notes"
    [2%positive; 1%positive] identifiers_unambiguous) as (items & s' & Hrun & Hitems & _).
  - apply rtc_refl.
  - done.
  - repeat constructor; by eexists.
  - exists items, s'. split; [done|]. by apply Forall2_length in Hitems.
Defined.

(** A section whose parent has gone stays in the pool, and is given below another parent of that
    identifier. *)
Example parent_gone :
  let wrap := arrayOfWrappedObjects rt classes identifiers packages parents in
  (inner ← wrap [1%positive] (ObjectItem 2%positive) "sections"; outer ← wrap [2%positive] (ObjectItem 1%positive) "notes";
   _ ← modify (onSections (parentGone (ObjectItem 1%positive))); again ← wrap [2%positive] (ObjectItem 1%positive) "notes";
   parent ← gets (parentOf parents (default (ObjectItem 9%positive) (head again))); mret (outer, again, parent)) noSections
  = (Ok ([SectionItem 2%positive], [SectionItem 2%positive], None),
     ((inner ← wrap [1%positive] (ObjectItem 2%positive) "sections"; outer ← wrap [2%positive] (ObjectItem 1%positive) "notes";
   _ ← modify (onSections (parentGone (ObjectItem 1%positive))); wrap [2%positive] (ObjectItem 1%positive) "notes") noSections).2).
Proof. vm_compute. reflexivity. Qed.

(** A note wrapped twice below a section is one section, and its identifier says where. *)
Example wrapped_twice :
  let wrap := arrayOfWrappedObjects rt classes identifiers packages parents [2%positive] (ObjectItem 1%positive) "notes" in
  let '(r, s) := (a ← wrap; b ← wrap; id ← fullyQualifiedIdentifier identifiers parents (default (ObjectItem 9%positive) (head b));
                  mret (a, b, id)) noSections in
  r = Ok ([SectionItem 1%positive], [SectionItem 1%positive], "MPSection:0001/notes-MPNote:0001").
Proof. vm_compute. reflexivity. Qed.

(** Identifiers with a slash can meet: the pool gives the section of another parent. *)
Example slashes_meet :
  let ids o := if bool_decide (o = 1%positive) then Some "a" else if bool_decide (o = 2%positive) then Some "a/b-c" else Some "d" in
  let wrap parent prefix := arrayOfWrappedObjects rt classes ids packages parents [3%positive] (ObjectItem parent) prefix in
  (a ← wrap 1%positive "b-c/e"; b ← wrap 2%positive "e"; mret (a, b)) noSections
    = (Ok ([SectionItem 1%positive], [SectionItem 1%positive]),
       ((a ← wrap 1%positive "b-c/e"; b ← wrap 2%positive "e"; mret (a, b)) noSections).2).
Proof. vm_compute. reflexivity. Qed.

(** A class in a module: the object class is found, what is represented is not. *)
Example class_in_a_module :
  root_managedObjectClass rt "Manuscripts.MPNoteRootSection" = Ok "MPNote" ∧
  root_representedObjectClass rt "Manuscripts.MPNoteRootSection" = Throw (AssertionFailed "Could not resolve represented class").
Proof. by split. Qed.
End SectionsAtWork.
