(* ===== verification/Import.v ===== *)
(** * Importing managed objects from JSON

    The import of MPManagedObjectsController.m: an array of dictionaries, each the
    representation of a managed object, becomes an array of objects - found in the
    database and updated, or made - that are saved together. *)
From Stdlib Require Import Ascii.
From stdpp Require Import base tactics strings numbers list gmap.
From S2P Require Import Prelude ObjC Characters ReferenceRuntime Classes World Reference Controllers EmbeddedObject ManagedObject.
From S2P Require Import Frames ObjectTheorems Collections.

(** What an import answers: the objects, or [nil] with an error. *)
Inductive importError : Type :=
  | InvalidDictionary (code : MPManagedObjectDictionaryValidationErrorCode)
  | InvalidJSON
  | Unreadable
  | SaveFailed (err : option NSError).
Inductive import (A : Type) : Type :=
  | Imported (a : A)
  | NotImported (e : importError).
Arguments Imported {A}.
Arguments NotImported {A}.

Section import.
Context {S : Type} `{!CBL S} `{!Env} `{!CBLModelFactory S}.
Local Open Scope string_scope.
Notation M := (M (World S)).

(** [reports]: an error pointer is given.  A dictionary that is no representation is
    logged with [*err], whether there is one or not.  The flag answered is [isExisting]. *)
(* @src Feather/Sources/Model Controllers/MPManagedObjectsController.m 825 859 -[MPManagedObjectsController objectFromJSONDictionary:isExisting:error:] *)
Definition MOC_objectFromJSONDictionary (self : cid) (d : list (string * value)) (reports : bool)
    : M (import (oid * bool)) :=
  invalid ← lift (isManagedObjectDictionary env_rt d);
  match invalid with
  | Some code => if reports then mret (NotImported (InvalidDictionary code)) else badAccess
  | None =>
      match stringOf (managedObjectDocumentID d), stringOf (managedObjectType d) ≫= NSClassFromString env_rt with
      | None, _ => throw (AssertionFailed "Expecting document ID in dictionary")
      | Some _, None => throw (AssertionFailed "Expecting object type in dictionary")
      | Some docID, Some moClass =>
          c ← getMOC self;
          let db := default "" (moc_db c) in
          existing ← cbl_gets (λ s, doc_existing s db docID);
          mo ← (if (existing : bool) then MO_modelForDocument moClass db docID else mret None);
          match mo with
          | Some o =>
              _ ← MO_setValuesForPropertiesWithDictionary o d;
              needsSave ← cbl_gets (λ s, model_needsSave s o);
              mret (Imported (o, needsSave))
          | None =>
              o ← MO_initWithNewDocumentForController moClass (Some self) (Some d) (Some docID);
              mret (Imported (o, false))
          end
      end
  end.

(** The loop over the array, whose elements answer [isManagedObjectDictionary:] if they
    are dictionaries. *)
Fixpoint importEach (self : cid) (objs : list value) (reports : bool) : M (import (list oid)) :=
  match objs with
  | [] => mret (Imported [])
  | NSDictionary d :: rest =>
      r ← MOC_objectFromJSONDictionary self d reports;
      match r with
      | NotImported e => mret (NotImported e)
      | Imported (mo, isExisting) =>
          needsSave ← cbl_gets (λ s, model_needsSave s mo);
          rs ← importEach self rest reports;
          mret match rs with
               | NotImported e => NotImported e
               | Imported mos => Imported (if needsSave || negb isExisting then mo :: mos else mos)
               end
      end
  | _ :: _ => throw (Exception "NSInvalidArgumentException" "unrecognized selector sent to instance")
  end.

(* @src Feather/Sources/Model Controllers/MPManagedObjectsController.m 773 823 -[MPManagedObjectsController objectsFromJSONEncodableObjectArray:error:] *)
Definition MOC_objectsFromJSONEncodableObjectArray (self : cid) (objs : list value) (reports : bool)
    : M (import (list oid)) :=
  r ← importEach self objs reports;
  match r with
  | NotImported e => mret (NotImported e)
  | Imported [] => mret (Imported [])
  | Imported mos =>
      docIDs ← map_each mos MO_documentID;
      _ ← NSAssert (bool_decide (NoDup docIDs)) "There should be no duplicate document IDs amongst the saved objects.";
      saved ← MO_saveModels_error mos;
      mret match saved with YES => Imported mos | NO e => NotImported (SaveFailed e) end
  end.

(** A dictionary is enumerated by its keys, which are strings. *)
(* @src Feather/Sources/Model Controllers/MPManagedObjectsController.m 759 771 -[MPManagedObjectsController objectsFromArrayJSONData:error:] *)
Definition MOC_objectsFromArrayJSONData (self : cid) (objData : string) (reports : bool) : M (import (list oid)) :=
  match env_parseJSON objData with
  | None => if reports then mret (NotImported InvalidJSON) else badAccess
  | Some (NSArray objs) => MOC_objectsFromJSONEncodableObjectArray self objs reports
  | Some (NSDictionary []) => mret (Imported [])
  | Some _ => throw (Exception "NSInvalidArgumentException" "unrecognized selector sent to instance")
  end.

(** [contents] is what is read from the URL. *)
(* @src Feather/Sources/Model Controllers/MPManagedObjectsController.m 746 757 -[MPManagedObjectsController objectsFromContentsOfArrayJSONAtURL:error:] *)
Definition MOC_objectsFromContentsOfArrayJSONAtURL (self : cid) (contents : option string) (reports : bool)
    : M (import (list oid)) :=
  match contents with
  | None => if reports then mret (NotImported Unreadable) else badAccess
  | Some objData => MOC_objectsFromArrayJSONData self objData reports
  end.
End import.

(** ** Making one object *)
Section making.
Context {S : Type} `{!CBL S} `{!CBLLaws S} `{!Env} `{!CBLModelFactory S}.
Local Open Scope string_scope.
Implicit Types w : World S.
Implicit Types d : list (string * value).

(** The properties that are written into a new object's model after its type *)
Definition imported_properties d : list (string * value) :=
  List.filter (λ kv, negb (String.eqb kv.1 "objectType"))
    (List.filter (λ kv, negb (String.eqb kv.1 "_id") && negb (String.eqb kv.1 "_rev")) d).

Fixpoint write_all (s : S) (o : oid) (kvs : list (string * value)) : S :=
  match kvs with
  | [] => s
  | kv :: kvs' => write_all (model_set s o kv.1 (Some kv.2)) o kvs'
  end.

Lemma imported_keys d kv :
  kv ∈ imported_properties d ↔ kv ∈ d ∧ kv.1 ≠ "objectType" ∧ kv.1 ≠ "_id" ∧ kv.1 ≠ "_rev".
Proof.
  unfold imported_properties. rewrite !filter_bool_elem, negb_true_iff, andb_true_iff, !negb_true_iff, !String.eqb_neq.
  tauto.
Qed.

Lemma get_set_string s o p t : model_get (model_set s o p (Some (NSString t))) o p = Some (NSString t).
Proof.
  pose proof (get_set_same s o p (NSString t)) as Hg. destruct (model_get _ _ _) as [y|]; [|done].
  destruct Hg as [->|Hg]; [done|]. destruct y; try done. cbn in Hg. by apply String.eqb_eq in Hg as ->.
Qed.

Lemma write_all_document s o kvs o' : model_document (write_all s o kvs) o' = model_document s o'.
Proof. revert s. induction kvs as [|kv kvs IH]; intros s; [done|]. cbn [write_all]. by rewrite IH, document_set. Qed.
Lemma write_all_deleted s o kvs o' : model_docIsDeleted (write_all s o kvs) o' = model_docIsDeleted s o'.
Proof. revert s. induction kvs as [|kv kvs IH]; intros s; [done|]. cbn [write_all]. by rewrite IH, docIsDeleted_set. Qed.
Lemma write_all_hasModel s o kvs o' : model_hasModelObject (write_all s o kvs) o' = model_hasModelObject s o'.
Proof. revert s. induction kvs as [|kv kvs IH]; intros s; [done|]. cbn [write_all]. by rewrite IH, modelObject_set. Qed.
Lemma write_all_existing s o kvs db i : doc_existing (write_all s o kvs) db i = doc_existing s db i.
Proof. revert s. induction kvs as [|kv kvs IH]; intros s; [done|]. cbn [write_all]. by rewrite IH, existing_set. Qed.
Lemma write_all_other s o kvs o' p : o' ≠ o ∨ p ∉ kvs.*1 → model_get (write_all s o kvs) o' p = model_get s o' p.
Proof.
  revert s. induction kvs as [|[k v] kvs IH]; intros s Hop; [done|]. cbn in *. rewrite IH, get_set_other; [done| |].
  - destruct Hop as [?|Hop]; [by intros [= ? ?]|]. intros [= _ ->]. apply Hop. by left.
  - destruct Hop as [?|Hop]; [by left|]. right. intros ?. apply Hop. by right.
Qed.
Lemma write_all_get s o kvs p v : NoDup (kvs.*1) → (p, v) ∈ kvs →
  ∃ y, model_get (write_all s o kvs) o p = Some y ∧ (y = v ∨ isEqual y v = true).
Proof.
  revert s. induction kvs as [|[k x] kvs IH]; intros s; cbn [fmap list_fmap fst]; [by intros _ ?%elem_of_nil|].
  intros [Hk Hnd]%NoDup_cons [[= -> ->]|Hin]%elem_of_cons; [|by apply IH].
  cbn [write_all fst snd].
  rewrite write_all_other by by right. pose proof (get_set_same s o k x) as Hg.
  destruct (model_get (model_set _ _ _ _) o k) as [y|]; [by exists y|done].
Qed.

(** Writing the properties of a new object, whose type is set already *)
Lemma run_write_all w self m kvs :
  live w self → w_mos w !! self = Some m → NoDup kvs.*1 →
  (∀ k, k ∈ kvs.*1 → untouched w self k) → Forall (λ kv, ¬ identity_key kv.1) kvs →
  MO_setValuesForPropertiesWithDictionary self kvs w = (Ok tt, set_cbl (write_all (w_cbl w) self kvs) w).
Proof.
  intros Hl Hm Hnd Hun Hid. unfold MO_setValuesForPropertiesWithDictionary.
  revert w Hl Hm Hun. induction kvs as [|[k v] kvs IH]; intros w Hl Hm Hun; cbn [for_each]; [by destruct w|].
  apply Forall_cons in Hid as [Hk Hid]. cbn [fst snd fmap list_fmap] in *. apply NoDup_cons in Hnd as [Hkn Hnd].
  rewrite run_bind, run_bind, (run_setValue w self (Some v) k); [| done| |done].
  - cbn. rewrite IH; [done..|by apply live_set|done|].
    intros k' Hk'. destruct (Hun k') as (H1 & H2 & H3); [by right|]. unfold untouched. cbn.
    assert ((self, k') ≠ (self, k)) by congruence.
    by rewrite get_set_other, getUnsaved_set_other, docProperty_set.
  - exists m. split; [done|]. right. right. apply Hun. by left.
Qed.

(** The type, written a second time, is there already. *)
Lemma run_type_again w self cls : live w self →
  model_get (w_cbl w) self "objectType" = Some (NSString cls) →
  MO_setValue_ofProperty self (Some (NSString cls)) "objectType" w = (Ok true, w).
Proof. intros Hl Ht. eapply run_identity_again; [done|by left|done|apply String.eqb_refl]. Qed.

(** What the world looks like after an object [self] with the dictionary [d] was made. *)
Record made w w' (self : oid) (c : cid) (moc : Controller) (db cls docID : string) d : Prop := {
  md_next : w_nextOid w' = Pos.succ (w_nextOid w);
  md_mo : ∃ m, w_mos w' !! self = Some m ∧ mo_class m = cls ∧ mo_controller m = Some c ∧ mo_isNewObject m = true;
  md_mos : ∀ o, o ≠ self → w_mos w' !! o = w_mos w !! o;
  md_mocs : ∀ c', c' ≠ c → w_mocs w' !! c' = w_mocs w !! c';
  md_moc : w_mocs w' !! c = Some (with_registered docID self moc);
  md_log : w_log w' = w_log w;
  md_cbl : w_cbl w' = write_all (model_set (model_init (w_cbl w) self db docID) self "objectType"
                                   (Some (NSString cls))) self (imported_properties d)
}.

Lemma imported_NoDup d : NoDup (d.*1) → NoDup ((imported_properties d).*1).
Proof.
  intros Hd. unfold imported_properties. assert (∀ P (l : list (string * value)), NoDup (l.*1) → NoDup ((List.filter P l).*1)) as Hf.
  { clear. intros P l. induction l as [|kv l IH]; [done|]. cbn. intros [Hk Hl]%NoDup_cons.
    destruct (P kv); [|auto]. cbn. constructor; [|auto]. intros (x & Hx & Hin)%list_elem_of_fmap. apply Hk.
    apply filter_bool_elem in Hin as [Hin _]. apply list_elem_of_fmap. by exists x. }
  auto.
Qed.

(** Making an object with the properties of a dictionary and the identifier it has always
    returns, and does nothing but that. *)
Lemma run_make w cls c moc db managed d docID :
  creatable w cls c moc db managed → NSClassFromString env_rt cls = Some cls →
  assoc "objectType" d = Some (NSString cls) → hasPrefix docID (cls ++ ":") = true → NoDup d.*1 →
  ∃ w', MO_initWithNewDocumentForController cls (Some c) (Some d) (Some docID) w = (Ok (w_nextOid w), w')
        ∧ made w w' (w_nextOid w) c moc db cls docID d.
Proof.
  intros [Hcon Hroot Hmoc Hdb Hman Hsub] Hcls Htype Hpre Hnd. set (self := w_nextOid w).
  unfold MO_initWithNewDocumentForController. rewrite Hcon. cbn [negb].
  rewrite run_bind. unfold getMOC. rewrite Hmoc, Hdb.
  rewrite run_bind. unfold alloc. fold self. rewrite run_bind, run_modify, run_bind.
  set (m0 := mkMO cls (Some c) (Some docID) None None false None None). set (w1 := set_mos _ _).
  assert (w_mos w1 !! self = Some m0) as Hm0 by (subst w1; cbn; apply lookup_insert_eq).
  assert (MO_idForNewDocumentInDatabase self w1 = (Ok docID, w1)) as ->.
  { unfold MO_idForNewDocumentInDatabase, getMO. rewrite run_bind, Hm0. cbn [mo_newDocumentID mo_class m0].
    destruct (String.eqb_spec cls MPManagedObject_class); [done|].
    by rewrite run_bind, run_NSAssert; cbn [negb]; rewrite run_bind, run_NSAssert, Hpre. }
  rewrite run_bind. unfold cbl at 1. rewrite run_modify, run_bind. set (w2 := set_cbl _ _).
  assert (model_document (w_cbl w2) self = Some docID) as Hd2 by (subst w2; cbn; apply document_init).
  unfold cbl_gets at 1. rewrite run_gets, Hd2, run_bind, run_NSAssert, bool_decide_eq_true_2 by eauto.
  rewrite run_bind, (run_didInitialize_eq w2 self m0 c moc managed docID) by done.
  rewrite run_bind. unfold updMO at 1. rewrite run_modify. cbn [w_mos set_mos set_mocs w2 w1 set_cbl].
  set (m2 := mo_with_isNew true (mo_with_cache (Some ∅) m0)). set (w4 := set_mos _ _).
  assert (w_mos w4 !! self = Some m2) as Hm4 by (cbn; by rewrite lookup_alter, lookup_insert_eq, decide_True).
  assert (w_cbl w4 = model_init (w_cbl w) self db docID) as Hcbl4 by done.
  assert (live w4 self) as Hl4 by (unfold live; rewrite Hcbl4, document_init, docIsDeleted_init; eauto).
  cbn [mbind option_bind]. rewrite Htype. cbn [stringOf]. rewrite Hcls, run_bind, run_ret, run_bind.
  unfold MOC_class, getMOC. rewrite run_bind. cbn [w_mocs set_mos set_mocs w4]. rewrite lookup_insert_eq. unfold lift.
  cbn [moc_class with_registered moc_with_cache]. rewrite Hman, run_bind, run_NSAssert, Hsub, orb_true_r, run_bind.
  assert (MO_setObjectType self (Some cls) w4
          = (Ok tt, set_cbl (model_set (w_cbl w4) self "objectType" (Some (NSString cls))) w4)) as ->.
  { unfold MO_setObjectType, MO_set. rewrite run_bind, run_NSAssert, bool_decide_eq_true_2 by eauto.
    rewrite run_bind, (run_setObjectType w4 self m2 cls) by (done || by rewrite Hcbl4, get_init). done. }
  set (w5 := set_cbl _ w4).
  assert (live w5 self) as Hl5 by by apply live_set.
  assert (model_document (w_cbl w5) self = Some docID) as Hd5 by (subst w5; cbn; by rewrite document_set, document_init).
  rewrite run_bind, (run_registerObject w5 self m2 c (with_registered docID self moc) managed docID)
    by (done || apply lookup_insert_eq).
  set (w6 := set_mocs _ w5). rewrite run_bind. unfold MO_setValuesForPropertiesWithDictionary, insertKey.
  cbn [default from_option id]. fold (imported_properties d). rewrite for_each_app, run_bind.
  fold (MO_setValuesForPropertiesWithDictionary self (imported_properties d)).
  rewrite (run_write_all w6 self m2); [|done|done|by apply imported_NoDup| |].
  2:{ intros k ([k' v] & -> & Hin)%list_elem_of_fmap. apply imported_keys in Hin as (_ & Hne & _). cbn in Hne.
      assert ((self, k') ≠ (self, "objectType")) by congruence. unfold untouched. subst w6 w5. cbn.
      rewrite get_set_other, getUnsaved_set_other, docProperty_set by done.
      by rewrite get_init, getUnsaved_init, docProperty_init. }
  2:{ apply Forall_forall. intros kv (_ & H1 & H2 & _)%imported_keys [?|?]; done. }
  set (w7 := set_cbl _ w6). cbn [for_each fst snd].
  assert (live w7 self) as Hl7.
  { unfold live. cbn. by rewrite write_all_document, write_all_deleted. }
  assert (model_get (w_cbl w7) self "objectType" = Some (NSString cls)) as Ht7.
  { cbn. rewrite write_all_other; [apply get_set_string|]. right. intros ([k v] & Hk & Hin)%list_elem_of_fmap.
    apply imported_keys in Hin as (_ & Hne & _). by apply Hne. }
  rewrite run_bind, run_bind, (run_type_again w7 self cls) by done. rewrite !run_ret.
  assert (model_document (w_cbl w7) self = Some docID) as Hd7 by (cbn; by rewrite write_all_document).
  unfold cbl_gets. rewrite run_bind, run_gets, Hd7, run_bind, run_NSAssert, bool_decide_eq_true_2 by done.
  exists w7. split; [done|]. split; try done.
  - by exists m2.
  - intros o Ho. cbn. by rewrite lookup_alter_ne, !lookup_insert_ne.
  - intros c' Hc'. cbn. by rewrite lookup_alter_ne, lookup_insert_ne.
  - cbn. rewrite lookup_alter, lookup_insert_eq, decide_True by done. cbn. f_equal.
    unfold with_registered, moc_with_cache. cbn. by rewrite insert_insert_eq.
Qed.
End making.

(** ** Importing an array *)
Section importing.
Context {S : Type} `{!CBL S} `{!CBLLaws S} `{!Env} `{!CBLModelFactory S}.
Local Open Scope string_scope.
Implicit Types w : World S.
Implicit Types d : list (string * value).

Definition typeOf d : string := default "" (stringOf (assoc "objectType" d)).
Definition idOf d : string := default "" (stringOf (assoc "_id" d)).

(** A dictionary that represents an object of a concrete class the controller manages *)
Record importable (managed : string) d : Prop := {
  ip_valid : isManagedObjectDictionary env_rt d = Ok None;
  ip_concrete : isConcrete env_rt (typeOf d) = true;
  ip_notRoot : typeOf d ≠ MPManagedObject_class;
  ip_managed : isSubclassOfClass env_rt (typeOf d) managed = true;
  ip_keys : NoDup (d.*1)
}.

(** [o] is the new object of the dictionary [d]. *)
Record imported_in w (c : cid) (o : oid) d : Prop := {
  ii_mo : ∃ m, w_mos w !! o = Some m ∧ mo_class m = typeOf d ∧ mo_controller m = Some c ∧ mo_isNewObject m = true;
  ii_document : model_document (w_cbl w) o = Some (idOf d);
  ii_alive : model_docIsDeleted (w_cbl w) o = false;
  ii_model : model_hasModelObject (w_cbl w) o = true;
  ii_type : model_get (w_cbl w) o "objectType" = Some (NSString (typeOf d));
  ii_properties : ∀ k v, (k, v) ∈ imported_properties d → k ≠ "updatedAt" →
    ∃ y, model_get (w_cbl w) o k = Some y ∧ (y = v ∨ isEqual y v = true)
}.

(** Identifiers of objects to come stand for no object yet. *)
Definition fresh w : Prop := ∀ o, (w_nextOid w ≤ o)%positive → model_document (w_cbl w) o = None.

Lemma importable_shape managed d : importable managed d →
  assoc "objectType" d = Some (NSString (typeOf d)) ∧ assoc "_id" d = Some (NSString (idOf d)) ∧
  NSClassFromString env_rt (typeOf d) = Some (typeOf d) ∧ hasPrefix (idOf d) (typeOf d ++ ":") = true.
Proof.
  intros [(cls & rest & Ht & Hc & _ & Hi & _)%managedObjectDictionary_shape _ _ _ _].
  unfold typeOf, idOf. rewrite Ht, Hi. cbn. split_and!; [done..|].
  assert (cls ++ String ":" rest = (cls ++ ":") ++ rest) as -> by by rewrite string_app_assoc.
  apply prefix_refl_app.
Qed.

Lemma made_imported w w' c moc db d managed :
  importable managed d → made w w' (w_nextOid w) c moc db (typeOf d) (idOf d) d →
  imported_in w' c (w_nextOid w) d.
Proof.
  intros Hip [_ Hmo _ _ _ _ Hcbl]. split; [done|..]; rewrite Hcbl.
  - by rewrite write_all_document, document_set, document_init.
  - by rewrite write_all_deleted, docIsDeleted_set, docIsDeleted_init.
  - by rewrite write_all_hasModel, modelObject_set, hasModelObject_init.
  - rewrite write_all_other; [apply get_set_string|]. right. intros ([k v] & Hk & Hin)%list_elem_of_fmap.
    apply imported_keys in Hin as (_ & Hne & _). by apply Hne.
  - intros k v Hin _. by apply write_all_get; [apply imported_NoDup, (ip_keys _ _ Hip)|].
Qed.

Lemma made_keeps w w' c moc db cls docID d o d' :
  made w w' (w_nextOid w) c moc db cls docID d → (o < w_nextOid w)%positive →
  imported_in w c o d' → imported_in w' c o d'.
Proof.
  intros [_ _ Hmos _ _ _ Hcbl] Ho [Hmo Hd Ha Hh Ht Hp].
  assert (o ≠ w_nextOid w) as Hne by lia. split; rewrite ?Hcbl.
  - by rewrite Hmos.
  - by rewrite write_all_document, document_set, document_init_other.
  - by rewrite write_all_deleted, docIsDeleted_set, docIsDeleted_init_other.
  - by rewrite write_all_hasModel, modelObject_set, hasModelObject_init_other.
  - by rewrite write_all_other, get_set_other, get_init_other by (try congruence; by left).
  - intros k v Hin Hk. rewrite write_all_other, get_set_other, get_init_other by (try congruence; by left). eauto.
Qed.

Lemma made_fresh w w' c moc db cls docID d :
  made w w' (w_nextOid w) c moc db cls docID d → fresh w → fresh w'.
Proof.
  intros [Hn _ _ _ _ _ Hcbl] Hf o Ho. rewrite Hn in Ho. rewrite Hcbl, write_all_document, document_set.
  rewrite document_init_other by lia. apply Hf. lia.
Qed.

Lemma made_existing w w' c moc db cls docID d db' i :
  made w w' (w_nextOid w) c moc db cls docID d → fresh w → i ≠ docID →
  doc_existing (w_cbl w') db' i = doc_existing (w_cbl w) db' i.
Proof.
  intros Hm Hf Hi. rewrite (md_cbl _ _ _ _ _ _ _ _ _ Hm), write_all_existing, existing_set, existing_init; [done| |done].
  apply Hf. lia.
Qed.

(** The objects [os] were made, in this order, for the dictionaries [ds]. *)
Record imports w w' (c : cid) (os : list oid) (ds : list (list (string * value))) : Prop := {
  im_objects : Forall2 (imported_in w' c) os ds;
  im_new : Forall (λ o, (w_nextOid w ≤ o < w_nextOid w')%positive) os;
  im_distinct : NoDup os;
  im_log : w_log w' = w_log w;
  im_others : ∀ o, (o < w_nextOid w)%positive → w_mos w' !! o = w_mos w !! o;
  im_keeps : ∀ o d, (o < w_nextOid w)%positive → imported_in w c o d → imported_in w' c o d;
  im_next : (w_nextOid w ≤ w_nextOid w')%positive;
  im_fresh : fresh w';
  im_registered : ∃ moc moc', w_mocs w !! c = Some moc ∧ w_mocs w' !! c = Some moc' ∧
    moc_class moc' = moc_class moc ∧ moc_db moc' = moc_db moc ∧
    Forall2 (λ o d, moc_objectCache moc' !! idOf d = Some o) os ds ∧
    ∀ i, i ∉ (idOf <$> ds) → moc_objectCache moc' !! i = moc_objectCache moc !! i;
  im_existing : ∀ db i, i ∉ (idOf <$> ds) → doc_existing (w_cbl w') db i = doc_existing (w_cbl w) db i
}.

Lemma run_objectFromJSON w c moc db managed d reports :
  w_mocs w !! c = Some moc → moc_db moc = Some db → MOC_managedObjectClass env_rt (moc_class moc) = Ok managed →
  importable managed d → doc_existing (w_cbl w) db (idOf d) = false →
  ∃ w', MOC_objectFromJSONDictionary c d reports w = (Ok (Imported (w_nextOid w, false)), w')
        ∧ made w w' (w_nextOid w) c moc db (typeOf d) (idOf d) d.
Proof.
  intros Hc Hdb Hman Hip Hnew. destruct (importable_shape _ _ Hip) as (Ht & Hi & Hcls & Hpre).
  destruct (run_make w (typeOf d) c moc db managed d (idOf d)) as (w' & Hrun & Hmade); try done; [split; try done; apply Hip|apply Hip|].
  exists w'. split; [|done]. unfold MOC_objectFromJSONDictionary. rewrite run_bind. unfold lift.
  rewrite (ip_valid _ _ Hip). unfold managedObjectDocumentID, managedObjectType. rewrite Hi, Ht.
  cbn [stringOf mbind option_bind]. rewrite Hcls, run_bind. unfold getMOC. rewrite Hc, Hdb. cbn [default from_option id].
  rewrite run_bind. unfold cbl_gets. rewrite run_gets, Hnew, run_bind, run_ret, run_bind, Hrun. done.
Qed.

(** The loop makes one object for every dictionary, and goes on with the rest. *)
Lemma run_importEach ds rest reports w c moc db managed :
  w_mocs w !! c = Some moc → moc_db moc = Some db → MOC_managedObjectClass env_rt (moc_class moc) = Ok managed →
  Forall (importable managed) ds → NoDup (idOf <$> ds) → fresh w →
  Forall (λ d, doc_existing (w_cbl w) db (idOf d) = false) ds →
  ∃ w' os, imports w w' c os ds ∧
    importEach c ((NSDictionary <$> ds) ++ rest)%list reports w
    = let '(r, w'') := importEach c rest reports w' in
      (match r with
       | Ok (Imported mos) => Ok (Imported (os ++ mos)%list)
       | _ => r
       end, w'').
Proof.
  intros Hc Hdb Hman Hall. revert w moc Hc Hdb Hman. induction Hall as [|d ds Hip Hall IH]; intros w moc Hc Hdb Hman Hnd Hf Habs.
  - exists w, []. split.
    + split; try done; [by constructor|]. exists moc, moc. by split_and!.
    + cbn. destruct (importEach c rest reports w) as [[[mos|e]|e] w'']; done.
  - cbn [fmap list_fmap] in Hnd. apply NoDup_cons in Hnd as [Hd Hnd]. apply Forall_cons in Habs as [Hnew Habs].
    destruct (run_objectFromJSON w c moc db managed d reports) as (w1 & Hrun & Hmade); try done.
    destruct (IH w1 (with_registered (idOf d) (w_nextOid w) moc)) as (w' & os & Him & Hrest); try done.
    { apply (md_moc _ _ _ _ _ _ _ _ _ Hmade). }
    { by eapply made_fresh. }
    { apply Forall_forall. intros d' Hd'. rewrite Forall_forall in Habs. rewrite <- (Habs d' Hd').
      eapply made_existing; [done..|]. intros E. apply Hd. rewrite <- E. apply list_elem_of_fmap. eauto. }
    exists w', (w_nextOid w :: os). destruct Him as [Hobj Hnew' Hdis Hlog Hoth Hkeeps Hnext Hfr Hreg Hex].
    pose proof (md_next _ _ _ _ _ _ _ _ _ Hmade) as Hn.
    split; [split|].
    + constructor; [|done]. apply Hkeeps; [lia|]. by eapply made_imported.
    + constructor; [lia|]. eapply Forall_impl; [exact Hnew'|]. cbn. intros o. lia.
    + constructor; [|done]. intros Hin. rewrite Forall_forall in Hnew'. apply Hnew' in Hin. lia.
    + by rewrite Hlog, (md_log _ _ _ _ _ _ _ _ _ Hmade).
    + intros o Ho. rewrite Hoth by lia. apply (md_mos _ _ _ _ _ _ _ _ _ Hmade). lia.
    + intros o d' Ho Hod. apply Hkeeps; [lia|]. by eapply made_keeps.
    + lia.
    + done.
    + destruct Hreg as (moc1 & moc' & Hm1 & Hm' & Hcl & Hdb' & Hcache & Hother).
      rewrite (md_moc _ _ _ _ _ _ _ _ _ Hmade) in Hm1. injection Hm1 as <-.
      exists moc, moc'. split_and!; [done..| |].
      * constructor; [|done]. rewrite (Hother _ Hd). cbn. by rewrite lookup_insert_eq.
      * intros i [Hi1 Hi2]%not_elem_of_cons. rewrite (Hother _ Hi2). cbn. by rewrite lookup_insert_ne.
    + intros db' i [Hi1 Hi2]%not_elem_of_cons. rewrite (Hex _ _ Hi2). by eapply made_existing.
    + cbn [fmap list_fmap app importEach]. rewrite run_bind, Hrun, run_bind. unfold cbl_gets. rewrite run_gets, run_bind, Hrest.
      destruct (importEach c rest reports w') as [[[mos|e]|e] w'']; cbn; rewrite ?orb_true_r; done.
Qed.

(** ** Saving what was made *)

(** A state of the models that differs in time stamps at most *)
Record stamped (w : World S) (s' : S) : Prop := {
  st_keeps : ∀ c o d, imported_in w c o d → imported_in (set_cbl s' w) c o d;
  st_document : ∀ o, model_document s' o = model_document (w_cbl w) o;
  st_existing : ∀ db i, doc_existing s' db i = doc_existing (w_cbl w) db i
}.

Lemma stamped_refl w : stamped w (w_cbl w).
Proof. split; [|done..]. intros c o d Hod. by destruct w. Qed.
Lemma stamped_trans w s1 s2 : stamped w s1 → stamped (set_cbl s1 w) s2 → stamped w s2.
Proof.
  intros [K1 D1 E1] [K2 D2 E2]. split.
  - intros c o d Hod. by apply K2, K1.
  - intros o. by rewrite D2, <- D1.
  - intros db i. by rewrite E2, <- E1.
Qed.
Lemma stamped_set w self p v :
  p = "updatedAt" ∨ (p = "createdAt" ∧ model_get (w_cbl w) self p = None) → stamped w (model_set (w_cbl w) self p v).
Proof.
  intros Hp. split; [|intros; apply document_set|intros; apply existing_set].
  intros c o d [Hmo Hd Ha Hh Ht Hpr].
  split; cbn; [done|by rewrite document_set|by rewrite docIsDeleted_set|by rewrite modelObject_set| |].
  - rewrite get_set_other; [done|]. intros [= _ E]. by destruct Hp as [->|[-> _]].
  - intros k x Hin Hk. destruct (Hpr k x Hin Hk) as (y & Hy & Heq). exists y. split; [|done].
    rewrite get_set_other; [done|]. intros [= -> ->]. destruct Hp as [?|[_ Hnone]]; [done|congruence].
Qed.

Lemma run_stamp w c o d : imported_in w c o d →
  ∃ s', MO_updateTimestamps o w = (Ok tt, set_cbl s' w) ∧ stamped w s'.
Proof.
  intros [(m & Hm & _) Hd Ha _ _ _].
  eexists. split; [apply (run_updateTimestamps w o m); [split; [eauto|done]|done]|].
  assert (stamped w (match model_get (w_cbl w) o "createdAt" with
                     | Some _ => w_cbl w
                     | None => model_set (w_cbl w) o "createdAt" (Some (NSNumber (w_now w)))
                     end)) as H1.
  { destruct (model_get _ _ "createdAt") eqn:E; [apply stamped_refl|]. apply stamped_set. by right. }
  destruct (model_needsSave _ o); [|done].
  eapply stamped_trans; [exact H1|]. apply (stamped_set (set_cbl _ w)). by left.
Qed.

Lemma run_saveModels w c os ds : os ≠ [] → Forall2 (imported_in w c) os ds →
  ∃ s1, stamped w s1 ∧
    MO_saveModels_error os w = (let '(o, s') := model_saveAll s1 os in (Ok o, set_cbl s' w)).
Proof.
  intros Hne H2. unfold MO_saveModels_error.
  assert ((match os with [] => mret None | o :: _ => m ← getMO o; mret (mo_controller m) end) w = (Ok (Some c), w)) as Hmoc.
  { destruct H2 as [|o d os ds [(m & Hm & _ & Hmc & _) _ _ _ _ _] _]; [done|]. unfold getMO.
    by rewrite run_bind, Hm, run_ret, Hmc. }
  rewrite run_bind, Hmoc. clear Hmoc Hne. generalize os at 1 3 as all. intros all.
  assert (∃ s1, stamped w s1 ∧ for_each os (λ mo,
        m ← getMO mo;
        _ ← NSAssert (bool_decide (mo_controller m = Some c)) "mo.controller == moc";
        has ← cbl_gets (λ s, model_hasModelObject s mo);
        _ ← (if negb has then cbl (λ s, model_setModelObject s mo) else mret tt);
        MO_updateTimestamps mo) w = (Ok tt, set_cbl s1 w)) as (s1 & Hs & Hloop).
  { revert w ds H2. induction os as [|o os IH]; intros w ds H2.
    - exists (w_cbl w). split; [apply stamped_refl|]. by destruct w.
    - apply Forall2_cons_inv_l in H2 as (d & ds' & Hod & H2 & ->).
      destruct (run_stamp w c o d Hod) as (s1 & Hrun & Hs1).
      destruct (IH (set_cbl s1 w) ds') as (s2 & Hs2 & Hloop).
      { eapply Forall2_impl; [exact H2|]. intros o' d'. apply (st_keeps _ _ Hs1). }
      exists s2. split; [by eapply stamped_trans|]. cbn [for_each].
      destruct Hod as [(m & Hm & _ & Hmc & _) _ _ Hh _ _].
      rewrite run_bind, run_bind. unfold getMO. rewrite Hm, run_bind, run_NSAssert, bool_decide_eq_true_2 by done.
      rewrite run_bind. unfold cbl_gets. rewrite run_gets, Hh. cbn [negb].
      rewrite run_bind, run_ret, Hrun. exact Hloop. }
  exists s1. split; [done|]. rewrite run_bind, Hloop. unfold cbl_run. cbn [w_cbl set_cbl].
  by destruct (model_saveAll s1 all).
Qed.

Lemma run_documentIDs w c os ds : Forall2 (imported_in w c) os ds →
  map_each os MO_documentID w = (Ok (idOf <$> ds), w).
Proof.
  induction 1 as [|o d os ds Hod _ IH]; [done|]. cbn [map_each fmap list_fmap]. rewrite run_bind.
  unfold MO_documentID at 1, cbl_gets. rewrite run_bind, run_gets, (ii_document _ _ _ _ Hod), run_ret.
  by rewrite run_bind, IH, run_ret.
Qed.

Lemma imports_stamped w w1 c os ds s' : imports w w1 c os ds → stamped w1 s' → imports w (set_cbl s' w1) c os ds.
Proof.
  intros [Hobj Hnew Hdis Hlog Hoth Hkeeps Hnext Hfr Hreg Hex] [K D E]. split; try done.
  - eapply Forall2_impl; [exact Hobj|]. intros o d. apply K.
  - intros o d Ho Hod. by apply K, Hkeeps.
  - intros o Ho. cbn. rewrite D. by apply Hfr.
  - intros db i Hi. cbn. by rewrite E, Hex.
Qed.
End importing.

(** C9 (functional). Importing JSON: take an array of dictionaries, each with every key once, that
    represent objects of concrete classes of the controller, under distinct identifiers the
    database does not have (and a heap that has nothing yet where objects are to be
    allocated).  They become new objects in the order of the array - each with
    the class, the identifier and the properties of its dictionary, also those that are
    dictionaries for embedded objects, and registered with the controller.  The properties
    are all there but for the one that a save overwrites, the date of the last update.
    Nothing is announced, and one call saves them all: the import answers them if the
    database says YES, and its error otherwise.  A dictionary that represents no object ends
    the import before anything is saved - with its error when one is asked for; without a
    place for the error, the code reads it all the same and crashes. *)
Theorem json_import {S} `{!CBL S} `{!CBLLaws S} `{!Env} `{!CBLModelFactory S} (w : World S) self moc db managed ds rest reports :
  w_mocs w !! self = Some moc → moc_db moc = Some db → MOC_managedObjectClass env_rt (moc_class moc) = Ok managed →
  Forall (importable managed) ds → NoDup (idOf <$> ds) → fresh w →
  Forall (λ d, doc_existing (w_cbl w) db (idOf d) = false) ds →
  ∃ w1 os, imports w w1 self os ds ∧
    match rest with
    | [] =>
        MOC_objectsFromJSONEncodableObjectArray self (NSDictionary <$> ds) reports w =
        match os with
        | [] => (Ok (Imported []), w1)
        | _ => let '(saved, s') := model_saveAll (w_cbl w1) os in
               (Ok match saved with YES => Imported os | NO e => NotImported (SaveFailed e) end, set_cbl s' w1)
        end
    | d :: _ =>
        ∀ code, isManagedObjectDictionary env_rt d = Ok (Some code) →
        MOC_objectsFromJSONEncodableObjectArray self (NSDictionary <$> (ds ++ rest)) reports w
        = (if reports then (Ok (NotImported (InvalidDictionary code)), w1) else badAccess w1)
    end.
Proof.
  intros Hc Hdb Hman Hall Hnd Hf Habs.
  destruct (run_importEach ds (NSDictionary <$> rest) reports w self moc db managed) as (w1 & os & Him & Hrun); try done.
  rewrite <- fmap_app in Hrun. destruct rest as [|d rest].
  - rewrite app_nil_r in Hrun. cbn [fmap list_fmap importEach] in Hrun. rewrite run_ret, app_nil_r in Hrun.
    pose proof (im_objects _ _ _ _ _ Him) as Hobj.
    destruct os as [|o os].
    + exists w1, []. split; [done|]. unfold MOC_objectsFromJSONEncodableObjectArray. by rewrite run_bind, Hrun.
    + destruct (run_saveModels w1 self (o :: os) ds) as (s1 & Hst & Hsave); [done..|].
      exists (set_cbl s1 w1), (o :: os). split; [by apply imports_stamped|].
      unfold MOC_objectsFromJSONEncodableObjectArray.
      rewrite run_bind, Hrun, run_bind, (run_documentIDs w1 self _ ds Hobj).
      rewrite run_bind, run_NSAssert, bool_decide_eq_true_2 by done. rewrite run_bind, Hsave. cbn [w_cbl set_cbl].
      destruct (model_saveAll s1 (o :: os)) as [[|e] s']; by rewrite run_ret.
  - exists w1, os. split; [done|]. intros code Hcode. unfold MOC_objectsFromJSONEncodableObjectArray.
    rewrite run_bind, Hrun. cbn [fmap list_fmap importEach]. unfold MOC_objectFromJSONDictionary.
    rewrite run_bind, run_bind. unfold lift. rewrite Hcode. by destruct reports.
Qed.

(** An object counts as existing only when it has changes to save: so the condition
    under which [objectsFromJSONEncodableObjectArray:error:] keeps an object always holds,
    and an object that the import leaves as it was is saved again. *)
Lemma existing_needsSave {S} `{!CBL S} `{!Env} `{!CBLModelFactory S} (w w' : World S) self d reports o isExisting :
  MOC_objectFromJSONDictionary self d reports w = (Ok (Imported (o, isExisting)), w') →
  model_needsSave (w_cbl w') o || negb isExisting = true.
Proof.
  unfold MOC_objectFromJSONDictionary, lift. rewrite run_bind.
  destruct (isManagedObjectDictionary env_rt d) as [[code|]|]; [by destruct reports| |done].
  destruct (stringOf _) as [docID|]; [|done]. destruct (stringOf _ ≫= _) as [cls|]; [|done].
  rewrite run_bind. destruct (getMOC self w) as [[moc|] w1]; [|done].
  unfold cbl_gets. rewrite run_bind, run_gets, run_bind.
  match goal with |- context [(if ?b then ?x else ?y) ?s] => destruct ((if b then x else y) s) as [[[mo|]|] w2] end; [..|done].
  - rewrite run_bind. destruct (MO_setValuesForPropertiesWithDictionary mo d w2) as [[[]|] w3]; [|done].
    rewrite run_bind, run_gets. intros [= <- <- <-]. by destruct (model_needsSave _ _).
  - rewrite run_bind. destruct (MO_initWithNewDocumentForController _ _ _ _ w2) as [[o'|] w3]; [|done].
    intros [= <- <- <-]. apply orb_true_r.
Qed.

Import Reference.

(** Two notes are imported, and then a dictionary that represents nothing. *)
Definition sample_note (k : string) : list (string * value) :=
  [("_id", NSString ("MPNote:" ++ k)); ("objectType", NSString "MPNote"); ("title", NSString k)]%string.
Definition sample_stranger : list (string * value) := [("title", NSString "untyped")]%string.

Lemma sample_importable k : @isManagedObjectDictionary (@env_rt Reference.env) (sample_note k) = Ok None →
  importable "MPNote" (sample_note k).
Proof.
  intros Hv. split; [exact Hv|by vm_compute..|]. by apply (bool_decide_unpack _).
Qed.

Lemma fresh_world0 : fresh Reference.world0.
Proof.
  intros o Ho. cbn in *. unfold Reference.at_. cbn. rewrite lookup_insert_ne, lookup_insert_ne; [done|..].
  all: intros E; subst o; unfold Reference.section_, Reference.note in *; lia.
Qed.

Lemma json_import_witness :
  (∃ w1 os, imports Reference.world0 w1 Reference.notes os [sample_note "a"; sample_note "b"] ∧
    MOC_objectsFromJSONEncodableObjectArray Reference.notes
      (NSDictionary <$> [sample_note "a"; sample_note "b"]) true Reference.world0
    = (let '(saved, s') := model_saveAll (w_cbl w1) os in
       (Ok match saved with YES => Imported os | NO e => NotImported (SaveFailed e) end, set_cbl s' w1))).
Proof.
  destruct (json_import Reference.world0 Reference.notes
              (mkController "MPNotesController" Reference.package (Some "manuscript"%string) {["MPNote:0001"%string := Reference.note]})
              "manuscript" "MPNote" [sample_note "a"; sample_note "b"] [] true) as (w1 & os & Him & Hrun).
  - reflexivity.
  - reflexivity.
  - vm_compute. reflexivity.
  - rewrite !Forall_cons. split_and!; [apply sample_importable; vm_compute; reflexivity..|by constructor].
  - apply (bool_decide_unpack _). vm_compute. reflexivity.
  - apply fresh_world0.
  - rewrite !Forall_cons. split_and!; [vm_compute; reflexivity..|by constructor].
  - exists w1, os. split; [exact Him|]. destruct os; [by pose proof (im_objects _ _ _ _ _ Him) as ?%Forall2_length|exact Hrun].
Defined.
