(* ===== verification/Pasteboard.v ===== *)
(** * Objects on the pasteboard

    What managed and embedded objects write to the pasteboard and how they are read back from
    it: the pasteboard sections of src/Feather/Sources/Model/MPManagedObject.m and
    MPEmbeddedObject.m, on top of the references of EmbeddedStorage.v. *)
From stdpp Require Import base tactics strings numbers list gmap.
From S2P Require Import Prelude ObjC ReferenceRuntime Classes World Reference Controllers EmbeddedObject ManagedObject Frames.
From S2P Require Import ObjectTheorems EmbeddedStorage ObjectReferences Collections Import.

(** [-propertyList:isValidForFormat:NSPropertyListXMLFormat_v1_0]: no [NSNull], no sets, no
    objects of other classes, at any depth. *)
Fixpoint isPropertyList (v : value) : bool :=
  match v with
  | NSNumber _ | NSString _ | NSDate _ | NSData _ => true
  | NSArray l => forallb isPropertyList l
  | NSDictionary d => forallb (λ kv, isPropertyList kv.2) d
  | NSNull | NSSet _ | MPObj _ => false
  end.

(** [+dataWithPropertyList:format:options:error:] with the pasteboard's reading of the data
    as a property list: what is a property list comes back. *)
Definition dataWithPropertyList (plist : value) : option value := if isPropertyList plist then Some plist else None.

Section pasteboard.
Context {S : Type} `{!CBL S} `{!Env} `{!CBLModelFactory S}.
Local Open Scope string_scope.
Notation M := (M (World S)).

(* @src Feather/Sources/Model/MPManagedObject.m 29 29 MPPasteboardTypeManagedObjectFull *)
Definition MPPasteboardTypeManagedObjectFull := "com.piipari.mo.id.plist".
(* @src Feather/Sources/Model/MPManagedObject.m 30 30 MPPasteboardTypeManagedObjectID *)
Definition MPPasteboardTypeManagedObjectID := "com.piipari.mo.id.plist".
(* @src Feather/Sources/Model/MPManagedObject.m 31 31 MPPasteboardTypeManagedObjectIDArray *)
Definition MPPasteboardTypeManagedObjectIDArray := "com.piipari.mo.array.plist".

Definition managedObjectTypes : list string :=
  [MPPasteboardTypeManagedObjectFull; MPPasteboardTypeManagedObjectID; MPPasteboardTypeManagedObjectIDArray].

(** [self.controller.packageController.fullyQualifiedIdentifier] *)
Definition MO_packageIdentifier (self : oid) : M (option string) :=
  pkgc ← MO_packageController self;
  match pkgc with Some p => k ← getPkg p; mret (pkg_fullyQualifiedIdentifier k) | None => mret None end.

(* @src Feather/Sources/Model/MPManagedObject.m 1567 1615 -[MPManagedObject pasteboardPropertyListForType:] *)
Definition MO_pasteboardPropertyListForType (self : oid) (type : string) : M (option value) :=
  _ ← MO_documentID self;
  deleted ← MO_isDeleted self;
  if (deleted : bool) then mret None
  else
    _ ← NSAssert (bool_decide (type ∈ managedObjectTypes)) "unexpected type";
    if String.eqb type MPPasteboardTypeManagedObjectFull then
      dict ← cbl_gets (λ s, model_propertiesToSave s self);
      databasePackageID ← MO_packageIdentifier self;
      registry ← gets w_registry;
      _ ← NSAssert (bool_decide (is_Some (databasePackageID ≫= λ i, registry !! i))) "databasePackageID";
      mret (dataWithPropertyList
              (NSDictionary (insertKey "databasePackageID" (NSString (default "" databasePackageID)) dict)))
    else if String.eqb type MPPasteboardTypeManagedObjectID then
      rep ← MO_referableDictionaryRepresentation self;
      mret (rep ≫= λ r, dataWithPropertyList (NSDictionary r))
    else
      rep ← MO_referableDictionaryRepresentation self;
      match rep with
      | Some r => mret (dataWithPropertyList (NSArray [NSDictionary r]))
      | None => throw (Exception "NSInvalidArgumentException" "attempt to insert nil object")
      end.

(* @src Feather/Sources/Model/MPManagedObject.m 1633 1643 +[MPManagedObject pasteboardObjectIDPropertyListForObjects:error:] *)
Definition MO_pasteboardObjectIDPropertyListForObjects (objects : list oid) : M (option value) :=
  objectIDDicts ← map_each objects (λ mo,
    dict ← MO_referableDictionaryRepresentation mo;
    _ ← NSAssert (match dict with Some d => isPropertyList (NSDictionary d) | None => false end)
          "Objects do not form a valid property list";
    mret (NSDictionary (default [] dict)));
  mret (dataWithPropertyList (NSArray objectIDDicts)).

(* @src Feather/Sources/Model/MPManagedObject.m 1673 1680 -[MPManagedObject initWithPasteboardObjectIDPropertyList:ofType:] *)
Definition MO_initWithPasteboardObjectIDPropertyList (cls : string) (propertyList : value) (type : string) : M oid :=
  _ ← NSAssert (String.eqb type MPPasteboardTypeManagedObjectID) "type";
  match propertyList with
  | NSDictionary d =>
      let named := managedObjectType d ≫= λ t, stringOf (Some t) ≫= NSClassFromString env_rt in
      _ ← NSAssert (bool_decide (named = Some cls)) "self.class == NSClassFromString([propertyList managedObjectType])";
      MO_objectWithReferableDictionaryRepresentation d
  | _ => unrecognizedSelector
  end.

(* @src Feather/Sources/Model/MPManagedObject.m 1660 1671 -[MPManagedObject initWithPasteboardPropertyList:ofType:] *)
Definition MO_initWithPasteboardPropertyList (cls : string) (propertyList : value) (type : string) : M oid :=
  _ ← NSAssert (bool_decide (type ∈ managedObjectTypes)) "type";
  obj ← MO_initWithPasteboardObjectIDPropertyList cls propertyList MPPasteboardTypeManagedObjectID;
  _ ← (if String.eqb type MPPasteboardTypeManagedObjectFull then
         match propertyList with
         | NSDictionary d => MO_setValuesForPropertiesWithDictionary obj d
         | _ => unrecognizedSelector
         end
       else mret tt);
  mret obj.

(** ** Embedded objects *)

(* @src Feather/Sources/Model/MPEmbeddedObject.m 27 27 MPPasteboardTypeEmbeddedObjectFull *)
Definition MPPasteboardTypeEmbeddedObjectFull := "com.piipari.eo.full.plist".
(* @src Feather/Sources/Model/MPEmbeddedObject.m 28 28 MPPasteboardTypeEmbeddedObjectID *)
Definition MPPasteboardTypeEmbeddedObjectID := "com.piipari.eo.id.plist".
(* @src Feather/Sources/Model/MPEmbeddedObject.m 29 29 MPPasteboardTypeEmbeddedObjectIDArray *)
Definition MPPasteboardTypeEmbeddedObjectIDArray := "com.piipari.eo.id.array.plist".

Definition embeddedObjectTypes : list string :=
  [MPPasteboardTypeEmbeddedObjectFull; MPPasteboardTypeEmbeddedObjectID; MPPasteboardTypeEmbeddedObjectIDArray].

(* @src Feather/Sources/Model/MPEmbeddedObject.m 961 1000 -[MPEmbeddedObject pasteboardPropertyListForType:] *)
Definition EO_pasteboardPropertyListForType (self : oid) (type : string) : M (option value) :=
  _ ← NSAssert (bool_decide (type ∈ embeddedObjectTypes)) "type";
  if String.eqb type MPPasteboardTypeEmbeddedObjectFull then
    e ← getEO self;
    mret (dataWithPropertyList (NSDictionary (map_to_list (eo_properties e))))
  else
    rep ← EO_referableDictionaryRepresentation self;
    mret (r ← rep;
          dataWithPropertyList (if String.eqb type MPPasteboardTypeEmbeddedObjectID then NSDictionary r
                                else NSArray [NSDictionary r])).

(* @src Feather/Sources/Model/MPEmbeddedObject.m 1042 1048 -[MPEmbeddedObject initWithPasteboardObjectIDPropertyList:ofType:] *)
Definition EO_initWithPasteboardObjectIDPropertyList (propertyList : value) (type : string) : M (option value) :=
  _ ← NSAssert (String.eqb type MPPasteboardTypeEmbeddedObjectID) "type";
  match propertyList with
  | NSDictionary d => EO_objectWithReferableDictionaryRepresentation d
  | _ => throw (AssertionFailed "[propertyList isKindOfClass:[NSDictionary class]]")
  end.

(* @src Feather/Sources/Model/MPEmbeddedObject.m 1029 1040 -[MPEmbeddedObject initWithPasteboardPropertyList:ofType:] *)
Definition EO_initWithPasteboardPropertyList (propertyList : value) (type : string) : M (option value) :=
  _ ← NSAssert (bool_decide (type ∈ embeddedObjectTypes)) "type";
  obj ← EO_initWithPasteboardObjectIDPropertyList propertyList MPPasteboardTypeEmbeddedObjectID;
  _ ← (match obj, propertyList with
       | Some (MPObj o), NSDictionary d =>
           if String.eqb type MPPasteboardTypeEmbeddedObjectFull then
             for_each d (λ kv, _ ← EO_setValue_ofProperty o (Some kv.2) (Some kv.1); mret tt)
           else mret tt
       | Some _, _ => if String.eqb type MPPasteboardTypeEmbeddedObjectFull then unrecognizedSelector else mret tt
       | None, _ => mret tt
       end);
  mret obj.
End pasteboard.

(** ** What is written and read *)
Section proofs.
Context {S : Type} `{!CBL S} `{!CBLLaws S} `{!Env} `{!CBLModelFactory S}.
Local Open Scope string_scope.
Implicit Types w : World S.

Lemma insertKey_elem k v d kv : kv ∈ insertKey k v d ↔ (kv ∈ d ∧ kv.1 ≠ k) ∨ kv = (k, v).
Proof.
  unfold insertKey. rewrite elem_of_app, filter_bool_elem, negb_true_iff, String.eqb_neq, list_elem_of_singleton. done.
Qed.

Lemma insertKey_NoDup k v d : NoDup d.*1 → NoDup (insertKey k v d).*1.
Proof.
  intros Hd. unfold insertKey. rewrite fmap_app, NoDup_app. split; [|split].
  - induction d as [|[k' x] d IH]; cbn; [constructor|]. cbn in Hd. apply NoDup_cons in Hd as [Hk Hd].
    destruct (String.eqb_spec k' k); cbn [negb]; [by apply IH|]. cbn. apply NoDup_cons. split; [|by apply IH].
    intros ([k2 y] & -> & [Hin _]%filter_bool_elem)%list_elem_of_fmap. apply Hk, list_elem_of_fmap. by exists (k2, y).
  - intros x ([k2 y] & -> & [_ Hne]%filter_bool_elem)%list_elem_of_fmap. cbn in *.
    rewrite negb_true_iff, String.eqb_neq in Hne. by rewrite list_elem_of_singleton.
  - apply NoDup_singleton.
Qed.

Lemma assoc_insertKey k v d k' x :
  NoDup d.*1 → k' ≠ k → assoc k' d = Some x → assoc k' (insertKey k v d) = Some x.
Proof.
  intros Hd Hne Hx. apply elem_assoc; [by apply insertKey_NoDup|]. apply insertKey_elem. left.
  by split; [apply assoc_elem|].
Qed.

(** The properties that do not identify the object. *)
Definition pasted (kvs : list (string * value)) : list (string * value) :=
  List.filter (λ kv, negb (String.eqb kv.1 "objectType") && negb (String.eqb kv.1 "_id")) kvs.

Lemma pasted_elem kvs kv : kv ∈ pasted kvs ↔ kv ∈ kvs ∧ ¬ identity_key kv.1.
Proof.
  unfold pasted, identity_key. rewrite filter_bool_elem, andb_true_iff, !negb_true_iff, !String.eqb_neq. tauto.
Qed.

Lemma pasted_NoDup kvs : NoDup kvs.*1 → NoDup (pasted kvs).*1.
Proof.
  unfold pasted. induction kvs as [|[k v] kvs IH]; cbn; [constructor|]. intros [Hk Hd]%NoDup_cons.
  destruct (_ && _); [|by apply IH]. cbn. apply NoDup_cons. split; [|by apply IH].
  intros ([k2 y] & -> & [Hin _]%filter_bool_elem)%list_elem_of_fmap. apply Hk, list_elem_of_fmap. by exists (k2, y).
Qed.

(** No property is a dictionary where the class keeps an embedded object. *)
Definition plain (cls : string) (d : list (string * value)) : Prop :=
  Forall (λ kv, kv.1 ∉ embeddedProperties env_rt cls ∨ ∀ x, kv.2 ≠ NSDictionary x) d.

(** Setting the values of a dictionary that names the object it is for. *)
Lemma run_paste w obj m kvs :
  live w obj → w_mos w !! obj = Some m → plain (mo_class m) kvs →
  (∀ k v, (k, v) ∈ kvs → identity_key k → ∃ x, model_get (w_cbl w) obj k = Some x ∧ isEqual v x = true) →
  MO_setValuesForPropertiesWithDictionary obj kvs w = (Ok tt, set_cbl (write_all (w_cbl w) obj (pasted kvs)) w).
Proof.
  intros Hl Hm Hp. unfold MO_setValuesForPropertiesWithDictionary.
  revert w Hl Hm. induction Hp as [|[k v] kvs Hkv _ IH]; intros w Hl Hm Hid; cbn [for_each]; [by destruct w|].
  rewrite run_bind, run_bind. cbn [fst snd].
  destruct (decide (identity_key k)) as [Hk|Hk].
  - destruct (Hid k v) as (x & Hx & Heq); [by left|done|].
    rewrite (run_identity_again w obj k v x) by done. rewrite run_ret, IH; [|done..|].
    + unfold pasted. cbn. by destruct Hk as [-> | ->].
    + intros k' v' Hin. apply Hid. by right.
  - rewrite (run_setValue w obj (Some v) k); [|done| |done].
    + rewrite run_ret. rewrite IH; [|by apply live_set|done|].
      * unfold pasted. cbn. destruct (String.eqb_spec k "objectType") as [->|_]; [by destruct Hk; left|].
        destruct (String.eqb_spec k "_id") as [->|_]; [by destruct Hk; right|]. done.
      * intros k' v' Hin Hk'. cbn. rewrite get_set_other by (intros [= ->]; done). apply Hid; [by right|done].
    + exists m. split; [done|]. destruct Hkv as [?|Hv]; [by left|right; left]. intros x [= ->]. by apply (Hv x).
Qed.

(** An object that can be copied, with its identifier [d], of the open package [i]. *)
Record copyable w (self : oid) (m : MPManagedObject) (d i : string) : Prop := {
  cp_live : live w self;
  cp_mo : w_mos w !! self = Some m;
  cp_document : model_document (w_cbl w) self = Some d;
  cp_package : ∃ c moc p, mo_controller m = Some c ∧ w_mocs w !! c = Some moc ∧
                 w_pkgs w !! moc_package moc = Some p ∧ pkg_fullyQualifiedIdentifier p = Some i;
  cp_open : is_Some (w_registry w !! i)
}.

(** A world in which the package [i] is open and has the object [o] under the identifier [d]. *)
Record pasteable w (pkg : pid) (p : Package) (i d cls : string) (o : oid) : Prop := {
  pa_open : w_registry w !! i = Some pkg;
  pa_pkg : w_pkgs w !! pkg = Some p;
  pa_memo : dictionary_ok p;
  pa_found : ∃ c, registeredAs p w d c cls o;
  pa_live : live w o;
  pa_mo : ∃ m, w_mos w !! o = Some m ∧ mo_class m = cls;
  pa_type : model_get (w_cbl w) o "objectType" = Some (NSString cls);
  pa_id : model_get (w_cbl w) o "_id" = Some (NSString d)
}.

Lemma run_packageIdentifier w self m d i : copyable w self m d i → MO_packageIdentifier self w = (Ok (Some i), w).
Proof.
  intros [_ Hm _ (c & moc & p & Hc & Hmoc & Hp & Hi) _]. unfold MO_packageIdentifier, MO_packageController.
  rewrite run_bind, run_bind. unfold getMO. rewrite Hm, Hc, run_bind. unfold getMOC. rewrite Hmoc, run_ret.
  rewrite run_bind. unfold getPkg. by rewrite Hp, Hi.
Qed.

Lemma run_reference pkg p w d cls o i rep :
  pasteable w pkg p i d cls o → NSClassFromString env_rt cls = Some cls →
  assoc "objectType" rep = Some (NSString cls) → assoc "databasePackageID" rep = Some (NSString i) →
  assoc "_id" rep = Some (NSString d) →
  ∃ w', MO_objectWithReferableDictionaryRepresentation rep w = (Ok o, w') ∧ atMemo pkg p w w'.
Proof.
  intros [Hopen Hp Hok (c & Hr) _ _ _ _] Hcls Htype Hpkg Hid.
  unfold MO_objectWithReferableDictionaryRepresentation. rewrite Htype. cbn [stringOf mbind option_bind]. rewrite Hcls.
  rewrite run_bind, run_gets, Hpkg. cbn [stringOf mbind option_bind]. rewrite Hopen.
  destruct (lookup_atMemo pkg p w w cls) as (w' & Hrun & Hat);
    [by apply atMemo_refl|by eapply ra_notBase|].
  rewrite run_bind, Hrun, (ra_controller _ _ _ _ _ _ Hr), run_bind, Hid. cbn [stringOf].
  rewrite (find_registered pkg p w w' d c cls o) by done. by exists w'.
Qed.

(** The data of a copied object. *)
Definition copied w (self : oid) (i : string) : list (string * value) :=
  insertKey "databasePackageID" (NSString i) (model_propertiesToSave (w_cbl w) self).

Lemma run_MO_copy w self m d i :
  copyable w self m d i →
  MO_pasteboardPropertyListForType self MPPasteboardTypeManagedObjectFull w =
    (Ok (dataWithPropertyList (NSDictionary (copied w self i))), w).
Proof.
  intros Hc.
  pose proof (cp_live _ _ _ _ _ Hc) as Hlive. unfold MO_pasteboardPropertyListForType.
  assert (MO_documentID self w = (Ok d, w)) as Hd.
  { unfold MO_documentID, cbl_gets. by rewrite run_bind, run_gets, (cp_document _ _ _ _ _ Hc). }
  rewrite run_bind, Hd, run_bind, run_isDeleted by done. rewrite run_bind, run_NSAssert. cbn [String.eqb Ascii.eqb Bool.eqb].
  change (bool_decide (_ ∈ managedObjectTypes)) with true. rewrite String.eqb_refl.
  rewrite run_bind. unfold cbl_gets. rewrite run_gets, run_bind, (run_packageIdentifier _ _ _ _ _ Hc).
  rewrite run_bind, run_gets, run_bind, run_NSAssert. cbn [mbind option_bind].
  rewrite bool_decide_eq_true_2 by by eapply cp_open. done.
Qed.

(** A reference to an object is written as the object in full. *)
Lemma references_are_full w self :
  MO_pasteboardPropertyListForType self MPPasteboardTypeManagedObjectID w =
  MO_pasteboardPropertyListForType self MPPasteboardTypeManagedObjectFull w.
Proof. done. Qed.

(** C20 (roundtrip). An object of an open package that is copied to the pasteboard in full is there, when its
    properties are a property list, no key twice, with its class and its identifier among them; and
    whenever it is pasted in full later into its class, while the package it was copied from
    is open and has an object registered under its identifier, the object pasted is that one, all its
    properties but those that say what it is get the values they had when it was copied, it
    notes the package it came from, and no other object or property is changed - whatever has
    happened in between.  None of its properties is a dictionary where the class keeps an
    embedded object. *)
Theorem pasteboard_roundtrip w self m d i :
  copyable w self m d i → NSClassFromString env_rt (mo_class m) = Some (mo_class m) →
  let props := model_propertiesToSave (w_cbl w) self in
  isPropertyList (NSDictionary props) = true → NoDup props.*1 → plain (mo_class m) props →
  assoc "objectType" props = Some (NSString (mo_class m)) → assoc "_id" props = Some (NSString d) →
  ∃ data,
    MO_pasteboardPropertyListForType self MPPasteboardTypeManagedObjectFull w = (Ok (Some data), w) ∧
    ∀ w2 pkg p o, pasteable w2 pkg p i d (mo_class m) o →
      ∃ w3, MO_initWithPasteboardPropertyList (mo_class m) data MPPasteboardTypeManagedObjectFull w2 = (Ok o, w3) ∧
        (∀ k v, (k, v) ∈ props → ¬ identity_key k → k ≠ "databasePackageID" →
           ∃ y, model_get (w_cbl w3) o k = Some y ∧ (y = v ∨ isEqual y v = true)) ∧
        (∃ y, model_get (w_cbl w3) o "databasePackageID" = Some y ∧ (y = NSString i ∨ isEqual y (NSString i) = true)) ∧
        (∀ o' k, o' ≠ o ∨ identity_key k ∨ (k ∉ props.*1 ∧ k ≠ "databasePackageID") →
           model_get (w_cbl w3) o' k = model_get (w_cbl w2) o' k) ∧
        w_log w3 = w_log w2 ∧ w_mos w3 = w_mos w2.
Proof.
  intros Hc Hcls props Hvalid Hnd Hplain Htype Hid. set (dict := copied w self i).
  assert (NoDup dict.*1) as Hnd' by by apply insertKey_NoDup.
  exists (NSDictionary dict).
  assert (isPropertyList (NSDictionary dict) = true) as Hplist.
  { cbn. apply forallb_forall. intros [k v] Hin%list_elem_of_In. cbn in Hvalid. rewrite forallb_forall in Hvalid.
    apply insertKey_elem in Hin as [[Hin _]|[= -> ->]]; [|done]. by apply (Hvalid (k, v)), list_elem_of_In. }
  split. { rewrite (run_MO_copy w self m d i) by done. fold dict. unfold dataWithPropertyList. by rewrite Hplist. }
  intros w2 pkg p o Hp.
  assert (assoc "objectType" dict = Some (NSString (mo_class m))) as Ht by by apply assoc_insertKey.
  assert (assoc "_id" dict = Some (NSString d)) as Hi by by apply assoc_insertKey.
  destruct (run_reference pkg p w2 d (mo_class m) o i dict) as (w' & Hrun & dic & -> & Hok); try done.
  { apply elem_assoc; [done|]. apply insertKey_elem. by right. }
  destruct (pa_mo _ _ _ _ _ _ _ Hp) as (mo & Hmo & Hmc).
  exists (set_cbl (write_all (w_cbl w2) o (pasted dict)) (memo_world pkg p dic w2)).
  split; [|split; [|split; [|split; [|done]]]].
  - unfold MO_initWithPasteboardPropertyList. rewrite run_bind, run_NSAssert.
    change (bool_decide (_ ∈ managedObjectTypes)) with true. cbv iota beta. rewrite run_bind.
    unfold MO_initWithPasteboardObjectIDPropertyList at 1. rewrite run_bind, run_NSAssert, String.eqb_refl.
    unfold managedObjectType. rewrite Ht. cbn [mbind option_bind stringOf]. rewrite Hcls, run_bind, run_NSAssert.
    rewrite bool_decide_eq_true_2 by done. rewrite Hrun, run_bind.
    change (String.eqb MPPasteboardTypeManagedObjectFull MPPasteboardTypeManagedObjectFull) with true. cbv iota.
    rewrite (run_paste (memo_world pkg p dic w2) o mo dict); [reflexivity|apply Hp|done| |].
    + rewrite Hmc. apply Forall_forall. intros [k v] Hin. apply insertKey_elem in Hin as [[Hin _]|[= -> ->]]; [|by right].
      unfold plain in Hplain. rewrite Forall_forall in Hplain. by apply (Hplain (k, v)).
    + intros k v Hin%elem_assoc Hk; [|done]. destruct Hk as [-> | ->].
      * exists (NSString (mo_class m)). split; [by apply Hp|]. rewrite Ht in Hin. injection Hin as <-. apply String.eqb_refl.
      * exists (NSString d). split; [by apply Hp|]. rewrite Hi in Hin. injection Hin as <-. apply String.eqb_refl.
  - intros k v Hin Hk Hne. cbn. apply write_all_get; [by apply pasted_NoDup|]. apply pasted_elem. split; [|done].
    apply insertKey_elem. by left.
  - cbn. apply write_all_get; [by apply pasted_NoDup|]. apply pasted_elem.
    split; [apply insertKey_elem; by right|by intros [?|?]].
  - intros o' k Hk. cbn. apply write_all_other. destruct Hk as [?|Hk]; [by left|right].
    intros ([k' v] & -> & [Hin Hnid]%pasted_elem)%list_elem_of_fmap. cbn in *.
    destruct Hk as [?|[Hk1 Hk2]]; [done|]. apply insertKey_elem in Hin as [[Hin _]|[= -> ->]]; [|done].
    apply Hk1, list_elem_of_fmap. by exists (k', v).
Qed.

(** A list of references is written, but cannot be read: an array has no object type. *)
Lemma arrays_are_not_read cls l type w : type ∈ managedObjectTypes →
  (MO_initWithPasteboardPropertyList cls (NSArray l) type w).1 = Throw (Exception "NSInvalidArgumentException" "unrecognized selector").
Proof.
  intros Htype. unfold MO_initWithPasteboardPropertyList. rewrite run_bind, run_NSAssert, bool_decide_eq_true_2 by done.
  rewrite run_bind. unfold MO_initWithPasteboardObjectIDPropertyList. rewrite run_bind, run_NSAssert, String.eqb_refl. done.
Qed.

(** An embedded object that is written in full cannot be read: what is written does not say
    the package. *)
Lemma full_embedded_is_not_read d type w : type ∈ embeddedObjectTypes → assoc "databasePackageID" d = None →
  EO_initWithPasteboardPropertyList (NSDictionary d) type w = (Throw (AssertionFailed "pkgc"), w).
Proof.
  intros Htype Hd. unfold EO_initWithPasteboardPropertyList. rewrite run_bind, run_NSAssert, bool_decide_eq_true_2 by done.
  rewrite run_bind. unfold EO_initWithPasteboardObjectIDPropertyList. rewrite run_bind, run_NSAssert, String.eqb_refl.
  unfold EO_objectWithReferableDictionaryRepresentation. rewrite run_bind, run_gets, Hd. done.
Qed.
End proofs.

(** ** A note that is copied, changed, and pasted again *)
#[local] Existing Instances Reference.store_CBL Reference.store_laws Reference.env Reference.factory.

Definition noteWorld (title : string) : World Reference.store :=
  set_cbl (Reference.mkStore
    {[Reference.note := Reference.mkModel (Some "MPNote:0001") false None
        (<["_id" := NSString "MPNote:0001"]> (<["title" := NSString title]> {["objectType" := NSString "MPNote"]}))
        ∅ [] false]}%string None ∅) Reference.world0.

Lemma note_pasteable title :
  pasteable (noteWorld title) Reference.package Family.package0 "pkg-1" "MPNote:0001" "MPNote" Reference.note.
Proof.
  split; try reflexivity.
  - by apply dictionary_ok_empty.
  - exists Reference.notes. split; [reflexivity|discriminate|reflexivity|]. by do 3 eexists.
  - split; [by eexists|reflexivity].
  - by eexists.
Qed.

Lemma note_copyable title :
  copyable (noteWorld title) Reference.note (mkMO "MPNote" (Some Reference.notes) None None None true (Some ∅) None)
    "MPNote:0001" "pkg-1".
Proof.
  split; [split; [by eexists|reflexivity]|reflexivity|reflexivity| |by eexists].
  by do 3 eexists.
Qed.

Lemma pasteboard_roundtrip_witness : ∃ data w3,
  MO_pasteboardPropertyListForType Reference.note MPPasteboardTypeManagedObjectFull (noteWorld "Intro")
    = (Ok (Some data), noteWorld "Intro") ∧
  MO_initWithPasteboardPropertyList "MPNote" data MPPasteboardTypeManagedObjectFull (noteWorld "Other")
    = (Ok Reference.note, w3) ∧
  ∃ y, model_get (w_cbl w3) Reference.note "title" = Some y ∧ (y = NSString "Intro" ∨ isEqual y (NSString "Intro") = true).
Proof.
  destruct (pasteboard_roundtrip (noteWorld "Intro") Reference.note _ _ _ (note_copyable "Intro")) as (data & Hcopy & Hpaste);
    [reflexivity|vm_compute; reflexivity| | |vm_compute; reflexivity|vm_compute; reflexivity|].
  - apply (bool_decide_unpack _). vm_compute. exact I.
  - apply Forall_forall. intros kv _. by left.
  - destruct (Hpaste (noteWorld "Other") _ _ _ (note_pasteable "Other")) as (w3 & Hrun & Hvalues & _).
    exists data, w3. split; [exact Hcopy|]. split; [exact Hrun|]. apply Hvalues; [|by intros [?|?]|discriminate].
    apply list_elem_of_In. vm_compute. tauto.
Defined.
