(* ===== verification/Loading.v ===== *)
(** * Loading bundled data

    The part of MPManagedObjectsController.m that fills a database from the resources of
    the application when it starts: objects of a JSON file, loaded once for every version
    of the file, and objects of a bundled database, replicated into the controller's own
    while the main thread waits in its run loop. *)
From Stdlib Require Import Ascii.
From stdpp Require Import base tactics strings numbers list gmap.
From S2P Require Import Prelude ObjC ReferenceRuntime Classes World Reference Controllers ManagedObject ChangeFeed.
From S2P Require Import PackageFiles FileManager Import.

(** ** The state of a controller that loads *)
Inductive CBLReplicationStatus : Type := Stopped | Offline | Idle | Active.
#[export] Instance status_eq_dec : EqDecision CBLReplicationStatus.
Proof. solve_decision. Defined.

(** What waits on the main queue: the observer of the replication, and the block that
    ends the wait. *)
Inductive block : Type := ReplicationChanged | FinishLoading.

Inductive loadEvent : Type :=
  | LoadedBundledResources
  | LoadError (err : option NSError)
  | ImportError (err : importError).

(** [ld_loading] and [ld_loadingJSON] are [_loadingBundledDatabaseResources] and
    [_loadingBundledJSONResources]; [ld_derived] is [_bundledJSONDerivedData]. *)
Record Loader (S : Type) : Type := mkLoader {
  ld_world : World S;
  ld_files : gmap (list string) entry;
  ld_loading : bool;
  ld_loadingJSON : bool;
  ld_derived : option (list oid);
  ld_status : CBLReplicationStatus;
  ld_lastError : option NSError;
  ld_queue : list block;
  ld_posted : list loadEvent
}.
Arguments mkLoader {S}.
Arguments ld_world {S}.  Arguments ld_files {S}.  Arguments ld_loading {S}.  Arguments ld_loadingJSON {S}.
Arguments ld_derived {S}.  Arguments ld_status {S}.  Arguments ld_lastError {S}.  Arguments ld_queue {S}.
Arguments ld_posted {S}.

(** What a subclass overrides, and what the surroundings answer: the paths of resources
    in the bundle, the directory for caches, digests, the text of data, errors. *)
Record Resources : Type := mkResources {
  rs_databaseName : option string;
  rs_JSONFilename : option string;
  rs_comparator : option (list oid → list oid);
  rs_pathForResource : string → string → option string → option (list string);
  rs_caches : list string;
  rs_md5 : list Z → string;
  rs_text : list Z → string;
  rs_readError : list string → option NSError;
  rs_UUIDString : nat → string;
  rs_ioError : fsop → list string → option NSError;
  rs_noSuchFile : NSError;
  rs_fileExists : NSError;
  rs_notADirectory : NSError;
  rs_managerError : list string → option NSError;
  rs_databaseError : list string → option NSError;
  rs_isHelper : bool;
  rs_bootstrapped : bool
}.

(** What happens while the run loop runs: the replication's status changes and its
    delegate is told, a change notification is posted, the main queue runs a block, or
    the time is up. *)
Inductive runLoopEvent : Type :=
  | Progresses (status : CBLReplicationStatus) (err : option NSError)
  | PostsChange
  | RunsMainQueue
  | TimesOut.

Section loading.
Context {S : Type} `{!CBL S} `{!Env} `{!CBLModelFactory S}.
(** CouchbaseLite's [-purgeDocument:] and [-setDocument:] of a model, and the documents
    the queries for all objects and for the bundled ones find. *)
Context (purgeDocument : S → oid → outcome * S) (setDocument : S → oid → string → S).
Context (allObjectsQuery bundledJSONDataQuery : S → list string).
Context (rs : Resources) (fuel : nat).
(** The controller, and its database's metadata *)
Context (self : cid) (metadata : oid).
Local Open Scope string_scope.
Notation W := (M (World S)).
Notation M := (M (Loader S)).

Definition onWorld {A} (m : W A) : M A :=
  λ l, let '(r, w) := m (ld_world l) in
       (r, mkLoader w (ld_files l) (ld_loading l) (ld_loadingJSON l) (ld_derived l) (ld_status l) (ld_lastError l)
             (ld_queue l) (ld_posted l)).
Definition onFiles {A} (m : Prelude.M (gmap (list string) entry) A) : M A :=
  λ l, let '(r, fs) := m (ld_files l) in
       (r, mkLoader (ld_world l) fs (ld_loading l) (ld_loadingJSON l) (ld_derived l) (ld_status l) (ld_lastError l)
             (ld_queue l) (ld_posted l)).
Definition setLoading (b : bool) : M unit := modify (λ l,
  mkLoader (ld_world l) (ld_files l) b (ld_loadingJSON l) (ld_derived l) (ld_status l) (ld_lastError l) (ld_queue l) (ld_posted l)).
Definition setLoadingJSON (b : bool) : M unit := modify (λ l,
  mkLoader (ld_world l) (ld_files l) (ld_loading l) b (ld_derived l) (ld_status l) (ld_lastError l) (ld_queue l) (ld_posted l)).
Definition setDerived (os : option (list oid)) : M unit := modify (λ l,
  mkLoader (ld_world l) (ld_files l) (ld_loading l) (ld_loadingJSON l) os (ld_status l) (ld_lastError l) (ld_queue l) (ld_posted l)).
Definition setStatus (st : CBLReplicationStatus) (err : option NSError) : M unit := modify (λ l,
  mkLoader (ld_world l) (ld_files l) (ld_loading l) (ld_loadingJSON l) (ld_derived l) st err (ld_queue l) (ld_posted l)).
Definition setQueue (f : list block → list block) : M unit := modify (λ l,
  mkLoader (ld_world l) (ld_files l) (ld_loading l) (ld_loadingJSON l) (ld_derived l) (ld_status l) (ld_lastError l) (f (ld_queue l)) (ld_posted l)).
Definition postLoad (e : loadEvent) : M unit := modify (λ l,
  mkLoader (ld_world l) (ld_files l) (ld_loading l) (ld_loadingJSON l) (ld_derived l) (ld_status l) (ld_lastError l) (ld_queue l)
    (ld_posted l ++ [e])%list).

(** ** Objects of a query *)

(** One row: the model of its document - its own, the cached one, or a new one. *)
Definition objectOfRow (db docID : string) : W (option oid) :=
  modelObject ← cbl_gets (λ s, doc_modelObject s db docID);
  match modelObject with
  | Some o =>
      document ← cbl_gets (λ s, model_document s o);
      _ ← NSAssert (bool_decide (document = Some docID)) "Unexpected row.document";
      mret (Some o)
  | None =>
      c ← getMOC self;
      match moc_objectCache c !! docID with
      | Some o => _ ← cbl (λ s, setDocument s o docID); mret (Some o)
      | None =>
          deleted ← cbl_gets (λ s, doc_isDeleted s db docID);
          if (deleted : bool) then mret None
          else
            cls ← CBLDocument_managedObjectClass db docID;
            match cls with Some k => MO_modelForDocument k db docID | None => mret None end
      end
  end.

(* @src Feather/Sources/Model Controllers/MPManagedObjectsController.m 893 928 -[MPManagedObjectsController managedObjectsForQueryEnumerator:] *)
Definition MOC_managedObjectsForQueryEnumerator (rows : list string) : W (list oid) :=
  c ← getMOC self;
  let db := default "" (moc_db c) in
  objs ← map_each rows (λ docID,
    modelObj ← objectOfRow db docID;
    match modelObj with
    | None => mret None
    | Some o =>
        m ← gets (λ w, w_mos w !! o);
        _ ← NSAssert (bool_decide (is_Some m)) "Model object is of unexpected class";
        mret (Some o)
    end);
  mret (omap id objs).

(* @src Feather/Sources/Model Controllers/MPManagedObjectsController.m 564 572 -[MPManagedObjectsController allObjects] *)
Definition MOC_allObjects : W (list oid) :=
  rows ← cbl_gets allObjectsQuery;
  MOC_managedObjectsForQueryEnumerator rows.

(** ** The bundled database *)

(** A save that CouchbaseLite refuses comes with an error; without one, posting it would raise. *)
(* @src Feather/Sources/Model Controllers/MPManagedObjectsController.m 1155 1192 -[MPManagedObjectsController processUpdatedBundledDataLoadReplication:] *)
Definition processUpdatedBundledDataLoadReplication : M unit :=
  status ← gets ld_status;
  lastError ← gets ld_lastError;
  match status, lastError with
  | Stopped, None =>
      metadataSave ← onWorld (cbl_run (λ s, model_save s metadata));
      _ ← setLoading false;
      match metadataSave with
      | NO metadataSaveErr => postLoad (LoadError metadataSaveErr)
      | YES => postLoad LoadedBundledResources
      end
  | Stopped, Some e =>
      _ ← postLoad (LoadError (Some e));
      setQueue (λ q, q ++ [FinishLoading])%list
  | _, _ => mret tt
  end.

(* @src Feather/Sources/Model Controllers/MPManagedObjectsController.m 1194 1198 -[MPManagedObjectsController replicationDidProgress:] *)
Definition replicationDidProgress : M unit := processUpdatedBundledDataLoadReplication.

Definition runBlock (b : block) : M unit :=
  match b with
  | ReplicationChanged => processUpdatedBundledDataLoadReplication
  | FinishLoading => setLoading false
  end.

Definition react (e : runLoopEvent) : M unit :=
  match e with
  | Progresses status err => _ ← setStatus status err; replicationDidProgress
  | PostsChange => setQueue (λ q, q ++ [ReplicationChanged])%list
  | RunsMainQueue =>
      queue ← gets ld_queue;
      match queue with
      | [] => mret tt
      | b :: rest => _ ← setQueue (λ _, rest); runBlock b
      end
  | TimesOut => mret tt
  end.

(** The [while] loop, given what happens: whether it has ended. *)
Fixpoint waitWhileLoading (events : list runLoopEvent) : M bool :=
  loading ← gets ld_loading;
  if (loading : bool) then
    match events with
    | [] => mret false
    | e :: events => _ ← react e; waitWhileLoading events
    end
  else mret true.

(** [-md5DigestStringAtPath:], of a file that can be read *)
(* @src Feather/Sources/Categories/NSFileManager+MPExtensions.m 36 47 -[NSFileManager md5DigestStringAtPath:] *)
Definition md5DigestStringAtPath (path : option (list string)) : M (option string) :=
  match path with
  | None => throw (AssertionFailed "path")
  | Some p =>
      fs ← gets ld_files;
      match fs !! p with
      | Some (File data) => mret (match rs_readError rs p with Some _ => None | None => Some (rs_md5 rs data) end)
      | _ => mret None
      end
  end.

(** A database server in the directory of [path], and its database of that name, are
    opened, and a replication from there is started. *)
(* @src Feather/Sources/Database Packages/MPDatabase.m 442 474 -[MPDatabase pullFromDatabaseAtPath:replication:error:] *)
Definition DB_pullFromDatabaseAtPath (path : list string) : outcome :=
  match rs_managerError rs (removelast path) with
  | Some e => NO (Some e)
  | None => match rs_databaseError rs path with Some e => NO (Some e) | None => YES end
  end.

(** [[fm copyItemAtPath:toPath:error:]] without a delegate *)
Definition copyPath (src dst : list string) : M outcome :=
  onFiles (copyItem (rs_ioError rs) (rs_noSuchFile rs) (rs_fileExists rs) (λ _, true) src dst).
Definition removePath (p : list string) : M outcome :=
  onFiles (removeItem (rs_ioError rs) (rs_noSuchFile rs) p).
Definition existsPath (p : option (list string)) : M bool :=
  fs ← gets ld_files; mret match p with Some q => bool_decide (is_Some (fs !! q)) | None => false end.

(** [[x isEqualToString:y]] of what a property holds *)
Definition isEqualToString (x : option value) (y : option string) : M bool :=
  match x with
  | None => mret false
  | Some (NSString s) => mret (bool_decide (Some s = y))
  | Some _ => throw (Exception "NSInvalidArgumentException" "unrecognized selector sent to instance")
  end.

(** The objects are purged one after the other, up to the first failure. *)
Fixpoint purgeAll (objs : list oid) : M outcome :=
  match objs with
  | [] => mret YES
  | mo :: objs =>
      success ← onWorld (cbl_run (λ s, purgeDocument s mo));
      match success with YES => purgeAll objs | NO e => mret (NO e) end
  end.

Definition FailedTempFileCreation : NSError := {| err_domain := "MPManagedObjectErrorDomain"; err_code := 2 |}.

Definition checksumKey : string :=
  "bundled-" ++ default "(null)" (rs_databaseName rs) ++ "-checksum".

Definition attachmentsDirectoryName (name : string) : string := name ++ " attachments".
Definition bundledManuscriptDataDirectory (name : string) : string := name ++ ".manuscripts-data".

(** The replication, from when it is started: the wait, and what is done after it.
    [None]: the events have run out and the loop is still waiting. *)
(* @src Feather/Sources/Model Controllers/MPManagedObjectsController.m 1099 1145 -[MPManagedObjectsController loadBundledDatabaseResources:] (part) *)
Definition replicateBundledDatabase (events : list runLoopEvent) (temp database : list string) (md5 : option string)
    : M (option outcome) :=
  match DB_pullFromDatabaseAtPath database with
  | NO e => _ ← removePath temp; mret (Some (NO e))
  | YES =>
      ended ← waitWhileLoading events;
      if (ended : bool) then
        _ ← onWorld (cbl (λ s, model_set s metadata checksumKey (NSString <$> md5)));
        _ ← removePath temp;
        mret (Some YES)
      else mret None
  end.

(** The resources are copied to a temporary directory; objects of a version that was
    loaded before are purged. *)
(* @src Feather/Sources/Model Controllers/MPManagedObjectsController.m 1073 1097 -[MPManagedObjectsController loadBundledDatabaseResources:] (part) *)
Definition prepareBundledDatabase (bundled : list string) (attachments : option (list string))
    (temp tempBundled tempAttachments : list string) (previous : bool) : M outcome :=
  copied ← copyPath bundled tempBundled;
  match copied with
  | NO e => mret (NO e)
  | YES =>
      exists_ ← existsPath attachments;
      copied ← (match attachments, exists_ with
                | Some a, true => copyPath a tempAttachments
                | _, _ => mret YES
                end);
      match copied with
      | NO e => mret (NO e)
      | YES =>
          if previous then objs ← onWorld MOC_allObjects; purgeAll objs else mret YES
      end
  end.

(* @src Feather/Sources/Model Controllers/MPManagedObjectsController.m 1019 1145 -[MPManagedObjectsController loadBundledDatabaseResources:] *)
Definition MOC_loadBundledDatabaseResources (events : list runLoopEvent) : M (option outcome) :=
  loading ← gets ld_loading;
  _ ← NSAssert (negb loading) "!_loadingBundledDatabaseResources";
  _ ← setLoading true;
  match rs_databaseName rs with
  | None => mret (Some YES)
  | Some name =>
      let bundledPath := rs_pathForResource rs name "cblite" (Some (bundledManuscriptDataDirectory name)) in
      let attachmentsPath := rs_pathForResource rs (attachmentsDirectoryName name) "" (Some (bundledManuscriptDataDirectory name)) in
      temp ← onFiles (temporaryDirectoryURLInGroupCachesSubdirectoryNamed (rs_ioError rs) (rs_noSuchFile rs)
                        (rs_fileExists rs) (rs_notADirectory rs) (rs_UUIDString rs) fuel (rs_caches rs) checksumKey);
      match temp with
      | StillSearching => mret None
      | NoTemporaryURL _ _ => mret (Some (NO (Some FailedTempFileCreation)))
      | TemporaryURL dir =>
          match bundledPath with
          | None => throw (Exception "NSInvalidArgumentException" "nil argument")
          | Some bundled =>
              let tempBundled := (dir ++ [default "" (last bundled)])%list in
              let tempAttachments := (dir ++ [attachmentsDirectoryName name])%list in
              md5 ← md5DigestStringAtPath (Some bundled);
              previousChecksumValue ← onWorld (cbl_gets (λ s, model_get s metadata checksumKey));
              matches ← isEqualToString previousChecksumValue md5;
              if (matches : bool) then mret (Some YES)
              else
                prepared ← prepareBundledDatabase bundled attachmentsPath dir tempBundled tempAttachments
                             (bool_decide (is_Some previousChecksumValue));
                match prepared with
                | NO e => mret (Some (NO e))
                | YES => replicateBundledDatabase events dir tempBundled md5
                end
          end
      end
  end.

(** ** Bundled objects *)

(* @src Feather/Sources/Model Controllers/MPManagedObjectsController.m 1207 1259 -[MPManagedObjectsController loadBundledObjectsFromResource:withExtension:matchedToObjects:dataChecksumMetadataKey:error:] *)
Definition MOC_loadBundledObjectsFromResource (resourceName extension : string) (preloadedObjects : list oid)
    (dataChecksumKey : string) (reports : bool) : M (import (list oid)) :=
  if rs_isHelper rs then mret (Imported preloadedObjects)
  else
    let jsonURL := rs_pathForResource rs resourceName extension None in
    match jsonURL with
    | None => throw (AssertionFailed "Could not find resource")
    | Some url =>
        md5 ← md5DigestStringAtPath (Some url);
        stored ← onWorld (cbl_gets (λ s, model_get s metadata dataChecksumKey));
        if bool_decide (is_Some md5 ∧ md5 = stringOf stored) then mret (Imported preloadedObjects)
        else
          fs ← gets ld_files;
          let contents := match fs !! url, rs_readError rs url with
                          | Some (File data), None => Some (rs_text rs data)
                          | _, _ => None
                          end in
          returnedObjects ← onWorld (MOC_objectsFromContentsOfArrayJSONAtURL self contents reports);
          match returnedObjects with
          | NotImported e => _ ← (if reports then postLoad (ImportError e) else mret tt); mret (NotImported e)
          | Imported os =>
              _ ← onWorld (cbl (λ s, model_set s metadata dataChecksumKey (NSString <$> md5)));
              successfullySaved ← onWorld (cbl_run (λ s, model_save s metadata));
              mret match successfullySaved with YES => Imported os | NO e => NotImported (SaveFailed e) end
          end
    end.

(* @src Feather/Sources/Model Controllers/MPManagedObjectsController.m 977 979 -[MPManagedObjectsController bundledJSONDataChecksumKey] *)
Definition bundledJSONDataChecksumKey : string := default "(null)" (rs_JSONFilename rs) ++ "-checksum".

(* @src Feather/Sources/Model Controllers/MPManagedObjectsController.m 985 987 -[MPManagedObjectsController bundledResourceExtension] *)
Definition bundledResourceExtension : string := ".json".

(* @src Feather/Sources/Model Controllers/MPManagedObjectsController.m 989 1017 -[MPManagedObjectsController loadBundledJSONResources:] *)
Definition MOC_loadBundledJSONResources (reports : bool) : M bool :=
  match rs_JSONFilename rs with
  | None => mret true
  | Some filename =>
      loading ← gets ld_loadingJSON;
      _ ← NSAssert (negb loading) "!_loadingBundledJSONResources";
      _ ← setLoadingJSON true;
      foundBundledObjs ← onWorld (rows ← cbl_gets bundledJSONDataQuery; MOC_managedObjectsForQueryEnumerator rows);
      derived ← MOC_loadBundledObjectsFromResource filename bundledResourceExtension foundBundledObjs
                  bundledJSONDataChecksumKey reports;
      match derived with
      | NotImported _ => _ ← setDerived None; mret false
      | Imported os => _ ← setDerived (Some (match rs_comparator rs with Some sorted => sorted os | None => os end)); mret true
      end
  end.

(* @src Feather/Sources/Model Controllers/MPManagedObjectsController.m 1147 1149 -[MPManagedObjectsController hasBundledResourceDatabase] *)
Definition hasBundledResourceDatabase : bool := bool_decide (is_Some (rs_databaseName rs)).
(* @src Feather/Sources/Model Controllers/MPManagedObjectsController.m 1151 1153 -[MPManagedObjectsController requiresBundledDataLoading] *)
Definition requiresBundledDataLoading : bool :=
  bool_decide (is_Some (rs_JSONFilename rs)) || hasBundledResourceDatabase.

(* @src Feather/Sources/Model Controllers/MPManagedObjectsController.m 157 172 -[MPManagedObjectsController didInitialize:] *)
Definition MOC_didInitialize (events : list runLoopEvent) (reports : bool) : M (option bool) :=
  if rs_isHelper rs then mret (Some true)
  else if rs_bootstrapped rs then mret (Some true)
  else
    loaded ← MOC_loadBundledDatabaseResources events;
    match loaded with
    | None => mret None
    | Some (NO _) => mret (Some false)
    | Some YES => r ← MOC_loadBundledJSONResources reports; mret (Some r)
    end.
End loading.

(** ** The wait *)
Section waiting.
Context {S : Type} `{!CBL S}.
Context (metadata : oid).
Implicit Types l : Loader S.

(** Reacting to an event always returns. *)
Definition after (e : runLoopEvent) l : Loader S := (react metadata e l).2.

Lemma run_process l : processUpdatedBundledDataLoadReplication metadata l = (Ok tt, (processUpdatedBundledDataLoadReplication metadata l).2).
Proof.
  unfold processUpdatedBundledDataLoadReplication. rewrite run_bind, run_gets, run_bind, run_gets.
  destruct (ld_status l), (ld_lastError l); try done.
  rewrite run_bind. unfold onWorld, cbl_run. destruct (model_save _ _) as [[|e] s']; done.
Qed.

Lemma run_react e l : react metadata e l = (Ok tt, after e l).
Proof.
  unfold after. destruct e as [st err| | |]; cbn [react]; try done.
  - rewrite run_bind. unfold setStatus. rewrite run_modify. unfold replicationDidProgress. apply run_process.
  - rewrite run_bind, run_gets. destruct (ld_queue l) as [|[] rest]; [done| |done].
    rewrite run_bind. unfold setQueue. rewrite run_modify. apply run_process.
Qed.

(** The status is dealt with: nothing, the end of the wait, or a block that will end it. *)
Lemma process_cases l (l' := (processUpdatedBundledDataLoadReplication metadata l).2) :
  ld_status l' = ld_status l ∧ ld_lastError l' = ld_lastError l ∧
  match ld_status l, ld_lastError l with
  | Stopped, None => ld_loading l' = false ∧ ld_queue l' = ld_queue l
  | Stopped, Some e => ld_loading l' = ld_loading l ∧ ld_queue l' = ld_queue l ++ [FinishLoading]
  | _, _ => l' = l
  end.
Proof.
  subst l'. unfold processUpdatedBundledDataLoadReplication. rewrite run_bind, run_gets, run_bind, run_gets.
  destruct (ld_status l) eqn:Es, (ld_lastError l) eqn:Ee; try (by rewrite run_ret).
  - by cbn; rewrite ?Es, ?Ee.
  - rewrite run_bind. unfold onWorld, cbl_run. destruct (model_save _ _) as [[|e] s']; cbn; by rewrite ?Es, ?Ee.
Qed.

Ltac process_at Hc :=
  match goal with
  | |- context [processUpdatedBundledDataLoadReplication metadata ?x] =>
      pose proof (process_cases x) as (_ & _ & Hc); cbn in Hc
  end.

(** The queue grows at its end, and the main queue runs its first block. *)
Lemma after_queue e l :
  match e with
  | RunsMainQueue => ∀ b rest, ld_queue l = b :: rest →
      (b = FinishLoading → ld_loading (after e l) = false) ∧ ∃ new, ld_queue (after e l) = rest ++ new
  | _ => ∃ new, ld_queue (after e l) = ld_queue l ++ new
  end.
Proof.
  unfold after. destruct e as [st err| | |]; cbn [react].
  - rewrite run_bind. unfold setStatus. rewrite run_modify. unfold replicationDidProgress.
    process_at Hc. destruct st, err; [destruct Hc as [_ ->]; eauto|destruct Hc as [_ ->]; exists []; by rewrite app_nil_r|..];
      rewrite Hc; exists []; by rewrite app_nil_r.
  - eauto.
  - intros b rest Hq. rewrite run_bind, run_gets, Hq, run_bind. unfold setQueue. rewrite run_modify.
    destruct b; cbn [runBlock]; [|split; [done|]; exists []; by rewrite app_nil_r].
    split; [done|].
    process_at Hc. destruct (ld_status l), (ld_lastError l); [destruct Hc as [_ ->]; eauto|destruct Hc as [_ ->]; exists []; by rewrite app_nil_r|..];
      rewrite Hc; exists []; by rewrite app_nil_r.
  - exists []. by rewrite app_nil_r.
Qed.

Lemma wait_ends l es : ld_loading l = false → waitWhileLoading metadata es l = (Ok true, l).
Proof. intros Hl. destruct es; cbn [waitWhileLoading]; by rewrite run_bind, run_gets, Hl. Qed.

Lemma wait_cons l e es : ld_loading l = true →
  waitWhileLoading metadata (e :: es) l = waitWhileLoading metadata es (after e l).
Proof. intros Hl. cbn [waitWhileLoading]. by rewrite run_bind, run_gets, Hl, run_bind, run_react. Qed.

(** The wait for what [events] brings from the [n]th event on ends. *)
Definition ends (events : nat → runLoopEvent) (n : nat) l : Prop :=
  ∃ k l', waitWhileLoading metadata (events <$> seq n k) l = (Ok true, l') ∧ ld_loading l' = false.

Lemma ends_now events n l : ld_loading l = false → ends events n l.
Proof. intros Hl. exists 0%nat, l. split; [by apply wait_ends|done]. Qed.

Lemma ends_step events n l : ends events (Datatypes.S n) (after (events n) l) → ends events n l.
Proof.
  intros (k & l' & Hw & Hl'). destruct (ld_loading l) eqn:Hl; [|by apply ends_now].
  exists (Datatypes.S k), l'. cbn [seq fmap list_fmap]. by rewrite wait_cons.
Qed.

Definition fair (events : nat → runLoopEvent) : Prop := ∀ n, ∃ m, (n ≤ m)%nat ∧ events m = RunsMainQueue.

(** A block that waits in a fair run is run after those before it. *)
Lemma ends_queued events : fair events → ∀ before n l after_,
  ld_queue l = before ++ FinishLoading :: after_ → ends events n l.
Proof.
  intros Hfair before. induction before as [|b before IH].
  all: intros n; destruct (Hfair n) as (m & Hnm & Hm);
    remember (m - n)%nat as d eqn:Ed; revert n Hnm Ed; induction d as [|d IHd]; intros n Hnm Ed l rest Hq.
  - assert (n = m) as -> by lia. apply ends_step, ends_now. rewrite Hm.
    by destruct (after_queue RunsMainQueue l _ _ Hq) as [-> _].
  - apply ends_step. pose proof (after_queue (events n) l) as Ha. destruct (events n) eqn:Ee.
    3: { apply ends_now. by destruct (Ha _ _ Hq) as [-> _]. }
    all: destruct Ha as [new Hnew]; eapply (IHd (Datatypes.S n)); [lia|lia|rewrite Hnew, Hq; cbn; done].
  - assert (n = m) as -> by lia. apply ends_step. rewrite Hm.
    destruct (after_queue RunsMainQueue l _ _ Hq) as [_ [new Hnew]]. eapply IH. rewrite Hnew, <- app_assoc. cbn. done.
  - apply ends_step. pose proof (after_queue (events n) l) as Ha. destruct (events n) eqn:Ee.
    3: { destruct (Ha _ _ Hq) as [_ [new Hnew]]. eapply IH. rewrite Hnew, <- app_assoc. cbn. done. }
    all: destruct Ha as [new Hnew]; eapply (IHd (Datatypes.S n)); [lia|lia|rewrite Hnew, Hq, <- app_assoc; cbn; done].
Qed.

Lemma ends_stopped events err n l : fair events → events n = Progresses Stopped err → ends events n l.
Proof.
  intros Hfair He. apply ends_step. rewrite He. unfold after. cbn [react]. rewrite run_bind. unfold setStatus.
  rewrite run_modify. unfold replicationDidProgress.
  process_at Hc. destruct err as [e|].
  - destruct Hc as [_ Hq]. eapply ends_queued; [done|exact Hq].
  - destruct Hc as [Hl _]. by apply ends_now.
Qed.

(** Until the replication has stopped the wait goes on. *)
Lemma waits_for_stop es : ∀ l, ld_loading l = true → ld_status l ≠ Stopped → FinishLoading ∉ ld_queue l →
  Forall (λ e, ∀ err, e ≠ Progresses Stopped err) es → ∃ l', waitWhileLoading metadata es l = (Ok false, l').
Proof.
  induction es as [|e es IH]; intros l Hl Hs Hq Hes.
  { exists l. cbn [waitWhileLoading]. by rewrite run_bind, run_gets, Hl. }
  apply Forall_cons in Hes as [He Hes]. rewrite wait_cons by done. unfold after. destruct e as [st err| | |]; cbn [react].
  - rewrite run_bind. unfold setStatus. rewrite run_modify. unfold replicationDidProgress.
    process_at Hc. destruct st; [by destruct (He err)|..]; rewrite Hc; by apply IH.
  - apply IH; [done..| |done]. cbn. rewrite elem_of_app. intros [?|?%list_elem_of_singleton]; done.
  - rewrite run_bind, run_gets. destruct (ld_queue l) as [|b rest] eqn:Eq; [rewrite run_ret; cbn [snd]; apply IH; [done..|rewrite Eq; apply not_elem_of_nil|done]|].
    apply not_elem_of_cons in Hq as [Hb Hrest]. rewrite run_bind. unfold setQueue. rewrite run_modify. destruct b; [|done].
    cbn [runBlock].
    process_at Hc. assert (ld_status l ≠ Stopped) as Hs' by done. destruct (ld_status l); [done|..]; rewrite Hc; by apply IH.
  - by apply IH.
Qed.
End waiting.

Section loads.
Context {S : Type} `{!CBL S} `{!CBLLaws S} `{!Env} `{!CBLModelFactory S}.
Context (purgeDocument : S → oid → outcome * S) (setDocument : S → oid → string → S).
Context (allObjectsQuery bundledJSONDataQuery : S → list string).
Context (rs : Resources) (fuel : nat) (self : cid) (metadata : oid).
Implicit Types l : Loader S.

Definition checksum l (key : string) : option string := stringOf (model_get (w_cbl (ld_world l)) metadata key).

(** The digest of the resource at [p] is [d]. *)
Definition digest l (p : list string) (d : string) : Prop :=
  ∃ data, ld_files l !! p = Some (File data) ∧ rs_readError rs p = None ∧ rs_md5 rs data = d.

Lemma run_md5 l p d : digest l p d → md5DigestStringAtPath rs (Some p) l = (Ok (Some d), l).
Proof.
  intros (data & Hf & Hr & <-). unfold md5DigestStringAtPath. rewrite run_bind, run_gets, Hf, Hr. done.
Qed.

Lemma run_checksum key l :
  onWorld (cbl_gets (λ s, model_get s metadata key)) l = (Ok (model_get (w_cbl (ld_world l)) metadata key), l).
Proof. by destruct l. Qed.

(** *** Objects of a JSON file *)

(** What is stored in the metadata is read back. *)
Lemma stored_checksum w key d : stringOf (model_get (model_set (w_cbl w) metadata key (Some (NSString d))) metadata key) = Some d.
Proof. by rewrite get_set_string. Qed.

Lemma load_unchanged l resource ext preloaded key reports url d :
  rs_isHelper rs = false → rs_pathForResource rs resource ext None = Some url → digest l url d →
  checksum l key = Some d →
  MOC_loadBundledObjectsFromResource rs self metadata resource ext preloaded key reports l = (Ok (Imported preloaded), l).
Proof.
  intros Hh Hp Hd Hc. unfold MOC_loadBundledObjectsFromResource. rewrite Hh, Hp, run_bind, (run_md5 l url d) by done.
  rewrite run_bind, run_checksum. unfold checksum in Hc. rewrite Hc, bool_decide_eq_true_2 by (by split). done.
Qed.

(** *** Objects of a database *)
Lemma onFiles_world {A} (m : M (gmap (list string) entry) A) l r l' :
  onFiles m l = (r, l') → ld_world l' = ld_world l.
Proof. unfold onFiles. destruct (m (ld_files l)). by intros [= _ <-]. Qed.

Definition makeTemporaryDirectory : M (Loader S) temporaryURL :=
  onFiles (temporaryDirectoryURLInGroupCachesSubdirectoryNamed (rs_ioError rs) (rs_noSuchFile rs)
             (rs_fileExists rs) (rs_notADirectory rs) (rs_UUIDString rs) fuel (rs_caches rs) (checksumKey rs)).

Lemma temporary_keeps_digest l r l' p d : makeTemporaryDirectory l = (Ok r, l') → digest l p d →
  digest l' p d ∧ ld_world l' = ld_world l.
Proof.
  intros Hrun (data & Hf & Hr & Hd). split; [|by eapply onFiles_world]. exists data. split; [|done].
  unfold makeTemporaryDirectory, onFiles, temporaryDirectoryURLInGroupCachesSubdirectoryNamed in Hrun.
  match type of Hrun with (let '(_, _) := ?m in _) = _ => pose proof (temporaryURL_keeps (rs_ioError rs) (rs_noSuchFile rs)
    (rs_fileExists rs) (rs_notADirectory rs) (rs_UUIDString rs) fuel (checksumKey rs) (rs_caches rs) true true "" (ld_files l) p _ Hf) as Hk;
    destruct m as [r' fs'] end.
  injection Hrun as -> <-. exact Hk.
Qed.

Definition bundledDatabase : option (list string) :=
  name ← rs_databaseName rs; rs_pathForResource rs name "cblite" (Some (bundledManuscriptDataDirectory name)).

(** The steps up to the comparison of the checksums *)
Lemma run_compare l events name bundled d t l1 :
  rs_databaseName rs = Some name → bundledDatabase = Some bundled → ld_loading l = false → digest l bundled d →
  makeTemporaryDirectory (setLoading true l).2 = (Ok t, l1) →
  MOC_loadBundledDatabaseResources purgeDocument setDocument allObjectsQuery rs fuel self metadata events l =
  match t with
  | StillSearching => (Ok None, l1)
  | NoTemporaryURL _ _ => (Ok (Some (NO (Some FailedTempFileCreation))), l1)
  | TemporaryURL dir =>
      (matches ← isEqualToString (model_get (w_cbl (ld_world l)) metadata (checksumKey rs)) (Some d);
       if (matches : bool) then mret (Some YES)
       else
         prepared ← prepareBundledDatabase purgeDocument setDocument allObjectsQuery rs self bundled
                      (rs_pathForResource rs (attachmentsDirectoryName name) "" (Some (bundledManuscriptDataDirectory name))) dir
                      (dir ++ [default ""%string (last bundled)]) (dir ++ [attachmentsDirectoryName name])
                      (bool_decide (is_Some (model_get (w_cbl (ld_world l)) metadata (checksumKey rs))));
         match prepared with
         | NO e => mret (Some (NO e))
         | YES => replicateBundledDatabase rs metadata events dir (dir ++ [default ""%string (last bundled)]) (Some d)
         end) l1
  end.
Proof.
  intros Hn Hb Hl Hd Ht. unfold MOC_loadBundledDatabaseResources. rewrite run_bind, run_gets, run_bind, run_NSAssert, Hl.
  cbn [negb]. rewrite run_bind. unfold setLoading at 1. rewrite run_modify. unfold setLoading in Ht. rewrite run_modify in Ht.
  rewrite Hn, run_bind. fold makeTemporaryDirectory. cbn [snd] in Ht. rewrite Ht. unfold bundledDatabase in Hb. rewrite Hn in Hb.
  cbn [mbind option_bind] in Hb. rewrite Hb.
  destruct (temporary_keeps_digest _ _ _ bundled d Ht) as [Hd1 Hw]; [done|].
  destruct t; [|done..]. rewrite run_bind, (run_md5 l1 bundled d) by done.
  rewrite run_bind, run_checksum, Hw. done.
Qed.

Lemma checksum_Some l key d : checksum l key = Some d ↔ model_get (w_cbl (ld_world l)) metadata key = Some (NSString d).
Proof. unfold checksum. split; [|by intros ->]. destruct (model_get _ _ _) as [[]|]; cbn; congruence. Qed.

Lemma wait_done es : ∀ l l', waitWhileLoading metadata es l = (Ok true, l') → ld_loading l' = false.
Proof.
  induction es as [|e es IH]; intros l l'; cbn [waitWhileLoading]; rewrite run_bind, run_gets;
    (destruct (ld_loading l) eqn:Hl; [|rewrite run_ret; by intros [= <-]]); [done|].
  rewrite run_bind, run_react. apply IH.
Qed.

(** After the wait the checksum is in the metadata. *)
Lemma replicate_sets_checksum events temp database d l l' :
  replicateBundledDatabase rs metadata events temp database (Some d) l = (Ok (Some YES), l') →
  checksum l' (checksumKey rs) = Some d ∧ ld_loading l' = false.
Proof.
  unfold replicateBundledDatabase. destruct (DB_pullFromDatabaseAtPath rs database) as [|e].
  - intros (ended & l1 & Hw & Hrun)%run_bind_inv. destruct ended; [|done].
    pose proof (wait_done _ _ _ Hw) as Hl. apply run_bind_inv in Hrun as (u & l2 & Hset & Hrun).
    apply run_bind_inv in Hrun as (r & l3 & Hrm & Hrun). injection Hrun as <-.
    unfold removePath in Hrm. pose proof (onFiles_world _ _ _ _ Hrm) as Hworld.
    unfold onFiles in Hrm. destruct (removeItem _ _ _ _) as [r' fs']. injection Hrm as _ <-.
    unfold onWorld, cbl in Hset. rewrite run_modify in Hset. injection Hset as _ <-. cbn. split; [|done].
    unfold checksum. cbn. apply stored_checksum.
  - intros (r & l1 & _ & [= ])%run_bind_inv.
Qed.
End loads.

(** C5 (liveness). The wait for the bundled database ends: once the replication has
    reported that it has stopped - with an error or without -, and if the main queue
    keeps being run, the loop is left after finitely many turns, whatever else happens in
    between and whatever waits on the queue before.  As long as the replication has
    reported no stop the loop is not left. *)
Theorem bundled_loading_ends {S} `{!CBL S} metadata (l : Loader S) :
  (∀ events : nat → runLoopEvent,
     (∀ n, ∃ m, (n ≤ m)%nat ∧ events m = RunsMainQueue) → (∃ n err, events n = Progresses Stopped err) →
     ∃ k l', waitWhileLoading metadata (events <$> seq 0 k) l = (Ok true, l') ∧ ld_loading l' = false) ∧
  (∀ es, ld_loading l = true → ld_status l ≠ Stopped → FinishLoading ∉ ld_queue l →
     Forall (λ e, ∀ err, e ≠ Progresses Stopped err) es → ∃ l', waitWhileLoading metadata es l = (Ok false, l')).
Proof.
  split; [|intros es; apply waits_for_stop].
  intros events Hfair (n & err & Hn).
  assert (∀ d k l, (n = k + d)%nat → ends metadata events k l) as Hends; [|by apply (Hends n 0%nat)].
  induction d as [|d IH]; intros k l' Hk.
  - apply ends_stopped with err; [done|]. by rewrite <- Hn, Hk, Nat.add_0_r.
  - apply ends_step, IH. lia.
Qed.

(** A version of the bundled database is loaded once: a load that answers
    YES leaves the digest of the bundled file in the metadata - either it was there, and
    nothing was done, or the wait for the replication has ended - and a controller that
    loads from the same file again answers YES without touching the database. *)
Theorem bundled_database_loaded_once {S} `{!CBL S} `{!CBLLaws S} `{!Env} `{!CBLModelFactory S}
    (purgeDocument : S → oid → outcome * S) setDocument allObjectsQuery rs fuel self metadata events (l l1 : Loader S)
    name bundled d :
  rs_databaseName rs = Some name → bundledDatabase rs = Some bundled → ld_loading l = false → digest rs l bundled d →
  MOC_loadBundledDatabaseResources purgeDocument setDocument allObjectsQuery rs fuel self metadata events l = (Ok (Some YES), l1) →
  checksum metadata l1 (checksumKey rs) = Some d ∧
  (checksum metadata l (checksumKey rs) = Some d ∧ ld_world l1 = ld_world l ∨ ld_loading l1 = false) ∧
  ∀ events2 l2 t l3, ld_world l2 = ld_world l1 → ld_loading l2 = false → digest rs l2 bundled d →
    makeTemporaryDirectory rs fuel (setLoading true l2).2 = (Ok (TemporaryURL t), l3) →
    MOC_loadBundledDatabaseResources purgeDocument setDocument allObjectsQuery rs fuel self metadata events2 l2 = (Ok (Some YES), l3).
Proof.
  intros Hn Hb Hl Hd Hrun.
  assert (checksum metadata l1 (checksumKey rs) = Some d ∧
          (checksum metadata l (checksumKey rs) = Some d ∧ ld_world l1 = ld_world l ∨ ld_loading l1 = false)) as [Hc Hcase].
  { destruct (makeTemporaryDirectory rs fuel (setLoading true l).2) as [[t|e] l0] eqn:Ht.
    - rewrite (run_compare purgeDocument setDocument allObjectsQuery rs fuel self metadata l events name bundled d t l0 Hn Hb Hl Hd Ht) in Hrun.
      destruct (temporary_keeps_digest rs fuel _ _ _ bundled d Ht) as [_ Hw]; [done|].
      destruct t as [dir| |]; [|done..].
      apply run_bind_inv in Hrun as (matches & l2 & Hm & Hrun). destruct matches.
      + injection Hrun as <-. unfold isEqualToString in Hm.
        assert (l2 = l0 ∧ checksum metadata l (checksumKey rs) = Some d) as [-> Hc].
        { unfold checksum. destruct (model_get _ _ _) as [[]|]; try done. rewrite run_ret in Hm. injection Hm as Hm <-.
          by apply bool_decide_eq_true in Hm as [= ->]. }
        unfold checksum in *. rewrite Hw. cbn. auto.
      + apply run_bind_inv in Hrun as (prepared & l3 & _ & Hrun). destruct prepared; [|done].
        apply replicate_sets_checksum in Hrun as [? ?]; auto.
    - exfalso. unfold makeTemporaryDirectory in Ht. unfold MOC_loadBundledDatabaseResources in Hrun.
      rewrite run_bind, run_gets, run_bind, run_NSAssert, Hl in Hrun. cbn [negb] in Hrun.
      rewrite run_bind in Hrun. unfold setLoading in Hrun, Ht. rewrite run_modify in Hrun, Ht. cbn [snd] in Ht.
      rewrite Hn, run_bind, Ht in Hrun. done. }
  split_and!; [done..|]. intros events2 l2 t l3 Hw Hl2 Hd2 Ht.
  rewrite (run_compare purgeDocument setDocument allObjectsQuery rs fuel self metadata l2 events2 name bundled d _ l3 Hn Hb Hl2 Hd2 Ht).
  apply checksum_Some in Hc. rewrite run_bind, Hw, Hc. cbn [isEqualToString]. rewrite run_ret, bool_decide_eq_true_2 by done.
  by destruct l3.
Qed.

(** Bundled objects are loaded once for every version of their file: a
    load that answers objects leaves the file's digest in the metadata, and from then on
    a load answers the objects it is given and changes nothing.  A load that answers none
    has told of the error if an error pointer was given, unless the metadata could not be
    saved. *)
Theorem bundled_objects_loaded_once {S} `{!CBL S} `{!CBLLaws S} `{!Env} `{!CBLModelFactory S}
    rs self metadata resource ext key preloaded (l l1 : Loader S) url d r :
  rs_isHelper rs = false → rs_pathForResource rs resource ext None = Some url → digest rs l url d →
  MOC_loadBundledObjectsFromResource rs self metadata resource ext preloaded key true l = (Ok r, l1) →
  match r with
  | Imported os =>
      checksum metadata l1 key = Some d ∧
      (checksum metadata l key = Some d ∧ os = preloaded ∧ l1 = l ∨
       checksum metadata l key ≠ Some d ∧
       ∃ data w1, rs_md5 rs data = d ∧ MOC_objectsFromArrayJSONData self (rs_text rs data) true (ld_world l) = (Ok (Imported os), w1)) ∧
      (∀ preloaded2 reports, MOC_loadBundledObjectsFromResource rs self metadata resource ext preloaded2 key reports l1
                             = (Ok (Imported preloaded2), l1))
  | NotImported e => ld_posted l1 = ld_posted l ++ [ImportError e] ∨ ∃ err, e = SaveFailed err
  end.
Proof.
  intros Hh Hp Hd Hrun. pose proof Hd as (data & Hf & Hr & Hdata).
  assert (∀ l' : Loader S, ld_files l' = ld_files l → digest rs l' url d) as Hd' by (intros l' E; exists data; by rewrite E).
  destruct (decide (checksum metadata l key = Some d)) as [Hc|Hc].
  { rewrite (load_unchanged rs self metadata l resource ext preloaded key true url d) in Hrun by done. injection Hrun as <- <-.
    split_and!; [done|by left|]. intros. by eapply load_unchanged. }
  unfold MOC_loadBundledObjectsFromResource in Hrun. rewrite Hh, Hp, run_bind, (run_md5 rs l url d Hd), run_bind, run_checksum in Hrun.
  rewrite bool_decide_eq_false_2, run_bind, run_gets, Hf, Hr, run_bind in Hrun by (intros [_ E]; by apply Hc).
  unfold onWorld at 1 in Hrun. cbn [MOC_objectsFromContentsOfArrayJSONAtURL] in Hrun.
  destruct (MOC_objectsFromArrayJSONData self (rs_text rs data) true (ld_world l)) as [[[os|e]|] w1] eqn:Himp; [| |done].
  - rewrite run_bind in Hrun. unfold onWorld, cbl at 1 in Hrun. rewrite run_modify, run_bind in Hrun.
    unfold cbl_run in Hrun. cbn [ld_world w_cbl set_cbl fmap option_fmap option_map] in Hrun.
    destruct (model_save _ _) as [saved s'] eqn:Hs in Hrun. rewrite run_ret in Hrun. injection Hrun as <- <-.
    destruct saved as [|err]; [|by right; exists err].
    assert (checksum metadata (mkLoader (set_cbl s' (set_cbl (model_set (w_cbl w1) metadata key (Some (NSString d))) w1))
              (ld_files l) (ld_loading l) (ld_loadingJSON l) (ld_derived l) (ld_status l) (ld_lastError l) (ld_queue l) (ld_posted l)) key
            = Some d) as Hc1.
    { unfold checksum. cbn. rewrite (get_save _ _ _ _ _ _ Hs). apply stored_checksum. }
    split_and!; [done|right; split; [done|by exists data, w1]|]. intros. eapply load_unchanged; [done..| |exact Hc1]. by apply Hd'.
  - rewrite run_bind in Hrun. unfold postLoad in Hrun. rewrite run_modify, run_ret in Hrun. injection Hrun as <- <-. by left.
Qed.

(** ** Witnesses *)
Import Reference.
Section witnesses.
Local Open Scope string_scope.

Definition app_files : gmap (list string) entry :=
  list_to_map [([], Directory); (["app"], Directory); (["app"; "bundle.cblite"], File [1; 2]);
               (["app"; "notes.json"], File [3]); (["caches"], Directory)]%Z.

Definition app_resources : Resources := {|
  rs_databaseName := Some "bundle"; rs_JSONFilename := Some "notes"; rs_comparator := None;
  rs_pathForResource name type dir :=
    if String.eqb type "cblite" then Some ["app"; "bundle.cblite"]
    else if String.eqb type ".json" then Some ["app"; "notes.json"] else None;
  rs_caches := ["caches"]; rs_md5 data := match data with [1; 2]%Z => "12" | _ => "3" end;
  rs_text _ := "{}"; rs_readError _ := None; rs_UUIDString := letters; rs_ioError _ _ := None;
  rs_noSuchFile := fsError 4; rs_fileExists := fsError 516; rs_notADirectory := fsError 512;
  rs_managerError _ := None; rs_databaseError _ := None; rs_isHelper := false; rs_bootstrapped := false
|}.

Definition metadata_ : oid := 8%positive.
Definition loader0 : Loader store :=
  mkLoader world0 app_files false false None Idle None [] [].
Definition load0 (events : list runLoopEvent) (l : Loader store) :=
  MOC_loadBundledDatabaseResources (λ s _, (YES, s)) (λ s _ _, s) (λ _, []) app_resources 9 notes metadata_ events l.

(** A replication that fails is announced - and counts as loaded. *)
Example failed_replication_counts :
  match load0 [Progresses Stopped (Some (fsError 1)); RunsMainQueue] loader0 with
  | (Ok r, l) => (r, checksum metadata_ l (checksumKey app_resources), ld_posted l)
  | _ => (None, None, [])
  end = (Some YES, Some "12", [LoadError (Some (fsError 1))]).
Proof. vm_compute. reflexivity. Qed.

(** The end of a replication is announced once by the delegate's method and once more by
    the observer. *)
Example loaded_is_posted_twice :
  match load0 [PostsChange; Progresses Active None; Progresses Stopped None] loader0 with
  | (Ok (Some YES), l) => (ld_posted l, ld_posted (after metadata_ RunsMainQueue l))
  | _ => ([], [])
  end = ([LoadedBundledResources], [LoadedBundledResources; LoadedBundledResources]).
Proof. vm_compute. reflexivity. Qed.

(** A version that is loaded already leaves its temporary directory behind, and the flag
    set: the controller cannot load again. *)
Example loaded_leaves_temporary_directory :
  match load0 [Progresses Stopped None] loader0 with
  | (Ok (Some YES), l) =>
      match load0 [] l with
      | (Ok (Some YES), l') => (ld_files l !! ["caches"; "A0000000"], ld_files l' !! ["caches"; "A0000000"], (load0 [] l').1)
      | _ => (None, None, Ok None)
      end
  | _ => (None, None, Ok None)
  end = (None, Some Directory, Throw (AssertionFailed "!_loadingBundledDatabaseResources")).
Proof. vm_compute. reflexivity. Qed.

Lemma bundled_loading_ends_witness :
  let l := mkLoader world0 app_files true false None Idle None [] [] in
  (∃ k l', waitWhileLoading metadata_
             ((λ n, match n with O => Progresses Stopped (Some (fsError 1)) | S _ => RunsMainQueue end) <$> seq 0 k) l
           = (Ok true, l') ∧ ld_loading l' = false) ∧
  ∃ l', waitWhileLoading metadata_ [RunsMainQueue; TimesOut] l = (Ok false, l').
Proof.
  intros l. destruct (bundled_loading_ends metadata_ l) as [Hends Hwaits]. split.
  - apply Hends; [|by exists 0%nat, (Some (fsError 1))]. intros n. exists (S n). split; [lia|done].
  - apply Hwaits; [reflexivity|discriminate|apply not_elem_of_nil|]. by repeat constructor.
Defined.

Lemma bundled_database_loaded_once_witness :
  ∃ l1, load0 [Progresses Stopped None] loader0 = (Ok (Some YES), l1) ∧
    checksum metadata_ l1 (checksumKey app_resources) = Some "12".
Proof.
  destruct (load0 [Progresses Stopped None] loader0) as [r l1] eqn:E.
  assert (r = Ok (Some YES)) as ->.
  { apply (f_equal fst) in E. vm_compute in E. by rewrite <- E. }
  exists l1. split; [reflexivity|]. eapply bundled_database_loaded_once; [..|exact E].
  - reflexivity.
  - reflexivity.
  - reflexivity.
  - exists [1; 2]%Z. split_and!; vm_compute; reflexivity.
Defined.

Lemma bundled_objects_loaded_once_witness :
  ∃ l1, MOC_loadBundledObjectsFromResource app_resources notes metadata_ "notes" ".json" [] "k" true loader0
        = (Ok (Imported []), l1) ∧ checksum metadata_ l1 "k" = Some "3".
Proof.
  destruct (MOC_loadBundledObjectsFromResource app_resources notes metadata_ "notes" ".json" [] "k" true loader0)
    as [r l1] eqn:E.
  assert (r = Ok (Imported [])) as ->.
  { apply (f_equal fst) in E. vm_compute in E. by rewrite <- E. }
  exists l1. split; [reflexivity|].
  destruct (bundled_objects_loaded_once app_resources notes metadata_ "notes" ".json" "k" [] loader0 l1
              ["app"; "notes.json"] "3" (Imported [])) as [Hc _].
  - reflexivity.
  - reflexivity.
  - exists [3]%Z. split_and!; vm_compute; reflexivity.
  - exact E.
  - exact Hc.
Defined.
End witnesses.
