(* ===== verification/DeepSaving.v ===== *)
(** * Deep saving

    src/Feather/Sources/Model/MPDeepSaver.m: an object is saved, and then every object
    with unsaved changes that its properties lead to.  Saving is that of ManagedObject.v and
    EmbeddedStorage.v: a managed object is written to the database and tells the objects embedded in its
    properties that they are saved, an embedded object has its embedding object saved and keeps its own
    mark.  The accessors of the classes' properties are not Feather's: what they answer is a
    parameter [valueForKey]; reading changes nothing, as when all values have been loaded and decoded, and neither does
    saving change what they answer. *)
From Stdlib Require Import Ascii.
From stdpp Require Import base tactics strings numbers list gmap relations.
From S2P Require Import Prelude ObjC ReferenceRuntime Classes World Reference Controllers EmbeddedObject ManagedObject Frames ObjectTheorems EmbeddedStorage.

(** What [-valueForKey:] answers, as far as the saver looks into it *)
Inductive graphValue : Type :=
  | Nil
  | Object (o : oid)
  | Collection (os : list oid)
  | Dictionary (os : list (string * oid)).

Section saver.
Context {S : Type} `{!CBL S} `{!Env} `{!CBLModelFactory S}.
Context (valueForKey : oid → string → res graphValue).
Local Open Scope string_scope.
Notation M := (M (World S)).

Definition isSubclassOf (c : option string) (d : string) : bool :=
  match c with Some k => isSubclassOfClass env_rt k d | None => false end.

(** The properties of the class and of its subclasses, by the order of the enumeration *)
Definition enumeratedKeys (class : string) : list string :=
  flat_map (λ c, elements (propertyKeys env_rt c)) (subclasses env_rt class ++ [class]).

Definition unexpectedSelector {A} : res A :=
  Throw (Exception "NSInvalidArgumentException" "unrecognized selector sent to instance").

(** The objects the block asks for unsaved changes, at one key of an object of a class *)
Definition objectsAtKey (class : string) (obj : oid) (key : string) : res (list oid) :=
  let propClass := rt_propertyClass env_rt class key in
  if hasPrefix key "effective" then Ok []
  else if (isSubclassOf propClass "MPManagedObject" || isSubclassOf propClass "MPEmbeddedObject")
          && negb (String.eqb key "evaluatedObject") && negb (hasPrefix key "parent") && negb (hasPrefix key "cached")
  then
    o ← valueForKey obj key;
    match o with Nil => Ok [] | Object x => Ok [x] | _ => unexpectedSelector end
  else if hasPrefix key "embedded" then
    o ← valueForKey obj key;
    if isSubclassOf propClass "NSArray" || isSubclassOf propClass "NSSet" then
      match o with Nil => Ok [] | Collection xs => Ok xs | _ => unexpectedSelector end
    else if isSubclassOf propClass "NSDictionary" then
      match o with Nil => Ok [] | Dictionary xs => Ok xs.*2 | _ => unexpectedSelector end
    else Throw (AssertionFailed "Unexpected type with key")
  else Ok [].

(** The messages the saver sends, to a managed or an embedded object *)
Definition class_ (o : oid) : M string :=
  isMO ← isManagedObject o;
  if (isMO : bool) then m ← getMO o; mret (mo_class m) else e ← getEO o; mret (eo_class e).
Definition needsSave (o : oid) : M bool :=
  isMO ← isManagedObject o;
  if (isMO : bool) then cbl_gets (λ s, model_needsSave s o) else e ← getEO o; mret (eo_needsSave e).
Definition save (o : oid) : M outcome :=
  isMO ← isManagedObject o;
  if (isMO : bool) then MO_save_error o else n ← stackDepth; EO_save_error n o.

(** The nested calls, whose results are not looked at: [false] when one of them has run
    out of fuel. *)
Fixpoint saveDirty (deepSave : oid → M (option outcome)) (objs : list oid) : M bool :=
  match objs with
  | [] => mret true
  | o :: objs =>
      dirty ← needsSave o;
      ended ← (if (dirty : bool) then r ← deepSave o; mret (bool_decide (is_Some r)) else mret true);
      if (ended : bool) then saveDirty deepSave objs else mret false
  end.

Fixpoint visitKeys (deepSave : oid → M (option outcome)) (class : string) (obj : oid) (keys : list string) : M bool :=
  match keys with
  | [] => mret true
  | key :: keys =>
      objs ← lift (objectsAtKey class obj key);
      ended ← saveDirty deepSave objs;
      if (ended : bool) then visitKeys deepSave class obj keys else mret false
  end.

(** [None]: the fuel has run out. *)
(* @src Feather/Sources/Model/MPDeepSaver.m 24 73 +[MPDeepSaver deepSave:error:] *)
Fixpoint deepSave (fuel : nat) (obj : oid) : M (option outcome) :=
  match fuel with
  | O => mret None
  | Datatypes.S fuel =>
      saved ← save obj;
      match saved with
      | NO e => mret (Some (NO e))
      | YES =>
          class ← class_ obj;
          ended ← visitKeys (deepSave fuel) class obj (enumeratedKeys class);
          mret (if (ended : bool) then Some YES else None)
      end
  end.
End saver.

(** ** What a save changes *)

(** What is documented of unsaved changes: an object with changed properties has some, and
    writing or saving an object gives or takes none from another. *)
Class CBLSavingLaws (S : Type) `{!CBL S} := {
  needsSave_hasChanges : ∀ s o, model_hasChanges s o = true → model_needsSave s o = true;
  needsSave_set_other : ∀ s o p v o', o' ≠ o → model_needsSave (model_set s o p v) o' = model_needsSave s o';
  needsSave_save_other : ∀ s o o', o' ≠ o → model_needsSave (model_save s o).2 o' = model_needsSave s o'
}.

Section saving.
Context {S : Type} `{!CBL S} `{!CBLLaws S} `{!CBLSavingLaws S} `{!Env} `{!CBLModelFactory S}.
Implicit Types w : World S.

(** The managed objects with unsaved changes *)
Definition dirty w : gset oid := dom (filter (λ x, model_needsSave (w_cbl w) x.1 = true) (w_mos w)).

Lemma elem_of_dirty w o : o ∈ dirty w ↔ is_Some (w_mos w !! o) ∧ model_needsSave (w_cbl w) o = true.
Proof.
  unfold dirty. rewrite elem_of_dom. unfold is_Some. setoid_rewrite map_lookup_filter_Some. cbn. naive_solver.
Qed.

(** All managed objects are what they were, and those apart from [self] have unsaved changes as before. *)
Record keeps (self : oid) w w' : Prop := {
  kp_class : ∀ x, mo_class <$> w_mos w' !! x = mo_class <$> w_mos w !! x;
  kp_needs : ∀ x, x ≠ self → model_needsSave (w_cbl w') x = model_needsSave (w_cbl w) x
}.

#[local] Instance keeps_preorder self : PreOrder (keeps self).
Proof.
  split; [by split|]. intros w1 w2 w3 [C1 N1] [C2 N2]. split; [intros x; by rewrite C2, C1|]. intros x Hx. by rewrite N2, N1.
Qed.

Lemma keeps_alter self w o f : (∀ m, mo_class (f m) = mo_class m) → keeps self w (set_mos (alter f o (w_mos w)) w).
Proof.
  intros Hf. split; [|done]. intros x. cbn. rewrite lookup_alter. case_decide; [|done]. subst.
  destruct (w_mos w !! x) as [m|]; [|done]. cbn. by rewrite Hf.
Qed.

Lemma keeps_blind self : blind (keeps self).
Proof. split; [apply _| | | |]; try done. intros w o f Hf. apply keeps_alter. intros m. by destruct (Hf m) as (c & ->). Qed.

Lemma steps_keeps_valueForKey self o p : steps (keeps self) (MO_valueForKey o p).
Proof.
  apply steps_MO_valueForKey; [apply keeps_blind|]. intros w v. split; [done|]. intros x _. cbn. by rewrite needsSave_cache.
Qed.
Lemma steps_keeps_set v self p : steps (keeps self) (MO_set self v p).
Proof.
  unfold MO_set. apply steps_bind; [apply _| |intros; apply steps_ret, _]. apply steps_MO_setValue; [apply keeps_blind| |].
  - intros w x. split; [done|]. intros y _. cbn. by rewrite needsSave_cache.
  - intros w x. split; [done|]. intros y Hy. cbn. by rewrite needsSave_set_other.
Qed.
Lemma steps_keeps_updMO self o f : (∀ m, mo_class (f m) = mo_class m) → steps (keeps self) (updMO o f).
Proof. intros Hf w. by apply keeps_alter. Qed.
Lemma steps_keeps_post self e : steps (keeps self) (post e).
Proof. by intros w. Qed.
Lemma steps_keeps_save self : steps (keeps self) (cbl_run (λ s, model_save s self)).
Proof.
  intros w. unfold cbl_run. destruct (model_save (w_cbl w) self) as [r s] eqn:E. split; [done|]. intros x Hx. cbn.
  pose proof (needsSave_save_other (w_cbl w) self x Hx) as Hs. by rewrite E in Hs.
Qed.

#[local] Hint Resolve steps_keeps_valueForKey steps_keeps_set steps_keeps_post steps_keeps_save : steps.
#[local] Hint Extern 1 (steps _ (updMO _ _)) => by apply steps_keeps_updMO : steps.
#[local] Hint Extern 1 (steps _ (getMO _)) => apply steps_getMO, keeps_blind : steps.
#[local] Hint Extern 1 (steps _ (getMOC _)) => apply steps_getMOC, keeps_blind : steps.
#[local] Hint Extern 1 (steps _ (getPkg _)) => apply steps_getPkg, keeps_blind : steps.
#[local] Hint Extern 1 (steps _ (cbl_gets _)) => apply steps_cbl_gets, keeps_blind : steps.
#[local] Hint Extern 1 (steps _ (updEO _ _)) => apply steps_updEO, keeps_blind : steps.
#[local] Hint Extern 1 (steps _ (assertEmbedded _)) => apply steps_assertEmbedded, keeps_blind : steps.
#[local] Hint Extern 1 (steps _ (MO_getValueOfProperty _ _)) => apply steps_MO_getValue, keeps_blind : steps.

Lemma steps_keeps_prepareSave self : steps (keeps self) (MO_prepareSave self).
Proof.
  unfold MO_prepareSave, MO_updateTimestamps, MO_createdAt, MO_setCreatedAt, MO_setUpdatedAt, MO_cloudKitChangeTag, theController.
  steps_tac.
Qed.
Lemma steps_keeps_clearEmbedded self : steps (keeps self) (clearEmbeddedNeedsSave self).
Proof. unfold clearEmbeddedNeedsSave. steps_tac. Qed.

(** What a controller does before and after a save *)
Section told.
Context (R : relation (World S)) (HR : blind R).
Context (Hpost : ∀ e, steps R (post e)) (Hnew : ∀ o b, steps R (updMO o (mo_with_isNew b))).
#[local] Instance told_preorder : PreOrder R := blind_pre R HR.
#[local] Hint Extern 0 (steps _ (post _)) => apply Hpost : steps.
#[local] Hint Extern 0 (steps _ (updMO _ _)) => apply Hnew : steps.
#[local] Hint Extern 0 (steps _ (getMO _)) => apply steps_getMO, HR : steps.
#[local] Hint Extern 0 (steps _ (getMOC _)) => apply steps_getMOC, HR : steps.
#[local] Hint Extern 0 (steps _ (getPkg _)) => apply steps_getPkg, HR : steps.

Lemma steps_willSave c self : steps R (MOC_willSaveObject c self).
Proof. unfold MOC_willSaveObject, assertController, assertDb. steps_tac. Qed.
Lemma steps_saveCompleted self : steps R (MO_saveCompleted self).
Proof.
  unfold MO_saveCompleted, theController, MOC_didSaveObject, MOC_didUpdateObject, assertController, assertManaged, MOC_class,
    assertDb, notificationCenter, postChange, updateDelegate. steps_tac.
Qed.
End told.

Definition same_cbl w w' : Prop := w_cbl w' = w_cbl w.
Lemma same_cbl_blind : blind same_cbl.
Proof. split; [split|..]; try done. intros w1 w2 w3 H12 H23. unfold same_cbl in *. congruence. Qed.

Lemma steps_keeps_MO_save self : steps (keeps self) (MO_save_error self).
Proof.
  assert (∀ c, steps (keeps self) (MOC_willSaveObject c self)) by (intros c; by apply steps_willSave, keeps_blind).
  assert (steps (keeps self) (MO_saveCompleted self)).
  { apply steps_saveCompleted; [apply keeps_blind|apply steps_keeps_post|]. intros o b. by apply steps_keeps_updMO. }
  pose proof (steps_keeps_prepareSave self). pose proof (steps_keeps_clearEmbedded self).
  unfold MO_save_error, MO_isClean, theController. steps_tac.
Qed.

Lemma isClean_needsSave w o : MO_isClean o w = (Ok (negb (model_needsSave (w_cbl w) o)), w).
Proof.
  unfold MO_isClean, cbl_gets. rewrite run_gets. destruct (model_needsSave (w_cbl w) o) eqn:E; [done|].
  destruct (model_hasChanges (w_cbl w) o) eqn:E2; [|done]. apply needsSave_hasChanges in E2. congruence.
Qed.

(** A saved object has no unsaved changes. *)
Lemma MO_save_clears self w w' : MO_save_error self w = (Ok YES, w') → model_needsSave (w_cbl w') self = false.
Proof.
  unfold MO_save_error. rewrite run_bind, isClean_needsSave. destruct (model_needsSave (w_cbl w) self) eqn:E; cbn [negb]; [|by intros [= <-]].
  intros (c & w1 & _ & Hrun)%run_bind_inv. apply run_bind_inv in Hrun as (doc & w2 & _ & Hrun).
  apply run_bind_inv in Hrun as (? & w3 & _ & Hrun). apply run_bind_inv in Hrun as (? & w4 & _ & Hrun).
  apply run_bind_inv in Hrun as (? & w5 & _ & Hrun). apply run_bind_inv in Hrun as (? & w6 & _ & Hrun).
  apply run_bind_inv in Hrun as (? & w7 & _ & Hrun). apply run_bind_inv in Hrun as (r & w8 & Hs & Hrun).
  destruct r as [|e]; cbn [succeeded] in Hrun; [|by injection Hrun].
  unfold cbl_run in Hs. destruct (model_save (w_cbl w7) self) as [r s] eqn:Esave. injection Hs as -> <-.
  apply needsSave_save in Esave as [Hclean _].
  apply run_bind_inv in Hrun as (? & w9 & Hc & Hrun). apply run_bind_inv in Hrun as (? & w10 & Hd & Hrun). injection Hrun as <-.
  pose proof (steps_run as_clean _ _ _ _ (steps_clearEmbedded_clean self) Hc self) as [Hn _].
  assert (steps same_cbl (MO_saveCompleted self)) as Hst by by apply steps_saveCompleted; [apply same_cbl_blind|..].
  pose proof (steps_run same_cbl _ _ _ _ Hst Hd) as Hcbl. unfold same_cbl in Hcbl. by rewrite Hcbl, Hn.
Qed.

(** The database decides. *)
Lemma MO_save_verdict self w w' r : (∀ s o, (model_save s o).1 = YES) → MO_save_error self w = (Ok r, w') → r = YES.
Proof.
  intros Hyes. unfold MO_save_error. rewrite run_bind, isClean_needsSave. destruct (negb _); [by intros [= <-]|].
  intros (c & w1 & _ & Hrun)%run_bind_inv. apply run_bind_inv in Hrun as (doc & w2 & _ & Hrun).
  apply run_bind_inv in Hrun as (? & w3 & _ & Hrun). apply run_bind_inv in Hrun as (? & w4 & _ & Hrun).
  apply run_bind_inv in Hrun as (? & w5 & _ & Hrun). apply run_bind_inv in Hrun as (? & w6 & _ & Hrun).
  apply run_bind_inv in Hrun as (? & w7 & _ & Hrun). apply run_bind_inv in Hrun as (r' & w8 & Hs & Hrun).
  unfold cbl_run in Hs. pose proof (Hyes (w_cbl w7) self) as Hy. destruct (model_save (w_cbl w7) self) as [r0 s]. cbn in Hy. subst.
  injection Hs as <- <-. cbn [succeeded] in Hrun.
  apply run_bind_inv in Hrun as (? & w9 & _ & Hrun). apply run_bind_inv in Hrun as (? & w10 & _ & Hrun). by injection Hrun.
Qed.

(** ** The same of all objects *)

(** [w'] has come out of [w] by saves. *)
Record saved w w' : Prop := {
  sv_class : ∀ x, mo_class <$> w_mos w' !! x = mo_class <$> w_mos w !! x;
  sv_dirty : dirty w' ⊆ dirty w
}.
#[export] Instance saved_preorder : PreOrder saved.
Proof. split; [by split|]. intros w1 w2 w3 [C1 D1] [C2 D2]. split; [intros x; by rewrite C2, C1|set_solver]. Qed.

Lemma saved_managed w w' x : saved w w' → is_Some (w_mos w' !! x) ↔ is_Some (w_mos w !! x).
Proof. intros [C _]. rewrite <- !(fmap_is_Some mo_class), C. done. Qed.

Lemma keeps_managed self w w' x : keeps self w w' → is_Some (w_mos w' !! x) ↔ is_Some (w_mos w !! x).
Proof. intros [C _]. rewrite <- !(fmap_is_Some mo_class), C. done. Qed.

Lemma keeps_dirty self w w' x : keeps self w w' → x ≠ self → x ∈ dirty w' ↔ x ∈ dirty w.
Proof. intros Hk Hx. by rewrite !elem_of_dirty, (keeps_managed self w w'), (kp_needs _ _ _ Hk). Qed.

Lemma steps_saved_MO_save self : steps saved (MO_save_error self).
Proof.
  intros w. pose proof (steps_keeps_MO_save self w) as Hk. destruct (model_needsSave (w_cbl w) self) eqn:E.
  - split; [apply Hk|]. intros x Hx. destruct (decide (x = self)) as [->|Hne]; [|by apply (keeps_dirty self _ _ _ Hk)].
    apply elem_of_dirty. split; [|done]. apply (keeps_managed self _ _ self Hk). by apply elem_of_dirty in Hx as [? _].
  - unfold MO_save_error. rewrite run_bind, isClean_needsSave, E. cbn [negb]. by rewrite run_ret.
Qed.

Lemma steps_saved_EO_save n self : steps saved (EO_save_error n self).
Proof.
  revert self. induction n as [|n IH]; intros self; cbn [EO_save_error]; pose proof steps_saved_MO_save;
    assert (∀ o, steps saved (getEO o)) by (intros o w; unfold getEO; by destruct (w_eos w !! o));
    unfold isManagedObject; steps_tac.
Qed.

Lemma steps_saved_save o : steps saved (save o).
Proof.
  pose proof steps_saved_MO_save. pose proof steps_saved_EO_save. unfold save, isManagedObject, stackDepth. steps_tac.
Qed.
End saving.

(** ** What a deep save reaches *)
Section theory.
Context {S : Type} `{!CBL S} `{!CBLLaws S} `{!CBLSavingLaws S} `{!Env} `{!CBLModelFactory S}.
Context (valueForKey : oid → string → res graphValue).
Implicit Types w : World S.

(** A property of [x], as an object of class [c], leads to [y]. *)
Definition leads (c : string) (x y : oid) : Prop :=
  ∃ key objs, key ∈ enumeratedKeys c ∧ objectsAtKey valueForKey c x key = Ok objs ∧ y ∈ objs.

(** The managed objects, and how deep embedded objects lead to embedded objects: [level]s go down and
    are at most [top]. *)
Context (managed : gset oid) (top : nat) (level : oid → nat).
Context (Htop : ∀ x, (level x ≤ top)%nat).
Context (Hlevel : ∀ c x y, leads c x y → x ∉ managed → y ∉ managed → (level y < level x)%nat).

(** How deep the calls for an object nest *)
Definition depth w (o : oid) : nat :=
  (if bool_decide (o ∈ managed) then size (dirty w ∖ {[o]}) * (top + 2) + (top + 2)
   else size (dirty w) * (top + 2) + level o + 1)%nat.

(** No save fails, and properties lead to managed objects only. *)
Definition fine : Prop :=
  (∀ (s : S) o, (model_save s o).1 = YES) ∧ ∀ c x y, leads c x y → y ∈ managed.

(** Every managed object that has become clean, and those of [P], lead to clean objects. *)
Definition closed w w' (P : oid → Prop) : Prop :=
  ∀ x m y, w_mos w !! x = Some m → (x ∈ dirty w ∧ x ∉ dirty w' ∨ P x) → leads (mo_class m) x y → y ∉ dirty w'.

Lemma closed_trans w1 w2 w3 P : saved w1 w2 → saved w2 w3 → closed w1 w2 P → closed w2 w3 (λ _, False) → closed w1 w3 P.
Proof.
  intros S12 S23 C12 C23 x m y Hm Hx Hl.
  assert (y ∉ dirty w2 → y ∉ dirty w3) as Hmono by (pose proof (sv_dirty _ _ S23); set_solver).
  destruct Hx as [[Hx Hx3]|Hx]; [|apply Hmono, (C12 x m y); auto].
  destruct (decide (x ∈ dirty w2)) as [Hx2|Hx2]; [|apply Hmono, (C12 x m y); auto].
  pose proof (sv_class _ _ S12 x) as Hc. rewrite Hm in Hc. destruct (w_mos w2 !! x) as [m2|] eqn:Hm2; [|done].
  injection Hc as Hc. rewrite <- Hc in Hl. apply (C23 x m2 y); auto.
Qed.

(** What a call promises that ends *)
Definition promise (o : oid) w (r : option outcome) w' : Prop :=
  is_Some r ∧ saved w w' ∧ (r = Some YES ↔ (save o w).1 = Ok YES) ∧
  (fine → o ∈ managed → o ∉ dirty w' ∧ closed w w' (λ x, x = o)).

Definition promises (f : oid → M (World S) (option outcome)) (n : nat) : Prop :=
  ∀ o w r w', dom (w_mos w) = managed → f o w = (Ok r, w') → (depth w o ≤ n)%nat → promise o w r w'.

Lemma saved_dom w w' : saved w w' → dom (w_mos w) = managed → dom (w_mos w') = managed.
Proof. intros Hs <-. apply set_eq. intros x. rewrite !elem_of_dom. by apply saved_managed. Qed.

Lemma is_managed_run w o : dom (w_mos w) = managed → bool_decide (is_Some (w_mos w !! o)) = bool_decide (o ∈ managed).
Proof. intros <-. apply bool_decide_ext. by rewrite elem_of_dom. Qed.

Lemma run_needsSave w o b w' : dom (w_mos w) = managed → needsSave o w = (Ok b, w') →
  w' = w ∧ (o ∈ managed → b = bool_decide (o ∈ dirty w)).
Proof.
  intros Hd. unfold needsSave, isManagedObject. rewrite run_bind, run_gets, is_managed_run by done.
  case_bool_decide as Ho; [|unfold getEO; rewrite run_bind; destruct (w_eos w !! o); [|done]; by intros [= <- <-]].
  unfold cbl_gets. rewrite run_gets. intros [= <- <-]. split; [done|]. intros _. apply eq_true_iff_eq. rewrite bool_decide_eq_true, elem_of_dirty.
  rewrite <- elem_of_dom, Hd. naive_solver.
Qed.

(** The objects asked about may all be saved by calls nesting [n] deep. *)
Definition within w (n : nat) (objs : list oid) : Prop :=
  (size (dirty w) * (top + 2) ≤ n)%nat ∧
  ∀ y, y ∈ objs → y ∉ managed → (size (dirty w) * (top + 2) + level y + 1 ≤ n)%nat.

Lemma within_saved w w' n objs : saved w w' → within w n objs → within w' n objs.
Proof.
  intros [_ Hs%subseteq_size] [Hn Hl]. split; [nia|]. intros y Hy Hm. specialize (Hl y Hy Hm). nia.
Qed.

Lemma depth_within w n objs o : within w n objs → o ∈ objs → (o ∈ managed → o ∈ dirty w) → (depth w o ≤ n)%nat.
Proof.
  intros [Hn Hl] Ho Hd. unfold depth. case_bool_decide as Hm; [|by apply Hl].
  rewrite size_difference by set_solver. rewrite size_singleton.
  assert (size (dirty w) ≠ 0)%nat by (apply size_non_empty_iff; set_solver). nia.
Qed.

Lemma run_saveDirty f n objs : promises f n → ∀ w b w', dom (w_mos w) = managed →
  saveDirty f objs w = (Ok b, w') → within w n objs →
  b = true ∧ saved w w' ∧ (fine → (∀ y, y ∈ objs → y ∈ managed) → closed w w' (λ _, False) ∧ ∀ y, y ∈ objs → y ∉ dirty w').
Proof.
  intros Hf. induction objs as [|o objs IH]; intros w b w' Hd Hrun Hn; cbn [saveDirty] in Hrun.
  { injection Hrun as <- <-. split_and!; [done|reflexivity|]. intros _ _. split; [|by intros y ?%elem_of_nil].
    by intros x m y _ [[? ?]|[]]. }
  apply run_bind_inv in Hrun as (needs & w0 & H0 & Hrun). apply run_needsSave in H0 as [-> Hneeds]; [|done].
  apply run_bind_inv in Hrun as (ended & w1 & H1 & H2).
  assert (ended = true ∧ saved w w1 ∧ (fine → o ∈ managed → closed w w1 (λ _, False) ∧ o ∉ dirty w1)) as (-> & Hs1 & Hc1).
  { destruct needs.
    - apply run_bind_inv in H1 as (r & w2 & Hr & H1). injection H1 as <- <-.
      destruct (Hf o w r w2 Hd Hr) as (Hsome & Hs & _ & Hcl).
      { apply (depth_within w n (o :: objs) o Hn); [by left|]. intros Hm.
        specialize (Hneeds Hm). symmetry in Hneeds. by apply bool_decide_eq_true in Hneeds. }
      split_and!; [by apply bool_decide_eq_true|done|]. intros E Hm. destruct (Hcl E Hm) as [Hclean Hc]. split; [|done].
      intros x m y Hx [Hx'|[]] Hl. by apply (Hc x m y); [|left|].
    - injection H1 as <- <-. split_and!; [done|reflexivity|]. intros _ Hm. split; [by intros x m y _ [[? ?]|[]]|].
      specialize (Hneeds Hm). symmetry in Hneeds. by apply bool_decide_eq_false in Hneeds. }
  assert (within w1 n objs) as Hn1.
  { apply (within_saved w); [done|]. destruct Hn as [Hn Hl]. split; [done|]. intros y Hy. apply Hl. by right. }
  destruct (IH w1 b w' (saved_dom _ _ Hs1 Hd) H2 Hn1) as (-> & Hs2 & Hc2).
  split_and!; [done|by etransitivity|]. intros E Hall.
  destruct (Hc1 E) as [Hcl1 Ho]; [by apply Hall; left|]. destruct (Hc2 E) as [Hcl2 Hrest]; [intros y ?; by apply Hall; right|].
  split; [by apply (closed_trans w w1)|]. intros y [->|Hy]%elem_of_cons; [|by apply Hrest].
  pose proof (sv_dirty _ _ Hs2). set_solver.
Qed.

Lemma run_visitKeys f n c obj keys : promises f n → (∀ k, k ∈ keys → k ∈ enumeratedKeys c) → ∀ w b w',
  dom (w_mos w) = managed → visitKeys valueForKey f c obj keys w = (Ok b, w') →
  (size (dirty w) * (top + 2) ≤ n)%nat → (∀ y, leads c obj y → y ∉ managed → size (dirty w) * (top + 2) + level y + 1 ≤ n)%nat →
  b = true ∧ saved w w' ∧
  (fine → closed w w' (λ _, False) ∧
     ∀ key objs y, key ∈ keys → objectsAtKey valueForKey c obj key = Ok objs → y ∈ objs → y ∉ dirty w').
Proof.
  intros Hf Hk. induction keys as [|key keys IH]; intros w b w' Hd Hrun Hn Hlev; cbn [visitKeys] in Hrun.
  { injection Hrun as <- <-. split_and!; [done|reflexivity|]. intros _. split; [|by intros ? ? ? ?%elem_of_nil].
    by intros x m y _ [[? ?]|[]]. }
  rewrite run_bind in Hrun. unfold lift in Hrun. destruct (objectsAtKey valueForKey c obj key) as [objs|] eqn:Eobjs; [|done].
  apply run_bind_inv in Hrun as (ended & w1 & H1 & H2).
  assert (∀ y, y ∈ objs → leads c obj y) as Hleads by (intros y Hy; exists key, objs; split; [apply Hk; by left|done]).
  destruct (run_saveDirty f n objs Hf w ended w1 Hd H1) as (-> & Hs1 & Hc1); [split; auto|].
  pose proof (subseteq_size _ _ (sv_dirty _ _ Hs1)) as Hsize.
  destruct (IH (λ k H, Hk k (list_elem_of_further _ _ _ H)) w1 b w' (saved_dom _ _ Hs1 Hd) H2) as (-> & Hs2 & Hc2); [nia| |].
  { intros y Hy Hm. specialize (Hlev y Hy Hm). nia. }
  split_and!; [done|by etransitivity|]. intros E. destruct (Hc1 E) as [Hcl1 Ho]; [intros y Hy; by eapply E, Hleads|].
  destruct (Hc2 E) as [Hcl2 Hall]. split; [by apply (closed_trans w w1)|]. intros k l y [->|Hk']%elem_of_cons Hl Hy.
  - rewrite Eobjs in Hl. injection Hl as <-. pose proof (sv_dirty _ _ Hs2). specialize (Ho y Hy). set_solver.
  - by apply (Hall k l y).
Qed.

Lemma run_save w o r w1 : dom (w_mos w) = managed → save o w = (Ok r, w1) →
  saved w w1 ∧ (o ∈ managed → r = YES → o ∉ dirty w1) ∧ (fine → o ∈ managed → r = YES ∧ keeps o w w1).
Proof.
  intros Hd Hrun. split; [by apply (steps_run saved _ _ _ _ (steps_saved_save o) Hrun)|]. unfold save, isManagedObject in Hrun.
  rewrite run_bind, run_gets, is_managed_run in Hrun by done. case_bool_decide as Hm; [|done]. split.
  - intros _ ->. apply MO_save_clears in Hrun. rewrite elem_of_dirty, Hrun. naive_solver.
  - intros [Hyes _] _. split; [by eapply MO_save_verdict|]. by apply (steps_run (keeps o) _ _ _ _ (steps_keeps_MO_save o) Hrun).
Qed.

Lemma run_class_ w o c w1 : class_ o w = (Ok c, w1) → w1 = w ∧ ∀ m, w_mos w !! o = Some m → c = mo_class m.
Proof.
  unfold class_, isManagedObject, getMO, getEO. rewrite run_bind, run_gets. destruct (w_mos w !! o) as [m|] eqn:E.
  - rewrite bool_decide_eq_true_2, run_bind by eauto. rewrite E. intros [= <- <-]. split; [done|]. by intros m' [= ->].
  - rewrite bool_decide_eq_false_2, run_bind by by intros []. destruct (w_eos w !! o); [|done]. by intros [= <- <-].
Qed.

(** The objects an object leads to are within the reach of one call less, once it is saved. *)
Lemma depth_step w w1 o fuel : (depth w o ≤ Datatypes.S fuel)%nat → saved w w1 → (o ∈ managed → o ∉ dirty w1) →
  (size (dirty w1) * (top + 2) ≤ fuel)%nat ∧
  ∀ c y, leads c o y → y ∉ managed → (size (dirty w1) * (top + 2) + level y + 1 ≤ fuel)%nat.
Proof.
  intros Hn [_ Hs] Hclean. unfold depth in Hn. case_bool_decide as Hm.
  - assert (size (dirty w1) ≤ size (dirty w ∖ {[o]}))%nat as Hsize by (apply subseteq_size; specialize (Hclean Hm); set_solver).
    split; [nia|]. intros c y _ _. pose proof (Htop y). nia.
  - apply subseteq_size in Hs. split; [nia|]. intros c y Hl Hy. pose proof (Hlevel c o y Hl Hm Hy). nia.
Qed.

Lemma run_deepSave fuel : promises (deepSave valueForKey fuel) fuel.
Proof.
  induction fuel as [|fuel IH]; intros o w r w' Hd Hrun Hn; [unfold depth in Hn; case_bool_decide; lia|].
  cbn [deepSave] in Hrun. apply run_bind_inv in Hrun as (res & w1 & Hsave & Hrun).
  destruct (run_save w o res w1 Hd Hsave) as (Hs1 & Hclear & Hfine). unfold promise. rewrite Hsave. cbn [fst].
  destruct res as [|e].
  2: { injection Hrun as <- <-. split_and!; [eauto|done|by split|]. intros E Hm. by destruct (Hfine E Hm). }
  apply run_bind_inv in Hrun as (c & w1' & Hc & Hrun). apply run_class_ in Hc as [-> Hc].
  apply run_bind_inv in Hrun as (ended & w2 & Hv & Hrun).
  destruct (depth_step w w1 o fuel Hn Hs1 (λ Hm, Hclear Hm eq_refl)) as [Hsize Hlev].
  destruct (run_visitKeys (deepSave valueForKey fuel) fuel c o _ IH (λ k Hk, Hk) w1 ended w2 (saved_dom _ _ Hs1 Hd) Hv Hsize (Hlev c))
    as (-> & Hs2 & Hcl).
  injection Hrun as <- <-. split_and!; [eauto|by etransitivity|done|]. intros E Hm. destruct (Hcl E) as [Hclosed Hall].
  destruct (Hfine E Hm) as [_ Hkeeps]. specialize (Hclear Hm eq_refl). pose proof (sv_dirty _ _ Hs2) as Hd2. split; [set_solver|].
  intros x m y Hx Hx' (k & l & Hk & Hl & Hy). pose proof (sv_class _ _ Hs1 x) as Hclass. rewrite Hx in Hclass.
  destruct (w_mos w1 !! x) as [m1|] eqn:Hm1; [|done]. injection Hclass as Hclass. destruct (decide (x = o)) as [->|Hne].
  - rewrite <- Hclass, <- (Hc m1 Hm1) in *. by apply (Hall k l y).
  - destruct Hx' as [[Hx1 Hx2]|]; [|done]. apply (Hclosed x m1 y Hm1); [|rewrite Hclass; by exists k, l]. left. split; [|done].
    by apply (keeps_dirty o w w1 x Hkeeps Hne).
Qed.
End theory.

(** C29 (termination). Deep saving ends when embedded objects do not lead to themselves by embedded objects: with
    levels, at most [top], that go down from an embedded object to the embedded ones its properties lead to, the calls
    nest no deeper than [top + 2] for every managed object with unsaved changes, and once more for the object itself.
    Unless something raises - a chain of embedding objects that never ends counts as that -, it then answers YES just when
    the object itself was saved, and no managed object has unsaved changes that had none.  Where properties lead to managed objects only and
    the database refuses nothing, every object that the properties of a managed object lead to, by way of
    objects with unsaved changes, has none once that one has been saved deeply.  What properties answer is as before all along: reading them changes nothing, and saving does not change them. *)
Theorem deep_save_ends {S} `{!CBL S} `{!CBLLaws S} `{!CBLSavingLaws S} `{!Env} `{!CBLModelFactory S}
    (valueForKey : oid → string → res graphValue) (top : nat) (level : oid → nat) (fuel : nat) (o : oid) (w : World S) :
  let managed := dom (w_mos w) in
  (∀ x, (level x ≤ top)%nat) →
  (∀ c x y, leads valueForKey c x y → x ∉ managed → y ∉ managed → (level y < level x)%nat) →
  ((size (dirty w) + 1) * (top + 2) ≤ fuel)%nat →
  (deepSave valueForKey fuel o w).1 ≠ Ok None ∧
  ∀ result w', deepSave valueForKey fuel o w = (Ok (Some result), w') →
    (result = YES ↔ (save o w).1 = Ok YES) ∧ dirty w' ⊆ dirty w ∧
    ((∀ (s : S) x, (model_save s x).1 = YES) → (∀ c x y, leads valueForKey c x y → y ∈ managed) → o ∈ managed →
     ∀ y, rtc (λ a b, (∃ m, w_mos w !! a = Some m ∧ leads valueForKey (mo_class m) a b) ∧ b ∈ dirty w) o y → y ∉ dirty w').
Proof.
  intros managed Htop Hlevel Hfuel.
  assert (depth managed top level w o ≤ fuel)%nat as Hn.
  { unfold depth. pose proof (Htop o). case_bool_decide; [|nia].
    assert (size (dirty w ∖ {[o]}) ≤ size (dirty w))%nat by (apply subseteq_size; set_solver). nia. }
  assert (∀ r w', deepSave valueForKey fuel o w = (Ok r, w') → promise valueForKey managed o w r w') as Hpromise.
  { intros r w' Hrun. by apply (run_deepSave valueForKey managed top level Htop Hlevel fuel). }
  destruct (deepSave valueForKey fuel o w) as [[r|e] w'] eqn:Hrun; [|done].
  destruct (Hpromise r w' eq_refl) as ([result ->] & Hs & Hyes & Hreach). split; [done|].
  intros ? ? [= <- <-]. split_and!; [by rewrite <- Hyes; split; [intros ->|intros [= ->]]|apply Hs|].
  intros Hok Hall Ho. destruct Hreach as [Hclean Hclosed]; [by split|done|]. intros y Hpath.
  assert ((y = o ∨ y ∈ dirty w) ∧ y ∉ dirty w') as [_ ?]; [|done].
  revert y Hpath. apply rtc_ind_r.
  - split; [by left|done].
  - intros y z _ [(m & Hm & Hl) Hz] [Hy Hyc]. split; [by right|]. apply (Hclosed y m z); [done| |done]. destruct Hy as [->|Hy]; auto.
Qed.

(** ** A chain of sections *)
Module Chain.
Import Reference.
Local Open Scope string_scope.

Definition chainRuntime : Runtime := {|
  rt_classes := [("NSObject", None); ("CBLModel", Some "NSObject"); ("MPManagedObject", Some "CBLModel");
                 ("MPSection", Some "MPManagedObject"); ("MPEmbeddedObject", Some "NSObject"); ("MPStyle", Some "MPEmbeddedObject");
                 ("MPManagedObjectsController", Some "NSObject"); ("MPSectionsController", Some "MPManagedObjectsController")];
  rt_properties c :=
    if String.eqb c "MPSection" then [("next", "T@MPSection,&,N,V_next"); ("style", "T@MPStyle,&,N,V_style")]
    else if String.eqb c "MPStyle" then [("example", "T@MPSection,&,N,V_example")] else [];
  rt_propertyClass c p :=
    if String.eqb p "next" || String.eqb p "example" then Some "MPSection" else if String.eqb p "style" then Some "MPStyle" else None;
  rt_conforms _ _ := false; rt_responds _ _ := false
|}.
#[local] Instance chainEnv : Env := {|
  env_rt := chainRuntime; env_parseJSON _ := None; env_uuid _ := ""; env_shouldTrackSessionID _ := false;
  env_relaysFetchingByIdentifier _ := false
|}.

(** The store of Reference.v, but for saves: it refuses those of the models [refused]. *)
Definition picky (refused : gset oid) : CBL store := {|
  model_document := @model_document _ store_CBL;
  model_docIsDeleted := @model_docIsDeleted _ store_CBL;
  model_revision := @model_revision _ store_CBL;
  model_needsSave := @model_needsSave _ store_CBL;
  model_hasChanges s o := m_needsSave (at_ s o) && @model_hasChanges _ store_CBL s o;
  model_get := @model_get _ store_CBL;
  model_getUnsaved := @model_getUnsaved _ store_CBL;
  doc_propertyForKey := @doc_propertyForKey _ store_CBL;
  model_set := @model_set _ store_CBL;
  model_cacheValue := @model_cacheValue _ store_CBL;
  model_markNeedsSave := @model_markNeedsSave _ store_CBL;
  model_markPropertyNeedsSave := @model_markPropertyNeedsSave _ store_CBL;
  model_propertiesToSave := @model_propertiesToSave _ store_CBL;
  model_init := @model_init _ store_CBL;
  model_save s o := if bool_decide (o ∈ refused) then (NO None, s) else (YES, save1 s o);
  model_saveAll := @model_saveAll _ store_CBL;
  model_delete := @model_delete _ store_CBL;
  model_hasModelObject := @model_hasModelObject _ store_CBL;
  model_setModelObject := @model_setModelObject _ store_CBL;
  doc_existing := @doc_existing _ store_CBL;
  doc_modelObject := @doc_modelObject _ store_CBL;
  doc_isDeleted := @doc_isDeleted _ store_CBL;
  doc_property := @doc_property _ store_CBL;
  doc_currentRevision := @doc_currentRevision _ store_CBL
|}.

Lemma picky_laws refused : @CBLLaws store (picky refused).
Proof.
  pose proof store_laws as []. split; try assumption; cbn in *.
  - store_solver.
  - intros s o r s' o' p. case_bool_decide; intros [= <- <-]; store_solver.
  - intros s o r s' o'. case_bool_decide; intros [= <- <-]; store_solver.
  - intros s o s'. case_bool_decide; intros [= <-]. split; by store_solver.
Qed.
Lemma picky_saving_laws refused : @CBLSavingLaws store (picky refused).
Proof.
  split; cbn.
  - by intros s o [? _]%andb_prop.
  - store_solver. congruence.
  - intros s o o' Ho. case_bool_decide; [done|]. store_solver. congruence.
Qed.

(** Three sections, each with the next; the first has a style, whose example is the third. *)
Definition nextSection (o : oid) (k : string) : res graphValue :=
  if String.eqb k "next" then Ok (if bool_decide (o < 3)%positive then Object (Pos.succ o) else Nil) else Ok Nil.
Definition style_ : oid := 4%positive.
Definition styleOfFirst (o : oid) (k : string) : res graphValue :=
  if String.eqb k "style" then Ok (if bool_decide (o = 1%positive) then Object style_ else Nil)
  else if String.eqb k "example" then Ok (Object 3%positive) else Ok Nil.

Definition unsaved (d : gset oid) (o : oid) (i : string) (v : gmap string value) : model :=
  mkModel (Some i) false (Some "1-a") v ∅ [] (bool_decide (o ∈ d)).
Definition sectionObject : MPManagedObject := mkMO "MPSection" (Some sections) None None None false None None.
(** The sections of [d] and the style need saving; the model of the first section holds [v]. *)
Definition chainWorld (d : gset oid) (v : gmap string value) : World store :=
  mkWorld (mkStore (<[1 := unsaved d 1 "MPSection:0001" v]> (<[2 := unsaved d 2 "MPSection:0002" ∅]> {[3 := unsaved d 3 "MPSection:0003" ∅]}))%positive None ∅)
    (<[1 := sectionObject]> (<[2 := sectionObject]> {[3 := sectionObject]}))%positive
    {[style_ := mkEO "MPStyle" (Some 1%positive) (Some "style") ∅ None true]}
    {[sections := mkController "MPSectionsController" package (Some "manuscript") ∅]}
    {[package := mkPackage "MPDatabasePackageController" (Some "pkg-1") ∅ ∅ true false "session-1"]}
    None ∅ ∅ [] 100 0 10%positive.

(** The result, and the sections that need saving afterwards *)
Definition ran (refused : gset oid) (valueForKey : oid → string → res graphValue) (o : oid) (w : World store) : res (option outcome) * list oid :=
  let '(r, w') := @deepSave store (picky refused) chainEnv valueForKey 20 o w in (r, elements (@dirty store (picky refused) w')).

Example whole_chain : ran ∅ nextSection 1%positive (chainWorld {[1; 2; 3]}%positive ∅) = (Ok (Some YES), []).
Proof. vm_compute. reflexivity. Qed.
(** Changes below an object without any are not reached. *)
Example below_a_clean_object : ran ∅ nextSection 1%positive (chainWorld {[1; 3]}%positive ∅) = (Ok (Some YES), [3%positive]).
Proof. vm_compute. reflexivity. Qed.
(** A save below that fails goes unnoticed. *)
Example failure_below_unnoticed :
  ran {[2%positive]} nextSection 1%positive (chainWorld {[1; 2]}%positive ∅) = (Ok (Some YES), [2%positive]).
Proof. vm_compute. reflexivity. Qed.
(** What the style of the first section leads to is not reached: saving the section has cleared the style's mark. *)
Example below_a_style : ran ∅ styleOfFirst 1%positive (chainWorld {[1; 3]}%positive {["style" := MPObj style_]}) = (Ok (Some YES), [3%positive]).
Proof. vm_compute. reflexivity. Qed.
(** An embedded object that is saved itself has what it leads to saved, and needs saving still. *)
Example from_a_style :
  (let '(r, w') := @deepSave store (picky ∅) chainEnv styleOfFirst 20 style_ (chainWorld {[1; 3]}%positive ∅) in
   (r, elements (@dirty store (picky ∅) w'), eo_needsSave <$> w_eos w' !! style_)) = (Ok (Some YES), [], Some true).
Proof. vm_compute. reflexivity. Qed.

Lemma leads_next c x y : @leads chainEnv nextSection c x y → y ∈ dom (w_mos (chainWorld {[1; 2; 3]}%positive ∅)).
Proof.
  intros (k & objs & _ & Hobjs & Hy). revert Hobjs. unfold objectsAtKey, nextSection.
  destruct (hasPrefix k "effective"); [by intros [= <-]; apply elem_of_nil in Hy|].
  assert (∀ l, (l = [] ∨ ((x < 3)%positive ∧ l = [Pos.succ x])) → y ∈ l → y ∈ dom (w_mos (chainWorld {[1; 2; 3]}%positive ∅))) as Hl.
  { intros l [->|[Hx ->]]; [by intros ?%elem_of_nil|]. intros ->%list_elem_of_singleton.
    assert (x = 1 ∨ x = 2)%positive as [->| ->] by lia; by apply (bool_decide_unpack _); vm_compute. }
  destruct (_ && _ && _ && _); [|destruct (hasPrefix k "embedded"); [|by intros [= <-]; apply elem_of_nil in Hy]];
    (destruct (String.eqb k "next"); [case_bool_decide|]); cbn; try (intros [= <-]; apply (Hl _ ltac:(auto) Hy));
    destruct (_ || _); cbn; try done; try (intros [= <-]; apply (Hl _ ltac:(auto) Hy)); destruct (isSubclassOf _ _); cbn; try done;
    intros [= <-]; apply (Hl _ ltac:(auto) Hy).
Qed.
End Chain.

Import Chain.
Lemma deep_save_ends_witness :
  let cbl := picky ∅ in let env := chainEnv in let w := chainWorld {[1; 2; 3]}%positive ∅ in
  ∃ w', @deepSave _ cbl env nextSection 8 1%positive w = (Ok (Some YES), w') ∧ 3%positive ∉ @dirty _ cbl w'.
Proof.
  intros cbl env w.
  destruct (@deep_save_ends _ cbl (picky_laws ∅) (picky_saving_laws ∅) env Reference.factory nextSection 0 (λ _, 0) 8 1%positive w)
    as [_ Hend]; [done|..].
  { intros c x y Hl _ Hy. by destruct Hy; apply (leads_next c x). }
  { apply Nat.leb_le. vm_compute. reflexivity. }
  destruct (@deepSave _ cbl env nextSection 8 1%positive w) as [r w'] eqn:E.
  assert (r = Ok (Some YES)) as -> by (apply (f_equal fst) in E; vm_compute in E; by rewrite <- E).
  exists w'. split; [done|]. destruct (Hend YES w' eq_refl) as (_ & _ & Hreach). apply Hreach.
  - intros s x. cbn. by rewrite bool_decide_eq_false_2 by apply not_elem_of_empty.
  - exact leads_next.
  - by apply (bool_decide_unpack _); vm_compute.
  - apply rtc_l with 2%positive; [|apply rtc_l with 3%positive; [|apply rtc_refl]]; (split; [|by apply (bool_decide_unpack _); vm_compute]).
    + exists sectionObject. split; [reflexivity|]. exists "next"%string, [2%positive].
      split_and!; [apply (bool_decide_unpack _); vm_compute; exact I|reflexivity|by left].
    + exists sectionObject. split; [reflexivity|]. exists "next"%string, [3%positive].
      split_and!; [apply (bool_decide_unpack _); vm_compute; exact I|reflexivity|by left].
Defined.
