(* ===== verification/Snapshots.v ===== *)
(** * Snapshots of a package

    MPSnapshot.m, MPSnapshotsController.m and the snapshot methods of
    MPDatabasePackageController.m: a snapshot is a managed object of the package's
    database for snapshots, with a snapshotted object for every object of the package. *)
From Stdlib Require Import Ascii.
From stdpp Require Import base tactics strings numbers list gmap.
From S2P Require Import Prelude ObjC Characters ReferenceRuntime Classes World Reference Controllers EmbeddedObject.
From S2P Require Import ManagedObject Frames ObjectTheorems Import Loading.

Section identifiers.
Local Open Scope string_scope.

(* @src Feather/Sources/Model/MPSnapshot.m 49 53 +[MPSnapshot idForSnapshotWithName:inDatabase:] *)
Definition idForSnapshotWithName (cls name : string) : string := cls ++ ":" ++ name.

(* @src Feather/Sources/Model/MPSnapshot.m 117 125 +[MPSnapshottedObject idForSnapshottedObjectWithDocumentID:revisionID:inDatabase:] *)
Definition idForSnapshottedObjectWithDocumentID (cls documentID revisionID : string) : string :=
  cls ++ ":" ++ documentID ++ ":" ++ revisionID.
End identifiers.

Section snapshots.
Context {S : Type} `{!CBL S} `{!Env} `{!CBLModelFactory S}.
Context (setDocument : S → oid → string → S).
(** What the queries answer: for all objects of a controller, for snapshotted objects,
    for the attachments with a digest *)
Context (allObjectsQuery : cid → S → list string) (snapshottedObjectsQuery : S → list string).
Context (snapshottedAttachmentsQueryForSHA : string → S → list string).
(** [document.properties] of a model *)
Context (documentProperties : S → oid → list (string * value)).
(** [setAttachmentNamed:withContentType:content:] *)
Context (setAttachment : S → oid → string → string → list Z → S).
Context (sha1DigestString : list Z → string).
(** The class a value of a property is, if it is one *)
Context (classOf : value → option string).
(** The controllers of snapshots, snapshotted objects and snapshotted attachments *)
Context (sc snapshottedObjectsController snapshottedAttachmentsController : cid).
Local Open Scope string_scope.
Notation M := (M (World S)).

Definition setProperty (self : oid) (v : value) (property : string) : M unit :=
  _ ← MO_setValue_ofProperty self (Some v) property; mret tt.

(** ** Making snapshots *)

(** The identifier [-idForNewDocumentInDatabase:] answers is that of the name. *)
(* @src Feather/Sources/Model/MPSnapshot.m 36 47 -[MPSnapshot initWithController:name:] *)
Definition MPSnapshot_initWithController (name : string) : M oid :=
  self ← MO_initWithNewDocumentForController "MPSnapshot" (Some sc) None (Some (idForSnapshotWithName "MPSnapshot" name));
  _ ← setProperty self (NSString name) "name";
  now ← gets w_now;
  _ ← setProperty self (NSNumber now) "timestamp";
  mret self.

(** What the handler is given: the snapshot, or an error. *)
(* @src Feather/Sources/Model Controllers/MPSnapshotsController.m 50 65 -[MPSnapshotsController newSnapshotWithName:snapshotHandler:] *)
Definition SC_newSnapshotWithName (name : string) : M (import oid) :=
  snapshot ← MPSnapshot_initWithController name;
  saved ← MO_save_error snapshot;
  match saved with
  | NO e => _ ← NSAssert (bool_decide (is_Some e)) "e"; mret (NotImported (SaveFailed e))
  | YES => mret (Imported snapshot)
  end.

(** [controller]: the controller it is given. *)
(* @src Feather/Sources/Model/MPSnapshot.m 93 115 -[MPSnapshottedObject initWithController:snapshot:snapshottedObject:] *)
Definition MPSnapshottedObject_initWithController (controller : cid) (snapshot obj : oid) : M oid :=
  revision ← cbl_gets (λ s, model_revision s obj);
  document ← cbl_gets (λ s, model_document s obj);
  match document, revision with
  | Some documentID, Some revisionID =>
      self ← MO_initWithNewDocumentForController "MPSnapshottedObject" (Some controller) None
               (Some (idForSnapshottedObjectWithDocumentID "MPSnapshottedObject" documentID revisionID));
      snapshotID ← cbl_gets (λ s, model_document s snapshot);
      match snapshotID with
      | None => throw (AssertionFailed "snapshot.document.documentID")
      | Some i =>
          m ← getMO obj;
          _ ← setProperty self (NSString i) "snapshot";
          _ ← setProperty self (NSString (mo_class m)) "snapshottedObjectClass";
          _ ← setProperty self (NSString documentID) "snapshottedObject";
          _ ← setProperty self (NSString revisionID) "snapshottedRevisionID";
          props ← cbl_gets (λ s, documentProperties s obj);
          _ ← setProperty self (NSDictionary props) "snapshottedProperties";
          mret self
      end
  | None, _ => throw (AssertionFailed "__snapshottedDocumentID")
  | Some _, None => throw (AssertionFailed "__snapshottedRevisionID")
  end.

(** The objects of one controller: [Some e] when one cannot be saved. *)
Fixpoint snapshotEach (snapshot : oid) (objs : list oid) : M (option (option NSError)) :=
  match objs with
  | [] => mret None
  | mo :: objs =>
      so ← MPSnapshottedObject_initWithController sc snapshot mo;
      saved ← MO_save_error so;
      match saved with NO e => mret (Some e) | YES => snapshotEach snapshot objs end
  end.

Fixpoint snapshotControllers (snapshot : oid) (mocs : list cid) : M (option (option NSError)) :=
  match mocs with
  | [] => mret None
  | moc :: mocs =>
      if bool_decide (moc = sc) then snapshotControllers snapshot mocs
      else
        objs ← MOC_allObjects setDocument (allObjectsQuery moc) moc;
        failed ← snapshotEach snapshot objs;
        match failed with Some e => mret (Some e) | None => snapshotControllers snapshot mocs end
  end.

(** [None] is [nil]; [*err] is set only when a snapshotted object cannot be saved. *)
(* @src Feather/Sources/Database Packages/MPDatabasePackageController.m 1256 1284 -[MPDatabasePackageController newSnapshotWithName:error:] *)
Definition PKG_newSnapshotWithName (self : pid) (name : string) : M (option oid * option NSError) :=
  pkg ← getPkg self;
  let mocs := (map_to_list (pkg_controllers pkg)).*2 in
  _ ← NSAssert (bool_decide (1 < length mocs)%nat) "_managedObjectsControllers.count > 1";
  r ← SC_newSnapshotWithName name;
  match r with
  | NotImported _ => mret (None, None)
  | Imported snapshot =>
      failed ← snapshotControllers snapshot mocs;
      mret match failed with Some e => (None, e) | None => (Some snapshot, None) end
  end.

(** [-documentWithID:] answers a document for every identifier. *)
(* @src Feather/Sources/Model Controllers/MPSnapshotsController.m 67 76 -[MPSnapshotsController snapshotOfObject:forSnapshot:] *)
Definition SC_snapshotOfObject (obj snapshot : oid) : M oid :=
  m ← getMO obj;
  _ ← NSAssert (isSubclassOfClass env_rt (mo_class m) "MPManagedObject") "[obj isKindOfClass:[MPManagedObject class]]";
  _ ← NSAssert (isSubclassOfClass env_rt (mo_class m) "MPSnapshot") "[obj isKindOfClass:[MPSnapshot class]]";
  revision ← cbl_gets (λ s, model_revision s obj);
  document ← cbl_gets (λ s, model_document s obj);
  match document, revision with
  | Some _, Some _ => throw (AssertionFailed "![self.db.database documentWithID:...]")
  | _, _ => throw (AssertionFailed "documentID, revisionID")
  end.

(** ** Restoring *)

(** The rows do not depend on the snapshot: the query has no keys. *)
(* @src Feather/Sources/Model Controllers/MPSnapshotsController.m 136 146 -[MPSnapshottedObjectsController snapshottedObjectsForSnapshot:] *)
Definition SOC_snapshottedObjectsForSnapshot (snapshot : oid) : M (list oid) :=
  rows ← cbl_gets snapshottedObjectsQuery;
  MOC_managedObjectsForQueryEnumerator setDocument snapshottedObjectsController rows.

(* @src Feather/Sources/Model/MPSnapshot.m 148 152 -[MPSnapshottedObject snapshottedObjectClass] *)
Definition SO_snapshottedObjectClass (self : oid) : M value :=
  cls ← cbl_gets (λ s, model_get s self "snapshottedObjectClass");
  match cls with Some v => mret v | None => throw (AssertionFailed "cls") end.

(** [[cls isSubclassOfClass:c]] of what a property holds *)
Definition isSubclassOfClassOf (cls : value) (c : string) : M bool :=
  match classOf cls with
  | Some k => mret (isSubclassOfClass env_rt k c)
  | None => throw (Exception "NSInvalidArgumentException" "unrecognized selector sent to instance")
  end.

Definition NoSuchSnapshot : NSError := {| err_domain := "MPDatabasePackageControllerErrorDomain"; err_code := 1 |}.

(** The body of the loop. *)
Definition restoreObject (self : pid) (so : oid) : M unit :=
  cls ← SO_snapshottedObjectClass so;
  managed ← isSubclassOfClassOf cls "MPManagedObject";
  _ ← NSAssert managed "[cls isSubclassOfClass:[MPManagedObject class]]";
  snapshotted ← isSubclassOfClassOf cls "MPSnapshottedObject";
  _ ← NSAssert (negb snapshotted) "![cls isSubclassOfClass:[MPSnapshottedObject class]]";
  props ← cbl_gets (λ s, model_get s so "snapshottedProperties");
  moc ← PKG_controllerForManagedObjectClass self (classOf cls);
  match moc, classOf cls with
  | Some c, Some k =>
      mc ← getMOC c;
      documentID ← cbl_gets (λ s, stringOf (model_get s so "snapshottedObject"));
      mo ← MO_modelForDocument k (default "" (moc_db mc)) (default "" documentID);
      match mo with
      | None => throw (AssertionFailed "mo")
      | Some o =>
          revision ← cbl_gets (λ s, model_revision s o);
          snapshotRevision ← cbl_gets (λ s, stringOf (model_get s so "snapshottedRevisionID"));
          needsSave ← cbl_gets (λ s, model_needsSave s o);
          if bool_decide (is_Some revision ∧ revision = snapshotRevision) && negb needsSave then
            current ← cbl_gets (λ s, documentProperties s o);
            NSAssert (match props with Some p => isEqual (NSDictionary current) p | None => false end)
              "[mo.document.properties isEqual:props]"
          else
            MO_setValuesForPropertiesWithDictionary o
              (match props with Some (NSDictionary d) => d | _ => [] end)
      end
  | _, _ => throw (AssertionFailed "moc")
  end.

(** Nothing is ever added to the objects to save. *)
(* @src Feather/Sources/Database Packages/MPDatabasePackageController.m 1286 1330 -[MPDatabasePackageController restoreFromSnapshotWithName:error:] *)
Definition PKG_restoreFromSnapshotWithName (self : pid) (name : string) : M outcome :=
  c ← getMOC sc;
  snapshot ← MO_modelForDocument "MPSnapshot" (default "" (moc_db c)) name;
  match snapshot with
  | None => mret (NO (Some NoSuchSnapshot))
  | Some o =>
      snapshottedObjects ← SOC_snapshottedObjectsForSnapshot o;
      _ ← for_each snapshottedObjects (restoreObject self);
      mret YES
  end.

(** ** Attachments *)

(** More than one object with a digest is not expected. *)
(* @src Feather/Sources/Model Controllers/MPSnapshotsController.m 211 226 -[MPSnapshottedAttachmentsController snapshottedAttachmentForSHA:] *)
Definition SAC_snapshottedAttachmentForSHA (sha : string) : M (option oid) :=
  rows ← cbl_gets (snapshottedAttachmentsQueryForSHA sha);
  objs ← MOC_managedObjectsForQueryEnumerator setDocument snapshottedAttachmentsController rows;
  _ ← NSAssert (bool_decide (length objs ≤ 1)%nat) "attachmentsForSHA.count <= 1";
  mret (head objs).

(** An attachment has a type and contents. *)
(* @src Feather/Sources/Model/MPSnapshot.m 179 215 -[MPSnapshottedAttachment initWithSnapshotsController:attachment:error:] *)
Definition MPSnapshottedAttachment_initWithAttachment (contentType : string) (content : list Z) : M (import oid) :=
  let shaDigest := sha1DigestString content in
  a ← SAC_snapshottedAttachmentForSHA shaDigest;
  match a with
  | Some a =>
      existing ← cbl_gets (λ s, stringOf (model_get s a "contentType"));
      _ ← NSAssert (bool_decide (existing = Some contentType)) "[a.contentType isEqualToString:attachment.contentType]";
      mret (Imported a)
  | None =>
      self ← MO_initWithNewDocumentForController "MPSnapshottedAttachment" (Some snapshottedAttachmentsController) None None;
      saved ← MO_save_error self;
      match saved with
      | NO e => mret (NotImported (SaveFailed e))
      | YES =>
          _ ← setProperty self (NSString shaDigest) "sha";
          _ ← setProperty self (NSString contentType) "contentType";
          _ ← cbl (λ s, setAttachment s self "attachment" contentType content);
          mret (Imported self)
      end
  end.
End snapshots.

(** ** What snapshots do *)
Section theory.
Context {S : Type} `{!CBL S} `{!Env} `{!CBLModelFactory S}.
Context (setDocument : S → oid → string → S).
Context (allObjectsQuery : cid → S → list string) (snapshottedObjectsQuery : S → list string).
Context (documentProperties : S → oid → list (string * value)) (classOf : value → option string).
Context (sc snapshottedObjectsController : cid).
Implicit Types w : World S.

(** Identifiers of snapshotted objects determine the document and the revision. *)
Lemma snapshotted_identifier_inj cls d r d' r' :
  ":"%char ∉ String.list_ascii_of_string r → ":"%char ∉ String.list_ascii_of_string r' →
  idForSnapshottedObjectWithDocumentID cls d r = idForSnapshottedObjectWithDocumentID cls d' r' → d = d' ∧ r = r'.
Proof.
  intros Hr Hr' E. apply (f_equal String.list_ascii_of_string) in E. unfold idForSnapshottedObjectWithDocumentID in E.
  rewrite !ascii_list_app in E. apply (inj (app _)) in E. apply (inj (app _)) in E.
  set (x := String.list_ascii_of_string d) in *. set (x' := String.list_ascii_of_string d') in *.
  set (y := String.list_ascii_of_string r) in *. set (y' := String.list_ascii_of_string r') in *.
  assert (x = x' ∧ y = y') as [Hx Hy].
  { change (x ++ [":"%char] ++ y = x' ++ [":"%char] ++ y') in E. clearbody x x' y y'.
    apply (f_equal reverse) in E. rewrite !reverse_app in E. cbn in E.
    rewrite <- !(assoc_L (++)) in E. cbn [app reverse rev_append] in E.
    assert (∀ (a a' b b' : list ascii), ":"%char ∉ a → ":"%char ∉ a' → a ++ ":"%char :: b = a' ++ ":"%char :: b' → a = a' ∧ b = b') as Hsplit.
    { induction a as [|c a IH]; intros [|c' a'] b b' Ha Ha' Eab; cbn in Eab; [by injection Eab|..].
      - injection Eab as <- _. exfalso. apply Ha'. by left.
      - injection Eab as -> _. exfalso. apply Ha. by left.
      - injection Eab as -> Eab. apply not_elem_of_cons in Ha as [_ Ha], Ha' as [_ Ha'].
        destruct (IH a' b b' Ha Ha' Eab) as [-> ->]. done. }
    apply Hsplit in E as [Ey Ex]; [|by rewrite elem_of_reverse..].
    split; [by apply (inj reverse)|by apply (inj reverse)]. }
  split; [by rewrite <- (String.string_of_list_ascii_of_string d), <- (String.string_of_list_ascii_of_string d'); fold x x'; rewrite Hx|].
  by rewrite <- (String.string_of_list_ascii_of_string r), <- (String.string_of_list_ascii_of_string r'); fold y y'; rewrite Hy.
Qed.

(** A controller for snapshots makes no snapshotted objects. *)
Definition managesSnapshotsOnly w : Prop :=
  ∃ moc, w_mocs w !! sc = Some moc ∧ MOC_managedObjectClass env_rt (moc_class moc) = Ok "MPSnapshot"%string ∧
         isSubclassOfClass env_rt "MPSnapshottedObject" "MPSnapshot" = false.

(** An object of a class that a controller does not manage cannot be made. *)
Lemma unmanaged_object_raises w cls c moc managed docID r w' :
  w_mocs w !! c = Some moc → MOC_managedObjectClass env_rt (moc_class moc) = Ok managed →
  isSubclassOfClass env_rt cls managed = false → hasPrefix docID (cls ++ ":")%string = true →
  MO_initWithNewDocumentForController cls (Some c) None (Some docID) w = (r, w') → ∃ e, r = Throw e.
Proof.
  intros Hc Hman Hsub Hpre. unfold MO_initWithNewDocumentForController. destruct (negb (isConcrete env_rt cls)).
  { rewrite run_throw. intros [= <- _]. eauto. }
  rewrite run_bind. unfold getMOC. rewrite Hc. destruct (moc_db moc) as [db|]; [|rewrite run_throw; intros [= <- _]; eauto].
  rewrite run_bind. unfold alloc. set (self := w_nextOid w). rewrite run_bind, run_modify, run_bind.
  set (m0 := mkMO cls (Some c) (Some docID) None None false None None). set (w1 := set_mos _ _).
  assert (w_mos w1 !! self = Some m0) as Hm0 by (subst w1; cbn; apply lookup_insert_eq).
  destruct (MO_idForNewDocumentInDatabase self w1) as [[i|e] w2] eqn:Hid; [|intros [= <- _]; eauto].
  assert (w2 = w1) as ->.
  { unfold MO_idForNewDocumentInDatabase, getMO in Hid. rewrite run_bind, Hm0 in Hid. cbn [mo_newDocumentID mo_class m0] in Hid.
    rewrite run_bind, run_NSAssert in Hid. destruct (negb (String.eqb cls MPManagedObject_class)); [|done].
    rewrite run_bind, run_NSAssert, Hpre, run_ret in Hid. by injection Hid. }
  rewrite run_bind. unfold cbl at 1. rewrite run_modify, run_bind. set (w2 := set_cbl _ _).
  unfold cbl_gets at 1. rewrite run_gets, run_bind, run_NSAssert.
  destruct (bool_decide (is_Some (model_document (w_cbl w2) self))) eqn:Hd; [|intros [= <- _]; eauto].
  apply bool_decide_eq_true in Hd as [d Hd].
  rewrite run_bind. unfold MO_didInitialize. rewrite run_bind. unfold updMO at 1. rewrite run_modify, run_bind.
  unfold theController. rewrite run_bind. unfold getMO at 1. cbn [w_mos set_mos w2 w1 set_cbl].
  rewrite lookup_alter, lookup_insert_eq, decide_True by done. cbn [fmap option_fmap option_map mo_embeddedObjectCache mo_controller mo_with_cache m0].
  rewrite run_ret, run_bind. unfold cbl_gets at 1. rewrite run_gets. cbn [w_cbl set_mos]. rewrite Hd.
  unfold MOC_registerObject, assertManaged, MOC_class. rewrite run_bind, run_bind. unfold getMO.
  cbn [w_mos set_mos w2 w1 set_cbl]. rewrite lookup_alter, lookup_insert_eq, decide_True by done.
  cbn [fmap option_fmap option_map mo_embeddedObjectCache mo_with_cache mo_class m0].
  rewrite run_bind, run_bind. unfold getMOC. cbn [w_mocs set_mos w2 w1 set_cbl set_nextOid]. rewrite Hc. unfold lift. rewrite Hman.
  rewrite run_NSAssert, Hsub. intros [= <- _]. eauto.
Qed.

Lemma snapshotted_object_raises w snapshot obj r w' : managesSnapshotsOnly w →
  MPSnapshottedObject_initWithController documentProperties sc snapshot obj w = (r, w') → ∃ e, r = Throw e.
Proof.
  intros (moc & Hc & Hman & Hsub). unfold MPSnapshottedObject_initWithController, cbl_gets.
  rewrite run_bind, run_gets, run_bind, run_gets.
  destruct (model_document _ obj) as [d|]; [|rewrite run_throw; intros [= <- _]; eauto].
  destruct (model_revision _ obj) as [rev|]; [|rewrite run_throw; intros [= <- _]; eauto].
  rewrite run_bind. destruct (MO_initWithNewDocumentForController _ _ _ _ w) as [ro w1] eqn:E.
  apply (unmanaged_object_raises w _ sc moc "MPSnapshot") in E as [e ->]; [|done..|].
  2: { unfold idForSnapshottedObjectWithDocumentID. rewrite <- (string_app_assoc _ ":"). apply prefix_refl_app. }
  intros [= <- _]. eauto.
Qed.
End theory.

(** Snapshots as they are: with the controller of snapshots, which manages
    snapshots alone, the loop over the objects of a controller gets past none: it raises at
    the first one.  Restoring
    looks the snapshot up by its document identifier, not by its name; it saves nothing,
    and raises at the first snapshotted object, whose class is stored as a string: where
    it answers YES it has found no objects, and it leaves the world as the lookups left
    it. *)
Theorem snapshots_raise {S} `{!CBL S} `{!Env} `{!CBLModelFactory S} setDocument snapshottedObjectsQuery
    documentProperties classOf sc snapshottedObjectsController :
  (∀ (w : World S) snapshot objs r w', managesSnapshotsOnly sc w →
     snapshotEach documentProperties sc snapshot objs w = (Ok r, w') → objs = [] ∧ r = None ∧ w' = w) ∧
  (∀ (w w1 w2 : World S) self name moc snapshot objs,
     (∀ n, classOf (NSString n) = None) → w_mocs w !! sc = Some moc →
     MO_modelForDocument "MPSnapshot" (default ""%string (moc_db moc)) name w = (Ok snapshot, w1) →
     (∀ o, snapshot = Some o →
        SOC_snapshottedObjectsForSnapshot setDocument snapshottedObjectsQuery snapshottedObjectsController o w1 = (Ok objs, w2) ∧
        Forall (λ so, ∃ n, model_get (w_cbl w2) so "snapshottedObjectClass" = Some (NSString n)) objs) →
     PKG_restoreFromSnapshotWithName setDocument snapshottedObjectsQuery documentProperties classOf sc
       snapshottedObjectsController self name w
     = match snapshot, objs with
       | None, _ => (Ok (NO (Some NoSuchSnapshot)), w1)
       | Some _, [] => (Ok YES, w2)
       | Some _, _ :: _ => (Throw (Exception "NSInvalidArgumentException" "unrecognized selector sent to instance"), w2)
       end).
Proof.
  split.
  - intros w snapshot objs r w' Hsc. destruct objs as [|o objs]; cbn [snapshotEach]; [by intros [= <- <-]|].
    rewrite run_bind. destruct (MPSnapshottedObject_initWithController _ _ _ _ w) as [ro w1] eqn:E.
    by apply snapshotted_object_raises in E as [e ->].
  - intros w w1 w2 self name moc snapshot objs Hclass Hc Hm Hobjs. unfold PKG_restoreFromSnapshotWithName.
    rewrite run_bind. unfold getMOC at 1. rewrite Hc, run_bind, Hm. destruct snapshot as [o|]; [|done].
    destruct (Hobjs o eq_refl) as [Hq Hall]. rewrite run_bind, Hq.
    destruct objs as [|so objs]; [done|]. apply Forall_cons in Hall as [[n Hn] _].
    rewrite run_bind. cbn [for_each]. rewrite run_bind. unfold restoreObject at 1.
    rewrite run_bind. unfold SO_snapshottedObjectClass, cbl_gets at 1. rewrite run_bind, run_gets, Hn, run_ret.
    rewrite run_bind. unfold isSubclassOfClassOf at 1. by rewrite Hclass.
Qed.

(** ** Witness: a package with a snapshot of one note *)
Section witness.
Local Open Scope string_scope.
Import Reference.

Definition snapshotRuntime : Runtime := {|
  rt_classes := [("NSObject", None); ("CBLModel", Some "NSObject"); ("MPManagedObject", Some "CBLModel");
                 ("MPSnapshot", Some "MPManagedObject"); ("MPSnapshottedObject", Some "MPManagedObject");
                 ("MPNote", Some "MPManagedObject"); ("MPManagedObjectsController", Some "NSObject");
                 ("MPSnapshotsController", Some "MPManagedObjectsController");
                 ("MPSnapshottedObjectsController", Some "MPManagedObjectsController")];
  rt_properties _ := []; rt_propertyClass _ _ := None; rt_conforms _ _ := false; rt_responds _ _ := false
|}.
Definition snapshotEnv : Env := {|
  env_rt := snapshotRuntime; env_parseJSON _ := None; env_uuid _ := "0";
  env_shouldTrackSessionID _ := false; env_relaysFetchingByIdentifier _ := false
|}.

Definition snapshotWorld : World store :=
  mkWorld (mkStore
      (<[1%positive := mkModel (Some "MPSnapshot:a") false (Some "1-a") {["objectType" := NSString "MPSnapshot"]} ∅ [] false]>
       {[2%positive := mkModel (Some "MPSnapshottedObject:MPNote:1:1-a") false (Some "1-b")
                         {["snapshottedObjectClass" := NSString "MPNote"]} ∅ [] false]}) None ∅)
    (<[1%positive := mkMO "MPSnapshot" (Some 1%positive) None None None false None None]>
     {[2%positive := mkMO "MPSnapshottedObject" (Some 2%positive) None None None false None None]})
    ∅
    (<[1%positive := mkController "MPSnapshotsController" package (Some "snapshots") ∅]>
     {[2%positive := mkController "MPSnapshottedObjectsController" package (Some "snapshots") ∅]})
    ∅ None ∅ ∅ [] 0%Z 0%nat 3%positive.

Lemma snapshots_raise_witness :
  @PKG_restoreFromSnapshotWithName _ _ snapshotEnv factory (λ s _ _, s) (λ _, ["MPSnapshottedObject:MPNote:1:1-a"])
    (λ _ _, []) (λ _, None) 1%positive 2%positive 1%positive "MPSnapshot:a" snapshotWorld
  = (Throw (Exception "NSInvalidArgumentException" "unrecognized selector sent to instance"), snapshotWorld).
Proof.
  destruct (@snapshots_raise _ _ snapshotEnv factory (λ s _ _, s) (λ _, ["MPSnapshottedObject:MPNote:1:1-a"])
              (λ _ _, []) (λ _, None) 1%positive 2%positive) as [_ Hrestore].
  apply (Hrestore snapshotWorld snapshotWorld snapshotWorld 1%positive "MPSnapshot:a"
           (mkController "MPSnapshotsController" package (Some "snapshots") ∅) (Some 1%positive) [2%positive]).
  - intros n. reflexivity.
  - reflexivity.
  - vm_compute. reflexivity.
  - intros o _. split; [vm_compute; reflexivity|]. constructor; [|constructor]. exists "MPNote". vm_compute. reflexivity.
Defined.
End witness.
