(* ===== verification/Bindings.v ===== *)
(** * The generator of C# bindings

    src/Bindings/Bindings OSX Framework: the declarations of a translation unit
    (MPObjectiveCTokens.m), the string that keeps an indentation
    (MPIndentedMutableString.m), and the translation to C#
    (MPObjectiveCToCSharpTranslator.m). *)
From Stdlib Require Import Ascii.
From stdpp Require Import base tactics strings numbers list gmap pretty.
From S2P Require Import Prelude ObjC Characters Classes.

(** ** Declarations *)

(** Constants are equal by their names. *)
Record MPObjCEnumConstant : Type := { ec_name : string; ec_value : option Z }.

Record MPObjCEnumDeclaration : Type := {
  ed_name : string;
  ed_backingType : option string;
  ed_enumConstants : list MPObjCEnumConstant
}.

Record MPObjCConstantDeclaration : Type := { cd_name : string; cd_type : option string }.
Record MPObjCPropertyDeclaration : Type := { pd_name : string; pd_type : string; pd_isReadWrite : bool }.
Record MPObjCMethodParameter : Type := { mp_name : string; mp_type : string; mp_selectorComponent : string }.
Record MPObjCMethodDeclaration : Type := {
  mdc_selector : string;
  mdc_returnType : string;
  mdc_parameters : list MPObjCMethodParameter
}.
Record MPObjCProtocolDeclaration : Type := { prd_name : string }.
Record MPObjCClassDeclaration : Type := {
  cl_name : string;
  cl_superClassName : string;
  cl_propertyDeclarations : list MPObjCPropertyDeclaration;
  cl_classMethodDeclarations : list MPObjCMethodDeclaration;
  cl_instanceMethodDeclarations : list MPObjCMethodDeclaration
}.

(** [None] is an array that is [nil]. *)
(* @src Bindings/Bindings OSX Framework/MPObjectiveCTokens.m 15 20 MPObjCTranslationUnit () *)
Record MPObjCTranslationUnit : Type := {
  tu_path : option string;
  tu_enumDeclarations : option (list MPObjCEnumDeclaration);
  tu_constantDeclarations : option (list MPObjCConstantDeclaration);
  tu_protocolDeclarations : option (list MPObjCProtocolDeclaration);
  tu_classDeclarations : option (list MPObjCClassDeclaration)
}.

(** [[array addObject:x]], which a [nil] array ignores *)
Definition addTo {A} (array : option (list A)) (x : A) : option (list A) := (λ l, l ++ [x]) <$> array.

(* @src Bindings/Bindings OSX Framework/MPObjectiveCTokens.m 30 39 -[MPObjCTranslationUnit initWithPath:] *)
Definition TU_initWithPath (path : option string) : MPObjCTranslationUnit :=
  {| tu_path := path; tu_enumDeclarations := Some []; tu_constantDeclarations := None;
     tu_protocolDeclarations := None; tu_classDeclarations := None |}.

(* @src Bindings/Bindings OSX Framework/MPObjectiveCTokens.m 57 59 -[MPObjCTranslationUnit addEnumDeclaration:] *)
Definition TU_addEnumDeclaration (d : MPObjCEnumDeclaration) (u : MPObjCTranslationUnit) : MPObjCTranslationUnit :=
  {| tu_path := tu_path u; tu_enumDeclarations := addTo (tu_enumDeclarations u) d;
     tu_constantDeclarations := tu_constantDeclarations u; tu_protocolDeclarations := tu_protocolDeclarations u;
     tu_classDeclarations := tu_classDeclarations u |}.
(* @src Bindings/Bindings OSX Framework/MPObjectiveCTokens.m 61 63 -[MPObjCTranslationUnit addConstantDeclaration:] *)
Definition TU_addConstantDeclaration (d : MPObjCConstantDeclaration) (u : MPObjCTranslationUnit) : MPObjCTranslationUnit :=
  {| tu_path := tu_path u; tu_enumDeclarations := tu_enumDeclarations u;
     tu_constantDeclarations := addTo (tu_constantDeclarations u) d; tu_protocolDeclarations := tu_protocolDeclarations u;
     tu_classDeclarations := tu_classDeclarations u |}.
(* @src Bindings/Bindings OSX Framework/MPObjectiveCTokens.m 65 67 -[MPObjCTranslationUnit addProtocolDeclaration:] *)
Definition TU_addProtocolDeclaration (d : MPObjCProtocolDeclaration) (u : MPObjCTranslationUnit) : MPObjCTranslationUnit :=
  {| tu_path := tu_path u; tu_enumDeclarations := tu_enumDeclarations u;
     tu_constantDeclarations := tu_constantDeclarations u; tu_protocolDeclarations := addTo (tu_protocolDeclarations u) d;
     tu_classDeclarations := tu_classDeclarations u |}.
(* @src Bindings/Bindings OSX Framework/MPObjectiveCTokens.m 69 71 -[MPObjCTranslationUnit addClassDeclaration:] *)
Definition TU_addClassDeclaration (d : MPObjCClassDeclaration) (u : MPObjCTranslationUnit) : MPObjCTranslationUnit :=
  {| tu_path := tu_path u; tu_enumDeclarations := tu_enumDeclarations u;
     tu_constantDeclarations := tu_constantDeclarations u; tu_protocolDeclarations := tu_protocolDeclarations u;
     tu_classDeclarations := addTo (tu_classDeclarations u) d |}.

(* @src Bindings/Bindings OSX Framework/MPObjectiveCTokens.m 77 86 -[MPObjCEnumDeclaration initWithName:] *)
Definition ED_initWithName (name : string) : MPObjCEnumDeclaration :=
  {| ed_name := name; ed_backingType := None; ed_enumConstants := [] |}.

(* @src Bindings/Bindings OSX Framework/MPObjectiveCTokens.m 97 100 -[MPObjCEnumDeclaration addEnumConstant:] *)
Definition ED_addEnumConstant (c : MPObjCEnumConstant) (d : MPObjCEnumDeclaration) : res MPObjCEnumDeclaration :=
  _ ← assert_ (negb (existsb (λ c', String.eqb (ec_name c') (ec_name c)) (ed_enumConstants d)))
        "![self.enumConstants containsObject:enumConstant]";
  Ok {| ed_name := ed_name d; ed_backingType := ed_backingType d; ed_enumConstants := ed_enumConstants d ++ [c] |}.

(** The table of type definitions: a name's backing type *)
(* @src Bindings/Bindings OSX Framework/MPObjectiveCTokens.m 138 145 +[MPObjCTypeDefinition registerType:] *)
Definition registerType (name backingType : string) (types : gmap string string) : gmap string string :=
  <[name := backingType]> types.

(** [while (true)]: the fuel counts the turns of the loop. *)
Fixpoint followTypes (fuel : nat) (types : gmap string string) (backingType : option string) : option (option string) :=
  match fuel with
  | O => None
  | S fuel => followTypes fuel types (backingType ≫= λ t, if types !! t then Some t else None)
  end.
(* @src Bindings/Bindings OSX Framework/MPObjectiveCTokens.m 147 154 +[MPObjCTypeDefinition typeWithName:] *)
Definition typeWithName (fuel : nat) (types : gmap string string) (name : string) : res (option (option string)) :=
  _ ← assert_ (bool_decide (is_Some (types !! name))) "No type with name";
  Ok (followTypes fuel types (Some name)).

(** ** Indented strings *)
(* @src Bindings/Bindings OSX Framework/MPIndentedMutableString.m 12 16 MPIndentedMutableString () *)
Record MPIndentedMutableString : Type := {
  ims_mutableString : string;
  ims_indentationLevel : nat;
  ims_indentationSpaceCount : nat
}.

Section translator.
Local Open Scope string_scope.
Notation M := (M MPIndentedMutableString).
Definition newline : ascii := ascii_of_nat 10.
Definition nl : string := String newline "".

(* @src Bindings/Bindings OSX Framework/MPIndentedMutableString.m 24 33 -[MPIndentedMutableString initWithIndentationSpaceCount:] *)
Definition IMS_initWithIndentationSpaceCount (n : nat) : MPIndentedMutableString :=
  {| ims_mutableString := ""; ims_indentationLevel := 0; ims_indentationSpaceCount := n |}.
(* @src Bindings/Bindings OSX Framework/MPIndentedMutableString.m 20 22 -[MPIndentedMutableString init] *)
Definition IMS_init : MPIndentedMutableString := IMS_initWithIndentationSpaceCount 4.

Definition setLevel (f : nat → nat) : M unit := modify (λ s,
  {| ims_mutableString := ims_mutableString s; ims_indentationLevel := f (ims_indentationLevel s);
     ims_indentationSpaceCount := ims_indentationSpaceCount s |}).

(* @src Bindings/Bindings OSX Framework/MPIndentedMutableString.m 35 39 -[MPIndentedMutableString indent:] *)
Definition IMS_indent (block : M unit) : M unit :=
  _ ← setLevel S; _ ← block; setLevel Nat.pred.

(* @src Bindings/Bindings OSX Framework/MPIndentedMutableString.m 41 50 +[MPIndentedMutableString indentationStringForLevel:indentationSpaceCount:] *)
Fixpoint spaces (n : nat) : string := match n with O => "" | S n => String " " (spaces n) end.
Definition indentationStringForLevel (level spaceCount : nat) : string := spaces (level * spaceCount).

(* @src Bindings/Bindings OSX Framework/MPIndentedMutableString.m 52 54 -[MPIndentedMutableString appendString:] *)
Definition IMS_appendString (string : string) : M unit := modify (λ s,
  {| ims_mutableString := ims_mutableString s ++ string; ims_indentationLevel := ims_indentationLevel s;
     ims_indentationSpaceCount := ims_indentationSpaceCount s |}).

(** The loop over the lines: a line break follows every line but the last. *)
Fixpoint appendComponents (components : list string) : M unit :=
  match components with
  | [] => mret tt
  | string :: rest =>
      self ← gets id;
      _ ← IMS_appendString
            (indentationStringForLevel (ims_indentationLevel self) (ims_indentationSpaceCount self) ++ string);
      _ ← (match rest with [] => mret tt | _ => IMS_appendString nl end);
      appendComponents rest
  end.
(** [None] is [nil], whose components are none. *)
(* @src Bindings/Bindings OSX Framework/MPIndentedMutableString.m 56 69 -[MPIndentedMutableString appendLine:] *)
Definition IMS_appendLine (indentedString : option string) : M unit :=
  match indentedString with
  | None => mret tt
  | Some s => appendComponents (componentsSeparatedBy newline s)
  end.

(** A new string that is filled, and its [-copy] *)
(* @src Bindings/Bindings OSX Framework/MPIndentedMutableString.m 77 79 -[MPIndentedMutableString stringRepresentation] *)
Definition stringWritten (block : M unit) : string := ims_mutableString (block IMS_init).2.

(** ** Translation *)
(** The prefix, taken as a regular expression of literal characters; [nil] is written
    as [(null)]. *)
Context (identifierPrefix : string).

(* @src Bindings/Bindings OSX Framework/MPObjectiveCToCSharpTranslator.m 39 42 -[MPObjCToCSharpTranslator translatedPrefixedIdentifierString:] *)
Definition translatedPrefixedIdentifierString (str : string) : string :=
  if String.prefix identifierPrefix str
  then String.substring (String.length identifierPrefix) (String.length str - String.length identifierPrefix) str
  else str.

(** The constants with the number of those that follow *)
Fixpoint translatedConstants (constants : list MPObjCEnumConstant) : M unit :=
  match constants with
  | [] => mret tt
  | constant :: rest =>
      _ ← IMS_indent
            (_ ← IMS_appendLine (Some match ec_value constant with
                                      | Some v => ec_name constant ++ " = " ++ pretty v
                                      | None => ec_name constant
                                      end);
             IMS_appendString (match rest with [] => nl | _ => "," ++ nl end));
      translatedConstants rest
  end.

(* @src Bindings/Bindings OSX Framework/MPObjectiveCToCSharpTranslator.m 83 109 -[MPObjCToCSharpTranslator translatedEnumDeclaration:] *)
Definition translatedEnumDeclaration (declaration : MPObjCEnumDeclaration) : string :=
  stringWritten
    (_ ← IMS_appendLine (Some ("public enum " ++ translatedPrefixedIdentifierString (ed_name declaration) ++ nl));
     _ ← IMS_appendLine (Some ("{" ++ nl));
     _ ← IMS_indent (translatedConstants (ed_enumConstants declaration));
     IMS_appendLine (Some ("}" ++ nl))).

Definition elementsOfArray {A} (array : option (list A)) : list A := default [] array.

(* @src Bindings/Bindings OSX Framework/MPObjectiveCToCSharpTranslator.m 73 81 -[MPObjCToCSharpTranslator translatedEnumDeclarationsForTranslationUnit:] *)
Definition translatedEnumDeclarationsForTranslationUnit (u : MPObjCTranslationUnit) : string :=
  foldl (λ str d, str ++ translatedEnumDeclaration d) "" (elementsOfArray (tu_enumDeclarations u)).

Definition nullable (s : option string) : string := default "(null)" s.

(* @src Bindings/Bindings OSX Framework/MPObjectiveCToCSharpTranslator.m 122 128 -[MPObjCToCSharpTranslator translatedConstantDeclarationForConstantDeclaration:libraryName:] *)
Definition translatedConstantDeclaration (libraryName : option string) (c : MPObjCConstantDeclaration) : string :=
  let quote := String (ascii_of_nat 34) "" in
  stringWritten
    (_ ← IMS_appendLine (Some ("[Field (" ++ quote ++ cd_name c ++ quote ++ ", " ++ quote
                               ++ default "__Internal" libraryName ++ quote ++ ")]"));
     IMS_appendLine (Some (nullable (cd_type c) ++ " " ++ cd_name c ++ " { get; }"))).

(* @src Bindings/Bindings OSX Framework/MPObjectiveCToCSharpTranslator.m 111 120 -[MPObjCToCSharpTranslator translatedConstantDeclarationsForTranslationUnit:libraryName:] *)
Definition translatedConstantDeclarationsForTranslationUnit (u : MPObjCTranslationUnit) (libraryName : option string) : string :=
  stringWritten (for_each (elementsOfArray (tu_constantDeclarations u))
             (λ c, IMS_appendLine (Some (translatedConstantDeclaration libraryName c)))).

(* @src Bindings/Bindings OSX Framework/MPObjectiveCToCSharpTranslator.m 138 140 -[MPObjCToCSharpTranslator translatedClassDeclarationsForTranslationUnit:] *)
Definition translatedClassDeclarationsForTranslationUnit (u : MPObjCTranslationUnit) : option string := None.

(* @src Bindings/Bindings OSX Framework/MPObjectiveCToCSharpTranslator.m 180 191 -[MPObjCToCSharpTranslator translatedPropertyDeclaration:] *)
Definition translatedPropertyDeclaration (p : MPObjCPropertyDeclaration) : string :=
  pd_type p ++ " " ++ pd_name p ++ " { " ++ (if pd_isReadWrite p then "get; set;" else "get;").

(* @src Bindings/Bindings OSX Framework/MPObjectiveCToCSharpTranslator.m 170 178 -[MPObjCToCSharpTranslator translatedPropertyDeclarationsForClass:] *)
Definition translatedPropertyDeclarationsForClass (c : MPObjCClassDeclaration) : string :=
  stringWritten (for_each (cl_propertyDeclarations c) (λ p, IMS_appendLine (Some (translatedPropertyDeclaration p)))).

Fixpoint joinedBy (separator : string) (l : list string) : string :=
  match l with [] => "" | [x] => x | x :: l => x ++ separator ++ joinedBy separator l end.

(* @src Bindings/Bindings OSX Framework/MPObjectiveCToCSharpTranslator.m 203 217 -[MPObjCToCSharpTranslator translatedClassMethodDeclarationForClassMethodDeclaration:] *)
Definition translatedClassMethodDeclaration (m : MPObjCMethodDeclaration) : string :=
  let quote := String (ascii_of_nat 34) "" in
  let paramString := joinedBy ", " ((λ p, mp_type p ++ " " ++ mp_name p) <$> mdc_parameters m) in
  let methodName := joinedBy "" (mp_name <$> mdc_parameters m) in
  stringWritten
    (_ ← IMS_appendLine (Some ("[Export (" ++ quote ++ mdc_selector m ++ quote ++ ")"));
     IMS_appendLine (Some (mdc_returnType m ++ " " ++ methodName ++ "(" ++ paramString ++ ");"))).

(* @src Bindings/Bindings OSX Framework/MPObjectiveCToCSharpTranslator.m 193 201 -[MPObjCToCSharpTranslator translatedClassMethodDeclarationsForClass:] *)
Definition translatedClassMethodDeclarationsForClass (c : MPObjCClassDeclaration) : string :=
  stringWritten (for_each (cl_classMethodDeclarations c) (λ m, IMS_appendString (translatedClassMethodDeclaration m))).

(** The name of a subclass of [NSObject] is not written: the format is written as it is. *)
(* @src Bindings/Bindings OSX Framework/MPObjectiveCToCSharpTranslator.m 142 168 -[MPObjCToCSharpTranslator translatedClassDeclaration:] *)
Definition translatedClassDeclaration (d : MPObjCClassDeclaration) : string :=
  stringWritten
    (_ ← IMS_appendLine (Some "[BaseType (typeof (NSObject))");
     _ ← IMS_appendLine (Some (if String.eqb (cl_superClassName d) "NSObject" then "interface %@"
                               else "interface " ++ cl_name d ++ " : " ++ cl_superClassName d));
     _ ← IMS_appendLine (Some "{");
     _ ← IMS_appendLine (Some (translatedPropertyDeclarationsForClass d));
     _ ← IMS_appendLine (Some "");
     _ ← IMS_appendLine (Some (translatedClassMethodDeclarationsForClass d));
     _ ← IMS_appendLine (Some "");
     IMS_appendLine (Some "}")).

(** [-lastPathComponent] *)
Definition lastPathComponent (path : option string) : string :=
  match path with
  | None => "(null)"
  | Some p => match last (List.filter (λ c, negb (String.eqb c "")) (componentsSeparatedBy "/" p)) with
              | Some c => c
              | None => if String.eqb p "" then "" else "/"
              end
  end.

(* @src Bindings/Bindings OSX Framework/MPObjectiveCToCSharpTranslator.m 44 71 -[MPObjCToCSharpTranslator translationForUnit:] *)
Definition translationForUnit (u : MPObjCTranslationUnit) : string :=
  let announce what := IMS_appendLine (Some (nl ++ "// " ++ what ++ " declarations for " ++ lastPathComponent (tu_path u) ++ nl ++ nl)) in
  stringWritten
    (_ ← (match elementsOfArray (tu_enumDeclarations u) with
          | [] => mret tt
          | _ => _ ← announce "Enum";
                 _ ← IMS_appendLine (Some (translatedEnumDeclarationsForTranslationUnit u));
                 IMS_appendLine (Some nl)
          end);
     _ ← (match elementsOfArray (tu_constantDeclarations u) with
          | [] => mret tt
          | _ => IMS_indent (_ ← announce "Constant";
                             _ ← IMS_appendLine (Some (translatedConstantDeclarationsForTranslationUnit u None));
                             IMS_appendLine (Some nl))
          end);
     match elementsOfArray (tu_classDeclarations u) with
     | [] => mret tt
     | _ => IMS_indent (_ ← announce "Class";
                        _ ← IMS_appendLine (translatedClassDeclarationsForTranslationUnit u);
                        IMS_appendLine (Some nl))
     end).
End translator.

(** ** What is written *)
Section theory.
Local Open Scope string_scope.

(** The lines of [s], each with [indent] before it *)
Fixpoint indentedLines (indent : string) (lines : list string) : string :=
  match lines with
  | [] => ""
  | [line] => indent ++ line
  | line :: lines => indent ++ line ++ nl ++ indentedLines indent lines
  end.

Definition withString (text : string) (s : MPIndentedMutableString) : MPIndentedMutableString :=
  {| ims_mutableString := text; ims_indentationLevel := ims_indentationLevel s;
     ims_indentationSpaceCount := ims_indentationSpaceCount s |}.
Definition indentation (s : MPIndentedMutableString) : string :=
  spaces (ims_indentationLevel s * ims_indentationSpaceCount s).

Lemma run_appendComponents l s :
  appendComponents l s = (Ok tt, withString (ims_mutableString s ++ indentedLines (indentation s) l) s).
Proof.
  revert s. induction l as [|line l IH]; intros s; cbn [appendComponents indentedLines].
  { rewrite run_ret, string_app_nil_r. by destruct s. }
  rewrite run_bind, run_gets, run_bind. unfold IMS_appendString at 1. rewrite run_modify, run_bind. cbn [id].
  destruct l as [|line' l].
  - rewrite run_ret. cbn [appendComponents]. by rewrite run_ret.
  - unfold IMS_appendString. rewrite run_modify. rewrite IH. unfold withString, indentation, indentationStringForLevel.
    cbn [ims_mutableString ims_indentationLevel ims_indentationSpaceCount]. by rewrite !string_app_assoc.
Qed.

(** Each line of what is appended gets the indentation of the level, and nothing else changes. *)
Lemma run_appendLine x s :
  IMS_appendLine (Some x) s
  = (Ok tt, withString (ims_mutableString s ++ indentedLines (indentation s) (componentsSeparatedBy newline x)) s).
Proof. apply run_appendComponents. Qed.

Lemma spaces_app m n : spaces (m + n) = spaces m ++ spaces n.
Proof. induction m as [|m IH]; [done|]. exact (f_equal (String " ") IH). Qed.

(** *** Enumerations *)
Definition constantText (c : MPObjCEnumConstant) : string :=
  match ec_value c with Some v => ec_name c ++ " = " ++ pretty v | None => ec_name c end.

Fixpoint constantLines (constants : list MPObjCEnumConstant) : string :=
  match constants with
  | [] => ""
  | [c] => spaces 8 ++ constantText c ++ nl
  | c :: constants => spaces 8 ++ constantText c ++ "," ++ nl ++ constantLines constants
  end.

Definition oneLine (s : string) : Prop := hasChar newline s = false.

Lemma hasChar_app c a b : hasChar c (a ++ b) = hasChar c a || hasChar c b.
Proof. induction a as [|x a IH]; [done|]. change (String x a ++ b) with (String x (a ++ b)). cbn. by rewrite IH, orb_assoc. Qed.

Lemma run_translatedConstants constants s :
  ims_indentationLevel s = 1%nat → ims_indentationSpaceCount s = 4%nat →
  Forall (λ c, oneLine (constantText c)) constants →
  translatedConstants constants s = (Ok tt, withString (ims_mutableString s ++ constantLines constants) s).
Proof.
  intros Hl Hn Hall. revert s Hl Hn. induction Hall as [|c constants Hc _ IH]; intros s Hl Hn; cbn [translatedConstants].
  { rewrite run_ret. cbn. rewrite string_app_nil_r. by destruct s. }
  rewrite run_bind. unfold IMS_indent, setLevel. rewrite run_bind, run_modify, run_bind, run_bind.
  fold (constantText c). rewrite run_appendLine, components_one by exact Hc. unfold IMS_appendString. rewrite run_modify, run_modify.
  unfold indentation, withString. cbn [ims_mutableString ims_indentationLevel ims_indentationSpaceCount Nat.pred indentedLines].
  rewrite IH by done. unfold withString. cbn [ims_mutableString ims_indentationLevel ims_indentationSpaceCount].
  rewrite Hl, Hn. do 2 f_equal. rewrite !string_app_assoc. f_equal.
  change (spaces (2 * 4)) with (spaces 8). destruct constants; cbn [constantLines]; [by rewrite string_app_nil_r|].
  by rewrite !string_app_assoc.
Qed.

(** The text of an enumeration *)
Lemma enum_text prefix d :
  oneLine (translatedPrefixedIdentifierString prefix (ed_name d)) → Forall (λ c, oneLine (constantText c)) (ed_enumConstants d) →
  translatedEnumDeclaration prefix d
  = "public enum " ++ translatedPrefixedIdentifierString prefix (ed_name d) ++ nl ++ "{" ++ nl
    ++ constantLines (ed_enumConstants d) ++ "}" ++ nl.
Proof.
  intros Hname Hall. unfold translatedEnumDeclaration, stringWritten. set (name := translatedPrefixedIdentifierString _ _) in *.
  rewrite run_bind, run_appendLine.
  assert (∀ a, oneLine a → componentsSeparatedBy newline (a ++ nl) = [a; ""]) as Hline by (intros a Ha; by apply components_cons).
  rewrite <- (string_app_assoc "public enum "), Hline by (unfold oneLine; by rewrite hasChar_app).
  rewrite run_bind, run_appendLine, (Hline "{") by done. rewrite run_bind. unfold IMS_indent, setLevel.
  rewrite run_bind, run_modify, run_bind, run_translatedConstants by done. rewrite run_modify, run_appendLine, (Hline "}") by done.
  cbn [snd withString ims_mutableString ims_indentationLevel ims_indentationSpaceCount indentedLines Nat.pred indentation IMS_init
       IMS_initWithIndentationSpaceCount spaces Nat.mul]. rewrite !string_app_nil_r. by rewrite !string_app_assoc.
Qed.
End theory.

(** *** Reading an enumeration back *)
Section reading.
Local Open Scope string_scope.

(** A reader of C# enumerations as far as the translator writes them: the constants are
    one to a line, with their values as text. *)
Definition words (s : string) : list string :=
  List.filter (λ w, negb (String.eqb w "")) (componentsSeparatedBy " " s).
Definition readConstant (line : string) : option (string * option string) :=
  match words (default "" (head (componentsSeparatedBy "," line))) with
  | [name] => Some (name, None)
  | [name; equals; value] => if String.eqb equals "=" then Some (name, Some value) else None
  | _ => None
  end.
Definition readEnum (text : string) : option (string * list (string * option string)) :=
  match componentsSeparatedBy newline text with
  | first :: brace :: rest =>
      match words first with
      | [_; _; name] =>
          constants ← mapM readConstant (take (length rest - 2) rest);
          if String.eqb brace "{" then Some (name, constants) else None
      | _ => None
      end
  | _ => None
  end.

(** A word has no character that separates. *)
Definition isWord (s : string) : Prop :=
  s ≠ "" ∧ hasChar newline s = false ∧ hasChar " " s = false ∧ hasChar "," s = false.
Definition isIdentifier (s : string) : bool :=
  negb (String.eqb s "") && forallb word_character (String.list_ascii_of_string s).

Lemma hasChar_forall c s P : forallb P (String.list_ascii_of_string s) = true → P c = false → hasChar c s = false.
Proof.
  intros Hs Hc. induction s as [|x s IH]; [done|]. cbn in *. apply andb_true_iff in Hs as [Hx Hs].
  rewrite IH by done. destruct (Ascii.eqb_spec x c) as [->|]; [congruence|done].
Qed.

Lemma identifier_isWord s : isIdentifier s = true → isWord s.
Proof.
  intros [Hn%negb_true_iff%String.eqb_neq Hall]%andb_true_iff. split; [done|].
  split_and!; by apply (hasChar_forall _ _ word_character).
Qed.

Lemma digit_word x : hasChar newline (String (pretty_N_char x) "") = false ∧
  hasChar " " (String (pretty_N_char x) "") = false ∧ hasChar "," (String (pretty_N_char x) "") = false.
Proof. unfold pretty_N_char. repeat case_match; done. Qed.

Lemma pretty_N_go_hasChar c x s :
  (∀ n, hasChar c (String (pretty_N_char n) "") = false) → hasChar c s = false → hasChar c (pretty_N_go x s) = false.
Proof.
  intros Hd. revert s. induction (N.lt_wf_0 x) as [x _ IH]; intros s Hs.
  destruct (decide (x = 0)%N) as [->|Hx]; [by rewrite pretty_N_go_0|].
  rewrite pretty_N_go_step by lia. apply IH; [by apply N.div_lt; lia|].
  specialize (Hd (x `mod` 10)%N). cbn in *. by rewrite orb_false_r in Hd; rewrite Hd.
Qed.

Lemma pretty_isWord (v : Z) : isWord (pretty v).
Proof.
  assert (∀ n : N, isWord (pretty n)) as HN.
  { intros n. split; [|split_and!].
    - intros E. destruct (decide (n = 0)%N) as [->|Hn]; [done|]. unfold pretty, pretty_N in E. rewrite decide_False in E by done.
      assert (∀ x s, s ≠ "" → pretty_N_go x s ≠ "") as Hgo.
      { intros x. induction (N.lt_wf_0 x) as [x _ IH]; intros s Hs.
        destruct (decide (x = 0)%N) as [->|Hx]; [by rewrite pretty_N_go_0|].
        rewrite pretty_N_go_step by lia. apply IH; [apply N.div_lt; lia|done]. }
      rewrite pretty_N_go_step in E by lia. by eapply (Hgo _ (String _ _)) in E.
    - unfold pretty, pretty_N. case_decide; [done|]. apply pretty_N_go_hasChar; [intros; apply digit_word|done].
    - unfold pretty, pretty_N. case_decide; [done|]. apply pretty_N_go_hasChar; [intros; apply digit_word|done].
    - unfold pretty, pretty_N. case_decide; [done|]. apply pretty_N_go_hasChar; [intros; apply digit_word|done]. }
  destruct v as [|p|p]; [by split|apply HN|]. destruct (HN (Npos p)) as (H1 & H2 & H3 & H4).
  unfold pretty, pretty_Z. split; [done|]. by split_and!; rewrite hasChar_app; apply orb_false_iff.
Qed.

Lemma words_spaces n s : words (spaces n ++ s) = words s.
Proof. induction n as [|n IH]; [done|]. change (spaces (S n) ++ s) with (String " " (spaces n ++ s)). exact IH. Qed.
Lemma words_one w : isWord w → words w = [w].
Proof.
  intros (Hn & _ & Hs & _). unfold words. rewrite components_one by done. cbn.
  by rewrite (proj2 (String.eqb_neq _ _) Hn).
Qed.
Lemma words_cons w s : isWord w → words (w ++ String " " s) = w :: words s.
Proof.
  intros (Hn & _ & Hs & _). unfold words. rewrite components_cons by done. cbn.
  by rewrite (proj2 (String.eqb_neq _ _) Hn).
Qed.

Definition wordsOf (c : MPObjCEnumConstant) : list string :=
  ec_name c :: match ec_value c with Some v => ["="; pretty v] | None => [] end.
Lemma words_constantText c : isWord (ec_name c) → words (constantText c) = wordsOf c.
Proof.
  intros Hw. unfold constantText, wordsOf. destruct (ec_value c) as [v|]; [|by apply words_one].
  change (" = " ++ pretty v) with (String " " ("=" ++ String " " (pretty v))).
  rewrite words_cons by done. rewrite words_cons by by split. by rewrite words_one by apply pretty_isWord.
Qed.

Lemma constantText_chars c x : (x = newline ∨ x = ","%char) → isWord (ec_name c) → hasChar x (constantText c) = false.
Proof.
  intros Hx (_ & Hn & _ & Hc). unfold constantText. destruct (ec_value c) as [v|]; [|by destruct Hx as [-> | ->]].
  destruct (pretty_isWord v) as (_ & Hvn & _ & Hvc). rewrite !hasChar_app. apply orb_false_iff.
  split; [by destruct Hx as [-> | ->]|]. apply orb_false_iff. by destruct Hx as [-> | ->].
Qed.

Definition comma (last : bool) : string := if last then "" else ",".
Definition lineOf (c : MPObjCEnumConstant) (last : bool) : string := spaces 8 ++ constantText c ++ comma last.

Lemma readConstant_lineOf c b : isWord (ec_name c) →
  readConstant (lineOf c b) = Some (ec_name c, pretty <$> ec_value c).
Proof.
  intros Hw. unfold readConstant, lineOf.
  assert (hasChar ","%char (spaces 8 ++ constantText c) = false) as Hc.
  { rewrite hasChar_app. apply orb_false_iff. split; [done|]. apply constantText_chars; [by right|done]. }
  assert (head (componentsSeparatedBy "," (spaces 8 ++ constantText c ++ comma b)) = Some (spaces 8 ++ constantText c)) as ->.
  { rewrite <- string_app_assoc. destruct b; cbn [comma].
    - by rewrite string_app_nil_r, components_one.
    - by rewrite components_cons. }
  cbn [default from_option id]. rewrite words_spaces, words_constantText by done. unfold wordsOf. by destruct (ec_value c).
Qed.

Fixpoint linesOf (constants : list MPObjCEnumConstant) : list string :=
  match constants with
  | [] => []
  | [c] => [lineOf c true]
  | c :: constants => lineOf c false :: linesOf constants
  end.

Lemma components_constantLines constants s :
  Forall (λ c, isWord (ec_name c)) constants →
  componentsSeparatedBy newline (constantLines constants ++ s) = (linesOf constants ++ componentsSeparatedBy newline s)%list.
Proof.
  induction 1 as [|c constants Hc _ IH]; [done|].
  assert (∀ b rest, componentsSeparatedBy newline (lineOf c b ++ nl ++ rest) = lineOf c b :: componentsSeparatedBy newline rest) as Hline.
  { intros b rest. apply components_cons. unfold lineOf. rewrite !hasChar_app. apply orb_false_iff. split; [done|].
    apply orb_false_iff. split; [apply constantText_chars; [by left|done]|by destruct b]. }
  destruct constants as [|c' constants].
  - cbn [constantLines linesOf app]. rewrite <- (Hline true). unfold lineOf, comma. by rewrite string_app_nil_r, !string_app_assoc.
  - change (constantLines (c :: c' :: constants)) with (spaces 8 ++ constantText c ++ "," ++ nl ++ constantLines (c' :: constants)).
    change (linesOf (c :: c' :: constants)) with (lineOf c false :: linesOf (c' :: constants)). cbn [app].
    rewrite <- IH, <- (Hline false). unfold lineOf, comma. by rewrite !string_app_assoc.
Qed.

Lemma readConstants constants : Forall (λ c, isWord (ec_name c)) constants →
  mapM readConstant (linesOf constants) = Some ((λ c, (ec_name c, pretty <$> ec_value c)) <$> constants).
Proof.
  induction 1 as [|c constants Hc _ IH]; [done|]. destruct constants as [|c' constants].
  - cbn. by rewrite readConstant_lineOf.
  - change (linesOf (c :: c' :: constants)) with (lineOf c false :: linesOf (c' :: constants)).
    cbn [mapM]. rewrite readConstant_lineOf by done. cbn [mbind option_bind]. rewrite IH. done.
Qed.
End reading.

(** The C# text of an enumeration can be read back: a reader that splits
    lines and words finds the name, without the prefix, and every constant in order, with
    the decimal text of its value if it has one - whatever the enumeration, as long as
    names are identifiers.  The text is a header, a brace, one line for every constant,
    with a comma after all but the last, and a brace. *)
Theorem enum_roundtrip prefix (d : MPObjCEnumDeclaration) :
  isIdentifier (translatedPrefixedIdentifierString prefix (ed_name d)) = true →
  forallb (λ c, isIdentifier (ec_name c)) (ed_enumConstants d) = true →
  readEnum (translatedEnumDeclaration prefix d)
  = Some (translatedPrefixedIdentifierString prefix (ed_name d),
          (λ c, (ec_name c, pretty <$> ec_value c)) <$> ed_enumConstants d).
Proof.
  intros Hname%identifier_isWord Hall. set (name := translatedPrefixedIdentifierString _ _) in *.
  assert (Forall (λ c, isWord (ec_name c)) (ed_enumConstants d)) as Hwords.
  { apply Forall_forall. intros c Hc. rewrite forallb_forall in Hall. by apply identifier_isWord, Hall, list_elem_of_In. }
  rewrite enum_text; fold name.
  2: { apply Hname. }
  2: { eapply Forall_impl; [exact Hwords|]. intros c Hc. by apply constantText_chars; [left|]. }
  unfold readEnum. rewrite <- (string_app_assoc "public enum ").
  assert (hasChar newline ("public enum " ++ name) = false) as Hh by (rewrite hasChar_app; apply orb_false_iff; split; [done|apply Hname]).
  change (nl ++ "{" ++ nl ++ ?x)%string with (String newline ("{" ++ String newline x)%string).
  rewrite components_cons by done. rewrite (components_cons newline "{") by done.
  rewrite components_constantLines by done. change ("}" ++ nl)%string with ("}" ++ String newline "")%string.
  rewrite (components_cons newline "}") by done. cbn [componentsSeparatedBy].
  assert (words ("public enum " ++ name) = ["public"; "enum"; name]%string) as ->.
  { change ("public enum " ++ name)%string with ("public" ++ String " " ("enum" ++ String " " name))%string.
    rewrite words_cons by by split. rewrite words_cons by by split. by rewrite words_one. }
  rewrite length_app. cbn [length]. rewrite Nat.add_sub, take_app_length, readConstants by done. done.
Qed.

(** ** Units *)
Inductive addition : Type :=
  | AddEnum (d : MPObjCEnumDeclaration)
  | AddConstant (d : MPObjCConstantDeclaration)
  | AddProtocol (d : MPObjCProtocolDeclaration)
  | AddClass (d : MPObjCClassDeclaration).
Definition add (u : MPObjCTranslationUnit) (a : addition) : MPObjCTranslationUnit :=
  match a with
  | AddEnum d => TU_addEnumDeclaration d u
  | AddConstant d => TU_addConstantDeclaration d u
  | AddProtocol d => TU_addProtocolDeclaration d u
  | AddClass d => TU_addClassDeclaration d u
  end.
Definition addedEnum (a : addition) : option MPObjCEnumDeclaration := match a with AddEnum d => Some d | _ => None end.

(** A unit keeps the enumerations it is given, and drops everything else: the arrays for
    it are never made.  So nothing but enumerations is translated. *)
Lemma unit_keeps_enums path l :
  foldl add (TU_initWithPath path) l
  = {| tu_path := path; tu_enumDeclarations := Some (omap addedEnum l); tu_constantDeclarations := None;
       tu_protocolDeclarations := None; tu_classDeclarations := None |}.
Proof.
  induction l as [|a l IH] using rev_ind; [done|]. rewrite foldl_app, IH, omap_app. cbn.
  destruct a; cbn; rewrite ?app_nil_r; done.
Qed.

Lemma unit_translates_enums prefix path l :
  translationForUnit prefix (foldl add (TU_initWithPath path) l)
  = translationForUnit prefix (foldl add (TU_initWithPath path) (AddEnum <$> omap addedEnum l)).
Proof.
  rewrite !unit_keeps_enums. do 3 f_equal.
  induction l as [|a l IH]; [done|]. destruct a; cbn; by rewrite <- ?IH.
Qed.

(** The search for a type does not end, whatever the table: an unknown name is an
    assertion that fails, and for a known one the loop goes on. *)
Lemma typeWithName_diverges fuel types name :
  typeWithName fuel types name =
  if bool_decide (is_Some (types !! name)) then Ok None else Throw (AssertionFailed "No type with name").
Proof.
  unfold typeWithName. destruct (bool_decide _); [|done]. cbn. f_equal.
  generalize (Some name). induction fuel as [|fuel IH]; intros t; [done|]. apply IH.
Qed.

(** ** Witnesses *)
Section witnesses.
Local Open Scope string_scope.

Definition colors : MPObjCEnumDeclaration :=
  {| ed_name := "MPColor"; ed_backingType := Some "NSInteger";
     ed_enumConstants := [{| ec_name := "MPColorRed"; ec_value := Some (-1)%Z |}; {| ec_name := "MPColorBlue"; ec_value := None |}] |}.

Example colors_text :
  translatedEnumDeclaration "MP" colors
  = "public enum Color" ++ nl ++ "{" ++ nl ++ "        MPColorRed = -1," ++ nl ++ "        MPColorBlue" ++ nl ++ "}" ++ nl.
Proof. vm_compute. reflexivity. Qed.

(** The name of a subclass of [NSObject] is lost, and the attribute is not closed. *)
Example class_text :
  translatedClassDeclaration {| cl_name := "MPTree"; cl_superClassName := "NSObject"; cl_propertyDeclarations := [];
    cl_classMethodDeclarations := []; cl_instanceMethodDeclarations := [] |} = "[BaseType (typeof (NSObject))interface %@{}".
Proof. vm_compute. reflexivity. Qed.

(** Declarations of properties follow each other without a line break, and their brace
    stays open. *)
Example properties_text :
  translatedPropertyDeclarationsForClass {| cl_name := "MPTree"; cl_superClassName := "NSObject";
    cl_propertyDeclarations := [{| pd_name := "title"; pd_type := "NSString"; pd_isReadWrite := true |};
                                {| pd_name := "count"; pd_type := "int"; pd_isReadWrite := false |}];
    cl_classMethodDeclarations := []; cl_instanceMethodDeclarations := [] |}
  = "NSString title { get; set;int count { get;".
Proof. vm_compute. reflexivity. Qed.

Lemma enum_roundtrip_witness :
  readEnum (translatedEnumDeclaration "MP" colors)
  = Some ("Color", [("MPColorRed", Some "-1"); ("MPColorBlue", None)]).
Proof.
  refine (eq_trans (enum_roundtrip "MP" colors _ _) _).
  - vm_compute. reflexivity.
  - vm_compute. reflexivity.
  - vm_compute. reflexivity.
Defined.
End witnesses.
