(* ===== verification/ContributorsCache.v ===== *)
(** * Contributors: the cached array, and who is me

    The rest of MPContributorsController.m and of MPContributor.m that keeps state: the
    sorted array of contributors that is refreshed when the main queue gets to the blocks
    notifications have left there, and the identity that says which contributor is the
    user. *)
From Stdlib Require Import Ascii.
From stdpp Require Import base tactics strings numbers list gmap sorting relations.
From S2P Require Import Prelude ObjC Contributors.

(** ** The cached contributors *)

(** What a handler dispatches to the main queue. *)
Inductive cacheBlock : Type :=
  | Refresh
  | Forget (c : oid).

#[local] Arguments removeObject : simpl never.

Section cache.
(** The state of the database, its contributors in the order of the query, and the
    order of [contributorComparator], which looks at properties *)
Context {D : Type} (allObjects : D → list oid) (before : D → relation oid).
Context (sortedArray : D → list oid → list oid).

(** [cc_pending]: notifications of changes that have been made but not posted yet,
    by the blocks they will lead to; [cc_queue]: the main queue. *)
Record ContributorsCache : Type := mkCache {
  cc_db : D;
  cc_cachedContributors : option (list oid);
  cc_queue : list cacheBlock;
  cc_pending : list cacheBlock
}.

(* @src Feather/Sources/Model Controllers/MPContributorsController.m 162 167 -[MPContributorsController refreshCachedContributors] *)
Definition refreshCachedContributors (d : D) : option (list oid) := Some (sortedArray d (allObjects d)).

(* @src Feather/Sources/Model Controllers/MPContributorsController.m 141 148 -[MPContributorsController allContributors] *)
Definition allContributors (st : ContributorsCache) : option (list oid) * ContributorsCache :=
  match cc_cachedContributors st with
  | Some l => (Some l, st)
  | None => let l := refreshCachedContributors (cc_db st) in
            (l, mkCache (cc_db st) l (cc_queue st) (cc_pending st))
  end.

(** The handlers, by the blocks they dispatch *)
(* @src Feather/Sources/Model Controllers/MPContributorsController.m 226 231 -[MPContributorsController hasAddedContributor:] *)
Definition hasAddedContributor : cacheBlock := Refresh.
(* @src Feather/Sources/Model Controllers/MPContributorsController.m 233 237 -[MPContributorsController hasUpdatedContributor:] *)
Definition hasUpdatedContributor : cacheBlock := Refresh.
(* @src Feather/Sources/Model Controllers/MPContributorsController.m 239 244 -[MPContributorsController hasRemovedContributor:] *)
Definition hasRemovedContributor (object : oid) : cacheBlock := Forget object.

Definition runBlock (d : D) (cached : option (list oid)) (b : cacheBlock) : option (list oid) :=
  match b with
  | Refresh => refreshCachedContributors d
  | Forget c => (λ l, removeObject l c) <$> cached
  end.

(** [c] is gone from the database, and nothing else has changed. *)
Record removed (c : oid) (d d' : D) : Prop := {
  rm_objects : allObjects d' ≡ₚ removeObject (allObjects d) c;
  rm_order : ∀ x y, before d' x y ↔ before d x y
}.

(** One step: contributors are added or updated, one is removed, the next notification is
    posted, the main queue runs its first block, somebody asks for the contributors. *)
Inductive cstep : relation ContributorsCache :=
  | contributor_added d' d cached q p :
      cstep (mkCache d cached q p) (mkCache d' cached q (p ++ [hasAddedContributor]))
  | contributor_updated d' d cached q p :
      cstep (mkCache d cached q p) (mkCache d' cached q (p ++ [hasUpdatedContributor]))
  | contributor_removed c d' d cached q p :
      removed c d d' → cstep (mkCache d cached q p) (mkCache d' cached q (p ++ [hasRemovedContributor c]))
  | notification_posted b d cached q p :
      cstep (mkCache d cached q (b :: p)) (mkCache d cached (q ++ [b]) p)
  | queue_runs b d cached q p :
      cstep (mkCache d cached (b :: q) p) (mkCache d (runBlock d cached b) q p)
  | contributors_asked st : cstep st (allContributors st).2.

(** ** The cache catches up *)
Context (Hperm : ∀ d l, sortedArray d l ≡ₚ l) (Hsorted : ∀ d l, StronglySorted (before d) (sortedArray d l)).
Context (Hanti : ∀ d x y, before d x y → before d y x → x = y).

Lemma sorted_unique d l k : StronglySorted (before d) l → l ≡ₚ k → l = sortedArray d k.
Proof.
  intros Hl Hlk. apply (StronglySorted_unique_strong (before d)); [|done|apply Hsorted|by rewrite Hperm].
  intros x y _ _. apply Hanti.
Qed.

Lemma StronglySorted_filter (R : relation oid) (P : oid → bool) l :
  StronglySorted R l → StronglySorted R (List.filter P l).
Proof.
  induction 1 as [|x l _ IH Hx]; cbn; [constructor|]. destruct (P x); [|done]. constructor; [done|].
  rewrite Forall_forall in *. intros y [Hy _]%filter_bool_elem. auto.
Qed.

Lemma removeObject_perm l k c : l ≡ₚ k → removeObject l c ≡ₚ removeObject k c.
Proof.
  unfold removeObject. induction 1 as [|x l k _ IH|x y l|l k m _ IH1 _ IH2]; cbn; [done|..|by etransitivity].
  - destruct (negb _); by rewrite IH.
  - do 2 destruct (negb _); by try apply perm_swap.
Qed.

(** Removing from the sorted contributors sorts what is left. *)
Lemma sorted_removed c d d' : removed c d d' →
  sortedArray d' (allObjects d') = removeObject (sortedArray d (allObjects d)) c.
Proof.
  intros [Hobj Hord]. symmetry. apply sorted_unique.
  - apply StronglySorted_filter. specialize (Hsorted d (allObjects d)). revert Hsorted.
    generalize (sortedArray d (allObjects d)). intros l. induction 1 as [|x l _ IH Hx]; constructor; [done|].
    eapply Forall_impl; [exact Hx|]. intros y. apply Hord.
  - rewrite Hobj. apply removeObject_perm, Hperm.
Qed.

Definition runBlocks (d : D) (cached : option (list oid)) (bs : list cacheBlock) : option (list oid) :=
  foldl (runBlock d) cached bs.
#[local] Arguments runBlocks : simpl never.

Lemma removeObject_idem l c : removeObject (removeObject l c) c = removeObject l c.
Proof. apply removeObject_absent. by intros [_ ?]%removeObject_elem. Qed.
Lemma removeObject_comm l a b : removeObject (removeObject l a) b = removeObject (removeObject l b) a.
Proof. unfold removeObject. rewrite !filter_bool_filter. apply filter_ext. intros x. apply andb_comm. Qed.

Lemma runBlocks_snoc d cached bs b : runBlocks d cached (bs ++ [b]) = runBlock d (runBlocks d cached bs) b.
Proof. unfold runBlocks. by rewrite foldl_app. Qed.

(** After a removal the blocks lead to what they led to before, or to that without the
    removed contributor. *)
Lemma runBlocks_removed c d d' cached bs : removed c d d' →
  runBlocks d' cached bs = runBlocks d cached bs ∨
  runBlocks d' cached bs = (λ l, removeObject l c) <$> runBlocks d cached bs.
Proof.
  intros Hr. induction bs as [|b bs IH] using rev_ind; [by left|]. rewrite !runBlocks_snoc. destruct b as [|x]; cbn.
  - right. unfold refreshCachedContributors. cbn. by rewrite (sorted_removed _ _ _ Hr).
  - destruct IH as [-> | ->]; [by left|right]. destruct (runBlocks d cached bs) as [l|]; [|done]. cbn. by rewrite removeObject_comm.
Qed.

(** A contributor that is still to be forgotten, by a block no refresh comes after, is not
    in the database. *)
Definition gone (d : D) (bs : list cacheBlock) : Prop :=
  ∀ pre c post, bs = pre ++ Forget c :: post → Refresh ∉ post → c ∉ allObjects d.

Lemma gone_suffix d bs bs' : gone d (bs ++ bs') → gone d bs'.
Proof. intros Hg pre c post -> Hpost. apply (Hg (bs ++ pre) c post); [by rewrite <- app_assoc|done]. Qed.

Lemma gone_prefix_refreshed d bs : gone d (bs ++ [Refresh]).
Proof.
  intros pre c post E Hpost. exfalso. destruct post as [|b post _] using rev_ind.
  - apply app_inj_tail in E as [_ ?]. done.
  - change (pre ++ Forget c :: (post ++ [b])) with (pre ++ (Forget c :: post) ++ [b]) in E. rewrite app_assoc in E.
    apply app_inj_tail in E as [_ <-]. apply Hpost, elem_of_app. right. by left.
Qed.

Lemma gone_snoc_forget d bs c : gone d (bs ++ [Forget c]) → gone d bs ∧ c ∉ allObjects d.
Proof.
  intros Hg. split; [|apply (Hg bs c []); [done|apply not_elem_of_nil]].
  intros pre x post -> Hpost. apply (Hg pre x (post ++ [Forget c])); [by rewrite <- app_assoc|].
  rewrite elem_of_app. by intros [?|?%list_elem_of_singleton].
Qed.

(** What is sorted already stays so. *)
Lemma runBlocks_sorted d bs : gone d bs →
  runBlocks d (refreshCachedContributors d) bs = refreshCachedContributors d.
Proof.
  induction bs as [|b bs IH] using rev_ind; intros Hg; [done|]. rewrite runBlocks_snoc. destruct b as [|c]; [done|].
  apply gone_snoc_forget in Hg as [Hg Hc]. rewrite IH by done. unfold refreshCachedContributors. cbn. f_equal.
  apply removeObject_absent. by rewrite Hperm.
Qed.

Definition blocks (st : ContributorsCache) : list cacheBlock := cc_queue st ++ cc_pending st.

(** What the blocks lead to is what the database has, unless there is no array. *)
Record caught_up (st : ContributorsCache) : Prop := {
  cu_gone : gone (cc_db st) (blocks st);
  cu_runBlocks : runBlocks (cc_db st) (cc_cachedContributors st) (blocks st) = refreshCachedContributors (cc_db st) ∨
             cc_cachedContributors st = None ∧ Refresh ∉ blocks st
}.

Lemma runBlocks_nil d bs : Refresh ∉ bs → runBlocks d None bs = None.
Proof.
  induction bs as [|b bs IH]; [done|]. intros [Hb Hbs]%not_elem_of_cons. destruct b; [done|]. by apply IH.
Qed.

Lemma cstep_caught_up st st' : cstep st st' → caught_up st → caught_up st'.
Proof.
  destruct 1 as [d' d cached q p|d' d cached q p|c d' d cached q p Hr|b d cached q p|b d cached q p|st];
    intros [Hg Hd]; unfold blocks in *; cbn in *.
  1,2: split; cbn; unfold blocks; cbn; rewrite app_assoc; [apply gone_prefix_refreshed|left; by rewrite runBlocks_snoc].
  - split; unfold blocks; cbn; rewrite app_assoc.
    + intros pre x post E Hpost. rewrite (rm_objects _ _ _ Hr), removeObject_elem.
      destruct post as [|b post _] using rev_ind.
      * apply app_inj_tail in E as [_ [= <-]]. tauto.
      * change (pre ++ Forget x :: (post ++ [b])) with (pre ++ (Forget x :: post) ++ [b]) in E. rewrite app_assoc in E.
        apply app_inj_tail in E as [E _]. rewrite elem_of_app in Hpost. intros [Hx _]. apply (Hg pre x post); auto.
    + destruct Hd as [Hd|[-> Hno]].
      * left. rewrite runBlocks_snoc. cbn. destruct (runBlocks_removed c d d' cached (q ++ p) Hr) as [-> | ->]; rewrite Hd;
          unfold refreshCachedContributors; cbn; by rewrite ?removeObject_idem, (sorted_removed _ _ _ Hr).
      * right. split; [done|]. rewrite elem_of_app. by intros [?|?%list_elem_of_singleton].
  - split; unfold blocks; cbn; by rewrite <- app_assoc.
  - change ((b :: q) ++ p) with ([b] ++ (q ++ p)) in Hg, Hd. split; unfold blocks; cbn; [exact (gone_suffix _ [b] _ Hg)|].
    destruct Hd as [Hd|[-> Hno]]; [by left|]. apply not_elem_of_cons in Hno as [Hb Hno]. destruct b; [done|]. by right.
  - unfold allContributors. destruct (cc_cachedContributors st) as [l|] eqn:E; cbn [snd]; [split; [exact Hg|unfold blocks; rewrite E; exact Hd]|].
    split; unfold blocks; cbn; [done|]. left. by apply runBlocks_sorted.
Qed.
End cache.

(** C25 (invariant). The contributors of the cache catch up with the database: in every run
    of additions, updates, removals, notifications, turns of the main queue and questions
    - in any order, the database changing again before it is heard of -, once all
    notifications have been posted and the main queue is empty the cached array is the
    contributors of the database, sorted by the comparator, or there is none yet; and
    running what waits, as it is, leads there. *)
Theorem cached_contributors_catch_up {D} (allObjects : D → list oid) (before : D → relation oid)
    (sortedArray : D → list oid → list oid) d0 st :
  (∀ d l, sortedArray d l ≡ₚ l) → (∀ d l, StronglySorted (before d) (sortedArray d l)) →
  (∀ d x y, before d x y → before d y x → x = y) →
  rtc (cstep allObjects before sortedArray) (mkCache d0 None [] []) st →
  let cached := runBlocks allObjects sortedArray (cc_db st) (cc_cachedContributors st) (cc_queue st ++ cc_pending st) in
  (cached = None ∨ cached = Some (sortedArray (cc_db st) (allObjects (cc_db st)))) ∧
  (cc_queue st = [] → cc_pending st = [] → cc_cachedContributors st = cached).
Proof.
  intros Hperm Hsorted Hanti Hrun.
  assert (caught_up allObjects sortedArray st) as [_ Hd].
  { revert Hrun. apply (rtc_ind_r (λ st, caught_up allObjects sortedArray st)).
    - split; cbn; [|by right; split; [|apply not_elem_of_nil]]. intros pre c post E. by destruct pre.
    - intros s1 s2 _ Hs. by eapply cstep_caught_up. }
  split; [|by intros -> ->]. destruct Hd as [Hd|[Hn Hno]]; [right; exact Hd|left]. rewrite Hn. by apply runBlocks_nil.
Qed.

(** Three contributors, sorted by number; the second is removed before it is heard that
    the third was added, and the queue is drained then. *)
Definition byNumber (_ : list oid) : relation oid := λ x y, (x ≤ y)%positive.
Definition sortedByNumber (_ : list oid) (l : list oid) : list oid := merge_sort Pos.le l.
Definition threeContributors (db cached : list oid) (q p : list cacheBlock) : ContributorsCache :=
  mkCache db (Some cached) q p.

Lemma threeContributors_run :
  rtc (cstep id byNumber sortedByNumber) (mkCache [5; 3]%positive None [] []) (threeContributors [7; 3]%positive [3; 7]%positive [] []).
Proof.
  set (two := [7; 3]%positive : list oid). set (three := [7; 5; 3]%positive : list oid). set (old := [3; 5]%positive : list oid).
  apply (rtc_l _ _ (threeContributors [5; 3]%positive old [] [])).
  { exact (contributors_asked id byNumber sortedByNumber (mkCache [5; 3]%positive None [] [])). }
  apply (rtc_l _ _ (threeContributors three old [] [Refresh])).
  { exact (contributor_added id byNumber sortedByNumber three [5; 3]%positive (Some old) [] []). }
  apply (rtc_l _ _ (threeContributors two old [] [Refresh; Forget 5%positive])).
  { apply (contributor_removed id byNumber sortedByNumber 5%positive two three (Some old) [] [Refresh]). by split. }
  apply (rtc_l _ _ (threeContributors two old [Refresh] [Forget 5%positive])).
  { exact (notification_posted id byNumber sortedByNumber Refresh two (Some old) [] [Forget 5%positive]). }
  apply (rtc_l _ _ (threeContributors two old [Refresh; Forget 5%positive] [])).
  { exact (notification_posted id byNumber sortedByNumber (Forget 5%positive) two (Some old) [Refresh] []). }
  apply (rtc_l _ _ (threeContributors two [3; 7]%positive [Forget 5%positive] [])).
  { exact (queue_runs id byNumber sortedByNumber Refresh two (Some old) [Forget 5%positive] []). }
  apply rtc_once. exact (queue_runs id byNumber sortedByNumber (Forget 5%positive) two (Some [3; 7]%positive) [] []).
Qed.

Lemma cached_contributors_catch_up_witness :
  let cached := runBlocks id sortedByNumber [7; 3]%positive (Some [3; 7]%positive) [] in
  (cached = None ∨ cached = Some [3; 7]%positive) ∧ (@nil cacheBlock = [] → @nil cacheBlock = [] → Some [3; 7]%positive = cached).
Proof.
  apply (cached_contributors_catch_up id byNumber sortedByNumber [5; 3]%positive
           (threeContributors [7; 3]%positive [3; 7]%positive [] [])).
  - intros d l. apply merge_sort_Permutation.
  - intros d l. apply (StronglySorted_merge_sort Pos.le).
  - intros d x y H1 H2. by apply Pos.le_antisym.
  - exact threeContributors_run.
Defined.

(** ** Who is me *)

Record MPContributorIdentity : Type := mkIdentity {
  ci_id : oid;
  ci_contributor : option oid;
  ci_identifier : option string;
  ci_namespace : option string
}.

(** The identities of the package in the order of the views, the contributor the
    controller has for me, and the next new identity. *)
Record Identities : Type := mkIdentities {
  id_all : list MPContributorIdentity;
  id_me : option oid;
  id_next : oid
}.

Section me.
(** [MPShoeboxPackageController.sharedShoeboxController.identifier]; [-deleteDocument]
    of an identity succeeds or not. *)
Context (identifier : option string) (deletes : oid → bool).
Notation M := (M Identities).

(* @src Feather/Sources/Model Controllers/MPContributorsController.m 290 292 -[MPContributorIdentitiesController contributorIdentitiesForContributor:] *)
Definition contributorIdentitiesForContributor (contributor : oid) (t : Identities) : list MPContributorIdentity :=
  List.filter (λ i, bool_decide (ci_contributor i = Some contributor)) (id_all t).

(* @src Feather/Sources/Model Controllers/MPContributorsController.m 294 296 -[MPContributorIdentitiesController contributorIdentitiesWithIdentifier:] *)
Definition contributorIdentitiesWithIdentifier (i : string) (t : Identities) : list MPContributorIdentity :=
  List.filter (λ c, bool_decide (ci_identifier c = Some i)) (id_all t).

(** An identity without a contributor gives none. *)
(* @src Feather/Sources/Model Controllers/MPContributorsController.m 298 305 -[MPContributorIdentitiesController contributorsWithContributorIdentifier:] *)
Definition contributorsWithContributorIdentifier (i : string) (t : Identities) : list oid :=
  omap ci_contributor (contributorIdentitiesWithIdentifier i t).

(* @src Feather/Sources/Model/MPContributor.m 38 40 -[MPContributor identities] *)
Definition MPContributor_identities (self : oid) (t : Identities) : list MPContributorIdentity :=
  contributorIdentitiesForContributor self t.

(* @src Feather/Sources/Model/MPContributor.m 50 53 -[MPContributor isMe] *)
Definition MPContributor_isMe (self : oid) (t : Identities) : bool :=
  match identifier with
  | None => false
  | Some i => existsb (λ c, bool_decide (ci_identifier c = Some i)) (MPContributor_identities self t)
  end.

Definition deleteIdentity (c : MPContributorIdentity) : M unit := modify (λ t,
  if deletes (ci_id c)
  then mkIdentities (List.filter (λ x, negb (bool_decide (ci_id x = ci_id c))) (id_all t)) (id_me t) (id_next t)
  else t).

Definition matchingIdentity (self : oid) (i : string) (t : Identities) : option MPContributorIdentity :=
  head (List.filter (λ c, bool_decide (ci_identifier c = Some i)) (MPContributor_identities self t)).

(** [c.isMe = NO] *)
Definition unclaim (i : string) (self : oid) : M unit :=
  identity ← gets (matchingIdentity self i);
  match identity with Some c => deleteIdentity c | None => mret tt end.

(* @src Feather/Sources/Model/MPContributor.m 55 88 -[MPContributor setIsMe:] *)
Definition MPContributor_setIsMe (self : oid) (isMe : bool) : M unit :=
  match identifier with
  | None => throw (AssertionFailed "identifier")
  | Some i =>
      identity ← gets (matchingIdentity self i);
      if isMe then
        match identity with
        | Some _ => mret tt
        | None =>
            existing ← gets (contributorsWithContributorIdentifier i);
            _ ← for_each existing (unclaim i);
            modify (λ t, mkIdentities
              (id_all t ++ [mkIdentity (id_next t) (Some self) (Some i) (Some "com.manuscriptsapp.shared.package.identity"%string)])
              (Some self) (Pos.succ (id_next t)))
        end
      else unclaim i self
  end.

(** The loop over all contributors; two of them are an assertion that fails. *)
Fixpoint existingMe_from (me : option oid) (contributors : list oid) (t : Identities) : res (option oid) :=
  match contributors with
  | [] => Ok me
  | c :: contributors =>
      if MPContributor_isMe c t then
        _ ← assert_ (bool_decide (me = None)) "At least two 'me' contributors exist";
        existingMe_from (Some c) contributors t
      else existingMe_from me contributors t
  end.
(* @src Feather/Sources/Model Controllers/MPContributorsController.m 62 72 -[MPContributorsController existingMe] *)
Definition existingMe (allObjects : list oid) (t : Identities) : res (option oid) := existingMe_from None allObjects t.

(** Identities are different objects, and new ones are new. *)
Record identities_wf (t : Identities) : Prop := {
  iw_distinct : NoDup (ci_id <$> id_all t);
  iw_next : Forall (λ c, (ci_id c < id_next t)%positive) (id_all t)
}.
End me.

Section me_theory.
Context (i : string).
Notation always := (λ _ : oid, true).
Implicit Types t : Identities.

Definition claims (c : MPContributorIdentity) : bool := bool_decide (ci_identifier c = Some i).
Definition claimsFor (o : oid) (c : MPContributorIdentity) : bool := bool_decide (ci_contributor c = Some o) && claims c.
(** The contributors that claim to be me, one for every identity *)
Definition claimants (l : list MPContributorIdentity) : list oid := omap ci_contributor (List.filter claims l).

Lemma isMe_claimants o t : MPContributor_isMe (Some i) o t = true ↔ o ∈ claimants (id_all t).
Proof.
  unfold MPContributor_isMe, MPContributor_identities, contributorIdentitiesForContributor, claimants.
  rewrite existsb_exists, list_elem_of_omap. split.
  - intros (c & Hc & Hi). apply list_elem_of_In, filter_bool_elem in Hc as [Hc Ho%bool_decide_eq_true].
    exists c. split; [|done]. by apply filter_bool_elem.
  - intros (c & [Hc Hi]%filter_bool_elem & Ho). exists c. split; [|exact Hi].
    apply list_elem_of_In, filter_bool_elem. split; [done|by apply bool_decide_eq_true].
Qed.

Lemma matching_head o t : matchingIdentity o i t = head (List.filter (claimsFor o) (id_all t)).
Proof.
  unfold matchingIdentity, MPContributor_identities, contributorIdentitiesForContributor. by rewrite filter_bool_filter.
Qed.

(** Deleting one identity removes one claimant. *)
Lemma removed_identity c l1 l2 : NoDup (ci_id <$> l1 ++ c :: l2) →
  List.filter (λ x, negb (bool_decide (ci_id x = ci_id c))) (l1 ++ c :: l2) = l1 ++ l2.
Proof.
  intros Hnd. rewrite fmap_app in Hnd. cbn in Hnd. apply NoDup_app in Hnd as (_ & H1 & [H2 _]%NoDup_cons).
  rewrite List.filter_app. cbn. rewrite bool_decide_eq_true_2 by done. cbn. f_equal; apply filter_bool_id; intros x Hx.
  - apply negb_true_iff, bool_decide_eq_false. intros E. apply (H1 (ci_id c)); [|by left]. rewrite <- E. by apply list_elem_of_fmap_2.
  - apply negb_true_iff, bool_decide_eq_false. intros E. apply H2. rewrite <- E. by apply list_elem_of_fmap_2.
Qed.

Lemma run_unclaim o t : identities_wf t →
  ∃ t', unclaim always i o t = (Ok tt, t') ∧ identities_wf t' ∧ id_me t' = id_me t ∧ id_next t' = id_next t ∧
    List.filter (λ c, negb (claims c)) (id_all t') = List.filter (λ c, negb (claims c)) (id_all t) ∧
    ((∀ c, c ∈ id_all t → claimsFor o c = false) ∧ t' = t ∨
     ∃ pre post, claimants (id_all t) = pre ++ o :: post ∧ o ∉ pre ∧ claimants (id_all t') = pre ++ post).
Proof.
  intros [Hd Hn]. unfold unclaim. rewrite run_bind, run_gets, matching_head.
  destruct (head (List.filter (claimsFor o) (id_all t))) as [c|] eqn:Eh.
  2: { exists t. split_and!; try done. left. split; [|done]. intros c Hc.
       destruct (claimsFor o c) eqn:E; [|done]. apply head_None in Eh.
       assert (c ∈ List.filter (claimsFor o) (id_all t)) as Hin by by apply filter_bool_elem. rewrite Eh in Hin. by apply elem_of_nil in Hin. }
  assert (∃ l1 l2, id_all t = l1 ++ c :: l2 ∧ claimsFor o c = true ∧ ∀ x, x ∈ l1 → claimsFor o x = false) as (l1 & l2 & El & Hc & Hl1).
  { clear Hd Hn. induction (id_all t) as [|x l IH]; [done|]. cbn in Eh. destruct (claimsFor o x) eqn:Ex.
    - injection Eh as ->. exists [], l. split_and!; [done..|]. intros ? []%elem_of_nil.
    - destruct (IH Eh) as (l1 & l2 & -> & Hc & Hl1). exists (x :: l1), l2. split_and!; [done..|].
      intros y [->|Hy]%elem_of_cons; auto. }
  unfold deleteIdentity. rewrite run_modify. eexists. split; [done|]. rewrite El in Hd, Hn |- *. cbn [id_all id_me id_next].
  rewrite removed_identity by done. pose proof Hc as [Ho%bool_decide_eq_true Hi]%andb_true_iff.
  split_and!; [|done|done|..].
  - split; cbn; rewrite fmap_app in *; [|by rewrite Forall_app, Forall_cons in Hn; rewrite Forall_app; tauto].
    cbn in Hd. apply NoDup_app in Hd as (H1 & H2 & [_ H3]%NoDup_cons). apply NoDup_app. split_and!; [done| |done].
    intros x Hx Hx'. apply (H2 x Hx). by right.
  - rewrite !List.filter_app. cbn. by rewrite Hi.
  - right. unfold claimants. rewrite !List.filter_app. cbn. rewrite Hi, !omap_app. cbn. rewrite Ho.
    exists (omap ci_contributor (List.filter claims l1)), (omap ci_contributor (List.filter claims l2)). split_and!; [done| |done].
    intros (x & [Hx Hxi]%filter_bool_elem & Hxo)%list_elem_of_omap. specialize (Hl1 x Hx). unfold claimsFor in Hl1.
    rewrite Hxi, bool_decide_eq_true_2 in Hl1 by done. done.
Qed.

(** Unclaiming every claimant, each as often as it claims, leaves none. *)
Lemma run_unclaims l t : identities_wf t → l ≡ₚ claimants (id_all t) →
  ∃ t', for_each l (unclaim always i) t = (Ok tt, t') ∧ identities_wf t' ∧ id_me t' = id_me t ∧ id_next t' = id_next t ∧
    List.filter (λ c, negb (claims c)) (id_all t') = List.filter (λ c, negb (claims c)) (id_all t) ∧
    claimants (id_all t') = [].
Proof.
  revert t. induction l as [|o l IH]; intros t Hwf Hl.
  { exists t. split_and!; try done. by apply Permutation_nil in Hl. }
  cbn [for_each]. destruct (run_unclaim o t Hwf) as (t1 & Hrun & Hwf1 & Hme & Hnext & Hrest & Hcase).
  rewrite run_bind, Hrun. destruct Hcase as [[Hno ->]|(pre & post & E1 & _ & E2)].
  - exfalso. assert (o ∈ claimants (id_all t)) as Hin by (rewrite <- Hl; by left).
    apply list_elem_of_omap in Hin as (c & [Hc Hi]%filter_bool_elem & Ho). specialize (Hno c Hc). unfold claimsFor in Hno.
    by rewrite Hi, bool_decide_eq_true_2 in Hno.
  - destruct (IH t1 Hwf1) as (t' & -> & Hwf' & Hme' & Hnext' & Hrest' & Hnone).
    { rewrite E2. apply (Permutation_cons_inv (a := o)). by rewrite Hl, E1, Permutation_middle. }
    exists t'. split_and!; [done|done|congruence..|done].
Qed.

(** The loop finds the one that claims. *)
Lemma existingMe_one allObjects o t : claimants (id_all t) = [o] → NoDup allObjects → o ∈ allObjects →
  existingMe (Some i) allObjects t = Ok (Some o).
Proof.
  intros Ht. assert (∀ x, MPContributor_isMe (Some i) x t = bool_decide (x = o)) as Hme.
  { intros x. apply eq_true_iff_eq. by rewrite isMe_claimants, Ht, list_elem_of_singleton, bool_decide_eq_true. }
  assert (∀ l me, o ∉ l → existingMe_from (Some i) me l t = Ok me) as Hnone.
  { induction l as [|x l IH]; intros me Hl; [done|]. apply not_elem_of_cons in Hl as [Hx Hl]. cbn [existingMe_from].
    rewrite Hme, bool_decide_eq_false_2 by done. auto. }
  unfold existingMe. induction allObjects as [|x l IH]; [by intros _ []%elem_of_nil|].
  intros [Hx Hl]%NoDup_cons Hin. cbn [existingMe_from]. rewrite Hme. destruct (decide (x = o)) as [->|Hxo].
  - rewrite bool_decide_eq_true_2 by done. cbn. by apply Hnone.
  - rewrite bool_decide_eq_false_2 by done. apply elem_of_cons in Hin as [|]; [done|auto].
Qed.

(** The unclaimed, with a new identity at the end *)
Lemma claimed_anew o t : identities_wf t → claimants (id_all t) = [] →
  let t' := mkIdentities (id_all t ++ [mkIdentity (id_next t) (Some o) (Some i) (Some "com.manuscriptsapp.shared.package.identity"%string)])
              (Some o) (Pos.succ (id_next t)) in
  identities_wf t' ∧ claimants (id_all t') = [o] ∧
  List.filter (λ c, negb (claims c)) (id_all t') = List.filter (λ c, negb (claims c)) (id_all t).
Proof.
  intros [Hd Hn] Hnone. split_and!.
  - split; cbn.
    + rewrite fmap_app. apply NoDup_app. split_and!; [done| |apply NoDup_singleton].
      intros x (c & -> & Hc)%list_elem_of_fmap Hx%list_elem_of_singleton. cbn in Hx. rewrite Forall_forall in Hn.
      specialize (Hn c Hc). lia.
    + apply Forall_app. split; [eapply Forall_impl; [exact Hn|]; cbn; lia|]. repeat constructor. cbn. lia.
  - unfold claimants in *. cbn. rewrite List.filter_app, omap_app, Hnone. cbn. unfold claims. cbn.
    by rewrite bool_decide_eq_true_2.
  - cbn. rewrite List.filter_app. cbn. unfold claims. cbn. rewrite bool_decide_eq_true_2 by done. by rewrite app_nil_r.
Qed.

Lemma matching_isMe o t : is_Some (matchingIdentity o i t) ↔ MPContributor_isMe (Some i) o t = true.
Proof.
  unfold matchingIdentity, MPContributor_isMe. induction (MPContributor_identities o t) as [|c l IH]; cbn.
  - split; [by intros [? ?]|done].
  - case_bool_decide; cbn; [split; [done|by eexists]|exact IH].
Qed.

Lemma run_claim o t : identities_wf t →
  ∃ t', MPContributor_setIsMe (Some i) always o true t = (Ok tt, t') ∧ identities_wf t' ∧
    List.filter (λ c, negb (claims c)) (id_all t') = List.filter (λ c, negb (claims c)) (id_all t) ∧
    if MPContributor_isMe (Some i) o t then t' = t else claimants (id_all t') = [o] ∧ id_me t' = Some o.
Proof.
  intros Hwf. pose proof (matching_isMe o t) as Hm. unfold MPContributor_setIsMe.
  destruct (matchingIdentity o i t) as [c|] eqn:Ec.
  - destruct Hm as [-> _]; [|done]. exists t. by rewrite run_bind, run_gets, Ec.
  - destruct (MPContributor_isMe (Some i) o t); [by destruct Hm as [_ [? ?]]|].
    destruct (run_unclaims (contributorsWithContributorIdentifier i t) t) as (t1 & Hrun & Hwf1 & _ & _ & Hrest & Hnone); [done..|].
    destruct (claimed_anew o t1) as (Hwf' & Hone & Hrest'); [done..|].
    eexists. rewrite run_bind, run_gets, Ec, run_bind, run_gets, run_bind, Hrun, run_modify. split; [done|].
    split; [exact Hwf'|]. split; [by rewrite Hrest', Hrest|done].
Qed.

Lemma run_disclaim o t : identities_wf t → claimants (id_all t) = [o] →
  ∃ t', MPContributor_setIsMe (Some i) always o false t = (Ok tt, t') ∧ claimants (id_all t') = [] ∧
    List.filter (λ c, negb (claims c)) (id_all t') = List.filter (λ c, negb (claims c)) (id_all t).
Proof.
  intros Hwf Ho. destruct (run_unclaims [o] t) as (t' & Hrun & _ & _ & _ & Hrest & Hnone); [done|by rewrite Ho|].
  exists t'. split; [|done]. unfold MPContributor_setIsMe. rewrite run_bind, run_gets. cbn [for_each] in Hrun.
  rewrite run_bind in Hrun. destruct (unclaim always i o t) as [[[]|e] t1]; exact Hrun.
Qed.

Lemma existingMe_none allObjects t : claimants (id_all t) = [] → existingMe (Some i) allObjects t = Ok None.
Proof.
  intros Ht. unfold existingMe. induction allObjects as [|x l IH]; [done|]. cbn [existingMe_from].
  destruct (MPContributor_isMe (Some i) x t) eqn:E; [|exact IH]. apply isMe_claimants in E. rewrite Ht in E. by apply elem_of_nil in E.
Qed.
End me_theory.

(** C11 (safety). There is one me: when a contributor that is not me is made it, every other
    one stops being it, however many identities claimed so before; the controller takes
    it for me, and the search of all contributors finds it and does not meet a second one.
    Who is me already has nothing done to it. Identities for other identifiers keep to
    themselves, and taking the one me back leaves nobody. *)
Theorem one_contributor_is_me i self t allObjects :
  identities_wf t → NoDup allObjects → self ∈ allObjects →
  let isMe o t := MPContributor_isMe (Some i) o t in
  let others t := List.filter (λ c, negb (claims i c)) (id_all t) in
  ∃ t', MPContributor_setIsMe (Some i) (λ _, true) self true t = (Ok tt, t') ∧
    identities_wf t' ∧ others t' = others t ∧
    if isMe self t then t' = t
    else (∀ o, isMe o t' = true ↔ o = self) ∧ id_me t' = Some self ∧
         existingMe (Some i) allObjects t' = Ok (Some self) ∧
         ∃ t'', MPContributor_setIsMe (Some i) (λ _, true) self false t' = (Ok tt, t'') ∧
           existingMe (Some i) allObjects t'' = Ok None ∧ others t'' = others t.
Proof.
  intros Hwf Hnd Hself isMe others. destruct (run_claim i self t Hwf) as (t' & Hrun & Hwf' & Hrest & Hcase).
  exists t'. do 3 (split; [done|]). unfold isMe at 1. destruct (MPContributor_isMe (Some i) self t); [done|].
  destruct Hcase as [Hone Hme]. destruct (run_disclaim i self t' Hwf' Hone) as (t'' & Hrun' & Hnone & Hrest').
  split; [intros o; unfold isMe; by rewrite isMe_claimants, Hone, list_elem_of_singleton|]. split; [done|].
  split; [by apply existingMe_one|]. exists t''. split; [done|]. split; [by apply existingMe_none|].
  unfold others. by rewrite Hrest', Hrest.
Qed.

(** The first contributor claims twice, the second once. *)
Definition crowd : Identities :=
  mkIdentities [mkIdentity 1%positive (Some 11%positive) (Some "me"%string) None; mkIdentity 2%positive (Some 12%positive) (Some "me"%string) None;
                mkIdentity 3%positive (Some 11%positive) (Some "me"%string) None; mkIdentity 4%positive (Some 12%positive) (Some "orcid"%string) None]
    None 5%positive.

Lemma one_contributor_is_me_witness :
  let isMe o t := MPContributor_isMe (Some "me"%string) o t in
  let others t := List.filter (λ c, negb (claims "me" c)) (id_all t) in
  existingMe (Some "me"%string) [11; 12; 13]%positive crowd = Throw (AssertionFailed "At least two 'me' contributors exist") ∧
  (∃ t', MPContributor_setIsMe (Some "me"%string) (λ _, true) 13%positive true crowd = (Ok tt, t') ∧
    identities_wf t' ∧ others t' = others crowd ∧
    if isMe 13%positive crowd then t' = crowd
    else (∀ o, isMe o t' = true ↔ o = 13%positive) ∧ id_me t' = Some 13%positive ∧
         existingMe (Some "me"%string) [11; 12; 13]%positive t' = Ok (Some 13%positive) ∧
         ∃ t'', MPContributor_setIsMe (Some "me"%string) (λ _, true) 13%positive false t' = (Ok tt, t'') ∧
           existingMe (Some "me"%string) [11; 12; 13]%positive t'' = Ok None ∧ others t'' = others crowd).
Proof.
  split; [reflexivity|]. apply one_contributor_is_me.
  - split; [|by repeat constructor]. apply (bool_decide_unpack _). by vm_compute.
  - apply (bool_decide_unpack _). by vm_compute.
  - apply (bool_decide_unpack _). by vm_compute.
Defined.
