(* ===== verification/Errors.v ===== *)
(** * Errors, exceptions and sorting by priority

    The helpers of NSError+MPExtensions.m with the user information errors carry, the
    exceptions of MPException.m, and [-sortedArrayUsingPriority] of
    NSArray+MPManagedObjectExtensions.m. *)
From Stdlib Require Import Ascii.
From stdpp Require Import base tactics strings numbers list gmap sorting.
From S2P Require Import Prelude ObjC.

(** ** Errors *)
Section errors.
Local Open Scope string_scope.

(** What the user information holds: an object that answers [-boolValue], a text, an error,
    or another object. *)
Inductive userInfoValue (E : Type) : Type :=
  | Number (b : bool)
  | Text (s : string)
  | Underlying (e : E)
  | Other (o : positive).
Inductive error : Type :=
  | Error (domain : string) (code : Z) (userInfo : list (string * userInfoValue error)).
Arguments Number {E} b.
Arguments Text {E} s.
Arguments Underlying {E} e.
Arguments Other {E} o.

Definition error_domain (e : error) : string := match e with Error d _ _ => d end.
Definition error_code (e : error) : Z := match e with Error _ c _ => c end.
Definition error_userInfo (e : error) : list (string * userInfoValue error) := match e with Error _ _ u => u end.
Definition info (e : error) (key : string) : option (userInfoValue error) :=
  snd <$> List.find (λ kv, String.eqb kv.1 key) (error_userInfo e).

Definition NSLocalizedDescriptionKey : string := "NSLocalizedDescription".
Definition NSLocalizedFailureReasonErrorKey : string := "NSLocalizedFailureReason".
Definition NSUnderlyingErrorKey : string := "NSUnderlyingError".
(* @src Feather/Sources/Categories/NSError+MPExtensions.m 12 12 MPShouldPresentErrorKey *)
Definition MPShouldPresentErrorKey : string := "MPShouldPresentErrorKey".

(* @src Feather/Sources/Categories/NSError+MPExtensions.m 17 21 +[NSError errorWithDomain:code:description:] *)
Definition errorWithDescription (domain : string) (code : Z) (description : string) : error :=
  Error domain code [(NSLocalizedDescriptionKey, Text description)].
(* @src Feather/Sources/Categories/NSError+MPExtensions.m 23 32 +[NSError errorWithDomain:code:description:reason:] *)
Definition errorWithReason (domain : string) (code : Z) (description reason : string) : error :=
  Error domain code [(NSLocalizedDescriptionKey, Text description); (NSLocalizedFailureReasonErrorKey, Text reason)].
(* @src Feather/Sources/Categories/NSError+MPExtensions.m 34 43 +[NSError errorWithDomain:code:description:underlyingError:] *)
Definition errorWithUnderlying (domain : string) (code : Z) (description : string) (originalError : error) : error :=
  Error domain code [(NSLocalizedDescriptionKey, Text description); (NSUnderlyingErrorKey, Underlying originalError)].

(** A text answers [-boolValue] too: YES for a digit from 1 to 9, a Y or a T after
    white space, a sign and zeros. *)
Context (textBoolValue : string → bool).
(* @src Feather/Sources/Categories/NSError+MPExtensions.m 45 52 -[NSError shouldPresent] *)
Definition shouldPresent (e : error) : bool :=
  match info e MPShouldPresentErrorKey with
  | Some (Number b) => b
  | Some (Text s) => textBoolValue s
  | _ => false
  end.

(* @src Feather/Sources/Categories/NSError+MPExtensions.m 54 67 -[NSError errorByMarkingAsShouldPresent] *)
Definition errorByMarkingAsShouldPresent (e : error) : error :=
  Error (error_domain e) (error_code e)
    ((MPShouldPresentErrorKey, Number true) ::
     List.filter (λ kv, negb (String.eqb kv.1 MPShouldPresentErrorKey)) (error_userInfo e)).

(** An error that is marked is the same error for everybody else. *)
Lemma marked_error e : let e' := errorByMarkingAsShouldPresent e in
  shouldPresent e' = true ∧ error_domain e' = error_domain e ∧ error_code e' = error_code e ∧
  ∀ key, key ≠ MPShouldPresentErrorKey → info e' key = info e key.
Proof.
  do 3 (split; [done|]). intros key Hk. unfold info, errorByMarkingAsShouldPresent. cbn [error_userInfo List.find fst].
  rewrite (proj2 (String.eqb_neq _ _)) by congruence. f_equal. induction (error_userInfo e) as [|[k x] l IH]; [done|]. cbn [List.filter List.find fst].
  destruct (String.eqb_spec k MPShouldPresentErrorKey) as [->|Hne]; cbn [negb List.find fst].
  - by rewrite (proj2 (String.eqb_neq _ _)) by congruence.
  - by destruct (String.eqb k key).
Qed.
End errors.

(** ** Exceptions *)
Section exceptions.
Local Open Scope string_scope.

(** The name of an exception is that of its class, so that it can be told apart; [cls]: the
    class of the receiver, maybe a subclass. *)
(* @src Feather/Sources/Utilities/MPException.m 23 28 -[MPUnexpectedSelectorException initWithSelector:] *)
Definition unexpectedSelectorException (cls sel : string) : exn :=
  Exception cls ("Don't call " ++ sel ++ " on this kind of object.").
(* @src Feather/Sources/Utilities/MPException.m 41 45 -[MPInvalidInitException initWithSelector:expectedSelector:] *)
Definition invalidInit (cls sel expectedSelector : string) : exn :=
  Exception cls ("Don't init with " ++ sel ++ ". Init with " ++ expectedSelector ++ " instead.").
(* @src Feather/Sources/Utilities/MPException.m 50 55 -[MPIllegalStateException initWithReason:] *)
Definition illegalState (cls reason : string) : exn := Exception cls reason.
(* @src Feather/Sources/Utilities/MPException.m 73 78 -[MPAbstractMethodException initWithSelector:] *)
Definition abstractMethod (cls sel : string) : exn := Exception cls ("Subclass needs to implement " ++ sel ++ ".").
(** [-init] and [-initWithName:reason:userInfo:] raise, and the exception raised is made
    with the selector. *)
(* @src Feather/Sources/Utilities/MPException.m 67 71 -[MPAbstractMethodException initWithName:reason:userInfo:] *)
Definition abstractMethod_init (sel : string) : res exn := Throw (unexpectedSelectorException "MPUnexpectedSelectorException" sel).
(* @src Feather/Sources/Utilities/MPException.m 91 94 -[MPUnexpectedTypeException initWithTypeString:] *)
Definition unexpectedType (cls typeStr : string) : exn := Exception cls typeStr.
(* @src Feather/Sources/Utilities/MPException.m 100 103 -[MPUnexpectedStateExpection initWithReason:] *)
Definition unexpectedState (cls reason : string) : exn := Exception cls reason.
(* @src Feather/Sources/Utilities/MPException.m 109 117 -[MPReadonlyCachedPropertyException initWithPropertyKey:ofClass:] *)
Definition readonlyCachedProperty (cls propertyKey : string) : exn :=
  Exception cls ("Property '" ++ propertyKey ++ "' should be readwrite.").
(* @src Feather/Sources/Utilities/MPException.m 123 132 -[MPAbstractClassException initWithClass:] *)
Definition abstractClass (cls abstract_ : string) : exn :=
  Exception cls ("Objects with class " ++ abstract_ ++ " should not be instantiated.").
End exceptions.

(** ** Sorting by priority *)
Section priority.
Context {A : Type} (priority : A → Z).
(** [-sortedArrayUsingComparator:] of Foundation: the same objects, none after one it is
    below by the comparator *)
Context (sortedArrayUsingComparator : (A → A → comparison) → list A → list A).
Class ComparatorSort : Prop := {
  cs_same compare l : sortedArrayUsingComparator compare l ≡ₚ l;
  cs_sorted compare l :
    (∀ x y, compare x y = CompOpp (compare y x)) → (∀ x y z, compare x y ≠ Gt → compare y z ≠ Gt → compare x z ≠ Gt) →
    StronglySorted (λ x y, compare x y ≠ Gt) (sortedArrayUsingComparator compare l)
}.

(* @src Feather/Sources/Categories/NSArray+MPManagedObjectExtensions.m 15 27 -[NSArray sortedArrayUsingPriority] *)
Definition sortedArrayUsingPriority (self : list A) : list A :=
  sortedArrayUsingComparator (λ obj1 obj2, Z.compare (priority obj1) (priority obj2)) self.

Lemma sorted_by_priority `{!ComparatorSort} self :
  sortedArrayUsingPriority self ≡ₚ self ∧
  StronglySorted (λ x y, (priority x ≤ priority y)%Z) (sortedArrayUsingPriority self).
Proof.
  split; [apply cs_same|]. apply cs_sorted.
  - intros x y. apply Z.compare_antisym.
  - intros x y z. rewrite !Z.compare_le_iff. lia.
Qed.
End priority.
