(* ===== verification/Declarations.v ===== *)
(** * Objective-C declarations

    What a header says of a class or a protocol: its superclass, the protocols it
    adopts, its properties with their attributes and its methods with their types.
    From a list of such declarations: the methods a class answers, subtyping, and
    the class table and property attribute strings the runtime is given by the
    compiler.  The headers themselves are in HeadersModel.v, HeadersControllers.v,
    HeadersPackages.v and HeadersCategories.v. *)
From Stdlib Require Import Ascii.
From stdpp Require Import base tactics strings numbers list gmap.
From S2P Require Import Prelude ObjC.

(** ** Types *)
Inductive ctype : Type :=
  | Void
  | Named (name : string)              (* scalars, enumerations, structures, typedefs *)
  | TypeParam (name : string)
  | AnyObject                          (* [id] *)
  | MetaClass                          (* [Class] *)
  | Instancetype
  | Object (class : string)            (* [C *] *)
  | Conforming (t : ctype) (protocol : string)  (* [id<P>], [C<P> *] *)
  | Of (t u : ctype)                   (* [NSArray<u> *] *)
  | Returning (result : ctype)         (* a block; [Taking] adds an argument *)
  | Taking (block arg : ctype)
  | Out (t : ctype)                    (* a pointer to write through *)
  | Kindof (t : ctype)
  | Nonnull (t : ctype)
  | Nullable (t : ctype).

#[export] Instance ctype_eq_dec : EqDecision ctype.
Proof. solve_decision. Defined.

(** The notation of the headers. *)
Definition obj (class : string) : ctype := Object class.
Definition Id (protocols : list string) : ctype := foldl Conforming AnyObject protocols.
Definition Obj (class : string) (protocols : list string) (args : list ctype) : ctype :=
  foldl Of (foldl Conforming (Object class) protocols) args.
Definition Block (result : ctype) (args : list ctype) : ctype := foldl Taking (Returning result) args.
Definition nn : ctype → ctype := Nonnull.
Definition nl : ctype → ctype := Nullable.
Definition BOOL : ctype := Named "BOOL".
Definition NSInteger : ctype := Named "NSInteger".
Definition NSUInteger : ctype := Named "NSUInteger".
(** [NSError **error] *)
Definition error_out : ctype := nl (Out (nl (Object "NSError"))).

(** ** Declarations *)
Inductive attribute : Type :=
  | ReadOnly | ReadWrite | Strong | Copy | Weak | Assign | Nonatomic | Atomic | ClassProperty
  | Getter (selector : string) | Setter (selector : string).
#[export] Instance attribute_eq_dec : EqDecision attribute.
Proof. solve_decision. Defined.

Record propertyDeclaration : Type := {
  pd_name : string; pd_type : ctype; pd_attributes : list attribute
}.
#[export] Instance propertyDeclaration_eq_dec : EqDecision propertyDeclaration.
Proof. solve_decision. Defined.

Record methodDeclaration : Type := {
  md_class : bool; md_selector : string; md_arguments : list ctype; md_result : ctype
}.
#[export] Instance methodDeclaration_eq_dec : EqDecision methodDeclaration.
Proof. solve_decision. Defined.

Inductive declaration : Type :=
  | Property (p : propertyDeclaration)
  | Method (m : methodDeclaration)
  | Optional (d : declaration)      (* after [@optional] *)
  | Unavailable (d : declaration).  (* [NS_UNAVAILABLE] *)

Definition property (name : string) (t : ctype) (attributes : list attribute) : declaration :=
  Property {| pd_name := name; pd_type := t; pd_attributes := attributes |}.
Definition inst (selector : string) (arguments : list ctype) (result : ctype) : declaration :=
  Method {| md_class := false; md_selector := selector; md_arguments := arguments; md_result := result |}.
Definition cls (selector : string) (arguments : list ctype) (result : ctype) : declaration :=
  Method {| md_class := true; md_selector := selector; md_arguments := arguments; md_result := result |}.
Definition optional : declaration → declaration := Optional.
Definition unavailable : declaration → declaration := Unavailable.

Inductive interfaceKind : Type :=
  | ClassInterface (superclass : string)
  | Category (name : string)   (* the class extension has the empty name *)
  | ProtocolInterface.
#[export] Instance interfaceKind_eq_dec : EqDecision interfaceKind.
Proof. solve_decision. Defined.

Record interface : Type := {
  i_name : string;
  i_kind : interfaceKind;
  i_protocols : list string;
  i_declarations : list declaration
}.

(** ** Accessors *)
Section accessors.
Local Open Scope string_scope.

(** [readonly] without [readwrite] *)
Definition isReadOnly (p : propertyDeclaration) : bool :=
  bool_decide (ReadOnly ∈ pd_attributes p) && bool_decide (ReadWrite ∉ pd_attributes p).

Definition getterName (p : propertyDeclaration) : string :=
  default (pd_name p) (head (omap (λ a, match a with Getter s => Some s | _ => None end) (pd_attributes p))).

Definition setterName (p : propertyDeclaration) : string :=
  default ("set" ++ uppercasingFirst (pd_name p) ++ ":")
    (head (omap (λ a, match a with Setter s => Some s | _ => None end) (pd_attributes p))).

Definition accessors (p : propertyDeclaration) : list methodDeclaration :=
  let static := bool_decide (ClassProperty ∈ pd_attributes p) in
  {| md_class := static; md_selector := getterName p; md_arguments := []; md_result := pd_type p |} ::
  if isReadOnly p then []
  else [{| md_class := static; md_selector := setterName p; md_arguments := [pd_type p]; md_result := Void |}].
End accessors.

(** The methods an implementor must have. *)
Definition requiredMethods (d : declaration) : list methodDeclaration :=
  match d with
  | Property p => accessors p
  | Method m => [m]
  | Optional _ | Unavailable _ => []
  end.
Definition methodsOf (i : interface) : list methodDeclaration := mbind requiredMethods (i_declarations i).

Definition propertyOf (d : declaration) : option propertyDeclaration :=
  match d with
  | Property p => Some p
  | Optional (Property p) => Some p
  | _ => None
  end.
Definition propertiesOf (i : interface) : list propertyDeclaration := omap propertyOf (i_declarations i).

(** ** Programs: the declarations of all headers *)
Section program.
Context (P : list interface).

Definition isProtocol (i : interface) : bool := bool_decide (i_kind i = ProtocolInterface).
Definition interfacesOf (c : string) : list interface :=
  List.filter (λ i, String.eqb (i_name i) c && negb (isProtocol i)) P.
Definition protocolsNamed (p : string) : list interface :=
  List.filter (λ i, String.eqb (i_name i) p && isProtocol i) P.

(** Protocols and the protocols they incorporate; [n] bounds the nesting. *)
Fixpoint incorporated (n : nat) (ps : list string) : list string :=
  match n with
  | O => ps
  | S n => ps ++ incorporated n (mbind (λ p, mbind i_protocols (protocolsNamed p)) ps)
  end.
Definition adopted (c : string) : list string :=
  incorporated (length P) (mbind i_protocols (interfacesOf c)).

(** What the headers have a class declare: in its interface, its categories and
    the protocols it adopts. *)
Definition own (c : string) : list methodDeclaration :=
  mbind methodsOf (interfacesOf c) ++ mbind (λ p, mbind methodsOf (protocolsNamed p)) (adopted c).

(** The class table; of a superclass that no header declares nothing is known. *)
Definition declaredClasses : list (string * option string) :=
  omap (λ i, match i_kind i with ClassInterface s => Some (i_name i, Some s) | _ => None end) P.
Definition platformClasses : list string :=
  remove_dups (List.filter (λ c, negb (existsb (String.eqb c) declaredClasses.*1))
                 (omap snd declaredClasses ++ omap (λ i, match i_kind i with Category _ => Some (i_name i) | _ => None end) P)).
Definition classTable : list (string * option string) :=
  map (λ c, (c, None)) platformClasses ++ declaredClasses.
End program.
