(* ===== verification/HeadersModel.v ===== *)
(** * The headers of the model classes

    src/Feather/Sources/Model/*.h: protocols, managed and embedded objects,
    contributors, snapshots and sections, declaration by declaration and in the
    order of the header.  Left out: what a debug build alone declares, and the
    instance variables of class extensions. *)
From stdpp Require Import base strings list.
From S2P Require Import Prelude ObjC Declarations.

Local Open Scope string_scope.
Local Open Scope list_scope.

(** ** Model/MPPlaceHolding.h *)
(* @src Feather/Sources/Model/MPPlaceHolding.h 11 15 @protocol MPPlaceHolding *)
Definition MPPlaceHolding_protocol : interface := {|
  i_name := "MPPlaceHolding"; i_kind := ProtocolInterface; i_protocols := ["NSObject"];
  i_declarations := [
    property "placeholderString" (nn (obj "NSString")) [ReadOnly; Copy]] |}.

(* @src Feather/Sources/Model/MPPlaceHolding.h 18 22 @protocol MPMutablyPlaceHolding *)
Definition MPMutablyPlaceHolding_protocol : interface := {|
  i_name := "MPMutablyPlaceHolding"; i_kind := ProtocolInterface; i_protocols := ["MPPlaceHolding"];
  i_declarations := [
    property "placeholderString" (nn (obj "NSString")) [ReadWrite; Copy]] |}.


(** ** Model/MPTitledProtocol.h *)
(* @src Feather/Sources/Model/MPTitledProtocol.h 11 15 @protocol MPTitledProtocol *)
Definition MPTitledProtocol_protocol : interface := {|
  i_name := "MPTitledProtocol"; i_kind := ProtocolInterface; i_protocols := ["NSObject"];
  i_declarations := [
    property "title" (nn (obj "NSString")) [ReadWrite; Copy];
    property "subtitle" (nl (obj "NSString")) [ReadWrite; Copy];
    property "desc" (nl (obj "NSString")) [ReadWrite; Copy]] |}.


(** ** Model/MPThumbnailable.h *)
(* @src Feather/Sources/Model/MPThumbnailable.h 11 15 @protocol MPThumbnailable *)
Definition MPThumbnailable_protocol : interface := {|
  i_name := "MPThumbnailable"; i_kind := ProtocolInterface; i_protocols := ["NSObject"];
  i_declarations := [
    property "thumbnailImage" (nn (obj "NSImage")) [ReadOnly; Strong]] |}.


(** ** Model/MPRESTFulResource.h *)
(* @src Feather/Sources/Model/MPRESTFulResource.h 11 13 @protocol MPRESTfulResource *)
Definition MPRESTfulResource_protocol : interface := {|
  i_name := "MPRESTfulResource"; i_kind := ProtocolInterface; i_protocols := ["NSObject"];
  i_declarations := [
    inst "URL" [] (obj "NSURL")] |}.


(** ** Model/MPJSONRepresentable.h *)
(* @src Feather/Sources/Model/MPJSONRepresentable.h 11 13 @protocol MPJSONRepresentable *)
Definition MPJSONRepresentable_protocol : interface := {|
  i_name := "MPJSONRepresentable"; i_kind := ProtocolInterface; i_protocols := ["NSObject"];
  i_declarations := [
    inst "JSONStringRepresentation:" [error_out] (nl (obj "NSString"))] |}.


(** ** Model/MPCacheable.h *)
(* @src Feather/Sources/Model/MPCacheable.h 11 30 @protocol MPCacheable *)
Definition MPCacheable_protocol : interface := {|
  i_name := "MPCacheable"; i_kind := ProtocolInterface; i_protocols := ["NSObject"];
  i_declarations := [
    optional (cls "cachedPropertiesByClassName" [] (nn (Obj "NSDictionary" [] [obj "NSString";
      Obj "NSSet" [] [obj "NSString"]])));
    optional (inst "clearCachedValues" [] Void);
    optional (inst "refreshCachedValues" [] Void);
    optional (cls "hasMainThreadIsolatedCachedProperties" [] BOOL)] |}.


(** ** Model/MPCacheableMixin.h *)
(* @src Feather/Sources/Model/MPCacheableMixin.h 12 18 @interface MPCacheableMixin *)
Definition MPCacheableMixin_interface : interface := {|
  i_name := "MPCacheableMixin"; i_kind := ClassInterface "NSObject"; i_protocols := ["MPCacheable"];
  i_declarations := [
    cls "cachedPropertiesByClassNameForBaseClass:" [nn MetaClass] (nn (Obj "NSDictionary" [] [obj "NSString";
      Obj "NSSet" [] [obj "NSString"]]));
    cls "clearCachedValues:" [nn (Id ["MPCacheable"])] Void] |}.


(** ** Model/MPBundlableMixin.h *)
(* @src Feather/Sources/Model/MPBundlableMixin.h 11 14 @protocol MPBundlable *)
Definition MPBundlable_protocol : interface := {|
  i_name := "MPBundlable"; i_kind := ProtocolInterface; i_protocols := ["NSObject"];
  i_declarations := [
    optional (property "bundled" BOOL [ReadWrite])] |}.

(* @src Feather/Sources/Model/MPBundlableMixin.h 16 17 @interface MPBundlableMixin *)
Definition MPBundlableMixin_interface : interface := {|
  i_name := "MPBundlableMixin"; i_kind := ClassInterface "NSObject"; i_protocols := ["MPBundlable"];
  i_declarations := [] |}.


(** ** Model/MPCategorizableMixin.h *)
(* @src Feather/Sources/Model/MPCategorizableMixin.h 14 21 @protocol MPCategorizable *)
Definition MPCategorizable_protocol : interface := {|
  i_name := "MPCategorizable"; i_kind := ProtocolInterface; i_protocols := ["NSObject"; "MPBundlable";
    "MPReferencableObject"];
  i_declarations := [
    optional (property "name" (obj "NSString") [ReadWrite; Copy]);
    optional (property "desc" (obj "NSString") [ReadWrite; Copy]);
    optional (property "priority" NSInteger [ReadWrite])] |}.

(* @src Feather/Sources/Model/MPCategorizableMixin.h 25 29 @interface MPCategorizableMixin *)
Definition MPCategorizableMixin_interface : interface := {|
  i_name := "MPCategorizableMixin"; i_kind := ClassInterface "NSObject"; i_protocols := [];
  i_declarations := [
    cls "sortByPriorityBlock" [] (Named "MPSortByPriorityBlock")] |}.


(** ** Model/MPIndexableMixin.h *)
(* @src Feather/Sources/Model/MPIndexableMixin.h 13 18 @protocol MPIndexable *)
Definition MPIndexable_protocol : interface := {|
  i_name := "MPIndexable"; i_kind := ProtocolInterface; i_protocols := ["MPTitledProtocol"; "NSObject"];
  i_declarations := [
    cls "indexablePropertyKeys" [] (obj "NSArray");
    property "contents" (obj "NSString") [ReadWrite; Strong]] |}.

(* @src Feather/Sources/Model/MPIndexableMixin.h 20 21 @interface MPIndexableMixin *)
Definition MPIndexableMixin_interface : interface := {|
  i_name := "MPIndexableMixin"; i_kind := ClassInterface "NSObject"; i_protocols := ["MPIndexable"];
  i_declarations := [] |}.


(** ** Model/MPTreeItem.h *)
(* @src Feather/Sources/Model/MPTreeItem.h 16 48 @protocol MPTreeItem *)
Definition MPTreeItem_protocol : interface := {|
  i_name := "MPTreeItem"; i_kind := ProtocolInterface; i_protocols := ["NSObject"];
  i_declarations := [
    property "title" (nn (obj "NSString")) [ReadWrite; Copy];
    property "parent" (nl (Id ["MPTreeItem"])) [ReadOnly; Weak];
    property "children" (nn (Obj "NSArray" [] [Id ["MPTreeItem"]])) [ReadOnly; Strong];
    property "siblings" (nn (Obj "NSArray" [] [Id ["MPTreeItem"]])) [ReadOnly; Strong];
    property "childCount" NSUInteger [ReadOnly];
    property "hasChildren" BOOL [ReadOnly];
    property "isEditable" BOOL [ReadOnly];
    property "isTitled" BOOL [ReadOnly];
    property "isOptional" BOOL [ReadOnly];
    property "inEditMode" BOOL [ReadWrite];
    property "priority" NSInteger [ReadOnly];
    property "packageController" (nl (Kindof (obj "MPDatabasePackageController"))) [ReadOnly; Weak];
    property "identifier" (nl (obj "NSString")) [ReadOnly];
    inst "save" [] BOOL] |}.

(* @src Feather/Sources/Model/MPTreeItem.h 56 67 @protocol MPOptionalTreeItem *)
Definition MPOptionalTreeItem_protocol : interface := {|
  i_name := "MPOptionalTreeItem"; i_kind := ProtocolInterface; i_protocols := ["MPTreeItem"];
  i_declarations := [
    inst "setState:inContextOfObject:" [Named "MPOptionalTreeItemState"; nn (Id [])] Void;
    inst "stateInContextOfObject:" [nn (Id [])] (Named "MPOptionalTreeItemState");
    inst "cellStateValueInContextOfObject:" [nn (Id [])] (Named "NSCellStateValue")] |}.


(** ** Model/MPEmbeddedPropertyContainingMixin.h *)
(* @src Feather/Sources/Model/MPEmbeddedPropertyContainingMixin.h 13 22 @protocol MPEmbeddedPropertyContaining *)
Definition MPEmbeddedPropertyContaining_protocol : interface := {|
  i_name := "MPEmbeddedPropertyContaining"; i_kind := ProtocolInterface; i_protocols := ["NSObject"];
  i_declarations := [
    optional (cls "embeddedProperties" [] (nl (obj "NSSet")));
    optional (inst "willUpdateEmbeddedObject:withEmbeddingKey:" [nn (obj "MPEmbeddedObject");
      nn (obj "NSString")] Void)] |}.

(* @src Feather/Sources/Model/MPEmbeddedPropertyContainingMixin.h 24 25 @interface MPEmbeddedPropertyContainingMixin *)
Definition MPEmbeddedPropertyContainingMixin_interface : interface := {|
  i_name := "MPEmbeddedPropertyContainingMixin"; i_kind := ClassInterface "NSObject";
    i_protocols := ["MPEmbeddedPropertyContaining"];
  i_declarations := [] |}.


(** ** Model/MPEmbeddedObject.h *)
(* @src Feather/Sources/Model/MPEmbeddedObject.h 24 46 @protocol MPEmbeddingObject *)
Definition MPEmbeddingObject_protocol : interface := {|
  i_name := "MPEmbeddingObject"; i_kind := ProtocolInterface; i_protocols := ["MPEmbeddedPropertyContaining";
    "NSObject"];
  i_declarations := [
    property "needsSave" (Named "bool") [ReadOnly];
    inst "markNeedsSave" [] Void;
    inst "markNeedsNoSave" [] Void;
    inst "save:" [error_out] BOOL;
    optional (inst "embeddedObjectWithIdentifier:" [nn (obj "NSString")] (nl (obj "MPEmbeddedObject")));
    optional (inst "cacheEmbeddedObjectByIdentifier:" [nn (obj "MPEmbeddedObject")] Void);
    optional (inst "cacheValue:ofProperty:changed:" [nl (Id []); nn (obj "NSString"); BOOL] Void)] |}.

(* @src Feather/Sources/Model/MPEmbeddedObject.h 53 107 @interface MPEmbeddedObject *)
Definition MPEmbeddedObject_interface : interface := {|
  i_name := "MPEmbeddedObject"; i_kind := ClassInterface "MYDynamicObject"; i_protocols := ["MPEmbeddingObject";
    "NSPasteboardWriting"; "NSPasteboardReading"; "MPJSONRepresentable"];
  i_declarations := [
    property "identifier" (nn (obj "NSString")) [ReadOnly; Copy];
    property "embeddingObject" (nl (Id ["MPEmbeddingObject"])) [Weak; ReadOnly];
    property "embeddingKey" (nl (obj "NSString")) [Copy; ReadOnly];
    property "changedNames" (nn (Obj "NSMutableSet" [] [obj "NSString"])) [ReadOnly; Strong];
    inst "databaseForModelProperty:" [nn (obj "NSString")] (nn (obj "CBLDatabase"));
    inst "initWithEmbeddingObject:embeddingKey:" [nn (Id ["MPEmbeddingObject"]);
      nn (obj "NSString")] (nn Instancetype);
    inst "initWithDictionary:embeddingObject:embeddingKey:" [nn (obj "NSDictionary"); nn (Id ["MPEmbeddingObject"]);
      nn (obj "NSString")] (nn Instancetype);
    inst "dictionaryRepresentation" [] (nn (obj "NSDictionary"));
    inst "externalize" [] (nn (obj "NSString"));
    inst "JSONStringRepresentation:" [error_out] (nl (obj "NSString"));
    property "embeddingManagedObject" (nl (Kindof (obj "MPManagedObject"))) [ReadOnly];
    cls "embeddedObjectWithJSONString:embeddingObject:embeddingKey:" [nn (obj "NSString");
      nn (Id ["MPEmbeddingObject"]); nn (obj "NSString")] (nn Instancetype);
    cls "embeddedObjectWithDictionary:embeddingObject:embeddingKey:" [nn (obj "NSDictionary");
      nn (Id ["MPEmbeddingObject"]); nn (obj "NSString")] (nn Instancetype);
    cls "objectWithReferableDictionaryRepresentation:" [nn (obj "NSDictionary")] (nl (Id []));
    inst "save:" [error_out] BOOL;
    inst "deepSave:" [error_out] BOOL;
    inst "deepSave" [] BOOL;
    inst "save" [] BOOL] |}.


(** ** Model/MPEmbeddedObject+Protected.h *)
(* @src Feather/Sources/Model/MPEmbeddedObject+Protected.h 12 26 @interface MPEmbeddedObject () *)
Definition MPEmbeddedObject_extension : interface := {|
  i_name := "MPEmbeddedObject"; i_kind := Category ""; i_protocols := [];
  i_declarations := [
    property "embeddingObject" (Id ["MPEmbeddingObject"]) [ReadWrite; Weak];
    property "embeddingKey" (obj "NSString") [Copy];
    property "properties" (obj "NSMutableDictionary") [ReadOnly];
    property "needsSave" (Named "bool") [ReadWrite];
    inst "cacheValue:ofProperty:changed:" [Id []; obj "NSString"; BOOL] Void] |}.


(** ** Model/MPManagedObject.h *)
(* @src Feather/Sources/Model/MPManagedObject.h 57 58 @protocol MPReferencableObject *)
Definition MPReferencableObject_protocol : interface := {|
  i_name := "MPReferencableObject"; i_kind := ProtocolInterface; i_protocols := ["NSObject"];
  i_declarations := [] |}.

(* @src Feather/Sources/Model/MPManagedObject.h 60 61 @interface MPReferencableObjectMixin *)
Definition MPReferencableObjectMixin_interface : interface := {|
  i_name := "MPReferencableObjectMixin"; i_kind := ClassInterface "NSObject"; i_protocols := [];
  i_declarations := [] |}.

(* @src Feather/Sources/Model/MPManagedObject.h 78 193 @interface MPManagedObject (part 1) *)
Definition MPManagedObject_declarations_1 : list declaration := [
  property "controller" (nl (Kindof (obj "MPManagedObjectsController"))) [Weak; ReadOnly];
  property "documentID" (nl (obj "NSString")) [ReadOnly; Copy];
  property "prefixlessDocumentID" (nl (obj "NSString")) [ReadOnly; Copy];
  property "createdAt" (nl (obj "NSDate")) [ReadOnly; Assign];
  property "updatedAt" (nl (obj "NSDate")) [ReadOnly; Assign];
  property "sessionID" (nl (obj "NSString")) [ReadOnly];
  property "cloudKitChangeTag" (nl (obj "NSString")) [ReadOnly];
  property "creator" (nl (obj "MPContributor")) [ReadOnly; Strong];
  property "editors" (nl (obj "NSArray")) [ReadOnly; Strong];
  property "scriptingProperties" (nn (obj "NSDictionary")) [ReadWrite; Copy];
  inst "setScriptingDerivedProperties:" [nn (obj "NSDictionary")] Void;
  (* Sharing & Moderation *)
  property "shared" BOOL [ReadOnly; Assign; Getter "isShared"];
  inst "shareWithError:" [error_out] BOOL;
  property "moderationState" (Named "MPManagedObjectModerationState") [ReadOnly];
  property "isModerated" BOOL [ReadOnly];
  property "isAccepted" BOOL [ReadOnly];
  inst "accept" [] Void;
  property "isRejected" BOOL [ReadOnly];
  inst "reject" [] Void;
  inst "prototypeTransformedValueForPropertiesDictionaryKey:forCopyOfPrototypeObject:" [nn (obj "NSString");
    nn (obj "MPManagedObject")] (nl (Id []));
  inst "humanReadableNameForPropertyKey:" [nn (obj "NSString")] (nn (obj "NSString"));
  property "prototypeID" (nl (obj "NSString")) [ReadOnly; Copy; Nonatomic];
  property "prototype" (nl (Kindof (obj "MPManagedObject"))) [ReadOnly; Strong];
  property "hasPrototype" BOOL [ReadOnly];
  property "canFormPrototype" BOOL [ReadOnly];
  property "formsPrototypeWhenShared" BOOL [ReadOnly];
  property "locked" BOOL [ReadOnly; Getter "isLocked"];
  property "userContributed" BOOL [ReadWrite; Getter "isUserContributed"];
  cls "cloudKitIgnoredKeys" [] (nn (Obj "NSArray" [] [obj "NSString"]));
  inst "valueCodingKeyForPersistedPropertyKey:" [nn (obj "NSString")] (nn (obj "NSString"));
  inst "persistedPropertyKeyForValueCodingKey:" [nn (obj "NSString")] (nn (obj "NSString"));
  inst "lock" [] Void;
  inst "unlock" [] Void;
  inst "save" [] BOOL;
  inst "deepSave:" [error_out] BOOL;
  inst "deepSave" [] BOOL;
  cls "saveModels:" [nn (Obj "NSArray" [] [Kindof (obj "MPManagedObject")])] BOOL;
  property "isDeleted" BOOL [ReadOnly]].

(* @src Feather/Sources/Model/MPManagedObject.h 194 310 @interface MPManagedObject (part 2) *)
Definition MPManagedObject_declarations_2 : list declaration := [
  inst "deleteDocument" [] BOOL;
  inst "deleteObject" [] BOOL;
  cls "indexablePropertyKeys" [] (nl (Obj "NSArray" [] [obj "NSString"]));
  inst "indexableStringForPropertyKey:" [nn (obj "NSString")] (nl (obj "NSString"));
  property "tokenizedFullTextString" (nn (obj "NSString")) [ReadOnly; Copy];
  cls "idForNewDocumentInDatabase:" [nn (obj "CBLDatabase")] (nn (obj "NSString"));
  cls "validateRevision:" [nn (obj "CBLRevision")] BOOL;
  cls "requiresProperty:" [nn (obj "NSString")] BOOL;
  cls "shouldTrackSessionID" [] BOOL;
  cls "managedObjectClassFromDocumentID:" [nn (obj "NSString")] (nn MetaClass);
  cls "canonicalizedIdentifierStringForString:" [nn (obj "NSString")] (nn (obj "NSString"));
  cls "humanReadableName" [] (nn (obj "NSString"));
  property "nonIdentifiableProperties" (nn (obj "NSDictionary")) [ReadOnly; Copy];
  property "referableDictionaryRepresentation" (nl (obj "NSDictionary")) [ReadOnly];
  cls "objectWithReferableDictionaryRepresentation:" [nn (obj "NSDictionary")] (nn Instancetype);
  cls "pasteboardObjectIDPropertyListForObjects:error:" [nn (obj "NSArray"); error_out] (nn (obj "NSData"));
  cls "promisedPasteboardTypes" [] (nn (Obj "NSSet" [] [obj "NSString"]));
  inst "JSONStringRepresentation:" [error_out] (nn (obj "NSString"));
  property "JSONEncodableDictionaryRepresentation" (nn (obj "NSDictionary")) [ReadOnly; Copy];
  cls "isConcrete" [] BOOL;
  inst "initWithNewDocumentForController:" [nn (obj "MPManagedObjectsController")] (nn Instancetype);
  inst "initWithNewDocumentForController:properties:documentID:" [nn (obj "MPManagedObjectsController");
    nl (Obj "NSDictionary" [] [obj "NSString"; Id []]); nl (obj "NSString")] (nn Instancetype);
  inst "initWithNewDocumentForController:prototype:documentID:" [nn (obj "MPManagedObjectsController");
    nl (Kindof (obj "MPManagedObject")); nl (obj "NSString")] (nn Instancetype);
  inst "initCopyOfManagedObject:controller:" [nn (obj "MPManagedObject");
    nn (obj "MPManagedObjectsController")] (nn Instancetype);
  inst "setObjectIdentifierArrayValueForManagedObjectArray:property:" [nl (Obj "NSArray" [] [Kindof (obj
    "MPManagedObject")]); nn (obj "NSString")] Void;
  inst "getValueOfObjectIdentifierArrayProperty:" [nn (obj "NSString")] (nn (Obj "NSArray" [] [Kindof (obj
    "MPManagedObject")]));
  inst "setObjectIdentifierSetValueForManagedObjectArray:property:" [nl (Obj "NSArray" [] [Kindof (obj
    "MPManagedObject")]); nn (obj "NSString")] Void;
  inst "getValueOfObjectIdentifierSetProperty:" [nl (obj "NSString")] (nn (Obj "NSSet" [] [Kindof (obj
    "MPManagedObject")]));
  inst "setDictionaryEmbeddedValue:forKey:ofProperty:" [nn (Id []); nn (obj "NSString"); nn (obj "NSString")] Void].

(* @src Feather/Sources/Model/MPManagedObject.h 311 364 @interface MPManagedObject (part 3) *)
Definition MPManagedObject_declarations_3 : list declaration := [
  inst "getValueForDictionaryEmbeddedKey:ofProperty:" [nn (obj "NSString"); nn (obj "NSString")] (nl (Id []));
  (* Attachments *)
  inst "attachContentsOfURL:withAttachmentName:contentType:error:" [nn (obj "NSURL"); nn (obj "NSString");
    nn (obj "NSString"); error_out] BOOL;
  inst "createAttachmentWithName:withString:type:error:" [nn (obj "NSString"); nn (obj "NSString");
    nn (obj "NSString"); error_out] BOOL;
  inst "createAttachmentWithName:withContentsOfURL:type:error:" [nn (obj "NSString"); nn (obj "NSURL");
    nn (obj "NSString"); error_out] BOOL;
  inst "didInitialize" [] Void;
  (* Scripting *)
  cls "objectSpecifierKey" [] (nn (obj "NSString"));
  property "objectSpecifierKey" (nn (obj "NSString")) [ReadOnly; Copy];
  cls "singular" [] (nn (obj "NSString"));
  cls "plural" [] (nn (obj "NSString"))].

(* @src Feather/Sources/Model/MPManagedObject.h 77 77 @interface MPManagedObject *)
Definition MPManagedObject_interface : interface := {|
  i_name := "MPManagedObject"; i_kind := ClassInterface "CBLModel"; i_protocols := ["NSPasteboardWriting";
    "NSPasteboardReading"; "MPCacheable"; "MPEmbeddingObject"; "MPJSONRepresentable"];
  i_declarations := MPManagedObject_declarations_1 ++ MPManagedObject_declarations_2 ++ MPManagedObject_declarations_3 |}.

(* @src Feather/Sources/Model/MPManagedObject.h 378 381 @interface MPAutosavingManagedObjectProxy *)
Definition MPAutosavingManagedObjectProxy_interface : interface := {|
  i_name := "MPAutosavingManagedObjectProxy"; i_kind := ClassInterface "NSProxy"; i_protocols := [];
  i_declarations := [
    property "managedObject" (nn (obj "MPManagedObject")) [ReadOnly];
    inst "initWithObject:" [nn (obj "MPManagedObject")] (nn Instancetype)] |}.


(** ** Model/MPManagedObject+Protected.h *)
(* @src Feather/Sources/Model/MPManagedObject+Protected.h 15 38 @interface MPManagedObject (Protected) *)
Definition MPManagedObject_Protected_category : interface := {|
  i_name := "MPManagedObject"; i_kind := Category "Protected"; i_protocols := [];
  i_declarations := [
    property "objectType" (nn (obj "NSString")) [ReadWrite; Copy];
    property "controller" (nl (obj "MPManagedObjectsController")) [Weak; ReadWrite];
    property "isShared" BOOL [ReadWrite; Getter "isShared"; Setter "setShared:"];
    property "moderationState" (Named "MPManagedObjectModerationState") [ReadWrite];
    property "prototype" (nl (obj "MPManagedObject")) [ReadWrite];
    inst "setEmbeddedObjectArray:ofProperty:" [nl (obj "NSArray"); nn (obj "NSString")] Void;
    inst "getEmbeddedObjectArrayProperty:" [nn (obj "NSString")] (nl (Obj "NSArray" [] [obj "MPEmbeddedObject"]));
    inst "getEmbeddedObjectDictionaryProperty:" [nn (obj "NSString")] (nl (obj "NSDictionary"));
    inst "setEmbeddedObjectDictionary:ofProperty:" [nl (obj "NSDictionary"); nn (obj "NSString")] Void;
    inst "setEmbeddedObject:ofProperty:" [nl (obj "MPEmbeddedObject"); nn (obj "NSString")] Void;
    inst "getEmbeddedObjectProperty:" [nn (obj "NSString")] (nl (obj "MPEmbeddedObject"));
    inst "decodeEmbeddedObject:embeddingKey:" [nl (Id []); nn (obj "NSString")] (nl (obj "MPEmbeddedObject"));
    property "cloudKitChangeTag" (nl (obj "NSString")) [ReadWrite]] |}.

(* @src Feather/Sources/Model/MPManagedObject+Protected.h 43 53 @interface CBLModel (Private) *)
Definition CBLModel_Private_category : interface := {|
  i_name := "CBLModel"; i_kind := Category "Private"; i_protocols := ["MPEmbeddingObject"];
  i_declarations := [
    inst "CBLDocumentChanged:" [nn (obj "CBLDocument")] Void;
    inst "externalizePropertyValue:" [nn (Id [])] (nn (Id []));
    inst "cacheValue:ofProperty:changed:" [nl (Id []); nn (obj "NSString"); BOOL] Void;
    inst "getModelProperty:" [nn (obj "NSString")] (nl (obj "CBLModel"));
    inst "markNeedsSave" [] Void;
    inst "markPropertyNeedsSave:" [nn (obj "NSString")] Void] |}.

(* @src Feather/Sources/Model/MPManagedObject+Protected.h 55 59 @interface CBLModel (PrivateExtensions) *)
Definition CBLModel_PrivateExtensions_category : interface := {|
  i_name := "CBLModel"; i_kind := Category "PrivateExtensions"; i_protocols := ["MPEmbeddingObject"];
  i_declarations := [
    property "document" (nl (obj "CBLDocument")) [Strong; ReadWrite];
    inst "markNeedsNoSave" [] Void] |}.


(** ** Model/MPManagedObject+Mixin.h *)
(* @src Feather/Sources/Model/MPManagedObject+Mixin.h 14 23 @interface MPManagedObject (MPManagedObjectMixIn) *)
Definition MPManagedObject_MPManagedObjectMixIn_category : interface := {|
  i_name := "MPManagedObject"; i_kind := Category "MPManagedObjectMixIn"; i_protocols := [];
  i_declarations := [
    cls "implementProtocol:overloadMethods:" [obj "Protocol"; BOOL] Void;
    cls "implementProtocol:andProtocolsMatching:overloadMethods:" [obj "Protocol";
      Named "MPAdoptedProtocolPatternBlock"; BOOL] Void] |}.


(** ** Model/MPDeepSaver.h *)
(* @src Feather/Sources/Model/MPDeepSaver.h 14 18 @interface MPDeepSaver *)
Definition MPDeepSaver_interface : interface := {|
  i_name := "MPDeepSaver"; i_kind := ClassInterface "NSObject"; i_protocols := [];
  i_declarations := [
    cls "deepSave:error:" [Id ["MPEmbeddingObject"]; Out (obj "NSError")] BOOL] |}.


(** ** Model/MPContributor.h *)
(* @src Feather/Sources/Model/MPContributor.h 16 68 @interface MPContributor *)
Definition MPContributor_interface : interface := {|
  i_name := "MPContributor"; i_kind := ClassInterface "MPManagedObject"; i_protocols := ["MPMutablyPlaceHolding"];
  i_declarations := [
    property "category" (obj "MPContributorCategory") [ReadWrite];
    property "role" (obj "NSString") [ReadWrite; Strong];
    property "isMe" BOOL [ReadWrite];
    property "priority" NSInteger [ReadOnly];
    property "positiveIntegralPriority" NSInteger [ReadOnly];
    property "contribution" (obj "NSString") [ReadWrite];
    property "addressBookIDs" (obj "NSArray") [ReadWrite];
    property "thumbnailImage" (obj "NSImage") [ReadOnly];
    property "identities" (obj "NSArray") [ReadOnly];
    property "appInvitationDate" (obj "NSDate") [ReadWrite];
    property "isFirstContributor" BOOL [ReadOnly];
    property "isLastContributor" BOOL [ReadOnly];
    property "previousContributor" (obj "MPContributor") [ReadOnly];
    property "nextContributor" (obj "MPContributor") [ReadOnly];
    inst "compare:" [obj "MPContributor"] (Named "NSComparisonResult");
    property "fullName" (obj "NSString") [ReadWrite; Copy]] |}.

(* @src Feather/Sources/Model/MPContributor.h 73 84 @interface MPContributorIdentity *)
Definition MPContributorIdentity_interface : interface := {|
  i_name := "MPContributorIdentity"; i_kind := ClassInterface "MPManagedObject"; i_protocols := [];
  i_declarations := [
    property "contributor" (obj "MPContributor") [ReadWrite; Nonatomic];
    property "identifier" (obj "NSString") [ReadWrite; Nonatomic];
    property "namespace" (obj "NSString") [ReadWrite; Nonatomic]] |}.


(** ** Model/MPSnapshot.h *)
(* @src Feather/Sources/Model/MPSnapshot.h 14 21 @interface MPSnapshot *)
Definition MPSnapshot_interface : interface := {|
  i_name := "MPSnapshot"; i_kind := ClassInterface "MPManagedObject"; i_protocols := [];
  i_declarations := [
    property "name" (obj "NSString") [ReadOnly; Strong];
    property "timestamp" (obj "NSDate") [ReadOnly; Strong]] |}.

(* @src Feather/Sources/Model/MPSnapshot.h 24 48 @interface MPSnapshottedObject *)
Definition MPSnapshottedObject_interface : interface := {|
  i_name := "MPSnapshottedObject"; i_kind := ClassInterface "MPManagedObject"; i_protocols := [];
  i_declarations := [
    property "snapshot" (obj "MPSnapshot") [ReadOnly; Weak];
    property "snapshottedObject" (obj "MPManagedObject") [ReadOnly; Strong];
    property "snapshottedRevisionID" (obj "NSString") [ReadOnly; Strong];
    property "snapshottedProperties" (obj "NSDictionary") [ReadOnly; Strong];
    property "snapshottedAttachmentSHAs" (obj "NSArray") [ReadOnly; Strong];
    property "snapshottedAttachments" (obj "NSArray") [ReadOnly; Strong];
    property "snapshottedObjectClass" MetaClass [ReadOnly; Strong]] |}.

(* @src Feather/Sources/Model/MPSnapshot.h 51 74 @interface MPSnapshottedAttachment *)
Definition MPSnapshottedAttachment_interface : interface := {|
  i_name := "MPSnapshottedAttachment"; i_kind := ClassInterface "MPManagedObject"; i_protocols := [];
  i_declarations := [
    inst "initWithSnapshotsController:attachment:error:" [obj "MPSnapshotsController"; obj "CBLAttachment";
      Out (obj "NSError")] Instancetype;
    property "sha" (obj "NSString") [ReadOnly; Copy];
    property "contentType" (obj "NSString") [ReadOnly; Copy];
    property "attachment" (obj "CBLAttachment") [ReadOnly; Strong];
    property "snapshot" (obj "MPSnapshot") [ReadOnly; Weak]] |}.


(** ** Model/MPSnapshot+Protected.h *)
(* @src Feather/Sources/Model/MPSnapshot+Protected.h 12 14 @interface MPSnapshot (Protected) *)
Definition MPSnapshot_Protected_category : interface := {|
  i_name := "MPSnapshot"; i_kind := Category "Protected"; i_protocols := [];
  i_declarations := [
    inst "initWithController:name:" [obj "MPSnapshotsController"; obj "NSString"] (obj "MPSnapshot")] |}.

(* @src Feather/Sources/Model/MPSnapshot+Protected.h 17 27 @interface MPSnapshottedObject (Protected) *)
Definition MPSnapshottedObject_Protected_category : interface := {|
  i_name := "MPSnapshottedObject"; i_kind := Category "Protected"; i_protocols := [];
  i_declarations := [
    cls "idForSnapshottedObjectWithDocumentID:revisionID:inDatabase:" [obj "NSString"; obj "NSString";
      obj "CBLDatabase"] (obj "NSString");
    inst "initWithController:snapshot:snapshottedObject:" [obj "MPSnapshotsController"; obj "MPSnapshot";
      obj "MPManagedObject"] (obj "MPSnapshottedObject")] |}.


(** ** Model/MPRootSection.h *)
(* @src Feather/Sources/Model/MPRootSection.h 19 45 @interface MPRootSection *)
Definition MPRootSection_interface : interface := {|
  i_name := "MPRootSection"; i_kind := ClassInterface "NSObject"; i_protocols := ["MPTreeItem";
    "MPManagedObjectRecentChangeObserver"; "MPCacheable"; "MPTitledProtocol"; "NSPasteboardWriting";
    "NSPasteboardReading"];
  i_declarations := [
    property "packageController" (nl (Kindof (obj "MPDatabasePackageController"))) [ReadOnly; Weak];
    inst "initWithPackageController:" [nn (obj "MPDatabasePackageController")] (nn Instancetype);
    property "representedObjects" (nn (Obj "NSArray" [] [Id ["MPTreeItem"]])) [ReadOnly; Strong];
    cls "managedObjectClass" [] (nn MetaClass);
    property "thumbnailImageName" (nn (obj "NSString")) [ReadOnly; Copy];
    property "thumbnailImage" (nn (obj "NSImage")) [ReadOnly; Strong];
    property "representedObjectClass" (nn MetaClass) [ReadOnly; Strong];
    cls "objectWithReferableDictionaryRepresentation:" [nn (obj "NSDictionary")] (nl (Id []))] |}.


(** ** Model/MPRootSection+Protected.h *)
(* @src Feather/Sources/Model/MPRootSection+Protected.h 11 15 @interface MPRootSection () *)
Definition MPRootSection_extension : interface := {|
  i_name := "MPRootSection"; i_kind := Category ""; i_protocols := [];
  i_declarations := [
    inst "refreshCachedValues" [] Void;
    property "cachedChildren" (nl (Obj "NSArray" [] [Id ["MPTreeItem"]])) [ReadWrite];
    property "fixedChildren" (nl (Obj "NSArray" [] [Id ["MPTreeItem"]])) [ReadWrite]] |}.


(** ** Model/MPVirtualSection.h *)
(* @src Feather/Sources/Model/MPVirtualSection.h 20 41 @interface MPVirtualSection *)
Definition MPVirtualSection_interface : interface := {|
  i_name := "MPVirtualSection"; i_kind := ClassInterface "NSObject"; i_protocols := ["MPTreeItem"; "MPCacheable";
    "MPPlaceHolding"; "MPManagedObjectChangeObserver"; "MPTitledProtocol"];
  i_declarations := [
    property "parent" (nl (Id ["MPTreeItem"])) [ReadOnly; Weak];
    property "packageController" (nl (Kindof (obj "MPDatabasePackageController"))) [ReadOnly; Weak];
    property "representedObjectClass" (nl MetaClass) [ReadOnly; Weak];
    property "identifier" (nn (obj "NSString")) [ReadOnly];
    property "representedObjects" (nn (Obj "NSArray" [] [Id ["MPTreeItem"]])) [ReadOnly; Strong];
    unavailable (inst "init" [] (nn Instancetype));
    inst "initWithPackageController:parent:identifier:" [nn (obj "MPDatabasePackageController");
      nn (Id ["MPTreeItem"]); nn (obj "NSString")] (nn Instancetype);
    property "thumbnailImageName" (nn (obj "NSString")) [ReadOnly; Copy];
    property "thumbnailImage" (nn (obj "NSImage")) [ReadOnly; Strong]] |}.


(** ** Model/MPObjectWrappingSection.h *)
(* @src Feather/Sources/Model/MPObjectWrappingSection.h 22 44 @interface MPObjectWrappingSection *)
Definition MPObjectWrappingSection_interface : interface := {|
  i_name := "MPObjectWrappingSection"; i_kind := ClassInterface "MPVirtualSection"; i_protocols := [];
  i_declarations := [
    property "extendedTitle" (nl (obj "NSString")) [ReadOnly; Copy];
    property "wrappedObject" (nl (Obj "MPManagedObject" ["MPTitledProtocol"; "MPPlaceHolding"; "MPThumbnailable";
      "MPTreeItem"] [])) [ReadOnly; Strong];
    property "wrappedChildren" (nn (Obj "NSArray" [] [Id ["MPTreeItem"]])) [ReadWrite; Strong];
    unavailable (inst "init" [] (nn Instancetype));
    inst "initWithParent:wrappedObject:identifier:" [nn (Id ["MPTreeItem"]);
      nn (Obj "MPManagedObject" ["MPTitledProtocol"; "MPPlaceHolding"] []); nn (obj "NSString")] (nn Instancetype);
    cls "arrayOfWrappedObjects:withParent:identifierPrefix:" [nn (Obj "NSArray" [] [Id ["MPTitledProtocol";
      "MPPlaceHolding"]]); nn (Id ["MPTreeItem"]); nn (obj "NSString")] (nn (obj "NSArray"))] |}.


(** ** Model/MPVirtualSection+Protected.h *)
(* @src Feather/Sources/Model/MPVirtualSection+Protected.h 12 23 @interface MPVirtualSection () *)
Definition MPVirtualSection_extension : interface := {|
  i_name := "MPVirtualSection"; i_kind := Category ""; i_protocols := [];
  i_declarations := [
    property "parent" (nl (Id ["MPTreeItem"])) [ReadWrite; Weak];
    property "cachedThumbnailImage" (nl (obj "NSImage")) [ReadWrite; Strong];
    property "cachedChildren" (nl (Obj "NSArray" [] [Id ["MPTreeItem"]])) [ReadWrite; Strong];
    property "cachedRepresentedObjects" (nl (obj "NSArray")) [ReadWrite; Strong];
    property "childrenCacheIsStale" BOOL [ReadWrite];
    property "representedObjectsCacheIsStale" BOOL [ReadWrite];
    inst "observeManagedObjectChanges" [] Void] |}.

(* @src Feather/Sources/Model/MPVirtualSection+Protected.h 25 38 @interface MPObjectWrappingSection () *)
Definition MPObjectWrappingSection_extension : interface := {|
  i_name := "MPObjectWrappingSection"; i_kind := Category ""; i_protocols := [];
  i_declarations := [
    property "identifier" (nn (obj "NSString")) [ReadWrite];
    property "extendedTitle" (nl (obj "NSString")) [ReadWrite; Copy];
    property "representedObjectClass" (nl MetaClass) [ReadWrite; Strong];
    property "representedObjects" (nn (obj "NSArray")) [ReadWrite; Strong];
    property "observedManagedObjectClasses" (nn (obj "NSArray")) [ReadWrite; Strong]] |}.

(** All of them. *)
Definition HeadersModel_interfaces : list interface :=
  [MPPlaceHolding_protocol; MPMutablyPlaceHolding_protocol; MPTitledProtocol_protocol;
    MPThumbnailable_protocol; MPRESTfulResource_protocol; MPJSONRepresentable_protocol; MPCacheable_protocol;
    MPCacheableMixin_interface; MPBundlable_protocol; MPBundlableMixin_interface; MPCategorizable_protocol;
    MPCategorizableMixin_interface; MPIndexable_protocol; MPIndexableMixin_interface; MPTreeItem_protocol;
    MPOptionalTreeItem_protocol; MPEmbeddedPropertyContaining_protocol;
    MPEmbeddedPropertyContainingMixin_interface; MPEmbeddingObject_protocol; MPEmbeddedObject_interface;
    MPEmbeddedObject_extension; MPReferencableObject_protocol; MPReferencableObjectMixin_interface;
    MPManagedObject_interface; MPAutosavingManagedObjectProxy_interface; MPManagedObject_Protected_category;
    CBLModel_Private_category; CBLModel_PrivateExtensions_category;
    MPManagedObject_MPManagedObjectMixIn_category; MPDeepSaver_interface; MPContributor_interface;
    MPContributorIdentity_interface; MPSnapshot_interface; MPSnapshottedObject_interface;
    MPSnapshottedAttachment_interface; MPSnapshot_Protected_category; MPSnapshottedObject_Protected_category;
    MPRootSection_interface; MPRootSection_extension; MPVirtualSection_interface;
    MPObjectWrappingSection_interface; MPVirtualSection_extension; MPObjectWrappingSection_extension].
