(* ===== verification/HeadersControllers.v ===== *)
(** * The headers of the controllers

    src/Feather/Sources/Model Controllers/*.h, declaration by declaration and in
    the order of the header. *)
From stdpp Require Import base strings list.
From S2P Require Import Prelude ObjC Declarations.

Local Open Scope string_scope.
Local Open Scope list_scope.

(** ** Model Controllers/MPManagedObjectsController.h *)
(* @src Feather/Sources/Model Controllers/MPManagedObjectsController.h 59 175 @interface MPManagedObjectsController (part 1) *)
Definition MPManagedObjectsController_declarations_1 : list declaration := [
  property "db" (nn (obj "MPDatabase")) [ReadOnly; Strong];
  property "packageController" (nl (Kindof (obj "MPDatabasePackageController"))) [ReadOnly; Weak];
  property "autosavesObjects" BOOL [ReadOnly];
  property "observesManagedObjectChanges" BOOL [ReadOnly];
  cls "managedObjectClass" [] (nn MetaClass);
  cls "managedObjectClassName" [] (nn (obj "NSString"));
  cls "managedObjectSingular" [] (nn (obj "NSString"));
  cls "managedObjectPlural" [] (nn (obj "NSString"));
  inst "managedObjectClass" [] (nn MetaClass);
  inst "managedObjectSubclasses" [] (nn (Obj "NSSet" [] [obj "NSString"]));
  inst "managesDocumentWithDictionary:" [nn (obj "NSDictionary")] BOOL;
  inst "managesDocumentWithIdentifier:" [nn (obj "NSString")] BOOL;
  inst "managesObjectsOfClass:" [nn MetaClass] BOOL;
  inst "allObjectsBlock" [] (nn (Named "CBLMapBlock"));
  inst "bundledObjectsBlock" [] (nn (Named "CBLMapBlock"));
  property "managedObjectClassName" (nn (obj "NSString")) [ReadOnly; Copy];
  cls "managedObjectClasses" [] (nn (Obj "NSArray" [] [MetaClass]));
  cls "managedObjectClassNames" [] (nn (Obj "NSArray" [] [obj "NSString"]));
  cls "managedObjectClassByControllerClassNameDictionary" [] (nn (Obj "NSDictionary" [] [obj "NSString"; MetaClass]));
  cls "equivalenceClassForManagedObjectClass:" [nn MetaClass] (nn MetaClass);
  inst "resolveConflictingRevisions:" [nn (Out (nn (obj "NSError")))] BOOL;
  inst "resolveConflictingRevisionsForObject:error:" [nn (obj "MPManagedObject"); nn (Out (nn (obj "NSError")))] BOOL;
  inst "prototypeClass" [] (nn MetaClass);
  (* Managed Object CRUD *)
  inst "newObject" [] (nn (Kindof (obj "MPManagedObject")));
  inst "newObjectOfClass:" [nl MetaClass] (nn (Kindof (obj "MPManagedObject")));
  inst "newObjectWithPrototype:documentID:" [nn (obj "MPManagedObject");
    nl (obj "NSString")] (nn (Kindof (obj "MPManagedObject")));
  inst "objectsWithPrototypeID:" [nn (obj "NSString")] (nn (Obj "NSArray" [] [Kindof (obj "MPManagedObject")]));
  inst "initWithPackageController:database:error:" [nn (obj "MPDatabasePackageController"); nn (obj "MPDatabase");
    nn (Out (nn (obj "NSError")))] (nn Instancetype);
  unavailable (inst "init" [] (nn Instancetype));
  inst "didInitialize:" [nn (Out (nn (obj "NSError")))] BOOL;
  inst "configureViews" [] Void;
  property "userContributedObjects" (nn (Obj "NSArray" [] [Kindof (obj "MPManagedObject")])) [ReadOnly; Strong];
  property "allObjectsViewName" (nn (obj "NSString")) [ReadOnly; Copy];
  inst "allObjectsQuery" [] (nn (obj "CBLQuery"))].

(* @src Feather/Sources/Model Controllers/MPManagedObjectsController.h 176 264 @interface MPManagedObjectsController (part 2) *)
Definition MPManagedObjectsController_declarations_2 : list declaration := [
  inst "managedObjectByKeyMapForQueryEnumerator:" [nn (obj "CBLQueryEnumerator")] (nn (Obj "NSDictionary" [] [Id [];
    obj "MPManagedObject"]));
  inst "managedObjectsForQueryEnumerator:" [nn (obj "CBLQueryEnumerator")] (nn (obj "NSArray"));
  inst "viewNamed:setMapBlock:setReduceBlock:version:" [nn (obj "NSString"); nn (Named "CBLMapBlock");
    nl (Named "CBLReduceBlock"); nn (obj "NSString")] Void;
  inst "viewNamed:setMapBlock:version:" [nn (obj "NSString"); nn (Named "CBLMapBlock"); nn (obj "NSString")] Void;
  property "allObjects" (nn (Obj "NSArray" [] [Kindof (obj "MPManagedObject")])) [ReadOnly; Strong];
  inst "allObjects:" [error_out] (nl (Obj "NSArray" [] [Kindof (obj "MPManagedObject")]));
  property "objects" (nn (Obj "NSArray" [] [Kindof (obj "MPManagedObject")])) [ReadOnly; Strong];
  property "bundledResourceDatabaseName" (nn (obj "NSString")) [ReadOnly; Copy];
  property "hasBundledResourceDatabase" BOOL [ReadOnly];
  property "hasBundledJSONData" BOOL [ReadOnly];
  property "bundledJSONDataChecksumKey" (nl (obj "NSString")) [ReadOnly];
  property "requiresBundledDataLoading" BOOL [ReadOnly];
  property "bundledJSONDataQuery" (nl (obj "CBLQuery")) [ReadOnly; Strong];
  property "bundledJSONDataFilename" (nl (obj "NSString")) [ReadOnly; Strong];
  property "bundledResourceExtension" (nl (obj "NSString")) [ReadOnly; Strong];
  property "bundledJSONDerivedData" (nl (Obj "NSArray" [] [Kindof (obj "MPManagedObject")])) [ReadOnly];
  inst "objectWithIdentifier:" [nn (obj "NSString")] (nl (Kindof (obj "MPManagedObject")));
  inst "documentWithIdentifier:allDocsMode:" [nn (obj "NSString"); Named "CBLAllDocsMode"] (nl (obj "CBLDocument"));
  property "relaysFetchingByIdentifier" BOOL [ReadOnly];
  inst "resourcesBundle" [] (nn (obj "NSBundle"));
  inst "objectsWithTitle:" [nn (obj "NSString")] (nn (Obj "NSArray" [] [Kindof (obj "MPManagedObject")]));
  inst "objectsFromContentsOfArrayJSONAtURL:error:" [nn (obj "NSURL");
    error_out] (nl (Obj "NSArray" [] [Kindof (obj "MPManagedObject")]));
  inst "objectsFromArrayJSONData:error:" [nn (obj "NSData");
    error_out] (nl (Obj "NSArray" [] [Kindof (obj "MPManagedObject")]));
  inst "objectsFromJSONEncodableObjectArray:error:" [nn (obj "NSArray");
    nn (Out (nn (obj "NSError")))] (nl (Obj "NSArray" [] [Kindof (obj "MPManagedObject")]));
  inst "objectFromJSONDictionary:isExisting:error:" [nn (obj "NSDictionary"); nl (Out BOOL);
    error_out] (nl (Kindof (obj "MPManagedObject")));
  inst "loadBundledObjectsFromResource:withExtension:matchedToObjects:dataChecksumMetadataKey:error:" [nn (obj
    "NSString"); nn (obj "NSString"); nn (obj "NSArray"); nn (obj "NSString");
    error_out] (nl (Obj "NSArray" [] [Kindof (obj "MPManagedObject")]));
  inst "objectsMatchingQueriedView:keys:" [nn (obj "NSString");
    nl (obj "NSArray")] (nn (Obj "NSArray" [] [Kindof (obj "MPManagedObject")]))].

(* @src Feather/Sources/Model Controllers/MPManagedObjectsController.h 58 58 @interface MPManagedObjectsController *)
Definition MPManagedObjectsController_interface : interface := {|
  i_name := "MPManagedObjectsController"; i_kind := ClassInterface "NSObject"; i_protocols := ["MPCacheable";
    "MPManagedObjectRecentChangeObserver"];
  i_declarations := MPManagedObjectsController_declarations_1 ++ MPManagedObjectsController_declarations_2 |}.

(* @src Feather/Sources/Model Controllers/MPManagedObjectsController.h 268 271 @interface CBLDocument (MPManagedObjectExtensions) *)
Definition CBLDocument_MPManagedObjectExtensions_category : interface := {|
  i_name := "CBLDocument"; i_kind := Category "MPManagedObjectExtensions"; i_protocols := [];
  i_declarations := [
    inst "managedObjectClass" [] (nn MetaClass);
    inst "URL" [] (nl (obj "NSURL"))] |}.


(** ** Model Controllers/MPManagedObjectsController+Protected.h *)
(* @src Feather/Sources/Model Controllers/MPManagedObjectsController+Protected.h 15 32 @interface MPManagedObjectsController (Protected) *)
Definition MPManagedObjectsController_Protected_category : interface := {|
  i_name := "MPManagedObjectsController"; i_kind := Category "Protected"; i_protocols := [];
  i_declarations := [
    inst "willSaveObject:" [obj "MPManagedObject"] Void;
    inst "didSaveObject:" [obj "MPManagedObject"] Void;
    inst "didUpdateObject:" [obj "MPManagedObject"] Void;
    inst "willDeleteObject:" [obj "MPManagedObject"] Void;
    inst "didDeleteObject:" [obj "MPManagedObject"] Void;
    inst "didChangeDocument:forObject:source:" [obj "CBLDocument"; obj "MPManagedObject";
      Named "MPManagedObjectChangeSource"] Void;
    inst "didLoadObjectFromDocument:" [obj "MPManagedObject"] Void;
    inst "registerObject:" [obj "MPManagedObject"] Void;
    inst "deregisterObject:" [obj "MPManagedObject"] Void] |}.


(** ** Model Controllers/MPContributorsController.h *)
(* @src Feather/Sources/Model Controllers/MPContributorsController.h 21 60 @interface MPContributorsController *)
Definition MPContributorsController_interface : interface := {|
  i_name := "MPContributorsController"; i_kind := ClassInterface "MPManagedObjectsController";
    i_protocols := ["MPCacheable"];
  i_declarations := [
    property "me" (nn (obj "MPContributor")) [ReadOnly; Strong];
    property "existingMe" (nl (obj "MPContributor")) [ReadOnly; Strong];
    property "allContributors" (nn (Obj "NSArray" [] [obj "MPContributor"])) [Strong; ReadOnly];
    property "allAuthors" (nn (Obj "NSArray" [] [obj "MPContributor"])) [ReadOnly; Strong];
    property "allEditors" (nn (Obj "NSArray" [] [obj "MPContributor"])) [ReadOnly; Strong];
    property "allTranslators" (nn (Obj "NSArray" [] [obj "MPContributor"])) [ReadOnly; Strong];
    property "contributorComparator" (nn (Named "NSComparator")) [ReadWrite; Strong; Nonatomic];
    inst "contributorWithAddressBookID:" [nn (obj "NSString")] (nl (obj "MPContributor"));
    inst "contributorsWithFullName:" [nn (obj "NSString")] (nn (Obj "NSArray" [] [obj "MPContributor"]));
    cls "refreshPrioritiesForContributors:changedContributors:" [nn (Obj "NSArray" [] [obj "MPContributor"]);
      nl (Out (nl (obj "NSArray")))] NSUInteger;
    cls "moveContributors:amongstContributors:toIndex:indexChangeHandler:" [nn (obj "NSArray"); nn (obj "NSArray");
      NSUInteger; nl (Named "MPContributorPriorityChangeHandler")] Void] |}.

(* @src Feather/Sources/Model Controllers/MPContributorsController.h 65 72 @interface MPContributorIdentitiesController *)
Definition MPContributorIdentitiesController_interface : interface := {|
  i_name := "MPContributorIdentitiesController"; i_kind := ClassInterface "MPManagedObjectsController";
    i_protocols := [];
  i_declarations := [
    inst "contributorIdentitiesForContributor:" [nn (obj "MPContributor")] (nn (obj "NSArray"));
    inst "contributorIdentitiesWithIdentifier:" [nn (obj "NSString")] (nn (obj "NSArray"));
    inst "contributorsWithContributorIdentifier:" [nn (obj "NSString")] (nn (obj "NSArray"));
    inst "contributorsWithContributorIdentity:" [nn (obj "MPContributorIdentity")] (nn (obj "NSArray"))] |}.


(** ** Model Controllers/MPSnapshotsController.h *)
(* @src Feather/Sources/Model Controllers/MPSnapshotsController.h 15 40 @interface MPSnapshotsController *)
Definition MPSnapshotsController_interface : interface := {|
  i_name := "MPSnapshotsController"; i_kind := ClassInterface "MPManagedObjectsController"; i_protocols := [];
  i_declarations := [
    inst "newSnapshotWithName:snapshotHandler:" [obj "NSString"; Block Void [obj "MPSnapshot"; obj "NSError"]] Void;
    inst "snapshotOfObject:forSnapshot:" [obj "MPManagedObject"; obj "MPSnapshot"] (obj "MPSnapshottedObject");
    inst "snapshottedObjectsForSnapshot:" [obj "MPSnapshot"] (obj "NSArray");
    inst "snapshottedAttachmentForSHA:" [obj "NSString"] (obj "MPSnapshottedAttachment");
    inst "snapshottedAttachmentsForSnapshot:" [obj "MPSnapshot"] (obj "NSArray")] |}.


(** ** Model Controllers/MPSnapshotsController+Protected.h *)
(* @src Feather/Sources/Model Controllers/MPSnapshotsController+Protected.h 13 20 @interface MPSnapshotsController (Protected) *)
Definition MPSnapshotsController_Protected_category : interface := {|
  i_name := "MPSnapshotsController"; i_kind := Category "Protected"; i_protocols := [];
  i_declarations := [
    property "snapshottedObjectsController" (obj "MPSnapshottedObjectsController") [ReadOnly; Strong];
    property "snapshottedAttachmentsController" (obj "MPSnapshottedAttachmentsController") [ReadOnly; Strong]] |}.

(* @src Feather/Sources/Model Controllers/MPSnapshotsController+Protected.h 26 38 @interface MPSnapshottedObjectsController *)
Definition MPSnapshottedObjectsController_interface : interface := {|
  i_name := "MPSnapshottedObjectsController"; i_kind := ClassInterface "MPManagedObjectsController";
    i_protocols := [];
  i_declarations := [
    property "snapshotsController" (obj "MPSnapshotsController") [ReadOnly; Weak];
    inst "initWithSnapshotsController:error:" [obj "MPSnapshotsController"; Out (obj "NSError")] Instancetype;
    inst "snapshottedObjectsForSnapshot:" [obj "MPSnapshot"] (obj "NSArray")] |}.

(* @src Feather/Sources/Model Controllers/MPSnapshotsController+Protected.h 44 59 @interface MPSnapshottedAttachmentsController *)
Definition MPSnapshottedAttachmentsController_interface : interface := {|
  i_name := "MPSnapshottedAttachmentsController"; i_kind := ClassInterface "MPManagedObjectsController";
    i_protocols := [];
  i_declarations := [
    property "snapshotsController" (obj "MPSnapshotsController") [ReadOnly; Weak];
    inst "initWithSnapshotsController:error:" [obj "MPSnapshotsController"; Out (obj "NSError")] Instancetype;
    inst "snapshottedAttachmentsForSnapshot:" [obj "MPSnapshot"] (obj "NSArray");
    inst "snapshottedAttachmentForSHA:" [obj "NSString"] (obj "MPSnapshottedAttachment")] |}.


(** ** Model Controllers/MPDatabasePackageBackedDocument.h *)
(* @src Feather/Sources/Model Controllers/MPDatabasePackageBackedDocument.h 23 92 @interface MPDatabasePackageBackedDocument *)
Definition MPDatabasePackageBackedDocument_interface : interface := {|
  i_name := "MPDatabasePackageBackedDocument"; i_kind := ClassInterface "NSDocument"; i_protocols := [];
  i_declarations := [
    inst "initializeStateCreatingDirectoryTree:error:" [BOOL; error_out] BOOL;
    inst "initializeManuscriptMetadataDirectoryCreatingDirectory:error:" [BOOL; error_out] BOOL;
    inst "initializePackageController:error:" [nn (obj "MPDatabasePackageController"); error_out] BOOL;
    property "packageAccessDenied" BOOL [ReadWrite];
    property "packageAccessError" (nl (obj "NSError")) [ReadOnly; Nonatomic];
    property "temporaryManuscriptPath" (nl (obj "NSString")) [Copy; ReadOnly];
    property "temporaryManuscriptMetadataDirectoryPath" (nl (obj "NSString")) [Copy];
    property "packageController" (nl (Kindof (obj "MPDatabasePackageController"))) [Strong; ReadOnly; Nonatomic];
    property "packageControllerExists" BOOL [ReadOnly];
    property "packageControllerClass" (nn MetaClass) [ReadOnly];
    property "bundleInitialized" BOOL [ReadOnly];
    property "bundleRequiresInitialization" BOOL [ReadWrite; Nonatomic];
    cls "requiresCopyingDocumentOfType:atOriginalURL:" [nn (obj "NSString"); nn (obj "NSURL")] BOOL;
    property "originalBundleFileURL" (nl (obj "NSURL")) [ReadWrite];
    property "originalType" (nl (obj "NSString")) [ReadWrite];
    property "reverted" BOOL [ReadOnly];
    property "shouldReopenOnRevert" BOOL [ReadOnly];
    property "mainWindowController" (nl (Kindof (obj "NSWindowController"))) [ReadOnly]] |}.

(* @src Feather/Sources/Model Controllers/MPDatabasePackageBackedDocument.h 97 104 @interface MPSharedPackageControllerAdapter *)
Definition MPSharedPackageControllerAdapter_interface : interface := {|
  i_name := "MPSharedPackageControllerAdapter"; i_kind := ClassInterface "NSObject"; i_protocols := [];
  i_declarations := [
    property "sharedPackageController" (nn (obj "MPShoeboxPackageController")) [ReadOnly];
    property "document" (nl (obj "MPDatabasePackageBackedDocument")) [ReadOnly; Weak];
    inst "initWithContainer:sharedPackageController:" [nn (obj "MPDatabasePackageBackedDocument");
      nn (obj "MPShoeboxPackageController")] (nn Instancetype)] |}.

(** All of them. *)
Definition HeadersControllers_interfaces : list interface :=
  [MPManagedObjectsController_interface; CBLDocument_MPManagedObjectExtensions_category;
    MPManagedObjectsController_Protected_category; MPContributorsController_interface;
    MPContributorIdentitiesController_interface; MPSnapshotsController_interface;
    MPSnapshotsController_Protected_category; MPSnapshottedObjectsController_interface;
    MPSnapshottedAttachmentsController_interface; MPDatabasePackageBackedDocument_interface;
    MPSharedPackageControllerAdapter_interface].
