(* ===== verification/HeadersPackages.v ===== *)
(** * The headers of databases and packages

    src/Feather/Sources/Database Packages/*.h, declaration by declaration and in
    the order of the header. *)
From stdpp Require Import base strings list.
From S2P Require Import Prelude ObjC Declarations.

Local Open Scope string_scope.
Local Open Scope list_scope.

(** ** Database Packages/MPDatabase.h *)
(* @src Feather/Sources/Database Packages/MPDatabase.h 30 142 @interface MPDatabase *)
Definition MPDatabase_interface : interface := {|
  i_name := "MPDatabase"; i_kind := ClassInterface "NSObject"; i_protocols := [];
  i_declarations := [
    property "name" (nn (obj "NSString")) [ReadOnly; Copy];
    property "server" (nl (obj "CBLManager")) [ReadOnly; Weak];
    property "database" (nn (obj "CBLDatabase")) [ReadOnly; Strong];
    property "metadata" (nn (obj "MPMetadata")) [ReadOnly; Strong];
    property "identifier" (nn (obj "NSString")) [ReadOnly; Copy];
    property "localMetadata" (nn (obj "MPMetadata")) [ReadOnly; Strong];
    property "packageController" (nl (Kindof (obj "MPDatabasePackageController"))) [ReadOnly; Weak];
    inst "initWithServer:packageController:name:ensureCreated:error:" [nn (obj "CBLManager");
      nn (obj "MPDatabasePackageController"); nn (obj "NSString"); BOOL;
      nn (Out (nn (obj "NSError")))] (nn Instancetype);
    inst "initWithServer:packageController:name:ensureCreated:pushFilterName:pullFilterName:error:" [nn (obj
      "CBLManager"); nn (obj "MPDatabasePackageController"); nn (obj "NSString"); BOOL; nl (obj "NSString");
      nl (obj "NSString"); nn (Out (nn (obj "NSError")))] (nn Instancetype);
    cls "sanitizedDatabaseIDWithString:" [nn (obj "NSString")] (nn (obj "NSString"));
    inst "pushToRemote:error:" [nl (Out (nl (obj "CBLReplication"))); nn (Out (nn (obj "NSError")))] BOOL;
    inst "pullFromRemote:error:" [nl (Out (nl (obj "CBLReplication"))); nn (Out (nn (obj "NSError")))] BOOL;
    inst "pullFromDatabaseAtURL:replication:error:" [nn (obj "NSURL"); nn (Out (nn (obj "CBLReplication")));
      nn (Out (nn (obj "NSError")))] BOOL;
    inst "pushToDatabaseAtURL:replication:error:" [nn (obj "NSURL"); nn (Out (nn (obj "CBLReplication")));
      nn (Out (nn (obj "NSError")))] BOOL;
    inst "pullFromDatabaseAtPath:replication:error:" [nn (obj "NSString"); nn (Out (nn (obj "CBLReplication")));
      nn (Out (nn (obj "NSError")))] BOOL;
    inst "syncWithRemote:" [nn (Out (nn (obj "NSError")))] BOOL;
    property "pullFilterName" (nn (obj "NSString")) [ReadOnly; Copy];
    property "pushFilterName" (nn (obj "NSString")) [ReadOnly; Copy];
    property "qualifiedPullFilterName" (nn (obj "NSString")) [ReadOnly; Copy];
    property "qualifiedPushFilterName" (nn (obj "NSString")) [ReadOnly; Copy];
    inst "defineFilterNamed:block:" [nn (obj "NSString"); nn (Named "CBLFilterBlock")] Void;
    inst "filterWithQualifiedName:" [nn (obj "NSString")] (nn (Named "CBLFilterBlock"));
    property "remoteDatabaseURL" (nl (obj "NSURL")) [ReadOnly; Strong];
    property "remoteServiceURL" (nl (obj "NSURL")) [ReadOnly; Strong];
    property "remoteDatabaseExists" BOOL [ReadOnly];
    property "remoteDatabaseCredentials" (nl (obj "NSURLCredential")) [ReadOnly; Strong]] |}.

(* @src Feather/Sources/Database Packages/MPDatabase.h 147 153 @interface MYDynamicObject (MPDatabase) *)
Definition MYDynamicObject_MPDatabase_category : interface := {|
  i_name := "MYDynamicObject"; i_kind := Category "MPDatabase"; i_protocols := [];
  i_declarations := [
    inst "setValuesForPropertiesWithDictionary:" [nn (obj "NSDictionary")] Void] |}.

(* @src Feather/Sources/Database Packages/MPDatabase.h 156 172 @interface CBLDatabase (MPDatabase) *)
Definition CBLDatabase_MPDatabase_category : interface := {|
  i_name := "CBLDatabase"; i_kind := Category "MPDatabase"; i_protocols := [];
  i_declarations := [
    property "packageController" (nl (Id [])) [ReadOnly; Weak];
    property "isOpen" BOOL [Nonatomic; ReadOnly];
    inst "getManagedObjectsWithIDs:" [nn (obj "NSArray")] (nn (Obj "NSArray" [] [obj "MPManagedObject"]));
    inst "getDocumentsWithIDs:" [nn (obj "NSArray")] (nl (obj "CBLQueryEnumerator"));
    inst "plainObjectsFromQueryEnumeratorKeys:" [nn (obj "CBLQueryEnumerator")] (nn (Obj "NSArray" [] [obj
      "CBLQueryRow"]))] |}.

(* @src Feather/Sources/Database Packages/MPDatabase.h 174 179 @interface CBLManager (MPDatabase) *)
Definition CBLManager_MPDatabase_category : interface := {|
  i_name := "CBLManager"; i_kind := Category "MPDatabase"; i_protocols := [];
  i_declarations := [
    property "packageController" (nl (Id [])) [ReadOnly; Weak]] |}.

(* @src Feather/Sources/Database Packages/MPDatabase.h 181 187 @interface CBLQuery (MPDatabase) *)
Definition CBLQuery_MPDatabase_category : interface := {|
  i_name := "CBLQuery"; i_kind := Category "MPDatabase"; i_protocols := [];
  i_declarations := [
    inst "run" [] (nl (obj "CBLQueryEnumerator"))] |}.

(* @src Feather/Sources/Database Packages/MPDatabase.h 193 198 @interface MPMetadata *)
Definition MPMetadata_interface : interface := {|
  i_name := "MPMetadata"; i_kind := ClassInterface "CBLModel"; i_protocols := ["MPJSONRepresentable"];
  i_declarations := [
    inst "save" [] BOOL] |}.

(* @src Feather/Sources/Database Packages/MPDatabase.h 203 204 @interface MPLocalMetadata *)
Definition MPLocalMetadata_interface : interface := {|
  i_name := "MPLocalMetadata"; i_kind := ClassInterface "MPMetadata"; i_protocols := [];
  i_declarations := [] |}.


(** ** Database Packages/MPDatabasePackageController.h *)
(* @src Feather/Sources/Database Packages/MPDatabasePackageController.h 28 48 @protocol MPDatabasePackageControllerDelegate *)
Definition MPDatabasePackageControllerDelegate_protocol : interface := {|
  i_name := "MPDatabasePackageControllerDelegate"; i_kind := ProtocolInterface; i_protocols := ["NSObject"];
  i_declarations := [
    property "packageRootURL" (nl (obj "NSURL")) [ReadOnly; Strong];
    optional (inst "updateChangeCount:" [Named "NSDocumentChangeType"] Void);
    optional (inst "packageControllerRequiresListener:" [nn (obj "MPDatabasePackageController")] BOOL);
    optional (inst "packageControllerRequiresPlaceholderContent:" [nn (obj "MPDatabasePackageController")] BOOL)] |}.

(* @src Feather/Sources/Database Packages/MPDatabasePackageController.h 77 192 @interface MPDatabasePackageController (part 1) *)
Definition MPDatabasePackageController_declarations_1 : list declaration := [
  property "path" (nn (obj "NSString")) [Strong; ReadOnly];
  inst "pathForDatabase:" [nn (obj "MPDatabase")] (nn (obj "NSString"));
  property "URL" (nn (obj "NSURL")) [Strong; ReadOnly];
  property "sessionID" (nn (obj "NSString")) [ReadOnly];
  property "server" (nn (obj "CBLManager")) [Strong; ReadOnly];
  property "allObjects" (nn (Obj "NSArray" [] [Kindof (obj "CBLModel")])) [ReadOnly];
  property "serverQueueToken" (Named "unsigned long long") [ReadOnly];
  property "remoteURL" (nl (obj "NSURL")) [Strong; ReadOnly];
  property "remoteServiceURL" (nl (obj "NSURL")) [Strong; ReadOnly];
  property "synchronizesWithRemote" BOOL [ReadOnly];
  property "synchronizesSnapshots" BOOL [ReadOnly];
  property "synchronizesUsingCloudKit" BOOL [ReadOnly];
  property "synchronizesPeerlessly" BOOL [ReadOnly];
  property "databaseListenerURL" (nl (obj "NSURL")) [ReadOnly; Strong];
  property "databaseListenerPort" NSUInteger [ReadOnly];
  property "treeItemPool" (nn (obj "TreeItemPool")) [ReadOnly];
  property "indexesObjectFullTextContents" BOOL [ReadOnly];
  property "databasesResetDuringInitialization" (nl (Obj "NSArray" [] [obj "MPDatabase"])) [ReadOnly];
  inst "makeTemporaryCopyIntoRootDirectoryWithURL:overwriteIfExists:failIfExists:error:" [nn (obj "NSURL"); BOOL;
    BOOL; nn (Out (nn (obj "NSError")))] BOOL;
  inst "initWithPath:readOnly:delegate:error:" [nn (obj "NSString"); BOOL;
    nl (Id ["MPDatabasePackageControllerDelegate"]); nn (Out (nn (obj "NSError")))] (nl Instancetype);
  inst "initWithFileURL:readOnly:delegate:error:" [nn (obj "NSURL"); BOOL;
    nl (Id ["MPDatabasePackageControllerDelegate"]); error_out] (nl Instancetype);
  unavailable (inst "init" [] (nn Instancetype));
  inst "close:" [error_out] BOOL;
  inst "controllerForManagedObjectClass:" [nn MetaClass] (nl (Kindof (obj "MPManagedObjectsController")));
  cls "controllerClassForManagedObjectClass:" [nn MetaClass] (nl MetaClass);
  cls "controllerPropertyNameForManagedObjectClass:" [nn MetaClass] (nl (obj "NSString"));
  inst "controllerExistsForManagedObjectClass:" [nn MetaClass] BOOL;
  cls "controllerPropertyNameForManagedObjectControllerClass:" [nn MetaClass] (nl (obj "NSString"));
  inst "controllerForDocument:" [nn (obj "CBLDocument")] (nn (obj "MPManagedObjectsController"));
  inst "remoteDatabaseURLForLocalDatabase:" [nn (obj "MPDatabase")] (nn (obj "NSURL"));
  inst "remoteServiceURLForLocalDatabase:" [nn (obj "MPDatabase")] (nn (obj "NSURL"));
  inst "remoteDatabaseCredentialsForLocalDatabase:" [nn (obj "MPDatabase")] (nn (obj "NSURLCredential"));
  cls "databaseURLsForBaseURI:" [nn (obj "NSURL")] (nn (Obj "NSArray" [] [obj "NSURL"]))].

(* @src Feather/Sources/Database Packages/MPDatabasePackageController.h 193 308 @interface MPDatabasePackageController (part 2) *)
Definition MPDatabasePackageController_declarations_2 : list declaration := [
  inst "pushToRemoteWithErrorDictionary:" [nl (Out (nl (obj "NSDictionary")))] BOOL;
  inst "pullFromRemoteWithErrorDictionary:" [nl (Out (nl (Obj "NSDictionary" [] [obj "NSString";
    obj "NSError"])))] Void;
  inst "syncWithRemote:" [nl (Out (nl (Obj "NSDictionary" [] [obj "NSString"; obj "NSError"])))] BOOL;
  inst "compact:" [error_out] BOOL;
  inst "pushFilterNameForDatabaseNamed:" [nn (obj "NSString")] (nl (obj "NSString"));
  inst "applyFilterWhenPullingFromDatabaseAtURL:toDatabase:" [nn (obj "NSURL"); nn (obj "MPDatabase")] BOOL;
  inst "applyFilterWhenPushingToDatabaseAtURL:fromDatabase:" [nn (obj "NSURL"); nn (obj "MPDatabase")] BOOL;
  inst "createPushFilterBlockWithName:forDatabase:" [nn (obj "NSString");
    nn (obj "MPDatabase")] (nn (Named "CBLFilterBlock"));
  inst "createPullFilterBlockWithName:forDatabase:" [nn (obj "NSString");
    nn (obj "MPDatabase")] (nn (Named "CBLFilterBlock"));
  inst "pullFilterNameForDatabaseNamed:" [nn (obj "NSString")] (nl (obj "NSString"));
  property "syncTimerPeriod" (Named "NSTimeInterval") [ReadOnly];
  property "managedObjectsControllers" (nn (Obj "NSSet" [] [obj "MPManagedObjectsController"])) [Strong; ReadOnly];
  property "databases" (nn (Obj "NSSet" [] [obj "MPDatabase"])) [Strong; ReadOnly];
  property "orderedDatabases" (nn (Obj "NSArray" [] [obj "MPDatabase"])) [Copy; ReadOnly];
  property "replicatedDatabases" (nn (Obj "NSArray" [] [obj "MPDatabase"])) [Copy; ReadOnly];
  property "databaseNames" (nn (Obj "NSSet" [] [obj "NSString"])) [Strong; ReadOnly];
  property "databasesByName" (nn (Obj "NSDictionary" [] [obj "NSString"; obj "MPDatabase"])) [Copy; ReadOnly];
  property "contributorsController" (nn (obj "MPContributorsController")) [Strong; ReadOnly];
  property "contributorIdentitiesController" (nn (obj "MPContributorIdentitiesController")) [Strong; ReadOnly];
  cls "databaseNames" [] (nn (Obj "NSSet" [] [obj "NSString"]));
  cls "primaryDatabaseName" [] (nl (obj "NSString"));
  inst "databaseWithName:" [nn (obj "NSString")] (nn (obj "MPDatabase"));
  inst "bootstrapDatabaseURLForDatabaseWithName:" [nn (obj "NSString")] (nl (obj "NSURL"));
  property "identifier" (nn (obj "NSString")) [Strong; ReadOnly];
  property "title" (nl (obj "NSString")) [Strong; ReadOnly];
  property "isIdentifiable" BOOL [ReadOnly];
  property "fullyQualifiedIdentifier" (nn (obj "NSString")) [Strong; ReadOnly];
  property "delegate" (nl (Id ["MPDatabasePackageControllerDelegate"])) [ReadOnly; Weak];
  property "notificationCenter" (nn (obj "NSNotificationCenter")) [Strong; ReadOnly];
  property "snapshotsController" (nn (obj "MPSnapshotsController")) [Strong; ReadOnly];
  inst "newSnapshotWithName:error:" [nn (obj "NSString"); error_out] (nl (obj "MPSnapshot"));
  inst "restoreFromSnapshotWithName:error:" [nn (obj "NSString"); error_out] BOOL;
  cls "databasePackageControllerWithFullyQualifiedIdentifier:" [nn (obj "NSString")] (nl Instancetype)].

(* @src Feather/Sources/Database Packages/MPDatabasePackageController.h 309 363 @interface MPDatabasePackageController (part 3) *)
Definition MPDatabasePackageController_declarations_3 : list declaration := [
  property "rootSections" (nn (Obj "NSArray" [] [obj "MPRootSection"])) [Strong; ReadOnly];
  property "activeDraft" (nl (obj "MPDraft")) [Strong; ReadWrite];
  inst "objectWithIdentifier:" [nn (obj "NSString")] (nl (Kindof (obj "MPManagedObject")));
  inst "checkpointDatabases:error:" [nn (Obj "NSArray" [] [obj "MPDatabase"]); error_out] BOOL;
  cls "orderedRootSectionClassNames" [] (nn (Obj "NSArray" [] [obj "NSString"]));
  inst "startListenerWithCompletionHandler:" [nn (Block Void [nl (obj "NSError")])] Void;
  inst "stopListener" [] Void;
  inst "ensureInitialStateInitialized" [] (nl (Id []));
  inst "ensurePlaceholderInitialized" [] (nl (Id []));
  inst "saveToURL:error:" [nn (obj "NSURL"); error_out] BOOL;
  property "relativePreviewURL" (nn (obj "NSURL")) [ReadOnly];
  property "relativeThumbnailURL" (nn (obj "NSURL")) [ReadOnly];
  property "absolutePreviewURL" (nn (obj "NSURL")) [ReadOnly];
  property "absoluteThumbnailURL" (nn (obj "NSURL")) [ReadOnly];
  property "manifestDictionaryURL" (nn (obj "NSURL")) [ReadOnly];
  property "dictionaryRepresentationURL" (nn (obj "NSURL")) [ReadOnly];
  property "manifestDictionary" (nn (obj "NSDictionary")) [ReadOnly];
  property "dictionaryRepresentation" (nn (obj "NSDictionary")) [ReadOnly]].

(* @src Feather/Sources/Database Packages/MPDatabasePackageController.h 76 76 @interface MPDatabasePackageController *)
Definition MPDatabasePackageController_interface : interface := {|
  i_name := "MPDatabasePackageController"; i_kind := ClassInterface "NSObject"; i_protocols := ["CBLViewCompiler";
    "NSNetServiceDelegate"; "NSNetServiceBrowserDelegate"];
  i_declarations := MPDatabasePackageController_declarations_1 ++ MPDatabasePackageController_declarations_2 ++ MPDatabasePackageController_declarations_3 |}.

(* @src Feather/Sources/Database Packages/MPDatabasePackageController.h 372 384 @interface MPDatabasePackageControllerBlockBasedDelegate *)
Definition MPDatabasePackageControllerBlockBasedDelegate_interface : interface := {|
  i_name := "MPDatabasePackageControllerBlockBasedDelegate"; i_kind := ClassInterface "NSObject";
    i_protocols := ["MPDatabasePackageControllerDelegate"];
  i_declarations := [
    inst "initWithPackageController:rootURLHandler:updateChangeCountHandler:" [nl (obj
      "MPDatabasePackageController"); nn (Named "MPDatabasePackageControllerRootURLHandler");
      nn (Named "MPDatabasePackageControllerUpdateChangeCountHandler")] (nn Instancetype);
    property "packageController" (nl (Kindof (obj "MPDatabasePackageController"))) [ReadWrite; Weak];
    property "rootURLHandler" (nn (Named "MPDatabasePackageControllerRootURLHandler")) [ReadOnly];
    property "updateChangeCountHandler" (nn (Named "MPDatabasePackageControllerUpdateChangeCountHandler")) [ReadOnly]] |}.


(** ** Database Packages/MPDatabasePackageController+Protected.h *)
(* @src Feather/Sources/Database Packages/MPDatabasePackageController+Protected.h 14 39 @interface MPDatabasePackageController (Protected) *)
Definition MPDatabasePackageController_Protected_category : interface := {|
  i_name := "MPDatabasePackageController"; i_kind := Category "Protected"; i_protocols := [];
  i_declarations := [
    inst "registerManagedObjectsController:" [obj "MPManagedObjectsController"] Void;
    property "pulls" (obj "NSMutableArray") [Strong; ReadWrite];
    property "completedPulls" (obj "NSMutableArray") [Strong; ReadWrite];
    property "pullCompletionHandler" (Named "MPPullCompletionHandler") [Strong; ReadWrite];
    inst "registerViewName:" [obj "NSString"] Void;
    property "primaryDatabase" (obj "MPDatabase") [Strong; ReadWrite];
    inst "didStartPackageListener" [] Void;
    inst "makeNotificationCenter" [] Void;
    inst "didChangeDocument:source:" [obj "CBLDocument"; Named "MPManagedObjectChangeSource"] Void;
    inst "serverForDatabaseWithName:" [obj "NSString"] (obj "CBLManager");
    cls "databasePackageControllerRegistry" [] (obj "NSMapTable")] |}.


(** ** Database Packages/MPShoeboxPackageController.h *)
(* @src Feather/Sources/Database Packages/MPShoeboxPackageController.h 16 65 @interface MPShoeboxPackageController *)
Definition MPShoeboxPackageController_interface : interface := {|
  i_name := "MPShoeboxPackageController"; i_kind := ClassInterface "MPDatabasePackageController";
    i_protocols := ["MPManagedObjectSharingObserver"];
  i_declarations := [
    cls "sharedShoeboxControllerFailedToInitialize" [] Void;
    cls "sharedShoeboxControllerInitialized" [] BOOL;
    cls "finalizeSharedShoeboxController" [] Void;
    cls "createSharedDatabasesPathWithError:" [Out (obj "NSError")] BOOL;
    inst "initWithError:" [Out (obj "NSError")] Instancetype;
    property "synchronizesUserData" BOOL [ReadOnly];
    property "sharesUserData" BOOL [ReadOnly];
    cls "udid" [] (obj "NSString");
    inst "initializeBundledData" [] Void;
    property "remoteGlobalSharedDatabaseName" (obj "NSString") [ReadOnly; Copy];
    property "remoteGlobalSharedDatabaseURL" (obj "NSURL") [ReadOnly; Copy];
    cls "registerShoeboxPackageControllerClass:" [MetaClass] Void;
    cls "deregisterShoeboxPackageControllerClass" [] Void;
    cls "sharedShoeboxPackageControllerClass" [] MetaClass;
    cls "name" [] (obj "NSString");
    cls "sharedDatabasesPath" [] (obj "NSString");
    cls "sharedShoeboxController" [] Instancetype] |}.


(** ** Database Packages/MPShoeboxPackageController+Protected.h *)
(* @src Feather/Sources/Database Packages/MPShoeboxPackageController+Protected.h 11 13 @interface MPShoeboxPackageController () *)
Definition MPShoeboxPackageController_extension : interface := {|
  i_name := "MPShoeboxPackageController"; i_kind := Category ""; i_protocols := [];
  i_declarations := [
    property "sharedDatabase" (obj "MPDatabase") [ReadWrite; Strong; Nonatomic]] |}.

(** All of them. *)
Definition HeadersPackages_interfaces : list interface :=
  [MPDatabase_interface; MYDynamicObject_MPDatabase_category; CBLDatabase_MPDatabase_category;
    CBLManager_MPDatabase_category; CBLQuery_MPDatabase_category; MPMetadata_interface;
    MPLocalMetadata_interface; MPDatabasePackageControllerDelegate_protocol;
    MPDatabasePackageController_interface; MPDatabasePackageControllerBlockBasedDelegate_interface;
    MPDatabasePackageController_Protected_category; MPShoeboxPackageController_interface;
    MPShoeboxPackageController_extension].
