(* ===== verification/HeadersCategories.v ===== *)
(** * The headers of the categories and utilities

    src/Feather/Sources/Categories/*.h, Utilities/*.h and Scripting/*.h as far as
    they do not extend AppKit, declaration by declaration and in the order of the
    header. *)
From stdpp Require Import base strings list.
From S2P Require Import Prelude ObjC Declarations.

Local Open Scope string_scope.
Local Open Scope list_scope.

(** ** Categories/NSObject+MPExtensions.h *)
(* @src Feather/Sources/Categories/NSObject+MPExtensions.h 27 105 @interface NSObject (Feather) *)
Definition NSObject_Feather_category : interface := {|
  i_name := "NSObject"; i_kind := Category "Feather"; i_protocols := [];
  i_declarations := [
    cls "subclasses" [] (nn (Obj "NSArray" [] [MetaClass]));
    cls "descendingClasses" [] (nn (Obj "NSArray" [] [MetaClass]));
    cls "propertyWithKeyIsReadWrite:" [nn (obj "NSString")] BOOL;
    cls "commonAncestorForClass:andClass:" [nn MetaClass; nn MetaClass] (nn MetaClass);
    cls "propertiesOfSubclassesForClass:matching:" [nn MetaClass; nn (Block BOOL [nn MetaClass;
      nn (obj "NSString")])] (nn (Obj "NSDictionary" [] [obj "NSString"; Obj "NSSet" [] [obj "NSString"]]));
    cls "propertyKeys" [] (nn (Obj "NSSet" [] [obj "NSString"]));
    inst "performNonLeakingSelector:" [nn (Named "SEL")] (nn (Id []));
    inst "performNonLeakingSelector:withObject:" [nn (Named "SEL"); nl (Id [])] (nn (Id []));
    cls "classOfProperty:" [nn (obj "NSString")] (nl MetaClass);
    cls "classesMatchingPattern:" [nn (Block BOOL [nn MetaClass])] (nn (Obj "NSArray" [] [MetaClass]));
    inst "matchingValueForKey:value:" [nn (obj "NSString"); nn (Block Void [BOOL; nl (Id [])])] Void;
    cls "performInQueue:afterDelay:block:" [nn (Named "dispatch_queue_t"); Named "NSTimeInterval";
      nn (Block Void [])] Void;
    cls "performInMainQueueAfterDelay:block:" [Named "NSTimeInterval"; nn (Block Void [])] Void;
    cls "replaceInstanceMethodWithSelector:implementationProvider:" [nn (Named "SEL");
      nn (Named "MPMethodImplementationProvider")] Void;
    cls "replaceInstanceMethodWithSelector:implementationBlockProvider:" [nn (Named "SEL");
      nn (Named "MPMethodImplementationBlockProvider")] Void;
    cls "replaceClassMethodWithSelector:implementationProvider:" [nn (Named "SEL");
      nn (Named "MPMethodImplementationProvider")] Void;
    cls "replaceClassMethodWithSelector:implementationBlockProvider:" [nn (Named "SEL");
      nn (Named "MPMethodImplementationBlockProvider")] Void;
    cls "runUntilDone:" [nn (Block Void [nn (Named "dispatch_block_t")])] Void;
    cls "runUntilDone:withTimeout:timeoutBlock:" [nn (Block Void [nn (Named "dispatch_block_t")]);
      Named "NSTimeInterval"; nn (Block Void [])] Void] |}.

(* @src Feather/Sources/Categories/NSObject+MPExtensions.h 126 141 @interface NSObject (FDPropertyListDiff) *)
Definition NSObject_FDPropertyListDiff_category : interface := {|
  i_name := "NSObject"; i_kind := Category "FDPropertyListDiff"; i_protocols := [];
  i_declarations := [
    inst "differencesWithPropertyListEncodable:identifier:excludedKeys:" [nn (Id []); nn (obj "NSString");
      nn (Obj "NSSet" [] [obj "NSString"])] (nn (obj "NSString"))] |}.


(** ** Categories/NSArray+MPExtensions.h *)
(* @src Feather/Sources/Categories/NSArray+MPExtensions.h 22 45 @interface NSArray (FeatherTypeParameterized) *)
Definition NSArray_FeatherTypeParameterized_category : interface := {|
  i_name := "NSArray"; i_kind := Category "FeatherTypeParameterized"; i_protocols := [];
  i_declarations := [
    property "reversedArray" (nn (Obj "NSArray" [] [TypeParam "T"])) [ReadOnly; Copy];
    property "arrayByRandomizingOrder" (nn (Obj "NSArray" [] [TypeParam "T"])) [ReadOnly; Copy];
    inst "mapObjectsUsingBlock:" [nn (Block (Id []) [nn (TypeParam "T"); NSUInteger])] (nn (obj "NSArray"));
    inst "nilFilteredMapUsingBlock:" [nn (Block (Id []) [nn (Id []); NSUInteger])] (nn (obj "NSArray"));
    inst "firstObjectMatching:" [nn (Block BOOL [nn (TypeParam "T")])] (nl (TypeParam "T"));
    inst "firstObjectMatching:index:" [nn (Block BOOL [nn (TypeParam "T")]);
      nl (Out NSUInteger)] (nl (TypeParam "T"));
    inst "filteredArrayMatching:" [nn (Block BOOL [nn (TypeParam "T")])] (nn (Obj "NSArray" [] [TypeParam "T"]));
    inst "arrayByRemovingObject:" [nn (TypeParam "T")] (nn (Obj "NSArray" [] [TypeParam "T"]));
    inst "arrayByRemovingLastObject" [] (nn (Obj "NSArray" [] [TypeParam "T"]));
    inst "subarrayUpToIncludingIndex:" [NSUInteger] (nn (Obj "NSArray" [] [TypeParam "T"]));
    inst "subarrayFromIndex:" [NSUInteger] (nn (Obj "NSArray" [] [TypeParam "T"]))] |}.

(* @src Feather/Sources/Categories/NSArray+MPExtensions.h 47 73 @interface NSArray (Feather) *)
Definition NSArray_Feather_category : interface := {|
  i_name := "NSArray"; i_kind := Category "Feather"; i_protocols := [];
  i_declarations := [
    inst "mutableDeepContainerCopy" [] (nn (Obj "NSMutableArray" [] [TypeParam "T"]));
    inst "allObjectSubclasses" [] (nn (obj "NSSet"));
    inst "allObjectsAreSubclassesOfClasses:" [nn (Obj "NSArray" [] [MetaClass])] BOOL;
    inst "allObjectsAreSubclassesOf:" [nn MetaClass] BOOL;
    property "arrayByFlatteningArray" (nn (obj "NSArray")) [ReadOnly; Copy];
    inst "matchingValueForKey:value:" [nn (obj "NSString"); nn (Block Void [BOOL; nl (Id [])])] Void;
    inst "JSONStringRepresentation:" [error_out] (nl (obj "NSString"));
    cls "decodeFromJSONString:error:" [nn (obj "NSString"); error_out] (nl (obj "NSArray"));
    inst "allPermutations" [] (nn (Obj "NSArray" [] [TypeParam "T"]))] |}.

(* @src Feather/Sources/Categories/NSArray+MPExtensions.h 79 93 @interface NSMutableArray (Feather) *)
Definition NSMutableArray_Feather_category : interface := {|
  i_name := "NSMutableArray"; i_kind := Category "Feather"; i_protocols := [];
  i_declarations := [
    inst "popObject" [] (nl (Id []));
    inst "pushObject:" [nn (Id [])] Void;
    inst "pushObjectsInArray:" [nn (obj "NSArray")] Void;
    inst "toggleValue:" [nn (Id [])] (Named "MPValueToggleResult")] |}.


(** ** Categories/NSArray+MPManagedObjectExtensions.h *)
(* @src Feather/Sources/Categories/NSArray+MPManagedObjectExtensions.h 15 17 @interface NSArray (MPManagedObjectExtensions) *)
Definition NSArray_MPManagedObjectExtensions_category : interface := {|
  i_name := "NSArray"; i_kind := Category "MPManagedObjectExtensions"; i_protocols := [];
  i_declarations := [
    inst "sortedArrayUsingPriority" [] (Obj "NSArray" [] [Id ["MPCategorizable"]])] |}.


(** ** Categories/NSSet+MPExtensions.h *)
(* @src Feather/Sources/Categories/NSSet+MPExtensions.h 11 21 @interface NSSet (Feather) *)
Definition NSSet_Feather_category : interface := {|
  i_name := "NSSet"; i_kind := Category "Feather"; i_protocols := [];
  i_declarations := [
    inst "mutableDeepContainerCopy" [] (Obj "NSMutableSet" [] [TypeParam "T"]);
    inst "mapObjectsUsingBlock:" [Block (Id []) [TypeParam "T"]] (Obj "NSSet" [] [TypeParam "T"]);
    inst "nilFilteredMapUsingBlock:" [Block (Id []) [Id []]] (obj "NSSet");
    inst "filteredSetMatching:" [Block BOOL [TypeParam "T"]] (Obj "NSSet" [] [TypeParam "T"])] |}.


(** ** Categories/NSIndexSet+MPExtensions.h *)
(* @src Feather/Sources/Categories/NSIndexSet+MPExtensions.h 11 25 @interface NSIndexSet (MPExtensions) *)
Definition NSIndexSet_MPExtensions_category : interface := {|
  i_name := "NSIndexSet"; i_kind := Category "MPExtensions"; i_protocols := [];
  i_declarations := [
    inst "mapAssociatedObjects:usingBlock:" [obj "NSArray"; Block (Id []) [Id []; NSUInteger]] (obj "NSArray");
    inst "firstAssociatedObject:matching:" [obj "NSArray"; Block BOOL [Id []]] (Id []);
    inst "firstAssociatedObject:matching:index:" [obj "NSArray"; Block BOOL [Id []]; Out NSUInteger] (Id []);
    inst "filteredAssociatedObject:matching:" [obj "NSArray"; Block BOOL [Id []]] (obj "NSArray")] |}.


(** ** Categories/NSDictionary+MPExtensions.h *)
(* @src Feather/Sources/Categories/NSDictionary+MPExtensions.h 17 33 @interface NSDictionary (Feather) *)
Definition NSDictionary_Feather_category : interface := {|
  i_name := "NSDictionary"; i_kind := Category "Feather"; i_protocols := [];
  i_declarations := [
    inst "mutableDeepContainerCopy" [] (nn (Obj "NSMutableDictionary" [] [TypeParam "K"; TypeParam "V"]));
    inst "dictionaryOfSetsWithDictionaryOfArrays" [] (nn (obj "NSMutableDictionary"));
    inst "containsObject:" [nn (Id [])] BOOL;
    inst "containsObjectForKey:" [nn (Id [])] BOOL;
    inst "anyObjectMatching:" [nn (Block BOOL [nn (Id []); nl (Id [])])] (nl (Id []));
    inst "dictionaryWithObjectsMatching:" [nn (Block BOOL [nn (Id []); nn (Id [])])] (nn (obj "NSDictionary"));
    cls "decodeFromJSONString:error:" [nn (obj "NSString"); error_out] (nl (obj "NSDictionary"));
    inst "JSONStringRepresentation:" [error_out] (nl (obj "NSString"))] |}.


(** ** Categories/NSDictionary+MPManagedObjectExtensions.h *)
(* @src Feather/Sources/Categories/NSDictionary+MPManagedObjectExtensions.h 23 31 @interface NSDictionary (MPManagedObject) *)
Definition NSDictionary_MPManagedObject_category : interface := {|
  i_name := "NSDictionary"; i_kind := Category "MPManagedObject"; i_protocols := [];
  i_declarations := [
    property "managedObjectType" (obj "NSString") [ReadOnly; Copy];
    property "managedObjectDocumentID" (obj "NSString") [ReadOnly; Copy];
    property "managedObjectRevisionID" (obj "NSString") [ReadOnly; Copy];
    inst "isManagedObjectDictionary:" [Out (obj "NSError")] BOOL] |}.

(* @src Feather/Sources/Categories/NSDictionary+MPManagedObjectExtensions.h 33 38 @interface NSMutableDictionary (MPManagedObject) *)
Definition NSMutableDictionary_MPManagedObject_category : interface := {|
  i_name := "NSMutableDictionary"; i_kind := Category "MPManagedObject"; i_protocols := [];
  i_declarations := [
    property "managedObjectType" (obj "NSString") [ReadWrite; Copy]] |}.


(** ** Categories/NSString+MPExtensions.h *)
(* @src Feather/Sources/Categories/NSString+MPExtensions.h 45 104 @interface NSString (Feather) *)
Definition NSString_Feather_category : interface := {|
  i_name := "NSString"; i_kind := Category "Feather"; i_protocols := [];
  i_declarations := [
    inst "containsSubstring:" [nn (obj "NSString")] BOOL;
    inst "substringAfter:" [nn (obj "NSString")] (nn (obj "NSString"));
    inst "substringBefore:" [nn (obj "NSString")] (nn (obj "NSString"));
    property "stringByTrimmingWhitespace" (nn (obj "NSString")) [ReadOnly; Copy];
    property "stringByNormalizingWhitespace" (nn (obj "NSString")) [ReadOnly; Copy];
    inst "stringByNormalizingWhitespaceAllowLeading:trailingWhitespace:" [BOOL; BOOL] (nn (obj "NSString"));
    inst "substringUpToEndOfFirstOccurrenceOfString:" [nn (obj "NSString")] (nl (obj "NSString"));
    property "stringByRemovingWhitespace" (nn (obj "NSString")) [ReadOnly; Copy];
    property "sentenceCasedString" (nn (obj "NSString")) [ReadOnly; Copy];
    property "isAllUpperCase" BOOL [ReadOnly];
    property "stringByEscapingNonPrintableAndInvisibleCharacters" (nn (obj "NSString")) [Copy; ReadOnly];
    property "stringByUnescapingXMLEntities" (nn (obj "NSString")) [Copy; ReadOnly];
    property "stringByEscapingXMLEntities" (nn (obj "NSString")) [Copy; ReadOnly];
    property "stringByTrimmingLeadingWhitespace" (nn (obj "NSString")) [Copy; ReadOnly];
    property "stringByTrimmingTrailingWhitespace" (nn (obj "NSString")) [Copy; ReadOnly];
    property "HTMLStringCleanedFromWebKitArtefacts" (nn (obj "NSString")) [Copy; ReadOnly];
    property "stringByRemovingHTMLTags" (nn (obj "NSString")) [Copy; ReadOnly];
    property "slugString" (nn (obj "NSString")) [Copy; ReadOnly];
    cls "rootDomainForHostName:" [nn (obj "NSString")] (nl (obj "NSString"));
    inst "stringByTrimmingToLength:truncate:" [NSUInteger; BOOL] (nn (obj "NSString"));
    cls "stringWithOSType:" [Named "OSType"] (nn (obj "NSString"));
    property "isValidEmailAddress" BOOL [ReadOnly];
    property "OSType" (Named "OSType") [ReadOnly];
    inst "enumerateCharacters:" [nn (Named "MPCharacterEvaluationBlock")] Void] |}.

(* @src Feather/Sources/Categories/NSString+MPExtensions.h 106 108 @interface NSMutableString (Feather) *)
Definition NSMutableString_Feather_category : interface := {|
  i_name := "NSMutableString"; i_kind := Category "Feather"; i_protocols := [];
  i_declarations := [
    inst "removeCharactersInSet:" [nn (obj "NSCharacterSet")] Void] |}.


(** ** Categories/NSString+MPSearchIndex.h *)
(* @src Feather/Sources/Categories/NSString+MPSearchIndex.h 11 15 @interface NSString (MPSearchIndex) *)
Definition NSString_MPSearchIndex_category : interface := {|
  i_name := "NSString"; i_kind := Category "MPSearchIndex"; i_protocols := [];
  i_declarations := [
    property "fullTextNormalizedString" (obj "NSString") [ReadOnly; Copy]] |}.


(** ** Categories/NSData+MPExtensions.h *)
(* @src Feather/Sources/Categories/NSData+MPExtensions.h 11 35 @interface NSData (MPExtensions) *)
Definition NSData_MPExtensions_category : interface := {|
  i_name := "NSData"; i_kind := Category "MPExtensions"; i_protocols := [];
  i_declarations := [
    inst "md5DigestString" [] (nl (obj "NSString"));
    inst "md5Digest" [] (nl (obj "NSData"));
    inst "sha1DigestString" [] (nl (obj "NSString"));
    inst "sha1Digest" [] (nl (obj "NSData"));
    inst "sha1HMacStringWithKey:" [nn (obj "NSString")] (nl (obj "NSString"));
    inst "sha1HMacWithKey:" [nn (obj "NSString")] (nl (obj "NSData"));
    inst "sha256HMacStringWithKey:" [nn (obj "NSString")] (nl (obj "NSString"));
    inst "sha256HMacWithKey:" [nn (obj "NSString")] (nl (obj "NSData"));
    inst "hexadecimalString" [] (nn (obj "NSString"));
    inst "crc32Checksum" [] NSUInteger;
    inst "stringByDecodingAsUTF8" [] (nl (obj "NSString"))] |}.

(* @src Feather/Sources/Categories/NSData+MPExtensions.h 37 43 @interface NSData (AESAdditions) *)
Definition NSData_AESAdditions_category : interface := {|
  i_name := "NSData"; i_kind := Category "AESAdditions"; i_protocols := [];
  i_declarations := [
    inst "AES256EncryptWithKey:" [nn (obj "NSString")] (nl (obj "NSData"));
    inst "AES256DecryptWithKey:" [nn (obj "NSString")] (nl (obj "NSData"))] |}.


(** ** Categories/NSDate+MPExtensions.h *)
(* @src Feather/Sources/Categories/NSDate+MPExtensions.h 11 27 @interface NSDate (MPExtensions) *)
Definition NSDate_MPExtensions_category : interface := {|
  i_name := "NSDate"; i_kind := Category "MPExtensions"; i_protocols := [];
  i_declarations := [
    inst "relativeDateString" [] (obj "NSString");
    cls "startMeasuring:" [obj "NSString"] (Named "NSTimeInterval");
    cls "logDurationSince:message:" [Named "NSTimeInterval"; obj "NSString"] (Named "NSTimeInterval")] |}.


(** ** Categories/NSError+MPExtensions.h *)
(* @src Feather/Sources/Categories/NSError+MPExtensions.h 11 31 @interface NSError (Feather) *)
Definition NSError_Feather_category : interface := {|
  i_name := "NSError"; i_kind := Category "Feather"; i_protocols := [];
  i_declarations := [
    cls "errorWithDomain:code:description:" [nn (obj "NSString"); NSInteger;
      nn (obj "NSString")] (nn (obj "NSError"));
    cls "errorWithDomain:code:description:reason:" [nn (obj "NSString"); NSInteger; nn (obj "NSString");
      nn (obj "NSString")] (nn (obj "NSError"));
    cls "errorWithDomain:code:description:underlyingError:" [nn (obj "NSString"); NSInteger; nn (obj "NSString");
      nn (obj "NSError")] (nn (obj "NSError"));
    inst "errorByMarkingAsShouldPresent" [] (nn (obj "NSError"));
    inst "shouldPresent" [] BOOL] |}.


(** ** Categories/NSBundle+MPExtensions.h *)
(* @src Feather/Sources/Categories/NSBundle+MPExtensions.h 11 33 @interface NSBundle (Feather) *)
Definition NSBundle_Feather_category : interface := {|
  i_name := "NSBundle"; i_kind := Category "Feather"; i_protocols := [];
  i_declarations := [
    property "bundleNameString" (nn (obj "NSString")) [ReadOnly; Copy];
    property "bundleShortVersionString" (nn (obj "NSString")) [ReadOnly; Copy];
    property "bundleVersionString" (nn (obj "NSString")) [ReadOnly; Copy];
    property "isSandboxed" BOOL [ReadOnly];
    property "isSigned" BOOL [ReadOnly];
    cls "appBundle" [] (nn (obj "NSBundle"));
    cls "XPCServiceBundleWithName:" [nn (obj "NSString")] (nl (obj "NSBundle"));
    cls "inTestSuite" [] BOOL;
    cls "isCommandLineTool" [] BOOL;
    cls "isXPCService" [] BOOL] |}.


(** ** Categories/NSFileManager+MPExtensions.h *)
(* @src Feather/Sources/Categories/NSFileManager+MPExtensions.h 29 86 @interface NSFileManager (MPExtensions) *)
Definition NSFileManager_MPExtensions_category : interface := {|
  i_name := "NSFileManager"; i_kind := Category "MPExtensions"; i_protocols := [];
  i_declarations := [
    property "applicationSupportFolder" (nl (obj "NSString")) [ReadOnly; Copy];
    inst "md5DigestStringAtPath:" [nn (obj "NSString")] (nl (obj "NSString"));
    inst "mimeTypeForFileAtURL:error:" [nn (obj "NSURL"); error_out] (nl (obj "NSString"));
    inst "temporaryDirectoryURLInApplicationCachesSubdirectoryNamed:error:" [nl (obj "NSString");
      error_out] (nl (obj "NSURL"));
    inst "temporaryFileURLInApplicationCachesSubdirectoryNamed:withExtension:error:" [nl (obj "NSString");
      nn (obj "NSString"); error_out] (nl (obj "NSURL"));
    inst "temporaryDirectoryURLInGroupCachesSubdirectoryNamed:error:" [nn (obj "NSString");
      nn (Out (nn (obj "NSError")))] (nl (obj "NSURL"));
    inst "temporaryFileURLInGroupCachesSubdirectoryNamed:withExtension:error:" [nn (obj "NSString");
      nn (obj "NSString"); nn (Out (nn (obj "NSError")))] (nl (obj "NSURL"));
    inst "temporaryURLInSubdirectoryNamed:atURL:createDirectory:createIntermediates:extension:error:" [nn (obj
      "NSString"); nn (obj "NSURL"); BOOL; BOOL; nn (obj "NSString"); error_out] (nl (obj "NSURL"));
    inst "sharedApplicationGroupCachesDirectoryURL" [] (nl (obj "NSURL"));
    inst "sharedApplicationGroupSupportDirectoryURL" [] (nl (obj "NSURL"));
    inst "URLForApplicationSupportDirectoryNamed:" [nn (obj "NSString")] (nl (obj "NSURL"));
    inst "recursivePathsForResourcesOfType:inDirectory:" [nl (obj "NSString");
      nn (obj "NSString")] (nn (obj "NSArray"));
    inst "ensurePermissionMaskIncludes:inDirectory:error:" [Named "int"; nn (obj "NSString"); error_out] BOOL;
    inst "ensurePermissionMaskIncludes:forFileAtPath:error:" [Named "int"; nn (obj "NSString"); error_out] BOOL;
    inst "releaseFromQuarantine:error:" [nn (obj "NSString"); error_out] BOOL;
    inst "path:isEqualToPath:error:" [nn (obj "NSString"); nn (obj "NSString"); error_out] BOOL;
    inst "beginSecurityScopedAccessForPath:bookmarkUserDefaultKey:error:" [nn (obj "NSString"); nn (obj "NSString");
      error_out] (nl (obj "NSURL"));
    cls "UTIForPathExtension:" [nn (obj "NSString")] (nl (obj "NSString"));
    cls "canonicalPathExtensionForMIMEType:" [nn (obj "NSString")] (nl (obj "NSString"));
    inst "fileSizeAtPath:" [nn (obj "NSString")] (nl (obj "NSNumber"))] |}.


(** ** Categories/NSTask+MPExtensions.h *)
(* @src Feather/Sources/Categories/NSTask+MPExtensions.h 15 24 @interface NSTask (MPExtensions) *)
Definition NSTask_MPExtensions_category : interface := {|
  i_name := "NSTask"; i_kind := Category "MPExtensions"; i_protocols := [];
  i_declarations := [
    cls "runCommand:withArguments:atDirectoryPath:terminationHandler:" [obj "NSString"; obj "NSArray";
      obj "NSString"; Named "MPTaskTerminationHandler"] (obj "NSTask");
    inst "commandLine" [] (obj "NSString")] |}.


(** ** Categories/NSNotificationCenter+ErrorNotification.h *)
(* @src Feather/Sources/Categories/NSNotificationCenter+ErrorNotification.h 10 13 @interface NSNotificationCenter (FeatherError) *)
Definition NSNotificationCenter_FeatherError_category : interface := {|
  i_name := "NSNotificationCenter"; i_kind := Category "FeatherError"; i_protocols := [];
  i_declarations := [
    inst "postErrorNotification:" [obj "NSError"] Void;
    inst "addErrorObserver:" [Id ["MPErrorNotificationObserver"]] Void] |}.

(* @src Feather/Sources/Categories/NSNotificationCenter+ErrorNotification.h 15 17 @protocol MPErrorNotificationObserver *)
Definition MPErrorNotificationObserver_protocol : interface := {|
  i_name := "MPErrorNotificationObserver"; i_kind := ProtocolInterface; i_protocols := ["NSObject"];
  i_declarations := [
    inst "errorDidOccur:" [obj "NSNotification"] Void] |}.


(** ** Categories/NSNotificationCenter+MPManagedObjectExtensions.h *)
(* @src Feather/Sources/Categories/NSNotificationCenter+MPManagedObjectExtensions.h 20 20 @protocol MPManagedObjectChangeObserver *)
Definition MPManagedObjectChangeObserver_protocol : interface := {|
  i_name := "MPManagedObjectChangeObserver"; i_kind := ProtocolInterface; i_protocols := ["NSObject"];
  i_declarations := [] |}.

(* @src Feather/Sources/Categories/NSNotificationCenter+MPManagedObjectExtensions.h 24 24 @protocol MPManagedObjectRecentChangeObserver *)
Definition MPManagedObjectRecentChangeObserver_protocol : interface := {|
  i_name := "MPManagedObjectRecentChangeObserver"; i_kind := ProtocolInterface; i_protocols := ["NSObject"];
  i_declarations := [] |}.

(* @src Feather/Sources/Categories/NSNotificationCenter+MPManagedObjectExtensions.h 47 97 @interface NSNotificationCenter (MPManagedObjectExtensions) *)
Definition NSNotificationCenter_MPManagedObjectExtensions_category : interface := {|
  i_name := "NSNotificationCenter"; i_kind := Category "MPManagedObjectExtensions"; i_protocols := [];
  i_declarations := [
    inst "addRecentChangeObserver:forManagedObjectsOfClass:" [Id ["MPManagedObjectRecentChangeObserver"];
      MetaClass] Void;
    inst "addRecentChangeObserver:forManagedObjectsOfClass:hasAdded:hasUpdated:hasRemoved:" [Id
      ["MPManagedObjectRecentChangeObserver"]; MetaClass; Named "MPRecentChangeObserverCallback";
      Named "MPRecentChangeObserverCallback"; Named "MPRecentChangeObserverCallback"] Void;
    inst "addPastChangeObserver:forManagedObjectsOfClass:" [Id ["MPManagedObjectChangeObserver"]; MetaClass] Void;
    inst "addPastChangeObserver:forManagedObjectsOfClass:didAdd:didUpdate:didRemove:" [Id
      ["MPManagedObjectChangeObserver"]; MetaClass; Named "MPChangeObserverCallback";
      Named "MPChangeObserverCallback"; Named "MPChangeObserverCallback"] Void;
    cls "notificationNameForRecentChangeOfType:forManagedObjectClass:" [Named "MPChangeType";
      MetaClass] (obj "NSString");
    cls "notificationNameForPastChangeOfType:forManagedObjectClass:" [Named "MPChangeType";
      MetaClass] (obj "NSString");
    inst "addObjectSelectionChangeObserver:" [Id ["MPObjectSelectionObserver"]] Void;
    inst "postNotificationForChangingMasterSelectionToSingleObject:userInfo:" [Id []; obj "NSDictionary"] Void;
    inst "postNotificationForChangingDetailSelectionToSingleObject:userInfo:" [Id []; obj "NSDictionary"] Void;
    inst "postNotificationForChangingMasterSelectionToMultipleObjects:userInfo:" [obj "NSArray";
      obj "NSDictionary"] Void;
    inst "postNotificationForChangingDetailSelectionToMultipleObjects:userInfo:" [obj "NSArray";
      obj "NSDictionary"] Void;
    cls "managedObjectNotificationNameDictionary" [] (obj "NSDictionary")] |}.

(* @src Feather/Sources/Categories/NSNotificationCenter+MPManagedObjectExtensions.h 99 112 @interface NSNotificationCenter (MPDatabaseExtensions) *)
Definition NSNotificationCenter_MPDatabaseExtensions_category : interface := {|
  i_name := "NSNotificationCenter"; i_kind := Category "MPDatabaseExtensions"; i_protocols := [];
  i_declarations := [
    inst "addObserver:forReplicationOfDatabase:" [Id ["MPDatabaseReplicationObserver"]; obj "MPDatabase"] Void;
    cls "notificationNameForReplicationEventType:" [Named "MPReplicationEventType"] (obj "NSString");
    inst "postNotificationForSharingManagedObject:" [obj "MPManagedObject"] Void;
    inst "addManagedObjectSharingObserver:" [Id ["MPManagedObjectSharingObserver"]] Void] |}.

(* @src Feather/Sources/Categories/NSNotificationCenter+MPManagedObjectExtensions.h 116 118 @interface NSNotification (MPManagedObjectExtensions) *)
Definition NSNotification_MPManagedObjectExtensions_category : interface := {|
  i_name := "NSNotification"; i_kind := Category "MPManagedObjectExtensions"; i_protocols := [];
  i_declarations := [
    inst "managedObject" [] (obj "MPManagedObject")] |}.

(* @src Feather/Sources/Categories/NSNotificationCenter+MPManagedObjectExtensions.h 124 129 @protocol MPDatabaseReplicationObserver *)
Definition MPDatabaseReplicationObserver_protocol : interface := {|
  i_name := "MPDatabaseReplicationObserver"; i_kind := ProtocolInterface; i_protocols := ["NSObject"];
  i_declarations := [
    inst "didCompletePersistentPullReplication:" [obj "NSNotification"] Void;
    inst "didCompletePersistentPushReplication:" [obj "NSNotification"] Void;
    inst "didUpdateProgressOfPersistentPullReplication:" [obj "NSNotification"] Void;
    inst "didUpdateProgressOfPersistentPushReplication:" [obj "NSNotification"] Void] |}.

(* @src Feather/Sources/Categories/NSNotificationCenter+MPManagedObjectExtensions.h 131 133 @protocol MPManagedObjectSharingObserver *)
Definition MPManagedObjectSharingObserver_protocol : interface := {|
  i_name := "MPManagedObjectSharingObserver"; i_kind := ProtocolInterface; i_protocols := ["NSObject"];
  i_declarations := [
    inst "didShareManagedObject:" [obj "NSNotification"] Void] |}.

(* @src Feather/Sources/Categories/NSNotificationCenter+MPManagedObjectExtensions.h 135 141 @protocol MPObjectSelectionObserver *)
Definition MPObjectSelectionObserver_protocol : interface := {|
  i_name := "MPObjectSelectionObserver"; i_kind := ProtocolInterface; i_protocols := ["NSObject"];
  i_declarations := [
    optional (inst "didChangeMasterSelectionToSingleObject:" [obj "NSNotification"] Void);
    optional (inst "didChangeDetailSelectionToSingleObject:" [obj "NSNotification"] Void);
    optional (inst "didChangeMasterSelectionToMultipleObjects:" [obj "NSNotification"] Void);
    optional (inst "didChangeDetailSelectionToMultipleObjects:" [obj "NSNotification"] Void)] |}.


(** ** Utilities/MPException.h *)
(* @src Feather/Sources/Utilities/MPException.h 11 13 @interface MPException *)
Definition MPException_interface : interface := {|
  i_name := "MPException"; i_kind := ClassInterface "NSException"; i_protocols := [];
  i_declarations := [] |}.

(* @src Feather/Sources/Utilities/MPException.h 15 18 @interface MPUnexpectedSelectorException *)
Definition MPUnexpectedSelectorException_interface : interface := {|
  i_name := "MPUnexpectedSelectorException"; i_kind := ClassInterface "MPException"; i_protocols := [];
  i_declarations := [
    inst "initWithSelector:" [Named "SEL"] Instancetype;
    cls "exceptionWithSelector:" [Named "SEL"] (Id [])] |}.

(* @src Feather/Sources/Utilities/MPException.h 20 21 @interface MPMethodIsPrivateException *)
Definition MPMethodIsPrivateException_interface : interface := {|
  i_name := "MPMethodIsPrivateException"; i_kind := ClassInterface "MPUnexpectedSelectorException"; i_protocols := [];
  i_declarations := [] |}.

(* @src Feather/Sources/Utilities/MPException.h 23 24 @interface MPInitIsPrivateException *)
Definition MPInitIsPrivateException_interface : interface := {|
  i_name := "MPInitIsPrivateException"; i_kind := ClassInterface "MPUnexpectedSelectorException"; i_protocols := [];
  i_declarations := [] |}.

(* @src Feather/Sources/Utilities/MPException.h 26 28 @interface MPInvalidInitException *)
Definition MPInvalidInitException_interface : interface := {|
  i_name := "MPInvalidInitException"; i_kind := ClassInterface "MPUnexpectedSelectorException"; i_protocols := [];
  i_declarations := [
    inst "initWithSelector:expectedSelector:" [Named "SEL"; Named "SEL"] Instancetype] |}.

(* @src Feather/Sources/Utilities/MPException.h 30 32 @interface MPIllegalStateException *)
Definition MPIllegalStateException_interface : interface := {|
  i_name := "MPIllegalStateException"; i_kind := ClassInterface "MPException"; i_protocols := [];
  i_declarations := [
    inst "initWithReason:" [obj "NSString"] Instancetype] |}.

(* @src Feather/Sources/Utilities/MPException.h 34 37 @interface MPAbstractMethodException *)
Definition MPAbstractMethodException_interface : interface := {|
  i_name := "MPAbstractMethodException"; i_kind := ClassInterface "MPException"; i_protocols := [];
  i_declarations := [
    inst "initWithSelector:" [Named "SEL"] Instancetype;
    cls "exceptionWithSelector:" [Named "SEL"] (Id [])] |}.

(* @src Feather/Sources/Utilities/MPException.h 39 41 @interface MPUnexpectedTypeException *)
Definition MPUnexpectedTypeException_interface : interface := {|
  i_name := "MPUnexpectedTypeException"; i_kind := ClassInterface "MPException"; i_protocols := [];
  i_declarations := [
    inst "initWithTypeString:" [obj "NSString"] Instancetype] |}.

(* @src Feather/Sources/Utilities/MPException.h 43 45 @interface MPUnexpectedStateExpection *)
Definition MPUnexpectedStateExpection_interface : interface := {|
  i_name := "MPUnexpectedStateExpection"; i_kind := ClassInterface "MPException"; i_protocols := [];
  i_declarations := [
    inst "initWithReason:" [obj "NSString"] Instancetype] |}.

(* @src Feather/Sources/Utilities/MPException.h 47 49 @interface MPReadonlyCachedPropertyException *)
Definition MPReadonlyCachedPropertyException_interface : interface := {|
  i_name := "MPReadonlyCachedPropertyException"; i_kind := ClassInterface "MPException"; i_protocols := [];
  i_declarations := [
    inst "initWithPropertyKey:ofClass:" [obj "NSString"; MetaClass] Instancetype] |}.

(* @src Feather/Sources/Utilities/MPException.h 51 53 @interface MPAbstractClassException *)
Definition MPAbstractClassException_interface : interface := {|
  i_name := "MPAbstractClassException"; i_kind := ClassInterface "MPException"; i_protocols := [];
  i_declarations := [
    inst "initWithClass:" [MetaClass] Instancetype] |}.


(** ** Utilities/MPFileObserver.h *)
(* @src Feather/Sources/Utilities/MPFileObserver.h 14 18 @interface MPFileObserver *)
Definition MPFileObserver_interface : interface := {|
  i_name := "MPFileObserver"; i_kind := ClassInterface "NSObject"; i_protocols := [];
  i_declarations := [
    inst "initWithFileURL:subItemChangeHandler:" [obj "NSURL"; Named "MPFileObservationChangeHandler"] Instancetype] |}.


(** ** Utilities/MPTreeItemUtility.h *)
(* @src Feather/Sources/Utilities/MPTreeItemUtility.h 13 17 @interface MPTreeItemUtility *)
Definition MPTreeItemUtility_interface : interface := {|
  i_name := "MPTreeItemUtility"; i_kind := ClassInterface "NSObject"; i_protocols := [];
  i_declarations := [
    cls "descendentsForTreeItem:" [Id ["MPTreeItem"]] (obj "NSArray")] |}.


(** ** Utilities/MPCountryList.h *)
(* @src Feather/Sources/Utilities/MPCountryList.h 11 18 @interface MPCountryList *)
Definition MPCountryList_interface : interface := {|
  i_name := "MPCountryList"; i_kind := ClassInterface "NSObject"; i_protocols := [];
  i_declarations := [
    cls "countryNames" [] (nn (Obj "NSArray" [] [obj "NSString"]));
    cls "countryCodes" [] (nn (Obj "NSArray" [] [obj "NSString"]));
    cls "countryNamesByCode" [] (nn (Obj "NSDictionary" [] [obj "NSString"; obj "NSString"]));
    cls "countryCodesByName" [] (nn (Obj "NSDictionary" [] [obj "NSString"; obj "NSString"]))] |}.


(** ** Scripting/MPScriptingDefinitionManager.h *)
(* @src Feather/Sources/Scripting/MPScriptingDefinitionManager.h 12 27 @interface MPScriptingDefinitionManager *)
Definition MPScriptingDefinitionManager_interface : interface := {|
  i_name := "MPScriptingDefinitionManager"; i_kind := ClassInterface "NSObject"; i_protocols := [];
  i_declarations := [
    inst "propertyTypesForCode:" [Named "FourCharCode"] (obj "NSSet");
    inst "propertyNameForCode:" [Named "FourCharCode"] (obj "NSString");
    inst "cocoaPropertyNameForCode:" [Named "FourCharCode"] (obj "NSString");
    inst "codeForPropertyType:" [obj "NSString"] (Named "FourCharCode");
    inst "typeNameForCode:" [Named "FourCharCode"] (obj "NSString");
    cls "sharedInstance" [] Instancetype] |}.

(** All of them. *)
Definition HeadersCategories_interfaces : list interface :=
  [NSObject_Feather_category; NSObject_FDPropertyListDiff_category;
    NSArray_FeatherTypeParameterized_category; NSArray_Feather_category; NSMutableArray_Feather_category;
    NSArray_MPManagedObjectExtensions_category; NSSet_Feather_category; NSIndexSet_MPExtensions_category;
    NSDictionary_Feather_category; NSDictionary_MPManagedObject_category;
    NSMutableDictionary_MPManagedObject_category; NSString_Feather_category;
    NSMutableString_Feather_category; NSString_MPSearchIndex_category; NSData_MPExtensions_category;
    NSData_AESAdditions_category; NSDate_MPExtensions_category; NSError_Feather_category;
    NSBundle_Feather_category; NSFileManager_MPExtensions_category; NSTask_MPExtensions_category;
    NSNotificationCenter_FeatherError_category; MPErrorNotificationObserver_protocol;
    MPManagedObjectChangeObserver_protocol; MPManagedObjectRecentChangeObserver_protocol;
    NSNotificationCenter_MPManagedObjectExtensions_category;
    NSNotificationCenter_MPDatabaseExtensions_category; NSNotification_MPManagedObjectExtensions_category;
    MPDatabaseReplicationObserver_protocol; MPManagedObjectSharingObserver_protocol;
    MPObjectSelectionObserver_protocol; MPException_interface; MPUnexpectedSelectorException_interface;
    MPMethodIsPrivateException_interface; MPInitIsPrivateException_interface;
    MPInvalidInitException_interface; MPIllegalStateException_interface; MPAbstractMethodException_interface;
    MPUnexpectedTypeException_interface; MPUnexpectedStateExpection_interface;
    MPReadonlyCachedPropertyException_interface; MPAbstractClassException_interface;
    MPFileObserver_interface; MPTreeItemUtility_interface; MPCountryList_interface;
    MPScriptingDefinitionManager_interface].
