(* ===== verification/HeadersExtensions.v ===== *)
(** * The headers of the AppKit and XML extensions

    src/FeatherAppKitExtensions/*.h, the AppKit categories of
    src/Feather/Sources/Categories/*.h, src/FeatherScripting and the Base64
    category of src/External, declaration by declaration and in the order of the
    header. *)
From stdpp Require Import base strings list.
From S2P Require Import Prelude ObjC Declarations.

Local Open Scope string_scope.
Local Open Scope list_scope.

(** ** FeatherAppKitExtensions/NSXMLElement+MPExtensions.h *)
(* @src FeatherAppKitExtensions/NSXMLElement+MPExtensions.h 39 154 @interface NSXMLElement (MPExtensions) (part 1) *)
Definition NSXMLElement_declarations_1 : list declaration := [
  cls "XMLElementFromHTMLString:tidyDocument:error:" [nn (obj "NSString"); nl (Out (nl (obj "NSXMLDocument")));
    error_out] (nl (obj "NSXMLElement"));
  cls "XMLElementFromHTMLString:innerElements:forXPaths:error:" [nn (obj "NSString");
    nl (Out (nn (Obj "NSArray" [] [obj "NSXMLElement"]))); nl (Obj "NSArray" [] [obj "NSString"]);
    error_out] (nl (obj "NSXMLElement"));
  cls "XMLElementFromString:error:" [nn (obj "NSString"); error_out] (nl (obj "NSXMLElement"));
  inst "innerXMLString" [] (nn (obj "NSString"));
  inst "normalizeWhitespaceWithinDescendantElementsNamed:error:" [nn (Obj "NSArray" [] [obj "NSString"]);
    error_out] BOOL;
  inst "prettyXMLString" [] (nn (obj "NSString"));
  inst "textContentLength" [] NSUInteger;
  cls "textContentForXMLString:error:" [nn (obj "NSString"); error_out] (nl (obj "NSString"));
  cls "textContentLengthForXMLString:error:" [nn (obj "NSString"); error_out] NSUInteger;
  cls "textContentOffsetForXMLString:innerElementXPath:innerOffset:error:" [nn (obj "NSString"); nn (obj "NSString");
    Named "MPTextContentOffset"; error_out] (Named "MPTextContentOffset");
  inst "textContentLengthBeforeNode:" [nn (obj "NSXMLNode")] NSUInteger;
  inst "isChild:" [nn (obj "NSXMLNode")] BOOL;
  inst "isDescendant:" [nn (obj "NSXMLNode")] BOOL;
  inst "addClass:" [nn (obj "NSString")] BOOL;
  inst "hasClass:" [nn (obj "NSString")] BOOL;
  inst "hasID" [] BOOL;
  inst "removeClass:" [nn (obj "NSString")] BOOL;
  inst "setAttributeNamed:stringValue:" [nn (obj "NSString"); nn (obj "NSString")] Void;
  inst "setAttributesFromElement:" [nn (obj "NSXMLElement")] Void;
  inst "childElements" [] (nn (Obj "NSArray" [] [obj "NSXMLElement"]));
  inst "findXMLElementMatching:" [nn (Named "MPFirstMatchingXMLElementTest")] (nl (obj "NSXMLElement"));
  inst "findXMLElementByName:ID:class:attributeValues:" [nl (obj "NSString"); nl (obj "NSString");
    nl (obj "NSString"); nl (obj "NSDictionary")] (nl (obj "NSXMLElement"));
  inst "findXMLElementByName:" [nn (obj "NSString")] (nl (obj "NSXMLElement"));
  inst "findXMLElementsByNames:" [nn (Obj "NSArray" [] [obj "NSString"])] (nl (Obj "NSArray" [] [obj
    "NSXMLElement"]));
  inst "findXMLElementsByClass:" [nn (obj "NSString")] (nl (Obj "NSArray" [] [obj "NSXMLElement"]));
  inst "findXMLElementByID:" [nn (obj "NSString")] (nl (obj "NSXMLElement"));
  inst "findXMLElementByClass:" [nn (obj "NSString")] (nl (obj "NSXMLElement"));
  inst "findXMLElementByAttributeValues:" [nn (Obj "NSDictionary" [] [obj "NSString";
    obj "NSString"])] (nl (obj "NSXMLElement"))].

(* @src FeatherAppKitExtensions/NSXMLElement+MPExtensions.h 155 254 @interface NSXMLElement (MPExtensions) (part 2) *)
Definition NSXMLElement_declarations_2 : list declaration := [
  inst "findXMLElementsPassing:" [nn (Named "MPMatchingXMLElementsTest")] (nl (Obj "NSArray" [] [obj
    "NSXMLElement"]));
  inst "previousElementSibling" [] (nl (obj "NSXMLElement"));
  inst "nextElementSibling" [] (nl (obj "NSXMLElement"));
  inst "containsDescendantNode:" [nn (obj "NSXMLNode")] BOOL;
  cls "commonAncestorElementOf:and:" [nn (obj "NSXMLElement"); nn (obj "NSXMLElement")] (nl (obj "NSXMLElement"));
  inst "visitAllNodesInSubtree:" [nn (Named "MPXMLNodeVisitor")] NSUInteger;
  inst "visitNodesInSubtreeStartingFrom:visitor:" [nn (obj "NSXMLNode"); nn (Named "MPXMLNodeVisitor")] NSUInteger;
  inst "collapse" [] Void;
  inst "wrapChildren:elementName:" [nn (obj "NSArray"); nn (obj "NSString")] (nl (obj "NSXMLElement"));
  inst "deleteTextUpToOffset:fromBeginningOfAncestorElement:" [Named "MPTextContentOffset";
    nl (obj "NSXMLElement")] NSUInteger;
  inst "deleteTextFromOffset:toEndOfAncestorElement:" [Named "MPTextContentOffset";
    nl (obj "NSXMLElement")] NSUInteger;
  inst "innerXMLElement:atXPath:error:" [nl (Out (nl (obj "NSXMLElement"))); nn (obj "NSString"); error_out] BOOL;
  inst "enforceExplicitPreservedSpace" [] Void;
  inst "normalizeWhitespaceAllowLeading:trailing:" [BOOL; BOOL] Void;
  inst "removeChild:" [nn (obj "NSXMLNode")] NSUInteger;
  inst "replaceChild:withNode:" [nn (obj "NSXMLNode"); nn (obj "NSXMLNode")] NSUInteger;
  inst "replaceChild:withNodes:" [nn (obj "NSXMLNode"); nn (Obj "NSArray" [] [obj "NSXMLNode"])] NSUInteger;
  inst "splitAtInnerXMLElementXPath:textContentOffset:error:" [nn (obj "NSString"); Named "MPTextContentOffset";
    error_out] (nl (Obj "NSArray" [] [obj "NSXMLElement"]));
  inst "textContentOffsetForInnerXMLElement:textContentOffset:" [nn (obj "NSXMLElement");
    Named "MPTextContentOffset"] (Named "MPTextContentOffset");
  inst "textContentOffsetForInnerXMLElementAtXPath:textContentOffset:error:" [nn (obj "NSString");
    Named "MPTextContentOffset"; error_out] (Named "MPTextContentOffset");
  inst "XMLElementByFilteringAttributes:children:" [nn (Named "MPXMLNodeFilter");
    nn (Named "MPXMLNodeFilter")] (nn (obj "NSXMLElement"));
  inst "XMLElementByFilteringDescendantElements:attributes:" [nn (Obj "NSArray" [] [obj "NSString"]);
    nl (Obj "NSArray" [] [obj "NSString"])] (nn (obj "NSXMLElement"))].

(* @src FeatherAppKitExtensions/NSXMLElement+MPExtensions.h 38 38 @interface NSXMLElement (MPExtensions) *)
Definition NSXMLElement_MPExtensions_category : interface := {|
  i_name := "NSXMLElement"; i_kind := Category "MPExtensions"; i_protocols := [];
  i_declarations := NSXMLElement_declarations_1 ++ NSXMLElement_declarations_2 |}.

(* @src FeatherAppKitExtensions/NSXMLElement+MPExtensions.h 259 303 @interface NSString (MPXMLExtensions) *)
Definition NSString_MPXMLExtensions_category : interface := {|
  i_name := "NSString"; i_kind := Category "MPXMLExtensions"; i_protocols := [];
  i_declarations := [
    inst "innerXMLString" [] (nl (obj "NSString"));
    inst "prettyXMLString" [] (nl (obj "NSString"));
    inst "stringByRemovingInvalidUTF8EncodedXMLCharacters" [] (nn (obj "NSString"));
    inst "stringByEscapingUnescapedAmpersands" [] (nn (obj "NSString"));
    inst "stringByReplacingHTMLNamedEntitiesWithNumericEntities" [] (nn (obj "NSString"));
    inst "stringByEscapingAsXMLAttributeValue" [] (nn (obj "NSString"));
    inst "stringByEscapingAsXMLTextContent" [] (nn (obj "NSString"));
    inst "appearsToContainSerialisedXML" [] BOOL] |}.

(* @src FeatherAppKitExtensions/NSXMLElement+MPExtensions.h 306 316 @interface NSXMLDocument (MPXMLExtensions) *)
Definition NSXMLDocument_MPXMLExtensions_category : interface := {|
  i_name := "NSXMLDocument"; i_kind := Category "MPXMLExtensions"; i_protocols := [];
  i_declarations := [
    cls "XMLDocumentFromString:options:error:" [nn (obj "NSString"); Named "NSXMLNodeOptions";
      error_out] (nl (obj "NSXMLDocument"));
    inst "exterminateDocTypeAndNamespaces" [] NSUInteger] |}.


(** ** FeatherAppKitExtensions/NSMenuItem+MPExtensions.h *)
(* @src FeatherAppKitExtensions/NSMenuItem+MPExtensions.h 11 28 @interface NSMenuItem (Manuscripts) *)
Definition NSMenuItem_Manuscripts_category : interface := {|
  i_name := "NSMenuItem"; i_kind := Category "Manuscripts"; i_protocols := [];
  i_declarations := [
    cls "menuItemWithTitle:target:action:representedObject:" [obj "NSString"; Id []; Named "SEL";
      Id []] (obj "NSMenuItem");
    cls "menuItemWithTitle:target:action:controlSize:bold:representedObject:" [obj "NSString"; Id []; Named "SEL";
      Named "NSControlSize"; BOOL; Id []] (obj "NSMenuItem");
    property "descendsFromMainMenu" BOOL [ReadOnly]] |}.


(** ** Categories/NSImage+MPExtensions.h *)
(* @src Feather/Sources/Categories/NSImage+MPExtensions.h 30 88 @interface NSImage (MPExtensions) *)
Definition NSImage_MPExtensions_category : interface := {|
  i_name := "NSImage"; i_kind := Category "MPExtensions"; i_protocols := [];
  i_declarations := [
    inst "roundCornersImageCornerRadius:" [NSInteger] (nn (obj "NSImage"));
    property "CGImage" (nn (Named "CGImageRef")) [ReadOnly];
    cls "imageForURL:" [nn (obj "NSURL")] (nl (obj "NSImage"));
    inst "DPI" [] NSUInteger;
    inst "EMUSize" [] (Named "MPEMUSize");
    property "PNGRepresentation" (nn (obj "NSData")) [ReadOnly];
    cls "bitmapImageTypeForData:" [nn (obj "NSData")] NSUInteger;
    cls "bitmapImageFileTypeForPasteboardType:" [nn (obj "NSString")] NSUInteger;
    cls "bitmapImageFileTypeForPathExtension:" [nn (obj "NSString")] NSUInteger;
    cls "canonicalPathExtensionForBitmapImageFileType:" [Named "NSBitmapImageFileType"] (nn (obj "NSString"));
    cls "prioritizedImageDataPasteboardTypes" [] (nn (Obj "NSArray" [] [obj "NSString"]));
    cls "imageFromPasteboard:pasteboardType:" [nn (obj "NSPasteboard");
      nl (Out (nl (obj "NSString")))] (nl (obj "NSImage"));
    inst "framedWithSize:" [Named "NSSize"] (nn (obj "NSImage"));
    inst "initWithImageRep:" [nn (obj "NSImageRep")] (nn (obj "NSImage"));
    inst "imageDataWithOptions:type:error:" [Named "NSDataWritingOptions"; Named "NSBitmapImageFileType";
      nn (Out (nn (obj "NSError")))] (nl (obj "NSData"));
    inst "writeToFile:options:type:error:" [nn (obj "NSString"); Named "NSDataWritingOptions";
      Named "NSBitmapImageFileType"; error_out] BOOL;
    cls "resizedImage:toPixelDimensions:" [nn (obj "NSImage"); Named "NSSize"] (nl (obj "NSImage"));
    inst "scaledImageWithMaxSize:" [Named "NSSize"] (nn (obj "NSImage"));
    (* Previews & thumbnails *)
    cls "imageWithPreviewOfFileAtURL:croppedAndScaledToFinalSize:" [nn (obj "NSURL");
      Named "NSSize"] (nn (obj "NSImage"));
    cls "imageWithPreviewOfFileAtURL:maxSize:" [nn (obj "NSURL"); Named "NSSize"] (nn (obj "NSImage"))] |}.

(* @src Feather/Sources/Categories/NSImage+MPExtensions.h 91 97 @interface NSImage (FDImageDiff) *)
Definition NSImage_FDImageDiff_category : interface := {|
  i_name := "NSImage"; i_kind := Category "FDImageDiff"; i_protocols := [];
  i_declarations := [
    inst "isPixelEqualToImage:" [nn (obj "NSImage")] BOOL;
    inst "pixelDifferenceWithImage:" [nn (obj "NSImage")] (Named "CGFloat")] |}.


(** ** Categories/NSAttributedString+MPExtensions.h *)
(* @src Feather/Sources/Categories/NSAttributedString+MPExtensions.h 13 20 @interface NSAttributedString (MPExtensions) *)
Definition NSAttributedString_MPExtensions_category : interface := {|
  i_name := "NSAttributedString"; i_kind := Category "MPExtensions"; i_protocols := [];
  i_declarations := [
    inst "sizeForWidth:height:" [Named "float"; Named "float"] (Named "NSSize");
    inst "heightForWidth:" [Named "float"] (Named "float");
    inst "widthForHeight:" [Named "float"] (Named "float")] |}.

(* @src Feather/Sources/Categories/NSAttributedString+MPExtensions.h 25 37 @interface NSString (MPExtensions) *)
Definition NSString_MPExtensions_category : interface := {|
  i_name := "NSString"; i_kind := Category "MPExtensions"; i_protocols := [];
  i_declarations := [
    inst "sizeForWidth:height:attributes:" [Named "float"; Named "float"; nl (obj "NSDictionary")] (Named "NSSize");
    inst "heightForWidth:attributes:" [Named "float"; nl (obj "NSDictionary")] (Named "float");
    inst "widthForHeight:attributes:" [Named "float"; nl (obj "NSDictionary")] (Named "float");
    inst "sizeForWidth:height:font:" [Named "float"; Named "float"; nn (obj "NSFont")] (Named "NSSize");
    inst "heightForWidth:font:" [Named "float"; nn (obj "NSFont")] (Named "float");
    inst "widthForHeight:font:" [Named "float"; nn (obj "NSFont")] (Named "float")] |}.

(* @src Feather/Sources/Categories/NSAttributedString+MPExtensions.h 40 42 @interface NSAttributedString (MMRTFWithImages) *)
Definition NSAttributedString_MMRTFWithImages_category : interface := {|
  i_name := "NSAttributedString"; i_kind := Category "MMRTFWithImages"; i_protocols := [];
  i_declarations := [
    inst "encodeRTFWithImages" [] (nn (obj "NSString"))] |}.

(* @src Feather/Sources/Categories/NSAttributedString+MPExtensions.h 44 48 @interface NSAttributedString (Manuscripts) *)
Definition NSAttributedString_Manuscripts_category : interface := {|
  i_name := "NSAttributedString"; i_kind := Category "Manuscripts"; i_protocols := [];
  i_declarations := [
    cls "attributedStringFromString:attributes:" [nn (obj "NSString");
      nl (obj "NSDictionary")] (nn (obj "NSAttributedString"))] |}.

(* @src Feather/Sources/Categories/NSAttributedString+MPExtensions.h 50 55 @interface NSMutableAttributedString (Manuscripts) *)
Definition NSMutableAttributedString_Manuscripts_category : interface := {|
  i_name := "NSMutableAttributedString"; i_kind := Category "Manuscripts"; i_protocols := [];
  i_declarations := [
    inst "appendString:" [nn (obj "NSString")] Void;
    inst "insertString:atIndex:" [nn (obj "NSString"); NSUInteger] Void] |}.

(* @src Feather/Sources/Categories/NSAttributedString+MPExtensions.h 58 69 @interface NSDictionary (ManuscriptsAttributedString) *)
Definition NSDictionary_ManuscriptsAttributedString_category : interface := {|
  i_name := "NSDictionary"; i_kind := Category "ManuscriptsAttributedString"; i_protocols := [];
  i_declarations := [
    cls "textAttributesWithFontNamed:fontSize:bold:italic:color:" [nn (obj "NSString"); Named "CGFloat"; BOOL; BOOL;
      nn (obj "NSColor")] (nn (obj "NSDictionary"));
    cls "textAttributesWithSystemFontOfSize:bold:" [Named "CGFloat"; BOOL] (nn (obj "NSDictionary"))] |}.

(* @src Feather/Sources/Categories/NSAttributedString+MPExtensions.h 71 73 @interface NSAttributedString (Hyperlink) *)
Definition NSAttributedString_Hyperlink_category : interface := {|
  i_name := "NSAttributedString"; i_kind := Category "Hyperlink"; i_protocols := [];
  i_declarations := [
    cls "hyperlinkFromString:withURL:" [nn (obj "NSString"); nn (obj "NSURL")] (nn (Id []))] |}.


(** ** Categories/NSView+MPExtensions.h *)
(* @src Feather/Sources/Categories/NSView+MPExtensions.h 18 61 @interface NSView (MPExtensions) *)
Definition NSView_MPExtensions_category : interface := {|
  i_name := "NSView"; i_kind := Category "MPExtensions"; i_protocols := [];
  i_declarations := [
    inst "addEdgeConstraint:subview:" [Named "NSLayoutAttribute"; nn (obj "NSView")] (nn (obj "NSLayoutConstraint"));
    inst "addEdgeConstraint:constantOffset:subview:" [Named "NSLayoutAttribute"; Named "CGFloat";
      nn (obj "NSView")] (nn (obj "NSLayoutConstraint"));
    inst "addSubviewConstrainedToSuperViewEdges:" [nn (obj "NSView")] Void;
    inst "addSubviewConstrainedToSuperViewEdges:topOffset:rightOffset:bottomOffset:leftOffset:" [nn (obj "NSView");
      Named "CGFloat"; Named "CGFloat"; Named "CGFloat"; Named "CGFloat"] Void;
    inst "replaceSubviewsWithSubviewConstrainedToSuperViewEdges:" [nn (obj "NSView")] Void;
    inst "hasSubview:" [nn (obj "NSView")] BOOL;
    inst "heightConstraint" [] (nl (obj "NSLayoutConstraint"));
    inst "horizontalConstraintWithView:" [nn (obj "NSView")] (nl (obj "NSLayoutConstraint"));
    inst "verticalConstraintWithView:" [nn (obj "NSView")] (nl (obj "NSLayoutConstraint"));
    inst "widthConstraint" [] (nl (obj "NSLayoutConstraint"));
    inst "hideWithZeroWidth" [] Void;
    inst "hideWithZeroWidthAndAnimate:" [BOOL] Void;
    cls "hideViews:withZeroWidthAndAnimate:" [nn (Obj "NSArray" [] [obj "NSView"]); BOOL] Void;
    inst "hideWithZeroHeight" [] Void;
    inst "hideWithZeroHeightAndAnimate:" [BOOL] Void;
    cls "hideViews:withZeroHeightAndAnimate:" [nn (Obj "NSArray" [] [obj "NSView"]); BOOL] Void;
    inst "showWithWidth:" [Named "CGFloat"] Void;
    inst "showWithWidth:andAnimate:" [Named "CGFloat"; BOOL] Void;
    inst "showWithHeight:" [Named "CGFloat"] Void;
    inst "showWithHeight:andAnimate:" [Named "CGFloat"; BOOL] Void;
    inst "superviewPathString" [] (nn (obj "NSString"));
    inst "superviewPath" [] (nn (obj "NSArray"));
    inst "PDFDataForRect:" [Named "CGRect"] (nn (obj "NSData"))] |}.


(** ** Categories/NSWindowController+MPExtensions.h *)
(* @src Feather/Sources/Categories/NSWindowController+MPExtensions.h 16 18 @protocol MPWindowControllerAwareViewController *)
Definition MPWindowControllerAwareViewController_protocol : interface := {|
  i_name := "MPWindowControllerAwareViewController"; i_kind := ProtocolInterface; i_protocols := ["NSObject"];
  i_declarations := [
    property "windowController" (obj "NSWindowController") [Strong]] |}.

(* @src Feather/Sources/Categories/NSWindowController+MPExtensions.h 21 23 @protocol MPContentViewControllerAwareWindowController *)
Definition MPContentViewControllerAwareWindowController_protocol : interface := {|
  i_name := "MPContentViewControllerAwareWindowController"; i_kind := ProtocolInterface; i_protocols := ["NSObject"];
  i_declarations := [
    property "contentViewController" (obj "NSViewController") [Weak]] |}.

(* @src Feather/Sources/Categories/NSWindowController+MPExtensions.h 26 38 @interface NSWindowController (MPExtensions) *)
Definition NSWindowController_MPExtensions_category : interface := {|
  i_name := "NSWindowController"; i_kind := Category "MPExtensions"; i_protocols := [];
  i_declarations := [
    cls "windowControllerOfClass:windowNibNamed:contentViewController:" [MetaClass; obj "NSString";
      obj "NSViewController"] (Id []);
    cls "windowControllerOfClass:windowNibNamed:contentViewController:ofClass:contentViewNibNamed:" [MetaClass;
      obj "NSString"; Out (obj "NSViewController"); MetaClass; obj "NSString"] (Id [])] |}.


(** ** Categories/NSPopover+MPExtensions.h *)
(* @src Feather/Sources/Categories/NSPopover+MPExtensions.h 13 26 @interface NSPopover (MPExtensions) *)
Definition NSPopover_MPExtensions_category : interface := {|
  i_name := "NSPopover"; i_kind := Category "MPExtensions"; i_protocols := [];
  i_declarations := [
    cls "popoverWithContentViewController:" [obj "NSViewController"] (obj "NSPopover");
    cls "popoverWithContentViewControllerOfClass:contentViewNibNamed:" [MetaClass; obj "NSString"] (obj "NSPopover");
    inst "showRelativeToView:edge:" [obj "NSView"; Named "NSRectEdge"] Void;
    inst "showAboveView:" [obj "NSView"] Void;
    inst "showBelowView:" [obj "NSView"] Void;
    inst "showToTheLeftOfView:" [obj "NSView"] Void;
    inst "showToTheRightOfView:" [obj "NSView"] Void] |}.


(** ** Categories/NSEvent+MPExtensions.h *)
(* @src Feather/Sources/Categories/NSEvent+MPExtensions.h 14 20 @interface NSEvent (MPExtensions) *)
Definition NSEvent_MPExtensions_category : interface := {|
  i_name := "NSEvent"; i_kind := Category "MPExtensions"; i_protocols := [];
  i_declarations := [
    cls "commandKeyDown" [] BOOL;
    cls "optionKeyDown" [] BOOL;
    cls "shiftKeyDown" [] BOOL] |}.


(** ** Categories/NSViewController+MPExtensions.h *)
(* @src Feather/Sources/Categories/NSViewController+MPExtensions.h 13 19 @interface NSViewController (MPExtensions) *)
Definition NSViewController_MPExtensions_category : interface := {|
  i_name := "NSViewController"; i_kind := Category "MPExtensions"; i_protocols := [];
  i_declarations := [
    cls "viewControllerOfClass:withNibNamed:" [MetaClass; obj "NSString"] Instancetype;
    inst "ensureViewIsLoaded" [] Void] |}.


(** ** Categories/ABRecord+MPExtensions.h *)
(* @src Feather/Sources/Categories/ABRecord+MPExtensions.h 11 19 @interface ABRecord (MPExtensions) *)
Definition ABRecord_MPExtensions_category : interface := {|
  i_name := "ABRecord"; i_kind := Category "MPExtensions"; i_protocols := [];
  i_declarations := [
    property "fullName" (obj "NSString") [ReadOnly];
    property "lastName" (obj "NSString") [ReadOnly];
    property "affiliation" (obj "NSString") [ReadOnly];
    property "identifier" (obj "NSString") [ReadOnly];
    property "avatarImage" (obj "NSImage") [ReadOnly]] |}.


(** ** Categories/NSApplication+MPExtensions.h *)
(* @src Feather/Sources/Categories/NSApplication+MPExtensions.h 11 18 @interface NSApplication (MPExtensions) *)
Definition NSApplication_MPExtensions_category : interface := {|
  i_name := "NSApplication"; i_kind := Category "MPExtensions"; i_protocols := [];
  i_declarations := [
    inst "beginSheet:modalForWindow:didEndBlock:" [obj "NSWindow"; obj "NSWindow"; Block Void [NSInteger]] Void;
    property "isSandboxed" BOOL [ReadOnly];
    property "isSigned" BOOL [ReadOnly]] |}.


(** ** Categories/NSTextView+MPExtensions.h *)
(* @src Feather/Sources/Categories/NSTextView+MPExtensions.h 11 17 @interface NSTextView (MPExtensions) *)
Definition NSTextView_MPExtensions_category : interface := {|
  i_name := "NSTextView"; i_kind := Category "MPExtensions"; i_protocols := [];
  i_declarations := [
    property "wrappedLineCount" NSUInteger [ReadOnly];
    property "hardLineFeedCount" NSUInteger [ReadOnly]] |}.


(** ** Categories/NSTextField+MPExtensions.h *)
(* @src Feather/Sources/Categories/NSTextField+MPExtensions.h 13 16 @interface NSTextField (MPExtensions) *)
Definition NSTextField_MPExtensions_category : interface := {|
  i_name := "NSTextField"; i_kind := Category "MPExtensions"; i_protocols := [];
  i_declarations := [
    inst "applyMinimumSizeForMaximumWidth:" [Named "CGFloat"] Void;
    inst "minimumSizeForMaximumWidth:" [Named "CGFloat"] (Named "NSSize")] |}.


(** ** Feather/NSUUID+MPExtensions.h *)
(* @src Feather/NSUUID+MPExtensions.h 11 16 @interface MPExtensions *)
Definition MPExtensions_interface : interface := {|
  i_name := "MPExtensions"; i_kind := ClassInterface "NSUUID"; i_protocols := [];
  i_declarations := [
    inst "unsignedLongValue" [] (Named "unsigned long")] |}.


(** ** FeatherScripting/NSDictionary+MPScriptingSupport.h *)
(* @src FeatherScripting/NSDictionary+MPScriptingSupport.h 11 16 @interface NSDictionary (MPScriptingSupport) *)
Definition NSDictionary_MPScriptingSupport_category : interface := {|
  i_name := "NSDictionary"; i_kind := Category "MPScriptingSupport"; i_protocols := [];
  i_declarations := [
    cls "scriptingRecordWithDescriptor:" [obj "NSAppleEventDescriptor"] (obj "NSDictionary")] |}.


(** ** External/NSData+Base64/NSData+Base64.h *)
(* @src External/NSData+Base64/NSData+Base64.h 11 34 @interface NSData (Base64) *)
Definition NSData_Base64_category : interface := {|
  i_name := "NSData"; i_kind := Category "Base64"; i_protocols := [];
  i_declarations := [
    cls "dataWithBase64EncodedString:" [obj "NSString"] (obj "NSData");
    inst "initWithBase64EncodedString:" [obj "NSString"] (Id []);
    inst "base64EncodingWithLineLength:" [Named "unsigned int"] (obj "NSString")] |}.

(** All of them. *)
Definition HeadersExtensions_interfaces : list interface :=
  [NSXMLElement_MPExtensions_category; NSString_MPXMLExtensions_category;
    NSXMLDocument_MPXMLExtensions_category; NSMenuItem_Manuscripts_category; NSImage_MPExtensions_category;
    NSImage_FDImageDiff_category; NSAttributedString_MPExtensions_category; NSString_MPExtensions_category;
    NSAttributedString_MMRTFWithImages_category; NSAttributedString_Manuscripts_category;
    NSMutableAttributedString_Manuscripts_category; NSDictionary_ManuscriptsAttributedString_category;
    NSAttributedString_Hyperlink_category; NSView_MPExtensions_category;
    MPWindowControllerAwareViewController_protocol; MPContentViewControllerAwareWindowController_protocol;
    NSWindowController_MPExtensions_category; NSPopover_MPExtensions_category; NSEvent_MPExtensions_category;
    NSViewController_MPExtensions_category; ABRecord_MPExtensions_category;
    NSApplication_MPExtensions_category; NSTextView_MPExtensions_category; NSTextField_MPExtensions_category;
    MPExtensions_interface; NSDictionary_MPScriptingSupport_category; NSData_Base64_category].
