(* ===== verification/HeadersBindings.v ===== *)
(** * The headers of the bindings generator

    src/Bindings/*/*.h: the declarations the analyzer reads from a header and the
    translators that print them, declaration by declaration and in the order of
    the header. *)
From stdpp Require Import base strings list.
From S2P Require Import Prelude ObjC Declarations.

Local Open Scope string_scope.
Local Open Scope list_scope.

(** ** Bindings/Bindings OSX Framework/MPObjectiveCTokens.h *)
(* @src Bindings/Bindings OSX Framework/MPObjectiveCTokens.h 16 37 @interface MPObjCTranslationUnit *)
Definition MPObjCTranslationUnit_interface : interface := {|
  i_name := "MPObjCTranslationUnit"; i_kind := ClassInterface "NSObject"; i_protocols := [];
  i_declarations := [
    property "path" (obj "NSString") [ReadOnly; Copy];
    property "enumDeclarations" (obj "NSArray") [ReadOnly];
    property "constantDeclarations" (obj "NSArray") [ReadOnly];
    property "protocolDeclarations" (obj "NSArray") [ReadOnly];
    property "classDeclarations" (obj "NSArray") [ReadOnly];
    inst "initWithPath:" [obj "NSString"] Instancetype;
    inst "addEnumDeclaration:" [obj "MPObjCEnumDeclaration"] Void;
    inst "addConstantDeclaration:" [obj "MPObjCConstantDeclaration"] Void;
    inst "addProtocolDeclaration:" [obj "MPObjCProtocolDeclaration"] Void;
    inst "addClassDeclaration:" [obj "MPObjCClassDeclaration"] Void] |}.

(* @src Bindings/Bindings OSX Framework/MPObjectiveCTokens.h 39 49 @interface MPObjCEnumDeclaration *)
Definition MPObjCEnumDeclaration_interface : interface := {|
  i_name := "MPObjCEnumDeclaration"; i_kind := ClassInterface "NSObject"; i_protocols := [];
  i_declarations := [
    property "name" (obj "NSString") [ReadOnly];
    property "backingType" (obj "NSString") [ReadWrite];
    property "enumConstants" (obj "NSArray") [ReadOnly; Copy];
    inst "initWithName:" [obj "NSString"] Instancetype;
    inst "addEnumConstant:" [obj "MPObjCEnumConstant"] Void] |}.

(* @src Bindings/Bindings OSX Framework/MPObjectiveCTokens.h 51 63 @interface MPObjCConstantDeclaration *)
Definition MPObjCConstantDeclaration_interface : interface := {|
  i_name := "MPObjCConstantDeclaration"; i_kind := ClassInterface "NSObject"; i_protocols := [];
  i_declarations := [
    property "name" (obj "NSString") [ReadOnly];
    property "value" (Id []) [ReadWrite];
    property "type" (obj "NSString") [ReadWrite];
    property "isConst" BOOL [ReadWrite];
    property "isStatic" BOOL [ReadWrite];
    property "isExtern" BOOL [ReadWrite];
    property "isObjectReference" BOOL [ReadWrite];
    inst "initWithName:value:type:" [obj "NSString"; Id []; obj "NSString"] Instancetype] |}.

(* @src Bindings/Bindings OSX Framework/MPObjectiveCTokens.h 65 73 @interface MPObjCEnumConstant *)
Definition MPObjCEnumConstant_interface : interface := {|
  i_name := "MPObjCEnumConstant"; i_kind := ClassInterface "NSObject"; i_protocols := [];
  i_declarations := [
    property "enumDeclaration" (obj "MPObjCEnumDeclaration") [ReadOnly; Weak];
    property "name" (obj "NSString") [ReadOnly];
    property "value" (obj "NSNumber") [ReadWrite];
    inst "initWithEnumDeclaration:name:" [obj "MPObjCEnumDeclaration"; obj "NSString"] Instancetype] |}.

(* @src Bindings/Bindings OSX Framework/MPObjectiveCTokens.h 75 82 @interface MPObjCTypeDefinition *)
Definition MPObjCTypeDefinition_interface : interface := {|
  i_name := "MPObjCTypeDefinition"; i_kind := ClassInterface "NSObject"; i_protocols := [];
  i_declarations := [
    property "name" (obj "NSString") [ReadOnly];
    property "backingType" (obj "NSString") [ReadOnly];
    inst "initWithName:backingType:" [obj "NSString"; obj "NSString"] Instancetype] |}.

(* @src Bindings/Bindings OSX Framework/MPObjectiveCTokens.h 84 108 @interface MPObjCClassDeclaration *)
Definition MPObjCClassDeclaration_interface : interface := {|
  i_name := "MPObjCClassDeclaration"; i_kind := ClassInterface "NSObject"; i_protocols := [];
  i_declarations := [
    property "name" (obj "NSString") [ReadOnly; Copy];
    property "superClassName" (obj "NSString") [ReadOnly; Copy];
    property "conformedProtocols" (obj "NSArray") [ReadOnly];
    property "propertyDeclarations" (obj "NSArray") [ReadOnly];
    property "instanceMethodDeclarations" (obj "NSArray") [ReadOnly];
    property "classMethodDeclarations" (obj "NSArray") [ReadOnly];
    property "instanceVariableDeclarations" (obj "NSArray") [ReadOnly];
    cls "classWithName:" [obj "NSString"] (obj "MPObjCClassDeclaration");
    inst "initWithName:superClassName:" [obj "NSString"; obj "NSString"] Instancetype;
    inst "addConformedProtocol:" [obj "NSString"] Void;
    inst "addInstanceMethodDeclaration:" [obj "MPObjCInstanceMethodDeclaration"] Void;
    inst "addClassMethodDeclaration:" [obj "MPObjCClassMethodDeclaration"] Void;
    inst "addPropertyDeclaration:" [obj "MPObjCPropertyDeclaration"] Void;
    inst "addInstanceVariableDeclaration:" [obj "MPObjCInstanceVariableDeclaration"] Void] |}.

(* @src Bindings/Bindings OSX Framework/MPObjectiveCTokens.h 110 132 @interface MPObjCProtocolDeclaration *)
Definition MPObjCProtocolDeclaration_interface : interface := {|
  i_name := "MPObjCProtocolDeclaration"; i_kind := ClassInterface "NSObject"; i_protocols := [];
  i_declarations := [
    property "name" (obj "NSString") [ReadOnly; Copy];
    property "type" (obj "NSString") [Copy];
    property "conformedProtocols" (obj "NSArray") [ReadOnly; Copy];
    property "classMethodDeclarations" (obj "NSArray") [ReadOnly];
    property "instanceMethodDeclarations" (obj "NSArray") [ReadOnly];
    inst "addConformedProtocol:" [obj "NSString"] Void;
    inst "addPropertyDeclaration:" [obj "MPObjCPropertyDeclaration"] Void;
    inst "addClassMethodDeclaration:" [obj "MPObjCClassMethodDeclaration"] Void;
    inst "addInstanceMethodDeclaration:" [obj "MPObjCInstanceMethodDeclaration"] Void;
    inst "addConstantDeclaration:" [obj "MPObjCConstantDeclaration"] Void;
    inst "initWithName:" [obj "NSString"] Instancetype] |}.

(* @src Bindings/Bindings OSX Framework/MPObjectiveCTokens.h 134 146 @interface MPObjCPropertyDeclaration *)
Definition MPObjCPropertyDeclaration_interface : interface := {|
  i_name := "MPObjCPropertyDeclaration"; i_kind := ClassInterface "NSObject"; i_protocols := [];
  i_declarations := [
    property "name" (obj "NSString") [ReadOnly; Copy];
    property "type" (obj "NSString") [Copy];
    property "ownershipAttribute" (obj "NSString") [];
    property "isReadWrite" BOOL [];
    property "isObjectType" BOOL [];
    property "getterName" (obj "NSString") [];
    property "setterName" (obj "NSString") [];
    inst "initWithName:type:" [obj "NSString"; obj "NSString"] Instancetype] |}.

(* @src Bindings/Bindings OSX Framework/MPObjectiveCTokens.h 148 154 @interface MPObjCInstanceVariableDeclaration *)
Definition MPObjCInstanceVariableDeclaration_interface : interface := {|
  i_name := "MPObjCInstanceVariableDeclaration"; i_kind := ClassInterface "NSObject"; i_protocols := [];
  i_declarations := [
    property "name" (obj "NSString") [ReadOnly; Copy];
    property "type" (obj "NSString") [ReadOnly; Copy];
    inst "initWithName:type:" [obj "NSString"; obj "NSString"] Instancetype] |}.

(* @src Bindings/Bindings OSX Framework/MPObjectiveCTokens.h 156 164 @interface MPObjCMethodParameter *)
Definition MPObjCMethodParameter_interface : interface := {|
  i_name := "MPObjCMethodParameter"; i_kind := ClassInterface "NSObject"; i_protocols := [];
  i_declarations := [
    property "name" (obj "NSString") [ReadOnly];
    property "type" (obj "NSString") [ReadOnly];
    property "isObjectType" BOOL [];
    property "selectorComponent" (obj "NSString") [ReadOnly];
    inst "initWithName:type:selectorComponent:" [obj "NSString"; obj "NSString"; obj "NSString"] Instancetype] |}.

(* @src Bindings/Bindings OSX Framework/MPObjectiveCTokens.h 166 176 @interface MPObjCMethodDeclaration *)
Definition MPObjCMethodDeclaration_interface : interface := {|
  i_name := "MPObjCMethodDeclaration"; i_kind := ClassInterface "NSObject"; i_protocols := [];
  i_declarations := [
    property "selector" (obj "NSString") [ReadOnly; Copy];
    property "returnType" (obj "NSString") [ReadOnly; Copy];
    property "parameters" (obj "NSArray") [ReadOnly; Copy];
    property "returnsObjectType" BOOL [];
    inst "initWithSelector:returnType:" [obj "NSString"; obj "NSString"] Instancetype;
    inst "addParameter:" [obj "MPObjCMethodParameter"] Void] |}.

(* @src Bindings/Bindings OSX Framework/MPObjectiveCTokens.h 178 179 @interface MPObjCInstanceMethodDeclaration *)
Definition MPObjCInstanceMethodDeclaration_interface : interface := {|
  i_name := "MPObjCInstanceMethodDeclaration"; i_kind := ClassInterface "MPObjCMethodDeclaration"; i_protocols := [];
  i_declarations := [] |}.

(* @src Bindings/Bindings OSX Framework/MPObjectiveCTokens.h 181 182 @interface MPObjCClassMethodDeclaration *)
Definition MPObjCClassMethodDeclaration_interface : interface := {|
  i_name := "MPObjCClassMethodDeclaration"; i_kind := ClassInterface "MPObjCMethodDeclaration"; i_protocols := [];
  i_declarations := [] |}.


(** ** Bindings/Bindings OSX Framework/MPIndentedMutableString.h *)
(* @src Bindings/Bindings OSX Framework/MPIndentedMutableString.h 11 25 @interface MPIndentedMutableString *)
Definition MPIndentedMutableString_interface : interface := {|
  i_name := "MPIndentedMutableString"; i_kind := ClassInterface "NSObject"; i_protocols := ["NSCopying"];
  i_declarations := [
    property "indentationSpaceCount" NSUInteger [ReadOnly];
    inst "initWithIndentationSpaceCount:" [NSUInteger] Instancetype;
    inst "appendString:" [obj "NSString"] Void;
    inst "appendLine:" [obj "NSString"] Void;
    inst "indent:" [Block Void []] Void;
    property "stringRepresentation" (obj "NSString") [ReadOnly; Copy]] |}.


(** ** Bindings/Bindings OSX Framework/MPObjectiveCTranslator.h *)
(* @src Bindings/Bindings OSX Framework/MPObjectiveCTranslator.h 13 38 @interface MPObjCTranslator *)
Definition MPObjCTranslator_interface : interface := {|
  i_name := "MPObjCTranslator"; i_kind := ClassInterface "NSObject"; i_protocols := [];
  i_declarations := [
    cls "name" [] (obj "NSString");
    cls "newTranslatorWithName:" [obj "NSString"] (obj "MPObjCTranslator");
    property "identifierPrefix" (obj "NSString") [ReadWrite];
    inst "translationForUnit:" [obj "MPObjCTranslationUnit"] (obj "NSString");
    inst "translatedPrefixedIdentifierString:" [obj "NSString"] (obj "NSString");
    inst "translatedEnumDeclarationsForTranslationUnit:" [obj "MPObjCTranslationUnit"] (obj "NSString");
    inst "translatedEnumDeclaration:" [obj "MPObjCEnumDeclaration"] (obj "NSString");
    inst "translatedConstantDeclarationsForTranslationUnit:libraryName:" [obj "MPObjCTranslationUnit";
      obj "NSString"] (obj "NSString");
    inst "translatedProtocolDeclarationsForTranslationUnit:" [obj "MPObjCTranslationUnit"] (obj "NSString");
    inst "translatedProtocolDeclaration:" [obj "MPObjCProtocolDeclaration"] (obj "NSString");
    inst "translatedClassDeclarationsForTranslationUnit:" [obj "MPObjCTranslationUnit"] (obj "NSString")] |}.


(** ** Bindings/Bindings OSX Framework/MPObjectiveCToCSharpTranslator.h *)
(* @src Bindings/Bindings OSX Framework/MPObjectiveCToCSharpTranslator.h 11 15 @interface MPObjCToCSharpTranslator *)
Definition MPObjCToCSharpTranslator_interface : interface := {|
  i_name := "MPObjCToCSharpTranslator"; i_kind := ClassInterface "MPObjCTranslator"; i_protocols := [];
  i_declarations := [
    property "namespaceString" (obj "NSString") [ReadWrite; Copy]] |}.


(** ** Bindings/Bindings/MPObjectiveCAnalyzer.h *)
(* @src Bindings/Bindings/MPObjectiveCAnalyzer.h 14 52 @interface MPObjCAnalyzer *)
Definition MPObjCAnalyzer_interface : interface := {|
  i_name := "MPObjCAnalyzer"; i_kind := ClassInterface "NSObject"; i_protocols := [];
  i_declarations := [
    property "includedHeaderPaths" (obj "NSArray") [ReadOnly];
    inst "initWithDynamicLibraryAtPath:includedHeaderPaths:error:" [obj "NSString"; obj "NSArray";
      Out (obj "NSError")] Instancetype;
    inst "initWithObjectiveCHeaderText:additionalHeaderPaths:error:" [obj "NSString"; obj "NSArray";
      Out (obj "NSError")] Instancetype;
    inst "initWithBundleAtURL:additionalHeaderPaths:error:" [obj "NSURL"; obj "NSArray";
      Out (obj "NSError")] Instancetype;
    inst "analyzedTranslationUnitForClangKitTranslationUnit:atPath:" [obj "CKTranslationUnit";
      obj "NSString"] (obj "MPObjCTranslationUnit");
    inst "enumerateTranslationUnits:" [Block Void [obj "NSString"; obj "CKTranslationUnit"]] Void;
    inst "enumerateTokensForCompilationUnitAtPath:forEachToken:matchingPattern:" [obj "NSString";
      Block Void [obj "CKTranslationUnit"; obj "CKToken"]; Block BOOL [obj "NSString"; obj "CKTranslationUnit";
      obj "CKToken"]] Void;
    inst "typeDefinitionsForHeaderAtPath:" [obj "NSString"] (obj "NSArray");
    inst "enumDeclarationsForHeaderAtPath:" [obj "NSString"] (obj "NSArray");
    inst "constantDeclarationsForHeaderAtPath:" [obj "NSString"] (obj "NSArray");
    inst "classDeclarationsForHeaderAtPath:" [obj "NSString"] (obj "NSArray");
    inst "protocolDeclarationsForHeaderAtPath:" [obj "NSString"] (obj "NSArray")] |}.

(** All of them. *)
Definition HeadersBindings_interfaces : list interface :=
  [MPObjCTranslationUnit_interface; MPObjCEnumDeclaration_interface; MPObjCConstantDeclaration_interface;
    MPObjCEnumConstant_interface; MPObjCTypeDefinition_interface; MPObjCClassDeclaration_interface;
    MPObjCProtocolDeclaration_interface; MPObjCPropertyDeclaration_interface;
    MPObjCInstanceVariableDeclaration_interface; MPObjCMethodParameter_interface;
    MPObjCMethodDeclaration_interface; MPObjCInstanceMethodDeclaration_interface;
    MPObjCClassMethodDeclaration_interface; MPIndentedMutableString_interface; MPObjCTranslator_interface;
    MPObjCToCSharpTranslator_interface; MPObjCAnalyzer_interface].
