(* ===== verification/HeadersTests.v ===== *)
(** * The headers of the test classes

    src/FeatherTests/MPFeatherTestClasses.h: a model class with a subclass, their
    controller and a package controller, as an application declares them. *)
From stdpp Require Import base strings list.
From S2P Require Import Prelude ObjC Declarations.

Local Open Scope string_scope.
Local Open Scope list_scope.

(** ** FeatherTests/MPFeatherTestClasses.h *)
(* @src FeatherTests/MPFeatherTestClasses.h 16 24 @interface MPTestObject *)
Definition MPTestObject_interface : interface := {|
  i_name := "MPTestObject"; i_kind := ClassInterface "MPManagedObject"; i_protocols := ["MPTitledProtocol"];
  i_declarations := [
    property "embeddedTestObject" (obj "MPEmbeddedTestObject") [ReadWrite; Strong];
    property "title" (obj "NSString") [ReadWrite; Copy];
    property "desc" (obj "NSString") [ReadWrite; Copy];
    property "contents" (obj "NSString") [ReadWrite; Copy]] |}.

(* @src FeatherTests/MPFeatherTestClasses.h 27 28 @interface MPMoreSpecificTestObject *)
Definition MPMoreSpecificTestObject_interface : interface := {|
  i_name := "MPMoreSpecificTestObject"; i_kind := ClassInterface "MPTestObject"; i_protocols := [];
  i_declarations := [] |}.

(* @src FeatherTests/MPFeatherTestClasses.h 30 41 @interface MPEmbeddedTestObject *)
Definition MPEmbeddedTestObject_interface : interface := {|
  i_name := "MPEmbeddedTestObject"; i_kind := ClassInterface "MPEmbeddedObject"; i_protocols := [];
  i_declarations := [
    property "anotherEmbeddedObject" (obj "MPEmbeddedTestObject") [Strong];
    property "aStringTypedProperty" (obj "NSString") [ReadWrite; Copy];
    property "anUnsignedIntTypedProperty" NSUInteger [ReadWrite; Assign];
    property "embeddedManagedObjectProperty" (obj "MPTestObject") [ReadWrite; Strong];
    property "embeddedArrayOfTestObjects" (obj "NSArray") [ReadWrite; Strong];
    property "embeddedDictionaryOfTestObjects" (obj "NSDictionary") [ReadWrite; Strong]] |}.

(* @src FeatherTests/MPFeatherTestClasses.h 43 44 @interface MPTestObjectsController *)
Definition MPTestObjectsController_interface : interface := {|
  i_name := "MPTestObjectsController"; i_kind := ClassInterface "MPManagedObjectsController"; i_protocols := [];
  i_declarations := [] |}.

(* @src FeatherTests/MPFeatherTestClasses.h 50 54 @interface MPFeatherTestPackageController *)
Definition MPFeatherTestPackageController_interface : interface := {|
  i_name := "MPFeatherTestPackageController"; i_kind := ClassInterface "MPShoeboxPackageController";
    i_protocols := [];
  i_declarations := [
    cls "sharedPackageController" [] Instancetype;
    property "testObjectsController" (obj "MPTestObjectsController") [ReadOnly; Strong]] |}.

(** All of them. *)
Definition HeadersTests_interfaces : list interface :=
  [MPTestObject_interface; MPMoreSpecificTestObject_interface; MPEmbeddedTestObject_interface;
    MPTestObjectsController_interface; MPFeatherTestPackageController_interface].
