(* ===== verification/Interfaces.v ===== *)
(** * Messages and their types

    Which declaration a message finds in a class, and when the declarations of a
    subclass agree with those it inherits: subtyping of Objective-C types, checked
    for the headers of the framework by [well_typed]. *)
From Stdlib Require Import Ascii.
From stdpp Require Import base tactics strings numbers list gmap.
From S2P Require Import Prelude ObjC Declarations HeadersModel HeadersControllers HeadersPackages HeadersCategories HeadersExtensions HeadersBindings.

(** The headers of the framework. *)
Definition feather : list interface :=
  HeadersModel_interfaces ++ HeadersControllers_interfaces ++ HeadersPackages_interfaces ++
  HeadersCategories_interfaces ++ HeadersExtensions_interfaces ++ HeadersBindings_interfaces.

Section typing.
Context (P : list interface).

(** The class table the declarations make up. *)
Definition declaredRuntime : Runtime := {|
  rt_classes := classTable P;
  rt_properties _ := [];
  rt_propertyClass _ _ := None;
  rt_conforms _ _ := false;
  rt_responds _ _ := false
|}.
Notation inherits := (inherits declaredRuntime).
Notation superclass := (superclass declaredRuntime).

(** Everything a class answers: its own declarations, then those it inherits. *)
Fixpoint visible (fuel : nat) (c : string) : list methodDeclaration :=
  own P c ++ match fuel, superclass c with S n, Some p => visible n p | _, _ => [] end.

(** The declaration a message to an instance (or to the class itself) finds: the
    first one of the class, or that of the closest superclass with one. *)
Definition sameMessage (m m' : methodDeclaration) : bool :=
  Bool.eqb (md_class m) (md_class m') && String.eqb (md_selector m) (md_selector m').
Definition findMethod (c : string) (m : methodDeclaration) : option methodDeclaration :=
  List.find (sameMessage m) (visible (class_count declaredRuntime) c).

(** ** Subtyping *)

(** Type arguments are not checked when a program runs: [Of t u] and [t] convert
    into each other, as the compiler lets them; a type without an annotation
    promises no more than a nullable one. *)
Inductive subtype : ctype → ctype → Prop :=
  | SubRefl t : subtype t t
  | SubTrans s t u : subtype s t → subtype t u → subtype s u
  | SubClass c d : inherits c d → subtype (Object c) (Object d)
  | SubObject c : subtype (Object c) AnyObject
  | SubMetaClass : subtype MetaClass AnyObject
  | SubInstancetype : subtype Instancetype AnyObject
  | SubConforming t p : subtype (Conforming t p) t
  | SubErase t u : subtype (Of t u) t
  | SubSpecialize t u : subtype t (Of t u)
  | SubKindof t : subtype (Kindof t) t
  | SubToKindof t : subtype t (Kindof t)
  | SubNonnull t : subtype (Nonnull t) t
  | SubNullable t : subtype t (Nullable t)
  | SubUnannotated t : subtype (Nullable t) t
  | SubNonnull_mono s t : subtype s t → subtype (Nonnull s) (Nonnull t)
  | SubNullable_mono s t : subtype s t → subtype (Nullable s) (Nullable t).

(** A method can stand for another one: it answers the same message, takes at
    least its arguments and gives at most its result. *)
Record specializes (m m' : methodDeclaration) : Prop := {
  spec_class : md_class m = md_class m';
  spec_selector : md_selector m = md_selector m';
  spec_arguments : Forall2 subtype (md_arguments m') (md_arguments m);
  spec_result : subtype (md_result m) (md_result m')
}.

(** The checker *)
Fixpoint erase (t : ctype) : ctype :=
  match t with
  | Nonnull t | Nullable t | Kindof t | Of t _ => erase t
  | _ => t
  end.
Fixpoint unconforming (t : ctype) : ctype := match t with Conforming t _ => unconforming t | _ => t end.
Definition baseSubtype (s t : ctype) : bool :=
  if bool_decide (s = t) then true else if bool_decide (unconforming s = t) then true else
  match unconforming s, t with
  | Object c, Object d => isSubclassOfClass declaredRuntime c d
  | Object _, AnyObject | MetaClass, AnyObject | Instancetype, AnyObject => true
  | _, _ => false
  end.
(** No promise of being there below the head. *)
Fixpoint plain (t : ctype) : bool :=
  match t with
  | Nonnull _ => false
  | Nullable t | Kindof t | Of t _ => plain t
  | _ => true
  end.
Definition subtypeb (s t : ctype) : bool :=
  match t with
  | Nonnull t => match s with Nonnull s => if plain t then baseSubtype (erase s) (erase t) else false | _ => false end
  | _ => if plain t then baseSubtype (erase s) (erase t) else false
  end.

Fixpoint forall2b {A} (f : A → A → bool) (l k : list A) : bool :=
  match l, k with
  | [], [] => true
  | x :: l, y :: k => f x y && forall2b f l k
  | _, _ => false
  end.
Definition specializesb (m m' : methodDeclaration) : bool :=
  Bool.eqb (md_class m) (md_class m') && String.eqb (md_selector m) (md_selector m') &&
  forall2b subtypeb (md_arguments m') (md_arguments m) && subtypeb (md_result m) (md_result m').

Definition agrees (vis : list methodDeclaration) (m : methodDeclaration) : bool :=
  match List.find (sameMessage m) vis with Some m' => specializesb m' m | None => false end.
(** Every class has declarations that agree with all it inherits. *)
Definition well_typed : bool :=
  forallb (λ c, let vis := visible (class_count declaredRuntime) c in forallb (agrees vis) vis) (classTable P).*1.

(** ** What the checker establishes *)
Lemma erase_below s : subtype s (erase s).
Proof. induction s; try apply SubRefl; eapply SubTrans; eauto using subtype. Qed.

Lemma erase_above t : plain t = true → subtype (erase t) t.
Proof. induction t; intros Hp; try apply SubRefl; try done; eapply SubTrans; eauto using subtype. Qed.

Lemma unconforming_below s : subtype s (unconforming s).
Proof. induction s; try apply SubRefl. eapply SubTrans; eauto using subtype. Qed.

Lemma baseSubtype_sound s t : baseSubtype s t = true → subtype s t.
Proof.
  unfold baseSubtype. case_bool_decide; [subst; intros _; apply SubRefl|].
  case_bool_decide; [subst; intros _; apply unconforming_below|].
  intros Hb. eapply SubTrans; [apply unconforming_below|].
  destruct (unconforming s), t; try done; eauto using subtype.
  apply SubClass. by eapply subclass_fuel_sound.
Qed.

Lemma subtypeb_sound s t : subtypeb s t = true → subtype s t.
Proof.
  assert (∀ s t, plain t = true → baseSubtype (erase s) (erase t) = true → subtype s t) as Hplain.
  { clear s t. intros s t Hp Hb%baseSubtype_sound.
    eapply SubTrans; [apply erase_below|]. eapply SubTrans; [exact Hb|by apply erase_above]. }
  unfold subtypeb. destruct t; try (case_match; [by apply Hplain|done]).
  destruct s; try done. case_match; [|done]. intros. by apply SubNonnull_mono, Hplain.
Qed.

Lemma forall2b_sound {A} (f : A → A → bool) (R : A → A → Prop) l k :
  (∀ x y, f x y = true → R x y) → forall2b f l k = true → Forall2 R l k.
Proof.
  intros HR. revert k. induction l as [|x l IH]; intros [|y k]; try done.
  cbn. intros [Hf Hk]%andb_true_iff. constructor; auto.
Qed.

Lemma specializesb_sound m m' : specializesb m m' = true → specializes m m'.
Proof.
  unfold specializesb. rewrite !andb_true_iff. intros [[[Hc%eqb_prop Hs%String.eqb_eq] Ha] Hr].
  split; [done|done| |by apply subtypeb_sound].
  eapply forall2b_sound; [|exact Ha]. apply subtypeb_sound.
Qed.

Lemma visible_inherits n c d m :
  rooted declaredRuntime n c = true → inherits c d → m ∈ own P d → m ∈ visible n c.
Proof.
  intros Hr Hi Hm. revert c Hr Hi. induction n as [|n IH]; intros c Hr Hi; cbn in *;
    (destruct Hi as [c|c p d Hp Hi]; [by apply elem_of_app; left|]; unfold extends in Hp; rewrite Hp in *); [done|].
  apply elem_of_app. right. by apply IH.
Qed.

Lemma well_typed_sound c d m :
  runtime_wf declaredRuntime = true → well_typed = true → c ∈ (classTable P).*1 →
  inherits c d → m ∈ own P d → ∃ m', findMethod c m = Some m' ∧ specializes m' m.
Proof.
  intros Hwf Hwt Hc Hi Hm. unfold well_typed in Hwt.
  rewrite forallb_forall in Hwt. specialize (Hwt c ltac:(by apply list_elem_of_In)). cbn zeta in Hwt.
  rewrite forallb_forall in Hwt.
  assert (m ∈ visible (class_count declaredRuntime) c) as Hv
    by (eapply visible_inherits; [by apply runtime_wf_rooted|done..]).
  specialize (Hwt m ltac:(by apply list_elem_of_In)). unfold agrees in Hwt. unfold findMethod.
  destruct (List.find _ _) as [m'|]; [|done]. exists m'. split; [done|by apply specializesb_sound].
Qed.
End typing.

(** ** The framework *)
Lemma feather_wf : runtime_wf (declaredRuntime feather) = true.
Proof. vm_compute. reflexivity. Qed.

Lemma feather_well_typed : well_typed feather = true.
Proof. vm_compute. reflexivity. Qed.

(** C13 (type). Messages keep their types down the class hierarchy: whatever a class
    of the framework declares - in its interface, a category, a property or a
    protocol it adopts -, an instance of any of its subclasses answers, through a
    declaration that takes at least the arguments and gives at most the result
    promised; a property declared read-write can be written on every subclass. *)
Theorem messages_keep_their_types c d m :
  c ∈ (classTable feather).*1 → inherits (declaredRuntime feather) c d → m ∈ own feather d →
  ∃ m', findMethod feather c m = Some m' ∧ specializes feather m' m.
Proof. apply well_typed_sound; [apply feather_wf|apply feather_well_typed]. Qed.

Lemma messages_keep_their_types_witness :
  let m := {| md_class := false; md_selector := "placeholderString"; md_arguments := [];
              md_result := nn (obj "NSString") |} in
  m ∈ own feather "MPContributor" ∧
  ∃ m', findMethod feather "MPContributor" m = Some m' ∧ specializes feather m' m.
Proof.
  cbn zeta. assert (∀ m, bool_decide (m ∈ own feather "MPContributor") = true → m ∈ own feather "MPContributor") as Hin
    by (intros m; apply bool_decide_eq_true_1).
  split; [apply Hin; vm_compute; reflexivity|].
  apply (messages_keep_their_types "MPContributor" "MPContributor"); [|apply rtc_refl|apply Hin; vm_compute; reflexivity].
  assert (∀ c, bool_decide (c ∈ (classTable feather).*1) = true → c ∈ (classTable feather).*1) as Hc
    by (intros c; apply bool_decide_eq_true_1).
  apply Hc. vm_compute. reflexivity.
Defined.
