(* ===== verification/PropertyAttributes.v ===== *)
(** * Property attributes

    The attribute string the compiler gives the runtime for a declared property,
    and what [+propertyWithKeyIsReadWrite:] (NSObject+MPExtensions.m) reads out of
    it: when the answer is that of the declaration, and when it is not. *)
From Stdlib Require Import Ascii.
From stdpp Require Import base tactics strings numbers list gmap.
From S2P Require Import Prelude ObjC Classes Declarations Interfaces.

Section attributes.
Local Open Scope string_scope.

(** ** Attribute strings

    As the Objective-C Runtime Programming Guide has them: [T] and the encoding of
    the type, the descriptors, and [V] with the instance variable where there is one.
    The platform chooses the encoding of scalars and structures, and the compiler
    what it notes of ownership. *)
Inductive storage : Type :=
  | Synthesized (ivar : string)
  | Dynamic
  | HandWritten.
Inductive ownership : Type := Assigns | Copies | Retains | Weakens.
Context (named : string → string) (ownershipOf : propertyDeclaration → ownership).

Definition quotation : string := String (ascii_of_nat 34) "".
Fixpoint className (t : ctype) : string :=
  match t with
  | Object c => c
  | Conforming t p => className t ++ "<" ++ p ++ ">"
  | _ => ""
  end.
Fixpoint typeEncoding (t : ctype) : string :=
  match t with
  | Void => "v"
  | Named n => named n
  | AnyObject | Instancetype | TypeParam _ => "@"
  | MetaClass => "#"
  | Object _ | Conforming _ _ => "@" ++ quotation ++ className t ++ quotation
  | Returning _ | Taking _ _ => "@?"
  | Out t => "^" ++ typeEncoding t
  | Of t _ | Kindof t | Nonnull t | Nullable t => typeEncoding t
  end.

Definition customGetter (p : propertyDeclaration) : list string :=
  omap (λ a, match a with Getter s => Some s | _ => None end) (pd_attributes p).
Definition customSetter (p : propertyDeclaration) : list string :=
  omap (λ a, match a with Setter s => Some s | _ => None end) (pd_attributes p).
Definition ownershipComponent (o : ownership) : list string :=
  match o with Assigns => [] | Copies => ["C"] | Retains => ["&"] | Weakens => ["W"] end.
Definition storageComponents (s : storage) : list string * list string :=
  match s with Synthesized v => ([], [String "V" v]) | Dynamic => (["D"], []) | HandWritten => ([], []) end.

Definition attributeComponents (p : propertyDeclaration) (s : storage) : list string :=
  ([String "T" (typeEncoding (pd_type p))] ++ (if isReadOnly p then ["R"] else []) ++
   ownershipComponent (ownershipOf p) ++ (storageComponents s).1 ++
   (if bool_decide (Nonatomic ∈ pd_attributes p) then ["N"] else []) ++
   map (String "G") (customGetter p) ++ map (String "S") (customSetter p) ++
   (storageComponents s).2)%list.
Definition attributeString (p : propertyDeclaration) (s : storage) : string :=
  componentsJoinedBy ","%char (attributeComponents p s).

(** ** What the query reads out of them *)
Lemma existsb_hasChar x t : existsb (Ascii.eqb x) (String.list_ascii_of_string t) = hasChar x t.
Proof. induction t as [|c t IH]; [done|]. cbn. by rewrite IH, Ascii.eqb_sym. Qed.

(** All components but the last are searched for an [R]. *)
Lemma query_components rt c key a ws :
  class_getProperty rt (class_count rt) c key = Some (componentsJoinedBy ","%char (a :: ws)) →
  Forall (λ w, hasChar ","%char w = false) (a :: ws) →
  propertyWithKeyIsReadWrite rt c key = negb (existsb (hasChar "R"%char) (take (length ws) (a :: ws))).
Proof.
  intros Hp Hc. apply Forall_cons in Hc as [Ha Hws].
  unfold propertyWithKeyIsReadWrite. rewrite Hp, components_joined by done.
  cbn [length Nat.sub]. rewrite Nat.sub_0_r.
  induction (take (length ws) (a :: ws)) as [|x l IH]; [done|].
  cbn. by rewrite IH, existsb_hasChar, negb_orb.
Qed.

Lemma hasChar_descriptors (d : ascii) l : Ascii.eqb d "R"%char = false →
  existsb (hasChar "R"%char) (map (String d) l) = existsb (hasChar "R"%char) l.
Proof. intros Hd. induction l as [|x l IH]; [done|]. cbn [map existsb hasChar]. by rewrite IH, Hd. Qed.

(** Of a property with an instance variable everything but the variable is searched. *)
Lemma query_synthesized rt c key p v :
  class_getProperty rt (class_count rt) c key = Some (attributeString p (Synthesized v)) →
  Forall (λ w, hasChar ","%char w = false) (attributeComponents p (Synthesized v)) →
  propertyWithKeyIsReadWrite rt c key
  = negb (isReadOnly p || hasChar "R"%char (typeEncoding (pd_type p))
          || existsb (hasChar "R"%char) (customGetter p ++ customSetter p)%list).
Proof.
  intros Hp Hc.
  assert (∃ mid, attributeComponents p (Synthesized v) = String "T" (typeEncoding (pd_type p)) :: mid ++ [String "V" v] ∧
    existsb (hasChar "R"%char) mid = isReadOnly p || existsb (hasChar "R"%char) (customGetter p ++ customSetter p))%list
    as (mid & E & HR).
  { eexists. split.
    - unfold attributeComponents. cbn [storageComponents fst snd app]. rewrite !(app_assoc (A := string)). reflexivity.
    - rewrite !existsb_app, !hasChar_descriptors by done.
      destruct (isReadOnly p), (ownershipOf p), (bool_decide _), (existsb _ (customGetter p)); done. }
  unfold attributeString in Hp. rewrite E in Hp, Hc.
  rewrite (query_components _ _ _ _ _ Hp Hc), length_app, Nat.add_1_r. cbn [take].
  rewrite (take_app_le mid) by lia. rewrite (firstn_all2 (A := string)) by lia.
  cbn [existsb]. rewrite HR. change (hasChar "R" (String "T" ?t)) with (hasChar "R" t).
  destruct (isReadOnly p); cbn; [by rewrite orb_true_r|done].
Qed.

(** [+propertyWithKeyIsReadWrite:] looks for an [R] anywhere but in
    the last component of the attribute string.  For a property with an instance
    variable it answers YES exactly if the property is not read-only and no [R]
    occurs in the encoding of its type - the name of the class included - or in
    the name of a custom accessor; of a read-only property that the compiler notes
    nothing else of (no ownership, atomic, computed by its getter) it sees only
    the type, and answers YES. *)
Theorem readwrite_query rt c key p s :
  class_getProperty rt (class_count rt) c key = Some (attributeString p s) →
  Forall (λ w, hasChar ","%char w = false) (attributeComponents p s) →
  match s with
  | Synthesized _ =>
      propertyWithKeyIsReadWrite rt c key
      = negb (isReadOnly p || hasChar "R"%char (typeEncoding (pd_type p))
              || existsb (hasChar "R"%char) (customGetter p ++ customSetter p)%list)
  | Dynamic | HandWritten =>
      attributeComponents p s = [String "T" (typeEncoding (pd_type p)); "R"] →
      isReadOnly p = true ∧
      propertyWithKeyIsReadWrite rt c key = negb (hasChar "R"%char (typeEncoding (pd_type p)))
  end.
Proof.
  intros Hp Hc. destruct s as [v| |]; [by eapply query_synthesized|..].
  all: intros E; split; [|unfold attributeString in Hp; rewrite E in Hp, Hc;
    rewrite (query_components _ _ _ _ _ Hp Hc); cbn; by rewrite orb_false_r].
  all: unfold attributeComponents in E; destruct (isReadOnly p); [done|]; exfalso.
  all: cbn in E; destruct (ownershipOf p), (bool_decide _), (customGetter p), (customSetter p); done.
Qed.
End attributes.

(** ** The properties the headers declare *)

(** The scalars and structures a type names. *)
Fixpoint scalars (t : ctype) : list string :=
  match t with
  | Named n => [n]
  | Out t | Of t _ | Kindof t | Nonnull t | Nullable t => scalars t
  | _ => []
  end.
Definition declaredProperties (P : list interface) : list propertyDeclaration := mbind propertiesOf P.

Section framework.
Local Open Scope string_scope.
Context (named : string → string) (ownershipOf : propertyDeclaration → ownership).
Notation encoding := (typeEncoding named).
(** What the classes alone contribute. *)
Notation encoding0 := (typeEncoding (λ _, "")).

Lemma encoding_scalars x t :
  (∀ n, n ∈ scalars t → hasChar x (named n) = false) → hasChar x (encoding t) = hasChar x (encoding0 t).
Proof.
  induction t; cbn [scalars typeEncoding]; intros Hn; auto; [by rewrite (Hn name) by set_solver|].
  change ("^" ++ ?e)%string with (String "^" e). cbn [hasChar]. by rewrite IHt.
Qed.

(** Nothing of a declaration holds a comma; an [R] that the query would take for a
    read-only mark occurs in one writable property only. *)
Definition readwrite_exception : string := "originalBundleFileURL".
Definition plainProperty (p : propertyDeclaration) : bool :=
  negb (existsb (hasChar ","%char) (encoding0 (pd_type p) :: customGetter p ++ customSetter p)%list) &&
  Bool.eqb (isReadOnly p || hasChar "R"%char (encoding0 (pd_type p))
            || existsb (hasChar "R"%char) (customGetter p ++ customSetter p)%list)
           (isReadOnly p || String.eqb (pd_name p) readwrite_exception).

Lemma feather_plain : forallb plainProperty (declaredProperties feather) = true.
Proof. vm_compute. reflexivity. Qed.

Lemma components_plain p v :
  hasChar ","%char (encoding (pd_type p)) = false → hasChar ","%char v = false →
  existsb (hasChar ","%char) (customGetter p ++ customSetter p)%list = false →
  Forall (λ w, hasChar ","%char w = false) (attributeComponents named ownershipOf p (Synthesized v)).
Proof.
  intros He Hv Ha. rewrite existsb_app in Ha. apply orb_false_iff in Ha as [Hg Hs].
  assert (∀ (d : ascii) l, Ascii.eqb d ","%char = false → existsb (hasChar ","%char) l = false →
    Forall (λ w, hasChar ","%char w = false) (map (String d) l)) as Hd.
  { intros d l Hd. induction l as [|y l IH]; cbn; [constructor|].
    intros [Hy Hl]%orb_false_iff. constructor; [cbn; by rewrite Hd|auto]. }
  unfold attributeComponents. cbn [storageComponents fst snd]. constructor; [exact He|].
  destruct (isReadOnly p), (ownershipOf p), (bool_decide _); cbn [ownershipComponent app];
    repeat (constructor; [done|]); rewrite !Forall_app; auto.
Qed.

(** Of every property the headers declare,
    [+propertyWithKeyIsReadWrite:] answers YES exactly if it is not declared
    read-only, on every class that has it with an instance variable - but for
    [-[MPDatabasePackageBackedDocument originalBundleFileURL]], a writable property
    it takes for a read-only one, as it would take any other of type [NSURL]. *)
Theorem declared_properties_query rt c p v :
  (∀ q n, q ∈ declaredProperties feather → n ∈ scalars (pd_type q) →
          hasChar ","%char (named n) = false ∧ hasChar "R"%char (named n) = false) →
  p ∈ declaredProperties feather → hasChar ","%char v = false →
  class_getProperty rt (class_count rt) c (pd_name p)
    = Some (attributeString named ownershipOf p (Synthesized v)) →
  propertyWithKeyIsReadWrite rt c (pd_name p)
  = negb (isReadOnly p) && negb (String.eqb (pd_name p) readwrite_exception).
Proof.
  intros Hn Hp Hv Hq. pose proof feather_plain as Hf. rewrite forallb_forall in Hf.
  specialize (Hf p ltac:(by apply list_elem_of_In)). unfold plainProperty in Hf.
  apply andb_true_iff in Hf as [Hc HR%eqb_prop]. apply negb_true_iff in Hc. cbn [existsb] in Hc.
  apply orb_false_iff in Hc as [Hc Ha].
  rewrite <- (encoding_scalars ","%char) in Hc by (intros n Hin; by apply (Hn p)).
  rewrite <- (encoding_scalars "R"%char) in HR by (intros n Hin; by apply (Hn p)).
  rewrite (query_synthesized _ _ _ _ _ _ _ Hq), HR by by apply components_plain.
  by destruct (isReadOnly p).
Qed.
End framework.

(** *** At a class of the framework *)
Section witnesses.
Local Open Scope string_scope.
(** The encodings of a 64-bit platform, and what the attributes say of ownership. *)
Definition named64 (n : string) : string :=
  if bool_decide (n ∈ ["NSUInteger"; "unsigned long long"]) then "Q" else "q".
Definition ownershipOf64 (p : propertyDeclaration) : ownership :=
  if bool_decide (Copy ∈ pd_attributes p) then Copies
  else if bool_decide (Weak ∈ pd_attributes p) then Weakens
  else if isReadOnly p then Assigns
  else match pd_type p with Named _ => Assigns | _ => Retains end.
Definition attributed (c : string) (ps : list (propertyDeclaration * storage)) : Runtime := {|
  rt_classes := [("NSObject", None); (c, Some "NSObject")];
  rt_properties k := if String.eqb k c
                     then map (λ ps, (pd_name ps.1, attributeString named64 ownershipOf64 ps.1 ps.2)) ps else [];
  rt_propertyClass _ _ := None;
  rt_conforms _ _ := false;
  rt_responds _ _ := false
|}.
Definition identifierProperty : propertyDeclaration :=
  {| pd_name := "identifier"; pd_type := obj "NSString"; pd_attributes := [ReadOnly] |}.
Definition bundleFileURL : propertyDeclaration :=
  {| pd_name := "originalBundleFileURL"; pd_type := nl (obj "NSURL"); pd_attributes := [ReadWrite] |}.
End witnesses.

Example attributes_of_url :
  attributeString named64 ownershipOf64 bundleFileURL (Synthesized "_u")
  = String.append "T@" (String (ascii_of_nat 34) (String.append "NSURL" (String (ascii_of_nat 34) ",&,V_u"%string))).
Proof. reflexivity. Qed.

Lemma readwrite_query_witness :
  let rt := attributed "ABRecord" [(identifierProperty, HandWritten)] in
  isReadOnly identifierProperty = true ∧ propertyWithKeyIsReadWrite rt "ABRecord" "identifier" = true.
Proof.
  cbn zeta.
  apply (readwrite_query named64 ownershipOf64 (attributed "ABRecord" [(identifierProperty, HandWritten)])
           "ABRecord" "identifier" identifierProperty HandWritten); [reflexivity| |reflexivity].
  repeat constructor.
Defined.

Lemma declared_properties_query_witness :
  propertyWithKeyIsReadWrite (attributed "MPDatabasePackageBackedDocument" [(bundleFileURL, Synthesized "_u")])
    "MPDatabasePackageBackedDocument" "originalBundleFileURL" = false.
Proof.
  apply (declared_properties_query named64 ownershipOf64
    (attributed "MPDatabasePackageBackedDocument" [(bundleFileURL, Synthesized "_u")])
    "MPDatabasePackageBackedDocument" bundleFileURL "_u"); [| |reflexivity|reflexivity].
  - intros q n _ _. unfold named64. by case_bool_decide.
  - apply list_elem_of_In.
    assert (∀ p, existsb (λ q, bool_decide (q = p)) (declaredProperties feather) = true →
      List.In p (declaredProperties feather)) as Hin.
    { intros p (q & Hq & E%bool_decide_eq_true_1)%existsb_exists. by subst. }
    apply Hin. vm_compute. reflexivity.
Defined.
