(* ===== verification/Mixins.v ===== *)
(** * Mixing protocols into model classes

    MPManagedObject+Mixin.m: the accessors [+implementProtocol:overloadMethods:] gives a
    subclass of [MPManagedObject] at run time for the properties of a protocol and of the
    protocols it adopts, and the mixin classes it copies methods from. *)
From Stdlib Require Import Ascii.
From stdpp Require Import base tactics strings numbers list gmap.
From S2P Require Import Prelude ObjC Characters Strings Classes Declarations Interfaces PropertyAttributes.

(** ** Accessors *)

(** The message that takes the C value out of a number *)
Inductive conversion : Type :=
  | NoConversion | LongLongValue | UnsignedLongLongValue | IntValue | BoolValue | DoubleValue | FloatValue.

(** What the pair of blocks for a property reads and writes: a value of the document, the
    objects whose identifiers are in the document, the one whose identifier is, or an
    associated object, which is in no document. *)
Inductive accessor : Type :=
  | Stored (key : string) (c : conversion)
  | StoredObjects (key : string)
  | StoredReference (key : string)
  | Associated (key : string).

Inductive implementation : Type :=
  | Compiled
  | GetterBlock (a : accessor)
  | SetterBlock (a : accessor)
  | MixedIn (mixin : string).

(** A class at run time: its own properties with their attribute strings, and its own
    instance methods. *)
Record HostClass : Type := mkHost {
  hc_properties : list (string * string);
  hc_methods : gmap string implementation
}.

(** A protocol as the runtime has it: the protocols it adopts and its properties. *)
Inductive protocol : Type :=
  | Protocol (name : string) (adopted : list protocol) (properties : list (string * string)).
Definition protocolName (p : protocol) : string := match p with Protocol name _ _ => name end.

Section protocol_ind.
Variable P : protocol → Prop.
Hypothesis step : ∀ name adopted properties, Forall P adopted → P (Protocol name adopted properties).
Fixpoint protocol_tree_ind (p : protocol) : P p :=
  match p with
  | Protocol name adopted properties => step name adopted properties
      ((fix each (l : list protocol) : Forall P l :=
          match l with [] => Forall_nil_2 _ | q :: l => Forall_cons_2 _ q l (protocol_tree_ind q) (each l) end) adopted)
  end.
End protocol_ind.

Section mixin.
Local Open Scope string_scope.
(** The classes, the class [self] is, what its superclasses have, and
    [+mixinFrom:followInheritance:force:] of the mixin library. *)
Context (rt : Runtime) (self : string) (inheritedMethod : string → bool).
Context (mixinFrom : string → HostClass → HostClass).
Notation M := (M HostClass).

(** *** Which accessor *)

(** [-captureComponentsMatchedByRegex:] with the pattern of an [@] and the longest text
    between two quotation marks.  Only the groups of the first match are answered, not the
    match itself (String.capturedGroups). *)
Fixpoint upToLastQuotation (s : string) : option string :=
  match s with
  | EmptyString => None
  | String c s' => match upToLastQuotation s' with
                   | Some w => Some (String c w)
                   | None => if Ascii.eqb c (ascii_of_nat 34) then Some "" else None
                   end
  end.
(* @src Feather/String+MPExtensions.swift 57 80 String.capturedGroups(withRegex:caseSensitively:) *)
Fixpoint capturedTypeName (s : string) : list string :=
  match s with
  | EmptyString => []
  | String c s' =>
      if Ascii.eqb c "@"%char && String.prefix quotation s'
      then match upToLastQuotation (String.substring 1 (String.length s') s') with Some w => [w] | None => [] end
      else capturedTypeName s'
  end.

(* @src Feather/Sources/Model/MPManagedObject+Mixin.m 97 183 +[MPManagedObject implementPropertyWithName:attributeString:overloadMethods:] (part) *)
Definition objectAccessor (propNameStr propType : string) : res accessor :=
  if String.eqb propType "NSDate" then Ok (Stored (propNameStr ++ "Timestamp") NoConversion)
  else if String.eqb propType "NSArray" then
    _ ← assert_ (hasSuffix propNameStr "s") "[propNameStr isMatchedByRegex:@(s$)]";
    Ok (StoredObjects (String.substring 0 (String.length propNameStr - 1) propNameStr ++ "IDs"))
  else match NSClassFromString rt propType with
       | None => Throw (AssertionFailed "class")
       | Some c => if isSubclassOfClass rt c MPManagedObject_class then Ok (StoredReference propNameStr)
                   else Ok (Stored propNameStr NoConversion)
       end.

(** None for a property of type [Class], which gets no accessors. *)
(* @src Feather/Sources/Model/MPManagedObject+Mixin.m 88 279 +[MPManagedObject implementPropertyWithName:attributeString:overloadMethods:] *)
Definition accessorFor (propNameStr attribStr : string) : res (option accessor) :=
  match String.get 1 attribStr with
  | None => Throw (RangeException 1 (Z.of_nat (String.length attribStr)))
  | Some typeChar =>
      let attribTypeMatchesObjectType := capturedTypeName attribStr in
      match attribTypeMatchesObjectType with
      | _ :: propType :: _ => a ← objectAccessor propNameStr propType; Ok (Some a)
      | _ =>
          let oneOf (l : list ascii) := existsb (Ascii.eqb typeChar) l in
          if oneOf ["q"%char] then Ok (Some (Stored propNameStr LongLongValue))
          else if oneOf ["Q"%char] then Ok (Some (Stored propNameStr UnsignedLongLongValue))
          else if oneOf ["i"%char; "s"%char; "S"%char; "c"%char; "C"%char] then Ok (Some (Stored propNameStr IntValue))
          else if oneOf ["B"%char] then Ok (Some (Stored propNameStr BoolValue))
          else if oneOf ["d"%char] then Ok (Some (Stored propNameStr DoubleValue))
          else if oneOf ["f"%char] then Ok (Some (Stored propNameStr FloatValue))
          else if oneOf ["#"%char] then Ok None
          else if oneOf ["@"%char] then Ok (Some (Associated propNameStr))
          else Throw (Exception "MPUnexpectedTypeException" attribStr)
      end
  end.

(** *** Installing it *)
Definition ownProperty (h : HostClass) (key : string) : option string :=
  pa ← list_find (λ pa, pa.1 = key) (hc_properties h); Some pa.2.2.
(** [class_getProperty], with the superclasses *)
Definition propertyAttributes (h : HostClass) (key : string) : option string :=
  match ownProperty h key with
  | Some a => Some a
  | None => p ← superclass rt self; class_getProperty rt (class_count rt) p key
  end.
(** [class_addProperty] adds what the class does not have itself. *)
Definition class_addProperty (pa : string * string) (h : HostClass) : HostClass :=
  match ownProperty h pa.1 with
  | Some _ => h
  | None => mkHost (hc_properties h ++ [pa])%list (hc_methods h)
  end.

(** [property_copyAttributeValue] *)
Definition copyAttributeValue (attribs : string) (c : ascii) : option string :=
  head (omap (λ w, match w with String d v => if Ascii.eqb d c then Some v else None | EmptyString => None end)
             (componentsSeparatedBy ","%char attribs)).
Definition getterSelector (propName attribs : string) : string :=
  default propName (copyAttributeValue attribs "G"%char).
Definition setterSelector (propName attribs : string) : string :=
  default ("set" ++ String.substring 0 (String.length propName) (uppercasingFirst propName) ++ ":")
          (copyAttributeValue attribs "S"%char).

(** [class_getInstanceMethod] *)
Definition responds (h : HostClass) (sel : string) : bool :=
  bool_decide (is_Some (hc_methods h !! sel)) || inheritedMethod sel.
(** [class_addMethod] for a method the class does not answer, [class_replaceMethod] for one
    that is to be overloaded *)
Definition installMethod (overload : bool) (sel : string) (i : implementation) (h : HostClass) : HostClass :=
  if negb (responds h sel) || overload then mkHost (hc_properties h) (<[sel := i]> (hc_methods h)) else h.

(* @src Feather/Sources/Model/MPManagedObject+Mixin.m 281 363 +[MPManagedObject implementPropertyWithName:getterImplementation:setterImplementation:overload:] *)
Definition implementAccessors (propertyNameStr : string) (a : accessor) (overload : bool) : M unit :=
  _ ← NSAssert (negb (String.eqb self MPManagedObject_class)) "self != [MPManagedObject class]";
  prop ← gets (λ h, propertyAttributes h propertyNameStr);
  match prop with
  | None => mret tt
  | Some attribStr =>
      let isReadOnly := containsSubstring attribStr "R" in
      _ ← modify (installMethod overload (getterSelector propertyNameStr attribStr) (GetterBlock a));
      if isReadOnly then mret tt
      else modify (installMethod overload (setterSelector propertyNameStr attribStr) (SetterBlock a))
  end.

(* @src Feather/Sources/Model/MPManagedObject+Mixin.m 88 279 +[MPManagedObject implementPropertyWithName:attributeString:overloadMethods:] *)
Definition implementPropertyWithName (overload : bool) (pa : string * string) : M unit :=
  a ← lift (accessorFor pa.1 pa.2);
  match a with
  | None => mret tt
  | Some a => implementAccessors pa.1 a overload
  end.

(** [for_each], as the recursion over nested protocols needs it *)
Definition forEachProtocol (body : protocol → M unit) : list protocol → M unit :=
  fix each l := match l with [] => mret tt | q :: l => _ ← body q; each l end.

(* @src Feather/Sources/Model/MPManagedObject+Mixin.m 32 86 +[MPManagedObject implementProtocol:andProtocolsMatching:overloadMethods:] *)
Fixpoint implementProtocolMatching (patternBlock : string → bool) (overload : bool) (p : protocol) : M unit :=
  match p with
  | Protocol name adopted properties =>
      _ ← forEachProtocol (λ q,
        if patternBlock (protocolName q) then implementProtocolMatching patternBlock overload q else mret tt) adopted;
      _ ← NSAssert (negb (String.eqb self MPManagedObject_class)) "self != [MPManagedObject class]";
      _ ← for_each properties (λ pa,
        _ ← implementPropertyWithName overload pa; modify (class_addProperty pa));
      if hasSuffix name "Protocol" then mret tt
      else let classString := name ++ "Mixin" in
           _ ← NSAssert (bool_decide (is_Some (NSClassFromString rt classString))) "cls";
           modify (mixinFrom classString)
  end.

(* @src Feather/Sources/Model/MPManagedObject+Mixin.m 23 30 +[MPManagedObject implementProtocol:overloadMethods:] *)
Definition implementProtocol (overload : bool) (p : protocol) : M unit :=
  implementProtocolMatching (λ name, hasPrefix name "MP") overload p.

(** ** The accessors a protocol leads to *)

(** One thing after the other: *)
Inductive mixinStep : Type :=
  | ImplementProperty (propName attribs : string)
  | MixIn (mixin : string).

Definition runStep (overload : bool) (s : mixinStep) : M unit :=
  match s with
  | ImplementProperty n a => _ ← implementPropertyWithName overload (n, a); modify (class_addProperty (n, a))
  | MixIn classString =>
      _ ← NSAssert (bool_decide (is_Some (NSClassFromString rt classString))) "cls";
      modify (mixinFrom classString)
  end.

Fixpoint reachedSteps (patternBlock : string → bool) (p : protocol) : list mixinStep :=
  match p with
  | Protocol name adopted properties =>
      flat_map (λ q, if patternBlock (protocolName q) then reachedSteps patternBlock q else []) adopted ++
      map (λ pa, ImplementProperty pa.1 pa.2) properties ++
      (if hasSuffix name "Protocol" then [] else [MixIn (name ++ "Mixin")%string])
  end%list.

Lemma forEachProtocol_steps body steps l overload h :
  Forall (λ q, ∀ h, body q h = for_each (steps q) (runStep overload) h) l →
  forEachProtocol body l h = for_each (flat_map steps l) (runStep overload) h.
Proof.
  intros Hl. revert h. induction Hl as [|q l Hq _ IH]; intros h; [done|]. cbn [flat_map].
  rewrite for_each_app, run_bind. cbn. rewrite run_bind, Hq. by destruct (for_each (steps q) _ h) as [[[]|e] h1].
Qed.

Lemma properties_steps l overload h :
  for_each l (λ pa, _ ← implementPropertyWithName overload pa; modify (class_addProperty pa)) h
  = for_each (map (λ pa, ImplementProperty pa.1 pa.2) l) (runStep overload) h.
Proof.
  revert h. induction l as [|[n a] l IH]; intros h; [done|]. cbn [map for_each runStep fst snd]. rewrite !run_bind.
  destruct (implementPropertyWithName overload (n, a) h) as [[[]|e] h1]; [rewrite !run_modify; apply IH|done].
Qed.

Lemma implementProtocol_steps patternBlock overload p h : self ≠ MPManagedObject_class →
  implementProtocolMatching patternBlock overload p h = for_each (reachedSteps patternBlock p) (runStep overload) h.
Proof.
  intros Hself. revert h. induction p as [name adopted properties IH] using protocol_tree_ind. intros h.
  cbn [implementProtocolMatching reachedSteps]. rewrite for_each_app, !run_bind.
  rewrite (forEachProtocol_steps _ (λ q, if patternBlock (protocolName q) then reachedSteps patternBlock q else []) adopted overload h).
  2: { eapply Forall_impl; [exact IH|]. intros q Hq h1. cbn beta. by destruct (patternBlock _). }
  destruct (for_each _ _ h) as [[[]|e] h1]; [|done]. rewrite run_bind, run_NSAssert.
  apply String.eqb_neq in Hself. rewrite Hself. cbn [negb]. rewrite run_bind, properties_steps, for_each_app, run_bind.
  destruct (for_each _ _ h1) as [[[]|e] h2]; [|done]. destruct (hasSuffix _ _); [done|]. cbn [for_each runStep].
  rewrite !run_bind, run_NSAssert. by destruct (bool_decide _).
Qed.

(** Whether a step fails does not depend on the class as it is then. *)
Definition stepFails (s : mixinStep) : option exn :=
  match s with
  | ImplementProperty n a => match accessorFor n a with Throw e => Some e | Ok _ => None end
  | MixIn c => match NSClassFromString rt c with None => Some (AssertionFailed "cls") | Some _ => None end
  end.

Definition withAccessors (overload : bool) (n : string) (a : accessor) (h : HostClass) : HostClass :=
  match propertyAttributes h n with
  | None => h
  | Some attribs =>
      let h1 := installMethod overload (getterSelector n attribs) (GetterBlock a) h in
      if containsSubstring attribs "R" then h1
      else installMethod overload (setterSelector n attribs) (SetterBlock a) h1
  end.
Definition stepEffect (overload : bool) (h : HostClass) (s : mixinStep) : HostClass :=
  match s with
  | ImplementProperty n a =>
      class_addProperty (n, a) (match accessorFor n a with Ok (Some acc) => withAccessors overload n acc h | _ => h end)
  | MixIn c => mixinFrom c h
  end.

Lemma run_step overload s h : self ≠ MPManagedObject_class →
  runStep overload s h = match stepFails s with Some e => (Throw e, h) | None => (Ok tt, stepEffect overload h s) end.
Proof.
  intros Hself%String.eqb_neq. destruct s as [n a|c]; cbn [runStep stepFails stepEffect].
  - unfold implementPropertyWithName, implementAccessors, withAccessors, lift. cbn [fst snd]. rewrite !run_bind.
    destruct (accessorFor n a) as [[acc|]|e]; [|done..]. rewrite run_bind, run_NSAssert, Hself. cbn [negb]. rewrite run_bind, run_gets.
    destruct (propertyAttributes h n) as [attribs|]; [|done]. rewrite run_bind, run_modify. by destruct (containsSubstring _ _).
  - rewrite run_bind, run_NSAssert. destruct (NSClassFromString rt c) as [k|].
    + by rewrite bool_decide_eq_true_2 by by eexists.
    + by rewrite bool_decide_eq_false_2 by by intros [].
Qed.

Lemma run_steps overload l h : self ≠ MPManagedObject_class →
  (for_each l (runStep overload) h).1 = match head (omap stepFails l) with Some e => Throw e | None => Ok tt end ∧
  (omap stepFails l = [] → (for_each l (runStep overload) h).2 = foldl (stepEffect overload) h l).
Proof.
  intros Hself. revert h. induction l as [|s l IH]; intros h; [done|]. cbn [for_each omap list_omap foldl].
  rewrite run_bind, run_step by done. by destruct (stepFails s); [|apply IH].
Qed.

(** ** What the steps do to the class *)
Context (mixinSelectors : string → gset string).

(** Mixing in a class gives methods for its selectors, and does nothing else. *)
Class MixinLaws : Prop := {
  ml_properties c h : hc_properties (mixinFrom c h) = hc_properties h;
  ml_others c h sel : sel ∉ mixinSelectors c → hc_methods (mixinFrom c h) !! sel = hc_methods h !! sel;
  ml_responds c h sel : is_Some (hc_methods h !! sel) → is_Some (hc_methods (mixinFrom c h) !! sel)
}.
Context {laws : MixinLaws}.
Implicit Types (h : HostClass) (s : mixinStep).

Lemma ownProperty_add h n a k : ownProperty (class_addProperty (n, a) h) k
  = if decide (k = n) then Some (default a (ownProperty h n)) else ownProperty h k.
Proof.
  unfold class_addProperty. cbn [fst]. destruct (ownProperty h n) as [b|] eqn:E; [by case_decide; subst|].
  unfold ownProperty in *. cbn [hc_properties].
  assert (∀ l : list (string * string), list_find (λ pa, pa.1 = n) l = None →
    (list_find (λ pa, pa.1 = k) (l ++ [(n, a)]) ≫= λ pa, Some pa.2.2)
    = if decide (k = n) then Some a else list_find (λ pa, pa.1 = k) l ≫= λ pa, Some pa.2.2) as Hl.
  { induction l as [|[m b] l IH]; cbn; [by repeat case_decide; subst|]. destruct (decide (m = n)) as [|Hmn]; [done|].
    destruct (list_find (λ pa, pa.1 = n) l) as [[]|]; [done|]. intros _. specialize (IH eq_refl).
    destruct (decide (m = k)) as [->|_]; [by rewrite decide_False|].
    destruct (list_find _ (l ++ _)) as [[]|], (list_find (λ pa, pa.1 = k) l) as [[]|]; exact IH. }
  destruct (list_find _ _) eqn:El; [done|]. rewrite Hl by done. by case_decide.
Qed.

Lemma installMethod_properties o sel i h : hc_properties (installMethod o sel i h) = hc_properties h.
Proof. unfold installMethod. by destruct (_ || _). Qed.
Lemma withAccessors_properties o n a h : hc_properties (withAccessors o n a h) = hc_properties h.
Proof.
  unfold withAccessors. destruct (propertyAttributes h n); [|done].
  destruct (containsSubstring _ _); by rewrite !installMethod_properties.
Qed.
Lemma ownProperty_same h h' k : hc_properties h' = hc_properties h → ownProperty h' k = ownProperty h k.
Proof. unfold ownProperty. by intros ->. Qed.

(** Of the properties only those asked for are added. *)
Lemma ownProperty_step o h s k : ownProperty (stepEffect o h s) k =
  match s with
  | ImplementProperty n a => if decide (k = n) then Some (default a (ownProperty h n)) else ownProperty h k
  | MixIn _ => ownProperty h k
  end.
Proof.
  destruct s as [n a|c]; cbn [stepEffect]; [|apply ownProperty_same, ml_properties].
  rewrite ownProperty_add. destruct (accessorFor n a) as [[acc|]|]; [|done..].
  by rewrite !(ownProperty_same _ _ _ (withAccessors_properties o n acc h)).
Qed.

Lemma install_responds o sel i h k : responds h k = true → responds (installMethod o sel i h) k = true.
Proof.
  unfold installMethod. destruct (_ || _); [|done]. unfold responds. cbn. intros [Hk|Hk]%orb_true_iff; apply orb_true_iff; [left|by right].
  apply bool_decide_eq_true in Hk. apply bool_decide_eq_true. destruct (decide (k = sel)) as [->|]; [by rewrite lookup_insert_eq|by rewrite lookup_insert_ne].
Qed.
Lemma install_itself o sel i h : responds (installMethod o sel i h) sel = true.
Proof.
  unfold installMethod. destruct (responds h sel) eqn:E, o; cbn; try done; unfold responds; cbn;
    apply orb_true_iff; left; apply bool_decide_eq_true; by rewrite lookup_insert_eq.
Qed.
Lemma withAccessors_responds o n a h k : responds h k = true → responds (withAccessors o n a h) k = true.
Proof.
  intros Hk. unfold withAccessors. destruct (propertyAttributes h n); [|done].
  destruct (containsSubstring _ _); by repeat apply install_responds.
Qed.
Lemma responds_same h h' k : hc_methods h' = hc_methods h → responds h' k = responds h k.
Proof. unfold responds. by intros ->. Qed.
Lemma addProperty_methods pa h : hc_methods (class_addProperty pa h) = hc_methods h.
Proof. unfold class_addProperty. by destruct (ownProperty h pa.1). Qed.

(** Nothing is forgotten. *)
Lemma responds_step o h s k : responds h k = true → responds (stepEffect o h s) k = true.
Proof.
  intros Hk. destruct s as [n a|c]; cbn [stepEffect].
  - rewrite (responds_same _ _ _ (addProperty_methods _ _)). destruct (accessorFor n a) as [[acc|]|]; [|done..].
    by apply withAccessors_responds.
  - unfold responds in *. apply orb_true_iff in Hk as [Hk|Hk]; apply orb_true_iff; [left|by right].
    apply bool_decide_eq_true in Hk. by apply bool_decide_eq_true, ml_responds.
Qed.

Lemma foldl_keeps (P : HostClass → Prop) o l h : (∀ h s, P h → P (stepEffect o h s)) → P h → P (foldl (stepEffect o) h l).
Proof. intros HP. revert h. induction l; cbn; auto. Qed.

(** A property the class has gets its accessors. *)
Lemma step_accessors o h n a acc attribs :
  accessorFor n a = Ok (Some acc) → ownProperty h n = Some attribs →
  responds (stepEffect o h (ImplementProperty n a)) (getterSelector n attribs) = true ∧
  (containsSubstring attribs "R" = false → responds (stepEffect o h (ImplementProperty n a)) (setterSelector n attribs) = true).
Proof.
  intros Ha Hn. cbn [stepEffect]. rewrite !(responds_same _ _ _ (addProperty_methods _ _)), Ha.
  unfold withAccessors, propertyAttributes. rewrite Hn. destruct (containsSubstring attribs "R").
  - split; [apply install_itself|done].
  - split; [apply install_responds|intros _]; apply install_itself.
Qed.

Lemma install_lookup o sel i h k :
  hc_methods (installMethod o sel i h) !! k = hc_methods h !! k ∨ hc_methods (installMethod o sel i h) !! k = Some i ∧ k = sel.
Proof.
  unfold installMethod. destruct (_ || _); [|by left]. cbn. destruct (decide (k = sel)) as [->|]; [right; by rewrite lookup_insert_eq|].
  left. by rewrite lookup_insert_ne.
Qed.
Lemma install_unchanged sel i h k : responds h k = true →
  hc_methods (installMethod false sel i h) !! k = hc_methods h !! k.
Proof.
  intros Hk. unfold installMethod. rewrite orb_false_r. destruct (responds h sel) eqn:Es; cbn; [done|].
  apply lookup_insert_ne. congruence.
Qed.

(** Where a method comes from *)
Definition comesFrom s (sel : string) (m : implementation) : Prop :=
  match s with
  | ImplementProperty n a => ∃ acc, accessorFor n a = Ok (Some acc) ∧ (m = GetterBlock acc ∨ m = SetterBlock acc)
  | MixIn c => sel ∈ mixinSelectors c
  end.

Lemma step_origin o h s sel m : hc_methods (stepEffect o h s) !! sel = Some m → hc_methods h !! sel = Some m ∨ comesFrom s sel m.
Proof.
  destruct s as [n a|c]; cbn [stepEffect comesFrom].
  - rewrite addProperty_methods. destruct (accessorFor n a) as [[acc|]|]; [|by left..]. unfold withAccessors.
    destruct (propertyAttributes h n) as [attribs|]; [|by left].
    set (h1 := installMethod o (getterSelector n attribs) (GetterBlock acc) h).
    assert (hc_methods h1 !! sel = Some m → hc_methods h !! sel = Some m ∨ ∃ acc', Ok (Some acc) = Ok (Some acc') ∧ (m = GetterBlock acc' ∨ m = SetterBlock acc')) as H1.
    { unfold h1. destruct (install_lookup o (getterSelector n attribs) (GetterBlock acc) h sel) as [->|[-> _]]; [by left|].
      intros [= <-]. right. by exists acc; auto. }
    destruct (containsSubstring attribs "R"); [exact H1|].
    destruct (install_lookup o (setterSelector n attribs) (SetterBlock acc) h1 sel) as [->|[-> _]]; [exact H1|].
    intros [= <-]. right. by exists acc; auto.
  - destruct (decide (sel ∈ mixinSelectors c)) as [|Hc]; [by right|]. rewrite ml_others by done. by left.
Qed.

Lemma step_unchanged h s sel : responds h sel = true → (∀ c, s = MixIn c → sel ∉ mixinSelectors c) →
  hc_methods (stepEffect false h s) !! sel = hc_methods h !! sel.
Proof.
  intros Hsel Hc. destruct s as [n a|c]; cbn [stepEffect]; [|by apply ml_others, Hc].
  rewrite addProperty_methods. destruct (accessorFor n a) as [[acc|]|]; [|done..]. unfold withAccessors.
  destruct (propertyAttributes h n) as [attribs|]; [|done].
  destruct (containsSubstring attribs "R"); rewrite !install_unchanged by (done || by apply install_responds); done.
Qed.

(** The same for all steps *)
Lemma steps_origin o l h sel m : hc_methods (foldl (stepEffect o) h l) !! sel = Some m →
  hc_methods h !! sel = Some m ∨ ∃ s, s ∈ l ∧ comesFrom s sel m.
Proof.
  revert h. induction l as [|s l IH]; intros h; cbn [foldl]; [by left|].
  intros [Hm|(s' & Hs & Hm)]%IH; [|right; exists s'; by split; [right|]].
  apply step_origin in Hm as [|]; [by left|]. right. exists s. by split; [left|].
Qed.
Lemma steps_unchanged l h sel : responds h sel = true → (∀ c, MixIn c ∈ l → sel ∉ mixinSelectors c) →
  hc_methods (foldl (stepEffect false) h l) !! sel = hc_methods h !! sel.
Proof.
  revert h. induction l as [|s l IH]; intros h Hsel Hl; [done|]. cbn [foldl].
  rewrite IH; [|by apply responds_step|intros c Hc; apply Hl; by right].
  apply step_unchanged; [done|]. intros c ->. apply Hl. by left.
Qed.
Lemma steps_accessors o l h n a acc attribs : ImplementProperty n a ∈ l →
  accessorFor n a = Ok (Some acc) → ownProperty h n = Some attribs →
  responds (foldl (stepEffect o) h l) (getterSelector n attribs) = true ∧
  (containsSubstring attribs "R" = false → responds (foldl (stepEffect o) h l) (setterSelector n attribs) = true).
Proof.
  intros Hin Ha. revert h. induction l as [|s l IH]; intros h Hn; [by apply elem_of_nil in Hin|]. cbn [foldl].
  apply elem_of_cons in Hin as [<-|Hin].
  - destruct (step_accessors o h n a acc attribs Ha Hn) as [Hg Hs].
    split; [|intros HR]; apply (foldl_keeps (λ h, responds h _ = true)); auto using responds_step.
  - apply IH; [done|]. rewrite ownProperty_step. destruct s as [n' a'|]; [|done]. case_decide; [subst|done]. by rewrite Hn.
Qed.
Lemma steps_properties o l h n a : ImplementProperty n a ∈ l → is_Some (ownProperty (foldl (stepEffect o) h l) n).
Proof.
  revert h. induction l as [|s l IH]; intros h Hin; [by apply elem_of_nil in Hin|]. cbn [foldl].
  apply elem_of_cons in Hin as [<-|Hin]; [|by apply IH].
  apply (foldl_keeps (λ h, is_Some (ownProperty h n))).
  - intros h' s' Hs. rewrite ownProperty_step. destruct s'; [case_decide; [by eexists|done]|done].
  - rewrite ownProperty_step, decide_True by done. by eexists.
Qed.
End mixin.

(** C12 (functional). Implementing a protocol ends: with the first failure among the
    properties and mixin classes of the protocols it reaches, if there is one.  If there
    is none, the class has all their properties then; it answers the getter of every
    property it declared itself that has an accessor, and the setter of those without an R
    in their attributes; what it answered before is as it was, unless methods are to be
    overloaded or a mixin class has that method; and every method it has now was there, is
    of a mixin class, or is the accessor of a property of a protocol it reached. *)
Theorem protocol_is_implemented rt self inheritedMethod mixinFrom mixinSelectors overload p h :
  MixinLaws mixinFrom mixinSelectors → self ≠ MPManagedObject_class →
  let steps := reachedSteps (λ name, hasPrefix name "MP"%string) p in
  let '(r, h') := implementProtocol rt self inheritedMethod mixinFrom overload p h in
  let answers h sel := responds inheritedMethod h sel = true in
  match head (omap (stepFails rt) steps) with
  | Some e => r = Throw e
  | None =>
      r = Ok tt ∧
      (∀ n a, ImplementProperty n a ∈ steps → is_Some (ownProperty h' n)) ∧
      (∀ n a acc attribs, ImplementProperty n a ∈ steps → accessorFor rt n a = Ok (Some acc) → ownProperty h n = Some attribs →
         answers h' (getterSelector n attribs) ∧
         (containsSubstring attribs "R"%string = false → answers h' (setterSelector n attribs))) ∧
      (overload = false → ∀ sel, answers h sel → (∀ c, MixIn c ∈ steps → sel ∉ mixinSelectors c) →
         hc_methods h' !! sel = hc_methods h !! sel) ∧
      (∀ sel m, hc_methods h' !! sel = Some m → hc_methods h !! sel = Some m ∨ ∃ s, s ∈ steps ∧ comesFrom rt mixinSelectors s sel m)
  end.
Proof.
  intros Hlaws Hself steps. unfold implementProtocol. rewrite implementProtocol_steps by done. fold steps.
  destruct (run_steps rt self inheritedMethod mixinFrom overload steps h Hself) as [Hr Hh].
  destruct (for_each steps _ h) as [r h']. cbn [fst snd] in Hr, Hh. cbn zeta beta.
  destruct (omap (stepFails rt) steps) as [|e l] eqn:Ef; cbn [head] in *; [|done].
  rewrite Hh by done. split; [done|]. split; [intros n a Hin; by apply (steps_properties _ _ _ _ mixinSelectors _ _ _ _ a)|].
  split; [intros n a acc attribs; by apply (steps_accessors _ _ _ _ mixinSelectors)|]. split; [|intros sel m; by apply steps_origin].
  intros -> sel Hsel Hmix. by apply (steps_unchanged _ _ _ _ mixinSelectors).
Qed.

(** The groups are one at most, never more than one: an object is not stored. *)
Lemma captured_once s : (length (capturedTypeName s) ≤ 1)%nat.
Proof. induction s as [|c s IH]; cbn; [lia|]. destruct (_ && _); [destruct (upToLastQuotation _); cbn; lia|done]. Qed.

(** Every property of an object type, whatever the class, is given to associated objects: no
    value of it reaches the document; and no property is stored as a date, as identifiers
    of objects or as a reference. *)
Lemma objects_are_associated rt n attribs :
  (String.get 1 attribs = Some "@"%char → accessorFor rt n attribs = Ok (Some (Associated n))) ∧
  ∀ acc, accessorFor rt n attribs = Ok (Some acc) → acc = Associated n ∨ ∃ c, acc = Stored n c ∧ c ≠ NoConversion.
Proof.
  unfold accessorFor. pose proof (captured_once attribs) as Hl.
  destruct (String.get 1 attribs) as [t|]; [|split; [done|intros acc [=]]].
  destruct (capturedTypeName attribs) as [|w [|w' l]]; [..|cbn in Hl; lia].
  1,2: split; [by intros [= ->]|]; intros acc.
  1,2: do 8 (case_match; [intros [= <-]; first [by left|by right; eexists]|]); done.
Qed.

(** ** The protocols of the framework *)
Section framework.
Local Open Scope string_scope.

(** What the compiler makes of a declaration; [n] bounds the nesting of protocols. *)
Fixpoint compiledProtocol (n : nat) (name : string) : protocol :=
  match n with
  | O => Protocol name [] []
  | S n => let ps := protocolsNamed feather name in
      Protocol name (map (compiledProtocol n) (mbind i_protocols ps))
        (map (λ p, (pd_name p, attributeString named64 ownershipOf64 p HandWritten)) (mbind propertiesOf ps))
  end.

(** A model class that conforms to [MPCategorizable], and has a description of its own. *)
Definition mixinRuntime : Runtime := {|
  rt_classes := [("NSObject", None); ("MPManagedObject", Some "NSObject"); ("MPCategory", Some "MPManagedObject");
                 ("MPCategorizableMixin", Some "NSObject"); ("MPBundlableMixin", Some "NSObject");
                 ("MPReferencableObjectMixin", Some "NSObject")];
  rt_properties _ := [];
  rt_propertyClass _ _ := None;
  rt_conforms _ _ := false;
  rt_responds _ _ := false
|}.
Definition MPCategory : HostClass :=
  mkHost (match compiledProtocol 1 "MPCategorizable" with Protocol _ _ ps => ps end) {[ "desc" := Compiled ]}.
(** A mixin that has one class method to give and no instance methods *)
Definition mixinNothing (_ : string) (h : HostClass) : HostClass := h.

#[local] Instance mixinNothing_laws : MixinLaws mixinNothing (λ _, ∅).
Proof. by split. Qed.

Example categories :
  let '(r, h) := implementProtocol mixinRuntime "MPCategory" (λ _, false) mixinNothing false (compiledProtocol 2 "MPCategorizable") MPCategory in
  r = Ok tt ∧
  hc_methods h !! "priority" = Some (GetterBlock (Stored "priority" LongLongValue)) ∧
  hc_methods h !! "setPriority:" = Some (SetterBlock (Stored "priority" LongLongValue)) ∧
  hc_methods h !! "name" = Some (GetterBlock (Associated "name")) ∧
  hc_methods h !! "desc" = Some Compiled ∧ hc_methods h !! "setDesc:" = Some (SetterBlock (Associated "desc")) ∧
  hc_methods h !! "bundled" = None ∧ is_Some (ownProperty h "bundled").
Proof. vm_compute. repeat split; by eexists. Qed.

(** A property whose type has an R in its name gets no setter. *)
Example url_has_no_setter :
  let url := {| pd_name := "link"; pd_type := obj "NSURL"; pd_attributes := [ReadWrite; Copy] |} in
  let h := mkHost [("link", attributeString named64 ownershipOf64 url Dynamic)] ∅ in
  let '(r, h') := implementPropertyWithName mixinRuntime "MPCategory" (λ _, false) false
                    ("link", attributeString named64 ownershipOf64 url HandWritten) h in
  r = Ok tt ∧ is_Some (hc_methods h' !! "link") ∧ hc_methods h' !! "setLink:" = None.
Proof. vm_compute. split_and!; [done|by eexists|done]. Qed.

Lemma protocol_is_implemented_witness :
  let p := compiledProtocol 2 "MPCategorizable" in
  let answers h sel := responds (λ _, false) h sel = true in
  let '(r, h') := implementProtocol mixinRuntime "MPCategory" (λ _, false) mixinNothing false p MPCategory in
  r = Ok tt ∧ answers h' "setPriority:" ∧ hc_methods h' !! "desc" = Some Compiled.
Proof.
  cbn zeta. pose proof (protocol_is_implemented mixinRuntime "MPCategory" (λ _, false) mixinNothing (λ _, ∅) false
    (compiledProtocol 2 "MPCategorizable") MPCategory mixinNothing_laws ltac:(done)) as H1. cbn zeta in H1.
  destruct (implementProtocol _ _ _ _ _ _ _) as [r h'].
  assert (head (omap (stepFails mixinRuntime) (reachedSteps (λ name, hasPrefix name "MP") (compiledProtocol 2 "MPCategorizable"))) = None) as Hno by (vm_compute; reflexivity).
  rewrite Hno in H1. destruct H1 as (Hr & _ & Hacc & Hsame & _).
  split; [exact Hr|]. split.
  - apply (Hacc "priority" "Tq" (Stored "priority" LongLongValue) "Tq"); [|reflexivity|vm_compute; reflexivity|reflexivity].
    apply list_elem_of_In. vm_compute. tauto.
  - rewrite (Hsame eq_refl "desc"); [vm_compute; reflexivity|vm_compute; reflexivity|].
    intros c _. apply not_elem_of_empty.
Defined.
End framework.
