(* ===== verification/Framework.v ===== *)
(** * The framework inside an application

    What the class table and the declarations of the headers guarantee in every
    application that links the framework: by the naming conventions a model class
    finds its controller class, the controller class its model class, and the
    package controller the property that holds the controller. *)
From Stdlib Require Import Ascii.
From stdpp Require Import base tactics strings numbers list gmap.
From S2P Require Import Prelude ObjC Classes World Controllers Declarations HeadersPackages HeadersTests Interfaces.

(** ** Plurals *)
Section plurals.
Local Open Scope string_scope.

Lemma string_snoc s : s = "" ∨ ∃ q x, s = q ++ String x "".
Proof.
  induction s as [|x s [->|(q & y & ->)]]; [by left|right; by exists "", x|right; by exists (String x q), y].
Qed.

Lemma rev_string_snoc q x : rev_string (q ++ String x "") = String x (rev_string q).
Proof. unfold rev_string. rewrite ascii_list_app. cbn [String.list_ascii_of_string]. by rewrite rev_unit. Qed.

Lemma hasSuffix_snoc q x y : hasSuffix (q ++ String x "") (String y "") = Ascii.eqb y x.
Proof.
  unfold hasSuffix. rewrite rev_string_snoc. cbn.
  destruct (ascii_dec y x) as [->|Hne]; [|by destruct (Ascii.eqb_spec y x)].
  rewrite Ascii.eqb_refl. by destruct (rev_string q).
Qed.

Lemma dropLast_snoc q x : dropLast (q ++ String x "") = q.
Proof.
  unfold dropLast. rewrite ascii_list_app, rev_app_distr. cbn.
  rewrite rev_involutive. apply String.string_of_list_ascii_of_string.
Qed.

Lemma snoc_inj q x r y : q ++ String x "" = r ++ String y "" → q = r ∧ x = y.
Proof.
  intros E. assert (rev_string (q ++ String x "") = rev_string (r ++ String y "")) as Hr by by rewrite E.
  rewrite !rev_string_snoc in Hr. injection Hr as -> _. split; [|done].
  rewrite <- (dropLast_snoc q y), <- (dropLast_snoc r y). by rewrite E.
Qed.

(** A plural ends in [s], but for a noun that ends in a capital [Y]. *)
Lemma pluralizedString_cases s :
  (∃ q, s = q ++ "y" ∧ pluralizedString s = (q ++ "ie") ++ "s") ∨
  (∃ q, s = q ++ "Y" ∧ pluralizedString s = q ++ "Y") ∨ pluralizedString s = s ++ "s".
Proof.
  destruct (string_snoc s) as [->|(q & x & ->)]; [by right; right|].
  unfold pluralizedString. rewrite !hasSuffix_snoc, dropLast_snoc.
  destruct (Ascii.eqb_spec "y" x) as [<-|]; [left|right].
  - exists q. split; [done|]. by rewrite (string_app_assoc q "ie").
  - destruct (Ascii.eqb_spec "Y" x) as [<-|]; [left; by exists q|by right].
Qed.

(** Two nouns of one plural differ in [y] and [ie]. *)
Lemma pluralizedString_inj s t :
  pluralizedString s = pluralizedString t →
  s = t ∨ (∃ q, s = q ++ "y" ∧ t = q ++ "ie") ∨ (∃ q, s = q ++ "ie" ∧ t = q ++ "y").
Proof.
  destruct (pluralizedString_cases s) as [(q & -> & ->)|[(q & -> & ->)| ->]],
    (pluralizedString_cases t) as [(r & -> & ->)|[(r & -> & ->)| ->]];
    intros [E E']%snoc_inj; try discriminate; subst; eauto.
  left. change (q ++ "ie") with (q ++ ("i" ++ "e")) in E. change (r ++ "ie") with (r ++ ("i" ++ "e")) in E.
  rewrite <- !string_app_assoc in E. apply snoc_inj in E as [E _]. by apply snoc_inj in E as [-> _].
Qed.
End plurals.

(** ** Applications *)

(** The runtime of a program that links the declared classes: they have their
    superclasses, and instances answer what they are declared to. *)
Record links (P : list interface) (rt : Runtime) : Prop := {
  links_superclass c s : (c, Some s) ∈ declaredClasses P → superclass rt c = Some s;
  links_responds c d m :
    inherits rt c d → m ∈ own P d → md_class m = false → rt_responds rt c (md_selector m) = true
}.

(** The program of the headers alone. *)
Definition linkedRuntime (P : list interface) : Runtime := {|
  rt_classes := classTable P;
  rt_properties _ := [];
  rt_propertyClass _ _ := None;
  rt_conforms _ _ := false;
  rt_responds c sel :=
    existsb (λ m, negb (md_class m) && String.eqb (md_selector m) sel) (visible P (length (classTable P)) c)
|}.

(** A program [Q] that has all that [P] declares *)
Definition superclassesKept (P Q : list interface) : bool :=
  forallb (λ cs, bool_decide (superclass (declaredRuntime Q) cs.1 = cs.2)) (declaredClasses P).
Definition declarationsKept (P Q : list interface) : bool :=
  forallb (λ d, let ms := own Q d in forallb (λ m, bool_decide (m ∈ ms)) (own P d)) (remove_dups (map i_name P)).

Lemma own_undeclared P d : d ∉ map i_name P → own P d = [].
Proof.
  intros Hd. unfold own, adopted.
  assert (interfacesOf P d = []) as ->.
  { unfold interfacesOf. induction P as [|i P IH]; [done|]. cbn in *. apply not_elem_of_cons in Hd as [Hi Hd].
    rewrite (proj2 (String.eqb_neq _ _)) by by apply not_eq_sym. by apply IH. }
  cbn. assert (∀ n, incorporated P n [] = []) as ->; [|done].
  induction n as [|n IH]; [done|]. cbn. by rewrite IH.
Qed.

Lemma linkedRuntime_links P Q :
  runtime_wf (declaredRuntime Q) = true → superclassesKept P Q = true → declarationsKept P Q = true →
  links P (linkedRuntime Q).
Proof.
  intros Hwf Hs Hd. split.
  - intros c s Hc. unfold superclassesKept in Hs. rewrite forallb_forall in Hs.
    specialize (Hs (c, Some s) ltac:(by apply list_elem_of_In)). by apply bool_decide_eq_true in Hs.
  - intros c d m Hi Hm Hc. cbn. apply existsb_exists. exists m. split; [|by rewrite Hc, String.eqb_refl].
    apply list_elem_of_In. eapply visible_inherits; [by apply (runtime_wf_rooted (declaredRuntime Q))|exact Hi|].
    destruct (decide (d ∈ map i_name P)) as [Hin|Hin]; [|by rewrite own_undeclared, elem_of_nil in Hm].
    unfold declarationsKept in Hd. rewrite forallb_forall in Hd.
    specialize (Hd d ltac:(by apply list_elem_of_In, elem_of_remove_dups)). rewrite forallb_forall in Hd.
    by eapply bool_decide_eq_true_1, Hd, list_elem_of_In.
Qed.

Definition getter (key class : string) : methodDeclaration :=
  {| md_class := false; md_selector := key; md_arguments := []; md_result := Nonnull (Object class) |}.

(** A direct subclass of [MPManagedObject] with a declared controller class; the
    package controller declares the property that holds the controller, unless
    the controller is [held] elsewhere. *)
Definition conventional (P : list interface) (held : list string) (c : string) : bool :=
  let k := String.append (pluralizedString c) "Controller" in
  bool_decide ((c, Some MPManagedObject_class) ∈ declaredClasses P) && hasPrefix c "MP" &&
  bool_decide ((k, Some MPManagedObjectsController_class) ∈ declaredClasses P) &&
  (bool_decide (c ∈ held) ||
   bool_decide (getter (controllerPropertyNameForManagedObjectClass c) k ∈ own P "MPDatabasePackageController")).

Section conventions.
Context (P : list interface) (rt : Runtime).
Local Open Scope string_scope.
Hypothesis linked : links P rt.

(** The superclasses of a declared class are its superclasses in the program. *)
Lemma declared_superclass c s :
  superclass (declaredRuntime P) c = Some s → (c, Some s) ∈ declaredClasses P.
Proof.
  unfold superclass. destruct (find_class _ _) as [o|] eqn:E; [|done]. intros ->.
  apply find_class_elem in E. unfold declaredRuntime, classTable in E. cbn in E.
  apply elem_of_app in E as [(x & [= _] & _)%list_elem_of_fmap|E]; done.
Qed.

Lemma linked_inherits c d : inherits (declaredRuntime P) c d → inherits rt c d.
Proof.
  induction 1 as [c|c p d Hp _ IH]; [apply rtc_refl|]. eapply rtc_l; [|exact IH].
  by eapply links_superclass, declared_superclass.
Qed.

Lemma linked_subclass c d :
  runtime_wf (declaredRuntime P) = true → runtime_wf rt = true →
  c ∈ subclasses (declaredRuntime P) d → c ∈ subclasses rt d.
Proof.
  intros Hwf Hwf'. rewrite !subclasses_spec by done. intros (_ & Hk & p & Hp & Hi).
  pose proof (links_superclass P rt linked c p (declared_superclass c p Hp)) as Hp'.
  split_and!; [by eapply superclass_declared|done|].
  exists p. split; [done|by apply linked_inherits].
Qed.

Lemma linked_class c s : (c, Some s) ∈ declaredClasses P → NSClassFromString rt c = Some c.
Proof.
  intros Hc%(links_superclass P rt linked). unfold NSClassFromString, superclass in *.
  by destruct (find_class c (rt_classes rt)).
Qed.

(** A class with the prefix whose controller class is declared finds it at once. *)
Lemma controllerClass_declared c s :
  hasPrefix c "MP" = true → (pluralizedString c ++ "Controller", Some s) ∈ declaredClasses P →
  controllerClass_uncached rt c = Ok (Some (pluralizedString c ++ "Controller")).
Proof.
  intros Hc Hk. unfold controllerClass_uncached. cbn [climb]. rewrite Hc.
  cbn [assert_ mbind res_bind]. by rewrite (linked_class _ s Hk).
Qed.

(** The controller classes by name: the last class of a name stays, so a class
    without a rival of the same plural is found. *)
Lemma controllerName_inj a b : (a ++ "Controller" = b ++ "Controller") → a = b.
Proof.
  change "Controller" with ("C" ++ "o" ++ "n" ++ "t" ++ "r" ++ "o" ++ "l" ++ "l" ++ "e" ++ "r").
  rewrite <- !string_app_assoc. intros E. by repeat apply snoc_inj in E as [E _].
Qed.

Lemma managedObjectClass_unrivalled c :
  c ∈ subclasses rt MPManagedObject_class →
  (∀ c', c' ∈ subclasses rt MPManagedObject_class → pluralizedString c' = pluralizedString c → c' = c) →
  MOC_managedObjectClass_of rt (pluralizedString c ++ "Controller") = Some c.
Proof.
  unfold MOC_managedObjectClass_of, managedObjectClassByControllerClassNameDictionary, managedObjectClasses.
  generalize (subclasses rt MPManagedObject_class) as l.
  assert (∀ l (d : gmap string string), (∀ c', c' ∈ l → pluralizedString c' = pluralizedString c → c' = c) →
    c ∈ l ∨ d !! (pluralizedString c ++ "Controller") = Some c →
    foldl (λ d c', <[pluralizedString c' ++ "Controller" := c']> d) d l !! (pluralizedString c ++ "Controller")
    = Some c)
    as H; [|intros l Hc Hl; apply H; auto].
  induction l as [|x l IH]; intros d Hl Hc; cbn [foldl]; [by destruct Hc as [?%elem_of_nil|]|].
  apply IH; [by intros; apply Hl; [right|]|].
  destruct (decide (pluralizedString x = pluralizedString c)) as [E|E].
  - right. rewrite E, (Hl x) by (done || by left). apply lookup_insert_eq.
  - rewrite lookup_insert_ne by by intros ?%controllerName_inj.
    destruct Hc as [[->|]%elem_of_cons|]; [done|by left|by right].
Qed.

Lemma conventional_wired held c pkgClass :
  runtime_wf rt = true → conventional P held c = true →
  inherits rt pkgClass "MPDatabasePackageController" →
  let k := pluralizedString c ++ "Controller" in
  let key := controllerPropertyNameForManagedObjectClass c in
  controllerClass_uncached rt c = Ok (Some k) ∧
  isSubclassOfClass rt k MPManagedObjectsController_class = true ∧
  climb rt (Datatypes.S (class_count rt))
    (λ c, let key := controllerPropertyNameForManagedObjectClass c in
          if rt_responds rt pkgClass key then Some key else None) (Some c)
  = Ok (if rt_responds rt pkgClass key then Some key else None) ∧
  (c ∉ held → rt_responds rt pkgClass key = true ∧ getter key k ∈ own P "MPDatabasePackageController").
Proof.
  unfold conventional. intros Hwf Hall Hp. cbn zeta in *.
  apply andb_true_iff in Hall
    as [[[Hdir%bool_decide_eq_true Hmp]%andb_true_iff Hk%bool_decide_eq_true]%andb_true_iff Hown].
  split_and!.
  - by eapply controllerClass_declared.
  - apply isSubclassOfClass_spec; [done|]. eapply rtc_l; [|apply rtc_refl]. by eapply links_superclass.
  - cbn [climb]. rewrite Hmp. cbn [assert_ mbind res_bind].
    destruct (rt_responds _ _ _); [done|].
    rewrite bool_decide_eq_true_2; [done|]. by eapply links_superclass.
  - intros Hns. rewrite (bool_decide_eq_false_2 _ Hns) in Hown. apply bool_decide_eq_true in Hown.
    split; [|done]. exact (links_responds _ _ linked pkgClass _ _ Hp Hown eq_refl).
Qed.
End conventions.

(** ** The model classes of the framework *)
Section framework.
Local Open Scope string_scope.
Local Open Scope list_scope.

Definition frameworkModelClasses : list string :=
  ["MPContributor"; "MPContributorIdentity"; "MPSnapshot"; "MPSnapshottedObject"; "MPSnapshottedAttachment"].
(** Those whose controllers only an [MPSnapshotsController] holds. *)
Definition snapshottedClasses : list string := ["MPSnapshottedObject"; "MPSnapshottedAttachment"].
(** The one noun that shares its plural with a model class of the framework. *)
Definition rivalOfIdentity : string := "MPContributorIdentitie".

Lemma frameworkModelClasses_declared :
  subclasses (declaredRuntime feather) MPManagedObject_class = frameworkModelClasses.
Proof. vm_compute. reflexivity. Qed.

Lemma framework_conventional : forallb (conventional feather snapshottedClasses) frameworkModelClasses = true.
Proof. vm_compute. reflexivity. Qed.

Definition rivalled (c : string) : bool :=
  hasSuffix c "e" || (hasSuffix c "y" && negb (String.eqb (String.append (dropLast c) "ie") rivalOfIdentity)).

Lemma framework_unrivalled rt c c' :
  superclass rt rivalOfIdentity = None → c ∈ frameworkModelClasses → superclass rt c' ≠ None →
  pluralizedString c' = pluralizedString c → c' = c.
Proof.
  intros Hr Hc Hc' E.
  assert (rivalled c = false) as Hn.
  { assert (forallb (λ c, negb (rivalled c)) frameworkModelClasses = true) as Hall by (vm_compute; reflexivity).
    rewrite forallb_forall in Hall. by apply negb_true_iff, Hall, list_elem_of_In. }
  unfold rivalled in Hn. apply orb_false_iff in Hn as [He Hy].
  apply pluralizedString_inj in E as [->|[(q & _ & ->)|(q & -> & ->)]]; [done| |].
  - replace (String.append q "ie") with (String.append (String.append q "i") "e") in He
      by by rewrite string_app_assoc.
    by rewrite hasSuffix_snoc in He.
  - rewrite hasSuffix_snoc, dropLast_snoc in Hy. cbn in Hy. apply negb_false_iff, String.eqb_eq in Hy.
    by rewrite Hy in Hc'.
Qed.

(** C14 (functional). Every model class of the framework is wired in every
    application, whatever classes it adds (short of one called
    [MPContributorIdentitie]): by the naming conventions the class is given its
    declared controller class, the controller class its model class, and the
    package controller the property the header declares with that very type;
    of snapshotted objects and attachments, whose controllers the snapshots
    controller keeps, a package controller has a controller only if the
    application's subclass declares the property. *)
Theorem framework_controllers `{!Env} c pkgClass :
  runtime_wf env_rt = true → links feather env_rt → superclass env_rt rivalOfIdentity = None →
  c ∈ subclasses (declaredRuntime feather) MPManagedObject_class →
  inherits env_rt pkgClass "MPDatabasePackageController" →
  let k := String.append (pluralizedString c) "Controller" in
  let key := controllerPropertyNameForManagedObjectClass c in
  controllerClass_uncached env_rt c = Ok (Some k) ∧
  isSubclassOfClass env_rt k MPManagedObjectsController_class = true ∧
  MOC_managedObjectClass_of env_rt k = Some c ∧
  controllerProperty pkgClass c = Ok (if rt_responds env_rt pkgClass key then Some key else None) ∧
  (c ∉ snapshottedClasses →
   rt_responds env_rt pkgClass key = true ∧ getter key k ∈ own feather "MPDatabasePackageController").
Proof.
  intros Hwf Hl Hr Hc Hp. cbn zeta.
  pose proof (linked_subclass _ _ Hl _ _ feather_wf Hwf Hc) as Hsub.
  rewrite frameworkModelClasses_declared in Hc.
  pose proof framework_conventional as Hall. rewrite forallb_forall in Hall.
  specialize (Hall c ltac:(by apply list_elem_of_In)).
  destruct (conventional_wired feather env_rt Hl snapshottedClasses c pkgClass Hwf Hall Hp) as (H1 & H2 & H3 & H4).
  refine (conj H1 (conj H2 (conj _ (conj H3 H4)))).
  apply managedObjectClass_unrivalled; [exact Hsub|]. intros c' Hc'. apply (framework_unrivalled env_rt); [done..|].
  apply subclasses_spec in Hc' as (_ & _ & p & -> & _); done.
Qed.
End framework.

(** *** The application of the tests *)
Definition testApplication : list interface := feather ++ HeadersTests_interfaces.
Definition testEnv : Env := {|
  env_rt := linkedRuntime testApplication;
  env_parseJSON _ := None;
  env_uuid _ := EmptyString;
  env_shouldTrackSessionID _ := false;
  env_relaysFetchingByIdentifier _ := false
|}.

Lemma testApplication_wf : runtime_wf (declaredRuntime testApplication) = true.
Proof. vm_compute. reflexivity. Qed.
Lemma testApplication_links : links feather (linkedRuntime testApplication).
Proof. apply linkedRuntime_links; [exact testApplication_wf|vm_compute; reflexivity..]. Qed.

(** A subclass without a controller of its own is found that of its superclass. *)
Example test_controllers :
  @controllerProperty testEnv "MPFeatherTestPackageController" "MPMoreSpecificTestObject"
  = Ok (Some "testObjectsController"%string).
Proof. vm_compute. reflexivity. Qed.

Lemma framework_controllers_witness :
  @controllerProperty testEnv "MPFeatherTestPackageController" "MPContributorIdentity"
  = Ok (Some "contributorIdentitiesController"%string) ∧
  MOC_managedObjectClass_of (linkedRuntime testApplication) "MPContributorIdentitiesController"
  = Some "MPContributorIdentity"%string.
Proof.
  assert (∀ l : list string, bool_decide ("MPContributorIdentity"%string ∈ l) = true →
    "MPContributorIdentity"%string ∈ l) as Hin by (intros l; apply bool_decide_eq_true_1).
  destruct (@framework_controllers testEnv "MPContributorIdentity" "MPFeatherTestPackageController")
    as (_ & _ & Hm & Hp & _).
  - exact testApplication_wf.
  - exact testApplication_links.
  - vm_compute. reflexivity.
  - apply Hin. vm_compute. reflexivity.
  - eapply rtc_l; [|eapply rtc_l; [|apply rtc_refl]]; vm_compute; reflexivity.
  - split; [|exact Hm]. rewrite Hp. vm_compute. reflexivity.
Defined.
