(* ===== verification/Views.v ===== *)
(** * Views: what controllers index, and what their queries find

    The map blocks, filters and queries of MPManagedObjectsController.m and
    MPContributorsController.m.  Indexing itself is CouchbaseLite's, behind the interface
    [CBLViews]: a view has a map block and a version, its index holds what the block emits
    for every document, and it is only built anew when the version changes. *)
From Stdlib Require Import Ascii.
From stdpp Require Import base tactics strings numbers list gmap.
From S2P Require Import Prelude ObjC Characters Classes World Reference Controllers ManagedObject ChangeFeed Collections.
From S2P Require Import Database Loading Framework ReferenceRuntime.

(** ** Views of a database *)
Notation document := (list (string * value)).

(** What a block emits for a document: keys with values, either of which can be [nil]. *)
Definition CBLMapBlock : Type := document → res (list (option value * option value)).
Definition CBLFilterBlock : Type := CBLRevision → res bool.

Record CBLQueryRow : Type := mkRow {
  row_key : option value;
  row_value : option value;
  row_documentID : string
}.

Definition documentID (d : document) : string := default "" (stringOf (assoc "_id" d)).

(** The index a block makes of documents; a block that raises leaves a document out. *)
Definition index (block : CBLMapBlock) (docs : list document) : list CBLQueryRow :=
  flat_map (λ d, match block d with
                 | Ok es => map (λ e, mkRow e.1 e.2 (documentID d)) es
                 | Throw _ => []
                 end) docs.

(** The rows of a query with [keys], or without any *)
Definition answers (keys : option (list value)) (r : CBLQueryRow) : bool :=
  match keys with
  | None => true
  | Some ks => match row_key r with Some k => existsb (isEqual k) ks | None => false end
  end.

Class CBLViews (S : Type) := {
  (** the documents of a database that are not deleted, as their blocks see them *)
  db_documents : S → string → list document;
  (** [[database existingViewNamed:]] is not [nil] *)
  view_exists : S → string → string → bool;
  (** the version of the view's index *)
  view_version : S → string → string → option string;
  (** [[[database viewNamed:name] setMapBlock:block version:version]] *)
  view_setMapBlock : S → string → string → CBLMapBlock → string → S;
  (** the rows of [query.run], none when it fails *)
  query_run : S → string → string → option (list value) → list CBLQueryRow;
  db_filter : S → string → string → option CBLFilterBlock;
  (** [[database setFilterNamed:asBlock:]] *)
  db_setFilter : S → string → string → CBLFilterBlock → S
}.

(** A block that neither raises nor emits a missing key for a document *)
Definition emits_keys (block : CBLMapBlock) (d : document) : Prop :=
  ∃ es, block d = Ok es ∧ Forall (λ e, is_Some e.1) es.

(** The documented behaviour relied upon: a new version of a view is indexed by its new
    block, a version that is there already keeps its index, and views, filters and models
    are apart.  Queries have one key or none. *)
Class CBLViewsLaws (S : Type) `{!CBL S} `{!CBLViews S} := {
  query_indexes : ∀ s db n block v keys,
    view_version s db n ≠ Some v → Forall (emits_keys block) (db_documents s db) →
    (keys = None ∨ ∃ k, keys = Some [k]) →
    query_run (view_setMapBlock s db n block v) db n keys
      ≡ₚ List.filter (answers keys) (index block (db_documents s db));
  query_same_version : ∀ s db n block v keys,
    view_version s db n = Some v →
    query_run (view_setMapBlock s db n block v) db n keys = query_run s db n keys;
  query_other_view : ∀ s db n block v n' keys, n' ≠ n →
    query_run (view_setMapBlock s db n block v) db n' keys = query_run s db n' keys;
  version_set : ∀ s db n block v n',
    view_version (view_setMapBlock s db n block v) db n' =
      if String.eqb n' n then Some v else view_version s db n';
  exists_set : ∀ s db n block v n',
    view_exists (view_setMapBlock s db n block v) db n' = String.eqb n' n || view_exists s db n';
  documents_setMapBlock : ∀ s db n block v,
    db_documents (view_setMapBlock s db n block v) db = db_documents s db;
  modelObject_setMapBlock : ∀ s db n block v d,
    doc_modelObject (view_setMapBlock s db n block v) db d = doc_modelObject s db d;
  document_setMapBlock : ∀ s db n block v o,
    model_document (view_setMapBlock s db n block v) o = model_document s o;
  get_setMapBlock : ∀ s db n block v o p,
    model_get (view_setMapBlock s db n block v) o p = model_get s o p;
  filter_setMapBlock : ∀ s db n block v f,
    db_filter (view_setMapBlock s db n block v) db f = db_filter s db f;
  filter_set : ∀ s db n f n',
    db_filter (db_setFilter s db n f) db n' = if String.eqb n' n then Some f else db_filter s db n';
  query_setFilter : ∀ s db n f n' keys,
    query_run (db_setFilter s db n f) db n' keys = query_run s db n' keys;
  version_setFilter : ∀ s db n f n', view_version (db_setFilter s db n f) db n' = view_version s db n';
  exists_setFilter : ∀ s db n f n', view_exists (db_setFilter s db n f) db n' = view_exists s db n';
  documents_setFilter : ∀ s db n f, db_documents (db_setFilter s db n f) db = db_documents s db;
  modelObject_setFilter : ∀ s db n f d,
    doc_modelObject (db_setFilter s db n f) db d = doc_modelObject s db d;
  document_setFilter : ∀ s db n f o, model_document (db_setFilter s db n f) o = model_document s o;
  get_setFilter : ∀ s db n f o p, model_get (db_setFilter s db n f) o p = model_get s o p
}.

(** ** Map blocks *)

(** [-boolValue] of a string: YES for a digit from 1 to 9, a Y or a T after white space,
    one sign and zeros. *)
Definition digitOrYes (c : ascii) : bool :=
  let n := nat_of_ascii c in
  ((49 <=? n) && (n <=? 57) || (n =? 89) || (n =? 121) || (n =? 84) || (n =? 116))%nat.
Definition textBoolValue (s : string) : bool :=
  let l := trimLeading whitespaceOrNewline (String.list_ascii_of_string s) in
  let l := match l with c :: l' => if Ascii.eqb c "-" || Ascii.eqb c "+" then l' else l | [] => [] end in
  match trimLeading (Ascii.eqb "0") l with c :: _ => digitOrYes c | [] => false end.

(** [-boolValue] of a property, which only numbers and strings answer *)
Definition propertyBoolValue (v : option value) : res bool :=
  match v with
  | None => Ok false
  | Some (NSNumber n) => Ok (negb (n =? 0)%Z)
  | Some (NSString s) => Ok (textBoolValue s)
  | Some _ => unrecognized
  end.

Section blocks.
Context (rt : Runtime).
(** The class of the controller *)
Context (cls : string).
Local Open Scope string_scope.

(* @src Feather/Sources/Model Controllers/MPManagedObjectsController.m 311 319 -[MPManagedObjectsController managesDocumentWithDictionary:] *)
Definition managesDocumentWithDictionary (CBLDocumentDict : document) : res bool :=
  match managedObjectType CBLDocumentDict with
  | None => Ok false
  | Some objectType =>
      subs ← managedObjectSubclasses rt cls;
      Ok (match objectType with NSString t => bool_decide (t ∈ subs) | _ => false end)
  end.

(* @src Feather/Sources/Model Controllers/MPManagedObjectsController.m 331 338 -[MPManagedObjectsController allObjectsBlock] *)
Definition allObjectsBlock : CBLMapBlock := λ doc,
  manages ← managesDocumentWithDictionary doc;
  if negb manages then Ok [] else Ok [(assoc "_id" doc, Some (NSDictionary doc))].

(* @src Feather/Sources/Model Controllers/MPManagedObjectsController.m 340 349 -[MPManagedObjectsController bundledObjectsBlock] *)
Definition bundledObjectsBlock : CBLMapBlock := λ doc,
  manages ← managesDocumentWithDictionary doc;
  if negb manages then Ok [] else
    bundled ← propertyBoolValue (assoc "bundled" doc);
    if negb bundled then Ok [] else Ok [(assoc "_id" doc, None)].

(* @src Feather/Sources/Model Controllers/MPManagedObjectsController.m 434 441 -[MPManagedObjectsController configureViews] (part) *)
Definition objectsByPrototypeIDBlock : CBLMapBlock := λ doc,
  match assoc "prototype" doc with
  | Some prototype => Ok [(Some prototype, None)]
  | None => Ok [(Some NSNull, None)]
  end.

(* @src Feather/Sources/Model Controllers/MPManagedObjectsController.m 444 454 -[MPManagedObjectsController configureViews] (part) *)
Definition userContributedObjectsBlock : CBLMapBlock := λ doc,
  manages ← managesDocumentWithDictionary doc;
  if negb manages then Ok [] else
    userContributed ← propertyBoolValue (assoc "userContributed" doc);
    if negb userContributed then Ok [] else Ok [(assoc "_id" doc, None)].

(* @src Feather/Sources/Model Controllers/MPManagedObjectsController.m 457 466 -[MPManagedObjectsController configureViews] (part) *)
Definition objectsByTitleBlock : CBLMapBlock := λ doc,
  manages ← managesDocumentWithDictionary doc;
  if negb manages then Ok [] else
    match assoc "title" doc with None => Ok [] | Some title => Ok [(Some title, None)] end.

(* @src Feather/Sources/Model Controllers/MPManagedObjectsController.m 492 501 -[MPManagedObjectsController configureViews] (part) *)
Definition bundledJSONDataBlock : CBLMapBlock := λ doc,
  manages ← managesDocumentWithDictionary doc;
  if negb manages then Ok [] else
    bundled ← propertyBoolValue (assoc "bundled" doc);
    if negb bundled then Ok [] else Ok [(assoc "_id" doc, None)].

Definition MPContributorRoleAuthor : string := "author".
Definition MPContributorRoleEditor : string := "editor".
Definition MPContributorRoleTranslator : string := "translator".

(* @src Feather/Sources/Model Controllers/MPContributorsController.m 82 95 -[MPContributorsController configureViews] (part) *)
Definition contributorsByRoleBlock : CBLMapBlock := λ doc,
  manages ← managesDocumentWithDictionary doc;
  if negb manages then Ok [] else
    isAuthor ← (match assoc "role" doc with
                | None => Ok true
                | Some (NSString role) => Ok (String.eqb role MPContributorRoleAuthor)
                | Some _ => unrecognized
                end : res bool);
    if (isAuthor : bool) then Ok [(Some (NSString MPContributorRoleAuthor), None)]
    else Ok [(assoc "role" doc, None)].

(** Fast enumeration goes over the elements of a collection and the keys of a dictionary. *)
(* @src Feather/Sources/Model Controllers/MPContributorsController.m 97 106 -[MPContributorsController configureViews] (part) *)
Definition contributorsByAddressBookIDBlock : CBLMapBlock := λ doc,
  manages ← managesDocumentWithDictionary doc;
  if negb manages then Ok [] else
    match assoc "addressBookIDs" doc with
    | None => Ok []
    | Some (NSArray ids) | Some (NSSet ids) => Ok (map (λ uniqueID, (Some uniqueID, None)) ids)
    | Some (NSDictionary d) => Ok (map (λ kv, (Some (NSString kv.1), None)) d)
    | Some _ => unrecognized
    end.

(* @src Feather/Sources/Model Controllers/MPContributorsController.m 108 116 -[MPContributorsController configureViews] (part) *)
Definition contributorsByFullNameBlock : CBLMapBlock := λ doc,
  manages ← managesDocumentWithDictionary doc;
  if negb manages then Ok [] else
    match assoc "fullName" doc with
    | None => Ok []
    | Some (NSString fullName) => Ok [(Some (NSString (lowercaseString fullName)), None)]
    | Some _ => unrecognized
    end.

(* @src Feather/Sources/Model Controllers/MPContributorsController.m 272 277 -[MPContributorIdentitiesController configureViews] (part) *)
Definition identitiesByIdentifierBlock : CBLMapBlock := λ doc,
  manages ← managesDocumentWithDictionary doc;
  if negb manages then Ok [] else Ok [(assoc "identifier" doc, None)].

(* @src Feather/Sources/Model Controllers/MPContributorsController.m 279 285 -[MPContributorIdentitiesController configureViews] (part) *)
Definition identitiesByContributorBlock : CBLMapBlock := λ doc,
  manages ← managesDocumentWithDictionary doc;
  if negb manages then Ok [] else
    _ ← assert_ (bool_decide (is_Some (assoc "contributor" doc))) "Expecting 'contributor' field in a contributor identity document";
    Ok [(assoc "contributor" doc, None)].

(** ** Names *)
(* @src Feather/Sources/Model Controllers/MPManagedObjectsController.m 265 268 +[MPManagedObjectsController managedObjectClassName] *)
Definition MOC_managedObjectClassName : string := default "(null)" (MOC_managedObjectClass_of rt cls).

(* @src Feather/Sources/Model Controllers/MPManagedObjectsController.m 504 507 -[MPManagedObjectsController allObjectsViewName] *)
Definition allObjectsViewName : string := "all-" ++ MOC_managedObjectClassName ++ "s".
(* @src Feather/Sources/Model Controllers/MPManagedObjectsController.m 528 531 -[MPManagedObjectsController objectsByTitleViewName] *)
Definition objectsByTitleViewName : string := MOC_managedObjectClassName ++ "-by-title".
(* @src Feather/Sources/Model Controllers/MPManagedObjectsController.m 542 544 -[MPManagedObjectsController userContributedObjectsViewName] *)
Definition userContributedObjectsViewName : string := cls ++ "-user-contributed".
Definition managedObjectsFilterName : string := cls ++ "/managed-objects-filter".

(* @src Feather/Sources/Model Controllers/MPManagedObjectsController.m 953 955 -[MPManagedObjectsController bundledJSONDataViewName] *)
Definition bundledJSONDataViewName : res string :=
  moClass ← MOC_managedObjectClass rt cls; Ok ("bundled-" ++ MO_plural moClass).
End blocks.

(** ** Setting the views up *)
Section controllers.
Context {S : Type} `{!CBL S} `{!CBLViews S} `{!Env} `{!CBLModelFactory S}.
(** [-setDocument:] of a model *)
Context (setDocument : S → oid → string → S).
Local Open Scope string_scope.
Notation M := (M (World S)).

(* @src Feather/Sources/Model Controllers/MPManagedObjectsController.m 321 324 -[MPManagedObjectsController managesDocumentWithIdentifier:] *)
Definition managesDocumentWithIdentifier (cls : string) (documentID : option string) : res bool :=
  clsString ← managedObjectClassFromDocumentID documentID;
  managesObjectsOfClass env_rt cls clsString.

(** The filter of a controller that is there still *)
(* @src Feather/Sources/Model Controllers/MPManagedObjectsController.m 469 489 -[MPManagedObjectsController configureViews] (part) *)
Definition managedObjectsFilterBlock (cls : string) : CBLFilterBlock := λ revision,
  managesBasedOnDict ← managesDocumentWithDictionary env_rt cls (rev_properties revision);
  if (managesBasedOnDict : bool) then Ok true
  else
    managesBasedOnID ← managesDocumentWithIdentifier cls (stringOf (assoc "_id" (rev_properties revision)));
    _ ← (if (managesBasedOnID : bool)
         then assert_ (bool_decide (is_Some (assoc "_deleted" (rev_properties revision))) || rev_isDeletion revision)
                "Expecting revision to be a deletion"
         else Ok tt);
    Ok managesBasedOnID.

(** [[[self.db.database viewNamed:name] setMapBlock:block version:version]]; nothing without a database *)
Definition MOC_setMapBlock (self : cid) (name : string) (block : CBLMapBlock) (version : string) : M unit :=
  c ← getMOC self;
  match moc_db c with
  | None => mret tt
  | Some db => cbl (λ s, view_setMapBlock s db name block version)
  end.
Definition MOC_setFilterNamed (self : cid) (name : string) (block : CBLFilterBlock) : M unit :=
  c ← getMOC self;
  match moc_db c with None => mret tt | Some db => cbl (λ s, db_setFilter s db name block) end.

(* @src Feather/Sources/Model Controllers/MPManagedObjectsController.m 431 502 -[MPManagedObjectsController configureViews] *)
Definition MOC_configureViews (self : cid) : M unit :=
  c ← getMOC self;
  let cls := moc_class c in
  _ ← MOC_setMapBlock self "objectsByPrototypeID" objectsByPrototypeIDBlock "1.0";
  _ ← MOC_setMapBlock self (userContributedObjectsViewName cls) (userContributedObjectsBlock env_rt cls) "1.3";
  _ ← MOC_setMapBlock self (objectsByTitleViewName env_rt cls) (objectsByTitleBlock env_rt cls) "1.0";
  _ ← MOC_setFilterNamed self (managedObjectsFilterName cls) (managedObjectsFilterBlock cls);
  bundledName ← lift (bundledJSONDataViewName env_rt cls);
  MOC_setMapBlock self bundledName (bundledJSONDataBlock env_rt cls) "1.1".

(* @src Feather/Sources/Model Controllers/MPContributorsController.m 74 117 -[MPContributorsController configureViews] *)
Definition CC_configureViews (self : cid) : M unit :=
  _ ← MOC_configureViews self;
  c ← getMOC self;
  let cls := moc_class c in
  _ ← MOC_setMapBlock self (allObjectsViewName env_rt cls) (allObjectsBlock env_rt cls) "1.1";
  _ ← MOC_setMapBlock self "contributorsByRole" (contributorsByRoleBlock env_rt cls) "1.1";
  _ ← MOC_setMapBlock self "contributorsByAddressBookID" (contributorsByAddressBookIDBlock env_rt cls) "1.0";
  MOC_setMapBlock self "contributorsByFullName" (contributorsByFullNameBlock env_rt cls) "1.2".

(* @src Feather/Sources/Model Controllers/MPContributorsController.m 269 288 -[MPContributorIdentitiesController configureViews] *)
Definition CIC_configureViews (self : cid) : M unit :=
  _ ← MOC_configureViews self;
  c ← getMOC self;
  let cls := moc_class c in
  _ ← MOC_setMapBlock self "contributor-identities-by-identifier" (identitiesByIdentifierBlock env_rt cls) "1.0";
  _ ← MOC_setMapBlock self "contributor-identities-by-contributor" (identitiesByContributorBlock env_rt cls) "1.1";
  MOC_setMapBlock self (allObjectsViewName env_rt cls) (allObjectsBlock env_rt cls) "1.0".

(** ** Queries *)

(** A query of [[self.db.database viewNamed:view]] that is run *)
Definition MOC_queryRows (self : cid) (view : string) (keys : option (list value)) : M (list CBLQueryRow) :=
  c ← getMOC self;
  match moc_db c with None => mret [] | Some db => cbl_gets (λ s, query_run s db view keys) end.

Definition objectsOfRows (self : cid) (rows : list CBLQueryRow) : M (list oid) :=
  MOC_managedObjectsForQueryEnumerator setDocument self (map row_documentID rows).

(** [None]: there is no such view. *)
(* @src Feather/Sources/Model Controllers/MPManagedObjectsController.m 1263 1280 -[MPManagedObjectsController objectsMatchingQueriedView:keys:] *)
Definition MOC_objectsMatchingQueriedView (self : cid) (view : string) (keys : option (list value)) : M (option (list oid)) :=
  c ← getMOC self;
  match moc_db c with
  | None => mret None
  | Some db =>
      exists_ ← cbl_gets (λ s, view_exists s db view);
      if (exists_ : bool)
      then rows ← MOC_queryRows self view keys; objs ← objectsOfRows self rows; mret (Some objs)
      else mret None
  end.

(** [nil] is no element of an array literal, and no key of a dictionary. *)
Definition keyOf {A} (key : option A) : M A :=
  match key with
  | Some k => mret k
  | None => throw (Exception "NSInvalidArgumentException" "attempt to insert nil object")
  end.

(* @src Feather/Sources/Model Controllers/MPManagedObjectsController.m 509 514 -[MPManagedObjectsController allObjectsQuery] *)
Definition MOC_allObjectsQuery (self : cid) : M (list CBLQueryRow) :=
  c ← getMOC self; MOC_queryRows self (allObjectsViewName env_rt (moc_class c)) None.

(* @src Feather/Sources/Model Controllers/MPManagedObjectsController.m 516 521 -[MPManagedObjectsController objectsByPrototypeQuery] *)
Definition MOC_objectsByPrototypeQuery (self : cid) : M (list CBLQueryRow) :=
  MOC_queryRows self "objectsByPrototypeID" None.

(* @src Feather/Sources/Model Controllers/MPManagedObjectsController.m 523 526 -[MPManagedObjectsController objectsWithPrototypeID:] *)
Definition MOC_objectsWithPrototypeID (self : cid) (prototypeID : option string) : M (option (list oid)) :=
  k ← keyOf prototypeID;
  MOC_objectsMatchingQueriedView self "objectsByPrototypeID" (Some [NSString k]).

(* @src Feather/Sources/Model Controllers/MPManagedObjectsController.m 533 540 -[MPManagedObjectsController objectsWithTitle:] *)
Definition MOC_objectsWithTitle (self : cid) (title : option string) : M (list oid) :=
  match title with
  | None => throw (AssertionFailed "title")
  | Some k =>
      c ← getMOC self;
      rows ← MOC_queryRows self (objectsByTitleViewName env_rt (moc_class c)) (Some [NSString k]);
      objectsOfRows self rows
  end.

(* @src Feather/Sources/Model Controllers/MPManagedObjectsController.m 546 548 -[MPManagedObjectsController userContributedObjects] *)
Definition MOC_userContributedObjects (self : cid) : M (option (list oid)) :=
  c ← getMOC self;
  MOC_objectsMatchingQueriedView self (userContributedObjectsViewName (moc_class c)) None.

(** [bundles]: the class has [bundledJSONDataFilename]. *)
(* @src Feather/Sources/Model Controllers/MPManagedObjectsController.m 957 967 -[MPManagedObjectsController bundledJSONDataQuery] *)
Definition MOC_bundledJSONDataQuery (self : cid) (bundles : bool) : M (option (list CBLQueryRow)) :=
  if negb bundles then mret None
  else
    c ← getMOC self;
    name ← lift (bundledJSONDataViewName env_rt (moc_class c));
    rows ← MOC_queryRows self name None;
    mret (Some rows).

(* @src Feather/Sources/Model Controllers/MPManagedObjectsController.m 550 558 -[MPManagedObjectsController allObjects:] *)
Definition MOC_allObjects_error (self : cid) : M (list oid) :=
  rows ← MOC_allObjectsQuery self; objectsOfRows self rows.

(** [entries[key] = o] on a dictionary with keys of any kind *)
Fixpoint entries_set (key : value) (o : oid) (entries : list (value * oid)) : list (value * oid) :=
  match entries with
  | [] => [(key, o)]
  | (k, x) :: l => if isEqual k key then (k, o) :: l else (k, x) :: entries_set key o l
  end.

(** The model of the document of a row, which is made when there is none *)
Definition objectForKey (self : cid) (db docID : string) : M oid :=
  modelObject ← cbl_gets (λ s, doc_modelObject s db docID);
  modelObj ← (match modelObject with
    | Some o =>
        document ← cbl_gets (λ s, model_document s o);
        _ ← NSAssert (bool_decide (is_Some document)) "modelObj.document";
        mret (Some o)
    | None =>
        c ← getMOC self;
        match moc_objectCache c !! docID with
        | Some o => _ ← cbl (λ s, setDocument s o docID); mret (Some o)
        | None =>
            cls ← CBLDocument_managedObjectClass db docID;
            match cls with Some k => MO_modelForDocument k db docID | None => mret None end
        end
    end);
  match modelObj with
  | None => throw (AssertionFailed "[modelObj isKindOfClass:[MPManagedObject class]]")
  | Some o =>
      m ← gets (λ w, w_mos w !! o);
      _ ← NSAssert (bool_decide (is_Some m)) "[modelObj isKindOfClass:[MPManagedObject class]]";
      mret o
  end.

(* @src Feather/Sources/Model Controllers/MPManagedObjectsController.m 863 891 -[MPManagedObjectsController managedObjectByKeyMapForQueryEnumerator:] *)
Fixpoint MOC_managedObjectByKeyMapForQueryEnumerator (self : cid) (rows : list CBLQueryRow)
    (entries : list (value * oid)) : M (list (value * oid)) :=
  match rows with
  | [] => mret entries
  | r :: rows =>
      c ← getMOC self;
      o ← objectForKey self (default "" (moc_db c)) (row_documentID r);
      k ← keyOf (row_key r);
      MOC_managedObjectByKeyMapForQueryEnumerator self rows (entries_set k o entries)
  end.

(** ** Contributors *)

(* @src Feather/Sources/Model Controllers/MPContributorsController.m 119 126 -[MPContributorsController contributorWithAddressBookID:] *)
Definition CC_contributorWithAddressBookID (self : cid) (personUniqueID : option string) : M (option oid) :=
  match personUniqueID with
  | None => throw (AssertionFailed "personUniqueID")
  | Some k =>
      contributors ← MOC_objectsMatchingQueriedView self "contributorsByAddressBookID" (Some [NSString k]);
      _ ← NSAssert (bool_decide (length (default [] contributors) < 2)%nat) "A maximum of one contributor should have been retrieved";
      mret (head (default [] contributors))
  end.

(** [nil] is not equal to a name. *)
Definition sameName (name : option string) (fullName : option string) : bool :=
  match name, fullName with
  | Some a, Some b => String.eqb (lowercaseString a) (lowercaseString b)
  | _, _ => false
  end.

(* @src Feather/Sources/Model Controllers/MPContributorsController.m 128 132 -[MPContributorsController contributorsWithFullName:] *)
Definition CC_contributorsWithFullName (self : cid) (fullName : option string) : M (list oid) :=
  objs ← MOC_allObjects_error self;
  cbl_gets (λ s, List.filter (λ o, sameName (stringOf (model_get s o "fullName")) fullName) objs).

(** The comparator: how it sorts an array *)
(* @src Feather/Sources/Model Controllers/MPContributorsController.m 134 139 -[MPContributorsController contributorsInRole:] *)
Definition CC_contributorsInRole (contributorComparator : option (S → list oid → list oid)) (self : cid)
    (role : option string) : M (option (list oid)) :=
  match contributorComparator with
  | None => throw (AssertionFailed "Assign contributorComparator to a non-nil value before calling -contributorsInRole.")
  | Some sorted =>
      k ← keyOf role;
      objs ← MOC_objectsMatchingQueriedView self "contributorsByRole" (Some [NSString k]);
      cbl_gets (λ s, sorted s <$> objs)
  end.

(* @src Feather/Sources/Model Controllers/MPContributorsController.m 150 152 -[MPContributorsController allAuthors] *)
Definition CC_allAuthors (cmp : option (S → list oid → list oid)) (self : cid) : M (option (list oid)) :=
  CC_contributorsInRole cmp self (Some MPContributorRoleAuthor).
(* @src Feather/Sources/Model Controllers/MPContributorsController.m 154 156 -[MPContributorsController allEditors] *)
Definition CC_allEditors (cmp : option (S → list oid → list oid)) (self : cid) : M (option (list oid)) :=
  CC_contributorsInRole cmp self (Some MPContributorRoleEditor).
(* @src Feather/Sources/Model Controllers/MPContributorsController.m 158 160 -[MPContributorsController allTranslators] *)
Definition CC_allTranslators (cmp : option (S → list oid → list oid)) (self : cid) : M (option (list oid)) :=
  CC_contributorsInRole cmp self (Some MPContributorRoleTranslator).

(** A contributor that was never saved has no identifier. *)
(* @src Feather/Sources/Model Controllers/MPContributorsController.m 290 292 -[MPContributorIdentitiesController contributorIdentitiesForContributor:] *)
Definition CIC_contributorIdentitiesForContributor (self : cid) (contributor : oid) : M (option (list oid)) :=
  documentID ← cbl_gets (λ s, model_document s contributor);
  k ← keyOf documentID;
  MOC_objectsMatchingQueriedView self "contributor-identities-by-contributor" (Some [NSString k]).

(* @src Feather/Sources/Model Controllers/MPContributorsController.m 294 296 -[MPContributorIdentitiesController contributorIdentitiesWithIdentifier:] *)
Definition CIC_contributorIdentitiesWithIdentifier (self : cid) (identifier : option string) : M (option (list oid)) :=
  k ← keyOf identifier;
  MOC_objectsMatchingQueriedView self "contributor-identities-by-identifier" (Some [NSString k]).
End controllers.

(** ** What a controller manages *)
Definition is_managed (rt : Runtime) (model : string) (d : document) : bool :=
  match assoc "objectType" d with
  | Some (NSString t) =>
      isSubclassOfClass rt t model && (String.eqb t model || negb (hasPrefix t "NSKVONotifying"))
  | _ => false
  end.
(** A property that is a string, and one that is true *)
Definition has (key text : string) (d : document) : bool :=
  match assoc key d with Some (NSString s) => String.eqb s text | _ => false end.
Definition flag (key : string) (d : document) : bool :=
  match propertyBoolValue (assoc key d) with Ok b => b | Throw _ => false end.

Lemma descends_bool rt m t : runtime_wf rt = true →
  bool_decide (t ∈ descendingClasses rt m) =
  isSubclassOfClass rt t m && (String.eqb t m || negb (hasPrefix t "NSKVONotifying")).
Proof.
  intros wf. apply Bool.eq_iff_eq_true. rewrite bool_decide_eq_true, andb_true_iff, orb_true_iff, negb_true_iff.
  rewrite String.eqb_eq, isSubclassOfClass_spec, descendingClasses_spec, subclasses_spec by done.
  rewrite (inherits_cases rt t m). split.
  - intros [->|(_ & Hk & p & Hp & Hi)]; [by split; left|]. split; [right; eauto|by right].
  - intros [[->|(p & Hp & Hi)] [?|Hk]]; subst; auto. right. split_and!; eauto using superclass_declared.
Qed.

Lemma manages_spec rt cls m d : runtime_wf rt = true →
  cls ≠ MPManagedObjectsController_class → MOC_managedObjectClass rt cls = Ok m →
  managesDocumentWithDictionary rt cls d = Ok (is_managed rt m d).
Proof.
  intros wf Hne Hm. unfold managesDocumentWithDictionary, managedObjectType, is_managed, managedObjectSubclasses.
  destruct (assoc "objectType" d) as [v|]; [|done].
  destruct (String.eqb_spec cls MPManagedObjectsController_class); [done|]. rewrite Hm. cbn.
  destruct v; try done. by rewrite descends_bool.
Qed.

(** ** What an index answers *)
Definition key_answers (keys : option (list value)) (k : option value) : bool :=
  match keys with
  | None => true
  | Some ks => match k with Some k => existsb (isEqual k) ks | None => false end
  end.

Lemma index_ids block (es : document → list (option value * option value)) docs keys :
  (∀ d, d ∈ docs → block d = Ok (es d)) →
  map row_documentID (List.filter (answers keys) (index block docs)) =
  flat_map (λ d, map (λ _, documentID d) (List.filter (λ e, key_answers keys e.1) (es d))) docs.
Proof.
  induction docs as [|d docs IH]; intros Hb; [done|]. unfold index. cbn [flat_map].
  rewrite (Hb d) by (by left). rewrite List.filter_app, map_app. f_equal.
  - induction (es d) as [|e l IHl]; [done|]. cbn [map List.filter].
    change (answers keys (mkRow e.1 e.2 (documentID d))) with (key_answers keys e.1).
    destruct (key_answers keys e.1); cbn [map]; by rewrite IHl.
  - apply IH. intros d' Hd. apply Hb. by right.
Qed.

(** A block that emits at most one key per document *)
Lemma index_ids_once block (P : document → bool) (k : document → value) (x : document → option value) docs keys :
  (∀ d, d ∈ docs → block d = Ok (if P d then [(Some (k d), x d)] else [])) →
  map row_documentID (List.filter (answers keys) (index block docs)) =
  map documentID (List.filter (λ d, P d && key_answers keys (Some (k d))) docs).
Proof.
  intros Hb. rewrite (index_ids _ _ _ _ Hb). clear Hb.
  induction docs as [|d docs IH]; [done|]. cbn [flat_map List.filter]. rewrite IH.
  destruct (P d); [|done]. cbn [List.filter fst andb]. by destruct (key_answers keys (Some (k d))).
Qed.

Lemma emits_keys_once block (P : document → bool) (k : document → value) (x : document → option value) docs :
  (∀ d, d ∈ docs → block d = Ok (if P d then [(Some (k d), x d)] else [])) →
  Forall (emits_keys block) docs.
Proof.
  intros Hb. apply Forall_forall. intros d Hd. exists (if P d then [(Some (k d), x d)] else []).
  split; [by apply Hb|]. destruct (P d); by repeat constructor.
Qed.

Lemma isEqual_string v t : isEqual v (NSString t) = match v with NSString s => String.eqb s t | _ => false end.
Proof. by destruct v. Qed.

Lemma key_answers_one v t : key_answers (Some [NSString t]) (Some v) =
  match v with NSString s => String.eqb s t | _ => false end.
Proof. cbn [key_answers existsb]. by rewrite orb_false_r, isEqual_string. Qed.

(** ** Setting up views *)
Inductive setup : Type :=
  | View (name : string) (block : CBLMapBlock) (version : string)
  | Filter (name : string) (block : CBLFilterBlock).

Section setups.
Context {S : Type} `{!CBL S} `{!CBLViews S} `{!CBLViewsLaws S} (db : string).

Definition configure1 (s : S) (x : setup) : S :=
  match x with
  | View n block v => view_setMapBlock s db n block v
  | Filter n f => db_setFilter s db n f
  end.
Definition configure : S → list setup → S := foldl configure1.

Lemma configure_keeps {A} (f : S → A) l s :
  (∀ s x, f (configure1 s x) = f s) → f (configure s l) = f s.
Proof. intros Hf. revert s. induction l as [|x l IH]; intros s; [done|]. cbn. unfold configure in IH. by rewrite IH, Hf. Qed.

Lemma configure_documents l s : db_documents (configure s l) db = db_documents s db.
Proof. apply (configure_keeps (λ s, db_documents s db)). intros s' []; [apply documents_setMapBlock|apply documents_setFilter]. Qed.
Lemma configure_modelObject l s d : doc_modelObject (configure s l) db d = doc_modelObject s db d.
Proof. apply (configure_keeps (λ s, doc_modelObject s db d)). intros s' []; [apply modelObject_setMapBlock|apply modelObject_setFilter]. Qed.
Lemma configure_document l s o : model_document (configure s l) o = model_document s o.
Proof. apply (configure_keeps (λ s, model_document s o)). intros s' []; [apply document_setMapBlock|apply document_setFilter]. Qed.
Lemma configure_get l s o p : model_get (configure s l) o p = model_get s o p.
Proof. apply (configure_keeps (λ s, model_get s o p)). intros s' []; [apply get_setMapBlock|apply get_setFilter]. Qed.

Lemma configure_exists l s n : view_exists s db n = true → view_exists (configure s l) db n = true.
Proof.
  revert s. induction l as [|x l IH]; intros s Hs; [done|]. apply IH. destruct x; cbn.
  - rewrite exists_set, Hs. apply orb_true_r.
  - by rewrite exists_setFilter.
Qed.
Lemma configured_exists l s n block v : View n block v ∈ l → view_exists (configure s l) db n = true.
Proof.
  revert s. induction l as [|x l IH]; intros s; [by intros ?%elem_of_nil|].
  intros [<-|Hl]%elem_of_cons; [|by apply IH]. apply (configure_exists l). cbn. by rewrite exists_set, String.eqb_refl.
Qed.

(** An index whose version is there keeps it. *)
Lemma configure_query l s n v keys :
  view_version s db n = Some v → (∀ block' v', View n block' v' ∈ l → v' = v) →
  query_run (configure s l) db n keys = query_run s db n keys.
Proof.
  revert s. induction l as [|x l IH]; intros s Hv Hl; [done|].
  assert (∀ block' v', View n block' v' ∈ l → v' = v) as Hl' by (intros b v' ?; apply (Hl b v'); by right).
  cbn. destruct x as [n' b' v'|n' f]; cbn [configure1].
  - destruct (decide (n' = n)) as [->|Hne].
    + assert (v' = v) as -> by (apply (Hl b' v'); by left).
      rewrite IH; [|by rewrite version_set, String.eqb_refl|done]. by apply query_same_version.
    + rewrite IH; [by apply query_other_view|rewrite version_set|done].
      by rewrite (proj2 (String.eqb_neq _ _)) by congruence.
  - rewrite IH; [apply query_setFilter|by rewrite version_setFilter|done].
Qed.

(** An index of this version that is there already is what the block makes of the documents. *)
Definition up_to_date (s : S) (n : string) (block : CBLMapBlock) (v : string) : Prop :=
  view_version s db n = Some v → ∀ keys, keys = None ∨ (∃ k, keys = Some [k]) →
  query_run s db n keys ≡ₚ List.filter (answers keys) (index block (db_documents s db)).

Lemma reindexed_query l s n block v keys :
  View n block v ∈ l → (∀ block' v', View n block' v' ∈ l → block' = block ∧ v' = v) →
  view_version s db n ≠ Some v → Forall (emits_keys block) (db_documents s db) →
  (keys = None ∨ ∃ k, keys = Some [k]) →
  query_run (configure s l) db n keys ≡ₚ List.filter (answers keys) (index block (db_documents s db)).
Proof.
  intros Hin Huniq Hv Hb Hkeys. revert s Hv Hb Hin Huniq.
  induction l as [|x l IH]; intros s Hv Hb Hin Huniq; [by apply elem_of_nil in Hin|].
  assert (∀ block' v', View n block' v' ∈ l → block' = block ∧ v' = v) as Hl by (intros b' v' ?; apply Huniq; by right).
  cbn. destruct x as [n' b' v'|n' f]; cbn [configure1].
  - destruct (decide (n' = n)) as [->|Hne].
    + destruct (Huniq b' v') as [-> ->]; [by left|].
      rewrite (configure_query l _ n v); [by apply query_indexes|by rewrite version_set, String.eqb_refl|]. intros b' v' ?. by eapply Hl.
    + rewrite <- (documents_setMapBlock s db n' b' v'). apply IH; [|by rewrite documents_setMapBlock| |done].
      * rewrite version_set. by rewrite (proj2 (String.eqb_neq _ _)) by congruence.
      * apply elem_of_cons in Hin as [[= -> _ _]|?]; done.
  - rewrite <- (documents_setFilter s db n' f). apply IH; [by rewrite version_setFilter|by rewrite documents_setFilter| |done].
    apply elem_of_cons in Hin as [?|?]; done.
Qed.

Lemma configured_query l s n block v keys :
  View n block v ∈ l → (∀ block' v', View n block' v' ∈ l → block' = block ∧ v' = v) →
  up_to_date s n block v → Forall (emits_keys block) (db_documents s db) →
  (keys = None ∨ ∃ k, keys = Some [k]) →
  query_run (configure s l) db n keys ≡ₚ List.filter (answers keys) (index block (db_documents s db)).
Proof.
  intros Hin Hu Hup Hb Hkeys. destruct (decide (view_version s db n = Some v)) as [Hv|Hv]; [|by eapply reindexed_query].
  rewrite (configure_query l s n v); [by apply Hup|done|]. intros block' v' ?. by eapply Hu.
Qed.

Lemma configure_filter l s n f : (∀ f', Filter n f' ∈ l → f' = f) →
  db_filter s db n = Some f → db_filter (configure s l) db n = Some f.
Proof.
  revert s. induction l as [|x l IH]; intros s Hl Hs; [done|]. apply IH; [intros f' ?; apply Hl; by right|].
  destruct x as [n' b v|n' f']; cbn; [by rewrite filter_setMapBlock|]. rewrite filter_set.
  destruct (String.eqb_spec n n') as [->|]; [|done]. f_equal. apply Hl. by left.
Qed.

Lemma configured_filter l s n f : Filter n f ∈ l → (∀ f', Filter n f' ∈ l → f' = f) →
  db_filter (configure s l) db n = Some f.
Proof.
  revert s. induction l as [|x l IH]; intros s Hin Hl; [by apply elem_of_nil in Hin|].
  assert (∀ f', Filter n f' ∈ l → f' = f) as Hl' by (intros f' ?; apply Hl; by right).
  apply elem_of_cons in Hin as [<-|Hin]; [|by apply IH].
  apply (configure_filter l); [done|]. cbn. by rewrite filter_set, String.eqb_refl.
Qed.

(** The rows of a block that emits at most one key per document *)
Lemma configured_ids l s n block v (P : document → bool) k x keys :
  View n block v ∈ l → (∀ block' v', View n block' v' ∈ l → block' = block ∧ v' = v) →
  up_to_date s n block v → (keys = None ∨ ∃ k, keys = Some [k]) →
  (∀ d, d ∈ db_documents s db → block d = Ok (if P d then [(Some (k d), x d)] else [])) →
  map row_documentID (query_run (configure s l) db n keys) ≡ₚ
  map documentID (List.filter (λ d, P d && key_answers keys (Some (k d))) (db_documents s db)).
Proof.
  intros Hin Hu Hv Hk Hb. rewrite <- (index_ids_once _ _ _ _ _ _ Hb). apply Permutation_map.
  apply configured_query with v; auto. by apply (emits_keys_once _ P k x).
Qed.
End setups.

(** ** Names of views *)
Section names.
Context (rt : Runtime).
Local Open Scope string_scope.

Definition lastChar (s : string) : option ascii := last (String.list_ascii_of_string s).

Lemma lastChar_app a c b : lastChar (a ++ String c b) = lastChar (String c b).
Proof. unfold lastChar. rewrite ascii_list_app, last_app. cbn [String.list_ascii_of_string]. by destruct (last (c :: String.list_ascii_of_string b)) eqn:E; [|apply last_None in E]. Qed.

Lemma lastChar_plural s : lastChar (pluralizedString s) = Some "s"%char ∨ lastChar (pluralizedString s) = Some "Y"%char.
Proof.
  destruct (pluralizedString_cases s) as [(q & _ & ->)|[(q & _ & ->)| ->]]; rewrite lastChar_app; auto.
Qed.

Lemma append_cancel a b s : a ++ s = b ++ s → a = b.
Proof.
  intros E. assert (String.list_ascii_of_string (a ++ s) = String.list_ascii_of_string (b ++ s)) as E' by by rewrite E.
  rewrite !ascii_list_app in E'. apply app_inv_tail in E'.
  by rewrite <- (String.string_of_list_ascii_of_string a), <- (String.string_of_list_ascii_of_string b), E'.
Qed.

(** The model class determines its controller class. *)
Lemma managedObjectClass_of_name cls m :
  MOC_managedObjectClass_of rt cls = Some m → cls = pluralizedString m ++ "Controller".
Proof.
  unfold MOC_managedObjectClass_of, managedObjectClassByControllerClassNameDictionary.
  assert (∀ l (d : gmap string string), (∀ k v, d !! k = Some v → k = pluralizedString v ++ "Controller") →
    ∀ k v, foldl (λ d m, <[pluralizedString m ++ "Controller" := m]> d) d l !! k = Some v →
    k = pluralizedString v ++ "Controller") as H.
  { induction l as [|x l IH]; intros d Hd; [done|]. apply IH. intros k v.
    destruct (decide (k = pluralizedString x ++ "Controller")) as [->|Hne].
    - rewrite lookup_insert_eq. by intros [= ->].
    - rewrite lookup_insert_ne by congruence. apply Hd. }
  apply H. intros k v. by rewrite lookup_empty.
Qed.

Lemma managedObjectClass_of_Ok cls m : MOC_managedObjectClass rt cls = Ok m → MOC_managedObjectClass_of rt cls = Some m.
Proof.
  unfold MOC_managedObjectClass. destruct (MOC_managedObjectClass_of rt cls) as [m'|]; [|done].
  by intros (_ & _ & [= ->])%res_bind_inv.
Qed.

Lemma managedObjectClassName_Ok cls m : MOC_managedObjectClass rt cls = Ok m → MOC_managedObjectClassName rt cls = m.
Proof. intros Hm%managedObjectClass_of_Ok. unfold MOC_managedObjectClassName. by rewrite Hm. Qed.
End names.

(** ** What a controller sets up *)
Section base.
Context {S : Type} `{!CBL S} `{!CBLViews S} `{!Env} `{!CBLModelFactory S}.
Implicit Types w : World S.
Local Open Scope string_scope.

Definition bundledName (cls : string) : string := "bundled-" ++ MO_plural (MOC_managedObjectClassName env_rt cls).

Definition base_setup (cls : string) : list setup := [
  View "objectsByPrototypeID" objectsByPrototypeIDBlock "1.0";
  View (userContributedObjectsViewName cls) (userContributedObjectsBlock env_rt cls) "1.3";
  View (objectsByTitleViewName env_rt cls) (objectsByTitleBlock env_rt cls) "1.0";
  Filter (managedObjectsFilterName cls) (managedObjectsFilterBlock cls);
  View (bundledName cls) (bundledJSONDataBlock env_rt cls) "1.1"].

(** A controller of a database, of class [cls] for the model class [m] *)
Definition controls (w : World S) (db : string) (c : cid) (cls m : string) : Prop :=
  cls ≠ MPManagedObjectsController_class ∧ MOC_managedObjectClass env_rt cls = Ok m ∧
  ∃ k, w_mocs w !! c = Some k ∧ moc_db k = Some db ∧ moc_class k = cls.

Lemma run_getMOC w c k : w_mocs w !! c = Some k → getMOC c w = (Ok k, w).
Proof. intros Hk. unfold getMOC. by rewrite Hk. Qed.

Lemma run_setMapBlock w self k db name block v : w_mocs w !! self = Some k → moc_db k = Some db →
  MOC_setMapBlock self name block v w = (Ok tt, set_cbl (view_setMapBlock (w_cbl w) db name block v) w).
Proof. intros Hk Hdb. unfold MOC_setMapBlock. by rewrite run_bind, (run_getMOC _ _ _ Hk), Hdb. Qed.

Lemma run_setFilterNamed w self k db name f : w_mocs w !! self = Some k → moc_db k = Some db →
  MOC_setFilterNamed self name f w = (Ok tt, set_cbl (db_setFilter (w_cbl w) db name f) w).
Proof. intros Hk Hdb. unfold MOC_setFilterNamed. by rewrite run_bind, (run_getMOC _ _ _ Hk), Hdb. Qed.

Lemma run_configureViews w db c cls m : controls w db c cls m →
  MOC_configureViews c w = (Ok tt, set_cbl (configure db (w_cbl w) (base_setup cls)) w).
Proof.
  intros (_ & Hm & k & Hk & Hdb & Hcls). unfold MOC_configureViews. rewrite run_bind, (run_getMOC _ _ _ Hk), Hcls.
  do 3 (erewrite run_bind_ok; [|by eapply run_setMapBlock]).
  erewrite run_bind_ok; [|by eapply run_setFilterNamed].
  unfold bundledJSONDataViewName. rewrite run_bind, Hm. cbn [mbind res_bind lift].
  erewrite run_setMapBlock by done. unfold base_setup, bundledName. by rewrite (managedObjectClassName_Ok _ _ _ Hm).
Qed.

Lemma controls_set_cbl w db c cls m s : controls w db c cls m → controls (set_cbl s w) db c cls m.
Proof. done. Qed.

(** The controllers of a database, by class and model class *)
Lemma run_configureAll w db (cs : list (cid * string * string)) :
  (∀ c cls m, (c, cls, m) ∈ cs → controls w db c cls m) →
  for_each cs (λ x, MOC_configureViews x.1.1) w =
    (Ok tt, set_cbl (configure db (w_cbl w) (flat_map (λ x, base_setup x.1.2) cs)) w).
Proof.
  revert w. induction cs as [|[[c cls] m] cs IH]; intros w Hcs; [by destruct w|]. cbn [for_each].
  rewrite run_bind. cbn [fst snd]. rewrite (run_configureViews w db c cls m) by (apply Hcs; by left).
  rewrite IH by (intros c' cls' m' ?; apply controls_set_cbl, Hcs; by right).
  unfold configure. cbn [flat_map fst snd]. by rewrite foldl_app.
Qed.

(** ** Models of rows *)
Definition loaded (w : World S) (db : string) (i : string) : Prop :=
  ∃ o, doc_modelObject (w_cbl w) db i = Some o ∧ model_document (w_cbl w) o = Some i ∧ is_Some (w_mos w !! o).

Context (setDocument : S → oid → string → S).

Lemma run_modelsOfRows w self k db ids : w_mocs w !! self = Some k → moc_db k = Some db → Forall (loaded w db) ids →
  map_each ids (λ docID,
    modelObj ← objectOfRow setDocument self db docID;
    match modelObj with
    | None => mret None
    | Some o =>
        m ← gets (λ w, w_mos w !! o);
        _ ← NSAssert (bool_decide (is_Some m)) "Model object is of unexpected class";
        mret (Some o)
    end) w = (Ok (map (λ i, doc_modelObject (w_cbl w) db i) ids), w).
Proof.
  intros Hk Hdb. induction 1 as [|i ids (o & Ho & Hd & Hm) _ IH]; [done|]. cbn [map_each map]. rewrite !run_bind.
  unfold objectOfRow at 1, cbl_gets. rewrite run_bind, run_gets, Ho, run_bind, run_gets, run_bind, run_NSAssert, Hd.
  rewrite bool_decide_eq_true_2 by done. rewrite run_ret, run_bind, run_gets, run_bind, run_NSAssert.
  rewrite bool_decide_eq_true_2 by done. rewrite run_ret. cbn in IH |- *. by rewrite run_bind, IH.
Qed.

Lemma run_objectsOfRows w self k db rows : w_mocs w !! self = Some k → moc_db k = Some db →
  Forall (loaded w db) (map row_documentID rows) →
  objectsOfRows setDocument self rows w =
    (Ok (omap (λ i, doc_modelObject (w_cbl w) db i) (map row_documentID rows)), w).
Proof.
  intros Hk Hdb Hl. unfold objectsOfRows, MOC_managedObjectsForQueryEnumerator.
  rewrite run_bind, (run_getMOC _ _ _ Hk), Hdb. change (default "" (Some db)) with db.
  generalize dependent (map row_documentID rows). intros ids Hl.
  rewrite (run_bind_ok _ _ _ _ _ (run_modelsOfRows _ _ _ _ _ Hk Hdb Hl)), run_ret. do 2 f_equal.
  induction Hl as [|i ids (o & Ho & _) _ IH]; [done|]. cbn. rewrite Ho. cbn. by rewrite IH.
Qed.

Lemma run_queryRows w self k db view keys : w_mocs w !! self = Some k → moc_db k = Some db →
  MOC_queryRows self view keys w = (Ok (query_run (w_cbl w) db view keys), w).
Proof. intros Hk Hdb. unfold MOC_queryRows. by rewrite run_bind, (run_getMOC _ _ _ Hk), Hdb. Qed.

Lemma run_objectsMatchingQueriedView w self k db view keys : w_mocs w !! self = Some k → moc_db k = Some db →
  view_exists (w_cbl w) db view = true →
  Forall (loaded w db) (map row_documentID (query_run (w_cbl w) db view keys)) →
  MOC_objectsMatchingQueriedView setDocument self view keys w =
    (Ok (Some (omap (λ i, doc_modelObject (w_cbl w) db i) (map row_documentID (query_run (w_cbl w) db view keys)))), w).
Proof.
  intros Hk Hdb He Hl. unfold MOC_objectsMatchingQueriedView, cbl_gets.
  rewrite run_bind, (run_getMOC _ _ _ Hk), Hdb, run_bind, run_gets, He, run_bind, (run_queryRows _ _ _ _ _ _ Hk Hdb), run_bind.
  by rewrite (run_objectsOfRows _ _ _ _ _ Hk Hdb Hl).
Qed.
End base.

(** ** Every controller finds its own *)
Section finds.
Context {S : Type} `{!CBL S} `{!CBLViews S} `{!CBLViewsLaws S} `{!Env} `{!CBLModelFactory S}.
Implicit Types w : World S.
Local Open Scope string_scope.

Lemma lastChar_bundled cls : lastChar (bundledName cls) = Some "s"%char ∨ lastChar (bundledName cls) = Some "Y"%char.
Proof.
  unfold bundledName, MO_plural. destruct (lastChar_plural (MO_singular (MOC_managedObjectClassName env_rt cls))) as [E|E];
    destruct (pluralizedString _) as [|c p]; try done; rewrite lastChar_app, E; auto.
Qed.

Lemma not_bundled cls n c : lastChar n = Some c → c ≠ "s"%char → c ≠ "Y"%char → n ≠ bundledName cls.
Proof. intros Hn Hs HY ->. destruct (lastChar_bundled cls); congruence. Qed.

(** The views of a controller, told apart by how their names end *)
Lemma base_setup_views cls n b v : View n b v ∈ base_setup cls →
  (lastChar n = Some "D"%char ∧ b = objectsByPrototypeIDBlock ∧ v = "1.0") ∨
  (lastChar n = Some "d"%char ∧ n = userContributedObjectsViewName cls ∧ b = userContributedObjectsBlock env_rt cls ∧ v = "1.3") ∨
  (lastChar n = Some "e"%char ∧ n = objectsByTitleViewName env_rt cls ∧ b = objectsByTitleBlock env_rt cls ∧ v = "1.0") ∨
  ((lastChar n = Some "s"%char ∨ lastChar n = Some "Y"%char) ∧ n = bundledName cls ∧ b = bundledJSONDataBlock env_rt cls ∧ v = "1.1").
Proof.
  unfold base_setup. rewrite !elem_of_cons, elem_of_nil.
  intros [[= -> -> ->]|[[= -> -> ->]|[[= -> -> ->]|[?|[[= -> -> ->]|[]]]]]]; [by left| | |done|]; right.
  - left. split; [|done]. unfold userContributedObjectsViewName. by rewrite lastChar_app.
  - right; left. split; [|done]. unfold objectsByTitleViewName. by rewrite lastChar_app.
  - right; right. split; [apply lastChar_bundled|done].
Qed.

(** No other class of controllers bundles objects under the name for the model class [m]. *)
Definition no_rivals (cs : list (cid * string * string)) (cls m : string) : Prop :=
  ∀ y, y ∈ cs → MO_plural y.2 = MO_plural m → y.1.2 = cls.

Lemma views_unique (cs : list (cid * string * string)) x n b v b' v' :
  (∀ y, y ∈ cs → MOC_managedObjectClass env_rt y.1.2 = Ok y.2) → x ∈ cs →
  (n = bundledName x.1.2 → no_rivals cs x.1.2 x.2) →
  View n b v ∈ base_setup x.1.2 → View n b' v' ∈ flat_map (λ y, base_setup y.1.2) cs → b' = b ∧ v' = v.
Proof.
  intros Hcs Hx Hno Hn (y & Hy & Hn')%list_elem_of_In%in_flat_map.
  apply list_elem_of_In in Hy, Hn'.
  apply base_setup_views in Hn as [(E & -> & ->)|[(E & -> & -> & ->)|[(E & -> & -> & ->)|(E & -> & -> & ->)]]];
    apply base_setup_views in Hn' as [(E' & -> & ->)|[(E' & En & -> & ->)|[(E' & En & -> & ->)|(E' & En & -> & ->)]]];
    try done; try (exfalso; intuition congruence).
  - apply append_cancel in En as ->. done.
  - apply append_cancel in En. rewrite (managedObjectClassName_Ok _ _ _ (Hcs _ Hx)), (managedObjectClassName_Ok _ _ _ (Hcs _ Hy)) in En.
    pose proof (managedObjectClass_of_name _ _ _ (managedObjectClass_of_Ok _ _ _ (Hcs _ Hx))) as ->.
    pose proof (managedObjectClass_of_name _ _ _ (managedObjectClass_of_Ok _ _ _ (Hcs _ Hy))) as ->. by rewrite En.
  - unfold bundledName in En. rewrite (managedObjectClassName_Ok _ _ _ (Hcs _ Hx)), (managedObjectClassName_Ok _ _ _ (Hcs _ Hy)) in En.
    injection En as En. by rewrite (Hno eq_refl _ Hy (eq_sym En)).
Qed.
(** A document has an identifier, and flags that are numbers or texts. *)
Definition good_document (d : document) : Prop :=
  (∃ i, assoc "_id" d = Some (NSString i)) ∧
  is_ok (propertyBoolValue (assoc "bundled" d)) = true ∧ is_ok (propertyBoolValue (assoc "userContributed" d)) = true.

(** A world whose views are set up *)
Context (w : World S) (db : string) (l : list setup).
Context (Hwf : runtime_wf env_rt = true).
Context (Hnew : ∀ n block v, View n block v ∈ l → up_to_date db (w_cbl w) n block v).
Context (setDocument : S → oid → string → S).

Definition configured : World S := set_cbl (configure db (w_cbl w) l) w.
Definition documents (P : document → bool) : list document := List.filter P (db_documents (w_cbl w) db).
Definition objects (P : document → bool) : list oid :=
  omap (λ d, doc_modelObject (w_cbl w) db (documentID d)) (documents P).

(** What a view answers, by what its block emits *)
Lemma view_ids n block v (P : document → bool) k y (Q : document → bool) keys :
  View n block v ∈ l → (∀ b' v', View n b' v' ∈ l → b' = block ∧ v' = v) →
  (keys = None ∨ ∃ k, keys = Some [k]) →
  (∀ d, d ∈ db_documents (w_cbl w) db → block d = Ok (if P d then [(Some (k d), y d)] else [])) →
  (∀ d, P d && key_answers keys (Some (k d)) = Q d) →
  view_exists (w_cbl configured) db n = true ∧
  map row_documentID (query_run (w_cbl configured) db n keys) ≡ₚ map documentID (documents Q).
Proof.
  intros Hin Hu Hkeys Hb HQ. split; [by eapply configured_exists|]. cbn [configured w_cbl set_cbl].
  rewrite (configured_ids db _ (w_cbl w) n block v P k y keys Hin); try done; [|by apply Hnew].
  unfold documents. erewrite filter_ext; [done|exact HQ].
Qed.

Lemma loaded_configured i : loaded configured db i ↔ loaded w db i.
Proof.
  unfold loaded. cbn. rewrite configure_modelObject. split; intros (o & Ho & Hd & Hm); exists o;
    rewrite configure_document in *; done.
Qed.

(** The documents whose identifiers they are *)
Definition all_loaded (ids : list string) : Prop := ∀ i, i ∈ ids → loaded w db i.

Lemma loaded_ids ids ids' : ids ≡ₚ ids' → all_loaded ids' → Forall (loaded configured db) ids.
Proof. intros Hp Hall. rewrite Hp. apply Forall_forall. intros i Hi. by apply loaded_configured, Hall. Qed.

(** The models of identifiers *)
Definition models (ids : list string) : list oid := omap (λ i, doc_modelObject (w_cbl w) db i) ids.

Lemma models_configured ids : omap (λ i, doc_modelObject (w_cbl configured) db i) ids = models ids.
Proof. unfold models. induction ids as [|i ids IH]; [done|]. cbn. rewrite configure_modelObject. by rewrite <- IH. Qed.

Lemma models_perm ids ids' : ids ≡ₚ ids' → models ids ≡ₚ models ids'.
Proof. unfold models. intros Hp. by rewrite Hp. Qed.

Lemma objects_models Q : objects Q = models (map documentID (documents Q)).
Proof. unfold objects, models. induction (documents Q) as [|d ds IH]; [done|]. cbn. by rewrite IH. Qed.

(** A query of controller [c] finds the documents with the identifiers [ids]: [found] are the
    identifiers of its rows, and what they are made into are the models of the documents when all of them
    are loaded. *)
Definition finds (c : cid) (ids found : list string) : Prop :=
  found ≡ₚ ids ∧
  (all_loaded ids → ∃ objs, MOC_managedObjectsForQueryEnumerator setDocument c found configured = (Ok objs, configured) ∧
                            objs ≡ₚ models ids).

(** What the blocks emit for a good document *)
Lemma block_when_managed cls m d (r : res (list (option value * option value))) (P : bool) k x :
  cls ≠ MPManagedObjectsController_class → MOC_managedObjectClass env_rt cls = Ok m →
  r = Ok (if P then [(Some k, x)] else []) →
  (manages ← managesDocumentWithDictionary env_rt cls d; if negb manages then Ok [] else r) =
  Ok (if is_managed env_rt m d && P then [(Some k, x)] else []).
Proof. intros Hne Hm ->. rewrite (manages_spec _ _ _ _ Hwf Hne Hm). cbn. by destruct (is_managed _ _ _). Qed.

Lemma title_block cls m d : cls ≠ MPManagedObjectsController_class → MOC_managedObjectClass env_rt cls = Ok m →
  objectsByTitleBlock env_rt cls d =
  Ok (if is_managed env_rt m d && bool_decide (is_Some (assoc "title" d)) then [(Some (default NSNull (assoc "title" d)), None)] else []).
Proof. intros Hne Hm. apply block_when_managed; [done..|]. by destruct (assoc "title" d). Qed.

(** The blocks that emit the identifier of a document with a flag *)
Lemma flag_block cls m key d : cls ≠ MPManagedObjectsController_class → MOC_managedObjectClass env_rt cls = Ok m →
  (∃ i, assoc "_id" d = Some (NSString i)) → is_ok (propertyBoolValue (assoc key d)) = true →
  (manages ← managesDocumentWithDictionary env_rt cls d;
   if negb manages then Ok [] else
     b ← propertyBoolValue (assoc key d); if negb b then Ok [] else Ok [(assoc "_id" d, None)]) =
  Ok (if is_managed env_rt m d && flag key d then [(Some (default NSNull (assoc "_id" d)), None)] else [] : list (option value * option value)).
Proof.
  intros Hne Hm [i Hi] Hok. apply block_when_managed; [done..|]. unfold flag. rewrite Hi.
  destruct (propertyBoolValue (assoc key d)) as [[]|]; done.
Qed.

Lemma title_answers t d :
  bool_decide (is_Some (assoc "title" d)) && key_answers (Some [NSString t]) (Some (default NSNull (assoc "title" d))) = has "title" t d.
Proof. rewrite key_answers_one. unfold has. destruct (assoc "title" d) as [v|]; [|done]. by destruct v. Qed.

Lemma prototype_answers p d : key_answers (Some [NSString p]) (Some (default NSNull (assoc "prototype" d))) = has "prototype" p d.
Proof. rewrite key_answers_one. unfold has. destruct (assoc "prototype" d) as [v|]; [|done]. by destruct v. Qed.

Lemma rows_found c cls m view keys ids : controls w db c cls m →
  map row_documentID (query_run (w_cbl configured) db view keys) ≡ₚ ids →
  finds c ids (map row_documentID (query_run (w_cbl configured) db view keys)).
Proof.
  intros (_ & _ & k & Hk & Hdb & _) Hp. split; [exact Hp|]. intros Hall.
  exists (models (map row_documentID (query_run (w_cbl configured) db view keys))). split; [|by apply models_perm].
  rewrite <- models_configured.
  apply (run_objectsOfRows setDocument configured c k db); [exact Hk|exact Hdb|]. by eapply loaded_ids.
Qed.

Lemma run_matching c cls m view keys ids : controls w db c cls m →
  view_exists (w_cbl configured) db view = true ∧
  map row_documentID (query_run (w_cbl configured) db view keys) ≡ₚ ids →
  ∃ found, finds c ids found ∧
    MOC_objectsMatchingQueriedView setDocument c view keys configured =
      (objs ← MOC_managedObjectsForQueryEnumerator setDocument c found; mret (Some objs)) configured.
Proof.
  intros Hc [He Hp]. eexists. split; [by eapply rows_found|]. destruct Hc as (_ & _ & k & Hk & Hdb & _).
  unfold MOC_objectsMatchingQueriedView, cbl_gets.
  rewrite run_bind, (run_getMOC configured c k Hk), Hdb, run_bind, run_gets, He, run_bind.
  by rewrite (run_queryRows configured c k db _ _ Hk Hdb).
Qed.

(** The same for the rows of a view that is there *)
Lemma run_rows c cls m view keys ids : controls w db c cls m →
  map row_documentID (query_run (w_cbl configured) db view keys) ≡ₚ ids →
  ∃ rows, MOC_queryRows c view keys configured = (Ok rows, configured) ∧ finds c ids (map row_documentID rows).
Proof.
  intros Hc Hp. eexists. split; [|by eapply rows_found]. destruct Hc as (_ & _ & k & Hk & Hdb & _).
  by apply (run_queryRows configured c k db).
Qed.
End finds.

(** C10 (functional). Every controller finds its own: when the controllers of a database, each of a subclass with a model
    class, have set up their views, one after the other and in any order, the rows each finds with a title are exactly
    those of the documents with this title whose type names a class below its model
    class; the rows of its user contributions are exactly those of the documents below its model class that
    are marked so, and so are those of its bundled documents, unless a controller of another class among them
    bundles documents under the same name, which it does when the model classes differ in their prefix only;
    and the prototype it asks for finds the documents made
    from it, of whatever class, because this view is shared.  What the queries answer is
    what these rows are made into, and that is the models of the documents when all of them have
    their models loaded.  Documents have identifiers, and their flags are missing, numbers or texts -
    others raise in the block; and a view that has an index of its
    version already has what its block makes of the documents there are. *)
Theorem views_find_objects {S} `{!CBL S} `{!CBLViews S} `{!CBLViewsLaws S} `{!Env} `{!CBLModelFactory S}
    (setDocument : S → oid → string → S) (w : World S) db cs :
  runtime_wf env_rt = true → (∀ c cls m, (c, cls, m) ∈ cs → controls w db c cls m) →
  let views := flat_map (λ x, base_setup x.1.2) cs in
  (∀ n block v, View n block v ∈ views → up_to_date db (w_cbl w) n block v) →
  Forall good_document (db_documents (w_cbl w) db) →
  let w' := configured w db views in
  for_each cs (λ x, MOC_configureViews x.1.1) w = (Ok tt, w') ∧
  ∀ c cls m, (c, cls, m) ∈ cs →
    let managed := is_managed env_rt m in
    let finds Q := finds w db views setDocument c (map documentID (documents w db Q)) in
    let made found := MOC_managedObjectsForQueryEnumerator setDocument c found in
    (∀ t, ∃ found, finds (λ d, managed d && has "title" t d) found ∧
      MOC_objectsWithTitle setDocument c (Some t) w' = made found w') ∧
    (∃ found, finds (λ d, managed d && flag "userContributed" d) found ∧
      MOC_userContributedObjects setDocument c w' = (objs ← made found; mret (Some objs)) w') ∧
    (no_rivals cs cls m → ∃ rows, MOC_bundledJSONDataQuery c true w' = (Ok (Some rows), w') ∧
      finds (λ d, managed d && flag "bundled" d) (map row_documentID rows)) ∧
    (∀ p, ∃ found, finds (has "prototype" p) found ∧
      MOC_objectsWithPrototypeID setDocument c (Some p) w' = (objs ← made found; mret (Some objs)) w').
Proof.
  intros Hwf Hcs l Hnew Hdocs w'. split; [by apply run_configureAll|]. rewrite Forall_forall in Hdocs.
  intros c cls m Hin managed fnds made. pose proof (Hcs _ _ _ Hin) as Hc. destruct (Hc) as (Hne & Hm & k & Hk & _ & Hcls).
  pose proof (managedObjectClassName_Ok _ _ _ Hm) as Hname.
  assert (∀ n b v, View n b v ∈ base_setup cls → (n = bundledName cls → no_rivals cs cls m) →
    View n b v ∈ l ∧ ∀ b' v', View n b' v' ∈ l → b' = b ∧ v' = v) as Hviews.
  { intros n b v Hn Hr. split; [apply list_elem_of_In, in_flat_map; exists (c, cls, m); split; by apply list_elem_of_In|].
    intros b' v'. apply (views_unique cs (c, cls, m)); auto. intros [[c' cls'] m'] Hin'. by destruct (Hcs _ _ _ Hin') as (_ & ? & _). }
  subst w'. pose proof (run_getMOC (configured w db l) c k Hk) as Hget. split_and!.
  - intros t. destruct (Hviews (objectsByTitleViewName env_rt cls) (objectsByTitleBlock env_rt cls) "1.0"%string) as [Hv Hu];
      [by right; right; left|intros E; exfalso; revert E; eapply not_bundled; [by unfold objectsByTitleViewName; rewrite lastChar_app|done..]|].
    destruct (view_ids w db l Hnew _ _ _ (λ d, managed d && bool_decide (is_Some (assoc "title" d)))
      (λ d, default NSNull (assoc "title" d)) (λ _, None) (λ d, managed d && has "title" t d) (Some [NSString t]) Hv Hu) as [_ Hp];
      [eauto|intros d _; by apply title_block|intros d; by rewrite <- andb_assoc, title_answers|].
    destruct (run_rows w db l setDocument _ _ _ _ _ _ Hc Hp) as (rows & Hrows & Hf). exists (map row_documentID rows).
    split; [done|]. unfold MOC_objectsWithTitle. by rewrite run_bind, Hget, Hcls, run_bind, Hrows.
  - destruct (Hviews (userContributedObjectsViewName cls) (userContributedObjectsBlock env_rt cls) "1.3"%string) as [Hv Hu];
      [by right; left|intros E; exfalso; revert E; eapply not_bundled; [by unfold userContributedObjectsViewName; rewrite lastChar_app|done..]|].
    unfold MOC_userContributedObjects. rewrite run_bind, Hget, Hcls.
    apply (run_matching w db l _ _ _ _ _ _ _ Hc).
    apply (view_ids w db l Hnew _ _ _ (λ d, managed d && flag "userContributed" d) (λ d, default NSNull (assoc "_id" d)) (λ _, None) _ _ Hv Hu);
      [by left| |intros d; apply andb_true_r].
    intros d (Hi & _ & Hu')%Hdocs. by apply flag_block.
  - intros Hr. destruct (Hviews (bundledName cls) (bundledJSONDataBlock env_rt cls) "1.1"%string) as [Hv Hu]; [by do 4 right; left|done|].
    destruct (view_ids w db l Hnew _ _ _ (λ d, managed d && flag "bundled" d) (λ d, default NSNull (assoc "_id" d)) (λ _, None)
      (λ d, managed d && flag "bundled" d) None Hv Hu) as [_ Hp];
      [by left|intros d (Hi & Hb & _)%Hdocs; by apply flag_block|intros d; apply andb_true_r|].
    destruct (run_rows w db l setDocument _ _ _ _ _ _ Hc Hp) as (rows & Hrows & Hf). exists rows. split; [|done].
    unfold MOC_bundledJSONDataQuery, bundledJSONDataViewName. cbn [negb].
    rewrite run_bind, Hget, Hcls, run_bind, Hm. cbn [mbind res_bind lift].
    rewrite run_bind. unfold bundledName in Hrows. rewrite Hname in Hrows. by rewrite Hrows.
  - intros p. destruct (Hviews "objectsByPrototypeID"%string objectsByPrototypeIDBlock "1.0"%string) as [Hv Hu];
      [by left|intros E; exfalso; revert E; by eapply not_bundled|].
    unfold MOC_objectsWithPrototypeID. rewrite run_bind. cbn [keyOf]. rewrite run_ret.
    apply (run_matching w db l _ _ _ _ _ _ _ Hc).
    apply (view_ids w db l Hnew _ _ _ (λ _, true) (λ d, default NSNull (assoc "prototype" d)) (λ _, None) _ _ Hv Hu);
      [eauto|intros d _; unfold objectsByPrototypeIDBlock; by destruct (assoc "prototype" d)|intros d; apply prototype_answers].
Qed.

(** ** Contributors *)
Section contributors.
Context {S : Type} `{!CBL S} `{!CBLViews S} `{!CBLViewsLaws S} `{!Env} `{!CBLModelFactory S}.
Local Open Scope string_scope.

(** A document without a role has that of an author. *)
Definition in_role (r : string) (d : document) : bool :=
  match assoc "role" d with
  | None => String.eqb MPContributorRoleAuthor r
  | Some (NSString x) => String.eqb x r
  | Some _ => false
  end.
Definition named (name : string) (d : document) : bool := sameName (stringOf (assoc "fullName" d)) (Some name).
(** How often a document lists an identifier of the address book *)
Definition listings (i : string) (d : document) : nat :=
  match assoc "addressBookIDs" d with Some (NSArray l) => length (List.filter (λ v, isEqual v (NSString i)) l) | _ => 0 end.

(** The identifier, the name and the role of a contributor are texts, the identifiers of the
    address book an array. *)
Record good_contributor (d : document) : Prop := {
  gc_id : ∃ i, assoc "_id" d = Some (NSString i);
  gc_role : assoc "role" d = None ∨ ∃ r, assoc "role" d = Some (NSString r);
  gc_fullName : assoc "fullName" d = None ∨ ∃ n, assoc "fullName" d = Some (NSString n);
  gc_addressBookIDs : assoc "addressBookIDs" d = None ∨ ∃ l, assoc "addressBookIDs" d = Some (NSArray l)
}.

Definition contributors_setup : list setup :=
  base_setup "MPContributorsController" ++ [
  View "all-MPContributors" (allObjectsBlock env_rt "MPContributorsController") "1.1";
  View "contributorsByRole" (contributorsByRoleBlock env_rt "MPContributorsController") "1.1";
  View "contributorsByAddressBookID" (contributorsByAddressBookIDBlock env_rt "MPContributorsController") "1.0";
  View "contributorsByFullName" (contributorsByFullNameBlock env_rt "MPContributorsController") "1.2"].

Lemma run_CC_configureViews (w : World S) db c : controls w db c "MPContributorsController" "MPContributor" →
  CC_configureViews c w = (Ok tt, configured w db contributors_setup).
Proof.
  intros Hc. pose proof Hc as (_ & Hm & k & Hk & Hdb & Hcls). unfold CC_configureViews.
  rewrite run_bind, (run_configureViews _ _ _ _ _ Hc), run_bind. rewrite (run_getMOC (set_cbl _ w) c k Hk), Hcls.
  unfold allObjectsViewName. rewrite (managedObjectClassName_Ok _ _ _ Hm).
  do 3 (erewrite run_bind_ok; [|by eapply run_setMapBlock]).
  erewrite run_setMapBlock by done. unfold configured, contributors_setup, configure. by rewrite foldl_app.
Qed.

Definition viewNames (l : list setup) : list string :=
  flat_map (λ x, match x with View n _ _ => [n] | Filter _ _ => [] end) l.

Lemma views_distinct l n b v b' v' : NoDup (viewNames l) → View n b v ∈ l → View n b' v' ∈ l → b' = b ∧ v' = v.
Proof.
  assert (∀ l n b v, View n b v ∈ l → n ∈ viewNames l) as Hname.
  { intros k m b0 v0 Hin. apply list_elem_of_In, in_flat_map. exists (View m b0 v0). split; [by apply list_elem_of_In|by left]. }
  induction l as [|[n0 b0 v0|n0 f0] l IH]; [by intros _ ?%elem_of_nil| |].
  - intros [Hn Hnd]%NoDup_cons [E1|H1]%elem_of_cons [E2|H2]%elem_of_cons; simplify_eq; [done|..|by apply IH];
      exfalso; eapply Hn, Hname; eassumption.
  - intros Hnd [?|H1]%elem_of_cons [?|H2]%elem_of_cons; try done. by apply IH.
Qed.

Lemma contributors_views_distinct : MOC_managedObjectClassName env_rt "MPContributorsController" = "MPContributor" →
  NoDup (viewNames contributors_setup).
Proof.
  intros Hname. unfold contributors_setup, base_setup, bundledName, objectsByTitleViewName. rewrite Hname.
  apply (bool_decide_unpack _). by vm_compute.
Qed.

Context (w : World S) (db : string) (c : cid).
Context (Hwf : runtime_wf env_rt = true).
Context (Hc : controls w db c "MPContributorsController" "MPContributor").
Context (Hnew : ∀ n block v, View n block v ∈ contributors_setup → up_to_date db (w_cbl w) n block v).
Notation cls := "MPContributorsController".
Notation managed := (is_managed env_rt "MPContributor").
Context (Hdocs : Forall (λ d, managed d = true → good_contributor d) (db_documents (w_cbl w) db)).
Context (setDocument : S → oid → string → S).
Notation w' := (configured w db contributors_setup).
Notation ids Q := (map documentID (documents w db Q)).

Lemma contributors_manages d : managesDocumentWithDictionary env_rt cls d = Ok (managed d).
Proof. destruct Hc as (Hne & Hm & _). by apply manages_spec. Qed.

Lemma contributors_unique n b v : View n b v ∈ contributors_setup →
  ∀ b' v', View n b' v' ∈ contributors_setup → b' = b ∧ v' = v.
Proof.
  intros Hin b' v'. destruct Hc as (_ & Hm & _). apply views_distinct; [|done].
  by apply contributors_views_distinct, managedObjectClassName_Ok.
Qed.

(** The rows of the contributors' own views *)
Lemma contributors_ids n block v (P : document → bool) k y (Q : document → bool) keys :
  View n block v ∈ contributors_setup → (keys = None ∨ ∃ k, keys = Some [k]) →
  (∀ d, managed d = false → block d = Ok []) →
  (∀ d, managed d = true → good_contributor d → block d = Ok (if P d then [(Some (k d), y d)] else [])) →
  (∀ d, P d && key_answers keys (Some (k d)) = Q d) →
  view_exists (w_cbl w') db n = true ∧
  map row_documentID (query_run (w_cbl w') db n keys) ≡ₚ ids (λ d, managed d && Q d).
Proof.
  intros Hin Hkeys Hno Hb HQ. apply (view_ids w db _ Hnew n block v (λ d, managed d && P d) k y); try done.
  - by apply contributors_unique.
  - intros d Hd. rewrite Forall_forall in Hdocs. destruct (managed d) eqn:Em; [by apply Hb; auto|by apply Hno].
  - intros d. by rewrite <- andb_assoc, HQ.
Qed.

Lemma all_ids : view_exists (w_cbl w') db "all-MPContributors" = true ∧
  map row_documentID (query_run (w_cbl w') db "all-MPContributors" None) ≡ₚ ids (λ d, managed d && true).
Proof.
  apply (contributors_ids _ (allObjectsBlock env_rt cls) "1.1" (λ _, true) (λ d, default NSNull (assoc "_id" d)) (λ d, Some (NSDictionary d)));
    [by do 5 right; left|by left| | |done].
  - intros d Hm. unfold allObjectsBlock. by rewrite contributors_manages, Hm.
  - intros d Hm Hd. destruct (gc_id _ Hd) as [i Hi]. unfold allObjectsBlock. by rewrite contributors_manages, Hi, Hm.
Qed.

Lemma role_ids r : view_exists (w_cbl w') db "contributorsByRole" = true ∧
  map row_documentID (query_run (w_cbl w') db "contributorsByRole" (Some [NSString r])) ≡ₚ ids (λ d, managed d && in_role r d).
Proof.
  apply (contributors_ids _ (contributorsByRoleBlock env_rt cls) "1.1" (λ _, true)
    (λ d, default (NSString MPContributorRoleAuthor) (assoc "role" d)) (λ _, None)); [by do 6 right; left|eauto|..].
  - intros d Hm. unfold contributorsByRoleBlock. by rewrite contributors_manages, Hm.
  - intros d Hm Hd. unfold contributorsByRoleBlock. rewrite contributors_manages, Hm.
    destruct (gc_role _ Hd) as [-> | [x ->]]; cbn; [done|]. by destruct (String.eqb_spec x MPContributorRoleAuthor) as [->|].
  - intros d. rewrite key_answers_one. unfold in_role. by destruct (assoc "role" d).
Qed.

Lemma name_ids n : view_exists (w_cbl w') db "contributorsByFullName" = true ∧
  map row_documentID (query_run (w_cbl w') db "contributorsByFullName" (Some [NSString (lowercaseString n)])) ≡ₚ
  ids (λ d, managed d && named n d).
Proof.
  apply (contributors_ids _ (contributorsByFullNameBlock env_rt cls) "1.2" (λ d, bool_decide (is_Some (assoc "fullName" d)) && bool_decide (is_Some (stringOf (assoc "fullName" d))))
    (λ d, NSString (lowercaseString (default "" (stringOf (assoc "fullName" d))))) (λ _, None)); [by do 8 right; left|eauto|..].
  - intros d Hm. unfold contributorsByFullNameBlock. by rewrite contributors_manages, Hm.
  - intros d Hm Hd. unfold contributorsByFullNameBlock. rewrite contributors_manages, Hm.
    by destruct (gc_fullName _ Hd) as [-> | [x ->]].
  - intros d. rewrite key_answers_one. unfold named. by destruct (assoc "fullName" d) as [[]|].
Qed.

#[local] Arguments key_answers : simpl never.
#[local] Arguments isEqual : simpl never.

Definition addressRows (d : document) : list (option value * option value) :=
  if managed d then match assoc "addressBookIDs" d with Some (NSArray l) => map (λ x, (Some x, None)) l | _ => [] end else [].

Lemma addressBook_block d : (managed d = true → good_contributor d) →
  contributorsByAddressBookIDBlock env_rt cls d = Ok (addressRows d).
Proof.
  intros Hd. unfold contributorsByAddressBookIDBlock, addressRows. rewrite contributors_manages.
  destruct (managed d); [|done]. by destruct (gc_addressBookIDs _ (Hd eq_refl)) as [-> | (l & ->)].
Qed.

(** The documents that list an identifier of the address book, as often as they do *)
Definition listed (i : string) : list string :=
  flat_map (λ d, replicate (listings i d) (documentID d)) (documents w db managed).

Lemma addressRows_listed i ds :
  flat_map (λ d, map (λ _, documentID d) (List.filter (λ e, key_answers (Some [NSString i]) e.1) (addressRows d))) ds =
  flat_map (λ d, replicate (listings i d) (documentID d)) (List.filter managed ds).
Proof.
  induction ds as [|d ds IH]; [done|]. cbn [flat_map List.filter]. rewrite IH. unfold addressRows, listings.
  destruct (managed d); [|done]. cbn [flat_map]. f_equal.
  destruct (assoc "addressBookIDs" d) as [[]|]; try done. clear. induction l as [|x l IHl]; [done|].
  cbn [map List.filter fst]. rewrite key_answers_one, (isEqual_string x).
  destruct x; try done. destruct (String.eqb _ _); [|done]. cbn. by rewrite IHl.
Qed.

Lemma address_ids i : view_exists (w_cbl w') db "contributorsByAddressBookID" = true ∧
  map row_documentID (query_run (w_cbl w') db "contributorsByAddressBookID" (Some [NSString i])) ≡ₚ listed i.
Proof.
  assert (View "contributorsByAddressBookID" (contributorsByAddressBookIDBlock env_rt cls) "1.0" ∈ contributors_setup) as Hin by by do 7 right; left.
  split; [by eapply configured_exists|]. cbn [configured w_cbl set_cbl]. rewrite Forall_forall in Hdocs.
  rewrite (configured_query db _ (w_cbl w) _ _ _ _ Hin (contributors_unique _ _ _ Hin)); [|by apply Hnew| |by eauto].
  - erewrite index_ids; [|intros d Hd; by apply addressBook_block, Hdocs]. by rewrite addressRows_listed.
  - apply Forall_forall. intros d Hin'. pose proof (Hdocs _ Hin') as Hd. eexists. split; [by apply addressBook_block|]. unfold addressRows.
    destruct (managed d); [|done]. destruct (gc_addressBookIDs _ (Hd eq_refl)) as [-> | (l & ->)]; [done|].
    apply Forall_forall. intros e (x & -> & _)%list_elem_of_fmap. done.
Qed.

Lemma filter_objects f (P Q : document → bool) :
  (∀ d o, d ∈ db_documents (w_cbl w) db → P d = true → doc_modelObject (w_cbl w) db (documentID d) = Some o → f o = Q d) →
  List.filter f (objects w db P) = objects w db (λ d, P d && Q d).
Proof.
  unfold objects, documents. clear Hdocs. induction (db_documents (w_cbl w) db) as [|d ds IH]; intros Hf; [done|]. cbn [List.filter].
  assert (∀ d' o, d' ∈ ds → P d' = true → doc_modelObject (w_cbl w) db (documentID d') = Some o → f o = Q d') as Hf'
    by (intros d' o ?; apply Hf; by right). specialize (IH Hf').
  destruct (P d) eqn:EP; cbn [andb]; [|exact IH]. cbn. destruct (doc_modelObject (w_cbl w) db (documentID d)) as [o|] eqn:Eo; cbn.
  - rewrite (Hf d o (list_elem_of_here _ _) EP Eo). destruct (Q d); cbn; by rewrite ?Eo, IH.
  - destruct (Q d); cbn; by rewrite ?Eo, IH.
Qed.

Lemma filter_perm {A} (f : A → bool) l k : l ≡ₚ k → List.filter f l ≡ₚ List.filter f k.
Proof.
  induction 1 as [|x l k _ IH|x y l|l k m _ IH1 _ IH2]; cbn; [done|..|by etransitivity].
  - destruct (f x); by rewrite IH.
  - destruct (f x), (f y); by try apply perm_swap.
Qed.

Lemma objects_ext (P Q : document → bool) : (∀ d, P d = Q d) → objects w db P = objects w db Q.
Proof. intros HPQ. unfold objects, documents. by rewrite (filter_ext P Q). Qed.

Lemma run_allContributors : ∃ found, finds w db contributors_setup setDocument c (ids managed) found ∧
  MOC_allObjects_error setDocument c w' = MOC_managedObjectsForQueryEnumerator setDocument c found w'.
Proof.
  destruct (Hc) as (_ & Hm & k & Hk & Hdb & Hcls). destruct all_ids as [_ Hp].
  destruct (run_rows w db contributors_setup setDocument _ _ _ _ _ _ Hc Hp) as (rows & Hrows & Hf).
  exists (map row_documentID rows). split.
  - unfold documents in *. by rewrite (filter_ext managed (λ d, managed d && true)) by (intros d; by rewrite andb_true_r).
  - unfold MOC_allObjects_error, MOC_allObjectsQuery, allObjectsViewName.
    rewrite run_bind, run_bind, (run_getMOC w' c k Hk), Hcls, (managedObjectClassName_Ok _ _ _ Hm).
    change ("all-" ++ "MPContributor" ++ "s") with "all-MPContributors". by rewrite Hrows.
Qed.

(** Looking through all of them, when their models have the names of their documents *)
Lemma run_named n : all_loaded w db (ids managed) →
  (∀ d o, d ∈ documents w db managed → doc_modelObject (w_cbl w) db (documentID d) = Some o →
    model_get (w_cbl w) o "fullName" = assoc "fullName" d) →
  ∃ objs, CC_contributorsWithFullName setDocument c (Some n) w' = (Ok objs, w') ∧
          objs ≡ₚ models w db (ids (λ d, managed d && named n d)).
Proof.
  intros Hall Hnames. destruct run_allContributors as (found & [_ Hf] & Hrun). destruct (Hf Hall) as (objs & Hobjs & Hp).
  eexists. split; [unfold CC_contributorsWithFullName, cbl_gets; by rewrite run_bind, Hrun, Hobjs|].
  rewrite (filter_perm _ _ _ Hp), <- !objects_models. cbn [configured w_cbl set_cbl].
  erewrite (filter_objects _ _ (named n)); [done|]. intros d o Hd Hm Ho. unfold named. rewrite configure_get.
  rewrite (Hnames d o); [done| |done]. by apply filter_bool_elem.
Qed.
End contributors.

(** C26 (equivalence). The contributors a controller finds are those of the documents, by
    whatever way it looks: the rows of all of them are those of the documents of contributors; those in a role
    are those that have it, and the ones without a role when it is that of authors, and what they are made
    into is answered in the order of the comparator; the rows of a full name are those of the documents
    that have it but for its case, and looking through the models of all contributors finds the same
    objects, when all of them are loaded and have the names of their documents; and the rows of
    an identifier of the address book are those of the documents that list it, once for every time it is
    listed: the controller answers the first, and raises when there are more, be they of several contributors or of one.
    What rows are made into is the models of the documents when all these have their models loaded.
    The identifiers, roles and full names of contributors are texts and their identifiers of the address
    book an array, the role, the name and the identifiers of the address book may be missing; and a view that has an
    index of its version already has what its block makes of the documents there are. *)
Theorem contributors_found {S} `{!CBL S} `{!CBLViews S} `{!CBLViewsLaws S} `{!Env} `{!CBLModelFactory S}
    (setDocument : S → oid → string → S) (w : World S) db c :
  let managed := is_managed env_rt "MPContributor" in
  runtime_wf env_rt = true → controls w db c "MPContributorsController" "MPContributor" →
  (∀ n block v, View n block v ∈ contributors_setup → up_to_date db (w_cbl w) n block v) →
  Forall (λ d, managed d = true → good_contributor d) (db_documents (w_cbl w) db) →
  let w' := configured w db contributors_setup in
  let ids Q := map documentID (documents w db Q) in
  let finds := finds w db contributors_setup setDocument c in
  let made found := MOC_managedObjectsForQueryEnumerator setDocument c found in
  CC_configureViews c w = (Ok tt, w') ∧
  (∃ found, finds (ids managed) found ∧ MOC_allObjects_error setDocument c w' = made found w') ∧
  (∀ r sorted, ∃ found, finds (ids (λ d, managed d && in_role r d)) found ∧
    CC_contributorsInRole setDocument (Some sorted) c (Some r) w' =
      (objs ← made found; s ← gets w_cbl; mret (Some (sorted s objs))) w') ∧
  (∀ n, let named := ids (λ d, managed d && named n d) in
    (∃ rows, MOC_queryRows c "contributorsByFullName" (Some [NSString (lowercaseString n)]) w' = (Ok rows, w') ∧
      finds named (map row_documentID rows)) ∧
    (all_loaded w db (ids managed) →
     (∀ d o, d ∈ documents w db managed → doc_modelObject (w_cbl w) db (documentID d) = Some o →
        model_get (w_cbl w) o "fullName" = assoc "fullName" d) →
     ∃ objs, CC_contributorsWithFullName setDocument c (Some n) w' = (Ok objs, w') ∧ objs ≡ₚ models w db named)) ∧
  (∀ i, ∃ found, finds (flat_map (λ d, replicate (listings i d) (documentID d)) (documents w db managed)) found ∧
    CC_contributorWithAddressBookID setDocument c (Some i) w' =
      (objs ← made found;
       if (length objs <? 2)%nat then mret (head objs)
       else throw (AssertionFailed "A maximum of one contributor should have been retrieved")) w').
Proof.
  intros managed Hwf Hc Hnew Hdocs w' ids fnds made. split; [by apply run_CC_configureViews|].
  split; [by apply run_allContributors|]. split_and!.
  - intros r sorted. destruct (run_matching w db contributors_setup setDocument c _ _ "contributorsByRole" (Some [NSString r]) _ Hc
      (role_ids w db c Hwf Hc Hnew Hdocs r)) as (found & Hf & Hrun).
    exists found. split; [done|]. unfold CC_contributorsInRole. rewrite run_bind. cbn [keyOf]. rewrite run_ret, run_bind.
    subst w'. rewrite Hrun, !run_bind. subst made. cbv beta. by destruct (MOC_managedObjectsForQueryEnumerator _ _ _ _) as [[] ?].
  - intros n named. split; [|by apply run_named]. destruct (name_ids w db c Hwf Hc Hnew Hdocs n) as [_ Hp].
    by destruct (run_rows w db contributors_setup setDocument _ _ _ _ _ _ Hc Hp) as (rows & Hrows & Hf); exists rows.
  - intros i. destruct (run_matching w db contributors_setup setDocument c _ _ "contributorsByAddressBookID" (Some [NSString i]) _ Hc
      (address_ids w db c Hwf Hc Hnew Hdocs i)) as (found & Hf & Hrun).
    exists found. split; [done|]. unfold CC_contributorWithAddressBookID. subst w'. rewrite run_bind, Hrun, !run_bind.
    subst made. cbv beta. destruct (MOC_managedObjectsForQueryEnumerator _ _ _ _) as [[objs|e] w2]; [|done].
    rewrite run_ret, run_bind, run_NSAssert. change (default [] (Some objs)) with objs. destruct (Nat.ltb_spec (length objs) 2).
    + by rewrite bool_decide_eq_true_2 by done.
    + by rewrite bool_decide_eq_false_2 by lia.
Qed.

(** The filter of a controller passes the revisions of its objects, and the deletions of
    what its identifiers say was one of them; a revision that is neither and has no
    identifier of a model class raises, and so does one without a type that was not
    deleted. *)
Theorem filter_passes `{!Env} cls m (r : CBLRevision) :
  runtime_wf env_rt = true → cls ≠ MPManagedObjectsController_class → MOC_managedObjectClass env_rt cls = Ok m →
  let deleted := bool_decide (is_Some (assoc "_deleted" (rev_properties r))) || rev_isDeletion r in
  managedObjectsFilterBlock cls r =
    if is_managed env_rt m (rev_properties r) then Ok true
    else match managedObjectClassFromDocumentID (stringOf (assoc "_id" (rev_properties r))) with
         | Ok t => let named := isSubclassOfClass env_rt t m && (String.eqb t m || negb (hasPrefix t "NSKVONotifying")) in
                   if negb named || deleted then Ok named else Throw (AssertionFailed "Expecting revision to be a deletion")
         | Throw e => Throw e
         end.
Proof.
  intros Hwf Hne Hm deleted. unfold managedObjectsFilterBlock. rewrite (manages_spec _ _ _ _ Hwf Hne Hm). cbn [mbind res_bind].
  destruct (is_managed env_rt m (rev_properties r)); [done|]. unfold managesDocumentWithIdentifier.
  destruct (managedObjectClassFromDocumentID _) as [t|e]; [|done]. cbn [mbind res_bind].
  unfold managesObjectsOfClass, managedObjectSubclasses. destruct (String.eqb_spec cls MPManagedObjectsController_class); [done|].
  rewrite Hm. cbn [mbind res_bind mret res_ret]. rewrite descends_bool by done. fold deleted.
  destruct (_ && _); [|done]. cbn [negb orb]. by destruct deleted.
Qed.

(** ** An instance

    The store of Reference.v with documents beside its models, and the indexes of its
    views by database and name. *)
Module ReferenceViews.
Import Reference.

Record viewStore : Type := mkViewStore {
  vs_store : store;
  vs_documents : string → list document;
  vs_indexes : gmap (string * string) (string * list CBLQueryRow);
  vs_filters : gmap (string * string) CBLFilterBlock
}.
Definition on_store (f : store → store) (s : viewStore) : viewStore :=
  mkViewStore (f (vs_store s)) (vs_documents s) (vs_indexes s) (vs_filters s).
Definition on_saved (f : store → outcome * store) (s : viewStore) : outcome * viewStore :=
  let '(r, s') := f (vs_store s) in (r, on_store (λ _, s') s).

#[export] Instance viewStore_CBL : CBL viewStore := {
  model_document s := model_document (vs_store s);
  model_docIsDeleted s := model_docIsDeleted (vs_store s);
  model_revision s := model_revision (vs_store s);
  model_needsSave s := model_needsSave (vs_store s);
  model_hasChanges s := model_hasChanges (vs_store s);
  model_get s := model_get (vs_store s);
  model_getUnsaved s := model_getUnsaved (vs_store s);
  doc_propertyForKey s := doc_propertyForKey (vs_store s);
  model_set s o p v := on_store (λ s, model_set s o p v) s;
  model_cacheValue s o p v b := on_store (λ s, model_cacheValue s o p v b) s;
  model_markNeedsSave s o := on_store (λ s, model_markNeedsSave s o) s;
  model_markPropertyNeedsSave s o p := on_store (λ s, model_markPropertyNeedsSave s o p) s;
  model_propertiesToSave s := model_propertiesToSave (vs_store s);
  model_init s o db d := on_store (λ s, model_init s o db d) s;
  model_save s o := on_saved (λ s, model_save s o) s;
  model_saveAll s os := on_saved (λ s, model_saveAll s os) s;
  model_delete s o := on_saved (λ s, model_delete s o) s;
  model_hasModelObject s := model_hasModelObject (vs_store s);
  model_setModelObject s o := on_store (λ s, model_setModelObject s o) s;
  doc_existing s := doc_existing (vs_store s);
  doc_modelObject s := doc_modelObject (vs_store s);
  doc_isDeleted s := doc_isDeleted (vs_store s);
  doc_property s := doc_property (vs_store s);
  doc_currentRevision s := doc_currentRevision (vs_store s)
}.

#[export] Instance viewStore_views : CBLViews viewStore := {
  db_documents := vs_documents;
  view_exists s db n := bool_decide (is_Some (vs_indexes s !! (db, n)));
  view_version s db n := fst <$> vs_indexes s !! (db, n);
  view_setMapBlock s db n block v :=
    if bool_decide (fst <$> vs_indexes s !! (db, n) = Some v) then s
    else mkViewStore (vs_store s) (vs_documents s)
           (<[(db, n) := (v, index block (vs_documents s db))]> (vs_indexes s)) (vs_filters s);
  query_run s db n keys := List.filter (answers keys) (default [] (snd <$> vs_indexes s !! (db, n)));
  db_filter s db n := vs_filters s !! (db, n);
  db_setFilter s db n f :=
    mkViewStore (vs_store s) (vs_documents s) (vs_indexes s) (<[(db, n) := f]> (vs_filters s))
}.

Lemma viewStore_exists (s : viewStore) db n block v n' :
  view_exists (view_setMapBlock s db n block v) db n' = String.eqb n' n || view_exists s db n'.
Proof.
  cbn -[index]. destruct (bool_decide_reflect (fst <$> vs_indexes s !! (db, n) = Some v)) as [E|E]; cbn -[index]; destruct (String.eqb_spec n' n) as [->|Hne]; cbn [orb]; try done.
  - apply bool_decide_eq_true. destruct (vs_indexes s !! (db, n)); [done|discriminate].
  - apply bool_decide_eq_true. by rewrite lookup_insert_eq.
  - by rewrite lookup_insert_ne by congruence.
Qed.

#[export] Instance viewStore_laws : CBLViewsLaws viewStore.
Proof.
  split; try apply viewStore_exists; intros; cbn -[index] in *; repeat case_bool_decide; try done; cbn -[index];
    try destruct (String.eqb_spec n' n) as [->|]; simplify_map_eq; try done; try congruence;
    try (rewrite lookup_insert_ne by congruence; done); try (rewrite lookup_insert_eq; done).
Qed.

#[export] Instance viewFactory : CBLModelFactory viewStore := λ _ _ _, mret None.

Local Open Scope string_scope.

(** A section with a title that is bundled, a paragraph and a note with the same title, the
    note made from the section. *)
Definition paragraph : oid := 5%positive.
Definition manuscript : list document := [
  [("_id", NSString "MPSection:0001"); ("objectType", NSString "MPSection"); ("title", NSString "Intro"); ("bundled", NSNumber 1)];
  [("_id", NSString "MPParagraph:0002"); ("objectType", NSString "MPParagraph"); ("title", NSString "Intro")];
  [("_id", NSString "MPNote:0001"); ("objectType", NSString "MPNote"); ("title", NSString "Intro");
   ("prototype", NSString "MPSection:0001"); ("userContributed", NSString "YES")]].
Definition viewStore0 : viewStore :=
  mkViewStore (mkStore (<[paragraph := mkModel (Some "MPParagraph:0002") false None ∅ ∅ [] false]> models0) None ∅)
    (λ _, manuscript) ∅ ∅.
Definition viewWorld : World viewStore :=
  mkWorld viewStore0 (<[paragraph := mkMO "MPParagraph" (Some sections) None None None false None None]> (w_mos world0))
    (w_eos world0) (w_mocs world0) (w_pkgs world0) None (w_registry world0) (w_dbs world0) [] 100 0 10%positive.
Definition viewControllers : list (cid * string * string) :=
  [(sections, "MPSectionsController", "MPSection"); (notes, "MPNotesController", "MPNote")].
Definition keepDocument (s : viewStore) (_ : oid) (_ : string) : viewStore := s.

(** What [f] finds when both controllers have set up their views *)
Definition afterSetup {A} (f : M (World viewStore) A) : res A :=
  ((_ ← for_each viewControllers (λ x, MOC_configureViews x.1.1); f) viewWorld).1.

Example sections_with_title : afterSetup (MOC_objectsWithTitle keepDocument sections (Some "Intro")) = Ok [section_; paragraph].
Proof. vm_compute. reflexivity. Qed.
Example notes_with_title : afterSetup (MOC_objectsWithTitle keepDocument notes (Some "Intro")) = Ok [note].
Proof. vm_compute. reflexivity. Qed.
(** The controller of sections finds a note. *)
Example note_among_sections :
  afterSetup (MOC_objectsWithPrototypeID keepDocument sections (Some "MPSection:0001")) = Ok (Some [note]).
Proof. vm_compute. reflexivity. Qed.
(** No controller but those that say so has a view of all its objects. *)
Example no_view_of_all : afterSetup (MOC_allObjects_error keepDocument sections) = Ok [].
Proof. vm_compute. reflexivity. Qed.
Example contributed_notes : afterSetup (MOC_userContributedObjects keepDocument notes) = Ok (Some [note]).
Proof. vm_compute. reflexivity. Qed.
(** A flag that is [NSNull] raises in the block. *)
Example null_flag : userContributedObjectsBlock ReferenceRuntime.rt "MPNotesController"
  [("objectType", NSString "MPNote"); ("userContributed", NSNull)] = unrecognized.
Proof. vm_compute. reflexivity. Qed.

Lemma viewControllers_control c cls m : (c, cls, m) ∈ viewControllers → controls viewWorld "manuscript" c cls m.
Proof.
  unfold viewControllers. rewrite !elem_of_cons, elem_of_nil.
  intros [[= -> -> ->]|[[= -> -> ->]|[]]]; (split; [done|]; split; [by vm_compute|]; by eexists).
Qed.

Lemma manuscript_loaded d : d ∈ manuscript → loaded viewWorld "manuscript" (documentID d).
Proof.
  unfold manuscript. rewrite !elem_of_cons, elem_of_nil. intros [->|[->|[->|[]]]].
  - exists section_. split; [by vm_compute|]. split; [by vm_compute|]. by eexists.
  - exists paragraph. split; [by vm_compute|]. split; [by vm_compute|]. by eexists.
  - exists note. split; [by vm_compute|]. split; [by vm_compute|]. by eexists.
Qed.
End ReferenceViews.

Import Reference ReferenceViews.

Lemma views_find_objects_witness :
  let views := flat_map (λ x, base_setup x.1.2) viewControllers in
  let w' := configured viewWorld "manuscript" views in
  for_each viewControllers (λ x, MOC_configureViews x.1.1) viewWorld = (Ok tt, w') ∧
  ∀ c cls m, (c, cls, m) ∈ viewControllers →
    let managed := is_managed env_rt m in
    let finds Q := finds viewWorld "manuscript" views keepDocument c (map documentID (documents viewWorld "manuscript" Q)) in
    let made found := MOC_managedObjectsForQueryEnumerator keepDocument c found in
    (∀ t, ∃ found, finds (λ d, managed d && has "title" t d) found ∧
      MOC_objectsWithTitle keepDocument c (Some t) w' = made found w') ∧
    (∃ found, finds (λ d, managed d && flag "userContributed" d) found ∧
      MOC_userContributedObjects keepDocument c w' = (objs ← made found; mret (Some objs)) w') ∧
    (no_rivals viewControllers cls m → ∃ rows, MOC_bundledJSONDataQuery c true w' = (Ok (Some rows), w') ∧
      finds (λ d, managed d && flag "bundled" d) (map row_documentID rows)) ∧
    (∀ p, ∃ found, finds (has "prototype" p) found ∧
      MOC_objectsWithPrototypeID keepDocument c (Some p) w' = (objs ← made found; mret (Some objs)) w').
Proof.
  apply (views_find_objects keepDocument viewWorld "manuscript" viewControllers).
  - exact ReferenceRuntime.rt_wf.
  - exact viewControllers_control.
  - done.
  - repeat (apply List.Forall_cons; [split; [by eexists|done]|]). apply List.Forall_nil.
Defined.

(** What the reference controllers bundle is told apart, and all documents are loaded. *)
Example no_rivals_here : Forall (λ x, no_rivals viewControllers x.1.2 x.2) viewControllers.
Proof.
  repeat (apply List.Forall_cons; [intros y Hy; unfold viewControllers in Hy; rewrite !elem_of_cons, !elem_of_nil in Hy; by destruct Hy as [->|[->|[]]]|]).
  apply List.Forall_nil.
Qed.
Example all_loaded_here : all_loaded viewWorld "manuscript" (map documentID manuscript).
Proof. intros i (d & -> & Hd)%list_elem_of_fmap. by apply manuscript_loaded. Qed.

Module ContributorViews.
Local Open Scope string_scope.

Definition contributorRuntime : Runtime := {|
  rt_classes := [("NSObject", None); ("CBLModel", Some "NSObject"); ("MPManagedObject", Some "CBLModel");
                 ("MPContributor", Some "MPManagedObject"); ("MPNote", Some "MPManagedObject");
                 ("MPManagedObjectsController", Some "NSObject");
                 ("MPContributorsController", Some "MPManagedObjectsController")];
  rt_properties _ := []; rt_propertyClass _ _ := None; rt_conforms _ _ := false; rt_responds _ _ := false
|}.
#[export] Instance contributorEnv : Env := {|
  env_rt := contributorRuntime; env_parseJSON _ := None; env_uuid _ := ""; env_shouldTrackSessionID _ := false;
  env_relaysFetchingByIdentifier _ := false
|}.

(** An editor and one without a role, who share a name but for its case and an identifier
    of the address book; and a note. *)
Definition people : list document := [
  [("_id", NSString "MPContributor:0001"); ("objectType", NSString "MPContributor"); ("fullName", NSString "Ada King");
   ("role", NSString "editor"); ("addressBookIDs", NSArray (map NSString ["1"; "2"]))];
  [("_id", NSString "MPContributor:0002"); ("objectType", NSString "MPContributor"); ("fullName", NSString "ADA KING");
   ("addressBookIDs", NSArray (map NSString ["2"]))];
  [("_id", NSString "MPNote:0003"); ("objectType", NSString "MPNote"); ("fullName", NSString "Ada King")]].
Definition saved (i name : string) : model := mkModel (Some i) false None {["fullName" := NSString name]} ∅ [] false.
Definition peopleStore : viewStore :=
  mkViewStore (mkStore (<[1%positive := saved "MPContributor:0001" "Ada King"]>
                       (<[2%positive := saved "MPContributor:0002" "ADA KING"]>
                        {[3%positive := saved "MPNote:0003" "Ada King"]})) None ∅) (λ _, people) ∅ ∅.
Definition contributors_ : cid := 1%positive.
Definition peopleWorld : World viewStore :=
  mkWorld peopleStore
    (<[1%positive := mkMO "MPContributor" (Some contributors_) None None None false None None]>
     (<[2%positive := mkMO "MPContributor" (Some contributors_) None None None false None None]>
      {[3%positive := mkMO "MPNote" None None None None false None None]})) ∅
    {[contributors_ := mkController "MPContributorsController" package (Some "people") ∅]} ∅ None ∅ ∅ [] 100 0 10%positive.

Definition found {A} (f : M (World viewStore) A) : res A := ((_ ← CC_configureViews contributors_; f) peopleWorld).1.
Example editors : found (CC_allEditors keepDocument (Some (λ _ l, l)) contributors_) = Ok (Some [1%positive]).
Proof. vm_compute. reflexivity. Qed.
Example authors : found (CC_allAuthors keepDocument (Some (λ _ l, l)) contributors_) = Ok (Some [2%positive]).
Proof. vm_compute. reflexivity. Qed.
Example namesakes : found (CC_contributorsWithFullName keepDocument contributors_ (Some "ada king")) = Ok [1; 2]%positive.
Proof. vm_compute. reflexivity. Qed.
Example shared_identifier : found (CC_contributorWithAddressBookID keepDocument contributors_ (Some "2")) =
  Throw (AssertionFailed "A maximum of one contributor should have been retrieved").
Proof. vm_compute. reflexivity. Qed.
Example own_identifier : found (CC_contributorWithAddressBookID keepDocument contributors_ (Some "1")) = Ok (Some 1%positive).
Proof. vm_compute. reflexivity. Qed.

Lemma people_loaded d : d ∈ people → loaded peopleWorld "people" (documentID d).
Proof.
  unfold people. rewrite !elem_of_cons, elem_of_nil. intros [->|[->|[->|[]]]].
  - exists 1%positive. split; [by vm_compute|]. split; [by vm_compute|]. by eexists.
  - exists 2%positive. split; [by vm_compute|]. split; [by vm_compute|]. by eexists.
  - exists 3%positive. split; [by vm_compute|]. split; [by vm_compute|]. by eexists.
Qed.

Lemma people_saved d o : d ∈ people → doc_modelObject peopleStore "people" (documentID d) = Some o →
  model_get peopleStore o "fullName" = assoc "fullName" d.
Proof.
  unfold people. rewrite !elem_of_cons, elem_of_nil.
  intros [->|[->|[->|[]]]] Ho; vm_compute in Ho; injection Ho as <-; by vm_compute.
Qed.

Lemma people_good : Forall (λ d, is_managed contributorRuntime "MPContributor" d = true → good_contributor d) people.
Proof. repeat (apply List.Forall_cons; [intros _; split; [by eexists|..]; cbn; eauto|]). apply List.Forall_nil. Qed.

(** One contributor that lists an identifier twice raises too. *)
Example listed_twice : listings "2" [("addressBookIDs", NSArray (map NSString ["2"; "2"]))] = 2.
Proof. reflexivity. Qed.
End ContributorViews.

Lemma contributors_found_witness :
  let env := ContributorViews.contributorEnv in
  let managed := is_managed ContributorViews.contributorRuntime "MPContributor" in
  let w := ContributorViews.peopleWorld in
  let c := ContributorViews.contributors_ in
  let w' := configured w "people" (contributors_setup (H := env)) in
  let ids Q := map documentID (documents w "people" Q) in
  let finds := finds (H := env) w "people" (contributors_setup (H := env)) keepDocument c in
  let made found := MOC_managedObjectsForQueryEnumerator (H := env) keepDocument c found in
  CC_configureViews (H := env) c w = (Ok tt, w') ∧
  (∃ found, finds (ids managed) found ∧ MOC_allObjects_error (H := env) keepDocument c w' = made found w') ∧
  (∀ r sorted, ∃ found, finds (ids (λ d, managed d && in_role r d)) found ∧
    CC_contributorsInRole (H := env) keepDocument (Some sorted) c (Some r) w' =
      (objs ← made found; s ← gets w_cbl; mret (Some (sorted s objs))) w') ∧
  (∀ n, let named := ids (λ d, managed d && named n d) in
    (∃ rows, MOC_queryRows c "contributorsByFullName" (Some [NSString (lowercaseString n)]) w' = (Ok rows, w') ∧
      finds named (map row_documentID rows)) ∧
    (all_loaded w "people" (ids managed) →
     (∀ d o, d ∈ documents w "people" managed → doc_modelObject (w_cbl w) "people" (documentID d) = Some o →
        model_get (w_cbl w) o "fullName" = assoc "fullName" d) →
     ∃ objs, CC_contributorsWithFullName (H := env) keepDocument c (Some n) w' = (Ok objs, w') ∧ objs ≡ₚ models w "people" named)) ∧
  (∀ i, ∃ found, finds (flat_map (λ d, replicate (listings i d) (documentID d)) (documents w "people" managed)) found ∧
    CC_contributorWithAddressBookID (H := env) keepDocument c (Some i) w' =
      (objs ← made found;
       if (length objs <? 2)%nat then mret (head objs)
       else throw (AssertionFailed "A maximum of one contributor should have been retrieved")) w').
Proof.
  intros env managed w c. apply (contributors_found (H := env) keepDocument w "people" c).
  - reflexivity.
  - split; [done|]. split; [by vm_compute|]. by eexists.
  - done.
  - exact ContributorViews.people_good.
Defined.

(** Two model classes that differ in the prefix alone bundle their objects under one name,
    and the second controller's block is never run, as the version is there. *)
Definition rivalRuntime : Runtime := {|
  rt_classes := [("NSObject", None); ("MPManagedObject", Some "NSObject"); ("MPNote", Some "MPManagedObject"); ("Note", Some "MPManagedObject");
                 ("MPManagedObjectsController", Some "NSObject"); ("MPNotesController", Some "MPManagedObjectsController");
                 ("NotesController", Some "MPManagedObjectsController")];
  rt_properties _ := []; rt_propertyClass _ _ := None; rt_conforms _ _ := false; rt_responds _ _ := false
|}.
Example rival_views : bundledJSONDataViewName rivalRuntime "MPNotesController" = Ok "bundled-notes"%string ∧
  bundledJSONDataViewName rivalRuntime "NotesController" = Ok "bundled-notes"%string.
Proof. by vm_compute. Qed.
