(* ===== verification/XMLNodes.v ===== *)
(** * XML trees: walking and searching

    The tree walks of src/FeatherAppKitExtensions/NSXMLElement+MPExtensions.m: the
    visitor with its queue of nodes still to visit, the searches that follow
    [nextNode], siblings and ancestors.  A node is given by its position in the
    tree it belongs to, so that two pointers are equal when they are one node. *)
From Stdlib Require Import Ascii.
From stdpp Require Import base tactics strings numbers list gmap.
From S2P Require Import Prelude ObjC Collections.

(** ** Nodes

    Elements and text nodes; any other kind (comments, processing instructions)
    has neither children nor a part in the operations. *)
Inductive XMLNode : Type :=
  | XMLElement (name : string) (attributes : list (string * string)) (children : list XMLNode)
  | XMLText (stringValue : string)
  | XMLOther.

Section XMLNode_ind.
Variable P : XMLNode → Prop.
Hypothesis Pelement : ∀ n a cs, Forall P cs → P (XMLElement n a cs).
Hypothesis Ptext : ∀ s, P (XMLText s).
Hypothesis Pother : P XMLOther.
Fixpoint XMLNode_rect' (t : XMLNode) : P t :=
  match t with
  | XMLElement n a cs =>
      Pelement n a cs ((fix all (cs : list XMLNode) : Forall P cs :=
                          match cs with [] => Forall_nil_2 P | c :: cs => Forall_cons_2 P c cs (XMLNode_rect' c) (all cs) end) cs)
  | XMLText s => Ptext s
  | XMLOther => Pother
  end.
End XMLNode_ind.

Definition childNodes (t : XMLNode) : list XMLNode := match t with XMLElement _ _ cs => cs | _ => [] end.
Definition isElementNode (t : XMLNode) : bool := match t with XMLElement _ _ _ => true | _ => false end.
Definition isTextNode (t : XMLNode) : bool := match t with XMLText _ => true | _ => false end.
Fixpoint nodeCount (t : XMLNode) : nat :=
  match t with XMLElement _ _ cs => S (sum_list_with nodeCount cs) | _ => 1 end.

(** A position: the indices among the siblings from the node up to the root. *)
Notation position := (list nat).

(** The positions of a subtree in document order. *)
Fixpoint preorder (t : XMLNode) (p : position) : list position :=
  p :: match t with
       | XMLElement _ _ cs =>
           (fix forest (i : nat) (cs : list XMLNode) : list position :=
              match cs with [] => [] | c :: cs => preorder c (i :: p) ++ forest (S i) cs end) 0 cs
       | _ => []
       end.
Fixpoint forest (p : position) (i : nat) (cs : list XMLNode) : list position :=
  match cs with [] => [] | c :: cs => preorder c (i :: p) ++ forest p (S i) cs end.

Section document.
(** The tree, by its topmost element; whether that element is in a document. *)
Context (root : XMLNode) (inDocument : bool).

Fixpoint nodeAt (p : position) : option XMLNode :=
  match p with
  | [] => Some root
  | i :: q => t ← nodeAt q; childNodes t !! i
  end.
Definition children (p : position) : list position :=
  match nodeAt p with Some t => map (λ i, i :: p) (seq 0 (length (childNodes t))) | None => [] end.
Definition isElement (p : position) : bool := match nodeAt p with Some t => isElementNode t | None => false end.
Definition level (p : position) : nat := length p.
Definition size : nat := nodeCount root.

(** [-nextNode]: the first child, or the next sibling of the node or of its closest
    ancestor that has one. *)
Fixpoint nextAfter (p : position) : option position :=
  match p with
  | [] => None
  | i :: q => match nodeAt (S i :: q) with Some _ => Some (S i :: q) | None => nextAfter q end
  end.
Definition nextNode (p : position) : option position :=
  match children p with c :: _ => Some c | [] => nextAfter p end.

(** ** The visitor *)

(** The nodes the visitor is called on, in order; the result of the method counts them. *)
Fixpoint visit_loop (fuel : nat) (startNode endNode : option position) (visitor : position → bool)
    (queue : list position) (shouldVisit : bool) : list position :=
  match fuel, popObject queue with
  | S n, (Some node, queue) =>
      let queue := pushObjectsInArray queue (Some (children node)) in
      let shouldVisit := if bool_decide (Some node = startNode) && negb shouldVisit then true else shouldVisit in
      if shouldVisit
      then node :: if negb (visitor node) then []
                   else if bool_decide (Some node = endNode) then []
                   else visit_loop n startNode endNode visitor queue shouldVisit
      else if bool_decide (Some node = endNode) then []
      else visit_loop n startNode endNode visitor queue shouldVisit
  | _, _ => []
  end.

Definition visitedNodes (self : position) (startNode endNode : option position) (visitor : position → bool) :
    list position :=
  if (length (children self) <? 1)%nat then []
  else let queue := pushObjectsInArray [] (Some (children self)) in
       visit_loop size startNode endNode visitor queue (bool_decide (startNode = None)).

(* @src FeatherAppKitExtensions/NSXMLElement+MPExtensions.m 414 457 -[NSXMLElement visitNodesInSubtreeStartingFrom:upTo:visitor:] *)
Definition visitNodesInSubtree (self : position) (startNode endNode : option position)
    (visitor : position → bool) : nat :=
  length (visitedNodes self startNode endNode visitor).

(* @src FeatherAppKitExtensions/NSXMLElement+MPExtensions.m 459 462 -[NSXMLElement visitNodesInSubtreeStartingFrom:visitor:] *)
Definition visitNodesInSubtreeStartingFrom self startNode visitor := visitNodesInSubtree self startNode None visitor.
(* @src FeatherAppKitExtensions/NSXMLElement+MPExtensions.m 464 467 -[NSXMLElement visitNodesInSubtreeUpTo:visitor:] *)
Definition visitNodesInSubtreeUpTo self endNode visitor := visitNodesInSubtree self None endNode visitor.
(* @src FeatherAppKitExtensions/NSXMLElement+MPExtensions.m 469 472 -[NSXMLElement visitAllNodesInSubtree:] *)
Definition visitAllNodesInSubtree self visitor := visitNodesInSubtree self None None visitor.

(** ** Searches *)

(* @src FeatherAppKitExtensions/NSXMLElement+MPExtensions.m 477 484 -[NSXMLElement childElements] *)
Definition childElements (self : position) : list position := List.filter isElement (children self).

Fixpoint findMatching_loop (fuel : nat) (self : position) (test : position → bool) (node : option position) :
    option position :=
  match fuel, node with
  | S n, Some p =>
      if (level self <? level p)%nat
      then if isElement p && test p then Some p else findMatching_loop n self test (nextNode p)
      else None
  | _, _ => None
  end.
(* @src FeatherAppKitExtensions/NSXMLElement+MPExtensions.m 486 499 -[NSXMLElement findXMLElementMatching:] *)
Definition findXMLElementMatching (self : position) (test : position → bool) : option position :=
  findMatching_loop size self test (head (children self)).

(** The test answers for the element, and whether to stop. *)
Fixpoint findPassing_loop (fuel : nat) (self : position) (test : position → bool * bool) (stop : bool)
    (node : option position) : list position :=
  match fuel, node with
  | S n, Some p =>
      if (level self <? level p)%nat
      then let '(passed, stop) := if isElement p then let '(b, s) := test p in (b, stop || s) else (false, stop) in
           (if passed then [p] else []) ++
           (if stop then [] else findPassing_loop n self test stop (nextNode p))
      else []
  | _, _ => []
  end.
(* @src FeatherAppKitExtensions/NSXMLElement+MPExtensions.m 572 590 -[NSXMLElement findXMLElementsPassing:] *)
Definition findXMLElementsPassing (self : position) (test : position → bool * bool) : list position :=
  findPassing_loop size self test false (head (children self)).

(** ** Siblings and ancestors *)
Fixpoint previousElement_from (q : position) (i : nat) : option position :=
  match i with
  | O => None
  | S j => if isElement (j :: q) then Some (j :: q) else previousElement_from q j
  end.
(* @src FeatherAppKitExtensions/NSXMLElement+MPExtensions.m 592 604 -[NSXMLElement previousElementSibling] *)
Definition previousElementSibling (self : position) : option position :=
  match self with [] => None | i :: q => previousElement_from q i end.

Fixpoint nextElement_from (fuel : nat) (q : position) (i : nat) : option position :=
  match fuel, nodeAt (S i :: q) with
  | S n, Some _ => if isElement (S i :: q) then Some (S i :: q) else nextElement_from n q (S i)
  | _, _ => None
  end.
(* @src FeatherAppKitExtensions/NSXMLElement+MPExtensions.m 606 618 -[NSXMLElement nextElementSibling] *)
Definition nextElementSibling (self : position) : option position :=
  match self with [] => None | i :: q => nextElement_from size q i end.

(** The loop over the parents of a node. *)
Fixpoint ancestorIs (self n : position) : bool :=
  match n with
  | [] => false
  | _ :: p => if bool_decide (p = self) then true else ancestorIs self p
  end.
(* @src FeatherAppKitExtensions/NSXMLElement+MPExtensions.m 620 632 -[NSXMLElement containsDescendantNode:] *)
Definition containsDescendantNode (self node : position) : bool := ancestorIs self node.

(* @src FeatherAppKitExtensions/NSXMLElement+MPExtensions.m 1604 1614 -[NSXMLElement isDescendant:] *)
Definition isDescendant (self node : position) : bool :=
  if bool_decide (node = self) then true else ancestorIs self node.

(* @src FeatherAppKitExtensions/NSXMLElement+MPExtensions.m 1599 1602 -[NSXMLElement isChild:] *)
Definition isChild (self node : position) : bool := existsb (λ c, bool_decide (node = c)) (children self).

(** Beyond the topmost element a document is asked for its descendants, which
    documents do not answer. *)
Fixpoint commonAncestor_from (el1 el2 : position) : res (option position) :=
  match el1 with
  | [] => if inDocument then Throw (Exception "NSInvalidArgumentException" "unrecognized selector containsDescendantNode:")
          else Ok None
  | _ :: p => if containsDescendantNode p el2 then Ok (Some p) else commonAncestor_from p el2
  end.
(* @src FeatherAppKitExtensions/NSXMLElement+MPExtensions.m 634 657 +[NSXMLElement commonAncestorElementOf:and:] *)
Definition commonAncestorElementOf (firstElement secondElement : position) : res (option position) :=
  let '(el1, el2) := if (level firstElement <=? level secondElement)%nat
                     then (firstElement, secondElement) else (secondElement, firstElement) in
  commonAncestor_from el1 el2.
End document.

(** ** Subtrees in document order *)
Section walks.
Context (root : XMLNode).
Notation nodeAt := (nodeAt root).
Notation children := (children root).
Notation nextNode := (nextNode root).
Notation nextAfter := (nextAfter root).

Definition descendants (p : position) : list position :=
  match nodeAt p with Some t => tail (preorder t p) | None => [] end.

Lemma preorder_unfold t p : preorder t p = p :: forest p 0 (childNodes t).
Proof.
  destruct t as [n a cs| |]; [|done|done]. cbn [preorder childNodes]. f_equal. generalize 0.
  induction cs as [|c cs IH]; intros i; [done|]. cbn [forest]. by rewrite <- IH.
Qed.

Lemma preorder_length t p : length (preorder t p) = nodeCount t.
Proof.
  revert p. induction t as [n a cs IH| |] using XMLNode_rect'; intros p; [|done|done].
  rewrite preorder_unfold. cbn [length childNodes nodeCount]. f_equal. generalize 0.
  induction IH as [|c cs Hc _ IHcs]; intros i; [done|]. cbn [forest sum_list_with].
  by rewrite length_app, Hc, IHcs.
Qed.

Lemma nodeAt_child p t i c : nodeAt p = Some t → childNodes t !! i = Some c → nodeAt (i :: p) = Some c.
Proof. intros Hp Hc. cbn. by rewrite Hp. Qed.

(** A subtree is no larger than the tree. *)
Lemma nodeCount_child t i c : childNodes t !! i = Some c → (nodeCount c < nodeCount t)%nat.
Proof.
  destruct t as [n a cs| |]; [|done|done]. cbn [childNodes nodeCount]. revert i.
  induction cs as [|d cs IH]; intros [|i]; cbn; intros E; simplify_eq; [lia|].
  specialize (IH i E). lia.
Qed.
Lemma nodeCount_le p t : nodeAt p = Some t → (nodeCount t ≤ size root)%nat.
Proof.
  revert t. induction p as [|i p IH]; intros t E; cbn in E; [by simplify_eq|].
  destruct (nodeAt p) as [u|] eqn:Eu; [|done]. cbn in E. pose proof (nodeCount_child _ _ _ E).
  specialize (IH u eq_refl). lia.
Qed.

Lemma descendants_length p : (S (length (descendants p)) ≤ S (size root))%nat.
Proof.
  unfold descendants. destruct (nodeAt p) as [t|] eqn:E; [|cbn; lia].
  pose proof (nodeCount_le _ _ E) as H. rewrite <- (preorder_length t p), preorder_unfold in H.
  rewrite preorder_unfold. cbn in *. lia.
Qed.

(** [queue] unfolds to what is left to visit. *)
Definition subtreeAt (p : position) : list position :=
  match nodeAt p with Some t => preorder t p | None => [p] end.

Lemma children_forest p t :
  nodeAt p = Some t → mbind subtreeAt (children p) = forest p 0 (childNodes t).
Proof.
  intros Hp. unfold children. rewrite Hp.
  assert (∀ cs i, (∀ j c, cs !! j = Some c → nodeAt ((i + j)%nat :: p) = Some c) →
    mbind subtreeAt (map (λ i, i :: p) (seq i (length cs))) = forest p i cs) as H.
  { induction cs as [|c cs IH]; intros i Hcs; [done|]. cbn [length seq map forest].
    rewrite bind_cons. f_equal.
    - unfold subtreeAt. specialize (Hcs 0%nat c eq_refl). rewrite Nat.add_0_r in Hcs. by rewrite Hcs.
    - apply IH. intros j d Hd. replace (S i + j)%nat with (i + S j)%nat by lia. by apply Hcs. }
  apply H. intros j c Hc. by eapply nodeAt_child.
Qed.

Lemma subtreeAt_unfold p : subtreeAt p = p :: mbind subtreeAt (children p).
Proof.
  unfold subtreeAt at 1. destruct (nodeAt p) as [t|] eqn:E.
  - by rewrite (children_forest p t), <- preorder_unfold.
  - unfold children. by rewrite E.
Qed.

Lemma descendants_children p : descendants p = mbind subtreeAt (children p).
Proof.
  unfold descendants. destruct (nodeAt p) as [t|] eqn:E.
  - by rewrite preorder_unfold, (children_forest p t).
  - unfold children. by rewrite E.
Qed.

(** Up to a node, from a node on, while a test holds - each with the node it ends at. *)
Fixpoint upTo (e : position) (l : list position) : list position :=
  match l with [] => [] | x :: l => x :: if bool_decide (x = e) then [] else upTo e l end.
Fixpoint from (s : position) (l : list position) : list position :=
  match l with [] => [] | x :: l' => if bool_decide (x = s) then l else from s l' end.
Fixpoint while (f : position → bool) (l : list position) : list position :=
  match l with [] => [] | x :: l => x :: if f x then while f l else [] end.

Definition slice (startNode endNode : option position) (l : list position) : list position :=
  let l := match endNode with Some e => upTo e l | None => l end in
  match startNode with Some s => from s l | None => l end.

Lemma visit_loop_spec fuel startNode endNode visitor queue (shouldVisit : bool) :
  (length (mbind subtreeAt queue) ≤ fuel)%nat → (shouldVisit = false → startNode ≠ None) →
  visit_loop root fuel startNode endNode visitor queue shouldVisit
  = while visitor (slice (if shouldVisit then None else startNode) endNode (mbind subtreeAt queue)).
Proof.
  revert queue shouldVisit. induction fuel as [|n IH]; intros queue shouldVisit Hf Hs.
  { destruct (mbind subtreeAt queue) eqn:E; [|cbn in Hf; lia]. unfold slice. by destruct shouldVisit, startNode, endNode. }
  destruct queue as [|node queue]; cbn [visit_loop popObject].
  { unfold slice. by destruct shouldVisit, startNode, endNode. }
  rewrite bind_cons, subtreeAt_unfold in Hf |- *. cbn [app length] in Hf |- *.
  assert (pushObjectsInArray queue (Some (children node)) = children node ++ queue) as Hpush
    by (unfold pushObjectsInArray; by destruct (children node)).
  rewrite Hpush. clear Hpush. rewrite <- bind_app in Hf |- *.
  assert (∀ e, bool_decide (Some node = Some e) = bool_decide (node = e)) as Hdec
    by (intros e; apply bool_decide_ext; naive_solver).
  destruct shouldVisit; cbn [negb]; rewrite ?andb_false_r, ?andb_true_r.
  - rewrite !IH by (done || lia). unfold slice. destruct endNode as [e|]; cbn [while upTo]; rewrite ?Hdec.
    + by destruct (visitor node), (bool_decide (node = e)).
    + by destruct (visitor node).
  - destruct startNode as [s|]; [clear Hs|by specialize (Hs eq_refl)]. rewrite Hdec.
    assert (Some s ≠ None) as Hns by done.
    unfold slice. case_bool_decide as En; rewrite !IH by (done || lia); unfold slice;
      destruct endNode as [e|]; cbn [while upTo from]; rewrite ?Hdec.
    + rewrite (bool_decide_eq_true_2 _ En). cbn [while].
      by destruct (visitor node), (bool_decide (node = e)).
    + rewrite (bool_decide_eq_true_2 _ En). cbn [while]. by destruct (visitor node).
    + rewrite (bool_decide_eq_false_2 _ En). by destruct (bool_decide (node = e)).
    + by rewrite (bool_decide_eq_false_2 _ En).
Qed.

(** ** Following [nextNode] *)

(** The nodes of [l] follow each other, and [o] the last one. *)
Fixpoint follows (l : list position) (o : option position) : Prop :=
  match l with
  | [] => True
  | p :: l => nextNode p = (match l with [] => o | q :: _ => Some q end) ∧ follows l o
  end.

Lemma follows_app l q l' o : follows l (Some q) → follows (q :: l') o → follows (l ++ q :: l') o.
Proof.
  induction l as [|p [|r l] IH]; [done|by intros [Hp _] Hq|].
  intros [Hp Hl] Hq. split; [done|]. by apply IH.
Qed.

Lemma preorder_follows t p : nodeAt p = Some t → follows (preorder t p) (nextAfter p).
Proof.
  revert p. induction t as [n a cs IH| |] using XMLNode_rect'; intros p Hp.
  2, 3: split; [|done]; unfold nextNode, XMLNodes.nextNode, XMLNodes.children; rewrite Hp; done.
  rewrite preorder_unfold. cbn [childNodes].
  assert (∀ ds i, (∀ j, ds !! j = cs !! (i + j)%nat) → Forall (λ t, ∀ p, nodeAt p = Some t → follows (preorder t p) (nextAfter p)) ds →
    ds ≠ [] → follows (forest p i ds) (nextAfter p)) as Hforest.
  { induction ds as [|d ds IHds]; intros i Hds Hall Hne; [done|]. clear Hne.
    apply Forall_cons in Hall as [Hd Hall].
    assert (nodeAt (i :: p) = Some d) as Hi by (cbn; rewrite Hp; cbn; rewrite <- (Nat.add_0_r i), <- Hds; done).
    specialize (Hd _ Hi). cbn [forest]. cbn [XMLNodes.nextAfter] in Hd.
    destruct ds as [|d' ds].
    - cbn [forest]. rewrite app_nil_r.
      assert (nodeAt (S i :: p) = None) as Hn by (cbn; rewrite Hp; cbn; rewrite <- (Nat.add_1_r i), <- Hds; done).
      by rewrite Hn in Hd.
    - assert (nodeAt (S i :: p) = Some d') as Hn by (cbn; rewrite Hp; cbn; rewrite <- (Nat.add_1_r i), <- Hds; done).
      rewrite Hn in Hd. specialize (IHds (S i)). cbn [forest] in IHds |- *.
      rewrite (preorder_unfold d') in IHds |- *. cbn [app] in IHds |- *. apply follows_app; [done|]. apply IHds; [|done|done].
      intros j. etrans; [exact (Hds (S j))|]. f_equal. lia. }
  destruct cs as [|c cs].
  - split; [|done]. unfold XMLNodes.nextNode, XMLNodes.children. rewrite Hp. done.
  - cbn [forest]. split.
    + unfold XMLNodes.nextNode, XMLNodes.children. rewrite Hp. cbn [childNodes length seq map].
      by rewrite preorder_unfold.
    + by apply (Hforest (c :: cs) 0%nat).
Qed.

Lemma forest_level p i cs q : q ∈ forest p i cs → (level p < level q)%nat.
Proof.
  assert (∀ t p q, q ∈ preorder t p → (level p ≤ level q)%nat) as Ht.
  { induction t as [n a ds IH| |] using XMLNode_rect'; intros p' q' Hq.
    2, 3: apply list_elem_of_singleton in Hq as ->; done.
    rewrite preorder_unfold in Hq. apply elem_of_cons in Hq as [->|Hq]; [done|].
    cbn [childNodes] in Hq. revert Hq. generalize 0%nat. induction IH as [|d ds Hd _ IHds]; intros j; cbn [forest];
      [by intros ?%elem_of_nil|]. intros [Hq%Hd|Hq%IHds]%elem_of_app; [|done]. unfold level in *. cbn in Hq. lia. }
  revert i. induction cs as [|c cs IH]; intros i; cbn [forest]; [by intros ?%elem_of_nil|].
  intros [Hq%Ht|Hq%IH]%elem_of_app; [|done]. unfold level in *. cbn in Hq. lia.
Qed.

Lemma nextAfter_level p q : nextAfter p = Some q → (level q ≤ level p)%nat.
Proof.
  induction p as [|i p IH]; [done|]. cbn [XMLNodes.nextAfter].
  destruct (nodeAt (S i :: p)); [by intros [= <-]|]. intros H%IH. unfold level in *. cbn. lia.
Qed.

(** What the loops that follow [nextNode] below [self] see: its descendants, and
    then a node no deeper than [self]. *)
Lemma descendants_follow self :
  follows (descendants self) (nextAfter self) ∧
  head (children self) = head (descendants self) ∧
  (∀ q, q ∈ descendants self → (level self < level q)%nat) ∧
  (∀ q, nextAfter self = Some q → (level q ≤ level self)%nat) ∧
  (length (descendants self) ≤ size root)%nat.
Proof.
  split_and!.
  - unfold descendants. destruct (nodeAt self) as [t|] eqn:E; [|done].
    pose proof (preorder_follows t self E) as H. rewrite preorder_unfold in H |- *.
    cbn [tail]. by destruct H.
  - rewrite descendants_children. destruct (children self) as [|c cs] eqn:E; [done|].
    rewrite bind_cons, subtreeAt_unfold. done.
  - unfold descendants. destruct (nodeAt self) as [t|] eqn:E; [|intros q []%elem_of_nil].
    rewrite preorder_unfold. intros q. apply forest_level.
  - apply nextAfter_level.
  - pose proof (descendants_length self). lia.
Qed.
End walks.

(** ** The operations *)
Section operations.
Context (root : XMLNode).

(** C32 (equivalence). The visitor with its queue sees the subtree in document
    order: the nodes it is called on are the descendants from the start node on
    (all without one, none if it is no descendant), through the end node, and no
    further than the first that stops it; each is visited once, and the queue
    needs no more steps than the tree has nodes. *)
Theorem visitor_sees_document_order self startNode endNode visitor :
  visitedNodes root self startNode endNode visitor
  = while visitor (slice startNode endNode (descendants root self)).
Proof.
  unfold visitedNodes. rewrite descendants_children.
  destruct (children root self) as [|c cs] eqn:E.
  { unfold slice. by destruct startNode, endNode. }
  change (pushObjectsInArray [] (Some (c :: cs))) with ((c :: cs) ++ []). rewrite app_nil_r.
  cbn [length Nat.ltb Nat.leb]. rewrite visit_loop_spec.
  - by case_bool_decide; subst.
  - rewrite <- E, <- descendants_children. by apply descendants_follow.
  - by case_bool_decide.
Qed.

(** The elements that pass, up to the one the test stops at. *)
Fixpoint passing (test : position → bool * bool) (l : list position) : list position :=
  match l with
  | [] => []
  | p :: l => if isElement root p
              then let '(b, stop) := test p in (if b then [p] else []) ++ (if stop then [] else passing test l)
              else passing test l
  end.

Lemma find_loops self l o :
  follows root l o → (∀ q, q ∈ l → (level self < level q)%nat) →
  (∀ q, o = Some q → (level q ≤ level self)%nat) →
  ∀ fuel, (length l ≤ fuel)%nat →
  let start := match l with [] => o | p :: _ => Some p end in
  (∀ test, findMatching_loop root fuel self test start = List.find (λ p, isElement root p && test p) l) ∧
  (∀ test, findPassing_loop root fuel self test false start = passing test l).
Proof.
  induction l as [|p l IH]; intros Hl Hlev Ho fuel Hf; cbn zeta.
  - destruct fuel as [|n], o as [q|]; try (split; done).
    specialize (Ho q eq_refl). split; intros test; cbn [findMatching_loop findPassing_loop];
      by rewrite (proj2 (Nat.ltb_ge _ _)) by done.
  - destruct fuel as [|n]; [cbn in Hf; lia|]. destruct Hl as [Hp Hl].
    destruct (IH Hl ltac:(intros; apply Hlev; by right) Ho n ltac:(cbn in Hf; lia)) as [IHm IHp].
    assert ((level self <? level p)%nat = true) as Hlt by (apply Nat.ltb_lt, Hlev; by left).
    split; intros test; cbn [findMatching_loop findPassing_loop List.find passing]; rewrite Hlt, Hp.
    + by destruct (isElement root p && test p).
    + destruct (isElement root p); [|by rewrite IHp]. destruct (test p) as [b s]. cbn [orb].
      destruct s; [done|by rewrite IHp].
Qed.

(** The searches that follow [nextNode] while it stays below the
    receiver find what a search of the descendants in document order finds: the
    first element that passes the test, and all that pass, up to the one the test
    asks to stop at.  No node outside of the subtree is ever tested. *)
Theorem searches_in_document_order self :
  (∀ test, findXMLElementMatching root self test
           = List.find (λ p, isElement root p && test p) (descendants root self)) ∧
  (∀ test, findXMLElementsPassing root self test = passing test (descendants root self)).
Proof.
  destruct (descendants_follow root self) as (Hf & Hh & Hl & Ho & Hn).
  unfold findXMLElementMatching, findXMLElementsPassing. rewrite Hh.
  pose proof (find_loops self (descendants root self) (nextAfter root self) Hf Hl Ho _ Hn) as H. cbn zeta in H.
  destruct (descendants root self) as [|p l]; [|exact H].
  split; intros test; by destruct (size root).
Qed.
End operations.

(** *** Ancestors *)
Definition properAncestor (p q : position) : Prop := ∃ k, k ≠ [] ∧ q = k ++ p.

Lemma ancestorIs_spec self n : ancestorIs self n = true ↔ properAncestor self n.
Proof.
  induction n as [|i n IH]; cbn.
  - split; [done|]. intros (k & Hk & E). by destruct k.
  - case_bool_decide as E.
    + subst. split; [|done]. intros _. by exists [i].
    + rewrite IH. split.
      * intros (k & Hk & ->). exists (i :: k). by split.
      * intros ([|j k] & Hk & Ek); [done|]. injection Ek as -> ->. exists k. split; [by intros ->|done].
Qed.

Lemma properAncestor_cons i p q : properAncestor p (i :: q) ↔ p = q ∨ properAncestor p q.
Proof.
  split.
  - intros ([|j k] & Hk & E); [done|]. injection E as -> ->. destruct k as [|j' k]; [by left|right].
    by exists (j' :: k).
  - intros [->|(k & Hk & ->)]; [by exists [i]|by exists (i :: k)].
Qed.

Lemma properAncestor_level p q : properAncestor p q → (level p < level q)%nat.
Proof. intros (k & Hk & ->). unfold level. rewrite length_app. destruct k; [done|cbn; lia]. Qed.

(** The ancestors of a node are ancestors of each other. *)
Lemma properAncestor_linear p p' q :
  properAncestor p q → properAncestor p' q → p = p' ∨ properAncestor p p' ∨ properAncestor p' p.
Proof.
  induction q as [|i q IH]; [intros (k & Hk & E); by destruct k|].
  rewrite !properAncestor_cons. intros [->|Hp] [->|Hp']; auto.
Qed.

(** The closest node that is a proper ancestor of both. *)
Definition closestCommonAncestor (p a b : position) : Prop :=
  properAncestor p a ∧ properAncestor p b ∧
  ∀ q, properAncestor q a → properAncestor q b → q = p ∨ properAncestor q p.

Lemma commonAncestor_from_spec doc el1 el2 : (level el1 ≤ level el2)%nat →
  match commonAncestor_from doc el1 el2 with
  | Ok (Some p) => closestCommonAncestor p el1 el2
  | Ok None => doc = false ∧ ∀ q, ¬ (properAncestor q el1 ∧ properAncestor q el2)
  | Throw _ => doc = true ∧ ∀ q, ¬ (properAncestor q el1 ∧ properAncestor q el2)
  end.
Proof.
  intros _. induction el1 as [|i p IH]; cbn [commonAncestor_from].
  - assert (∀ q, ¬ (properAncestor q [] ∧ properAncestor q el2)) as Hno
      by (intros q [(k & Hk & E) _]; by destruct k).
    by destruct doc.
  - unfold containsDescendantNode. destruct (ancestorIs p el2) eqn:Ep.
    + apply ancestorIs_spec in Ep. split_and!; [by exists [i]|done|].
      intros q [->|Hq]%properAncestor_cons _; auto.
    + assert (¬ properAncestor p el2) as Hp by (rewrite <- ancestorIs_spec, Ep; done).
      destruct (commonAncestor_from doc p el2) as [[r|]|e].
      * destruct IH as (Hr & Hr2 & Hmax). split_and!; [apply properAncestor_cons; auto|done|].
        intros q [->|Hq]%properAncestor_cons Hq2; [done|auto].
      * destruct IH as [-> IH]. split; [done|]. intros q [[->|Hq]%properAncestor_cons Hq2]; [done|by apply (IH q)].
      * destruct IH as [-> IH]. split; [done|]. intros q [[->|Hq]%properAncestor_cons Hq2]; [done|by apply (IH q)].
Qed.

(** [+commonAncestorElementOf:and:] gives the closest element that
    properly contains both elements - for an element and its own descendant, that
    is the parent of the former -, whichever is given first; there is none only
    if one of the two is topmost in the tree, where the search gives [nil], or
    raises an exception if the tree is that of a document, which cannot be asked
    for its descendants. *)
Theorem common_ancestor_is_closest doc a b :
  match commonAncestorElementOf doc a b with
  | Ok (Some p) => closestCommonAncestor p a b
  | Ok None => doc = false ∧ (a = [] ∨ b = [])
  | Throw _ => doc = true ∧ (a = [] ∨ b = [])
  end.
Proof.
  assert (∀ a b, (∀ q, ¬ (properAncestor q a ∧ properAncestor q b)) → a = [] ∨ b = []) as Htop.
  { intros a' b' Hno. destruct a' as [|i a']; [by left|]. destruct b' as [|j b']; [by right|exfalso].
    assert (∀ (i : nat) (l : position), properAncestor [] (i :: l)) as Hroot
      by (intros i' l; exists (i' :: l); by rewrite app_nil_r).
    by apply (Hno []). }
  unfold commonAncestorElementOf. destruct (level a <=? level b)%nat eqn:E.
  - apply Nat.leb_le in E. pose proof (commonAncestor_from_spec doc a b E) as H.
    destruct (commonAncestor_from doc a b) as [[p|]|e]; [done|..]; destruct H as [-> H]; auto.
  - apply Nat.leb_gt in E. pose proof (commonAncestor_from_spec doc b a ltac:(lia)) as H.
    destruct (commonAncestor_from doc b a) as [[p|]|e].
    + destruct H as (Hp & Hq & Hmax). split_and!; auto.
    + destruct H as [-> H]. split; [done|]. apply or_comm. by apply Htop.
    + destruct H as [-> H]. split; [done|]. apply or_comm. by apply Htop.
Qed.

(** *** On a small tree *)
Definition sampleTree : XMLNode :=
  XMLElement "p" [] [XMLText "a"; XMLElement "b" [] [XMLText "x"; XMLElement "i" [] []]; XMLText "c"].

Example sample_order : descendants sampleTree [] = [[0]; [1]; [0; 1]; [1; 1]; [2]].
Proof. reflexivity. Qed.
Example sample_visit :
  visitedNodes sampleTree [] (Some [1]) (Some [1; 1]) (λ _, true) = [[1]; [0; 1]; [1; 1]].
Proof. reflexivity. Qed.
Example sample_find : findXMLElementMatching sampleTree [1] (λ _, true) = Some [1; 1].
Proof. reflexivity. Qed.
