(* ===== verification/XMLFilter.v ===== *)
(** * XML trees: filtering

    [-XMLElementByFilteringAttributes:children:] and
    [-XMLElementByFilteringDescendantElements:attributes:] of
    src/FeatherAppKitExtensions/NSXMLElement+MPExtensions.m: a walk along [nextNode]
    that writes a new tree through a stack of the elements it is inside of. *)
From Stdlib Require Import Ascii.
From stdpp Require Import base tactics strings numbers list gmap.
From S2P Require Import Prelude ObjC Characters Collections XMLNodes.

(* @src FeatherAppKitExtensions/NSXMLElement+MPExtensions.h 23 28 MPXMLNodeFilteringResult *)
Inductive MPXMLNodeFilteringResult : Type :=
  | MPXMLNodeFilteringResultKeep
  | MPXMLNodeFilteringResultCollapse
  | MPXMLNodeFilteringResultRemove.
Definition keeps (r : MPXMLNodeFilteringResult) : bool :=
  match r with MPXMLNodeFilteringResultKeep => true | _ => false end.

(** ** Strings *)

(** The one-character [substringBefore:] and [substringAfter:]; [None] is [nil]. *)
Fixpoint splitAtCharacter (x : ascii) (s : string) : option (string * string) :=
  match s with
  | EmptyString => None
  | String c s' => if Ascii.eqb c x then Some (EmptyString, s')
                   else '(a, b) ← splitAtCharacter x s'; Some (String c a, b)
  end.
(** ** The tree under construction

    The elements of [newElementStack], the innermost first, each with what has been
    added to it.  An element is added to the one below it when it is pushed; as
    only the innermost ever grows, that is written down when it is popped. *)
Record openElement : Type := {
  oe_name : string; oe_attributes : list (string * string); oe_children : list XMLNode
}.
Definition addChild (c : XMLNode) (stack : list openElement) : list openElement :=
  match stack with
  | e :: rest => {| oe_name := oe_name e; oe_attributes := oe_attributes e; oe_children := oe_children e ++ [c] |} :: rest
  | [] => []
  end.
Definition closed (e : openElement) : XMLNode := XMLElement (oe_name e) (oe_attributes e) (oe_children e).
(** Pop while there are more than [depth]; the new root itself is only let go of
    when the walk is over. *)
Definition pop (stack : list openElement) : list openElement :=
  match stack with
  | e :: (_ :: _) as rest => addChild (closed e) rest
  | _ => stack
  end.
Definition popWhileMore (depth : nat) (stack : list openElement) : list openElement :=
  Nat.iter (length stack - depth) pop stack.

(** [-normalizeAdjacentTextNodesPreservingCDATA:], of the element and all below it:
    neighbouring texts become one, and empty ones go. *)
Fixpoint joinTexts (cs : list XMLNode) : list XMLNode :=
  match cs with
  | XMLText s :: cs =>
      match joinTexts cs with
      | XMLText s' :: cs' => XMLText (String.append s s') :: cs'
      | cs' => if String.eqb s EmptyString then cs' else XMLText s :: cs'
      end
  | c :: cs => c :: joinTexts cs
  | [] => []
  end.
Fixpoint normalizeAdjacentTextNodes (t : XMLNode) : XMLNode :=
  match t with
  | XMLElement name attributes cs => XMLElement name attributes (joinTexts (map normalizeAdjacentTextNodes cs))
  | _ => t
  end.

Section filtering.
Context (root : XMLNode).
Notation nodeAt := (nodeAt root).
Notation nextNode := (nextNode root).
(** The filters: an attribute is passed with the element it is of. *)
Context (attributeFilter : option (position → string * string → MPXMLNodeFilteringResult)).
Context (childFilter : position → MPXMLNodeFilteringResult).

Definition filteredAttributes (p : position) (attributes : list (string * string)) : list (string * string) :=
  match attributeFilter with
  | Some f => List.filter (λ a, keeps (f p a)) attributes
  | None => attributes
  end.

(** [while (innerNode && innerNode.level > node.level)] *)
Fixpoint skipInner (fuel : nat) (node : position) (innerNode : option position) : option position :=
  match fuel, innerNode with
  | S n, Some q => if (level node <? level q)%nat then skipInner n node (nextNode q) else innerNode
  | _, _ => None
  end.

(** One turn of the loop: the node to go on with, and the stack.  A node that is
    neither an element nor a text is not moved on from. *)
Definition filter_step (self p : position) (stack : list openElement) : res (option position * list openElement) :=
  match nodeAt p with
  | Some (XMLElement name attributes _) =>
      Ok match childFilter p with
         | MPXMLNodeFilteringResultKeep =>
             (nextNode p, pushObject stack
                {| oe_name := name; oe_attributes := filteredAttributes p attributes; oe_children := [] |})
         | MPXMLNodeFilteringResultRemove =>
             (skipInner (size root) p (nextNode p) ≫= nextNode, stack)
         | MPXMLNodeFilteringResultCollapse => (nextNode p, stack)
         end
  | Some (XMLText s) =>
      match childFilter p with
      | MPXMLNodeFilteringResultKeep =>
          Ok (nextNode p, addChild (XMLText (stringByTrimmingCharactersInSet newlineCharacter s)) stack)
      | MPXMLNodeFilteringResultRemove => Ok (nextNode p, stack)
      | MPXMLNodeFilteringResultCollapse => Throw (AssertionFailed "node.kind == NSXMLElementKind")
      end
  | _ => Ok (Some p, stack)
  end.

(** [None]: not done within [fuel] turns. *)
Fixpoint filter_loop (fuel : nat) (self : position) (node : option position) (stack : list openElement) :
    option (res (list openElement)) :=
  match fuel with
  | O => None
  | S n =>
      match node with
      | Some p =>
          if (level self <? level p)%nat
          then match nodeAt p with
               | Some XMLOther | None => filter_loop n self node stack
               | _ => match filter_step self p stack with
                      | Throw e => Some (Throw e)
                      | Ok (node, stack) =>
                          let elementDepth := match node with Some q => (level q - level self)%nat | None => 0%nat end in
                          filter_loop n self node (popWhileMore elementDepth stack)
                      end
               end
          else Some (Ok stack)
      | None => Some (Ok stack)
      end
  end.

(* @src FeatherAppKitExtensions/NSXMLElement+MPExtensions.m 1616 1733 -[NSXMLElement XMLElementByFilteringAttributes:children:] *)
Definition XMLElementByFilteringAttributes (fuel : nat) (self : position) : option (res XMLNode) :=
  match nodeAt self with
  | Some (XMLElement name _ _) =>
      let newElement := {| oe_name := name; oe_attributes := []; oe_children := [] |} in
      r ← filter_loop fuel self (head (children root self)) [newElement];
      Some (stack ← r;
            match popWhileMore 1 stack with
            | e :: _ => Ok (normalizeAdjacentTextNodes (closed e))
            | [] => Throw (AssertionFailed "newElement")
            end)
  | _ => Some (Throw (AssertionFailed "self is an element"))
  end.
End filtering.

(** The names that hold for one kind of element only, ["element#attribute"]. *)
Definition allowsAttribute (element attribute allowed : string) : bool :=
  match splitAtCharacter "#"%char allowed with
  | Some (before, after) =>
      String.eqb before element && (String.eqb after attribute || String.eqb after "*")
  | None => false
  end.

(* @src FeatherAppKitExtensions/NSXMLElement+MPExtensions.m 1735 1775 -[NSXMLElement XMLElementByFilteringDescendantElements:attributes:] *)
Definition XMLElementByFilteringDescendantElements (root : XMLNode)
    (allowedElementNames : list string) (allowedAttributeNames : option (list string)) (fuel : nat) (self : position) : option (res XMLNode) :=
  let nameAt p := match nodeAt root p with Some (XMLElement name _ _) => name | _ => EmptyString end in
  XMLElementByFilteringAttributes root
    (Some (λ p attribute,
       match allowedAttributeNames with
       | None => MPXMLNodeFilteringResultKeep
       | Some names =>
           if existsb (String.eqb attribute.1) names then MPXMLNodeFilteringResultKeep
           else if existsb (allowsAttribute (nameAt p) attribute.1) names then MPXMLNodeFilteringResultKeep
           else MPXMLNodeFilteringResultRemove
       end))
    (λ p, match nodeAt root p with
          | Some (XMLText _) => MPXMLNodeFilteringResultKeep
          | Some (XMLElement name _ _) =>
              if existsb (String.eqb (lowercaseString name)) allowedElementNames
              then MPXMLNodeFilteringResultKeep else MPXMLNodeFilteringResultCollapse
          | _ => MPXMLNodeFilteringResultRemove
          end)
    fuel self.

(** ** What is written *)
Inductive token : Type :=
  | ElementToken (name : string) (attributes : list (string * string))
  | TextToken (s : string).

Fixpoint tokens (t : XMLNode) : list token :=
  match t with
  | XMLElement name attributes cs => ElementToken name attributes :: concat (map tokens cs)
  | XMLText s => [TextToken s]
  | XMLOther => []
  end.

(** What the elements of a stack hold, the outermost first. *)
Definition written (stack : list openElement) : list token := concat (map (tokens ∘ closed) (rev stack)).

Lemma written_cons e stack : written (e :: stack) = written stack ++ tokens (closed e).
Proof. unfold written. cbn [rev]. rewrite map_app, concat_app. cbn. by rewrite app_nil_r. Qed.

Lemma written_addChild c stack : stack ≠ [] → written (addChild c stack) = written stack ++ tokens c.
Proof.
  destruct stack as [|e stack]; [done|]. intros _. cbn [addChild]. rewrite !written_cons, <- app_assoc. f_equal.
  unfold closed. cbn [tokens oe_name oe_attributes oe_children]. rewrite map_app, concat_app. cbn.
  by rewrite app_nil_r.
Qed.

Lemma written_pop stack : written (pop stack) = written stack.
Proof.
  destruct stack as [|e [|e' stack]]; [done..|]. unfold pop.
  rewrite written_addChild by done. by rewrite (written_cons e).
Qed.
Lemma pop_nonempty stack : stack ≠ [] → pop stack ≠ [].
Proof. by destruct stack as [|e [|e' stack]]. Qed.
Lemma pops_written n stack :
  stack ≠ [] → Nat.iter n pop stack ≠ [] ∧ written (Nat.iter n pop stack) = written stack.
Proof.
  intros Hs. induction n as [|n [Hn Hw]]; [done|].
  change (Nat.iter (S n) pop stack) with (pop (Nat.iter n pop stack)).
  split; [by apply pop_nonempty|by rewrite written_pop].
Qed.

Section filters.
Context (root : XMLNode).
Context (attributeFilter : option (position → string * string → MPXMLNodeFilteringResult)).
Context (childFilter : position → MPXMLNodeFilteringResult).
Notation nodeAt := (nodeAt root).
Notation step := (filter_step root attributeFilter childFilter).
Notation loop := (filter_loop root attributeFilter childFilter).
Notation filteredAttributes := (filteredAttributes attributeFilter).
Notation trimmed := (stringByTrimmingCharactersInSet newlineCharacter).

(** Elements are kept or collapsed, texts kept or removed, and there is nothing else. *)
Definition suitable (p : position) : Prop :=
  match nodeAt p with
  | Some (XMLElement _ _ _) => childFilter p ≠ MPXMLNodeFilteringResultRemove
  | Some (XMLText _) => childFilter p ≠ MPXMLNodeFilteringResultCollapse
  | _ => False
  end.

Definition keptToken (p : position) : option token :=
  if keeps (childFilter p)
  then match nodeAt p with
       | Some (XMLElement name attributes _) => Some (ElementToken name (filteredAttributes p attributes))
       | Some (XMLText s) => Some (TextToken (trimmed s))
       | _ => None
       end
  else None.

Lemma step_suitable self p stack :
  suitable p → stack ≠ [] →
  ∃ stack', step self p stack = Ok (nextNode root p, stack') ∧ stack' ≠ [] ∧
            written stack' = written stack ++ from_option (λ t, [t]) [] (keptToken p).
Proof.
  unfold suitable, filter_step, keptToken.
  destruct (nodeAt p) as [[name attributes cs|s|]|]; [| |done|done]; intros Hp Hs;
    destruct (childFilter p); try done; cbn [keeps from_option]; eexists; split; try done; split; try done.
  - unfold pushObject. by rewrite written_cons.
  - by rewrite app_nil_r.
  - by destruct stack.
  - by rewrite written_addChild.
  - by rewrite app_nil_r.
Qed.

Lemma loop_writes self l o :
  follows root l o → (∀ q, q ∈ l → (level self < level q)%nat) →
  (∀ q, o = Some q → (level q ≤ level self)%nat) → Forall suitable l →
  ∀ fuel stack, (length l < fuel)%nat → stack ≠ [] →
  ∃ stack', loop fuel self (match l with [] => o | p :: _ => Some p end) stack = Some (Ok stack') ∧
            stack' ≠ [] ∧ written stack' = written stack ++ omap keptToken l.
Proof.
  induction l as [|p l IH]; intros Hl Hlev Ho Hall [|fuel] stack Hf Hs; try (cbn in Hf; lia).
  - exists stack. rewrite app_nil_r. split; [|done]. destruct o as [q|]; [|done]. cbn [filter_loop].
    by rewrite (proj2 (Nat.ltb_ge _ _)) by auto.
  - apply Forall_cons in Hall as [Hp Hall]. destruct Hl as [Hn Hl].
    destruct (step_suitable self p stack Hp Hs) as (stack1 & Hstep & Hs1 & Hw1).
    cbn [filter_loop]. rewrite (proj2 (Nat.ltb_lt _ _)) by (apply Hlev; by left). rewrite Hstep.
    set (d := match nextNode root p with Some _ => _ | None => _ end).
    destruct (pops_written (length stack1 - d) stack1 Hs1) as [Hs2 Hw2].
    destruct (IH Hl ltac:(intros; apply Hlev; by right) Ho Hall fuel (popWhileMore d stack1)
      ltac:(cbn in Hf; lia) Hs2) as (stack' & Hrun & Hs' & Hw').
    exists stack'. rewrite <- Hn in Hrun. split_and!; [|done|].
    + unfold suitable in Hp. by destruct (nodeAt p) as [[]|].
    + rewrite Hw'. unfold popWhileMore. rewrite Hw2, Hw1, <- app_assoc. f_equal.
      cbn [omap list_omap]. by destruct (keptToken p).
Qed.

(** Filtering writes down, in document order, what the filters
    keep: the elements kept with the attributes kept, and the texts kept, trimmed
    of newlines, all under a root that has the name of the receiver and none of
    its attributes - however elements are collapsed in between. *)
Theorem filtering_keeps_order self name attributes cs fuel :
  nodeAt self = Some (XMLElement name attributes cs) →
  Forall suitable (descendants root self) → (size root < fuel)%nat →
  ∃ t, XMLElementByFilteringAttributes root attributeFilter childFilter fuel self
       = Some (Ok (normalizeAdjacentTextNodes t)) ∧
       tokens t = ElementToken name [] :: omap keptToken (descendants root self).
Proof.
  intros Hself Hall Hf. unfold XMLElementByFilteringAttributes. rewrite Hself.
  destruct (descendants_follow root self) as (Hfo & Hh & Hl & Ho & Hn).
  set (e := {| oe_name := name; oe_attributes := []; oe_children := [] |}).
  assert (∃ stack, loop fuel self (head (children root self)) [e] = Some (Ok stack) ∧ stack ≠ [] ∧
    written stack = written [e] ++ omap keptToken (descendants root self)) as (stack & Hrun & Hs & Hw).
  { rewrite Hh. destruct (descendants root self) as [|p l] eqn:E.
    - exists [e]. rewrite app_nil_r. by destruct fuel; [lia|].
    - destruct (loop_writes self (p :: l) (nextAfter root self) Hfo Hl Ho Hall fuel [e]) as (stack & H); [lia|done|].
      by exists stack. }
  rewrite Hrun. cbn [mbind option_bind res_bind]. destruct (pops_written (length stack - 1) stack Hs) as [Hs' Hw'].
  change (popWhileMore 1 stack) with (Nat.iter (length stack - 1) pop stack).
  assert (length (Nat.iter (length stack - 1) pop stack) = 1%nat) as Hlen.
  { clear -Hs. remember (length stack) as k eqn:Ek. revert stack Hs Ek.
    induction k as [|[|k] IH]; intros stack Hs Ek; [by destruct stack|by cbn; congruence|].
    replace (S (S k) - 1)%nat with (S (S k - 1))%nat by lia. rewrite Nat.iter_succ_r.
    destruct stack as [|e1 [|e2 stack]]; try done. apply IH; cbn in *; [done|lia]. }
  destruct (Nat.iter _ _ _) as [|e' [|]]; try done.
  exists (closed e'). split; [done|]. rewrite Hw in Hw'. unfold written in Hw'. cbn in Hw'.
  by rewrite !app_nil_r in Hw'.
Qed.
End filters.

(** ** Filters that keep every element *)
Section structure.
Context (root : XMLNode).
Context (attributeFilter : option (position → string * string → MPXMLNodeFilteringResult)).
Context (childFilter : position → MPXMLNodeFilteringResult).
Notation nodeAt := (nodeAt root).
Notation nextAfter := (nextAfter root).
Notation loop := (filter_loop root attributeFilter childFilter).

(** The reference: the tree again, without the attributes and the texts not kept. *)
Fixpoint filtered (t : XMLNode) (p : position) : list XMLNode :=
  match t with
  | XMLElement name attributes cs =>
      [XMLElement name (filteredAttributes attributeFilter p attributes)
         ((fix below (i : nat) (cs : list XMLNode) : list XMLNode :=
             match cs with [] => [] | c :: cs => filtered c (i :: p) ++ below (S i) cs end) 0%nat cs)]
  | XMLText s =>
      if keeps (childFilter p) then [XMLText (stringByTrimmingCharactersInSet newlineCharacter s)] else []
  | XMLOther => []
  end.
Fixpoint filteredBelow (p : position) (i : nat) (cs : list XMLNode) : list XMLNode :=
  match cs with [] => [] | c :: cs => filtered c (i :: p) ++ filteredBelow p (S i) cs end.

Lemma filtered_unfold name attributes cs p :
  filtered (XMLElement name attributes cs) p
  = [XMLElement name (filteredAttributes attributeFilter p attributes) (filteredBelow p 0 cs)].
Proof.
  cbn [filtered]. do 2 f_equal. generalize 0%nat. induction cs as [|c cs IH]; intros i; [done|].
  cbn [filteredBelow]. by rewrite <- IH.
Qed.

Definition elementsKept (p : position) : Prop :=
  match nodeAt p with
  | Some (XMLElement _ _ _) => childFilter p = MPXMLNodeFilteringResultKeep
  | Some (XMLText _) => childFilter p ≠ MPXMLNodeFilteringResultCollapse
  | _ => False
  end.

Definition extend (cs : list XMLNode) (stack : list openElement) : list openElement :=
  match stack with
  | e :: rest => {| oe_name := oe_name e; oe_attributes := oe_attributes e; oe_children := oe_children e ++ cs |} :: rest
  | [] => []
  end.
Definition depthOf (self : position) (o : option position) : nat :=
  match o with Some q => (level q - level self)%nat | None => 0%nat end.

Lemma extend_nil stack : extend [] stack = stack.
Proof. destruct stack as [|[n a cs] stack]; [done|]. cbn. by rewrite app_nil_r. Qed.
Lemma extend_extend cs ds stack : extend ds (extend cs stack) = extend (cs ++ ds) stack.
Proof. destruct stack as [|e stack]; [done|]. cbn. by rewrite app_assoc. Qed.
Lemma extend_length cs stack : length (extend cs stack) = length stack.
Proof. by destruct stack. Qed.

(** An element that the walk has left is popped into its parent. *)
Lemma popWhileMore_pops d e stack :
  stack ≠ [] → (d ≤ length stack)%nat → popWhileMore d (e :: stack) = popWhileMore d (extend [closed e] stack).
Proof.
  intros Hs Hd. unfold popWhileMore. rewrite extend_length. cbn [length].
  replace (S (length stack) - d)%nat with (S (length stack - d)) by lia. rewrite Nat.iter_succ_r.
  by destruct stack.
Qed.
Lemma popWhileMore_stays d stack : (length stack ≤ d)%nat → popWhileMore d stack = stack.
Proof. intros Hd. unfold popWhileMore. by replace (length stack - d)%nat with 0%nat by lia. Qed.

Lemma popWhileMore_root d e : popWhileMore d [e] = [e].
Proof. by destruct d as [|[|d]]. Qed.

(** From a node on, at the depth of the stack, to what follows its subtree. *)
Definition subtreeWritten (self : position) (t : XMLNode) : Prop :=
  ∀ q stack n, nodeAt q = Some t → Forall elementsKept (preorder t q) →
    stack ≠ [] → (level self + length stack = level q)%nat →
    loop (nodeCount t + n) self (Some q) stack
    = loop n self (nextAfter q) (popWhileMore (depthOf self (nextAfter q)) (extend (filtered t q) stack)).

Lemma depthOf_nextAfter self q : (depthOf self (nextAfter q) ≤ level q - level self)%nat.
Proof.
  destruct (nextAfter q) as [r|] eqn:E; cbn; [|lia]. apply nextAfter_level in E. lia.
Qed.

Lemma forestWritten self q t n ds i stack :
  nodeAt q = Some t → (∀ j, ds !! j = childNodes t !! (i + j)%nat) → Forall (subtreeWritten self) ds →
  ds ≠ [] → Forall elementsKept (forest q i ds) → stack ≠ [] →
  (level self + length stack = S (level q))%nat →
  loop (sum_list_with nodeCount ds + n) self (Some (i :: q)) stack
  = loop n self (nextAfter q) (popWhileMore (depthOf self (nextAfter q)) (extend (filteredBelow q i ds) stack)).
Proof.
  intros Hq. revert i n stack. induction ds as [|d ds IH]; intros i n stack Hds Hall Hne Hk Hs Hlen; [done|].
  apply Forall_cons in Hall as [Hd Hall]. cbn [forest] in Hk. apply Forall_app in Hk as [Hkd Hk].
  assert (nodeAt (i :: q) = Some d) as Hi.
  { eapply nodeAt_child; [done|]. by rewrite <- (Nat.add_0_r i), <- Hds. }
  cbn [sum_list_with filteredBelow]. rewrite <- Nat.add_assoc, (Hd _ _ _ Hi Hkd Hs) by (unfold level in *; cbn; lia).
  cbn [XMLNodes.nextAfter]. destruct ds as [|d' ds].
  - assert (nodeAt (S i :: q) = None) as ->.
    { cbn. rewrite Hq. cbn. rewrite <- (Nat.add_1_r i), <- Hds. done. }
    cbn [sum_list_with filteredBelow]. by rewrite app_nil_r.
  - assert (nodeAt (S i :: q) = Some d') as ->.
    { cbn. rewrite Hq. cbn. rewrite <- (Nat.add_1_r i), <- Hds. done. }
    rewrite popWhileMore_stays by (rewrite extend_length; unfold depthOf, level in *; cbn; lia).
    rewrite IH; [by rewrite extend_extend| |done|done|done| |by rewrite extend_length].
    + intros j. etrans; [exact (Hds (S j))|]. f_equal. lia.
    + by destruct stack.
Qed.

Lemma every_subtreeWritten self t : subtreeWritten self t.
Proof.
  induction t as [name attributes cs IH|s|] using XMLNode_rect'; intros q stack n Hq Hk Hs Hlen.
  3: { apply Forall_cons in Hk as [Hk _]. unfold elementsKept in Hk. by rewrite Hq in Hk. }
  all: assert ((level self <? level q)%nat = true) as Hlt by (apply Nat.ltb_lt; destruct stack; [done|cbn in Hlen; lia]).
  all: assert (level q - level self = length stack)%nat as Hdepth by lia.
  all: pose proof (depthOf_nextAfter self q) as Hd; rewrite Hdepth in Hd.
  - rewrite preorder_unfold in Hk. apply Forall_cons in Hk as [Hq' Hk]. unfold elementsKept in Hq'. rewrite Hq in Hq'.
    rewrite filtered_unfold. cbn [nodeCount plus filter_loop]. rewrite Hlt, Hq. unfold filter_step. rewrite Hq, Hq'.
    set (e := {| oe_name := name; oe_attributes := _; oe_children := [] |}). unfold pushObject.
    destruct cs as [|c cs].
    + assert (nextNode root q = nextAfter q) as -> by (unfold nextNode, XMLNodes.children; by rewrite Hq).
      change (match nextAfter q with Some _ => _ | None => _ end) with (depthOf self (nextAfter q)).
      by rewrite popWhileMore_pops.
    + assert (nextNode root q = Some (0%nat :: q)) as -> by (unfold nextNode, XMLNodes.children; by rewrite Hq).
      rewrite popWhileMore_stays by (unfold level in *; cbn in *; lia).
      rewrite (forestWritten self q (XMLElement name attributes (c :: cs)) n (c :: cs) 0 (e :: stack) Hq);
        [|done|done|done|done|done|unfold level in *; cbn in *; lia].
      cbn [extend app e oe_children oe_name oe_attributes]. by rewrite popWhileMore_pops.
  - apply Forall_cons in Hk as [Hk _]. unfold elementsKept in Hk. rewrite Hq in Hk.
    assert (nextNode root q = nextAfter q) as Hnext by (unfold nextNode, XMLNodes.children; by rewrite Hq).
    cbn [nodeCount plus filter_loop filtered]. rewrite Hlt, Hq. unfold filter_step. rewrite Hq, Hnext.
    destruct (childFilter q); [by destruct stack|done|]. cbn [keeps]. by rewrite extend_nil.
Qed.

(** A filter that keeps every element rebuilds the tree: the
    result is the receiver again, each element below it with the attributes that
    are kept and the texts that are kept, in their places, trimmed of newlines;
    only the receiver's own attributes are gone. *)
Lemma keeping_elements_rebuilds self name attributes cs fuel :
  nodeAt self = Some (XMLElement name attributes cs) →
  Forall elementsKept (descendants root self) → (size root < fuel)%nat →
  XMLElementByFilteringAttributes root attributeFilter childFilter fuel self
  = Some (Ok (normalizeAdjacentTextNodes (XMLElement name [] (filteredBelow self 0 cs)))).
Proof.
  intros Hself Hk Hf. unfold XMLElementByFilteringAttributes. rewrite Hself.
  set (e := {| oe_name := name; oe_attributes := []; oe_children := [] |}).
  assert (∃ m, loop fuel self (head (children root self)) [e]
    = loop (S m) self (nextAfter self) (extend (filteredBelow self 0 cs) [e])
      ∨ head (children root self) = None ∧ cs = []) as (m & [Hrun|[Hrun ->]]).
  - pose proof (nodeCount_le root self _ Hself) as Hn. cbn [nodeCount] in Hn.
    exists (fuel - sum_list_with nodeCount cs - 1)%nat. destruct cs as [|c cs].
    { right. split; [|done]. unfold XMLNodes.children. by rewrite Hself. }
    left. unfold XMLNodes.children. rewrite Hself. cbn [childNodes length seq map head].
    replace fuel with (sum_list_with nodeCount (c :: cs) + S (fuel - sum_list_with nodeCount (c :: cs) - 1))%nat at 1
      by (cbn [sum_list_with] in *; lia).
    rewrite (forestWritten self self (XMLElement name attributes (c :: cs)) _ (c :: cs) 0 [e] Hself);
      [|done|by apply Forall_true, every_subtreeWritten|done| |done|cbn; lia].
    + f_equal. apply popWhileMore_root.
    + unfold descendants in Hk. rewrite Hself, preorder_unfold in Hk. exact Hk.
  - rewrite Hrun. destruct (nextAfter self) as [q|] eqn:E; [|done]. cbn [filter_loop].
    apply nextAfter_level in E. by rewrite (proj2 (Nat.ltb_ge _ _)).
  - rewrite Hrun. destruct fuel; [lia|done].
Qed.
End structure.

(** ** What is allowed *)

Definition allowedAttribute (allowedAttributeNames : option (list string)) (element attribute : string) : bool :=
  match allowedAttributeNames with
  | None => true
  | Some names => existsb (λ n, String.eqb attribute n || allowsAttribute element attribute n) names
  end.

(** The tree, its elements with the attributes allowed. *)
Fixpoint allowedOnly (allowedAttributeNames : option (list string)) (t : XMLNode) : XMLNode :=
  match t with
  | XMLElement name attributes cs =>
      XMLElement name (List.filter (λ a, allowedAttribute allowedAttributeNames name a.1) attributes)
        (map (allowedOnly allowedAttributeNames) cs)
  | _ => t
  end.

(** Elements with allowed names, and texts with no newline at their ends. *)
Fixpoint allowedElements (allowedElementNames : list string) (t : XMLNode) : bool :=
  match t with
  | XMLElement name _ cs =>
      existsb (String.eqb (lowercaseString name)) allowedElementNames && forallb (allowedElements allowedElementNames) cs
  | XMLText s => String.eqb (stringByTrimmingCharactersInSet newlineCharacter s) s
  | XMLOther => false
  end.

(** No text is empty, or next to another one. *)
Fixpoint apart (cs : list XMLNode) : bool :=
  match cs with
  | XMLText s :: cs' =>
      negb (String.eqb s EmptyString) && negb (from_option isTextNode false (head cs')) && apart cs'
  | _ :: cs' => apart cs'
  | [] => true
  end.
Fixpoint separated (t : XMLNode) : bool :=
  match t with XMLElement _ _ cs => apart cs && forallb separated cs | _ => true end.

Lemma joinTexts_apart cs : apart cs = true → joinTexts cs = cs.
Proof.
  induction cs as [|[n a ds|s|] cs IH]; [done|cbn; intros; by rewrite IH| |cbn; intros; by rewrite IH].
  cbn [apart joinTexts]. intros [[Hs Ht]%andb_true_iff Hcs]%andb_true_iff. rewrite (IH Hcs).
  apply negb_true_iff in Hs. rewrite Hs. by destruct cs as [|[]].
Qed.

Lemma normalize_separated t : separated t = true → normalizeAdjacentTextNodes t = t.
Proof.
  induction t as [n a cs IH|s|] using XMLNode_rect'; [|done|done]. cbn [separated normalizeAdjacentTextNodes].
  intros [Hap Hcs]%andb_true_iff.
  assert (map normalizeAdjacentTextNodes cs = cs) as ->; [|by rewrite joinTexts_apart].
  clear Hap. induction IH as [|c cs Hc _ IHcs]; [done|]. cbn in *. apply andb_true_iff in Hcs as [? ?].
  by rewrite Hc, IHcs.
Qed.

Lemma allowedOnly_all t : allowedOnly None t = t.
Proof.
  induction t as [n a cs IH|s|] using XMLNode_rect'; [|done|done]. cbn. f_equal.
  - induction a as [|x a IHa]; [done|]. cbn. by rewrite IHa.
  - induction IH as [|c cs Hc _ IHcs]; [done|]. cbn. by rewrite Hc, IHcs.
Qed.

Section allowed.
Context (root : XMLNode) (allowedElementNames : list string) (allowedAttributeNames : option (list string)).
Notation nodeAt := (nodeAt root).
Notation nameAt p := (match nodeAt p with Some (XMLElement name _ _) => name | _ => EmptyString end).

Definition attributeFilter (p : position) (attribute : string * string) : MPXMLNodeFilteringResult :=
  match allowedAttributeNames with
  | None => MPXMLNodeFilteringResultKeep
  | Some names =>
      if existsb (String.eqb attribute.1) names then MPXMLNodeFilteringResultKeep
      else if existsb (allowsAttribute (nameAt p) attribute.1) names then MPXMLNodeFilteringResultKeep
      else MPXMLNodeFilteringResultRemove
  end.
Definition childFilter (p : position) : MPXMLNodeFilteringResult :=
  match nodeAt p with
  | Some (XMLText _) => MPXMLNodeFilteringResultKeep
  | Some (XMLElement name _ _) =>
      if existsb (String.eqb (lowercaseString name)) allowedElementNames
      then MPXMLNodeFilteringResultKeep else MPXMLNodeFilteringResultCollapse
  | _ => MPXMLNodeFilteringResultRemove
  end.

Lemma attributeFilter_allowed p name attributes cs attribute :
  nodeAt p = Some (XMLElement name attributes cs) →
  keeps (attributeFilter p attribute) = allowedAttribute allowedAttributeNames name attribute.1.
Proof.
  intros Hp. unfold attributeFilter, allowedAttribute. rewrite Hp. destruct allowedAttributeNames as [names|]; [|done].
  assert (∀ f g : string → bool, existsb (λ n, f n || g n) names = existsb f names || existsb g names) as ->.
  { intros f g. induction names as [|n names IH]; [done|]. cbn. rewrite IH. by destruct (f n), (g n), (existsb f names). }
  destruct (existsb (String.eqb attribute.1) names), (existsb _ names); done.
Qed.

(** What is allowed is kept, and is the reference of it. *)
Definition keptAsAllowed (t : XMLNode) : Prop :=
  ∀ p, nodeAt p = Some t → allowedElements allowedElementNames t = true →
    Forall (elementsKept root childFilter) (preorder t p) ∧
    filtered (Some attributeFilter) childFilter t p = [allowedOnly allowedAttributeNames t].

Lemma allowed_below t p i ds :
  nodeAt p = Some t → (∀ j, ds !! j = childNodes t !! (i + j)%nat) → Forall keptAsAllowed ds →
  forallb (allowedElements allowedElementNames) ds = true →
  Forall (elementsKept root childFilter) (forest p i ds) ∧
  filteredBelow (Some attributeFilter) childFilter p i ds = map (allowedOnly allowedAttributeNames) ds.
Proof.
  intros Hp Hds Hall. revert i Hds. induction Hall as [|d ds Hd _ IH]; intros i Hds Hok; [done|].
  cbn [forallb] in Hok. apply andb_true_iff in Hok as [Hok Hoks].
  destruct (Hd (i :: p)) as [Hk Hf]; [|done|].
  { eapply nodeAt_child; [done|]. by rewrite <- (Nat.add_0_r i), <- Hds. }
  destruct (IH (S i)) as [Hks Hfs]; [|done|].
  { intros j. etrans; [exact (Hds (S j))|]. f_equal. lia. }
  cbn [forest filteredBelow map]. rewrite Hf, Hfs. split; [by apply Forall_app|done].
Qed.

Lemma allowed_kept t : keptAsAllowed t.
Proof.
  induction t as [n a cs IH|s|] using XMLNode_rect'; intros p Hp Ht; [| |done].
  - cbn [allowedElements] in Ht. apply andb_true_iff in Ht as [Hn Hcs].
    rewrite preorder_unfold, filtered_unfold. cbn [childNodes allowedOnly].
    destruct (allowed_below _ p 0 cs Hp (λ _, eq_refl) IH Hcs) as [Hk Hf]. rewrite Hf. split.
    + constructor; [|done]. unfold elementsKept, childFilter. by rewrite Hp, Hn.
    + do 2 f_equal. unfold filteredAttributes. apply List.filter_ext. intros attribute.
      by rewrite (attributeFilter_allowed p n a cs attribute Hp).
  - cbn in *. unfold elementsKept, childFilter. rewrite Hp. split; [by repeat constructor; rewrite Hp|].
    cbn. by apply String.eqb_eq in Ht as ->.
Qed.
End allowed.

(** C33 (equivalence). Filtering an element when the names of all elements below it are allowed
    - in lower case, as they are looked up - gives an otherwise identical element: the
    same tree, each element with the attributes allowed for elements of its name and no
    others, with neighbouring texts joined and empty ones dropped; and when no texts are empty
    or neighbours and no attributes are named, the very same tree.  The element
    filtered has no attributes itself, and below it are elements and texts only, the
    texts without newlines at their ends. *)
Theorem filtering_keeps_structure root self name cs allowedElementNames allowedAttributeNames fuel :
  nodeAt root self = Some (XMLElement name [] cs) →
  forallb (allowedElements allowedElementNames) cs = true → (size root < fuel)%nat →
  let result := XMLElementByFilteringDescendantElements root allowedElementNames allowedAttributeNames fuel self in
  result = Some (Ok (normalizeAdjacentTextNodes (allowedOnly allowedAttributeNames (XMLElement name [] cs)))) ∧
  (allowedAttributeNames = None → separated (XMLElement name [] cs) = true → result = Some (Ok (XMLElement name [] cs))).
Proof.
  intros Hself Hcs Hf.
  assert (Hall : Forall (keptAsAllowed root allowedElementNames allowedAttributeNames) cs)
    by apply Forall_true, allowed_kept.
  destruct (allowed_below root allowedElementNames allowedAttributeNames _ self 0 cs Hself (λ _, eq_refl) Hall Hcs) as [Hk Hb].
  assert (Hr : XMLElementByFilteringDescendantElements root allowedElementNames allowedAttributeNames fuel self =
    Some (Ok (normalizeAdjacentTextNodes (allowedOnly allowedAttributeNames (XMLElement name [] cs))))).
  { etrans; [apply (keeping_elements_rebuilds root _ _ self name [] cs fuel Hself)|cbn [allowedOnly List.filter]; by rewrite <- Hb].
    - unfold descendants. rewrite Hself, preorder_unfold. exact Hk.
    - done. }
  cbn zeta. split; [done|]. intros -> Hsep. rewrite Hr, allowedOnly_all. by rewrite normalize_separated.
Qed.

(** ** On small trees *)
Section samples.
Local Open Scope string_scope.
Definition el (name : string) (cs : list XMLNode) : XMLNode := XMLElement name [] cs.

Definition emphasised : XMLNode :=
  XMLElement "div" [("id", "d")] [XMLElement "span" [("class", "c"); ("id", "s")] [el "b" [XMLText "x"]; el "i" [XMLText "y"]];
                                  XMLText "z"].
Definition keepIDs (p : position) (attribute : string * string) : MPXMLNodeFilteringResult :=
  if String.eqb attribute.1 "id" then MPXMLNodeFilteringResultKeep else MPXMLNodeFilteringResultRemove.

(** A collapsed element leaves the stack short of its depth: what should follow [b]
    is put inside of it. *)
Example collapsing_nests_siblings :
  XMLElementByFilteringDescendantElements emphasised ["b"; "i"] None 10 []
  = Some (Ok (el "div" [el "b" [XMLText "x"; el "i" [XMLText "y"]]; XMLText "z"])).
Proof. reflexivity. Qed.

(** Behind a removed element one node more is passed over. *)
Example removing_skips_the_next :
  XMLElementByFilteringAttributes (el "div" [el "b" []; el "i" []; el "u" []]) None
    (λ p, if bool_decide (p = [0%nat]) then MPXMLNodeFilteringResultRemove else MPXMLNodeFilteringResultKeep) 10 []
  = Some (Ok (el "div" [el "u" []])).
Proof. reflexivity. Qed.

(** A comment is never left. *)
Lemma comments_are_not_passed fuel :
  XMLElementByFilteringDescendantElements (el "div" [XMLOther]) ["b"] None fuel [] = None.
Proof.
  unfold XMLElementByFilteringDescendantElements, XMLElementByFilteringAttributes. cbn [nodeAt el].
  match goal with |- (r ← ?run; _) = _ => assert (run = None) as ->; [|done] end.
  induction fuel as [|fuel IH]; [done|]. exact IH.
Qed.

Lemma filtering_keeps_order_witness :
  let collapseSpan p := if bool_decide (p = [0%nat]) then MPXMLNodeFilteringResultCollapse
                        else MPXMLNodeFilteringResultKeep in
  ∃ t, XMLElementByFilteringAttributes emphasised (Some keepIDs) collapseSpan 10 [] = Some (Ok (normalizeAdjacentTextNodes t)) ∧
       tokens t = [ElementToken "div" []; ElementToken "b" []; TextToken "x"; ElementToken "i" []; TextToken "y";
                   TextToken "z"].
Proof.
  cbn zeta.
  destruct (filtering_keeps_order emphasised (Some keepIDs)
           (λ p, if bool_decide (p = [0%nat]) then MPXMLNodeFilteringResultCollapse else MPXMLNodeFilteringResultKeep)
           [] "div" [("id", "d")] (childNodes emphasised) 10) as (t & Hrun & Ht); [reflexivity| |vm_compute; lia|].
  - repeat constructor; discriminate.
  - exists t. split; [exact Hrun|]. rewrite Ht. vm_compute. reflexivity.
Defined.

(** The attributes of the element itself are not among those allowed or not; texts lose the
    newlines at their ends. *)
Example root_attributes_are_dropped :
  XMLElementByFilteringDescendantElements (XMLElement "div" [("id", "d")] [XMLText (String "010" "z")]) [] None 10 []
  = Some (Ok (el "div" [XMLText "z"])).
Proof. reflexivity. Qed.

Definition marked : XMLNode :=
  el "p" [XMLElement "Span" [("class", "c"); ("id", "s")] [el "b" [XMLText "x"]; XMLText "y"]; XMLText "z"; XMLText "!"].

Lemma filtering_keeps_structure_witness :
  XMLElementByFilteringDescendantElements marked ["span"; "b"] (Some ["id"; "b#*"]) 10 []
    = Some (Ok (el "p" [XMLElement "Span" [("id", "s")] [el "b" [XMLText "x"]; XMLText "y"]; XMLText "z!"])) ∧
  XMLElementByFilteringDescendantElements (el "p" [XMLText "z"]) [] None 10 [] = Some (Ok (el "p" [XMLText "z"])).
Proof.
  split.
  - apply (filtering_keeps_structure marked [] "p" (childNodes marked) ["span"; "b"] (Some ["id"; "b#*"]) 10);
      [reflexivity|reflexivity|vm_compute; lia].
  - apply (filtering_keeps_structure (el "p" [XMLText "z"]) [] "p" [XMLText "z"] [] None 10);
      [reflexivity|reflexivity|vm_compute; lia|reflexivity|reflexivity].
Defined.
End samples.
