(* ===== verification/XMLText.v ===== *)
(** * XML text: escaping

    The string functions of src/FeatherAppKitExtensions/NSXMLElement+MPExtensions.m
    that turn plain text into XML text content and attribute values. *)
From Stdlib Require Import Ascii.
From stdpp Require Import base tactics strings numbers list gmap.
From S2P Require Import Prelude ObjC.

Section escaping.
Local Open Scope string_scope.
Local Open Scope char_scope.

Definition ampersand : ascii := "&".
Definition quotationMark : ascii := ascii_of_nat 34.
Definition apostrophe : ascii := ascii_of_nat 39.

(** ** Entities *)
Definition entities : list (string * ascii) :=
  [("&amp;"%string, ampersand); ("&quot;"%string, quotationMark); ("&apos;"%string, apostrophe);
   ("&lt;"%string, "<"); ("&gt;"%string, ">")].
(** The entity a text begins with. *)
Definition entityAt (s : string) : option (string * ascii) :=
  List.find (λ e, String.prefix e.1 s) entities.

Definition decimalDigit (c : ascii) : bool := let n := nat_of_ascii c in ((48 <=? n) && (n <=? 57))%nat.
Definition hexDigit (c : ascii) : bool :=
  let n := nat_of_ascii c in
  ((48 <=? n) && (n <=? 57) || (97 <=? n) && (n <=? 102) || (65 <=? n) && (n <=? 70))%nat.

(** The loop over the digits of a numeric entity, [count] of them read. *)
Fixpoint digitsThenSemicolon (digit : ascii → bool) (count : nat) (s : string) : bool :=
  match s with
  | EmptyString => false
  | String c s' =>
      if digit c then digitsThenSemicolon digit (S count) s'
      else Ascii.eqb c ";" && (0 <? count)%nat
  end.
(** A text that begins with [&], by what comes after it. *)
Definition numericEntityAfter (s : string) : bool :=
  match s with
  | String "#" s' =>
      match s' with
      | EmptyString => false
      | String c s'' => if Ascii.eqb c "x" then digitsThenSemicolon hexDigit 0 s''
                        else digitsThenSemicolon decimalDigit 0 s'
      end
  | _ => false
  end.
Definition startsEntity (s : string) : bool :=
  match entityAt s with
  | Some _ => true
  | None => match s with String "&" s' => numericEntityAfter s' | _ => false end
  end.

(** ** Escaping *)

(** The loop from one ampersand to the next: what is inserted holds none that is
    looked at again. *)
Fixpoint escapeAmpersands (s : string) : string :=
  match s with
  | EmptyString => EmptyString
  | String c s' =>
      if Ascii.eqb c ampersand && negb (startsEntity s)
      then String.append "&amp;"%string (escapeAmpersands s')
      else String c (escapeAmpersands s')
  end.

(* @src FeatherAppKitExtensions/NSXMLElement+MPExtensions.m 1842 1920 -[NSString stringByEscapingUnescapedAmpersands] *)
Definition stringByEscapingUnescapedAmpersands (s : string) : string :=
  if negb (hasChar ampersand s) then s else escapeAmpersands s.

(* @src FeatherAppKitExtensions/NSXMLElement+MPExtensions.m 1930 1936 -[NSString stringByEscapingAsXMLTextContent] *)
Definition stringByEscapingAsXMLTextContent (self : string) : string :=
  let s := stringByEscapingUnescapedAmpersands self in
  let s := replaceOccurrences "<"%string "&lt;"%string s in
  replaceOccurrences ">"%string "&gt;"%string s.

(* @src FeatherAppKitExtensions/NSXMLElement+MPExtensions.m 1922 1928 -[NSString stringByEscapingAsXMLAttributeValue] *)
Definition stringByEscapingAsXMLAttributeValue (self : string) : string :=
  let s := stringByEscapingAsXMLTextContent self in
  let s := replaceOccurrences (String quotationMark EmptyString) "&quot;"%string s in
  replaceOccurrences (String apostrophe EmptyString) "&apos;"%string s.

(* @src FeatherAppKitExtensions/NSXMLElement+MPExtensions.m 1938 1956 -[NSString stringByReplacingHTMLNamedEntitiesWithNumericEntities] *)
Definition stringByReplacingHTMLNamedEntitiesWithNumericEntities (self : string) : string :=
  if negb (hasChar ampersand self) then self else replaceOccurrences "&nbsp;"%string "&#xA0;"%string self.

(** ** What XML text stands for

    Characters, and references to code points left as they are written. *)
Inductive symbol : Type :=
  | Character (c : ascii)
  | Reference.   (* and the characters of the number behind it *)

(** [skip] characters belong to an entity that was read; an ampersand that starts
    no entity is taken for itself. *)
Fixpoint decode_from (skip : nat) (s : string) : list symbol :=
  match s with
  | EmptyString => []
  | String c s' =>
      match skip with
      | S k => decode_from k s'
      | O => match entityAt s with
             | Some (e, x) => Character x :: decode_from (String.length e - 1) s'
             | None => (if startsEntity s then Reference else Character c) :: decode_from 0 s'
             end
      end
  end.
Definition decode (s : string) : list symbol := decode_from 0 s.

(** Every ampersand starts an entity, and none of [forbidden] occurs. *)
Fixpoint escaped (forbidden : list ascii) (s : string) : bool :=
  match s with
  | EmptyString => true
  | String c s' =>
      negb (existsb (Ascii.eqb c) forbidden) && (negb (Ascii.eqb c ampersand) || startsEntity s) && escaped forbidden s'
  end.

Example escape_solo : stringByEscapingAsXMLTextContent "a & b &lt; <c> &#x3C;"%string
                      = "a &amp; b &lt; &lt;c&gt; &#x3C;"%string.
Proof. reflexivity. Qed.
Example decode_solo : decode "a&lt;&"%string = [Character "a"; Character "<"; Character "&"].
Proof. reflexivity. Qed.
End escaping.

(** ** Functions that write entities

    The stages of escaping copy a text, but for some special characters for which
    they write the entity. *)
Section expanders.
Local Open Scope char_scope.

Definition special (c : ascii) : bool := existsb (Ascii.eqb c) (map snd entities).
#[local] Arguments special : simpl never.
Fixpoint ordinary (s : string) : bool :=
  match s with EmptyString => true | String c s' => negb (special c) && ordinary s' end.

Record expander (g : string → string) : Prop := {
  expander_nil : g EmptyString = EmptyString;
  expander_char c s :
    g (String c s) = String c (g s) ∨
    ∃ e, (e, c) ∈ entities ∧ startsEntity (String c s) = false ∧ g (String c s) = String.append e (g s)
}.

(** The body of an entity behind its ampersand *)
Lemma entities_shape e c :
  (e, c) ∈ entities → ∃ b, e = String ampersand b ∧ ordinary b = true ∧ special c = true.
Proof.
  intros H. unfold entities in H. rewrite !elem_of_cons, elem_of_nil in H.
  destruct_or!; simplify_eq; (eexists; split; [reflexivity|by vm_compute]).
Qed.

Lemma entity_special e c : (e, c) ∈ entities → special c = true.
Proof. by intros (b & _ & _ & H)%entities_shape. Qed.

Section one.
Context (g : string → string) (Hg : expander g).

Lemma expander_ordinary c s : special c = false → g (String c s) = String c (g s).
Proof.
  intros Hc. destruct (expander_char g Hg c s) as [E|(e & He & _)]; [done|].
  apply entity_special in He. congruence.
Qed.

(** A special character gives way to another one only. *)
Lemma expander_special c s : special c = true → ∃ d r, special d = true ∧ g (String c s) = String d r.
Proof.
  intros Hc. destruct (expander_char g Hg c s) as [E|(e & He & _ & E)]; [by eauto|].
  apply entities_shape in He as (b & -> & _ & _). rewrite E. by exists ampersand, (String.append b (g s)).
Qed.

Lemma prefix_expander b s : ordinary b = true → String.prefix b (g s) = String.prefix b s.
Proof.
  revert s. induction b as [|x b IH]; intros s Hb; [by destruct (g s), s|].
  cbn in Hb. apply andb_true_iff in Hb as [Hx Hb]. apply negb_true_iff in Hx.
  destruct s as [|c s]; [by rewrite (expander_nil g Hg)|].
  destruct (special c) eqn:Ec.
  - destruct (expander_special c s Ec) as (d & r & Hd & ->). cbn.
    destruct (ascii_dec x d), (ascii_dec x c); congruence.
  - rewrite expander_ordinary by done. cbn. destruct (ascii_dec x c); [by apply IH|done].
Qed.

Lemma digits_expander digit n s :
  (∀ c, special c = true → digit c = false) →
  digitsThenSemicolon digit n (g s) = digitsThenSemicolon digit n s.
Proof.
  intros Hdig. revert n. induction s as [|c s IH]; intros n; [by rewrite (expander_nil g Hg)|].
  destruct (special c) eqn:Ec.
  - destruct (expander_special c s Ec) as (d & r & Hd & ->). cbn. rewrite !Hdig by done.
    destruct (Ascii.eqb_spec d ";") as [->|], (Ascii.eqb_spec c ";") as [->|]; done.
  - rewrite expander_ordinary by done. cbn. by rewrite IH.
Qed.

Lemma numeric_expander s : numericEntityAfter (g s) = numericEntityAfter s.
Proof.
  assert (∀ c, special c = true → decimalDigit c = false ∧ hexDigit c = false ∧ c ≠ "#" ∧ c ≠ "x") as Hsp.
  { intros c (y & Hy & E)%existsb_exists. apply Ascii.eqb_eq in E as ->. cbn in Hy. destruct_or!; by subst. }
  destruct s as [|c s]; [by rewrite (expander_nil g Hg)|]. destruct (special c) eqn:Ec.
  { destruct (expander_special c s Ec) as (d & r & Hd & ->).
    assert (∀ c s, special c = true → numericEntityAfter (String c s) = false) as H; [|by rewrite !H].
    intros c' s' (_ & _ & Hne & _)%Hsp. cbn. by destruct c' as [[] [] [] [] [] [] [] []]. }
  rewrite expander_ordinary by done. destruct (ascii_dec c "#") as [->|Hne].
  2: { cbn. by destruct c as [[] [] [] [] [] [] [] []]. }
  cbn [numericEntityAfter]. destruct s as [|x s]; [by rewrite (expander_nil g Hg)|]. destruct (special x) eqn:Ex.
  - destruct (expander_special x s Ex) as (d & r & Hd & E). rewrite E.
    destruct (Hsp x Ex) as (Hx1 & Hx2 & _ & Hx3), (Hsp d Hd) as (Hd1 & Hd2 & _ & Hd3).
    destruct (Ascii.eqb_spec x "x"), (Ascii.eqb_spec d "x"); try done. cbn. rewrite Hx1, Hd1, !andb_false_r. done.
  - rewrite expander_ordinary by done. destruct (Ascii.eqb x "x").
    + apply digits_expander. intros c Hc. by apply Hsp.
    + rewrite <- (expander_ordinary x s Ex). apply digits_expander. intros c Hc. by apply Hsp.
Qed.

(** Where an ampersand starts an entity, it still does. *)
Lemma entityAt_expander s : entityAt (String ampersand (g s)) = entityAt (String ampersand s).
Proof.
  unfold entityAt. assert (∀ l, (∀ e, e ∈ l → e ∈ entities) →
    List.find (λ e, String.prefix e.1 (String ampersand (g s))) l
    = List.find (λ e, String.prefix e.1 (String ampersand s)) l) as H; [|by apply H].
  induction l as [|[e c] l IH]; intros Hl; [done|]. cbn [List.find fst].
  destruct (entities_shape e c) as (b & -> & Hb & _); [apply Hl; by left|].
  assert (∀ t, String.prefix (String ampersand b) (String ampersand t) = String.prefix b t) as Hp by done.
  rewrite !Hp, prefix_expander by done. rewrite IH; [done|]. intros e He. apply Hl. by right.
Qed.
Lemma startsEntity_expander s : startsEntity (String ampersand (g s)) = startsEntity (String ampersand s).
Proof.
  unfold startsEntity. rewrite entityAt_expander. destruct (entityAt _); [done|]. apply numeric_expander.
Qed.
End one.
End expanders.

Section stages.
Local Open Scope char_scope.
#[local] Arguments special : simpl never.
#[local] Arguments entities : simpl never.

(** ** The stages *)
Lemma ampersands_expander : expander escapeAmpersands.
Proof.
  split; [done|]. intros c s. cbn [escapeAmpersands]. destruct (Ascii.eqb_spec c ampersand) as [->|]; [|by left].
  destruct (startsEntity (String ampersand s)) eqn:E; [by left|right].
  exists "&amp;"%string. split; [|done]. unfold entities. set_solver.
Qed.

Lemma replace_char x rep c s :
  replaceOccurrences (String x EmptyString) rep (String c s)
  = if Ascii.eqb x c then String.append rep (replaceOccurrences (String x EmptyString) rep s)
    else String c (replaceOccurrences (String x EmptyString) rep s).
Proof.
  unfold replaceOccurrences. cbn. destruct (ascii_dec x c) as [->|Hne].
  - rewrite Ascii.eqb_refl. by destruct s.
  - by destruct (Ascii.eqb_spec x c).
Qed.

Lemma replace_expander x e : (e, x) ∈ entities → x ≠ ampersand →
  expander (replaceOccurrences (String x EmptyString) e).
Proof.
  intros He Hx. split; [done|]. intros c s. rewrite replace_char.
  destruct (Ascii.eqb_spec x c) as [<-|]; [right|by left]. exists e. split; [done|]. split; [|done].
  unfold entities in He. rewrite !elem_of_cons, elem_of_nil in He. by destruct_or!; simplify_eq.
Qed.

Lemma ampersands_char s : stringByEscapingUnescapedAmpersands s = escapeAmpersands s.
Proof.
  unfold stringByEscapingUnescapedAmpersands. destruct (hasChar ampersand s) eqn:E; [done|]. cbn [negb].
  induction s as [|c s IH]; [done|]. cbn in E. apply orb_false_iff in E as [Hc Hs].
  cbn [escapeAmpersands]. rewrite Hc. cbn [andb]. by rewrite <- IH.
Qed.

(** ** The denotation is kept *)
Lemma append_cons x b s : String.append (String x b) s = String x (String.append b s).
Proof. done. Qed.
Lemma prefix_split b s : String.prefix b s = true → ∃ r, s = String.append b r.
Proof.
  revert s. induction b as [|x b IH]; intros s; [by exists s|]. destruct s as [|c s]; [done|]. cbn.
  destruct (ascii_dec x c) as [->|]; [|done]. intros (r & ->)%IH. by exists r.
Qed.

Lemma decode_skip b r : decode_from (String.length b) (String.append b r) = decode_from 0 r.
Proof. induction b as [|x b IH]; [done|exact IH]. Qed.

Lemma expander_ordinary_append g b s :
  expander g → ordinary b = true → g (String.append b s) = String.append b (g s).
Proof.
  intros Hg. induction b as [|x b IH]; [done|]. cbn [ordinary]. rewrite !append_cons. intros [Hx%negb_true_iff Hb]%andb_true_iff.
  rewrite (expander_ordinary g Hg) by done. by rewrite IH.
Qed.

Lemma entityAt_other c s : c ≠ ampersand → entityAt (String c s) = None.
Proof.
  intros Hc. destruct c as [[] [] [] [] [] [] [] []]; try reflexivity. by destruct Hc.
Qed.
Lemma startsEntity_other c s : c ≠ ampersand → startsEntity (String c s) = false.
Proof.
  intros Hc. unfold startsEntity. rewrite entityAt_other by done. by destruct c as [[] [] [] [] [] [] [] []].
Qed.

Lemma entityAt_some s e x : entityAt s = Some (e, x) →
  (e, x) ∈ entities ∧ ∃ b r, e = String ampersand b ∧ ordinary b = true ∧ s = String ampersand (String.append b r).
Proof.
  intros H. unfold entityAt in H. apply find_some in H as [Hin Hp].
  assert ((e, x) ∈ entities) as He by by apply list_elem_of_In.
  split; [done|]. destruct (entities_shape e x He) as (b & -> & Hb & _). exists b.
  apply prefix_split in Hp as (r & ->). by exists r.
Qed.

(** An entity is found where it is written. *)
Lemma entityAt_append e x r : (e, x) ∈ entities → entityAt (String.append e r) = Some (e, x).
Proof.
  intros He. unfold entities in He. rewrite !elem_of_cons, elem_of_nil in He.
  destruct_or!; simplify_eq; unfold entityAt, entities; cbn; by destruct r.
Qed.

Lemma decode_expander g s : expander g → decode (g s) = decode s.
Proof.
  intros Hg. unfold decode. remember (String.length s) as n eqn:Hn. revert s Hn.
  induction n as [n IH] using lt_wf_ind. intros [|c s] ->; [by rewrite (expander_nil g Hg)|].
  cbn [String.length] in IH.
  destruct (ascii_dec c ampersand) as [->|Hc].
  - destruct (expander_char g Hg ampersand s) as [->|(e & He & Hs & ->)].
    + cbn [decode_from]. rewrite (entityAt_expander g Hg), (startsEntity_expander g Hg).
      destruct (entityAt (String ampersand s)) as [[e x]|] eqn:E; [|by rewrite (IH (String.length s) ltac:(lia) s eq_refl)].
      apply entityAt_some in E as (He & b & r & -> & Hb & [= ->]). f_equal.
      change (String.length (String ampersand b) - 1)%nat with (String.length b - 0)%nat. rewrite Nat.sub_0_r.
      rewrite (expander_ordinary_append g b r Hg Hb), !decode_skip. eapply IH; [|reflexivity].
      clear. induction b as [|x' b IHb]; [apply Nat.lt_succ_diag_r|].
      rewrite append_cons. cbn [String.length]. lia.
    + assert (entityAt (String ampersand s) = None) as Hnone
        by (unfold startsEntity in Hs; by destruct (entityAt _)).
      cbn [decode_from]. rewrite Hnone, Hs. pose proof (entityAt_append e ampersand (g s) He) as Happ.
      destruct (entities_shape e ampersand He) as (b & -> & _ & _).
      rewrite append_cons in Happ |- *. cbn [decode_from]. rewrite Happ. f_equal.
      change (String.length (String ampersand b) - 1)%nat with (String.length b - 0)%nat. rewrite Nat.sub_0_r.
      rewrite decode_skip. eapply IH; [|reflexivity]. lia.
  - assert (decode_from 0 (String c s) = Character c :: decode_from 0 s) as ->
      by (cbn [decode_from]; by rewrite entityAt_other, startsEntity_other).
    destruct (expander_char g Hg c s) as [->|(e & He & Hs & ->)].
    + cbn [decode_from]. rewrite entityAt_other, startsEntity_other by done. f_equal. eapply IH; [|reflexivity]. lia.
    + pose proof (entityAt_append e c (g s) He) as Happ.
      destruct (entities_shape e c He) as (b & -> & _ & _).
      rewrite append_cons in Happ |- *. cbn [decode_from]. rewrite Happ. f_equal.
      change (String.length (String ampersand b) - 1)%nat with (String.length b - 0)%nat. rewrite Nat.sub_0_r.
      rewrite decode_skip. eapply IH; [|reflexivity]. lia.
Qed.
End stages.

(** ** What escaped text looks like *)
Section escapedText.
Local Open Scope char_scope.
#[local] Arguments special : simpl never.

Lemma escaped_append forbidden e s :
  (∃ x, (e, x) ∈ entities) → (∀ c, c ∈ forbidden → hasChar c e = false) →
  escaped forbidden (String.append e s) = escaped forbidden s.
Proof.
  intros (x & He) Hf. pose proof (entityAt_append e x s He) as Hat.
  destruct (entities_shape e x He) as (b & -> & Hb & _).
  assert (∀ c, c ∈ forbidden → Ascii.eqb ampersand c = false ∧ hasChar c b = false) as Hf'.
  { intros c Hc. apply Hf in Hc. cbn in Hc. by apply orb_false_iff in Hc. }
  assert (∀ d, (∀ c, c ∈ forbidden → Ascii.eqb d c = false) → existsb (Ascii.eqb d) forbidden = false) as Hno.
  { intros d Hd. apply not_true_iff_false. intros (c & Hc%list_elem_of_In & E)%existsb_exists.
    by rewrite Hd in E. }
  rewrite append_cons in Hat |- *. cbn [escaped]. rewrite Hno by (intros; by apply Hf').
  assert (startsEntity (String ampersand (String.append b s)) = true) as -> by (unfold startsEntity; by rewrite Hat).
  rewrite orb_true_r. cbn [negb andb]. clear Hat He Hf.
  assert (∀ c, c ∈ forbidden → hasChar c b = false) as Hfb by (intros; by apply Hf'). clear Hf'.
  induction b as [|d b IH]; [done|]. cbn [ordinary] in Hb. apply andb_true_iff in Hb as [Hd%negb_true_iff Hb].
  rewrite append_cons. cbn [escaped]. rewrite IH; [|done|].
  - rewrite Hno; [|intros c Hc; by specialize (Hfb c Hc) as [? _]%orb_false_iff].
    assert (Ascii.eqb d ampersand = false) as ->; [|done].
    destruct (Ascii.eqb_spec d ampersand) as [->|]; [done|done].
  - intros c Hc. by specialize (Hfb c Hc) as [_ ?]%orb_false_iff.
Qed.

(** A stage that replaces a character leaves the text escaped, now for that
    character too. *)
Lemma escaped_replace forbidden x e s :
  (e, x) ∈ entities → x ≠ ampersand → hasChar x e = false → (∀ c, c ∈ forbidden → hasChar c e = false) →
  escaped forbidden s = true → escaped (x :: forbidden) (replaceOccurrences (String x EmptyString) e s) = true.
Proof.
  intros He Hx Hxe Hf. pose proof (replace_expander x e He Hx) as Hg.
  induction s as [|c s IH]; [done|]. cbn [escaped]. intros [[Hc Ha]%andb_true_iff Hs]%andb_true_iff.
  rewrite replace_char. destruct (Ascii.eqb_spec x c) as [->|Hne].
  - rewrite escaped_append; [auto|by exists c|]. intros d [->|Hd]%elem_of_cons; auto.
  - cbn [escaped existsb]. rewrite IH by done. rewrite Ascii.eqb_sym, (proj2 (Ascii.eqb_neq _ _) Hne).
    cbn [orb]. rewrite Hc. cbn [andb]. rewrite andb_true_r.
    destruct (Ascii.eqb_spec c ampersand) as [->|]; [|done]. cbn [negb orb] in *.
    by rewrite (startsEntity_expander _ Hg).
Qed.

Lemma escaped_ampersands s : escaped [] (escapeAmpersands s) = true.
Proof.
  induction s as [|c s IH]; [done|]. cbn [escapeAmpersands].
  destruct (Ascii.eqb_spec c ampersand) as [->|Hc]; cbn [andb].
  - destruct (startsEntity (String ampersand s)) eqn:E; cbn [negb].
    + cbn [escaped existsb negb andb]. by rewrite IH, (startsEntity_expander _ ampersands_expander), E, orb_true_r.
    + rewrite escaped_append; [done|exists ampersand; unfold entities; set_solver|set_solver].
  - cbn [escaped existsb negb andb]. by rewrite IH, (proj2 (Ascii.eqb_neq _ _) Hc).
Qed.

(** Escaped text is a fixed point. *)
Lemma escaped_fixed forbidden s : escaped forbidden s = true → escapeAmpersands s = s.
Proof.
  induction s as [|c s IH]; [done|]. cbn [escaped escapeAmpersands].
  intros [[_ Ha]%andb_true_iff Hs]%andb_true_iff. rewrite IH by done.
  destruct (Ascii.eqb c ampersand); [|done]. cbn in Ha. by rewrite Ha.
Qed.
Lemma escaped_replace_fixed forbidden x e s :
  escaped forbidden s = true → x ∈ forbidden → replaceOccurrences (String x EmptyString) e s = s.
Proof.
  intros Hs Hx. induction s as [|c s IH]; [done|]. rewrite replace_char.
  cbn [escaped] in Hs. apply andb_true_iff in Hs as [[Hc _]%andb_true_iff Hs]. rewrite IH by done.
  destruct (Ascii.eqb_spec x c) as [->|]; [|done]. exfalso. apply negb_true_iff, not_true_iff_false in Hc.
  apply Hc, existsb_exists. exists c. split; [by apply list_elem_of_In|apply Ascii.eqb_refl].
Qed.

Definition inText : list ascii := [">"; "<"].
Definition inAttribute : list ascii := [apostrophe; quotationMark; ">"; "<"].

Lemma text_escaped s : escaped inText (stringByEscapingAsXMLTextContent s) = true.
Proof.
  unfold stringByEscapingAsXMLTextContent. rewrite ampersands_char.
  apply escaped_replace; [unfold entities; set_solver|done|done|by intros c ->%list_elem_of_singleton|].
  apply escaped_replace; [unfold entities; set_solver|done|done|set_solver|]. apply escaped_ampersands.
Qed.
Lemma attribute_escaped s : escaped inAttribute (stringByEscapingAsXMLAttributeValue s) = true.
Proof.
  unfold stringByEscapingAsXMLAttributeValue.
  apply escaped_replace; [unfold entities; set_solver|done|done| |].
  { intros c. rewrite !elem_of_cons, elem_of_nil. intros; by destruct_or!; subst. }
  apply escaped_replace; [unfold entities; set_solver|done|done| |apply text_escaped].
  intros c. rewrite !elem_of_cons, elem_of_nil. intros; by destruct_or!; subst.
Qed.

Lemma text_fixed forbidden s : escaped forbidden s = true → inText ⊆ forbidden → stringByEscapingAsXMLTextContent s = s.
Proof.
  intros Hs Hf. unfold stringByEscapingAsXMLTextContent. rewrite ampersands_char, (escaped_fixed _ _ Hs).
  assert (">" ∈ forbidden ∧ "<" ∈ forbidden) as [Hg Hl] by (split; apply Hf; unfold inText; set_solver).
  by rewrite !(escaped_replace_fixed _ _ _ _ Hs).
Qed.

(** ** Plain text *)

(** No ampersand starts an entity. *)
Fixpoint literal (s : string) : bool :=
  match s with EmptyString => true | String _ s' => negb (startsEntity s) && literal s' end.

Definition entityOf (c : ascii) : string :=
  match List.find (λ e, Ascii.eqb e.2 c) entities with Some (e, _) => e | None => String c EmptyString end.

(** The characters of a text, the entities in the place of some. *)
Fixpoint withEntities (which : list ascii) (s : string) : string :=
  match s with
  | EmptyString => EmptyString
  | String c s' =>
      if existsb (Ascii.eqb c) which then String.append (entityOf c) (withEntities which s')
      else String c (withEntities which s')
  end.

Lemma ampersands_of_literal s : literal s = true → escapeAmpersands s = withEntities [ampersand] s.
Proof.
  induction s as [|c s IH]; [done|]. cbn [literal escapeAmpersands withEntities existsb].
  intros [Hc%negb_true_iff Hs]%andb_true_iff. rewrite (IH Hs), orb_false_r.
  destruct (Ascii.eqb_spec c ampersand) as [->|]; [|done]. by rewrite Hc.
Qed.

Lemma replace_append x rep a s :
  hasChar x a = false →
  replaceOccurrences (String x EmptyString) rep (String.append a s) =
  String.append a (replaceOccurrences (String x EmptyString) rep s).
Proof.
  induction a as [|c a IH]; [done|]. intros [Hc Ha]%orb_false_iff. rewrite !append_cons, replace_char, (IH Ha).
  by rewrite Ascii.eqb_sym in Hc; rewrite Hc || (rewrite Ascii.eqb_sym, Hc).
Qed.

Lemma replace_withEntities x which s :
  x ∉ which → (∀ c, c ∈ which → hasChar x (entityOf c) = false) →
  replaceOccurrences (String x EmptyString) (entityOf x) (withEntities which s) = withEntities (x :: which) s.
Proof.
  intros Hx Hent. induction s as [|c s IH]; [done|]. cbn [withEntities existsb].
  destruct (existsb (Ascii.eqb c) which) eqn:E.
  - rewrite orb_true_r. apply existsb_exists in E as (d & Hd%list_elem_of_In & <-%Ascii.eqb_eq).
    by rewrite replace_append, IH by auto.
  - rewrite orb_false_r, replace_char, IH, Ascii.eqb_sym. destruct (Ascii.eqb_spec c x) as [->|]; done.
Qed.

Lemma decode_literal s : literal s = true → decode s = map Character (String.list_ascii_of_string s).
Proof.
  induction s as [|c s IH]; [done|]. cbn [literal]. intros [Hc%negb_true_iff Hs]%andb_true_iff.
  unfold decode in *. cbn [decode_from]. rewrite Hc. unfold startsEntity in Hc. destruct (entityAt (String c s)); [done|].
  cbn. by rewrite (IH Hs).
Qed.

Lemma text_decodes s : decode (stringByEscapingAsXMLTextContent s) = decode s.
Proof.
  unfold stringByEscapingAsXMLTextContent. rewrite ampersands_char, !decode_expander; [done|apply ampersands_expander|..];
    (apply replace_expander; [unfold entities; set_solver|done]).
Qed.

Lemma attribute_decodes s : decode (stringByEscapingAsXMLAttributeValue s) = decode s.
Proof.
  unfold stringByEscapingAsXMLAttributeValue. rewrite 2!decode_expander; [apply text_decodes|..];
    (apply replace_expander; [unfold entities; set_solver|done]).
Qed.

Definition escapedInText : list ascii := [">"; "<"; ampersand].
Definition escapedInAttribute : list ascii := apostrophe :: quotationMark :: escapedInText.

Lemma text_withEntities s : literal s = true → stringByEscapingAsXMLTextContent s = withEntities escapedInText s.
Proof.
  intros Hs. unfold stringByEscapingAsXMLTextContent. rewrite ampersands_char, (ampersands_of_literal s Hs).
  rewrite (replace_withEntities "<" [ampersand]), (replace_withEntities ">" ["<"; ampersand]); [done|..].
  - intros H. rewrite !elem_of_cons, elem_of_nil in H. by destruct_or!.
  - intros c H. rewrite !elem_of_cons, elem_of_nil in H. by destruct_or!; subst.
  - intros H. rewrite !elem_of_cons, elem_of_nil in H. by destruct_or!.
  - intros c H. rewrite !elem_of_cons, elem_of_nil in H. by destruct_or!; subst.
Qed.

Lemma attribute_withEntities s :
  literal s = true → stringByEscapingAsXMLAttributeValue s = withEntities escapedInAttribute s.
Proof.
  intros Hs. unfold stringByEscapingAsXMLAttributeValue. rewrite (text_withEntities s Hs).
  rewrite (replace_withEntities quotationMark escapedInText), (replace_withEntities apostrophe (quotationMark :: escapedInText)); [done|..].
  - intros H. unfold escapedInText in H. rewrite !elem_of_cons, elem_of_nil in H. by destruct_or!.
  - intros c H. unfold escapedInText in H. rewrite !elem_of_cons, elem_of_nil in H. by destruct_or!; subst.
  - intros H. unfold escapedInText in H. rewrite !elem_of_cons, elem_of_nil in H. by destruct_or!.
  - intros c H. unfold escapedInText in H. rewrite !elem_of_cons, elem_of_nil in H. by destruct_or!; subst.
Qed.

(** C35 (roundtrip). Of a plain text, one in which no ampersand starts an entity, named or
    numeric: escaped as text content it has the entity of each ampersand and each angle
    bracket in the place of that character, and all else as it was; as an attribute value
    also those of the quotation marks and the apostrophes.  Escaping loses nothing: XML
    that is read again, each entity taken for its character, gives the very characters
    of the text.  The escaped text holds no character that ends the content or the value
    it is part of, and each of its ampersands starts an entity. *)
Theorem escaping_roundtrip s :
  literal s = true →
  let text := stringByEscapingAsXMLTextContent s in
  let attribute := stringByEscapingAsXMLAttributeValue s in
  let characters := map Character (String.list_ascii_of_string s) in
  (text = withEntities escapedInText s ∧ decode text = characters ∧ escaped inText text = true) ∧
  (attribute = withEntities escapedInAttribute s ∧ decode attribute = characters ∧ escaped inAttribute attribute = true).
Proof.
  intros Hs. cbn zeta. rewrite text_decodes, attribute_decodes, (decode_literal s Hs).
  split_and!; [by apply text_withEntities|done|apply text_escaped|by apply attribute_withEntities|done|apply attribute_escaped].
Qed.

Lemma escaping_roundtrip_witness :
  stringByEscapingAsXMLAttributeValue "Q&A; <b> & 'c' &#;"%string
    = "Q&amp;A; &lt;b&gt; &amp; &apos;c&apos; &amp;#;"%string.
Proof. destruct (escaping_roundtrip "Q&A; <b> & 'c' &#;"%string eq_refl) as [_ [-> _]]. reflexivity. Defined.

(** ** Text that holds entities

    Entities that are in a text already are left, the numeric ones as well. *)
Lemma entities_stay s :
  let text := stringByEscapingAsXMLTextContent s in
  let attribute := stringByEscapingAsXMLAttributeValue s in
  stringByEscapingAsXMLTextContent text = text ∧ stringByEscapingAsXMLAttributeValue attribute = attribute.
Proof.
  cbn zeta. split; [apply (text_fixed inText); [apply text_escaped|done]|].
  pose proof (attribute_escaped s) as Ha.
  unfold stringByEscapingAsXMLAttributeValue at 1. rewrite (text_fixed inAttribute); [|done|].
  - assert (quotationMark ∈ inAttribute ∧ apostrophe ∈ inAttribute) as [Hq Hp] by (split; [right; left|left]).
    by rewrite (escaped_replace_fixed _ _ _ _ Ha Hq), (escaped_replace_fixed _ _ _ _ Ha Hp).
  - intros c Hc. right. right. exact Hc.
Qed.

Example numeric_entity_stays : stringByEscapingUnescapedAmpersands "&#65;"%string = "&#65;"%string.
Proof. reflexivity. Qed.
End escapedText.
