(* ===== verification/XMLClasses.v ===== *)
(** * XML elements: attributes and the [class] attribute

    The attribute methods of src/FeatherAppKitExtensions/NSXMLElement+MPExtensions.m:
    the [class] attribute of HTML as a set of names, and searches by attribute. *)
From Stdlib Require Import Ascii.
From stdpp Require Import base tactics strings numbers list gmap.
From S2P Require Import Prelude ObjC Characters Collections XMLNodes XMLFilter.

Section attributes.
Local Open Scope string_scope.
Notation attributes := (list (string * string)).
Notation components := (componentsSeparatedByCharactersInSet whitespaceOrNewline).

(** [-attributeForName:], its [stringValue], and setting it *)
Definition attributeForName (self : attributes) (name : string) : option string :=
  snd <$> List.find (λ a, String.eqb a.1 name) self.
Fixpoint setStringValue (self : attributes) (name value : string) : attributes :=
  match self with
  | [] => []
  | a :: rest => if String.eqb a.1 name then (a.1, value) :: rest else a :: setStringValue rest name value
  end.

(* @src FeatherAppKitExtensions/NSXMLElement+MPExtensions.m 300 328 -[NSXMLElement addClass:] *)
Definition addClass (self : attributes) (klass : string) : bool * attributes :=
  let self := match attributeForName self "class" with Some _ => self | None => (self ++ [("class", "")])%list end in
  let classes := stringByTrimmingCharactersInSet whitespaceOrNewline (default "" (attributeForName self "class")) in
  if (String.length classes =? 0)%nat then (true, setStringValue self "class" klass)
  else if containsSubstring classes klass && existsb (String.eqb klass) (components classes) then (false, self)
  else (true, setStringValue self "class" (classes ++ " " ++ klass)).

(* @src FeatherAppKitExtensions/NSXMLElement+MPExtensions.m 330 340 -[NSXMLElement hasClass:] *)
Definition hasClass (self : attributes) (klass : string) : bool :=
  match attributeForName self "class" with
  | Some stringValue => existsb (String.eqb klass) (components stringValue)
  | None => false
  end.

(* @src FeatherAppKitExtensions/NSXMLElement+MPExtensions.m 342 345 -[NSXMLElement hasID] *)
Definition hasID (self : attributes) : bool :=
  (0 <? String.length (default "" (attributeForName self "id")))%nat.

(* @src FeatherAppKitExtensions/NSXMLElement+MPExtensions.m 347 360 -[NSXMLElement removeClass:] *)
Definition removeClass (self : attributes) (klass : string) : bool * attributes :=
  match attributeForName self "class" with
  | Some stringValue =>
      let classes := components stringValue in
      if existsb (String.eqb klass) classes
      then (true, setStringValue self "class"
                    (componentsJoinedBy " "%char (arrayByRemovingObject String.eqb classes klass)))
      else (false, self)
  | None => (false, self)
  end.

(* @src FeatherAppKitExtensions/NSXMLElement+MPExtensions.m 362 367 -[NSXMLElement setAttributeNamed:stringValue:] *)
Definition setAttributeNamed (self : attributes) (attributeName value : string) : attributes :=
  (List.filter (λ a, negb (String.eqb a.1 attributeName)) self ++ [(attributeName, value)])%list.

(* @src FeatherAppKitExtensions/NSXMLElement+MPExtensions.m 369 380 -[NSXMLElement setAttributesFromElement:] *)
Definition setAttributesFromElement (self sourceElement : attributes) : attributes :=
  map (λ a, (a.1, a.2)) sourceElement.

(* @src FeatherAppKitExtensions/NSXMLElement+MPExtensions.m 384 392 -[NSXMLElement hasID:] *)
Definition hasID_ (self : attributes) (ID : string) : bool :=
  match attributeForName self "id" with Some v => String.eqb v ID | None => false end.

(* @src FeatherAppKitExtensions/NSXMLElement+MPExtensions.m 394 402 -[NSXMLElement hasAttribute:value:] *)
Definition hasAttribute (self : attributes) (attributeName value : string) : bool :=
  match attributeForName self attributeName with Some v => String.eqb v value | None => false end.

(** ** Searches by attribute *)

(** [None] stands for [nil]: no matter. *)
Definition matchesAll (elementName ID klass : option string) (attributeValues : option attributes)
    (t : XMLNode) : bool :=
  match t with
  | XMLElement name attribs _ =>
      if negb (match elementName with None => true | Some n => String.eqb name n end) then false
      else if negb (match ID with None => true | Some i => hasID_ attribs i end) then false
      else if negb (match klass with None => true | Some k => hasClass attribs k end) then false
      else match attributeValues with
           | Some vs => forallb (λ kv, hasAttribute attribs kv.1 kv.2) vs
           | None => true
           end
  | _ => false
  end.
(* @src FeatherAppKitExtensions/NSXMLElement+MPExtensions.m 501 536 -[NSXMLElement findXMLElementByName:ID:class:attributeValues:] *)
Definition findXMLElementByName_ID_class_attributeValues (root : XMLNode) (self : position)
    (elementName ID klass : option string) (attributeValues : option attributes) : option position :=
  findXMLElementMatching root self
    (λ p, match nodeAt root p with Some t => matchesAll elementName ID klass attributeValues t | None => false end).

(* @src FeatherAppKitExtensions/NSXMLElement+MPExtensions.m 538 541 -[NSXMLElement findXMLElementByName:] *)
Definition findXMLElementByName root self elementName :=
  findXMLElementByName_ID_class_attributeValues root self (Some elementName) None None None.
(* @src FeatherAppKitExtensions/NSXMLElement+MPExtensions.m 550 553 -[NSXMLElement findXMLElementByID:] *)
Definition findXMLElementByID root self elementID :=
  findXMLElementByName_ID_class_attributeValues root self None (Some elementID) None None.
(* @src FeatherAppKitExtensions/NSXMLElement+MPExtensions.m 555 558 -[NSXMLElement findXMLElementByClass:] *)
Definition findXMLElementByClass root self klass :=
  findXMLElementByName_ID_class_attributeValues root self None None (Some klass) None.
(* @src FeatherAppKitExtensions/NSXMLElement+MPExtensions.m 567 570 -[NSXMLElement findXMLElementByAttributeValues:] *)
Definition findXMLElementByAttributeValues root self attributeValues :=
  findXMLElementByName_ID_class_attributeValues root self None None None (Some attributeValues).

(* @src FeatherAppKitExtensions/NSXMLElement+MPExtensions.m 543 548 -[NSXMLElement findXMLElementsByNames:] *)
Definition findXMLElementsByNames (root : XMLNode) (self : position) (elementNames : list string) : list position :=
  findXMLElementsPassing root self
    (λ p, (match nodeAt root p with
           | Some (XMLElement name _ _) => existsb (String.eqb name) elementNames
           | _ => false
           end, false)).
(* @src FeatherAppKitExtensions/NSXMLElement+MPExtensions.m 560 565 -[NSXMLElement findXMLElementsByClass:] *)
Definition findXMLElementsByClass (root : XMLNode) (self : position) (klass : string) : list position :=
  findXMLElementsPassing root self
    (λ p, (match nodeAt root p with
           | Some (XMLElement _ attribs _) => hasClass attribs klass
           | _ => false
           end, false)).
End attributes.

(** ** Class names

    The names a [class] attribute lists: what stands between white space. *)
Section classNames.
Local Open Scope string_scope.
Notation components := (componentsSeparatedByCharactersInSet whitespaceOrNewline).
Notation space := whitespaceOrNewline.

Definition classNames (self : list (string * string)) : list string :=
  names (default "" (attributeForName self "class")).

(** ** The attribute is set *)
Lemma attributeForName_set self name value :
  attributeForName self name ≠ None → attributeForName (setStringValue self name value) name = Some value.
Proof.
  unfold attributeForName. induction self as [|a self IH]; [done|]. cbn [List.find setStringValue].
  destruct (String.eqb a.1 name) eqn:E; intros H; cbn [List.find fst]; rewrite E; [done|by apply IH].
Qed.
Lemma attributeForName_set_other self name value n :
  n ≠ name → attributeForName (setStringValue self name value) n = attributeForName self n.
Proof.
  unfold attributeForName. intros Hn. induction self as [|a self IH]; [done|]. cbn [List.find setStringValue].
  destruct (String.eqb_spec a.1 name) as [E|]; cbn [List.find fst].
  - rewrite E. by destruct (String.eqb_spec name n) as [->|].
  - by destruct (String.eqb a.1 n).
Qed.
Lemma attributeForName_app self name value n :
  attributeForName (self ++ [(name, value)])%list n
  = match attributeForName self n with
    | Some v => Some v
    | None => if String.eqb name n then Some value else None
    end.
Proof.
  unfold attributeForName. induction self as [|a self IH]; cbn [List.find app fst]; [by destruct (String.eqb name n)|].
  by destruct (String.eqb a.1 n).
Qed.

Lemma hasClass_names self klass :
  isName klass = true → hasClass self klass = bool_decide (klass ∈ classNames self).
Proof.
  unfold isName, hasClass, classNames. intros [Hk _]%andb_true_iff.
  destruct (attributeForName self "class"); [by apply name_component|done].
Qed.

(** [+addClass:] once the attribute is there *)
Lemma addClass_run self klass value :
  isName klass = true → attributeForName self "class" = Some value →
  let r := addClass self klass in
  r.1 = bool_decide (klass ∉ names value) ∧
  classNames r.2 = (if r.1 then names value ++ [klass] else names value)%list ∧
  ∀ n, n ≠ "class" → attributeForName r.2 n = attributeForName self n.
Proof.
  intros Hname Hval. pose proof Hname as Hname'. unfold isName in Hname'.
  apply andb_true_iff in Hname' as [Hne Hsp%negb_true_iff]. cbn zeta. unfold addClass. rewrite !Hval.
  cbn [default from_option id]. rewrite <- (names_trimmed value). set (classes := stringByTrimmingCharactersInSet _ _).
  assert (attributeForName self "class" ≠ None) as Hsome by congruence.
  destruct (String.length classes =? 0)%nat eqn:El.
  - apply Nat.eqb_eq in El. destruct classes as [|c s'] eqn:Ec; [|done].
    cbn [fst snd]. unfold classNames. rewrite attributeForName_set by done. cbn [default from_option id].
    rewrite (names_word klass) by done. change (names "") with (@nil string).
    split; [by rewrite bool_decide_eq_true_2 by set_solver|]. split; [done|]. intros n Hn. by apply attributeForName_set_other.
  - destruct (existsb (String.eqb klass) (components classes)) eqn:Ein.
    + assert (containsSubstring classes klass = true) as ->.
      { unfold containsSubstring. unfold nonempty in Hne. apply negb_true_iff in Hne. rewrite Hne.
        apply component_occurs; [|by apply String.eqb_neq].
        apply existsb_exists in Ein as (x & Hx & ->%String.eqb_eq). by apply list_elem_of_In. }
      rewrite name_component in Ein by done. apply bool_decide_eq_true in Ein. cbn [andb fst snd].
      unfold classNames. rewrite Hval. cbn [default from_option id]. rewrite <- (names_trimmed value).
      split; [by rewrite bool_decide_eq_false_2 by naive_solver|done].
    + rewrite name_component in Ein by done. apply bool_decide_eq_false in Ein. rewrite andb_false_r. cbn [fst snd].
      unfold classNames. rewrite attributeForName_set by done. cbn [default from_option id].
      change (" " ++ klass) with (String " "%char klass). rewrite names_app, (names_word klass) by done.
      split; [by rewrite bool_decide_eq_true_2|]. split; [done|]. intros n Hn. by apply attributeForName_set_other.
Qed.

Lemma removeClass_run self klass :
  isName klass = true →
  let r := removeClass self klass in
  r.1 = bool_decide (klass ∈ classNames self) ∧
  classNames r.2 = List.filter (λ k, negb (String.eqb klass k)) (classNames self) ∧
  ∀ n, n ≠ "class" → attributeForName r.2 n = attributeForName self n.
Proof.
  intros Hname. pose proof Hname as Hname'. unfold isName in Hname'. apply andb_true_iff in Hname' as [Hne _].
  cbn zeta. unfold removeClass, classNames.
  destruct (attributeForName self "class") as [value|] eqn:E; cbn [default from_option id fst snd]; [|by rewrite E].
  rewrite name_component by done. destruct (bool_decide (klass ∈ names value)) eqn:Ed; cbn [fst snd].
  - rewrite attributeForName_set by congruence. cbn [default from_option id].
    rewrite names_joined; [|by apply Forall_filter_bool, components_words].
    split; [done|]. split; [|intros n Hn; by apply attributeForName_set_other].
    unfold names, arrayByRemovingObject, removeObject.
    induction (components value) as [|w ws IH]; [done|]. cbn [List.filter].
    destruct (nonempty w) eqn:En, (String.eqb klass w) eqn:Ek; cbn [negb List.filter];
      rewrite ?En, ?Ek; cbn [negb]; by rewrite ?IH.
  - rewrite E. split; [done|]. split; [|done]. cbn [default from_option id]. symmetry. apply filter_bool_id.
    intros k Hk. apply negb_true_iff, String.eqb_neq. intros <-. apply bool_decide_eq_false in Ed. done.
Qed.

(** The [class] attribute is a set of names.  For a name - not
    empty, without white space - [-addClass:] answers YES exactly if the element
    did not have the class, which is then the last of its classes;
    [-removeClass:] answers YES exactly if it had it, and takes every mention of
    it out; [-hasClass:] tells.  The other classes stay, in their order, whatever
    white space parts them, and so do the other attributes. *)
Theorem class_attribute_is_a_set self klass :
  isName klass = true →
  let added := addClass self klass in
  let removed := removeClass self klass in
  hasClass self klass = bool_decide (klass ∈ classNames self) ∧
  added.1 = negb (hasClass self klass) ∧ hasClass added.2 klass = true ∧
  classNames added.2 = (if hasClass self klass then classNames self else classNames self ++ [klass])%list ∧
  removed.1 = hasClass self klass ∧ hasClass removed.2 klass = false ∧
  classNames removed.2 = List.filter (λ k, negb (String.eqb klass k)) (classNames self) ∧
  ∀ n, n ≠ "class" → attributeForName added.2 n = attributeForName self n ∧
                     attributeForName removed.2 n = attributeForName self n.
Proof.
  intros Hname. cbn zeta. rewrite !hasClass_names by done.
  set (self' := match attributeForName self "class" with Some _ => self | None => (self ++ [("class", "")])%list end).
  assert (addClass self klass = addClass self' klass) as ->.
  { unfold addClass, self'. cbn zeta. destruct (attributeForName self "class") eqn:E; [by rewrite !E|].
    rewrite !attributeForName_app, !E, String.eqb_refl. rewrite ?attributeForName_app, ?E. reflexivity. }
  assert (∃ value, attributeForName self' "class" = Some value ∧ names value = classNames self) as (value & Hval & Hcn).
  { unfold self', classNames. destruct (attributeForName self "class") as [v|] eqn:E; [by exists v|].
    exists "". by rewrite attributeForName_app, E. }
  assert (∀ n, n ≠ "class" → attributeForName self' n = attributeForName self n) as Hother.
  { intros n Hn. unfold self'. destruct (attributeForName self "class"); [done|]. rewrite attributeForName_app.
    destruct (attributeForName self n); [done|]. by destruct (String.eqb_spec "class" n) as [<-|]. }
  destruct (addClass_run self' klass value Hname Hval) as (Hr & Hc & Ho). rewrite Hcn in Hr, Hc.
  assert (added_has : klass ∈ classNames (addClass self' klass).2).
  { rewrite Hc, Hr. case_bool_decide as Hd; [apply elem_of_app; right; by left|done]. }
  assert ((removeClass self klass).1 = bool_decide (klass ∈ classNames self) ∧
    classNames (removeClass self klass).2 = List.filter (λ k, negb (String.eqb klass k)) (classNames self) ∧
    ∀ n, n ≠ "class" → attributeForName (removeClass self klass).2 n = attributeForName self n) as (Hr1 & Hr2 & Hr3).
  { apply removeClass_run. done. }
  split; [done|]. split; [|split; [by apply bool_decide_eq_true_2|split; [|split; [done|split; [|split; [done|]]]]]].
  - rewrite Hr. apply bool_decide_not.
  - rewrite Hc, Hr, bool_decide_not. by destruct (bool_decide (klass ∈ classNames self)).
  - apply bool_decide_eq_false_2. rewrite Hr2, filter_bool_elem, negb_true_iff. intros [_ E].
    by rewrite String.eqb_refl in E.
  - intros n Hn. split; [by rewrite Ho, Hother|by apply Hr3].
Qed.
End classNames.

Lemma class_attribute_is_a_set_witness :
  let self := [("class"%string, " note  wide"%string); ("id"%string, "x"%string)] in
  (addClass self "narrow").1 = true ∧ classNames (addClass self "narrow").2 = ["note"; "wide"; "narrow"]%string ∧
  classNames (removeClass self "note").2 = ["wide"]%string.
Proof.
  cbn zeta.
  destruct (class_attribute_is_a_set [("class"%string, " note  wide"%string); ("id"%string, "x"%string)] "narrow" eq_refl)
    as (_ & Ha & _ & Hc & _).
  destruct (class_attribute_is_a_set [("class"%string, " note  wide"%string); ("id"%string, "x"%string)] "note" eq_refl)
    as (_ & _ & _ & _ & _ & _ & Hr & _).
  split; [rewrite Ha; reflexivity|]. split; [rewrite Hc; reflexivity|rewrite Hr; reflexivity].
Defined.
